(* ===== verification/_CoqProject ===== *)
-Q . S2P
Prelude.v
Machine.v
Board.v
Regs.v
Clock.v
Stopwatch.v
Wdt.v
Timeout.v
Usart.v
Gf2.v
Trellis.v
ChannelDecoder.v
ChannelCode.v
ChannelErrors.v
Crc.v
Lz4.v
Preloader.v
Smbus.v
I2cV2.v
I2cV1.v
IoBridge.v
T0.v
SimReader.v
SimHost.v
SimCard.v
SimT0.v
Eeprom.v
EepromTable.v
EepromImage.v
TestLib.v
I2cDriver.v
I2cFifo.v
I2cTime.v
I2cTransfer.v
I2cSmbus.v
SimApdu.v
SimDecode.v
SimDigits.v
ApduT0.v
EepromTest.v
Cfi.v
FlashRw.v
GsmRegs.v
GsmChannel.v
GsmTrx.v
GsmCalib.v
GsmCorrections.v
Dsp.v
DspContainer.v
GsmBoard.v
GsmLoad.v
GsmState.v
GsmL1.v
GsmFrame.v
GsmSelect.v
GsmQuiet.v
GsmScan.v
GsmControl.v
GsmWait.v
GsmReady.v
GsmTimed.v
GsmSearch.v
GsmDecode.v
GsmSurvey.v
GsmProgram.v
GsmLimits.v
