(* ===== verification/Prelude.v ===== *)
(** * pmb887x-dev: verification library

    The repository is a toolbox for the PMB8875/PMB8876 baseband chips of Siemens phones: a
    small hardware library for bare-metal C programs ([src/lib]), a pre-loader that a host
    drives over the serial port ([src/preloader]), an I/O bridge to an emulator
    ([src/io_bridge]), a smart-card reader ([src/apps/sim-reader]) and unit tests of the
    hardware ([src/unit]).  This library models the C code that has logic of its own and
    proves what makes it correct.

    ** The model

    A C function is a function of the monad [M D A] ([Machine]): from the fuel of its loops
    and a [world] to an [outcome].  A world is a device, memory (bytes by address), the log of
    all register accesses, the static variables of [lib/] ([lib_state]) and those of the
    program ([A]).  Registers are outside of the sources, so the device is a parameter, a
    type [D] with a read and a write function ([Device]), and each theorem either holds for
    every device or names what it needs of it as a class:
    - [StmTimer] ([Stopwatch]): the system timer moves forward, by a bounded amount per access;
    - [UsartLine] ([Usart]): bytes go in and out of the serial FIFOs in order;
    - [I2cHw] ([Smbus]): what [lib/i2c.c] relies on of a controller driver; [I2cV1] and [I2cV2]
      are its instances, the two drivers of the repository;
    - [CacheClean] ([Preloader]): the cache maintenance instructions keep memory;
    - [Printing] ([TestLib]): the third-party [printf] sends the bytes of its message.
    [Board] holds the preprocessor's choices (chip, watchdog pin, PMIC); theorems cover all.

    Integers are [Z] with the wrap of their C type written where the code can exceed it ([u8],
    [u16], [u32], [u64]; [Prelude]).  C objects whose address is taken live in slots of
    negative addresses ([LOCAL]); an access outside of an object, a division by zero, the
    exhaustion of the fuel and a jump out of the program are the [Stop]s of an outcome, so
    a total-correctness theorem excludes them.  Every loop gets the whole fuel [f] for its
    own iterations.  A theorem that says a run returns has a lower bound on [f]: the
    length of the input, the poll limits that the code itself has (10^6 for I2C and flash),
    or how long the line may keep the program waiting ([line_patience]); a theorem about an
    endless main loop is about every prefix of its run.

    ** Programs and files

    - [Prelude], [Machine], [Board], [Regs]: integers, tactics; the monad, weakest
      preconditions ([wp], with the hint database and [wp_steps]), footprints ([uses]), byte
      ranges of memory ([mem_at]); the build; the registers of [lib/gen] that the code uses.
    - [Clock]: [lib/cpu.c], the clock getters, and [unit/cgu/clock.c], the setters.  C16: the
      getters compute the clock tree exactly, without overflow or division by zero;
      [cgu_ahb_select_get], [cgu_phase_set_divider_get]: a setter and its getter agree.
    - [Stopwatch]: [lib/stopwatch.c].  [stopwatch_usleep_bounds]: sleeps are long enough and not much longer; [stopwatch_get_value]: the
      two-register time stamp and the interleaving in which it is wrong.
    - [Wdt]: [lib/wdt.c], [lib/gpio.h], the masks of [lib/cpu.h].  [cpu_wdt_reload_timeout]: the reload value covers the
      requested time; C17: every access keeps the password protocol, and
      a service writes back the reload value that it read.
    - [Timeout]: the loops that wait with a timeout, [while (... && stopwatch_elapsed_ms(start) < ms)]: they
      are over in time unless the timer's low word wraps meanwhile, and not before.
    - [Usart]: [lib/usart.c].  [usart_echo]: what is written is read back; [usart_set_speed_accurate]: the baud rate's error.
    - [Gf2]: polynomials over two elements and their long division, for the check bytes.
    - [Trellis], [ChannelDecoder], [ChannelCode], [ChannelErrors]: [unit/dsp/lle/channel-decoder-vectors.c], the model that
      the DSP's channel decoder is tested against.  C6: its add-compare-select steps, on 16-bit
      metrics, find the best path of the code's trellis; C5: it corrects what costs less than
      the code's free distance; [trace_round_trip], [golden_tables]: the trace words and the test's tables.
    - [Crc], [Lz4], [Preloader]: [preloader/src].  C1, C2: the CRC is the
      remainder of the message polynomial and finds every change within four bytes (and
      [crc32_residue]: it leaves its residue); C3, C4: the decompressor accepts exactly the
      blocks of the format, in bounds, and inverts an encoder; C12: a session of requests
      answers and changes memory as the abstract protocol says, and has waited for its answers to
      leave the transmitter when it jumps; [init_extram_window]: the window of
      the external RAM.
    - [Smbus], [I2cV2], [I2cV1]: [lib/i2c.c], [lib/pmb681x.c] and the two controllers.  C18: the check byte is
      the remainder of the transfer and finds every changed byte; [pmb681x_reg_write_confirmed]: a PMIC write is believed
      only when confirmed; [i2c_v2_write_words]: the words of a write are its bytes; [i2c_v2_read_safe], C19: transfers stay in
      bounds, on any bus.
    - [I2cDriver], [I2cFifo], [I2cTime], [I2cTransfer], [I2cSmbus]: [unit/i2c-v2/driver.c], the interrupt-driven
      driver of the controller's tests; its FIFO words ([carries_unpack]), its timeouts and its transfers.
      The interrupts of the device ([pending]) are taken between any two statements of the program.  C20:
      whatever comes and whenever, a transfer that begins at rest ends, stays in its buffer and
      carries every byte once; [fifo_race]: but for interrupts while the program fills the FIFO itself, and
      [late_interrupt]: a transfer that timed out is not given up.  C21: a polled read
      ends, is exact and restores the controller's configuration; [pec_agrees]: its check byte is the library's.
      Of the DMA transfers, whose words the controller moves, there are no theorems.
    - [IoBridge]: [io_bridge/main.c].  [bridge_read_command], [bridge_write_command]: the host reads and writes registers exactly once,
      at their width, inside and outside of interrupts.
    - [T0]: the T=0 protocol of ISO 7816-3, as an inductive relation between what a card sends
      and what a terminal sends and returns; the two programs below implement it.
    - [SimReader] (the program), [SimHost] (its host), [SimCard] and [SimT0] (its card):
      [apps/sim-reader/main.c].  C13: the main loop implements an abstract CCID reader; [ccid_frame_check]: damaged
      frames are refused; C24, [exchange_bounds]: no host, card or bus makes it leave its buffers, but
      one PPS length does ([pps_overflow]); [fidi_brf]: the baud-rate factors; C14: every successful exchange
      is one of [t0].
    - [SimApdu], [SimDecode], [ApduT0], [SimDigits]: [unit/sim/test-card.c], the driver of the
      card tests, the commands of GSM 11.11 and the parsers of their responses.  C15:
      every command that is done is one of [t0]; C22: the check digit of a card's number finds
      single errors and swaps; C23: the identity is read back from its encoding;
      [elements_found]: the search of a proactive command's element ends, stays in the
      response and finds the first one; [rates_agree]: the tests and the reader choose the same rates.
    - [Eeprom], [EepromTable], [EepromImage], [EepromTest]: [unit/eeprom.c] and [unit/eeprom/test.c].  C25: the
      parser survives any flash contents and returns blocks inside of it; C31: the search of a
      table is a lookup in a list of entries; C26: an entry that was written is
      decoded; C32: the unit test passes.
    - [TestLib]: [unit/test.c].  C27: a test program's output is a well-formed TAP report whose verdict
      is right; [fault_field_prints]: the fault printer.
    - [Cfi], [FlashRw]: [unit/cfi-intel/cfi.c] and [rw.c].  C28: sequences of flash operations are legal
      for the command interface and end in read mode; C29: the search finds an erased block if there is one;
      C30: the test program writes to its block only, wherever it stops.
    - [Dsp], [DspContainer]: [unit/dsp/dsp-hw.c], [dsp-container.h], [runtime.c] and
      [hle/user-rom.c], the boot protocol of the signal processor and its command pipes.
      C33: whatever the bytes of an image, the loader sends exactly the blocks
      before the first record that is bad, the branch if it is to and all of them are good, and reads
      nothing outside of the image.
    - [GsmRegs], [GsmChannel], [GsmTrx], [GsmCalib], [GsmCorrections], [GsmBoard], [GsmLoad]: the
      GSM receiver [unit/dsp/hle/gsm-l1], its board file [siemens-x85.c] and its transceiver
      [hd155153np.c].  C38: whatever the EEPROM holds, the loaders stay in bounds and
      accept only calibrations that the arithmetic is total on; C39: the gain control keeps to
      the transceiver's states and corrects the measured deviation; C40: the curve of
      the frequency DAC is interpolated monotonically and exactly at its points;
      [channel_record_loaded]: the corrections between the record's channels are the straight line's;
      [scan_finds_calibration]: they are stored where the scan looks, but for one channel.
    - [GsmState], [GsmL1]: the layer 1 of the receiver, [gsm-l1/gsm-l1.c]: its static variables
      and all of its functions.  The interrupt of the time processor, [gsm_l1_tpu_irq], is an
      operation like the others; theorems about the foreground take it as the program's
      [runtime_poll], so that it comes between two steps of every wait.  Operations without
      theorems of their own are what these run.
      - [GsmSelect], [GsmFrame]: the selection of the candidates ([candidates_selected]) and
        C37: the frame number of a synchronisation burst is the one the
        network sent.
      - [GsmQuiet], [GsmScan], [GsmControl]: the invariant [sound] of the statics, the part of
        the interrupt that is output, and its state machines as a step relation ([frame_step]);
        C10: the interrupt is total, keeps the invariant and makes one step.
      - [GsmWait], [GsmTimed], [GsmReady], [GsmSearch], [GsmSurvey], [GsmDecode]: the foreground, proved for any poll with a
        frame at each ([Polling]).  C34: the
        initialization establishes the invariant; C7: a scan ends after at most 4206 frames with
        eight measurements of every channel and the best candidates; C8: a search
        ends with its timeout, whatever the DSP does, after at most twelve windows with a result that
        is right, and fails only if its time is over or the DSP refused a command; C11:
        a reception ends with its timeouts, whatever the DSP does.
      - [GsmLimits]: C36: no command is lost between the interrupt and the foreground; and
        three states that the code does not leave ([refinement_goes_on],
        [search_led_astray], [scan_does_not_begin]).
    - [GsmProgram]: [unit/dsp/hle/gsm-channel-scan.c], the program around the receiver, with its
      interrupt handler; [zoom] runs the receiver's and the unit-test library's operations on their parts
      of its variables.  C9: the stages fit together, from the scan to the probe;
      C35: the last stage ends; [scan_verdict]: the program reports success only if it
      found a base station.

    Calls go down this list: the programs call [TestLib], [Usart], [Wdt] and [Smbus], these the
    clocks and timers.  A client's theorems use the interface classes and the [wp] lemmas of the
    files it requires, never their definitions' bodies.

    ** Conventions

    Static and automatic variables that are arrays have a slot; scalars are arguments and results,
    or fields of the program's record.  A loop with [break] or [return] is [iter], [for_limit] or
    [foldE], a loop over a fixed range is [foldM].  Part of a C function that is a loop's body
    or a repeated statement has a name of its own and is mapped to its lines.  A
    [volatile] access to flash or to a register is an access to the device; [memcpy] from
    flash reads byte by byte.  An uninitialised [struct eeprom_block] is taken as zeros
    (the parser does not read what it did not write).  Fields of structures that no
    modelled function reads are left out.

    ** Not modelled

    Assembly (start-up code, exception entry, [setjmp] recovery of the tests, boot code), linker
    scripts, generated tables and headers apart from the registers in [Regs], host programs in
    other languages, the third-party [printf], [examples/], and the unit tests that are lists of
    register comparisons (the card's latencies and its DMA transfers, the DSP's instructions, what the channel decoder's test reads back from the hardware, display, timers and other peripherals): what they compare
    with is the hardware, of which the repository has no description to prove against. *)
From Stdlib Require Export ZArith Lia.
From stdpp Require Export base decidable numbers list list_numbers gmap strings.

#[global] Open Scope Z_scope.

(** ** Machine-width integers

    A C [uintN_t] is a [Z] in [0 <= x < 2^N]; an operation that may leave that
    range is followed by the wrap of its width. *)
Definition u8 (x : Z) : Z := x mod 0x100.
Definition u16 (x : Z) : Z := x mod 0x10000.
Definition u32 (x : Z) : Z := x mod 0x100000000.
Definition u64 (x : Z) : Z := x mod 0x10000000000000000.

Declare Scope c_scope.
Delimit Scope c_scope with c.
Notation "a .& b" := (Z.land a b) (at level 40, left associativity) : c_scope.
Notation "a .| b" := (Z.lor a b) (at level 50, left associativity) : c_scope.
Notation "a .^ b" := (Z.lxor a b) (at level 50, left associativity) : c_scope.
Notation "a .<< n" := (Z.shiftl a n) (at level 39, left associativity) : c_scope.
Notation "a .>> n" := (Z.shiftr a n) (at level 39, left associativity) : c_scope.
Notation "a '==?' b" := (Z.eqb a b) (at level 70) : c_scope.
Notation "a '!=?' b" := (negb (Z.eqb a b)) (at level 70) : c_scope.
#[global] Open Scope c_scope.

(** The conversions to the signed types. *)
Definition i8 (x : Z) : Z := if u8 x <? 0x80 then u8 x else u8 x - 0x100.
Definition i16 (x : Z) : Z := if u16 x <? 0x8000 then u16 x else u16 x - 0x10000.
Definition i32 (x : Z) : Z := if u32 x <? 0x80000000 then u32 x else u32 x - 0x100000000.

(** [~x] on [uint32_t] and on [uint8_t] (after the conversion back). *)
Definition not32 (x : Z) : Z := u32 (Z.lnot x).
Definition not8 (x : Z) : Z := u8 (Z.lnot x).
(** [BIT(n)] and [GENMASK(h, l)] of [lib/bitops.h]. *)
Definition BIT (n : Z) : Z := u32 (1 .<< n).
Definition GENMASK (h l : Z) : Z :=
  Z.land (u32 (not32 0 - u32 (1 .<< l) + 1)) (not32 0 .>> (32 - 1 - h)).
(** [MIN] of [lib/pmb887x.h]. *)
Definition MIN (a b : Z) : Z := if a <? b then a else b.

(** Little-endian bytes of a word, and the word of little-endian bytes. *)
Fixpoint le_bytes (n : nat) (x : Z) : list Z :=
  match n with O => [] | S n => u8 x :: le_bytes n (x .>> 8) end.
Fixpoint le_word (bs : list Z) : Z :=
  match bs with [] => 0 | b :: bs => b + 0x100 * le_word bs end.

Definition is_byte (x : Z) : Prop := 0 <= x < 0x100.
Definition is_u32 (x : Z) : Prop := 0 <= x < 0x100000000.
Definition is_u64 (x : Z) : Prop := 0 <= x < 0x10000000000000000.
Abbreviation bytes_ok := (Forall is_byte).

#[export] Instance is_byte_dec x : Decision (is_byte x).
Proof. unfold is_byte. apply _. Defined.
#[export] Instance is_u32_dec x : Decision (is_u32 x).
Proof. unfold is_u32. apply _. Defined.

Lemma i8_range x : -0x80 <= i8 x < 0x80.
Proof. unfold i8, u8. destruct (Z.ltb_spec (x mod 0x100) 0x80); Z.div_mod_to_equations; lia. Qed.
Lemma i16_range x : -0x8000 <= i16 x < 0x8000.
Proof. unfold i16, u16. destruct (Z.ltb_spec (x mod 0x10000) 0x8000); Z.div_mod_to_equations; lia. Qed.
Lemma i8_small x : -0x80 <= x < 0x80 -> i8 x = x.
Proof. intros H. unfold i8, u8. destruct (Z.ltb_spec (x mod 0x100) 0x80); Z.div_mod_to_equations; lia. Qed.
Lemma i16_small x : -0x8000 <= x < 0x8000 -> i16 x = x.
Proof. intros H. unfold i16, u16. destruct (Z.ltb_spec (x mod 0x10000) 0x8000); Z.div_mod_to_equations; lia. Qed.
Lemma i32_small x : -0x80000000 <= x < 0x80000000 -> i32 x = x.
Proof. intros H. unfold i32, u32. destruct (Z.ltb_spec (x mod 0x100000000) 0x80000000); Z.div_mod_to_equations; lia. Qed.

(** ** Tactics *)

(** Linear arithmetic over wrapped expressions. *)
Ltac unfold_widths := unfold is_byte, is_u32, is_u64, u8, u16, u32, u64 in *.
Ltac ulia := unfold_widths; Z.div_mod_to_equations; lia.

(** Case analysis on the boolean comparisons of the C conditions. *)
Ltac zcases :=
  repeat match goal with
  | |- context [Z.eqb ?a ?b] => destruct (Z.eqb_spec a b)
  | |- context [Z.ltb ?a ?b] => destruct (Z.ltb_spec a b)
  | |- context [Z.leb ?a ?b] => destruct (Z.leb_spec a b)
  end; simpl negb; simpl andb; simpl orb.

(** Compute the bitwise operations on constants. *)
Ltac ground t :=
  lazymatch t with
  | Z0 => idtac | Zpos _ => idtac | Zneg _ => idtac
  | Z.land ?a ?b => ground a; ground b
  | Z.lor ?a ?b => ground a; ground b
  | not32 ?a => ground a
  | _ => is_const t
  end.
Ltac fold_const t := ground t; let v := eval vm_compute in t in change t with v.
Ltac fold_consts :=
  repeat match goal with
  | |- context [Z.land ?a ?b] => fold_const (Z.land a b)
  | |- context [Z.lor ?a ?b] => fold_const (Z.lor a b)
  | |- context [not32 ?a] => fold_const (not32 a)
  end.

Create HintDb width discriminated.

(** ** Widths *)
Lemma u8_range x : is_byte (u8 x). Proof. ulia. Qed.
Lemma u16_range x : 0 <= u16 x < 0x10000. Proof. ulia. Qed.
Lemma u32_range x : is_u32 (u32 x). Proof. ulia. Qed.
Lemma u64_range x : is_u64 (u64 x). Proof. ulia. Qed.
Lemma u8_small x : is_byte x -> u8 x = x.
Proof. intros H. apply Z.mod_small. exact H. Qed.
Lemma u32_small x : is_u32 x -> u32 x = x.
Proof. intros H. apply Z.mod_small. exact H. Qed.
Lemma u64_small x : is_u64 x -> u64 x = x.
Proof. intros H. apply Z.mod_small. exact H. Qed.
#[export] Hint Resolve u8_range u16_range u32_range u64_range : width.

Lemma land_ones_u8 x : Z.land x 0xFF = u8 x.
Proof. change 0xFF with (Z.ones 8). rewrite Z.land_ones by lia. reflexivity. Qed.
Lemma land_ones_u32 x : Z.land x 0xFFFFFFFF = u32 x.
Proof. change 0xFFFFFFFF with (Z.ones 32). rewrite Z.land_ones by lia. reflexivity. Qed.

(** A number below [2^n] has no bit from [n] on, and conversely. *)
Lemma bits_above n x : 0 <= n -> 0 <= x < 2 ^ n -> forall i, n <= i -> Z.testbit x i = false.
Proof.
  intros Hn Hx i Hi. rewrite <- (Z.mod_small x (2 ^ n)) by lia.
  apply Z.mod_pow2_bits_high. lia.
Qed.
Lemma below_pow2 n x :
  0 <= n -> 0 <= x -> (forall i, n <= i -> Z.testbit x i = false) -> x < 2 ^ n.
Proof.
  intros Hn Hx Hb. destruct (Z.eq_dec x 0) as [->|Hne]; [lia|].
  apply Z.log2_lt_pow2; [lia|]. destruct (Z.lt_ge_cases (Z.log2 x) n) as [|Hge]; [done|].
  specialize (Hb _ Hge). rewrite Z.bit_log2 in Hb by lia. done.
Qed.
Lemma lor_range n a b :
  0 <= n -> 0 <= a < 2 ^ n -> 0 <= b < 2 ^ n -> 0 <= Z.lor a b < 2 ^ n.
Proof.
  intros Hn Ha Hb. split; [apply Z.lor_nonneg; lia|]. apply below_pow2; [lia|apply Z.lor_nonneg; lia|].
  intros i Hi. rewrite Z.lor_spec, (bits_above n a), (bits_above n b) by lia. done.
Qed.
Lemma lxor_range n a b :
  0 <= n -> 0 <= a < 2 ^ n -> 0 <= b < 2 ^ n -> 0 <= Z.lxor a b < 2 ^ n.
Proof.
  intros Hn Ha Hb.
  assert (0 <= Z.lxor a b) by (apply Z.lxor_nonneg; lia).
  split; [done|]. apply below_pow2; [lia|done|].
  intros i Hi. rewrite Z.lxor_spec, (bits_above n a), (bits_above n b) by lia. done.
Qed.
Lemma land_range_r a b : 0 <= b -> 0 <= Z.land a b <= b.
Proof.
  intros Hb. assert (0 <= Z.land a b) by (apply Z.land_nonneg; lia). split; [done|].
  assert (b - Z.land a b = Z.ldiff b (Z.land a b)) as E.
  { apply Z.sub_nocarry_ldiff, Z.bits_inj'. intros i Hi.
    rewrite Z.ldiff_spec, Z.land_spec, Z.testbit_0_l. by destruct (Z.testbit a i), (Z.testbit b i). }
  assert (0 <= Z.ldiff b (Z.land a b)) by (apply Z.ldiff_nonneg; lia). lia.
Qed.

(** Putting a number above the bits of another. *)
Lemma lor_shiftl_add v b n : 0 <= n -> 0 <= v < 2 ^ n -> (v .| (b .<< n)) = v + b * 2 ^ n.
Proof.
  intros Hn Hv. rewrite Z.shiftl_mul_pow2 by done. rewrite <- Z.add_nocarry_lor; [done|].
  apply Z.bits_inj'. intros i Hi. rewrite Z.land_spec, Z.testbit_0_l. destruct (Z.lt_ge_cases i n).
  - rewrite Z.mul_pow2_bits_low by lia. apply andb_false_r.
  - rewrite (bits_above n v) by lia. done.
Qed.
Lemma le_word_snoc bs b : le_word (bs ++ [b]) = le_word bs + b * 2 ^ (8 * Z.of_nat (length bs)).
Proof.
  induction bs as [|c bs IH]; simpl le_word; [simpl; lia|]. rewrite IH. simpl length.
  replace (8 * Z.of_nat (S (length bs))) with (8 + 8 * Z.of_nat (length bs)) by lia.
  rewrite Z.pow_add_r by lia. change (2 ^ 8) with 0x100. lia.
Qed.

(** A [mapM] whose every step succeeds. *)
Lemma mapM_total {X Y} (f : X -> option Y) (P : Y -> Prop) l : Forall (fun x => exists y, f x = Some y /\ P y) l ->
  exists k, mapM f l = Some k /\ Forall P k /\ length k = length l.
Proof.
  induction 1 as [|x l (y & Ey & Py) _ (k & Ek & Pk & Lk)]; [by exists []|].
  exists (y :: k). simpl. rewrite Ey, Ek. simpl. split; [done|]. split; [by constructor|lia].
Qed.

(** Bytes, checked by computation. *)
Lemma bytes_ok_b bs : forallb (fun b => (0 <=? b) && (b <? 0x100)) bs = true -> bytes_ok bs.
Proof.
  intros H. apply Forall_forall. intros b Hb%list_elem_of_In. rewrite forallb_forall in H.
  specialize (H b Hb). unfold is_byte. lia.
Qed.
Ltac bytes_tac := apply bytes_ok_b; vm_compute; reflexivity.

(** ** Arrays *)
(** An element of an array; [None] outside of it. *)
Definition elem {X} (l : list X) (i : Z) : option X := if i <? 0 then None else l !! Z.to_nat i.
Lemma elem_some {X} (l : list X) i : 0 <= i < Z.of_nat (length l) -> exists x, elem l i = Some x /\ x ∈ l.
Proof.
  intros Hi. unfold elem. destruct (Z.ltb_spec i 0); [lia|]. destruct (lookup_lt_is_Some_2 l (Z.to_nat i)) as [x Hx]; [lia|].
  exists x. split; [done|]. by eapply list_elem_of_lookup_2.
Qed.
