(* ===== verification/Machine.v ===== *)
(** * The machine the firmware runs on

    The C code reads and writes device registers through [MMIOn(addr)], CPU
    registers through inline assembly, and memory through pointers.  Everything
    behind a register is outside [src/], so a device is a parameter of the model:
    a state type [D] with a read and a write function for every register
    ([Device]).  A program is a function in the monad [M]: from the fuel of its
    loops and a world (device, memory, the log of register accesses, the static
    variables of [lib/] and of the application) to an outcome. *)
From S2P Require Import Prelude.

(** ** Registers, devices, worlds *)

(** A register: a memory-mapped one (its width in bits and its address), a CP15
    register (CRn, CRm, opcode2), or the processor's CPSR. *)
Inductive port :=
  | Mmio (width addr : Z)
  | Cp15 (crn crm op2 : Z)
  | Cpsr.
#[export] Instance port_eq_dec : EqDecision port.
Proof. solve_decision. Defined.

(** What a value read from the port is cut to. *)
Definition port_wrap (p : port) (v : Z) : Z :=
  match p with Mmio 8 _ => u8 v | Mmio 16 _ => u16 v | _ => u32 v end.

Class Device (D : Type) := {
  dev_read : port -> D -> Z * D;
  dev_write : port -> Z -> D -> D;
}.

Inductive event := Rd (p : port) (v : Z) | Wr (p : port) (v : Z).
#[export] Instance event_eq_dec : EqDecision event.
Proof. solve_decision. Defined.

(** The static variables of [lib/stopwatch.c] and [lib/wdt.c]. *)
Record lib_state := LibState {
  ticks_per_s : Z;
  start_execution : Z;
  wdt_timeout : Z;
  last_wdt_serve : Z;
  wdt_interval : Z;
  wdt_off : bool;
}.
Definition lib_zero : lib_state := LibState 0 0 0 0 0 false.

(** Memory maps addresses to bytes.  A nonnegative address is a physical one
    (every one can be read and written, an untouched byte reads as 0).  The C
    objects whose address the program takes but whose place the compiler chooses
    live at negative addresses, each in a slot of its own ([LOCAL]), so that they
    are disjoint from each other and from physical memory; such an address can be
    used only once the object is allocated. *)
Record world (D A : Type) := World {
  w_dev : D;
  w_mem : gmap Z Z;
  w_log : list event; (* latest first *)
  w_lib : lib_state;
  w_app : A;
}.
Arguments World {D A} _ _ _ _ _.
Arguments w_dev {D A} _.
Arguments w_mem {D A} _.
Arguments w_log {D A} _.
Arguments w_lib {D A} _.
Arguments w_app {D A} _.

(** Why a run stopped without returning: its loops used up the fuel, an object was
    accessed outside its bounds, a division by zero, a jump to a loaded program,
    the empty endless loop. *)
Inductive cause := OutOfFuel | OutOfBounds (a : Z) | DivByZero | Jumped (a : Z) | Spin.

Inductive outcome (W R : Type) := Done (r : R) (w : W) | Stop (c : cause) (w : W).
Arguments Done {W R} _ _.
Arguments Stop {W R} _ _.

Definition M (D A R : Type) : Type := nat -> world D A -> outcome (world D A) R.

(** ** The monad *)
#[export] Instance M_ret {D A} : MRet (M D A) := fun R r _ w => Done r w.
#[export] Instance M_bind {D A} : MBind (M D A) := fun R S k m f w =>
  match m f w with Done r w' => k r f w' | Stop c w' => Stop c w' end.

Definition slot_size : Z := 0x10000.
Definition LOCAL (k : Z) : Z := - slot_size * (k + 1).

Section Ops.
Context {D A : Type} `{!Device D}.
#[local] Abbreviation M := (M D A).
#[local] Abbreviation world := (world D A).

Definition stop {R} (c : cause) : M R := fun _ w => Stop c w.
(** A pure step; [None] is an access outside of an array. *)
Definition defined {R} (o : option R) : M R := match o with Some r => mret r | None => stop (OutOfBounds 0) end.
Definition when (b : bool) (m : M unit) : M unit := if b then m else mret tt.

Definition set_mem (w : world) (m : gmap Z Z) : world :=
  World (w_dev w) m (w_log w) (w_lib w) (w_app w).
Definition set_lib (w : world) (l : lib_state) : world :=
  World (w_dev w) (w_mem w) (w_log w) l (w_app w).
Definition set_app (w : world) (a : A) : world :=
  World (w_dev w) (w_mem w) (w_log w) (w_lib w) a.
Definition set_io (w : world) (d : D) (e : event) : world :=
  World d (w_mem w) (e :: w_log w) (w_lib w) (w_app w).

(** Register accesses. *)
Definition rd (p : port) : M Z := fun _ w =>
  let '(v, d) := dev_read p (w_dev w) in
  Done (port_wrap p v) (set_io w d (Rd p (port_wrap p v))).
Definition wr (p : port) (v : Z) : M unit := fun _ w =>
  Done tt (set_io w (dev_write p (port_wrap p v) (w_dev w)) (Wr p (port_wrap p v))).
Definition rd32 (a : Z) : M Z := rd (Mmio 32 a).
Definition wr32 (a v : Z) : M unit := wr (Mmio 32 a) v.
Definition rd16 (a : Z) : M Z := rd (Mmio 16 a).
Definition wr16 (a v : Z) : M unit := wr (Mmio 16 a) v.
Definition rd8 (a : Z) : M Z := rd (Mmio 8 a).
Definition wr8 (a v : Z) : M unit := wr (Mmio 8 a) v.

(** Static variables. *)
Definition get_lib : M lib_state := fun _ w => Done (w_lib w) w.
Definition put_lib (l : lib_state) : M unit := fun _ w => Done tt (set_lib w l).
Definition get_app : M A := fun _ w => Done (w_app w) w.
Definition put_app (a : A) : M unit := fun _ w => Done tt (set_app w a).

(** Memory. *)
Definition mem_get (m : gmap Z Z) (a : Z) : Z := default 0 (m !! a).
Definition mem_valid (m : gmap Z Z) (a : Z) : bool :=
  (0 <=? a) || bool_decide (is_Some (m !! a)).
Definition ld8 (a : Z) : M Z := fun _ w =>
  if mem_valid (w_mem w) a then Done (mem_get (w_mem w) a) w else Stop (OutOfBounds a) w.
Definition st8 (a v : Z) : M unit := fun _ w =>
  if mem_valid (w_mem w) a then Done tt (set_mem w (<[a := u8 v]> (w_mem w)))
  else Stop (OutOfBounds a) w.
Definition ld32 (a : Z) : M Z :=
  b0 ← ld8 a; b1 ← ld8 (a + 1); b2 ← ld8 (a + 2); b3 ← ld8 (a + 3);
  mret (le_word [b0; b1; b2; b3]).

(** The declaration of a local object of [n] bytes. *)
Definition mem_alloc (a n : Z) (m : gmap Z Z) : gmap Z Z :=
  foldr (fun i m => <[i := 0]> m) m (seqZ a n).
Definition alloc (a n : Z) : M unit := fun _ w =>
  Done tt (set_mem w (mem_alloc a n (w_mem w))).

(** Unsigned division. *)
Definition udiv (a b : Z) : M Z := if b ==? 0 then stop DivByZero else mret (a / b).

(** ** Loops *)

(** A loop: [body x] goes on with a new state ([inl]) or leaves the loop with a
    result ([inr]).  One unit of fuel per iteration. *)
Fixpoint loop {X R} (n : nat) (body : X -> M (X + R)) (x : X) : M R := fun f w =>
  match n with
  | O => Stop OutOfFuel w
  | S n => match body x f w with
           | Done (inl x') w' => loop n body x' f w'
           | Done (inr r) w' => Done r w'
           | Stop c w' => Stop c w'
           end
  end.
Definition iter {X R} (body : X -> M (X + R)) (x : X) : M R := fun f => loop f body x f.

(** [while ((c <- cond) matches) ;] : poll until the condition holds. *)
Definition poll (cond : M bool) (body : M unit) : M unit :=
  iter (fun _ : unit => b ← cond; if b : bool then mret (inr tt) else (body;; mret (inl tt))) tt.

(** [for (i = 0; i < limit; i++)] around a body that may leave the loop with a result. *)
Definition for_limit {R} (limit : Z) (body : M (option R)) (after : R) : M R :=
  iter (fun i =>
    if i <? limit then
      o ← body;
      match o with Some r => mret (inr r) | None => mret (inl (i + 1)) end
    else mret (inr after)) 0.

(** A [for] over the elements of a list, with and without early exit. *)
Fixpoint foldM {X Y} (body : X -> Y -> M X) (x : X) (l : list Y) : M X :=
  match l with [] => mret x | y :: l => x' ← body x y; foldM body x' l end.
Fixpoint foldE {X Y R} (body : X -> Y -> M (X + R)) (x : X) (l : list Y) : M (X + R) :=
  match l with
  | [] => mret (inl x)
  | y :: l => r ← body x y;
              match r with inl x' => foldE body x' l | inr r => mret (inr r) end
  end.
End Ops.

(** ** Weakest preconditions

    [wp E m Q f w]: run with fuel [f] from [w], [m] either returns in [Q] or stops
    in [E].  [E] false is total correctness. *)
Section Wp.
Context {D A : Type} `{!Device D}.
#[local] Abbreviation M := (M D A).
#[local] Abbreviation world := (world D A).
Implicit Types (E : cause -> world -> Prop) (w : world).

Definition wp {R} E (m : M R) (Q : R -> world -> Prop) (f : nat) w : Prop :=
  match m f w with Done r w' => Q r w' | Stop c w' => E c w' end.

Lemma wp_mono {R} E (m : M R) (Q Q' : R -> world -> Prop) f w :
  wp E m Q f w -> (forall r w', Q r w' -> Q' r w') -> wp E m Q' f w.
Proof. unfold wp. destruct (m f w); eauto. Qed.
Lemma wp_mono_E {R} E E' (m : M R) (Q : R -> world -> Prop) f w :
  wp E m Q f w -> (forall c w', E c w' -> E' c w') -> wp E' m Q f w.
Proof. unfold wp. destruct (m f w); eauto. Qed.
Lemma wp_ret {R} E (r : R) (Q : R -> world -> Prop) f w : Q r w -> wp E (mret r) Q f w.
Proof. done. Qed.
Lemma wp_defined {R} E (o : option R) r Q f w : o = Some r -> Q r w -> wp E (defined o) Q f w.
Proof. intros ->. done. Qed.
Lemma wp_stop {R} E c (Q : R -> world -> Prop) f w : E c w -> wp E (stop c) Q f w.
Proof. done. Qed.
Lemma wp_bind {R S} E (m : M R) (k : R -> M S) Q f w :
  wp E m (fun r w' => wp E (k r) Q f w') f w -> wp E (m ≫= k) Q f w.
Proof. unfold wp, mbind, M_bind. by destruct (m f w). Qed.
Lemma wp_rd E p Q f w :
  (forall v d, dev_read p (w_dev w) = (v, d) ->
     Q (port_wrap p v) (set_io w d (Rd p (port_wrap p v)))) ->
  wp E (rd p) Q f w.
Proof. unfold wp, rd. destruct (dev_read p (w_dev w)) as [v d]. eauto. Qed.
Lemma wp_wr E p v Q f w :
  Q tt (set_io w (dev_write p (port_wrap p v) (w_dev w)) (Wr p (port_wrap p v))) ->
  wp E (wr p v) Q f w.
Proof. done. Qed.
Lemma wp_get_lib E Q f w : Q (w_lib w) w -> wp E get_lib Q f w.
Proof. done. Qed.
Lemma wp_put_lib E l Q f w : Q tt (set_lib w l) -> wp E (put_lib l) Q f w.
Proof. done. Qed.
Lemma wp_get_app E Q f w : Q (w_app w) w -> wp E get_app Q f w.
Proof. done. Qed.
Lemma wp_put_app E a Q f w : Q tt (set_app w a) -> wp E (put_app a) Q f w.
Proof. done. Qed.
Lemma wp_ld8 E a Q f w :
  mem_valid (w_mem w) a = true -> Q (mem_get (w_mem w) a) w -> wp E (ld8 a) Q f w.
Proof. unfold wp, ld8. by intros ->. Qed.
Lemma wp_st8 E a v Q f w :
  mem_valid (w_mem w) a = true ->
  Q tt (set_mem w (<[a := u8 v]> (w_mem w))) -> wp E (st8 a v) Q f w.
Proof. unfold wp, st8. by intros ->. Qed.
Lemma wp_alloc E a n Q f w :
  Q tt (set_mem w (mem_alloc a n (w_mem w))) -> wp E (alloc a n) Q f w.
Proof. done. Qed.
Lemma wp_udiv E a b Q f w : b <> 0 -> Q (a / b) w -> wp E (udiv a b) Q f w.
Proof. intros Hb HQ. unfold udiv. destruct (Z.eqb_spec b 0); done. Qed.
Lemma wp_when E b (m : M unit) Q f w :
  (b = true -> wp E m Q f w) -> (b = false -> Q tt w) -> wp E (when b m) Q f w.
Proof. destruct b; simpl; intros H1 H2; [by apply H1|by apply wp_ret, H2]. Qed.

(** A loop with an invariant [I] and a variant [v] that every iteration that
    goes on decreases. *)
Lemma wp_loop {X R} E (body : X -> M (X + R)) (I : X -> world -> Prop) (v : X -> world -> nat)
    (Q : R -> world -> Prop) f :
  (forall x w, I x w ->
     wp E (body x) (fun s w' => match s with
                                | inl x' => I x' w' /\ (v x' w' < v x w)%nat
                                | inr r => Q r w' end) f w) ->
  forall n x w, I x w -> (v x w < n)%nat -> wp E (loop n body x) Q f w.
Proof.
  intros Hb n. induction n as [|n IH]; intros x w HI Hv; [lia|].
  specialize (Hb x w HI). unfold wp in Hb |- *; simpl.
  destruct (body x f w) as [[x'|r] w'|c w']; [|exact Hb..].
  destruct Hb as [HI' Hlt]. apply (IH x' w' HI'). lia.
Qed.
Lemma wp_iter {X R} E (body : X -> M (X + R)) (I : X -> world -> Prop) (v : X -> world -> nat)
    (Q : R -> world -> Prop) f x w :
  I x w -> (v x w < f)%nat ->
  (forall x w, I x w ->
     wp E (body x) (fun s w' => match s with
                                | inl x' => I x' w' /\ (v x' w' < v x w)%nat
                                | inr r => Q r w' end) f w) ->
  wp E (iter body x) Q f w.
Proof. intros HI Hv Hb. by apply (wp_loop E body I v). Qed.
(** One iteration; a loop over data that only the proof knows is an induction. *)
Lemma wp_loop_S {X R} E (body : X -> M (X + R)) n x (Q : R -> world -> Prop) f w :
  wp E (body x) (fun s w' => match s with inl x' => wp E (loop n body x') Q f w' | inr r => Q r w' end) f w ->
  wp E (loop (S n) body x) Q f w.
Proof. unfold wp. simpl. by destruct (body x f w) as [[x'|r] w'|c w']. Qed.
(** Without a variant, running out of fuel is one of the accepted stops. *)
Lemma wp_iter_partial {X R} E (body : X -> M (X + R)) (I : X -> world -> Prop)
    (Q : R -> world -> Prop) f x w :
  I x w -> (forall x w, I x w -> E OutOfFuel w) ->
  (forall x w, I x w ->
     wp E (body x) (fun s w' => match s with inl x' => I x' w' | inr r => Q r w' end) f w) ->
  wp E (iter body x) Q f w.
Proof.
  intros HI HE Hb. unfold iter.
  assert (forall n x w, I x w -> wp E (loop n body x) Q f w) as Hgen; [|by apply Hgen].
  clear x w HI. induction n as [|n IH]; intros x w HI; [by apply (HE x)|].
  specialize (Hb x w HI). unfold wp in Hb |- *; simpl.
  destruct (body x f w) as [[x'|r] w'|c w']; [|exact Hb..]. by apply (IH x' w').
Qed.
(** Both at once: enough fuel, or running out of it is accepted. *)
Lemma wp_iter_or {X R} E (body : X -> M (X + R)) (I : X -> world -> Prop) (v : X -> world -> nat)
    (Q : R -> world -> Prop) f x w :
  I x w -> (v x w < f)%nat \/ (forall w, E OutOfFuel w) ->
  (forall x w, I x w ->
     wp E (body x) (fun s w' => match s with
                                | inl x' => I x' w' /\ (v x' w' < v x w)%nat
                                | inr r => Q r w' end) f w) ->
  wp E (iter body x) Q f w.
Proof.
  intros HI [Hv|HE] Hb; [by eapply wp_iter|]. eapply (wp_iter_partial _ _ I); [done|auto|].
  intros y w' Hy. eapply wp_mono; [by apply Hb|]. intros [y'|r] w''; tauto.
Qed.
(** Enough fuel, or from some point on ([late]) running out of it is accepted. *)
Lemma wp_iter_until {X R} E (body : X -> M (X + R)) (I : X -> world -> Prop) (v : X -> world -> nat)
    (late : world -> Prop) (Q : R -> world -> Prop) f x w :
  (forall w, late w -> E OutOfFuel w) -> I x w -> (v x w < f)%nat \/ late w ->
  (forall x w, I x w ->
     wp E (body x) (fun s w' => match s with
                                | inl x' => I x' w' /\ (late w' \/ ~ late w /\ (v x' w' < v x w)%nat)
                                | inr r => Q r w' end) f w) ->
  wp E (iter body x) Q f w.
Proof.
  intros HE HI Hv Hb. unfold iter.
  assert (forall n x w, I x w -> (v x w < n)%nat \/ late w -> wp E (loop n body x) Q f w) as Hgen; [|by apply Hgen].
  clear x w HI Hv. induction n as [|n IH]; intros x w HI Hv; [apply HE; destruct Hv; [lia|done]|].
  apply wp_loop_S. eapply wp_mono; [by apply Hb|]. intros [x'|r] w'; [|done]. intros [HI' [Hl|[Hl Hlt]]]; apply IH; try done; [by right|].
  destruct Hv; [left; lia|done].
Qed.
Lemma wp_for_limit {R} E limit (body : M (option R)) after (I : world -> Prop) Q f w :
  I w -> 0 <= limit < Z.of_nat f \/ (forall w, E OutOfFuel w) ->
  (forall w, I w -> wp E body (fun o w' => match o with Some r => Q r w' | None => I w' end) f w) ->
  (forall w, I w -> Q after w) -> wp E (for_limit limit body after) Q f w.
Proof.
  intros HI Hf Hb HQ. eapply (wp_iter_or _ _ (fun i w' => 0 <= i /\ I w') (fun i _ => Z.to_nat (limit - i)));
    [done| |].
  { destruct Hf as [Hf|HE]; [left; lia|by right]. }
  intros i w' [Hi HI']. destruct (Z.ltb_spec i limit); [|by apply wp_ret, HQ].
  apply wp_bind. eapply wp_mono; [by apply Hb|]. intros [r|] w'' H'; apply wp_ret; [done|].
  split; [split; [lia|done]|lia].
Qed.
(** A [for] loop: the invariant is indexed by the elements done. *)
Lemma wp_foldM {X Y} E (body : X -> Y -> M X) (I : list Y -> X -> world -> Prop) f l Q x w :
  I [] x w ->
  (forall done y todo x w, l = done ++ y :: todo -> I done x w ->
     wp E (body x y) (I (done ++ [y])) f w) ->
  (forall x w, I l x w -> Q x w) ->
  wp E (foldM body x l) Q f w.
Proof.
  intros H0 Hb HQ.
  assert (forall todo done x w, l = done ++ todo -> I done x w -> wp E (foldM body x todo) Q f w)
    as Hgen; [|by apply (Hgen l [])].
  induction todo as [|y todo IH]; intros done x' w' -> HI; simpl.
  - apply wp_ret, HQ. by rewrite app_nil_r.
  - apply wp_bind. eapply wp_mono; [by apply (Hb done y todo)|].
    intros x'' w'' HI'. apply (IH (done ++ [y])); [by rewrite <- app_assoc|done].
Qed.
Lemma wp_foldE {X Y R} E (body : X -> Y -> M (X + R)) (I : list Y -> X -> world -> Prop) f l
    (Q : X + R -> world -> Prop) x w :
  I [] x w ->
  (forall done y todo x w, l = done ++ y :: todo -> I done x w ->
     wp E (body x y) (fun s w' => match s with inl x' => I (done ++ [y]) x' w'
                                             | inr r => Q (inr r) w' end) f w) ->
  (forall x w, I l x w -> Q (inl x) w) ->
  wp E (foldE body x l) Q f w.
Proof.
  intros H0 Hb HQ.
  assert (forall todo done x w, l = done ++ todo -> I done x w -> wp E (foldE body x todo) Q f w)
    as Hgen; [|by apply (Hgen l [])].
  induction todo as [|y todo IH]; intros done x' w' -> HI; simpl.
  - apply wp_ret, HQ. by rewrite app_nil_r.
  - apply wp_bind. eapply wp_mono; [by apply (Hb done y todo)|].
    intros [x''|r] w'' HI'; [|by apply wp_ret].
    apply (IH (done ++ [y])); [by rewrite <- app_assoc|done].
Qed.

Definition total : cause -> world -> Prop := fun _ _ => False.
(** Partial correctness: only running out of fuel is accepted, no fault. *)
Definition partial : cause -> world -> Prop := fun c _ => c = OutOfFuel.
End Wp.

(** One step of symbolic execution. *)
Ltac wp_step :=
  lazymatch goal with
  | |- wp _ (mbind _ _) _ _ _ => apply wp_bind
  | |- wp _ (mret _) _ _ _ => apply wp_ret
  | |- wp _ (rd32 _) _ _ _ => apply wp_rd; intros ?v ?d ?Hrd
  | |- wp _ (rd _) _ _ _ => apply wp_rd; intros ?v ?d ?Hrd
  | |- wp _ (wr32 _ _) _ _ _ => apply wp_wr
  | |- wp _ (wr _ _) _ _ _ => apply wp_wr
  | |- wp _ get_lib _ _ _ => apply wp_get_lib
  | |- wp _ (put_lib _) _ _ _ => apply wp_put_lib
  | |- wp _ get_app _ _ _ => apply wp_get_app
  | |- wp _ (put_app _) _ _ _ => apply wp_put_app
  | |- wp _ (alloc _ _) _ _ _ => apply wp_alloc
  end.
Ltac wp_steps := repeat (wp_step; cbv beta).

(** ** Footprints: which registers a program touches *)
Section Uses.
Context {D A : Type} `{!Device D}.
#[local] Abbreviation M := (M D A).

(** The device after some accesses to registers in [P]. *)
Inductive steps (P : port -> Prop) : D -> D -> Prop :=
  | steps_refl d : steps P d d
  | steps_rd p d d' : P p -> steps P (snd (dev_read p d)) d' -> steps P d d'
  | steps_wr p v d d' : P p -> steps P (dev_write p v d) d' -> steps P d d'.
Lemma steps_trans P d1 d2 d3 : steps P d1 d2 -> steps P d2 d3 -> steps P d1 d3.
Proof. induction 1; eauto using steps. Qed.
Lemma steps_mono (P Q : port -> Prop) d d' : (forall p, P p -> Q p) -> steps P d d' -> steps Q d d'.
Proof. intros H. induction 1; eauto using steps. Qed.

(** The log of these accesses. *)
Definition event_port (e : event) : port := match e with Rd p _ | Wr p _ => p end.
Definition traced (P : port -> Prop) (w w' : world D A) : Prop :=
  steps P (w_dev w) (w_dev w') /\ exists l, w_log w' = l ++ w_log w /\ Forall (fun e => P (event_port e)) l.
Lemma traced_refl P (w w' : world D A) : w_dev w' = w_dev w -> w_log w' = w_log w -> traced P w w'.
Proof. intros E1 E2. unfold traced. rewrite E1, E2. split; [constructor|]. exists []. by split; [|constructor]. Qed.
Lemma traced_trans P w1 w2 w3 : traced P w1 w2 -> traced P w2 w3 -> traced P w1 w3.
Proof.
  intros [H1 (l1 & E1 & F1)] [H2 (l2 & E2 & F2)]. split; [by eapply steps_trans|]. exists (l2 ++ l1).
  rewrite E2, E1, app_assoc. split; [done|]. by apply Forall_app.
Qed.
Lemma traced_mono (P Q : port -> Prop) w w' : (forall p, P p -> Q p) -> traced P w w' -> traced Q w w'.
Proof.
  intros H [H1 (l & E & F)]. split; [by eapply steps_mono|]. exists l. split; [done|].
  eapply Forall_impl; [exact F|]. intros e He. by apply H.
Qed.

Definition uses {R} (P : port -> Prop) (m : M R) : Prop :=
  forall f w, match m f w with
              | Done _ w' | Stop _ w' => traced P w w'
              end.
Lemma uses_mono {R} (P Q : port -> Prop) (m : M R) : (forall p, P p -> Q p) -> uses P m -> uses Q m.
Proof. intros H Hm f w. specialize (Hm f w). destruct (m f w); by eapply traced_mono. Qed.
Lemma uses_ret {R} P (r : R) : uses P (mret r).
Proof. intros f w. by apply traced_refl. Qed.
Lemma uses_stop {R} P c : uses P (stop (R := R) c).
Proof. intros f w. by apply traced_refl. Qed.
Lemma uses_bind {R S} P (m : M R) (k : R -> M S) : uses P m -> (forall r, uses P (k r)) -> uses P (m ≫= k).
Proof.
  intros Hm Hk f w. specialize (Hm f w). unfold mbind, M_bind. destruct (m f w) as [r w'|c w']; [|done].
  specialize (Hk r f w'). destruct (k r f w'); by eapply traced_trans.
Qed.
Lemma uses_rd (P : port -> Prop) p : P p -> uses P (rd p).
Proof.
  intros Hp f w. unfold rd. destruct (dev_read p (w_dev w)) as [v d] eqn:E. split; simpl.
  - eapply steps_rd; [done|]. rewrite E. apply steps_refl.
  - exists [Rd p (port_wrap p v)]. split; [done|]. by apply Forall_singleton.
Qed.
Lemma uses_wr (P : port -> Prop) p v : P p -> uses P (wr p v).
Proof.
  intros Hp f w. split; simpl; [eapply steps_wr; [done|]; apply steps_refl|].
  exists [Wr p (port_wrap p v)]. split; [done|]. by apply Forall_singleton.
Qed.
Lemma uses_get_lib P : uses P get_lib. Proof. intros f w. by apply traced_refl. Qed.
Lemma uses_put_lib P l : uses P (put_lib l). Proof. intros f w. by apply traced_refl. Qed.
Lemma uses_get_app P : uses P get_app. Proof. intros f w. by apply traced_refl. Qed.
Lemma uses_put_app P a : uses P (put_app a). Proof. intros f w. by apply traced_refl. Qed.
Lemma uses_ld8 P a : uses P (ld8 a).
Proof. intros f w. unfold ld8. destruct (mem_valid _ _); by apply traced_refl. Qed.
Lemma uses_st8 P a v : uses P (st8 a v).
Proof. intros f w. unfold st8. destruct (mem_valid _ _); by apply traced_refl. Qed.
Lemma uses_alloc P a n : uses P (alloc a n). Proof. intros f w. by apply traced_refl. Qed.
Lemma uses_udiv P a b : uses P (udiv a b).
Proof. unfold udiv. destruct (Z.eqb b 0); [apply uses_stop|apply uses_ret]. Qed.
Lemma uses_when P b (m : M unit) : uses P m -> uses P (when b m).
Proof. destruct b; [done|intros _; apply uses_ret]. Qed.
Lemma uses_iter {X R} P (body : X -> M (X + R)) x : (forall x, uses P (body x)) -> uses P (iter body x).
Proof.
  intros Hb f w. unfold iter. generalize f at 1 as n. intros n. revert x w.
  induction n as [|n IH]; intros x w; simpl; [by apply traced_refl|].
  specialize (Hb x f w). destruct (body x f w) as [[x'|r] w'|c w']; [|done..].
  specialize (IH x' w'). destruct (loop n body x' f w'); by eapply traced_trans.
Qed.
Lemma uses_poll P (cond : M bool) body : uses P cond -> uses P body -> uses P (poll cond body).
Proof.
  intros Hc Hb. apply uses_iter. intros _. apply uses_bind; [done|]. intros [].
  - apply uses_ret.
  - apply uses_bind; [done|]. intros _. apply uses_ret.
Qed.
Lemma uses_for_limit {R} P n (body : M (option R)) after : uses P body -> uses P (for_limit n body after).
Proof.
  intros Hb. apply uses_iter. intros i. destruct (i <? n); [|apply uses_ret].
  apply uses_bind; [done|]. intros []; apply uses_ret.
Qed.
Lemma uses_foldM {X Y} P (body : X -> Y -> M X) x l : (forall x y, uses P (body x y)) -> uses P (foldM body x l).
Proof.
  intros Hb. revert x. induction l as [|y l IH]; intros x; simpl; [apply uses_ret|].
  apply uses_bind; [done|]. intros x'. apply IH.
Qed.
Lemma uses_foldE {X Y R} P (body : X -> Y -> M (X + R)) x l : (forall x y, uses P (body x y)) -> uses P (foldE body x l).
Proof.
  intros Hb. revert x. induction l as [|y l IH]; intros x; simpl; [apply uses_ret|].
  apply uses_bind; [done|]. intros [x'|r]; [apply IH|apply uses_ret].
Qed.
(** A footprint adds what its registers keep to what a run was proved to do. *)
Lemma wp_uses {R} E (P : port -> Prop) (J : D -> Prop) (m : M R) Q f w : uses P m ->
  (forall d d', steps P d d' -> J d -> J d') -> J (w_dev w) -> wp E m Q f w ->
  wp E m (fun r w' => Q r w' /\ J (w_dev w')) f w.
Proof.
  intros Hm HJ H0 Hwp. specialize (Hm f w). unfold wp in *. destruct (m f w); [|done].
  split; [done|]. destruct Hm as [Hm _]. by eapply HJ.
Qed.
(** And what it wrote to the log. *)
Lemma wp_traced {R} E (P : port -> Prop) (m : M R) Q f w : uses P m -> wp E m Q f w ->
  wp E m (fun r w' => Q r w' /\ traced P w w') f w.
Proof. intros Hm Hwp. specialize (Hm f w). unfold wp in *. by destruct (m f w). Qed.
End Uses.
Create HintDb uses discriminated.
(** The control structure by syntax, the calls by the database, the registers by [port_tac]. *)
Ltac uses_tac port_tac :=
  repeat lazymatch goal with
  | |- forall _, _ => intros; cbv beta
  | |- uses _ (mbind _ _) => apply uses_bind
  | |- uses _ (mret _) => apply uses_ret
  | |- uses _ (stop _) => apply uses_stop
  | |- uses _ (rd _) => apply uses_rd; port_tac
  | |- uses _ (rd32 _) => apply uses_rd; port_tac
  | |- uses _ (wr _ _) => apply uses_wr; port_tac
  | |- uses _ (wr32 _ _) => apply uses_wr; port_tac
  | |- uses _ (ld8 _) => apply uses_ld8
  | |- uses _ (st8 _ _) => apply uses_st8
  | |- uses _ (alloc _ _) => apply uses_alloc
  | |- uses _ (udiv _ _) => apply uses_udiv
  | |- uses _ get_lib => apply uses_get_lib
  | |- uses _ (put_lib _) => apply uses_put_lib
  | |- uses _ get_app => apply uses_get_app
  | |- uses _ (put_app _) => apply uses_put_app
  | |- uses _ (when _ _) => apply uses_when
  | |- uses _ (iter _ _) => apply uses_iter
  | |- uses _ (poll _ _) => apply uses_poll
  | |- uses _ (for_limit _ _ _) => apply uses_for_limit
  | |- uses _ (foldM _ _ _) => apply uses_foldM
  | |- uses _ (if ?b then _ else _) => destruct b
  | |- uses _ (match ?x with _ => _ end) => destruct x
  | |- uses _ (let _ := _ in _) => cbv zeta
  end; auto with uses.

(** ** What passes through a register: [sel] of every event, oldest first *)
Definition accesses {X} (sel : event -> list X) (es : list event) : list X := mjoin (map sel (rev es)).
Lemma accesses_app {X} (sel : event -> list X) l es : accesses sel (l ++ es) = accesses sel es ++ accesses sel l.
Proof. unfold accesses. by rewrite rev_app_distr, map_app, join_app. Qed.
Lemma accesses_cons {X} (sel : event -> list X) e es : accesses sel (e :: es) = accesses sel es ++ sel e.
Proof. change (e :: es) with ([e] ++ es). rewrite accesses_app. unfold accesses. simpl. by rewrite app_nil_r. Qed.
Lemma accesses_quiet {X} (sel : event -> list X) l : Forall (fun e => sel e = []) l -> accesses sel l = [].
Proof. induction 1 as [|e l He _ IH]; [done|]. by rewrite accesses_cons, IH, He. Qed.

(** ** Byte ranges of memory *)

(** The bytes at [a] are [bs]. *)
Definition mem_at (m : gmap Z Z) (a : Z) (bs : list Z) : Prop :=
  forall i : nat, (i < length bs)%nat -> bs !! i = Some (mem_get m (a + Z.of_nat i)).
(** All of memory holds bytes. *)
Definition mem_ok (m : gmap Z Z) : Prop := forall a, is_byte (mem_get m a).

Lemma mem_get_insert m a v b : mem_get (<[a := v]> m) b = if decide (a = b) then v else mem_get m b.
Proof. unfold mem_get. rewrite lookup_insert. by case_decide. Qed.
Lemma mem_valid_pos m a : 0 <= a -> mem_valid m a = true.
Proof. intros Ha. unfold mem_valid. by destruct (Z.leb_spec 0 a); [|lia]. Qed.
Lemma mem_valid_insert m a v b : mem_valid m b = true -> mem_valid (<[a := v]> m) b = true.
Proof.
  unfold mem_valid. intros H. apply orb_true_iff in H as [->|H]; [done|].
  apply orb_true_iff; right. apply bool_decide_eq_true in H. apply bool_decide_eq_true.
  rewrite lookup_insert. case_decide; [by eexists|done].
Qed.
Create HintDb mem discriminated.
#[export] Hint Resolve mem_valid_pos mem_valid_insert : mem.

Lemma mem_at_nil m a : mem_at m a [].
Proof. intros i Hi. simpl in Hi. lia. Qed.
Lemma mem_at_app m a bs cs :
  mem_at m a (bs ++ cs) <-> mem_at m a bs /\ mem_at m (a + Z.of_nat (length bs)) cs.
Proof.
  unfold mem_at. setoid_rewrite length_app. split.
  - intros H. split; intros i Hi.
    + rewrite <- (H i) by lia. by rewrite lookup_app_l.
    + specialize (H (length bs + i)%nat ltac:(lia)). rewrite lookup_app_r in H by lia.
      replace (length bs + i - length bs)%nat with i in H by lia. rewrite H. do 2 f_equal. lia.
  - intros [H1 H2] i Hi. destruct (decide (i < length bs)%nat).
    + rewrite lookup_app_l by done. by apply H1.
    + rewrite lookup_app_r by lia. rewrite H2 by lia. do 2 f_equal. lia.
Qed.
Lemma mem_at_cons m a b bs : mem_at m a (b :: bs) <-> mem_get m a = b /\ mem_at m (a + 1) bs.
Proof.
  change (b :: bs) with ([b] ++ bs). rewrite mem_at_app. simpl. split; intros [H1 H2]; split; auto.
  - specialize (H1 0%nat ltac:(simpl; lia)). simpl in H1. rewrite Z.add_0_r in H1. congruence.
  - intros i Hi. simpl in Hi. assert (i = 0)%nat as -> by lia. simpl. by rewrite Z.add_0_r, H1.
Qed.
Lemma mem_at_ext m m' a bs :
  (forall x, a <= x < a + Z.of_nat (length bs) -> mem_get m' x = mem_get m x) ->
  mem_at m a bs -> mem_at m' a bs.
Proof. intros Hx H i Hi. rewrite H by done. by rewrite Hx by lia. Qed.
Lemma mem_at_insert_ne m a bs x v :
  ~ (a <= x < a + Z.of_nat (length bs)) -> mem_at m a bs -> mem_at (<[x := v]> m) a bs.
Proof.
  intros Hx. apply mem_at_ext. intros y Hy. rewrite mem_get_insert. case_decide; [lia|done].
Qed.
Lemma mem_at_snoc m a bs v : mem_at m a bs -> mem_at (<[a + Z.of_nat (length bs) := v]> m) a (bs ++ [v]).
Proof.
  intros H. apply mem_at_app. split; [apply mem_at_insert_ne; [lia|done]|].
  apply mem_at_cons. split; [|apply mem_at_nil]. rewrite mem_get_insert. by case_decide.
Qed.
Lemma mem_at_lookup m a bs i b : mem_at m a bs -> bs !! i = Some b -> mem_get m (a + Z.of_nat i) = b.
Proof. intros H Hi. pose proof (lookup_lt_Some _ _ _ Hi). rewrite H in Hi by done. congruence. Qed.
Lemma mem_at_drop m a bs k : (k <= length bs)%nat ->
  mem_at m a bs -> mem_at m (a + Z.of_nat k) (drop k bs).
Proof.
  intros Hk H. rewrite <- (take_drop k bs) in H. apply mem_at_app in H as [_ H].
  by rewrite length_take_le in H by lia.
Qed.
Lemma mem_at_take m a bs k : mem_at m a bs -> mem_at m a (take k bs).
Proof. intros H. rewrite <- (take_drop k bs) in H. by apply mem_at_app in H as [H _]. Qed.
Lemma mem_ok_insert m a v : mem_ok m -> is_byte v -> mem_ok (<[a := v]> m).
Proof. intros H Hv b. rewrite mem_get_insert. by case_decide. Qed.
Lemma mem_at_bytes m a bs : mem_ok m -> mem_at m a bs -> bytes_ok bs.
Proof.
  intros Hm H. apply Forall_lookup. intros i b Hi. rewrite <- (mem_at_lookup _ _ _ _ _ H Hi). apply Hm.
Qed.

(** Walking over the indices of a byte range. *)
Lemma seqZ_split n done y todo : seqZ 0 n = done ++ y :: todo -> y = Z.of_nat (length done) /\ y < n.
Proof.
  intros H. assert (seqZ 0 n !! length done = Some y) as Hy by (rewrite H; by apply list_lookup_middle).
  apply lookup_seqZ in Hy. lia.
Qed.
Lemma length_seqZ_nat n : length (seqZ 0 (Z.of_nat n)) = n.
Proof. rewrite length_seqZ. lia. Qed.

(** ** Concrete memories and the device that is not there, for examples *)
Fixpoint mem_put (m : gmap Z Z) (a : Z) (bs : list Z) : gmap Z Z :=
  match bs with [] => m | b :: bs => mem_put (<[a := b]> m) (a + 1) bs end.
Definition mem_range (m : gmap Z Z) (a : Z) (n : nat) : list Z :=
  map (fun i => mem_get m (a + Z.of_nat i)) (seq 0 n).

Lemma mem_at_range m a bs : mem_range m a (length bs) = bs -> mem_at m a bs.
Proof.
  intros H i Hi. rewrite <- H at 1. unfold mem_range.
  rewrite list_lookup_fmap, lookup_seq_lt by done. done.
Qed.
Lemma mem_range_at m a bs : mem_at m a bs -> mem_range m a (length bs) = bs.
Proof.
  intros H. apply list_eq. intros i. unfold mem_range. rewrite list_lookup_fmap.
  destruct (decide (i < length bs)%nat) as [Hi|Hi].
  - rewrite lookup_seq_lt by done. simpl. by rewrite H.
  - rewrite lookup_seq_ge, (lookup_ge_None_2 bs) by lia. done.
Qed.
Lemma mem_put_app m a bs cs : mem_put m a (bs ++ cs) = mem_put (mem_put m a bs) (a + Z.of_nat (length bs)) cs.
Proof.
  revert m a. induction bs as [|b bs IH]; intros m a; simpl; [by rewrite Z.add_0_r|].
  rewrite IH. f_equal. lia.
Qed.
Lemma mem_put_snoc m a bs b : mem_put m a (bs ++ [b]) = <[a + Z.of_nat (length bs) := b]> (mem_put m a bs).
Proof. apply mem_put_app. Qed.
Lemma mem_get_put_out m a bs x : ~ (a <= x < a + Z.of_nat (length bs)) -> mem_get (mem_put m a bs) x = mem_get m x.
Proof.
  revert m a. induction bs as [|b bs IH]; intros m a Hx; simpl; [done|]. simpl in Hx.
  rewrite IH by lia. rewrite mem_get_insert. case_decide; [lia|done].
Qed.
Lemma mem_at_put m a bs : mem_at (mem_put m a bs) a bs.
Proof.
  induction bs as [|b bs IH] using rev_ind; [apply mem_at_nil|]. rewrite mem_put_snoc. by apply mem_at_snoc.
Qed.
Lemma mem_at_put_out m a bs x cs :
  x + Z.of_nat (length cs) <= a \/ a + Z.of_nat (length bs) <= x -> mem_at m x cs -> mem_at (mem_put m a bs) x cs.
Proof. intros H. apply mem_at_ext. intros y Hy. apply mem_get_put_out. lia. Qed.
Lemma mem_valid_put m a bs x : mem_valid m x = true -> mem_valid (mem_put m a bs) x = true.
Proof. revert m a. induction bs as [|b bs IH]; intros m a H; simpl; [done|]. by apply IH, mem_valid_insert. Qed.
Lemma mem_ok_put m a bs : mem_ok m -> bytes_ok bs -> mem_ok (mem_put m a bs).
Proof.
  intros Hm Hb. revert m a Hm. induction Hb as [|b bs Hb Hbs IH]; intros m a Hm; simpl; [done|].
  by apply IH, mem_ok_insert.
Qed.
#[export] Hint Resolve mem_valid_put : mem.

(** The declaration of an object makes its bytes valid (and zero) and nothing else. *)
Lemma mem_alloc_lookup a n m x :
  mem_alloc a n m !! x = if decide (a <= x < a + n) then Some 0 else m !! x.
Proof.
  unfold mem_alloc. assert (forall l, foldr (fun i m => <[i := 0]> m) m l !! x =
    if decide (x ∈ l) then Some 0 else m !! x) as ->.
  { induction l as [|y l IH]; cbn [foldr].
    { case_decide as H; [by apply elem_of_nil in H|done]. }
    rewrite lookup_insert, IH. destruct (decide (y = x)) as [->|Hne].
    - destruct (decide (x = x)); [|done]. destruct (decide (x ∈ x :: l)) as [|Hin]; [done|].
      destruct Hin. apply list_elem_of_here.
    - destruct (decide (y = x)); [done|].
      destruct (decide (x ∈ l)) as [H|H], (decide (x ∈ y :: l)) as [H'|H']; try done.
      + destruct H'. by apply elem_of_cons; right.
      + apply elem_of_cons in H' as [->|H']; done. }
  destruct (decide (x ∈ seqZ a n)) as [H|H], (decide (a <= x < a + n)); rewrite elem_of_seqZ in H; done || lia.
Qed.
Lemma mem_valid_alloc a n m x : a <= x < a + n -> mem_valid (mem_alloc a n m) x = true.
Proof.
  intros H. unfold mem_valid. rewrite mem_alloc_lookup. case_decide; [|lia]. apply orb_true_r.
Qed.
Lemma mem_valid_alloc_mono a n m x : mem_valid m x = true -> mem_valid (mem_alloc a n m) x = true.
Proof.
  unfold mem_valid. rewrite mem_alloc_lookup. intros H. case_decide; [apply orb_true_r|done].
Qed.
Lemma mem_get_alloc_out a n m x : ~ (a <= x < a + n) -> mem_get (mem_alloc a n m) x = mem_get m x.
Proof. intros H. unfold mem_get. rewrite mem_alloc_lookup. by case_decide. Qed.
Lemma mem_ok_alloc a n m : mem_ok m -> mem_ok (mem_alloc a n m).
Proof.
  intros H x. unfold mem_get. rewrite mem_alloc_lookup. case_decide; [by vm_compute|apply H].
Qed.
#[export] Hint Resolve mem_valid_alloc mem_valid_alloc_mono : mem.

Definition mem_ok_b (m : gmap Z Z) : bool :=
  forallb (fun kv => (0 <=? kv.2) && (kv.2 <? 0x100)) (map_to_list m).
Lemma mem_ok_b_spec m : mem_ok_b m = true -> mem_ok m.
Proof.
  intros H a. unfold mem_get. destruct (m !! a) as [b|] eqn:Hb; simpl; [|unfold is_byte; lia].
  apply elem_of_map_to_list, list_elem_of_In in Hb.
  unfold mem_ok_b in H. rewrite forallb_forall in H. specialize (H _ Hb). simpl in H.
  unfold is_byte. lia.
Qed.

Definition no_device : Device unit :=
  {| dev_read _ d := (0, d); dev_write _ _ d := d |}.
Definition world_of_mem (m : gmap Z Z) : world unit unit := World tt m [] lib_zero tt.

(** A bank of plain registers: every register keeps what was written to it last. *)
Definition regs_device : Device (port -> Z) :=
  {| dev_read p d := (d p, d);
     dev_write p v d := fun q => if decide (q = p) then v else d q |}.
