(* ===== verification/Board.v ===== *)
(** * The build configuration

    What the preprocessor decides in the C code ([PMB8875]/[PMB8876],
    [GPIO_PM_WADOG], [BOARD_HAS_PMIC_*], [lib/pmb887x.h] and the board headers of
    [lib/gen]) is an argument of the model, so that each theorem covers every build. *)
From S2P Require Import Prelude.

Inductive chip := PMB8875 | PMB8876.
Inductive pmic := PMIC_PMB6812 | PMIC_D1094XX | PMIC_NONE.
Class Board := {
  board_chip : chip;
  board_pm_wadog : option Z; (* the GPIO of the PMIC watchdog, when defined *)
  board_pmic : pmic;
  board_pm_wadog_pos : match board_pm_wadog with Some gpio => 0 <= gpio < 0x100 | None => True end;
}.
#[export] Instance chip_eq_dec : EqDecision chip.
Proof. solve_decision. Defined.

Definition CPU_OSC_FREQ : Z := 26000000.
Definition CPU_CLK32K_FREQ : Z := 32768.

(** A board without PMIC watchdog, for examples. *)
Definition plain_board (k : chip) : Board :=
  {| board_chip := k; board_pm_wadog := None; board_pmic := PMIC_NONE;
     board_pm_wadog_pos := I |}.
