(* ===== verification/Regs.v ===== *)
(** * Register addresses and fields

    The [#define]s of [lib/gen/pmb8875_regs.h] and [lib/gen/pmb8876_regs.h] that the
    modelled code uses, under their own names.  [MMIO32(a)] is the address [a]; a
    parametric register is a function of its parameter.  Both chips share the first
    group; [Pmb8875] and [Pmb8876] hold what only one of them has or what differs. *)
From S2P Require Import Prelude.

Definition GPIO_USART0_RXD : Z := 11.
Definition GPIO_USART0_TXD : Z := 12.
Definition GPIO_USART1_RXD : Z := 16.
Definition GPIO_USART1_TXD : Z := 17.
Definition GPIO_I2C_SCL : Z := 28.
Definition GPIO_I2C_SDA : Z := 29.
Definition MOD_CLC_DISR : Z := Eval vm_compute in BIT 0.
Definition MOD_CLC_DISS : Z := Eval vm_compute in BIT 1.
Definition MOD_CLC_RMC : Z := Eval vm_compute in GENMASK 15 8.
Definition MOD_CLC_RMC_SHIFT : Z := 8.
Definition MOD_ID_REV : Z := Eval vm_compute in GENMASK 7 0.
Definition EBU_BASE : Z := 0xF0000000.
Definition EBU_CLC : Z := Eval vm_compute in EBU_BASE + 0x00.
Definition EBU_SDRMREF (n : Z) : Z := EBU_BASE + 0x40 + (n * 0x8).
Definition EBU_SDRMREF_REFRESHC : Z := Eval vm_compute in GENMASK 5 0.
Definition EBU_SDRMREF_REFRESHC_SHIFT : Z := 0.
Definition EBU_SDRMCON (n : Z) : Z := EBU_BASE + 0x50 + (n * 0x8).
Definition EBU_SDRMCON_CRFSH_SHIFT : Z := 4.
Definition EBU_SDRMCON_CRP : Z := Eval vm_compute in GENMASK 11 10.
Definition EBU_SDRMCON_CRP_SHIFT : Z := 10.
Definition EBU_SDRMCON_AWIDTH_SHIFT : Z := 12.
Definition EBU_SDRMCON_CRCD : Z := Eval vm_compute in GENMASK 15 14.
Definition EBU_SDRMCON_CRC : Z := Eval vm_compute in GENMASK 18 16.
Definition EBU_SDRMCON_CRC_SHIFT : Z := 16.
Definition EBU_SDRMCON_PAGEM_SHIFT : Z := 19.
Definition EBU_SDRMCON_BANKM_SHIFT : Z := 22.
Definition EBU_SDRMCON_CRCE : Z := Eval vm_compute in BIT 25.
Definition EBU_SDRMOD (n : Z) : Z := EBU_BASE + 0x60 + (n * 0x8).
Definition EBU_SDRMOD_BURSTL_SHIFT : Z := 0.
Definition EBU_SDRMOD_CASLAT : Z := Eval vm_compute in GENMASK 6 4.
Definition EBU_SDRMOD_CASLAT_SHIFT : Z := 4.
Definition EBU_ADDRSEL (n : Z) : Z := EBU_BASE + 0x80 + (n * 0x8).
Definition EBU_ADDRSEL_REGENAB : Z := Eval vm_compute in BIT 0.
Definition EBU_ADDRSEL_MASK : Z := Eval vm_compute in GENMASK 7 4.
Definition EBU_ADDRSEL_MASK_SHIFT : Z := 4.
Definition EBU_ADDRSEL_BASE : Z := Eval vm_compute in GENMASK 31 12.
Definition EBU_BUSCON (n : Z) : Z := EBU_BASE + 0xC0 + (n * 0x8).
Definition EBU_BUSCON_AALIGN : Z := Eval vm_compute in BIT 9.
Definition EBU_BUSCON_CTYPE_SHIFT : Z := 10.
Definition EBU_BUSCON_CMULT_SHIFT : Z := 13.
Definition EBU_BUSCON_DLOAD : Z := Eval vm_compute in BIT 17.
Definition EBU_BUSCON_BCGEN_SHIFT : Z := 20.
Definition EBU_BUSCON_PORTW_SHIFT : Z := 22.
Definition EBU_BUSCON_AGEN : Z := Eval vm_compute in GENMASK 30 28.
Definition EBU_BUSCON_AGEN_SDRAM_0 : Z := 0x30000000.
Definition EBU_BUSCON_AGEN_SDRAM_1 : Z := 0x40000000.
Definition USART0 : Z := 0xF1000000.
Definition USART1 : Z := 0xF1800000.
Definition USART_CLC (base : Z) : Z := base + 0x00.
Definition USART_CON (base : Z) : Z := base + 0x10.
Definition USART_CON_M_ASYNC_8BIT : Z := 0x1.
Definition USART_CON_STP : Z := Eval vm_compute in BIT 3.
Definition USART_CON_STP_ONE : Z := 0x0.
Definition USART_CON_STP_TWO : Z := 0x8.
Definition USART_CON_REN : Z := Eval vm_compute in BIT 4.
Definition USART_CON_FDE : Z := Eval vm_compute in BIT 11.
Definition USART_CON_CON_R : Z := Eval vm_compute in BIT 15.
Definition USART_BG (base : Z) : Z := base + 0x14.
Definition USART_FDV (base : Z) : Z := base + 0x18.
Definition USART_TXB (base : Z) : Z := base + 0x20.
Definition USART_RXB (base : Z) : Z := base + 0x24.
Definition USART_RXFCON (base : Z) : Z := base + 0x40.
Definition USART_RXFCON_RXFEN : Z := Eval vm_compute in BIT 0.
Definition USART_RXFCON_RXFFLU : Z := Eval vm_compute in BIT 1.
Definition USART_TXFCON (base : Z) : Z := base + 0x44.
Definition USART_TXFCON_TXFEN : Z := Eval vm_compute in BIT 0.
Definition USART_TXFCON_TXFFLU : Z := Eval vm_compute in BIT 1.
Definition USART_FSTAT (base : Z) : Z := base + 0x48.
Definition USART_FSTAT_RXFFL : Z := Eval vm_compute in GENMASK 3 0.
Definition USART_FSTAT_RXFFL_SHIFT : Z := 0.
Definition USART_FSTAT_TXFFL : Z := Eval vm_compute in GENMASK 11 8.
Definition USART_FSTAT_TXFFL_SHIFT : Z := 8.
Definition USART_WHBCON (base : Z) : Z := base + 0x50.
Definition USART_WHBCON_SETREN : Z := Eval vm_compute in BIT 5.
Definition USART_RIS (base : Z) : Z := base + 0x68.
Definition USART_RIS_TX : Z := Eval vm_compute in BIT 0.
Definition USART_ICR (base : Z) : Z := base + 0x70.
Definition USART_ICR_TX : Z := Eval vm_compute in BIT 0.
Definition SIM_BASE : Z := 0xF1300000.
Definition SIM_CLC : Z := Eval vm_compute in SIM_BASE + 0x00.
Definition SIM_CON : Z := Eval vm_compute in SIM_BASE + 0x20.
Definition SIM_CON_SIMIOL : Z := Eval vm_compute in BIT 2.
Definition SIM_CON_SIMEN : Z := Eval vm_compute in BIT 3.
Definition SIM_CON_SIMVCC : Z := Eval vm_compute in BIT 4.
Definition SIM_CON_SIMRST : Z := Eval vm_compute in BIT 5.
Definition SIM_CON_ERROFF : Z := Eval vm_compute in BIT 6.
Definition SIM_CON_SIMON : Z := Eval vm_compute in BIT 10.
Definition SIM_CON_UARTON : Z := Eval vm_compute in BIT 13.
Definition SIM_BRF : Z := Eval vm_compute in SIM_BASE + 0x24.
Definition SIM_BRF_BRF : Z := Eval vm_compute in GENMASK 6 0.
Definition SIM_STAT : Z := Eval vm_compute in SIM_BASE + 0x28.
Definition SIM_IRQEN : Z := Eval vm_compute in SIM_BASE + 0x2C.
Definition SIM_IRQEN_ENOKINT : Z := Eval vm_compute in BIT 0.
Definition SIM_IRQEN_ENPAR : Z := Eval vm_compute in BIT 1.
Definition SIM_IRQEN_ENOVR : Z := Eval vm_compute in BIT 2.
Definition SIM_RXSPC : Z := Eval vm_compute in SIM_BASE + 0x30.
Definition SIM_TXB : Z := Eval vm_compute in SIM_BASE + 0x50.
Definition SIM_RXB : Z := Eval vm_compute in SIM_BASE + 0x54.
Definition SIM_IMSC : Z := Eval vm_compute in SIM_BASE + 0x70.
Definition SIM_IMSC_ERR : Z := Eval vm_compute in BIT 0.
Definition SIM_IMSC_IN : Z := Eval vm_compute in BIT 1.
Definition SIM_IMSC_OK : Z := Eval vm_compute in BIT 2.
Definition SIM_RIS : Z := Eval vm_compute in SIM_BASE + 0x74.
Definition SIM_RIS_ERR : Z := Eval vm_compute in BIT 0.
Definition SIM_RIS_OK : Z := Eval vm_compute in BIT 2.
Definition SIM_ICR : Z := Eval vm_compute in SIM_BASE + 0x7C.
Definition SIM_DMAE : Z := Eval vm_compute in SIM_BASE + 0x84.
Definition SIM_ICR_ERR : Z := Eval vm_compute in BIT 0.
Definition SIM_ICR_OK : Z := Eval vm_compute in BIT 2.
Definition VIC_BASE : Z := 0xF2800000.
Definition VIC_IRQ_ACK : Z := Eval vm_compute in VIC_BASE + 0x14.
Definition VIC_IRQ_CURRENT : Z := Eval vm_compute in VIC_BASE + 0x1C.
Definition VIC_CON (n : Z) : Z := VIC_BASE + 0x30 + (n * 0x4).
Definition DMAC_BASE : Z := 0xF3000000.
Definition DMAC_TC_CLEAR : Z := Eval vm_compute in DMAC_BASE + 0x08.
Definition DMAC_ERR_CLEAR : Z := Eval vm_compute in DMAC_BASE + 0x10.
Definition DMAC_RAW_TC_STATUS : Z := Eval vm_compute in DMAC_BASE + 0x14.
Definition DMAC_RAW_ERR_STATUS : Z := Eval vm_compute in DMAC_BASE + 0x18.
Definition DMAC_CH_SRC_ADDR (n : Z) : Z := DMAC_BASE + 0x100 + (n * 0x20).
Definition DMAC_CH_DST_ADDR (n : Z) : Z := DMAC_BASE + 0x104 + (n * 0x20).
Definition DMAC_CH_CONTROL (n : Z) : Z := DMAC_BASE + 0x10C + (n * 0x20).
Definition DMAC_CH_CONTROL_SB_SIZE_SZ_1 : Z := 0x0.
Definition DMAC_CH_CONTROL_DB_SIZE_SZ_1 : Z := 0x0.
Definition DMAC_CH_CONTROL_S_WIDTH_DWORD : Z := 0x80000.
Definition DMAC_CH_CONTROL_D_WIDTH_DWORD : Z := 0x400000.
Definition DMAC_CH_CONTROL_S_AHB1 : Z := 0x0.
Definition DMAC_CH_CONTROL_D_AHB1 : Z := 0x0.
Definition DMAC_CH_CONTROL_SI : Z := Eval vm_compute in BIT 26.
Definition DMAC_CH_CONTROL_DI : Z := Eval vm_compute in BIT 27.
Definition DMAC_CH_CONTROL_I : Z := Eval vm_compute in BIT 31.
Definition DMAC_CH_CONFIG (n : Z) : Z := DMAC_BASE + 0x110 + (n * 0x20).
Definition DMAC_CH_CONFIG_ENABLE : Z := Eval vm_compute in BIT 0.
Definition DMAC_CH_CONFIG_SRC_PERIPH_SHIFT : Z := 1.
Definition DMAC_CH_CONFIG_DST_PERIPH_SHIFT : Z := 6.
Definition DMAC_CH_CONFIG_FLOW_CTRL_MEM2PER_PER : Z := 0x2800.
Definition DMAC_CH_CONFIG_FLOW_CTRL_PER2MEM_PER : Z := 0x3000.
Definition DMAC_CH_CONFIG_INT_MASK_ERR : Z := Eval vm_compute in BIT 14.
Definition DMAC_CH_CONFIG_INT_MASK_TC : Z := Eval vm_compute in BIT 15.
Definition GPIO_BASE : Z := 0xF4300000.
Definition GPIO_PIN (n : Z) : Z := GPIO_BASE + 0x20 + (n * 0x4).
Definition GPIO_IS_NONE : Z := 0x0.
Definition GPIO_IS_ALT0 : Z := 0x1.
Definition GPIO_OS_NONE : Z := 0x0.
Definition GPIO_OS_ALT0 : Z := 0x10.
Definition GPIO_PS : Z := Eval vm_compute in BIT 8.
Definition GPIO_PS_ALT : Z := 0x0.
Definition GPIO_PS_MANUAL : Z := 0x100.
Definition GPIO_DATA_LOW : Z := 0x0.
Definition GPIO_DATA_HIGH : Z := 0x200.
Definition GPIO_DIR : Z := Eval vm_compute in BIT 10.
Definition GPIO_DIR_IN : Z := 0x0.
Definition GPIO_DIR_OUT : Z := 0x400.
Definition GPIO_PPEN_OPENDRAIN : Z := 0x1000.
Definition SCU_BASE : Z := 0xF4400000.
Definition SCU_RST_SR : Z := Eval vm_compute in SCU_BASE + 0x10.
Definition SCU_RST_SR_HDRST : Z := Eval vm_compute in BIT 28.
Definition SCU_RST_SR_PWDRST : Z := Eval vm_compute in BIT 31.
Definition SCU_WDTCON0 : Z := Eval vm_compute in SCU_BASE + 0x24.
Definition SCU_WDTCON0_ENDINIT : Z := Eval vm_compute in BIT 0.
Definition SCU_WDTCON0_WDTLCK : Z := Eval vm_compute in BIT 1.
Definition SCU_WDTCON0_WDTHPW1 : Z := Eval vm_compute in GENMASK 7 4.
Definition SCU_WDTCON0_WDTPW : Z := Eval vm_compute in GENMASK 15 8.
Definition SCU_WDTCON0_WDTREL : Z := Eval vm_compute in GENMASK 31 16.
Definition SCU_WDTCON0_WDTREL_SHIFT : Z := 16.
Definition SCU_WDTCON1 : Z := Eval vm_compute in SCU_BASE + 0x28.
Definition SCU_WDTCON1_WDTIR : Z := Eval vm_compute in BIT 2.
Definition SCU_WDTCON1_WDTDR : Z := Eval vm_compute in BIT 3.
Definition SCU_EMU_ID : Z := Eval vm_compute in SCU_BASE + 0x4C.
Definition SCU_EMU_ID_VALUE_QEMU : Z := 0x51454D55.
Definition SCU_CHIPID : Z := Eval vm_compute in SCU_BASE + 0x60.
Definition SCU_CHIPID_CHREV : Z := Eval vm_compute in GENMASK 7 0.
Definition SCU_CHIPID_CHREV_SHIFT : Z := 0.
Definition SCU_CHIPID_CHIPD : Z := Eval vm_compute in GENMASK 15 8.
Definition SCU_CHIPID_CHIPD_SHIFT : Z := 8.
Definition SCU_RTCIF : Z := Eval vm_compute in SCU_BASE + 0x64.
Definition SCU_ROMAMCR : Z := Eval vm_compute in SCU_BASE + 0x7C.
Definition SCU_ROMAMCR_MOUNT_BROM : Z := Eval vm_compute in BIT 0.
Definition SCU_DMARS : Z := Eval vm_compute in SCU_BASE + 0x84.
Definition CGU_BASE : Z := 0xF4500000.
Definition CGU_OSC : Z := Eval vm_compute in CGU_BASE + 0xA0.
Definition CGU_OSC_PLL_POWER_UP : Z := Eval vm_compute in BIT 0.
Definition CGU_OSC_PHASE1_POWER_UP : Z := Eval vm_compute in BIT 1.
Definition CGU_OSC_PHASE2_POWER_UP : Z := Eval vm_compute in BIT 2.
Definition CGU_OSC_PHASE3_POWER_UP : Z := Eval vm_compute in BIT 3.
Definition CGU_OSC_PHASE4_POWER_UP : Z := Eval vm_compute in BIT 4.
Definition CGU_OSC_PLL_BYPASS_N : Z := Eval vm_compute in BIT 8.
Definition CGU_OSC_PHASE1_BYPASS_N : Z := Eval vm_compute in BIT 9.
Definition CGU_OSC_PHASE2_BYPASS_N : Z := Eval vm_compute in BIT 10.
Definition CGU_OSC_PHASE3_BYPASS_N : Z := Eval vm_compute in BIT 11.
Definition CGU_OSC_PHASE4_BYPASS_N : Z := Eval vm_compute in BIT 12.
Definition CGU_OSC_NDIV : Z := Eval vm_compute in GENMASK 21 16.
Definition CGU_OSC_NDIV_SHIFT : Z := 16.
Definition CGU_OSC_MDIV : Z := Eval vm_compute in GENMASK 27 24.
Definition CGU_OSC_MDIV_SHIFT : Z := 24.
Definition CGU_CON0 : Z := Eval vm_compute in CGU_BASE + 0xA4.
Definition CGU_CON0_PHASE1_K2 : Z := Eval vm_compute in GENMASK 2 0.
Definition CGU_CON0_PHASE1_K2_SHIFT : Z := 0.
Definition CGU_CON0_PHASE1_K1 : Z := Eval vm_compute in GENMASK 6 3.
Definition CGU_CON0_PHASE1_K1_SHIFT : Z := 3.
Definition CGU_CON0_PHASE2_K2 : Z := Eval vm_compute in GENMASK 10 8.
Definition CGU_CON0_PHASE2_K2_SHIFT : Z := 8.
Definition CGU_CON0_PHASE2_K1 : Z := Eval vm_compute in GENMASK 14 11.
Definition CGU_CON0_PHASE2_K1_SHIFT : Z := 11.
Definition CGU_CON0_PHASE3_K2 : Z := Eval vm_compute in GENMASK 18 16.
Definition CGU_CON0_PHASE3_K2_SHIFT : Z := 16.
Definition CGU_CON0_PHASE3_K1 : Z := Eval vm_compute in GENMASK 22 19.
Definition CGU_CON0_PHASE3_K1_SHIFT : Z := 19.
Definition CGU_CON0_PHASE4_K2 : Z := Eval vm_compute in GENMASK 26 24.
Definition CGU_CON0_PHASE4_K2_SHIFT : Z := 24.
Definition CGU_CON0_PHASE4_K1 : Z := Eval vm_compute in GENMASK 30 27.
Definition CGU_CON0_PHASE4_K1_SHIFT : Z := 27.
Definition CGU_CON1 : Z := Eval vm_compute in CGU_BASE + 0xA8.
Definition CGU_CON1_FPI1_CLKSEL : Z := Eval vm_compute in GENMASK 1 0.
Definition CGU_CON1_FPI1_CLKSEL_SHIFT : Z := 0.
Definition CGU_CON1_FPI1_CLKSEL_OSC : Z := 0x0.
Definition CGU_CON1_FPI1_CLKSEL_CLK32K : Z := 0x1.
Definition CGU_CON1_FPI1_CLKSEL_PLL_DIV_2 : Z := 0x2.
Definition CGU_CON1_FPI1_CLKDIV : Z := Eval vm_compute in GENMASK 5 4.
Definition CGU_CON1_FPI1_CLKDIV_SHIFT : Z := 4.
Definition CGU_CON1_FSYS_CLKSEL : Z := Eval vm_compute in GENMASK 17 16.
Definition CGU_CON1_FSYS_CLKSEL_SHIFT : Z := 16.
Definition CGU_CON1_FSYS_CLKSEL_BYPASS : Z := 0x0.
Definition CGU_CON1_FSYS_CLKSEL_PLL : Z := 0x20000.
Definition CGU_CON1_AHB_CLKSEL : Z := Eval vm_compute in GENMASK 22 20.
Definition CGU_CON1_AHB_CLKSEL_SHIFT : Z := 20.
Definition CGU_CON1_AHB_CLKSEL_BYPASS : Z := 0x0.
Definition CGU_CON1_AHB_CLKSEL_PLL : Z := 0x200000.
Definition CGU_CON1_AHB_CLKSEL_PHASE1 : Z := 0x300000.
Definition CGU_CON1_AHB_CLKSEL_PHASE2 : Z := 0x400000.
Definition CGU_CON1_AHB_CLKSEL_PHASE3 : Z := 0x500000.
Definition CGU_CON1_AHB_CLKSEL_PHASE4 : Z := 0x600000.
Definition CGU_CON1_FPI2_OSC_DISABLE : Z := Eval vm_compute in BIT 24.
Definition CGU_CON1_FPI2_CLKSEL : Z := Eval vm_compute in BIT 25.
Definition CGU_CON1_FPI2_CLKSEL_PLL : Z := 0x2000000.
Definition CGU_CON1_FPI2_CLKDIV : Z := Eval vm_compute in GENMASK 29 28.
Definition CGU_CON1_FPI2_CLKDIV_SHIFT : Z := 28.
Definition CGU_CON2 : Z := Eval vm_compute in CGU_BASE + 0xAC.
Definition CGU_CON2_DSP_CLKSEL : Z := Eval vm_compute in GENMASK 2 0.
Definition CGU_CON2_DSP_CLKSEL_OSC : Z := 0x0.
Definition CGU_CON2_DSP_CLKSEL_PLL : Z := 0x2.
Definition CGU_CON2_DSP_CLKSEL_PHASE1 : Z := 0x3.
Definition CGU_CON2_EBU_CLKSEL : Z := Eval vm_compute in GENMASK 6 4.
Definition CGU_CON2_EBU_CLKSEL_OSC : Z := 0x0.
Definition CGU_CON2_EBU_CLKSEL_PLL : Z := 0x20.
Definition CGU_CON2_EBU_CLKSEL_PHASE1 : Z := 0x30.
Definition CGU_CON2_EBU_CLKSEL_PHASE2 : Z := 0x40.
Definition CGU_CON2_EBU_CLKSEL_PHASE3 : Z := 0x50.
Definition CGU_CON2_EBU_CLKSEL_PHASE4 : Z := 0x60.
Definition CGU_CON2_EBU_CLKSEL_AHB : Z := 0x70.
Definition CGU_CON2_CPU_DIV : Z := Eval vm_compute in GENMASK 9 8.
Definition CGU_CON2_CPU_DIV_SHIFT : Z := 8.
Definition CGU_CON2_CPU_DIV_EN : Z := Eval vm_compute in BIT 12.
Definition CGU_CON2_CLK48M_CLKSEL : Z := Eval vm_compute in GENMASK 15 14.
Definition CGU_CON2_CLK48M_CLKSEL_OSC : Z := 0x0.
Definition CGU_CON2_CLK48M_CLKSEL_PHASE4 : Z := 0x8000.
Definition CGU_CON2_CLKOUT0_EN : Z := Eval vm_compute in BIT 16.
Definition CGU_CON2_CLKOUT0_CLKDIV : Z := Eval vm_compute in GENMASK 18 17.
Definition CGU_CON2_CLKOUT0_CLKDIV_SHIFT : Z := 17.
Definition CGU_CON2_CLKOUT1_EN : Z := Eval vm_compute in BIT 20.
Definition CGU_CON2_CLKOUT1_CLKDIV : Z := Eval vm_compute in GENMASK 22 21.
Definition CGU_CON2_CLKOUT1_CLKDIV_SHIFT : Z := 21.
Definition CGU_CON2_CLK32K_EN : Z := Eval vm_compute in BIT 24.
Definition CGU_CON2_MS_CLKSEL : Z := Eval vm_compute in GENMASK 29 28.
Definition CGU_CON2_MS_CLKSEL_CLK_IN : Z := 0x0.
Definition CGU_CON2_MS_CLKSEL_PLL : Z := 0x20000000.
Definition CGU_STAT : Z := Eval vm_compute in CGU_BASE + 0xB0.
Definition CGU_STAT_LOCK : Z := Eval vm_compute in BIT 13.
Definition CGU_CON3 : Z := Eval vm_compute in CGU_BASE + 0xB4.
Definition CGU_CON3_AHB_PER_CLKSEL : Z := Eval vm_compute in GENMASK 1 0.
Definition CGU_CON3_AHB_PER_CLKSEL_OSC : Z := 0x0.
Definition CGU_CON3_AHB_PER_CLKSEL_CLK32K : Z := 0x1.
Definition CGU_CON3_AHB_PER_CLKSEL_PLL_DIV_2 : Z := 0x2.
Definition CGU_CON3_AHB_PER_CLKDIV : Z := Eval vm_compute in GENMASK 5 4.
Definition CGU_CON3_AHB_PER_CLKDIV_SHIFT : Z := 4.
Definition CGU_CON3_MMCI_CLKSEL : Z := Eval vm_compute in GENMASK 9 8.
Definition CGU_CON3_MMCI_CLKSEL_OSC : Z := 0x0.
Definition CGU_CON3_MMCI_CLKSEL_CLK32K : Z := 0x100.
Definition CGU_CON3_MMCI_CLKSEL_PHASE4 : Z := 0x200.
Definition CGU_CON3_MMCI_CLKDIV : Z := Eval vm_compute in GENMASK 13 12.
Definition CGU_CON3_MMCI_CLKDIV_SHIFT : Z := 12.
Definition CGU_CON3_CLKOUT2_EN : Z := Eval vm_compute in BIT 16.
Definition CGU_CON3_CLKOUT2_CLKDIV : Z := Eval vm_compute in GENMASK 21 20.
Definition CGU_CON3_CLKOUT2_CLKDIV_SHIFT : Z := 20.
Definition CGU_CON3_CLK48M_CLKDIV : Z := Eval vm_compute in GENMASK 25 24.
Definition CGU_CON3_CLK48M_CLKDIV_SHIFT : Z := 24.
Definition CGU_CON3_DMA_CLK_DISABLE : Z := Eval vm_compute in BIT 28.
Definition RTC_BASE : Z := 0xF4700000.
Definition RTC_CLC : Z := Eval vm_compute in RTC_BASE + 0x00.
Definition RTC_CTRL : Z := Eval vm_compute in RTC_BASE + 0x10.
Definition RTC_CTRL_RTCINT : Z := Eval vm_compute in BIT 1.
Definition RTC_CTRL_CLK32KEN : Z := Eval vm_compute in BIT 2.
Definition RTC_CTRL_PU32K : Z := Eval vm_compute in BIT 3.
Definition RTC_CTRL_CLK_SEL : Z := Eval vm_compute in BIT 4.
Definition RTC_CTRL_CLR_RTCINT : Z := Eval vm_compute in BIT 8.
Definition RTC_CTRL_CLR_RTCBAD : Z := Eval vm_compute in BIT 10.
Definition RTC_CON : Z := Eval vm_compute in RTC_BASE + 0x14.
Definition RTC_CON_RUN : Z := Eval vm_compute in BIT 0.
Definition RTC_CON_PRE : Z := Eval vm_compute in BIT 1.
Definition RTC_CON_ACCPOS : Z := Eval vm_compute in BIT 15.
Definition RTC_T14 : Z := Eval vm_compute in RTC_BASE + 0x18.
Definition RTC_T14_REL_SHIFT : Z := 0.
Definition RTC_T14_CNT_SHIFT : Z := 16.
Definition RTC_CNT : Z := Eval vm_compute in RTC_BASE + 0x1C.
Definition RTC_REL : Z := Eval vm_compute in RTC_BASE + 0x20.
Definition RTC_ISNC : Z := Eval vm_compute in RTC_BASE + 0x24.
Definition RTC_ISNC_RTC0IE : Z := Eval vm_compute in BIT 2.
Definition RTC_ISNRC : Z := Eval vm_compute in RTC_BASE + 0x28.
Definition RTC_ISNRC_RTC0 : Z := Eval vm_compute in BIT 2.
Definition RTC_ALARM : Z := Eval vm_compute in RTC_BASE + 0x2C.
Definition RTC_SRC : Z := Eval vm_compute in RTC_BASE + 0xF0.
Definition STM_BASE : Z := 0xF4B00000.
Definition STM_CLC : Z := Eval vm_compute in STM_BASE + 0x00.
Definition STM_CLC_RMC2 : Z := Eval vm_compute in GENMASK 23 16.
Definition STM_CLC_RMC2_SHIFT : Z := 16.
Definition STM_TIM0 : Z := Eval vm_compute in STM_BASE + 0x10.
Definition STM_TIM6 : Z := Eval vm_compute in STM_BASE + 0x28.
Definition TPU_BASE : Z := 0xF6400000.
Definition TPU_COUNTER : Z := Eval vm_compute in TPU_BASE + 0x34.

Module Pmb8875.
Definition DMAC_HAS_REQUEST_SELECTOR : Z := 0.
Definition DIF_BASE : Z := 0xF1B00000.
Definition DIF_CLC : Z := Eval vm_compute in DIF_BASE + 0x00.
Definition DIF_TB : Z := Eval vm_compute in DIF_BASE + 0x20.
Definition I2C_BASE : Z := 0xF4800000.
Definition I2C_CLC : Z := Eval vm_compute in I2C_BASE + 0x00.
Definition I2C_SYSCON : Z := Eval vm_compute in I2C_BASE + 0x10.
Definition I2C_SYSCON_LRB : Z := Eval vm_compute in BIT 3.
Definition I2C_SYSCON_IRQD : Z := Eval vm_compute in BIT 5.
Definition I2C_SYSCON_IRQP : Z := Eval vm_compute in BIT 6.
Definition I2C_SYSCON_IRQE : Z := Eval vm_compute in BIT 7.
Definition I2C_SYSCON_CO : Z := Eval vm_compute in GENMASK 10 8.
Definition I2C_SYSCON_CO_SHIFT : Z := 8.
Definition I2C_SYSCON_MOD_MASTER : Z := 0x80000.
Definition I2C_SYSCON_INT : Z := Eval vm_compute in BIT 22.
Definition I2C_SYSCON_CI : Z := Eval vm_compute in GENMASK 27 26.
Definition I2C_SYSCON_CI_SHIFT : Z := 26.
Definition I2C_BUSCON : Z := Eval vm_compute in I2C_BASE + 0x14.
Definition I2C_BUSCON_SDAEN0 : Z := Eval vm_compute in BIT 0.
Definition I2C_BUSCON_SCLEN0 : Z := Eval vm_compute in BIT 4.
Definition I2C_BUSCON_BRP_SHIFT : Z := 8.
Definition I2C_BUSCON_PREDIV_8 : Z := 0x20000000.
Definition I2C_BUSCON_BRPMOD : Z := Eval vm_compute in BIT 31.
Definition I2C_BUSCON_BRPMOD_MODE0 : Z := 0x0.
Definition I2C_BUSCON_BRPMOD_MODE1 : Z := 0x80000000.
Definition I2C_RTB : Z := Eval vm_compute in I2C_BASE + 0x18.
Definition I2C_WHBSYSCON : Z := Eval vm_compute in I2C_BASE + 0x20.
Definition I2C_WHBSYSCON_CLRAL : Z := Eval vm_compute in BIT 1.
Definition I2C_WHBSYSCON_CLRIRQD : Z := Eval vm_compute in BIT 5.
Definition I2C_WHBSYSCON_CLRIRQP : Z := Eval vm_compute in BIT 6.
Definition I2C_WHBSYSCON_CLRIRQE : Z := Eval vm_compute in BIT 7.
Definition I2C_WHBSYSCON_CLRRSC : Z := Eval vm_compute in BIT 16.
Definition I2C_WHBSYSCON_CLRBUM : Z := Eval vm_compute in BIT 19.
Definition I2C_WHBSYSCON_SETBUM : Z := Eval vm_compute in BIT 20.
Definition I2C_WHBSYSCON_CLRACKDIS : Z := Eval vm_compute in BIT 21.
Definition I2C_WHBSYSCON_SETACKDIS : Z := Eval vm_compute in BIT 22.
Definition I2C_WHBSYSCON_CLRTRX : Z := Eval vm_compute in BIT 23.
Definition I2C_WHBSYSCON_CLRSTP : Z := Eval vm_compute in BIT 25.
Definition I2C_WHBSYSCON_SETSTP : Z := Eval vm_compute in BIT 26.
End Pmb8875.

Module Pmb8876.
Definition VIC_I2C_SINGLE_REQ_IRQ : Z := 155.
Definition VIC_I2C_BURST_REQ_IRQ : Z := 156.
Definition VIC_I2C_ERROR_IRQ : Z := 157.
Definition VIC_I2C_PROTOCOL_IRQ : Z := 158.
Definition DMAC_HAS_REQUEST_SELECTOR : Z := 1.
Definition I2C_DMA_TX_REQUEST : Z := 9.
Definition DMAC_CH_CONTROL_D_AHB2 : Z := 0x2000000.
Definition I2C_DMA_TX_AHB : Z := Eval vm_compute in DMAC_CH_CONTROL_D_AHB2.
Definition I2C_DMA_RX_REQUEST : Z := 9.
Definition DMAC_CH_CONTROL_S_AHB2 : Z := 0x1000000.
Definition I2C_DMA_RX_AHB : Z := Eval vm_compute in DMAC_CH_CONTROL_S_AHB2.
Definition DIF_BASE : Z := 0xF7100000.
Definition DIF_CLC : Z := Eval vm_compute in DIF_BASE + 0x00.
Definition I2C_BASE : Z := 0xF7600000.
Definition I2C_CLC : Z := Eval vm_compute in I2C_BASE + 0x00.
Definition I2C_RUNCTRL : Z := Eval vm_compute in I2C_BASE + 0x10.
Definition I2C_RUNCTRL_RUN : Z := Eval vm_compute in BIT 0.
Definition I2C_ENDDCTRL : Z := Eval vm_compute in I2C_BASE + 0x14.
Definition I2C_ENDDCTRL_SETEND : Z := Eval vm_compute in BIT 1.
Definition I2C_FDIVCFG : Z := Eval vm_compute in I2C_BASE + 0x18.
Definition I2C_FDIVCFG_DEC_SHIFT : Z := 0.
Definition I2C_FDIVCFG_INC_SHIFT : Z := 16.
Definition I2C_ADDRCFG : Z := Eval vm_compute in I2C_BASE + 0x20.
Definition I2C_ADDRCFG_MnS : Z := Eval vm_compute in BIT 19.
Definition I2C_ADDRCFG_SONA : Z := Eval vm_compute in BIT 20.
Definition I2C_ADDRCFG_SOPE : Z := Eval vm_compute in BIT 21.
Definition I2C_BUSSTAT : Z := Eval vm_compute in I2C_BASE + 0x24.
Definition I2C_BUSSTAT_BS : Z := Eval vm_compute in GENMASK 1 0.
Definition I2C_BUSSTAT_BS_FREE : Z := 0x0.
Definition I2C_FIFOCFG : Z := Eval vm_compute in I2C_BASE + 0x28.
Definition I2C_FIFOCFG_RXBS : Z := Eval vm_compute in GENMASK 1 0.
Definition I2C_FIFOCFG_RXBS_SHIFT : Z := 0.
Definition I2C_FIFOCFG_RXBS_1_WORD : Z := 0x0.
Definition I2C_FIFOCFG_TXBS_1_WORD : Z := 0x0.
Definition I2C_FIFOCFG_RXFA : Z := Eval vm_compute in GENMASK 9 8.
Definition I2C_FIFOCFG_RXFA_SHIFT : Z := 8.
Definition I2C_FIFOCFG_RXFA_1 : Z := 0x0.
Definition I2C_FIFOCFG_TXFA : Z := Eval vm_compute in GENMASK 13 12.
Definition I2C_FIFOCFG_TXFA_SHIFT : Z := 12.
Definition I2C_FIFOCFG_RXFC : Z := Eval vm_compute in BIT 16.
Definition I2C_FIFOCFG_TXFC : Z := Eval vm_compute in BIT 17.
Definition I2C_MRPSCTRL : Z := Eval vm_compute in I2C_BASE + 0x2C.
Definition I2C_RPSSTAT : Z := Eval vm_compute in I2C_BASE + 0x30.
Definition I2C_RPSSTAT_RPS : Z := Eval vm_compute in GENMASK 13 0.
Definition I2C_TPSCTRL : Z := Eval vm_compute in I2C_BASE + 0x34.
Definition I2C_FFSSTAT : Z := Eval vm_compute in I2C_BASE + 0x38.
Definition I2C_FFSSTAT_FFS : Z := Eval vm_compute in GENMASK 5 0.
Definition I2C_ERRIRQSM : Z := Eval vm_compute in I2C_BASE + 0x60.
Definition I2C_ERRIRQSS : Z := Eval vm_compute in I2C_BASE + 0x64.
Definition I2C_ERRIRQSC : Z := Eval vm_compute in I2C_BASE + 0x68.
Definition I2C_PIRQSM : Z := Eval vm_compute in I2C_BASE + 0x70.
Definition I2C_PIRQSM_NACK : Z := Eval vm_compute in BIT 4.
Definition I2C_PIRQSM_TX_END : Z := Eval vm_compute in BIT 5.
Definition I2C_PIRQSM_RX : Z := Eval vm_compute in BIT 6.
Definition I2C_PIRQSS : Z := Eval vm_compute in I2C_BASE + 0x74.
Definition I2C_PIRQSS_NACK : Z := Eval vm_compute in BIT 4.
Definition I2C_PIRQSS_TX_END : Z := Eval vm_compute in BIT 5.
Definition I2C_PIRQSS_RX : Z := Eval vm_compute in BIT 6.
Definition I2C_PIRQSC : Z := Eval vm_compute in I2C_BASE + 0x78.
Definition I2C_RIS : Z := Eval vm_compute in I2C_BASE + 0x80.
Definition I2C_RIS_LSREQ_INT : Z := Eval vm_compute in BIT 0.
Definition I2C_RIS_SREQ_INT : Z := Eval vm_compute in BIT 1.
Definition I2C_RIS_LBREQ_INT : Z := Eval vm_compute in BIT 2.
Definition I2C_RIS_BREQ_INT : Z := Eval vm_compute in BIT 3.
Definition I2C_IMSC : Z := Eval vm_compute in I2C_BASE + 0x84.
Definition I2C_IMSC_LSREQ_INT : Z := Eval vm_compute in BIT 0.
Definition I2C_IMSC_SREQ_INT : Z := Eval vm_compute in BIT 1.
Definition I2C_IMSC_LBREQ_INT : Z := Eval vm_compute in BIT 2.
Definition I2C_IMSC_BREQ_INT : Z := Eval vm_compute in BIT 3.
Definition I2C_IMSC_I2C_ERR_INT : Z := Eval vm_compute in BIT 4.
Definition I2C_IMSC_I2C_P_INT : Z := Eval vm_compute in BIT 5.
Definition I2C_ICR : Z := Eval vm_compute in I2C_BASE + 0x8C.
Definition I2C_DMAE : Z := Eval vm_compute in I2C_BASE + 0x94.
Definition I2C_DMAE_LSREQ_INT : Z := Eval vm_compute in BIT 0.
Definition I2C_DMAE_SREQ_INT : Z := Eval vm_compute in BIT 1.
Definition I2C_DMAE_LBREQ_INT : Z := Eval vm_compute in BIT 2.
Definition I2C_DMAE_BREQ_INT : Z := Eval vm_compute in BIT 3.
Definition I2C_TXD : Z := Eval vm_compute in I2C_BASE + 0x8000.
Definition I2C_RXD : Z := Eval vm_compute in I2C_BASE + 0xC000.
End Pmb8876.

(** ** Power-management chips ([lib/gen/peripheral/pmic]) *)
Definition PMB6812_I2C_ADDR : Z := 0x08.
Definition PMB6812_PWCTRL5 : Z := 0x11.
Definition PMB6812_PWCTRL5_LSIMMD : Z := Eval vm_compute in GENMASK 1 0.
Definition PMB6812_PWCTRL5_LSIMMD_OFF : Z := 0x0.
Definition PMB6812_PWCTRL5_LSIMMD_ON : Z := 0x3.
Definition PASIC_I2C_ADDR : Z := 0x31.
Definition PASIC_SUPPLY_ENABLE_1 : Z := 0x06.
Definition PASIC_SUPPLY_ENABLE_1_VAUDREGA_EN : Z := Eval vm_compute in BIT 4.
Definition PASIC_POWER : Z := 0x0E.
Definition PASIC_POWER_POWEROFF : Z := Eval vm_compute in BIT 2.
