(* ===== verification/Clock.v ===== *)
(** * The clock tree ([lib/cpu.c], [unit/cgu/clock.c])

    [lib/cpu.c] computes the frequency of every clock from the registers of the
    clock generation unit; [unit/cgu/clock.c] programs them.  [clock_ideal] reads the
    same registers as a description of a clock tree and computes in unbounded
    integers; the refinement says that every [cpu_get_*_freq] returns the ideal
    frequency, for every register content (no overflow, no division by zero), and the
    round trips say that the setters select the clocks the getters then report. *)
From S2P Require Import Prelude Machine Board Regs.

Section Code.
Context {D A : Type} `{!Device D} `{B : Board}.
#[local] Abbreviation M := (M D A).

Definition phase_freq (pll_freq k1 k2 : Z) : Z :=
  if (pll_freq ==? 0) || (k1 ==? 0) || (5 <? k2) then 0
  else
    let divider := u32 (u32 (k1 * 6) + k2) in
    u32 (u32 ((pll_freq / divider) * 12) + u32 ((pll_freq mod divider) * 12) / divider).

Definition get_pll_core_freq : M Z :=
  osc ← rd32 CGU_OSC;
  if (osc .& CGU_OSC_PLL_POWER_UP) ==? 0 then mret 0
  else
    stat ← rd32 CGU_STAT;
    if (stat .& CGU_STAT_LOCK) ==? 0 then mret 0
    else
      osc ← rd32 CGU_OSC;
      let ndiv := (osc .& CGU_OSC_NDIV) .>> CGU_OSC_NDIV_SHIFT in
      osc ← rd32 CGU_OSC;
      let mdiv := (osc .& CGU_OSC_MDIV) .>> CGU_OSC_MDIV_SHIFT in
      mret (u32 (CPU_OSC_FREQ * u32 (ndiv + 1)) / u32 (mdiv + 1)).

Definition cpu_get_pll_freq : M Z :=
  osc ← rd32 CGU_OSC;
  if (osc .& CGU_OSC_PLL_BYPASS_N) ==? 0 then mret CPU_OSC_FREQ
  else get_pll_core_freq.

(** The tail of [cpu_get_phase_freq] after its [switch]. *)
Definition phase_output (power_up bypass_n k1 k2 : Z) : M Z :=
  osc ← rd32 CGU_OSC;
  if (osc .& bypass_n) ==? 0 then cpu_get_pll_freq
  else
    osc ← rd32 CGU_OSC;
    if (osc .& power_up) ==? 0 then mret 0
    else core ← get_pll_core_freq; mret (phase_freq core k1 k2).

Definition cpu_get_phase_freq (phase : Z) : M Z :=
  match phase with
  | 1 =>
      c1 ← rd32 CGU_CON0; c2 ← rd32 CGU_CON0;
      phase_output CGU_OSC_PHASE1_POWER_UP CGU_OSC_PHASE1_BYPASS_N
        ((c1 .& CGU_CON0_PHASE1_K1) .>> CGU_CON0_PHASE1_K1_SHIFT)
        ((c2 .& CGU_CON0_PHASE1_K2) .>> CGU_CON0_PHASE1_K2_SHIFT)
  | 2 =>
      c1 ← rd32 CGU_CON0; c2 ← rd32 CGU_CON0;
      phase_output CGU_OSC_PHASE2_POWER_UP CGU_OSC_PHASE2_BYPASS_N
        ((c1 .& CGU_CON0_PHASE2_K1) .>> CGU_CON0_PHASE2_K1_SHIFT)
        ((c2 .& CGU_CON0_PHASE2_K2) .>> CGU_CON0_PHASE2_K2_SHIFT)
  | 3 =>
      c1 ← rd32 CGU_CON0; c2 ← rd32 CGU_CON0;
      phase_output CGU_OSC_PHASE3_POWER_UP CGU_OSC_PHASE3_BYPASS_N
        ((c1 .& CGU_CON0_PHASE3_K1) .>> CGU_CON0_PHASE3_K1_SHIFT)
        ((c2 .& CGU_CON0_PHASE3_K2) .>> CGU_CON0_PHASE3_K2_SHIFT)
  | 4 =>
      c1 ← rd32 CGU_CON0; c2 ← rd32 CGU_CON0;
      phase_output CGU_OSC_PHASE4_POWER_UP CGU_OSC_PHASE4_BYPASS_N
        ((c1 .& CGU_CON0_PHASE4_K1) .>> CGU_CON0_PHASE4_K1_SHIFT)
        ((c2 .& CGU_CON0_PHASE4_K2) .>> CGU_CON0_PHASE4_K2_SHIFT)
  | _ => mret 0
  end.

Definition cpu_get_sys_freq : M Z :=
  con1 ← rd32 CGU_CON1;
  let sel := con1 .& CGU_CON1_FSYS_CLKSEL in
  if sel ==? CGU_CON1_FSYS_CLKSEL_BYPASS then mret CPU_OSC_FREQ
  else if sel ==? CGU_CON1_FSYS_CLKSEL_PLL then pll ← cpu_get_pll_freq; mret (pll / 2)
  else mret 0.

Definition cpu_get_fpi2_freq : M Z :=
  con1 ← rd32 CGU_CON1;
  if (con1 .& CGU_CON1_FPI2_CLKSEL) ==? CGU_CON1_FPI2_CLKSEL_PLL then
    con1 ← rd32 CGU_CON1;
    let divider := (con1 .& CGU_CON1_FPI2_CLKDIV) .>> CGU_CON1_FPI2_CLKDIV_SHIFT in
    pll ← cpu_get_pll_freq;
    mret (pll .>> (divider + 1))
  else
    con1 ← rd32 CGU_CON1;
    if (con1 .& CGU_CON1_FPI2_OSC_DISABLE) !=? 0 then mret 0
    else mret CPU_OSC_FREQ.

Definition cpu_get_stm_freq : M Z :=
  clc ← rd32 STM_CLC;
  let divider := (clc .& MOD_CLC_RMC) .>> MOD_CLC_RMC_SHIFT in
  if divider ==? 0 then mret 0
  else
    con1 ← rd32 CGU_CON1;
    divider ← (if (con1 .& CGU_CON1_FPI2_CLKSEL) ==? CGU_CON1_FPI2_CLKSEL_PLL then
                 clc ← rd32 STM_CLC;
                 mret (u32 (divider + ((clc .& STM_CLC_RMC2) .>> STM_CLC_RMC2_SHIFT)))
               else mret divider);
    fpi2 ← cpu_get_fpi2_freq;
    udiv fpi2 divider.

Definition cpu_get_ahb_freq : M Z :=
  con1 ← rd32 CGU_CON1;
  let sel := con1 .& CGU_CON1_AHB_CLKSEL in
  if sel ==? CGU_CON1_AHB_CLKSEL_BYPASS then mret CPU_OSC_FREQ
  else if sel ==? CGU_CON1_AHB_CLKSEL_PLL then cpu_get_pll_freq
  else if sel ==? CGU_CON1_AHB_CLKSEL_PHASE1 then cpu_get_phase_freq 1
  else if sel ==? CGU_CON1_AHB_CLKSEL_PHASE2 then cpu_get_phase_freq 2
  else if sel ==? CGU_CON1_AHB_CLKSEL_PHASE3 then cpu_get_phase_freq 3
  else if sel ==? CGU_CON1_AHB_CLKSEL_PHASE4 then cpu_get_phase_freq 4
  else mret 0.

Definition cpu_get_freq : M Z :=
  ahb_freq ← cpu_get_ahb_freq;
  con2 ← rd32 CGU_CON2;
  if (con2 .& CGU_CON2_CPU_DIV_EN) ==? 0 then mret ahb_freq
  else
    con2 ← rd32 CGU_CON2;
    let divider := u32 (((con2 .& CGU_CON2_CPU_DIV) .>> CGU_CON2_CPU_DIV_SHIFT) + 1) in
    udiv ahb_freq divider.

Definition cpu_get_ebu_freq : M Z :=
  con2 ← rd32 CGU_CON2;
  let sel := con2 .& CGU_CON2_EBU_CLKSEL in
  if sel ==? CGU_CON2_EBU_CLKSEL_OSC then mret CPU_OSC_FREQ
  else if sel ==? CGU_CON2_EBU_CLKSEL_PLL then cpu_get_pll_freq
  else if sel ==? CGU_CON2_EBU_CLKSEL_PHASE1 then cpu_get_phase_freq 1
  else if sel ==? CGU_CON2_EBU_CLKSEL_PHASE2 then cpu_get_phase_freq 2
  else if sel ==? CGU_CON2_EBU_CLKSEL_PHASE3 then cpu_get_phase_freq 3
  else if sel ==? CGU_CON2_EBU_CLKSEL_PHASE4 then cpu_get_phase_freq 4
  else if sel ==? CGU_CON2_EBU_CLKSEL_AHB then cpu_get_ahb_freq
  else mret 0.

Definition cpu_get_dsp_freq : M Z :=
  con2 ← rd32 CGU_CON2;
  let sel := con2 .& CGU_CON2_DSP_CLKSEL in
  if sel ==? CGU_CON2_DSP_CLKSEL_OSC then mret CPU_OSC_FREQ
  else if sel ==? CGU_CON2_DSP_CLKSEL_PHASE1 then cpu_get_phase_freq 1
  else if sel ==? CGU_CON2_DSP_CLKSEL_PLL then cpu_get_pll_freq
  else mret 0.

Definition cpu_get_fpi1_freq : M Z :=
  con1 ← rd32 CGU_CON1;
  let sel := con1 .& CGU_CON1_FPI1_CLKSEL in
  if sel ==? CGU_CON1_FPI1_CLKSEL_OSC then mret CPU_OSC_FREQ
  else if sel ==? CGU_CON1_FPI1_CLKSEL_CLK32K then mret CPU_CLK32K_FREQ
  else if sel ==? CGU_CON1_FPI1_CLKSEL_PLL_DIV_2 then
    con1 ← rd32 CGU_CON1;
    let divider := (con1 .& CGU_CON1_FPI1_CLKDIV) .>> CGU_CON1_FPI1_CLKDIV_SHIFT in
    pll ← cpu_get_pll_freq;
    mret ((pll / 2) .>> divider)
  else mret 0.

Definition cpu_get_ahb_per_freq : M Z :=
  match board_chip with
  | PMB8875 => mret 0
  | PMB8876 =>
      con3 ← rd32 CGU_CON3;
      let sel := con3 .& CGU_CON3_AHB_PER_CLKSEL in
      if sel ==? CGU_CON3_AHB_PER_CLKSEL_OSC then mret CPU_OSC_FREQ
      else if sel ==? CGU_CON3_AHB_PER_CLKSEL_CLK32K then mret CPU_CLK32K_FREQ
      else if sel ==? CGU_CON3_AHB_PER_CLKSEL_PLL_DIV_2 then
        pll ← cpu_get_pll_freq;
        let frequency := pll / 2 in
        con3 ← rd32 CGU_CON3;
        let divider := (con3 .& CGU_CON3_AHB_PER_CLKDIV) .>> CGU_CON3_AHB_PER_CLKDIV_SHIFT in
        mret (frequency .>> divider)
      else mret 0
  end.

(** The divider that [PMB8876] applies after the [switch] of a clock. *)
Definition con3_divide (frequency mask shift : Z) : M Z :=
  con3 ← rd32 CGU_CON3; mret (frequency .>> ((con3 .& mask) .>> shift)).

Definition cpu_get_clk48m_freq : M Z :=
  con2 ← rd32 CGU_CON2;
  let sel := con2 .& CGU_CON2_CLK48M_CLKSEL in
  let finish frequency :=
    match board_chip with
    | PMB8875 => mret frequency
    | PMB8876 => con3_divide frequency CGU_CON3_CLK48M_CLKDIV CGU_CON3_CLK48M_CLKDIV_SHIFT
    end in
  if sel ==? CGU_CON2_CLK48M_CLKSEL_OSC then finish CPU_OSC_FREQ
  else if sel ==? CGU_CON2_CLK48M_CLKSEL_PHASE4 then
    frequency ← cpu_get_phase_freq 4; finish frequency
  else mret 0.

Definition cpu_get_mmci_freq : M Z :=
  match board_chip with
  | PMB8875 => mret 0
  | PMB8876 =>
      con3 ← rd32 CGU_CON3;
      let sel := con3 .& CGU_CON3_MMCI_CLKSEL in
      let finish frequency := con3_divide frequency CGU_CON3_MMCI_CLKDIV CGU_CON3_MMCI_CLKDIV_SHIFT in
      if sel ==? CGU_CON3_MMCI_CLKSEL_OSC then finish CPU_OSC_FREQ
      else if sel ==? CGU_CON3_MMCI_CLKSEL_CLK32K then finish CPU_CLK32K_FREQ
      else if sel ==? CGU_CON3_MMCI_CLKSEL_PHASE4 then
        frequency ← cpu_get_phase_freq 4; finish frequency
      else mret 0
  end.

Definition cpu_get_clkout0_freq : M Z :=
  con2 ← rd32 CGU_CON2;
  if (con2 .& CGU_CON2_CLKOUT0_EN) ==? 0 then mret 0
  else
    con2 ← rd32 CGU_CON2;
    mret (CPU_OSC_FREQ .>> ((con2 .& CGU_CON2_CLKOUT0_CLKDIV) .>> CGU_CON2_CLKOUT0_CLKDIV_SHIFT)).

Definition cpu_get_clkout1_freq : M Z :=
  con2 ← rd32 CGU_CON2;
  if (con2 .& CGU_CON2_CLKOUT1_EN) ==? 0 then mret 0
  else
    con2 ← rd32 CGU_CON2;
    mret (CPU_OSC_FREQ .>> ((con2 .& CGU_CON2_CLKOUT1_CLKDIV) .>> CGU_CON2_CLKOUT1_CLKDIV_SHIFT)).

Definition cpu_get_clkout2_freq : M Z :=
  match board_chip with
  | PMB8875 => mret 0
  | PMB8876 =>
      con3 ← rd32 CGU_CON3;
      if (con3 .& CGU_CON3_CLKOUT2_EN) ==? 0 then mret 0
      else
        con3 ← rd32 CGU_CON3;
        let divider := (con3 .& CGU_CON3_CLKOUT2_CLKDIV) .>> CGU_CON3_CLKOUT2_CLKDIV_SHIFT in
        freq ← cpu_get_phase_freq 4;
        mret (freq .>> divider)
  end.

Definition cpu_get_clk32k_freq : M Z :=
  con2 ← rd32 CGU_CON2;
  mret (if (con2 .& CGU_CON2_CLK32K_EN) !=? 0 then CPU_CLK32K_FREQ else 0).

Definition cpu_get_ms_freq : M Z :=
  con2 ← rd32 CGU_CON2;
  let sel := con2 .& CGU_CON2_MS_CLKSEL in
  if sel ==? CGU_CON2_MS_CLKSEL_CLK_IN then mret CPU_OSC_FREQ
  else if sel ==? CGU_CON2_MS_CLKSEL_PLL then cpu_get_pll_freq
  else mret 0.

Definition cpu_get_dma_freq : M Z :=
  match board_chip with
  | PMB8875 => cpu_get_pll_freq
  | PMB8876 =>
      con3 ← rd32 CGU_CON3;
      if (con3 .& CGU_CON3_DMA_CLK_DISABLE) !=? 0 then mret 0 else cpu_get_pll_freq
  end.

(** *** [unit/cgu/clock.c] *)
Definition cgu_pll_set (ndiv mdiv : Z) : M unit :=
  let pll_mask := CGU_OSC_NDIV .| CGU_OSC_MDIV .| CGU_OSC_PLL_POWER_UP .| CGU_OSC_PLL_BYPASS_N in
  osc ← rd32 CGU_OSC;
  let osc := (osc .& not32 pll_mask) .| u32 (ndiv .<< CGU_OSC_NDIV_SHIFT) .|
             u32 (mdiv .<< CGU_OSC_MDIV_SHIFT) in
  con1 ← rd32 CGU_CON1;
  wr32 CGU_CON1 (con1 .& not32 (CGU_CON1_AHB_CLKSEL .| CGU_CON1_FSYS_CLKSEL));;
  wr32 CGU_OSC osc;;
  wr32 CGU_OSC (osc .| CGU_OSC_PLL_POWER_UP);;
  poll (stat ← rd32 CGU_STAT; mret ((stat .& CGU_STAT_LOCK) !=? 0)) (mret tt);;
  wr32 CGU_OSC (osc .| CGU_OSC_PLL_POWER_UP .| CGU_OSC_PLL_BYPASS_N).

Definition cgu_firmware_pll_enable : M unit :=
  let timings := EBU_SDRMCON_CRP .| EBU_SDRMCON_CRCD .| EBU_SDRMCON_CRC .| EBU_SDRMCON_CRCE in
  con ← rd32 (EBU_SDRMCON 0);
  wr32 (EBU_SDRMCON 0) ((con .& not32 timings) .| (0x00D7A870 .& timings));;
  ref ← rd32 (EBU_SDRMREF 0);
  wr32 (EBU_SDRMREF 0)
    ((ref .& not32 EBU_SDRMREF_REFRESHC) .| (0x00000A19 .& EBU_SDRMREF_REFRESHC));;
  md ← rd32 (EBU_SDRMOD 0);
  wr32 (EBU_SDRMOD 0) ((md .& not32 EBU_SDRMOD_CASLAT) .| (0x00000033 .& EBU_SDRMOD_CASLAT));;
  cgu_pll_set 3 0;;
  con2 ← rd32 CGU_CON2;
  wr32 CGU_CON2 ((con2 .& not32 CGU_CON2_EBU_CLKSEL) .| CGU_CON2_EBU_CLKSEL_PLL);;
  con1 ← rd32 CGU_CON1;
  wr32 CGU_CON1 (con1 .| CGU_CON1_AHB_CLKSEL_PLL).

Definition cgu_phases_enable (phases : Z) : M unit :=
  osc ← rd32 CGU_OSC;
  wr32 CGU_OSC (osc .| (u32 (phases .<< 1) .| u32 (phases .<< 9))).

Definition cgu_phase_set_divider (phase k1 k2 : Z) : M unit :=
  let shift := u32 (u32 (phase - 1) * 8) in
  let config := u32 (k1 .<< 3) .| k2 in
  con0 ← rd32 CGU_CON0;
  wr32 CGU_CON0 ((con0 .& not32 (u32 (0xFF .<< shift))) .| u32 (config .<< shift)).

Definition cgu_fsys_select (source : Z) : M unit :=
  con1 ← rd32 CGU_CON1;
  wr32 CGU_CON1 ((con1 .& not32 CGU_CON1_FSYS_CLKSEL) .| u32 (source .<< CGU_CON1_FSYS_CLKSEL_SHIFT)).

Definition cgu_ahb_select (source : Z) : M unit :=
  con1 ← rd32 CGU_CON1;
  wr32 CGU_CON1 ((con1 .& not32 CGU_CON1_AHB_CLKSEL) .| u32 (source .<< CGU_CON1_AHB_CLKSEL_SHIFT)).

Definition cgu_fpi1_select (source divider : Z) : M unit :=
  con1 ← rd32 CGU_CON1;
  wr32 CGU_CON1 ((con1 .& not32 (CGU_CON1_FPI1_CLKSEL .| CGU_CON1_FPI1_CLKDIV)) .|
    u32 (source .<< CGU_CON1_FPI1_CLKSEL_SHIFT) .| u32 (divider .<< CGU_CON1_FPI1_CLKDIV_SHIFT)).
End Code.

(** The enumerations of [unit/cgu/clock.h]. *)
Definition CGU_FSYS_OSC : Z := 0.
Definition CGU_FSYS_PLL : Z := 2.
Definition CGU_AHB_OSC : Z := 0.
Definition CGU_AHB_DISABLED : Z := 1.
Definition CGU_AHB_PLL : Z := 2.
Definition CGU_AHB_PHASE1 : Z := 3.
Definition CGU_AHB_PHASE2 : Z := 4.
Definition CGU_AHB_PHASE3 : Z := 5.
Definition CGU_AHB_PHASE4 : Z := 6.
Definition CGU_FPI1_OSC : Z := 0.
Definition CGU_FPI1_CLK32K : Z := 1.
Definition CGU_FPI1_PLL_DIV_2 : Z := 2.
Definition CGU_FPI1_DISABLED : Z := 3.
Definition CGU_PHASE_ALL : Z := 15.

(** ** The clock tree *)

(** The clocks the library reports, and the function for each. *)
Inductive clock :=
  | ClkPll | ClkPhase (n : Z) | ClkSys | ClkStm | ClkAhb | ClkCpu | ClkEbu | ClkDsp | ClkFpi1
  | ClkFpi2 | ClkAhbPer | Clk48m | ClkMmci | ClkOut0 | ClkOut1 | ClkOut2 | Clk32k | ClkMs | ClkDma.
Definition cpu_get {D A} `{!Device D} `{B : Board} (k : clock) : M D A Z :=
  match k with
  | ClkPll => cpu_get_pll_freq | ClkPhase n => cpu_get_phase_freq n | ClkSys => cpu_get_sys_freq
  | ClkStm => cpu_get_stm_freq | ClkAhb => cpu_get_ahb_freq | ClkCpu => cpu_get_freq
  | ClkEbu => cpu_get_ebu_freq | ClkDsp => cpu_get_dsp_freq | ClkFpi1 => cpu_get_fpi1_freq
  | ClkFpi2 => cpu_get_fpi2_freq | ClkAhbPer => cpu_get_ahb_per_freq | Clk48m => cpu_get_clk48m_freq
  | ClkMmci => cpu_get_mmci_freq | ClkOut0 => cpu_get_clkout0_freq | ClkOut1 => cpu_get_clkout1_freq
  | ClkOut2 => cpu_get_clkout2_freq | Clk32k => cpu_get_clk32k_freq | ClkMs => cpu_get_ms_freq
  | ClkDma => cpu_get_dma_freq
  end.

Section Ideal.
(** [c a]: the content of the register at address [a]. *)
Context `{B : Board} (c : Z -> Z).

(** Bits [lo] to [hi] of a register. *)
Definition bits (reg hi lo : Z) : Z := (c reg / 2 ^ lo) mod 2 ^ (hi - lo + 1).
Definition on (reg i : Z) : bool := Z.testbit (c reg) i.

Definition ideal_core : Z :=
  if on CGU_OSC 0 && on CGU_STAT 13 then
    CPU_OSC_FREQ * (bits CGU_OSC 21 16 + 1) / (bits CGU_OSC 27 24 + 1)
  else 0.
Definition ideal_pll : Z := if on CGU_OSC 8 then ideal_core else CPU_OSC_FREQ.
Definition ideal_phase (n : Z) : Z :=
  if (1 <=? n) && (n <=? 4) then
    if negb (on CGU_OSC (8 + n)) then ideal_pll
    else
      let k1 := bits CGU_CON0 (8 * n - 2) (8 * n - 5) in
      let k2 := bits CGU_CON0 (8 * n - 6) (8 * n - 8) in
      if on CGU_OSC n && negb (k1 =? 0) && (k2 <=? 5) then 12 * ideal_core / (6 * k1 + k2) else 0
  else 0.

(** Selector values 0, 2..6 of the AHB and EBU multiplexers. *)
Definition ideal_mux (sel : Z) : Z :=
  if sel =? 0 then CPU_OSC_FREQ else if sel =? 2 then ideal_pll
  else if (3 <=? sel) && (sel <=? 6) then ideal_phase (sel - 2) else 0.
Definition ideal_ahb : Z := ideal_mux (bits CGU_CON1 22 20).
Definition ideal_fpi2 : Z :=
  if on CGU_CON1 25 then ideal_pll / 2 ^ (bits CGU_CON1 29 28 + 1)
  else if on CGU_CON1 24 then 0 else CPU_OSC_FREQ.

Definition clock_ideal (k : clock) : Z :=
  match k with
  | ClkPll => ideal_pll
  | ClkPhase n => ideal_phase n
  | ClkSys =>
      let sel := bits CGU_CON1 17 16 in
      if sel =? 0 then CPU_OSC_FREQ else if sel =? 2 then ideal_pll / 2 else 0
  | ClkStm =>
      let rmc := bits STM_CLC 15 8 in
      if rmc =? 0 then 0
      else ideal_fpi2 / (rmc + if on CGU_CON1 25 then bits STM_CLC 23 16 else 0)
  | ClkAhb => ideal_ahb
  | ClkCpu => if on CGU_CON2 12 then ideal_ahb / (bits CGU_CON2 9 8 + 1) else ideal_ahb
  | ClkEbu => let sel := bits CGU_CON2 6 4 in if sel =? 7 then ideal_ahb else ideal_mux sel
  | ClkDsp =>
      let sel := bits CGU_CON2 2 0 in
      if sel =? 0 then CPU_OSC_FREQ else if sel =? 3 then ideal_phase 1
      else if sel =? 2 then ideal_pll else 0
  | ClkFpi1 =>
      let sel := bits CGU_CON1 1 0 in
      if sel =? 0 then CPU_OSC_FREQ else if sel =? 1 then CPU_CLK32K_FREQ
      else if sel =? 2 then ideal_pll / 2 / 2 ^ bits CGU_CON1 5 4 else 0
  | ClkFpi2 => ideal_fpi2
  | ClkAhbPer =>
      if decide (board_chip = PMB8875) then 0 else
      let sel := bits CGU_CON3 1 0 in
      if sel =? 0 then CPU_OSC_FREQ else if sel =? 1 then CPU_CLK32K_FREQ
      else if sel =? 2 then ideal_pll / 2 / 2 ^ bits CGU_CON3 5 4 else 0
  | Clk48m =>
      let sel := bits CGU_CON2 15 14 in
      let div := if decide (board_chip = PMB8875) then 1
                 else 2 ^ bits CGU_CON3 25 24 in
      if sel =? 0 then CPU_OSC_FREQ / div else if sel =? 2 then ideal_phase 4 / div else 0
  | ClkMmci =>
      if decide (board_chip = PMB8875) then 0 else
      let sel := bits CGU_CON3 9 8 in
      let div := 2 ^ bits CGU_CON3 13 12 in
      if sel =? 0 then CPU_OSC_FREQ / div else if sel =? 1 then CPU_CLK32K_FREQ / div
      else if sel =? 2 then ideal_phase 4 / div else 0
  | ClkOut0 => if on CGU_CON2 16 then CPU_OSC_FREQ / 2 ^ bits CGU_CON2 18 17 else 0
  | ClkOut1 => if on CGU_CON2 20 then CPU_OSC_FREQ / 2 ^ bits CGU_CON2 22 21 else 0
  | ClkOut2 =>
      if decide (board_chip = PMB8875) then 0 else
      if on CGU_CON3 16 then ideal_phase 4 / 2 ^ bits CGU_CON3 21 20 else 0
  | Clk32k => if on CGU_CON2 24 then CPU_CLK32K_FREQ else 0
  | ClkMs =>
      let sel := bits CGU_CON2 29 28 in
      if sel =? 0 then CPU_OSC_FREQ else if sel =? 2 then ideal_pll else 0
  | ClkDma =>
      if decide (board_chip = PMB8875) then ideal_pll else
      if on CGU_CON3 28 then 0 else ideal_pll
  end.
End Ideal.
Arguments on : simpl never.
Arguments bits : simpl never.
Arguments ideal_core : simpl never.
Arguments ideal_pll : simpl never.
Arguments ideal_phase : simpl never.

(** ** Fields of a register *)
Lemma land_field x m lo n : 0 <= lo -> 0 <= n -> m = Z.ones n .<< lo ->
  (x .& m) .>> lo = (x / 2 ^ lo) mod 2 ^ n.
Proof.
  intros Hlo Hn ->. rewrite <- Z.shiftr_div_pow2, <- Z.land_ones by done.
  rewrite Z.shiftr_land. f_equal. by rewrite Z.shiftr_shiftl_l, Z.sub_diag, Z.shiftl_0_r by done.
Qed.
Lemma land_select x m lo n k : 0 <= lo -> 0 <= n -> m = Z.ones n .<< lo ->
  ((x .& m) ==? (k .<< lo)) = ((x / 2 ^ lo) mod 2 ^ n =? k).
Proof.
  intros Hlo Hn Hm. rewrite <- (land_field x m lo n) by done.
  assert (x .& m = ((x .& m) .>> lo) .<< lo) as E.
  { subst m. apply Z.bits_inj'. intros i Hi. destruct (Z.lt_ge_cases i lo).
    - rewrite Z.land_spec, !Z.shiftl_spec_low by lia. apply andb_false_r.
    - rewrite Z.shiftl_spec, Z.shiftr_spec by lia. by replace (i - lo + lo) with i by lia. }
  destruct (Z.eqb_spec (x .& m) (k .<< lo)) as [Ha|Ha], (Z.eqb_spec ((x .& m) .>> lo) k) as [Hb|Hb]; try done.
  - by rewrite Ha, Z.shiftr_shiftl_l, Z.sub_diag, Z.shiftl_0_r in Hb by done.
  - by rewrite E, Hb in Ha.
Qed.
Lemma land_bit x i : 0 <= i -> ((x .& (1 .<< i)) ==? 0) = negb (Z.testbit x i).
Proof.
  intros Hi. destruct (Z.testbit x i) eqn:Hb; simpl.
  - apply Z.eqb_neq. intros H. apply (f_equal (fun z => Z.testbit z i)) in H.
    rewrite Z.land_spec, Hb, Z.shiftl_spec, Z.sub_diag, Z.testbit_0_l in H by done. done.
  - apply Z.eqb_eq, Z.bits_inj'. intros j Hj. rewrite Z.land_spec, Z.testbit_0_l.
    destruct (Z.eq_dec j i) as [->|]; [by rewrite Hb|].
    replace (Z.testbit (1 .<< i) j) with false; [apply andb_false_r|].
    symmetry. destruct (Z.lt_ge_cases j i); [by apply Z.shiftl_spec_low|].
    rewrite Z.shiftl_spec by lia. apply (bits_above 1); lia.
Qed.

(** ** The getters report the ideal clock tree *)
Definition cgu_regs : list Z := [CGU_OSC; CGU_STAT; CGU_CON0; CGU_CON1; CGU_CON2; CGU_CON3; STM_CLC].

Section Refinement.
Context {D A : Type} `{!Device D} `{B : Board}.

(** The clock registers hold [c], and reading one has no effect. *)
Definition cgu_reads (c : Z -> Z) (d : D) : Prop :=
  forall a, a ∈ cgu_regs -> dev_read (Mmio 32 a) d = (c a, d).

Context (c : Z -> Z) (Hc : forall a, is_u32 (c a)).

(** [m] returns [v] and only reads clock registers. *)
Definition returns (m : M D A Z) (v : Z) : Prop :=
  forall f w, cgu_reads c (w_dev w) ->
    exists log, m f w = Done v (World (w_dev w) (w_mem w) log (w_lib w) (w_app w)).
Lemma returns_ret v : returns (mret v) v.
Proof. intros f w _. exists (w_log w). by destruct w. Qed.
Lemma returns_bind m k v u : returns m v -> returns (k v) u -> returns (m ≫= k) u.
Proof.
  intros Hm Hk f w Hw. destruct (Hm f w Hw) as [l1 E1]. unfold mbind, M_bind. rewrite E1.
  destruct (Hk f (World (w_dev w) (w_mem w) l1 (w_lib w) (w_app w)) Hw) as [l2 E2]. by exists l2.
Qed.
Lemma returns_rd a : a ∈ cgu_regs -> returns (rd32 a) (c a).
Proof.
  intros Ha f w Hw. unfold rd32, rd. rewrite (Hw a Ha). simpl. rewrite u32_small by apply Hc.
  by eexists.
Qed.
Lemma returns_rd_bind a k u : a ∈ cgu_regs -> returns (k (c a)) u -> returns (rd32 a ≫= k) u.
Proof. intros. eapply returns_bind; [by apply returns_rd|done]. Qed.
Lemma returns_if (b : bool) m1 m2 v1 v2 : (b = true -> returns m1 v1) -> (b = false -> returns m2 v2) ->
  returns (if b then m1 else m2) (if b then v1 else v2).
Proof. destruct b; auto. Qed.
Lemma returns_udiv a b : b <> 0 -> returns (udiv a b) (a / b).
Proof. intros Hb. unfold udiv. destruct (Z.eqb_spec b 0); [done|]. apply returns_ret. Qed.

(** The code's masks and constants as fields. *)
Lemma sel_bits reg m v hi lo k : 0 <= lo <= hi -> m = Z.ones (hi - lo + 1) .<< lo -> v = k .<< lo ->
  ((c reg .& m) ==? v) = (bits c reg hi lo =? k).
Proof. intros H Hm ->. by apply land_select; [lia..|]. Qed.
Lemma fld_bits reg m s hi lo : 0 <= lo <= hi -> m = Z.ones (hi - lo + 1) .<< lo -> s = lo ->
  (c reg .& m) .>> s = bits c reg hi lo.
Proof. intros H Hm ->. by apply land_field; [lia..|]. Qed.
Lemma bit_on reg m i : 0 <= i -> m = 1 .<< i -> ((c reg .& m) ==? 0) = negb (on c reg i).
Proof. intros Hi ->. by apply land_bit. Qed.
Lemma bits_range reg hi lo : 0 <= lo <= hi -> 0 <= bits c reg hi lo < 2 ^ (hi - lo + 1).
Proof. intros H. apply Z.mod_pos_bound. lia. Qed.

Lemma ideal_core_range : 0 <= ideal_core c <= 1664000000.
Proof.
  unfold ideal_core. destruct (_ && _); [|lia].
  pose proof (bits_range CGU_OSC 21 16 ltac:(lia)). pose proof (bits_range CGU_OSC 27 24 ltac:(lia)).
  change (2 ^ (21 - 16 + 1)) with 64 in *. change (2 ^ (27 - 24 + 1)) with 16 in *.
  unfold CPU_OSC_FREQ. split; [apply Z.div_pos; lia|].
  apply Z.div_le_upper_bound; nia.
Qed.
Lemma ideal_pll_range : 0 <= ideal_pll c <= 1664000000.
Proof. unfold ideal_pll. pose proof ideal_core_range. destruct (on _ _ _); unfold CPU_OSC_FREQ; lia. Qed.

Lemma phase_freq_spec p k1 k2 : 0 <= p <= 1664000000 -> 0 <= k1 < 16 -> 0 <= k2 < 8 ->
  phase_freq p k1 k2 = if negb (k1 =? 0) && (k2 <=? 5) then 12 * p / (6 * k1 + k2) else 0.
Proof.
  intros Hp Hk1 Hk2. unfold phase_freq.
  destruct (Z.eqb_spec p 0) as [->|Hp0], (Z.eqb_spec k1 0), (Z.ltb_spec 5 k2), (Z.leb_spec k2 5);
    cbn [negb andb orb]; try lia.
  - rewrite Z.mul_0_r, Z.div_0_l; lia.
  - rewrite (u32_small (k1 * 6)), (u32_small (k1 * 6 + k2)) by ulia.
    set (d := k1 * 6 + k2). assert (6 <= d <= 95) by lia.
    pose proof (Z.div_mod p d ltac:(lia)) as E. pose proof (Z.mod_pos_bound p d ltac:(lia)).
    set (q := p / d) in *. set (r := p mod d) in *.
    assert (0 <= q) by (apply Z.div_pos; lia). assert (6 * q <= p) by nia.
    assert (0 <= r * 12 / d < 12)
      by (split; [apply Z.div_pos; lia|apply Z.div_lt_upper_bound; lia]).
    rewrite (u32_small (q * 12)), (u32_small (r * 12)) by (unfold is_u32; lia).
    rewrite (u32_small (q * 12 + _)) by (unfold is_u32; lia).
    replace (6 * k1 + k2) with d by lia. replace (12 * p) with (r * 12 + (q * 12) * d) by lia.
    rewrite Z.div_add by lia. lia.
Qed.
End Refinement.

Ltac in_regs := apply list_elem_of_In; vm_compute; tauto.
Ltac rds :=
  repeat lazymatch goal with
  | |- returns _ (rd32 _ ≫= _) _ => apply returns_rd_bind; [done|in_regs|]
  end.

Section Getters.
Context {D A : Type} `{!Device D} `{B : Board} (c : Z -> Z) (Hc : forall a, is_u32 (c a)).
#[local] Abbreviation ret_ := (returns (D := D) (A := A) c).

Lemma ret_core : ret_ get_pll_core_freq (ideal_core c).
Proof.
  unfold get_pll_core_freq, ideal_core. rds. rewrite (bit_on c _ _ 0) by (lia || reflexivity).
  destruct (on c CGU_OSC 0); simpl; [|apply returns_ret]. rds.
  rewrite (bit_on c _ _ 13) by (lia || reflexivity).
  destruct (on c CGU_STAT 13); simpl; [|apply returns_ret]. rds.
  rewrite (fld_bits c CGU_OSC CGU_OSC_NDIV _ 21 16), (fld_bits c CGU_OSC CGU_OSC_MDIV _ 27 24)
    by (lia || reflexivity).
  pose proof (bits_range c CGU_OSC 21 16 ltac:(lia)). pose proof (bits_range c CGU_OSC 27 24 ltac:(lia)).
  change (2 ^ (21 - 16 + 1)) with 64 in *. change (2 ^ (27 - 24 + 1)) with 16 in *.
  rewrite (u32_small (bits c CGU_OSC 21 16 + 1)), (u32_small (bits c CGU_OSC 27 24 + 1)) by ulia.
  rewrite u32_small by (unfold CPU_OSC_FREQ, is_u32; lia). apply returns_ret.
Qed.
Lemma ret_pll : ret_ cpu_get_pll_freq (ideal_pll c).
Proof.
  unfold cpu_get_pll_freq, ideal_pll. rds. rewrite (bit_on c _ _ 8) by (lia || reflexivity).
  destruct (on c CGU_OSC 8); simpl; [apply ret_core|apply returns_ret].
Qed.
Lemma ret_phase_output (n pu bp k1 k2 : Z) :
  1 <= n <= 4 -> pu = 1 .<< n -> bp = 1 .<< (8 + n) ->
  k1 = bits c CGU_CON0 (8 * n - 2) (8 * n - 5) -> k2 = bits c CGU_CON0 (8 * n - 6) (8 * n - 8) ->
  ret_ (phase_output pu bp k1 k2) (ideal_phase c n).
Proof.
  intros Hn -> -> Hk1 Hk2. unfold phase_output, ideal_phase.
  destruct (Z.leb_spec 1 n), (Z.leb_spec n 4); try lia. simpl. rds.
  rewrite (bit_on c _ _ (8 + n)) by (lia || reflexivity). destruct (on c CGU_OSC (8 + n)); simpl; [|apply ret_pll].
  rds. rewrite (bit_on c _ _ n) by (lia || reflexivity). rewrite <- Hk1, <- Hk2.
  destruct (on c CGU_OSC n); simpl; [|apply returns_ret].
  eapply returns_bind; [apply ret_core|].
  rewrite phase_freq_spec; [apply returns_ret|apply ideal_core_range|..].
  - rewrite Hk1. pose proof (bits_range c CGU_CON0 (8 * n - 2) (8 * n - 5) ltac:(lia)) as H'.
    by replace (8 * n - 2 - (8 * n - 5) + 1) with 4 in H' by lia.
  - rewrite Hk2. pose proof (bits_range c CGU_CON0 (8 * n - 6) (8 * n - 8) ltac:(lia)) as H'.
    by replace (8 * n - 6 - (8 * n - 8) + 1) with 3 in H' by lia.
Qed.
Lemma ret_phase n : ret_ (cpu_get_phase_freq n) (ideal_phase c n).
Proof.
  destruct (decide (1 <= n <= 4)) as [Hn|Hn].
  - assert (n = 1 \/ n = 2 \/ n = 3 \/ n = 4) as [->|[->|[->| ->]]] by lia; unfold cpu_get_phase_freq; rds;
      (eapply ret_phase_output; [lia|reflexivity..|by apply fld_bits|by apply fld_bits]).
  - unfold ideal_phase. assert ((1 <=? n) && (n <=? 4) = false) as -> by lia.
    destruct n as [|p|p]; try apply returns_ret.
    do 3 (destruct p as [p|p|]; try apply returns_ret; try lia).
Qed.
Lemma ret_mux (m : M D A Z) : ret_ m 0 ->
  forall (sel : Z), ret_ 
    (if sel =? 0 then mret CPU_OSC_FREQ
     else if sel =? 2 then cpu_get_pll_freq
     else if sel =? 3 then cpu_get_phase_freq 1
     else if sel =? 4 then cpu_get_phase_freq 2
     else if sel =? 5 then cpu_get_phase_freq 3
     else if sel =? 6 then cpu_get_phase_freq 4
     else m) (ideal_mux c sel).
Proof.
  intros Hm sel. unfold ideal_mux.
  destruct (Z.eqb_spec sel 0); [apply returns_ret|]. destruct (Z.eqb_spec sel 2); [apply ret_pll|].
  destruct (Z.eqb_spec sel 3) as [->|]; [apply ret_phase|].
  destruct (Z.eqb_spec sel 4) as [->|]; [apply ret_phase|].
  destruct (Z.eqb_spec sel 5) as [->|]; [apply ret_phase|].
  destruct (Z.eqb_spec sel 6) as [->|]; [apply ret_phase|].
  destruct (Z.leb_spec 3 sel), (Z.leb_spec sel 6); simpl; try lia; done.
Qed.
Lemma ret_ahb : ret_ cpu_get_ahb_freq (ideal_ahb c).
Proof.
  unfold cpu_get_ahb_freq, ideal_ahb. rds. cbv zeta.
  rewrite (sel_bits c _ _ CGU_CON1_AHB_CLKSEL_BYPASS 22 20 0), (sel_bits c _ _ CGU_CON1_AHB_CLKSEL_PLL 22 20 2),
    (sel_bits c _ _ CGU_CON1_AHB_CLKSEL_PHASE1 22 20 3), (sel_bits c _ _ CGU_CON1_AHB_CLKSEL_PHASE2 22 20 4),
    (sel_bits c _ _ CGU_CON1_AHB_CLKSEL_PHASE3 22 20 5), (sel_bits c _ _ CGU_CON1_AHB_CLKSEL_PHASE4 22 20 6)
    by (lia || reflexivity).
  apply (ret_mux (mret 0)), returns_ret.
Qed.
Lemma ret_fpi2 : ret_ cpu_get_fpi2_freq (ideal_fpi2 c).
Proof.
  unfold cpu_get_fpi2_freq, ideal_fpi2. rds. rewrite (sel_bits c _ _ CGU_CON1_FPI2_CLKSEL_PLL 25 25 1) by (lia || reflexivity).
  assert ((bits c CGU_CON1 25 25 =? 1) = on c CGU_CON1 25) as ->.
  { unfold bits, on. change (2 ^ (25 - 25 + 1)) with 2. rewrite Z.testbit_eqb by lia. done. }
  destruct (on c CGU_CON1 25); rds.
  - eapply returns_bind; [apply ret_pll|]. rewrite (fld_bits c _ CGU_CON1_FPI2_CLKDIV _ 29 28) by (lia || reflexivity).
    pose proof (bits_range c CGU_CON1 29 28 ltac:(lia)). rewrite Z.shiftr_div_pow2 by lia. apply returns_ret.
  - rewrite (bit_on c _ _ 24) by (lia || reflexivity). destruct (on c CGU_CON1 24); apply returns_ret.
Qed.

Lemma ret_con3_divide freq m s hi lo : 0 <= lo <= hi -> m = Z.ones (hi - lo + 1) .<< lo -> s = lo ->
  ret_ (con3_divide freq m s) (freq / 2 ^ bits c CGU_CON3 hi lo).
Proof.
  intros H Hm Hs. unfold con3_divide. rds. rewrite (fld_bits c CGU_CON3 m s hi lo) by done.
  pose proof (bits_range c CGU_CON3 hi lo H). rewrite Z.shiftr_div_pow2 by lia. apply returns_ret.
Qed.
Lemma ret_sys : ret_ cpu_get_sys_freq (clock_ideal c ClkSys).
Proof.
  unfold cpu_get_sys_freq. cbn [clock_ideal]. rds. cbv zeta.
  rewrite (sel_bits c _ _ CGU_CON1_FSYS_CLKSEL_BYPASS 17 16 0),
    (sel_bits c _ _ CGU_CON1_FSYS_CLKSEL_PLL 17 16 2) by (lia || reflexivity).
  destruct (_ =? 0); [apply returns_ret|]. destruct (_ =? 2); [|apply returns_ret].
  eapply returns_bind; [by apply ret_pll|apply returns_ret].
Qed.
Lemma ret_stm : ret_ cpu_get_stm_freq (clock_ideal c ClkStm).
Proof.
  unfold cpu_get_stm_freq. cbn [clock_ideal]. rds. cbv zeta.
  rewrite (fld_bits c STM_CLC MOD_CLC_RMC _ 15 8) by (lia || reflexivity).
  pose proof (bits_range c STM_CLC 15 8 ltac:(lia)) as Hr.
  pose proof (bits_range c STM_CLC 23 16 ltac:(lia)) as Hr2.
  change (2 ^ (15 - 8 + 1)) with 256 in Hr. change (2 ^ (23 - 16 + 1)) with 256 in Hr2.
  destruct (Z.eqb_spec (bits c STM_CLC 15 8) 0); [apply returns_ret|]. rds.
  rewrite (sel_bits c _ _ CGU_CON1_FPI2_CLKSEL_PLL 25 25 1) by (lia || reflexivity).
  assert ((bits c CGU_CON1 25 25 =? 1) = on c CGU_CON1 25) as ->.
  { unfold bits, on. change (2 ^ (25 - 25 + 1)) with 2. rewrite Z.testbit_eqb by lia. done. }
  eapply (returns_bind _ _ _ (bits c STM_CLC 15 8 + if on c CGU_CON1 25 then bits c STM_CLC 23 16 else 0)).
  - destruct (on c CGU_CON1 25); rds; [|rewrite Z.add_0_r; apply returns_ret].
    rewrite (fld_bits c STM_CLC STM_CLC_RMC2 _ 23 16) by (lia || reflexivity).
    rewrite u32_small by (unfold is_u32; lia). apply returns_ret.
  - eapply returns_bind; [apply ret_fpi2|]. apply returns_udiv. destruct (on c CGU_CON1 25); lia.
Qed.
Lemma ret_cpu : ret_ cpu_get_freq (clock_ideal c ClkCpu).
Proof.
  unfold cpu_get_freq. cbn [clock_ideal]. eapply returns_bind; [by apply ret_ahb|]. rds.
  rewrite (bit_on c _ _ 12) by (lia || reflexivity). destruct (on c CGU_CON2 12); simpl negb; cbv iota;
    [|apply returns_ret]. rds. cbv zeta.
  rewrite (fld_bits c CGU_CON2 CGU_CON2_CPU_DIV _ 9 8) by (lia || reflexivity).
  pose proof (bits_range c CGU_CON2 9 8 ltac:(lia)) as Hr. change (2 ^ (9 - 8 + 1)) with 4 in Hr.
  rewrite u32_small by (unfold is_u32; lia). apply returns_udiv. lia.
Qed.
Lemma ret_ebu : ret_ cpu_get_ebu_freq (clock_ideal c ClkEbu).
Proof.
  unfold cpu_get_ebu_freq. cbn [clock_ideal]. rds. cbv zeta.
  rewrite (sel_bits c _ _ CGU_CON2_EBU_CLKSEL_OSC 6 4 0), (sel_bits c _ _ CGU_CON2_EBU_CLKSEL_PLL 6 4 2),
    (sel_bits c _ _ CGU_CON2_EBU_CLKSEL_PHASE1 6 4 3), (sel_bits c _ _ CGU_CON2_EBU_CLKSEL_PHASE2 6 4 4),
    (sel_bits c _ _ CGU_CON2_EBU_CLKSEL_PHASE3 6 4 5), (sel_bits c _ _ CGU_CON2_EBU_CLKSEL_PHASE4 6 4 6),
    (sel_bits c _ _ CGU_CON2_EBU_CLKSEL_AHB 6 4 7) by (lia || reflexivity).
  destruct (Z.eqb_spec (bits c CGU_CON2 6 4) 7) as [->|].
  - simpl. by apply ret_ahb.
  - apply ret_mux, returns_ret.
Qed.
Lemma ret_dsp : ret_ cpu_get_dsp_freq (clock_ideal c ClkDsp).
Proof.
  unfold cpu_get_dsp_freq. cbn [clock_ideal]. rds. cbv zeta.
  rewrite (sel_bits c _ _ CGU_CON2_DSP_CLKSEL_OSC 2 0 0), (sel_bits c _ _ CGU_CON2_DSP_CLKSEL_PHASE1 2 0 3),
    (sel_bits c _ _ CGU_CON2_DSP_CLKSEL_PLL 2 0 2) by (lia || reflexivity).
  destruct (_ =? 0); [apply returns_ret|]. destruct (_ =? 3); [by apply ret_phase|].
  destruct (_ =? 2); [by apply ret_pll|apply returns_ret].
Qed.
Lemma ret_fpi1 : ret_ cpu_get_fpi1_freq (clock_ideal c ClkFpi1).
Proof.
  unfold cpu_get_fpi1_freq. cbn [clock_ideal]. rds. cbv zeta.
  rewrite (sel_bits c _ _ CGU_CON1_FPI1_CLKSEL_OSC 1 0 0), (sel_bits c _ _ CGU_CON1_FPI1_CLKSEL_CLK32K 1 0 1),
    (sel_bits c _ _ CGU_CON1_FPI1_CLKSEL_PLL_DIV_2 1 0 2) by (lia || reflexivity).
  destruct (_ =? 0); [apply returns_ret|]. destruct (_ =? 1); [apply returns_ret|].
  destruct (_ =? 2); [|apply returns_ret]. rds.
  eapply returns_bind; [by apply ret_pll|].
  rewrite (fld_bits c CGU_CON1 CGU_CON1_FPI1_CLKDIV _ 5 4) by (lia || reflexivity).
  pose proof (bits_range c CGU_CON1 5 4 ltac:(lia)). rewrite Z.shiftr_div_pow2 by lia. apply returns_ret.
Qed.
Lemma ret_ahb_per : ret_ cpu_get_ahb_per_freq (clock_ideal c ClkAhbPer).
Proof.
  unfold cpu_get_ahb_per_freq. cbn [clock_ideal]. case_decide as Hchip.
  { rewrite Hchip. apply returns_ret. }
  destruct board_chip; [done|]. rds. cbv zeta.
  rewrite (sel_bits c _ _ CGU_CON3_AHB_PER_CLKSEL_OSC 1 0 0), (sel_bits c _ _ CGU_CON3_AHB_PER_CLKSEL_CLK32K 1 0 1),
    (sel_bits c _ _ CGU_CON3_AHB_PER_CLKSEL_PLL_DIV_2 1 0 2) by (lia || reflexivity).
  destruct (_ =? 0); [apply returns_ret|]. destruct (_ =? 1); [apply returns_ret|].
  destruct (_ =? 2); [|apply returns_ret].
  eapply returns_bind; [by apply ret_pll|]. rds.
  rewrite (fld_bits c CGU_CON3 CGU_CON3_AHB_PER_CLKDIV _ 5 4) by (lia || reflexivity).
  pose proof (bits_range c CGU_CON3 5 4 ltac:(lia)). rewrite Z.shiftr_div_pow2 by lia. apply returns_ret.
Qed.
Lemma ret_clk48m : ret_ cpu_get_clk48m_freq (clock_ideal c Clk48m).
Proof.
  unfold cpu_get_clk48m_freq. cbn [clock_ideal]. rds. cbv zeta.
  rewrite (sel_bits c _ _ CGU_CON2_CLK48M_CLKSEL_OSC 15 14 0), (sel_bits c _ _ CGU_CON2_CLK48M_CLKSEL_PHASE4 15 14 2)
    by (lia || reflexivity).
  assert (forall freq, ret_ match board_chip with
    | PMB8875 => mret freq
    | PMB8876 => con3_divide freq CGU_CON3_CLK48M_CLKDIV CGU_CON3_CLK48M_CLKDIV_SHIFT end
    (freq / if decide (board_chip = PMB8875) then 1 else 2 ^ bits c CGU_CON3 25 24)) as Hfin.
  { intros freq. case_decide as Hchip; [rewrite Hchip, Z.div_1_r; apply returns_ret|].
    destruct board_chip; [done|]. by apply ret_con3_divide. }
  destruct (_ =? 0); [apply Hfin|]. destruct (_ =? 2); [|apply returns_ret].
  eapply returns_bind; [by apply ret_phase|apply Hfin].
Qed.
Lemma ret_mmci : ret_ cpu_get_mmci_freq (clock_ideal c ClkMmci).
Proof.
  unfold cpu_get_mmci_freq. cbn [clock_ideal]. case_decide as Hchip.
  { rewrite Hchip. apply returns_ret. }
  destruct board_chip; [done|]. rds. cbv zeta.
  rewrite (sel_bits c _ _ CGU_CON3_MMCI_CLKSEL_OSC 9 8 0), (sel_bits c _ _ CGU_CON3_MMCI_CLKSEL_CLK32K 9 8 1),
    (sel_bits c _ _ CGU_CON3_MMCI_CLKSEL_PHASE4 9 8 2) by (lia || reflexivity).
  destruct (_ =? 0); [by apply ret_con3_divide|]. destruct (_ =? 1); [by apply ret_con3_divide|].
  destruct (_ =? 2); [|apply returns_ret].
  eapply returns_bind; [by apply ret_phase|by apply ret_con3_divide].
Qed.
Lemma ret_out01 en_m dv_m sh en hi lo : 0 <= lo <= hi -> 0 <= en -> en_m = 1 .<< en ->
  dv_m = Z.ones (hi - lo + 1) .<< lo -> sh = lo ->
  ret_ (con2 ← rd32 CGU_CON2;
        if (con2 .& en_m) ==? 0 then mret 0
        else con2 ← rd32 CGU_CON2; mret (CPU_OSC_FREQ .>> ((con2 .& dv_m) .>> sh)))
    (if on c CGU_CON2 en then CPU_OSC_FREQ / 2 ^ bits c CGU_CON2 hi lo else 0).
Proof.
  intros H Hen Hem Hdm Hsh. rds. rewrite (bit_on c _ _ en) by done.
  destruct (on c CGU_CON2 en); simpl negb; cbv iota; [|apply returns_ret]. rds.
  rewrite (fld_bits c CGU_CON2 dv_m sh hi lo) by done.
  pose proof (bits_range c CGU_CON2 hi lo H). rewrite Z.shiftr_div_pow2 by lia. apply returns_ret.
Qed.
Lemma ret_out2 : ret_ cpu_get_clkout2_freq (clock_ideal c ClkOut2).
Proof.
  unfold cpu_get_clkout2_freq. cbn [clock_ideal]. case_decide as Hchip.
  { rewrite Hchip. apply returns_ret. }
  destruct board_chip; [done|]. rds. rewrite (bit_on c _ _ 16) by (lia || reflexivity).
  destruct (on c CGU_CON3 16); simpl negb; cbv iota; [|apply returns_ret]. rds. cbv zeta.
  eapply returns_bind; [by apply ret_phase|].
  rewrite (fld_bits c CGU_CON3 CGU_CON3_CLKOUT2_CLKDIV _ 21 20) by (lia || reflexivity).
  pose proof (bits_range c CGU_CON3 21 20 ltac:(lia)). rewrite Z.shiftr_div_pow2 by lia. apply returns_ret.
Qed.
Lemma ret_misc : ret_ cpu_get_clk32k_freq (clock_ideal c Clk32k) /\
  ret_ cpu_get_ms_freq (clock_ideal c ClkMs) /\ ret_ cpu_get_dma_freq (clock_ideal c ClkDma).
Proof.
  split_and!; cbn [clock_ideal].
  - unfold cpu_get_clk32k_freq. rds. rewrite (bit_on c _ _ 24) by (lia || reflexivity).
    rewrite negb_involutive. apply returns_ret.
  - unfold cpu_get_ms_freq. rds. cbv zeta.
    rewrite (sel_bits c _ _ CGU_CON2_MS_CLKSEL_CLK_IN 29 28 0), (sel_bits c _ _ CGU_CON2_MS_CLKSEL_PLL 29 28 2)
      by (lia || reflexivity).
    destruct (_ =? 0); [apply returns_ret|]. destruct (_ =? 2); [by apply ret_pll|apply returns_ret].
  - unfold cpu_get_dma_freq. case_decide as Hchip; [rewrite Hchip; by apply ret_pll|].
    destruct board_chip; [done|]. rds. rewrite (bit_on c _ _ 28) by (lia || reflexivity).
    rewrite negb_involutive. destruct (on c CGU_CON3 28); [apply returns_ret|by apply ret_pll].
Qed.
End Getters.

(** C16. The clock getters are right for every register content: whatever the clock
    registers hold, each [cpu_get_*_freq] of [lib/cpu.c] terminates without a division
    by zero, returns the frequency of the ideal clock tree (so no 32-bit product or sum
    of the C code overflows), and only reads registers. *)
Theorem cpu_get_ideal {D A} `{!Device D} `{B : Board} (c : Z -> Z) (k : clock) (f : nat) (w : world D A) :
  (forall a, is_u32 (c a)) -> cgu_reads c (w_dev w) ->
  exists log, cpu_get k f w =
    Done (clock_ideal c k) (World (w_dev w) (w_mem w) log (w_lib w) (w_app w)).
Proof.
  intros Hc Hw. enough (returns (A := A) c (cpu_get k) (clock_ideal c k)) as H by (by apply H).
  destruct k; cbn [cpu_get];
    [by apply ret_pll|by apply ret_phase|by apply ret_sys|by apply ret_stm|by apply ret_ahb
    |by apply ret_cpu|by apply ret_ebu|by apply ret_dsp|by apply ret_fpi1|by apply ret_fpi2
    |by apply ret_ahb_per|by apply ret_clk48m|by apply ret_mmci|by apply ret_out01|by apply ret_out01
    |by apply ret_out2|apply ret_misc; done..].
Qed.

(** ** The setters *)
Definition upd (c : Z -> Z) (a v : Z) : Z -> Z := fun x => if x =? a then v else c x.

(** [x] with the field of [n] bits at [lo] set to [v], the way the code writes it. *)
Lemma set_field_testbit x v lo n i : is_u32 x -> 0 <= lo -> 0 <= n -> lo + n <= 32 -> 0 <= v < 2 ^ n ->
  0 <= i ->
  Z.testbit ((x .& not32 (Z.ones n .<< lo)) .| u32 (v .<< lo)) i =
  if (lo <=? i) && (i <? lo + n) then Z.testbit v (i - lo) else Z.testbit x i.
Proof.
  intros Hx Hlo Hn H32 Hv Hi.
  assert (Z.testbit (not32 (Z.ones n .<< lo)) i =
          (i <? 32) && negb ((lo <=? i) && (i <? lo + n))) as Em.
  { unfold not32. rewrite <- land_ones_u32. change 0xFFFFFFFF with (Z.ones 32).
    rewrite Z.land_spec, Z.lnot_spec, Z.shiftl_spec by done. destruct (Z.ltb_spec i 32).
    - rewrite (Z.ones_spec_low 32 i), andb_true_r by lia. simpl. f_equal.
      destruct (Z.leb_spec lo i), (Z.ltb_spec i (lo + n)); simpl.
      + apply Z.ones_spec_low. lia.
      + apply Z.ones_spec_high. lia.
      + apply Z.testbit_neg_r. lia.
      + apply Z.testbit_neg_r. lia.
    - rewrite (Z.ones_spec_high 32 i) by lia. apply andb_false_r. }
  assert (Z.testbit (u32 (v .<< lo)) i = (lo <=? i) && (i <? lo + n) && Z.testbit v (i - lo)) as Ev.
  { rewrite <- land_ones_u32. change 0xFFFFFFFF with (Z.ones 32). rewrite Z.land_spec, Z.shiftl_spec by done.
    destruct (Z.leb_spec lo i); simpl; [|by rewrite Z.testbit_neg_r by lia].
    destruct (Z.ltb_spec i (lo + n)); simpl.
    - rewrite (Z.ones_spec_low 32 i) by lia. apply andb_true_r.
    - by rewrite (bits_above n v) by lia. }
  rewrite Z.lor_spec, Z.land_spec, Em, Ev.
  destruct (Z.leb_spec lo i), (Z.ltb_spec i (lo + n)); simpl;
    rewrite ?andb_false_r, ?andb_true_r, ?orb_false_r; try done;
    destruct (Z.ltb_spec i 32); rewrite ?andb_true_r; try done; try lia;
    rewrite andb_false_r; symmetry; apply (bits_above 32); unfold is_u32 in *; lia.
Qed.
Lemma field_ext x y lo n : 0 <= lo -> 0 <= n ->
  (forall i, lo <= i < lo + n -> Z.testbit x i = Z.testbit y i) ->
  (x / 2 ^ lo) mod 2 ^ n = (y / 2 ^ lo) mod 2 ^ n.
Proof.
  intros Hlo Hn H. rewrite <- !Z.shiftr_div_pow2, <- !Z.land_ones by done.
  apply Z.bits_inj'. intros i Hi. rewrite !Z.land_spec, !Z.shiftr_spec by done.
  destruct (Z.lt_ge_cases i n); [by rewrite H by lia|].
  rewrite Z.ones_spec_high by lia. by rewrite !andb_false_r.
Qed.
Lemma set_field_same x v lo n : is_u32 x -> 0 <= lo -> 0 <= n -> lo + n <= 32 -> 0 <= v < 2 ^ n ->
  (((x .& not32 (Z.ones n .<< lo)) .| u32 (v .<< lo)) / 2 ^ lo) mod 2 ^ n = v.
Proof.
  intros Hx Hlo Hn H32 Hv. rewrite (field_ext _ (v .<< lo)) by
    (done || (intros i Hi; rewrite set_field_testbit by (done || lia);
              rewrite Z.shiftl_spec by lia;
              destruct (Z.leb_spec lo i), (Z.ltb_spec i (lo + n)); done || lia)).
  rewrite Z.shiftl_mul_pow2, Z.div_mul by (try apply Z.pow_nonzero; lia). by apply Z.mod_small.
Qed.
Lemma set_field_other x v lo n lo' n' : is_u32 x -> 0 <= lo -> 0 <= n -> lo + n <= 32 -> 0 <= v < 2 ^ n ->
  0 <= lo' -> 0 <= n' -> lo' + n' <= lo \/ lo + n <= lo' ->
  (((x .& not32 (Z.ones n .<< lo)) .| u32 (v .<< lo)) / 2 ^ lo') mod 2 ^ n' = (x / 2 ^ lo') mod 2 ^ n'.
Proof.
  intros Hx Hlo Hn H32 Hv Hlo' Hn' Hd. apply field_ext; [done..|]. intros i Hi.
  rewrite set_field_testbit by (done || lia).
  destruct (Z.leb_spec lo i), (Z.ltb_spec i (lo + n)); simpl; done || lia.
Qed.
Lemma set_field_range x v lo n : is_u32 x -> 0 <= v -> is_u32 ((x .& not32 (Z.ones n .<< lo)) .| u32 (v .<< lo)).
Proof.
  intros Hx Hv. apply (lor_range 32); [lia| |apply u32_range].
  pose proof (land_range_r x (not32 (Z.ones n .<< lo)) ltac:(pose proof (u32_range (Z.lnot (Z.ones n .<< lo))) as R; unfold not32, is_u32 in *; lia)).
  pose proof (u32_range (Z.lnot (Z.ones n .<< lo))) as R. unfold not32, is_u32 in *. lia.
Qed.

Lemma upd_same c a v : upd c a v a = v.
Proof. unfold upd. by rewrite Z.eqb_refl. Qed.
Lemma upd_u32 c a v : (forall x, is_u32 (c x)) -> is_u32 v -> forall x, is_u32 (upd c a v x).
Proof. intros Hc Hv x. unfold upd. by destruct (x =? a). Qed.
Lemma upd_bits c a v r hi lo : r <> a -> bits (upd c a v) r hi lo = bits c r hi lo.
Proof. intros Hr. unfold bits, upd. by destruct (Z.eqb_spec r a). Qed.
Lemma upd_on c a v r i : r <> a -> on (upd c a v) r i = on c r i.
Proof. intros Hr. unfold on, upd. by destruct (Z.eqb_spec r a). Qed.

Section Setters.
Context {D A : Type} `{!Device D} `{B : Board}.

(** The control registers are storage: a write is read back. *)
Definition cgu_stores : Prop :=
  forall c d a v, cgu_reads c d -> a ∈ [CGU_CON0; CGU_CON1] -> is_u32 v ->
    cgu_reads (upd c a v) (dev_write (Mmio 32 a) v d).

Lemma rmw_field (a lo n v : Z) c (w : world D A) fuel : cgu_stores -> (forall a, is_u32 (c a)) ->
  cgu_reads c (w_dev w) -> a ∈ [CGU_CON0; CGU_CON1] -> 0 <= v ->
  let x := (c a .& not32 (Z.ones n .<< lo)) .| u32 (v .<< lo) in
  exists w', (r ← rd32 a; wr32 a ((r .& not32 (Z.ones n .<< lo)) .| u32 (v .<< lo))) fuel w = Done tt w' /\
    cgu_reads (upd c a x) (w_dev w').
Proof.
  intros Hst Hc Hw Ha Hv x.
  assert (is_u32 x) as Hx by (by apply set_field_range).
  assert (a ∈ cgu_regs) as Ha'.
  { apply elem_of_cons in Ha as [->|Ha]; [in_regs|]. apply list_elem_of_singleton in Ha as ->. in_regs. }
  unfold mbind, M_bind, rd32, rd. rewrite (Hw a Ha'). cbv iota beta zeta.
  unfold port_wrap. rewrite (u32_small (c a)) by apply Hc. unfold wr32, wr, port_wrap. fold x.
  rewrite (u32_small x) by done. eexists. split; [done|]. by apply Hst.
Qed.

(** The fields of a register after one of them was set. *)
Section Field.
Context (c : Z -> Z) (Hc : forall a, is_u32 (c a)) (a v lo n : Z).
Context (Hlo : 0 <= lo) (Hn : 0 <= n) (H32 : lo + n <= 32) (Hv : 0 <= v < 2 ^ n).
Let c' := upd c a ((c a .& not32 (Z.ones n .<< lo)) .| u32 (v .<< lo)).
Lemma field_set hi : hi = lo + n - 1 -> bits c' a hi lo = v.
Proof.
  intros ->. unfold bits, c'. rewrite upd_same.
  replace (lo + n - 1 - lo + 1) with n by lia. by apply set_field_same.
Qed.
Lemma field_keep r hi' lo' : 0 <= lo' <= hi' -> r <> a \/ hi' < lo \/ lo + n <= lo' ->
  bits c' r hi' lo' = bits c r hi' lo'.
Proof.
  intros H' Hd. destruct (Z.eq_dec r a) as [->|]; [|by apply upd_bits].
  unfold bits, c'. rewrite upd_same. apply set_field_other; done || lia.
Qed.
Lemma field_keep_on r i : 0 <= i -> r <> a \/ i < lo \/ lo + n <= i -> on c' r i = on c r i.
Proof.
  intros H' Hd. destruct (Z.eq_dec r a) as [->|]; [|by apply upd_on].
  unfold on, c'. rewrite upd_same, set_field_testbit by done.
  destruct (Z.leb_spec lo i), (Z.ltb_spec i (lo + n)); done || lia.
Qed.
Lemma field_u32 : forall x, is_u32 (c' x).
Proof. apply upd_u32; [done|]. apply set_field_range; [done|lia]. Qed.
End Field.
End Setters.

(** The PLL and the phases do not depend on [CGU_CON1], nor the PLL on [CGU_CON0]. *)
Lemma ideal_pll_upd c a v : a <> CGU_OSC -> a <> CGU_STAT ->
  ideal_core (upd c a v) = ideal_core c /\ ideal_pll (upd c a v) = ideal_pll c.
Proof.
  intros H1 H2. assert (ideal_core (upd c a v) = ideal_core c) as E
    by (unfold ideal_core; rewrite !upd_on, !upd_bits by done; done).
  split; [done|]. unfold ideal_pll. by rewrite E, upd_on by done.
Qed.
Lemma ideal_phase_upd c a v n : a <> CGU_OSC -> a <> CGU_STAT -> a <> CGU_CON0 ->
  ideal_phase (upd c a v) n = ideal_phase c n.
Proof.
  intros H1 H2 H3. unfold ideal_phase. destruct (ideal_pll_upd c a v H1 H2) as [-> ->].
  by rewrite !upd_on, !upd_bits by done.
Qed.

(** [cgu_ahb_select] selects what [cpu_get_ahb_freq] reports: after the call with any
    value of the multiplexer, the AHB clock is the one that value names, and the clocks
    that do not hang on AHB (PLL, FSYS, FPI1, FPI2, STM, DSP) are as before. *)
Theorem cgu_ahb_select_get {D A} `{!Device D} `{B : Board} (c : Z -> Z) (source : Z) (f : nat)
    (w : world D A) :
  cgu_stores (D := D) -> (forall a, is_u32 (c a)) -> cgu_reads c (w_dev w) -> 0 <= source < 8 ->
  exists w' log c', cgu_ahb_select source f w = Done tt w' /\
    cpu_get_ahb_freq f w' =
      Done (ideal_mux c source) (World (w_dev w') (w_mem w') log (w_lib w') (w_app w')) /\
    cgu_reads c' (w_dev w') /\
    forall k, k ∈ [ClkPll; ClkSys; ClkFpi1; ClkFpi2; ClkStm; ClkDsp] ->
      clock_ideal c' k = clock_ideal c k.
Proof.
  intros Hst Hc Hw Hs.
  destruct (rmw_field CGU_CON1 20 3 source c w f Hst Hc Hw ltac:(in_regs) ltac:(lia)) as (w1 & E1 & Hw1).
  pose proof (field_u32 c Hc CGU_CON1 source 20 3 ltac:(lia)) as Hc'.
  pose proof (field_set c Hc CGU_CON1 source 20 3 ltac:(lia) ltac:(lia) ltac:(lia) ltac:(lia) 22 ltac:(lia)) as Hset.
  pose proof (field_keep c Hc CGU_CON1 source 20 3 ltac:(lia) ltac:(lia) ltac:(lia) ltac:(lia)) as Hk.
  pose proof (field_keep_on c Hc CGU_CON1 source 20 3 ltac:(lia) ltac:(lia) ltac:(lia) ltac:(lia)) as Ho.
  destruct (cpu_get_ideal (A := A) _ ClkAhb f w1 Hc' Hw1) as [log E2].
  destruct (ideal_pll_upd c CGU_CON1 ((c CGU_CON1 .& not32 (Z.ones 3 .<< 20)) .| u32 (source .<< 20)))
    as [_ Hpll]; [done..|].
  assert (forall n, ideal_phase (upd c CGU_CON1 ((c CGU_CON1 .& not32 (Z.ones 3 .<< 20)) .| u32 (source .<< 20))) n
    = ideal_phase c n) as Hph by (intros n; by apply ideal_phase_upd).
  set (c' := upd c CGU_CON1 _) in *.
  exists w1, log, c'. split_and!; [exact E1| |exact Hw1|].
  - cbn [cpu_get clock_ideal] in E2. unfold ideal_ahb in E2. rewrite Hset in E2. rewrite E2.
    unfold ideal_mux. by rewrite Hpll, Hph.
  - intros k Hin. repeat (apply elem_of_cons in Hin as [->|Hin]); [..|by apply not_elem_of_nil in Hin];
      cbn [clock_ideal]; unfold ideal_fpi2; rewrite ?Hpll, ?Hph, ?Hk, ?Ho by (lia || (left; done)); done.
Qed.

(** A field inside a field. *)
Lemma bits_sub c r hi lo h l : 0 <= lo <= l -> l <= h <= hi ->
  bits c r h l = (bits c r hi lo / 2 ^ (l - lo)) mod 2 ^ (h - l + 1).
Proof.
  intros Hl Hh. unfold bits. rewrite <- !Z.land_ones, <- !Z.shiftr_div_pow2 by lia.
  apply Z.bits_inj'. intros i Hi. rewrite !Z.land_spec, !Z.shiftr_spec, Z.land_spec, Z.shiftr_spec by lia.
  destruct (Z.lt_ge_cases i (h - l + 1)).
  - rewrite (Z.ones_spec_low (hi - lo + 1)), andb_true_r by lia. do 2 f_equal; lia.
  - rewrite (Z.ones_spec_high (h - l + 1)), !andb_false_r by lia. done.
Qed.
Lemma phase_config k1 k2 : 0 <= k1 < 16 -> 0 <= k2 < 8 -> (u32 (k1 .<< 3) .| k2) = 8 * k1 + k2.
Proof.
  intros H1 H2. rewrite Z.shiftl_mul_pow2 by lia. change (2 ^ 3) with 8.
  rewrite u32_small by (unfold is_u32; lia).
  rewrite <- Z.add_nocarry_lor; [lia|]. apply Z.bits_inj'. intros i Hi.
  rewrite Z.land_spec, Z.testbit_0_l. destruct (Z.lt_ge_cases i 3).
  - rewrite (Z.mul_pow2_bits_low k1 3) by lia. done.
  - rewrite (bits_above 3 k2) by lia. apply andb_false_r.
Qed.

(** [cgu_phase_set_divider] programs the phase it is given: phase [n] then runs at
    [12/(6*k1 + k2)] of the PLL core (when it is powered and not bypassed), and the three
    other phases keep their frequency. *)
Theorem cgu_phase_set_divider_get {D A} `{!Device D} `{B : Board} (c : Z -> Z) (n k1 k2 : Z) (f : nat)
    (w : world D A) :
  cgu_stores (D := D) -> (forall a, is_u32 (c a)) -> cgu_reads c (w_dev w) ->
  1 <= n <= 4 -> 1 <= k1 < 16 -> 0 <= k2 <= 5 -> on c CGU_OSC n = true -> on c CGU_OSC (8 + n) = true ->
  exists w', cgu_phase_set_divider n k1 k2 f w = Done tt w' /\
    forall m, 1 <= m <= 4 ->
      exists log, cpu_get_phase_freq m f w' =
        Done (if m =? n then 12 * ideal_core c / (6 * k1 + k2) else ideal_phase c m)
          (World (w_dev w') (w_mem w') log (w_lib w') (w_app w')).
Proof.
  intros Hst Hc Hw Hn Hk1 Hk2 Hon1 Hon2.
  set (v := 8 * k1 + k2). set (lo := 8 * (n - 1)).
  destruct (rmw_field CGU_CON0 lo 8 v c w f Hst Hc Hw ltac:(in_regs) ltac:(lia)) as (w1 & E1 & Hw1).
  pose proof (field_u32 c Hc CGU_CON0 v lo 8 ltac:(lia)) as Hc'.
  pose proof (field_set c Hc CGU_CON0 v lo 8 ltac:(lia) ltac:(lia) ltac:(lia) ltac:(lia) (lo + 7) ltac:(lia)) as Hset.
  pose proof (field_keep c Hc CGU_CON0 v lo 8 ltac:(lia) ltac:(lia) ltac:(lia) ltac:(lia)) as Hk.
  destruct (ideal_pll_upd c CGU_CON0 ((c CGU_CON0 .& not32 (Z.ones 8 .<< lo)) .| u32 (v .<< lo)))
    as [Hcore Hpll]; [done..|].
  pose proof (fun i => upd_on c CGU_CON0 ((c CGU_CON0 .& not32 (Z.ones 8 .<< lo)) .| u32 (v .<< lo)) CGU_OSC i ltac:(done)) as Hosc.
  assert (cgu_phase_set_divider (D := D) (A := A) n k1 k2 f w = Done tt w1) as E1'.
  { rewrite <- E1. unfold cgu_phase_set_divider. rewrite phase_config by lia. fold v.
    rewrite (u32_small (n - 1)), (u32_small ((n - 1) * 8)) by (unfold is_u32; lia).
    replace ((n - 1) * 8) with lo by lia.
    assert (u32 (0xFF .<< lo) = Z.ones 8 .<< lo) as ->; [|done].
    assert (n = 1 \/ n = 2 \/ n = 3 \/ n = 4) as Hn4 by lia. unfold lo. clear -Hn4.
    by destruct Hn4 as [->|[->|[->| ->]]]. }
  exists w1. split; [exact E1'|]. intros m Hm.
  destruct (cpu_get_ideal (A := A) _ (ClkPhase m) f w1 Hc' Hw1) as [log E2].
  exists log. cbn [cpu_get clock_ideal] in E2. rewrite E2. f_equal. clear E1 E2 E1'.
  set (c' := upd c CGU_CON0 _) in *. unfold ideal_phase. rewrite Hpll, Hcore, !Hosc.
  destruct (Z.eqb_spec m n) as [->|Hmn].
  - rewrite Hon1, Hon2. cbn [negb andb].
    rewrite (bits_sub c' CGU_CON0 (lo + 7) lo (8 * n - 2)), (bits_sub c' CGU_CON0 (lo + 7) lo (8 * n - 6)) by lia.
    rewrite Hset. replace (8 * n - 5 - lo) with 3 by lia. replace (8 * n - 2 - (8 * n - 5) + 1) with 4 by lia.
    replace (8 * n - 8 - lo) with 0 by lia. replace (8 * n - 6 - (8 * n - 8) + 1) with 3 by lia.
    replace ((v / 2 ^ 3) mod 2 ^ 4) with k1 by (unfold v; Z.div_mod_to_equations; lia).
    replace ((v / 2 ^ 0) mod 2 ^ 3) with k2 by (unfold v; Z.div_mod_to_equations; lia).
    destruct (Z.leb_spec 1 n), (Z.leb_spec n 4), (Z.eqb_spec k1 0), (Z.leb_spec k2 5); done || lia.
  - by rewrite !Hk by lia.
Qed.

(** ** Concrete clock trees *)

(** The PLL at 104 MHz ([cgu_pll_set(3, 0)]), phase 2 powered and not bypassed. *)
Definition example_cgu (a : Z) : Z :=
  if a =? CGU_OSC then 0x00030505 else if a =? CGU_STAT then 0x2000
  else if a =? CGU_CON1 then 0x00200000 else 0.
Definition example_world : world (port -> Z) unit :=
  World (fun p => match p with Mmio _ a => example_cgu a | _ => 0 end) ∅ [] lib_zero tt.

Lemma example_cgu_u32 a : is_u32 (example_cgu a).
Proof. unfold example_cgu. repeat destruct (_ =? _); by apply (bool_decide_unpack _). Qed.
Lemma example_reads : cgu_reads (Device0 := regs_device) example_cgu (w_dev example_world).
Proof. done. Qed.
Lemma regs_device_stores : cgu_stores (Device0 := regs_device).
Proof.
  intros c d a v Hc Ha Hv r Hr. simpl. specialize (Hc r Hr). simpl in Hc.
  unfold upd. case_decide as Hd; destruct (Z.eqb_spec r a); [done|congruence..|].
  by injection Hc as ->.
Qed.

Lemma cpu_get_ideal_witness :
  let B := plain_board PMB8876 in
  clock_ideal example_cgu ClkAhb = 104000000 /\
  exists log, cpu_get (Device0 := regs_device) ClkAhb 0%nat example_world =
    Done 104000000 (World (w_dev example_world) ∅ log lib_zero tt).
Proof.
  intros B. split; [reflexivity|].
  exact (cpu_get_ideal (Device0 := regs_device) example_cgu ClkAhb 0%nat example_world example_cgu_u32 example_reads).
Defined.
Lemma cgu_ahb_select_get_witness :
  let B := plain_board PMB8876 in
  exists w' log, cgu_ahb_select (Device0 := regs_device) CGU_AHB_OSC 0%nat example_world = Done tt w' /\
    cpu_get_ahb_freq (Device0 := regs_device) 0%nat w' =
      Done 26000000 (World (w_dev w') (w_mem w') log (w_lib w') (w_app w')).
Proof.
  intros B.
  destruct (cgu_ahb_select_get (Device0 := regs_device) example_cgu CGU_AHB_OSC 0%nat example_world
    regs_device_stores example_cgu_u32 example_reads) as (w' & log & c' & H1 & H2 & _); [by vm_compute|].
  exists w', log. split; [exact H1|exact H2].
Defined.
Lemma cgu_phase_set_divider_get_witness :
  let B := plain_board PMB8876 in
  exists w', cgu_phase_set_divider (Device0 := regs_device) 2 4 2 0%nat example_world = Done tt w' /\
    exists log, cpu_get_phase_freq (Device0 := regs_device) 2 0%nat w' =
      Done 48000000 (World (w_dev w') (w_mem w') log (w_lib w') (w_app w')).
Proof.
  intros B.
  destruct (cgu_phase_set_divider_get (Device0 := regs_device) example_cgu 2 4 2 0%nat example_world
    regs_device_stores example_cgu_u32 example_reads) as (w' & H1 & H2); [by vm_compute..|].
  exists w'. split; [exact H1|]. exact (H2 2 ltac:(by vm_compute)).
Defined.
