(* ===== verification/Stopwatch.v ===== *)
(** * The system timer ([lib/stopwatch.c], [lib/stopwatch.h])

    The operations on the 64-bit timestamp [STM_TIM6:STM_TIM0], and what they promise
    when the timer behaves as a timer ([StmTimer]): how long [stopwatch_usleep] sleeps,
    and what [stopwatch_get] returns when the low word wraps between its two reads. *)
From S2P Require Import Prelude Machine Board Regs Clock.

Section Code.
Context {D A : Type} `{!Device D} `{B : Board}.
#[local] Abbreviation M := (M D A).

Definition stopwatch_update : M unit :=
  freq ← cpu_get_stm_freq;
  l ← get_lib;
  put_lib (LibState freq (start_execution l) (wdt_timeout l) (last_wdt_serve l)
             (wdt_interval l) (wdt_off l)).
Definition stopwatch_init : M unit := stopwatch_update.

Definition stopwatch_get : M Z :=
  t6 ← rd32 STM_TIM6; t0 ← rd32 STM_TIM0;
  mret (u64 (t6 .<< 32) .| t0).

(** [stopwatch_get() + (stopwatch_t) us * ticks_per_s / 1000000]. *)
Definition sleep_end (us : Z) : M Z :=
  now ← stopwatch_get; l ← get_lib;
  mret (u64 (now + u64 (us * ticks_per_s l) / 1000000)).
Definition stopwatch_usleep (us : Z) : M unit :=
  end_ ← sleep_end us;
  poll (now ← stopwatch_get; mret (end_ <? now)) (mret tt).

Definition stopwatch_elapsed (start : Z) : M Z :=
  now ← stopwatch_get; mret (u64 (now - start)).
Definition stopwatch_elapsed_us (start : Z) : M Z :=
  e ← stopwatch_elapsed start; l ← get_lib;
  q ← udiv (u64 (e * 1000000)) (ticks_per_s l); mret (u32 q).
Definition stopwatch_elapsed_ms (start : Z) : M Z :=
  e ← stopwatch_elapsed start; l ← get_lib;
  q ← udiv (u64 (e * 1000)) (ticks_per_s l); mret (u32 q).
Definition stopwatch_elapsed_s (start : Z) : M Z :=
  e ← stopwatch_elapsed start; l ← get_lib;
  q ← udiv e (ticks_per_s l); mret (u32 q).

Definition stopwatch_ticks_per_us : M Z := l ← get_lib; mret (ticks_per_s l / 1000000).
Definition stopwatch_ticks_per_ms : M Z := l ← get_lib; mret (ticks_per_s l / 1000).
Definition stopwatch_ticks_per_s : M Z := l ← get_lib; mret (ticks_per_s l).

Definition stopwatch_msleep (ms : Z) : M unit := stopwatch_usleep (u32 (ms * 1000)).
Definition stopwatch_sleep (s : Z) : M unit := stopwatch_usleep (u32 (s * 1000000)).
End Code.

(** ** Frames: a property of the device that a group of register accesses keeps *)
Section Frame.
Context {D : Type} `{!Device D}.
Definition stable (ports : port -> Prop) (I : D -> Prop) : Prop :=
  forall p d, ports p -> I d ->
    I (snd (dev_read p d)) /\ forall v, I (dev_write p v d).
Lemma stable_weaken (P Q : port -> Prop) I : (forall p, Q p -> P p) -> stable P I -> stable Q I.
Proof. intros H HS p d Hp. apply HS. auto. Qed.

Lemma any_stable P : stable P (fun _ => True).
Proof. by intros p d _ _. Qed.
Lemma stable_steps (P : port -> Prop) I : stable P I -> forall d d', steps P d d' -> I d -> I d'.
Proof.
  intros HS d d' H. induction H as [|p d d' Hp _ IH|p v d d' Hp _ IH]; intros HI; [done|..]; apply IH.
  - by apply (HS p d Hp HI).
  - by apply (HS p d Hp HI).
Qed.

Context {A : Type}.
(** What a helper that only touches [ports] leaves alone. *)
Definition framed (I : D -> Prop) (w w' : world D A) : Prop :=
  I (w_dev w') /\ w_mem w' = w_mem w /\ w_app w' = w_app w /\ w_lib w' = w_lib w.
Lemma framed_refl I w : I (w_dev w) -> framed I w w.
Proof. done. Qed.
Lemma framed_trans I w1 w2 w3 : framed I w1 w2 -> framed I w2 w3 -> framed I w1 w3.
Proof. intros (? & E1 & E2 & E3) (? & E4 & E5 & E6). split; [done|]. by rewrite E4, E5, E6. Qed.
Lemma wp_rd_frame E (ports : port -> Prop) I p Q f (w : world D A) : stable ports I -> ports p -> I (w_dev w) ->
  (forall v w', framed I w w' -> Q v w') -> wp E (rd p) Q f w.
Proof.
  intros HS Hp HI HQ. apply wp_rd. intros v d Hrd. apply HQ. split; [|done].
  simpl. pose proof (proj1 (HS p _ Hp HI)) as H. by rewrite Hrd in H.
Qed.
Lemma wp_wr_frame E (ports : port -> Prop) I p v Q f (w : world D A) : stable ports I -> ports p -> I (w_dev w) ->
  (forall w', framed I w w' -> Q tt w') -> wp E (wr p v) Q f w.
Proof. intros HS Hp HI HQ. apply wp_wr, HQ. split; [|done]. by apply (HS p _ Hp HI). Qed.
End Frame.
Arguments stable {D _} ports I.

Definition stm_port (p : port) : Prop := p = Mmio 32 STM_TIM6 \/ p = Mmio 32 STM_TIM0.

Section GetFrame.
Context {D A : Type} `{!Device D} (I : D -> Prop).
Lemma wp_stopwatch_get E Q f (w : world D A) : stable stm_port I -> I (w_dev w) ->
  (forall v w', framed I w w' -> Q v w') -> wp E stopwatch_get Q f w.
Proof.
  intros HS HI HQ. unfold stopwatch_get. apply wp_bind. eapply wp_rd_frame; [done|by left|done|].
  intros t6 w1 F1. apply wp_bind. eapply wp_rd_frame; [done|by right|apply F1|].
  intros t0 w2 F2. apply wp_ret, HQ. by eapply framed_trans.
Qed.
Lemma wp_stopwatch_elapsed_ms E Q f start (w : world D A) : stable stm_port I -> I (w_dev w) ->
  ticks_per_s (w_lib w) <> 0 ->
  (forall v w', framed I w w' -> Q v w') -> wp E (stopwatch_elapsed_ms start) Q f w.
Proof.
  intros HS HI Ht HQ. unfold stopwatch_elapsed_ms, stopwatch_elapsed. apply wp_bind, wp_bind.
  apply wp_stopwatch_get; [done..|]. intros v w' F. apply wp_ret. apply wp_bind, wp_get_lib, wp_bind.
  apply wp_udiv; [by destruct F as (_ & _ & _ & ->)|]. by apply wp_ret, HQ.
Qed.
End GetFrame.

(** The registers of this file's functions. *)
Section Footprint.
Context {D A : Type} `{!Device D} (P : port -> Prop) (HP : forall p, stm_port p -> P p).
#[local] Abbreviation uses := (uses (D := D) (A := A) P).
Lemma uses_stopwatch_get : uses stopwatch_get.
Proof. unfold stopwatch_get. uses_tac ltac:(apply HP; first [by left|by right]). Qed.
Lemma uses_stopwatch_elapsed_ms t : uses (stopwatch_elapsed_ms t).
Proof. unfold stopwatch_elapsed_ms, stopwatch_elapsed. uses_tac idtac. apply uses_stopwatch_get. Qed.
End Footprint.

(** ** The timer *)

(** The timer counts ticks; a register access takes at most [0xFFFF] of them, reading the
    low word at least one. *)
Class StmTimer (D : Type) `{!Device D} := {
  stm_time : D -> Z;
  stm_time_pos d : 0 <= stm_time d;
  stm_read_high d : u32 (fst (dev_read (Mmio 32 STM_TIM6) d)) = u32 (stm_time d / 0x100000000);
  stm_read_low d : u32 (fst (dev_read (Mmio 32 STM_TIM0) d)) = u32 (stm_time d);
  stm_low_advances d : stm_time d < stm_time (snd (dev_read (Mmio 32 STM_TIM0) d));
  stm_read_time p d : stm_time d <= stm_time (snd (dev_read p d)) <= stm_time d + 0xFFFF;
  stm_write_time p v d : stm_time d <= stm_time (dev_write p v d) <= stm_time d + 0xFFFF;
}.

Section Timer.
Context {D A : Type} `{!Device D, !StmTimer D}.
Implicit Types w : world D A.

Lemma stamp_join h l : is_u32 h -> is_u32 l -> (u64 (h .<< 32) .| l) = h * 0x100000000 + l.
Proof.
  intros Hh Hl. rewrite Z.shiftl_mul_pow2 by lia. change (2 ^ 32) with 0x100000000.
  rewrite u64_small by (unfold is_u64, is_u32 in *; lia).
  rewrite <- Z.add_nocarry_lor; [done|]. apply Z.bits_inj'. intros i Hi.
  rewrite Z.land_spec, Z.testbit_0_l. destruct (Z.lt_ge_cases i 32).
  - rewrite (Z.mul_pow2_bits_low h 32) by lia. done.
  - rewrite (bits_above 32 l) by (unfold is_u32 in *; lia). apply andb_false_r.
Qed.

(** What [stopwatch_get] reads: the high word at [t6], the low word at [t0]. *)
Lemma wp_stopwatch_read E Q f w :
  (forall w' t6 t0, stm_time (w_dev w) = t6 -> t6 <= t0 <= t6 + 0xFFFF ->
     t0 < stm_time (w_dev w') <= t0 + 0xFFFF ->
     w_mem w' = w_mem w -> w_app w' = w_app w -> w_lib w' = w_lib w ->
     Q (u32 (t6 / 0x100000000) * 0x100000000 + u32 t0) w') ->
  wp E stopwatch_get Q f w.
Proof.
  intros HQ. unfold stopwatch_get. apply wp_bind, wp_rd. intros v6 d6 H6.
  apply wp_bind, wp_rd. intros v0 d0 H0. apply wp_ret. unfold port_wrap. rewrite stamp_join by apply u32_range.
  pose proof (stm_read_high (w_dev w)) as E6. pose proof (stm_read_time (Mmio 32 STM_TIM6) (w_dev w)) as T6.
  rewrite H6 in E6, T6. simpl in E6, T6. simpl in H0.
  pose proof (stm_read_low d6) as E0. pose proof (stm_read_time (Mmio 32 STM_TIM0) d6) as T0.
  pose proof (stm_low_advances d6) as L0. rewrite H0 in E0, T0, L0. simpl in E0, T0, L0.
  rewrite E6, E0. apply HQ; simpl; lia || done.
Qed.

(** Away from a wrap of the low word, the value is the time of the low word's read. *)
Lemma stamp_exact t6 t0 : 0 <= t6 -> t6 <= t0 -> t0 / 0x100000000 = t6 / 0x100000000 ->
  t0 < 0x10000000000000000 -> u32 (t6 / 0x100000000) * 0x100000000 + u32 t0 = t0.
Proof. intros. unfold u32. rewrite (Z.mod_small (t6 / _)); Z.div_mod_to_equations; lia. Qed.
End Timer.

(** [stopwatch_usleep] sleeps long enough and not much longer: with [delta] the ticks
    of [us] microseconds, the call returns when more than [delta] ticks have passed since
    it read the timer, and at most a few register accesses later; [delta + 2] rounds of
    its loop are enough.  (The low word of the timer must not wrap during the sleep.) *)
Theorem stopwatch_usleep_bounds {D A} `{!Device D, !StmTimer D} (us : Z) (f : nat) (w : world D A) :
  let t := stm_time (w_dev w) in
  let delta := us * ticks_per_s (w_lib w) / 1000000 in
  is_u32 us -> is_u32 (ticks_per_s (w_lib w)) ->
  t < 0x10000000000000000 -> u32 t + delta + 0x60000 < 0x100000000 -> delta + 2 <= Z.of_nat f ->
  wp total (stopwatch_usleep us) (fun _ w' =>
    t + delta < stm_time (w_dev w') <= t + delta + 0x50000 /\
    w_mem w' = w_mem w /\ w_lib w' = w_lib w) f w.
Proof.
  intros t delta Hus Htps Ht Hwrap Hf.
  assert (0 <= t) as Ht0 by apply stm_time_pos.
  assert (0 <= delta) as Hd by (apply Z.div_pos; unfold is_u32 in *; nia).
  assert (forall a b, t <= a <= t + delta + 0x50000 -> a <= b <= a + 0xFFFF ->
    u32 (a / 0x100000000) * 0x100000000 + u32 b = b) as Hex.
  { intros a b Ha Hb. apply stamp_exact; unfold u32 in *; Z.div_mod_to_equations; lia. }
  unfold stopwatch_usleep, sleep_end. apply wp_bind, wp_bind, wp_stopwatch_read.
  intros w1 t6 t0 E6 H0 H1 Em1 _ El1. fold t in E6. apply wp_bind, wp_get_lib, wp_ret.
  rewrite Hex by lia. rewrite El1.
  rewrite (u64_small (us * _)) by (unfold is_u64, is_u32 in *; nia). fold delta.
  rewrite u64_small by (unfold is_u64, u32 in *; Z.div_mod_to_equations; lia).
  unfold poll. eapply (wp_iter _ _
    (fun _ w' => t0 < stm_time (w_dev w') <= t0 + delta + 0x10000 /\ w_mem w' = w_mem w /\ w_lib w' = w_lib w)
    (fun _ w' => Z.to_nat (t0 + delta + 1 - stm_time (w_dev w')))).
  - split_and!; try done; lia.
  - lia.
  - intros [] w2 (Hw2 & Em2 & El2). apply wp_bind, wp_bind, wp_stopwatch_read.
    intros w3 a b Ea Hb Hc Em3 _ El3. apply wp_ret. rewrite Hex by lia.
    destruct (Z.ltb_spec (t0 + delta) b).
    + apply wp_ret. split_and!; try congruence; lia.
    + apply wp_bind, wp_ret, wp_ret. split_and!; try congruence; lia.
Qed.

(** [stopwatch_get] is the time at which it reads the low word, except when the low
    word wraps between its two reads: then it is exactly [2^32] ticks behind.  It is never
    ahead. *)
Theorem stopwatch_get_value {D A} `{!Device D, !StmTimer D} (f : nat) (w : world D A) :
  stm_time (w_dev w) < 0xFFFFFFFFFFFF0000 ->
  wp total stopwatch_get (fun v w' => exists t0,
    stm_time (w_dev w) <= t0 < stm_time (w_dev w') /\
    v = if u32 t0 <? u32 (stm_time (w_dev w)) then t0 - 0x100000000 else t0) f w.
Proof.
  intros Ht. apply wp_stopwatch_read. intros w' t6 t0 E6 H0 H1 _ _ _. exists t0. rewrite E6.
  split; [lia|]. pose proof (stm_time_pos (w_dev w)). rewrite E6 in *.
  destruct (Z.ltb_spec (u32 t0) (u32 t6)); unfold u32 in *;
    rewrite (Z.mod_small (t6 / _)) by (Z.div_mod_to_equations; lia); Z.div_mod_to_equations; lia.
Qed.

(** ** A concrete timer: one tick per register access, the other registers are storage *)
Definition tick_device : Device (N * (port -> Z)) :=
  {| dev_read p d := (if decide (p = Mmio 32 STM_TIM6) then Z.of_N d.1 / 0x100000000
                      else if decide (p = Mmio 32 STM_TIM0) then Z.of_N d.1 else d.2 p,
                      ((d.1 + 1)%N, d.2));
     dev_write p v d := ((d.1 + 1)%N, fun q => if decide (q = p) then v else d.2 q) |}.
Definition tick_timer : @StmTimer _ tick_device.
Proof.
  refine {| stm_time (d : N * (port -> Z)) := Z.of_N d.1 |}; intros; cbn [tick_device dev_read dev_write fst snd];
    try lia; done.
Defined.
Definition tick_world (t : N) (tps : Z) (regs : port -> Z) : world (N * (port -> Z)) unit :=
  World (t, regs) ∅ [] (LibState tps 0 0 0 0 false) tt.

Lemma stopwatch_usleep_bounds_witness :
  let w := tick_world 1000 26000000 (fun _ => 0) in
  wp (D := N * (port -> Z)) total (stopwatch_usleep (Device0 := tick_device) 10) (fun _ w' =>
    1260 < stm_time (Device0 := tick_device) (StmTimer := tick_timer) (w_dev w') <= 1260 + 0x50000 /\
    w_mem w' = w_mem w /\ w_lib w' = w_lib w) 300 w.
Proof.
  intros w. exact (stopwatch_usleep_bounds (Device0 := tick_device) (StmTimer0 := tick_timer) 10 300%nat w
    ltac:(by vm_compute) ltac:(by vm_compute) ltac:(by vm_compute) ltac:(by vm_compute) ltac:(by vm_compute)).
Defined.
(** The low word wraps between the reads: at time [2^32] the answer is 0. *)
Lemma stopwatch_get_value_witness :
  let w := tick_world 0xFFFFFFFF 26000000 (fun _ => 0) in
  (exists w', stopwatch_get (Device0 := tick_device) 0%nat w = Done 0 w') /\
  wp (D := N * (port -> Z)) total (stopwatch_get (Device0 := tick_device)) (fun v w' => exists t0,
    0xFFFFFFFF <= t0 < Z.of_N (w_dev w').1 /\
    v = if u32 t0 <? 0xFFFFFFFF then t0 - 0x100000000 else t0) 0%nat w.
Proof.
  intros w. split; [eexists; vm_compute; reflexivity|].
  exact (stopwatch_get_value (Device0 := tick_device) (StmTimer0 := tick_timer) 0%nat w ltac:(by vm_compute)).
Defined.
