(* ===== verification/Wdt.v ===== *)
(** * The watchdog ([lib/wdt.c]), GPIO pins ([lib/gpio.h]) and the CPU interrupt masks
    ([lib/cpu.h])

    With [GPIO_PM_WADOG] ([board_pm_wadog]) the watchdog is a pin of the power-management
    chip that [wdt_serve] toggles; without it, it is the one of the system control unit,
    whose registers take a password sequence. *)
From S2P Require Import Prelude Machine Board Regs Clock Stopwatch.

Definition WDT_CLOCK_DIVIDER : Z := 16384.
Definition WDT_MAX_TICKS : Z := 0x10000.
Definition WDT_MIN_TICKS : Z := 4.
Definition WDT_TIMEOUT_FACTOR : Z := 4.

Definition cpu_wdt_reload_for_ms (ms : Z) : Z :=
  let clock := CPU_OSC_FREQ / WDT_CLOCK_DIVIDER in
  let ticks := if ms <? 60000 then u32 (clock * ms) / 1000 else WDT_MAX_TICKS in
  let ticks := if ticks <? WDT_MIN_TICKS then WDT_MIN_TICKS else ticks in
  let ticks := if WDT_MAX_TICKS <? ticks then WDT_MAX_TICKS else ticks in
  u32 (WDT_MAX_TICKS - ticks) .& 0xFFFF.

Section Code.
Context {D A : Type} `{!Device D} `{B : Board}.
#[local] Abbreviation M := (M D A).

(** *** [lib/cpu.h] *)
Definition cpu_enable_irq_or_fiq (enable : bool) (bit : Z) : M bool :=
  cpsr ← rd Cpsr;
  wr Cpsr (if enable then cpsr .& not32 bit else cpsr .| bit);;
  mret ((cpsr .& bit) !=? 0).
Definition cpu_enable_irq (flag : bool) : M bool := cpu_enable_irq_or_fiq flag 0x80.
Definition cpu_enable_fiq (flag : bool) : M bool := cpu_enable_irq_or_fiq flag 0x40.

(** *** [lib/gpio.h] *)
Definition gpio_init_input (gpio is_ ps pdpu enaq : Z) : M unit :=
  wr32 (GPIO_PIN gpio) (is_ .| ps .| GPIO_DIR_IN .| pdpu .| enaq).
Definition gpio_init_output (gpio os ps : Z) (data : bool) (ppen pdpu enaq : Z) : M unit :=
  wr32 (GPIO_PIN gpio) (os .| (if data then GPIO_DATA_HIGH else GPIO_DATA_LOW) .| ps .|
    GPIO_DIR_OUT .| ppen .| pdpu .| enaq).
Definition gpio_set (gpio : Z) (value : bool) : M unit :=
  pin ← rd32 (GPIO_PIN gpio);
  wr32 (GPIO_PIN gpio) (if value then pin .| GPIO_DATA_HIGH else pin .& not32 GPIO_DATA_HIGH).
Definition gpio_get (gpio : Z) : M bool :=
  pin ← rd32 (GPIO_PIN gpio); mret ((pin .& GPIO_DATA_HIGH) !=? 0).
Definition gpio_toggle (gpio : Z) : M unit :=
  value ← gpio_get gpio; gpio_set gpio (negb value).

(** *** The CPU watchdog *)
Definition cpu_wdt_get_reload : M Z :=
  con0 ← rd32 SCU_WDTCON0;
  mret ((con0 .& SCU_WDTCON0_WDTREL) .>> SCU_WDTCON0_WDTREL_SHIFT).
Definition cpu_wdt_password_access : M unit :=
  con0 ← rd32 SCU_WDTCON0;
  con1 ← rd32 SCU_WDTCON1;
  wr32 SCU_WDTCON0
    ((con0 .& (SCU_WDTCON0_WDTREL .| SCU_WDTCON0_WDTPW .| SCU_WDTCON0_ENDINIT)) .|
     SCU_WDTCON0_WDTHPW1 .| (con1 .& (SCU_WDTCON1_WDTIR .| SCU_WDTCON1_WDTDR))).
Definition cpu_wdt_modify_access (reload : Z) (endinit : bool) : M unit :=
  con0 ← rd32 SCU_WDTCON0;
  wr32 SCU_WDTCON0
    (u32 (reload .<< SCU_WDTCON0_WDTREL_SHIFT) .| (con0 .& SCU_WDTCON0_WDTPW) .|
     SCU_WDTCON0_WDTHPW1 .| SCU_WDTCON0_WDTLCK .|
     (if endinit then SCU_WDTCON0_ENDINIT else 0)).
Definition cpu_wdt_set_mode (reload con1 : Z) : M unit :=
  irq_was_disabled ← cpu_enable_irq false;
  cpu_wdt_password_access;;
  cpu_wdt_modify_access reload false;;
  wr32 SCU_WDTCON1 con1;;
  cpu_wdt_password_access;;
  cpu_wdt_modify_access reload true;;
  _ ← cpu_enable_irq (negb irq_was_disabled); mret tt.
Definition cpu_wdt_reload : M unit :=
  irq_was_disabled ← cpu_enable_irq false;
  reload ← cpu_wdt_get_reload;
  cpu_wdt_password_access;;
  cpu_wdt_modify_access reload true;;
  _ ← cpu_enable_irq (negb irq_was_disabled); mret tt.
Definition cpu_wdt_disable : M unit :=
  reload ← cpu_wdt_get_reload; cpu_wdt_set_mode reload SCU_WDTCON1_WDTDR.

(** *** The interface *)
Definition wdt_set_interval (interval : Z) : M unit :=
  l ← get_lib;
  put_lib (LibState (ticks_per_s l) (start_execution l) (wdt_timeout l) (last_wdt_serve l)
             (if interval !=? 0 then interval else 1) (wdt_off l)).
Definition set_wdt_off (off : bool) : M unit :=
  l ← get_lib;
  put_lib (LibState (ticks_per_s l) (start_execution l) (wdt_timeout l) (last_wdt_serve l)
             (wdt_interval l) off).
(** [last_wdt_serve = stopwatch_get();] *)
Definition note_wdt_serve : M unit :=
  now ← stopwatch_get; l ← get_lib;
  put_lib (LibState (ticks_per_s l) (start_execution l) (wdt_timeout l) now
             (wdt_interval l) (wdt_off l)).
Definition wdt_init_custom (interval : Z) : M unit :=
  stopwatch_init;;
  wdt_set_interval interval;;
  set_wdt_off false;;
  match board_pm_wadog with
  | Some wadog =>
      cpu_wdt_disable;;
      pin ← rd32 (GPIO_PIN wadog);
      when ((pin .& (GPIO_PS .| GPIO_DIR)) !=? (GPIO_PS_MANUAL .| GPIO_DIR_OUT))
        (wr32 (GPIO_PIN wadog) (GPIO_PS_MANUAL .| GPIO_DIR_OUT .| GPIO_DATA_HIGH));;
      note_wdt_serve
  | None =>
      note_wdt_serve;;
      l ← get_lib;
      cpu_wdt_set_mode (cpu_wdt_reload_for_ms (u32 (wdt_interval l * WDT_TIMEOUT_FACTOR))) 0
  end.
Definition wdt_init : M unit := wdt_init_custom 550.
Definition wdt_disable : M unit :=
  match board_pm_wadog with
  | None => set_wdt_off true;; cpu_wdt_disable
  | Some _ => mret tt
  end.
Definition wdt_set_max_execution_time (ms : Z) : M unit :=
  now ← stopwatch_get; l ← get_lib;
  put_lib (LibState (ticks_per_s l) now ms (last_wdt_serve l) (wdt_interval l) (wdt_off l)).
Definition wdt_serve : M unit :=
  l ← get_lib;
  if wdt_off l then mret tt
  else
    e ← stopwatch_elapsed_ms (last_wdt_serve l);
    if e <? wdt_interval l then mret tt
    else
      expired ← (if wdt_timeout l !=? 0 then
                   e ← stopwatch_elapsed_ms (start_execution l);
                   mret (wdt_timeout l <=? e)
                 else mret false);
      if expired : bool then mret tt
      else
        match board_pm_wadog with
        | Some wadog => gpio_toggle wadog
        | None => cpu_wdt_reload
        end;;
        note_wdt_serve.

(** *** The sleeps of [lib/stopwatch.c] that serve the watchdog *)
Definition stopwatch_usleep_wd (us : Z) : M unit :=
  end_ ← sleep_end us;
  poll (now ← stopwatch_get; mret (end_ <? now)) wdt_serve.
Definition stopwatch_msleep_wd (ms : Z) : M unit := stopwatch_usleep_wd (u32 (ms * 1000)).
Definition stopwatch_sleep_wd (s : Z) : M unit := stopwatch_usleep_wd (u32 (s * 1000000)).
End Code.

(** ** Frames *)
Definition wdt_port `{B : Board} (p : port) : Prop :=
  stm_port p \/ p = Cpsr \/ p = Mmio 32 SCU_WDTCON0 \/ p = Mmio 32 SCU_WDTCON1 \/
  match board_pm_wadog with Some wadog => p = Mmio 32 (GPIO_PIN wadog) | None => False end.

Section Frame.
Context {D A : Type} `{!Device D} `{B : Board} (I : D -> Prop) (HS : stable wdt_port I).
Implicit Types w : world D A.

(** [framed], up to the time of the last service. *)
Definition served (w w' : world D A) : Prop :=
  I (w_dev w') /\ w_mem w' = w_mem w /\ w_app w' = w_app w /\
  ticks_per_s (w_lib w') = ticks_per_s (w_lib w) /\ wdt_interval (w_lib w') = wdt_interval (w_lib w).
Lemma framed_served w w' : framed I w w' -> served w w'.
Proof. intros (? & E1 & E2 & E3). unfold served. by rewrite E1, E2, E3. Qed.
Lemma served_trans w1 w2 w3 : served w1 w2 -> served w2 w3 -> served w1 w3.
Proof.
  intros (? & E1 & E2 & E3 & E4) (? & F1 & F2 & F3 & F4). unfold served.
  by rewrite F1, F2, F3, F4, E1, E2, E3, E4.
Qed.
Lemma wdt_stm : stable stm_port I.
Proof. eapply stable_weaken; [|exact HS]. intros p Hp. by left. Qed.

Lemma wdt_cpsr : wdt_port Cpsr. Proof. right. by left. Qed.
Lemma wdt_con0 : wdt_port (Mmio 32 SCU_WDTCON0). Proof. right. right. by left. Qed.
Lemma wdt_con1 : wdt_port (Mmio 32 SCU_WDTCON1). Proof. right. right. right. by left. Qed.

(** Register accesses of the watchdog, one after the other. *)
Ltac frame_port := first [exact wdt_cpsr | exact wdt_con0 | exact wdt_con1].
Ltac frame_io := repeat
  lazymatch goal with
  | |- wp _ (mbind _ _) _ _ _ => apply wp_bind
  | |- wp _ (mret _) _ _ _ => apply wp_ret
  | |- wp _ (rd _) _ _ _ => eapply wp_rd_frame; [exact HS|frame_port|eassumption|];
          let F := fresh "F" in intros ? ? F; destruct F as (? & ?F1 & ?F2 & ?F3)
  | |- wp _ (wr _ _) _ _ _ => eapply wp_wr_frame; [exact HS|frame_port|eassumption|];
          let F := fresh "F" in intros ? F; destruct F as (? & ?F1 & ?F2 & ?F3)
  end.
Ltac frame_done := split; [assumption|split_and!; congruence].

Lemma wp_cpu_wdt_reload E Q f w : I (w_dev w) ->
  (forall w', framed I w w' -> Q tt w') -> wp E cpu_wdt_reload Q f w.
Proof.
  intros HI HQ.
  unfold cpu_wdt_reload, cpu_enable_irq, cpu_enable_irq_or_fiq, cpu_wdt_get_reload,
    cpu_wdt_password_access, cpu_wdt_modify_access, rd32, wr32.
  frame_io. apply HQ. frame_done.
Qed.
Lemma wp_note_wdt_serve E Q f w : I (w_dev w) ->
  (forall w', served w w' -> Q tt w') -> wp E note_wdt_serve Q f w.
Proof.
  intros HI HQ. unfold note_wdt_serve. apply wp_bind, (wp_stopwatch_get I); [apply wdt_stm|done|].
  intros v w' (? & E1 & E2 & E3). apply wp_bind, wp_get_lib, wp_put_lib, HQ.
  unfold served. simpl. by rewrite E3.
Qed.
Lemma wp_wdt_serve E Q f w : I (w_dev w) -> ticks_per_s (w_lib w) <> 0 ->
  (forall w', served w w' -> Q tt w') -> wp E wdt_serve Q f w.
Proof.
  intros HI Ht HQ. unfold wdt_serve. apply wp_bind, wp_get_lib.
  destruct (wdt_off _); [by apply wp_ret, HQ|].
  apply wp_bind, (wp_stopwatch_elapsed_ms I); [apply wdt_stm|done..|]. intros e w1 F1.
  destruct (_ <? _); [by apply wp_ret, HQ, framed_served|].
  assert (forall (b : bool) w2, framed I w w2 -> wp E (if b then mret tt else
    (match board_pm_wadog with Some wadog => gpio_toggle wadog | None => cpu_wdt_reload end;;
     note_wdt_serve)) Q f w2) as Hrest.
  { intros b w2 F2. destruct b; [by apply wp_ret, HQ, framed_served|]. apply wp_bind.
    assert (forall w3, framed I w2 w3 -> wp E note_wdt_serve Q f w3) as Hnote.
    { intros w3 F3. apply wp_note_wdt_serve; [apply F3|]. intros w4 F4. apply HQ.
      eapply served_trans; [|exact F4]. apply framed_served. by eapply framed_trans. }
    destruct F2 as (HI2 & _). destruct board_pm_wadog as [g|] eqn:Hg.
    - unfold gpio_toggle, gpio_get, gpio_set, rd32, wr32.
      assert (wdt_port (Mmio 32 (GPIO_PIN g))) as Hp by (unfold wdt_port; rewrite Hg; auto).
      do 2 apply wp_bind. eapply wp_rd_frame; [exact HS|exact Hp|done|]. intros v w3 F3. apply wp_ret.
      apply wp_bind. eapply wp_rd_frame; [exact HS|exact Hp|apply F3|]. intros v4 w4 F4.
      eapply wp_wr_frame; [exact HS|exact Hp|apply F4|]. intros w5 F5. apply Hnote.
      eapply framed_trans; [exact F3|]. by eapply framed_trans.
    - by apply wp_cpu_wdt_reload. }
  destruct (_ !=? 0).
  - apply wp_bind, wp_bind, (wp_stopwatch_elapsed_ms I); [apply wdt_stm|apply F1|by destruct F1 as (_ & _ & _ & ->)|].
    intros e2 w2 F2. apply wp_ret. apply Hrest. by eapply framed_trans.
  - apply wp_bind, wp_ret. by apply (Hrest false).
Qed.

Lemma wp_cpu_wdt_set_mode E Q f w reload con1 : I (w_dev w) ->
  (forall w', framed I w w' -> Q tt w') -> wp E (cpu_wdt_set_mode reload con1) Q f w.
Proof.
  intros HI HQ.
  unfold cpu_wdt_set_mode, cpu_enable_irq, cpu_enable_irq_or_fiq,
    cpu_wdt_password_access, cpu_wdt_modify_access, rd32, wr32.
  frame_io. apply HQ. frame_done.
Qed.
Lemma wp_cpu_wdt_disable E Q f w : I (w_dev w) ->
  (forall w', framed I w w' -> Q tt w') -> wp E cpu_wdt_disable Q f w.
Proof.
  intros HI HQ. apply wp_bind, wp_bind. eapply wp_rd_frame; [exact HS|exact wdt_con0|done|].
  intros v w1 F1. apply wp_ret. apply wp_cpu_wdt_set_mode; [apply F1|]. intros w2 F2. apply HQ.
  by eapply framed_trans.
Qed.
(** Initialisation, given that the system timer runs. *)
Lemma wp_wdt_init_custom E Q f w interval : I (w_dev w) ->
  (forall w, I (w_dev w) -> wp E cpu_get_stm_freq (fun v w' => v <> 0 /\ framed I w w') f w) ->
  (forall w', I (w_dev w') -> w_mem w' = w_mem w -> w_app w' = w_app w -> ticks_per_s (w_lib w') <> 0 ->
     wdt_off (w_lib w') = false -> Q tt w') ->
  wp E (wdt_init_custom interval) Q f w.
Proof.
  intros HI Hstm HQ. apply wp_bind, wp_bind. eapply wp_mono; [by apply Hstm|].
  intros v w1 (Hv & HI1 & Em1 & Ea1 & _). apply wp_bind, wp_get_lib, wp_put_lib.
  apply wp_bind, wp_bind, wp_get_lib, wp_put_lib. apply wp_bind, wp_bind, wp_get_lib, wp_put_lib.
  cbn [set_lib w_lib ticks_per_s start_execution wdt_timeout last_wdt_serve wdt_interval wdt_off].
  set (w2 := set_lib _ _). assert (I (w_dev w2) /\ w_mem w2 = w_mem w /\ w_app w2 = w_app w /\
    ticks_per_s (w_lib w2) = v /\ wdt_off (w_lib w2) = false) as (HI2 & Em2 & Ea2 & Et2 & Eo2) by done.
  clearbody w2. destruct board_pm_wadog as [g|] eqn:Hg.
  - assert (wdt_port (Mmio 32 (GPIO_PIN g))) as Hp by (unfold wdt_port; rewrite Hg; auto 6).
    assert (forall w3, framed I w2 w3 -> wp E note_wdt_serve Q f w3) as Hnote.
    { intros w3 (HI3 & Em3 & Ea3 & El3). apply wp_bind, (wp_stopwatch_get I); [apply wdt_stm|done|].
      intros t w4 (HI4 & Em4 & Ea4 & El4). apply wp_bind, wp_get_lib, wp_put_lib.
      apply HQ; cbn [set_lib w_lib w_dev w_mem w_app ticks_per_s wdt_off]; congruence. }
    apply wp_bind, wp_cpu_wdt_disable; [done|]. intros w3 F3.
    apply wp_bind. eapply wp_rd_frame; [exact HS|exact Hp|apply F3|]. intros pin w4 F4.
    assert (framed I w2 w4) as F by by eapply framed_trans.
    apply wp_bind, wp_when; intros _; [|by apply Hnote].
    eapply wp_wr_frame; [exact HS|exact Hp|apply F|]. intros w5 F5. apply Hnote. by eapply framed_trans.
  - apply wp_bind, wp_bind, (wp_stopwatch_get I); [apply wdt_stm|done|].
    intros t w4 (HI4 & Em4 & Ea4 & El4). apply wp_bind, wp_get_lib, wp_put_lib.
    apply wp_bind, wp_get_lib, wp_cpu_wdt_set_mode; [done|]. intros w5 (HI5 & Em5 & Ea5 & El5).
    apply HQ; [done|..]; cbn [set_lib w_lib w_dev w_mem w_app ticks_per_s wdt_off] in *;
      rewrite ?Em5, ?Ea5, ?El5; cbn [ticks_per_s wdt_off]; congruence.
Qed.
End Frame.

Section Footprint.
Context {D A : Type} `{!Device D} `{B : Board} (P : port -> Prop) (HP : forall p, wdt_port p -> P p).
#[local] Abbreviation uses := (uses (D := D) (A := A) P).
Lemma uses_wdt_serve : uses wdt_serve.
Proof.
  assert (forall p, stm_port p -> P p) as HP' by (intros p Hp; apply HP; by left).
  pose proof (uses_stopwatch_elapsed_ms (A := A) P HP') as He. pose proof (uses_stopwatch_get (A := A) P HP') as Hg.
  unfold wdt_serve, note_wdt_serve, cpu_wdt_reload, cpu_enable_irq, cpu_enable_irq_or_fiq, cpu_wdt_get_reload,
    cpu_wdt_password_access, cpu_wdt_modify_access.
  assert (forall g, board_pm_wadog = Some g -> uses (gpio_toggle g)) as Ht.
  { intros g Hg'. unfold gpio_toggle, gpio_get, gpio_set.
    uses_tac ltac:(apply HP; unfold wdt_port; rewrite Hg'; auto 6). }
  destruct board_pm_wadog as [g|].
  - uses_tac ltac:(apply HP; first [apply wdt_cpsr|apply wdt_con0|apply wdt_con1]).
  - uses_tac ltac:(apply HP; first [apply wdt_cpsr|apply wdt_con0|apply wdt_con1]).
Qed.
End Footprint.

(** ** The reload value *)

(** The hardware timeout of the CPU watchdog: for every serve interval up to 41 s, the
    reload value that [wdt_init_custom] programs leaves more time than the interval
    before the reset, at most four times the interval (from 1 ms on), and fits its field. *)
Theorem cpu_wdt_reload_timeout (interval : Z) : 1 <= interval <= 41000 ->
  let reload := cpu_wdt_reload_for_ms (u32 (interval * WDT_TIMEOUT_FACTOR)) in
  let timeout := (WDT_MAX_TICKS - reload) * WDT_CLOCK_DIVIDER in
  interval * (CPU_OSC_FREQ / 1000) < timeout <= 4 * interval * (CPU_OSC_FREQ / 1000) /\
  0 <= reload < 0x10000.
Proof.
  intros Hi. unfold WDT_TIMEOUT_FACTOR, WDT_MAX_TICKS, WDT_CLOCK_DIVIDER.
  change (CPU_OSC_FREQ / 1000) with 26000.
  rewrite (u32_small (interval * 4)) by (unfold is_u32; lia).
  assert (forall t, 4 <= t <= 0x10000 -> (u32 (0x10000 - t) .& 0xFFFF) = 0x10000 - t) as Hland.
  { intros t Ht. rewrite u32_small by (unfold is_u32; lia).
    change 0xFFFF with (Z.ones 16). rewrite Z.land_ones by lia. apply Z.mod_small. lia. }
  unfold cpu_wdt_reload_for_ms, WDT_MAX_TICKS, WDT_MIN_TICKS, WDT_CLOCK_DIVIDER.
  change (CPU_OSC_FREQ / 16384) with 1586.
  set (T := if interval * 4 <? 60000 then u32 (1586 * (interval * 4)) / 1000 else 0x10000).
  assert (T = if interval * 4 <? 60000 then 6344 * interval / 1000 else 0x10000) as ->.
  { unfold T. destruct (Z.ltb_spec (interval * 4) 60000); [|done].
    rewrite u32_small by (unfold is_u32; lia). f_equal. lia. }
  destruct (Z.ltb_spec (interval * 4) 60000).
  - set (t := 6344 * interval / 1000). assert (6 <= t) by (unfold t; Z.div_mod_to_equations; lia).
    destruct (Z.ltb_spec t 4); [lia|]. destruct (Z.ltb_spec 0x10000 t).
    + rewrite Hland by lia. unfold t in *; Z.div_mod_to_equations; lia.
    + rewrite Hland by lia. unfold t in *; Z.div_mod_to_equations; lia.
  - replace (0x10000 <? 4) with false by done. replace (0x10000 <? 0x10000) with false by done.
    cbv iota. rewrite Hland by lia. lia.
Qed.
Lemma cpu_wdt_reload_timeout_witness :
  let reload := cpu_wdt_reload_for_ms (u32 (550 * WDT_TIMEOUT_FACTOR)) in
  reload = 62047 /\
  550 * 26000 < (WDT_MAX_TICKS - reload) * WDT_CLOCK_DIVIDER <= 4 * 550 * 26000 /\ 0 <= reload < 0x10000.
Proof. split; [reflexivity|]. exact (cpu_wdt_reload_timeout 550 ltac:(lia)). Defined.

(** ** The password protocol of [SCU_WDTCON0]

    A monitor of the register accesses: what the hardware must have seen for the watchdog
    to accept the sequence.  While locked, [WDTCON0] takes a password access: reload
    value, password and ENDINIT as last read, HPW1 all ones, HPW0 the mode bits of
    [WDTCON1], LCK zero.  It then takes a modify access: password as last read, HPW1 all
    ones, HPW0 zero, LCK one; its ENDINIT bit applies.  [WDTCON1] can be written only
    while ENDINIT is clear, and interrupts are masked from the first of these writes
    until the watchdog is locked again with ENDINIT set. *)
Record wdt_monitor := WdtMonitor {
  mon_locked : bool;
  mon_endinit : bool;
  mon_masked : bool;   (* the I bit last written to CPSR *)
  mon_reload : Z;      (* the reload value of the last modify access *)
  mon_con0 : Z;        (* the last values read *)
  mon_con1 : Z;
  mon_cpsr : Z;
}.
Definition password_ok (con0 con1 v : Z) : bool :=
  ((v .& 0xFFFFFF01) ==? ((con0 .& 0xFFFFFF01))) && ((v .& 0xF0) ==? 0xF0) &&
  ((v .& 0xC) ==? (con1 .& 0xC)) && ((v .& 0x2) ==? 0).
Definition modify_ok (con0 v : Z) : bool :=
  ((v .& 0xFF00) ==? (con0 .& 0xFF00)) && ((v .& 0xF0) ==? 0xF0) && ((v .& 0xE) ==? 0x2).
Definition wdt_monitor_step (m : wdt_monitor) (e : event) : option wdt_monitor :=
  let '(WdtMonitor locked endinit masked reload con0 con1 cpsr) := m in
  match e with
  | Rd Cpsr v => Some (WdtMonitor locked endinit masked reload con0 con1 v)
  | Wr Cpsr v =>
      if ((v .& not32 0x80) ==? (cpsr .& not32 0x80)) && (locked && endinit || Z.testbit v 7)
      then Some (WdtMonitor locked endinit (Z.testbit v 7) reload con0 con1 cpsr) else None
  | Rd (Mmio 32 a) v =>
      Some (if a =? SCU_WDTCON0 then WdtMonitor locked endinit masked reload v con1 cpsr
            else if a =? SCU_WDTCON1 then WdtMonitor locked endinit masked reload con0 v cpsr else m)
  | Wr (Mmio 32 a) v =>
      if a =? SCU_WDTCON0 then
        if negb masked then None
        else if locked then
          if password_ok con0 con1 v then Some (WdtMonitor false endinit masked reload con0 con1 cpsr) else None
        else if modify_ok con0 v then
          Some (WdtMonitor true (Z.testbit v 0) masked (v .>> 16) con0 con1 cpsr) else None
      else if a =? SCU_WDTCON1 then
        if masked && locked && negb endinit then Some m else None
      else Some m
  | _ => Some m
  end.
Fixpoint wdt_monitor_run (m : wdt_monitor) (es : list event) : option wdt_monitor :=
  match es with
  | [] => Some m
  | e :: es => match wdt_monitor_step m e with Some m' => wdt_monitor_run m' es | None => None end
  end.

(** The first value that these accesses read from [p]. *)
Fixpoint first_read (p : port) (es : list event) : option Z :=
  match es with
  | [] => None
  | Rd q v :: es => if decide (q = p) then Some v else first_read p es
  | Wr _ _ :: es => first_read p es
  end.
Lemma wdt_monitor_run_app es es' m m' : wdt_monitor_run m es = Some m' -> wdt_monitor_run m (es ++ es') = wdt_monitor_run m' es'.
Proof. revert m. induction es as [|e es IH]; intros m; simpl; [by intros [= ->]|]. destruct (wdt_monitor_step m e); [apply IH|done]. Qed.

Lemma lor_u32 a b : is_u32 a -> is_u32 b -> is_u32 (Z.lor a b).
Proof. intros Ha Hb. by apply (lor_range 32); [lia|..]. Qed.
Lemma land_u32 a b : is_u32 b -> is_u32 (Z.land a b).
Proof. intros Hb. pose proof (land_range_r a b). unfold is_u32 in *. lia. Qed.
Ltac word_ok :=
  repeat lazymatch goal with
  | |- is_u32 (Z.lor _ _) => apply lor_u32
  | |- is_u32 (Z.land _ _) => apply land_u32
  | |- is_u32 (if ?b then _ else _) => destruct b
  | |- is_u32 (u32 _) => apply u32_range
  end; try (lazymatch goal with |- is_u32 ?x => ground x end; by vm_compute).
Lemma password_access_ok c0 c1 :
  let v := (c0 .& (SCU_WDTCON0_WDTREL .| SCU_WDTCON0_WDTPW .| SCU_WDTCON0_ENDINIT)) .|
       SCU_WDTCON0_WDTHPW1 .| (c1 .& (SCU_WDTCON1_WDTIR .| SCU_WDTCON1_WDTDR)) in
  is_u32 v /\ password_ok c0 c1 v = true.
Proof.
  intros v. unfold v. clear v. split.
  - word_ok.
  - unfold password_ok. rewrite !Z.land_lor_distr_l, <- !Z.land_assoc. fold_consts.
    rewrite ?Z.land_0_r, ?Z.lor_0_r, ?Z.lor_0_l, !Z.eqb_refl. done.
Qed.
Lemma modify_access_ok reload c0 (endinit : bool) : 0 <= reload < 0x10000 ->
  let v := u32 (reload .<< SCU_WDTCON0_WDTREL_SHIFT) .| (c0 .& SCU_WDTCON0_WDTPW) .|
       SCU_WDTCON0_WDTHPW1 .| SCU_WDTCON0_WDTLCK .| (if endinit then SCU_WDTCON0_ENDINIT else 0) in
  is_u32 v /\ modify_ok c0 v = true /\ Z.testbit v 0 = endinit /\ v .>> 16 = reload.
Proof.
  intros Hr. change SCU_WDTCON0_WDTREL_SHIFT with 16. rewrite Z.shiftl_mul_pow2 by lia.
  change (2 ^ 16) with 0x10000. rewrite u32_small by (unfold is_u32; lia).
  assert (forall m, 0 <= m < 0x10000 -> ((reload * 0x10000) .& m) = 0) as Hlow.
  { intros m Hm. apply Z.bits_inj'. intros i Hi. rewrite Z.land_spec, Z.testbit_0_l.
    destruct (Z.lt_ge_cases i 16).
    - rewrite (Z.mul_pow2_bits_low reload 16) by lia. done.
    - rewrite (bits_above 16 m) by lia. apply andb_false_r. }
  intros v. assert (is_u32 v) as Hv.
  { unfold v. word_ok. unfold is_u32; lia. }
  split; [done|]. unfold v. clear v Hv. split_and!.
  - unfold modify_ok. rewrite !Z.land_lor_distr_l, !Hlow, <- !Z.land_assoc by lia.
    destruct endinit; fold_consts; rewrite ?Z.land_0_r, ?Z.lor_0_r, ?Z.lor_0_l, !Z.eqb_refl; done.
  - rewrite !Z.lor_spec, Z.land_spec, (Z.mul_pow2_bits_low reload 16) by lia.
    change (Z.testbit SCU_WDTCON0_WDTPW 0) with false. rewrite andb_false_r. by destruct endinit.
  - rewrite !Z.shiftr_lor, Z.shiftr_land, Z.shiftr_div_pow2, Z.div_mul by lia.
    replace (SCU_WDTCON0_WDTPW .>> 16) with 0 by done. rewrite Z.land_0_r.
    destruct endinit; by rewrite !Z.lor_0_r.
Qed.

Section Protocol.
Context {D A : Type} `{!Device D} `{B : Board} (m0 : wdt_monitor) (w0 : world D A).
Implicit Types w : world D A.

(** The accesses since [w0] took the monitor from [m0] to [m]. *)
Definition mon (m : wdt_monitor) w : Prop :=
  exists es, w_log w = rev es ++ w_log w0 /\ wdt_monitor_run m0 es = Some m.
Lemma mon_run_snoc es e m m' : wdt_monitor_run m es = Some m' ->
  wdt_monitor_run m (es ++ [e]) = wdt_monitor_step m' e.
Proof.
  revert m. induction es as [|e' es IH]; intros m H; simpl in *.
  - injection H as <-. by destruct (wdt_monitor_step m e).
  - destruct (wdt_monitor_step m e'); [by apply IH|done].
Qed.
Lemma mon_refl : mon m0 w0.
Proof. by exists []. Qed.
Lemma mon_snoc m m' w w' e : mon m w -> w_log w' = e :: w_log w -> wdt_monitor_step m e = Some m' ->
  mon m' w'.
Proof.
  intros (es & E1 & E2) Hl Hs. exists (es ++ [e]). split.
  - rewrite Hl, E1, rev_app_distr. done.
  - by erewrite mon_run_snoc.
Qed.

Lemma wp_cpsr_read E Q f w lk en mk rl c0 c1 cp : mon (WdtMonitor lk en mk rl c0 c1 cp) w ->
  (forall v w', is_u32 v -> mon (WdtMonitor lk en mk rl c0 c1 v) w' -> Q v w') -> wp E (rd Cpsr) Q f w.
Proof.
  intros Hm HQ. apply wp_rd. intros v d _. apply HQ; [apply u32_range|]. by eapply mon_snoc.
Qed.
Lemma wp_con0_read E Q f w lk en mk rl c0 c1 cp : mon (WdtMonitor lk en mk rl c0 c1 cp) w ->
  (forall v w', is_u32 v -> mon (WdtMonitor lk en mk rl v c1 cp) w' -> Q v w') ->
  wp E (rd32 SCU_WDTCON0) Q f w.
Proof.
  intros Hm HQ. apply wp_rd. intros v d _. apply HQ; [apply u32_range|]. by eapply mon_snoc.
Qed.
Lemma wp_con1_read E Q f w lk en mk rl c0 c1 cp : mon (WdtMonitor lk en mk rl c0 c1 cp) w ->
  (forall v w', is_u32 v -> mon (WdtMonitor lk en mk rl c0 v cp) w' -> Q v w') ->
  wp E (rd32 SCU_WDTCON1) Q f w.
Proof.
  intros Hm HQ. apply wp_rd. intros v d _. apply HQ; [apply u32_range|]. by eapply mon_snoc.
Qed.
Lemma wp_wr_mon E p v m m' Q f w : mon m w -> wdt_monitor_step m (Wr p (port_wrap p v)) = Some m' ->
  (forall w', mon m' w' -> Q tt w') -> wp E (wr p v) Q f w.
Proof. intros Hm Hs HQ. apply wp_wr, HQ. by eapply mon_snoc. Qed.

Lemma cpsr_mask_ok c (b : bool) : is_u32 c ->
  let v := u32 (if b then c .& not32 0x80 else c .| 0x80) in
  ((v .& not32 0x80) ==? (c .& not32 0x80)) = true /\ Z.testbit v 7 = negb b.
Proof.
  intros Hc. destruct b; cbv zeta iota; rewrite u32_small by (word_ok; done); (split; [apply Z.eqb_eq|]).
  - by rewrite <- Z.land_assoc, Z.land_diag.
  - by rewrite Z.land_spec, andb_false_r.
  - rewrite Z.land_lor_distr_l. fold_consts. apply Z.lor_0_r.
  - by rewrite Z.lor_spec, orb_true_r.
Qed.
Lemma land_bit7 c : ((c .& 0x80) !=? 0) = Z.testbit c 7.
Proof. change 0x80 with (1 .<< 7). by rewrite land_bit, negb_involutive by lia. Qed.

(** Masking or restoring the interrupts. *)
Lemma wp_irq_mon E (flag : bool) Q f w lk en mk rl c0 c1 cp : mon (WdtMonitor lk en mk rl c0 c1 cp) w ->
  (lk && en = true \/ flag = false) ->
  (forall c w', mon (WdtMonitor lk en (negb flag) rl c0 c1 c) w' -> Q (Z.testbit c 7) w') ->
  wp E (cpu_enable_irq flag) Q f w.
Proof.
  intros Hm Hf HQ. apply wp_bind. eapply wp_cpsr_read; [done|]. intros c w1 Hc Hm1.
  destruct (cpsr_mask_ok c flag Hc) as [E1 E2].
  apply wp_bind. eapply wp_wr_mon; [done| |].
  - cbn [wdt_monitor_step port_wrap]. rewrite E1, E2. simpl.
    replace (lk && en || negb flag) with true; [done|]. by destruct Hf as [-> | ->]; rewrite ?orb_true_r.
  - intros w2 Hm2. apply wp_ret. rewrite land_bit7. by apply HQ.
Qed.
Lemma wp_password_mon E Q f w en rl c0 c1 cp : mon (WdtMonitor true en true rl c0 c1 cp) w ->
  (forall c0 c1 w', mon (WdtMonitor false en true rl c0 c1 cp) w' -> Q tt w') ->
  wp E cpu_wdt_password_access Q f w.
Proof.
  intros Hm HQ. apply wp_bind. eapply wp_con0_read; [done|]. intros v0 w1 _ Hm1.
  apply wp_bind. eapply wp_con1_read; [done|]. intros v1 w2 _ Hm2.
  eapply wp_wr_mon; [exact Hm2| |intros w3; apply HQ].
  destruct (password_access_ok v0 v1) as [E1 E2]. cbn [wdt_monitor_step port_wrap].
  rewrite u32_small by exact E1. rewrite Z.eqb_refl, E2. done.
Qed.
Lemma wp_modify_mon E Q f w reload (endinit : bool) en rl c0 c1 cp : 0 <= reload < 0x10000 ->
  mon (WdtMonitor false en true rl c0 c1 cp) w ->
  (forall c0 w', mon (WdtMonitor true endinit true reload c0 c1 cp) w' -> Q tt w') ->
  wp E (cpu_wdt_modify_access reload endinit) Q f w.
Proof.
  intros Hr Hm HQ. apply wp_bind. eapply wp_con0_read; [done|]. intros v0 w1 _ Hm1.
  eapply wp_wr_mon; [exact Hm1| |intros w2; apply HQ].
  destruct (modify_access_ok reload v0 endinit Hr) as (E1 & E2 & E3 & E4). cbn [wdt_monitor_step port_wrap].
  rewrite u32_small by exact E1. rewrite Z.eqb_refl, E2, E3, E4. done.
Qed.
End Protocol.

(** The first access reads CPSR; the protocol is followed from there on. *)
Lemma wp_irq_first {D A} `{!Device D} E m0 Q f (w : world D A) : mon_locked m0 = true -> mon_endinit m0 = true ->
  (forall c w1 w2 m, w_log w1 = Rd Cpsr c :: w_log w -> wdt_monitor_step m0 (Rd Cpsr c) = Some m ->
     mon m w1 (WdtMonitor true true true (mon_reload m0) (mon_con0 m0) (mon_con1 m0) c) w2 ->
     (exists x, w_log w2 = [Wr Cpsr x] ++ w_log w1) -> Q (Z.testbit c 7) w2) ->
  wp E (cpu_enable_irq false) Q f w.
Proof.
  destruct m0 as [lk en mk rl c0 c1 cp]; simpl. intros -> -> HQ. apply wp_bind, wp_rd. intros v d _.
  set (c := port_wrap Cpsr v). set (w1 := set_io w d (Rd Cpsr c)).
  destruct (cpsr_mask_ok c false (u32_range v)) as [E1 E2].
  apply wp_bind, wp_wr, wp_ret. rewrite land_bit7. eapply (HQ c w1); [done|done| |by eexists].
  eapply (mon_snoc (WdtMonitor true true mk rl c0 c1 c) w1); [apply mon_refl|done|]. cbn [wdt_monitor_step port_wrap]. by rewrite E1, E2.
Qed.
Lemma reload_field c : is_u32 c -> 0 <= (c .& SCU_WDTCON0_WDTREL) .>> SCU_WDTCON0_WDTREL_SHIFT < 0x10000.
Proof. intros Hc. rewrite (land_field c _ 16 16) by (lia || reflexivity). apply Z.mod_pos_bound. lia. Qed.

(** C17. The watchdog accepts what [lib/wdt.c] writes: on any device, whatever its registers
    read, [cpu_wdt_set_mode] (enable, disable) and [cpu_wdt_reload] (service) make only
    accesses the password protocol allows; they leave the watchdog locked with ENDINIT
    set, and they leave the interrupt mask the way the first CPSR read found it.  The reload
    value is the requested one, or for a service the one that is in the register: the field of
    the first [WDTCON0] that it reads. *)
Theorem cpu_wdt_protocol {D A} `{!Device D} `{B : Board} (op : option (Z * Z)) (m0 : wdt_monitor)
    (f : nat) (w : world D A) :
  mon_locked m0 = true -> mon_endinit m0 = true ->
  (forall reload con1, op = Some (reload, con1) -> 0 <= reload < 0x10000) ->
  wp total (match op with Some (reload, con1) => cpu_wdt_set_mode reload con1 | None => cpu_wdt_reload end)
    (fun _ w' => exists es cpsr m, w_log w' = rev (Rd Cpsr cpsr :: es) ++ w_log w /\
       wdt_monitor_run m0 (Rd Cpsr cpsr :: es) = Some m /\
       mon_locked m = true /\ mon_endinit m = true /\ mon_masked m = Z.testbit cpsr 7 /\
       match op with
       | Some (reload, _) => mon_reload m = reload
       | None => exists con0, first_read (Mmio 32 SCU_WDTCON0) es = Some con0 /\
                   mon_reload m = (con0 .& SCU_WDTCON0_WDTREL) .>> SCU_WDTCON0_WDTREL_SHIFT
       end) f w.
Proof.
  intros Hl He Hop.
  assert (forall m0' (w1 : world D A) m (w2 : world D A) c, wdt_monitor_step m0 (Rd Cpsr c) = Some m0' ->
    w_log w1 = Rd Cpsr c :: w_log w -> mon m0' w1 m w2 ->
    exists es, w_log w2 = rev (Rd Cpsr c :: es) ++ w_log w /\ wdt_monitor_run m0 (Rd Cpsr c :: es) = Some m)
    as Hfin.
  { intros m0' w1 m w2 c Hs Hlog (es & E1 & E2). exists es. split.
    - rewrite E1, Hlog. simpl. by rewrite <- app_assoc.
    - cbn [wdt_monitor_run]. by rewrite Hs. }
  destruct op as [[reload con1]|].
  - specialize (Hop _ _ eq_refl). apply wp_bind. eapply wp_irq_first; [done..|]. intros c w1 w2 m Hlog Hs Hm _.
    apply wp_bind. eapply wp_password_mon; [exact Hm|]. clear w2 Hm. intros c0 c1 w2 Hm.
    apply wp_bind. eapply wp_modify_mon; [exact Hop|exact Hm|]. clear w2 Hm c0. intros c0 w2 Hm.
    apply wp_bind. eapply wp_wr_mon; [exact Hm|done|]. clear w2 Hm. intros w2 Hm.
    apply wp_bind. eapply wp_password_mon; [exact Hm|]. clear w2 Hm c0. intros c0 c1' w2 Hm.
    apply wp_bind. eapply wp_modify_mon; [exact Hop|exact Hm|]. clear w2 Hm c0. intros c0 w2 Hm.
    apply wp_bind. eapply wp_irq_mon; [exact Hm|by left|]. clear w2 Hm. intros c' w2 Hm. apply wp_ret.
    destruct (Hfin m w1 _ w2 c Hs Hlog Hm) as (es & E1 & E2). rewrite negb_involutive in E2.
    by eexists es, c, _.
  - apply wp_bind. eapply wp_irq_first; [done..|]. intros c w1 w2 m Hlog Hs (es1 & Eg1 & Er1) [x Eg2].
    rewrite Eg2 in Eg1. apply app_inv_tail in Eg1. assert (es1 = [Wr Cpsr x]) as -> by (apply (f_equal (@rev _)) in Eg1; by rewrite rev_involutive in Eg1).
    set (mr := WdtMonitor _ _ _ _ _ _ _) in Er1. apply wp_bind, wp_bind, wp_rd. intros v0 d _. apply wp_ret. set (v := port_wrap _ v0). set (w3 := set_io _ _ _).
    assert (is_u32 v) as Hv by apply u32_range. pose proof (reload_field v Hv) as Hr. set (reload := (v .& _) .>> _) in *.
    assert (wdt_monitor_step mr (Rd (Mmio 32 SCU_WDTCON0) v) = Some (WdtMonitor true true true (mon_reload m0) v (mon_con1 m0) c)) as Hs3 by done.
    assert (mon (WdtMonitor true true true (mon_reload m0) v (mon_con1 m0) c) w3 (WdtMonitor true true true (mon_reload m0) v (mon_con1 m0) c) w3) as Hm by apply mon_refl.
    apply wp_bind. eapply wp_password_mon; [exact Hm|]. clear Hm. intros c0 c1 w4 Hm.
    apply wp_bind. eapply wp_modify_mon; [exact Hr|exact Hm|]. clear dependent w4. clear c0. intros c0 w4 Hm.
    apply wp_bind. eapply wp_irq_mon; [exact Hm|by left|]. clear dependent w4. intros c' w4 (es & E1 & E2). apply wp_ret.
    rewrite negb_involutive in E2. exists (Wr Cpsr x :: Rd (Mmio 32 SCU_WDTCON0) v :: es), c, (WdtMonitor true true (Z.testbit c 7) reload c0 c1 c'). split_and!.
    + rewrite E1. unfold w3. cbn [set_io w_log]. rewrite Eg2, Hlog. simpl. by rewrite <- !app_assoc.
    + cbn [wdt_monitor_run]. rewrite Hs. cbn [wdt_monitor_run] in Er1. destruct (wdt_monitor_step m (Wr Cpsr x)); [|done]. injection Er1 as ->. rewrite Hs3. exact E2.
    + done.
    + done.
    + done.
    + by exists v.
Qed.
Lemma cpu_wdt_protocol_witness :
  let m0 := WdtMonitor true true false 0 0 0 0 in
  wp (D := port -> Z) total (cpu_wdt_set_mode (Device0 := regs_device) 62047 0)
    (fun _ _ => exists es m, wdt_monitor_run m0 es = Some m /\ mon_reload m = 62047 /\ mon_locked m = true)
    0 example_world.
Proof.
  intros m0. eapply wp_mono.
  - exact (cpu_wdt_protocol (Device0 := regs_device) (B := plain_board PMB8876) (Some (62047, 0)) m0 0%nat
      example_world eq_refl eq_refl
      ltac:(intros ? ? E; injection E as <- <-; split; [by vm_compute|by vm_compute])).
  - intros _ w' (es & cpsr & m & _ & H2 & H3 & _ & _ & H5). by exists (Rd Cpsr cpsr :: es), m.
Defined.
