(* ===== verification/Timeout.v ===== *)
(** * Waits with a timeout

    Time goes forward in everything a program does ([forward]), so a loop that goes on only
    while [stopwatch_elapsed_ms] is less than a timeout is over in time: unless the low word of
    the timer wraps before that ([late]), where the two reads of [stopwatch_get] can give a time
    that is too early. *)
From S2P Require Import Prelude Machine Board Regs Clock Stopwatch Wdt.

Section Time.
Context {D A : Type} `{!Device D, !StmTimer D}.
#[local] Abbreviation M := (M D A).
Implicit Types w : world D A.
Definition now w : Z := stm_time (w_dev w).
Definition forward {R} (m : M R) : Prop := forall f w, match m f w with Done _ w' => now w <= now w' | Stop _ _ => True end.
Lemma steps_forward P d d' : steps P d d' -> stm_time d <= stm_time d'.
Proof.
  induction 1 as [d|p d d' _ _ IH|p v d d' _ _ IH]; [lia| |].
  - pose proof (stm_read_time p d). lia.
  - pose proof (stm_write_time p v d). lia.
Qed.
Lemma forward_uses {R} P (m : M R) : uses P m -> forward m.
Proof. intros Hm f w. specialize (Hm f w). destruct (m f w); [|done]. destruct Hm as [Hm _]. by eapply steps_forward. Qed.
Lemma forward_bind {R S} (m : M R) (k : R -> M S) : forward m -> (forall r, forward (k r)) -> forward (m ≫= k).
Proof.
  intros Hm Hk f w. specialize (Hm f w). unfold mbind, M_bind. destruct (m f w) as [r w'|c w']; [|done].
  specialize (Hk r f w'). destruct (k r f w'); [lia|done].
Qed.
Lemma forward_iter {X R} (body : X -> M (X + R)) x : (forall x, forward (body x)) -> forward (iter body x).
Proof.
  intros Hb f w. unfold iter. generalize f at 1 as n. intros n. revert x w.
  induction n as [|n IH]; intros x w; simpl; [done|]. specialize (Hb x f w). destruct (body x f w) as [[x'|r] w'|c w']; [|done..].
  specialize (IH x' w'). destruct (loop n body x' f w'); [lia|done].
Qed.
Lemma wp_forward {R} E (m : M R) Q f w : forward m -> wp E m Q f w -> wp E m (fun r w' => Q r w' /\ now w <= now w') f w.
Proof. intros Hm Hwp. specialize (Hm f w). unfold wp in *. by destruct (m f w). Qed.

(** ** The stopwatch until the low word wraps *)
Definition wrap_after (t : Z) : Z := (t / 0x100000000 + 1) * 0x100000000.
(** [late]: the low word has wrapped since the time [T]. *)
Context (T : Z) (HT : 0 <= T < 0x10000000000000000).
Definition late w : Prop := wrap_after T <= now w.
Definition unless_late (c : cause) w : Prop := c = OutOfFuel /\ late w.
Definition unchanged w w' : Prop := w_mem w' = w_mem w /\ w_app w' = w_app w /\ w_lib w' = w_lib w.
Lemma late_forward w w' : late w -> now w <= now w' -> late w'.
Proof. unfold late. lia. Qed.
Lemma wp_stopwatch_now E Q f w : T <= now w ->
  (forall v w', unchanged w w' -> now w < now w' -> late w' \/ now w <= v < now w' -> Q v w') -> wp E stopwatch_get Q f w.
Proof.
  intros Hw HQ. apply wp_stopwatch_read. intros w' t6 t0 E6 H0 H1 Em Ea El. fold (now w') in H1. fold (now w) in E6. subst t6.
  apply HQ; [done|lia|]. unfold late, wrap_after. destruct (Z.le_gt_cases (wrap_after T) (now w')) as [Hl|Hl]; [by left|right].
  unfold wrap_after in Hl. rewrite stamp_exact; [lia|lia|lia|Z.div_mod_to_equations; lia|Z.div_mod_to_equations; lia].
Qed.
(** While a timeout of [ms] is not over, its ticks have not passed, and when it is over they have. *)
Definition timeout_ticks (ms tps : Z) : Z := ms * tps / 1000.
Lemma wp_elapsed_now ms E Q f start w : 0 <= ms -> T <= now w -> late w \/ T <= start <= now w -> 1000 <= ticks_per_s (w_lib w) ->
  (forall e w', unchanged w w' -> now w < now w' -> (e < ms -> late w' \/ now w < start + timeout_ticks ms (ticks_per_s (w_lib w)) + 1) ->
     (ms <= e -> late w' \/ start + timeout_ticks ms (ticks_per_s (w_lib w)) <= now w') -> Q e w') ->
  wp E (stopwatch_elapsed_ms start) Q f w.
Proof.
  intros Hms Hw Hstart Ht HQ. unfold stopwatch_elapsed_ms, stopwatch_elapsed. apply wp_bind, wp_bind, wp_stopwatch_now; [done|].
  intros v w' (Em & Ea & El) Hn Hv. apply wp_ret, wp_bind, wp_get_lib, wp_bind. rewrite El. apply wp_udiv; [lia|]. apply wp_ret.
  destruct (Z.le_gt_cases (wrap_after T) (now w')) as [Hl|Hl]; [by apply HQ; [| |left|left]|].
  destruct Hv as [?|Hv]; [by apply HQ; [| |left|left]|]. destruct Hstart as [Hs|Hs]; [pose proof (late_forward w w' Hs ltac:(lia)); by apply HQ; [| |left|left]|].
  unfold wrap_after in Hl. assert (0 <= v - start < 0x100000000) as Hd by (Z.div_mod_to_equations; lia).
  set (tps := ticks_per_s (w_lib w)) in *. assert (u32 (u64 (u64 (v - start) * 1000) / tps) = (v - start) * 1000 / tps) as Ee.
  { rewrite (u64_small (v - start)) by (unfold is_u64; lia). rewrite u64_small by (unfold is_u64; lia). apply u32_small.
    unfold is_u32. split; [apply Z.div_pos; lia|]. apply Z.div_lt_upper_bound; nia. }
  rewrite Ee. apply HQ; [done|done| |]; intros He; right; unfold timeout_ticks.
  - assert ((v - start) * 1000 < ms * tps) by (pose proof (Z.mul_succ_div_gt ((v - start) * 1000) tps); nia). Z.div_mod_to_equations. lia.
  - assert (ms * tps <= (v - start) * 1000) by (pose proof (Z.mul_div_le ((v - start) * 1000) tps ltac:(lia)); nia). Z.div_mod_to_equations. lia.
Qed.

(** A loop that goes on only while the time since [start] is less than the timeout is over in time. *)
Lemma wp_timed_loop ticks f {X R} (body : X -> M (X + R)) (I : X -> world D A -> Prop) start Q x w : 0 <= ticks -> ticks + 2 < Z.of_nat f ->
  I x w -> late w \/ T <= start <= now w ->
  (forall x w, I x w -> late w \/ T <= start <= now w ->
     wp unless_late (body x) (fun s w' => match s with
                                | inl x' => I x' w' /\ now w < now w' /\ (late w' \/ now w < start + ticks + 1)
                                | inr r => Q r w' end) f w) ->
  wp unless_late (iter body x) Q f w.
Proof.
  intros Hticks Hf HI Hs Hbody. set (end_ := start + ticks + 2).
  apply (wp_iter_until _ _ (fun x w' => I x w' /\ (late w' \/ T <= start <= now w')) (fun _ w' => Z.to_nat (end_ - now w')) late).
  - intros w' Hl. by split.
  - by split.
  - destruct Hs as [Hl|Hs]; [by right|left; unfold end_; lia].
  - intros y w2 [H2 Hs2]. eapply wp_mono; [by apply Hbody|]. intros [y'|r] w3; [|done]. intros (H3 & Hn & Hl). unfold late in *.
    split; [split; [done|lia]|unfold end_; lia].
Qed.

(** Time goes forward, and the invariant [J] is kept. *)
Section Upholds.
Context (f : nat) (J : world D A -> Prop).
#[local] Abbreviation E := unless_late.
Definition upholds {R} (m : M R) : Prop := forward m /\ forall Q w, J w -> (forall r w', J w' -> Q r w') -> wp E m Q f w.
Lemma wp_upheld {R} (m : M R) Q w : upholds m -> J w -> (forall r w', J w' -> now w <= now w' -> Q r w') -> wp E m Q f w.
Proof. intros [Hm HJ] Hw HQ. eapply wp_mono; [apply wp_forward; [exact Hm|by apply (HJ (fun _ => J))]|]. intros r w' [H1 H2]. by apply HQ. Qed.
Lemma upholds_ret {R} (r : R) : upholds (mret r).
Proof. split; [intros f' w; apply Z.le_refl|]. intros Q w Hw HQ. by apply wp_ret, HQ. Qed.
Lemma upholds_bind {R S} (m : M R) (k : R -> M S) : upholds m -> (forall r, upholds (k r)) -> upholds (m ≫= k).
Proof.
  intros [Hm HJ] Hk. split; [apply forward_bind; [done|]; intros r; apply Hk|]. intros Q w Hw HQ. apply wp_bind, HJ; [done|].
  intros r w' Hw'. by apply (Hk r).
Qed.
End Upholds.
End Time.
