(* ===== verification/Usart.v ===== *)
(** * The serial ports ([lib/usart.c], [lib/usart.h])

    The driver polls the FIFO levels.  [UsartLine] is what it promises its clients from
    what the port does: received bytes come out of [RXB] in order, bytes written to [TXB]
    while the FIFO has room go out in order.  The clients ([Preloader], [SimReader],
    [IoBridge]) use the specifications of this file only. *)
From S2P Require Import Prelude Machine Board Regs Clock Stopwatch Wdt.

Definition USART_FIFO_SIZE : Z := 8.
Definition USART_BAUD_DIVIDER_MAX : Z := 8192.
Definition USART_FDV_SCALE : Z := 512.

Section Code.
Context {D A : Type} `{!Device D} `{B : Board}.
#[local] Abbreviation M := (M D A).

Definition usart_set_speed (usart baud_rate : Z) : M unit :=
  fpi1 ← cpu_get_fpi1_freq;
  let max_baud_rate := fpi1 .>> 4 in
  q ← udiv max_baud_rate baud_rate;
  let divider := MIN q USART_BAUD_DIVIDER_MAX in
  let scaled_baud_rate := u64 (u64 (baud_rate * divider) * USART_FDV_SCALE) in
  q ← udiv (u64 (scaled_baud_rate + max_baud_rate / 2)) max_baud_rate;
  let fractional_divider := u32 q in
  wr32 (USART_BG usart) (u32 (divider - 1));;
  wr32 (USART_FDV usart)
    (if fractional_divider ==? USART_FDV_SCALE then 0 else fractional_divider).

Definition usart_init (usart baud_rate : Z) : M unit :=
  wr32 (USART_CLC usart) (1 .<< MOD_CLC_RMC_SHIFT);;
  usart_set_speed usart baud_rate;;
  wr32 (USART_CON usart)
    (USART_CON_M_ASYNC_8BIT .| USART_CON_STP_ONE .| USART_CON_REN .| USART_CON_FDE .| USART_CON_CON_R);;
  wr32 (USART_WHBCON usart) USART_WHBCON_SETREN;;
  wr32 (USART_RXFCON usart) (USART_RXFCON_RXFEN .| USART_RXFCON_RXFFLU);;
  wr32 (USART_TXFCON usart) (USART_TXFCON_TXFEN .| USART_TXFCON_TXFFLU);;
  let '(rxd_gpio, txd_gpio) :=
    if usart ==? USART1 then (GPIO_USART1_RXD, GPIO_USART1_TXD)
    else (GPIO_USART0_RXD, GPIO_USART0_TXD) in
  wr32 (GPIO_PIN rxd_gpio) (GPIO_IS_ALT0 .| GPIO_OS_NONE .| GPIO_PS_ALT .| GPIO_DIR_IN);;
  wr32 (GPIO_PIN txd_gpio) (GPIO_IS_NONE .| GPIO_OS_ALT0 .| GPIO_PS_ALT .| GPIO_DIR_IN).

Definition usart_get_rx_fifo_level (usart : Z) : M Z :=
  status ← rd32 (USART_FSTAT usart);
  mret ((status .& USART_FSTAT_RXFFL) .>> USART_FSTAT_RXFFL_SHIFT).
Definition usart_get_tx_fifo_level (usart : Z) : M Z :=
  status ← rd32 (USART_FSTAT usart);
  mret ((status .& USART_FSTAT_TXFFL) .>> USART_FSTAT_TXFFL_SHIFT).

Definition usart_read (usart data size : Z) : M unit :=
  iter (fun offset =>
    if offset <? size then
      fifo_level ← iter (fun _ : unit =>
        l ← usart_get_rx_fifo_level usart;
        mret (if l ==? 0 then inl tt else inr l)) tt;
      let batch_size := MIN (u32 (size - offset)) fifo_level in
      offset ← foldM (fun offset _ =>
        b ← rd32 (USART_RXB usart);
        st8 (data + offset) b;;
        mret (u32 (offset + 1))) offset (seqZ 0 batch_size);
      mret (inl offset)
    else mret (inr tt)) 0.

(** [while (usart_get_tx_fifo_level(usart) != 0) (void) USART_RIS(usart);] *)
Definition tx_drain (usart : Z) : M unit :=
  poll (l ← usart_get_tx_fifo_level usart; mret (l ==? 0))
    (_ ← rd32 (USART_RIS usart); mret tt).

Definition usart_write (usart data size : Z) : M unit :=
  iter (fun offset =>
    if offset <? size then
      tx_drain usart;;
      let batch_size := MIN (u32 (size - offset)) USART_FIFO_SIZE in
      offset ← foldM (fun offset _ =>
        b ← ld8 (data + offset);
        wr32 (USART_TXB usart) b;;
        mret (u32 (offset + 1))) offset (seqZ 0 batch_size);
      mret (inl offset)
    else mret (inr tt)) 0.

Definition usart_flush (usart : Z) : M unit :=
  tx_drain usart;;
  poll (ris ← rd32 (USART_RIS usart); mret ((ris .& USART_RIS_TX) !=? 0)) (mret tt);;
  wr32 (USART_ICR usart) USART_ICR_TX.

Definition strlen (s : Z) : M Z :=
  iter (fun n => b ← ld8 (s + n); mret (if b ==? 0 then inr n else inl (n + 1))) 0.
Definition usart_print (usart data : Z) : M unit :=
  n ← strlen data; usart_write usart data n.

(** The [char c] of [usart_putc] and [usart_getc] is in slot 0. *)
Definition usart_putc (usart c : Z) : M unit :=
  alloc (LOCAL 0) 1;; st8 (LOCAL 0) c;; usart_write usart (LOCAL 0) 1.
Definition usart_getc (usart : Z) : M Z :=
  alloc (LOCAL 0) 1;; usart_read usart (LOCAL 0) 1;; ld8 (LOCAL 0).
(** A [uint32_t] local that [usart_read] fills, in slot 1. *)
Definition usart_read_u32 (usart : Z) : M Z :=
  alloc (LOCAL 1) 4;; usart_read usart (LOCAL 1) 4;; ld32 (LOCAL 1).
End Code.

(** ** The line *)

(** The port's registers other than the ones the driver's transfers go through. *)
Definition usart_quiet (u : Z) (p : port) : bool :=
  match p with
  | Mmio _ a => (a <? u) || (u + 0x100 <=? a) ||
                (a ==? USART_BG u) || (a ==? USART_FDV u) || (a ==? USART_RIS u) || (a ==? USART_ICR u)
  | _ => true
  end.

(** What happens at the port [u].
    [rx_next bs d]: the bytes that [RXB] delivers next begin with [bs] (what comes after
    may depend on what is sent).  [rx_ready]: how many bytes can be read at once;
    [tx_free]: the room in the transmit FIFO; the waits count the polls until something
    arrives, respectively until the FIFO or the shift register is empty. *)
Class UsartLine (u : Z) (D : Type) `{!Device D} := {
  rx_next : list Z -> D -> Prop;
  tx_sent : D -> list Z;
  rx_ready : D -> Z;
  tx_free : D -> Z;
  rx_wait : D -> nat;
  tx_wait : D -> nat;
  line_patience : nat;
  line_waits d : (rx_wait d <= line_patience /\ tx_wait d <= line_patience)%nat;
  line_other p d : usart_quiet u p = true ->
    (forall bs, rx_next bs d -> rx_next bs (snd (dev_read p d)) /\ forall v, rx_next bs (dev_write p v d)) /\
    tx_sent (snd (dev_read p d)) = tx_sent d /\ forall v, tx_sent (dev_write p v d) = tx_sent d;
  line_fstat d d' v : dev_read (Mmio 32 (USART_FSTAT u)) d = (v, d') ->
    (forall bs, rx_next bs d -> rx_next bs d') /\ tx_sent d' = tx_sent d /\
    (u32 v .& USART_FSTAT_RXFFL) .>> USART_FSTAT_RXFFL_SHIFT <= rx_ready d' /\
    (forall b bs, rx_next (b :: bs) d -> (u32 v .& USART_FSTAT_RXFFL) .>> USART_FSTAT_RXFFL_SHIFT = 0 ->
       (rx_wait d' < rx_wait d)%nat) /\
    ((u32 v .& USART_FSTAT_TXFFL) .>> USART_FSTAT_TXFFL_SHIFT = 0 -> USART_FIFO_SIZE <= tx_free d') /\
    ((u32 v .& USART_FSTAT_TXFFL) .>> USART_FSTAT_TXFFL_SHIFT <> 0 -> (tx_wait d' < tx_wait d)%nat);
  line_rxb d d' v b bs : dev_read (Mmio 32 (USART_RXB u)) d = (v, d') ->
    rx_next (b :: bs) d -> 0 < rx_ready d ->
    u8 (u32 v) = b /\ rx_next bs d' /\ rx_ready d - 1 <= rx_ready d' /\ tx_sent d' = tx_sent d;
  line_txb d v : 0 < tx_free d -> is_byte v ->
    tx_sent (dev_write (Mmio 32 (USART_TXB u)) v d) = tx_sent d ++ [v] /\
    tx_free d - 1 <= tx_free (dev_write (Mmio 32 (USART_TXB u)) v d) /\
    forall bs, rx_next bs d -> rx_next bs (dev_write (Mmio 32 (USART_TXB u)) v d);
  line_ris d d' v : dev_read (Mmio 32 (USART_RIS u)) d = (v, d') ->
    (tx_wait d' <= tx_wait d)%nat /\ (u32 v .& USART_RIS_TX = 0 -> (tx_wait d' < tx_wait d)%nat);
  line_idle p d : usart_quiet u p = true ->
    (rx_wait (snd (dev_read p d)) <= rx_wait d)%nat /\ forall v, (rx_wait (dev_write p v d) <= rx_wait d)%nat;
}.

(** *** What was accessed: a flush *)
(** The FIFO was just seen empty. *)
Definition emptied (u : Z) (log : list event) : Prop :=
  exists s before, log = Rd (Mmio 32 (USART_FSTAT u)) s :: before /\ (s .& USART_FSTAT_TXFFL) .>> USART_FSTAT_TXFFL_SHIFT = 0.
Definition unsent (u : Z) (log : list event) : Prop := Forall (fun e => event_port e <> Mmio 32 (USART_TXB u)) log.
(** Since the last byte was written, the FIFO was seen empty, then the transmitter ready, which was acknowledged. *)
Definition flushed (u : Z) (log : list event) : Prop :=
  exists after v waiting seen, log = after ++ Wr (Mmio 32 (USART_ICR u)) USART_ICR_TX :: Rd (Mmio 32 (USART_RIS u)) v :: waiting ++ seen /\
    (v .& USART_RIS_TX) <> 0 /\ emptied u seen /\ unsent u after /\ unsent u waiting.
Lemma flushed_event u e log : usart_quiet u (event_port e) = true -> flushed u log -> flushed u (e :: log).
Proof.
  intros He (after & v & waiting & seen & -> & Hv & Hs & Ha & Hw). exists (e :: after), v, waiting, seen. split_and!; try done.
  apply Forall_cons. split; [|done]. intros E. rewrite E in He. unfold usart_quiet in He.
  revert He. rewrite !orb_true_iff, !Z.eqb_eq, Z.ltb_lt, Z.leb_le. cbv beta delta [USART_TXB USART_BG USART_FDV USART_RIS USART_ICR]. lia.
Qed.

Section Spec.
Context {D A : Type} `{!Device D} `{B : Board} (u : Z) `{!UsartLine u D}.
Implicit Types (w : world D A) (bs : list Z).

(** The state of the line: what is received next, what was sent. *)
Definition line bs (tx : list Z) (d : D) : Prop := rx_next bs d /\ tx_sent d = tx.
Lemma line_stable bs tx : stable (fun p => usart_quiet u p = true) (line bs tx).
Proof.
  intros p d Hp [Hr Ht]. destruct (line_other p d Hp) as (H1 & H2 & H3). split.
  - split; [by apply H1|congruence].
  - intros v. split; [by apply H1|by rewrite H3].
Qed.
(** Waiting for a byte is not prolonged by accesses elsewhere. *)
Lemma line_wait_stable bs tx k :
  stable (fun p => usart_quiet u p = true) (fun d => line bs tx d /\ (rx_wait d <= k)%nat).
Proof.
  intros p d Hp [Hl Hk]. destruct (line_stable bs tx p d Hp Hl) as [H1 H2]. destruct (line_idle p d Hp) as [H3 H4].
  split; [split; [done|lia]|]. intros v. split; [done|]. specialize (H4 v). lia.
Qed.
(** Everything but the device and the memory. *)
Definition same_vars w w' : Prop := w_lib w' = w_lib w /\ w_app w' = w_app w.

Lemma wp_poll_rx E Q f w b bs tx : line (b :: bs) tx (w_dev w) -> (line_patience (u := u) (D := D) < f)%nat ->
  (forall l w', 0 < l -> l <= rx_ready (w_dev w') -> line (b :: bs) tx (w_dev w') ->
     w_mem w' = w_mem w -> same_vars w w' -> Q l w') ->
  wp E (iter (fun _ : unit => l ← usart_get_rx_fifo_level u; mret (if l ==? 0 then inl tt else inr l)) tt) Q f w.
Proof.
  intros Hl Hf HQ.
  eapply (wp_iter _ _ (fun _ w' => line (b :: bs) tx (w_dev w') /\ w_mem w' = w_mem w /\ same_vars w w')
                      (fun _ w' => rx_wait (w_dev w'))); [done|pose proof (line_waits (w_dev w)); lia|].
  intros [] w1 (Hl1 & Hm & Hv). apply wp_bind, wp_bind, wp_rd. intros v d Hrd. apply wp_ret, wp_ret.
  unfold port_wrap. destruct (line_fstat _ _ _ Hrd) as (Hn & Ht & Hlev & Hw & _).
  set (l := (u32 v .& _) .>> _) in *. destruct Hl1 as [Hr1 Ht1].
  assert (0 <= l) by (apply Z.shiftr_nonneg, Z.land_nonneg; right; by vm_compute).
  destruct (Z.eqb_spec l 0).
  - split; [split_and!; try done|by eapply Hw]. split; [by apply Hn|simpl; congruence].
  - apply HQ; simpl; auto; [lia|]. split; [by apply Hn|congruence].
Qed.

(** [size] bytes arrive in the buffer. *)
Lemma wp_usart_read E Q f w data bs rest tx :
  line (bs ++ rest) tx (w_dev w) ->
  (forall i, data <= i < data + Z.of_nat (length bs) -> mem_valid (w_mem w) i = true) ->
  Z.of_nat (length bs) < 0x100000000 ->
  (line_patience (u := u) (D := D) < f)%nat -> (length bs < f)%nat ->
  (forall w', line rest tx (w_dev w') -> w_mem w' = mem_put (w_mem w) data bs -> same_vars w w' -> Q tt w') ->
  wp E (usart_read u data (Z.of_nat (length bs))) Q f w.
Proof.
  intros Hl Hval Hlen Hf1 Hf2 HQ.
  eapply (wp_iter _ _ (fun off w' => exists k, off = Z.of_nat k /\ (k <= length bs)%nat /\
      line (drop k bs ++ rest) tx (w_dev w') /\ w_mem w' = mem_put (w_mem w) data (take k bs) /\ same_vars w w')
    (fun off _ => (length bs - Z.to_nat off)%nat)); [by exists 0%nat; split_and!; try lia|lia|].
  intros off w1 (k & -> & Hk & Hl1 & Hm1 & Hv1). destruct (Z.ltb_spec (Z.of_nat k) (Z.of_nat (length bs))) as [Hlt|].
  2:{ apply wp_ret. apply HQ; [|by rewrite Hm1, take_ge by lia|done]. by rewrite drop_ge in Hl1 by lia. }
  destruct (lookup_lt_is_Some_2 bs k ltac:(lia)) as [b0 Hb0].
  apply wp_bind. eapply wp_poll_rx; [|done|].
  { erewrite (drop_S bs) in Hl1 by done. exact Hl1. }
  intros lev w2 Hlev Hready Hl2 Hm2 Hv2.
  change (b0 :: (fix app (l m : list Z) := _) _ _) with ((b0 :: drop (S k) bs) ++ rest) in Hl2.
  erewrite <- (drop_S bs) in Hl2 by done.
  rewrite u32_small by (unfold is_u32; lia).
  set (n := MIN (Z.of_nat (length bs) - Z.of_nat k) lev).
  assert (0 < n <= Z.of_nat (length bs) - Z.of_nat k /\ n <= lev) as [Hn1 Hn2].
  { unfold n, MIN. destruct (Z.ltb_spec (Z.of_nat (length bs) - Z.of_nat k) lev); lia. }
  replace n with (Z.of_nat (Z.to_nat n)) by lia. apply wp_bind.
  eapply (wp_foldM _ _ (fun done off w' => off = Z.of_nat (k + length done) /\ (length done <= Z.to_nat n)%nat /\
      line (drop (k + length done) bs ++ rest) tx (w_dev w') /\
      n - Z.of_nat (length done) <= rx_ready (w_dev w') /\
      w_mem w' = mem_put (w_mem w) data (take (k + length done) bs) /\ same_vars w w')).
  - rewrite Nat.add_0_r. split_and!; try lia; try done; simpl; [lia|congruence|].
    destruct Hv1, Hv2. split; congruence.
  - intros done_ y todo off w3 Hs (-> & Hd & Hl3 & Hr3 & Hm3 & Hv3). apply seqZ_split in Hs as [-> Hy].
    assert (length done_ < Z.to_nat n)%nat by lia.
    destruct (lookup_lt_is_Some_2 bs (k + length done_) ltac:(lia)) as [b Hbk].
    erewrite (drop_S bs) in Hl3 by done. destruct Hl3 as [Hn3 Ht3].
    apply wp_bind, wp_rd. intros v d Hrd. destruct (line_rxb _ _ _ _ _ Hrd Hn3 ltac:(lia)) as (E1 & E2 & E3 & E4).
    apply wp_bind, wp_st8; [simpl; rewrite Hm3; apply mem_valid_put, Hval; lia|].
    apply wp_ret. rewrite length_app, Nat.add_1_r, Nat.add_succ_r. unfold port_wrap. rewrite E1.
    split_and!; try lia.
    + rewrite u32_small by (unfold is_u32; lia). lia.
    + by split; [|simpl; congruence].
    + simpl. lia.
    + simpl. erewrite (take_S_r bs) by done. rewrite mem_put_snoc, Hm3. f_equal.
      by rewrite length_take_le by lia.
    + destruct Hv3. by split.
  - intros off w3 (-> & _ & Hl3 & _ & Hm3 & Hv3). rewrite length_seqZ_nat in *. apply wp_ret.
    split; [|lia]. exists (k + Z.to_nat n)%nat. split_and!; try done; lia.
Qed.

Lemma wp_tx_drain E Q f w bs tx : line bs tx (w_dev w) -> (line_patience (u := u) (D := D) < f)%nat ->
  (forall w', line bs tx (w_dev w') -> USART_FIFO_SIZE <= tx_free (w_dev w') -> w_mem w' = w_mem w ->
     same_vars w w' -> emptied u (w_log w') -> Q tt w') ->
  wp E (tx_drain u) Q f w.
Proof.
  intros Hl Hf HQ.
  eapply (wp_iter _ _ (fun _ w' => line bs tx (w_dev w') /\ w_mem w' = w_mem w /\ same_vars w w')
                      (fun _ w' => tx_wait (w_dev w'))); [done|pose proof (line_waits (w_dev w)); lia|].
  intros [] w1 (Hl1 & Hm & Hv). apply wp_bind, wp_bind, wp_bind, wp_rd. intros v d Hrd. apply wp_ret, wp_ret.
  unfold port_wrap. destruct (line_fstat _ _ _ Hrd) as (Hn & Ht & _ & _ & Hfree & Hbusy).
  set (l := (u32 v .& _) .>> _) in *. destruct Hl1 as [Hr1 Ht1].
  assert (line bs tx d) as Hl2 by (split; [by apply Hn|congruence]).
  destruct (Z.eqb_spec l 0) as [El|El].
  - apply wp_ret, HQ; auto. by exists (u32 v), (w_log w1).
  - apply wp_bind, wp_bind, wp_rd. intros v2 d2 Hrd2. apply wp_ret, wp_ret. simpl.
    destruct (line_ris _ _ _ Hrd2) as [Hw _]. simpl in Hw. split; [|specialize (Hbusy El); lia].
    split; [|done]. pose proof (line_stable bs tx (Mmio 32 (USART_RIS u)) d) as Hst.
    simpl in Hrd2. rewrite Hrd2 in Hst. apply Hst; [|done].
    unfold usart_quiet. rewrite Z.eqb_refl, !orb_true_r. done.
Qed.

(** The bytes of the buffer go out. *)
Lemma wp_usart_write E Q f w data bs rx tx :
  line rx tx (w_dev w) -> mem_at (w_mem w) data bs -> bytes_ok bs ->
  (forall i, data <= i < data + Z.of_nat (length bs) -> mem_valid (w_mem w) i = true) ->
  Z.of_nat (length bs) < 0x100000000 ->
  (line_patience (u := u) (D := D) < f)%nat -> (length bs < f)%nat ->
  (forall w', line rx (tx ++ bs) (w_dev w') -> w_mem w' = w_mem w -> same_vars w w' -> Q tt w') ->
  wp E (usart_write u data (Z.of_nat (length bs))) Q f w.
Proof.
  intros Hl Hmem Hb Hval Hlen Hf1 Hf2 HQ.
  eapply (wp_iter _ _ (fun off w' => exists k, off = Z.of_nat k /\ (k <= length bs)%nat /\
      line rx (tx ++ take k bs) (w_dev w') /\ w_mem w' = w_mem w /\ same_vars w w')
    (fun off _ => (length bs - Z.to_nat off)%nat)).
  { exists 0%nat. rewrite take_0, app_nil_r. split_and!; try lia; done. }
  { lia. }
  intros off w1 (k & -> & Hk & Hl1 & Hm1 & Hv1). destruct (Z.ltb_spec (Z.of_nat k) (Z.of_nat (length bs))) as [Hlt|].
  2:{ apply wp_ret. apply HQ; [|done..]. by rewrite take_ge in Hl1 by lia. }
  apply wp_bind. eapply wp_tx_drain; [exact Hl1|done|]. intros w2 Hl2 Hfree Hm2 Hv2 _.
  rewrite u32_small by (unfold is_u32; lia).
  set (n := MIN (Z.of_nat (length bs) - Z.of_nat k) USART_FIFO_SIZE).
  assert (0 < n <= Z.of_nat (length bs) - Z.of_nat k /\ n <= 8) as [Hn1 Hn2].
  { unfold n, MIN, USART_FIFO_SIZE. destruct (Z.ltb_spec (Z.of_nat (length bs) - Z.of_nat k) 8); lia. }
  unfold USART_FIFO_SIZE in Hfree.
  replace n with (Z.of_nat (Z.to_nat n)) by lia. apply wp_bind.
  eapply (wp_foldM _ _ (fun done off w' => off = Z.of_nat (k + length done) /\ (length done <= Z.to_nat n)%nat /\
      line rx (tx ++ take (k + length done) bs) (w_dev w') /\
      n - Z.of_nat (length done) <= tx_free (w_dev w') /\ w_mem w' = w_mem w /\ same_vars w w')).
  - rewrite Nat.add_0_r. split_and!; try lia; try done; simpl; [lia|congruence|].
    destruct Hv1, Hv2. split; congruence.
  - intros done_ y todo off w3 Hs (-> & Hd & [Hn3 Ht3] & Hr3 & Hm3 & Hv3). apply seqZ_split in Hs as [-> Hy].
    assert (length done_ < Z.to_nat n)%nat by lia.
    destruct (lookup_lt_is_Some_2 bs (k + length done_) ltac:(lia)) as [b Hbk].
    apply wp_bind, wp_ld8; [rewrite Hm3; apply Hval; lia|].
    rewrite Hm3, (mem_at_lookup _ _ _ _ _ Hmem Hbk).
    assert (is_byte b) as Hbb by (by eapply Forall_lookup_1 in Hbk).
    apply wp_bind, wp_wr, wp_ret. unfold port_wrap. rewrite (u32_small b) by (unfold is_byte, is_u32 in *; lia).
    assert (0 < tx_free (w_dev w3)) as Hroom by lia.
    destruct (line_txb (w_dev w3) b Hroom Hbb) as (E1 & E2 & E3).
    rewrite length_app, Nat.add_1_r, Nat.add_succ_r. split_and!; try lia.
    + rewrite u32_small by (unfold is_u32; lia). lia.
    + split; [by apply E3|]. simpl. rewrite E1, Ht3. erewrite (take_S_r bs) by done. by rewrite app_assoc.
    + simpl. lia.
    + done.
    + by destruct Hv3.
  - intros off w3 (-> & _ & Hl3 & _ & Hm3 & Hv3). rewrite length_seqZ_nat in *. apply wp_ret.
    split; [|lia]. exists (k + Z.to_nat n)%nat. split_and!; try done; lia.
Qed.
End Spec.

(** The watchdog's registers are none of the first port's. *)
Lemma wdt_quiet `{B : Board} p : wdt_port p -> usart_quiet USART0 p = true.
Proof.
  intros Hp. destruct Hp as [[->| ->]|[->|[->|[->|Hp]]]]; [done..|].
  pose proof board_pm_wadog_pos as Hpos. destruct board_pm_wadog as [g|]; [|done]. rewrite Hp. clear Hp.
  unfold usart_quiet, GPIO_PIN, GPIO_BASE, USART0.
  destruct (Z.ltb_spec (0xF4300000 + 32 + g * 4) 0xF1000000); [done|].
  destruct (Z.leb_spec (0xF1000000 + 0x100) (0xF4300000 + 32 + g * 4)); [done|lia].
Qed.
Lemma wdt_line {D} `{!Device D} `{B : Board} `{!UsartLine USART0 D} rx tx : stable wdt_port (line USART0 rx tx).
Proof. eapply stable_weaken; [apply wdt_quiet|apply line_stable]. Qed.

(** Memory outside the two scratch slots of [usart_putc], [usart_getc] and the 32-bit
    locals is the same; nothing allocated is lost. *)
Definition scratch (m m' : gmap Z Z) : Prop :=
  (forall a, ~ (LOCAL 1 <= a < 0) -> mem_get m' a = mem_get m a) /\
  (forall a, mem_valid m a = true -> mem_valid m' a = true) /\
  (mem_ok m -> mem_ok m').
#[export] Instance scratch_preorder : PreOrder scratch.
Proof.
  split; [by intros m|]. intros m1 m2 m3 (E1 & V1 & O1) (E2 & V2 & O2). split_and!; auto.
  intros a Ha. by rewrite E2, E1.
Qed.
Lemma scratch_at m m' a bs : scratch m m' -> 0 <= a -> mem_at m a bs -> mem_at m' a bs.
Proof. intros (H & _) Ha. apply mem_at_ext. intros x Hx. apply H. lia. Qed.
Lemma scratch_put k n m bs : k = 0 \/ k = 1 -> Z.of_nat (length bs) <= n -> n <= slot_size -> bytes_ok bs ->
  scratch m (mem_put (mem_alloc (LOCAL k) n m) (LOCAL k) bs).
Proof.
  intros Hk Hn Hs Hb. assert (LOCAL 1 <= LOCAL k /\ LOCAL k + slot_size <= 0) as [H1 H2]
    by (unfold LOCAL, slot_size in *; destruct Hk; subst k; lia).
  split_and!.
  - intros a Ha. rewrite mem_get_put_out, mem_get_alloc_out by lia. done.
  - intros a Ha. by apply mem_valid_put, mem_valid_alloc_mono.
  - intros Hok. apply mem_ok_put; [by apply mem_ok_alloc|done].
Qed.
Instance same_vars_preorder {D A} : PreOrder (same_vars (D := D) (A := A)).
Proof. split; [done|]. intros w1 w2 w3 [] []. split; congruence. Qed.

Section Chars.
Context {D A : Type} `{!Device D} `{B : Board} (u : Z) `{!UsartLine u D}.
Implicit Types (w : world D A).
Context (f : nat) (Hf : (line_patience (u := u) (D := D) + 4 < f)%nat).

Lemma wp_usart_putc E Q w c rx tx : line u rx tx (w_dev w) ->
  (forall w', line u rx (tx ++ [u8 c]) (w_dev w') -> scratch (w_mem w) (w_mem w') -> same_vars w w' -> Q tt w') ->
  wp E (usart_putc u c) Q f w.
Proof.
  intros Hl HQ. apply wp_bind, wp_alloc, wp_bind, wp_st8; [apply mem_valid_alloc; lia|].
  cbn [set_mem w_mem]. eapply (wp_usart_write u _ _ _ _ (LOCAL 0) [u8 c]).
  - exact Hl.
  - exact (mem_at_put (mem_alloc (LOCAL 0) 1 (w_mem w)) (LOCAL 0) [u8 c]).
  - apply Forall_singleton, u8_range.
  - intros i Hi. apply mem_valid_insert, mem_valid_alloc. simpl in Hi. lia.
  - simpl. lia.
  - lia.
  - simpl. lia.
  - intros w' Hl' Hm' Hv'. apply HQ; [done| |done]. rewrite Hm'.
    apply (scratch_put 0 1 _ [u8 c]); simpl; [auto|lia|done|apply Forall_singleton, u8_range].
Qed.
Lemma wp_usart_getc E Q w b rx tx : line u (b :: rx) tx (w_dev w) -> is_byte b ->
  (forall w', line u rx tx (w_dev w') -> scratch (w_mem w) (w_mem w') -> same_vars w w' -> Q b w') ->
  wp E (usart_getc u) Q f w.
Proof.
  intros Hl Hb HQ. apply wp_bind, wp_alloc, wp_bind.
  eapply (wp_usart_read u _ _ _ _ (LOCAL 0) [b] rx tx).
  - exact Hl.
  - intros i Hi. apply mem_valid_alloc. simpl in Hi. lia.
  - simpl. lia.
  - lia.
  - simpl. lia.
  - intros w' Hl' Hm' Hv'. apply wp_ld8.
    + rewrite Hm'. apply mem_valid_put, mem_valid_alloc. lia.
    + assert (mem_get (w_mem w') (LOCAL 0) = b) as ->.
      { rewrite Hm'. cbn [mem_put]. rewrite mem_get_insert. by case_decide. }
      apply HQ; [done| |done]. rewrite Hm'.
      apply (scratch_put 0 1 _ [b]); simpl; [auto|lia|done|by apply Forall_singleton].
Qed.
Lemma wp_usart_read_u32 E Q w bs rx tx : line u (bs ++ rx) tx (w_dev w) -> length bs = 4%nat -> bytes_ok bs ->
  (forall w', line u rx tx (w_dev w') -> scratch (w_mem w) (w_mem w') -> same_vars w w' -> Q (le_word bs) w') ->
  wp E (usart_read_u32 u) Q f w.
Proof.
  intros Hl Hlen Hb HQ. apply wp_bind, wp_alloc, wp_bind.
  replace (usart_read u (LOCAL 1) 4) with (usart_read (D := D) (A := A) u (LOCAL 1) (Z.of_nat (length bs)))
    by by rewrite Hlen.
  eapply wp_usart_read; [exact Hl| |lia..|].
  { intros i Hi. apply mem_valid_alloc. lia. }
  intros w' Hl' Hm' Hv'.
  assert (forall i b, bs !! i = Some b -> forall (K : Z -> M D A Z), wp E (K b) Q f w' ->
    wp E (ld8 (LOCAL 1 + Z.of_nat i) ≫= K) Q f w') as Hld.
  { intros i b Hi K HK. pose proof (lookup_lt_Some _ _ _ Hi). apply wp_bind, wp_ld8.
    - rewrite Hm'. apply mem_valid_put, mem_valid_alloc. lia.
    - rewrite Hm'. by rewrite (mem_at_lookup _ _ _ _ _ (mem_at_put _ _ _) Hi). }
  unfold ld32. destruct bs as [|b0 [|b1 [|b2 [|b3 [|]]]]]; try done. rewrite <- (Z.add_0_r (LOCAL 1)) at 1.
  eapply (Hld 0%nat); [done|]. eapply (Hld 1%nat); [done|]. eapply (Hld 2%nat); [done|].
  eapply (Hld 3%nat); [done|]. apply wp_ret, HQ; [done| |done]. rewrite Hm'.
  apply scratch_put; [auto|done..].
Qed.
Lemma wp_usart_flush E Q w rx tx : line u rx tx (w_dev w) ->
  (forall w', line u rx tx (w_dev w') -> w_mem w' = w_mem w -> same_vars w w' -> flushed u (w_log w') -> Q tt w') ->
  wp E (usart_flush u) Q f w.
Proof.
  intros Hl HQ. apply wp_bind. eapply wp_tx_drain; [exact Hl|lia|]. intros w1 Hl1 _ Hm1 Hv1 Hempty.
  apply wp_bind.
  eapply (wp_iter _ _ (fun _ w' => (line u rx tx (w_dev w') /\ w_mem w' = w_mem w /\ same_vars w w') /\
                        exists waiting, w_log w' = waiting ++ w_log w1 /\ unsent u waiting)
                      (fun _ w' => tx_wait (w_dev w'))); [by split; [|exists []; split; [|apply Forall_nil]]|pose proof (line_waits (u := u) (w_dev w1)); lia|].
  intros [] w2 ((Hl2 & Hm2 & Hv2) & waiting & Eg & Hw2). apply wp_bind, wp_bind, wp_rd. intros v d Hrd. apply wp_ret.
  assert (line u rx tx d) as Hld.
  { destruct (line_stable u rx tx (Mmio 32 (USART_RIS u)) (w_dev w2)) as [H _]; [|done|by rewrite Hrd in H].
    unfold usart_quiet. rewrite Z.eqb_refl, !orb_true_r. done. }
  destruct (line_ris _ _ _ Hrd) as [_ Hw]. unfold port_wrap. destruct (Z.eqb_spec (u32 v .& USART_RIS_TX) 0) as [E0|].
  - apply wp_bind, wp_ret, wp_ret. split; [|by apply Hw]. split; [done|]. exists (Rd (Mmio 32 (USART_RIS u)) (u32 v) :: waiting). simpl. rewrite Eg. split; [done|].
    apply Forall_cons. split; [|done]. simpl. injection 1. cbv beta delta [USART_TXB USART_RIS]. lia.
  - apply wp_ret, wp_wr, HQ; [|done|done|]; [|exists [], (u32 v), waiting, (w_log w1); simpl; rewrite Eg; by split_and!; [..|apply Forall_nil|]]. simpl. apply line_stable; [|done].
    unfold usart_quiet. rewrite Z.eqb_refl, !orb_true_r. done.
Qed.
End Chars.

(** ** Footprints *)
Definition usart_port (u : Z) (p : port) : Prop := exists a, p = Mmio 32 a /\ u <= a < u + 0x100.
Section Footprint.
Context {D A : Type} `{!Device D} `{B : Board} (u : Z) (P : port -> Prop) (HP : forall p, usart_port u p -> P p).
#[local] Abbreviation uses := (uses (D := D) (A := A) P).
#[local] Ltac in_usart := apply HP; eexists; split; [reflexivity|];
  cbv beta delta [USART_FSTAT USART_RXB USART_TXB USART_RIS USART_ICR]; lia.
Lemma uses_usart_read data size : uses (usart_read u data size).
Proof. unfold usart_read, usart_get_rx_fifo_level. uses_tac in_usart. Qed.
Lemma uses_tx_drain : uses (tx_drain u).
Proof. unfold tx_drain, usart_get_tx_fifo_level. uses_tac in_usart. Qed.
Lemma uses_usart_write data size : uses (usart_write u data size).
Proof. pose proof uses_tx_drain. unfold usart_write. uses_tac in_usart. Qed.
Lemma uses_usart_putc c : uses (usart_putc u c).
Proof. pose proof uses_usart_write. unfold usart_putc. uses_tac in_usart. Qed.
Lemma uses_usart_getc : uses (usart_getc u).
Proof. pose proof uses_usart_read. unfold usart_getc. uses_tac in_usart. Qed.
Lemma uses_usart_flush : uses (usart_flush u).
Proof. pose proof uses_tx_drain. unfold usart_flush. uses_tac in_usart. Qed.
End Footprint.

(** ** Properties *)

(** What the driver receives it can send back: [usart_read] stores the next [n] bytes
    of the line at [data], in order, and changes no other memory; [usart_write] of that
    buffer sends exactly those bytes, in order, after what was sent before.  Both
    terminate, whatever the FIFO levels are in between. *)
Theorem usart_echo {D A} `{!Device D} (u : Z) `{!UsartLine u D} (f : nat) (w : world D A)
    (data : Z) (bs rest tx : list Z) :
  line u (bs ++ rest) tx (w_dev w) -> bytes_ok bs -> Z.of_nat (length bs) < 0x100000000 ->
  (forall i, data <= i < data + Z.of_nat (length bs) -> mem_valid (w_mem w) i = true) ->
  (line_patience (u := u) (D := D) < f)%nat -> (length bs < f)%nat ->
  wp total (usart_read u data (Z.of_nat (length bs));; usart_write u data (Z.of_nat (length bs)))
    (fun _ w' => line u rest (tx ++ bs) (w_dev w') /\ w_mem w' = mem_put (w_mem w) data bs /\
                 w_lib w' = w_lib w /\ w_app w' = w_app w) f w.
Proof.
  intros Hl Hb Hlen Hv Hf1 Hf2. apply wp_bind. eapply wp_usart_read; [exact Hl|done..|].
  intros w1 Hl1 Hm1 [V1 V2]. eapply wp_usart_write; [exact Hl1|rewrite Hm1; apply mem_at_put|done| |done..|].
  - intros i Hi. rewrite Hm1. by apply mem_valid_put, Hv.
  - intros w2 Hl2 Hm2 [V3 V4]. split_and!; [done|by rewrite Hm2|congruence..].
Qed.

Lemma ideal_fpi1_range `{B : Board} c : 0 <= clock_ideal c ClkFpi1 <= 832000000.
Proof.
  pose proof (ideal_pll_range c) as Hp. cbn [clock_ideal]. cbv zeta. unfold CPU_OSC_FREQ, CPU_CLK32K_FREQ.
  destruct (_ =? 0); [lia|]. destruct (_ =? 1); [lia|]. destruct (_ =? 2); [|lia].
  pose proof (bits_range c CGU_CON1 5 4 ltac:(lia)).
  assert (1 <= 2 ^ bits c CGU_CON1 5 4) as H2 by (apply (Z.pow_le_mono_r 2 0); lia).
  set (x := ideal_pll c / 2). assert (0 <= x <= 832000000) by (unfold x; Z.div_mod_to_equations; lia).
  split; [apply Z.div_pos; lia|]. apply Z.div_le_upper_bound; nia.
Qed.
(** The arithmetic of the dividers. *)
Lemma speed_arith max baud_rate : 7 <= baud_rate <= max -> max <= 52000000 ->
  let d := MIN (max / baud_rate) 8192 in
  let n := (baud_rate * d * 512 + max / 2) / max in
  1 <= d <= 8192 /\ 1 <= n <= 512 /\ 2 * Z.abs (baud_rate * d * 512 - n * max) <= max /\
  baud_rate * d <= max.
Proof.
  intros Hb Hmax d n.
  assert (1 <= max / baud_rate) as Hq1 by (apply Z.div_le_lower_bound; lia).
  assert (baud_rate * (max / baud_rate) <= max < baud_rate * (max / baud_rate + 1)) as Hq2.
  { pose proof (Z.div_mod max baud_rate). pose proof (Z.mod_pos_bound max baud_rate). lia. }
  assert (1 <= d <= 8192 /\ d <= max / baud_rate) as [Hd1 Hd2].
  { unfold d, MIN. destruct (Z.ltb_spec (max / baud_rate) 8192); lia. }
  assert (baud_rate * d <= max) as Hbd by nia.
  assert (max <= baud_rate * d * 1024) as Hbig.
  { unfold d, MIN in *. destruct (Z.ltb_spec (max / baud_rate) 8192); nia. }
  set (s := baud_rate * d * 512) in *. set (h := max / 2) in *.
  assert (max = 2 * h \/ max = 2 * h + 1) as Hh by (unfold h; Z.div_mod_to_equations; lia).
  pose proof (Z.div_mod (s + h) max ltac:(lia)) as En. pose proof (Z.mod_pos_bound (s + h) max ltac:(lia)) as Hr.
  fold n in En. set (r := (s + h) mod max) in *.
  assert (1 <= n) by (apply Z.div_le_lower_bound; lia).
  assert (n < 513) by (apply Z.div_lt_upper_bound; lia).
  split_and!; lia.
Qed.

(** [usart_set_speed] approximates the baud rate: for a rate the clock can reach (and
    not below 7 baud), it writes a divider [BG + 1] between 1 and 8192 and a fraction
    [n/512] with [1 <= n <= 512] (512 coded as 0), such that the rate of the port,
    [f/16 * n/512 / (BG + 1)], is off by at most half a step of the fraction. *)
Theorem usart_set_speed_accurate {D A} `{!Device D} `{B : Board} (c : Z -> Z) (usart baud_rate : Z)
    (f : nat) (w : world D A) :
  (forall a, is_u32 (c a)) -> cgu_reads c (w_dev w) ->
  let max := clock_ideal c ClkFpi1 / 16 in
  7 <= baud_rate <= max ->
  exists d n log, 1 <= d <= 8192 /\ 1 <= n <= 512 /\
    2 * Z.abs (baud_rate * d * 512 - n * max) <= max /\
    usart_set_speed usart baud_rate f w =
      Done tt (World (dev_write (Mmio 32 (USART_FDV usart)) (n mod 512)
                 (dev_write (Mmio 32 (USART_BG usart)) (d - 1) (w_dev w)))
               (w_mem w)
               (Wr (Mmio 32 (USART_FDV usart)) (n mod 512) :: Wr (Mmio 32 (USART_BG usart)) (d - 1) :: log)
               (w_lib w) (w_app w)).
Proof.
  intros Hc Hw max Hb. pose proof (ideal_fpi1_range c) as Hfpi1.
  assert (0 < max <= 52000000) as Hmax by (unfold max in *; Z.div_mod_to_equations; lia).
  destruct (speed_arith max baud_rate Hb ltac:(lia)) as (Hd & Hn & He & Hbd).
  destruct (ret_fpi1 (A := A) c Hc f w Hw) as [log Efpi].
  set (d := MIN (max / baud_rate) 8192) in *. set (n := (baud_rate * d * 512 + max / 2) / max) in *.
  exists d, n, log. split_and!; try lia.
  unfold usart_set_speed. unfold mbind at 1, M_bind at 1. rewrite Efpi.
  rewrite Z.shiftr_div_pow2 by lia. change (2 ^ 4) with 16. fold max.
  unfold udiv. destruct (Z.eqb_spec baud_rate 0); [lia|]. destruct (Z.eqb_spec max 0); [lia|].
  cbv beta zeta iota delta [mbind M_bind mret M_ret]. unfold USART_BAUD_DIVIDER_MAX, USART_FDV_SCALE. fold d.
  assert (0 <= max / 2 <= 26000000) by (Z.div_mod_to_equations; lia).
  rewrite (u64_small (baud_rate * d)), (u64_small (baud_rate * d * 512)),
    (u64_small (baud_rate * d * 512 + max / 2)) by (unfold is_u64; nia).
  fold n. rewrite (u32_small n) by (unfold is_u32; lia).
  replace (if n =? 512 then 0 else n) with (n mod 512).
  2:{ destruct (Z.eqb_spec n 512) as [->|]; [done|]. apply Z.mod_small. lia. }
  assert (0 <= n mod 512 < 512) by (apply Z.mod_pos_bound; lia).
  unfold wr32, wr, port_wrap. rewrite (u32_small (d - 1)) by (unfold is_u32; lia).
  rewrite (u32_small (d - 1)) by (unfold is_u32; lia).
  rewrite (u32_small (n mod 512)) by (unfold is_u32; lia). done.
Qed.

(** ** A concrete line: the host sends a script and records the answers; the other
    registers read as [regs] and ignore writes *)
Record script := Script { s_rx : list Z; s_tx : list Z }.
Definition script_device (u : Z) (regs : port -> Z) : Device script :=
  {| dev_read p s :=
       if decide (p = Mmio 32 (USART_FSTAT u)) then (Z.min 8 (Z.of_nat (length (s_rx s))), s)
       else if decide (p = Mmio 32 (USART_RXB u)) then
         (default 0 (head (s_rx s)), Script (tail (s_rx s)) (s_tx s))
       else if decide (p = Mmio 32 (USART_RIS u)) then (USART_RIS_TX, s)
       else (regs p, s);
     dev_write p v s :=
       if decide (p = Mmio 32 (USART_TXB u)) then Script (s_rx s) (s_tx s ++ [v]) else s |}.
Definition script_world (rx : list Z) (m : gmap Z Z) (l : lib_state) : world script unit :=
  World (Script rx []) m [] l tt.

Lemma fstat_levels n : 0 <= n <= 8 ->
  (u32 n .& USART_FSTAT_RXFFL) .>> USART_FSTAT_RXFFL_SHIFT = n /\
  (u32 n .& USART_FSTAT_TXFFL) .>> USART_FSTAT_TXFFL_SHIFT = 0.
Proof.
  intros H. assert (n = 0 \/ n = 1 \/ n = 2 \/ n = 3 \/ n = 4 \/ n = 5 \/ n = 6 \/ n = 7 \/ n = 8) as Hn by lia.
  repeat destruct Hn as [->|Hn]; [..|subst n]; done.
Qed.
Definition script_line (u : Z) (regs : port -> Z) : @UsartLine u script (script_device u regs).
Proof.
  unshelve refine {| rx_next bs s := exists more, s_rx s = bs ++ more /\ bytes_ok bs;
            tx_sent := s_tx; rx_ready s := Z.min 8 (Z.of_nat (length (s_rx s)));
            tx_free _ := 8; rx_wait _ := 0%nat; tx_wait _ := 0%nat; line_patience := 0%nat |}.
  - intros _. lia.
  - intros p s Hq. assert (forall a, a ∈ [USART_FSTAT u; USART_RXB u; USART_TXB u] -> p <> Mmio 32 a) as Hp.
    { intros a Ha ->. unfold usart_quiet in Hq. revert Ha. rewrite !elem_of_cons, elem_of_nil.
      unfold USART_FSTAT, USART_RXB, USART_TXB, USART_BG, USART_FDV, USART_RIS, USART_ICR in *. lia. }
    assert (p <> Mmio 32 (USART_FSTAT u) /\ p <> Mmio 32 (USART_RXB u) /\ p <> Mmio 32 (USART_TXB u)) as (H1 & H2 & H3)
      by (split_and!; apply Hp; rewrite !elem_of_cons; auto).
    cbn [script_device dev_read dev_write].
    destruct (decide (p = Mmio 32 (USART_FSTAT u))); [done|]. destruct (decide (p = Mmio 32 (USART_RXB u))); [done|].
    destruct (decide (p = Mmio 32 (USART_TXB u))); [done|]. by destruct (decide (p = Mmio 32 (USART_RIS u))).
  - intros s s' v Hr. cbn [script_device dev_read] in Hr. rewrite decide_True in Hr by done. injection Hr as <- <-.
    pose proof (fstat_levels (Z.min 8 (Z.of_nat (length (s_rx s)))) ltac:(lia)) as [-> ->].
    split_and!; auto; try done; try lia.
    intros b bs (more & Hm & _) H0. rewrite Hm in H0. simpl in H0. lia.
  - intros s s' v b bs Hr (more & Hm & Hok) _. cbn [script_device dev_read] in Hr.
    rewrite decide_False in Hr by (unfold USART_RXB, USART_FSTAT; intros [=]; lia). rewrite decide_True in Hr by done.
    injection Hr as <- <-. rewrite Hm. simpl. apply Forall_cons in Hok as [Hb Hok].
    split_and!; [|by exists more|lia|done].
    rewrite u32_small by (unfold is_byte, is_u32 in *; lia). by apply u8_small.
  - intros s v _ Hv. cbn [script_device dev_write]. rewrite decide_True by done. split_and!; [done|lia|done].
  - intros s s' v Hr. cbn [script_device dev_read] in Hr.
    rewrite !decide_False, decide_True in Hr
      by (done || (unfold USART_RIS, USART_RXB, USART_FSTAT; intros [=]; lia)).
    injection Hr as <- <-. split; [lia|by intros].
  - intros p s _. split; [lia|]. intros v. lia.
Defined.

(** The registers of a board whose system timer runs and whose cache is clean. *)
Definition boot_clocks (a : Z) : Z := if a =? STM_CLC then 0x100 else 0.
Definition boot_regs (p : port) : Z :=
  match p with Mmio _ a => boot_clocks a | Cp15 7 10 3 => 0x40000000 | _ => 0 end.
Lemma boot_clocks_u32 a : is_u32 (boot_clocks a).
Proof. unfold boot_clocks. destruct (_ =? _); by apply (bool_decide_unpack _). Qed.
Lemma boot_reads (s : script) : cgu_reads (Device0 := script_device USART0 boot_regs) boot_clocks s.
Proof.
  intros a Ha. repeat (apply elem_of_cons in Ha as [->|Ha]; [done|]). by apply elem_of_nil in Ha.
Qed.

Lemma usart_echo_witness :
  let bs := [0x10; 0x20; 0x30; 0x40; 0x50; 0x60; 0x70; 0x80; 0x90; 0xA0] in
  let w := script_world bs ∅ lib_zero in
  wp (D := script) total (usart_read (Device0 := script_device USART0 (fun _ => 0)) USART0 0x1000 10;;
                          usart_write (Device0 := script_device USART0 (fun _ => 0)) USART0 0x1000 10)
    (fun _ w' => s_tx (w_dev w') = bs /\ w_mem w' = mem_put ∅ 0x1000 bs) 20 w.
Proof.
  intros bs w. eapply wp_mono.
  - apply (usart_echo (Device0 := script_device USART0 (fun _ => 0)) (UsartLine0 := script_line USART0 (fun _ => 0)) USART0 20%nat w
      0x1000 bs [] []).
    + split; [|done]. exists []. by split; [|apply (bool_decide_unpack _)].
    + by apply (bool_decide_unpack _).
    + done.
    + intros i Hi. apply mem_valid_pos. lia.
    + simpl. lia.
    + simpl. lia.
  - intros _ w' ((_ & Htx) & Hm & _). by split.
Defined.
Lemma usart_set_speed_accurate_witness :
  let B := plain_board PMB8876 in
  exists d n, 2 * Z.abs (115200 * d * 512 - n * 1625000) <= 1625000 /\
    exists log, usart_set_speed (Device0 := regs_device) USART0 115200 0%nat example_world =
      Done tt (World (dev_write (Device := regs_device) (Mmio 32 (USART_FDV USART0)) (n mod 512)
                 (dev_write (Device := regs_device) (Mmio 32 (USART_BG USART0)) (d - 1) (w_dev example_world)))
               ∅ (Wr (Mmio 32 (USART_FDV USART0)) (n mod 512) :: Wr (Mmio 32 (USART_BG USART0)) (d - 1) :: log)
               lib_zero tt).
Proof.
  intros B.
  destruct (usart_set_speed_accurate (Device0 := regs_device) example_cgu USART0 115200 0%nat example_world
    example_cgu_u32 example_reads) as (d & n & log & _ & _ & H1 & H2); [by split; vm_compute|].
  exists d, n. split; [exact H1|]. exists log. exact H2.
Defined.
