(* ===== verification/Gf2.v ===== *)
(** * Polynomials over the field of two elements

    What the check bytes of the protocols are codes of: a bit string is a polynomial, its
    first bit the highest coefficient, an integer the polynomial of its binary digits, and
    addition is exclusive or.  [remainder] is the long division by a polynomial of degree
    [d]; it computes the only remainder below [2^d]. *)
From S2P Require Import Prelude.

(** The polynomial of a bit string, and the bits of a word in both orders. *)
Definition poly (bits : list bool) : Z := fold_left (fun v b => 2 * v + Z.b2z b) bits 0.
Definition lsb_first (n : nat) (z : Z) : list bool := map (fun i => Z.testbit z (Z.of_nat i)) (seq 0 n).
Definition msb_first (n : nat) (z : Z) : list bool := rev (lsb_first n z).

(** The multiples of [p]: the products with each polynomial, by Horner's rule. *)
Inductive multiple (p : Z) : Z -> Prop :=
  | multiple_0 : multiple p 0
  | multiple_S a (b : bool) : multiple p a -> multiple p (Z.lxor (2 * a) (if b then p else 0)).
(** [a = b] modulo [p]. *)
Definition congruent (p a b : Z) : Prop := multiple p (Z.lxor a b).

(** One step of the long division: the next bit of the dividend (times [x^d]) comes in. *)
Definition rem_step (d p r : Z) (b : bool) : Z :=
  let r := Z.lxor (2 * r) (Z.shiftl (Z.b2z b) d) in if Z.testbit r d then Z.lxor r p else r.
Definition remainder (d p : Z) (bits : list bool) (r : Z) : Z := fold_left (rem_step d p) bits r.
(** The dividend of a check value: the bits, then [d] zeros, with [init] added to the front. *)
Definition dividend (d init : Z) (bits : list bool) : Z :=
  Z.lxor (Z.shiftl (poly bits) d) (Z.shiftl init (Z.of_nat (length bits))).

Lemma double_lxor a b : 2 * Z.lxor a b = Z.lxor (2 * a) (2 * b).
Proof.
  assert (forall z, 2 * z = Z.shiftl z 1) as H by (intros z; rewrite Z.shiftl_mul_pow2 by lia; change (2 ^ 1) with 2; lia).
  by rewrite !H, Z.shiftl_lxor.
Qed.
Lemma double_shiftl z n : 0 <= n -> 2 * Z.shiftl z n = Z.shiftl z (n + 1).
Proof. intros Hn. rewrite !Z.shiftl_mul_pow2, Z.pow_add_r by lia. lia. Qed.
Lemma double_add z (b : bool) : 2 * z + Z.b2z b = Z.lxor (2 * z) (Z.b2z b).
Proof.
  symmetry. destruct b; simpl Z.b2z; [|by rewrite Z.lxor_0_r, Z.add_0_r].
  rewrite <- Z.add_nocarry_lxor; [done|]. apply Z.bits_inj'. intros i Hi. rewrite Z.land_spec, Z.testbit_0_l.
  destruct (Z.eq_dec i 0) as [->|]; [by rewrite Z.testbit_even_0|].
  rewrite (bits_above 1 1) by lia. apply andb_false_r.
Qed.
Lemma lsb_first_S n z : lsb_first (S n) z = Z.testbit z 0 :: lsb_first n (Z.shiftr z 1).
Proof.
  unfold lsb_first. simpl. f_equal. rewrite <- seq_shift, map_map. apply map_ext. intros i.
  rewrite Z.shiftr_spec by lia. f_equal. lia.
Qed.
Lemma length_lsb_first n z : length (lsb_first n z) = n.
Proof. unfold lsb_first. by rewrite length_map, length_seq. Qed.
Lemma poly_snoc bits b : poly (bits ++ [b]) = 2 * poly bits + Z.b2z b.
Proof. unfold poly. by rewrite fold_left_app. Qed.
Lemma poly_bit bits (i : nat) : Z.testbit (poly bits) (Z.of_nat i) = nth i (rev bits) false.
Proof.
  revert i. induction bits as [|b bits IH] using rev_ind; intros i; [by destruct i|].
  rewrite poly_snoc, rev_app_distr. destruct i as [|i]; simpl rev; simpl nth.
  - by rewrite Z.add_comm, Z.add_b2z_double_bit0.
  - rewrite <- IH, Z.add_comm, Nat2Z.inj_succ. destruct b; simpl Z.b2z.
    + rewrite Z.add_comm. by rewrite Z.testbit_odd_succ by lia.
    + rewrite Z.add_0_l. by rewrite Z.testbit_even_succ by lia.
Qed.
Lemma poly_range bits : 0 <= poly bits < 2 ^ Z.of_nat (length bits).
Proof.
  induction bits as [|b bits IH] using rev_ind; [done|]. rewrite poly_snoc, length_app, Nat2Z.inj_add, Z.pow_add_r by lia.
  simpl length. change (2 ^ Z.of_nat 1) with 2. destruct b; simpl Z.b2z; lia.
Qed.
Lemma poly_lsb_bit n z i : 0 <= i < Z.of_nat n -> Z.testbit (poly (lsb_first n z)) i = Z.testbit z (Z.of_nat n - 1 - i).
Proof.
  intros Hi. rewrite <- (Z2Nat.id i) at 1 by lia. rewrite poly_bit, rev_nth, length_lsb_first by (rewrite length_lsb_first; lia).
  unfold lsb_first. set (g i := Z.testbit z (Z.of_nat i)).
  rewrite (nth_indep _ false (g 0%nat)), (map_nth g), seq_nth by (rewrite ?length_map, ?length_seq; lia).
  unfold g. f_equal. lia.
Qed.

Lemma remainder_nil d p r : remainder d p [] r = r.
Proof. done. Qed.
Lemma remainder_app d p bits bits' r : remainder d p (bits ++ bits') r = remainder d p bits' (remainder d p bits r).
Proof. apply fold_left_app. Qed.
Lemma remainder_cons d p b bits r : remainder d p (b :: bits) r = remainder d p bits (rem_step d p r b).
Proof. done. Qed.

Lemma poly_msb n z : 0 <= z < 2 ^ Z.of_nat n -> poly (msb_first n z) = z.
Proof.
  intros Hz. apply Z.bits_inj'. intros i Hi. rewrite <- (Z2Nat.id i) by lia. rewrite poly_bit. unfold msb_first, lsb_first.
  rewrite rev_involutive. set (g k := Z.testbit z (Z.of_nat k)). destruct (decide (Z.to_nat i < n)%nat).
  - rewrite (nth_indep _ false (g 0%nat)), (map_nth g), seq_nth by (rewrite ?length_map, ?length_seq; lia). done.
  - rewrite nth_overflow by (rewrite length_map, length_seq; lia). rewrite (bits_above (Z.of_nat n) z) by lia. done.
Qed.
Lemma if_lxor_bit (c : bool) x p i : Z.testbit (if c then Z.lxor x p else x) i = xorb (Z.testbit x i) (c && Z.testbit p i).
Proof. destruct c; simpl; [apply Z.lxor_spec|by rewrite xorb_false_r]. Qed.
Lemma double_bit z i : 0 < i -> Z.testbit (2 * z) i = Z.testbit z (i - 1).
Proof. intros Hi. replace i with (Z.succ (i - 1)) at 1 by lia. apply Z.double_bits_succ. Qed.
(** The bits of the next partial remainder. *)
Lemma rem_step_bit d p r (b : bool) i : 0 < d -> 0 <= i -> Z.testbit p d = true -> 0 <= r < 2 ^ d -> (d < i -> Z.testbit p i = false) ->
  Z.testbit (rem_step d p r b) i =
    (i <? d) && xorb ((0 <? i) && Z.testbit r (i - 1)) (xorb (Z.testbit r (d - 1)) b && Z.testbit p i).
Proof.
  intros Hd Hi Hp Hr Hp'. unfold rem_step. set (s := Z.lxor _ _).
  assert (forall k, Z.testbit s k = xorb ((0 <? k) && Z.testbit r (k - 1)) ((k =? d) && b)) as Es.
  { intros k. unfold s. rewrite Z.lxor_spec. f_equal.
    - destruct (Z.ltb_spec 0 k); [by rewrite double_bit|]. destruct (Z.eq_dec k 0) as [->|]; [apply Z.testbit_even_0|apply Z.testbit_neg_r; lia].
    - destruct (Z.eqb_spec k d) as [->|]; [rewrite Z.shiftl_spec, Z.sub_diag by lia; by destruct b|].
      destruct (Z.lt_ge_cases k 0); [by apply Z.testbit_neg_r|]. rewrite Z.shiftl_spec by lia.
      destruct (Z.lt_ge_cases k d); [apply Z.testbit_neg_r; lia|]. apply (bits_above 1); destruct b; simpl; lia. }
  assert (Z.testbit s d = xorb (Z.testbit r (d - 1)) b) as Ed.
  { rewrite Es, Z.eqb_refl. by destruct (Z.ltb_spec 0 d); [|lia]. }
  rewrite if_lxor_bit, Ed. destruct (Z.ltb_spec i d) as [Hlt|Hge].
  - rewrite Es. destruct (Z.eqb_spec i d); [lia|]. by rewrite xorb_false_r.
  - destruct (Z.eq_dec i d) as [->|]; [rewrite Ed, Hp, andb_true_r; by rewrite xorb_nilpotent|].
    rewrite Es, Hp', andb_false_r by lia. destruct (Z.eqb_spec i d); [lia|]. destruct (Z.ltb_spec 0 i); [|lia].
    rewrite (bits_above d r) by lia. done.
Qed.

Section Division.
Context (d p : Z) (Hd : 0 <= d).
Lemma dividend_snoc init bits b : dividend d init (bits ++ [b]) = Z.lxor (2 * dividend d init bits) (Z.shiftl (Z.b2z b) d).
Proof.
  unfold dividend, poly. rewrite fold_left_app, length_app. simpl. set (v := fold_left _ bits 0).
  rewrite double_add, Z.shiftl_lxor, double_lxor.
  replace (Z.shiftl (2 * v) d) with (2 * Z.shiftl v d) by (rewrite !Z.shiftl_mul_pow2 by lia; lia).
  replace (Z.of_nat (length bits + 1)) with (Z.of_nat (length bits) + 1) by lia. rewrite <- double_shiftl by lia.
  by rewrite !Z.lxor_assoc, (Z.lxor_comm (Z.shiftl (Z.b2z b) d)).
Qed.
Lemma remainder_congruent bits init : congruent p (dividend d init bits) (remainder d p bits init).
Proof.
  induction bits as [|b bits IH] using rev_ind; unfold congruent, remainder in *.
  { unfold dividend. simpl. rewrite Z.shiftl_0_l, Z.shiftl_0_r, Z.lxor_0_l, Z.lxor_nilpotent. constructor. }
  rewrite fold_left_app, dividend_snoc. simpl. set (r := fold_left _ bits init) in *. unfold rem_step.
  set (s := Z.lxor (2 * r) _). apply (multiple_S p _ (Z.testbit s d)) in IH. rewrite double_lxor in IH.
  assert (Z.lxor (Z.lxor (2 * dividend d init bits) (Z.shiftl (Z.b2z b) d)) s = Z.lxor (2 * dividend d init bits) (2 * r)) as E.
  { unfold s. rewrite (Z.lxor_comm (2 * r)), Z.lxor_assoc, <- (Z.lxor_assoc _ _ (2 * r)). by rewrite Z.lxor_nilpotent, Z.lxor_0_l. }
  destruct (Z.testbit s d); [by rewrite <- Z.lxor_assoc, E|by rewrite E, <- (Z.lxor_0_r (Z.lxor _ _))].
Qed.

Context (Hp : 2 ^ d <= p < 2 ^ (d + 1)).
Lemma multiple_large a : multiple p a -> a = 0 \/ 2 ^ d <= a.
Proof.
  rewrite Z.pow_add_r in Hp by lia. assert (0 < 2 ^ d) by (apply Z.pow_pos_nonneg; lia).
  induction 1 as [|a b Ha [->|IH]]; [by left|destruct b; [right; rewrite Z.lxor_0_l; lia|by left]|right].
  destruct b; [|rewrite Z.lxor_0_r; lia]. assert (0 <= Z.lxor (2 * a) p) as Hpos by (rewrite Z.lxor_nonneg; lia).
  destruct (Z.lt_ge_cases (Z.lxor (2 * a) p) (2 ^ d)) as [Hlt|]; [|done]. exfalso.
  assert (2 * a < 2 ^ (d + 1)); [|rewrite Z.pow_add_r in * by lia; lia].
  replace (2 * a) with (Z.lxor (Z.lxor (2 * a) p) p) by (by rewrite Z.lxor_assoc, Z.lxor_nilpotent, Z.lxor_0_r).
  apply (lxor_range (d + 1)); [lia|rewrite Z.pow_add_r; lia|rewrite Z.pow_add_r; lia].
Qed.
Lemma divisor_top : Z.testbit p d = true.
Proof.
  assert (0 < 2 ^ d) by (apply Z.pow_pos_nonneg; lia). rewrite <- (Z.log2_unique p d Hd) by (rewrite <- Z.add_1_r; lia).
  apply Z.bit_log2. lia.
Qed.
Lemma remainder_range bits r : 0 < d -> 0 <= r < 2 ^ d -> 0 <= remainder d p bits r < 2 ^ d.
Proof.
  intros Hd1. revert r. induction bits as [|b bits IH]; intros r Hr; [done|]. rewrite remainder_cons. apply IH.
  assert (0 <= rem_step d p r b) as Hpos.
  { assert (0 < 2 ^ d) by (apply Z.pow_pos_nonneg; lia). unfold rem_step.
    assert (0 <= Z.lxor (2 * r) (Z.shiftl (Z.b2z b) d)) by (apply Z.lxor_nonneg; rewrite Z.shiftl_nonneg; destruct b; simpl Z.b2z; lia).
    destruct (Z.testbit _ d); [apply Z.lxor_nonneg; lia|done]. }
  split; [done|]. apply below_pow2; [lia|done|]. intros i Hi.
  rewrite rem_step_bit; [destruct (Z.ltb_spec i d); [lia|done]|done|lia|apply divisor_top|done|].
  intros Hgt. apply (bits_above (d + 1)); lia.
Qed.
Lemma multiple_lxor a b : multiple p a -> multiple p b -> multiple p (Z.lxor a b).
Proof.
  intros Ha. revert b. induction Ha as [|a c Ha IH]; intros b Hb; [by rewrite Z.lxor_0_l|].
  destruct Hb as [|b c' Hb]; [rewrite Z.lxor_0_r; by constructor|].
  replace (Z.lxor _ _) with (Z.lxor (2 * Z.lxor a b) (if xorb c c' then p else 0)); [by apply multiple_S, IH|].
  rewrite double_lxor. apply Z.bits_inj'. intros i Hi. rewrite !Z.lxor_spec.
  destruct c, c'; simpl; rewrite ?Z.testbit_0_l; by destruct (Z.testbit (2 * a) i), (Z.testbit (2 * b) i), (Z.testbit p i).
Qed.
(** There is one remainder. *)
Lemma congruent_unique a r r' : 0 <= r < 2 ^ d -> 0 <= r' < 2 ^ d -> congruent p a r -> congruent p a r' -> r = r'.
Proof.
  intros Hr Hr' H H'. pose proof (multiple_lxor _ _ H H') as Hm.
  replace (Z.lxor _ _) with (Z.lxor r r') in Hm; cycle 1.
  { rewrite (Z.lxor_comm a r), Z.lxor_assoc, <- (Z.lxor_assoc a a), Z.lxor_nilpotent, Z.lxor_0_l. done. }
  apply multiple_large in Hm as [Hm|Hm]; [by apply Z.lxor_eq|].
  pose proof (lxor_range d r r' Hd Hr Hr'). lia.
Qed.
(** The division starts with what the first bits add to the initial value. *)
Lemma remainder_start bits r : 0 < d -> Z.of_nat (length bits) = d -> 0 <= r < 2 ^ d ->
  remainder d p bits r = remainder d p (repeat false (length bits)) (Z.lxor r (poly bits)).
Proof.
  intros Hd1 Hlen Hr. pose proof (poly_range bits) as Hpr. rewrite Hlen in Hpr.
  assert (0 <= Z.lxor r (poly bits) < 2 ^ d) as Hx by (by apply lxor_range).
  eapply (congruent_unique (dividend d r bits)); [by apply remainder_range|by apply remainder_range|apply remainder_congruent|].
  replace (dividend d r bits) with (dividend d (Z.lxor r (poly bits)) (repeat false (length bits))); [apply remainder_congruent|].
  assert (poly (repeat false (length bits)) = 0) as E.
  { generalize (length bits). intros n. unfold poly. induction n as [|n IH]; [done|exact IH]. }
  unfold dividend. rewrite E, repeat_length, Hlen, Z.shiftl_0_l, Z.lxor_0_l, Z.shiftl_lxor. apply Z.lxor_comm.
Qed.
End Division.
