(* ===== verification/Trellis.v ===== *)
(** * Trellises of convolutional codes: the best path

    States are numbers below [2 * h]; a bit [b] in the state [s] is the edge [s + b * 2 * h], whose
    half is the next state.  The decoder keeps the best metric of each state and, for each step,
    which of a state's two predecessors it came from; [tb] follows these decisions back.  The
    metrics it ends with are those of the best paths, and [tb] finds such a path. *)
From S2P Require Import Prelude.

Definition is_bit (b : Z) : Prop := b = 0 \/ b = 1.

Section Trellis.
Context (h : Z) (Hh : 0 < h) {I : Type} (w : Z -> I -> Z).
Definition edge (s b : Z) : Z := s + b * (2 * h).
Definition is_state (s : Z) : Prop := 0 <= s < 2 * h.
Fixpoint path_end (s : Z) (bits : list Z) : Z := match bits with [] => s | b :: bits => path_end (edge s b / 2) bits end.
Fixpoint path_metric (s : Z) (bits : list Z) (inputs : list I) : Z :=
  match bits, inputs with
  | b :: bits, i :: inputs => w (edge s b) i + path_metric (edge s b / 2) bits inputs
  | _, _ => 0
  end.
Lemma next_state s b : is_state s -> is_bit b -> is_state (edge s b / 2).
Proof. unfold is_state, edge. intros Hs [->| ->]; Z.div_mod_to_equations; lia. Qed.
Lemma path_end_state s bits : is_state s -> Forall is_bit bits -> is_state (path_end s bits).
Proof. intros Hs Hb. revert s Hs. induction Hb as [|b bits Hb _ IH]; intros s Hs; [done|]. by apply IH, next_state. Qed.
Lemma path_end_snoc s bits b : path_end s (bits ++ [b]) = edge (path_end s bits) b / 2.
Proof. revert s. induction bits as [|c bits IH]; intros s; [done|]. apply IH. Qed.
Lemma path_metric_snoc s bits inputs b i : length bits = length inputs ->
  path_metric s (bits ++ [b]) (inputs ++ [i]) = path_metric s bits inputs + w (edge (path_end s bits) b) i.
Proof.
  revert s inputs. induction bits as [|c bits IH]; intros s [|j inputs] Hl; simpl in *; try lia. rewrite IH; lia.
Qed.

(** *** The two predecessors of a state *)
Definition pred (s : Z) (first : bool) : Z := s mod h * 2 + (if first then 0 else 1).
Definition bit_of (s : Z) : Z := Z.b2z (h <=? s).
Lemma bit_of_bit s : is_bit (bit_of s).
Proof. unfold bit_of, is_bit. destruct (h <=? s); auto. Qed.
Lemma pred_state s first : is_state (pred s first).
Proof. unfold is_state, pred. pose proof (Z.mod_pos_bound s h Hh). destruct first; lia. Qed.
Lemma pred_edge s first : is_state s -> edge (pred s first) (bit_of s) / 2 = s.
Proof.
  unfold is_state, edge, pred, bit_of. intros Hs. assert (s = s mod h + Z.b2z (h <=? s) * h) as E.
  { destruct (Z.leb_spec h s); simpl Z.b2z; [|rewrite Z.mod_small; lia]. replace s with (s - h + 1 * h) at 2 by lia. rewrite Z_mod_plus_full, Z.mod_small; lia. }
  destruct first; Z.div_mod_to_equations; lia.
Qed.
Lemma edge_pred s b : is_state s -> is_bit b -> let s' := edge s b / 2 in b = bit_of s' /\ s = pred s' (Z.even s).
Proof.
  unfold is_state, edge, pred, bit_of. intros Hs Hb. cbv zeta. pose proof (Zmod_even s) as Em. set (s' := (s + b * (2 * h)) / 2).
  assert (s' = s / 2 + b * h) as E by (unfold s'; replace (s + b * (2 * h)) with (s + b * h * 2) by lia; by rewrite Z.div_add by lia).
  assert (s' mod h = s / 2) as Emod by (rewrite E, Z_mod_plus_full, Z.mod_small; Z.div_mod_to_equations; lia). rewrite Emod. split.
  - destruct Hb as [->| ->]; destruct (Z.leb_spec h s'); simpl Z.b2z; Z.div_mod_to_equations; lia.
  - destruct (Z.even s); Z.div_mod_to_equations; lia.
Qed.

(** *** Add, compare, select *)
Definition through (m : Z -> Z) (i : I) (s : Z) (first : bool) : Z := m (pred s first) + w (edge (pred s first) (bit_of s)) i.
Definition selects (m : Z -> Z) (i : I) (d : Z -> bool) (m' : Z -> Z) : Prop := forall s, is_state s ->
  d s = (through m i s false <=? through m i s true) /\ m' s = through m i s (d s).
Fixpoint acs_run (m : Z -> Z) (inputs : list I) (ds : list (Z -> bool)) (m' : Z -> Z) : Prop :=
  match inputs, ds with
  | [], [] => m' = m
  | i :: inputs, d :: ds => exists m1, selects m i d m1 /\ acs_run m1 inputs ds m'
  | _, _ => False
  end.
Lemma acs_run_length m inputs ds m' : acs_run m inputs ds m' -> length ds = length inputs.
Proof. revert m ds. induction inputs as [|i inputs IH]; intros m [|d ds] H; try done. destruct H as (m1 & _ & H). simpl. f_equal. by eapply IH. Qed.
Lemma acs_run_snoc m inputs i ds d m' : length ds = length inputs -> acs_run m (inputs ++ [i]) (ds ++ [d]) m' ->
  exists m1, acs_run m inputs ds m1 /\ selects m1 i d m'.
Proof.
  revert m ds. induction inputs as [|j inputs IH]; intros m [|e ds] Hl H; try done.
  - destruct H as (m1 & Hs & ->). by exists m.
  - destruct H as (m1 & Hs & H). injection Hl as Hl. destruct (IH _ _ Hl H) as (m2 & H1 & H2). exists m2. split; [by exists m1|done].
Qed.
(** The traceback, from the last decision to the first. *)
Fixpoint tb (s : Z) (rds : list (Z -> bool)) (bits : list Z) : Z * list Z :=
  match rds with [] => (s, bits) | d :: rds => tb (pred s (d s)) rds (bit_of s :: bits) end.
Lemma tb_app s rds bits : tb s rds bits = ((tb s rds []).1, (tb s rds []).2 ++ bits).
Proof.
  revert s bits. induction rds as [|d rds IH]; intros s bits; simpl; [done|]. rewrite IH, (IH _ [bit_of s]). simpl. by rewrite <- app_assoc.
Qed.
(** A path from [s0] to [s] along [inputs]. *)
Record path (s0 : Z) (bits : list Z) (inputs : list I) (s : Z) : Prop := Path {
  path_start : is_state s0; path_bits : Forall is_bit bits; path_length : length bits = length inputs; path_final : path_end s0 bits = s }.
Theorem best_paths m inputs ds m' : acs_run m inputs ds m' -> forall s, is_state s ->
  (let '(s0, bits) := tb s (rev ds) [] in path s0 bits inputs s /\ m' s = m s0 + path_metric s0 bits inputs) /\
  forall s0 bits, path s0 bits inputs s -> m s0 + path_metric s0 bits inputs <= m' s.
Proof.
  revert ds m'. induction inputs as [|i inputs IH] using rev_ind; intros ds m' Hrun s Hs.
  { destruct ds; [|done]. simpl in Hrun. subst m'. split; [simpl; split; [by split|lia]|]. intros s0 bits [_ _ Hl Hend]. destruct bits; [|done]. simpl in *. subst. lia. }
  pose proof (acs_run_length _ _ _ _ Hrun) as Hl. rewrite length_app in Hl. simpl in Hl.
  destruct ds as [|d ds _] using rev_ind; [simpl in Hl; lia|]. rewrite length_app in Hl. simpl in Hl.
  apply acs_run_snoc in Hrun as (m1 & Hrun & Hsel); [|lia]. destruct (Hsel s Hs) as [Hd Hm']. split.
  - rewrite rev_app_distr. simpl. rewrite tb_app. destruct (IH _ _ Hrun (pred s (d s)) (pred_state _ _)) as [Htb _].
    destruct (tb (pred s (d s)) (rev ds) []) as [s0 bits]. simpl. destruct Htb as ([Hs0 Hb Hlb Hend] & Hm1). split.
    + split; [done|apply Forall_app; split; [done|apply Forall_singleton, bit_of_bit]|rewrite !length_app; simpl; lia|]. by rewrite path_end_snoc, Hend, pred_edge.
    + rewrite Hm', path_metric_snoc, Hend by done. unfold through. lia.
  - intros s0 bits [Hs0 Hb Hlb Hend]. destruct bits as [|b bits _] using rev_ind; [rewrite length_app in Hlb; simpl in Hlb; lia|].
    rewrite !length_app in Hlb. simpl in Hlb. apply Forall_app in Hb as [Hb [Hb1 _]%Forall_cons]. rewrite path_end_snoc in Hend. rewrite path_metric_snoc by lia.
    set (s1 := path_end s0 bits) in *. assert (is_state s1) as Hs1 by (by apply path_end_state). destruct (edge_pred s1 b Hs1 Hb1) as [Eb Es]. rewrite Hend in Eb, Es.
    destruct (IH _ _ Hrun s1 Hs1) as [_ Hbest]. assert (m s0 + path_metric s0 bits inputs <= m1 s1) as Hle by (apply Hbest; split; [done|done|lia|done]).
    assert (m1 s1 + w (edge s1 b) i = through m1 i s (Z.even s1)) as E by (unfold through; by rewrite <- Es, <- Eb).
    rewrite Hm', Hd. destruct (Z.leb_spec (through m1 i s false) (through m1 i s true)), (Z.even s1); lia.
Qed.
End Trellis.
