(* ===== verification/ChannelDecoder.v ===== *)
(** * The reference model of the channel decoder ([unit/dsp/lle/channel-decoder-vectors.c])

    The test of the DSP's channel decoder has a model of its own: a convolutional encoder of rate
    1/3, the table of references that the hardware is given, the add-compare-select step on 16-bit
    metrics and the traceback.  The hardware is compared with what they compute. *)
From S2P Require Import Prelude.

Definition METRIC_COUNT_16 : Z := 16.
Definition PHYSICAL_METRIC_COUNT : Z := 64.
Definition MAX_DECODE_TIMESTAMPS : Z := 32.
Definition SIN0_MASK : Z := 0x01.
Definition SIN1_MASK : Z := 0x02.
Definition SIN2_MASK : Z := 0x04.
Definition ALL_SIN_MASK : Z := SIN0_MASK .| SIN1_MASK .| SIN2_MASK.

Record decoder_input := DecoderInput { sin0 : Z; sin1 : Z; sin2 : Z }.
Record input_mutation := Mutation { timestamp : Z; invert_mask : Z; erase_mask : Z }.

(** An element of an array, inside of it. *)
Definition at_ (l : list Z) (i : Z) : Z := l !!! Z.to_nat i.
Definition store (i v : Z) (l : list Z) : list Z := <[Z.to_nat i := v]> l.

Definition channel_decoder_branch_metric (reference : Z) (input : decoder_input) : Z :=
  let metric := i16 (if (reference .& 8) !=? 0 then - sin0 input else sin0 input) in
  let metric := i16 (metric + (if (reference .& 4) !=? 0 then - sin1 input else sin1 input)) in
  i16 (metric + (if (reference .& 2) !=? 0 then - sin2 input else sin2 input)).

(** [while (value != 0)]: the 16 bits of [value] are gone after 16 rounds. *)
Fixpoint parity_loop (rounds : nat) (value parity : Z) : Z :=
  match rounds with
  | O => parity
  | S rounds => if value ==? 0 then parity else parity_loop rounds (value .>> 1) (parity .^ (value .& 1))
  end.
Definition channel_decoder_parity (value : Z) : Z := parity_loop 16 value 0.

Definition reference_of (metric_count : Z) (generators : list Z) (butterfly : Z) : Z :=
  let encoder_state := u16 (metric_count .| (butterfly * 2)) in
  foldl (fun reference component =>
    let encoded_bit := channel_decoder_parity (encoder_state .& at_ generators component) in
    u16 (reference .| ((encoded_bit .^ 1) .<< (3 - component)))) 0 (seqZ 0 3).
Definition channel_decoder_generate_references (metric_count : Z) (generators : list Z) : list Z :=
  foldl (fun references butterfly =>
    store (butterfly / 4) (u16 (at_ references (butterfly / 4) .| (reference_of metric_count generators butterfly .<< (butterfly mod 4 * 4)))) references)
    (replicate 8 0) (seqZ 0 (metric_count / 2)).

Definition encoded (amplitude encoder_state generator : Z) : Z :=
  i8 (if channel_decoder_parity (encoder_state .& generator) !=? 0 then amplitude else - amplitude).
Fixpoint encode_from (metric_count : Z) (generators : list Z) (amplitude state : Z) (bits : list Z) : list decoder_input :=
  match bits with
  | [] => []
  | bit :: bits =>
      let encoder_state := state .| (if bit !=? 0 then metric_count else 0) in
      DecoderInput (encoded amplitude encoder_state (at_ generators 0)) (encoded amplitude encoder_state (at_ generators 1))
        (encoded amplitude encoder_state (at_ generators 2)) ::
      encode_from metric_count generators amplitude (state / 2 + (if bit !=? 0 then metric_count / 2 else 0)) bits
  end.
Definition channel_decoder_encode (bits : list Z) (metric_count : Z) (generators : list Z) (amplitude : Z) : list decoder_input :=
  encode_from metric_count generators amplitude 0 bits.

Definition channel_decoder_unpack_trace (trace : list Z) (metric_count : Z) : Z :=
  if metric_count ==? METRIC_COUNT_16 then
    let packed := u16 (at_ trace 0 .| (at_ trace 1 .<< 8)) in
    u16 (Z.lnot ((packed .<< 8) .| (packed .>> 8)))
  else
    foldl (fun decisions group => decisions .| (u16 (Z.lnot (at_ trace group)) .<< ((3 - group) * 16))) 0 (seqZ 0 4).

(** The loop from the last timestamp to the first; [decoded] is written from its end. *)
Fixpoint traceback_from (metric_count state : Z) (decisions : list Z) (decoded : list Z) : Z * list Z :=
  match decisions with
  | [] => (state, decoded)
  | decision :: decisions =>
      let first_predecessor := ((decision .>> state) .& 1) !=? 0 in
      traceback_from metric_count (state mod (metric_count / 2) * 2 + (if first_predecessor then 0 else 1)) decisions
        (Z.b2z (metric_count / 2 <=? state) :: decoded)
  end.
Definition channel_decoder_traceback (decisions : list Z) (metric_count : Z) : Z * list Z :=
  traceback_from metric_count 0 (rev decisions) [].

Fixpoint channel_decoder_bits_equal (first second : list Z) : bool :=
  match first, second with
  | x :: first, y :: second => if x !=? y then false else channel_decoder_bits_equal first second
  | _, _ => true
  end.
Definition channel_decoder_best_state (metrics : list Z) (metric_count : Z) : Z :=
  foldl (fun best_state state => if at_ metrics best_state <? at_ metrics state then state else best_state) 0 (seqZ 1 (metric_count - 1)).

(** One butterfly: two states, their two successors. *)
Definition butterfly_step (metrics : list Z) (metric_count : Z) (references : list Z) (input : decoder_input)
    (s : list Z * Z) (butterfly : Z) : list Z * Z :=
  let '(next_metrics, decisions) := s in
  let reference_register := at_ references (butterfly / 4) in
  let reference := (reference_register .>> (butterfly mod 4 * 4)) .& 0xF in
  let branch_metric := channel_decoder_branch_metric reference input in
  let even_metric := at_ metrics (butterfly * 2) in
  let odd_metric := at_ metrics (butterfly * 2 + 1) in
  let lower_first := i16 (even_metric - branch_metric) in
  let lower_second := i16 (odd_metric + branch_metric) in
  let upper_first := i16 (even_metric + branch_metric) in
  let upper_second := i16 (odd_metric - branch_metric) in
  let next_metrics := store butterfly (if lower_second <=? lower_first then lower_first else lower_second) next_metrics in
  let next_metrics := store (butterfly + metric_count / 2) (if upper_second <=? upper_first then upper_first else upper_second) next_metrics in
  let decisions := if lower_second <=? lower_first then decisions .| (1 .<< butterfly) else decisions in
  let decisions := if upper_second <=? upper_first then decisions .| (1 .<< (butterfly + metric_count / 2)) else decisions in
  (next_metrics, decisions).
(** The metrics after the step, and its decisions; [next_metrics] is written up to [metric_count]. *)
Definition channel_decoder_model_decisions (metrics : list Z) (metric_count : Z) (references : list Z) (input : decoder_input) : list Z * Z :=
  let '(next_metrics, decisions) :=
    foldl (butterfly_step metrics metric_count references input) (replicate (Z.to_nat PHYSICAL_METRIC_COUNT) 0, 0) (seqZ 0 (metric_count / 2)) in
  (foldl (fun metrics state => store state (at_ next_metrics state) metrics) metrics (seqZ 0 metric_count), decisions).
Definition channel_decoder_model_step (metrics references : list Z) (input : decoder_input) : list Z * Z :=
  let '(metrics, decisions) := channel_decoder_model_decisions metrics METRIC_COUNT_16 references input in
  let decisions := u16 decisions in
  (metrics, u16 (Z.lnot ((decisions .<< 8) .| (decisions .>> 8)))).
Definition channel_decoder_model_trace_64 (decisions : Z) : list Z :=
  map (fun group => u16 (Z.lnot (u16 (decisions .>> ((3 - group) * 16))))) (seqZ 0 4).
Definition channel_decoder_model_trace (decisions metric_count : Z) : list Z :=
  if metric_count ==? METRIC_COUNT_16 then
    let decision_word := u16 decisions in
    let packed := u16 (Z.lnot ((decision_word .<< 8) .| (decision_word .>> 8))) in
    [packed .& 0xFF; packed .>> 8]
  else channel_decoder_model_trace_64 decisions.

(** ** The test's tables *)
Definition polynomial_references_16 : list Z := [0x6CA0; 0x0AC6; 0; 0; 0; 0; 0; 0].
Definition polynomial_references_64 : list Z := [0x6240; 0xAE8C; 0x8CAE; 0x4062; 0xC8EA; 0x0426; 0x2604; 0xEAC8].
Definition polynomial_generators_16 : list Z := [0x17; 0x1D; 0x1B].
Definition polynomial_generators_64 : list Z := [0x79; 0x5B; 0x75].
Definition polynomial_constant_inputs : list decoder_input :=
[DecoderInput 7 29 91; DecoderInput 7 29 91; DecoderInput 7 29 91; DecoderInput 7 29 91; DecoderInput 7 29 91;
   DecoderInput 7 29 91; DecoderInput 7 29 91; DecoderInput 7 29 91; DecoderInput 7 29 91; DecoderInput 7 29
   91; DecoderInput 7 29 91; DecoderInput 7 29 91; DecoderInput 7 29 91; DecoderInput 7 29 91; DecoderInput 7
   29 91; DecoderInput 7 29 91].
Definition polynomial_basis_inputs : list decoder_input :=
[DecoderInput 64 0 0; DecoderInput 0 64 0; DecoderInput 0 0 64; DecoderInput (-64) 0 0; DecoderInput 0 (-64)
   0; DecoderInput 0 0 (-64); DecoderInput 17 31 47; DecoderInput (-17) (-31) (-47); DecoderInput 64 64 0;
   DecoderInput 64 0 64; DecoderInput 0 64 64; DecoderInput (-64) (-64) 0; DecoderInput (-64) 0 (-64);
   DecoderInput 0 (-64) (-64); DecoderInput 32 (-48) 80; DecoderInput (-32) 48 (-80)].
Definition polynomial_boundary_inputs : list decoder_input :=
[DecoderInput 127 127 127; DecoderInput (-128) (-128) (-128); DecoderInput 127 (-128) 0; DecoderInput (-128)
   127 0; DecoderInput 127 0 (-128); DecoderInput (-128) 0 127; DecoderInput 0 127 (-128); DecoderInput 0
   (-128) 127; DecoderInput 127 1 (-1); DecoderInput (-128) (-1) 1; DecoderInput 1 127 (-1); DecoderInput (-1)
   (-128) 1; DecoderInput 1 (-1) 127; DecoderInput (-1) 1 (-128); DecoderInput 127 (-128) 127; DecoderInput
   (-128) 127 (-128)].
Definition polynomial_scrambled_inputs : list decoder_input :=
[DecoderInput 13 (-57) 92; DecoderInput (-101) 44 7; DecoderInput 63 18 (-77); DecoderInput (-9) 111 (-36);
   DecoderInput 87 (-24) (-115); DecoderInput (-68) (-3) 54; DecoderInput 29 73 (-42); DecoderInput (-127) 6
   119; DecoderInput 5 (-88) 33; DecoderInput 104 51 (-12); DecoderInput (-46) 97 26; DecoderInput 71 (-109)
   (-1); DecoderInput (-84) 39 125; DecoderInput 22 (-66) (-93); DecoderInput 118 (-14) 61; DecoderInput (-35)
   (-122) 48].
Definition polynomial_constant_trace : list Z :=
[0x005A; 0x00A5; 0x005A; 0x00A5; 0x005A; 0x00A5; 0x005A; 0x00A5; 0x005A; 0x00A5; 0x005A; 0x00A5; 0x005A;
   0x00A5; 0x005A; 0x00A5; 0x005A; 0x00A5; 0x005A; 0x00A5; 0x005A; 0x00A5; 0x005A; 0x00A5; 0x005A; 0x00A5;
   0x005A; 0x00A5; 0x005A; 0x00A5; 0x005A; 0x00A5].
Definition polynomial_basis_trace : list Z :=
[0x0066; 0x0099; 0x003C; 0x00C3; 0x005A; 0x00A5; 0x0099; 0x0066; 0x00C3; 0x003C; 0x00A5; 0x005A; 0x007E;
   0x0081; 0x00A1; 0x007A; 0x002E; 0x008B; 0x004E; 0x008D; 0x003A; 0x00A3; 0x008B; 0x002E; 0x008D; 0x004E;
   0x00C5; 0x005C; 0x00CA; 0x00AC; 0x00AD; 0x004A].
Definition polynomial_boundary_trace : list Z :=
[0x007E; 0x0081; 0x0081; 0x007E; 0x00C2; 0x00BC; 0x00B8; 0x00A2; 0x0027; 0x001B; 0x00D9; 0x0064; 0x0035;
   0x0053; 0x0043; 0x0035; 0x0065; 0x0059; 0x0098; 0x00E6; 0x00EC; 0x00C8; 0x00C1; 0x002C; 0x005A; 0x00A5;
   0x00B5; 0x0052; 0x00C2; 0x00BC; 0x00B5; 0x0042].
Definition polynomial_scrambled_trace : list Z :=
[0x005A; 0x00A5; 0x0019; 0x0067; 0x0027; 0x001B; 0x003D; 0x0043; 0x00E5; 0x0058; 0x001B; 0x0027; 0x002C;
   0x00CB; 0x0059; 0x0065; 0x00C3; 0x003C; 0x0075; 0x0051; 0x00A8; 0x00EA; 0x00EA; 0x00A8; 0x001A; 0x00A7;
   0x0065; 0x0059; 0x006A; 0x00A9; 0x00D3; 0x0034].
Definition repeated_references_64 : list Z := [0x6CA0; 0x0AC6; 0x6CA0; 0x0AC6; 0x6CA0; 0x0AC6; 0x6CA0; 0x0AC6].
Definition polynomial_64_probe_trace : list Z :=
[0xEDFE; 0xFEF7; 0xEDFE; 0xFEF7].
Definition polynomial_64_scrambled_trace : list Z :=
[0x5A5A; 0x5A5A; 0xA5A5; 0xA5A5; 0x1919; 0x1919; 0x6767; 0x6767; 0x2727; 0x2727; 0x1B1B; 0x1B1B; 0x343C;
   0x3C3D; 0x43C3; 0xC3D3; 0xE565; 0x6565; 0x5959; 0x5958; 0x98F2; 0x999A; 0xA666; 0xB0E6; 0x3534; 0x3534;
   0xD353; 0xD353; 0x5919; 0x5F19; 0x6705; 0x6765].
Definition full_error_7 : list input_mutation := [Mutation 7 ALL_SIN_MASK 0].
Definition full_errors_4_8 : list input_mutation := [Mutation 4 ALL_SIN_MASK 0; Mutation 8 ALL_SIN_MASK 0].
Definition full_errors_4_8_12 : list input_mutation := [Mutation 4 ALL_SIN_MASK 0; Mutation 8 ALL_SIN_MASK 0; Mutation 12 ALL_SIN_MASK 0].
Definition full_errors_7_8_9 : list input_mutation := [Mutation 7 ALL_SIN_MASK 0; Mutation 8 ALL_SIN_MASK 0; Mutation 9 ALL_SIN_MASK 0].
Definition component_errors_5_11_17 : list input_mutation := [Mutation 5 SIN0_MASK 0; Mutation 11 SIN1_MASK 0; Mutation 17 SIN2_MASK 0].
Definition full_erasures_7_8_9 : list input_mutation := [Mutation 7 0 ALL_SIN_MASK; Mutation 8 0 ALL_SIN_MASK; Mutation 9 0 ALL_SIN_MASK].
Definition full_error_9 : list input_mutation := [Mutation 9 ALL_SIN_MASK 0].
Definition full_errors_5_10 : list input_mutation := [Mutation 5 ALL_SIN_MASK 0; Mutation 10 ALL_SIN_MASK 0].
Definition full_errors_8_9_10 : list input_mutation := [Mutation 8 ALL_SIN_MASK 0; Mutation 9 ALL_SIN_MASK 0; Mutation 10 ALL_SIN_MASK 0].
Definition full_errors_4_8_12_16 : list input_mutation := [Mutation 4 ALL_SIN_MASK 0; Mutation 8 ALL_SIN_MASK 0; Mutation 12 ALL_SIN_MASK 0; Mutation 16 ALL_SIN_MASK 0].
Definition full_erasures_4_8_12 : list input_mutation := [Mutation 4 0 ALL_SIN_MASK; Mutation 8 0 ALL_SIN_MASK; Mutation 12 0 ALL_SIN_MASK].

(** [struct decoding_vector]; an array and its length are one list. *)
Record decoding_vector := Vector {
  v_name : string; v_metric_count : Z; v_generators : list Z; payload : Z; expected_payload : Z; payload_bits : Z;
  v_amplitude : Z; v_mutations : list input_mutation; v_repeat_count : Z; expect_correction : bool }.
Definition decoding_vectors : list decoding_vector := [
  Vector "K5-noiseless" METRIC_COUNT_16 polynomial_generators_16 0xB4D39A 0xB4D39A 24 48 [] 0 true;
  Vector "K5-full-symbol-1" METRIC_COUNT_16 polynomial_generators_16 0xB4D39A 0xB4D39A 24 48 full_error_7 0 true;
  Vector "K5-full-symbol-2" METRIC_COUNT_16 polynomial_generators_16 0xB4D39A 0xB4D38A 24 48 full_errors_4_8 0 false;
  Vector "K5-full-symbol-3-spaced" METRIC_COUNT_16 polynomial_generators_16 0xB4D39A 0xB4D24A 24 48 full_errors_4_8_12 0 false;
  Vector "K5-full-symbol-3-burst" METRIC_COUNT_16 polynomial_generators_16 0xB4D39A 0xB4D31A 24 48 full_errors_7_8_9 0 false;
  Vector "K5-component-errors" METRIC_COUNT_16 polynomial_generators_16 0xB4D39A 0xB4D39A 24 48 component_errors_5_11_17 0 true;
  Vector "K5-full-erasure-burst" METRIC_COUNT_16 polynomial_generators_16 0xB4D39A 0xB4D39A 24 48 full_erasures_7_8_9 0 true;
  Vector "K5-soft-amplitude-1" METRIC_COUNT_16 polynomial_generators_16 0xB4D39A 0xB4D39A 24 1 [] 0 true;
  Vector "K5-soft-amplitude-127" METRIC_COUNT_16 polynomial_generators_16 0xB4D39A 0xB4D39A 24 127 [] 0 true;
  Vector "K5-repeat-without-DSP-reset" METRIC_COUNT_16 polynomial_generators_16 0xB4D39A 0xB4D39A 24 48 [] 1 true;
  Vector "K7-noiseless" PHYSICAL_METRIC_COUNT polynomial_generators_64 0xA6D35 0xA6D35 20 48 [] 0 true;
  Vector "K7-full-symbol-1" PHYSICAL_METRIC_COUNT polynomial_generators_64 0xA6D35 0xA6D35 20 48 full_error_9 0 true;
  Vector "K7-full-symbol-2" PHYSICAL_METRIC_COUNT polynomial_generators_64 0xA6D35 0xA6D35 20 48 full_errors_5_10 0 true;
  Vector "K7-full-symbol-3-spaced" PHYSICAL_METRIC_COUNT polynomial_generators_64 0xA6D35 0xA6D35 20 48 full_errors_4_8_12 0 true;
  Vector "K7-full-symbol-3-burst" PHYSICAL_METRIC_COUNT polynomial_generators_64 0xA6D35 0xA6C35 20 48 full_errors_8_9_10 0 false;
  Vector "K7-full-symbol-4-spaced" PHYSICAL_METRIC_COUNT polynomial_generators_64 0xA6D35 0xA6905 20 48 full_errors_4_8_12_16 0 false;
  Vector "K7-component-errors" PHYSICAL_METRIC_COUNT polynomial_generators_64 0xA6D35 0xA6D35 20 48 component_errors_5_11_17 0 true;
  Vector "K7-full-erasures" PHYSICAL_METRIC_COUNT polynomial_generators_64 0xA6D35 0xA6D35 20 48 full_erasures_4_8_12 0 true;
  Vector "K7-soft-amplitude-1" PHYSICAL_METRIC_COUNT polynomial_generators_64 0xA6D35 0xA6D35 20 1 [] 0 true;
  Vector "K7-soft-amplitude-127" PHYSICAL_METRIC_COUNT polynomial_generators_64 0xA6D35 0xA6D35 20 127 [] 0 true].

(** ** The model's part of [run_decoding_vector] *)
Definition mutated (m : input_mutation) (mask value : Z) : Z :=
  let value := if (invert_mask m .& mask) !=? 0 then i8 (- value) else value in
  if (erase_mask m .& mask) !=? 0 then 0 else value.
Definition mutate (inputs : list decoder_input) (m : input_mutation) : list decoder_input :=
  alter (fun input => DecoderInput (mutated m SIN0_MASK (sin0 input)) (mutated m SIN1_MASK (sin1 input)) (mutated m SIN2_MASK (sin2 input)))
    (Z.to_nat (timestamp m)) inputs.
Definition bits_of (count value tail : Z) : list Z :=
  map (fun bit => (value .>> bit) .& 1) (seqZ 0 count) ++ replicate (Z.to_nat tail) 0.
Definition start_metrics (metric_count : Z) : list Z := map (fun state => if state ==? 0 then 0 else -12000) (seqZ 0 metric_count).
(** The loop over the timestamps: the metrics after it and the decisions, in their order. *)
Fixpoint model_run (metrics : list Z) (metric_count : Z) (references : list Z) (inputs : list decoder_input) : list Z * list Z :=
  match inputs with
  | [] => (metrics, [])
  | input :: inputs =>
      let '(metrics, decision) := channel_decoder_model_decisions metrics metric_count references input in
      let '(metrics, decisions) := model_run metrics metric_count references inputs in
      (metrics, decision :: decisions)
  end.
Definition model_decode (metric_count : Z) (generators : list Z) (inputs : list decoder_input) : list Z * (Z * list Z) :=
  let references := channel_decoder_generate_references metric_count generators in
  let '(metrics, decisions) := model_run (start_metrics metric_count) metric_count references inputs in
  (metrics, channel_decoder_traceback decisions metric_count).
Definition tail_bits (metric_count : Z) : Z := if metric_count ==? METRIC_COUNT_16 then 4 else 6.
Definition transmitted (v : decoding_vector) : list Z := bits_of (payload_bits v) (payload v) (tail_bits (v_metric_count v)).
Definition received (v : decoding_vector) : list decoder_input :=
  foldl mutate (channel_decoder_encode (transmitted v) (v_metric_count v) (v_generators v) (v_amplitude v)) (v_mutations v).
(** The assertions about the model: the start state, the best final state, the decoded bits and
    whether they are the transmitted ones. *)
Definition vector_holds (v : decoding_vector) : bool :=
  let expected := bits_of (payload_bits v) (expected_payload v) (tail_bits (v_metric_count v)) in
  let '(metrics, (start_state, decoded)) := model_decode (v_metric_count v) (v_generators v) (received v) in
  (start_state ==? 0) && (channel_decoder_best_state metrics (v_metric_count v) ==? 0) && bool_decide (decoded = expected) &&
  bool_decide (channel_decoder_bits_equal (take (Z.to_nat (payload_bits v)) (transmitted v)) (take (Z.to_nat (payload_bits v)) decoded) = expect_correction v).
Definition channel_decoder_model_series (inputs : list decoder_input) : list Z :=
  snd (foldl (fun '(metrics, trace) input =>
    let '(metrics, decisions) := channel_decoder_model_step metrics polynomial_references_16 input in
    (metrics, trace ++ [decisions .& 0xFF; decisions .>> 8])) (replicate 16 0, []) inputs).
(** The model's parts of [run_64_state_probe] and [run_64_state_series]. *)
Definition initial_metric (state : Z) : Z := u16 (state * 0x1234 + state * state * 73).
Definition run_64_state_probe : list Z :=
  channel_decoder_model_trace_64 (snd (channel_decoder_model_decisions (map (fun state => i16 (initial_metric state)) (seqZ 0 PHYSICAL_METRIC_COUNT))
    PHYSICAL_METRIC_COUNT repeated_references_64 (DecoderInput 13 (-57) 92))).
Definition run_64_state_series : list Z :=
  flat_map channel_decoder_model_trace_64
    (snd (model_run (replicate (Z.to_nat PHYSICAL_METRIC_COUNT) 0) PHYSICAL_METRIC_COUNT repeated_references_64 (take 8 polynomial_scrambled_inputs))).

(** ** The trace words *)
Lemma u16_bits x i : 0 <= i -> Z.testbit (u16 x) i = (i <? 16) && Z.testbit x i.
Proof.
  intros Hi. unfold u16. change 0x10000 with (2 ^ 16). destruct (Z.ltb_spec i 16); [by rewrite Z.mod_pow2_bits_low by lia|by rewrite Z.mod_pow2_bits_high by lia].
Qed.
Lemma bits_below n x i : 0 <= n -> 0 <= x < 2 ^ n -> n <= i -> Z.testbit x i = false.
Proof. intros Hn Hx Hi. by apply (bits_above n). Qed.
Ltac bit_step := repeat rewrite ?u16_bits, ?Z.lnot_spec, ?Z.lor_spec, ?Z.land_spec, ?Z.shiftl_spec, ?Z.shiftr_spec by lia.
(** Swapping the bytes of the complement twice. *)
Definition swapped (x : Z) : Z := u16 (Z.lnot ((x .<< 8) .| (x .>> 8))).
Lemma swapped_bits x i : 0 <= x < 0x10000 -> 0 <= i -> Z.testbit (swapped x) i = (i <? 16) && negb (Z.testbit x (if i <? 8 then i + 8 else i - 8)).
Proof.
  intros Hx Hi. unfold swapped. bit_step. destruct (Z.ltb_spec i 16); [|done]. simpl. destruct (Z.ltb_spec i 8).
  - by rewrite (Z.testbit_neg_r x (i - 8)) by lia.
  - rewrite (bits_below 16 x (i + 8)) by (lia || done). by rewrite orb_false_r.
Qed.
Lemma swapped_twice x : 0 <= x < 0x10000 -> swapped (swapped x) = x.
Proof.
  intros Hx. apply Z.bits_inj'. intros i Hi. rewrite swapped_bits by (done || apply u16_range). destruct (Z.ltb_spec i 16); [|by rewrite (bits_below 16 x i) by (lia || done)].
  simpl. destruct (Z.ltb_spec i 8).
  - rewrite swapped_bits by lia. destruct (Z.ltb_spec (i + 8) 16), (Z.ltb_spec (i + 8) 8); try lia. simpl. rewrite negb_involutive. f_equal. lia.
  - rewrite swapped_bits by lia. destruct (Z.ltb_spec (i - 8) 16), (Z.ltb_spec (i - 8) 8); try lia. simpl. rewrite negb_involutive. f_equal. lia.
Qed.
Lemma bytes_joined x : 0 <= x < 0x10000 -> u16 ((x .& 0xFF) .| ((x .>> 8) .<< 8)) = x.
Proof.
  intros Hx. apply Z.bits_inj'. intros i Hi. rewrite u16_bits by lia. destruct (Z.ltb_spec i 16); [|by rewrite (bits_below 16 x i) by (lia || done)].
  simpl. change 0xFF with (Z.ones 8). rewrite Z.lor_spec, Z.land_spec, Z.shiftl_spec by lia. destruct (Z.ltb_spec i 8).
  - rewrite Z.ones_spec_low, (Z.testbit_neg_r _ (i - 8)) by lia. by rewrite andb_true_r, orb_false_r.
  - rewrite Z.ones_spec_high, Z.shiftr_spec, andb_false_r by lia. simpl. f_equal. lia.
Qed.
Lemma at_pair_0 x y : at_ [x; y] 0 = x. Proof. reflexivity. Qed.
Lemma at_pair_1 x y : at_ [x; y] 1 = y. Proof. reflexivity. Qed.
Lemma group_joined x n i : 0 <= n -> 0 <= i -> Z.testbit (u16 (Z.lnot (u16 (Z.lnot (u16 (x .>> n))))) .<< n) i = (n <=? i) && (i <? n + 16) && Z.testbit x i.
Proof.
  intros Hn Hi. rewrite Z.shiftl_spec by lia. destruct (Z.leb_spec n i); [|by rewrite Z.testbit_neg_r by lia].
  bit_step. replace (i - n + n) with i by lia. destruct (Z.ltb_spec (i - n) 16), (Z.ltb_spec i (n + 16)); try lia; cbn [andb]; rewrite ?negb_involutive; done.
Qed.

(** The trace words keep the decisions: what the model writes to the trace for a timestamp, two
    bytes for 16 states and four words for 64, unpacks to the same decisions. *)
Theorem trace_round_trip metric_count decisions : metric_count = METRIC_COUNT_16 \/ metric_count = PHYSICAL_METRIC_COUNT -> 0 <= decisions < 2 ^ metric_count ->
  channel_decoder_unpack_trace (channel_decoder_model_trace decisions metric_count) metric_count = decisions.
Proof.
  intros [->| ->] Hd.
  - unfold channel_decoder_model_trace, channel_decoder_unpack_trace. cbn [Z.eqb METRIC_COUNT_16 Pos.eqb].
    fold (swapped (u16 decisions)). rewrite at_pair_0, at_pair_1, bytes_joined by apply u16_range. fold (swapped (swapped (u16 decisions))).
    rewrite swapped_twice by apply u16_range. unfold u16. by apply Z.mod_small.
  - apply Z.bits_inj'. intros i Hi. unfold channel_decoder_model_trace, channel_decoder_unpack_trace, channel_decoder_model_trace_64.
    cbn [Z.eqb METRIC_COUNT_16 PHYSICAL_METRIC_COUNT Pos.eqb]. change (seqZ 0 4) with [0; 1; 2; 3]. cbn [map foldl]. unfold at_.
    change (Z.to_nat 0) with 0%nat. change (Z.to_nat 1) with 1%nat. change (Z.to_nat 2) with 2%nat. change (Z.to_nat 3) with 3%nat. cbn [lookup_total list_lookup_total].
    rewrite !Z.lor_spec, !group_joined, Z.bits_0 by lia. cbn [orb].
    destruct (Z.testbit decisions i) eqn:E; [|by rewrite !andb_false_r].
    assert (i < 64) by (apply Z.lt_nge; intros Hge; by rewrite (bits_below 64 decisions i) in E by (lia || done)). zcases; lia.
Qed.
Lemma trace_round_trip_witness : 0 <= 0xFEDCBA9876543210 < 2 ^ 64 /\
  channel_decoder_unpack_trace (channel_decoder_model_trace 0xFEDCBA9876543210 64) 64 = 0xFEDCBA9876543210.
Proof. split; [lia|]. apply trace_round_trip; [by right|]. unfold PHYSICAL_METRIC_COUNT. lia. Defined.
