(* ===== verification/ChannelErrors.v ===== *)
(** * What the channel decoder's model corrects

    The distance between two paths of a trellis is the number of bits in which the encoder's outputs
    differ.  A table of lower bounds, checked by evaluation, shows that paths of the test's codes that
    part and meet again are 10 (16 states) or 15 (64 states) bits apart; hence samples that the
    mutations of [run_decoding_vector] have changed by less than that are decoded to what was sent. *)
From S2P Require Import Prelude Trellis ChannelDecoder ChannelCode.

Definition edge_distance (gens : list Z) (e e' : Z) : Z :=
  Z.b2z (xorb (out e (at_ gens 0)) (out e' (at_ gens 0))) + Z.b2z (xorb (out e (at_ gens 1)) (out e' (at_ gens 1))) +
  Z.b2z (xorb (out e (at_ gens 2)) (out e' (at_ gens 2))).
(** [bound] at the difference of two states is at most the distance of paths from them to one state;
    two paths that part are [d] apart. *)
Definition distance_ok (h : Z) (gens bound : list Z) (d : Z) : bool :=
  (at_ bound 0 =? 0) &&
  forallb (fun s => forallb (fun s' => forallb (fun b => forallb (fun b' =>
    let apart := edge_distance gens (edge h s b) (edge h s' b') + at_ bound ((edge h s b / 2) .^ (edge h s' b' / 2)) in
    (at_ bound (s .^ s') <=? apart) && ((negb (s =? s')) || (b =? b') || (d <=? apart))) [0; 1]) [0; 1]) (seqZ 0 (2 * h))) (seqZ 0 (2 * h)).
Definition relax (h : Z) (gens bound : list Z) : list Z :=
  map (fun s => if s =? 0 then 0 else
    Z.min (edge_distance gens (edge h s 0) 0 + at_ bound (edge h s 0 / 2)) (edge_distance gens (edge h s 1) 0 + at_ bound (edge h s 1 / 2))) (seqZ 0 (2 * h)).
Definition bound_16 : list Z := Eval vm_compute in Nat.iter 20 (relax 8 polynomial_generators_16) (0 :: replicate 15 100).
Definition bound_64 : list Z := Eval vm_compute in Nat.iter 70 (relax 32 polynomial_generators_64) (0 :: replicate 63 100).
Lemma distance_16 : distance_ok 8 polynomial_generators_16 bound_16 10 = true.
Proof. vm_compute. reflexivity. Qed.
Lemma distance_64 : distance_ok 32 polynomial_generators_64 bound_64 15 = true.
Proof. vm_compute. reflexivity. Qed.

(** ** Distances of paths and of samples *)
Definition apart (x y : decoder_input) : Z := Z.abs (sin0 x - sin0 y) + Z.abs (sin1 x - sin1 y) + Z.abs (sin2 x - sin2 y).
Fixpoint total_apart (xs ys : list decoder_input) : Z :=
  match xs, ys with x :: xs, y :: ys => apart x y + total_apart xs ys | _, _ => 0 end.
Lemma total_apart_nonneg xs ys : 0 <= total_apart xs ys.
Proof. revert ys. induction xs as [|x xs IH]; intros [|y ys]; simpl; try lia. specialize (IH ys). unfold apart. lia. Qed.
Lemma edge_distance_nonneg gens e e' : 0 <= edge_distance gens e e'.
Proof. unfold edge_distance. repeat match goal with |- context [xorb ?x ?y] => destruct (xorb x y) end; simpl; lia. Qed.

Section Errors.
Context (h : Z) (Hh : 0 < h <= 32) (gens : list Z) (Hok : code_ok h gens = true).
Context (bound : list Z) (d : Z) (Hd : distance_ok h gens bound d = true) (H15 : 0 <= d <= 15).
Context (a : Z) (Ha : 1 <= a <= 127).

Fixpoint path_distance (s s' : Z) (bits bits' : list Z) : Z :=
  match bits, bits' with
  | b :: bits, b' :: bits' => edge_distance gens (edge h s b) (edge h s' b') + path_distance (edge h s b / 2) (edge h s' b' / 2) bits bits'
  | _, _ => 0
  end.
Lemma bound_ok s s' b b' : is_state h s -> is_state h s' -> is_bit b -> is_bit b' ->
  let apart := edge_distance gens (edge h s b) (edge h s' b') + at_ bound ((edge h s b / 2) .^ (edge h s' b' / 2)) in
  at_ bound (s .^ s') <= apart /\ (s = s' -> b <> b' -> d <= apart).
Proof.
  intros Hs Hs' Hb Hb'. pose proof Hd as H. unfold distance_ok in H. apply andb_prop in H as [_ H]. rewrite forallb_forall in H.
  specialize (H s). rewrite <- list_elem_of_In, elem_of_seqZ, forallb_forall in H. unfold is_state in *. specialize (H ltac:(lia) s').
  rewrite <- list_elem_of_In, elem_of_seqZ, forallb_forall in H. specialize (H ltac:(lia) b ltac:(destruct Hb; subst; simpl; auto)). rewrite forallb_forall in H.
  specialize (H b' ltac:(destruct Hb'; subst; simpl; auto)). apply andb_prop in H as [H1 H2]. split; [by apply Z.leb_le|].
  intros -> Hne. rewrite Z.eqb_refl in H2. destruct (Z.eqb_spec b b'); [done|]. by apply Z.leb_le.
Qed.
Lemma path_distance_bound s s' bits bits' : is_state h s -> is_state h s' -> Forall is_bit bits -> Forall is_bit bits' -> length bits = length bits' ->
  path_end h s bits = path_end h s' bits' -> at_ bound (s .^ s') <= path_distance s s' bits bits'.
Proof.
  intros Hs Hs' Hb. revert s s' bits' Hs Hs'. induction Hb as [|b bits Hb _ IH]; intros s s' [|b' bits'] Hs Hs' Hb' Hl He; try done.
  - simpl in He. subst. rewrite Z.lxor_nilpotent. pose proof Hd as H. unfold distance_ok in H. apply andb_prop in H as [H%Z.eqb_eq _]. simpl. lia.
  - apply Forall_cons in Hb' as [Hb' Hbs]. destruct (bound_ok s s' b b' Hs Hs' Hb Hb') as [H _].
    pose proof (next_state h (proj1 Hh) (weight gens) s b Hs Hb) as Hn. pose proof (next_state h (proj1 Hh) (weight gens) s' b' Hs' Hb') as Hn'.
    specialize (IH (edge h s b / 2) (edge h s' b' / 2) bits' Hn Hn' Hbs ltac:(simpl in Hl; lia) He). simpl. lia.
Qed.
Lemma path_distance_nonneg s s' bits bits' : 0 <= path_distance s s' bits bits'.
Proof.
  revert s s' bits'. induction bits as [|b bits IH]; intros s s' [|b' bits']; simpl; try lia.
  pose proof (edge_distance_nonneg gens (edge h s b) (edge h s' b')). specialize (IH (edge h s b / 2) (edge h s' b' / 2) bits'). lia.
Qed.
Lemma paths_apart s bits bits' : is_state h s -> Forall is_bit bits -> Forall is_bit bits' -> length bits = length bits' ->
  path_end h s bits = path_end h s bits' -> bits <> bits' -> d <= path_distance s s bits bits'.
Proof.
  intros Hs Hb. revert s bits' Hs. induction Hb as [|b bits Hb Hbs IH]; intros s [|b' bits'] Hs Hb' Hl He Hne; try done.
  apply Forall_cons in Hb' as [Hb' Hbs']. pose proof (next_state h (proj1 Hh) (weight gens) s b Hs Hb) as Hn. pose proof (next_state h (proj1 Hh) (weight gens) s b' Hs Hb') as Hn'. simpl in *.
  destruct (decide (b = b')) as [->|Hbb].
  - pose proof (edge_distance_nonneg gens (edge h s b') (edge h s b')). specialize (IH (edge h s b' / 2) bits' Hn Hbs' ltac:(lia) He ltac:(congruence)). lia.
  - destruct (bound_ok s s b b' Hs Hs Hb Hb') as [_ H]. specialize (H eq_refl Hbb).
    pose proof (path_distance_bound _ _ bits bits' Hn Hn' Hbs Hbs' ltac:(lia) He). lia.
Qed.

(** ** The encoder sends the outputs of its edges *)
Definition signal (e : Z) : decoder_input := DecoderInput (signed (out e (at_ gens 0)) a) (signed (out e (at_ gens 1)) a) (signed (out e (at_ gens 2)) a).
Fixpoint signals (s : Z) (bits : list Z) : list decoder_input :=
  match bits with [] => [] | b :: bits => signal (edge h s b) :: signals (edge h s b / 2) bits end.
Lemma encode_signals s bits : is_state h s -> Forall is_bit bits -> encode_from (2 * h) gens a s bits = signals s bits.
Proof.
  intros Hs Hb. revert s Hs. induction Hb as [|b bits Hb _ IH]; intros s Hs; [done|]. cbn [encode_from signals].
  assert ((s .| (if b !=? 0 then 2 * h else 0)) = edge h s b) as E.
  { unfold edge. destruct Hb as [->| ->]; [simpl; rewrite Z.lor_0_r; lia|]. pose proof Hok as H. unfold code_ok in H. apply andb_prop in H as [_ H]. rewrite forallb_forall in H.
    specialize (H s). rewrite <- list_elem_of_In, elem_of_seqZ in H. unfold is_state in Hs. specialize (H ltac:(lia)). apply Z.eqb_eq in H. change (if 1 !=? 0 then 2 * h else 0) with (2 * h). lia. }
  assert (s / 2 + (if b !=? 0 then 2 * h / 2 else 0) = edge h s b / 2) as E2.
  { unfold edge. replace (s + b * (2 * h)) with (s + b * h * 2) by lia. rewrite Z.div_add, (Z.mul_comm 2 h), Z.div_mul by lia. destruct Hb as [->| ->]; simpl; lia. }
  rewrite E, E2, IH by (by apply (next_state h (proj1 Hh) (weight gens))). f_equal. unfold encoded, signal, signed, out.
  f_equal; match goal with |- context [negb ?c] => destruct c end; cbn [negb]; apply i8_small; lia.
Qed.
Lemma length_signals s bits : length (signals s bits) = length bits.
Proof. revert s. induction bits as [|b bits IH]; intros s; simpl; [done|]. by rewrite IH. Qed.

(** A path's metric falls behind by twice the amplitude for each bit in which it differs from what
    was sent, unless the samples are themselves apart from it. *)
Lemma signed_weight b b' x : signed b' x <= signed b x - 2 * a * Z.b2z (xorb b b') + 2 * Z.abs (signed b a - x).
Proof. destruct b, b'; simpl; lia. Qed.
Lemma weight_behind e e' i : weight gens e' i <= weight gens e i - 2 * a * edge_distance gens e e' + 2 * apart (signal e) i.
Proof.
  unfold weight, edge_distance, apart, signal. cbn [sin0 sin1 sin2].
  pose proof (signed_weight (out e (at_ gens 0)) (out e' (at_ gens 0)) (sin0 i)). pose proof (signed_weight (out e (at_ gens 1)) (out e' (at_ gens 1)) (sin1 i)).
  pose proof (signed_weight (out e (at_ gens 2)) (out e' (at_ gens 2)) (sin2 i)). lia.
Qed.
Lemma metric_behind s s' bits bits' inputs : length bits = length inputs -> length bits' = length inputs ->
  path_metric h (weight gens) s' bits' inputs <=
  path_metric h (weight gens) s bits inputs - 2 * a * path_distance s s' bits bits' + 2 * total_apart (signals s bits) inputs.
Proof.
  revert s s' bits' inputs. induction bits as [|b bits IH]; intros s s' [|b' bits'] [|i inputs] Hl Hl'; simpl in *; try lia.
  pose proof (weight_behind (edge h s b) (edge h s' b') i). specialize (IH (edge h s b / 2) (edge h s' b' / 2) bits' inputs ltac:(lia) ltac:(lia)). lia.
Qed.

(** Samples whose total distance from what was sent is less than the code's, in amplitudes. *)
Lemma decode_near bits inputs : Forall is_bit bits -> path_end h 0 bits = 0 -> (length bits <= 32)%nat ->
  length inputs = length bits -> Forall is_input inputs -> total_apart (channel_decoder_encode bits (2 * h) gens a) inputs < a * d ->
  snd (model_decode (2 * h) gens inputs) = (0, bits).
Proof.
  intros Hb He Hl Hli Hi. assert (is_state h 0) as H0 by (unfold is_state; lia). unfold channel_decoder_encode. rewrite encode_signals by done. intros Hnear.
  pose proof (decode_best h Hh gens Hok inputs Hi ltac:(lia)) as H. destruct (model_decode (2 * h) gens inputs) as [metrics [s bits']]. destruct H as ([Hs Hb' Hl' He'] & Hm & Hbest).
  specialize (Hbest 0 bits ltac:(by split)). pose proof (metric_behind 0 s bits bits' inputs ltac:(lia) Hl') as Hbehind.
  pose proof (path_distance_nonneg 0 s bits bits'). cbn [snd]. unfold start in *. simpl in Hbest.
  destruct (Z.eqb_spec s 0) as [->|]; [|exfalso; nia]. f_equal. destruct (decide (bits' = bits)) as [|Hne]; [done|exfalso].
  pose proof (paths_apart 0 bits bits' H0 Hb Hb' ltac:(lia) ltac:(congruence) ltac:(congruence)). nia.
Qed.

(** ** Mutations *)
Definition harm (m : input_mutation) (mask : Z) : Z :=
  (if (invert_mask m .& mask) !=? 0 then 2 else 0) + (if (erase_mask m .& mask) !=? 0 then 1 else 0).
Definition harms (m : input_mutation) : Z := harm m SIN0_MASK + harm m SIN1_MASK + harm m SIN2_MASK.
Definition within (i : decoder_input) : Prop := Z.abs (sin0 i) <= a /\ Z.abs (sin1 i) <= a /\ Z.abs (sin2 i) <= a.
Lemma mutated_near m mask x : Z.abs x <= a -> Z.abs (mutated m mask x) <= a /\ Z.abs (mutated m mask x - x) <= a * harm m mask.
Proof.
  intros Hx. unfold mutated, harm. rewrite (i8_small (- x)) by lia. destruct ((invert_mask m .& mask) !=? 0), ((erase_mask m .& mask) !=? 0); lia.
Qed.
Lemma mutate_near sent inputs m : Forall within inputs -> length sent = length inputs ->
  Forall within (mutate inputs m) /\ length (mutate inputs m) = length inputs /\ total_apart sent (mutate inputs m) <= total_apart sent inputs + a * harms m.
Proof.
  unfold mutate. generalize (Z.to_nat (timestamp m)) as t. intros t Hi. revert sent t. induction Hi as [|i inputs Hw Hi IH]; intros [|x sent] t Hl; try done.
  { split; [apply Forall_nil_2|]. split; [done|]. unfold harms, harm. cbn [total_apart alter list_alter]. repeat case_match; lia. }
  destruct Hw as (H0 & H1 & H2). simpl in Hl. destruct t as [|t].
  - destruct (mutated_near m SIN0_MASK _ H0) as [A0 B0], (mutated_near m SIN1_MASK _ H1) as [A1 B1], (mutated_near m SIN2_MASK _ H2) as [A2 B2].
    cbn [alter list_alter]. split; [constructor; [by split|done]|]. split; [done|]. cbn [total_apart]. unfold apart, harms. cbn [sin0 sin1 sin2].
    revert B0 B1 B2. generalize (mutated m SIN0_MASK (sin0 i)), (mutated m SIN1_MASK (sin1 i)), (mutated m SIN2_MASK (sin2 i)), (harm m SIN0_MASK), (harm m SIN1_MASK), (harm m SIN2_MASK). lia.
  - destruct (IH sent t ltac:(lia)) as (A & B & C). split; [constructor; [by split|exact A]|]. split; [exact (f_equal S B)|]. 
    transitivity (apart x i + (total_apart sent inputs + a * harms m)); [exact (proj1 (Z.add_le_mono_l _ _ (apart x i)) C)|cbn [total_apart]; lia].
Qed.
Lemma mutations_near sent inputs ms : Forall within inputs -> length sent = length inputs ->
  Forall within (foldl mutate inputs ms) /\ length (foldl mutate inputs ms) = length inputs /\
  total_apart sent (foldl mutate inputs ms) <= total_apart sent inputs + a * foldr Z.add 0 (map harms ms).
Proof.
  revert inputs. induction ms as [|m ms IH]; intros inputs Hi Hl; simpl; [split; [done|]; split; [done|lia]|].
  destruct (mutate_near sent inputs m Hi Hl) as (A & B & C). destruct (IH (mutate inputs m) A ltac:(lia)) as (A' & B' & C'). split; [done|]. split; lia.
Qed.
Lemma signals_within s bits : Forall within (signals s bits).
Proof.
  revert s. induction bits as [|b bits IH]; intros s; constructor; [|apply IH]. unfold within, signal, signed. cbn [sin0 sin1 sin2].
  repeat case_match; lia.
Qed.
Lemma total_apart_same xs : total_apart xs xs = 0.
Proof. induction xs as [|x xs IH]; [done|]. simpl. unfold apart. lia. Qed.
Lemma decode_mutated bits ms : Forall is_bit bits -> path_end h 0 bits = 0 -> (length bits <= 32)%nat -> foldr Z.add 0 (map harms ms) < d ->
  snd (model_decode (2 * h) gens (foldl mutate (channel_decoder_encode bits (2 * h) gens a) ms)) = (0, bits).
Proof.
  intros Hb He Hl Hms. assert (is_state h 0) as H0 by (unfold is_state; lia). set (sent := channel_decoder_encode bits (2 * h) gens a).
  assert (sent = signals 0 bits) as Es by (by apply encode_signals).
  destruct (mutations_near sent sent ms) as (A & B & C); [rewrite Es; apply signals_within|done|]. rewrite total_apart_same in C.
  apply decode_near; try done; [by rewrite B, Es, length_signals| |fold sent; nia].
  eapply Forall_impl; [exact A|]. intros i (I0 & I1 & I2). split; unfold sample; lia.
Qed.
End Errors.

(** ** What is transmitted ends in the state 0 *)
Lemma bits_are_bits count value tail : Forall is_bit (bits_of count value tail).
Proof.
  unfold bits_of. apply Forall_app. split; [|apply Forall_replicate; by left]. apply Forall_forall. intros b Hb. apply list_elem_of_fmap in Hb as (i & -> & _).
  change 1 with (Z.ones 1). rewrite Z.land_ones by lia. unfold is_bit. Z.div_mod_to_equations. lia.
Qed.
Lemma path_end_app h s xs ys : path_end h s (xs ++ ys) = path_end h (path_end h s xs) ys.
Proof. revert s. induction xs as [|x xs IH]; intros s; [done|]. apply IH. Qed.
Lemma zeros_end h s k : 0 <= s < 2 ^ Z.of_nat k -> path_end h s (replicate k 0) = 0.
Proof.
  revert s. induction k as [|k IH]; intros s Hs; simpl; [simpl in Hs; lia|]. apply IH. unfold edge. rewrite Nat2Z.inj_succ, Z.pow_succ_r in Hs by lia. Z.div_mod_to_equations. lia.
Qed.
(** The codes of the test, with their free distances. *)
Inductive code : Z -> list Z -> Z -> Prop :=
  | K5 : code METRIC_COUNT_16 polynomial_generators_16 10
  | K7 : code PHYSICAL_METRIC_COUNT polynomial_generators_64 15.

Lemma transmitted_bits mc gens d count value : code mc gens d -> 0 <= count <= MAX_DECODE_TIMESTAMPS - tail_bits mc ->
  let bits := bits_of count value (tail_bits mc) in Forall is_bit bits /\ path_end (mc / 2) 0 bits = 0 /\ (length bits <= 32)%nat.
Proof.
  intros Hc Hn. cbv zeta. split; [apply bits_are_bits|]. split.
  - unfold bits_of. rewrite path_end_app. apply zeros_end. pose proof (bits_are_bits count value 0) as Hb. unfold bits_of in Hb. simpl in Hb. rewrite app_nil_r in Hb.
    destruct Hc; [pose proof (path_end_state 8 ltac:(lia) (fun _ (_ : unit) => 0) 0 _ ltac:(unfold is_state; lia) Hb) as H|
      pose proof (path_end_state 32 ltac:(lia) (fun _ (_ : unit) => 0) 0 _ ltac:(unfold is_state; lia) Hb) as H]; exact H.
  - unfold bits_of. rewrite length_app, length_map, length_seqZ, length_replicate. unfold MAX_DECODE_TIMESTAMPS in Hn. destruct Hc; cbn in *; lia.
Qed.

(** C5. The reference model of the channel decoder corrects errors: whatever the payload and the
    amplitude of a decoding vector, if its mutations cost less than the code's free distance
    (two for each inverted sample and one for each erased one; 10 for the code of 16 states and
    15 for that of 64), encoding, mutating and decoding as [run_decoding_vector] does ends in the
    configured start state with exactly the transmitted bits. *)
Theorem decoder_corrects (v : decoding_vector) d :
  code (v_metric_count v) (v_generators v) d -> 0 <= payload_bits v <= MAX_DECODE_TIMESTAMPS - tail_bits (v_metric_count v) -> 1 <= v_amplitude v <= 127 ->
  foldr Z.add 0 (map harms (v_mutations v)) < d ->
  snd (model_decode (v_metric_count v) (v_generators v) (received v)) = (0, transmitted v).
Proof.
  destruct v as [nm mc gens p q n a ms r e]. unfold received, transmitted. cbn [v_metric_count v_generators payload payload_bits v_amplitude v_mutations].
  intros Hc Hp Ha Hm. destruct (transmitted_bits _ _ _ n p Hc Hp) as (Hb & He & Hl). destruct Hc.
  - exact (decode_mutated 8 ltac:(lia) polynomial_generators_16 ltac:(reflexivity) bound_16 10 distance_16 ltac:(lia) a Ha _ ms Hb He Hl Hm).
  - exact (decode_mutated 32 ltac:(lia) polynomial_generators_64 ltac:(reflexivity) bound_64 15 distance_64 ltac:(lia) a Ha _ ms Hb He Hl Hm).
Qed.

(** A witness: an inverted sample at each of three timestamps. *)
Lemma decoder_corrects_witness : let v := Vector "" METRIC_COUNT_16 polynomial_generators_16 0xB4D39A 0xB4D39A 24 48 component_errors_5_11_17 0 true in
  snd (model_decode (v_metric_count v) (v_generators v) (received v)) = (0, transmitted v).
Proof. cbv zeta. apply (decoder_corrects _ 10); [exact K5| | |]; vm_compute; intuition congruence. Defined.

(** C6. The reference model of the channel decoder is a maximum-likelihood decoder, although it
    computes with 16-bit metrics: on at most 32 timestamps of 8-bit samples, what its traceback
    returns is a path of the code's trellis to the state 0 whose metric (the correlation of the
    samples with the encoder's output, less 12000 for another start state than 0) is the model's
    final one, and no path to the state 0 has a greater metric. *)
Theorem decoder_maximum_likelihood mc gens d inputs :
  code mc gens d -> Forall is_input inputs -> (length inputs <= Z.to_nat MAX_DECODE_TIMESTAMPS)%nat ->
  let '(metrics, (s, bits)) := model_decode mc gens inputs in
  path (mc / 2) s bits inputs 0 /\ at_ metrics 0 = start s + path_metric (mc / 2) (weight gens) s bits inputs /\
  forall s' bits', path (mc / 2) s' bits' inputs 0 -> start s' + path_metric (mc / 2) (weight gens) s' bits' inputs <= at_ metrics 0.
Proof.
  intros Hc Hi Hl. destruct Hc.
  - exact (decode_best 8 ltac:(lia) polynomial_generators_16 ltac:(reflexivity) inputs Hi Hl).
  - exact (decode_best 32 ltac:(lia) polynomial_generators_64 ltac:(reflexivity) inputs Hi Hl).
Qed.
Lemma decoder_maximum_likelihood_witness : Forall is_input polynomial_scrambled_inputs /\
  let '(metrics, (s, bits)) := model_decode 64 polynomial_generators_64 polynomial_scrambled_inputs in
  path (64 / 2) s bits polynomial_scrambled_inputs 0 /\ at_ metrics 0 = start s + path_metric (64 / 2) (weight polynomial_generators_64) s bits polynomial_scrambled_inputs /\
  forall s' bits', path (64 / 2) s' bits' polynomial_scrambled_inputs 0 -> start s' + path_metric (64 / 2) (weight polynomial_generators_64) s' bits' polynomial_scrambled_inputs <= at_ metrics 0.
Proof.
  assert (Forall is_input polynomial_scrambled_inputs) as Hi by (repeat constructor; vm_compute; intuition congruence).
  split; [exact Hi|]. apply (decoder_maximum_likelihood _ _ 15); [exact K7|exact Hi|vm_compute; lia].
Defined.

(** The model computes the test's tables: it decodes each of the twenty decoding vectors to its
    golden bits, from the configured start state, with the best final metric in the state 0 and
    corrected as the vector says; the references generated from the generators are the ROM's, and
    the traces of the 16-state series and of the 64-state ones are the golden ones. *)
Theorem golden_tables :
  forallb vector_holds decoding_vectors = true /\
  channel_decoder_generate_references METRIC_COUNT_16 polynomial_generators_16 = polynomial_references_16 /\
  channel_decoder_generate_references PHYSICAL_METRIC_COUNT polynomial_generators_64 = polynomial_references_64 /\
  channel_decoder_model_series polynomial_constant_inputs = polynomial_constant_trace /\
  channel_decoder_model_series polynomial_basis_inputs = polynomial_basis_trace /\
  channel_decoder_model_series polynomial_boundary_inputs = polynomial_boundary_trace /\
  channel_decoder_model_series polynomial_scrambled_inputs = polynomial_scrambled_trace /\
  run_64_state_probe = polynomial_64_probe_trace /\ run_64_state_series = polynomial_64_scrambled_trace.
Proof. vm_compute. repeat split. Qed.
