(* ===== verification/Crc.v ===== *)
(** * CRC-32 of the preloader ([preloader/src/crc.c])

    [crc32_update] on memory, its pure counterpart [crc32_list] on byte lists, and
    what makes it a checksum: chaining, linearity, the residue of a message that is
    followed by its own complemented CRC, and detection of every corruption
    confined to four consecutive bytes. *)
From S2P Require Import Prelude Machine Gf2.

Definition CRC32_INITIAL_VALUE : Z := 0xFFFFFFFF.
Definition CRC32_POLYNOMIAL : Z := 0xEDB88320.

(** The body of the loop over the bits. *)
Definition crc32_bit (crc : Z) : Z :=
  let low_bit := crc .& 1 in
  let crc := crc .>> 1 in
  if low_bit !=? 0 then crc .^ CRC32_POLYNOMIAL else crc.

(** The body of the loop over the bytes. *)
Definition crc32_byte (crc b : Z) : Z := Nat.iter 8 crc32_bit (crc .^ b).

Definition crc32_update {D A} (crc data size : Z) : M D A Z :=
  foldM (fun crc i => b ← ld8 (data + i); mret (crc32_byte crc b)) crc (seqZ 0 size).

Definition crc32_list (crc : Z) (bs : list Z) : Z := fold_left crc32_byte bs crc.

(** ** Range *)
Lemma crc32_bit_range x : is_u32 x -> is_u32 (crc32_bit x).
Proof.
  intros Hx. assert (0 <= x .>> 1 < 2 ^ 31) as Hs
    by (rewrite Z.shiftr_div_pow2 by lia; change (2 ^ 1) with 2; change (2 ^ 31) with 0x80000000; ulia).
  unfold crc32_bit. destruct (_ !=? _); [|unfold is_u32; lia].
  apply (lxor_range 32); unfold CRC32_POLYNOMIAL; lia.
Qed.
Lemma crc32_iter_range n x : is_u32 x -> is_u32 (Nat.iter n crc32_bit x).
Proof. intros Hx. induction n; simpl; [done|by apply crc32_bit_range]. Qed.
Lemma crc32_byte_range x b : is_u32 x -> is_byte b -> is_u32 (crc32_byte x b).
Proof.
  intros Hx Hb. apply crc32_iter_range, (lxor_range 32); [done|done|]. unfold is_byte in Hb. lia.
Qed.
Lemma crc32_list_range bs : forall x, is_u32 x -> bytes_ok bs -> is_u32 (crc32_list x bs).
Proof.
  induction bs as [|b bs IH]; intros x Hx Hbs; simpl; [done|].
  inversion_clear Hbs. apply IH; [by apply crc32_byte_range|done].
Qed.
#[export] Hint Resolve crc32_bit_range crc32_iter_range crc32_byte_range crc32_list_range : width.

(** ** Linearity over exclusive or *)
Lemma odd_land x : Z.land x 1 = Z.b2z (Z.odd x).
Proof. rewrite <- Z.bit0_odd. apply Z.bits_inj'. intros i Hi. rewrite Z.land_spec.
  destruct (Z.eq_dec i 0) as [->|]; [by destruct (Z.testbit x 0)|].
  assert (Z.testbit 1 i = false) as -> by (apply (bits_above 1); lia).
  rewrite andb_false_r. symmetry. apply (bits_above 1); [lia|destruct (Z.testbit x 0); simpl; lia|lia].
Qed.
Lemma crc32_bit_xor a b : crc32_bit (Z.lxor a b) = Z.lxor (crc32_bit a) (crc32_bit b).
Proof.
  unfold crc32_bit. rewrite !odd_land, Z.shiftr_lxor, <- !Z.bit0_odd, Z.lxor_spec.
  apply Z.bits_inj'. intros i Hi.
  destruct (Z.testbit a 0), (Z.testbit b 0); simpl; rewrite ?Z.lxor_spec;
    destruct (Z.testbit (a .>> 1) i), (Z.testbit (b .>> 1) i), (Z.testbit CRC32_POLYNOMIAL i); done.
Qed.
Lemma crc32_iter_xor n a b :
  Nat.iter n crc32_bit (Z.lxor a b) = Z.lxor (Nat.iter n crc32_bit a) (Nat.iter n crc32_bit b).
Proof. induction n as [|n IH]; simpl; [done|by rewrite IH, crc32_bit_xor]. Qed.

Lemma crc32_bit_double x : crc32_bit (x .<< 1) = x.
Proof.
  unfold crc32_bit. rewrite Z.shiftr_shiftl_l, Z.shiftl_0_r by lia.
  rewrite odd_land, <- Z.bit0_odd, Z.shiftl_spec_low by lia. done.
Qed.
Lemma crc32_iter_shift n x : Nat.iter n crc32_bit (x .<< Z.of_nat n) = x.
Proof.
  revert x. induction n as [|n IH]; intros x; [by rewrite Z.shiftl_0_r|].
  rewrite Nat.iter_succ_r, Nat2Z.inj_succ, <- Z.add_1_r, <- Z.shiftl_shiftl, crc32_bit_double by lia.
  apply IH.
Qed.

(** A block of bytes enters the register as one word. *)
Lemma crc32_list_word bs : forall x, bytes_ok bs ->
  crc32_list x bs = Nat.iter (8 * length bs) crc32_bit (x .^ le_word bs).
Proof.
  induction bs as [|b bs IH]; intros x Hbs; [simpl; by rewrite Z.lxor_0_r|].
  inversion_clear Hbs as [|?? Hb Hbs']. simpl crc32_list. rewrite IH by done. unfold crc32_byte.
  assert (le_word (b :: bs) = b .^ (le_word bs .<< 8)) as ->.
  { simpl. rewrite Z.shiftl_mul_pow2 by lia. change (2 ^ 8) with 256.
    rewrite <- Z.add_nocarry_lxor; [ring|]. apply Z.bits_inj'. intros i Hi.
    rewrite Z.land_spec, Z.testbit_0_l. destruct (Z.lt_ge_cases i 8).
    - replace (le_word bs * 256) with (le_word bs .<< 8) by (rewrite Z.shiftl_mul_pow2; lia).
      rewrite (Z.shiftl_spec_low _ 8) by lia. apply andb_false_r.
    - by rewrite (bits_above 8 b) by (try exact Hb; lia). }
  replace (8 * length (b :: bs))%nat with (8 * length bs + 8)%nat by (simpl; lia).
  rewrite Nat.iter_add, <- Z.lxor_assoc, (crc32_iter_xor 8 _ (le_word bs .<< 8)).
  by rewrite (crc32_iter_shift 8).
Qed.

(** The register step loses nothing: a non-zero difference stays non-zero. *)
Lemma crc32_bit_zero x : is_u32 x -> crc32_bit x = 0 -> x = 0.
Proof.
  intros Hx. unfold crc32_bit. rewrite odd_land. pose proof (Zdiv2_odd_eqn x) as E.
  rewrite Z.div2_spec in E. destruct (Z.odd x); simpl; [|lia].
  intros H. apply Z.lxor_eq in H. unfold CRC32_POLYNOMIAL, is_u32 in *. lia.
Qed.
Lemma crc32_iter_inj n a b : is_u32 a -> is_u32 b ->
  Nat.iter n crc32_bit a = Nat.iter n crc32_bit b -> a = b.
Proof.
  intros Ha Hb H. apply Z.lxor_eq_0_iff in H. rewrite <- crc32_iter_xor in H. apply Z.lxor_eq.
  assert (is_u32 (Z.lxor a b)) as Hab by (by apply (lxor_range 32)).
  induction n as [|n IH]; simpl in H; [done|]. apply IH, crc32_bit_zero; auto with width.
Qed.
Lemma crc32_list_inj_state bs x y : is_u32 x -> is_u32 y -> bytes_ok bs ->
  crc32_list x bs = crc32_list y bs -> x = y.
Proof.
  revert x y. induction bs as [|b bs IH]; intros x y Hx Hy Hbs H; [done|].
  inversion_clear Hbs. simpl in H. apply IH in H; auto with width.
  unfold crc32_byte in H. apply crc32_iter_inj in H; [|by apply (lxor_range 32); unfold is_byte in *; try lia..].
  apply (f_equal (fun z => Z.lxor z b)) in H.
  by rewrite !Z.lxor_assoc, Z.lxor_nilpotent, !Z.lxor_0_r in H.
Qed.

Lemma le_word_range bs : bytes_ok bs -> 0 <= le_word bs < 2 ^ (8 * Z.of_nat (length bs)).
Proof.
  induction 1 as [|b bs Hb Hbs IH]; [done|]. simpl length.
  replace (8 * Z.of_nat (S (length bs))) with (8 + 8 * Z.of_nat (length bs)) by lia.
  rewrite Z.pow_add_r by lia. change (2 ^ 8) with 256. cbn [le_word].
  unfold is_byte in Hb. nia.
Qed.
Lemma le_word_inj bs cs : bytes_ok bs -> bytes_ok cs -> length bs = length cs ->
  le_word bs = le_word cs -> bs = cs.
Proof.
  intros Hbs. revert cs. induction Hbs as [|b bs Hb Hbs IH]; intros [|c cs] Hcs Hl H; try done.
  inversion_clear Hcs as [|?? Hc Hcs']. cbn [le_word] in H. unfold is_byte in Hb, Hc.
  assert (b = c /\ le_word bs = le_word cs) as [-> Hw] by lia. f_equal. apply IH; auto.
Qed.

(** ** The memory routine computes the list function *)
Lemma crc32_list_app x bs cs : crc32_list x (bs ++ cs) = crc32_list (crc32_list x bs) cs.
Proof. apply fold_left_app. Qed.

Lemma wp_crc32_update {D A} E (w : world D A) data bs crc (Q : Z -> world D A -> Prop) f :
  0 <= data -> mem_at (w_mem w) data bs -> Q (crc32_list crc bs) w ->
  wp E (crc32_update crc data (Z.of_nat (length bs))) Q f w.
Proof.
  intros Ha Hm HQ. unfold crc32_update.
  apply (wp_foldM _ _ (fun done r w' => w' = w /\ r = crc32_list crc (take (length done) bs))).
  - done.
  - intros done y todo r w' Hl [-> ->]. apply seqZ_split in Hl as [-> Hlt].
    destruct (lookup_lt_is_Some_2 bs (length done) ltac:(lia)) as [b Hb].
    apply wp_bind, wp_ld8; [auto with mem lia|]. apply wp_ret. split; [done|].
    rewrite (mem_at_lookup _ _ _ _ _ Hm Hb), length_app, Nat.add_1_r.
    erewrite take_S_r by done. by rewrite crc32_list_app.
  - intros r w' [-> ->]. by rewrite length_seqZ_nat, take_ge by done.
Qed.

(** ** The register is a remainder, its bits in reverse order *)
Definition crc32_generator : Z := 0x104C11DB7.
Definition reflect32 (z : Z) : Z := poly (lsb_first 32 z).
Definition message_bits (bs : list Z) : list bool := mjoin (map (lsb_first 8) bs).

Lemma reflect32_range z : 0 <= reflect32 z < 2 ^ 32.
Proof. pose proof (poly_range (lsb_first 32 z)) as H. by rewrite length_lsb_first in H. Qed.
Lemma reflect32_bit z i : 0 <= i < 32 -> Z.testbit (reflect32 z) i = Z.testbit z (31 - i).
Proof. exact (poly_lsb_bit 32 z i). Qed.
Lemma reflect32_inj x y : is_u32 x -> is_u32 y -> reflect32 x = reflect32 y -> x = y.
Proof.
  intros Hx Hy H. apply Z.bits_inj'. intros i Hi. destruct (Z.lt_ge_cases i 32) as [Hlt|Hge].
  - replace i with (31 - (31 - i)) by lia. rewrite <- !reflect32_bit by lia. by rewrite H.
  - assert (0 <= 32) as H0 by done. by rewrite (bits_above 32 x H0 Hx i Hge), (bits_above 32 y H0 Hy i Hge).
Qed.
Lemma generator_bit i : 0 <= i < 32 -> Z.testbit crc32_generator i = Z.testbit CRC32_POLYNOMIAL (31 - i).
Proof.
  intros Hi. assert (forallb (fun i => Bool.eqb (Z.testbit crc32_generator i) (Z.testbit CRC32_POLYNOMIAL (31 - i))) (seqZ 0 32) = true) as H
    by (vm_compute; reflexivity).
  rewrite forallb_forall in H. apply Bool.eqb_prop, H, list_elem_of_In, elem_of_seqZ. lia.
Qed.
(** The bits of the register's next state, in both orders. *)
Lemma crc32_bit_bit s (b : bool) i : 0 <= i ->
  Z.testbit (crc32_bit (s .^ Z.b2z b)) i = xorb (Z.testbit s (i + 1)) (xorb (Z.testbit s 0) b && Z.testbit CRC32_POLYNOMIAL i).
Proof.
  intros Hi. unfold crc32_bit. rewrite odd_land, <- Z.bit0_odd, Z.lxor_spec. replace (Z.testbit (Z.b2z b) 0) with b by (by destruct b).
  replace (negb (Z.b2z (xorb (Z.testbit s 0) b) ==? 0)) with (xorb (Z.testbit s 0) b) by (by destruct (xorb _ _)).
  rewrite if_lxor_bit, Z.shiftr_spec, Z.lxor_spec by done.
  rewrite (bits_above 1 (Z.b2z b)), xorb_false_r by (destruct b; simpl; lia). done.
Qed.
(** One bit of the message: a step of the division. *)
Lemma crc32_bit_rem s (b : bool) : is_u32 s ->
  reflect32 (crc32_bit (s .^ Z.b2z b)) = rem_step 32 crc32_generator (reflect32 s) b.
Proof.
  intros Hs. apply Z.bits_inj'. intros i Hi. rewrite rem_step_bit; [|done..|apply reflect32_range|]; cycle 1.
  { intros Hgt. apply (bits_above 33); [done|by split|lia]. }
  destruct (Z.ltb_spec i 32) as [Hlt|Hge]; [|by apply (bits_above 32); [done|apply reflect32_range|]].
  rewrite reflect32_bit, crc32_bit_bit, generator_bit by lia. rewrite andb_true_l, (reflect32_bit s (32 - 1)) by lia.
  replace (31 - (32 - 1)) with 0 by lia. apply (f_equal (fun v => xorb v _)).
  destruct (Z.ltb_spec 0 i).
  - rewrite andb_true_l, reflect32_bit by lia. by replace (31 - (i - 1)) with (31 - i + 1) by lia.
  - rewrite andb_false_l. apply (bits_above 32); [done|exact Hs|lia].
Qed.
(** A byte enters the register bit by bit. *)
Definition crc32_shift (bits : list bool) (x : Z) : Z := fold_left (fun x (b : bool) => crc32_bit (x .^ Z.b2z b)) bits x.
Lemma crc32_shift_nil x : crc32_shift [] x = x.
Proof. done. Qed.
Lemma crc32_shift_cons b bits x : crc32_shift (b :: bits) x = crc32_shift bits (crc32_bit (x .^ Z.b2z b)).
Proof. done. Qed.
Lemma crc32_bits n : forall x b, 0 <= b < 2 ^ Z.of_nat n ->
  Nat.iter n crc32_bit (x .^ b) = crc32_shift (lsb_first n b) x.
Proof.
  induction n as [|n IH]; intros x b Hb; [simpl; replace b with 0 by (simpl in Hb; lia); by rewrite Z.lxor_0_r|].
  rewrite lsb_first_S, crc32_shift_cons, <- IH; cycle 1.
  { rewrite Nat2Z.inj_succ, Z.pow_succ_r in Hb by lia. rewrite Z.shiftr_div_pow2 by lia. change (2 ^ 1) with 2.
    split; [apply Z.div_pos; lia|apply Z.div_lt_upper_bound; lia]. }
  rewrite Nat.iter_succ_r. f_equal. rewrite <- (crc32_bit_double (b .>> 1)), <- crc32_bit_xor, Z.lxor_assoc. do 2 f_equal.
  apply Z.bits_inj'. intros i Hi. rewrite Z.lxor_spec, Z.shiftl_spec by lia. destruct (Z.eq_dec i 0) as [->|].
  - rewrite (Z.testbit_neg_r _ (0 - 1)), xorb_false_r by lia. by destruct (Z.testbit b 0).
  - rewrite Z.shiftr_spec, (bits_above 1 (Z.b2z _)) by (destruct (Z.testbit b 0); simpl; lia). rewrite xorb_false_l. f_equal. lia.
Qed.
Lemma crc32_shift_rem l : forall x, is_u32 x ->
  reflect32 (crc32_shift l x) = remainder 32 crc32_generator l (reflect32 x).
Proof.
  induction l as [|c l IH]; intros x Hx; [by rewrite crc32_shift_nil, remainder_nil|].
  rewrite crc32_shift_cons, remainder_cons, <- crc32_bit_rem by exact Hx.
  apply IH, crc32_bit_range, (lxor_range 32); [done|exact Hx|destruct c; simpl; lia].
Qed.
Lemma crc32_list_rem bs : forall x, is_u32 x -> bytes_ok bs ->
  reflect32 (crc32_list x bs) = remainder 32 crc32_generator (message_bits bs) (reflect32 x).
Proof.
  induction bs as [|b bs IH]; intros x Hx Hbs; [by rewrite remainder_nil|]. inversion_clear Hbs as [|?? Hb Hbs'].
  change (crc32_list x (b :: bs)) with (crc32_list (crc32_byte x b) bs).
  change (message_bits (b :: bs)) with (lsb_first 8 b ++ message_bits bs).
  rewrite IH, remainder_app, <- (crc32_shift_rem (lsb_first 8 b)) by auto with width. unfold crc32_byte. by rewrite (crc32_bits 8) by exact Hb.
Qed.

(** C1. [crc32_update] computes the CRC-32 of the bytes in memory: on any range of physical
    memory it ends, changes nothing, and returns the one 32-bit value that is, read from its
    low bit up, the remainder of the message modulo x^32 + x^26 + x^23 + x^22 + x^16 + x^12 +
    x^11 + x^10 + x^8 + x^7 + x^5 + x^4 + x^2 + x + 1: the polynomial of the message's bits, low
    bits first, times x^32, with the initial value added to its front. *)
Theorem crc32_update_correct {D A} (w : world D A) (data crc : Z) (bs : list Z) (f : nat) :
  0 <= data -> mem_at (w_mem w) data bs -> bytes_ok bs -> is_u32 crc ->
  exists r, crc32_update crc data (Z.of_nat (length bs)) f w = Done r w /\ is_u32 r /\
    forall r', is_u32 r' ->
      congruent crc32_generator (dividend 32 (reflect32 crc) (message_bits bs)) (reflect32 r') <-> r' = r.
Proof.
  intros Ha Hm Hb Hcrc. exists (crc32_list crc bs).
  pose proof (wp_crc32_update total w data bs crc (fun r w' => r = crc32_list crc bs /\ w' = w) f
                Ha Hm (conj eq_refl eq_refl)) as H.
  unfold wp in H. destruct (crc32_update _ _ _ f w); [|done]. destruct H as [-> ->].
  split; [done|]. split; [by apply crc32_list_range|]. intros r' Hr'.
  pose proof (remainder_congruent 32 crc32_generator ltac:(done) (message_bits bs) (reflect32 crc)) as Hc.
  rewrite <- crc32_list_rem in Hc by done. split; [|by intros ->].
  intros H. apply reflect32_inj; [done|by apply crc32_list_range|].
  eapply (congruent_unique 32 crc32_generator); [done|by split|apply reflect32_range..|exact H|exact Hc].
Qed.
Lemma crc32_list_burst x pre mid mid' post :
  is_u32 x -> bytes_ok (pre ++ mid ++ post) -> bytes_ok mid' ->
  length mid = length mid' -> (length mid <= 4)%nat -> mid <> mid' ->
  crc32_list x (pre ++ mid ++ post) <> crc32_list x (pre ++ mid' ++ post).
Proof.
  intros Hx Hbs Hmid' Hl H4 Hne H. apply Forall_app in Hbs as [Hpre Hbs].
  apply Forall_app in Hbs as [Hmid Hpost].
  rewrite !crc32_list_app in H. set (c := crc32_list x pre) in *.
  assert (is_u32 c) as Hc by (by apply crc32_list_range).
  apply crc32_list_inj_state in H; [|auto with width..].
  assert (forall l, bytes_ok l -> (length l <= 4)%nat -> 0 <= le_word l < 2 ^ 32) as Hw.
  { intros l Hl' Hle. pose proof (le_word_range l Hl').
    assert (2 ^ (8 * Z.of_nat (length l)) <= 2 ^ 32) by (apply Z.pow_le_mono_r; lia). lia. }
  rewrite !crc32_list_word, Hl in H by done.
  apply crc32_iter_inj in H; [|apply (lxor_range 32); [lia|exact Hc|apply Hw; auto; lia]..].
  apply Hne, le_word_inj; [done..|].
  apply (f_equal (Z.lxor c)) in H. by rewrite <- !Z.lxor_assoc, Z.lxor_nilpotent, !Z.lxor_0_l in H.
Qed.

(** C2. Error detection: if two ranges of memory differ only inside a window of at
    most four consecutive bytes (every burst of up to 25 bits, in particular every
    single corrupted byte), [crc32_update] returns different values for them. *)
Theorem crc32_update_detects {D A} (w w' : world D A) (data x r r' : Z)
    (pre mid mid' post : list Z) (f : nat) :
  is_u32 x -> 0 <= data -> mem_ok (w_mem w) -> mem_ok (w_mem w') ->
  mem_at (w_mem w) data (pre ++ mid ++ post) -> mem_at (w_mem w') data (pre ++ mid' ++ post) ->
  length mid = length mid' -> (length mid <= 4)%nat -> mid <> mid' ->
  crc32_update x data (Z.of_nat (length (pre ++ mid ++ post))) f w = Done r w ->
  crc32_update x data (Z.of_nat (length (pre ++ mid' ++ post))) f w' = Done r' w' ->
  r <> r'.
Proof.
  intros Hx Ha Hok Hok' Hm Hm' Hl H4 Hne Hr Hr'.
  pose proof (mem_at_bytes _ _ _ Hok Hm) as Hb. pose proof (mem_at_bytes _ _ _ Hok' Hm') as Hb'.
  apply Forall_app in Hb' as [_ Hb']. apply Forall_app in Hb' as [Hb' _].
  assert (forall (v : world D A) bs s, mem_at (w_mem v) data bs ->
            crc32_update x data (Z.of_nat (length bs)) f v = Done s v -> s = crc32_list x bs) as Heq.
  { intros v bs s Hv Hs. pose proof (wp_crc32_update total v data bs x (fun q _ => q = crc32_list x bs) f
      Ha Hv eq_refl) as H. unfold wp in H. by rewrite Hs in H. }
  rewrite (Heq _ _ _ Hm Hr), (Heq _ _ _ Hm' Hr'). by apply crc32_list_burst.
Qed.

Lemma le_bytes_word n : forall x, 0 <= x < 2 ^ (8 * Z.of_nat n) -> le_word (le_bytes n x) = x.
Proof.
  induction n as [|n IH]; intros x Hx; [simpl in *; lia|]. cbn [le_bytes le_word].
  rewrite IH; rewrite Z.shiftr_div_pow2 by lia; change (2 ^ 8) with 0x100; [ulia|].
  replace (8 * Z.of_nat (S n)) with (8 + 8 * Z.of_nat n) in Hx by lia.
  rewrite Z.pow_add_r in Hx by lia. change (2 ^ 8) with 0x100 in Hx.
  split; [apply Z.div_pos; lia|apply Z.div_lt_upper_bound; lia].
Qed.
Lemma le_bytes_ok n : forall x, bytes_ok (le_bytes n x).
Proof. induction n; intros x; simpl; constructor; auto using u8_range. Qed.
Lemma not32_lxor x : is_u32 x -> not32 x = x .^ 0xFFFFFFFF.
Proof.
  intros Hx. unfold not32. rewrite <- land_ones_u32. apply Z.bits_inj'. intros i Hi.
  change 0xFFFFFFFF with (Z.ones 32). rewrite Z.land_spec, Z.lnot_spec, Z.lxor_spec by lia.
  destruct (Z.lt_ge_cases i 32).
  - rewrite Z.ones_spec_low by lia. by destruct (Z.testbit x i).
  - rewrite Z.ones_spec_high, (bits_above 32 x) by (try exact Hx; lia). done.
Qed.
Lemma length_le_bytes n : forall x, length (le_bytes n x) = n.
Proof. induction n; intros x; simpl; auto. Qed.

(** The transmitted form: the sender appends the complement of the CRC
    ([received_crc == ~crc] is the preloader's check); the CRC over data followed by
    that field is the constant residue 0xDEBB20E3, for every message. *)
Theorem crc32_residue (x : Z) (bs : list Z) :
  is_u32 x -> bytes_ok bs ->
  crc32_list x (bs ++ le_bytes 4 (not32 (crc32_list x bs))) = 0xDEBB20E3.
Proof.
  intros Hx Hbs. rewrite crc32_list_app. set (c := crc32_list x bs).
  assert (is_u32 c) as Hc by (by apply crc32_list_range).
  rewrite crc32_list_word by apply le_bytes_ok.
  rewrite le_bytes_word by (apply u32_range). rewrite length_le_bytes, not32_lxor by done.
  rewrite <- Z.lxor_assoc, Z.lxor_nilpotent, Z.lxor_0_l. vm_compute. done.
Qed.

(** ** Witnesses *)
(** The CRC-32 check value: the complement of 0xCBF43926 for "123456789". *)
Definition crc32_example : list Z := [0x31; 0x32; 0x33; 0x34; 0x35; 0x36; 0x37; 0x38; 0x39].
Definition crc32_example_world (b : Z) : world unit unit :=
  world_of_mem (mem_put ∅ 0x1000 (take 3 crc32_example ++ [b] ++ drop 4 crc32_example)).

Lemma crc32_update_correct_witness :
  exists r, crc32_update CRC32_INITIAL_VALUE 0x1000 9 0%nat (crc32_example_world 0x34) = Done r (crc32_example_world 0x34) /\
    is_u32 r /\ forall r', is_u32 r' ->
      congruent crc32_generator (dividend 32 (reflect32 CRC32_INITIAL_VALUE) (message_bits crc32_example)) (reflect32 r') <-> r' = r.
Proof.
  apply (crc32_update_correct (crc32_example_world 0x34) 0x1000 CRC32_INITIAL_VALUE crc32_example 0%nat);
    [lia|apply mem_at_range; vm_compute; done|vm_compute; repeat constructor; done|vm_compute; done].
Defined.
Example crc32_check_value :
  crc32_update CRC32_INITIAL_VALUE 0x1000 9 0%nat (crc32_example_world 0x34) = Done (not32 0xCBF43926) (crc32_example_world 0x34).
Proof. vm_compute. reflexivity. Qed.

Lemma crc32_update_detects_witness : not32 0xCBF43926 <> 4283897212.
Proof.
  apply (crc32_update_detects (crc32_example_world 0x34) (crc32_example_world 0x35) 0x1000
           CRC32_INITIAL_VALUE (not32 0xCBF43926) 4283897212
           (take 3 crc32_example) [0x34] [0x35] (drop 4 crc32_example) 0%nat);
    [vm_compute; done|lia|apply mem_ok_b_spec; vm_compute; done|apply mem_ok_b_spec; vm_compute; done
    |apply mem_at_range; vm_compute; done|apply mem_at_range; vm_compute; done|done|simpl; lia|done
    |vm_compute; done|vm_compute; done].
Defined.

Lemma crc32_residue_witness :
  crc32_list CRC32_INITIAL_VALUE (crc32_example ++ [0x26; 0x39; 0xF4; 0xCB]) = 0xDEBB20E3.
Proof.
  apply (crc32_residue CRC32_INITIAL_VALUE crc32_example); vm_compute; [done|repeat constructor; done].
Defined.
