(* ===== verification/Lz4.v ===== *)
(** * The preloader's LZ4 block decoder ([preloader/src/lz4.c])

    [lz4_decompress] works on memory with explicit offsets; [lz4_decode] is the
    format as a function on byte lists.  The refinement says that on disjoint
    buffers the routine succeeds exactly when the input decodes to a block of the
    expected size, writes that block and nothing else, and never faults; the round
    trip says that every encoded block is decoded to what it stands for. *)
From S2P Require Import Prelude Machine.

Section Code.
Context {D A : Type}.
#[local] Abbreviation M := (M D A).

(** [read_length]: returns the C result and the final values of the two
    variables it updates through pointers. *)
Definition read_length (input input_size input_offset length : Z) : M (bool * Z * Z) :=
  if length !=? 0x0F then mret (true, input_offset, length)
  else
    iter (fun '(input_offset, length) =>
      if input_offset ==? input_size then mret (inr (false, input_offset, length))
      else
        value ← ld8 (input + input_offset);
        let input_offset := u32 (input_offset + 1) in
        let length := u32 (length + value) in
        if value ==? 0xFF then mret (inl (input_offset, length))
        else mret (inr (true, input_offset, length))) (input_offset, length).

(** The loop that copies literals: [output[output_offset++] = input[input_offset++]]. *)
Definition copy_literals (input output literal_size input_offset output_offset : Z) : M (Z * Z) :=
  foldM (fun '(input_offset, output_offset) _ =>
    b ← ld8 (input + input_offset);
    st8 (output + output_offset) b;;
    mret (u32 (input_offset + 1), u32 (output_offset + 1)))
    (input_offset, output_offset) (seqZ 0 literal_size).

(** The loop that copies a match, byte by byte. *)
Definition copy_match (output match_offset match_size output_offset : Z) : M Z :=
  foldM (fun output_offset _ =>
    b ← ld8 (output + u32 (output_offset - match_offset));
    st8 (output + output_offset) b;;
    mret (u32 (output_offset + 1)))
    output_offset (seqZ 0 match_size).

(** The body of the loop over the sequences; [inr] is a return. *)
Definition lz4_body (input input_size output output_size : Z) (st : Z * Z) : M ((Z * Z) + bool) :=
  let '(input_offset, output_offset) := st in
  if negb (input_offset <? input_size) then mret (inr (output_offset ==? output_size))
  else
    token ← ld8 (input + input_offset);
    let input_offset := u32 (input_offset + 1) in
    '(ok, input_offset, literal_size) ←
      read_length input input_size input_offset (token .>> 4);
    if negb ok then mret (inr false)
    else if u32 (input_size - input_offset) <? literal_size then mret (inr false)
    else if u32 (output_size - output_offset) <? literal_size then mret (inr false)
    else
      '(input_offset, output_offset) ←
        copy_literals input output literal_size input_offset output_offset;
      if input_offset ==? input_size then mret (inr (output_offset ==? output_size))
      else if u32 (input_size - input_offset) <? 2 then mret (inr false)
      else
        b0 ← ld8 (input + input_offset);
        b1 ← ld8 (input + u32 (input_offset + 1));
        let match_offset := b0 .| (b1 .<< 8) in
        let input_offset := u32 (input_offset + 2) in
        if (match_offset ==? 0) || (output_offset <? match_offset) then mret (inr false)
        else
          '(ok, input_offset, match_size) ←
            read_length input input_size input_offset (token .& 0x0F);
          if negb ok then mret (inr false)
          else
            let match_size := u32 (match_size + 4) in
            if u32 (output_size - output_offset) <? match_size then mret (inr false)
            else
              output_offset ← copy_match output match_offset match_size output_offset;
              mret (inl (input_offset, output_offset)).

Definition lz4_decompress (input input_size output output_size : Z) : M bool :=
  iter (lz4_body input input_size output output_size) (0, 0).
End Code.

(** ** The format on byte lists *)

(** The continuation bytes of a length: a run of 0xFF and one last byte. *)
Fixpoint ext_length (acc : Z) (l : list Z) : option (Z * list Z) :=
  match l with
  | [] => None
  | b :: l => if b ==? 0xFF then ext_length (acc + b) l else Some (acc + b, l)
  end.
Definition dec_length (nibble : Z) (l : list Z) : option (Z * list Z) :=
  if nibble ==? 0x0F then ext_length nibble l else Some (nibble, l).

(** [n] bytes copied one at a time from [off] back: the source may overlap the result. *)
Fixpoint history_copy (n : nat) (off : Z) (hist : list Z) : list Z :=
  match n with
  | O => hist
  | S n => history_copy n off (hist ++ [default 0 (hist !! Z.to_nat (Z.of_nat (length hist) - off))])
  end.

Inductive lz4_result := LFail | LEnd (out : list Z) | LNext (hist rest : list Z).

(** One sequence: token, literals, offset, match. *)
Definition lz4_sequence (hist l : list Z) : lz4_result :=
  match l with
  | [] => LEnd hist
  | token :: l =>
      match dec_length (token .>> 4) l with
      | None => LFail
      | Some (ll, l) =>
          if Z.of_nat (length l) <? ll then LFail
          else
            let hist := hist ++ take (Z.to_nat ll) l in
            match drop (Z.to_nat ll) l with
            | [] => LEnd hist
            | [_] => LFail
            | b0 :: b1 :: l =>
                let off := b0 + 0x100 * b1 in
                if (off ==? 0) || (Z.of_nat (length hist) <? off) then LFail
                else match dec_length (token .& 0x0F) l with
                     | None => LFail
                     | Some (ml, l) => LNext (history_copy (Z.to_nat (ml + 4)) off hist) l
                     end
            end
      end
  end.

(** Sequence after sequence; each takes at least one byte of the input. *)
Fixpoint lz4_run (n : nat) (hist l : list Z) : option (list Z) :=
  match n with
  | O => None
  | S n => match lz4_sequence hist l with
           | LFail => None
           | LEnd out => Some out
           | LNext hist l => lz4_run n hist l
           end
  end.
Definition lz4_decode (l : list Z) : option (list Z) := lz4_run (S (length l)) [] l.

(** ** Lemmas on the format *)
Lemma length_history_copy n off : forall hist, length (history_copy n off hist) = (n + length hist)%nat.
Proof. induction n as [|n IH]; intros hist; simpl; [done|]. rewrite IH, length_app. simpl. lia. Qed.
Lemma history_copy_snoc n off : forall hist,
  history_copy (S n) off hist =
  (let h := history_copy n off hist in
   h ++ [default 0 (h !! Z.to_nat (Z.of_nat (length h) - off))]).
Proof. induction n as [|n IH]; intros hist; [done|]. cbn [history_copy] in *. apply IH. Qed.
Lemma ext_length_shorter : forall l acc n rest, ext_length acc l = Some (n, rest) ->
  (length rest < length l)%nat.
Proof.
  induction l as [|b l IH]; intros acc n rest H; simpl in *; [done|].
  destruct (b ==? 0xFF); [apply IH in H; lia|]. injection H as _ <-. lia.
Qed.
Lemma dec_length_shorter n l m rest : dec_length n l = Some (m, rest) ->
  (length rest <= length l)%nat.
Proof.
  unfold dec_length. destruct (n ==? 0x0F); intros H; [apply ext_length_shorter in H; lia|].
  by injection H as _ <-.
Qed.
Lemma lz4_sequence_next hist l hist' rest : lz4_sequence hist l = LNext hist' rest ->
  (length rest < length l)%nat /\ (length hist <= length hist')%nat.
Proof.
  destruct l as [|token l]; [done|]. cbn [lz4_sequence].
  destruct (dec_length (token .>> 4) l) as [[ll l1]|] eqn:H1; [|done].
  destruct (_ <? ll); [done|]. destruct (drop (Z.to_nat ll) l1) as [|b0 [|b1 l2]] eqn:H2; [done..|].
  destruct (_ || _); [done|]. destruct (dec_length (token .& 15) l2) as [[ml l3]|] eqn:H3; [|done].
  intros [= <- <-]. apply dec_length_shorter in H1, H3. rewrite length_history_copy, length_app.
  apply (f_equal length) in H2. rewrite length_drop in H2. simpl in *. lia.
Qed.
Lemma lz4_sequence_end hist l out : lz4_sequence hist l = LEnd out -> (length hist <= length out)%nat.
Proof.
  destruct l as [|token l]; [intros [= <-]; done|]. cbn [lz4_sequence].
  destruct (dec_length (token .>> 4) l) as [[ll l1]|] eqn:H1; [|done].
  destruct (_ <? ll); [done|]. destruct (drop (Z.to_nat ll) l1) as [|b0 [|b1 l2]] eqn:H2.
  - intros [= <-]. rewrite length_app. lia.
  - done.
  - destruct (_ || _); [done|]. by destruct (dec_length (token .& 15) l2) as [[ml l3]|].
Qed.
(** The fuel of [lz4_run] only has to exceed the length of the input. *)
Lemma lz4_run_enough n : forall n' hist l, (length l < n)%nat -> (length l < n')%nat ->
  lz4_run n hist l = lz4_run n' hist l.
Proof.
  induction n as [|n IH]; intros [|n'] hist l Hn Hn'; [lia..|]. simpl.
  destruct (lz4_sequence hist l) as [| |hist' rest] eqn:Hs; [done..|].
  apply lz4_sequence_next in Hs as [Hl _]. apply IH; lia.
Qed.
Lemma lz4_run_longer n : forall hist l out, lz4_run n hist l = Some out ->
  (length hist <= length out)%nat.
Proof.
  induction n as [|n IH]; intros hist l out; [done|]. simpl.
  destruct (lz4_sequence hist l) as [| |hist' rest] eqn:Hs; [done| |].
  - intros [= <-]. by apply lz4_sequence_end in Hs.
  - intros H%IH. apply lz4_sequence_next in Hs. lia.
Qed.

(** ** The memory routine refines the format *)
Lemma lor_byte a b : is_byte a -> is_byte b -> a .| (b .<< 8) = a + 0x100 * b.
Proof.
  intros Ha Hb. rewrite Z.lor_comm, <- Z.add_nocarry_lor.
  - rewrite Z.shiftl_mul_pow2 by lia. change (2 ^ 8) with 0x100. lia.
  - apply Z.bits_inj'. intros i Hi. rewrite Z.land_spec, Z.testbit_0_l.
    destruct (Z.lt_ge_cases i 8); [by rewrite (Z.shiftl_spec_low _ 8) by lia|].
    rewrite (bits_above 8 a) by (try exact Ha; lia). apply andb_false_r.
Qed.

Section Refinement.
Context {D A : Type} (w0 : world D A) (inp outp osz : Z) (src : list Z).
#[local] Abbreviation isz := (Z.of_nat (length src)).
Hypothesis (Hinp : 0 <= inp) (Houtp : 0 <= outp) (Hosz : is_u32 osz) (Hisz : isz < 0x1000000).
Hypothesis (Hdisj : inp + isz <= outp \/ outp + osz <= inp).

(** [hist] is decoded: it lies in the output buffer, and nothing outside that
    buffer has changed. *)
Definition lz4_inv (hist : list Z) (w : world D A) : Prop :=
  w = set_mem w0 (w_mem w) /\ mem_ok (w_mem w) /\ mem_at (w_mem w) inp src /\
  mem_at (w_mem w) outp hist /\ Z.of_nat (length hist) <= osz /\
  (forall a, ~ (outp <= a < outp + osz) -> mem_get (w_mem w) a = mem_get (w_mem w0) a).

Lemma lz4_inv_store hist w b : lz4_inv hist w -> is_byte b -> Z.of_nat (length hist) < osz ->
  lz4_inv (hist ++ [b]) (set_mem w (<[outp + Z.of_nat (length hist) := u8 b]> (w_mem w))).
Proof.
  intros (Hw & Hok & Hi & Ho & Hl & Hf) Hb Hlt. rewrite u8_small by done.
  unfold lz4_inv; simpl. split_and!.
  - by rewrite Hw.
  - by apply mem_ok_insert.
  - apply mem_at_insert_ne; [lia|done].
  - by apply mem_at_snoc.
  - rewrite length_app; simpl; lia.
  - intros a Ha. rewrite mem_get_insert. case_decide; [lia|auto].
Qed.

Lemma src_byte hist w k b : lz4_inv hist w -> src !! k = Some b ->
  mem_get (w_mem w) (inp + Z.of_nat k) = b /\ is_byte b.
Proof.
  intros (_ & Hok & Hi & _) Hb. split; [by apply (mem_at_lookup _ _ src)|].
  pose proof (mem_at_bytes _ _ _ Hok Hi) as Hall. by apply (Forall_lookup_1 _ _ _ _ Hall Hb).
Qed.

Lemma wp_read_length hist w (k : nat) len f (Q : bool * Z * Z -> world D A -> Prop) :
  lz4_inv hist w -> (k <= length src)%nat -> (length src < f)%nat -> 0 <= len <= 15 ->
  (forall ok io' len', 
     match dec_length len (drop k src) with
     | Some (n, rest) => exists k' : nat, ok = true /\ io' = Z.of_nat k' /\ len' = n /\
         (k <= k' <= length src)%nat /\ rest = drop k' src /\ 0 <= n < 0xFFFFFFF0
     | None => ok = false end -> Q (ok, io', len') w) ->
  wp total (read_length inp isz (Z.of_nat k) len) Q f w.
Proof.
  intros HI Hk Hf Hlen HQ. unfold read_length. unfold dec_length in HQ.
  destruct (Z.eqb_spec len 15) as [->|Hne]; simpl negb; cbv iota.
  2: { apply wp_ret, HQ. exists k. repeat split; auto; lia. }
  apply (wp_iter _ _ (fun '(io, len) w' => w' = w /\ exists j : nat, io = Z.of_nat j /\
           (k <= j <= length src)%nat /\ 15 <= len <= 15 + 255 * Z.of_nat j /\
           ext_length len (drop j src) = ext_length 15 (drop k src))
          (fun '(io, _) _ => length src - Z.to_nat io)%nat).
  - split; [done|]. exists k. repeat split; auto; lia.
  - lia.
  - clear Hlen. intros [io len] w' (-> & j & -> & Hj & Hlen & Heq).
    destruct (Z.eqb_spec (Z.of_nat j) isz).
    { apply wp_ret, HQ. by rewrite <- Heq, drop_ge by lia. }
    destruct (lookup_lt_is_Some_2 src j ltac:(lia)) as [b Hb].
    destruct (src_byte _ _ _ _ HI Hb) as [Hget Hbyte].
    apply wp_bind, wp_ld8; [auto with mem lia|]. rewrite Hget. cbv zeta.
    rewrite (drop_S _ _ _ Hb) in Heq. cbn [ext_length] in Heq. unfold is_byte in Hbyte.
    rewrite !u32_small by (unfold is_u32; lia).
    replace (Z.of_nat j + 1) with (Z.of_nat (S j)) by lia.
    destruct (Z.eqb_spec b 0xFF).
    + apply wp_ret. split; [|lia]. split; [done|]. exists (S j). repeat split; auto; lia.
    + apply wp_ret, HQ. rewrite <- Heq. exists (S j). repeat split; auto; lia.
Qed.

Lemma wp_copy_literals hist w (k ll : nat) f (Q : Z * Z -> world D A -> Prop) :
  lz4_inv hist w -> (k + ll <= length src)%nat -> Z.of_nat (length hist + ll) <= osz ->
  (forall w', lz4_inv (hist ++ take ll (drop k src)) w' ->
     Q (Z.of_nat (k + ll), Z.of_nat (length (hist ++ take ll (drop k src)))) w') ->
  wp total (copy_literals inp outp (Z.of_nat ll) (Z.of_nat k) (Z.of_nat (length hist))) Q f w.
Proof.
  intros HI Hk Ho HQ. unfold copy_literals.
  apply (wp_foldM _ _ (fun done '(io, oo) w' => 
           let h := hist ++ take (length done) (drop k src) in
           lz4_inv h w' /\ io = Z.of_nat (k + length done) /\ oo = Z.of_nat (length h))).
  - simpl length. rewrite take_0, app_nil_r, Nat.add_0_r. done.
  - intros done y todo [io oo] w' Hl (HI' & -> & ->). apply seqZ_split in Hl as [-> Hlt].
    assert (length done < ll)%nat as Hd by lia.
    destruct (lookup_lt_is_Some_2 src (k + length done) ltac:(lia)) as [b Hb].
    destruct (src_byte _ _ _ _ HI' Hb) as [Hget Hbyte].
    apply wp_bind, wp_ld8; [auto with mem lia|]. rewrite Hget.
    apply wp_bind, wp_st8; [apply mem_valid_pos; lia|]. apply wp_ret.
    rewrite length_app, Nat.add_1_r, (take_S_r _ _ b) by (by rewrite lookup_drop).
    rewrite app_assoc. 
    assert (length (hist ++ take (length done) (drop k src)) = length hist + length done)%nat as Hlen
      by (rewrite length_app, length_take, length_drop; lia).
    unfold is_u32 in Hosz. rewrite !u32_small by (unfold is_u32; lia). split; [|split].
    + apply lz4_inv_store; [done..|lia].
    + lia.
    + rewrite (length_app _ [b]). simpl. lia.
  - intros [io oo] w'. rewrite length_seqZ_nat. intros (HI' & -> & ->). by apply HQ.
Qed.

Lemma wp_copy_match hist w off (n : nat) f (Q : Z -> world D A -> Prop) :
  lz4_inv hist w -> 0 < off <= Z.of_nat (length hist) -> Z.of_nat (length hist + n) <= osz ->
  (forall w', lz4_inv (history_copy n off hist) w' ->
     Q (Z.of_nat (length (history_copy n off hist))) w') ->
  wp total (copy_match outp off (Z.of_nat n) (Z.of_nat (length hist))) Q f w.
Proof.
  intros HI Hoff Ho HQ. unfold copy_match.
  apply (wp_foldM _ _ (fun done oo w' => 
           let h := history_copy (length done) off hist in
           lz4_inv h w' /\ oo = Z.of_nat (length h))).
  - done.
  - intros done y todo oo w' Hl (HI' & ->). apply seqZ_split in Hl as [-> Hlt].
    assert (length done < n)%nat as Hd by lia.
    rewrite length_app, Nat.add_1_r, history_copy_snoc.
    pose proof (length_history_copy (length done) off hist) as Hlen.
    set (h := history_copy (length done) off hist) in *. cbv zeta.
    destruct (lookup_lt_is_Some_2 h (Z.to_nat (Z.of_nat (length h) - off)) ltac:(lia)) as [b Hb].
    rewrite Hb. simpl default. destruct HI' as (Hw & Hok & Hi & Hout & Hle & Hf).
    pose proof (mem_at_lookup _ _ _ _ _ Hout Hb) as Hget. rewrite Z2Nat.id in Hget by lia.
    unfold is_u32 in Hosz. rewrite !u32_small by (unfold is_u32; lia).
    apply wp_bind, wp_ld8; [auto with mem lia|]. rewrite Hget.
    apply wp_bind, wp_st8; [apply mem_valid_pos; lia|]. apply wp_ret.
    split; [|rewrite length_app; simpl; lia].
    apply lz4_inv_store; [by split_and!|rewrite <- Hget; apply Hok|lia].
  - intros oo w'. rewrite length_seqZ_nat. intros (HI' & ->). by apply HQ.
Qed.

(** What one turn of the loop establishes, against one sequence of the format. *)
Definition seq_post (hist : list Z) (k : nat) (s : (Z * Z) + bool) (w : world D A) : Prop :=
  match s with
  | inl (io, oo) => exists (k' : nat) hist', io = Z.of_nat k' /\ oo = Z.of_nat (length hist') /\
      lz4_inv hist' w /\ (k < k' <= length src)%nat /\
      lz4_sequence hist (drop k src) = LNext hist' (drop k' src)
  | inr true => exists out, lz4_inv out w /\ Z.of_nat (length out) = osz /\
      lz4_sequence hist (drop k src) = LEnd out
  | inr false => (exists h, lz4_inv h w) /\
      match lz4_sequence hist (drop k src) with
      | LFail => True
      | LEnd out => Z.of_nat (length out) <> osz
      | LNext hist' _ => osz < Z.of_nat (length hist')
      end
  end.

Lemma seq_post_end hist k out w : lz4_inv out w ->
  lz4_sequence hist (drop k src) = LEnd out ->
  seq_post hist k (inr (Z.of_nat (length out) ==? osz)) w.
Proof.
  intros HI Hs. destruct (Z.eqb_spec (Z.of_nat (length out)) osz); simpl.
  - by exists out.
  - rewrite Hs. eauto.
Qed.

(** The second half of a turn: offset and match. *)
Lemma wp_match hist hist0 (k0 k : nat) tok (l1 : list Z) f w
    (Q : (Z * Z) + bool -> world D A -> Prop) :
  lz4_inv hist w -> (k0 < k)%nat -> (k < length src)%nat -> (length src < f)%nat -> is_byte tok ->
  (forall s w', seq_post hist0 k0 s w' -> Q s w') ->
  lz4_sequence hist0 (drop k0 src) =
    match drop k src with
    | [] => LEnd hist
    | [_] => LFail
    | b0 :: b1 :: l =>
        let off := b0 + 0x100 * b1 in
        if (off ==? 0) || (Z.of_nat (length hist) <? off) then LFail
        else match dec_length (tok .& 0x0F) l with
             | None => LFail
             | Some (ml, l) => LNext (history_copy (Z.to_nat (ml + 4)) off hist) l
             end
    end ->
  wp total (
    if u32 (isz - Z.of_nat k) <? 2 then mret (inr false)
    else
      b0 ← ld8 (inp + Z.of_nat k);
      b1 ← ld8 (inp + u32 (Z.of_nat k + 1));
      let match_offset := b0 .| (b1 .<< 8) in
      let input_offset := u32 (Z.of_nat k + 2) in
      if (match_offset ==? 0) || (Z.of_nat (length hist) <? match_offset) then mret (inr false)
      else
        '(ok, input_offset, match_size) ← read_length inp isz input_offset (tok .& 0x0F);
        if negb ok then mret (inr false)
        else
          let match_size := u32 (match_size + 4) in
          if u32 (osz - Z.of_nat (length hist)) <? match_size then mret (inr false)
          else
            output_offset ← copy_match outp match_offset match_size (Z.of_nat (length hist));
            mret (inl (input_offset, output_offset))) Q f w.
Proof.
  intros HI Hk0 Hk Hf Htok HQ Hs. pose proof HI as (_ & _ & _ & _ & Hle & _).
  unfold is_u32 in Hosz. rewrite (u32_small (isz - _)) by (unfold is_u32; lia).
  destruct (lookup_lt_is_Some_2 src k ltac:(lia)) as [b0 Hb0].
  destruct (src_byte _ _ _ _ HI Hb0) as [Hg0 Hby0]. rewrite (drop_S _ _ _ Hb0) in Hs.
  destruct (Z.ltb_spec (isz - Z.of_nat k) 2).
  { rewrite (drop_ge src (S k)) in Hs by lia. apply wp_ret, HQ. simpl. rewrite Hs. eauto. }
  destruct (lookup_lt_is_Some_2 src (S k) ltac:(lia)) as [b1 Hb1].
  destruct (src_byte _ _ _ _ HI Hb1) as [Hg1 Hby1]. rewrite (drop_S _ _ _ Hb1) in Hs.
  apply wp_bind, wp_ld8; [apply mem_valid_pos; lia|]. rewrite Hg0.
  rewrite (u32_small (Z.of_nat k + 1)) by (unfold is_u32; lia).
  replace (Z.of_nat k + 1) with (Z.of_nat (S k)) by lia.
  apply wp_bind, wp_ld8; [apply mem_valid_pos; lia|]. rewrite Hg1. cbv zeta.
  rewrite (lor_byte b0 b1) by done.
  rewrite (u32_small (Z.of_nat k + 2)) by (unfold is_u32; lia).
  replace (Z.of_nat k + 2) with (Z.of_nat (S (S k))) by lia.
  destruct (_ || _) eqn:Hoff.
  { apply wp_ret, HQ. simpl. cbv zeta in Hs. rewrite Hoff in Hs. rewrite Hs. eauto. }
  cbv zeta in Hs. rewrite Hoff in Hs. apply orb_false_iff in Hoff as [Hoff1 Hoff2].
  apply Z.eqb_neq in Hoff1. apply Z.ltb_ge in Hoff2. unfold is_byte in Hby0, Hby1.
  pose proof (land_range_r tok 15 ltac:(lia)).
  apply wp_bind. eapply (wp_read_length hist); [done|lia..|].
  intros ok io' len' Hr.
  destruct (dec_length (tok .& 15) (drop (S (S k)) src)) as [[ml l]|].
  2: { subst ok. apply wp_ret, HQ. simpl. rewrite Hs. eauto. }
  destruct Hr as (k' & -> & -> & -> & Hk' & -> & Hml). simpl negb. cbv iota.
  rewrite (u32_small (ml + 4)), (u32_small (osz - _)) by (unfold is_u32; lia).
  destruct (Z.ltb_spec (osz - Z.of_nat (length hist)) (ml + 4)).
  { apply wp_ret, HQ. simpl. rewrite Hs. split; [eauto|]. rewrite length_history_copy. lia. }
  apply wp_bind. rewrite <- (Z2Nat.id (ml + 4)) by lia.
  apply (wp_copy_match hist); [done|lia|lia|].
  intros w' HI'. apply wp_ret, HQ. simpl. exists k', (history_copy (Z.to_nat (ml + 4)) (b0 + 256 * b1) hist).
  repeat (split; [done||lia|]). done.
Qed.

Lemma wp_lz4_body hist w (k : nat) f :
  lz4_inv hist w -> (k <= length src)%nat -> (length src < f)%nat ->
  wp total (lz4_body inp isz outp osz (Z.of_nat k, Z.of_nat (length hist)))
    (seq_post hist k) f w.
Proof.
  intros HI Hk Hf. unfold lz4_body. pose proof HI as (_ & _ & _ & _ & Hle & _).
  destruct (Z.ltb_spec (Z.of_nat k) isz); simpl negb; cbv iota.
  2: { apply wp_ret, seq_post_end; [done|]. by rewrite drop_ge by lia. }
  destruct (lookup_lt_is_Some_2 src k ltac:(lia)) as [tok Htok].
  destruct (src_byte _ _ _ _ HI Htok) as [Hg Hby].
  apply wp_bind, wp_ld8; [apply mem_valid_pos; lia|]. rewrite Hg. cbv zeta.
  assert (0 <= tok .>> 4 <= 15) as Hnib.
  { unfold is_byte in Hby. rewrite Z.shiftr_div_pow2 by lia. change (2 ^ 4) with 16.
    Z.div_mod_to_equations. lia. }
  rewrite (u32_small (Z.of_nat k + 1)) by (unfold is_u32; lia).
  replace (Z.of_nat k + 1) with (Z.of_nat (S k)) by lia.
  apply wp_bind. eapply (wp_read_length hist); [done|lia..|].
  intros ok io' len' Hr.
  assert (lz4_sequence hist (drop k src) = lz4_sequence hist (tok :: drop (S k) src)) as Hs
    by (by rewrite (drop_S _ _ _ Htok)).
  cbn [lz4_sequence] in Hs.
  destruct (dec_length (tok .>> 4) (drop (S k) src)) as [[ll l]|].
  2: { subst ok. apply wp_ret. simpl. rewrite Hs. eauto. }
  destruct Hr as (k' & -> & -> & -> & Hk' & -> & Hll). simpl negb. cbv iota.
  rewrite length_drop in Hs. unfold is_u32 in Hosz.
  rewrite (u32_small (isz - _)), (u32_small (osz - _)) by (unfold is_u32; lia).
  replace (Z.of_nat (length src - k')) with (isz - Z.of_nat k') in Hs by lia.
  destruct (Z.ltb_spec (isz - Z.of_nat k') ll).
  { apply wp_ret. simpl. rewrite Hs. eauto. }
  rewrite drop_drop in Hs.
  assert (length (hist ++ take (Z.to_nat ll) (drop k' src)) = length hist + Z.to_nat ll)%nat as Hlen
    by (rewrite length_app, length_take, length_drop; lia).
  destruct (Z.ltb_spec (osz - Z.of_nat (length hist)) ll).
  { apply wp_ret. simpl. split; [eauto|]. rewrite Hs. cbv zeta.
    destruct (drop (k' + Z.to_nat ll) src) as [|b0 [|b1 l]]; [lia|done|].
    destruct (_ || _); [done|]. destruct (dec_length _ l) as [[ml l']|]; [|done].
    rewrite length_history_copy. lia. }
  apply wp_bind. rewrite <- (Z2Nat.id ll) by lia.
  apply (wp_copy_literals hist); [done|lia|lia|]. intros w' HI'. cbv beta iota.
  set (k1 := (k' + Z.to_nat ll)%nat) in *.
  cbv zeta in Hs. set (h := hist ++ _) in *.
  destruct (Z.eqb_spec (Z.of_nat k1) isz).
  { apply wp_ret, seq_post_end; [done|]. by rewrite Hs, drop_ge by lia. }
  apply (wp_match h hist k k1 tok []); [done|lia..|done|auto|done].
Qed.
End Refinement.


Lemma lz4_decompress_gen {D A} (w : world D A) (inp outp osz : Z) (src : list Z) (f : nat) :
  0 <= inp -> 0 <= outp -> is_u32 osz -> Z.of_nat (length src) < 0x1000000 ->
  inp + Z.of_nat (length src) <= outp \/ outp + osz <= inp ->
  mem_ok (w_mem w) -> mem_at (w_mem w) inp src -> (length src < f)%nat ->
  exists r w', lz4_decompress inp (Z.of_nat (length src)) outp osz f w = Done r w' /\
    (r = true -> exists out, lz4_decode src = Some out /\ Z.of_nat (length out) = osz /\
                             mem_at (w_mem w') outp out) /\
    (r = false -> forall out, lz4_decode src = Some out -> Z.of_nat (length out) <> osz) /\
    w' = set_mem w (w_mem w') /\ mem_ok (w_mem w') /\
    (forall a, ~ (outp <= a < outp + osz) -> mem_get (w_mem w') a = mem_get (w_mem w) a).
Proof.
  intros Hinp Houtp Hosz Hisz Hdisj Hok Hsrc Hf.
  enough (wp total (lz4_decompress inp (Z.of_nat (length src)) outp osz) (fun r w' =>
    exists h, lz4_inv w inp outp osz src h w' /\
      (if r : bool then lz4_decode src = Some h /\ Z.of_nat (length h) = osz
       else forall out, lz4_decode src = Some out -> Z.of_nat (length out) <> osz)) f w) as H.
  { unfold wp in H. destruct (lz4_decompress _ _ _ _ f w) as [r w'|]; [|done].
    destruct H as (h & (Hw & Hok' & _ & Ho & _ & Hfr) & Hr). exists r, w'.
    destruct r; split_and!; auto; try done; eauto. intros _; exists h; split_and!; tauto. }
  apply (wp_iter _ _ (fun '(io, oo) w' => exists (k : nat) h, io = Z.of_nat k /\
           oo = Z.of_nat (length h) /\ lz4_inv w inp outp osz src h w' /\ (k <= length src)%nat /\
           lz4_decode src = lz4_run (S (length (drop k src))) h (drop k src))
          (fun '(io, _) _ => length src - Z.to_nat io)%nat).
  - exists 0%nat, []. repeat (split; [done||lia|]). split; [|split; [lia|done]].
    unfold lz4_inv. split_and!; auto using mem_at_nil; [by destruct w|unfold is_u32 in *; simpl; lia].
  - simpl. lia.
  - intros [io oo] w' (k & h & -> & -> & HI & Hk & Hrun).
    eapply wp_mono; [by apply wp_lz4_body|]. cbn [lz4_run] in Hrun.
    intros [[io oo]|[]] w''; cbn [seq_post].
    + intros (k' & h' & -> & -> & HI' & Hk' & Hs). rewrite Hs in Hrun. split; [|lia].
      exists k', h'. repeat (split; [done||lia|]). rewrite Hrun.
      apply lz4_run_enough; rewrite ?length_drop; lia.
    + intros (out & HI' & Hl & Hs). rewrite Hs in Hrun. by exists out.
    + intros [[h' HI'] Hs]. exists h'. split; [done|]. intros out Hout. rewrite Hrun in Hout.
      destruct (lz4_sequence h (drop k src)) as [|out'|h'' l]; [done|congruence|].
      apply lz4_run_longer in Hout. lia.
Qed.

(** C3. Refinement and memory safety of [lz4_decompress]: for every input of bytes
    (up to 16 MiB) and every output size, on disjoint buffers, the routine
    terminates without a fault; it returns true exactly when the input decodes to a
    block of that size, which is then in the output buffer; and it changes no byte
    outside the output buffer, whatever the input. *)
Theorem lz4_decompress_refines {D A} (w : world D A) (inp outp osz : Z) (src : list Z) (f : nat) :
  0 <= inp -> 0 <= outp -> is_u32 osz -> Z.of_nat (length src) < 0x1000000 ->
  inp + Z.of_nat (length src) <= outp \/ outp + osz <= inp ->
  mem_ok (w_mem w) -> mem_at (w_mem w) inp src -> (length src < f)%nat ->
  exists r w', lz4_decompress inp (Z.of_nat (length src)) outp osz f w = Done r w' /\
    (r = true -> exists out, lz4_decode src = Some out /\ Z.of_nat (length out) = osz /\
                             mem_at (w_mem w') outp out) /\
    (r = false -> forall out, lz4_decode src = Some out -> Z.of_nat (length out) <> osz) /\
    w' = set_mem w (w_mem w') /\ mem_ok (w_mem w') /\
    (forall a, ~ (outp <= a < outp + osz) -> mem_get (w_mem w') a = mem_get (w_mem w) a).
Proof. apply lz4_decompress_gen. Qed.

(** ** Encoding *)

(** A block: sequences (literals, match offset, match length) and last literals. *)
Record lz4_seq := Lz4Seq { s_literals : list Z; s_offset : Z; s_length : Z }.
Definition enc_nibble (n : Z) : Z := if n <? 15 then n else 15.
Definition enc_length (n : Z) : list Z :=
  if n <? 15 then []
  else replicate (Z.to_nat ((n - 15) / 255)) 0xFF ++ [(n - 15) mod 255].
Definition enc_seq (s : lz4_seq) : list Z :=
  let ll := Z.of_nat (length (s_literals s)) in
  let ml := s_length s - 4 in
  [16 * enc_nibble ll + enc_nibble ml] ++ enc_length ll ++ s_literals s ++
  le_bytes 2 (s_offset s) ++ enc_length ml.
Definition enc_last (lits : list Z) : list Z :=
  let ll := Z.of_nat (length lits) in [16 * enc_nibble ll] ++ enc_length ll ++ lits.
Fixpoint lz4_encode (b : list lz4_seq) (last : list Z) : list Z :=
  match b with [] => enc_last last | s :: b => enc_seq s ++ lz4_encode b last end.
(** What a block stands for. *)
Fixpoint lz4_expand (hist : list Z) (b : list lz4_seq) (last : list Z) : list Z :=
  match b with
  | [] => hist ++ last
  | s :: b => lz4_expand (history_copy (Z.to_nat (s_length s)) (s_offset s) (hist ++ s_literals s)) b last
  end.
(** The format's conditions on a sequence after [n] bytes of output. *)
Definition lz4_seq_ok (n : nat) (s : lz4_seq) : Prop :=
  4 <= s_length s /\ 0 < s_offset s <= 0xFFFF /\ s_offset s <= Z.of_nat (n + length (s_literals s)).
Fixpoint lz4_block_ok (n : nat) (b : list lz4_seq) : Prop :=
  match b with
  | [] => True
  | s :: b => lz4_seq_ok n s /\ lz4_block_ok (n + length (s_literals s) + Z.to_nat (s_length s)) b
  end.

Lemma ext_length_replicate k rest : forall acc b, b <> 0xFF ->
  ext_length acc (replicate k 0xFF ++ b :: rest) = Some (acc + 255 * Z.of_nat k + b, rest).
Proof.
  induction k as [|k IH]; intros acc b Hb; cbn [replicate app ext_length].
  - destruct (Z.eqb_spec b 0xFF); [done|]. do 2 f_equal. lia.
  - rewrite IH by done. cbn. do 2 f_equal. lia.
Qed.
Lemma dec_enc_length n rest : 0 <= n ->
  dec_length (enc_nibble n) (enc_length n ++ rest) = Some (n, rest).
Proof.
  intros Hn. unfold dec_length, enc_nibble, enc_length. destruct (Z.ltb_spec n 15).
  - destruct (Z.eqb_spec n 15); [lia|done].
  - cbn [Z.eqb]. rewrite <- app_assoc. simpl app.
    pose proof (Z.mod_pos_bound (n - 15) 255). rewrite ext_length_replicate by lia.
    rewrite Z2Nat.id by (apply Z.div_pos; lia). do 2 f_equal.
    pose proof (Z.div_mod (n - 15) 255). lia.
Qed.
Lemma enc_nibble_range n : 0 <= n -> 0 <= enc_nibble n <= 15.
Proof. unfold enc_nibble. intros. destruct (Z.ltb_spec n 15); lia. Qed.
Lemma nibbles a b : 0 <= a <= 15 -> 0 <= b <= 15 ->
  (16 * a + b) .>> 4 = a /\ (16 * a + b) .& 15 = b.
Proof.
  intros Ha Hb. change 15 with (Z.ones 4). rewrite Z.land_ones, Z.shiftr_div_pow2 by lia.
  change (2 ^ 4) with 16. split; Z.div_mod_to_equations; lia.
Qed.

Lemma lz4_sequence_enc hist s rest : lz4_seq_ok (length hist) s ->
  lz4_sequence hist (enc_seq s ++ rest) =
  LNext (history_copy (Z.to_nat (s_length s)) (s_offset s) (hist ++ s_literals s)) rest.
Proof.
  intros (Hm & Ho & Ho'). unfold enc_seq. rewrite <- !app_assoc. cbn [app lz4_sequence].
  set (ll := Z.of_nat (length (s_literals s))).
  destruct (nibbles (enc_nibble ll) (enc_nibble (s_length s - 4))) as [-> ->];
    [apply enc_nibble_range; lia..|].
  rewrite dec_enc_length by lia.
  destruct (Z.ltb_spec (Z.of_nat (length (s_literals s ++ le_bytes 2 (s_offset s) ++
    enc_length (s_length s - 4) ++ rest))) ll) as [Hlt|_]; [rewrite length_app in Hlt; lia|].
  unfold ll. rewrite Nat2Z.id, take_app_length, drop_app_length. cbv zeta. cbn [le_bytes app].
  assert (u8 (s_offset s) + 0x100 * u8 (s_offset s .>> 8) = s_offset s) as ->.
  { rewrite Z.shiftr_div_pow2 by lia. change (2 ^ 8) with 0x100. ulia. }
  destruct (Z.eqb_spec (s_offset s) 0); [lia|].
  rewrite length_app. destruct (Z.ltb_spec (Z.of_nat (length hist + length (s_literals s))) (s_offset s)); [lia|].
  cbn [orb]. rewrite dec_enc_length by lia. by replace (s_length s - 4 + 4) with (s_length s) by lia.
Qed.
Lemma lz4_sequence_enc_last hist lits : lz4_sequence hist (enc_last lits) = LEnd (hist ++ lits).
Proof.
  unfold enc_last. cbn [app lz4_sequence]. set (ll := Z.of_nat (length lits)).
  pose proof (enc_nibble_range ll ltac:(lia)).
  replace (16 * enc_nibble ll) with (16 * enc_nibble ll + 0) by lia.
  destruct (nibbles (enc_nibble ll) 0) as [-> _]; [lia..|].
  rewrite dec_enc_length by lia.
  destruct (Z.ltb_spec (Z.of_nat (length lits)) ll); [lia|]. unfold ll. rewrite Nat2Z.id.
  by rewrite take_ge, drop_ge by lia.
Qed.
Lemma lz4_run_encode last b : forall n hist, lz4_block_ok (length hist) b ->
  (length (lz4_encode b last) < n)%nat ->
  lz4_run n hist (lz4_encode b last) = Some (lz4_expand hist b last).
Proof.
  induction b as [|s b IH]; intros [|n] hist Hok Hn; [lia| |lia|]; cbn [lz4_encode lz4_run].
  - by rewrite lz4_sequence_enc_last.
  - destruct Hok as [Hs Hb]. rewrite lz4_sequence_enc by done. apply IH.
    + rewrite length_history_copy, length_app. by rewrite Nat.add_comm.
    + cbn [lz4_encode] in Hn. unfold enc_seq in Hn. rewrite !length_app in Hn. simpl in Hn. lia.
Qed.

(** C4. Round trip: a block (any sequences that satisfy the format's conditions, any
    last literals), encoded in memory, is decoded by [lz4_decompress] to exactly
    what it stands for. *)
Theorem lz4_roundtrip {D A} (w : world D A) (inp outp : Z) (b : list lz4_seq) (last : list Z) (f : nat) :
  let src := lz4_encode b last in
  let out := lz4_expand [] b last in
  lz4_block_ok 0 b -> 0 <= inp -> 0 <= outp ->
  is_u32 (Z.of_nat (length out)) -> Z.of_nat (length src) < 0x1000000 ->
  inp + Z.of_nat (length src) <= outp \/ outp + Z.of_nat (length out) <= inp ->
  mem_ok (w_mem w) -> mem_at (w_mem w) inp src -> (length src < f)%nat ->
  exists w', lz4_decompress inp (Z.of_nat (length src)) outp (Z.of_nat (length out)) f w = Done true w' /\
    mem_at (w_mem w') outp out.
Proof.
  intros src out Hb Hinp Houtp Hout Hsrc Hdisj Hok Hat Hf.
  assert (lz4_decode src = Some out) as Hdec by (apply lz4_run_encode; [done|apply Nat.lt_succ_diag_r]). clearbody src out.
  destruct (lz4_decompress_gen w inp outp (Z.of_nat (length out)) src f)
    as (r & w' & Hr & Ht & Hfalse & _); auto.
  exists w'. destruct r.
  - destruct (Ht eq_refl) as (out' & Hdec' & _ & Hm). split; [done|]. rewrite Hdec in Hdec'. by injection Hdec' as <-.
  - by destruct (Hfalse eq_refl out Hdec).
Qed.

(** ** Witnesses *)
Definition lz4_example_block : list lz4_seq := [Lz4Seq [0x61; 0x62] 2 7].
Definition lz4_example_src : list Z := Eval vm_compute in lz4_encode lz4_example_block [0x63].
Definition lz4_example_world : world unit unit :=
  world_of_mem (mem_put ∅ 0x01002000 lz4_example_src).

Lemma lz4_decompress_refines_witness : exists r w',
  lz4_decompress 0x01002000 7 0xA8000000 10 20%nat lz4_example_world = Done r w' /\
    (r = true -> exists out, lz4_decode lz4_example_src = Some out /\ Z.of_nat (length out) = 10 /\
                             mem_at (w_mem w') 0xA8000000 out) /\
    (r = false -> forall out, lz4_decode lz4_example_src = Some out -> Z.of_nat (length out) <> 10) /\
    w' = set_mem lz4_example_world (w_mem w') /\ mem_ok (w_mem w') /\
    (forall a, ~ (0xA8000000 <= a < 0xA8000000 + 10) ->
       mem_get (w_mem w') a = mem_get (w_mem lz4_example_world) a).
Proof.
  apply (lz4_decompress_refines lz4_example_world 0x01002000 0xA8000000 10 lz4_example_src 20%nat);
    [lia|lia|vm_compute; done|vm_compute; done|left; vm_compute; done
    |apply mem_ok_b_spec; vm_compute; done|apply mem_at_range; vm_compute; done|vm_compute; lia].
Defined.

Lemma lz4_roundtrip_witness : exists w',
  lz4_decompress 0x01002000 7 0xA8000000 10 20%nat lz4_example_world = Done true w' /\
  mem_at (w_mem w') 0xA8000000 [0x61; 0x62; 0x61; 0x62; 0x61; 0x62; 0x61; 0x62; 0x61; 0x63].
Proof.
  apply (lz4_roundtrip lz4_example_world 0x01002000 0xA8000000 lz4_example_block [0x63] 20%nat);
    [cbn; unfold lz4_seq_ok; simpl; lia|lia|lia|vm_compute; done|vm_compute; done|left; vm_compute; done
    |apply mem_ok_b_spec; vm_compute; done|apply mem_at_range; vm_compute; done|vm_compute; lia].
Defined.
