(* ===== verification/Preloader.v ===== *)
(** * The preloader ([preloader/src/main.c])

    A loader in the chip's RAM that obeys a host on [USART0]: it writes memory (plain or
    LZ4-compressed, with a CRC-32 check), sets up external RAM, changes the line speed and
    jumps to the loaded program.  [request] is the abstract protocol; the session theorem
    says that for any sequence of requests the device answers and changes memory as the
    protocol says and finally jumps where the host asked. *)
From S2P Require Import Prelude Machine Board Regs Clock Stopwatch Wdt Usart Crc Lz4.

Definition DTCM_ADDRESS : Z := 0x01002000.
Definition DTCM_REGION_SIZE_8K : Z := 4 .<< 2.
Definition DTCM_REGION_ENABLE : Z := BIT 0.
Definition LZ4_BLOCK_SIZE : Z := 0x1000.

Definition CMD_PING : Z := 0x41.
Definition CMD_INIT_EXTRAM : Z := 0x45.
Definition CMD_GOTO : Z := 0x47.
Definition CMD_SET_SPEED : Z := 0x48.
Definition CMD_WRITE_RAM_LZ4 : Z := 0x4C.
Definition CMD_RAM_WRITE : Z := 0x57.
Definition STATUS_FAILURE : Z := 0x1C.
Definition STATUS_PONG : Z := 0x52.
Definition STATUS_READY : Z := 0xA5.
Definition STATUS_SUCCESS : Z := 0xC1.

(** [__builtin_ctz] *)
Definition ctz (x : Z) : Z := Z.log2 (x .& (- x)).

Section Code.
Context {D A : Type} `{!Device D} `{B : Board}.
#[local] Abbreviation M := (M D A).

Definition dtcm_enable : M unit :=
  wr (Cp15 9 1 0) (DTCM_ADDRESS .| DTCM_REGION_SIZE_8K .| DTCM_REGION_ENABLE).
Definition dtcm_disable : M unit :=
  region ← rd (Cp15 9 1 0); wr (Cp15 9 1 0) (region .& not32 DTCM_REGION_ENABLE).

Definition cmd_ping : M unit := wdt_serve;; usart_putc USART0 STATUS_PONG.

Definition extram_valid (address size : Z) : bool :=
  negb (size <? 0x1000) && negb (0x08000000 <? size) &&
  ((size .& u32 (size - 1)) ==? 0) && ((address .& u32 (size - 1)) ==? 0).
(** The register writes of [cmd_init_extram]. *)
Definition extram_setup (address size : Z) : M unit :=
  let mask := u32 (27 - ctz size) in
  wr32 (EBU_ADDRSEL 1) (address .| u32 (mask .<< EBU_ADDRSEL_MASK_SHIFT) .| EBU_ADDRSEL_REGENAB);;
  wr32 (EBU_BUSCON 1)
    (EBU_BUSCON_AGEN_SDRAM_0 .| (1 .<< EBU_BUSCON_PORTW_SHIFT) .| (3 .<< EBU_BUSCON_BCGEN_SHIFT) .|
     EBU_BUSCON_DLOAD .| EBU_BUSCON_AALIGN);;
  wr32 (EBU_SDRMREF 0) (6 .<< EBU_SDRMREF_REFRESHC_SHIFT);;
  wr32 (EBU_SDRMCON 0)
    ((2 .<< EBU_SDRMCON_BANKM_SHIFT) .| (1 .<< EBU_SDRMCON_PAGEM_SHIFT) .|
     (1 .<< EBU_SDRMCON_CRC_SHIFT) .| (1 .<< EBU_SDRMCON_AWIDTH_SHIFT) .|
     (3 .<< EBU_SDRMCON_CRP_SHIFT) .| (7 .<< EBU_SDRMCON_CRFSH_SHIFT));;
  wr32 (EBU_SDRMOD 0) ((2 .<< EBU_SDRMOD_CASLAT_SHIFT) .| (3 .<< EBU_SDRMOD_BURSTL_SHIFT)).
Definition cmd_init_extram : M unit :=
  address ← usart_read_u32 USART0;
  size ← usart_read_u32 USART0;
  if size <? 0x1000 then usart_putc USART0 STATUS_FAILURE
  else if 0x08000000 <? size then usart_putc USART0 STATUS_FAILURE
  else if (size .& u32 (size - 1)) !=? 0 then usart_putc USART0 STATUS_FAILURE
  else if (address .& u32 (size - 1)) !=? 0 then usart_putc USART0 STATUS_FAILURE
  else extram_setup address size;; usart_putc USART0 STATUS_SUCCESS.

Definition cmd_set_speed : M unit :=
  baud_rate ← usart_read_u32 USART0;
  usart_set_speed USART0 baud_rate;;
  poll (c ← usart_getc USART0; mret (c ==? CMD_PING)) (mret tt);;
  cmd_ping.

Definition cache_sync : M unit :=
  poll (v ← rd (Cp15 7 10 3); mret (Z.testbit v 30)) (mret tt);;
  wr (Cp15 7 10 4) 0;;
  wr (Cp15 7 5 0) 0.

(** [while (offset < size) { batch of at most 256; ...; wdt_serve(); }] *)
Definition in_batches {X} (size : Z) (x : X) (body : Z -> Z -> X -> M X) : M X :=
  iter (fun '(offset, x) =>
    if offset <? size then
      let batch_size := MIN (u32 (size - offset)) 256 in
      x ← body offset batch_size x;
      wdt_serve;;
      mret (inl (u32 (offset + batch_size), x))
    else mret (inr x)) (0, x).

Definition cmd_ram_write : M unit :=
  address ← usart_read_u32 USART0;
  size ← usart_read_u32 USART0;
  in_batches size tt (fun offset batch_size _ => usart_read USART0 (address + offset) batch_size);;
  received_crc ← usart_read_u32 USART0;
  crc ← in_batches size CRC32_INITIAL_VALUE (fun offset batch_size crc =>
          crc32_update crc (address + offset) batch_size);
  if received_crc !=? not32 crc then usart_putc USART0 STATUS_FAILURE
  else usart_putc USART0 STATUS_SUCCESS.

(** The buffer of [discard_data] is in slot 2. *)
Definition discard_data (size : Z) : M unit :=
  alloc (LOCAL 2) 256;;
  in_batches size tt (fun _ batch_size _ => usart_read USART0 (LOCAL 2) batch_size).

Definition cmd_write_ram_lz4 : M unit :=
  address ← usart_read_u32 USART0;
  compressed_size ← usart_read_u32 USART0;
  output_size ← usart_read_u32 USART0;
  let compressed := DTCM_ADDRESS in
  valid ← (if LZ4_BLOCK_SIZE <? compressed_size then discard_data compressed_size;; mret false
           else if LZ4_BLOCK_SIZE <? output_size then discard_data compressed_size;; mret false
           else usart_read USART0 compressed compressed_size;;
                lz4_decompress compressed compressed_size address output_size);
  received_crc ← usart_read_u32 USART0;
  valid ← (if valid : bool then
             crc ← crc32_update CRC32_INITIAL_VALUE address output_size;
             mret (received_crc ==? not32 crc)
           else mret false);
  usart_putc USART0 (if valid : bool then STATUS_SUCCESS else STATUS_FAILURE).

Definition cmd_goto : M unit :=
  address ← usart_read_u32 USART0;
  usart_putc USART0 STATUS_SUCCESS;;
  usart_flush USART0;;
  cache_sync;;
  dtcm_disable;;
  stop (Jumped address).

(** One round of the loop of [main]. *)
Definition main_step : M unit :=
  command ← usart_getc USART0;
  wdt_serve;;
  if command ==? CMD_PING then cmd_ping
  else if command ==? CMD_INIT_EXTRAM then cmd_init_extram
  else if command ==? CMD_GOTO then cmd_goto
  else if command ==? CMD_SET_SPEED then cmd_set_speed
  else if command ==? CMD_WRITE_RAM_LZ4 then cmd_write_ram_lz4
  else if command ==? CMD_RAM_WRITE then cmd_ram_write
  else mret tt.
Definition main : M unit :=
  dtcm_enable;;
  wdt_init;;
  usart_putc USART0 STATUS_READY;;
  iter (fun _ : unit => main_step;; mret (inl tt)) tt.
End Code.

(** ** What the processor's cache clean promises: it ends *)
Class CacheClean (D : Type) `{!Device D} := {
  cache_wait : D -> nat;
  cache_patience : nat;
  cache_wait_le d : (cache_wait d <= cache_patience)%nat;
  cache_clean_read d d' v : dev_read (Cp15 7 10 3) d = (v, d') ->
    Z.testbit (u32 v) 30 = false -> (cache_wait d' < cache_wait d)%nat;
}.

(** Physical memory. *)
Definition phys (m m' : gmap Z Z) : Prop := forall a, 0 <= a -> mem_get m' a = mem_get m a.
#[export] Instance phys_equiv : Equivalence phys.
Proof.
  split; [by intros m|by intros m m' H a Ha; rewrite H|].
  intros m1 m2 m3 H1 H2 a Ha. by rewrite H2, H1.
Qed.
Lemma phys_put m m' a bs : 0 <= a -> phys m m' -> phys (mem_put m a bs) (mem_put m' a bs).
Proof.
  revert m m' a. induction bs as [|b bs IH]; intros m m' a Ha H; simpl; [done|].
  apply IH; [lia|]. intros x Hx. rewrite !mem_get_insert. case_decide; [done|by apply H].
Qed.
Lemma phys_at m m' a bs : 0 <= a -> phys m m' -> mem_at m a bs -> mem_at m' a bs.
Proof. intros Ha H. apply mem_at_ext. intros x Hx. apply H. lia. Qed.
Lemma scratch_phys m m' : scratch m m' -> phys m m'.
Proof. intros (H & _) a Ha. apply H. lia. Qed.

Section Serve.
Context {D A : Type} `{!Device D} `{B : Board} `{!UsartLine USART0 D}.
Implicit Types w : world D A.

(** The loader between two steps: the line, physical memory, the watchdog's clock. *)
Definition running rx tx (m : gmap Z Z) w : Prop :=
  line USART0 rx tx (w_dev w) /\ phys m (w_mem w) /\ mem_ok (w_mem w) /\ ticks_per_s (w_lib w) <> 0.

Context (f : nat) (Hf : (line_patience (u := USART0) (D := D) + 256 < f)%nat).
Lemma run_quiet E p v Q rx tx m w : usart_quiet USART0 p = true -> running rx tx m w ->
  (forall w', running rx tx m w' -> Q tt w') -> wp E (wr p v) Q f w.
Proof.
  intros Hp (Hl & Hm & Hok & Ht) HQ. apply wp_wr, HQ. split; [|done]. by apply line_stable.
Qed.
Lemma run_rd E p Q rx tx m w : usart_quiet USART0 p = true -> running rx tx m w ->
  (forall v d w', dev_read p (w_dev w) = (v, d) -> w_dev w' = d -> running rx tx m w' -> Q (port_wrap p v) w') ->
  wp E (rd p) Q f w.
Proof.
  intros Hp (Hl & Hm & Hok & Ht) HQ. apply wp_rd. intros v d Hrd. eapply HQ; [done|done|].
  split; [|done]. simpl. destruct (line_stable USART0 rx tx p (w_dev w)) as [H _]; [done..|]. by rewrite Hrd in H.
Qed.
(** The same after a flush. *)
Definition settled rx tx (m : gmap Z Z) w : Prop := running rx tx m w /\ flushed USART0 (w_log w).
Lemma settled_quiet E p v Q rx tx m w : usart_quiet USART0 p = true -> settled rx tx m w ->
  (forall w', settled rx tx m w' -> Q tt w') -> wp E (wr p v) Q f w.
Proof.
  intros Hp [(Hl & Hm & Hok & Ht) Hf'] HQ. apply wp_wr, HQ. split; [|by apply flushed_event]. split; [|done]. by apply line_stable.
Qed.
Lemma settled_rd E p Q rx tx m w : usart_quiet USART0 p = true -> settled rx tx m w ->
  (forall v d w', dev_read p (w_dev w) = (v, d) -> w_dev w' = d -> settled rx tx m w' -> Q (port_wrap p v) w') ->
  wp E (rd p) Q f w.
Proof.
  intros Hp [(Hl & Hm & Hok & Ht) Hf'] HQ. apply wp_rd. intros v d Hrd. eapply HQ; [done|done|]. split; [|by apply flushed_event].
  split; [|done]. simpl. destruct (line_stable USART0 rx tx p (w_dev w)) as [H _]; [done..|]. by rewrite Hrd in H.
Qed.
Lemma run_serve E Q rx tx m w : running rx tx m w -> (forall w', running rx tx m w' -> Q tt w') ->
  wp E wdt_serve Q f w.
Proof.
  intros (Hl & Hm & Hok & Ht) HQ. eapply (wp_wdt_serve _ (wdt_line rx tx)); [done|done|].
  intros w' (Hl' & Em & _ & Et & _). apply HQ. unfold running. by rewrite Em, Et.
Qed.
Lemma run_vars rx tx m w w' : line USART0 rx tx (w_dev w') -> phys m (w_mem w') -> mem_ok (w_mem w') ->
  same_vars w w' -> ticks_per_s (w_lib w) <> 0 -> running rx tx m w'.
Proof. intros ? ? ? [E _] ?. unfold running. by rewrite E. Qed.
Lemma run_putc E c Q rx tx m w : running rx tx m w ->
  (forall w', running rx (tx ++ [u8 c]) m w' -> Q tt w') -> wp E (usart_putc USART0 c) Q f w.
Proof.
  intros (Hl & Hm & Hok & Ht) HQ. eapply wp_usart_putc; [lia|exact Hl|]. intros w' Hl' Hs Hv. apply HQ.
  eapply run_vars; [done| |by apply Hs|done..]. transitivity (w_mem w); [done|by apply scratch_phys].
Qed.
Lemma run_getc E Q b rx tx m w : running (b :: rx) tx m w -> is_byte b ->
  (forall w', running rx tx m w' -> Q b w') -> wp E (usart_getc USART0) Q f w.
Proof.
  intros (Hl & Hm & Hok & Ht) Hb HQ. eapply wp_usart_getc; [lia|exact Hl|done|]. intros w' Hl' Hs Hv. apply HQ.
  eapply run_vars; [done| |by apply Hs|done..]. transitivity (w_mem w); [done|by apply scratch_phys].
Qed.
Lemma run_u32 E Q x rx tx m w : running (le_bytes 4 x ++ rx) tx m w -> is_u32 x ->
  (forall w', running rx tx m w' -> Q x w') -> wp E (usart_read_u32 USART0) Q f w.
Proof.
  intros (Hl & Hm & Hok & Ht) Hx HQ.
  eapply wp_usart_read_u32; [lia|exact Hl|apply length_le_bytes|apply le_bytes_ok|]. intros w' Hl' Hs Hv.
  rewrite le_bytes_word by exact Hx. apply HQ.
  eapply run_vars; [done| |by apply Hs|done..]. transitivity (w_mem w); [done|by apply scratch_phys].
Qed.
Lemma run_read E Q data bs rx tx m w : running (bs ++ rx) tx m w -> bytes_ok bs -> 0 <= data ->
  Z.of_nat (length bs) < 0x100000000 -> (length bs < f)%nat ->
  (forall w', running rx tx (mem_put m data bs) w' -> Q tt w') ->
  wp E (usart_read USART0 data (Z.of_nat (length bs))) Q f w.
Proof.
  intros (Hl & Hm & Hok & Ht) Hb Hd Hlen Hlf HQ. eapply wp_usart_read; [exact Hl| |done|lia|done|].
  - intros i Hi. apply mem_valid_pos. lia.
  - intros w' Hl' Em Hv. apply HQ. eapply run_vars; [done|rewrite Em..|done|done].
    + by apply phys_put.
    + by apply mem_ok_put.
Qed.

(** Batches: an invariant over the offset that [wdt_serve] keeps. *)
Lemma wp_in_batches {X} E (size : nat) (x : X) body (J : nat -> X -> world D A -> Prop) Q w :
  Z.of_nat size < 0x100000000 -> (size < f)%nat -> J 0%nat x w ->
  (forall k x w, J k x w -> wp E wdt_serve (fun _ w' => J k x w') f w) ->
  (forall k n x w, (k + n <= size)%nat -> (n <= 256)%nat -> J k x w ->
     wp E (body (Z.of_nat k) (Z.of_nat n) x) (J (k + n)%nat) f w) ->
  (forall x w, J size x w -> Q x w) ->
  wp E (in_batches (Z.of_nat size) x body) Q f w.
Proof.
  intros Hsz Hfs HJ Hserve Hbody HQ. unfold in_batches.
  apply (wp_iter _ _ (fun '(off, x) w' => exists k, off = Z.of_nat k /\ (k <= size)%nat /\ J k x w')
                     (fun '(off, _) _ => (size - Z.to_nat off)%nat)).
  - exists 0%nat. split_and!; [done|lia|done].
  - lia.
  - intros [off y] w1 (k & -> & Hk & HJ1). destruct (Z.ltb_spec (Z.of_nat k) (Z.of_nat size)).
    2:{ apply wp_ret, HQ. by replace size with k by lia. }
    cbv zeta. rewrite (u32_small (Z.of_nat size - Z.of_nat k)) by (unfold is_u32; lia).
    set (n := MIN (Z.of_nat size - Z.of_nat k) 256).
    assert (0 < n <= Z.of_nat size - Z.of_nat k /\ n <= 256) as [Hn1 Hn2].
    { unfold n, MIN. destruct (Z.ltb_spec (Z.of_nat size - Z.of_nat k) 256); lia. }
    replace n with (Z.of_nat (Z.to_nat n)) by lia.
    apply wp_bind. eapply wp_mono; [apply Hbody; [lia|lia|exact HJ1]|]. intros y' w2 HJ2.
    apply wp_bind. eapply wp_mono; [by apply Hserve|]. intros [] w3 HJ3. apply wp_ret. split.
    + exists (k + Z.to_nat n)%nat. split_and!; [rewrite u32_small by (unfold is_u32; lia); lia|lia|done].
    + rewrite u32_small by (unfold is_u32; lia). lia.
Qed.

(** *** The commands *)
Lemma run_ping E Q rx tx m w : running rx tx m w ->
  (forall w', running rx (tx ++ [STATUS_PONG]) m w' -> Q tt w') -> wp E cmd_ping Q f w.
Proof.
  intros Hr HQ. apply wp_bind. eapply run_serve; [exact Hr|]. intros w1 Hr1. by eapply run_putc.
Qed.

Lemma run_init_extram E Q address size rx tx m w :
  running (le_bytes 4 address ++ le_bytes 4 size ++ rx) tx m w -> is_u32 address -> is_u32 size ->
  (forall w', running rx (tx ++ [if extram_valid address size then STATUS_SUCCESS else STATUS_FAILURE]) m w' ->
     Q tt w') -> wp E cmd_init_extram Q f w.
Proof.
  intros Hr Ha Hs HQ. apply wp_bind. eapply run_u32; [exact Hr|done|]. intros w1 Hr1.
  apply wp_bind. eapply run_u32; [exact Hr1|done|]. intros w2 Hr2. unfold extram_valid in HQ.
  destruct (size <? 0x1000); [by eapply run_putc|]. destruct (0x08000000 <? size); [by eapply run_putc|].
  destruct ((size .& u32 (size - 1)) ==? 0); [|by eapply run_putc].
  destruct ((address .& u32 (size - 1)) ==? 0); [|by eapply run_putc].
  unfold extram_setup. apply wp_bind.
  do 4 (apply wp_bind; eapply run_quiet; [done|eassumption|]; intros ? ?).
  eapply run_quiet; [done|eassumption|]. intros ? ?. by eapply run_putc.
Qed.

(** The data arrives in batches at increasing addresses. *)
Lemma run_ram_write E Q address data crc rx tx m w :
  running (le_bytes 4 address ++ le_bytes 4 (Z.of_nat (length data)) ++ data ++ le_bytes 4 crc ++ rx) tx m w ->
  is_u32 address -> is_u32 (Z.of_nat (length data)) -> bytes_ok data -> is_u32 crc -> (length data < f)%nat ->
  (forall w', running rx (tx ++ [if crc =? not32 (crc32_list CRC32_INITIAL_VALUE data)
                                then STATUS_SUCCESS else STATUS_FAILURE]) (mem_put m address data) w' -> Q tt w') ->
  wp E cmd_ram_write Q f w.
Proof.
  intros Hr Ha Hs Hd Hc Hfd HQ. assert (0 <= address) as Ha0 by apply Ha.
  apply wp_bind. eapply run_u32; [exact Hr|done|]. intros w1 Hr1.
  apply wp_bind. eapply run_u32; [exact Hr1|done|]. intros w2 Hr2. clear w w1 Hr Hr1.
  apply wp_bind. eapply (wp_in_batches E (length data) tt _
    (fun k _ w => running (drop k data ++ le_bytes 4 crc ++ rx) tx (mem_put m address (take k data)) w));
    [apply Hs|done|exact Hr2| | |].
  { intros k [] w Hr. eapply run_serve; [exact Hr|]. auto. }
  { intros k n [] w Hk Hn Hr.
    assert (drop k data = take n (drop k data) ++ drop (k + n) data) as E1
      by (rewrite <- drop_drop; by rewrite take_drop).
    assert (length (take n (drop k data)) = n) as E2 by (rewrite length_take, length_drop; lia).
    rewrite E1, <- app_assoc in Hr. rewrite <- E2 at 1.
    eapply run_read; [exact Hr|by apply Forall_take, Forall_drop|lia|lia|lia|].
    intros w' Hr'. rewrite <- take_take_drop, mem_put_app, length_take_le by lia. exact Hr'. }
  intros [] w3 Hr3. rewrite drop_ge, take_ge in Hr3 by done. cbn [app] in Hr3. clear w2 Hr2.
  apply wp_bind. eapply run_u32; [exact Hr3|done|]. intros w4 Hr4.
  apply wp_bind. eapply (wp_in_batches E (length data) CRC32_INITIAL_VALUE _
    (fun k x w => x = crc32_list CRC32_INITIAL_VALUE (take k data) /\ running rx tx (mem_put m address data) w));
    [apply Hs|done|done| | |].
  { intros k x w [-> Hr]. eapply run_serve; [exact Hr|]. auto. }
  { intros k n x w Hk Hn [-> Hr].
    assert (length (take n (drop k data)) = n) as E2 by (rewrite length_take, length_drop; lia).
    rewrite <- E2 at 1. apply wp_crc32_update; [lia| |].
    - destruct Hr as (_ & Hph & _). eapply phys_at; [|exact Hph|]; [lia|].
      replace (address + Z.of_nat k) with (address + Z.of_nat (length (take k data)))
        by (rewrite length_take_le by lia; done).
      pose proof (mem_at_put m address data) as Hput. rewrite <- (take_drop k data) in Hput at 2.
      apply mem_at_app in Hput as [_ Hput]. by apply mem_at_take.
    - split; [|done]. rewrite <- crc32_list_app. by rewrite take_take_drop. }
  intros x w5 [-> Hr5]. rewrite take_ge in * by done.
  destruct (Z.eqb_spec crc (not32 (crc32_list CRC32_INITIAL_VALUE data))); by eapply run_putc.
Qed.

Lemma run_discard E Q data rx tx m w : running (data ++ rx) tx m w -> bytes_ok data ->
  is_u32 (Z.of_nat (length data)) -> (length data < f)%nat ->
  (forall w', running rx tx m w' -> Q tt w') -> wp E (discard_data (Z.of_nat (length data))) Q f w.
Proof.
  intros Hr Hd Hs Hfd HQ. apply wp_bind, wp_alloc.
  eapply (wp_in_batches E (length data) tt _ (fun k _ w => running (drop k data ++ rx) tx m w /\
    (forall i, LOCAL 2 <= i < LOCAL 2 + 256 -> mem_valid (w_mem w) i = true))); [apply Hs|done| | | |].
  - split; [|intros i Hi; by apply mem_valid_alloc]. destruct Hr as (Hl & Hph & Hok & Ht).
    split_and!; [done| |by apply mem_ok_alloc|done]. intros a Ha. simpl.
    rewrite mem_get_alloc_out by (unfold LOCAL, slot_size; lia). by apply Hph.
  - intros k [] w1 [Hr1 Hv]. destruct Hr1 as (Hl & Hph & Hok & Ht).
    eapply (wp_wdt_serve _ (wdt_line (drop k data ++ rx) tx)); [done|done|].
    intros w' (Hl' & Em & _ & Et & _). split; [|by rewrite Em]. unfold running. by rewrite Em, Et.
  - intros k n [] w1 Hk Hn [Hr1 Hv].
    assert (drop k data = take n (drop k data) ++ drop (k + n) data) as E1
      by (rewrite <- drop_drop; by rewrite take_drop).
    assert (length (take n (drop k data)) = n) as E2 by (rewrite length_take, length_drop; lia).
    rewrite E1, <- app_assoc in Hr1. rewrite <- E2 at 1. destruct Hr1 as (Hl & Hph & Hok & Ht).
    eapply wp_usart_read; [exact Hl|intros i Hi; apply Hv; lia|unfold is_u32 in Hs; lia|lia|lia|].
    intros w' Hl' Em Hv'. split.
    + eapply run_vars; [done| | |done|done].
      * rewrite Em. intros a Ha. rewrite mem_get_put_out by (unfold LOCAL, slot_size; lia). by apply Hph.
      * rewrite Em. apply mem_ok_put; [done|by apply Forall_take, Forall_drop].
    + intros i Hi. rewrite Em. by apply mem_valid_put, Hv.
  - intros [] w1 [Hr1 _]. apply HQ. by rewrite drop_ge in Hr1.
Qed.

(** *** The compressed write *)
Definition lz4_accepts (compressed : list Z) (output_size crc : Z) : bool :=
  (Z.of_nat (length compressed) <=? LZ4_BLOCK_SIZE) && (output_size <=? LZ4_BLOCK_SIZE) &&
  match lz4_decode compressed with
  | Some out => (Z.of_nat (length out) =? output_size) &&
                (crc =? not32 (crc32_list CRC32_INITIAL_VALUE out))
  | None => false
  end.
(** Memory after it: nothing changes for an oversized request; otherwise the block is
    in the DTCM, only the output area is written besides, and a block that decodes to
    the announced size is there. *)
Definition lz4_written (address : Z) (compressed : list Z) (output_size : Z) (m m' : gmap Z Z) : Prop :=
  if (Z.of_nat (length compressed) <=? LZ4_BLOCK_SIZE) && (output_size <=? LZ4_BLOCK_SIZE) then
    (forall a, 0 <= a -> ~ (address <= a < address + output_size) ->
       mem_get m' a = mem_get (mem_put m DTCM_ADDRESS compressed) a) /\
    (forall out, lz4_decode compressed = Some out -> Z.of_nat (length out) = output_size -> mem_at m' address out)
  else phys m m'.

Lemma run_write_lz4 E Q address compressed osz crc rx tx m w :
  running (le_bytes 4 address ++ le_bytes 4 (Z.of_nat (length compressed)) ++ le_bytes 4 osz ++
           compressed ++ le_bytes 4 crc ++ rx) tx m w ->
  is_u32 address -> is_u32 (Z.of_nat (length compressed)) -> is_u32 osz -> is_u32 crc -> bytes_ok compressed ->
  (length compressed < f)%nat ->
  DTCM_ADDRESS + Z.of_nat (length compressed) <= address \/ address + osz <= DTCM_ADDRESS ->
  (forall m' w', running rx (tx ++ [if lz4_accepts compressed osz crc then STATUS_SUCCESS else STATUS_FAILURE]) m' w' ->
     lz4_written address compressed osz m m' -> Q tt w') ->
  wp E cmd_write_ram_lz4 Q f w.
Proof.
  intros Hr Ha Hs Ho Hc Hd Hfd Hdisj HQ.
  apply wp_bind. eapply run_u32; [exact Hr|done|]. intros w1 Hr1.
  apply wp_bind. eapply run_u32; [exact Hr1|done|]. intros w2 Hr2.
  apply wp_bind. eapply run_u32; [exact Hr2|done|]. intros w3 Hr3. clear w w1 w2 Hr Hr1 Hr2. cbv zeta.
  unfold lz4_accepts, lz4_written in HQ.
  destruct (Z.ltb_spec LZ4_BLOCK_SIZE (Z.of_nat (length compressed))) as [|Hsmall];
    [|destruct (Z.ltb_spec LZ4_BLOCK_SIZE osz) as [|Hosmall]].
  1, 2: apply wp_bind, wp_bind; eapply run_discard; [exact Hr3|done..|]; intros w4 Hr4; apply wp_ret, wp_bind;
    (eapply run_u32; [exact Hr4|done|]); intros w5 Hr5; apply wp_bind, wp_ret;
    (eapply run_putc; [exact Hr5|]); intros w6 Hr6; apply (HQ m); [|];
    destruct (Z.leb_spec (Z.of_nat (length compressed)) LZ4_BLOCK_SIZE), (Z.leb_spec osz LZ4_BLOCK_SIZE);
    try lia; cbn [andb]; done.
  destruct (Z.leb_spec (Z.of_nat (length compressed)) LZ4_BLOCK_SIZE); [|lia].
  destruct (Z.leb_spec osz LZ4_BLOCK_SIZE); [|lia]. cbn [andb] in HQ. unfold LZ4_BLOCK_SIZE in *.
  apply wp_bind, wp_bind. eapply run_read; [exact Hr3|done|done|lia|done|]. intros w4 (Hl4 & Hph4 & Hok4 & Ht4).
  assert (mem_at (w_mem w4) DTCM_ADDRESS compressed) as Hat
    by (eapply phys_at; [|exact Hph4|apply mem_at_put]; done).
  destruct (lz4_decompress_gen w4 DTCM_ADDRESS address osz compressed f) as
    (r & w5 & E5 & Hr1 & Hr2 & Hw5 & Hok5 & Hfr); try done; [apply Ha|lia|].
  unfold wp at 1. rewrite E5. assert (running (le_bytes 4 crc ++ rx) tx (w_mem w5) w5) as Hr5.
  { rewrite Hw5. by split_and!. }
  assert ((forall a, 0 <= a -> ~ (address <= a < address + osz) ->
       mem_get (w_mem w5) a = mem_get (mem_put m DTCM_ADDRESS compressed) a)) as Hout.
  { intros a Ha0 Hna. by rewrite Hfr, Hph4. }
  clear Hl4 Hph4 Hok4 Ht4 E5 Hw5 Hfr.
  assert (forall out, lz4_decode compressed = Some out -> Z.of_nat (length out) = osz -> mem_at (w_mem w5) address out) as Hdec.
  { intros out Eout Hlen. destruct r; [|by destruct (Hr2 eq_refl out Eout)].
    destruct (Hr1 eq_refl) as (out' & Eout' & _ & Hat'). rewrite Eout in Eout'. by injection Eout' as <-. }
  apply wp_bind. eapply run_u32; [exact Hr5|done|]. intros w6 Hr6. apply wp_bind.
  destruct r.
  - destruct (Hr1 eq_refl) as (out & Eout & Hlen & Hat5). apply wp_bind. rewrite <- Hlen at 1.
    apply wp_crc32_update; [apply Ha| |].
    { destruct Hr6 as (_ & Hph6 & _). eapply phys_at; [apply Ha|exact Hph6|done]. }
    apply wp_ret. eapply run_putc; [exact Hr6|]. intros w7 Hr7. apply (HQ (w_mem w5)); [|by split].
    rewrite Eout. rewrite Hlen, Z.eqb_refl. cbn [andb].
    by destruct (crc =? not32 (crc32_list CRC32_INITIAL_VALUE out)).
  - apply wp_ret. eapply run_putc; [exact Hr6|]. intros w7 Hr7. apply (HQ (w_mem w5)); [|by split].
    destruct (lz4_decode compressed) as [out|] eqn:Eout; [|done].
    destruct (Z.eqb_spec (Z.of_nat (length out)) osz); [|done]. by destruct (Hr2 eq_refl out eq_refl).
Qed.

(** *** The line speed: noise until the host's ping arrives at the new speed *)
Context (c : Z -> Z) (Hc : forall a, is_u32 (c a)) (Hclk : forall d : D, cgu_reads c d).

Lemma run_usart_set_speed E Q usart baud rx tx m w : running rx tx m w -> usart = USART0 ->
  baud <> 0 -> 16 <= clock_ideal c ClkFpi1 ->
  (forall w', running rx tx m w' -> Q tt w') -> wp E (usart_set_speed usart baud) Q f w.
Proof.
  intros Hr -> Hb Hfpi HQ. apply wp_bind. destruct (ret_fpi1 (A := A) c Hc f w (Hclk _)) as [log E1].
  unfold wp at 1. rewrite E1. set (w1 := World _ _ _ _ _). assert (running rx tx m w1) as Hr1 by exact Hr.
  cbv zeta. apply wp_bind, wp_udiv; [done|]. apply wp_bind, wp_udiv.
  { rewrite Z.shiftr_div_pow2 by lia. change (2 ^ 4) with 16. Z.div_mod_to_equations; lia. }
  apply wp_bind. eapply run_quiet; [done|exact Hr1|]. intros w2 Hr2. eapply run_quiet; [done|exact Hr2|done].
Qed.
Lemma run_set_speed E Q baud noise rx tx m w :
  running (le_bytes 4 baud ++ noise ++ [CMD_PING] ++ rx) tx m w -> is_u32 baud -> baud <> 0 ->
  16 <= clock_ideal c ClkFpi1 -> bytes_ok noise -> Forall (fun b => b <> CMD_PING) noise ->
  (length noise < f)%nat ->
  (forall w', running rx (tx ++ [STATUS_PONG]) m w' -> Q tt w') -> wp E cmd_set_speed Q f w.
Proof.
  intros Hr Hbd Hb0 Hfpi Hok Hno Hfn HQ. apply wp_bind. eapply run_u32; [exact Hr|done|]. intros w1 Hr1.
  apply wp_bind. eapply run_usart_set_speed; [exact Hr1|done..|]. intros w2 Hr2. apply wp_bind.
  enough (forall n w, running (noise ++ [CMD_PING] ++ rx) tx m w -> (length noise < n)%nat ->
    wp E (loop n (fun _ : unit => b ← (c ← usart_getc USART0; mret (c ==? CMD_PING));
                    if b : bool then mret (inr tt) else (mret tt;; mret (inl tt))) tt)
         (fun _ w' => wp E cmd_ping Q f w') f w) as Hloop by by apply Hloop.
  clear w w1 w2 Hr Hr1 Hr2 Hfn. induction noise as [|b noise IH]; intros n w Hr Hn;
    (destruct n as [|n]; [simpl in Hn; lia|]); apply wp_loop_S, wp_bind, wp_bind.
  - eapply run_getc; [exact Hr|by vm_compute|]. intros w1 Hr1. apply wp_ret. rewrite Z.eqb_refl.
    apply wp_ret. by eapply run_ping.
  - apply Forall_cons in Hok as [Hb Hok]. apply Forall_cons in Hno as [Hbp Hno].
    eapply run_getc; [exact Hr|done|]. intros w1 Hr1. apply wp_ret.
    destruct (Z.eqb_spec b CMD_PING); [done|]. apply wp_bind, wp_ret, wp_ret.
    apply IH; [done..|]. simpl in Hn. lia.
Qed.
End Serve.

(** ** The protocol *)

(** What the host can ask, before it asks to jump. *)
Inductive request :=
  | Ping
  | InitExtram (address size : Z)
  | SetSpeed (baud : Z) (noise : list Z)  (* noise: what arrives until the ping at the new speed *)
  | WriteLz4 (address : Z) (compressed : list Z) (output_size crc : Z)
  | RamWrite (address : Z) (data : list Z) (crc : Z)
  | Unknown (b : Z).

Definition opcode (r : request) : Z :=
  match r with
  | Ping => CMD_PING
  | InitExtram _ _ => CMD_INIT_EXTRAM
  | SetSpeed _ _ => CMD_SET_SPEED
  | WriteLz4 _ _ _ _ => CMD_WRITE_RAM_LZ4
  | RamWrite _ _ _ => CMD_RAM_WRITE
  | Unknown b => b
  end.
Definition payload (r : request) : list Z :=
  match r with
  | Ping | Unknown _ => []
  | InitExtram a s => le_bytes 4 a ++ le_bytes 4 s
  | SetSpeed baud noise => le_bytes 4 baud ++ noise ++ [CMD_PING]
  | WriteLz4 a z osz crc =>
      le_bytes 4 a ++ le_bytes 4 (Z.of_nat (length z)) ++ le_bytes 4 osz ++ z ++ le_bytes 4 crc
  | RamWrite a data crc => le_bytes 4 a ++ le_bytes 4 (Z.of_nat (length data)) ++ data ++ le_bytes 4 crc
  end.
Definition encode (r : request) : list Z := opcode r :: payload r.
Definition commands : list Z :=
  [CMD_PING; CMD_INIT_EXTRAM; CMD_GOTO; CMD_SET_SPEED; CMD_WRITE_RAM_LZ4; CMD_RAM_WRITE].
(** Requests the encoding can express, with buffers inside the 32-bit address space; the
    compressed block (in the DTCM) and its output do not overlap. *)
Definition request_ok (r : request) : Prop :=
  match r with
  | Ping => True
  | InitExtram a s => is_u32 a /\ is_u32 s
  | SetSpeed baud noise => is_u32 baud /\ baud <> 0 /\ bytes_ok noise /\ Forall (fun b => b <> CMD_PING) noise
  | WriteLz4 a z osz crc =>
      is_u32 a /\ is_u32 (Z.of_nat (length z)) /\ is_u32 osz /\ is_u32 crc /\ bytes_ok z /\
      a + osz <= 0x100000000 /\
      (DTCM_ADDRESS + Z.of_nat (length z) <= a \/ a + osz <= DTCM_ADDRESS)
  | RamWrite a data crc =>
      is_u32 a /\ is_u32 (Z.of_nat (length data)) /\ bytes_ok data /\ is_u32 crc /\
      a + Z.of_nat (length data) <= 0x100000000
  | Unknown b => is_byte b /\ b ∉ commands
  end.
Definition request_size (r : request) : nat :=
  match r with
  | SetSpeed _ noise => length noise
  | WriteLz4 _ z _ _ => length z
  | RamWrite _ data _ => length data
  | _ => 0
  end.
Definition response (r : request) : list Z :=
  match r with
  | Ping | SetSpeed _ _ => [STATUS_PONG]
  | InitExtram a s => [if extram_valid a s then STATUS_SUCCESS else STATUS_FAILURE]
  | WriteLz4 _ z osz crc => [if lz4_accepts z osz crc then STATUS_SUCCESS else STATUS_FAILURE]
  | RamWrite _ data crc =>
      [if crc =? not32 (crc32_list CRC32_INITIAL_VALUE data) then STATUS_SUCCESS else STATUS_FAILURE]
  | Unknown _ => []
  end.
(** What the request does to physical memory. *)
Definition effect (r : request) (m m' : gmap Z Z) : Prop :=
  match r with
  | WriteLz4 a z osz _ => lz4_written a z osz m m'
  | RamWrite a data _ => phys (mem_put m a data) m'
  | _ => phys m m'
  end.
Inductive effects : list request -> gmap Z Z -> gmap Z Z -> Prop :=
  | effects_nil m : effects [] m m
  | effects_cons r rs m1 m2 m3 : effect r m1 m2 -> effects rs m2 m3 -> effects (r :: rs) m1 m3.
Lemma effects_snoc rs r m1 m2 m3 : effects rs m1 m2 -> effect r m2 m3 -> effects (rs ++ [r]) m1 m3.
Proof.
  induction 1 as [m|r' rs m1 m2 m2' H1 H2 IH]; intros He; simpl.
  - eapply effects_cons; [done|constructor].
  - eapply effects_cons; [done|auto].
Qed.

Section Session.
Context {D A : Type} `{!Device D} `{B : Board} `{!UsartLine USART0 D, !CacheClean D}.
Context (c : Z -> Z) (Hc : forall a, is_u32 (c a)) (Hclk : forall d : D, cgu_reads c d).
Context (Hfpi : 16 <= clock_ideal c ClkFpi1).
Context (f : nat) (Hf : (line_patience (u := USART0) (D := D) + cache_patience (D := D) + 256 < f)%nat).
Implicit Types w : world D A.
#[local] Abbreviation run := (running (D := D) (A := A)).

(** One round of the main loop serves one request. *)
Lemma run_request E Q r rx tx m w : run (encode r ++ rx) tx m w -> request_ok r -> (request_size r < f)%nat ->
  (forall m' w', run rx (tx ++ response r) m' w' -> effect r m m' -> Q tt w') ->
  wp E main_step Q f w.
Proof.
  intros Hr Hok Hsz HQ. assert (line_patience (u := USART0) (D := D) + 256 < f)%nat as Hf' by lia.
  assert (is_byte (opcode r)) as Hb by (destruct r; try (by vm_compute); by destruct Hok).
  unfold encode in Hr. rewrite <- app_comm_cons in Hr.
  unfold main_step. apply wp_bind. eapply run_getc; [done|exact Hr|done|]. intros w1 Hr1.
  apply wp_bind. eapply run_serve; [exact Hr1|]. intros w2 Hr2. clear w w1 Hr Hr1.
  destruct r; cbn [opcode payload request_ok] in *.
  - eapply run_ping; [done|exact Hr2|]. intros w3 Hr3. by apply (HQ m).
  - destruct Hok. rewrite <- app_assoc in Hr2.
    eapply run_init_extram; [done|exact Hr2|done..|]. intros w3 Hr3. by apply (HQ m).
  - destruct Hok as (? & ? & ? & ?). rewrite <- !app_assoc in Hr2.
    eapply run_set_speed; [done|exact Hc|exact Hclk|exact Hr2|done..|]. intros w3 Hr3. by apply (HQ m).
  - destruct Hok as (? & ? & ? & ? & ? & ? & ?). rewrite <- !app_assoc in Hr2.
    eapply run_write_lz4; [done|exact Hr2|done..|]. intros m' w3 Hr3 He. by apply (HQ m').
  - destruct Hok as (? & ? & ? & ? & ?). rewrite <- !app_assoc in Hr2.
    eapply run_ram_write; [done|exact Hr2|done..|]. intros w3 Hr3. by apply (HQ (mem_put m address data)).
  - destruct Hok as [_ Hno]. unfold commands in Hno.
    rewrite !not_elem_of_cons in Hno. destruct Hno as (? & ? & ? & ? & ? & ? & _).
    repeat match goal with |- context [Z.eqb b ?k] => destruct (Z.eqb_spec b k); [done|] end.
    apply wp_ret, (HQ m); [|done]. by rewrite app_nil_r.
Qed.

Lemma run_goto (E : cause -> world D A -> Prop) Q address rx tx m w :
  run (CMD_GOTO :: le_bytes 4 address ++ rx) tx m w -> is_u32 address ->
  (forall w', run rx (tx ++ [STATUS_SUCCESS]) m w' -> flushed USART0 (w_log w') -> E (Jumped address) w') ->
  wp E main_step Q f w.
Proof.
  intros Hr Ha HE. assert (line_patience (u := USART0) (D := D) + 256 < f)%nat as Hf' by lia.
  apply wp_bind. eapply run_getc; [done|exact Hr|by vm_compute|]. intros w1 Hr1.
  apply wp_bind. eapply run_serve; [exact Hr1|]. intros w2 Hr2.
  change (wp E cmd_goto Q f w2). apply wp_bind. eapply run_u32; [done|exact Hr2|done|]. intros w3 Hr3.
  apply wp_bind. eapply run_putc; [done|exact Hr3|]. intros w4 Hr4. clear w w1 w2 w3 Hr Hr1 Hr2 Hr3.
  apply wp_bind. destruct Hr4 as (Hl4 & Hph4 & Hok4 & Ht4).
  eapply wp_usart_flush; [lia|exact Hl4|]. intros w5 Hl5 Em5 [El5 _] Hfl5.
  assert (settled rx (tx ++ [STATUS_SUCCESS]) m w5) as Hr5 by (split; [unfold running; rewrite Em5, El5; done|done]).
  apply wp_bind, wp_bind.
  eapply (wp_iter _ _ (fun _ w' => settled rx (tx ++ [STATUS_SUCCESS]) m w') (fun _ w' => cache_wait (w_dev w')));
    [exact Hr5|pose proof (cache_wait_le (w_dev w5)); lia|].
  intros [] w6 Hr6. apply wp_bind, wp_bind. eapply settled_rd; [done|exact Hr6|].
  intros v d w7 Hrd Ed Hr7. apply wp_ret. cbn [port_wrap]. destruct (Z.testbit (u32 v) 30) eqn:Hbit.
  - apply wp_ret. apply wp_bind. eapply settled_quiet; [done|exact Hr7|]. intros w8 Hr8.
    eapply settled_quiet; [done|exact Hr8|]. intros w9 Hr9.
    apply wp_bind, wp_bind. eapply settled_rd; [done|exact Hr9|]. intros v10 d10 w10 _ _ Hr10.
    eapply settled_quiet; [done|exact Hr10|]. intros w11 Hr11. destruct Hr11. by apply wp_stop, HE.
  - apply wp_bind, wp_ret, wp_ret. split; [exact Hr7|]. rewrite Ed. by eapply cache_clean_read.
Qed.

(** The main loop serves the requests in order, then jumps. *)
Lemma run_loop (E : cause -> world D A -> Prop) reqs0 entry rest tx0 m0 w :
  run (concat (map encode reqs0) ++ CMD_GOTO :: le_bytes 4 entry ++ rest) tx0 m0 w ->
  Forall request_ok reqs0 -> Forall (fun r => (request_size r < f)%nat) reqs0 -> is_u32 entry ->
  (forall m w', run rest (tx0 ++ concat (map response reqs0) ++ [STATUS_SUCCESS]) m w' -> flushed USART0 (w_log w') -> effects reqs0 m0 m ->
     E (Jumped entry) w') ->
  forall n, (length reqs0 < n)%nat ->
  wp E (loop n (fun _ : unit => main_step;; mret (inl tt)) tt) (fun (_ : unit) _ => False) f w.
Proof.
  intros Hr Hok Hsz He HE n. revert tx0 m0 w Hr Hok Hsz HE n.
  induction reqs0 as [|r reqs IH]; intros tx0 m0 w Hr Hok Hsz HE n Hn;
    (destruct n as [|n]; [simpl in Hn; lia|]); apply wp_loop_S, wp_bind.
  - eapply run_goto; [exact Hr|done|]. intros w1 Hr1 Hfl. eapply HE; [exact Hr1|exact Hfl|constructor].
  - apply Forall_cons in Hok as [Hok1 Hok]. apply Forall_cons in Hsz as [Hsz1 Hsz].
    cbn [map concat] in Hr. rewrite <- app_assoc in Hr.
    eapply run_request; [exact Hr|done|done|]. intros m1 w1 Hr1 He1. apply wp_ret.
    eapply (IH _ m1); [exact Hr1|done|done| |simpl in Hn; lia].
    intros m2 w2 Hr2 Hfl He2. eapply (HE m2); [|exact Hfl|by eapply effects_cons].
    cbn [map concat]. by rewrite <- app_assoc, app_assoc.
Qed.

Lemma run_stm w : clock_ideal c ClkStm <> 0 ->
  forall (I : D -> Prop) E, I (w_dev w) ->
  wp E cpu_get_stm_freq (fun v w' => v <> 0 /\ framed I w w') f w.
Proof.
  intros Hstm I E HI. destruct (ret_stm (A := A) c Hc f w (Hclk _)) as [log E1].
  unfold wp. rewrite E1. done.
Qed.
End Session.

(** C12. The preloader refines its protocol: from power-on, for any sequence of well-formed
    requests followed by a jump request, [main] announces itself, answers each request as
    the protocol says and in order, changes physical memory by the effects of the
    requests and nothing else, and jumps to the requested address with the answers
    flushed: after the last byte it wrote, the transmit FIFO was seen empty and then the
    transmitter ready, and no byte follows.  Nothing the host sends in a well-formed request can make it fault, divide
    by zero, hang or touch memory it was not asked to write. *)
Theorem preloader_session {D A} `{!Device D} `{B : Board} `{!UsartLine USART0 D, !CacheClean D}
    (c : Z -> Z) (reqs : list request) (entry : Z) (rest : list Z) (f : nat) (w : world D A) :
  (forall a, is_u32 (c a)) -> (forall d : D, cgu_reads c d) ->
  clock_ideal c ClkStm <> 0 -> 16 <= clock_ideal c ClkFpi1 ->
  line USART0 (concat (map encode reqs) ++ CMD_GOTO :: le_bytes 4 entry ++ rest) [] (w_dev w) ->
  Forall request_ok reqs -> is_u32 entry -> mem_ok (w_mem w) ->
  (line_patience (u := USART0) (D := D) + cache_patience (D := D) + 256 + length reqs < f)%nat ->
  Forall (fun r => (request_size r < f)%nat) reqs ->
  exists w' m', main f w = Stop (Jumped entry) w' /\
    line USART0 rest (STATUS_READY :: concat (map response reqs) ++ [STATUS_SUCCESS]) (w_dev w') /\
    flushed USART0 (w_log w') /\ effects reqs (w_mem w) m' /\ phys m' (w_mem w').
Proof.
  intros Hc Hclk Hstm Hfpi Hl Hok He Hmem Hf Hsz.
  enough (wp (fun k w' => k = Jumped entry /\ exists m',
    line USART0 rest (STATUS_READY :: concat (map response reqs) ++ [STATUS_SUCCESS]) (w_dev w') /\
    flushed USART0 (w_log w') /\ effects reqs (w_mem w) m' /\ phys m' (w_mem w')) main (fun (_ : unit) _ => False) f w) as H.
  { unfold wp in H. destruct (main f w) as [|k w']; [done|]. destruct H as (-> & m' & ?). by exists w', m'. }
  set (rx := concat _ ++ _) in Hl. apply wp_bind, wp_wr, wp_bind.
  eapply (wp_wdt_init_custom _ (wdt_line rx [])); [by apply line_stable| |].
  { intros w1 Hw1. apply (run_stm c Hc Hclk f w1); auto. }
  intros w1 Hl1 Em1 _ Ht1 _. apply wp_bind. eapply (run_putc f ltac:(lia) _ _ _ rx [] (w_mem w) w1).
  - split_and!; [done|by rewrite Em1|by rewrite Em1|done].
  - intros w2 Hr2. unfold iter. eapply run_loop; [exact Hc|exact Hclk|done| |exact Hr2|done|done|done| |]; [lia| |lia].
    intros m w3 (Hl3 & Hph3 & _) Hfl Heff. split; [done|]. by exists m.
Qed.

(** ** The external RAM window *)

(** The region an [EBU_ADDRSEL] value selects: a base aligned to a size of [2^(27 - mask)]. *)
Definition addrsel_region (v : Z) : Z * Z :=
  let mask := (v .& EBU_ADDRSEL_MASK) .>> EBU_ADDRSEL_MASK_SHIFT in
  (v .& EBU_ADDRSEL_BASE, 2 ^ (27 - mask)).

(** A power of two has one bit. *)
Lemma pow2_land_pred x : 0 < x -> (x .& (x - 1)) = 0 -> x = 2 ^ Z.log2 x.
Proof.
  intros Hx H. destruct (Z.log2_spec x Hx) as [H1 H2]. set (k := Z.log2 x) in *.
  assert (0 <= k) by apply Z.log2_nonneg. destruct (Z.eq_dec x (2 ^ k)) as [|Hne]; [done|].
  apply (f_equal (fun z => Z.testbit z k)) in H. rewrite Z.land_spec, Z.testbit_0_l in H.
  rewrite Z.pow_succ_r in H2 by done.
  assert (forall y, 2 ^ k <= y < 2 * 2 ^ k -> Z.testbit y k = true) as Hb.
  { intros y Hy. rewrite Z.testbit_true by done.
    assert (y / 2 ^ k = 1) as ->; [|done]. symmetry. apply Z.div_unique with (y - 2 ^ k); lia. }
  rewrite !Hb in H by lia. done.
Qed.
Lemma land_pow2_pred a k : 0 <= k -> (a .& (2 ^ k - 1)) = a mod 2 ^ k.
Proof. intros Hk. rewrite <- Z.land_ones by done. by rewrite Z.ones_equiv. Qed.

Lemma extram_valid_spec address size : is_u32 size ->
  extram_valid address size = true <->
  exists k, 12 <= k <= 27 /\ size = 2 ^ k /\ (2 ^ k | address).
Proof.
  intros Hs. unfold extram_valid. rewrite !andb_true_iff, !negb_true_iff, !Z.ltb_ge, !Z.eqb_eq.
  split.
  - intros [[[H1 H2] H3] H4]. rewrite u32_small in * by (unfold is_u32; lia).
    pose proof (pow2_land_pred size ltac:(lia) H3) as E. set (k := Z.log2 size) in *. exists k.
    assert (12 <= k) by (apply (Z.log2_le_mono 0x1000); lia).
    assert (k <= 27) by (apply (Z.log2_le_mono _ 0x08000000); lia).
    split_and!; [lia..|done|]. rewrite E, land_pow2_pred in H4 by lia. apply Z.mod_divide; [|done].
    apply Z.pow_nonzero; lia.
  - intros (k & Hk & -> & Hd). assert (2 ^ 12 <= 2 ^ k <= 2 ^ 27) by (split; apply Z.pow_le_mono_r; lia).
    change (2 ^ 12) with 0x1000 in *. change (2 ^ 27) with 0x08000000 in *.
    rewrite u32_small by (unfold is_u32; lia). rewrite !land_pow2_pred by lia. split_and!; [lia..| |].
    + apply Z.mod_same, Z.pow_nonzero; lia.
    + apply Z.mod_divide; [apply Z.pow_nonzero; lia|done].
Qed.
Lemma ctz_pow2 k : 0 <= k -> ctz (2 ^ k) = k.
Proof.
  intros Hk. unfold ctz. assert ((2 ^ k .& - 2 ^ k) = 2 ^ k) as ->; [|by apply Z.log2_pow2].
  apply Z.bits_inj'. intros i Hi. rewrite Z.land_spec, Z.pow2_bits_eqb by done.
  destruct (Z.eqb_spec k i) as [<-|]; [|done]. simpl.
  rewrite Z.bits_opp by done. rewrite <- Z.ones_equiv. by rewrite Z.ones_spec_high by lia.
Qed.

(** [cmd_init_extram] accepts exactly the windows the memory controller can map (a
    power of two from 4 KiB to 128 MiB at an address aligned to it), and the value it
    writes to [EBU_ADDRSEL(1)] then enables exactly the requested window. *)
Theorem init_extram_window {D A} `{!Device D} (address size : Z) (f : nat) (w : world D A) :
  is_u32 address -> is_u32 size ->
  (extram_valid address size = true <-> exists k, 12 <= k <= 27 /\ size = 2 ^ k /\ (2 ^ k | address)) /\
  (extram_valid address size = true ->
   exists v w' writes, extram_setup address size f w = Done tt w' /\
     w_log w' = writes ++ Wr (Mmio 32 (EBU_ADDRSEL 1)) v :: w_log w /\ length writes = 4%nat /\
     addrsel_region v = (address, size) /\ (v .& EBU_ADDRSEL_REGENAB) <> 0 /\ w_mem w' = w_mem w).
Proof.
  intros Ha Hs. split; [by apply extram_valid_spec|].
  intros (k & Hk & -> & Hd)%extram_valid_spec; [|done].
  unfold extram_setup. rewrite ctz_pow2 by lia. rewrite (u32_small (27 - k)) by (unfold is_u32; lia).
  set (v := address .| _ .| _). assert (0 <= 27 - k < 16) as Hm by lia.
  assert (exists q, address = q * 2 ^ 12) as [q Eq].
  { destruct Hd as [q ->]. exists (q * 2 ^ (k - 12)). rewrite <- Z.mul_assoc, <- Z.pow_add_r by lia. do 2 f_equal. lia. }
  assert (u32 ((27 - k) .<< EBU_ADDRSEL_MASK_SHIFT) = (27 - k) * 16) as Em.
  { change EBU_ADDRSEL_MASK_SHIFT with 4. rewrite Z.shiftl_mul_pow2 by lia. change (2 ^ 4) with 16.
    apply u32_small. unfold is_u32. lia. }
  unfold v in *. rewrite Em in *. clear v.
  assert (address .& 0xFFF = 0) as Elow.
  { change 0xFFF with (Z.ones 12). rewrite Z.land_ones, Eq by lia. apply Z.mod_mul. done. }
  assert (forall m, ((address .| (27 - k) * 16 .| EBU_ADDRSEL_REGENAB) .& m) =
    (address .& m) .| ((27 - k) * 16 .& m) .| (EBU_ADDRSEL_REGENAB .& m)) as Hdist
    by (intros m; by rewrite !Z.land_lor_distr_l).
  assert (forall m, (m .& 0xFFF) = m -> (address .& m) = 0) as Hlow.
  { intros m <-. rewrite (Z.land_comm m), Z.land_assoc, Elow. apply Z.land_0_l. }
  assert (exists n, 27 - k = Z.of_nat n /\ (n < 16)%nat) as (n & En & Hn) by (exists (Z.to_nat (27 - k)); lia).
  rewrite En in *.
  assert ((Z.of_nat n * 16 .& EBU_ADDRSEL_MASK) = Z.of_nat n * 16 /\ (Z.of_nat n * 16 .& EBU_ADDRSEL_BASE) = 0 /\
    (Z.of_nat n * 16 .& EBU_ADDRSEL_REGENAB) = 0 /\ is_u32 (Z.of_nat n * 16)) as (E1 & E2 & E3 & E4).
  { clear -Hn. do 16 (destruct n as [|n]; [by split_and!; vm_compute|]). lia. }
  assert (address .& EBU_ADDRSEL_BASE = address) as Ehigh.
  { change EBU_ADDRSEL_BASE with (Z.lnot 0xFFF .& 0xFFFFFFFF). rewrite Z.land_assoc, land_ones_u32.
    rewrite u32_small.
    - rewrite <- Z.ldiff_land. pose proof (Z.lor_ldiff_and address 0xFFF) as H. rewrite Elow, Z.lor_0_r in H. done.
    - rewrite <- Z.ldiff_land. pose proof (Z.lor_ldiff_and address 0xFFF) as H. rewrite Elow, Z.lor_0_r in H.
      by rewrite H. }
  set (v := address .| _ .| _) in *.
  assert (is_u32 v) as Hv by (unfold v; word_ok; done).
  eexists v, _, [_; _; _; _]. split; [|split; [|split; [done|]]].
  - unfold mbind, M_bind, wr32, wr, port_wrap. rewrite (u32_small v Hv). reflexivity.
  - reflexivity.
  - split_and!; [|by rewrite Hdist, Hlow, E3|done]. unfold addrsel_region.
    rewrite !Hdist, Ehigh, E1, E2, (Hlow EBU_ADDRSEL_MASK) by done.
    replace (EBU_ADDRSEL_REGENAB .& EBU_ADDRSEL_MASK) with 0 by done.
    replace (EBU_ADDRSEL_REGENAB .& EBU_ADDRSEL_BASE) with 0 by done. rewrite !Z.lor_0_r, Z.lor_0_l.
    change EBU_ADDRSEL_MASK_SHIFT with 4. rewrite Z.shiftr_div_pow2, Z.div_mul by lia. do 2 f_equal. lia.
Qed.

(** ** A concrete session: write a program, ping, jump to it *)
Definition boot_cache : @CacheClean script (script_device USART0 boot_regs).
Proof.
  refine {| cache_wait _ := 0%nat; cache_patience := 0%nat |}; [done|].
  intros d d' v Hr. cbn [script_device dev_read] in Hr.
  destruct (decide _) as [Hd|_]; [discriminate Hd|]. destruct (decide _) as [Hd|_]; [discriminate Hd|].
  destruct (decide _) as [Hd|_]; [discriminate Hd|]. injection Hr as <- <-. done.
Defined.
Definition boot_program : list Z := [0x11; 0x22; 0x33].
Definition boot_requests : list request :=
  [RamWrite 0x8000 boot_program (not32 (crc32_list CRC32_INITIAL_VALUE boot_program)); Ping].
Definition boot_world : world script unit :=
  script_world (concat (map encode boot_requests) ++ CMD_GOTO :: le_bytes 4 0x8000) ∅ lib_zero.

Lemma preloader_session_witness :
  let B := plain_board PMB8876 in
  exists w' m', main (Device0 := script_device USART0 boot_regs) 300%nat boot_world = Stop (Jumped 0x8000) w' /\
    s_tx (w_dev w') = [STATUS_READY; STATUS_SUCCESS; STATUS_PONG; STATUS_SUCCESS] /\
    flushed USART0 (w_log w') /\ effects boot_requests ∅ m' /\ phys m' (w_mem w').
Proof.
  intros B.
  destruct (preloader_session (Device0 := script_device USART0 boot_regs)
    (UsartLine0 := script_line USART0 boot_regs) (CacheClean0 := boot_cache) boot_clocks
    boot_requests 0x8000 [] 300%nat boot_world boot_clocks_u32 boot_reads) as (w' & m' & H1 & [_ H2] & H3 & H4 & H5).
  - by vm_compute.
  - by vm_compute.
  - split; [|done]. exists []. split; [by vm_compute|bytes_tac].
  - repeat apply Forall_cons_2; [|done|by apply Forall_nil].
    cbn [request_ok]. split_and!;
      [by split; vm_compute|by split; vm_compute|bytes_tac|by split; vm_compute|by vm_compute].
  - by split; vm_compute.
  - by apply mem_ok_b_spec.
  - by apply Nat.ltb_lt.
  - repeat apply Forall_cons_2; [by apply Nat.ltb_lt|by apply Nat.ltb_lt|by apply Forall_nil].
  - exists w', m'. split; [exact H1|]. split; [|split; [exact H3|split; [exact H4|exact H5]]]. etransitivity; [exact H2|].
    vm_compute. reflexivity.
Defined.
Lemma init_extram_window_witness :
  extram_valid 0xA8000000 0x00800000 = true /\
  exists v w' writes, extram_setup (Device0 := regs_device) 0xA8000000 0x00800000 0%nat example_world = Done tt w' /\
     w_log w' = writes ++ [Wr (Mmio 32 (EBU_ADDRSEL 1)) v] /\ length writes = 4%nat /\
     addrsel_region v = (0xA8000000, 0x00800000) /\ (v .& EBU_ADDRSEL_REGENAB) <> 0 /\ w_mem w' = ∅.
Proof.
  split; [reflexivity|].
  apply (init_extram_window (Device0 := regs_device) 0xA8000000 0x00800000 0%nat example_world
    ltac:(by vm_compute) ltac:(by vm_compute)). reflexivity.
Defined.
