(* ===== verification/Smbus.v ===== *)
(** * I2C transfers with SMBus framing ([lib/i2c.c], [lib/pmb681x.c])

    [lib/i2c.c] is written against [i2c-internal.h]: [i2c_hw_init], [i2c_hw_write] and
    [i2c_hw_read], of which the build picks one implementation ([I2cV1.v] for PMB8875,
    [I2cV2.v] for PMB8876).  That interface is the class [I2cHw]: the operations, and what
    they promise whatever the bus does. *)
From S2P Require Import Prelude Machine Board Regs Clock Stopwatch Wdt Usart Gf2.

(** ** The hardware interface *)

(** What a transfer into [n] bytes at [a] leaves alone. *)
Definition touched {D A} (I : D -> Prop) (a n : Z) (w w' : world D A) : Prop :=
  I (w_dev w') /\
  (forall x, ~ (a <= x < a + n) -> mem_get (w_mem w') x = mem_get (w_mem w) x) /\
  (forall x, mem_valid (w_mem w) x = true -> mem_valid (w_mem w') x = true) /\
  (mem_ok (w_mem w) -> mem_ok (w_mem w')) /\
  w_app w' = w_app w /\ ticks_per_s (w_lib w') = ticks_per_s (w_lib w).
Definition valid_range (m : gmap Z Z) (a n : Z) : Prop := forall x, a <= x < a + n -> mem_valid m x = true.

Lemma served_touched {D A} (I : D -> Prop) a n (w w' : world D A) : served I w w' -> touched I a n w w'.
Proof. intros (? & E1 & E2 & E3 & _). unfold touched. rewrite E1, E2, E3. by split_and!. Qed.
Lemma framed_touched {D A} (I : D -> Prop) a n (w w' : world D A) : framed I w w' -> touched I a n w w'.
Proof. intros H. by apply served_touched, framed_served. Qed.
Lemma touched_trans {D A} (I : D -> Prop) a n (w1 w2 w3 : world D A) :
  touched I a n w1 w2 -> touched I a n w2 w3 -> touched I a n w1 w3.
Proof.
  intros (_ & E1 & V1 & O1 & A1 & T1) (H & E2 & V2 & O2 & A2 & T2). split_and!; auto; try congruence.
  intros x Hx. by rewrite E2, E1.
Qed.
Lemma touched_weaken {D A} (I : D -> Prop) a n b k (w1 w2 : world D A) :
  b <= a -> a + n <= b + k -> touched I a n w1 w2 -> touched I b k w1 w2.
Proof. intros H1 H2 (? & E1 & ? & ? & ? & ?). split_and!; auto. intros x Hx. apply E1. lia. Qed.
Lemma valid_mono m m' a n : (forall x, mem_valid m x = true -> mem_valid m' x = true) ->
  valid_range m a n -> valid_range m' a n.
Proof. intros H Hv x Hx. auto. Qed.

Class I2cHw (D A : Type) `{!Device D} `{B : Board} := {
  i2c_hw_init : M D A unit;
  i2c_hw_write (address prefix prefix_size data size : Z) : M D A bool;
  i2c_hw_read (address data size : Z) : M D A bool;
  i2c_port : port -> Prop;
  (** No fault, no memory access outside the buffers, no other register: the transfer ends
      in success or failure, or is still polling when the fuel is used up. *)
  i2c_init_spec (I : D -> Prop) E Q f (w : world D A) :
    stable (fun p => i2c_port p \/ wdt_port p) I -> I (w_dev w) ->
    (forall w', framed I w w' -> Q tt w') -> wp E i2c_hw_init Q f w;
  i2c_write_spec (I : D -> Prop) (E : cause -> world D A -> Prop) Q f (w : world D A) address prefix psize data size :
    stable (fun p => i2c_port p \/ wdt_port p) I -> I (w_dev w) -> ticks_per_s (w_lib w) <> 0 ->
    0 <= psize -> 0 <= size -> psize + size + 1 < 0x100000000 -> is_byte address ->
    valid_range (w_mem w) prefix psize -> valid_range (w_mem w) data size -> mem_ok (w_mem w) ->
    (forall w', E OutOfFuel w') ->
    (forall ok w', touched I 0 0 w w' -> Q ok w') ->
    wp E (i2c_hw_write address prefix psize data size) Q f w;
  i2c_read_spec (I : D -> Prop) (E : cause -> world D A -> Prop) Q f (w : world D A) address data size :
    stable (fun p => i2c_port p \/ wdt_port p) I -> I (w_dev w) -> ticks_per_s (w_lib w) <> 0 ->
    is_u32 size -> is_byte address -> valid_range (w_mem w) data size -> mem_ok (w_mem w) ->
    (forall w', E OutOfFuel w') ->
    (forall ok w', touched I data size w w' -> Q ok w') ->
    wp E (i2c_hw_read address data size) Q f w;
}.

(** ** [lib/i2c.c] *)

Definition smbus_pec_bit (pec : Z) : Z :=
  if (pec .& 0x80) !=? 0 then u8 ((pec .<< 1) .^ 0x07) else u8 (pec .<< 1).
Definition smbus_pec_update (pec value : Z) : Z := Nat.iter 8 smbus_pec_bit (pec .^ value).

Section Code.
Context {D A : Type} `{!Device D} `{B : Board} `{Hw : !I2cHw D A}.
#[local] Abbreviation M := (M D A).

Definition i2c_smbus_pec_calculate (address data size : Z) : M Z :=
  foldM (fun pec i => b ← ld8 (data + i); mret (smbus_pec_update pec b))
    (smbus_pec_update 0 (u8 (address .<< 1))) (seqZ 0 size).

Definition i2c_init : M unit := i2c_hw_init.
Definition i2c_write (address data size : Z) : M bool := i2c_hw_write address 0 0 data size.
Definition i2c_read (address data size : Z) : M bool := i2c_hw_read address data size.

(** The local [pec] is in slot 3, [value] and [command] in slot 4, [prefix] and [reg] in
    slot 5, [confirmation] in slot 6. *)
Definition i2c_smbus_write_pec (address data size : Z) : M bool :=
  alloc (LOCAL 3) 1;;
  pec ← i2c_smbus_pec_calculate address data size;
  st8 (LOCAL 3) pec;;
  i2c_hw_write address data size (LOCAL 3) 1.
Definition i2c_smbus_write (address reg size data : Z) : M bool :=
  alloc (LOCAL 5) 1;; st8 (LOCAL 5) reg;;
  i2c_hw_write address (LOCAL 5) 1 data size.
Definition i2c_smbus_write_byte (address reg value : Z) : M bool :=
  alloc (LOCAL 4) 1;; st8 (LOCAL 4) value;;
  i2c_smbus_write address reg 1 (LOCAL 4).
Definition i2c_smbus_read (address reg size data : Z) : M bool :=
  alloc (LOCAL 5) 1;; st8 (LOCAL 5) reg;;
  ok ← i2c_hw_write address (LOCAL 5) 1 0 0;
  if negb ok then mret false else i2c_hw_read address data size.
Definition i2c_smbus_read_byte (address reg value : Z) : M bool := i2c_smbus_read address reg 1 value.

Definition pmb681x_reg_write (reg value : Z) : M bool :=
  alloc (LOCAL 4) 2;; st8 (LOCAL 4) reg;; st8 (LOCAL 4 + 1) value;;
  expected ← i2c_smbus_pec_calculate PMB6812_I2C_ADDR (LOCAL 4) 2;
  alloc (LOCAL 6) 1;;
  ok ← i2c_smbus_write_pec PMB6812_I2C_ADDR (LOCAL 4) 2;
  if negb ok then mret false
  else
    ok ← i2c_read PMB6812_I2C_ADDR (LOCAL 6) 1;
    if negb ok then mret false
    else confirmation ← ld8 (LOCAL 6); mret (confirmation ==? expected).
End Code.

(** ** The packet error code *)
Definition smbus_pec (address : Z) (bs : list Z) : Z :=
  fold_left smbus_pec_update bs (smbus_pec_update 0 (u8 (address .<< 1))).

(** One byte of the code is a permutation of the 256 values that fixes zero. *)
Definition pec_table : list Z := map (Nat.iter 8 smbus_pec_bit) (seqZ 0 256).
Lemma pec_table_ok : NoDup pec_table /\ bytes_ok pec_table /\ Nat.iter 8 smbus_pec_bit 0 = 0.
Proof.
  split; [|split; [bytes_tac|done]]. apply (bool_decide_unpack _). vm_compute. done.
Qed.
Lemma pec_iter_lookup x : is_byte x -> pec_table !! Z.to_nat x = Some (Nat.iter 8 smbus_pec_bit x).
Proof.
  intros Hx. unfold pec_table. rewrite list_lookup_fmap, lookup_seqZ_lt by (unfold is_byte in Hx; lia).
  cbn [fmap option_fmap option_map]. do 2 f_equal. unfold is_byte in Hx. lia.
Qed.
Lemma pec_iter_range x : is_byte x -> is_byte (Nat.iter 8 smbus_pec_bit x).
Proof. intros Hx. destruct pec_table_ok as (_ & H & _). by eapply Forall_lookup_1, pec_iter_lookup. Qed.
Lemma pec_iter_inj x y : is_byte x -> is_byte y ->
  Nat.iter 8 smbus_pec_bit x = Nat.iter 8 smbus_pec_bit y -> x = y.
Proof.
  intros Hx Hy E. destruct pec_table_ok as (H & _).
  pose proof (pec_iter_lookup x Hx) as Ex. pose proof (pec_iter_lookup y Hy) as Ey. rewrite E in Ex.
  pose proof (NoDup_lookup _ _ _ _ H Ex Ey). unfold is_byte in *. lia.
Qed.
Lemma pec_update_range p b : is_byte p -> is_byte b -> is_byte (smbus_pec_update p b).
Proof. intros Hp Hb. apply pec_iter_range. by apply (lxor_range 8). Qed.
Lemma pec_update_inj p q b : is_byte p -> is_byte q -> is_byte b ->
  smbus_pec_update p b = smbus_pec_update q b -> p = q.
Proof.
  intros Hp Hq Hb E. apply pec_iter_inj in E; [|by apply (lxor_range 8)..].
  apply (f_equal (Z.lxor b)) in E. by rewrite !(Z.lxor_comm b), !Z.lxor_assoc, !Z.lxor_nilpotent, !Z.lxor_0_r in E.
Qed.
Lemma pec_fold_inj bs p q : is_byte p -> is_byte q -> bytes_ok bs ->
  fold_left smbus_pec_update bs p = fold_left smbus_pec_update bs q -> p = q.
Proof.
  intros Hp Hq Hb. revert p q Hp Hq. induction Hb as [|b bs Hb Hbs IH]; intros p q Hp Hq E; [done|].
  apply IH in E; [by apply pec_update_inj in E|by apply pec_update_range..].
Qed.
Lemma pec_fold_range bs p : is_byte p -> bytes_ok bs -> is_byte (fold_left smbus_pec_update bs p).
Proof.
  intros Hp Hb. revert p Hp. induction Hb as [|b bs Hb Hbs IH]; intros p Hp; [done|].
  simpl. apply IH. by apply pec_update_range.
Qed.
Lemma smbus_pec_range address bs : bytes_ok bs -> is_byte (smbus_pec address bs).
Proof. apply pec_fold_range, pec_update_range; [done|apply u8_range]. Qed.

(** The code is the remainder modulo x^8 + x^2 + x + 1 of the bytes, high bits first. *)
Definition smbus_generator : Z := 0x107.
Definition transfer_bits (bs : list Z) : list bool := mjoin (map (msb_first 8) bs).
Lemma pec_iter_rem x : is_byte x -> Nat.iter 8 smbus_pec_bit x = remainder 8 smbus_generator (repeat false 8) x.
Proof.
  intros Hx. assert (forallb (fun x => Nat.iter 8 smbus_pec_bit x ==? remainder 8 smbus_generator (repeat false 8) x) (seqZ 0 256) = true) as H
    by (vm_compute; reflexivity).
  rewrite forallb_forall in H. apply Z.eqb_eq, H, list_elem_of_In, elem_of_seqZ. unfold is_byte in Hx. lia.
Qed.
Lemma pec_update_rem p b : is_byte p -> is_byte b -> smbus_pec_update p b = remainder 8 smbus_generator (msb_first 8 b) p.
Proof.
  intros Hp Hb. rewrite (remainder_start 8 smbus_generator) by (done || exact Hp). rewrite poly_msb by exact Hb.
  apply pec_iter_rem. by apply (lxor_range 8).
Qed.
Lemma smbus_pec_rem address bs : bytes_ok bs ->
  smbus_pec address bs = remainder 8 smbus_generator (transfer_bits (u8 (address .<< 1) :: bs)) 0.
Proof.
  intros Hb. change (transfer_bits (u8 (address .<< 1) :: bs)) with (msb_first 8 (u8 (address .<< 1)) ++ transfer_bits bs).
  unfold smbus_pec. rewrite remainder_app, <- pec_update_rem by (done || apply u8_range).
  assert (is_byte (smbus_pec_update 0 (u8 (address .<< 1)))) as Hp by (apply pec_update_range; [done|apply u8_range]).
  revert Hp. generalize (smbus_pec_update 0 (u8 (address .<< 1))). induction Hb as [|b bs Hb Hbs IH]; intros p Hp; [done|].
  change (transfer_bits (b :: bs)) with (msb_first 8 b ++ transfer_bits bs). simpl fold_left.
  rewrite remainder_app, <- pec_update_rem by done. apply IH. by apply pec_update_range.
Qed.

(** ** The transfers *)

(** The scratch objects of this file: slots 3 to 7 (slot 7 is the callers' byte). *)
Definition i2c_scratch : Z := LOCAL 7.
Definition i2c_scratch_size : Z := 5 * slot_size.

Section Transfers.
Context {D A : Type} `{!Device D} `{B : Board} `{Hw : !I2cHw D A}.
Context (I : D -> Prop) (HS : stable (fun p => i2c_port (I2cHw := Hw) p \/ wdt_port p) I).
Context (E : cause -> world D A -> Prop) (HE : forall w, E OutOfFuel w) (f : nat).
Implicit Types w : world D A.
#[local] Abbreviation touch := (touched (A := A) I i2c_scratch i2c_scratch_size).

Definition ready w : Prop := I (w_dev w) /\ ticks_per_s (w_lib w) <> 0 /\ mem_ok (w_mem w).
Lemma touched_ready a n w w' : ready w -> touched I a n w w' -> ready w'.
Proof. intros (_ & Ht & Ho) (Hi & _ & _ & O & _ & T). split_and!; [done|by rewrite T|auto]. Qed.
Lemma touch_none w w' : touched I 0 0 w w' -> touch w w'.
Proof. intros (? & E1 & ? & ? & ? & ?). split_and!; auto. intros x _. apply E1. lia. Qed.
Lemma touch_alloc k n w : 3 <= k <= 7 -> n <= slot_size -> I (w_dev w) ->
  touch w (set_mem w (mem_alloc (LOCAL k) n (w_mem w))).
Proof.
  intros Hk Hn Hi. split_and!; try done.
  - intros x Hx. apply mem_get_alloc_out. unfold i2c_scratch, i2c_scratch_size, LOCAL, slot_size in *. lia.
  - intros x Hx. by apply mem_valid_alloc_mono.
  - apply mem_ok_alloc.
Qed.
Lemma touch_store k a v w : 3 <= k <= 7 -> LOCAL k <= a < LOCAL k + slot_size -> I (w_dev w) ->
  touch w (set_mem w (<[a := u8 v]> (w_mem w))).
Proof.
  intros Hk Hn Hi. split_and!; try done.
  - intros x Hx. cbn [set_mem w_mem]. rewrite mem_get_insert. case_decide; [|done].
    unfold i2c_scratch, i2c_scratch_size, LOCAL, slot_size in *. lia.
  - intros x Hx. by apply mem_valid_insert.
  - intros Ho. apply mem_ok_insert; [done|apply u8_range].
Qed.
(** A one-byte local, declared and filled. *)
Lemma wp_local {R} k v (m : M D A R) Q w : 3 <= k <= 7 -> ready w ->
  (forall w', touch w w' -> ready w' -> valid_range (w_mem w') (LOCAL k) 1 ->
     mem_get (w_mem w') (LOCAL k) = u8 v -> wp E m Q f w') ->
  wp E (alloc (LOCAL k) 1;; st8 (LOCAL k) v;; m) Q f w.
Proof.
  intros Hk Hr HQ. apply wp_bind, wp_alloc, wp_bind, wp_st8; [apply mem_valid_alloc; lia|].
  assert (touch w (set_mem (set_mem w (mem_alloc (LOCAL k) 1 (w_mem w)))
    (<[LOCAL k := u8 v]> (mem_alloc (LOCAL k) 1 (w_mem w))))) as Ht.
  { eapply touched_trans; [apply (touch_alloc k 1); [done|done|apply Hr]|].
    apply (touch_store k); [done|unfold slot_size; lia|apply Hr]. }
  apply HQ; [exact Ht|by eapply touched_ready| |].
  - intros x Hx. by apply mem_valid_insert, mem_valid_alloc.
  - cbn [set_mem w_mem]. rewrite mem_get_insert. by case_decide.
Qed.

Lemma wp_smbus_pec Q w address data bs : mem_at (w_mem w) data bs ->
  valid_range (w_mem w) data (Z.of_nat (length bs)) -> Q (smbus_pec address bs) w ->
  wp E (i2c_smbus_pec_calculate address data (Z.of_nat (length bs))) Q f w.
Proof.
  intros Hat Hv HQ.
  apply (wp_foldM _ _ (fun done r w' => w' = w /\
    r = fold_left smbus_pec_update (take (length done) bs) (smbus_pec_update 0 (u8 (address .<< 1))))).
  - done.
  - intros done_ y todo r w' Hl [-> ->]. apply seqZ_split in Hl as [-> Hlt].
    destruct (lookup_lt_is_Some_2 bs (length done_) ltac:(lia)) as [b Hb].
    apply wp_bind, wp_ld8; [apply Hv; lia|]. apply wp_ret. split; [done|].
    rewrite (mem_at_lookup _ _ _ _ _ Hat Hb), length_app, Nat.add_1_r.
    erewrite take_S_r by done. by rewrite fold_left_app.
  - intros r w' [-> ->]. rewrite length_seqZ_nat, take_ge by done. exact HQ.
Qed.

Lemma wp_i2c_init Q w : I (w_dev w) -> (forall w', framed I w w' -> Q tt w') -> wp E i2c_init Q f w.
Proof. intros. by eapply i2c_init_spec. Qed.
Lemma wp_smbus_write Q w address reg size data : ready w -> is_byte address -> 0 <= size < 0x10000 ->
  valid_range (w_mem w) data size ->
  (forall ok w', touch w w' -> Q ok w') -> wp E (i2c_smbus_write address reg size data) Q f w.
Proof.
  intros Hr Ha Hs Hv HQ. apply wp_local; [done|done|]. intros w1 Ht Hr1 Hv1 _.
  eapply i2c_write_spec; [exact HS|apply Hr1|apply Hr1|lia|lia|lia|done|done| |apply Hr1|done|].
  - eapply valid_mono; [|exact Hv]. apply Ht.
  - intros ok w2 Ht2. apply HQ. eapply touched_trans; [exact Ht|by apply touch_none].
Qed.
Lemma wp_smbus_write_byte Q w address reg value : ready w -> is_byte address ->
  (forall ok w', touch w w' -> Q ok w') -> wp E (i2c_smbus_write_byte address reg value) Q f w.
Proof.
  intros Hr Ha HQ. apply wp_local; [done|done|]. intros w1 Ht Hr1 Hv1 _.
  apply wp_smbus_write; [done|done|lia|done|]. intros ok w2 Ht2. apply HQ. by eapply touched_trans.
Qed.
(** A byte read into the callers' slot. *)
Lemma wp_smbus_read_byte Q w address reg : ready w -> is_byte address -> valid_range (w_mem w) (LOCAL 7) 1 ->
  (forall ok w', touch w w' -> Q ok w') -> wp E (i2c_smbus_read_byte address reg (LOCAL 7)) Q f w.
Proof.
  intros Hr Ha Hv HQ. apply wp_local; [done|done|]. intros w1 Ht Hr1 Hv1 _.
  apply wp_bind. eapply i2c_write_spec; [exact HS|apply Hr1|apply Hr1|lia|lia|lia|done|done| |apply Hr1|done|].
  { intros x Hx. lia. }
  intros ok w2 Ht2. assert (touch w w2) as Htw by (eapply touched_trans; [exact Ht|by apply touch_none]).
  assert (ready w2) as Hr2 by by eapply touched_ready.
  destruct ok; [|by apply wp_ret, HQ]. cbn [negb].
  eapply i2c_read_spec; [exact HS|apply Hr2|apply Hr2|done|done| |apply Hr2|done|].
  - eapply valid_mono; [|exact Hv]. apply Htw.
  - intros ok w3 Ht3. apply HQ. eapply touched_trans; [exact Htw|].
    eapply touched_weaken; [| |exact Ht3]; unfold i2c_scratch, i2c_scratch_size, LOCAL, slot_size; lia.
Qed.

(** The write of a PMIC register: the call succeeds only when the chip confirmed the
    command with its packet error code. *)
Lemma wp_pmb681x_reg_write Q w reg value : ready w ->
  (forall ok w', touch w w' ->
     (ok = true -> mem_get (w_mem w') (LOCAL 6) = smbus_pec PMB6812_I2C_ADDR [u8 reg; u8 value]) -> Q ok w') ->
  wp E (pmb681x_reg_write reg value) Q f w.
Proof.
  intros Hr HQ. unfold pmb681x_reg_write.
  apply wp_bind, wp_alloc, wp_bind, wp_st8; [apply mem_valid_alloc; lia|]. apply wp_bind, wp_st8.
  { apply mem_valid_insert, mem_valid_alloc. lia. }
  set (m1 := mem_put (mem_alloc (LOCAL 4) 2 (w_mem w)) (LOCAL 4) [u8 reg; u8 value]).
  set (w1 := set_mem _ _). assert (w_mem w1 = m1) as Em1 by done.
  assert (touch w w1) as Ht1.
  { eapply touched_trans; [apply (touch_alloc 4 2); [done|done|apply Hr]|]. split_and!; try apply Hr; try done.
    - intros x Hx. rewrite Em1. apply mem_get_put_out. simpl.
      unfold i2c_scratch, i2c_scratch_size, LOCAL, slot_size in *. lia.
    - intros x Hx. rewrite Em1. by apply mem_valid_put.
    - intros Ho. rewrite Em1. apply mem_ok_put; [done|].
      apply Forall_cons_2; [apply u8_range|]. apply Forall_singleton, u8_range. }
  assert (mem_at m1 (LOCAL 4) [u8 reg; u8 value]) as Hat by apply mem_at_put.
  assert (valid_range m1 (LOCAL 4) 2) as Hv1 by (intros x Hx; by apply mem_valid_put, mem_valid_alloc).
  clearbody w1 m1. subst m1.
  apply wp_bind, (wp_smbus_pec _ _ _ _ [u8 reg; u8 value]); [done..|].
  set (pec := smbus_pec _ _). apply wp_bind, wp_alloc.
  set (w2 := set_mem _ _). assert (touch w w2) as Ht2 by (eapply touched_trans; [exact Ht1|];
    apply (touch_alloc 6 1); [done|done|apply Ht1]).
  assert (ready w2) as Hr2 by exact (touched_ready _ _ _ _ Hr Ht2).
  assert (mem_at (w_mem w2) (LOCAL 4) [u8 reg; u8 value]) as Hat2.
  { eapply mem_at_ext; [|exact Hat]. intros x Hx. apply mem_get_alloc_out. simpl in Hx.
    unfold LOCAL, slot_size in *. lia. }
  assert (valid_range (w_mem w2) (LOCAL 4) 2) as Hv2 by (intros x Hx; by apply mem_valid_alloc_mono, Hv1).
  assert (valid_range (w_mem w2) (LOCAL 6) 1) as Hv6 by (intros x Hx; by apply mem_valid_alloc).
  clearbody w2. apply wp_bind. unfold i2c_smbus_write_pec.
  apply wp_bind, wp_alloc, wp_bind. set (w3 := set_mem _ _).
  assert (touch w w3) as Ht3 by (eapply touched_trans; [exact Ht2|]; apply (touch_alloc 3 1); [done|done|apply Hr2]).
  apply (wp_smbus_pec _ _ _ _ [u8 reg; u8 value]).
  { eapply mem_at_ext; [|exact Hat2]. intros x Hx. apply mem_get_alloc_out. simpl in Hx.
    unfold LOCAL, slot_size in *. lia. }
  { intros x Hx. apply mem_valid_alloc_mono, Hv2. simpl in Hx. lia. }
  apply wp_bind, wp_st8; [apply mem_valid_alloc; lia|]. fold pec. set (w4 := set_mem _ _).
  assert (touch w w4) as Ht4.
  { eapply touched_trans; [exact Ht3|]. apply (touch_store 3 (LOCAL 3) pec w3); [lia|unfold slot_size; lia|apply Ht3]. }
  assert (ready w4) as Hr4 by exact (touched_ready _ _ _ _ Hr Ht4).
  eapply i2c_write_spec; [exact HS|apply Hr4|apply Hr4|lia|lia|lia|done| | |apply Hr4|done|].
  { intros x Hx. apply mem_valid_insert, mem_valid_alloc_mono, Hv2. lia. }
  { intros x Hx. apply mem_valid_insert, mem_valid_alloc. lia. }
  intros ok w5 Ht5. assert (touch w w5) as Htw5 by (eapply touched_trans; [exact Ht4|by apply touch_none]).
  assert (ready w5) as Hr5 by exact (touched_ready _ _ _ _ Hr Htw5).
  assert (valid_range (w_mem w5) (LOCAL 6) 1) as Hv56.
  { eapply valid_mono; [apply Ht5|]. intros x Hx. apply mem_valid_insert, mem_valid_alloc_mono. by apply Hv6. }
  destruct ok; cbn [negb]; [|by apply wp_ret, HQ]. apply wp_bind.
  eapply i2c_read_spec; [exact HS|apply Hr5|apply Hr5|done|done|exact Hv56|apply Hr5|done|].
  intros ok w6 Ht6. assert (touch w w6) as Htw6.
  { eapply touched_trans; [exact Htw5|]. eapply touched_weaken; [| |exact Ht6];
      unfold i2c_scratch, i2c_scratch_size, LOCAL, slot_size; lia. }
  destruct ok; cbn [negb]; [|by apply wp_ret, HQ]. apply wp_bind, wp_ld8.
  { apply Ht6, Hv56. lia. }
  apply wp_ret, HQ; [done|]. intros E1. by apply Z.eqb_eq in E1.
Qed.
End Transfers.

(** C18. The packet error code: [i2c_smbus_pec_calculate] computes it over the address and
    the bytes in memory: it is the one byte that is the remainder of their bits, high bits
    first, times x^8, modulo x^8 + x^2 + x + 1; appending it makes the code of the whole transfer zero (the check
    the receiver makes); and a transfer with any one byte changed has another code. *)
Theorem smbus_pec_detects {D A} (w : world D A) (address data : Z) (bs pre post : list Z) (b b' : Z) (f : nat) :
  mem_ok (w_mem w) -> mem_at (w_mem w) data bs -> valid_range (w_mem w) data (Z.of_nat (length bs)) ->
  i2c_smbus_pec_calculate address data (Z.of_nat (length bs)) f w = Done (smbus_pec address bs) w /\
  (forall r, is_byte r -> congruent smbus_generator (dividend 8 0 (transfer_bits (u8 (address .<< 1) :: bs))) r <-> r = smbus_pec address bs) /\
  smbus_pec address (bs ++ [smbus_pec address bs]) = 0 /\
  (bs = pre ++ b :: post -> is_byte b' -> b <> b' -> smbus_pec address (pre ++ b' :: post) <> smbus_pec address bs).
Proof.
  intros Hok Hat Hv. pose proof (mem_at_bytes _ _ _ Hok Hat) as Hb. split_and!.
  - enough (wp total (i2c_smbus_pec_calculate address data (Z.of_nat (length bs)))
      (fun r w' => r = smbus_pec address bs /\ w' = w) f w) as H.
    { unfold wp in H. destruct (i2c_smbus_pec_calculate _ _ _ f w); [by destruct H as [-> ->]|done]. }
    by apply wp_smbus_pec.
  - intros r Hr. pose proof (remainder_congruent 8 smbus_generator ltac:(done) (transfer_bits (u8 (address .<< 1) :: bs)) 0) as Hc.
    rewrite <- smbus_pec_rem in Hc by done. split; [|by intros ->]. intros H.
    eapply (congruent_unique 8 smbus_generator); [done|by split|exact Hr|exact (smbus_pec_range address bs Hb)|exact H|exact Hc].
  - unfold smbus_pec. rewrite fold_left_app. simpl. unfold smbus_pec_update at 1. by rewrite Z.lxor_nilpotent.
  - intros -> Hb' Hne E. apply Forall_app in Hb as [Hpre Hb]. apply Forall_cons in Hb as [Hbb Hpost].
    unfold smbus_pec in E. rewrite !fold_left_app in E. simpl in E.
    set (p := fold_left _ pre _) in E. assert (is_byte p) as Hp by (by apply pec_fold_range; [apply pec_update_range; [done|apply u8_range]|]).
    apply pec_fold_inj in E; [|by apply pec_update_range..|done].
    apply pec_iter_inj in E; [|by apply (lxor_range 8)..]. apply Hne.
    apply (f_equal (Z.lxor p)) in E. by rewrite <- !Z.lxor_assoc, !Z.lxor_nilpotent, !Z.lxor_0_l in E.
Qed.

(** [pmb681x_reg_write] reports success only when the power-management chip confirmed
    the write: the byte it read back is the packet error code of the command it sent;
    whatever the bus does, the call faults nowhere and changes no memory but its locals. *)
Theorem pmb681x_reg_write_confirmed {D A} `{!Device D} `{B : Board} `{Hw : !I2cHw D A} (I : D -> Prop)
    (reg value : Z) (f : nat) (w : world D A) :
  stable (fun p => i2c_port (I2cHw := Hw) p \/ wdt_port p) I -> ready I w ->
  wp partial (pmb681x_reg_write reg value) (fun ok w' =>
    touched I i2c_scratch i2c_scratch_size w w' /\
    (ok = true -> mem_get (w_mem w') (LOCAL 6) = smbus_pec PMB6812_I2C_ADDR [u8 reg; u8 value])) f w.
Proof. intros HS Hr. apply (wp_pmb681x_reg_write I HS partial); [done|done|]. by split. Qed.

(** ** A bus that answers, for examples: every write is acknowledged, every read gives [answer] *)
Definition answer_read {D A} (answer data size : Z) : M D A bool :=
  foldM (fun _ i => st8 (data + i) answer) tt (seqZ 0 size);; mret true.
Lemma answer_read_spec {D A} (I : D -> Prop) E (Q : bool -> world D A -> Prop) f w answer data size :
  I (w_dev w) -> valid_range (w_mem w) data size ->
  (forall ok w', touched I data size w w' -> Q ok w') -> wp E (answer_read answer data size) Q f w.
Proof.
  intros Hi Hv HQ. apply wp_bind.
  apply (wp_foldM _ _ (fun _ _ w' => touched I data size w w')); [by split_and!| |].
  - intros done_ y todo x w' Hl Ht. apply wp_st8.
    + apply Ht, Hv. assert (y ∈ seqZ 0 size) as Hy by (rewrite Hl; set_solver).
      apply elem_of_seqZ in Hy. lia.
    + assert (y ∈ seqZ 0 size) as Hy by (rewrite Hl; set_solver). apply elem_of_seqZ in Hy.
      eapply touched_trans; [exact Ht|]. split_and!; try apply Ht; try done.
      * intros z Hz. cbn [set_mem w_mem]. rewrite mem_get_insert. case_decide; [lia|done].
      * intros z Hz. by apply mem_valid_insert.
      * intros Ho. by apply mem_ok_insert; [|apply u8_range].
  - intros x w' Ht. by apply wp_ret, HQ.
Qed.
Definition answer_bus {D A} (answer : Z) (dev : Device D) (B : Board) : @I2cHw D A dev B.
Proof.
  refine {| i2c_hw_init := mret tt; i2c_hw_write _ _ _ _ _ := mret true;
            i2c_hw_read _ data size := answer_read answer data size; i2c_port _ := False |}.
  - intros. apply wp_ret. auto using framed_refl.
  - intros. apply wp_ret. match goal with H : forall ok w', _ |- _ => apply H end. by split_and!.
  - intros. by eapply answer_read_spec.
Defined.
Lemma smbus_pec_detects_witness :
  let w := world_of_mem (mem_put ∅ 0x1000 [0x12; 0x34]) in
  i2c_smbus_pec_calculate 0x08 0x1000 2 0%nat w = Done (smbus_pec 0x08 [0x12; 0x34]) w /\
  congruent smbus_generator (dividend 8 0 (transfer_bits [0x10; 0x12; 0x34])) (smbus_pec 0x08 [0x12; 0x34]) /\
  smbus_pec 0x08 ([0x12; 0x34] ++ [smbus_pec 0x08 [0x12; 0x34]]) = 0 /\
  smbus_pec 0x08 [0x12; 0x35] <> smbus_pec 0x08 [0x12; 0x34].
Proof.
  intros w. destruct (smbus_pec_detects w 0x08 0x1000 [0x12; 0x34] [0x12] [] 0x34 0x35 0%nat) as (H1 & Hc & H2 & H3).
  - by apply mem_ok_b_spec.
  - by apply mem_at_range.
  - intros x Hx. apply mem_valid_pos. lia.
  - split; [exact H1|]. split; [apply (proj2 (Hc _ (smbus_pec_range 0x08 [0x12; 0x34] ltac:(bytes_tac))) eq_refl)|].
    split; [exact H2|]. apply H3; [done|by split; vm_compute|done].
Defined.
Lemma pmb681x_reg_write_confirmed_witness :
  let B := plain_board PMB8876 in
  let w := World tt ∅ [] (LibState 26000000 0 0 0 0 false) tt in
  wp partial (pmb681x_reg_write (Device0 := no_device) (Hw := answer_bus 0x5A no_device B) 0x0C 0x01) (fun ok w' =>
    touched (fun _ => True) i2c_scratch i2c_scratch_size w w' /\
    (ok = true -> mem_get (w_mem w') (LOCAL 6) = smbus_pec PMB6812_I2C_ADDR [u8 0x0C; u8 0x01])) 0%nat w.
Proof.
  intros B w. apply (pmb681x_reg_write_confirmed (Device0 := no_device) (Hw := answer_bus 0x5A no_device B) (fun _ => True)).
  - done.
  - split; [done|]. split; [done|]. by apply mem_ok_b_spec.
Defined.
