(* ===== verification/I2cV2.v ===== *)
(** * The I2C controller of PMB8876 ([lib/i2c-v2.c])

    The polled driver: 32-bit words into [TXD] and out of [RXD], each after a request;
    every wait is bounded by [I2C_POLL_LIMIT] polls. *)
From S2P Require Import Prelude Machine Board Regs Clock Stopwatch Wdt Usart Crc Smbus.
Import Regs.Pmb8876.

Definition I2C_POLL_LIMIT : Z := 1000000.
Definition I2C_STATUS_CLEAR : Z := 0x3F.
Definition I2C_PROTOCOL_CLEAR : Z := 0x7F.
Definition I2C_ERROR_CLEAR : Z := 0x0F.
Definition I2C_REQUESTS : Z :=
  I2C_RIS_LSREQ_INT .| I2C_RIS_SREQ_INT .| I2C_RIS_LBREQ_INT .| I2C_RIS_BREQ_INT.

Section Code.
Context {D A : Type} `{!Device D} `{B : Board}.
#[local] Abbreviation M := (M D A).

Definition status_clear : M unit :=
  wr32 I2C_ICR I2C_STATUS_CLEAR;;
  wr32 I2C_PIRQSC I2C_PROTOCOL_CLEAR;;
  wr32 I2C_ERRIRQSC I2C_ERROR_CLEAR.

Definition transfer_abort : M unit :=
  wr32 I2C_ENDDCTRL I2C_ENDDCTRL_SETEND;;
  for_limit I2C_POLL_LIMIT (
    stat ← rd32 I2C_BUSSTAT;
    if (stat .& I2C_BUSSTAT_BS) ==? I2C_BUSSTAT_BS_FREE then mret (Some tt)
    else wdt_serve;; mret None) tt;;
  wr32 I2C_RUNCTRL 0;;
  wr32 I2C_RUNCTRL I2C_RUNCTRL_RUN;;
  status_clear.

(** [(status & NACK) != 0 || I2C_ERRIRQSS != 0] *)
Definition bus_failed (status : Z) : M bool :=
  if (status .& I2C_PIRQSS_NACK) !=? 0 then mret true
  else err ← rd32 I2C_ERRIRQSS; mret (err !=? 0).

Definition request_wait : M Z :=
  for_limit I2C_POLL_LIMIT (
    ris ← rd32 I2C_RIS;
    let request := ris .& I2C_REQUESTS in
    if request !=? 0 then mret (Some request)
    else
      status ← rd32 I2C_PIRQSS;
      failed ← bus_failed status;
      if failed : bool then mret (Some 0) else wdt_serve;; mret None) 0.

Definition transfer_wait : M bool :=
  for_limit I2C_POLL_LIMIT (
    status ← rd32 I2C_PIRQSS;
    failed ← bus_failed status;
    if failed : bool then mret (Some false)
    else if (status .& I2C_PIRQSS_TX_END) !=? 0 then mret (Some true)
    else wdt_serve;; mret None) false.

(** The arguments [byte_get] advances. *)
Record tx_source := TxSource { src_prefix : Z; src_prefix_size : Z; src_data : Z; src_size : Z }.
Definition byte_get (s : tx_source) : M (Z * tx_source) :=
  let '(TxSource prefix prefix_size data size) := s in
  if prefix_size !=? 0 then
    b ← ld8 prefix; mret (b, TxSource (prefix + 1) (u32 (prefix_size - 1)) data size)
  else
    b ← ld8 data; mret (b, TxSource prefix prefix_size (data + 1) (u32 (size - 1))).

Definition i2c_hw_init : M unit :=
  let pin := GPIO_IS_ALT0 .| GPIO_OS_ALT0 .| GPIO_PPEN_OPENDRAIN .| GPIO_PS_ALT .| GPIO_DIR_IN in
  wr32 (GPIO_PIN GPIO_I2C_SCL) pin;;
  wr32 (GPIO_PIN GPIO_I2C_SDA) pin;;
  wr32 I2C_CLC (10 .<< MOD_CLC_RMC_SHIFT);;
  wr32 I2C_RUNCTRL 0;;
  wr32 I2C_ADDRCFG (I2C_ADDRCFG_MnS .| I2C_ADDRCFG_SONA .| I2C_ADDRCFG_SOPE);;
  wr32 I2C_FIFOCFG (I2C_FIFOCFG_RXBS_1_WORD .| I2C_FIFOCFG_TXBS_1_WORD .| I2C_FIFOCFG_RXFA_1 .|
    I2C_FIFOCFG_RXFC .| I2C_FIFOCFG_TXFC);;
  wr32 I2C_FDIVCFG ((0x0A .<< I2C_FDIVCFG_DEC_SHIFT) .| (1 .<< I2C_FDIVCFG_INC_SHIFT));;
  wr32 I2C_RUNCTRL I2C_RUNCTRL_RUN;;
  wr32 I2C_IMSC 0;;
  status_clear.

(** One word: up to four bytes, the address first. *)
Definition word_get (address count : Z) (address_pending : bool) (s : tx_source) : M (Z * bool * tx_source) :=
  foldM (fun '(value, address_pending, s) offset =>
    '(byte, address_pending, s) ←
      (if address_pending : bool then mret (u8 (address .<< 1), false, s)
       else '(b, s) ← byte_get s; mret (b, address_pending, s));
    mret (value .| u32 (byte .<< (offset * 8)), address_pending, s))
    (0, address_pending, s) (seqZ 0 count).

Definition i2c_hw_write (address prefix prefix_size data size : Z) : M bool :=
  let total := u32 (u32 (prefix_size + size) + 1) in
  status_clear;;
  wr32 I2C_TPSCTRL total;;
  sent ← iter (fun '(remaining, address_pending, s) =>
    if remaining !=? 0 then
      request ← request_wait;
      if request ==? 0 then transfer_abort;; mret (inr false)
      else
        let count := if remaining <? 4 then remaining else 4 in
        '(value, address_pending, s) ← word_get address count address_pending s;
        wr32 I2C_TXD value;;
        wr32 I2C_ICR request;;
        mret (inl (u32 (remaining - count), address_pending, s))
    else mret (inr true)) (total, true, TxSource prefix prefix_size data size);
  if negb sent then mret false
  else
    complete ← transfer_wait;
    (if complete : bool then status_clear else transfer_abort);;
    mret complete.

(** The loop of [i2c_hw_read]: [(remaining, receiving, data)], until the transfer is
    complete, fails or the polls are used up. *)
Definition read_step (size : Z) (x : Z * bool * Z) : M (Z * bool * Z + bool) :=
  let '(remaining, receiving, data) := x in
  protocol_status ← rd32 I2C_PIRQSS;
  failed ← bus_failed protocol_status;
  if failed : bool then mret (inr false)
  else
    let receiving := receiving || ((protocol_status .& I2C_PIRQSS_RX) !=? 0) in
    ris ← rd32 I2C_RIS;
    let request := ris .& I2C_REQUESTS in
    take ← (if negb receiving || (request ==? 0) then mret false
            else ffs ← rd32 I2C_FFSSTAT;
                 mret (((ffs .& I2C_FFSSTAT_FFS) !=? 0) && (remaining !=? 0)));
    '(remaining, data) ←
      (if take : bool then
         value ← rd32 I2C_RXD;
         let count := MIN remaining 4 in
         data ← foldM (fun data offset => st8 data (value .>> (offset * 8));; mret (data + 1))
                  data (seqZ 0 count);
         wr32 I2C_ICR request;;
         mret (u32 (remaining - count), data)
       else mret (remaining, data));
    if (remaining ==? 0) && ((protocol_status .& I2C_PIRQSS_TX_END) !=? 0) then
      rps ← rd32 I2C_RPSSTAT;
      mret (inr ((rps .& I2C_RPSSTAT_RPS) ==? size))
    else wdt_serve;; mret (inl (remaining, receiving, data)).
Definition i2c_hw_read (address data size : Z) : M bool :=
  if size ==? 0 then mret true
  else
    status_clear;;
    wr32 I2C_MRPSCTRL size;;
    wr32 I2C_TPSCTRL 1;;
    request ← request_wait;
    if request ==? 0 then transfer_abort;; mret false
    else
      wr32 I2C_TXD (u32 (address .<< 1) .| 1);;
      wr32 I2C_ICR request;;
      complete ← iter (fun '(i, x) =>
        if i <? I2C_POLL_LIMIT then
          r ← read_step size x;
          match r with inl x => mret (inl (i + 1, x)) | inr b => mret (inr b) end
        else mret (inr false)) (0, (size, false, data));
      (if complete : bool then status_clear else transfer_abort);;
      mret complete.
End Code.

(** ** The words of a transfer: bytes packed four at a time, low byte first *)
Fixpoint words (bs : list Z) : list Z :=
  match bs with
  | a :: b :: c :: d :: rest => le_word [a; b; c; d] :: words rest
  | [] => []
  | rest => [le_word rest]
  end.
Lemma words_app n : forall bs cs, length bs = (4 * n)%nat -> words (bs ++ cs) = words bs ++ words cs.
Proof.
  induction n as [|n IH]; intros bs cs H; [by destruct bs|].
  destruct bs as [|a [|b [|c [|d bs]]]]; simpl in H; try lia. simpl. by rewrite IH by lia.
Qed.
Lemma words_short bs : (0 < length bs <= 4)%nat -> words bs = [le_word bs].
Proof. intros H. destruct bs as [|a [|b [|c [|d [|]]]]]; simpl in *; try lia; done. Qed.

(** ** The driver's accesses *)
Definition i2c_v2_port (p : port) : Prop :=
  exists a, p = Mmio 32 a /\
    (I2C_BASE <= a < I2C_BASE + 0x10000 \/ a = GPIO_PIN GPIO_I2C_SCL \/ a = GPIO_PIN GPIO_I2C_SDA).

Section Spec.
Context {D A : Type} `{!Device D} `{B : Board}.
(** [J l]: a property of the device that holds while the words [l] have been given to
    [TXD], and that the other accesses keep. *)
Context (J : list Z -> D -> Prop)
  (HS : forall l, stable (fun p => i2c_v2_port p /\ p <> Mmio 32 I2C_TXD \/ wdt_port p) (J l))
  (HT : forall l v d, J l d -> is_u32 v -> J (l ++ [v]) (dev_write (Mmio 32 I2C_TXD) v d)).
Context (E : cause -> world D A -> Prop) (f : nat).
Implicit Types w : world D A.
Implicit Types l : list Z.

Definition enough (n : Z) : Prop := I2C_POLL_LIMIT + n < Z.of_nat f \/ (forall w, E OutOfFuel w).
Lemma enough_limit n : 0 <= n -> enough n -> 0 <= I2C_POLL_LIMIT < Z.of_nat f \/ (forall w, E OutOfFuel w).
Proof. intros Hn [H|H]; [left; unfold I2C_POLL_LIMIT in *; lia|by right]. Qed.

Lemma v2_wdt l : stable wdt_port (J l).
Proof. eapply stable_weaken; [|apply HS]. intros p Hp. by right. Qed.
Ltac v2_port := left; split; [eexists; split; [reflexivity|left; split; by vm_compute]|by intros [=]].
Lemma served_refl l w : J l (w_dev w) -> served (J l) w w.
Proof. intros H. apply framed_served. by apply framed_refl. Qed.

(** A read or a write of a control register. *)
Lemma v2_rd a l Q w w0 : i2c_v2_port (Mmio 32 a) -> a <> I2C_TXD -> served (J l) w0 w ->
  (forall v w', is_u32 v -> served (J l) w0 w' -> Q v w') -> wp E (rd32 a) Q f w.
Proof.
  intros Ha Hne Hw HQ. apply wp_rd. intros v d Hrd. apply HQ; [apply u32_range|].
  eapply served_trans; [exact Hw|]. apply framed_served. split; [|done]. simpl.
  destruct (HS l (Mmio 32 a) (w_dev w)) as [H _]; [left; split; [done|congruence]|apply Hw|].
  by rewrite Hrd in H.
Qed.
Lemma v2_wr a v l Q w w0 : i2c_v2_port (Mmio 32 a) -> a <> I2C_TXD -> served (J l) w0 w ->
  (forall w', served (J l) w0 w' -> Q tt w') -> wp E (wr32 a v) Q f w.
Proof.
  intros Ha Hne Hw HQ. apply wp_wr, HQ. eapply served_trans; [exact Hw|]. apply framed_served. split; [|done].
  apply (HS l (Mmio 32 a) (w_dev w)); [left; split; [done|congruence]|apply Hw].
Qed.
Ltac case_if := lazymatch goal with |- wp _ (mbind _ (if ?b then _ else _)) _ _ _ => destruct b
                | |- wp _ (if ?b then _ else _) _ _ _ => destruct b end.
Ltac v2_io := repeat
  lazymatch goal with
  | |- wp _ (mbind _ _) _ _ _ => apply wp_bind
  | |- wp _ (mret _) _ _ _ => apply wp_ret
  | |- wp _ (rd32 _) _ _ _ => eapply v2_rd; [eexists; split; [reflexivity|by (left; split; vm_compute)]|by intros [=]|eassumption|];
       intros ? ? ? ?
  | |- wp _ (wr32 _ _) _ _ _ => eapply v2_wr; [eexists; split; [reflexivity|by (left; split; vm_compute)]|by intros [=]|eassumption|];
       intros ? ?
  end.

Lemma v2_serve l Q w w0 : served (J l) w0 w -> ticks_per_s (w_lib w0) <> 0 ->
  (forall w', served (J l) w0 w' -> Q tt w') -> wp E wdt_serve Q f w.
Proof.
  intros Hw Ht HQ. eapply (wp_wdt_serve (J l)); [apply v2_wdt|apply Hw|by destruct Hw as (_ & _ & _ & -> & _)|].
  intros w' Hw'. apply HQ. by eapply served_trans.
Qed.
Lemma v2_status_clear l Q w w0 : served (J l) w0 w ->
  (forall w', served (J l) w0 w' -> Q tt w') -> wp E status_clear Q f w.
Proof. intros Hw HQ. unfold status_clear. v2_io. auto. Qed.
Lemma v2_abort l Q w w0 : served (J l) w0 w -> ticks_per_s (w_lib w0) <> 0 -> enough 0 ->
  (forall w', served (J l) w0 w' -> Q tt w') -> wp E transfer_abort Q f w.
Proof.
  intros Hw Ht Hf HQ. unfold transfer_abort. v2_io.
  eapply (wp_for_limit _ _ _ _ (served (J l) w0)); [eassumption|by eapply enough_limit| |].
  - intros w2 Hw2. v2_io. case_if; v2_io; [by eapply v2_status_clear|].
    eapply v2_serve; [eassumption|done|]. intros w4 Hw4. by v2_io.
  - intros w2 Hw2. v2_io. by eapply v2_status_clear.
Qed.
Lemma v2_failed status l Q w w0 : served (J l) w0 w ->
  (forall b w', served (J l) w0 w' -> Q b w') -> wp E (bus_failed status) Q f w.
Proof. intros Hw HQ. unfold bus_failed. cbv zeta; case_if; v2_io; auto. Qed.
Lemma v2_request l Q w w0 : served (J l) w0 w -> ticks_per_s (w_lib w0) <> 0 -> enough 0 ->
  (forall r w', served (J l) w0 w' -> Q r w') -> wp E request_wait Q f w.
Proof.
  intros Hw Ht Hf HQ. eapply (wp_for_limit _ _ _ _ (served (J l) w0)); [eassumption|by eapply enough_limit| |by auto].
  intros w1 Hw1. v2_io. cbv zeta; case_if; v2_io; [by auto|].
  eapply v2_failed; [eassumption|]. intros [] w3 Hw3; v2_io; [by auto|].
  eapply v2_serve; [eassumption|done|]. intros w4 Hw4. by v2_io.
Qed.
Lemma v2_wait l Q w w0 : served (J l) w0 w -> ticks_per_s (w_lib w0) <> 0 -> enough 0 ->
  (forall b w', served (J l) w0 w' -> Q b w') -> wp E transfer_wait Q f w.
Proof.
  intros Hw Ht Hf HQ. eapply (wp_for_limit _ _ _ _ (served (J l) w0)); [eassumption|by eapply enough_limit| |by auto].
  intros w1 Hw1. v2_io. eapply v2_failed; [eassumption|]. intros [] w3 Hw3; v2_io; [by auto|].
  cbv zeta; case_if; v2_io; [by auto|]. eapply v2_serve; [eassumption|done|]. intros w4 Hw4. by v2_io.
Qed.

(** *** Writing *)
Section Write.
Context (address prefix data : Z) (pre dat : list Z).
(** The bytes on the bus. *)
Definition tx_bytes : list Z := u8 (address .<< 1) :: pre ++ dat.
(** The arguments of [byte_get] once [k] bytes are gone. *)
Definition src_at (k : nat) : tx_source :=
  let j := (k - 1)%nat in
  TxSource (prefix + Z.of_nat (min j (length pre))) (Z.of_nat (length pre - min j (length pre)))
           (data + Z.of_nat (j - min j (length pre)))
           (Z.of_nat (length dat) - Z.of_nat (j - min j (length pre))).
Context (m : gmap Z Z) (Hpre : mem_at m prefix pre) (Hdat : mem_at m data dat) (Hok : mem_ok m)
  (Hvp : valid_range m prefix (Z.of_nat (length pre))) (Hvd : valid_range m data (Z.of_nat (length dat)))
  (Htot : Z.of_nat (length tx_bytes) < 0x100000000).

Lemma tx_bytes_length : length tx_bytes = (1 + length pre + length dat)%nat.
Proof. unfold tx_bytes. simpl. rewrite length_app. lia. Qed.
Lemma tx_bytes_ok : bytes_ok tx_bytes.
Proof.
  apply Forall_cons_2; [apply u8_range|]. apply Forall_app_2; by eapply mem_at_bytes.
Qed.
Lemma wp_byte_get k Q w : w_mem w = m -> (1 <= k < length tx_bytes)%nat ->
  (forall b, tx_bytes !! k = Some b -> Q (b, src_at (k + 1)) w) -> wp E (byte_get (src_at k)) Q f w.
Proof.
  intros Em Hk HQ. rewrite tx_bytes_length in Hk, Htot. unfold byte_get, src_at at 1.
  destruct (Z.eqb_spec (Z.of_nat (length pre - (k - 1) `min` length pre)) 0) as [Hz|Hz]; cbn [negb].
  - assert (length pre <= k - 1)%nat by lia. rewrite Nat.min_r by lia.
    apply wp_bind, wp_ld8; [rewrite Em; apply Hvd; lia|]. apply wp_ret. rewrite Em.
    destruct (lookup_lt_is_Some_2 dat (k - 1 - length pre) ltac:(lia)) as [b Hb].
    rewrite (mem_at_lookup _ _ _ _ _ Hdat Hb).
    assert (tx_bytes !! k = Some b) as Hkb.
    { unfold tx_bytes. replace k with (S (k - 1)) by lia. change ((u8 (address .<< 1) :: pre ++ dat) !! S (k - 1)) with ((pre ++ dat) !! (k - 1)%nat).
      rewrite lookup_app_r by lia. done. }
    specialize (HQ _ Hkb). unfold src_at in HQ. rewrite Nat.min_r in HQ by lia.
    rewrite u32_small by (unfold is_u32; lia).
    replace (k + 1 - 1)%nat with (S (k - 1)) in HQ by lia.
    replace (S (k - 1) - length pre)%nat with (S (k - 1 - length pre)) in HQ by lia.
    rewrite Nat.sub_diag in *. rewrite Nat2Z.inj_succ in HQ.
    replace (data + Z.of_nat (k - 1 - length pre) + 1) with (data + Z.succ (Z.of_nat (k - 1 - length pre))) by lia.
    replace (Z.of_nat (length dat) - Z.of_nat (k - 1 - length pre) - 1)
      with (Z.of_nat (length dat) - Z.succ (Z.of_nat (k - 1 - length pre))) by lia. exact HQ.
  - assert (k - 1 < length pre)%nat by lia. rewrite Nat.min_l by lia.
    apply wp_bind, wp_ld8; [rewrite Em; apply Hvp; lia|]. apply wp_ret. rewrite Em.
    destruct (lookup_lt_is_Some_2 pre (k - 1) ltac:(lia)) as [b Hb].
    rewrite (mem_at_lookup _ _ _ _ _ Hpre Hb).
    assert (tx_bytes !! k = Some b) as Hkb.
    { unfold tx_bytes. replace k with (S (k - 1)) by lia. change ((u8 (address .<< 1) :: pre ++ dat) !! S (k - 1)) with ((pre ++ dat) !! (k - 1)%nat).
      rewrite lookup_app_l by lia. done. }
    specialize (HQ _ Hkb). unfold src_at in HQ. replace (k + 1 - 1)%nat with (S (k - 1)) in HQ by lia.
    rewrite Nat.min_l in HQ by lia. rewrite u32_small by (unfold is_u32; lia).
    rewrite Nat.sub_diag in *. rewrite Nat2Z.inj_succ in HQ.
    replace (prefix + Z.of_nat (k - 1) + 1) with (prefix + Z.succ (Z.of_nat (k - 1))) by lia.
    replace (Z.of_nat (length pre - (k - 1)) - 1) with (Z.of_nat (length pre - S (k - 1))) by lia. exact HQ.
Qed.
Lemma wp_word_get k n Q w : w_mem w = m -> (k + n <= length tx_bytes)%nat -> (n <= 4)%nat ->
  Q (le_word (take n (drop k tx_bytes)), Nat.eqb (k + n) 0, src_at (k + n)) w ->
  wp E (word_get address (Z.of_nat n) (Nat.eqb k 0) (src_at k)) Q f w.
Proof.
  intros Em Hk Hn HQ.
  apply (wp_foldM _ _ (fun done r w' => w' = w /\ (length done <= n)%nat /\
    r = (le_word (take (length done) (drop k tx_bytes)), Nat.eqb (k + length done) 0, src_at (k + length done)))).
  - simpl. rewrite Nat.add_0_r. split_and!; [done|lia|done].
  - intros done_ y todo r w' Hl (-> & Hd & ->). apply seqZ_split in Hl as [-> Hlt].
    set (i := length done_) in *. assert (i < n)%nat by lia.
    destruct (lookup_lt_is_Some_2 tx_bytes (k + i) ltac:(lia)) as [b Hb].
    assert (is_byte b) as Hbb by (eapply Forall_lookup_1; [apply tx_bytes_ok|done]).
    assert (0 <= le_word (take i (drop k tx_bytes)) < 2 ^ (8 * Z.of_nat i)) as Hv.
    { pose proof (Crc.le_word_range (take i (drop k tx_bytes)) ltac:(apply Forall_take, Forall_drop, tx_bytes_ok)) as H1.
      rewrite length_take, length_drop, Nat.min_l in H1 by lia. exact H1. }
    assert (forall p s, p = false -> s = src_at (S (k + i)) ->
      (le_word (take i (drop k tx_bytes)) .| u32 (b .<< (Z.of_nat i * 8)), p, s) =
      (le_word (take (i + 1) (drop k tx_bytes)), Nat.eqb (k + (i + 1)) 0, src_at (k + (i + 1)))) as Hfin.
    { intros p s -> ->. replace (k + (i + 1))%nat with (S (k + i)) by lia. simpl Nat.eqb. f_equal. f_equal.
      rewrite Nat.add_1_r. erewrite take_S_r by (rewrite lookup_drop; done).
      rewrite le_word_snoc, length_take, length_drop, Nat.min_l by lia.
      rewrite u32_small.
      - rewrite lor_shiftl_add by (rewrite Z.mul_comm; lia || done). by rewrite (Z.mul_comm _ 8).
      - rewrite Z.shiftl_mul_pow2 by lia. assert (2 ^ (Z.of_nat i * 8) <= 2 ^ 24) by (apply Z.pow_le_mono_r; lia).
        change (2 ^ 24) with 0x1000000 in *. unfold is_byte, is_u32 in *. nia. }
    rewrite length_app. cbn [length]. fold i.
    apply wp_bind. destruct (Nat.eqb_spec (k + i) 0) as [Hz|Hz].
    + apply wp_ret, wp_ret. rewrite Hz in Hb. injection Hb as ->.
      split_and!; [done|lia|]. apply Hfin; [done|].
      assert (k = 0 /\ i = 0)%nat as [-> ->] by lia. done.
    + apply wp_bind. apply wp_byte_get; [done|lia|]. intros b' Hb'. rewrite Hb in Hb'. injection Hb' as <-.
      apply wp_ret, wp_ret. split_and!; [done|lia|]. apply Hfin; [done|]. by rewrite Nat.add_1_r.
  - intros r w' (-> & _ & ->). by rewrite length_seqZ_nat.
Qed.

Lemma words_take k n : k = (4 * (k / 4))%nat -> (k + n <= length tx_bytes)%nat -> (0 < n <= 4)%nat ->
  words (take (k + n) tx_bytes) = words (take k tx_bytes) ++ [le_word (take n (drop k tx_bytes))].
Proof.
  intros Hk4 Hk Hn. rewrite <- take_take_drop. rewrite (words_app (k / 4)).
  - f_equal. apply words_short. rewrite length_take, length_drop. lia.
  - rewrite length_take. lia.
Qed.
Lemma v2_write Q w : w_mem w = m -> J [] (w_dev w) -> ticks_per_s (w_lib w) <> 0 ->
  enough (Z.of_nat (length tx_bytes)) ->
  (forall (ok : bool) l w', served (J l) w w' -> (ok = true -> l = words tx_bytes) -> Q ok w') ->
  wp E (i2c_hw_write address prefix (Z.of_nat (length pre)) data (Z.of_nat (length dat))) Q f w.
Proof.
  intros Em HJ Ht Hf HQ. pose proof tx_bytes_length as Hlen. unfold i2c_hw_write.
  assert (u32 (u32 (Z.of_nat (length pre) + Z.of_nat (length dat)) + 1) = Z.of_nat (length tx_bytes)) as ->.
  { rewrite (u32_small (Z.of_nat (length pre) + _)), u32_small by (unfold is_u32; lia). lia. }
  assert (enough 0) as Hf0 by (destruct Hf as [|]; [left; lia|by right]).
  apply wp_bind. eapply (v2_status_clear []); [by apply served_refl|]. intros w1 Hw1.
  v2_io. match goal with H : served (J []) w ?x |- wp _ _ _ _ ?x => rename x into w2; rename H into Hw2 end.
  clear w1 Hw1.
  eapply (wp_iter_or _ _ (fun x w' => exists k, x = (Z.of_nat (length tx_bytes - k), Nat.eqb k 0, src_at k) /\
      (k <= length tx_bytes)%nat /\ (k = (4 * (k / 4))%nat \/ k = length tx_bytes) /\
      served (J (words (take k tx_bytes))) w w')
    (fun x _ => Z.to_nat x.1.1)).
  { exists 0%nat. rewrite Nat.sub_0_r. unfold src_at. cbn. rewrite !Nat.sub_0_r, !Z.add_0_r, Z.sub_0_r.
    split_and!; [done|lia|by left|exact Hw2]. }
  { destruct Hf as [Hf|Hf]; [left; cbn [fst]; unfold I2C_POLL_LIMIT in Hf; lia|by right]. }
  intros x w3 (k & -> & Hk & Hk4 & Hw3).
  destruct (Z.eqb_spec (Z.of_nat (length tx_bytes - k)) 0) as [Hz|Hz]; cbn [negb].
  - apply wp_ret. apply wp_bind. assert (k = length tx_bytes) as -> by lia. rewrite take_ge in Hw3 by done.
    eapply v2_wait; [exact Hw3|done..|]. intros ok w4 Hw4. apply wp_bind.
    destruct ok; [eapply v2_status_clear|eapply v2_abort]; try done; intros w5 Hw5; apply wp_ret;
      (eapply HQ; [exact Hw5|done]).
  - destruct Hk4 as [Hk4|Hk4]; [|lia].
    apply wp_bind. eapply v2_request; [exact Hw3|done..|]. intros r w4 Hw4. case_if.
    + apply wp_bind. eapply v2_abort; [exact Hw4|done..|]. intros w5 Hw5. apply wp_ret, wp_ret.
      by eapply HQ.
    + cbv zeta. set (n := Z.to_nat (if Z.of_nat (length tx_bytes - k) <? 4 then Z.of_nat (length tx_bytes - k) else 4)).
      assert ((if Z.of_nat (length tx_bytes - k) <? 4 then Z.of_nat (length tx_bytes - k) else 4) = Z.of_nat n /\
        (0 < n <= 4)%nat /\ (k + n <= length tx_bytes)%nat /\ (n = 4%nat \/ (k + n)%nat = length tx_bytes)) as (-> & Hn & Hkn & Hn4).
      { unfold n. destruct (Z.ltb_spec (Z.of_nat (length tx_bytes - k)) 4); lia. }
      clearbody n.
      apply wp_bind, wp_word_get; [by destruct Hw4 as (_ & -> & _)|done|lia|].
      assert (is_u32 (le_word (take n (drop k tx_bytes)))) as Hv.
      { pose proof (Crc.le_word_range (take n (drop k tx_bytes)) ltac:(apply Forall_take, Forall_drop, tx_bytes_ok)) as H1.
        rewrite length_take, length_drop, Nat.min_l in H1 by lia.
        assert (2 ^ (8 * Z.of_nat n) <= 2 ^ 32) by (apply Z.pow_le_mono_r; lia). unfold is_u32. lia. }
      apply wp_bind, wp_wr. unfold port_wrap. rewrite (u32_small _ Hv).
      assert (served (J (words (take (k + n) tx_bytes))) w (set_io w4
        (dev_write (Mmio 32 I2C_TXD) (le_word (take n (drop k tx_bytes))) (w_dev w4))
        (Wr (Mmio 32 I2C_TXD) (le_word (take n (drop k tx_bytes)))))) as Hw5.
      { destruct Hw4 as (HJ4 & ?). split; [|done]. rewrite words_take by done. by apply HT. }
      v2_io. split.
      * exists (k + n)%nat. split_and!; [|lia| |assumption].
        -- f_equal. f_equal. rewrite u32_small by (unfold is_u32; lia). lia.
        -- destruct Hn4 as [->|]; [left|by right]. rewrite Hk4 at 1.
           replace ((k + 4) / 4)%nat with (S (k / 4)); [lia|].
           replace (k + 4)%nat with (k + 1 * 4)%nat by lia. rewrite Nat.div_add by lia. lia.
      * cbn [fst]. rewrite u32_small by (unfold is_u32; lia). lia.
Qed.
End Write.

(** *** Reading *)
Lemma v2_store value count data w0 w Q l lo size : (0 <= count <= 4) -> lo <= data -> data + count <= lo + size ->
  valid_range (w_mem w0) lo size -> touched (J l) lo size w0 w ->
  (forall w', touched (J l) lo size w0 w' -> Q (data + count) w') ->
  wp E (foldM (fun data offset => st8 data (value .>> (offset * 8));; mret (data + 1)) data (seqZ 0 count)) Q f w.
Proof.
  intros Hc Hlo Hhi Hv Ht HQ.
  apply (wp_foldM _ _ (fun done a w' => a = data + Z.of_nat (length done) /\ touched (J l) lo size w0 w')).
  - by rewrite Z.add_0_r.
  - intros done_ y todo a w' Hl [-> Ht']. pose proof (seqZ_split _ _ _ _ Hl) as [_ Hlt].
    assert (Z.of_nat (length done_) < count).
    { apply (f_equal length) in Hl. rewrite length_seqZ, length_app in Hl. simpl in Hl. lia. }
    apply wp_bind, wp_st8; [apply Ht', Hv; lia|]. apply wp_ret. rewrite length_app. simpl. split; [lia|].
    eapply touched_trans; [exact Ht'|]. destruct Ht' as (HJ' & ?). split_and!; try done.
    + intros z Hz. cbn [set_mem w_mem]. rewrite mem_get_insert. case_decide; [lia|done].
    + intros z Hz. by apply mem_valid_insert.
    + intros Ho. by apply mem_ok_insert; [|apply u8_range].
  - intros a w' [-> Ht']. rewrite length_seqZ. replace (Z.of_nat (Z.to_nat count)) with count by lia. by apply HQ.
Qed.

(** The accesses of this section again, for worlds related by [touched]. *)
Lemma touched_dev l lo size w0 w : touched (J l) lo size w0 w -> J l (w_dev w).
Proof. by intros [H _]. Qed.
Lemma touched_ticks l lo size w0 w : touched (J l) lo size w0 w -> ticks_per_s (w_lib w0) <> 0 ->
  ticks_per_s (w_lib w) <> 0.
Proof. intros (_ & _ & _ & _ & _ & ->). done. Qed.
Lemma touched_served l l' lo size w0 w w' : touched (J l) lo size w0 w -> served (J l') w w' ->
  touched (J l') lo size w0 w'.
Proof.
  intros (_ & E1 & V1 & O1 & A1 & T1) (HJ & E2 & A2 & T2 & _). rewrite <- E2 in *.
  split_and!; auto; congruence.
Qed.
Ltac t_io :=
  lazymatch goal with
  | H : touched (J _) _ _ _ ?w |- wp _ (rd32 _) _ _ ?w =>
      eapply v2_rd; [eexists; split; [reflexivity|by (left; split; vm_compute)]|by intros [=]
                    |apply served_refl, (touched_dev _ _ _ _ _ H)|];
      let v := fresh "v" in let w' := fresh "w" in let F := fresh "F" in
      intros v w' _ F; apply (touched_served _ _ _ _ _ _ _ H) in F; clear H; try clear w
  | H : touched (J _) _ _ _ ?w |- wp _ (wr32 _ _) _ _ ?w =>
      eapply v2_wr; [eexists; split; [reflexivity|by (left; split; vm_compute)]|by intros [=]
                    |apply served_refl, (touched_dev _ _ _ _ _ H)|];
      let w' := fresh "w" in let F := fresh "F" in
      intros w' F; apply (touched_served _ _ _ _ _ _ _ H) in F; clear H; try clear w
  | H : touched (J _) _ _ _ ?w |- wp _ (bus_failed _) _ _ ?w =>
      eapply v2_failed; [apply served_refl, (touched_dev _ _ _ _ _ H)|];
      let b := fresh "b" in let w' := fresh "w" in let F := fresh "F" in
      intros b w' F; apply (touched_served _ _ _ _ _ _ _ H) in F; clear H; try clear w
  | |- wp _ (mbind _ _) _ _ _ => apply wp_bind
  | |- wp _ (mret _) _ _ _ => apply wp_ret
  end.

Lemma v2_read_step Q size lo remaining receiving data l w0 w :
  0 <= remaining <= size -> data = lo + (size - remaining) -> is_u32 size -> valid_range (w_mem w0) lo size ->
  ticks_per_s (w_lib w0) <> 0 -> touched (J l) lo size w0 w ->
  (forall b w', touched (J l) lo size w0 w' -> Q (inr b) w') ->
  (forall remaining receiving w', 0 <= remaining <= size -> touched (J l) lo size w0 w' ->
     Q (inl (remaining, receiving, lo + (size - remaining))) w') ->
  wp E (read_step size (remaining, receiving, data)) Q f w.
Proof.
  intros Hr -> Hs Hv Ht HT0 Hdone Hgo. unfold read_step. do 4 t_io. destruct b; [by t_io; apply Hdone|].
  cbv zeta. do 2 t_io. set (rcv := receiving || _). clearbody rcv.
  assert (forall (rem : Z) w2, 0 <= rem <= size -> touched (J l) lo size w0 w2 -> wp E
    (if (rem ==? 0) && ((v .& I2C_PIRQSS_TX_END) !=? 0)
     then rps ← rd32 I2C_RPSSTAT; mret (inr ((rps .& I2C_RPSSTAT_RPS) ==? size))
     else wdt_serve;; mret (inl (rem, rcv, lo + (size - rem)))) Q f w2) as Hend.
  { intros rem w2 Hrem H2. destruct (_ && _); [by do 3 t_io; apply Hdone|]. t_io.
    eapply v2_serve; [by eapply served_refl, touched_dev|by eapply touched_ticks|]. intros w3 F3.
    apply (touched_served _ _ _ _ _ _ _ H2) in F3. t_io. by apply Hgo. }
  assert (forall (take_ : bool) w2, touched (J l) lo size w0 w2 -> wp E
    ('(remaining, data) ← (if take_ then
         value ← rd32 I2C_RXD;
         let count := MIN remaining 4 in
         data ← foldM (fun data offset => st8 data (value .>> (offset * 8));; mret (data + 1))
                  (lo + (size - remaining)) (seqZ 0 count);
         wr32 I2C_ICR (v0 .& I2C_REQUESTS);;
         mret (u32 (remaining - count), data)
       else mret (remaining, lo + (size - remaining)));
     if (remaining ==? 0) && ((v .& I2C_PIRQSS_TX_END) !=? 0)
     then rps ← rd32 I2C_RPSSTAT; mret (inr ((rps .& I2C_RPSSTAT_RPS) ==? size))
     else wdt_serve;; mret (inl (remaining, rcv, data))) Q f w2) as Htake.
  { intros take_ w2 H2. t_io. destruct take_; [|t_io; by apply Hend].
    do 2 t_io. cbv zeta. t_io.
    assert (0 <= MIN remaining 4 <= 4 /\ MIN remaining 4 <= remaining) as [Hc1 Hc2].
    { unfold MIN. destruct (Z.ltb_spec remaining 4); lia. }
    eapply v2_store; [exact Hc1| | |exact Hv|eassumption|]; [lia|lia|]. intros w4 H4. do 3 t_io.
    rewrite u32_small by (unfold is_u32 in *; lia).
    replace (lo + (size - remaining) + MIN remaining 4) with (lo + (size - (remaining - MIN remaining 4))) by lia.
    apply Hend; [lia|done]. }
  t_io. case_if; [t_io; by apply (Htake false)|]. do 3 t_io. by apply (Htake (_ && _)).
Qed.

Lemma v2_read address Q data size w : J [] (w_dev w) -> ticks_per_s (w_lib w) <> 0 -> enough 0 ->
  is_u32 size -> is_byte address -> valid_range (w_mem w) data size ->
  (forall ok l w', touched (J l) data size w w' -> Q ok w') ->
  wp E (i2c_hw_read address data size) Q f w.
Proof.
  intros HJ Ht Hf Hs Ha Hv HQ. unfold i2c_hw_read.
  assert (touched (J []) data size w w) as H0 by (by apply framed_touched, framed_refl).
  destruct (Z.eqb_spec size 0); [apply wp_ret; by eapply HQ|].
  t_io. eapply v2_status_clear; [by apply served_refl|]. intros w1 F1%(served_touched _ data size). clear H0.
  do 4 t_io. t_io. eapply v2_request; [by eapply served_refl, touched_dev|by eapply touched_ticks|done|].
  intros r w4 F4. apply (touched_served _ _ _ _ _ _ _ F0) in F4.
  assert (forall w5, touched (J []) data size w w5 -> forall K, (forall w6, touched (J []) data size w w6 -> wp E K Q f w6) ->
    wp E (transfer_abort;; K) Q f w5) as Habort0.
  { intros w5 F5 K HK. t_io. eapply v2_abort; [by eapply served_refl, touched_dev|by eapply touched_ticks|done|].
    intros w6 F6. apply HK. by eapply touched_served. }
  case_if; [apply Habort0; [done|]; intros w6 F6; t_io; by eapply HQ|].
  assert (is_u32 (u32 (address .<< 1) .| 1)) as Hv1 by (apply lor_u32; [apply u32_range|by vm_compute]).
  t_io. apply wp_wr. unfold port_wrap. rewrite (u32_small _ Hv1). set (word := u32 _ .| 1) in *.
  assert (touched (J [word]) data size w (set_io w4 (dev_write (Mmio 32 I2C_TXD) word (w_dev w4))
     (Wr (Mmio 32 I2C_TXD) word))) as F5.
  { destruct F4 as (HJ4 & ?). split; [|done]. by apply (HT [] word). }
  clear F4 F0. set (w5 := set_io _ _ _) in *. clearbody w5. do 2 t_io. t_io.
  eapply (wp_iter_or _ _ (fun '(i, (remaining, receiving, ptr)) w' => 0 <= i /\ 0 <= remaining <= size /\
      ptr = data + (size - remaining) /\ touched (J [word]) data size w w')
    (fun x _ => Z.to_nat (I2C_POLL_LIMIT - x.1))).
  - split_and!; [lia|unfold is_u32 in Hs; lia..|done].
  - cbn [fst]. destruct Hf as [Hf|Hf]; [left; unfold I2C_POLL_LIMIT in *; lia|by right].
  - intros [i [[remaining receiving] ptr]] w6 (Hi & Hrem & Hptr & F6).
    assert (forall (complete : bool) w7, touched (J [word]) data size w w7 ->
      wp E ((if complete then status_clear else transfer_abort);; mret complete) Q f w7) as Hend.
    { intros complete w7 F7. t_io.
      destruct complete; [eapply v2_status_clear|eapply v2_abort];
        try (by eapply served_refl, touched_dev); try (by eapply touched_ticks); try done;
        intros w8 F8; t_io; eapply HQ; by eapply touched_served. }
    destruct (Z.ltb_spec i I2C_POLL_LIMIT); [|t_io; by apply Hend].
    t_io. eapply v2_read_step; [exact Hrem|exact Hptr|exact Hs|exact Hv|exact Ht|exact F6| |].
    + intros b w7 F7. t_io. by apply Hend.
    + intros rem rcv w7 Hrem' F7. t_io. split; [|cbn [fst]; lia]. split_and!; [lia..|done].
Qed.
End Spec.

(** ** The implementation of the I2C interface *)
Section Instance.
Context {D A : Type} `{!Device D} `{B : Board}.

Lemma v2_stable (I : D -> Prop) : stable (fun p => i2c_v2_port p \/ wdt_port p) I ->
  stable (fun p => i2c_v2_port p /\ p <> Mmio 32 I2C_TXD \/ wdt_port p) I.
Proof. apply stable_weaken. intros p [[H _]|H]; auto. Qed.
Lemma v2_stable_txd (I : D -> Prop) : stable (fun p => i2c_v2_port p \/ wdt_port p) I ->
  forall v d, I d -> I (dev_write (Mmio 32 I2C_TXD) v d).
Proof.
  intros HS v d HI. apply (HS (Mmio 32 I2C_TXD) d); [|done]. left. eexists. split; [reflexivity|].
  left. by split; vm_compute.
Qed.
Lemma v2_init (I : D -> Prop) E Q f (w : world D A) : stable (fun p => i2c_v2_port p \/ wdt_port p) I ->
  I (w_dev w) -> (forall w', framed I w w' -> Q tt w') -> wp E i2c_hw_init Q f w.
Proof.
  intros HS HI HQ.
  assert (forall a v w1 Q1, i2c_v2_port (Mmio 32 a) -> framed I w w1 -> (forall w2, framed I w w2 -> Q1 tt w2) ->
    wp E (wr32 a v) Q1 f w1) as Hwr.
  { intros a v w1 Q1 Ha F1 HQ1. eapply (wp_wr_frame _ _ I); [exact HS|by left|apply F1|].
    intros w2 F2. apply HQ1. by eapply framed_trans. }
  assert (framed I w w) as F0 by by apply framed_refl. unfold i2c_hw_init, status_clear. cbv zeta.
  do 11 (apply wp_bind; eapply Hwr; [|eassumption|];
    [eexists; split; [reflexivity|]; first [left; split; by vm_compute|right; by left|right; by right]|];
    clear F0; intros ? F0).
  eapply Hwr; [|eassumption|done]. eexists; split; [reflexivity|]. left. by split; vm_compute.
Qed.
Lemma v2_mem_range m a n : 0 <= n -> mem_at m a (mem_range m a (Z.to_nat n)) /\
  Z.of_nat (length (mem_range m a (Z.to_nat n))) = n.
Proof.
  intros Hn. assert (length (mem_range m a (Z.to_nat n)) = Z.to_nat n) as El
    by (unfold mem_range; by rewrite length_map, length_seq).
  split; [|rewrite El; lia]. apply mem_at_range. by rewrite El.
Qed.

#[export] Instance i2c_v2 : I2cHw D A.
Proof.
  refine {| Smbus.i2c_hw_init := i2c_hw_init; Smbus.i2c_hw_write := i2c_hw_write;
            Smbus.i2c_hw_read := i2c_hw_read; i2c_port := i2c_v2_port |}.
  - intros. by eapply v2_init.
  - intros I E Q f w address prefix psize data size HS HI Ht Hp Hs Htot Ha Hvp Hvd Hok HE HQ.
    destruct (v2_mem_range (w_mem w) prefix psize Hp) as [Hpre Elp].
    destruct (v2_mem_range (w_mem w) data size Hs) as [Hdat Eld].
    rewrite <- Elp, <- Eld at 1.
    eapply (v2_write (fun _ => I)); [intros _; by apply v2_stable|intros _ v d Hd _; by apply v2_stable_txd
      |exact Hpre|exact Hdat|exact Hok|by rewrite Elp|by rewrite Eld| |done|done|done|by right|].
    + rewrite tx_bytes_length. lia.
    + intros ok l w' Hw' _. apply HQ. by apply served_touched.
  - intros I E Q f w address data size HS HI Ht Hs Ha Hv Hok HE HQ.
    eapply (v2_read (fun _ => I)); [intros _; by apply v2_stable|intros _ v d Hd _; by apply v2_stable_txd
      |done|done|by right|done..|]. intros ok l w' Hw'. by apply HQ.
Defined.
End Instance.

(** [i2c_hw_write] of PMB8876 on any bus: it terminates (every wait is bounded),
    faults nowhere and leaves memory alone; and when it reports success, the words it
    gave to [TXD] are exactly the shifted address, the prefix and the data, packed four
    bytes to a word, low byte first. *)
Theorem i2c_v2_write_words {D A} `{!Device D} `{B : Board} (sent : D -> list Z) (address prefix data : Z)
    (pre dat : list Z) (f : nat) (w : world D A) :
  (forall p d, sent (snd (dev_read p d)) = sent d) ->
  (forall p v d, sent (dev_write p v d) = if decide (p = Mmio 32 I2C_TXD) then sent d ++ [v] else sent d) ->
  mem_ok (w_mem w) -> mem_at (w_mem w) prefix pre -> mem_at (w_mem w) data dat ->
  valid_range (w_mem w) prefix (Z.of_nat (length pre)) -> valid_range (w_mem w) data (Z.of_nat (length dat)) ->
  Z.of_nat (length pre + length dat) + 1 < 0x100000000 -> ticks_per_s (w_lib w) <> 0 ->
  I2C_POLL_LIMIT + Z.of_nat (length pre + length dat) + 1 < Z.of_nat f ->
  wp total (i2c_hw_write address prefix (Z.of_nat (length pre)) data (Z.of_nat (length dat))) (fun ok w' =>
    w_mem w' = w_mem w /\ w_app w' = w_app w /\
    (ok = true -> sent (w_dev w') = sent (w_dev w) ++ words (u8 (address .<< 1) :: pre ++ dat))) f w.
Proof.
  intros Hr Hw Hok Hpre Hdat Hvp Hvd Htot Ht Hf.
  eapply (v2_write (fun l d => sent d = sent (w_dev w) ++ l)); [| |exact Hpre|exact Hdat|done|done|done| |done| |done| |].
  - intros l p d Hp Hd. split; [by rewrite Hr|]. intros v. rewrite Hw. case_decide as Hp'; [|done].
    destruct Hp as [[_ Hne]|Hp]; [done|]. exfalso. subst p. destruct Hp as [[Hp|Hp]|[Hp|[Hp|[Hp|Hp]]]]; try discriminate Hp.
    pose proof board_pm_wadog_pos as Hpos. destruct board_pm_wadog as [g|]; [|done].
    injection Hp as Hp. unfold GPIO_PIN, GPIO_BASE, I2C_TXD in Hp. lia.
  - intros l v d Hd _. rewrite Hw, decide_True, Hd by done. by rewrite app_assoc.
  - rewrite tx_bytes_length. lia.
  - by rewrite app_nil_r.
  - left. rewrite tx_bytes_length. lia.
  - intros ok l w' (HJ & Em & Ea & _) Hl. split_and!; [done..|]. intros Hok'. by rewrite HJ, Hl.
Qed.

(** [i2c_hw_read] of PMB8876 on any bus: whatever the controller's registers read, it
    terminates, faults nowhere, and writes memory only inside the caller's buffer. *)
Theorem i2c_v2_read_safe {D A} `{!Device D} `{B : Board} (address data size : Z) (f : nat) (w : world D A) :
  is_u32 size -> is_byte address -> valid_range (w_mem w) data size -> ticks_per_s (w_lib w) <> 0 ->
  I2C_POLL_LIMIT < Z.of_nat f ->
  wp total (i2c_hw_read address data size) (fun _ w' =>
    (forall a, ~ (data <= a < data + size) -> mem_get (w_mem w') a = mem_get (w_mem w) a) /\
    w_app w' = w_app w) f w.
Proof.
  intros Hs Ha Hv Ht Hf. eapply (v2_read (fun _ _ => True)); [done|done|done|done|left; lia|done..|].
  intros ok l w' (_ & E1 & _ & _ & E2 & _). done.
Qed.

(** ** A controller that is always ready and records its words *)
Definition recorder : Device (list Z) :=
  {| dev_read p d := (if decide (p = Mmio 32 I2C_RIS) then I2C_RIS_SREQ_INT
                      else if decide (p = Mmio 32 I2C_PIRQSS) then I2C_PIRQSS_TX_END else 0, d);
     dev_write p v d := if decide (p = Mmio 32 I2C_TXD) then d ++ [v] else d |}.
Definition recorder_world (m : gmap Z Z) : world (list Z) unit :=
  World [] m [] (LibState 26000000 0 0 0 0 true) tt.

Lemma i2c_v2_write_words_witness :
  let B := plain_board PMB8876 in
  let w := recorder_world (mem_put ∅ 0x1000 [0x0C; 0x11; 0x22; 0x33; 0x44]) in
  wp (D := list Z) total (i2c_hw_write (Device0 := recorder) 0x31 0x1000 1 0x1001 4) (fun ok w' =>
    w_mem w' = w_mem w /\ w_app w' = tt /\
    (ok = true -> w_dev w' = words [0x62; 0x0C; 0x11; 0x22; 0x33; 0x44])) (Z.to_nat 1000010) w.
Proof.
  intros B w. apply (i2c_v2_write_words (Device0 := recorder) (fun d => d) 0x31 0x1000 0x1001 [0x0C]
    [0x11; 0x22; 0x33; 0x44] (Z.to_nat 1000010) w); [done|done|..|done|done|].
  - by apply mem_ok_b_spec.
  - by apply mem_at_range.
  - by apply mem_at_range.
  - intros x Hx. apply mem_valid_pos. lia.
  - intros x Hx. apply mem_valid_pos. lia.
  - rewrite Z2Nat.id by lia. unfold I2C_POLL_LIMIT. simpl. lia.
Defined.
Lemma i2c_v2_read_safe_witness :
  let B := plain_board PMB8876 in
  let w := recorder_world ∅ in
  wp (D := list Z) total (i2c_hw_read (Device0 := recorder) 0x31 0x1000 4) (fun _ w' =>
    (forall a, ~ (0x1000 <= a < 0x1000 + 4) -> mem_get (w_mem w') a = mem_get ∅ a) /\ w_app w' = tt)
    (Z.to_nat 1000010) w.
Proof.
  intros B w. apply (i2c_v2_read_safe (Device0 := recorder) 0x31 0x1000 4 (Z.to_nat 1000010) w);
    [by split; vm_compute|by split; vm_compute|intros x Hx; apply mem_valid_pos; lia|done|].
  rewrite Z2Nat.id by lia. by vm_compute.
Defined.
