(* ===== verification/I2cV1.v ===== *)
(** * The I2C controller of PMB8875 ([lib/i2c-v1.c])

    The polled driver: a transfer is a record that the handler of the controller's
    interrupt flags ([wait_step]) advances, up to four bytes at a time, until the end
    flag or the timeout. *)
From S2P Require Import Prelude Machine Board Regs Clock Stopwatch Wdt Usart Crc Smbus.
Import Regs.Pmb8875.

Definition I2C_TRANSFER_TIMEOUT_MS : Z := 100.
Definition I2C_BUS_CONFIG : Z :=
  I2C_BUSCON_SDAEN0 .| I2C_BUSCON_SCLEN0 .| (0x7E .<< I2C_BUSCON_BRP_SHIFT) .| I2C_BUSCON_PREDIV_8 .|
  I2C_BUSCON_BRPMOD_MODE1.
Definition I2C_CLEAR_STATE : Z :=
  I2C_WHBSYSCON_CLRAL .| I2C_WHBSYSCON_CLRIRQD .| I2C_WHBSYSCON_CLRIRQP .| I2C_WHBSYSCON_CLRIRQE .|
  I2C_WHBSYSCON_CLRRSC .| I2C_WHBSYSCON_CLRBUM .| I2C_WHBSYSCON_CLRACKDIS .| I2C_WHBSYSCON_CLRTRX .|
  I2C_WHBSYSCON_CLRSTP.

(** [struct i2c_transfer] *)
Record i2c_transfer := Transfer {
  prefix : Z;
  tx : Z;
  rx : Z;
  prefix_remaining : Z;
  remaining : Z;
  address_sent : bool;
  stop_requested : bool;
}.

Section Code.
Context {D A : Type} `{!Device D} `{B : Board}.
#[local] Abbreviation M := (M D A).

Definition buffer_size_set (size : Z) : M unit :=
  syscon ← rd32 I2C_SYSCON;
  wr32 I2C_SYSCON ((syscon .& not32 I2C_SYSCON_CI) .| u32 (u32 (size - 1) .<< I2C_SYSCON_CI_SHIFT)).

Definition transfer_byte_get (t : i2c_transfer) : M (Z * i2c_transfer) :=
  if prefix_remaining t !=? 0 then
    b ← ld8 (prefix t);
    mret (b, Transfer (prefix t + 1) (tx t) (rx t) (u32 (prefix_remaining t - 1)) (remaining t)
               (address_sent t) (stop_requested t))
  else
    b ← ld8 (tx t);
    mret (b, Transfer (prefix t) (tx t + 1) (rx t) (prefix_remaining t) (u32 (remaining t - 1))
               (address_sent t) (stop_requested t)).

Definition write_buffer (t : i2c_transfer) (value offset : Z) : M i2c_transfer :=
  '(value, count, t) ← iter (fun '(value, count, t) =>
    if (count <? 4) && ((prefix_remaining t !=? 0) || (remaining t !=? 0)) then
      '(b, t) ← transfer_byte_get t;
      mret (inl (value .| u32 (b .<< (count * 8)), count + 1, t))
    else mret (inr (value, count, t))) (value, offset, t);
  buffer_size_set count;;
  wr32 I2C_RTB value;;
  mret t.

Definition read_buffer (t : i2c_transfer) : M i2c_transfer :=
  syscon ← rd32 I2C_SYSCON;
  let count := (syscon .& I2C_SYSCON_CO) .>> I2C_SYSCON_CO_SHIFT in
  syscon ← rd32 I2C_SYSCON;
  let requested := ((syscon .& I2C_SYSCON_CI) .>> I2C_SYSCON_CI_SHIFT) + 1 in
  let count := if requested <? count then requested else count in
  let count := if remaining t <? count then remaining t else count in
  syscon ← rd32 I2C_SYSCON;
  wr32 I2C_SYSCON (syscon .| I2C_SYSCON_INT);;
  value ← rd32 I2C_RTB;
  syscon ← rd32 I2C_SYSCON;
  wr32 I2C_SYSCON (syscon .& not32 I2C_SYSCON_INT);;
  p ← foldM (fun p i => st8 p (value .>> (i * 8));; mret (p + 1)) (rx t) (seqZ 0 count);
  mret (Transfer (prefix t) (tx t) p (prefix_remaining t) (u32 (remaining t - count))
          (address_sent t) (stop_requested t)).

Definition transfer_stop : M unit := wr32 I2C_WHBSYSCON I2C_CLEAR_STATE.

(** The data event of [transfer_wait]: [None] when the transfer was refused. *)
Definition data_event (t : i2c_transfer) (reading : bool) (status : Z) : M (option i2c_transfer) :=
  let nack := ((status .& I2C_SYSCON_LRB) !=? 0) && negb (stop_requested t) &&
              (negb reading || negb (address_sent t)) in
  if nack then transfer_stop;; mret None
  else if negb reading then
    if (prefix_remaining t !=? 0) || (remaining t !=? 0) then
      t ← write_buffer t 0 0; mret (Some t)
    else
      wr32 I2C_WHBSYSCON I2C_WHBSYSCON_CLRBUM;;
      mret (Some (Transfer (prefix t) (tx t) (rx t) (prefix_remaining t) (remaining t) (address_sent t) true))
  else
    t ← (if address_sent t then read_buffer t
         else
           wr32 I2C_WHBSYSCON I2C_WHBSYSCON_CLRTRX;;
           mret (Transfer (prefix t) (tx t) (rx t) (prefix_remaining t) (remaining t) true (stop_requested t)));
    when (remaining t !=? 0) (
      buffer_size_set (MIN (remaining t) 4);;
      when (remaining t <=? 4) (wr32 I2C_WHBSYSCON (I2C_WHBSYSCON_SETACKDIS .| I2C_WHBSYSCON_SETSTP)));;
    _ ← rd32 I2C_RTB;
    mret (Some t).

(** One round of the loop of [transfer_wait]. *)
Definition wait_step (reading : bool) (t : i2c_transfer) : M (i2c_transfer + bool) :=
  status ← rd32 I2C_SYSCON;
  when ((status .& I2C_SYSCON_IRQP) !=? 0) (wr32 I2C_WHBSYSCON I2C_WHBSYSCON_CLRIRQP);;
  r ← (if (status .& I2C_SYSCON_IRQD) !=? 0 then data_event t reading status else mret (Some t));
  match r with
  | None => mret (inr false)
  | Some t =>
      if (status .& I2C_SYSCON_IRQE) !=? 0 then
        transfer_stop;; mret (inr ((remaining t ==? 0) && (prefix_remaining t ==? 0)))
      else wdt_serve;; mret (inl t)
  end.
Definition transfer_wait (t : i2c_transfer) (reading : bool) : M bool :=
  start ← stopwatch_get;
  iter (fun t =>
    e ← stopwatch_elapsed_ms start;
    if e <? I2C_TRANSFER_TIMEOUT_MS then wait_step reading t
    else transfer_stop;; mret (inr false)) t.

Definition i2c_hw_init : M unit :=
  let pin := GPIO_IS_ALT0 .| GPIO_OS_ALT0 .| GPIO_PPEN_OPENDRAIN .| GPIO_PS_ALT .| GPIO_DIR_IN in
  wr32 (GPIO_PIN GPIO_I2C_SCL) pin;;
  wr32 (GPIO_PIN GPIO_I2C_SDA) pin;;
  wr32 I2C_CLC (16 .<< MOD_CLC_RMC_SHIFT);;
  wr32 I2C_BUSCON I2C_BUS_CONFIG;;
  wr32 I2C_SYSCON I2C_SYSCON_MOD_MASTER;;
  transfer_stop.

Definition i2c_hw_write (address prefix prefix_size data size : Z) : M bool :=
  let t := Transfer prefix data 0 prefix_size size true false in
  wr32 I2C_SYSCON I2C_SYSCON_MOD_MASTER;;
  t ← write_buffer t (u32 (address .<< 1)) 1;
  wr32 I2C_WHBSYSCON I2C_WHBSYSCON_SETBUM;;
  transfer_wait t false.

Definition i2c_hw_read (address data size : Z) : M bool :=
  if size ==? 0 then mret true
  else
    let t := Transfer 0 0 data 0 size false false in
    buffer_size_set 1;;
    wr32 I2C_RTB (u32 (address .<< 1) .| 1);;
    wr32 I2C_WHBSYSCON I2C_WHBSYSCON_SETBUM;;
    transfer_wait t true.
End Code.

(** ** The driver's accesses *)
Definition i2c_v1_port (p : port) : Prop :=
  exists a, p = Mmio 32 a /\
    (I2C_BASE <= a < I2C_BASE + 0x100 \/ a = GPIO_PIN GPIO_I2C_SCL \/ a = GPIO_PIN GPIO_I2C_SDA).

Section Spec.
Context {D A : Type} `{!Device D} `{B : Board}.
Context (I : D -> Prop) (HS : stable (fun p => i2c_v1_port p \/ wdt_port p) I).
Context (E : cause -> world D A -> Prop) (HE : forall w, E OutOfFuel w) (f : nat).
Context (w0 : world D A) (Ht0 : ticks_per_s (w_lib w0) <> 0).
Implicit Types w : world D A.

(** The buffers of a transfer and how far it is. *)
Record transfer_ok (lo size : Z) (reading : bool) (t : i2c_transfer) : Prop := {
  ok_prefix : 0 <= prefix_remaining t < 0x100000000;
  ok_remaining : 0 <= remaining t < 0x100000000;
  ok_prefix_at : valid_range (w_mem w0) (prefix t) (prefix_remaining t);
  ok_tx : reading = false -> valid_range (w_mem w0) (tx t) (remaining t);
  ok_rx : reading = true -> prefix_remaining t = 0 /\ rx t = lo + (size - remaining t) /\ remaining t <= size;
}.
(** A write leaves memory alone: its buffer is the empty range. *)
Context (lo size : Z) (Hv : valid_range (w_mem w0) lo size).
#[local] Abbreviation touch := (touched I lo size w0).

Lemma v1_rd a Q w : i2c_v1_port (Mmio 32 a) -> touch w ->
  (forall v w', is_u32 v -> touch w' -> Q v w') -> wp E (rd32 a) Q f w.
Proof.
  intros Ha Hw HQ. apply wp_rd. intros v d Hrd. apply HQ; [apply u32_range|].
  eapply touched_trans; [exact Hw|]. apply framed_touched. split; [|done]. simpl.
  destruct (HS (Mmio 32 a) (w_dev w)) as [H _]; [by left|apply Hw|]. by rewrite Hrd in H.
Qed.
Lemma v1_wr a v Q w : i2c_v1_port (Mmio 32 a) -> touch w ->
  (forall w', touch w' -> Q tt w') -> wp E (wr32 a v) Q f w.
Proof.
  intros Ha Hw HQ. apply wp_wr, HQ. eapply touched_trans; [exact Hw|]. apply framed_touched. split; [|done].
  apply (HS (Mmio 32 a) (w_dev w)); [by left|apply Hw].
Qed.
Lemma v1_wdt : stable wdt_port I.
Proof. eapply stable_weaken; [|exact HS]. intros p Hp. by right. Qed.
Lemma touch_ticks w : touch w -> ticks_per_s (w_lib w) <> 0.
Proof. by intros (_ & _ & _ & _ & _ & ->). Qed.
Ltac v1_port := eexists; split; [reflexivity|left; split; by vm_compute].
Ltac v1_io := repeat
  lazymatch goal with
  | |- wp _ (mbind _ _) _ _ _ => apply wp_bind
  | |- wp _ (mret _) _ _ _ => apply wp_ret
  | |- wp _ (rd32 _) _ _ _ => eapply v1_rd; [v1_port|eassumption|]; intros ? ? ? ?
  | |- wp _ (wr32 _ _) _ _ _ => eapply v1_wr; [v1_port|eassumption|]; intros ? ?
  | |- wp _ transfer_stop _ _ _ => unfold transfer_stop
  | |- wp _ (buffer_size_set _) _ _ _ => unfold buffer_size_set
  | |- wp _ (when _ _) _ _ _ => apply wp_when; intros ?
  end.

Lemma v1_byte_get reading Q t w : reading = false -> touch w -> transfer_ok lo size reading t ->
  (prefix_remaining t !=? 0) || (remaining t !=? 0) = true ->
  (forall b t', transfer_ok lo size reading t' -> Q (b, t') w) -> wp E (transfer_byte_get t) Q f w.
Proof.
  intros Hrd Hw [Hp Hr Hpa Htx Hrx] Hmore HQ. unfold transfer_byte_get.
  assert (forall a, mem_valid (w_mem w0) a = true -> mem_valid (w_mem w) a = true) as Hmono by apply Hw.
  destruct (Z.eqb_spec (prefix_remaining t) 0) as [Hz|Hz]; cbn [negb].
  - destruct (Z.eqb_spec (remaining t) 0) as [|Hr0]; [done|].
    apply wp_bind, wp_ld8; [apply Hmono, Htx; [done|lia]|]. apply wp_ret, HQ.
    rewrite u32_small by (unfold is_u32; lia). split; cbn; [lia|lia|done| |congruence].
    intros _ x Hx. apply Htx; [done|lia].
  - apply wp_bind, wp_ld8; [apply Hmono, Hpa; lia|]. apply wp_ret, HQ.
    rewrite u32_small by (unfold is_u32; lia). split; cbn; [lia|lia| |done|congruence].
    intros x Hx. apply Hpa; lia.
Qed.
Lemma v1_write_buffer reading Q t value offset w : reading = false -> touch w -> transfer_ok lo size reading t ->
  (forall t' w', touch w' -> transfer_ok lo size reading t' -> Q t' w') ->
  wp E (write_buffer t value offset) Q f w.
Proof.
  intros Hrd Hw Ht HQ. apply wp_bind.
  eapply (wp_iter_partial _ _ (fun '(v, c, t') w' => touch w' /\ transfer_ok lo size reading t')); [done|auto|].
  intros [[v c] t1] w1 [Hw1 Ht1]. destruct (_ && _) eqn:Hc.
  - apply andb_true_iff in Hc as [_ Hc]. apply wp_bind. eapply v1_byte_get; [done|done|exact Ht1|done|].
    intros b t2 Ht2. by apply wp_ret.
  - apply wp_ret. v1_io. by apply HQ.
Qed.
Lemma v1_read_buffer Q t w : touch w -> transfer_ok lo size true t ->
  (forall t' w', touch w' -> transfer_ok lo size true t' -> Q t' w') -> wp E (read_buffer t) Q f w.
Proof.
  intros Hw [Hp Hr Hpa Htx Hrx] HQ. destruct (Hrx eq_refl) as (Hp0 & Erx & Hle).
  unfold read_buffer. v1_io. cbv zeta. v1_io.
  set (c1 := (v .& _) .>> _). set (c2 := _ + 1). set (count := if remaining t <? _ then _ else _).
  assert (0 <= count <= remaining t) as Hc.
  { assert (0 <= c1) by (apply Z.shiftr_nonneg, Z.land_nonneg; right; by vm_compute).
    assert (0 <= c2) by (assert (0 <= (v0 .& I2C_SYSCON_CI) .>> I2C_SYSCON_CI_SHIFT)
      by (apply Z.shiftr_nonneg, Z.land_nonneg; right; by vm_compute); unfold c2; lia).
    unfold count. destruct (Z.ltb_spec c2 c1), (Z.ltb_spec (remaining t) (if c2 <? c1 then c2 else c1));
      repeat match goal with |- context [?a <? ?b] => destruct (Z.ltb_spec a b) end; lia. }
  eapply (wp_foldM _ _ (fun done p w' => p = rx t + Z.of_nat (length done) /\ touch w')); [by rewrite Z.add_0_r| |].
  - intros done_ y todo p w1 Hl [-> Hw1].
    assert (Z.of_nat (length done_) < count).
    { apply (f_equal length) in Hl. rewrite length_seqZ, length_app in Hl. simpl in Hl. lia. }
    apply wp_bind, wp_st8; [apply Hw1, Hv; lia|]. apply wp_ret. rewrite length_app. simpl. split; [lia|].
    eapply touched_trans; [exact Hw1|]. split_and!; try apply Hw1; try done.
    + intros z Hz. cbn [set_mem w_mem]. rewrite mem_get_insert. case_decide; [lia|done].
    + intros z Hz. by apply mem_valid_insert.
    + intros Ho. by apply mem_ok_insert; [|apply u8_range].
  - intros p w1 [-> Hw1]. rewrite length_seqZ. apply wp_ret, HQ; [done|].
    rewrite u32_small by (unfold is_u32; lia). split; cbn; [lia|lia|done|congruence|].
    intros _. split_and!; lia.
Qed.
Lemma transfer_ok_flags reading t a s : transfer_ok lo size reading t ->
  transfer_ok lo size reading (Transfer (prefix t) (tx t) (rx t) (prefix_remaining t) (remaining t) a s).
Proof. intros [? ? ? ? ?]. by split. Qed.

Lemma v1_data_event reading Q t status w : touch w -> transfer_ok lo size reading t ->
  (forall w', touch w' -> Q None w') ->
  (forall t' w', touch w' -> transfer_ok lo size reading t' -> Q (Some t') w') ->
  wp E (data_event t reading status) Q f w.
Proof.
  intros Hw Ht HN HSome. unfold data_event. cbv zeta. destruct (_ && _ && _); [v1_io; by apply HN|].
  destruct reading; cbn [negb].
  - assert (forall t1 w1, touch w1 -> transfer_ok lo size true t1 -> wp E
      (when (remaining t1 !=? 0) (buffer_size_set (MIN (remaining t1) 4);;
         when (remaining t1 <=? 4) (wr32 I2C_WHBSYSCON (I2C_WHBSYSCON_SETACKDIS .| I2C_WHBSYSCON_SETSTP)));;
       _ ← rd32 I2C_RTB; mret (Some t1)) Q f w1) as Hend.
    { intros t1 w1 Hw1 Ht1. v1_io; by apply HSome. }
    apply wp_bind. destruct (address_sent t).
    + eapply v1_read_buffer; [done|exact Ht|]. auto.
    + v1_io; apply HSome; try done; by apply transfer_ok_flags.
  - destruct (_ || _).
    + apply wp_bind. eapply v1_write_buffer; [done|done|exact Ht|]. intros t1 w1 Hw1 Ht1. apply wp_ret. by apply HSome.
    + v1_io. apply HSome; [done|]. by apply transfer_ok_flags.
Qed.
Lemma v1_transfer_wait reading Q t w : touch w -> transfer_ok lo size reading t ->
  (forall ok w', touch w' -> Q ok w') -> wp E (transfer_wait t reading) Q f w.
Proof.
  intros Hw Ht HQ. apply wp_bind, (wp_stopwatch_get I); [eapply wdt_stm, v1_wdt|apply Hw|].
  intros start w1 F1. assert (touch w1) as Hw1 by (eapply touched_trans; [exact Hw|by apply framed_touched]).
  eapply (wp_iter_partial _ _ (fun t' w' => touch w' /\ transfer_ok lo size reading t')); [done|auto|].
  intros t2 w2 [Hw2 Ht2]. apply wp_bind, (wp_stopwatch_elapsed_ms I);
    [eapply wdt_stm, v1_wdt|apply Hw2|by apply touch_ticks|]. intros e w3 F3.
  assert (touch w3) as Hw3 by (eapply touched_trans; [exact Hw2|by apply framed_touched]).
  destruct (_ <? _); [|v1_io; by apply HQ].
  assert (forall status o w4, touch w4 -> (forall t4, o = Some t4 -> transfer_ok lo size reading t4) -> wp E
    (match o with
     | None => mret (inr false)
     | Some t => if (status .& I2C_SYSCON_IRQE) !=? 0 then
                   transfer_stop;; mret (inr ((remaining t ==? 0) && (prefix_remaining t ==? 0)))
                 else wdt_serve;; mret (inl t)
     end) (fun s w' => match s with inl t' => touch w' /\ transfer_ok lo size reading t' | inr r => Q r w' end) f w4)
    as Hend.
  { intros status [t4|] w4 Hw4 Ht4; [|v1_io; by apply HQ]. specialize (Ht4 t4 eq_refl).
    destruct (negb _); [v1_io; by apply HQ|]. apply wp_bind.
    eapply (wp_wdt_serve I); [apply v1_wdt|apply Hw4|by apply touch_ticks|]. intros w5 F5. apply wp_ret.
    split; [|done]. eapply touched_trans; [exact Hw4|by apply served_touched]. }
  unfold wait_step.
  assert (forall status w4, touch w4 -> wp E (if (status .& I2C_SYSCON_IRQD) !=? 0
      then data_event t2 reading status else mret (Some t2)) (fun o w' => wp E
    (match o with
     | None => mret (inr false)
     | Some t => if (status .& I2C_SYSCON_IRQE) !=? 0 then
                   transfer_stop;; mret (inr ((remaining t ==? 0) && (prefix_remaining t ==? 0)))
                 else wdt_serve;; mret (inl t)
     end) (fun s w' => match s with inl t' => touch w' /\ transfer_ok lo size reading t' | inr r => Q r w' end) f w') f w4)
    as Hev.
  { intros status w4 Hw4. destruct (negb _).
    - eapply v1_data_event; [done|exact Ht2| |].
      + intros w5 Hw5. by apply (Hend status None).
      + intros t5 w5 Hw5 Ht5. apply (Hend status (Some t5)); [done|]. by intros ? [= <-].
    - apply wp_ret. apply (Hend status (Some t2)); [done|]. by intros ? [= <-]. }
  v1_io; by apply Hev.
Qed.

Lemma v1_write address prefix_ psize data n Q w : touch w -> 0 <= psize -> 0 <= n -> psize + n + 1 < 0x100000000 ->
  valid_range (w_mem w0) prefix_ psize -> valid_range (w_mem w0) data n ->
  (forall ok w', touch w' -> Q ok w') -> wp E (i2c_hw_write address prefix_ psize data n) Q f w.
Proof.
  intros Hw Hp Hn Htot Hvp Hvd HQ. unfold i2c_hw_write. cbv zeta. v1_io.
  eapply (v1_write_buffer false); [done|eassumption| |].
  - split; cbn; [lia|lia|done|done|congruence].
  - intros t1 w2 Hw2 Ht1. v1_io. eapply v1_transfer_wait; [eassumption|exact Ht1|done].
Qed.
Lemma v1_read address Q w : touch w -> is_u32 size ->
  (forall ok w', touch w' -> Q ok w') -> wp E (i2c_hw_read address lo size) Q f w.
Proof.
  intros Hw Hs HQ. unfold i2c_hw_read. destruct (Z.eqb_spec size 0); [v1_io; by apply HQ|]. cbv zeta. v1_io.
  eapply (v1_transfer_wait true); [eassumption| |done].
  split; cbn; [lia|exact Hs|intros x Hx; lia|congruence|]. intros _. split_and!; lia.
Qed.
End Spec.

(** ** The implementation of the I2C interface *)
Section Instance.
Context {D A : Type} `{!Device D} `{B : Board}.

Lemma v1_init (I : D -> Prop) E Q f (w : world D A) : stable (fun p => i2c_v1_port p \/ wdt_port p) I ->
  I (w_dev w) -> (forall w', framed I w w' -> Q tt w') -> wp E i2c_hw_init Q f w.
Proof.
  intros HS HI HQ.
  assert (forall a v w1 Q1, i2c_v1_port (Mmio 32 a) -> framed I w w1 -> (forall w2, framed I w w2 -> Q1 tt w2) ->
    wp E (wr32 a v) Q1 f w1) as Hwr.
  { intros a v w1 Q1 Ha F1 HQ1. eapply (wp_wr_frame _ _ I); [exact HS|by left|apply F1|].
    intros w2 F2. apply HQ1. by eapply framed_trans. }
  assert (framed I w w) as F0 by by apply framed_refl. unfold i2c_hw_init, transfer_stop. cbv zeta.
  do 5 (apply wp_bind; eapply Hwr; [|eassumption|];
    [eexists; split; [reflexivity|]; first [left; split; by vm_compute|right; by left|right; by right]|];
    clear F0; intros ? F0).
  eapply Hwr; [|eassumption|done]. eexists; split; [reflexivity|]. left. by split; vm_compute.
Qed.

#[export] Instance i2c_v1 : I2cHw D A.
Proof.
  refine {| Smbus.i2c_hw_init := i2c_hw_init; Smbus.i2c_hw_write := i2c_hw_write;
            Smbus.i2c_hw_read := i2c_hw_read; i2c_port := i2c_v1_port |}.
  - intros. by eapply v1_init.
  - intros I E Q f w address prefix_ psize data n HS HI Ht Hp Hs Htot Ha Hvp Hvd Hok HE HQ.
    eapply (v1_write I HS E HE f w Ht 0 0 ltac:(intros x Hx; lia)); [by apply framed_touched, framed_refl|done..].
  - intros I E Q f w address data n HS HI Ht Hs Ha Hv Hok HE HQ.
    eapply (v1_read I HS E HE f w Ht data n Hv); [by apply framed_touched, framed_refl|done..].
Defined.
End Instance.

(** C19. The interrupt-flag handler of PMB8875 keeps inside its buffers: whatever the
    controller's flags, counters and data are, and in whatever order, a write takes
    bytes only from its prefix and data, a read stores bytes only into the caller's
    buffer, and neither faults. *)
Theorem i2c_v1_transfer_safe {D A} `{!Device D} `{B : Board} (address prefix_ psize data size : Z) (f : nat)
    (w : world D A) :
  0 <= psize -> 0 <= size -> psize + size + 1 < 0x100000000 -> ticks_per_s (w_lib w) <> 0 ->
  valid_range (w_mem w) prefix_ psize -> valid_range (w_mem w) data size ->
  wp partial (i2c_hw_write address prefix_ psize data size) (fun _ w' =>
    forall a, mem_get (w_mem w') a = mem_get (w_mem w) a) f w /\
  wp partial (i2c_hw_read address data size) (fun _ w' =>
    forall a, ~ (data <= a < data + size) -> mem_get (w_mem w') a = mem_get (w_mem w) a) f w.
Proof.
  intros Hp Hs Htot Ht Hvp Hvd. split.
  - apply (v1_write (fun _ => True) ltac:(done) partial ltac:(done) f w Ht 0 0 ltac:(intros x Hx; lia)); try done.
    intros ok w' (_ & E1 & _) a. apply E1. lia.
  - apply (v1_read (fun _ => True) ltac:(done) partial ltac:(done) f w Ht data size Hvd); [by split_and!|unfold is_u32; lia|].
    by intros ok w' (_ & E1 & _).
Qed.
Lemma i2c_v1_transfer_safe_witness :
  let B := plain_board PMB8875 in
  let w := tick_world 0 26000000 (fun p => if decide (p = Mmio 32 I2C_SYSCON) then I2C_SYSCON_IRQD else 0) in
  wp partial (i2c_hw_write (Device0 := tick_device) 0x31 0x1000 1 0x1001 5) (fun _ w' =>
    forall a, mem_get (w_mem w') a = mem_get ∅ a) 30 w /\
  wp partial (i2c_hw_read (Device0 := tick_device) 0x31 0x1001 5) (fun _ w' =>
    forall a, ~ (0x1001 <= a < 0x1001 + 5) -> mem_get (w_mem w') a = mem_get ∅ a) 30 w.
Proof.
  intros B w. apply (i2c_v1_transfer_safe (Device0 := tick_device) 0x31 0x1000 1 0x1001 5 30%nat w);
    [lia|lia|lia|by vm_compute|intros x Hx; apply mem_valid_pos; lia|intros x Hx; apply mem_valid_pos; lia].
Defined.
