(* ===== verification/IoBridge.v ===== *)
(** * The register bridge ([io_bridge/main.c])

    A firmware that lets a host read and write the phone's registers over [USART0] and
    forwards its interrupts: a command per access, answered with the value.  Commands run
    in the software-interrupt handler (interrupts masked) or, while the host serves an
    interrupt, in the interrupt handler. *)
From S2P Require Import Prelude Machine Board Regs Clock Stopwatch Wdt Usart Smbus Crc Preloader.

(** The volatile globals of the file. *)
Record bridge := Bridge { current_irq : Z; toggle : Z (* [i] *) }.

Section Code.
Context {D : Type} `{!Device D} `{B : Board} `{Hw : !I2cHw D bridge}.
#[local] Abbreviation M := (M D bridge).

Definition onerr {R} (c : Z) : M R :=
  iter (fun _ : unit => usart_putc USART0 c;; mret (inl tt)) tt.

(** The big-endian operand; the four calls in the order the operands are written. *)
Definition getc_u32 : M Z :=
  b3 ← usart_getc USART0; b2 ← usart_getc USART0; b1 ← usart_getc USART0; b0 ← usart_getc USART0;
  mret (u32 (b3 .<< 24) .| u32 (b2 .<< 16) .| u32 (b1 .<< 8) .| b0).
(** The end of the answer to an access. *)
Definition put_ack (irq : Z) : M unit :=
  if irq ==? 1 then
    usart_putc USART0 0x21 (* ! *);;
    s ← get_app; usart_putc USART0 (current_irq s)
  else usart_putc USART0 0x3B (* ; *).
Definition put_u32 (value : Z) : M unit :=
  usart_putc USART0 ((value .>> 0) .& 0xFF);;
  usart_putc USART0 ((value .>> 8) .& 0xFF);;
  usart_putc USART0 ((value .>> 16) .& 0xFF);;
  usart_putc USART0 ((value .>> 24) .& 0xFF).

(** ['R'], ['r'], ['I'] and ['i']: 4, 2, 3 and 1 bytes. *)
Definition reg_read (c addr : Z) : M Z :=
  if c ==? 0x52 then rd32 addr
  else if c ==? 0x72 then rd16 addr
  else if c ==? 0x49 then
    h ← rd16 addr; l ← rd8 addr; mret (u32 (h .<< 8) .| l)
  else rd8 addr.
(** ['W'], ['w'], ['O'] and ['o']. *)
Definition reg_write (c addr value : Z) : M unit :=
  if c ==? 0x57 then wr32 addr value
  else if c ==? 0x77 then wr16 addr (value .& 0xFFFF)
  else if c ==? 0x4F then
    wr8 addr (value .& 0xFF);;
    wr16 addr ((value .>> 8) .& 0xFFFF)
  else wr8 addr (value .& 0xFF).

Definition command_read (irq c : Z) : M Z :=
  addr ← getc_u32;
  wdt_serve;;
  s ← get_app;
  value ← (if addr ==? VIC_IRQ_CURRENT then mret (current_irq s)
           else if addr ==? 0xFFFFFFFF then mret 0
           else reg_read c addr);
  let value := if addr ==? CGU_STAT then 0x2000 else value in
  put_u32 value;;
  put_ack irq;;
  wdt_serve;;
  mret 1.

(** What the bridge changes in the values written. *)
Definition fix_value (addr value : Z) : M Z :=
  match board_chip with
  | PMB8876 =>
      mret (if addr ==? Pmb8876.I2C_CLC then 0xFF .<< MOD_CLC_RMC_SHIFT else value)
  | PMB8875 =>
      let value :=
        if (addr ==? Pmb8875.I2C_CLC) && ((value .& MOD_CLC_RMC) !=? 0)
        then (value .& not32 MOD_CLC_RMC) .| (8 .<< MOD_CLC_RMC_SHIFT) else value in
      if (addr ==? Pmb8875.DIF_TB) && (value ==? 0x1FF0) then
        s ← get_app;
        put_app (Bridge (current_irq s) (u32 (toggle s + 1)));;
        mret (if (toggle s mod 2) !=? 0 then 0x1FF0 else 0x1000)
      else mret value
  end.
Definition command_write (irq c : Z) : M Z :=
  addr ← getc_u32;
  value ← getc_u32;
  wdt_serve;;
  value ← fix_value addr value;
  when (addr !=? 0xFFFFFFFF) (reg_write c addr value);;
  s ← get_app;
  when ((irq ==? 1) && (addr ==? VIC_IRQ_ACK)) (put_app (Bridge 0 (toggle s)));;
  put_ack irq;;
  wdt_serve;;
  s ← get_app;
  mret (if (irq !=? 0) && (current_irq s ==? 0) then 2 else 1).

Definition command_handler (irq : Z) : M Z :=
  level ← usart_get_rx_fifo_level USART0;
  if level ==? 0 then mret 0
  else
    c ← usart_getc USART0;
    if c ==? 0x2E then
      wdt_serve;;
      (if irq ==? 1 then
         usart_putc USART0 0x2C;;
         s ← get_app; usart_putc USART0 (current_irq s)
       else usart_putc USART0 0x2E);;
      mret 1
    else if (c ==? 0x52) || (c ==? 0x72) || (c ==? 0x49) || (c ==? 0x69) then command_read irq c
    else if (c ==? 0x57) || (c ==? 0x77) || (c ==? 0x4F) || (c ==? 0x6F) then command_write irq c
    else onerr 0xE6.

Definition data_abort_handler : M unit := onerr 0xE1.
Definition undef_handler : M unit := onerr 0xE2.
Definition prefetch_abort_handler : M unit := onerr 0xE3.
Definition fiq_handler : M unit := onerr 0xE4.
Definition reserved_handler : M unit := onerr 0xE5.
Definition swi_handler : M unit := _ ← command_handler 0; mret tt.
Definition irq_handler : M unit :=
  irq ← rd32 VIC_IRQ_CURRENT;
  s ← get_app;
  put_app (Bridge irq (toggle s));;
  poll (r ← command_handler 1; mret (r ==? 2)) (mret tt).

(** One round of the main loop, before which an interrupt may be taken. *)
Definition main_round (interrupt : bool) : M unit :=
  when interrupt irq_handler;;
  level ← usart_get_rx_fifo_level USART0;
  when (level !=? 0) swi_handler.
Definition main (interrupts : nat -> bool) : M unit :=
  wdt_init;;
  i2c_init;;
  let pin := GPIO_IS_ALT0 .| GPIO_OS_ALT0 .| GPIO_PPEN_OPENDRAIN .| GPIO_PS_ALT .| GPIO_DIR_IN in
  wr32 (GPIO_PIN GPIO_I2C_SCL) pin;;
  wr32 (GPIO_PIN GPIO_I2C_SDA) pin;;
  usart_set_speed USART0 1600000;;
  poll (c ← usart_getc USART0; mret (c ==? 0x4F)) (mret tt);;
  poll (c ← usart_getc USART0; mret (c ==? 0x4B)) (mret tt);;
  usart_putc USART0 0x2E;;
  _ ← cpu_enable_irq true;
  _ ← cpu_enable_fiq true;
  iter (fun k => main_round (interrupts k);; mret (inl (S k))) 0%nat.
End Code.

(** ** The accesses of a command *)

(** Everything but the register asked for: the serial port and the watchdog. *)
Definition own_port `{B : Board} (p : port) : Prop := usart_port USART0 p \/ wdt_port p.
Definition be_bytes (x : Z) : list Z := [u8 (x .>> 24); u8 (x .>> 16); u8 (x .>> 8); u8 x].
(** The width a command letter names. *)
Definition letter_width (c : Z) : Z :=
  if (c =? 0x52) || (c =? 0x57) then 32 else if (c =? 0x72) || (c =? 0x77) then 16 else 8.
(** How an answer ends: in the interrupt handler with the interrupt being served. *)
Definition ack_bytes (irq current : Z) : list Z :=
  if irq ==? 1 then [0x21; u8 current] else [0x3B].

Lemma lor_high h v n : 0 <= n -> 0 <= v < 2 ^ n -> (h * 2 ^ n .| v) = h * 2 ^ n + v.
Proof. intros Hn Hv. rewrite Z.lor_comm, <- Z.shiftl_mul_pow2, lor_shiftl_add, Z.shiftl_mul_pow2 by done. lia. Qed.
Lemma be_word x : is_u32 x ->
  (u32 (u8 (x .>> 24) .<< 24) .| u32 (u8 (x .>> 16) .<< 16) .| u32 (u8 (x .>> 8) .<< 8) .| u8 x) = x.
Proof.
  intros Hx.
  assert (forall b n, is_byte b -> 0 <= n <= 24 -> u32 (b .<< n) = b * 2 ^ n) as Hs.
  { intros b n Hb Hn. rewrite Z.shiftl_mul_pow2 by lia. apply u32_small.
    assert (0 < 2 ^ n) by (apply Z.pow_pos_nonneg; lia).
    assert (2 ^ n <= 2 ^ 24) by (apply Z.pow_le_mono_r; lia).
    unfold is_byte, is_u32 in *. nia. }
  rewrite !Hs by (apply u8_range || lia).
  rewrite !Z.shiftr_div_pow2 by lia.
  pose proof (u8_range (x / 2 ^ 24)) as H3. pose proof (u8_range (x / 2 ^ 16)) as H2.
  pose proof (u8_range (x / 2 ^ 8)) as H1. pose proof (u8_range x) as H0.
  assert (x = u8 (x / 2 ^ 24) * 2 ^ 24 + u8 (x / 2 ^ 16) * 2 ^ 16 + u8 (x / 2 ^ 8) * 2 ^ 8 + u8 x) as E.
  { change (2 ^ 24) with 0x1000000. change (2 ^ 16) with 0x10000. change (2 ^ 8) with 0x100. ulia. }
  revert E H3 H2 H1 H0. generalize (u8 (x / 2 ^ 24)) (u8 (x / 2 ^ 16)) (u8 (x / 2 ^ 8)) (u8 x).
  intros b3 b2 b1 b0 E H3 H2 H1 H0. unfold is_byte in *.
  rewrite lor_high by lia.
  replace (b3 * 2 ^ 24 + b2 * 2 ^ 16) with ((b3 * 2 ^ 8 + b2) * 2 ^ 16) by lia. rewrite lor_high by lia.
  replace (_ * 2 ^ 16 + b1 * 2 ^ 8) with (((b3 * 2 ^ 8 + b2) * 2 ^ 8 + b1) * 2 ^ 8) by lia.
  rewrite lor_high by lia. lia.
Qed.

Section Spec.
Context {D : Type} `{!Device D} `{B : Board} `{Line : !UsartLine USART0 D}.
Context (f : nat) (Hf : (line_patience (u := USART0) (D := D) + 256 < f)%nat).
Implicit Types w : world D bridge.

(** Between two steps of a command: the line, the globals, and only our own registers
    touched since [d0]. *)
Definition bridging rx tx (m : gmap Z Z) (s : bridge) (d0 : D) w : Prop :=
  running rx tx m w /\ w_app w = s /\ steps own_port d0 (w_dev w).
Lemma own_uses {R} E (x : M D bridge R) Q Q' w d0 : uses own_port x -> steps own_port d0 (w_dev w) ->
  wp E x Q f w -> (forall r w', Q r w' -> steps own_port d0 (w_dev w') -> Q' r w') -> wp E x Q' f w.
Proof.
  intros Hu Hs Hwp HQ. eapply wp_mono.
  - eapply (wp_uses _ own_port (steps own_port d0)); [exact Hu| |exact Hs|exact Hwp].
    intros d d' H1 H2. by eapply steps_trans.
  - intros r w' [H1 H2]. by apply HQ.
Qed.
Lemma run_same rx tx m s w w' : running rx tx m w -> w_app w = s -> forall rx' tx',
  line USART0 rx' tx' (w_dev w') -> scratch (w_mem w) (w_mem w') -> same_vars w w' ->
  running rx' tx' m w' /\ w_app w' = s.
Proof.
  intros (_ & Hm & Hok & Ht) Hs rx' tx' Hl Hsc Hv. split; [|destruct Hv; congruence].
  eapply run_vars; [done| |by apply Hsc|done..]. transitivity (w_mem w); [done|by apply scratch_phys].
Qed.
Lemma bridging_putc E c Q rx tx m s d0 w : bridging rx tx m s d0 w ->
  (forall w', bridging rx (tx ++ [u8 c]) m s d0 w' -> Q tt w') -> wp E (usart_putc USART0 c) Q f w.
Proof.
  intros (Hr & Ha & Hs) HQ.
  eapply (own_uses _ _ (fun _ w' => running rx (tx ++ [u8 c]) m w' /\ w_app w' = s)); [|exact Hs| |].
  - apply uses_usart_putc. by left.
  - eapply wp_usart_putc; [lia|exact (proj1 Hr)|]. intros w' Hl Hsc Hv. by eapply run_same.
  - intros [] w' [H1 H2] H3. by apply HQ.
Qed.
Lemma bridging_getc E b Q rx tx m s d0 w : bridging (b :: rx) tx m s d0 w -> is_byte b ->
  (forall w', bridging rx tx m s d0 w' -> Q b w') -> wp E (usart_getc USART0) Q f w.
Proof.
  intros (Hr & Ha & Hs) Hb HQ.
  eapply (own_uses _ _ (fun r w' => r = b /\ running rx tx m w' /\ w_app w' = s)); [|exact Hs| |].
  - apply uses_usart_getc. by left.
  - eapply wp_usart_getc; [lia|exact (proj1 Hr)|done|]. intros w' Hl Hsc Hv. split; [done|by eapply run_same].
  - intros r w' (-> & H1 & H2) H3. by apply HQ.
Qed.
Lemma bridging_serve E Q rx tx m s d0 w : bridging rx tx m s d0 w ->
  (forall w', bridging rx tx m s d0 w' -> Q tt w') -> wp E wdt_serve Q f w.
Proof.
  intros (Hr & Ha & Hs) HQ.
  eapply (own_uses _ _ (fun _ w' => running rx tx m w' /\ w_app w' = s)); [|exact Hs| |].
  - apply uses_wdt_serve. by right.
  - destruct Hr as (Hl & Hm & Hok & Ht). eapply (wp_wdt_serve _ (wdt_line rx tx)); [done|done|].
    intros w' (Hl' & Em & Ea & Et & _). unfold running. by rewrite Em, Et, Ea.
  - intros [] w' [H1 H2] H3. by apply HQ.
Qed.
(** The port of the interrupt level, and the polls that found the FIFO empty. *)
Lemma bridging_level E Q b rx tx m s d0 w : bridging (b :: rx) tx m s d0 w ->
  (forall l w', bridging (b :: rx) tx m s d0 w' -> (l = 0 -> (rx_wait (w_dev w') < rx_wait (w_dev w))%nat) -> Q l w') ->
  wp E (usart_get_rx_fifo_level USART0) Q f w.
Proof.
  intros ((Hl & Hm) & Ha & Hs) HQ. apply wp_bind, wp_rd. intros v d Hrd. apply wp_ret, HQ.
  - destruct (line_fstat _ _ _ Hrd) as (Hn & Ht & _). destruct Hl as [Hn0 Ht0]. split; [split; [|done]|split; [done|]].
    + split; [by apply Hn|simpl; congruence].
    + simpl. eapply steps_trans; [exact Hs|]. eapply steps_rd; [left; exists (USART_FSTAT USART0); split; [done|by split]|].
      rewrite Hrd. apply steps_refl.
  - simpl. intros H0. destruct (line_fstat _ _ _ Hrd) as (_ & _ & _ & Hw & _). eapply Hw; [apply Hl|done].
Qed.
Lemma bridging_u32 E Q x rx tx m s d0 w : bridging (be_bytes x ++ rx) tx m s d0 w -> is_u32 x ->
  (forall w', bridging rx tx m s d0 w' -> Q x w') -> wp E getc_u32 Q f w.
Proof.
  intros Hb Hx HQ. unfold getc_u32. unfold be_bytes in Hb. cbn [app] in Hb.
  do 4 (apply wp_bind; eapply bridging_getc; [eassumption|apply u8_range|]; clear dependent w; intros w Hb).
  apply wp_ret. rewrite be_word by done. by apply HQ.
Qed.
Lemma bridging_put_u32 E Q x rx tx m s d0 w : bridging rx tx m s d0 w ->
  (forall w', bridging rx (tx ++ le_bytes 4 x) m s d0 w' -> Q tt w') -> wp E (put_u32 x) Q f w.
Proof.
  intros Hb HQ. unfold put_u32.
  do 3 (apply wp_bind; eapply bridging_putc; [eassumption|]; clear dependent w; intros w Hb).
  eapply bridging_putc; [eassumption|]. clear dependent w. intros w Hb. apply HQ.
  rewrite !land_ones_u8, <- !app_assoc, Z.shiftr_0_r in Hb. unfold u8 in Hb. rewrite !Zmod_mod in Hb.
  replace (x .>> 16) with (x .>> 8 .>> 8) in Hb by (by rewrite Z.shiftr_shiftr).
  replace (x .>> 24) with (x .>> 8 .>> 8 .>> 8) in Hb by (by rewrite !Z.shiftr_shiftr).
  exact Hb.
Qed.
Lemma bridging_ack E Q irq rx tx m s d0 w : bridging rx tx m s d0 w ->
  (forall w', bridging rx (tx ++ ack_bytes irq (current_irq s)) m s d0 w' -> Q tt w') -> wp E (put_ack irq) Q f w.
Proof.
  intros Hb HQ. unfold put_ack, ack_bytes in *. destruct (irq ==? 1).
  - apply wp_bind. eapply bridging_putc; [eassumption|]. clear dependent w. intros w Hb.
    apply wp_bind, wp_get_app. assert (w_app w = s) as -> by apply Hb.
    eapply bridging_putc; [eassumption|]. intros w' Hb'. rewrite <- app_assoc in Hb'. by apply HQ.
  - eapply bridging_putc; [eassumption|done].
Qed.
(** After an access elsewhere, counting our own registers starts again. *)
Lemma bridging_start rx tx m s d0 w : bridging rx tx m s d0 w -> bridging rx tx m s (w_dev w) w.
Proof. intros (H1 & H2 & _). split_and!; try done. apply steps_refl. Qed.
End Spec.

Section Commands.
Context {D : Type} `{!Device D} `{B : Board} `{Hw : !I2cHw D bridge} `{Line : !UsartLine USART0 D}.

(** A command of the host that the FIFO does not show yet is left for the next call. *)
Definition not_yet rx tx m s (w : world D bridge) (r : Z) w' : Prop :=
  r = 0 /\ bridging rx tx m s (w_dev w) w' /\ (rx_wait (w_dev w') < rx_wait (w_dev w))%nat.

Lemma command_starts E f (Hf : (line_patience (u := USART0) (D := D) + 256 < f)%nat)
    (Q : Z -> world D bridge -> Prop) k c rx tx m s (w : world D bridge) :
  bridging (c :: rx) tx m s (w_dev w) w -> is_byte c ->
  (forall r w', not_yet (c :: rx) tx m s w r w' -> Q r w') ->
  (forall w', bridging rx tx m s (w_dev w) w' -> wp E (k c) Q f w') ->
  wp E (level ← usart_get_rx_fifo_level USART0;
        if level ==? 0 then mret 0 else c ← usart_getc USART0; k c) Q f w.
Proof.
  intros Hb Hc H0 H1. apply wp_bind. eapply bridging_level; [exact Hb|]. intros l w1 Hb1 Hl.
  destruct (Z.eqb_spec l 0) as [->|Hne].
  - apply wp_ret, H0. split_and!; [done..|by apply Hl].
  - apply wp_bind. eapply bridging_getc; [exact Hf|exact Hb1|done|exact H1].
Qed.

Lemma wr_cut p v v' : port_wrap p v = port_wrap p v' -> wr (D := D) (A := bridge) p v = wr p v'.
Proof. intros E. unfold wr. by rewrite E. Qed.
Lemma bridging_io rx tx m s d0 (w w' : world D bridge) p : bridging rx tx m s d0 w -> usart_quiet USART0 p = true ->
  w_dev w' = snd (dev_read p (w_dev w)) \/ (exists v, w_dev w' = dev_write p v (w_dev w)) ->
  w_mem w' = w_mem w -> w_lib w' = w_lib w -> w_app w' = w_app w ->
  bridging rx tx m s (w_dev w') w'.
Proof.
  intros ((Hl & Hm & Hok & Ht) & Ha & _) Hp Hd Em El Ea. destruct (line_stable USART0 rx tx p (w_dev w)) as [H1 H2]; [done..|].
  split; [|split; [congruence|apply steps_refl]]. unfold running. rewrite Em, El. split; [|done].
  destruct Hd as [->|[v ->]]; [exact H1|apply H2].
Qed.

Section Access.
Context (f : nat) (Hf : (line_patience (u := USART0) (D := D) + 256 < f)%nat).
Context (irq c addr : Z) (p : port) (Ha : is_u32 addr) (Hp : usart_quiet USART0 p = true).

Lemma wp_command_read E rx tx m s (w : world D bridge) : reg_read c addr = rd (D := D) (A := bridge) p ->
  addr <> VIC_IRQ_CURRENT -> addr <> 0xFFFFFFFF -> bridging (be_bytes addr ++ rx) tx m s (w_dev w) w ->
  wp E (command_read irq c) (fun r w' =>
    r = 1 /\ exists d v d', steps own_port (w_dev w) d /\ dev_read p d = (v, d') /\
      bridging rx (tx ++ le_bytes 4 (if addr =? CGU_STAT then 0x2000 else port_wrap p v) ++
                         ack_bytes irq (current_irq s)) m s d' w') f w.
Proof.
  intros Hrp Hn1 Hn2 Hb. unfold command_read. apply wp_bind. eapply bridging_u32; [exact Hf|exact Hb|exact Ha|].
  intros w2 Hb2. apply wp_bind. eapply bridging_serve; [exact Hb2|]. intros w3 Hb3.
  apply wp_bind, wp_get_app, wp_bind.
  destruct (Z.eqb_spec addr VIC_IRQ_CURRENT); [done|]. destruct (Z.eqb_spec addr 0xFFFFFFFF); [done|].
  rewrite Hrp. apply wp_rd. intros v d' Hrd. cbv zeta.
  eapply (bridging_io _ _ _ _ _ _ (set_io w3 d' (Rd p (port_wrap p v))) p) in Hb3 as Hb4;
    [|exact Hp|by left; rewrite Hrd|done..].
  apply wp_bind. eapply bridging_put_u32; [exact Hf|exact Hb4|]. intros w5 Hb5.
  apply wp_bind. eapply bridging_ack; [exact Hf|exact Hb5|]. intros w6 Hb6.
  apply wp_bind. eapply bridging_serve; [exact Hb6|]. intros w7 Hb7.
  apply wp_ret. split; [done|]. exists (w_dev w3), v, d'. rewrite app_assoc. split_and!; [apply Hb3|done|exact Hb7].
Qed.

Lemma wp_command_write E value rx tx m s (w : world D bridge) :
  reg_write c addr value = wr (D := D) (A := bridge) p value -> is_u32 value ->
  fix_value (D := D) addr value = mret value -> addr <> 0xFFFFFFFF ->
  bridging (be_bytes addr ++ be_bytes value ++ rx) tx m s (w_dev w) w ->
  let cur := if (irq ==? 1) && (addr ==? VIC_IRQ_ACK) then 0 else current_irq s in
  wp E (command_write irq c) (fun r w' =>
    r = (if (irq !=? 0) && (cur ==? 0) then 2 else 1) /\ exists d, steps own_port (w_dev w) d /\
      bridging rx (tx ++ ack_bytes irq cur) m (Bridge cur (toggle s)) (dev_write p (port_wrap p value) d) w') f w.
Proof.
  intros Hwp Hv Hfix Hn Hb cur. unfold command_write. apply wp_bind. eapply bridging_u32; [exact Hf|exact Hb|exact Ha|].
  intros w1 Hb1. apply wp_bind. eapply bridging_u32; [exact Hf|exact Hb1|exact Hv|].
  intros w2 Hb2. apply wp_bind. eapply bridging_serve; [exact Hb2|]. intros w3 Hb3.
  rewrite Hfix. apply wp_bind, wp_ret, wp_bind.
  destruct (Z.eqb_spec addr 0xFFFFFFFF); [done|]. rewrite Hwp. apply wp_wr.
  set (w4 := set_io _ _ _).
  eapply (bridging_io _ _ _ _ _ _ w4 p) in Hb3 as Hb4; [|exact Hp|by right; eexists|done..].
  apply wp_bind, wp_get_app, wp_bind.
  assert (w_app w4 = s) as Es by apply Hb4.
  assert (forall w5, bridging rx tx m (Bridge cur (toggle s)) (w_dev w4) w5 -> wp E
    (put_ack irq;; wdt_serve;; s ← get_app; mret (if (irq !=? 0) && (current_irq s ==? 0) then 2 else 1))
    (fun r w' => r = (if (irq !=? 0) && (cur ==? 0) then 2 else 1) /\ exists d, steps own_port (w_dev w) d /\
      bridging rx (tx ++ ack_bytes irq cur) m (Bridge cur (toggle s)) (dev_write p (port_wrap p value) d) w') f w5) as Hend.
  { intros w5 Hb5. apply wp_bind. eapply bridging_ack; [exact Hf|exact Hb5|]. intros w6 Hb6.
    apply wp_bind. eapply bridging_serve; [exact Hb6|]. intros w7 Hb7.
    apply wp_bind, wp_get_app, wp_ret. assert (w_app w7 = Bridge cur (toggle s)) as -> by apply Hb7.
    split; [done|]. exists (w_dev w3). split; [apply Hb3|exact Hb7]. }
  rewrite Es. apply wp_when; intros Hack; [apply wp_put_app|]; apply Hend;
    (replace cur with (if (irq ==? 1) && (addr ==? VIC_IRQ_ACK) then 0 else current_irq s) by done); rewrite Hack.
  - destruct Hb4 as (H1 & _ & H3). by split_and!.
  - by destruct s.
Qed.
End Access.

(** ['R'], ['r'] and ['i'] read the register they name, once and at the width they
    name: between the accesses to the serial port and the watchdog there is exactly one
    other access, that read, and the answer is the value it delivered (except that the
    PLL always looks locked in [CGU_STAT]), little-endian, then the acknowledgement,
    which in the interrupt handler carries the interrupt being served. *)
Theorem bridge_read_command (f : nat) (irq c addr : Z) rx tx m s (w : world D bridge) :
  (line_patience (u := USART0) (D := D) + 256 < f)%nat ->
  c = 0x52 \/ c = 0x72 \/ c = 0x69 -> is_u32 addr -> addr <> VIC_IRQ_CURRENT -> addr <> 0xFFFFFFFF ->
  let p := Mmio (letter_width c) addr in
  usart_quiet USART0 p = true ->
  bridging (c :: be_bytes addr ++ rx) tx m s (w_dev w) w ->
  wp total (command_handler irq) (fun r w' =>
    not_yet (c :: be_bytes addr ++ rx) tx m s w r w' \/
    r = 1 /\ exists d v d', steps own_port (w_dev w) d /\ dev_read p d = (v, d') /\
      bridging rx (tx ++ le_bytes 4 (if addr =? CGU_STAT then 0x2000 else port_wrap p v) ++
                         ack_bytes irq (current_irq s)) m s d' w') f w.
Proof.
  intros Hf Hc Ha Hn1 Hn2 p Hp Hb. unfold command_handler. eapply command_starts; [exact Hf|exact Hb| |by left|].
  { unfold is_byte. lia. }
  intros w1 Hb1. apply bridging_start in Hb1 as Hb2. destruct Hb1 as (_ & _ & Hs1).
  eapply wp_mono.
  - repeat destruct Hc as [->|Hc]; [..|subst c]; by apply (wp_command_read f Hf irq _ addr p Ha Hp).
  - intros r w' (-> & d & v & d' & H1 & H2 & H3). right. split; [done|]. exists d, v, d'.
    split; [by eapply steps_trans|done].
Qed.

(** The values the bridge changes before it writes them. *)
Definition fixed_register (addr : Z) : Prop :=
  match board_chip with
  | PMB8876 => addr = Pmb8876.I2C_CLC
  | PMB8875 => addr = Pmb8875.I2C_CLC \/ addr = Pmb8875.DIF_TB
  end.
Lemma fix_value_other addr value : ~ fixed_register addr -> fix_value (D := D) addr value = mret value.
Proof.
  unfold fixed_register, fix_value. intros Hn. destruct board_chip.
  - destruct (Z.eqb_spec addr Pmb8875.I2C_CLC), (Z.eqb_spec addr Pmb8875.DIF_TB); tauto || done.
  - destruct (Z.eqb_spec addr Pmb8876.I2C_CLC); done.
Qed.

(** ['W'], ['w'] and ['o'] write the register they name, once and at the width they
    name: between the accesses to the serial port and the watchdog there is exactly one
    other access, that write of the value's low bits, and the answer is the
    acknowledgement.  In the interrupt handler, writing the interrupt controller's
    acknowledge register ends the interrupt being served, which the handler reports
    with 2, where it stops serving the host. *)
Theorem bridge_write_command (f : nat) (irq c addr value : Z) rx tx m s (w : world D bridge) :
  (line_patience (u := USART0) (D := D) + 256 < f)%nat ->
  c = 0x57 \/ c = 0x77 \/ c = 0x6F -> is_u32 addr -> is_u32 value ->
  ~ fixed_register addr -> addr <> 0xFFFFFFFF ->
  let p := Mmio (letter_width c) addr in
  let cur := if (irq ==? 1) && (addr ==? VIC_IRQ_ACK) then 0 else current_irq s in
  usart_quiet USART0 p = true ->
  bridging (c :: be_bytes addr ++ be_bytes value ++ rx) tx m s (w_dev w) w ->
  wp total (command_handler irq) (fun r w' =>
    not_yet (c :: be_bytes addr ++ be_bytes value ++ rx) tx m s w r w' \/
    r = (if (irq !=? 0) && (cur ==? 0) then 2 else 1) /\ exists d, steps own_port (w_dev w) d /\
      bridging rx (tx ++ ack_bytes irq cur) m (Bridge cur (toggle s)) (dev_write p (port_wrap p value) d) w') f w.
Proof.
  intros Hf Hc Ha Hv Hfix Hn p cur Hp Hb. unfold command_handler. eapply command_starts; [exact Hf|exact Hb| |by left|].
  { unfold is_byte. lia. }
  intros w1 Hb1. apply bridging_start in Hb1 as Hb2. destruct Hb1 as (_ & _ & Hs1).
  pose proof (fix_value_other addr value Hfix) as Hfv. eapply wp_mono.
  - assert (reg_write c addr value = wr (D := D) (A := bridge) p value) as Hw1.
    { repeat destruct Hc as [->|Hc]; [..|subst c]; [done| |]; apply wr_cut; simpl; unfold u16, u8.
      - change 0xFFFF with (Z.ones 16). by rewrite Z.land_ones, Zmod_mod by lia.
      - change 0xFF with (Z.ones 8). by rewrite Z.land_ones, Zmod_mod by lia. }
    repeat destruct Hc as [->|Hc]; [..|subst c];
      apply (wp_command_write f Hf irq _ addr p Ha Hp _ value _ _ _ _ _ Hw1 Hv Hfv Hn Hb2).
  - intros r w' (-> & d & H1 & H2). right. split; [done|]. exists d. split; [by eapply steps_trans|done].
Qed.
End Commands.

(** ** A host that reads [SCU_CHIPID] and acknowledges an interrupt *)
Definition bridge_regs (p : port) : Z := if decide (p = Mmio 32 0xF4400060) then 0x1B11 else 0.
Definition bridge_world (rx : list Z) : world script bridge :=
  World (Script rx []) ∅ [] (LibState 26000000 0 0 0 0 true) (Bridge 0x33 0).
Lemma bridge_world_ok `{B : Board} rx : bytes_ok rx ->
  bridging (Device0 := script_device USART0 bridge_regs) (Line := script_line USART0 bridge_regs)
    rx [] ∅ (Bridge 0x33 0) (w_dev (bridge_world rx)) (bridge_world rx).
Proof.
  intros Hrx. split; [|split; [done|apply steps_refl]]. split_and!; [|done|by apply mem_ok_b_spec|done].
  split; [|done]. exists []. split; [by rewrite app_nil_r|done].
Qed.

Lemma bridge_read_command_witness :
  let B := plain_board PMB8876 in
  wp (D := script) total (command_handler (Device0 := script_device USART0 bridge_regs) 0)
    (fun r w' => r = 1 /\ s_tx (w_dev w') = [0x11; 0x1B; 0; 0; 0x3B]) 300%nat
    (bridge_world [0x52; 0xF4; 0x40; 0x00; 0x60]).
Proof.
  intros B. eapply wp_mono.
  - eapply (bridge_read_command (Device0 := script_device USART0 bridge_regs)
      (Line := script_line USART0 bridge_regs) 300%nat 0 0x52 0xF4400060 [] [] ∅ (Bridge 0x33 0)).
    + by apply Nat.ltb_lt.
    + by left.
    + by split; vm_compute.
    + by vm_compute.
    + by vm_compute.
    + by vm_compute.
    + apply (bridge_world_ok [0x52; 0xF4; 0x40; 0x00; 0x60]). bytes_tac.
  - intros r w' [(_ & _ & H)|(-> & d & v & d' & _ & H2 & H3)].
    + simpl in H. by apply Nat.nlt_0_r in H.
    + split; [done|]. destruct H3 as (((_ & H3) & _) & _). etransitivity; [exact H3|].
      cbn [script_device dev_read letter_width] in H2. simpl in H2. injection H2 as <- _. by vm_compute.
Defined.
Lemma bridge_write_command_witness :
  let B := plain_board PMB8876 in
  wp (D := script) total (command_handler (Device0 := script_device USART0 bridge_regs) 1)
    (fun r w' => r = 2 /\ s_tx (w_dev w') = [0x21; 0] /\ w_app w' = Bridge 0 0) 300%nat
    (bridge_world [0x57; 0xF2; 0x80; 0x00; 0x14; 0; 0; 0; 1]).
Proof.
  intros B. eapply wp_mono.
  - eapply (bridge_write_command (Device0 := script_device USART0 bridge_regs)
      (Line := script_line USART0 bridge_regs) 300%nat 1 0x57 VIC_IRQ_ACK 1 [] [] ∅ (Bridge 0x33 0)).
    + by apply Nat.ltb_lt.
    + by left.
    + by split; vm_compute.
    + by split; vm_compute.
    + by vm_compute.
    + by vm_compute.
    + by vm_compute.
    + apply (bridge_world_ok (0x57 :: be_bytes VIC_IRQ_ACK ++ be_bytes 1 ++ [])). bytes_tac.
  - intros r w' [(_ & _ & H)|(-> & d & _ & H3)].
    + simpl in H. by apply Nat.nlt_0_r in H.
    + split; [done|]. destruct H3 as (((_ & H3) & _) & H4 & _). split; [exact H3|exact H4].
Defined.
