(* ===== verification/T0.v ===== *)
(** * The T=0 protocol of smart cards

    ISO 7816-3, character-oriented: the terminal sends a command header, then obeys the card's
    procedure bytes: wait, transfer all that is left, transfer one byte, or end with a
    status.  [t0] is that protocol as a relation between what the card sends and what the
    terminal sends and returns.  The bytes on the line are the accesses to the card's data
    registers; [silent] says of an operation that it has none. *)
From S2P Require Import Prelude Machine Board Regs Clock Stopwatch Wdt.

(** [T0_NULL] and [SIM_T0_NULL_BYTE] of the programs. *)
Definition T0_NULL : Z := 0x60.
(** ** The protocol *)

(** What is left of the transfer. *)
Inductive pending := Send (data : list Z) | Receive (n : nat).
(** [t0 ins p card sent response]: with [p] left, the card sends [card], the reader sends [sent]
    and returns [response], whose last two bytes are the status. *)
Inductive t0 (ins : Z) : pending -> list Z -> list Z -> list Z -> Prop :=
  | t0_wait p card sent response :
      t0 ins p card sent response -> t0 ins p (T0_NULL :: card) sent response
  | t0_send_all data card sent response :
      ins <> T0_NULL -> t0 ins (Send []) card sent response ->
      t0 ins (Send data) (ins :: card) (data ++ sent) response
  | t0_receive_all data card sent response :
      ins <> T0_NULL -> t0 ins (Receive 0) card sent response ->
      t0 ins (Receive (length data)) (ins :: data ++ card) sent (data ++ response)
  | t0_send_one data card sent response :
      not8 ins <> T0_NULL -> t0 ins (Send (tail data)) card sent response ->
      t0 ins (Send data) (not8 ins :: card) (take 1 data ++ sent) response
  | t0_receive_one b n card sent response :
      not8 ins <> T0_NULL -> t0 ins (Receive n) card sent response ->
      t0 ins (Receive (S n)) (not8 ins :: b :: card) sent (b :: response)
  | t0_receive_none card sent response :
      not8 ins <> T0_NULL -> t0 ins (Receive 0) card sent response ->
      t0 ins (Receive 0) (not8 ins :: card) sent response
  | t0_status p sw1 sw2 :
      sw1 <> T0_NULL -> sw1 <> ins -> sw1 <> not8 ins -> t0 ins p [sw1; sw2] [] [sw1; sw2].

(** The bytes on the card's line, oldest first. *)
Definition card_rx (e : event) : list Z :=
  match e with Rd p v => if decide (p = Mmio 32 SIM_RXB) then [u8 v] else [] | Wr _ _ => [] end.
Definition card_tx (e : event) : list Z :=
  match e with Wr p v => if decide (p = Mmio 32 SIM_TXB) then [u8 v] else [] | Rd _ _ => [] end.
Definition received : list event -> list Z := accesses card_rx.
Definition sent : list event -> list Z := accesses card_tx.
Definition off_card (e : event) : Prop := event_port e <> Mmio 32 SIM_RXB /\ event_port e <> Mmio 32 SIM_TXB.
Lemma off_card_quiet l : Forall off_card l -> received l = [] /\ sent l = [].
Proof.
  intros H. split; apply accesses_quiet; (eapply Forall_impl; [exact H|]); intros [p v|p v] [H1 H2]; simpl in *; by rewrite ?decide_False by done.
Qed.

Section Silent.
Context {D A : Type} `{!Device D} `{B : Board}.
Implicit Types w : world D A.
#[local] Abbreviation M := (M D A).
(** What neither touches memory nor the card's data registers. *)
Definition silent {R} (m : M R) : Prop :=
  forall f w, match m f w with
              | Done _ w' => w_mem w' = w_mem w /\ exists l, w_log w' = l ++ w_log w /\ Forall off_card l
              | Stop _ _ => True
              end.
Lemma silent_ret {R} (r : R) : silent (mret r).
Proof. intros f w. split; [done|]. by exists []. Qed.
Lemma silent_bind {R S} (m : M R) (k : R -> M S) : silent m -> (forall r, silent (k r)) -> silent (m ≫= k).
Proof.
  intros Hm Hk f w. specialize (Hm f w). unfold mbind, M_bind. destruct (m f w) as [r w1|]; [|done].
  specialize (Hk r f w1). destruct (k r f w1) as [s w2|]; [|done]. destruct Hm as (E1 & l1 & L1 & F1), Hk as (E2 & l2 & L2 & F2).
  split; [congruence|]. exists (l2 ++ l1). rewrite L2, L1, app_assoc. split; [done|]. by apply Forall_app.
Qed.
Lemma silent_rd p : p <> Mmio 32 SIM_RXB -> p <> Mmio 32 SIM_TXB -> silent (rd p).
Proof. intros H1 H2 f w. unfold rd. destruct (dev_read p (w_dev w)) as [v d]. split; [done|]. eexists [_]. split; [done|]. by repeat constructor. Qed.
Lemma silent_wr p v : p <> Mmio 32 SIM_RXB -> p <> Mmio 32 SIM_TXB -> silent (wr p v).
Proof. intros H1 H2 f w. split; [done|]. eexists [_]. split; [done|]. by repeat constructor. Qed.
Lemma silent_get_app : silent get_app. Proof. intros f w. split; [done|]. by exists []. Qed.
Lemma silent_put_app a : silent (put_app a). Proof. intros f w. split; [done|]. by exists []. Qed.
Lemma silent_get_lib : silent get_lib. Proof. intros f w. split; [done|]. by exists []. Qed.
Lemma silent_put_lib l : silent (put_lib l). Proof. intros f w. split; [done|]. by exists []. Qed.
Lemma silent_udiv a b : silent (udiv a b).
Proof. intros f w. unfold udiv. destruct (Z.eqb b 0); [done|]. split; [done|]. by exists []. Qed.
Lemma silent_when b (m : M unit) : silent m -> silent (when b m).
Proof. destruct b; [done|]. intros _. apply silent_ret. Qed.
Lemma silent_iter {X R} (body : X -> M (X + R)) x : (forall x, silent (body x)) -> silent (iter body x).
Proof.
  intros Hb f. unfold iter. assert (forall n x, silent (fun f w => loop n body x f w)) as Hl; [|intros w; exact (Hl _ x f w)].
  induction n as [|n IH]; intros y; [done|]. intros f' w. simpl. specialize (Hb y f' w).
  destruct (body y f' w) as [[y'|r] w1|]; [|done|done]. specialize (IH y' f' w1). cbv beta in IH.
  destruct (loop n body y' f' w1) as [s w2|]; [|done]. destruct Hb as (E1 & l1 & L1 & F1), IH as (E2 & l2 & L2 & F2).
  split; [congruence|]. exists (l2 ++ l1). rewrite L2, L1, app_assoc. split; [done|]. by apply Forall_app.
Qed.
End Silent.
Ltac silent_tac :=
  repeat lazymatch goal with
  | |- silent (mbind _ _) => apply silent_bind; [|intros ?]
  | |- silent (mret _) => apply silent_ret
  | |- silent (rd _) => apply silent_rd; discriminate
  | |- silent (rd32 _) => apply silent_rd; discriminate
  | |- silent (wr _ _) => apply silent_wr; discriminate
  | |- silent (wr32 _ _) => apply silent_wr; discriminate
  | |- silent get_lib => apply silent_get_lib
  | |- silent get_app => apply silent_get_app
  | |- silent (put_app _) => apply silent_put_app
  | |- silent (put_lib _) => apply silent_put_lib
  | |- silent (udiv _ _) => apply silent_udiv
  | |- silent (when _ _) => apply silent_when
  | |- silent (iter _ _) => apply silent_iter; intros ?
  | |- silent (match ?x with _ => _ end) => destruct x eqn:?
  | |- silent (let _ := _ in _) => cbv zeta
  end.
Section Quiet.
Context {D A : Type} `{!Device D} `{B : Board}.
Lemma silent_get : silent (D := D) (A := A) stopwatch_get.
Proof. unfold stopwatch_get. silent_tac. Qed.
Lemma silent_elapsed t : silent (D := D) (A := A) (stopwatch_elapsed_ms t).
Proof. unfold stopwatch_elapsed_ms, stopwatch_elapsed, stopwatch_get. silent_tac. Qed.
Lemma watchdog_pin g : board_pm_wadog = Some g -> 0xF1400000 <= GPIO_PIN g.
Proof. intros Hg. pose proof board_pm_wadog_pos as Hpos. rewrite Hg in Hpos. unfold GPIO_PIN, GPIO_BASE. lia. Qed.
Lemma silent_toggle g : board_pm_wadog = Some g -> silent (D := D) (A := A) (gpio_toggle g).
Proof.
  intros Hg. apply watchdog_pin in Hg. unfold gpio_toggle, gpio_get, gpio_set, rd32, wr32.
  repeat (apply silent_bind; [|intros ?]); try apply silent_ret; (apply silent_rd || apply silent_wr);
    intros Hp; injection Hp as Hp; unfold SIM_RXB, SIM_TXB in Hp; lia.
Qed.
Lemma silent_serve : silent (D := D) (A := A) wdt_serve.
Proof.
  unfold wdt_serve, note_wdt_serve, cpu_wdt_reload, cpu_enable_irq, cpu_enable_irq_or_fiq, cpu_wdt_get_reload,
    cpu_wdt_password_access, cpu_wdt_modify_access, stopwatch_elapsed_ms, stopwatch_elapsed, stopwatch_get.
  silent_tac. by apply silent_toggle.
Qed.
End Quiet.

(** ** What is on the line *)
Section Line.
Context {D A : Type} `{!Device D} (w0 : world D A) (f : nat).
Implicit Types w : world D A.
#[local] Abbreviation anything := (fun (_ : cause) (_ : world D A) => True).
(** Since [w0] the card sent [cs] and was sent [sn]. *)
Definition point (cs sn : list Z) w : Prop :=
  exists es, w_log w = es ++ w_log w0 /\ received es = cs /\ sent es = sn.
Lemma point_start : point [] [] w0.
Proof. by exists []. Qed.
Lemma point_event cs sn w w' e : point cs sn w -> w_log w' = e :: w_log w ->
  point (cs ++ card_rx e) (sn ++ card_tx e) w'.
Proof.
  intros (es & L & <- & <-) L'. exists (e :: es). rewrite L', L. split; [done|].
  unfold received, sent. by rewrite !accesses_cons.
Qed.
Lemma wp_silent {R} (m : M D A R) Q cs sn w : silent m -> point cs sn w ->
  (forall r w', point cs sn w' -> w_mem w' = w_mem w -> Q r w') -> wp anything m Q f w.
Proof.
  intros Hm (es & L & R1 & S1) HQ. specialize (Hm f w). unfold wp. destruct (m f w) as [r w'|]; [|done].
  destruct Hm as (Em & l & Ll & F). destruct (off_card_quiet l F) as [R2 S2]. apply HQ; [|done].
  exists (l ++ es). unfold received, sent in *. by rewrite Ll, L, app_assoc, !accesses_app, R2, S2, !app_nil_r.
Qed.
Lemma u8_u32 v : u8 (u32 v) = u8 v.
Proof. unfold u8, u32. apply Z.mod_mod_divide. by exists (2 ^ 24). Qed.
End Line.
Arguments wp_silent {D A} {w0 f} {R} m Q cs sn w.
Arguments point_event {D A} {w0} cs sn w w' e.

(** ** Transfers of [m] data bytes *)
Definition remaining (p : pending) : nat := match p with Send data => length data | Receive n => n end.
Definition after (m : nat) (p : pending) : pending :=
  match p with Send data => Send (drop m data) | Receive n => Receive (n - m) end.
Definition moved (m : nat) (p : pending) (out inp : list Z) : Prop :=
  match p with Send data => out = take m data /\ inp = [] | Receive _ => out = [] /\ length inp = m end.
Lemma t0_all ins p out inp cs sn rs : ins <> T0_NULL -> moved (remaining p) p out inp ->
  t0 ins (after (remaining p) p) cs sn rs -> t0 ins p (ins :: inp ++ cs) (out ++ sn) (inp ++ rs).
Proof.
  intros Hi Hm H. destruct p as [data|n]; simpl in *; destruct Hm as [-> Hm].
  - rewrite drop_all in H. rewrite firstn_all, Hm. by apply t0_send_all.
  - rewrite Nat.sub_diag in H. rewrite <- Hm. by apply t0_receive_all.
Qed.
Lemma t0_one ins p out inp cs sn rs : not8 ins <> T0_NULL -> moved (min 1 (remaining p)) p out inp ->
  t0 ins (after (min 1 (remaining p)) p) cs sn rs -> t0 ins p (not8 ins :: inp ++ cs) (out ++ sn) (inp ++ rs).
Proof.
  intros Hi Hm H. destruct p as [[|b data]|[|n]]; simpl in *; destruct Hm as [-> Hm].
  - subst inp. by apply (t0_send_one _ []).
  - subst inp. by apply (t0_send_one _ (b :: data)).
  - apply nil_length_inv in Hm as ->. by apply t0_receive_none.
  - destruct inp as [|b [|]]; try discriminate Hm. apply t0_receive_one; [done|]. by rewrite Nat.sub_0_r in H.
Qed.
Lemma t0_waits ins p k cs sn rs : t0 ins p cs sn rs -> t0 ins p (replicate k T0_NULL ++ cs) sn rs.
Proof. intros H. induction k as [|k IH]; [done|]. by apply t0_wait. Qed.

Lemma moved_next m p out inp out' inp' : moved m p out inp -> moved 1 (after m p) out' inp' ->
  moved (S m) p (out ++ out') (inp ++ inp').
Proof.
  destruct p as [data|n]; simpl; intros [-> H1] [-> H2].
  - subst. split; [|done]. by rewrite take_take_drop, Nat.add_1_r.
  - split; [done|]. rewrite length_app. lia.
Qed.
Lemma after_next m p : after 1 (after m p) = after (S m) p.
Proof. destruct p as [data|n]; simpl; [by rewrite drop_drop, Nat.add_1_r|f_equal; lia]. Qed.
Lemma remaining_after m p : remaining (after m p) = (remaining p - m)%nat.
Proof. destruct p; simpl; [by rewrite length_drop|done]. Qed.

(** A card that sends its script a byte at a time, whenever it is read. *)
Definition scripted_card : Device (Z * list Z) :=
  {| dev_read p s := let '(t, script) := s in
       if decide (p = Mmio 32 STM_TIM0) then (t, (t + 1000, script))
       else if decide (p = Mmio 32 SIM_RIS) then (SIM_RIS_OK, (t + 1000, script))
       else if decide (p = Mmio 32 SIM_RXB) then (default 0 (head script), (t + 1000, tail script))
       else (0, (t + 1000, script));
     dev_write p v s := s |}.
