(* ===== verification/SimReader.v ===== *)
(** * The smart-card reader ([apps/sim-reader/main.c])

    A firmware that turns the phone into a serial CCID reader: the host's messages arrive
    over [USART0] in frames closed by a longitudinal check byte, the card is driven
    through the SIM interface with the T=0 procedure bytes. *)
From S2P Require Import Prelude Machine Board Regs Clock Stopwatch Wdt Usart Smbus.

Definition SIM_IRQ_MASK : Z := SIM_IMSC_ERR .| SIM_IMSC_IN .| SIM_IMSC_OK.
Definition SIM_DEFAULT_BRF : Z := 0x5D.
Definition SIM_RMC : Z := 4.
Definition SIM_MAX_ATR_SIZE : Z := 64.
Definition SIM_MAX_DATA_SIZE : Z := 256.
Definition SIM_STATUS_SIZE : Z := 2.
Definition SIM_HEADER_SIZE : Z := 5.
Definition SIM_HEADER_INS : Z := 1.
Definition SIM_HEADER_P3 : Z := 4.
Definition SIM_NULL_BYTE : Z := 0x60.
Definition SIM_TX_TIMEOUT_MS : Z := 500.
Definition SIM_FIRST_ATR_TIMEOUT_MS : Z := 1000.
Definition SIM_NEXT_ATR_TIMEOUT_MS : Z := 100.
Definition SIM_RESPONSE_TIMEOUT_MS : Z := 3000.
Definition SIM_TURNAROUND_MS : Z := 5.
Definition SIM_SUPPLY_SETTLE_MS : Z := 255.
Definition SIM_CLOCK_SETTLE_MS : Z := 100.
Definition SIM_UART_SETTLE_MS : Z := 5.
Definition SIM_PPSS : Z := 0xFF.
Definition SIM_DEFAULT_FIDI : Z := 0x11.
Definition SIM_FIDI_FI_SHIFT : Z := 4.
Definition SIM_FIDI_DI_MASK : Z := 0x0F.
Definition SIM_CLOCKS_PER_BRF_ETU : Z := 4.
Definition HOST_SPEED : Z := 115200.
Definition SERIAL_SYNC : Z := 0x03.
Definition SERIAL_ACK : Z := 0x06.
Definition SERIAL_NAK : Z := 0x15.
Definition CCID_HEADER_SIZE : Z := 10.
Definition CCID_MAX_DATA_SIZE : Z := 261.
Definition CCID_OFFSET_TYPE : Z := 0.
Definition CCID_OFFSET_LENGTH : Z := 1.
Definition CCID_OFFSET_SLOT : Z := 5.
Definition CCID_OFFSET_SEQ : Z := 6.
Definition CCID_OFFSET_STATUS : Z := 7.
Definition CCID_OFFSET_ERROR : Z := 8.
Definition CCID_OFFSET_SPECIFIC : Z := 9.
Definition CCID_OFFSET_PROTOCOL : Z := 7.
Definition PC_TO_RDR_SET_PARAMETERS : Z := 0x61.
Definition PC_TO_RDR_ICC_POWER_ON : Z := 0x62.
Definition PC_TO_RDR_ICC_POWER_OFF : Z := 0x63.
Definition PC_TO_RDR_GET_SLOT_STATUS : Z := 0x65.
Definition PC_TO_RDR_ESCAPE : Z := 0x6B.
Definition PC_TO_RDR_GET_PARAMETERS : Z := 0x6C.
Definition PC_TO_RDR_RESET_PARAMETERS : Z := 0x6D.
Definition PC_TO_RDR_XFR_BLOCK : Z := 0x6F.
Definition RDR_TO_PC_DATA_BLOCK : Z := 0x80.
Definition RDR_TO_PC_SLOT_STATUS : Z := 0x81.
Definition RDR_TO_PC_PARAMETERS : Z := 0x82.
Definition RDR_TO_PC_ESCAPE : Z := 0x83.
Definition CCID_ICC_ACTIVE : Z := 0x00.
Definition CCID_ICC_INACTIVE : Z := 0x01.
Definition CCID_COMMAND_FAILED : Z := 0x40.
Definition CCID_ERROR_CMD_NOT_SUPPORTED : Z := 0x00.
Definition CCID_ERROR_BAD_FIDI : Z := 10.
Definition CCID_ERROR_HW_ERROR : Z := 0xFB.
Definition CCID_ERROR_ICC_MUTE : Z := 0xFE.
Definition CCID_T0_PARAMETERS_SIZE : Z := 5.
Definition CCID_T0_DEFAULT_WAITING_INTEGER : Z := 0x0A.
Definition CCID_T0_FIDI : Z := 0.
Definition ESCAPE_GET_FIRMWARE : Z := 0x02.
Definition ESCAPE_POWER_OFF : Z := 0xF0.

Definition FI_CLOCKS_PER_ETU : list Z :=
  [372; 372; 558; 744; 1116; 1488; 1860; 0; 0; 512; 768; 1024; 1536; 2048; 0; 0].
Definition DI_DIVISORS : list Z := [0; 1; 2; 4; 8; 16; 32; 64; 12; 20; 0; 0; 0; 0; 0; 0].
Definition DEFAULT_T0_PARAMETERS : list Z := [SIM_DEFAULT_FIDI; 0; 0; CCID_T0_DEFAULT_WAITING_INTEGER; 0].
(** ["PMB887X SIM reader"], without the terminator, which is not sent. *)
Definition FIRMWARE : list Z :=
  [0x50; 0x4D; 0x42; 0x38; 0x38; 0x37; 0x58; 0x20; 0x53; 0x49; 0x4D; 0x20; 0x72; 0x65; 0x61; 0x64; 0x65; 0x72].

Definition sim_fidi_to_brf (fidi : Z) : Z :=
  let divisor := nth (Z.to_nat (fidi .& SIM_FIDI_DI_MASK)) DI_DIVISORS 0 in
  if divisor ==? 0 then 0
  else nth (Z.to_nat (fidi .>> SIM_FIDI_FI_SHIFT)) FI_CLOCKS_PER_ETU 0 / divisor / SIM_CLOCKS_PER_BRF_ETU.

(** The static objects: [struct ccid_message request] in slot 8 (the header, then the data;
    its [size] field is [request_size] below), [response], [atr], [t0_parameters],
    [FIRMWARE]; the local [header] of [host_reply] in slot 13, [procedure] in slot 14; the
    PMIC byte ([control], [supply_enable], [power]) is the callers' byte of [Smbus]. *)
Definition request_header : Z := LOCAL 8.
Definition request_data : Z := LOCAL 8 + CCID_HEADER_SIZE.
Definition response_buffer : Z := LOCAL 9.
Definition atr_buffer : Z := LOCAL 10.
Definition t0_parameters : Z := LOCAL 11.
Definition firmware_string : Z := LOCAL 12.
Definition reply_header : Z := LOCAL 13.
Definition procedure_byte : Z := LOCAL 14.
Definition pmic_byte : Z := LOCAL 7.

(** The other statics: [icc_active] and the size of the request. *)
Record reader := Reader { icc_active : bool; request_size : Z }.

Section Code.
Context {D : Type} `{!Device D} `{B : Board} `{Hw : !I2cHw D reader}.
#[local] Abbreviation M := (M D reader).

(** *** The card *)

Definition delay_ms (milliseconds : Z) : M unit :=
  start ← stopwatch_get;
  iter (fun _ : unit =>
    e ← stopwatch_elapsed_ms start;
    if e <? milliseconds then wdt_serve;; mret (inl tt) else mret (inr tt)) tt.

Definition sim_wait_ok (timeout_ms : Z) : M bool :=
  start ← stopwatch_get;
  iter (fun _ : unit =>
    e ← stopwatch_elapsed_ms start;
    if e <? timeout_ms then
      ris ← rd32 SIM_RIS;
      if (ris .& SIM_RIS_ERR) !=? 0 then wr32 SIM_ICR SIM_ICR_ERR;; mret (inr false)
      else
        ris ← rd32 SIM_RIS;
        if (ris .& SIM_RIS_OK) !=? 0 then mret (inr true)
        else wdt_serve;; mret (inl tt)
    else mret (inr false)) tt.

Definition sim_send_byte (value : Z) : M bool :=
  wr32 SIM_ICR SIM_ICR_OK;;
  wr32 SIM_TXB value;;
  ok ← sim_wait_ok SIM_TX_TIMEOUT_MS;
  if negb ok then mret false
  else wr32 SIM_ICR SIM_ICR_OK;; mret true.

Definition sim_receive_byte (value timeout_ms : Z) : M bool :=
  ok ← sim_wait_ok timeout_ms;
  if negb ok then mret false
  else
    b ← rd32 SIM_RXB; st8 value b;;
    wr32 SIM_ICR SIM_ICR_OK;;
    mret true.

Definition sim_supply_set (enabled : bool) : M bool :=
  match board_pmic with
  | PMIC_PMB6812 =>
      alloc pmic_byte 1;;
      ok ← i2c_smbus_read_byte PMB6812_I2C_ADDR PMB6812_PWCTRL5 pmic_byte;
      if negb ok then mret false
      else
        control ← ld8 pmic_byte;
        let control := u8 (control .& not32 PMB6812_PWCTRL5_LSIMMD) in
        let control := u8 (control .| (if enabled then PMB6812_PWCTRL5_LSIMMD_ON else PMB6812_PWCTRL5_LSIMMD_OFF)) in
        pmb681x_reg_write PMB6812_PWCTRL5 control
  | PMIC_D1094XX =>
      alloc pmic_byte 1;;
      ok ← i2c_smbus_read_byte PASIC_I2C_ADDR PASIC_SUPPLY_ENABLE_1 pmic_byte;
      if negb ok then mret false
      else
        supply_enable ← ld8 pmic_byte;
        let supply_enable :=
          if enabled then u8 (supply_enable .| PASIC_SUPPLY_ENABLE_1_VAUDREGA_EN)
          else u8 (supply_enable .& not32 PASIC_SUPPLY_ENABLE_1_VAUDREGA_EN) in
        i2c_smbus_write_byte PASIC_I2C_ADDR PASIC_SUPPLY_ENABLE_1 supply_enable
  | PMIC_NONE => mret true
  end.

Definition sim_power_off : M unit :=
  wr32 SIM_CON 0;;
  wr32 SIM_IRQEN 0;;
  wr32 SIM_ICR SIM_IRQ_MASK;;
  i2c_init;;
  _ ← sim_supply_set false;
  mret tt.

(** [SIM_CON |= bits]. *)
Definition sim_con_set (bits : Z) : M unit := con ← rd32 SIM_CON; wr32 SIM_CON (con .| bits).

Definition sim_power_on (atr : Z) : M Z :=
  sim_power_off;;
  wr32 SIM_BRF SIM_DEFAULT_BRF;;
  wr32 SIM_IRQEN (SIM_IRQEN_ENOKINT .| SIM_IRQEN_ENPAR .| SIM_IRQEN_ENOVR);;
  wr32 SIM_IMSC 0;;
  wr32 SIM_ICR SIM_IRQ_MASK;;
  wr32 SIM_CON SIM_CON_SIMEN;;
  ok ← sim_supply_set true;
  if negb ok then mret 0
  else
    delay_ms SIM_SUPPLY_SETTLE_MS;;
    sim_con_set SIM_CON_SIMVCC;;
    sim_con_set (SIM_CON_SIMIOL .| SIM_CON_ERROFF);;
    sim_con_set SIM_CON_SIMON;;
    delay_ms SIM_CLOCK_SETTLE_MS;;
    sim_con_set SIM_CON_UARTON;;
    delay_ms SIM_UART_SETTLE_MS;;
    sim_con_set SIM_CON_SIMRST;;
    iter (fun size =>
      if size <? SIM_MAX_ATR_SIZE then
        let timeout_ms := if size ==? 0 then SIM_FIRST_ATR_TIMEOUT_MS else SIM_NEXT_ATR_TIMEOUT_MS in
        ok ← sim_receive_byte (atr + size) timeout_ms;
        if negb ok then mret (inr size) else mret (inl (size + 1))
      else mret (inr size)) 0.

Definition sim_receive_procedure (value : Z) : M bool :=
  iter (fun _ : unit =>
    ok ← sim_receive_byte value SIM_RESPONSE_TIMEOUT_MS;
    if negb ok then mret (inr false)
    else b ← ld8 value; if b ==? SIM_NULL_BYTE then mret (inl tt) else mret (inr true)) tt.

Definition sim_header_to_data_size (header : Z) : M Z :=
  p3 ← ld8 (header + SIM_HEADER_P3);
  mret (if p3 !=? 0 then p3 else SIM_MAX_DATA_SIZE).

(** The loop that sends [size] bytes; [None] when it went through. *)
Definition sim_send_bytes (data size : Z) : M (option bool) :=
  r ← foldE (fun _ i =>
        b ← ld8 (data + i);
        ok ← sim_send_byte b;
        mret (if negb ok then inr false else inl tt)) tt (seqZ 0 size);
  mret (match r with inl _ => None | inr r => Some r end).

(** One data byte of the T=0 exchange, from or to the card; the state is [transferred]
    and [*response_size]. *)
Definition tpdu_byte (tx_data : option Z) (response : Z) (s : Z * Z) (_ : Z) : M (Z * Z + bool * Z) :=
  let '(transferred, response_size) := s in
  match tx_data with
  | Some tx_data =>
      b ← ld8 (tx_data + transferred);
      ok ← sim_send_byte b;
      mret (if negb ok then inr (false, response_size) else inl (transferred + 1, response_size))
  | None =>
      ok ← sim_receive_byte (response + response_size) SIM_RESPONSE_TIMEOUT_MS;
      mret (if negb ok then inr (false, response_size + 1) else inl (transferred + 1, response_size + 1))
  end.
(** A procedure byte and what it asks for. *)
Definition tpdu_step (ins : Z) (tx_data : option Z) (size response : Z) (s : Z * Z) :
    M (Z * Z + bool * Z) :=
  let '(transferred, response_size) := s in
  alloc procedure_byte 1;;
  ok ← sim_receive_procedure procedure_byte;
  if negb ok then mret (inr (false, response_size))
  else
    procedure ← ld8 procedure_byte;
    if procedure ==? ins then
      foldE (tpdu_byte tx_data response) s (seqZ 0 (u32 (size - transferred)))
    else if procedure ==? not8 ins then
      foldE (tpdu_byte tx_data response) s (seqZ 0 (if transferred <? size then 1 else 0))
    else
      st8 (response + response_size) procedure;;
      ok ← sim_receive_byte (response + (response_size + 1)) SIM_RESPONSE_TIMEOUT_MS;
      mret (inr (ok, response_size + 2)).
(** The result and [*response_size]. *)
Definition sim_exchange_tpdu (tpdu tpdu_size response : Z) : M (bool * Z) :=
  ins ← ld8 (tpdu + SIM_HEADER_INS);
  let tx_data := if SIM_HEADER_SIZE <? tpdu_size then Some (tpdu + SIM_HEADER_SIZE) else None in
  size ← match tx_data with
         | Some _ => mret (tpdu_size - SIM_HEADER_SIZE)
         | None => sim_header_to_data_size tpdu
         end;
  delay_ms SIM_TURNAROUND_MS;;
  failed ← sim_send_bytes tpdu SIM_HEADER_SIZE;
  match failed with
  | Some r => mret (r, 0)
  | None => iter (tpdu_step ins tx_data size response) (0, 0)
  end.

Definition sim_exchange_pps (request size response : Z) : M bool :=
  delay_ms SIM_TURNAROUND_MS;;
  failed ← sim_send_bytes request size;
  match failed with
  | Some r => mret r
  | None =>
      r ← foldE (fun _ i =>
            ok ← sim_receive_byte (response + i) SIM_RESPONSE_TIMEOUT_MS;
            mret (if negb ok then inr false else inl tt)) tt (seqZ 0 size);
      mret (match r with inl _ => true | inr r => r end)
  end.

(** *** The host *)

Definition host_read_byte : M Z :=
  poll (l ← usart_get_rx_fifo_level USART0; mret (negb (l ==? 0))) wdt_serve;;
  usart_getc USART0.

(** [for (i < size) lrc ^= p[i]]. *)
Definition lrc_update (lrc p size : Z) : M Z :=
  foldM (fun lrc i => b ← ld8 (p + i); mret (lrc .^ b)) lrc (seqZ 0 size).
Definition host_write_frame (header data size : Z) : M unit :=
  lrc ← lrc_update (SERIAL_SYNC .^ SERIAL_ACK) header CCID_HEADER_SIZE;
  lrc ← lrc_update lrc data size;
  usart_putc USART0 SERIAL_SYNC;;
  usart_putc USART0 SERIAL_ACK;;
  usart_write USART0 header CCID_HEADER_SIZE;;
  usart_write USART0 data size;;
  usart_putc USART0 lrc.
Definition host_write_nak : M unit :=
  usart_putc USART0 SERIAL_SYNC;;
  usart_putc USART0 SERIAL_NAK;;
  usart_putc USART0 (SERIAL_SYNC .^ SERIAL_NAK).

(** [for (i < size) { p[i] = host_read_byte(); lrc ^= p[i]; }]. *)
Definition host_read_block (lrc p size : Z) : M Z :=
  foldM (fun lrc i =>
    b ← host_read_byte; st8 (p + i) b;;
    b ← ld8 (p + i); mret (lrc .^ b)) lrc (seqZ 0 size).
(** The message is always [request]. *)
Definition host_read_message : M bool :=
  poll (b ← host_read_byte; mret (b ==? SERIAL_SYNC)) (mret tt);;
  b ← host_read_byte;
  if b !=? SERIAL_ACK then mret false
  else
    lrc ← host_read_block (SERIAL_SYNC .^ SERIAL_ACK) request_header CCID_HEADER_SIZE;
    size ← ld32 (request_header + CCID_OFFSET_LENGTH);
    if CCID_MAX_DATA_SIZE <? size then mret false
    else
      lrc ← host_read_block lrc request_data size;
      s ← get_app; put_app (Reader (icc_active s) size);;
      b ← host_read_byte;
      mret (b ==? lrc).
Definition host_echo_message : M unit :=
  s ← get_app; host_write_frame request_header request_data (request_size s).

Definition host_reply (type : Z) (failed : bool) (error specific data size : Z) : M unit :=
  s ← get_app;
  let status := if icc_active s then CCID_ICC_ACTIVE else CCID_ICC_INACTIVE in
  alloc reply_header CCID_HEADER_SIZE;;
  st8 (reply_header + CCID_OFFSET_TYPE) type;;
  st8 (reply_header + CCID_OFFSET_LENGTH) size;;
  st8 (reply_header + (CCID_OFFSET_LENGTH + 1)) (size .>> 8);;
  slot ← ld8 (request_header + CCID_OFFSET_SLOT);
  st8 (reply_header + CCID_OFFSET_SLOT) slot;;
  seq ← ld8 (request_header + CCID_OFFSET_SEQ);
  st8 (reply_header + CCID_OFFSET_SEQ) seq;;
  st8 (reply_header + CCID_OFFSET_STATUS) (if failed then status .| CCID_COMMAND_FAILED else status);;
  st8 (reply_header + CCID_OFFSET_ERROR) error;;
  st8 (reply_header + CCID_OFFSET_SPECIFIC) specific;;
  host_write_frame reply_header data size.
Definition host_reply_slot_status (failed : bool) (error : Z) : M unit :=
  host_reply RDR_TO_PC_SLOT_STATUS failed error 0 0 0.
Definition host_reply_parameters (failed : bool) (error : Z) : M unit :=
  host_reply RDR_TO_PC_PARAMETERS failed error 0 t0_parameters CCID_T0_PARAMETERS_SIZE.

(** [memcpy] of the five parameters, from an array of constants and from the request. *)
Definition t0_parameters_reset : M unit :=
  foldM (fun _ ib => st8 (t0_parameters + ib.1) ib.2) tt (zip (seqZ 0 5) DEFAULT_T0_PARAMETERS);;
  wr32 SIM_BRF SIM_DEFAULT_BRF.
Definition t0_parameters_copy : M unit :=
  foldM (fun _ i => b ← ld8 (request_data + i); st8 (t0_parameters + i) b) tt (seqZ 0 5).

Definition set_icc_active (active : bool) : M unit :=
  s ← get_app; put_app (Reader active (request_size s)).
Definition host_handle_power_on : M unit :=
  t0_parameters_reset;;
  size ← sim_power_on atr_buffer;
  set_icc_active (size !=? 0);;
  if size ==? 0 then host_reply RDR_TO_PC_DATA_BLOCK true CCID_ERROR_ICC_MUTE 0 0 0
  else host_reply RDR_TO_PC_DATA_BLOCK false 0 0 atr_buffer size.
Definition host_handle_power_off : M unit :=
  sim_power_off;;
  set_icc_active false;;
  host_reply_slot_status false 0.

Definition host_handle_xfr_block : M unit :=
  s ← get_app;
  is_pps ← (if request_size s ==? 0 then mret false
            else b ← ld8 request_data; mret (b ==? SIM_PPSS));
  if negb (icc_active s) || (negb is_pps && (request_size s <? SIM_HEADER_SIZE)) then
    host_reply RDR_TO_PC_DATA_BLOCK true CCID_ERROR_HW_ERROR 0 0 0
  else
    '(exchanged, size) ← (if is_pps : bool then
        exchanged ← sim_exchange_pps request_data (request_size s) response_buffer;
        mret (exchanged, request_size s)
      else sim_exchange_tpdu request_data (request_size s) response_buffer);
    if negb exchanged then host_reply RDR_TO_PC_DATA_BLOCK true CCID_ERROR_ICC_MUTE 0 0 0
    else host_reply RDR_TO_PC_DATA_BLOCK false 0 0 response_buffer size.

Definition host_handle_set_parameters : M unit :=
  s ← get_app;
  protocol ← ld8 (request_header + CCID_OFFSET_PROTOCOL);
  brf ← (if (protocol ==? 0) && (request_size s ==? CCID_T0_PARAMETERS_SIZE) then
           fidi ← ld8 (request_data + CCID_T0_FIDI); mret (sim_fidi_to_brf fidi)
         else mret 0);
  if brf ==? 0 then host_reply_parameters true CCID_ERROR_BAD_FIDI
  else
    t0_parameters_copy;;
    wr32 SIM_BRF brf;;
    host_reply_parameters false 0.

Definition phone_power_off : M unit :=
  sim_power_off;;
  match board_pmic with
  | PMIC_D1094XX =>
      alloc pmic_byte 1;;
      ok ← i2c_smbus_read_byte PASIC_I2C_ADDR PASIC_POWER pmic_byte;
      if ok : bool then
        power ← ld8 pmic_byte;
        _ ← i2c_smbus_write_byte PASIC_I2C_ADDR PASIC_POWER (power .| PASIC_POWER_POWEROFF);
        mret tt
      else mret tt
  | _ => mret tt
  end;;
  stop Spin.
Definition host_handle_escape : M unit :=
  s ← get_app;
  command ← (if request_size s !=? 0 then ld8 request_data else mret 0);
  if command ==? ESCAPE_GET_FIRMWARE then
    host_reply RDR_TO_PC_ESCAPE false 0 0 firmware_string (Z.of_nat (length FIRMWARE))
  else
    host_reply RDR_TO_PC_ESCAPE false 0 0 0 0;;
    when (command ==? ESCAPE_POWER_OFF) (usart_flush USART0;; phone_power_off).

Definition host_handle_message : M unit :=
  type ← ld8 (request_header + CCID_OFFSET_TYPE);
  if type ==? PC_TO_RDR_ICC_POWER_ON then host_handle_power_on
  else if type ==? PC_TO_RDR_ICC_POWER_OFF then host_handle_power_off
  else if type ==? PC_TO_RDR_GET_SLOT_STATUS then host_reply_slot_status false 0
  else if type ==? PC_TO_RDR_XFR_BLOCK then host_handle_xfr_block
  else if type ==? PC_TO_RDR_GET_PARAMETERS then host_reply_parameters false 0
  else if type ==? PC_TO_RDR_RESET_PARAMETERS then
    t0_parameters_reset;; host_reply_parameters false 0
  else if type ==? PC_TO_RDR_SET_PARAMETERS then host_handle_set_parameters
  else if type ==? PC_TO_RDR_ESCAPE then host_handle_escape
  else host_reply_slot_status true CCID_ERROR_CMD_NOT_SUPPORTED.

(** One round of the main loop. *)
Definition main_round : M unit :=
  ok ← host_read_message;
  if negb ok then host_write_nak
  else host_echo_message;; host_handle_message.
(** [printf] is the library's. *)
Definition main (printf : M unit) : M unit :=
  wdt_init;;
  wr32 SIM_CLC (SIM_RMC .<< MOD_CLC_RMC_SHIFT);;
  t0_parameters_reset;;
  printf;;
  usart_putc USART0 0;;
  usart_flush USART0;;
  usart_set_speed USART0 HOST_SPEED;;
  con ← rd32 (USART_CON USART0);
  wr32 (USART_CON USART0) ((con .& not32 USART_CON_STP) .| USART_CON_STP_TWO);;
  iter (fun _ : unit => main_round;; mret (inl tt)) tt.
End Code.
