(* ===== verification/SimHost.v ===== *)
(** * The smart-card reader and its host

    The frames of the host ([apps/sim-reader/main.c], [host_read_message] to
    [host_handle_message]): reading inverts writing, the check byte, and an abstract CCID
    reader that the main loop implements for every message that needs no card. *)
From S2P Require Import Prelude Machine Board Regs Clock Stopwatch Wdt Usart Smbus SimReader.

(** ** Frames *)
Definition lrc (bs : list Z) : Z := fold_left Z.lxor bs 0.
Definition frame_body (header data : list Z) : list Z := SERIAL_SYNC :: SERIAL_ACK :: header ++ data.
Definition frame (header data : list Z) : list Z := frame_body header data ++ [lrc (frame_body header data)].
Definition nak : list Z := [SERIAL_SYNC; SERIAL_NAK; SERIAL_SYNC .^ SERIAL_NAK].
(** A header announces as many bytes as follow. *)
Definition header_ok (header data : list Z) : Prop :=
  length header = 10%nat /\ bytes_ok header /\ bytes_ok data /\
  le_word (take 4 (drop 1 header)) = Z.of_nat (length data) /\ Z.of_nat (length data) <= CCID_MAX_DATA_SIZE.

Lemma fold_lxor bs x : fold_left Z.lxor bs x = x .^ lrc bs.
Proof.
  unfold lrc. revert x. induction bs as [|b bs IH]; intros x; cbn [fold_left]; [by rewrite Z.lxor_0_r|].
  rewrite IH, (IH (Z.lxor 0 b)). by rewrite Z.lxor_0_l, Z.lxor_assoc.
Qed.
Lemma lrc_app bs cs : lrc (bs ++ cs) = lrc bs .^ lrc cs.
Proof. unfold lrc at 1. by rewrite fold_left_app, fold_lxor. Qed.
Lemma lrc_cons b bs : lrc (b :: bs) = b .^ lrc bs.
Proof. unfold lrc at 1. cbn [fold_left]. by rewrite fold_lxor, Z.lxor_0_l. Qed.
Lemma lrc_range bs : bytes_ok bs -> is_byte (lrc bs).
Proof.
  induction 1; [done|]. rewrite lrc_cons. by apply (lxor_range 8).
Qed.
Lemma frame_split header data : lrc (frame_body header data) = SERIAL_SYNC .^ SERIAL_ACK .^ lrc header .^ lrc data.
Proof. unfold frame_body. rewrite !lrc_cons, lrc_app. by rewrite !Z.lxor_assoc. Qed.

(** ** Memory between the steps *)
Section Memory.
Implicit Types m : gmap Z Z.
(** A memory that differs in [n] bytes at [a] only. *)
Definition differs a n m m' : Prop :=
  (forall x, ~ (a <= x < a + n) -> mem_get m' x = mem_get m x) /\
  (forall x, mem_valid m x = true -> mem_valid m' x = true).
Lemma differs_refl a n m : differs a n m m. Proof. done. Qed.
Lemma differs_insert a n m m' x v : differs a n m m' -> a <= x < a + n -> differs a n m (<[x:=v]> m').
Proof.
  intros [H1 H2] Hx. split; intros y Hy; [|by apply mem_valid_insert, H2].
  rewrite mem_get_insert. case_decide; [lia|by apply H1].
Qed.
Lemma differs_alloc a n m : differs a n m (mem_alloc a n m).
Proof. split; intros y Hy; [by apply mem_get_alloc_out|by apply mem_valid_alloc_mono]. Qed.
Lemma differs_at a n m m' x bs : differs a n m m' -> x + Z.of_nat (length bs) <= a \/ a + n <= x ->
  mem_at m x bs -> mem_at m' x bs.
Proof. intros [H1 _] Hx. apply mem_at_ext. intros y Hy. apply H1. lia. Qed.

Definition reply_bytes (active : bool) (header : list Z) (type : Z) (failed : bool) (error specific size : Z) : list Z :=
  let status := if active then CCID_ICC_ACTIVE else CCID_ICC_INACTIVE in
  [u8 type; u8 size; u8 (size .>> 8); 0; 0;
   nth (Z.to_nat CCID_OFFSET_SLOT) header 0; nth (Z.to_nat CCID_OFFSET_SEQ) header 0;
   u8 (if failed then status .| CCID_COMMAND_FAILED else status); u8 error; u8 specific].

(** The static objects are there, and [t0_parameters] holds [params]. *)
Definition statics m : Prop :=
  valid_range m request_header 271 /\ valid_range m response_buffer 258 /\ valid_range m atr_buffer 64 /\
  valid_range m t0_parameters 5 /\ valid_range m firmware_string 18 /\ mem_at m firmware_string FIRMWARE.
Definition holding m (params : list Z) : Prop :=
  statics m /\ mem_at m t0_parameters params /\ length params = 5%nat.
Lemma statics_differs a n m m' : differs a n m m' -> a + n <= firmware_string \/ firmware_string + 18 <= a ->
  statics m -> statics m'.
Proof.
  intros Hd Ha (H1 & H2 & H3 & H4 & H5 & H6). pose proof (proj2 Hd) as Hv.
  split_and!; try (intros x Hx; apply Hv; auto; fail). by eapply differs_at; [exact Hd|simpl; lia|].
Qed.
Lemma holding_differs a n m m' params : differs a n m m' -> a + n <= firmware_string \/ t0_parameters + 5 <= a ->
  holding m params -> holding m' params.
Proof.
  intros Hd Ha (Hs & Hp & Hl). assert (firmware_string + 18 <= t0_parameters) as Hlt by done. split_and!.
  - eapply statics_differs; [exact Hd|lia|done].
  - eapply differs_at; [exact Hd| |exact Hp]. rewrite Hl. assert (firmware_string <= t0_parameters) by done. lia.
  - done.
Qed.
End Memory.

(** ** Between two steps of the main loop *)
Section Serving.
Context {D : Type} `{!Device D} `{B : Board} `{Line : !UsartLine USART0 D}.
Implicit Types (w : world D reader) (s : reader) (m : gmap Z Z) (rx tx : list Z).

(** [m] is the memory up to the character locals of [lib/usart.c]. *)
Definition below m m' : Prop :=
  (forall a, a < LOCAL 1 -> mem_get m' a = mem_get m a) /\
  (forall a, a < LOCAL 1 -> mem_valid m a = true -> mem_valid m' a = true).
Definition serving rx tx m s w : Prop :=
  line USART0 rx tx (w_dev w) /\ below m (w_mem w) /\ mem_ok m /\ mem_ok (w_mem w) /\
  ticks_per_s (w_lib w) <> 0 /\ w_app w = s.

Context (E : cause -> world D reader -> Prop) (f : nat).

Lemma below_insert m m' a v : below m m' -> below (<[a:=v]> m) (<[a:=v]> m').
Proof.
  intros [H1 H2]. split; intros x Hx.
  - rewrite !mem_get_insert. case_decide; [done|by apply H1].
  - specialize (H2 x Hx). unfold mem_valid in *. rewrite !lookup_insert. case_decide; [done|exact H2].
Qed.
Lemma below_alloc m m' a n : below m m' -> below (mem_alloc a n m) (mem_alloc a n m').
Proof.
  intros [H1 H2]. split; intros x Hx.
  - specialize (H1 x Hx). unfold mem_get in *. rewrite !mem_alloc_lookup. by case_decide.
  - specialize (H2 x Hx). unfold mem_valid in *. rewrite !mem_alloc_lookup. case_decide; [done|exact H2].
Qed.
Lemma below_scratch m m1 m2 : below m m1 -> scratch m1 m2 -> below m m2.
Proof.
  intros [H1 H2] (H3 & H4 & _). split; intros x Hx; [|auto]. rewrite H3 by lia. by apply H1.
Qed.

Lemma sv_ld8 a Q rx tx m s w : serving rx tx m s w -> a < LOCAL 1 -> mem_valid m a = true ->
  Q (mem_get m a) w -> wp E (ld8 a) Q f w.
Proof.
  intros (_ & [H1 H2] & _) Ha Hv HQ. apply wp_ld8; [by apply H2|]. by rewrite H1.
Qed.
Lemma sv_st8 a v Q rx tx m s w : serving rx tx m s w -> a < LOCAL 1 -> mem_valid m a = true ->
  (forall w', serving rx tx (<[a := u8 v]> m) s w' -> Q tt w') -> wp E (st8 a v) Q f w.
Proof.
  intros (Hl & Hb & Ho & Ho' & Ht & Ha) Hlt Hv HQ. apply wp_st8; [by apply Hb|]. apply HQ.
  split_and!; try done; [by apply below_insert|apply mem_ok_insert; [done|apply u8_range]..].
Qed.
Lemma sv_alloc a n Q rx tx m s w : serving rx tx m s w ->
  (forall w', serving rx tx (mem_alloc a n m) s w' -> Q tt w') -> wp E (alloc a n) Q f w.
Proof.
  intros (Hl & Hb & Ho & Ho' & Ht & Ha) HQ. apply wp_alloc, HQ.
  split_and!; try done; [by apply below_alloc|by apply mem_ok_alloc..].
Qed.
Lemma sv_wr p v Q rx tx m s w : serving rx tx m s w -> usart_quiet USART0 p = true ->
  (forall w', serving rx tx m s w' -> Q tt w') -> wp E (wr p v) Q f w.
Proof.
  intros (Hl & Hr) Hp HQ. apply wp_wr, HQ. split; [|done]. by apply line_stable.
Qed.
Lemma sv_get_app Q rx tx m s w : serving rx tx m s w -> Q s w -> wp E get_app Q f w.
Proof. intros (_ & _ & _ & _ & _ & <-) HQ. by apply wp_get_app. Qed.
Lemma sv_put_app s' Q rx tx m s w : serving rx tx m s w ->
  (forall w', serving rx tx m s' w' -> Q tt w') -> wp E (put_app s') Q f w.
Proof. intros (Hl & Hb & Ho & Ho' & Ht & _) HQ. apply wp_put_app, HQ. by split_and!. Qed.
Lemma sv_vars rx tx m s w w' rx' tx' : serving rx tx m s w -> line USART0 rx' tx' (w_dev w') ->
  scratch (w_mem w) (w_mem w') -> same_vars w w' -> serving rx' tx' m s w'.
Proof.
  intros (_ & Hb & Ho & Ho' & Ht & Ha) Hl Hs [E1 E2]. split_and!; try done; [|by apply Hs|congruence..].
  by eapply below_scratch.
Qed.

Context (Hf : (line_patience (u := USART0) (D := D) + 300 < f)%nat).
Lemma sv_putc c Q rx tx m s w : serving rx tx m s w ->
  (forall w', serving rx (tx ++ [u8 c]) m s w' -> Q tt w') -> wp E (usart_putc USART0 c) Q f w.
Proof.
  intros H HQ. eapply wp_usart_putc; [lia|apply H|]. intros w' Hl Hs Hv. apply HQ. by eapply sv_vars.
Qed.
Lemma sv_write data bs Q rx tx m s w : serving rx tx m s w -> mem_at m data bs -> bytes_ok bs ->
  data + Z.of_nat (length bs) <= LOCAL 1 -> valid_range m data (Z.of_nat (length bs)) -> (length bs <= 300)%nat ->
  (forall w', serving rx (tx ++ bs) m s w' -> Q tt w') ->
  wp E (usart_write USART0 data (Z.of_nat (length bs))) Q f w.
Proof.
  intros H Hat Hb Hd Hv Hlen HQ. pose proof H as (_ & [H1 H2] & _).
  eapply wp_usart_write; [apply H| |exact Hb| |lia|lia|lia|].
  - eapply mem_at_ext; [|exact Hat]. intros x Hx. apply H1. lia.
  - intros i Hi. apply H2; [lia|by apply Hv].
  - intros w' Hl Em Hvars. apply HQ. eapply sv_vars; [exact H|exact Hl| |exact Hvars]. by rewrite Em.
Qed.
(** [host_read_byte] serves the watchdog while it waits. *)
Lemma sv_read_byte b Q rx tx m s w : serving (b :: rx) tx m s w -> is_byte b ->
  (forall w', serving rx tx m s w' -> Q b w') -> wp E host_read_byte Q f w.
Proof.
  intros H Hb HQ. unfold host_read_byte. apply wp_bind.
  eapply (wp_iter _ _ (fun _ w' => serving (b :: rx) tx m s w') (fun _ w' => rx_wait (w_dev w')));
    [exact H|pose proof (line_waits (w_dev w)); lia|]. clear w H.
  intros [] w H. apply wp_bind, wp_bind, wp_bind, wp_rd. intros v d Hrd. apply wp_ret, wp_ret.
  destruct (line_fstat _ _ _ Hrd) as (Hn & Ht & _ & Hw & _).
  set (w1 := set_io _ _ _). assert (serving (b :: rx) tx m s w1) as H1.
  { destruct H as ([Hr Hs] & H). split; [split; [by apply Hn|simpl; congruence]|exact H]. }
  assert (Hd1 : w_dev w1 = d) by done. clearbody w1.
  unfold port_wrap. destruct (Z.eqb_spec ((u32 v .& USART_FSTAT_RXFFL) .>> USART_FSTAT_RXFFL_SHIFT) 0) as [E0|]; cbn [negb].
  - apply wp_bind. specialize (Hw b rx (proj1 (proj1 H)) E0).
    destruct H1 as (Hl & Hb1 & Ho & Ho' & Ht1 & Ha).
    eapply (wp_wdt_serve (fun d' => line USART0 (b :: rx) tx d' /\ (rx_wait d' <= rx_wait d)%nat)).
    + eapply stable_weaken; [apply wdt_quiet|apply line_wait_stable].
    + rewrite Hd1 in *. split; [exact Hl|lia].
    + exact Ht1.
    + intros w2 ([Hl2 Hk] & E1 & E2 & E3 & _). apply wp_ret. split; [|lia].
      unfold serving. rewrite E1, E2, E3. by split_and!.
  - apply wp_ret. eapply wp_usart_getc; [lia|apply H1|exact Hb|]. intros w' Hl Hs Hv. apply HQ. by eapply sv_vars.
Qed.

Lemma sv_lrc x p bs Q rx tx m s w : serving rx tx m s w -> mem_at m p bs ->
  p + Z.of_nat (length bs) <= LOCAL 1 -> valid_range m p (Z.of_nat (length bs)) ->
  Q (x .^ lrc bs) w -> wp E (lrc_update x p (Z.of_nat (length bs))) Q f w.
Proof.
  intros H Hat Hp Hv HQ.
  apply (wp_foldM _ _ (fun done r w' => w' = w /\ r = x .^ lrc (take (length done) bs))).
  - split; [done|]. simpl. by rewrite Z.lxor_0_r.
  - intros done_ y todo r w' Hl [-> ->]. apply seqZ_split in Hl as [-> Hlt].
    destruct (lookup_lt_is_Some_2 bs (length done_) ltac:(lia)) as [b Hb].
    apply wp_bind. eapply sv_ld8; [exact H|lia|apply Hv; lia|]. apply wp_ret. split; [done|].
    rewrite (mem_at_lookup _ _ _ _ _ Hat Hb), length_app, Nat.add_1_r.
    erewrite take_S_r by done. by rewrite lrc_app, lrc_cons, Z.lxor_0_r, Z.lxor_assoc.
  - intros r w' [-> ->]. by rewrite length_seqZ_nat, take_ge by done.
Qed.
Lemma sv_write_frame hp dp header data Q rx tx m s w : serving rx tx m s w ->
  length header = 10%nat -> mem_at m hp header -> hp + 10 <= LOCAL 1 -> valid_range m hp 10 ->
  (length data <= 300)%nat -> mem_at m dp data -> dp + Z.of_nat (length data) <= LOCAL 1 \/ data = [] ->
  valid_range m dp (Z.of_nat (length data)) ->
  (forall w', serving rx (tx ++ frame header data) m s w' -> Q tt w') ->
  wp E (host_write_frame hp dp (Z.of_nat (length data))) Q f w.
Proof.
  intros H Hlen Hh Hhp Hhv Hd Hda Hdp Hdv HQ. unfold host_write_frame, CCID_HEADER_SIZE.
  pose proof H as (_ & _ & Ho & _).
  pose proof (mem_at_bytes _ _ _ Ho Hh) as Hhb. pose proof (mem_at_bytes _ _ _ Ho Hda) as Hdb.
  change 10 with (Z.of_nat 10) in Hhp, Hhv |- *. rewrite <- Hlen in Hhp, Hhv |- *.
  apply wp_bind. eapply sv_lrc; [exact H|exact Hh|exact Hhp|exact Hhv|].
  assert (forall x w (K : Z -> world D reader -> Prop), serving rx tx m s w ->
    K (x .^ lrc data) w -> wp E (lrc_update x dp (Z.of_nat (length data))) K f w) as Hlrc.
  { intros x w1 K H1 HK. destruct Hdp as [Hdp|Hnil]; [by eapply sv_lrc|]. subst data. apply wp_ret. by rewrite Z.lxor_0_r in HK. }
  apply wp_bind, Hlrc; [exact H|]. clear Hlrc.
  apply wp_bind. eapply sv_putc; [exact H|]. clear dependent w. intros w H.
  apply wp_bind. eapply sv_putc; [exact H|]. clear dependent w. intros w H.
  apply wp_bind. eapply sv_write; [exact H|exact Hh|exact Hhb|exact Hhp|exact Hhv|lia|]. clear dependent w. intros w H.
  assert (forall (K : unit -> world D reader -> Prop), (forall w', serving rx ((((tx ++ [u8 SERIAL_SYNC]) ++ [u8 SERIAL_ACK]) ++ header) ++ data) m s w' -> K tt w') ->
    wp E (usart_write USART0 dp (Z.of_nat (length data))) K f w) as Hwr.
  { intros K HK. destruct Hdp as [Hdp|Hnil]; [by eapply sv_write|]. subst data.
    unfold usart_write. assert (exists n, f = S n) as [n ->] by (destruct f as [|n]; [lia|by exists n]).
    apply wp_loop_S, wp_ret, HK. by rewrite app_nil_r. }
  apply wp_bind, Hwr. clear dependent w. intros w H.
  eapply sv_putc; [exact H|]. clear dependent w. intros w H. apply HQ.
  rewrite <- (frame_split header data), (u8_small (lrc _)) in H.
  2:{ apply lrc_range. unfold frame_body. apply Forall_cons_2; [done|]. apply Forall_cons_2; [done|]. by apply Forall_app. }
  unfold frame, frame_body in *. rewrite <- !app_assoc in H. cbn [app] in H |- *. by rewrite <- app_assoc.
Qed.
Lemma sv_nak Q rx tx m s w : serving rx tx m s w ->
  (forall w', serving rx (tx ++ nak) m s w' -> Q tt w') -> wp E host_write_nak Q f w.
Proof.
  intros H HQ. unfold host_write_nak. apply wp_bind. eapply sv_putc; [exact H|]. clear dependent w. intros w H.
  apply wp_bind. eapply sv_putc; [exact H|]. clear dependent w. intros w H.
  eapply sv_putc; [exact H|]. clear dependent w. intros w H. apply HQ. by rewrite <- !app_assoc in H.
Qed.

Lemma sv_read_block x p bs Q rx tx m s w : serving (bs ++ rx) tx m s w -> bytes_ok bs ->
  p + Z.of_nat (length bs) <= LOCAL 1 -> valid_range m p (Z.of_nat (length bs)) ->
  (forall w', serving rx tx (mem_put m p bs) s w' -> Q (x .^ lrc bs) w') ->
  wp E (host_read_block x p (Z.of_nat (length bs))) Q f w.
Proof.
  intros H Hb Hp Hv HQ.
  apply (wp_foldM _ _ (fun done r w' => r = x .^ lrc (take (length done) bs) /\
    serving (drop (length done) bs ++ rx) tx (mem_put m p (take (length done) bs)) s w')).
  - simpl. by rewrite Z.lxor_0_r.
  - intros done_ y todo r w' Hl [-> Hs]. apply seqZ_split in Hl as [-> Hlt].
    destruct (lookup_lt_is_Some_2 bs (length done_) ltac:(lia)) as [b Hbk].
    erewrite (drop_S bs) in Hs by done. cbn [app] in Hs.
    assert (is_byte b) as Hbb by (by eapply Forall_lookup_1 in Hbk).
    apply wp_bind. eapply sv_read_byte; [exact Hs|exact Hbb|]. intros w1 H1.
    apply wp_bind. eapply sv_st8; [exact H1|lia|apply mem_valid_put, Hv; lia|]. intros w2 H2.
    apply wp_bind. eapply sv_ld8; [exact H2|lia|apply mem_valid_insert, mem_valid_put, Hv; lia|].
    apply wp_ret. rewrite mem_get_insert, decide_True by done. rewrite u8_small in * by exact Hbb.
    rewrite length_app, Nat.add_1_r. erewrite take_S_r by done.
    split; [by rewrite lrc_app, lrc_cons, Z.lxor_0_r, Z.lxor_assoc|].
    rewrite mem_put_snoc, length_take_le by lia. exact H2.
  - intros r w' [-> Hs]. rewrite length_seqZ_nat, take_ge, drop_ge in * by done. by apply HQ.
Qed.


(** Bytes before the start of a frame are skipped. *)
Lemma sv_sync junk Q rx tx m s w : serving (junk ++ SERIAL_SYNC :: rx) tx m s w ->
  bytes_ok junk -> SERIAL_SYNC ∉ junk -> (length junk <= 250)%nat ->
  (forall w', serving rx tx m s w' -> Q tt w') ->
  wp E (poll (b ← host_read_byte; mret (b ==? SERIAL_SYNC)) (mret tt)) Q f w.
Proof.
  intros H Hj Hns Hl HQ. unfold poll. assert (length junk < f)%nat as Hn by lia. clear Hl.
  match goal with |- wp _ (iter ?b ?x) _ _ _ =>
    enough (forall n, (length junk < n)%nat -> wp E (loop n b x) Q f w) as Hg by by apply Hg end.
  clear Hn. intros n Hn. revert n w Hn H. induction junk as [|b junk IH];
    intros [|n] w Hn H; [simpl in Hn; lia|..|simpl in Hn; lia|]; apply wp_loop_S; apply wp_bind, wp_bind.
  - eapply sv_read_byte; [exact H|done|]. intros w1 H1. apply wp_ret. rewrite Z.eqb_refl. by apply wp_ret, HQ.
  - apply Forall_cons in Hj as [Hb Hj]. apply not_elem_of_cons in Hns as [Hne Hns].
    eapply sv_read_byte; [exact H|exact Hb|]. intros w1 H1. apply wp_ret.
    destruct (Z.eqb_spec b SERIAL_SYNC) as [->|_]; [done|]. apply wp_bind, wp_ret, wp_ret.
    apply IH; [done|done|simpl in Hn; lia|exact H1].
Qed.

(** A frame whose check byte is [k]. *)
Lemma sv_read_message junk header data k Q rx tx m s w :
  serving (junk ++ frame_body header data ++ (k :: rx)) tx m s w ->
  bytes_ok junk -> SERIAL_SYNC ∉ junk -> (length junk <= 250)%nat -> header_ok header data -> is_byte k ->
  valid_range m request_header 271 ->
  (forall w', serving rx tx (mem_put (mem_put m request_header header) request_data data)
                (Reader (icc_active s) (Z.of_nat (length data))) w' ->
     Q (k ==? lrc (frame_body header data)) w') ->
  wp E host_read_message Q f w.
Proof.
  intros H Hj Hns Hjl (Hlen & Hhb & Hdb & Hsz & Hmax) Hk Hv HQ. unfold CCID_MAX_DATA_SIZE in Hmax.
  unfold frame_body in H. cbn [app] in H. rewrite <- app_assoc in H.
  unfold host_read_message. apply wp_bind. eapply sv_sync; [exact H|done..|]. clear dependent w. intros w H.
  apply wp_bind. eapply sv_read_byte; [exact H|done|]. clear dependent w. intros w H.
  rewrite Z.eqb_refl. cbn [negb].
  apply wp_bind. unfold CCID_HEADER_SIZE. change 10 with (Z.of_nat 10). rewrite <- Hlen.
  assert (request_header + 271 <= LOCAL 1) as Hlow by done.
  eapply sv_read_block; [exact H|exact Hhb|lia|intros x Hx; apply Hv; lia|]. clear dependent w. intros w H.
  set (m1 := mem_put m request_header header) in *.
  assert (forall x, mem_valid m x = true -> mem_valid m1 x = true) as Hv1 by (intros; by apply mem_valid_put).
  apply wp_bind. unfold ld32.
  do 4 (apply wp_bind; eapply sv_ld8; [exact H|unfold CCID_OFFSET_LENGTH; lia|apply Hv1, Hv; unfold CCID_OFFSET_LENGTH; lia|]).
  apply wp_ret.
  assert (le_word [mem_get m1 (request_header + CCID_OFFSET_LENGTH); mem_get m1 (request_header + CCID_OFFSET_LENGTH + 1);
    mem_get m1 (request_header + CCID_OFFSET_LENGTH + 2); mem_get m1 (request_header + CCID_OFFSET_LENGTH + 3)] =
    Z.of_nat (length data)) as ->.
  { rewrite <- Hsz. f_equal. pose proof (mem_at_put m request_header header) as Hat. fold m1 in Hat.
    destruct header as [|h0 [|h1 [|h2 [|h3 [|h4 hs]]]]]; try done.
    repeat apply mem_at_cons in Hat as [? Hat]. simpl. unfold CCID_OFFSET_LENGTH.
    rewrite take_0. replace (request_header + 1 + 2) with (request_header + 1 + 1 + 1) by lia.
    replace (request_header + 1 + 3) with (request_header + 1 + 1 + 1 + 1) by lia. congruence. }
  destruct (Z.ltb_spec CCID_MAX_DATA_SIZE (Z.of_nat (length data))); [unfold CCID_MAX_DATA_SIZE in *; lia|].
  apply wp_bind. unfold request_data, CCID_HEADER_SIZE in *.
  eapply sv_read_block; [exact H|exact Hdb|unfold request_header in *; lia|
    intros x Hx; apply Hv1, Hv; unfold request_header; lia|]. clear dependent w. intros w H.
  apply wp_bind. eapply sv_get_app; [exact H|]. apply wp_bind. eapply sv_put_app; [exact H|].
  clear dependent w. intros w H. apply wp_bind. eapply sv_read_byte; [exact H|exact Hk|].
  clear dependent w. intros w H. apply wp_ret. rewrite <- (frame_split header data). by apply HQ.
Qed.

#[local] Ltac side := unfold reply_header, request_header, LOCAL, slot_size in *; lia.
(** One byte of the request copied into the reply. *)
Ltac copy_header_byte k Hbd Hv Hget Hbv H w :=
    apply wp_bind; eapply sv_ld8; [exact H|side|repeat apply mem_valid_insert; apply Hbd, Hv; lia|];
    rewrite !mem_get_insert, !decide_False by side;
    rewrite (proj1 Hbd) by side; rewrite (Hget _ k) by (reflexivity || lia);
    apply wp_bind; eapply sv_st8; [exact H|side|repeat apply mem_valid_insert; apply Hbv; lia|];
    clear dependent w; intros w H.
Lemma sv_reply header type failed error specific dp data Q rx tx m s w : serving rx tx m s w ->
  mem_at m request_header header -> length header = 10%nat -> valid_range m request_header 10 ->
  (length data <= 300)%nat -> mem_at m dp data -> valid_range m dp (Z.of_nat (length data)) ->
  (dp + Z.of_nat (length data) <= LOCAL 1 /\ reply_header + 10 <= dp) \/ data = [] ->
  (forall m' w', differs reply_header 10 m m' ->
     serving rx (tx ++ frame (reply_bytes (icc_active s) header type failed error specific (Z.of_nat (length data))) data) m' s w' ->
     Q tt w') ->
  wp E (host_reply type failed error specific dp (Z.of_nat (length data))) Q f w.
Proof.
  intros H Hh Hlen Hv Hdl Hda Hdv Hdp HQ. pose proof H as (_ & _ & Hm0 & _). unfold host_reply. apply wp_bind. eapply sv_get_app; [exact H|].
  cbv zeta. set (status := if failed then _ else _). set (size := Z.of_nat (length data)) in *.
  set (base := mem_alloc reply_header 10 m).
  assert (forall x, reply_header <= x < reply_header + 10 -> mem_valid base x = true) as Hbv
    by (intros; by apply mem_valid_alloc).
  assert (forall x, reply_header <= x < reply_header + 10 -> mem_get base x = 0) as Hb0.
  { intros x Hx. unfold base, mem_get. rewrite mem_alloc_lookup. by case_decide. }
  pose proof (differs_alloc reply_header 10 m) as Hbd. fold base in Hbd.
  apply wp_bind. eapply sv_alloc; [exact H|]. clear dependent w. intros w H.
  unfold CCID_HEADER_SIZE in H. fold base in H. clearbody base.
  assert (mem_ok m) as H0 by apply Hm0.
  assert (forall x k, request_header + Z.of_nat k = x -> (k < 10)%nat -> mem_get m x = nth k header 0) as Hget.
  { intros x k <- Hk. destruct (lookup_lt_is_Some_2 header k ltac:(lia)) as [b Hb].
    rewrite (mem_at_lookup _ _ _ _ _ Hh Hb). by erewrite nth_lookup_Some. }
  unfold CCID_OFFSET_TYPE, CCID_OFFSET_LENGTH, CCID_OFFSET_SLOT, CCID_OFFSET_SEQ, CCID_OFFSET_STATUS,
    CCID_OFFSET_ERROR, CCID_OFFSET_SPECIFIC.
  pose proof H as (_ & _ & Hbase & _). do 3 (apply wp_bind; eapply sv_st8; [exact H|side|repeat apply mem_valid_insert; apply Hbv; lia|];
        clear dependent w; intros w H).
  copy_header_byte 5%nat Hbd Hv Hget Hbv H w. copy_header_byte 6%nat Hbd Hv Hget Hbv H w.
  do 3 (apply wp_bind; eapply sv_st8; [exact H|side|repeat apply mem_valid_insert; apply Hbv; lia|];
        clear dependent w; intros w H).
  match type of H with serving _ _ ?mm _ _ => set (m' := mm) in * end.
  assert (differs reply_header 10 m m') as Hd by (repeat (apply differs_insert; [|lia]); exact Hbd).
  set (bs := reply_bytes (icc_active s) header type failed error specific size) in *.
  assert (forall k, (k < 10)%nat -> u8 (nth k header 0) = nth k header 0) as Hu.
  { intros k Hk. rewrite <- (Hget _ k eq_refl Hk). apply u8_small, H0. }
  assert (mem_at m' reply_header bs) as Hat.
  { apply mem_at_range. unfold bs, reply_bytes, mem_range, m'. simpl length. cbn [seq map].
    unfold CCID_OFFSET_SLOT, CCID_OFFSET_SEQ. simpl Z.to_nat. fold status. rewrite !Hu by lia.
    rewrite !mem_get_insert.
    repeat (first [rewrite decide_True by lia|rewrite decide_False by lia]).
    rewrite !Hb0 by lia. done. }
  eapply (sv_write_frame reply_header dp bs data); [exact H|done|exact Hat|done| |exact Hdl| | | |].
  - intros x Hx. repeat apply mem_valid_insert. apply Hbv. lia.
  - destruct Hdp as [Hdp| ->]; [|apply mem_at_nil]. eapply differs_at; [exact Hd|lia|exact Hda].
  - destruct Hdp as [Hdp|Hnil]; [left; fold size; lia|by right].
  - intros x Hx. apply Hd, Hdv. exact Hx.
  - intros w' H'. by apply (HQ m').
Qed.
End Serving.

(** ** The baud-rate register, which only the parameter commands write *)
Section Brf.
Context {D : Type} `{!Device D} `{B : Board}.
Definition not_brf (p : port) : Prop := p <> Mmio 32 SIM_BRF.
Definition brf_is (brf : Z) (d : D) : Prop :=
  exists d0, steps not_brf (dev_write (Mmio 32 SIM_BRF) (u32 brf) d0) d.
Lemma brf_steps brf d d' : steps not_brf d d' -> brf_is brf d -> brf_is brf d'.
Proof. intros H [d0 H0]. exists d0. by eapply steps_trans. Qed.

#[local] Abbreviation uses := (uses (D := D) (A := reader) not_brf).
Lemma not_brf_usart p : usart_port USART0 p -> not_brf p.
Proof. intros (a & -> & Ha) [= ->]. revert Ha. unfold USART0, SIM_BRF. lia. Qed.
Lemma not_brf_wdt p : wdt_port p -> not_brf p.
Proof.
  intros Hp ->. destruct Hp as [[?|?]|[?|[?|[?|Hp]]]]; [discriminate..|].
  pose proof board_pm_wadog_pos as Hpos. destruct board_pm_wadog as [g|]; [|done].
  revert Hp. unfold GPIO_PIN, GPIO_BASE, SIM_BRF. intros [=]. lia.
Qed.
Lemma uses_level : uses (usart_get_rx_fifo_level USART0).
Proof. unfold usart_get_rx_fifo_level. uses_tac done. Qed.
Lemma uses_putc c : uses (usart_putc USART0 c). Proof. apply uses_usart_putc, not_brf_usart. Qed.
Lemma uses_getc : uses (usart_getc USART0). Proof. apply uses_usart_getc, not_brf_usart. Qed.
Lemma uses_write a n : uses (usart_write USART0 a n). Proof. apply uses_usart_write, not_brf_usart. Qed.
Lemma uses_serve : uses wdt_serve. Proof. apply uses_wdt_serve, not_brf_wdt. Qed.
#[local] Hint Resolve uses_level uses_putc uses_getc uses_write uses_serve : uses.
Lemma uses_read_byte : uses host_read_byte.
Proof. unfold host_read_byte. uses_tac done. Qed.
#[local] Hint Resolve uses_read_byte : uses.
Lemma uses_read_message : uses host_read_message.
Proof. unfold host_read_message, host_read_block, ld32. uses_tac done. Qed.
Lemma uses_write_frame hp dp n : uses (host_write_frame hp dp n).
Proof. unfold host_write_frame, lrc_update. uses_tac done. Qed.
Lemma uses_nak : uses host_write_nak.
Proof. unfold host_write_nak. uses_tac done. Qed.
#[local] Hint Resolve uses_write_frame : uses.
Lemma uses_reply type failed error specific dp n : uses (host_reply type failed error specific dp n).
Proof. unfold host_reply. uses_tac done. Qed.
End Brf.

(** ** The CCID reader a host talks to *)

Record ccid_reply := CcidReply { r_type : Z; r_failed : bool; r_error : Z; r_data : list Z }.
Definition slot_status (failed : bool) (error : Z) : ccid_reply := CcidReply RDR_TO_PC_SLOT_STATUS failed error [].
Definition parameters (failed : bool) (error : Z) (params : list Z) : ccid_reply :=
  CcidReply RDR_TO_PC_PARAMETERS failed error params.

(** What the reader answers to a message that needs no card: its new parameters, the baud
    rate it programs, the reply. *)
Definition ccid_serve (active : bool) (params header data : list Z) : option (list Z * option Z * ccid_reply) :=
  let type := nth 0 header 0 in
  if type =? PC_TO_RDR_GET_SLOT_STATUS then Some (params, None, slot_status false 0)
  else if type =? PC_TO_RDR_GET_PARAMETERS then Some (params, None, parameters false 0 params)
  else if type =? PC_TO_RDR_RESET_PARAMETERS then
    Some (DEFAULT_T0_PARAMETERS, Some SIM_DEFAULT_BRF, parameters false 0 DEFAULT_T0_PARAMETERS)
  else if type =? PC_TO_RDR_SET_PARAMETERS then
    let brf := sim_fidi_to_brf (nth 0 data 0) in
    if (nth 7 header 0 =? 0) && (length data =? 5)%nat && negb (brf =? 0) then
      Some (data, Some brf, parameters false 0 data)
    else Some (params, None, parameters true CCID_ERROR_BAD_FIDI params)
  else if type =? PC_TO_RDR_ESCAPE then
    if nth 0 data 0 =? ESCAPE_POWER_OFF then None
    else Some (params, None, CcidReply RDR_TO_PC_ESCAPE false 0
                 (if nth 0 data 0 =? ESCAPE_GET_FIRMWARE then FIRMWARE else []))
  else if type =? PC_TO_RDR_XFR_BLOCK then
    if negb active || negb (nth 0 data 0 =? SIM_PPSS) && (length data <? 5)%nat then
      Some (params, None, CcidReply RDR_TO_PC_DATA_BLOCK true CCID_ERROR_HW_ERROR [])
    else None
  else if (type =? PC_TO_RDR_ICC_POWER_ON) || (type =? PC_TO_RDR_ICC_POWER_OFF) then None
  else Some (params, None, slot_status true CCID_ERROR_CMD_NOT_SUPPORTED).
Definition reply_frame (active : bool) (header : list Z) (r : ccid_reply) : list Z :=
  frame (reply_bytes active header (r_type r) (r_failed r) (r_error r) 0 (Z.of_nat (length (r_data r)))) (r_data r).

(** ** The main loop implements it *)
Section Rounds.
Context {D : Type} `{!Device D} `{B : Board} `{Hw : !I2cHw D reader} `{Line : !UsartLine USART0 D}.
Implicit Types (w : world D reader) (s : reader) (m : gmap Z Z) (rx tx : list Z).
Context (E : cause -> world D reader -> Prop) (f : nat) (Hf : (line_patience (u := USART0) (D := D) + 300 < f)%nat).

(** Between two messages. *)
Definition reader_at (active : bool) (params : list Z) (brf : Z) rx tx w : Prop :=
  exists m s, serving rx tx m s w /\ icc_active s = active /\ holding m params /\ brf_is brf (w_dev w).

Lemma with_brf {R} (x : M D reader R) brf Q w : uses not_brf x -> brf_is brf (w_dev w) ->
  wp E x (fun r w' => brf_is brf (w_dev w') -> Q r w') f w -> wp E x Q f w.
Proof.
  intros Hu Hb Hwp. eapply wp_mono.
  - eapply (wp_uses _ not_brf (brf_is brf)); [exact Hu| |exact Hb|exact Hwp].
    intros d d' H1 H2. by eapply brf_steps.
  - intros r w' [H1 H2]. by apply H1.
Qed.

(** A request in memory. *)
Record requested m s (header data : list Z) : Prop := Requested {
  rq_header : mem_at m request_header header;
  rq_data : mem_at m request_data data;
  rq_size : request_size s = Z.of_nat (length data);
  rq_ok : header_ok header data;
}.
Lemma reader_reply type failed error dp payload header data params brf rx tx m s w :
  serving rx tx m s w -> holding m params -> requested m s header data -> brf_is brf (w_dev w) ->
  mem_at m dp payload -> (dp = t0_parameters /\ length payload = 5%nat) \/
    (dp = firmware_string /\ length payload = 18%nat) \/ payload = [] ->
  wp E (host_reply type failed error 0 dp (Z.of_nat (length payload)))
    (fun _ => reader_at (icc_active s) params brf rx
                (tx ++ reply_frame (icc_active s) header (CcidReply type failed error payload))) f w.
Proof.
  intros H Hh [Rh Rd Rs Rok] Hb Hat Hdp. eapply with_brf; [apply uses_reply|exact Hb|].
  assert (dp + Z.of_nat (length payload) <= LOCAL 1 /\ reply_header + 10 <= dp \/ payload = []) as Hr.
  { destruct Hdp as [[-> ->]|[[-> ->]|Hn]]; [by left..|by right]. }
  eapply sv_reply; [exact Hf|exact H|exact Rh|apply Rok| | |exact Hat| |exact Hr|].
  - intros x Hx. apply (proj1 (proj1 Hh)). lia.
  - destruct Hdp as [[_ ->]|[[_ ->]| ->]]; simpl; lia.
  - destruct Hdp as [[-> ->]|[[-> ->]| ->]]; [apply Hh..|]. intros x Hx. simpl in Hx. lia.
  - intros m' w' Hd H' Hb'. exists m', s. split_and!; [exact H'|done| |exact Hb'].
    eapply holding_differs; [exact Hd| |exact Hh]. by left.
Qed.

(** The five stores of the two [memcpy]s. *)
Lemma params_stored m b0 b1 b2 b3 b4 :
  let m' := <[t0_parameters + 4 := u8 b4]> (<[t0_parameters + 3 := u8 b3]> (<[t0_parameters + 2 := u8 b2]>
              (<[t0_parameters + 1 := u8 b1]> (<[t0_parameters + 0 := u8 b0]> m)))) in
  bytes_ok [b0; b1; b2; b3; b4] ->
  differs t0_parameters 5 m m' /\ mem_at m' t0_parameters [b0; b1; b2; b3; b4].
Proof.
  intros m' Hb. split.
  - unfold m'. repeat (apply differs_insert; [|lia]). apply differs_refl.
  - apply mem_at_range. unfold mem_range, m'. simpl length. cbn [seq map]. rewrite !mem_get_insert.
    repeat (first [rewrite decide_True by lia|rewrite decide_False by lia]).
    repeat (apply Forall_cons in Hb as [? Hb]). by rewrite !u8_small.
Qed.
Lemma holding_params m m' params' params : differs t0_parameters 5 m m' -> mem_at m' t0_parameters params' ->
  length params' = 5%nat -> holding m params -> holding m' params'.
Proof.
  intros Hd Hat Hl (Hs & _). split_and!; [|done..]. eapply statics_differs; [exact Hd| |exact Hs]. by right.
Qed.
Lemma requested_differs a n m m' s header data : differs a n m m' -> a + n <= request_header ->
  requested m s header data -> requested m' s header data.
Proof.
  intros Hd Ha [H1 H2 H3 H4]. split; [..|done|done].
  - eapply differs_at; [exact Hd|by right|exact H1].
  - eapply differs_at; [exact Hd| |exact H2]. right. unfold request_data, CCID_HEADER_SIZE in *.
    assert (request_header <= request_header + 10) by lia. unfold request_header in *. lia.
Qed.
Lemma sv_brf v Q rx tx m s w : serving rx tx m s w ->
  (forall w', serving rx tx m s w' -> brf_is v (w_dev w') -> Q tt w') -> wp E (wr32 SIM_BRF v) Q f w.
Proof.
  intros (Hl & Hr) HQ. apply wp_wr, HQ; [split; [by apply line_stable|exact Hr]|].
  exists (w_dev w). apply steps_refl.
Qed.
Lemma sv_params_reset Q params header data rx tx m s w : serving rx tx m s w -> holding m params ->
  requested m s header data ->
  (forall m' w', serving rx tx m' s w' -> holding m' DEFAULT_T0_PARAMETERS -> requested m' s header data ->
     brf_is SIM_DEFAULT_BRF (w_dev w') -> Q tt w') ->
  wp E t0_parameters_reset Q f w.
Proof.
  intros H Hh Hrq HQ. unfold t0_parameters_reset.
  change (zip (seqZ 0 5) DEFAULT_T0_PARAMETERS) with [(0, 0x11); (1, 0); (2, 0); (3, 0x0A); (4, 0)].
  apply wp_bind. cbn [foldM fst snd]. pose proof Hh as ((_ & _ & _ & Hv & _) & _).
  assert (t0_parameters + 5 <= LOCAL 1) by done.
  do 5 (apply wp_bind; eapply sv_st8; [exact H|lia|repeat apply mem_valid_insert; apply Hv; lia|];
        clear dependent w; intros w H).
  apply wp_ret. eapply sv_brf; [exact H|]. intros w' H' Hb.
  destruct (params_stored m 0x11 0 0 0x0A 0) as [Hd Hat]; [bytes_tac|].
  eapply HQ; [exact H'| | |exact Hb].
  - eapply holding_params; [exact Hd|exact Hat|done|exact Hh].
  - eapply requested_differs; [exact Hd|done|exact Hrq].
Qed.
Lemma sv_params_copy Q params header data rx tx m s w : serving rx tx m s w -> holding m params ->
  requested m s header data -> length data = 5%nat ->
  (forall m' w', serving rx tx m' s w' -> holding m' data -> requested m' s header data -> Q tt w') ->
  wp E t0_parameters_copy Q f w.
Proof.
  intros H Hh Hrq Hl HQ. pose proof Hh as ((Hvr & _ & _ & Hv & _) & _).
  assert (t0_parameters + 5 <= request_data) by done. assert (request_data + 5 <= LOCAL 1) by done.
  assert (request_data = request_header + 10) as Er by done.
  pose proof (rq_data _ _ _ _ Hrq) as Hat. pose proof (rq_ok _ _ _ _ Hrq) as (_ & _ & Hb & _).
  apply (wp_foldM _ _ (fun done _ w' => serving rx tx (mem_put m t0_parameters (take (length done) data)) s w')).
  - exact H.
  - intros done_ y todo [] w1 Hs Hs1. apply seqZ_split in Hs as [-> Hlt].
    destruct (lookup_lt_is_Some_2 data (length done_) ltac:(lia)) as [b Hbk].
    apply wp_bind. eapply sv_ld8; [exact Hs1|lia|apply mem_valid_put, Hvr; lia|].
    rewrite mem_get_put_out by (rewrite length_take; lia).
    rewrite (mem_at_lookup _ _ _ _ _ Hat Hbk).
    eapply sv_st8; [exact Hs1|lia|apply mem_valid_put, Hv; lia|]. intros w2 Hs2.
    rewrite length_app, Nat.add_1_r. erewrite take_S_r by done. rewrite mem_put_snoc, length_take_le by lia.
    rewrite u8_small in Hs2; [exact Hs2|]. by eapply Forall_lookup_1 in Hbk.
  - intros [] w1 Hs1. change (length (seqZ 0 5)) with 5%nat in Hs1. rewrite take_ge in Hs1 by lia.
    assert (differs t0_parameters 5 m (mem_put m t0_parameters data)) as Hd.
    { split; intros x Hx; [|by apply mem_valid_put]. apply mem_get_put_out. lia. }
    eapply HQ; [exact Hs1|eapply holding_params; [exact Hd|apply mem_at_put|done|exact Hh]|].
    eapply requested_differs; [exact Hd|done|exact Hrq].
Qed.

Lemma sv_header_byte k Q params header data rx tx m s w : serving rx tx m s w -> holding m params ->
  requested m s header data -> (k < 10)%nat -> Q (nth k header 0) w ->
  wp E (ld8 (request_header + Z.of_nat k)) Q f w.
Proof.
  intros H Hh Hrq Hk HQ. assert (request_header + 10 <= LOCAL 1) by done.
  eapply sv_ld8; [exact H|lia|apply (proj1 (proj1 Hh)); lia|].
  pose proof (rq_ok _ _ _ _ Hrq) as (Hl & _). destruct (lookup_lt_is_Some_2 header k ltac:(lia)) as [b Hb].
  rewrite (mem_at_lookup _ _ _ _ _ (rq_header _ _ _ _ Hrq) Hb). by erewrite nth_lookup_Some in HQ.
Qed.
Lemma sv_data_byte Q params header data rx tx m s w : serving rx tx m s w -> holding m params ->
  requested m s header data -> data <> [] -> Q (nth 0 data 0) w -> wp E (ld8 (request_data + 0)) Q f w.
Proof.
  intros H Hh Hrq Hn HQ. assert (request_data + 10 <= LOCAL 1) by done.
  assert (request_data = request_header + 10) as Er by done.
  eapply sv_ld8; [exact H|lia|apply (proj1 (proj1 Hh)); lia|].
  destruct data as [|b data]; [done|].
  pose proof (mem_at_lookup _ _ _ 0%nat b (rq_data _ _ _ _ Hrq) eq_refl) as Eb. change (Z.of_nat 0) with 0 in Eb.
  by rewrite Eb.
Qed.

(** The handlers, each for its part of [ccid_serve]. *)
Section Handlers.
Context (params header data rx tx : list Z) (m : gmap Z Z) (s : reader) (brf : Z) (w : world D reader).
Context (H : serving rx tx m s w) (Hh : holding m params) (Hrq : requested m s header data).
Context (Hb : brf_is brf (w_dev w)).
#[local] Abbreviation replied params brf r :=
  (fun _ : unit => reader_at (icc_active s) params brf rx (tx ++ reply_frame (icc_active s) header r)).

Lemma handle_empty t failed error :
  wp E (host_reply t failed error 0 0 0) (replied params brf (CcidReply t failed error [])) f w.
Proof. eapply (reader_reply t failed error 0 []); [exact H|exact Hh|exact Hrq|exact Hb|apply mem_at_nil|auto]. Qed.
Lemma handle_parameters failed error :
  wp E (host_reply_parameters failed error) (replied params brf (parameters failed error params)) f w.
Proof.
  unfold host_reply_parameters, CCID_T0_PARAMETERS_SIZE. change 5 with (Z.of_nat 5).
  rewrite <- (proj2 (proj2 Hh)).
  eapply reader_reply; [exact H|exact Hh|exact Hrq|exact Hb|apply Hh|]. left. split; [done|apply Hh].
Qed.
Lemma handle_reset :
  wp E (t0_parameters_reset;; host_reply_parameters false 0)
    (replied DEFAULT_T0_PARAMETERS SIM_DEFAULT_BRF (parameters false 0 DEFAULT_T0_PARAMETERS)) f w.
Proof.
  apply wp_bind. eapply sv_params_reset; [exact H|exact Hh|exact Hrq|]. intros m1 w1 H1 Hh1 Hrq1 Hb1.
  eapply (reader_reply _ false 0 t0_parameters DEFAULT_T0_PARAMETERS);
    [exact H1|exact Hh1|exact Hrq1|exact Hb1|apply Hh1|by left].
Qed.
(** The first byte of the data, 0 when there is none. *)
Lemma wp_first_byte K (g : Z -> bool) : g 0 = false -> K (g (nth 0 data 0)) w ->
  wp E (if request_size s ==? 0 then mret false else b ← ld8 request_data; mret (g b)) K f w.
Proof.
  intros Hg HK. rewrite (rq_size _ _ _ _ Hrq). destruct (Z.eqb_spec (Z.of_nat (length data)) 0) as [E0|E0].
  - apply wp_ret. destruct data; [simpl in HK; by rewrite Hg in HK|simpl in E0; lia].
  - apply wp_bind. rewrite <- (Z.add_0_r request_data).
    eapply sv_data_byte; [exact H|exact Hh|exact Hrq|by intros ->|]. by apply wp_ret.
Qed.
Lemma handle_xfr_refused :
  negb (icc_active s) || negb (nth 0 data 0 =? SIM_PPSS) && (length data <? 5)%nat = true ->
  wp E host_handle_xfr_block (replied params brf (CcidReply RDR_TO_PC_DATA_BLOCK true CCID_ERROR_HW_ERROR [])) f w.
Proof.
  intros Hbad. apply wp_bind. eapply sv_get_app; [exact H|]. apply wp_bind.
  apply (wp_first_byte _ (fun b => b ==? SIM_PPSS)); [done|].
  replace (negb (icc_active s) || _) with true; [apply handle_empty|].
  rewrite <- Hbad, (rq_size _ _ _ _ Hrq). unfold SIM_HEADER_SIZE. do 2 f_equal.
  apply Bool.eq_iff_eq_true. rewrite Nat.ltb_lt, Z.ltb_lt. lia.
Qed.
Lemma wp_requested_brf K :
  K (if (nth 7 header 0 =? 0) && (length data =? 5)%nat then sim_fidi_to_brf (nth 0 data 0) else 0) w ->
  wp E (if (nth 7 header 0 ==? 0) && (request_size s ==? CCID_T0_PARAMETERS_SIZE) then
          fidi ← ld8 (request_data + CCID_T0_FIDI); mret (sim_fidi_to_brf fidi) else mret 0) K f w.
Proof.
  intros HK. rewrite (rq_size _ _ _ _ Hrq). unfold CCID_T0_PARAMETERS_SIZE.
  replace (Z.of_nat (length data) ==? 5) with (length data =? 5)%nat
    by (apply Bool.eq_iff_eq_true; rewrite Nat.eqb_eq, Z.eqb_eq; lia).
  destruct (nth 7 header 0 ==? 0); [|by apply wp_ret]. simpl andb in *.
  destruct (Nat.eqb_spec (length data) 5) as [El|]; [|by apply wp_ret].
  apply wp_bind. eapply sv_data_byte; [exact H|exact Hh|exact Hrq|by intros ->|]. by apply wp_ret.
Qed.
Lemma handle_set :
  let brf' := sim_fidi_to_brf (nth 0 data 0) in
  wp E host_handle_set_parameters
    (if (nth 7 header 0 =? 0) && (length data =? 5)%nat && negb (brf' =? 0)
     then replied data brf' (parameters false 0 data)
     else replied params brf (parameters true CCID_ERROR_BAD_FIDI params)) f w.
Proof.
  intros brf'. apply wp_bind. eapply sv_get_app; [exact H|].
  apply wp_bind. unfold CCID_OFFSET_PROTOCOL. change 7 with (Z.of_nat 7).
  eapply (sv_header_byte 7); [exact H|exact Hh|exact Hrq|lia|]. apply wp_bind, wp_requested_brf. fold brf'.
  destruct (nth 7 header 0 =? 0); [|apply handle_parameters].
  destruct (Nat.eqb_spec (length data) 5) as [El|]; [|apply handle_parameters]. simpl andb. cbv iota.
  destruct (brf' =? 0); [apply handle_parameters|]. simpl negb. cbv iota.
  apply wp_bind. eapply sv_params_copy; [exact H|exact Hh|exact Hrq|exact El|].
  intros m1 w1 H1 Hh1 Hrq1. apply wp_bind. eapply sv_brf; [exact H1|]. intros w2 H2 Hb2.
  unfold host_reply_parameters, CCID_T0_PARAMETERS_SIZE. change 5 with (Z.of_nat 5). rewrite <- El.
  eapply reader_reply; [exact H2|exact Hh1|exact Hrq1|exact Hb2|apply Hh1|]. by left.
Qed.
Lemma handle_escape : (nth 0 data 0 =? ESCAPE_POWER_OFF) = false ->
  wp E host_handle_escape (replied params brf (CcidReply RDR_TO_PC_ESCAPE false 0
    (if nth 0 data 0 =? ESCAPE_GET_FIRMWARE then FIRMWARE else []))) f w.
Proof.
  intros Ep. apply wp_bind. eapply sv_get_app; [exact H|]. apply wp_bind.
  assert (forall K, K (nth 0 data 0) w -> wp E (if request_size s !=? 0 then ld8 request_data else mret 0) K f w) as Hcmd.
  { intros K HK. rewrite (rq_size _ _ _ _ Hrq). destruct (Z.eqb_spec (Z.of_nat (length data)) 0) as [E0|E0]; cbn [negb].
    - apply wp_ret. destruct data; [exact HK|simpl in E0; lia].
    - rewrite <- (Z.add_0_r request_data). eapply sv_data_byte; [exact H|exact Hh|exact Hrq|by intros ->|exact HK]. }
  apply Hcmd. clear Hcmd. rewrite Ep. destruct (nth 0 data 0 =? ESCAPE_GET_FIRMWARE).
  - eapply reader_reply; [exact H|exact Hh|exact Hrq|exact Hb|apply Hh|]. right. by left.
  - apply wp_bind. eapply wp_mono; [apply handle_empty|]. intros [] w' Hr. by apply wp_ret.
Qed.

Lemma sv_handle params' wr r : ccid_serve (icc_active s) params header data = Some (params', wr, r) ->
  wp E host_handle_message (replied params' (default brf wr) r) f w.
Proof.
  intros Hs. unfold host_handle_message. apply wp_bind.
  eapply (sv_header_byte 0); [exact H|exact Hh|exact Hrq|lia|].
  unfold ccid_serve in Hs. set (type := nth 0 header 0) in *. clearbody type.
  repeat match goal with
  | |- context [Z.eqb type ?c] =>
      let Et := fresh in destruct (Z.eqb_spec type c) as [Et|Et]; [subst type; cbn in Hs|clear Et]
  end; [discriminate Hs|discriminate Hs|..].
  - injection Hs as <- <- <-. exact (handle_empty RDR_TO_PC_SLOT_STATUS false 0).
  - destruct (negb (icc_active s) || _) eqn:Ebad in Hs; [|discriminate Hs]. injection Hs as <- <- <-.
    apply handle_xfr_refused. exact Ebad.
  - injection Hs as <- <- <-. exact (handle_parameters false 0).
  - injection Hs as <- <- <-. exact handle_reset.
  - pose proof handle_set as Hset. cbv zeta in Hset. destruct (_ && _) eqn:Eok in Hset; rewrite Eok in Hs;
      injection Hs as <- <- <-; exact Hset.
  - destruct (nth 0 data 0 =? ESCAPE_POWER_OFF) eqn:Ep; [discriminate Hs|]. injection Hs as <- <- <-.
    exact (handle_escape Ep).
  - injection Hs as <- <- <-. exact (handle_empty RDR_TO_PC_SLOT_STATUS true CCID_ERROR_CMD_NOT_SUPPORTED).
Qed.
End Handlers.

(** What the host sends for a message: bytes that start no frame, the frame, a check byte. *)
Record input := Input { in_junk : list Z; in_header : list Z; in_data : list Z; in_check : Z }.
Definition input_bytes (i : input) : list Z :=
  in_junk i ++ frame_body (in_header i) (in_data i) ++ [in_check i].
Definition input_ok (i : input) : Prop :=
  bytes_ok (in_junk i) /\ (SERIAL_SYNC ∉ in_junk i) /\ (length (in_junk i) <= 250)%nat /\
  header_ok (in_header i) (in_data i) /\ is_byte (in_check i).
(** The reader's answer: a refusal when the check byte is wrong, else the message's echo
    and the reply. *)
Definition ccid_step (active : bool) (st : list Z * Z) (i : input) : option (list Z * Z * list Z) :=
  if in_check i =? lrc (frame_body (in_header i) (in_data i)) then
    '(params', wr, r) ← ccid_serve active st.1 (in_header i) (in_data i);
    Some (params', default st.2 wr, frame (in_header i) (in_data i) ++ reply_frame active (in_header i) r)
  else Some (st, nak).
Fixpoint ccid_run (active : bool) (st : list Z * Z) (inputs : list input) : option (list Z * Z * list Z) :=
  match inputs with
  | [] => Some (st, [])
  | i :: inputs =>
      '(st, out) ← ccid_step active st i;
      '(st, out') ← ccid_run active st inputs;
      Some (st, out ++ out')
  end.

Lemma sv_round active st i st' out rx tx w : reader_at active st.1 st.2 (input_bytes i ++ rx) tx w ->
  input_ok i -> ccid_step active st i = Some (st', out) ->
  wp E main_round (fun _ => reader_at active st'.1 st'.2 rx (tx ++ out)) f w.
Proof.
  destruct st as [params brf], st' as [params' brf']. destruct i as [junk header data k]. cbn [fst snd].
  intros (m & s & H & <- & Hh & Hb) (Hj1 & Hj2 & Hj3 & Hok & Hk) Hstep.
  unfold input_bytes in H. cbn [in_junk in_header in_data in_check] in *. rewrite <- !app_assoc in H.
  unfold main_round. apply wp_bind. eapply with_brf; [apply uses_read_message|exact Hb|].
  eapply sv_read_message; [exact Hf|exact H|exact Hj1|exact Hj2|exact Hj3|exact Hok|exact Hk|apply Hh|].
  clear dependent w. intros w H Hb. set (m1 := mem_put _ _ _) in H. set (s1 := Reader _ _) in H.
  pose proof Hok as (Hlen & _ & _ & _ & Hmax). unfold CCID_MAX_DATA_SIZE in Hmax.
  assert (differs request_header 271 m m1) as Hd.
  { split; intros x Hx; [|by apply mem_valid_put, mem_valid_put]. unfold m1, request_data, request_header in *.
    rewrite !mem_get_put_out by (unfold CCID_HEADER_SIZE; lia). done. }
  assert (holding m1 params) as Hh1 by (eapply holding_differs; [exact Hd|by right|exact Hh]).
  assert (requested m1 s1 header data) as Hrq.
  { split; [|apply mem_at_put|done|done]. apply mem_at_put_out; [|apply mem_at_put].
    unfold request_data, request_header, CCID_HEADER_SIZE. lia. }
  unfold ccid_step in Hstep. cbn [in_junk in_header in_data in_check fst snd] in Hstep.
  destruct (k =? lrc (frame_body header data)); cbn [negb].
  - destruct (ccid_serve _ params header data) as [[[p' wr] r]|] eqn:Hs; [|discriminate Hstep].
    injection Hstep as <- <- <-. apply wp_bind. unfold host_echo_message.
    apply wp_bind. eapply sv_get_app; [exact H|]. eapply with_brf; [apply uses_write_frame|exact Hb|].
    eapply sv_write_frame; [exact Hf|exact H|exact Hlen|apply Hrq|done| |lia|apply Hrq|left| |].
    + intros x Hx. apply (proj1 (proj1 Hh1)). lia.
    + unfold request_data, request_header, CCID_HEADER_SIZE, LOCAL, slot_size. lia.
    + intros x Hx. apply (proj1 (proj1 Hh1)). unfold request_data, request_header, CCID_HEADER_SIZE in *. lia.
    + intros w2 H2 Hb2. eapply wp_mono; [by eapply sv_handle|]. intros [] w3 Hr. by rewrite <- app_assoc in Hr.
  - injection Hstep as <- <- <-. eapply with_brf; [apply uses_nak|exact Hb|].
    eapply sv_nak; [exact Hf|exact H|]. intros w2 H2 Hb2. exists m1, s1. by split_and!.
Qed.
End Rounds.

(** ** The session *)

(** C13. The reader and its host: over any sequence of messages that need no card, among
    noise and damaged frames, the main loop answers each as the abstract reader
    [ccid_run] says: a frame whose check byte is wrong is refused and changes nothing; any
    other is echoed, then answered with the reply of [ccid_serve]; the five T=0 parameters
    and the baud rate last written to the card interface are the abstract reader's. *)
Theorem reader_session {D} `{!Device D} `{B : Board} `{Hw : !I2cHw D reader} `{Line : !UsartLine USART0 D}
    (f : nat) (w : world D reader) (active : bool) (params : list Z) (brf : Z) (inputs : list input)
    (st : list Z * Z) (out rx tx : list Z) :
  (line_patience (u := USART0) (D := D) + 300 < f)%nat ->
  reader_at active params brf (concat (map input_bytes inputs) ++ rx) tx w ->
  Forall input_ok inputs -> ccid_run active (params, brf) inputs = Some (st, out) ->
  exists w', loop (length inputs) (fun _ => main_round;; mret (inl tt)) tt f w = Stop (R := unit) OutOfFuel w' /\
             reader_at active st.1 st.2 rx (tx ++ out) w'.
Proof.
  intros Hf. change params with ((params, brf).1) at 1. change brf with ((params, brf).2) at 2.
  generalize (params, brf) as st0. clear params brf. intros st0 H Hok. revert w st0 tx out H.
  induction Hok as [|i inputs Hi _ IH]; intros w st0 tx out H Hrun.
  - injection Hrun as <- <-. exists w. split; [done|]. by rewrite app_nil_r.
  - simpl in Hrun. destruct (ccid_step active st0 i) as [[st1 o1]|] eqn:Hs; [|discriminate Hrun]. simpl in Hrun.
    destruct (ccid_run active st1 inputs) as [[st2 o2]|] eqn:Hr; [|discriminate Hrun]. injection Hrun as <- <-.
    simpl in H. rewrite <- app_assoc in H.
    pose proof (sv_round total f Hf _ _ _ _ _ _ _ _ H Hi Hs) as Hround. unfold wp in Hround.
    destruct (main_round f w) as [[] w1|] eqn:E1; [|done].
    destruct (IH w1 st1 (tx ++ o1) o2 Hround Hr) as (w' & H1 & H2).
    exists w'. rewrite app_assoc. split; [|exact H2].
    cbn [length loop]. unfold mbind at 1, M_bind at 1. rewrite E1. exact H1.
Qed.

(** The check byte: a frame is accepted exactly when its last byte is the check of the
    others, and header, data and size are stored as they were sent; what
    [host_write_frame] sends is accepted; and a frame with any one byte changed is not,
    wherever the receiver finds its header and data in it. *)
Theorem ccid_frame_check {D} `{!Device D} `{B : Board} `{Line : !UsartLine USART0 D}
    (f : nat) (w : world D reader) (m : gmap Z Z) (s : reader) (header data : list Z) (k : Z) (rx tx : list Z) :
  (line_patience (u := USART0) (D := D) + 300 < f)%nat ->
  serving (frame_body header data ++ (k :: rx)) tx m s w ->
  header_ok header data -> is_byte k -> valid_range m request_header 271 ->
  wp total host_read_message (fun ok w' =>
    ok = (k ==? lrc (frame_body header data)) /\
    exists m', serving rx tx m' (Reader (icc_active s) (Z.of_nat (length data))) w' /\
      mem_at m' request_header header /\ mem_at m' request_data data) f w /\
  (forall pre b b' post header' data' k', frame header data = pre ++ b :: post -> b <> b' ->
     frame_body header' data' ++ [k'] = pre ++ b' :: post -> k' <> lrc (frame_body header' data')).
Proof.
  intros Hf H Hok Hk Hv. split.
  - eapply (sv_read_message _ f Hf []); [exact H|done|apply not_elem_of_nil|simpl; lia|exact Hok|exact Hk|exact Hv|].
    intros w' H'. split; [done|]. eexists. split; [exact H'|]. split; [|apply mem_at_put].
    apply mem_at_put_out; [|apply mem_at_put]. destruct Hok as (Hl & _).
    unfold request_data, request_header, CCID_HEADER_SIZE. lia.
  - intros pre b b' post header' data' k' E1 Hne E2 ->.
    assert (lrc (frame header data) = 0) as H1 by (unfold frame; rewrite lrc_app, lrc_cons, Z.lxor_0_r; apply Z.lxor_nilpotent).
    assert (lrc (frame_body header' data' ++ [lrc (frame_body header' data')]) = 0) as H2
      by (rewrite lrc_app, lrc_cons, Z.lxor_0_r; apply Z.lxor_nilpotent).
    rewrite E1 in H1. rewrite E2 in H2. rewrite lrc_app, lrc_cons in H1, H2. apply Hne.
    apply Z.lxor_eq in H1, H2. rewrite H1 in H2.
    apply (f_equal (fun x => x .^ lrc post)) in H2. by rewrite !Z.lxor_assoc, !Z.lxor_nilpotent, !Z.lxor_0_r in H2.
Qed.

(** ** A host, for the witnesses: it asks for the slot status in a damaged frame, asks again,
    and selects F = 372, D = 2 *)
Definition reader_mem : gmap Z Z :=
  mem_put (mem_put
    (mem_alloc request_header 271 (mem_alloc response_buffer 258 (mem_alloc atr_buffer 64
      (mem_alloc t0_parameters 5 (mem_alloc firmware_string 18 ∅)))))
    firmware_string FIRMWARE) t0_parameters DEFAULT_T0_PARAMETERS.
Definition reader_world (rx : list Z) : world script reader :=
  World (Script rx []) reader_mem [] (LibState 26000000 0 0 0 0 false) (Reader false 0).
Definition status_request : list Z := [PC_TO_RDR_GET_SLOT_STATUS; 0; 0; 0; 0; 0; 7; 0; 0; 0].
Definition speed_request : list Z := [PC_TO_RDR_SET_PARAMETERS; 5; 0; 0; 0; 0; 8; 0; 0; 0].
Definition speed_params : list Z := [0x12; 0; 0; 0x0A; 0].
Definition reader_inputs : list input :=
  [Input [] status_request [] 0; Input [0x55] status_request [] (lrc (frame_body status_request []));
   Input [] speed_request speed_params (lrc (frame_body speed_request speed_params))].

Lemma reader_mem_holding : holding reader_mem DEFAULT_T0_PARAMETERS.
Proof.
  split; [|split; [apply mem_at_put|done]]. unfold statics. unfold reader_mem.
  split_and!; try (intros x Hx; apply mem_valid_put, mem_valid_put;
    repeat first [apply mem_valid_alloc; lia|apply mem_valid_alloc_mono]).
  apply mem_at_put_out; [|apply mem_at_put]. by left.
Qed.
Lemma reader_world_serving `{B : Board} rx : bytes_ok rx ->
  serving (Device0 := script_device USART0 (fun _ => 0)) (Line := script_line USART0 (fun _ => 0))
    rx [] reader_mem (Reader false 0) (reader_world rx).
Proof.
  intros Hrx. assert (mem_ok reader_mem) as Ho by (apply mem_ok_b_spec; vm_compute; reflexivity).
  split_and!; [|by split|exact Ho|exact Ho|done|done]. split; [|done]. exists []. by rewrite app_nil_r.
Qed.

Lemma reader_inputs_ok : Forall input_ok reader_inputs.
Proof.
  assert (header_ok status_request [] /\ header_ok speed_request speed_params) as [H1 H2].
  { split; (split; [reflexivity|]; split; [bytes_tac|]; split; [bytes_tac|]; split; [reflexivity|]); vm_compute; discriminate. }
  apply Forall_cons_2; [|apply Forall_cons_2; [|apply Forall_singleton]].
  - split; [bytes_tac|]. split; [apply not_elem_of_nil|]. split; [simpl; lia|]. split; [exact H1|by split; vm_compute].
  - split; [bytes_tac|]. split; [|split; [simpl; lia|split; [exact H1|by split; vm_compute]]].
    apply not_elem_of_cons. split; [discriminate|apply not_elem_of_nil].
  - split; [bytes_tac|]. split; [apply not_elem_of_nil|]. split; [simpl; lia|]. split; [exact H2|by split; vm_compute].
Qed.
Lemma reader_session_witness :
  let B := plain_board PMB8876 in
  let dev := script_device USART0 (fun _ => 0) in
  exists w', loop 3 (fun _ => main_round (Device0 := dev) (Hw := answer_bus 0 dev B);; mret (inl tt)) tt 400%nat
      (reader_world (concat (map input_bytes reader_inputs))) = Stop (R := unit) OutOfFuel w' /\
    s_tx (w_dev w') = nak ++ frame status_request [] ++
      frame [RDR_TO_PC_SLOT_STATUS; 0; 0; 0; 0; 0; 7; CCID_ICC_INACTIVE; 0; 0] [] ++
      frame speed_request speed_params ++
      frame [RDR_TO_PC_PARAMETERS; 5; 0; 0; 0; 0; 8; CCID_ICC_INACTIVE; 0; 0] speed_params.
Proof.
  intros B dev.
  destruct (reader_session (Device0 := dev) (Hw := answer_bus 0 dev B) (Line := script_line USART0 (fun _ => 0))
    400%nat (reader_world (concat (map input_bytes reader_inputs))) false DEFAULT_T0_PARAMETERS SIM_DEFAULT_BRF
    reader_inputs (speed_params, 46)
    (nak ++ (frame status_request [] ++ frame [RDR_TO_PC_SLOT_STATUS; 0; 0; 0; 0; 0; 7; CCID_ICC_INACTIVE; 0; 0] []) ++
      (frame speed_request speed_params ++
       frame [RDR_TO_PC_PARAMETERS; 5; 0; 0; 0; 0; 8; CCID_ICC_INACTIVE; 0; 0] speed_params) ++ []) [] []) as (w' & H1 & H2).
  - by apply Nat.ltb_lt.
  - rewrite app_nil_r. exists reader_mem, (Reader false 0). split_and!.
    + apply reader_world_serving. bytes_tac.
    + done.
    + apply reader_mem_holding.
    + eexists. apply steps_refl.
  - apply reader_inputs_ok.
  - by vm_compute.
  - exists w'. split; [exact H1|]. destruct H2 as (m & s & ((_ & Htx) & _) & _). etransitivity; [exact Htx|].
    by vm_compute.
Defined.
Lemma ccid_frame_check_witness :
  let B := plain_board PMB8876 in
  let dev := script_device USART0 (fun _ => 0) in
  wp (D := script) total (host_read_message (Device0 := dev))
    (fun ok w' => ok = true /\ request_size (w_app w') = 5) 400%nat
    (reader_world (frame_body speed_request speed_params ++ [lrc (frame_body speed_request speed_params)])).
Proof.
  intros B dev.
  destruct (ccid_frame_check (Device0 := dev) (Line := script_line USART0 (fun _ => 0)) 400%nat
    (reader_world (frame_body speed_request speed_params ++ [lrc (frame_body speed_request speed_params)]))
    reader_mem (Reader false 0) speed_request speed_params (lrc (frame_body speed_request speed_params)) [] [])
    as [H _].
  - by apply Nat.ltb_lt.
  - apply reader_world_serving. bytes_tac.
  - split; [reflexivity|]. split; [bytes_tac|]. split; [bytes_tac|]. split; [reflexivity|]. vm_compute. discriminate.
  - by split; vm_compute.
  - apply reader_mem_holding.
  - eapply wp_mono; [exact H|].
    intros ok w' [-> (m & (_ & _ & _ & _ & _ & Ha) & _)]. split; [apply Z.eqb_refl|]. by rewrite Ha.
Defined.
