(* ===== verification/SimCard.v ===== *)
(** * The smart-card reader: safety against any host and any card

    [apps/sim-reader/main.c] once more, with nothing assumed about the serial line, the
    card, the I2C bus or the timer: which runs can leave the bounds of a buffer. *)
From S2P Require Import Prelude Machine Board Regs Clock Stopwatch Wdt Usart Smbus SimReader.

Section Safe.
Context {D : Type} `{!Device D} `{B : Board} `{Hw : !I2cHw D reader}.
Implicit Types (w : world D reader).

(** The static objects are allocated. *)
Definition allocated (m : gmap Z Z) : Prop :=
  valid_range m request_header 271 /\ valid_range m response_buffer 258 /\ valid_range m atr_buffer 64 /\
  valid_range m t0_parameters 5 /\ valid_range m firmware_string 18.
Definition good w : Prop :=
  ticks_per_s (w_lib w) <> 0 /\ mem_ok (w_mem w) /\ allocated (w_mem w) /\
  0 <= request_size (w_app w) <= CCID_MAX_DATA_SIZE.
(** What every step keeps. *)
Definition kept w w' : Prop :=
  ticks_per_s (w_lib w') = ticks_per_s (w_lib w) /\ (mem_ok (w_mem w) -> mem_ok (w_mem w')) /\
  (forall x, mem_valid (w_mem w) x = true -> mem_valid (w_mem w') x = true) /\ w_app w' = w_app w.
#[local] Instance kept_preorder : PreOrder kept.
Proof.
  split; [by intros w|]. intros w1 w2 w3 (T1 & O1 & V1 & A1) (T2 & O2 & V2 & A2). split_and!; auto; congruence.
Qed.
Lemma kept_valid w w' a n : kept w w' -> valid_range (w_mem w) a n -> valid_range (w_mem w') a n.
Proof. intros (_ & _ & V & _) H x Hx. auto. Qed.
Lemma kept_good w w' : kept w w' -> good w -> good w'.
Proof.
  intros K (Ht & Ho & (H1 & H2 & H3 & H4 & H5) & Hs). pose proof K as (T & O & V & A).
  split; [by rewrite T|]. split; [auto|]. split; [|by rewrite A]. split_and!; by eapply kept_valid.
Qed.
Lemma touched_kept (I : D -> Prop) a n w w' : touched I a n w w' -> kept w w'.
Proof. intros (_ & _ & V & O & A & T). by split_and!. Qed.
Lemma served_kept (I : D -> Prop) w w' : served I w w' -> kept w w'.
Proof. intros H. by eapply touched_kept, (served_touched I 0 0). Qed.
Lemma framed_kept (I : D -> Prop) w w' : framed I w w' -> kept w w'.
Proof. intros H. by eapply served_kept, framed_served. Qed.

Context (E : cause -> world D reader -> Prop) (HE : forall w, E OutOfFuel w) (f : nat).

Lemma sk_rd p Q w : (forall v w', kept w w' -> Q (port_wrap p v) w') -> wp E (rd p) Q f w.
Proof. intros HQ. apply wp_rd. intros v d _. apply HQ. by split_and!. Qed.
Lemma sk_wr p v Q w : (forall w', kept w w' -> Q tt w') -> wp E (wr p v) Q f w.
Proof. intros HQ. apply wp_wr, HQ. by split_and!. Qed.
Lemma sk_st8 a v Q w : mem_valid (w_mem w) a = true -> (forall w', kept w w' -> Q tt w') -> wp E (st8 a v) Q f w.
Proof.
  intros Hv HQ. apply wp_st8; [done|]. apply HQ. split_and!; [done| |intros x Hx; by apply mem_valid_insert|done].
  intros Ho. apply mem_ok_insert; [done|apply u8_range].
Qed.
Lemma sk_ld8 a Q w : mem_valid (w_mem w) a = true -> good w -> (forall b, is_byte b -> Q b w) -> wp E (ld8 a) Q f w.
Proof. intros Hv (_ & Ho & _) HQ. apply wp_ld8; [done|]. apply HQ, Ho. Qed.
Lemma sk_alloc a n Q w : (forall w', kept w w' -> valid_range (w_mem w') a n -> Q tt w') -> wp E (alloc a n) Q f w.
Proof.
  intros HQ. apply wp_alloc, HQ; [|intros x Hx; by apply mem_valid_alloc].
  split_and!; [done|apply mem_ok_alloc|intros x Hx; by apply mem_valid_alloc_mono|done].
Qed.
Lemma sk_serve Q w : good w -> (forall w', kept w w' -> Q tt w') -> wp E wdt_serve Q f w.
Proof.
  intros (Ht & _) HQ. apply (wp_wdt_serve (fun _ => True)); [apply any_stable|done|done|].
  intros w' H. apply HQ. by eapply served_kept.
Qed.
Lemma sk_now Q w : (forall t w', kept w w' -> Q t w') -> wp E stopwatch_get Q f w.
Proof.
  intros HQ. apply (wp_stopwatch_get (fun _ => True)); [apply any_stable|done|].
  intros t w' H. apply HQ. by eapply framed_kept.
Qed.
Lemma sk_elapsed t Q w : good w -> (forall e w', kept w w' -> Q e w') -> wp E (stopwatch_elapsed_ms t) Q f w.
Proof.
  intros (Ht & _) HQ. apply (wp_stopwatch_elapsed_ms (fun _ => True)); [apply any_stable|done|done|].
  intros e w' H. apply HQ. by eapply framed_kept.
Qed.
(** A loop that keeps [kept] and, where it leaves it, [Q]. *)
Lemma sk_iter {X R} (body : X -> M D reader (X + R)) (J : X -> Prop) Q x w :
  good w -> J x ->
  (forall x w', kept w w' -> good w' -> J x ->
     wp E (body x) (fun r w'' => kept w' w'' /\ match r with inl x' => J x' | inr r => kept w w'' -> Q r w'' end) f w') ->
  wp E (iter body x) Q f w.
Proof.
  intros Hg Hx Hb. apply (wp_iter_partial E body (fun x w' => kept w w' /\ J x)); [by split|auto|].
  intros y w' [K Hy]. eapply wp_mono; [apply Hb; [exact K|by eapply kept_good|exact Hy]|].
  intros [y'|r] w'' [K' H']; [split; [|done]|apply H']; by etransitivity.
Qed.
Lemma sk_foldM {X Y} (body : X -> Y -> M D reader X) (J : list Y -> X -> Prop) l Q x w :
  good w -> J [] x ->
  (forall done y todo x w', l = done ++ y :: todo -> kept w w' -> good w' -> J done x ->
     wp E (body x y) (fun r w'' => kept w' w'' /\ J (done ++ [y]) r) f w') ->
  (forall x w', kept w w' -> J l x -> Q x w') -> wp E (foldM body x l) Q f w.
Proof.
  intros Hg Hx Hb HQ. apply (wp_foldM E body (fun done x w' => kept w w' /\ J done x)); [by split| |].
  - intros dn y todo x' w' Hl [K HJ]. eapply wp_mono; [eapply Hb; [exact Hl|exact K|by eapply kept_good|exact HJ]|].
    intros r w'' [K' HJ']. split; [by etransitivity|done].
  - intros x' w' [K HJ]. by apply HQ.
Qed.

(** *** The serial port *)
Lemma sk_level Q w : (forall l w', kept w w' -> 0 <= l -> Q l w') -> wp E (usart_get_rx_fifo_level USART0) Q f w.
Proof.
  intros HQ. apply wp_bind, sk_rd. intros v w' K. apply wp_ret, HQ; [exact K|].
  apply Z.shiftr_nonneg, Z.land_nonneg. right. by vm_compute.
Qed.
Lemma min_range a b : 0 <= a -> 0 <= b -> 0 <= MIN a b <= a.
Proof. unfold MIN. destruct (Z.ltb_spec a b); lia. Qed.
Lemma sk_usart_read data size Q w : good w -> 0 <= size < 0x10000 -> valid_range (w_mem w) data size ->
  (forall w', kept w w' -> Q tt w') -> wp E (usart_read USART0 data size) Q f w.
Proof.
  intros Hg Hs Hv HQ. apply (sk_iter _ (fun off => 0 <= off <= size)); [exact Hg|lia|].
  intros off w1 K1 G1 Hoff. destruct (Z.ltb_spec off size).
  2:{ apply wp_ret. split; [by split_and!|]. intros K. by apply HQ. }
  apply wp_bind. apply (sk_iter _ (fun _ => True)); [exact G1|done|].
  intros [] w2 K2 G2 _. apply wp_bind, sk_level. intros l w3 K3 Hl. apply wp_ret.
  split; [exact K3|]. destruct (l ==? 0); [done|]. intros K13.
  rewrite u32_small by (unfold is_u32; lia).
  pose proof (min_range (size - off) l ltac:(lia) Hl) as Hm. set (n := MIN _ _) in *.
  assert (good w3) as G3 by (by eapply kept_good).
  apply wp_bind. apply (sk_foldM _ (fun done o => o = off + Z.of_nat (length done))); [exact G3|simpl; lia| |].
  - intros dn y todo o w4 Hseq K4 G4 ->. apply seqZ_split in Hseq as [-> Hy].
    apply wp_bind, sk_rd. intros v w5 K5. apply wp_bind, sk_st8.
    + eapply kept_valid; [|exact Hv|]; [|lia]. transitivity w1; [exact K1|]. transitivity w3; [exact K13|].
      by transitivity w4.
    + intros w6 K6. apply wp_ret. rewrite u32_small by (unfold is_u32; lia). rewrite length_app. simpl.
      split; [by transitivity w5|lia].
  - intros o w4 K4 ->. apply wp_ret. rewrite length_seqZ. split; [by transitivity w3|lia].
Qed.
Lemma sk_drain Q w : good w -> (forall w', kept w w' -> Q tt w') -> wp E (tx_drain USART0) Q f w.
Proof.
  intros Hg HQ. apply (sk_iter _ (fun _ => True)); [exact Hg|done|].
  intros [] w1 K1 G1 _. apply wp_bind, wp_bind, wp_bind, sk_rd. intros v w2 K2. apply wp_ret, wp_ret.
  destruct (_ ==? 0).
  - apply wp_ret. split; [exact K2|]. intros K. by apply HQ.
  - apply wp_bind, wp_bind, sk_rd. intros v' w3 K3. apply wp_ret, wp_ret. split; [by transitivity w2|done].
Qed.
Lemma sk_usart_write data size Q w : good w -> 0 <= size < 0x10000 -> valid_range (w_mem w) data size ->
  (forall w', kept w w' -> Q tt w') -> wp E (usart_write USART0 data size) Q f w.
Proof.
  intros Hg Hs Hv HQ. apply (sk_iter _ (fun off => 0 <= off <= size)); [exact Hg|lia|].
  intros off w1 K1 G1 Hoff. destruct (Z.ltb_spec off size).
  2:{ apply wp_ret. split; [by split_and!|]. intros K. by apply HQ. }
  apply wp_bind, sk_drain; [exact G1|]. intros w2 K2. rewrite u32_small by (unfold is_u32; lia).
  pose proof (min_range (size - off) USART_FIFO_SIZE ltac:(lia) ltac:(done)) as Hm. set (n := MIN _ _) in *.
  assert (good w2) as G2 by (by eapply kept_good).
  apply wp_bind. apply (sk_foldM _ (fun done o => o = off + Z.of_nat (length done))); [exact G2|simpl; lia| |].
  - intros dn y todo o w4 Hseq K4 G4 ->. apply seqZ_split in Hseq as [-> Hy].
    apply wp_bind, sk_ld8; [|exact G4|].
    + eapply kept_valid; [|exact Hv|]; [|lia]. transitivity w1; [exact K1|]. by transitivity w2.
    + intros b _. apply wp_bind, sk_wr. intros w5 K5. apply wp_ret.
      rewrite u32_small by (unfold is_u32; lia). rewrite length_app. simpl. split; [exact K5|lia].
  - intros o w4 K4 ->. apply wp_ret. rewrite length_seqZ. split; [by transitivity w2|lia].
Qed.
Lemma sk_putc c Q w : good w -> (forall w', kept w w' -> Q tt w') -> wp E (usart_putc USART0 c) Q f w.
Proof.
  intros Hg HQ. apply wp_bind, sk_alloc. intros w1 K1 V1. apply wp_bind, sk_st8; [apply V1; lia|]. intros w2 K2.
  apply sk_usart_write; [|lia| |].
  - eapply kept_good; [|exact Hg]. by transitivity w1.
  - by eapply kept_valid.
  - intros w3 K3. apply HQ. transitivity w2; [by transitivity w1|done].
Qed.
Lemma sk_getc Q w : good w -> (forall b w', kept w w' -> is_byte b -> Q b w') -> wp E (usart_getc USART0) Q f w.
Proof.
  intros Hg HQ. apply wp_bind, sk_alloc. intros w1 K1 V1. assert (good w1) as G1 by (by eapply kept_good).
  apply wp_bind, sk_usart_read; [exact G1|lia|exact V1|]. intros w2 K2.
  assert (kept w w2) as K by (by transitivity w1).
  apply sk_ld8; [eapply kept_valid; [exact K2|exact V1|lia]|by eapply kept_good|]. intros b Hb. by apply HQ.
Qed.
Lemma sk_flush Q w : good w -> (forall w', kept w w' -> Q tt w') -> wp E (usart_flush USART0) Q f w.
Proof.
  intros Hg HQ. apply wp_bind, sk_drain; [exact Hg|]. intros w1 K1. assert (good w1) as G1 by (by eapply kept_good).
  apply wp_bind. apply (sk_iter _ (fun _ => True)); [exact G1|done|].
  intros [] w2 K2 G2 _. apply wp_bind, wp_bind, sk_rd. intros v w3 K3. apply wp_ret. destruct (_ !=? 0).
  - apply wp_ret. split; [exact K3|]. intros K13. apply sk_wr. intros w4 K4. apply HQ.
    transitivity w1; [done|]. by transitivity w3.
  - apply wp_bind, wp_ret, wp_ret. split; [exact K3|done].
Qed.

(** *** The card *)
Lemma sk_delay ms Q w : good w -> (forall w', kept w w' -> Q tt w') -> wp E (delay_ms ms) Q f w.
Proof.
  intros Hg HQ. apply wp_bind, sk_now. intros t w0 K0. apply (sk_iter _ (fun _ => True)); [by eapply kept_good|done|].
  intros [] w1 K1 G1 _. apply wp_bind, sk_elapsed; [exact G1|]. intros e w2 K2. destruct (e <? ms).
  - apply wp_bind, sk_serve; [by eapply kept_good|]. intros w3 K3. apply wp_ret. split; [by transitivity w2|done].
  - apply wp_ret. split; [exact K2|]. intros K. apply HQ. by transitivity w0.
Qed.
Lemma sk_wait_ok ms Q w : good w -> (forall ok w', kept w w' -> Q ok w') -> wp E (sim_wait_ok ms) Q f w.
Proof.
  intros Hg HQ. apply wp_bind, sk_now. intros t w0 K0. apply (sk_iter _ (fun _ => True)); [by eapply kept_good|done|].
  intros [] w1 K1 G1 _. apply wp_bind, sk_elapsed; [exact G1|]. intros e w2 K2. destruct (e <? ms).
  2:{ apply wp_ret. split; [exact K2|]. intros K. apply HQ. by transitivity w0. }
  apply wp_bind, sk_rd. intros v w3 K3. assert (kept w1 w3) as K13 by (by transitivity w2). destruct (_ !=? 0).
  - apply wp_bind, sk_wr. intros w4 K4. apply wp_ret. split; [by transitivity w3|].
    intros K. apply HQ. by transitivity w0.
  - apply wp_bind, sk_rd. intros v' w4 K4. destruct (_ !=? 0).
    + apply wp_ret. split; [by transitivity w3|]. intros K. apply HQ. by transitivity w0.
    + assert (kept w1 w4) as K14 by (by transitivity w3).
      apply wp_bind, sk_serve; [by eapply kept_good|]. intros w5 K5. apply wp_ret. split; [by transitivity w4|done].
Qed.
Lemma sk_send_byte v Q w : good w -> (forall ok w', kept w w' -> Q ok w') -> wp E (sim_send_byte v) Q f w.
Proof.
  intros Hg HQ. apply wp_bind, sk_wr. intros w1 K1. apply wp_bind, sk_wr. intros w2 K2.
  assert (kept w w2) as K by (by transitivity w1).
  apply wp_bind, sk_wait_ok; [by eapply kept_good|]. intros ok w3 K3. assert (kept w w3) by (by transitivity w2).
  destruct ok; cbn [negb]; [|by apply wp_ret, HQ]. apply wp_bind, sk_wr. intros w4 K4. apply wp_ret, HQ.
  by transitivity w3.
Qed.
Lemma sk_receive_byte a ms Q w : good w -> valid_range (w_mem w) a 1 -> (forall ok w', kept w w' -> Q ok w') ->
  wp E (sim_receive_byte a ms) Q f w.
Proof.
  intros Hg Hv HQ. apply wp_bind, sk_wait_ok; [done|]. intros ok w1 K1.
  destruct ok; cbn [negb]; [|by apply wp_ret, HQ].
  apply wp_bind, sk_rd. intros v w2 K2. assert (kept w w2) as K by (by transitivity w1).
  apply wp_bind, sk_st8; [eapply kept_valid; [exact K|exact Hv|lia]|]. intros w3 K3.
  apply wp_bind, sk_wr. intros w4 K4. apply wp_ret, HQ. transitivity w2; [done|]. by transitivity w3.
Qed.

(** The supply, over [lib/i2c.c] and the I2C driver of the board. *)
Lemma good_ready w : good w -> ready (fun _ => True) w.
Proof. intros (Ht & Ho & _). by split_and!. Qed.
Lemma sk_read_pmic address reg Q w : good w -> is_byte address ->
  (forall ok w', kept w w' -> valid_range (w_mem w') pmic_byte 1 -> Q ok w') ->
  wp E (alloc pmic_byte 1;; i2c_smbus_read_byte address reg pmic_byte) Q f w.
Proof.
  intros Hg Ha HQ. apply wp_bind, sk_alloc. intros w1 K1 V1.
  eapply (wp_smbus_read_byte (fun _ => True)); [apply any_stable|exact HE|apply good_ready; by eapply kept_good|exact Ha|exact V1|].
  intros ok w2 T. assert (kept w1 w2) as K2 by (by eapply touched_kept).
  apply HQ; [by transitivity w1|by eapply kept_valid].
Qed.
Lemma sk_write_pmic address reg v Q w : good w -> is_byte address -> (forall ok w', kept w w' -> Q ok w') ->
  wp E (i2c_smbus_write_byte address reg v) Q f w.
Proof.
  intros Hg Ha HQ. eapply (wp_smbus_write_byte (fun _ => True)); [apply any_stable|exact HE|by apply good_ready|exact Ha|].
  intros ok w1 T. by eapply HQ, touched_kept.
Qed.
Lemma wp_assoc {R S T} (x : M D reader R) (y : R -> M D reader S) (k : S -> M D reader T) Q w :
  wp E ((x ≫= y) ≫= k) Q f w -> wp E (x ≫= fun r => y r ≫= k) Q f w.
Proof. unfold wp, mbind, M_bind. by destruct (x f w). Qed.
Lemma sk_supply_set b Q w : good w -> (forall ok w', kept w w' -> Q ok w') -> wp E (sim_supply_set b) Q f w.
Proof.
  intros Hg HQ. unfold sim_supply_set. destruct board_pmic; [..|apply wp_ret, HQ; by split_and!].
  - apply wp_assoc, wp_bind, sk_read_pmic; [exact Hg|done|]. intros ok w1 K1 V1.
    destruct ok; cbn [negb]; [|by apply wp_ret, HQ]. assert (good w1) as G1 by (by eapply kept_good).
    apply wp_bind, sk_ld8; [apply V1; lia|exact G1|]. intros c _. cbv zeta.
    eapply (wp_pmb681x_reg_write (fun _ => True)); [apply any_stable|exact HE|by apply good_ready|].
    intros ok w2 T _. apply HQ. transitivity w1; [done|by eapply touched_kept].
  - apply wp_assoc, wp_bind, sk_read_pmic; [exact Hg|done|]. intros ok w1 K1 V1.
    destruct ok; cbn [negb]; [|by apply wp_ret, HQ]. assert (good w1) as G1 by (by eapply kept_good).
    apply wp_bind, sk_ld8; [apply V1; lia|exact G1|]. intros c _. cbv zeta.
    apply sk_write_pmic; [exact G1|done|]. intros ok w2 K2. apply HQ. by transitivity w1.
Qed.
(** Going on after a step: the postcondition counts from the new world. *)
Lemma sk_trans {R} w w1 (m : M D reader R) (P : R -> Prop) : kept w w1 ->
  wp E m (fun r w' => kept w1 w' /\ P r) f w1 -> wp E m (fun r w' => kept w w' /\ P r) f w1.
Proof. intros K H. eapply wp_mono; [exact H|]. intros r w' [K' HP]. split; [by transitivity w1|done]. Qed.
#[local] Ltac sk_next K Hg :=
  match type of K with kept ?w ?w1 =>
    apply (sk_trans w w1 _ _ K); apply (kept_good _ _ K) in Hg; clear K; clear dependent w; rename w1 into w end.
#[local] Ltac sk_do Hg tac := apply wp_bind, tac; [exact Hg|]; let w1 := fresh "w" in let K := fresh "K" in
  intros w1 K; sk_next K Hg.
#[local] Ltac sk_do_wr Hg := apply wp_bind, sk_wr; let w1 := fresh "w" in let K := fresh "K" in
  intros w1 K; sk_next K Hg.
Lemma sk_done {R} w (r : R) (P : R -> Prop) : P r -> wp E (mret r) (fun r w' => kept w w' /\ P r) f w.
Proof. intros H. by apply wp_ret. Qed.

Lemma sk_power_off Q w : good w -> (forall w', kept w w' -> Q tt w') -> wp E sim_power_off Q f w.
Proof.
  intros Hg HQ. eapply (wp_mono _ _ (fun r w' => kept w w' /\ True)); [|intros [] w' [K _]; by apply HQ]. clear HQ.
  unfold sim_power_off. sk_do_wr Hg. sk_do_wr Hg. sk_do_wr Hg.
  apply wp_bind. eapply (wp_i2c_init (fun _ => True)); [apply any_stable|done|]. intros w1 F1.
  apply framed_kept in F1. sk_next F1 Hg.
  apply wp_bind, sk_supply_set; [exact Hg|]. intros ok w2 K2. by apply wp_ret.
Qed.
Lemma sk_con_set bits Q w : (forall w', kept w w' -> Q tt w') -> wp E (sim_con_set bits) Q f w.
Proof. intros HQ. apply wp_bind, sk_rd. intros v w1 K1. apply sk_wr. intros w2 K2. apply HQ. by transitivity w1. Qed.
Lemma sk_power_on Q w : good w ->
  (forall size w', kept w w' -> 0 <= size <= SIM_MAX_ATR_SIZE -> Q size w') -> wp E (sim_power_on atr_buffer) Q f w.
Proof.
  intros Hg HQ. eapply (wp_mono _ _ (fun r w' => kept w w' /\ 0 <= r <= SIM_MAX_ATR_SIZE)); [|intros r w' [K H]; by apply HQ].
  clear HQ. unfold sim_power_on. sk_do Hg sk_power_off. do 5 sk_do_wr Hg.
  apply wp_bind, sk_supply_set; [exact Hg|]. intros ok w1 K1. sk_next K1 Hg. destruct ok; cbn [negb]; [|by apply sk_done].
  sk_do Hg sk_delay.
  do 3 (apply wp_bind, sk_con_set; let w1 := fresh "w" in let K := fresh "K" in intros w1 K; sk_next K Hg).
  sk_do Hg sk_delay. apply wp_bind, sk_con_set. intros w1 K1. sk_next K1 Hg.
  sk_do Hg sk_delay. apply wp_bind, sk_con_set. intros w1 K1. sk_next K1 Hg.
  apply (sk_iter _ (fun size => 0 <= size <= SIM_MAX_ATR_SIZE)); [exact Hg|done|].
  intros size w1 K1 G1 Hs. unfold SIM_MAX_ATR_SIZE in *. destruct (Z.ltb_spec size 64); [|by apply wp_ret].
  apply wp_bind, sk_receive_byte; [exact G1| |].
  - intros x Hx. destruct G1 as (_ & _ & (_ & _ & Ha & _) & _). apply Ha. lia.
  - intros ok w2 K2. destruct ok; cbn [negb]; apply wp_ret; (split; [exact K2|]); [lia|]. done.
Qed.
Lemma sk_procedure a Q w : good w -> valid_range (w_mem w) a 1 -> (forall ok w', kept w w' -> Q ok w') ->
  wp E (sim_receive_procedure a) Q f w.
Proof.
  intros Hg Hv HQ. apply (sk_iter _ (fun _ => True)); [exact Hg|done|]. intros [] w1 K1 G1 _.
  assert (valid_range (w_mem w1) a 1) as V1 by (by eapply kept_valid).
  apply wp_bind, sk_receive_byte; [exact G1|exact V1|]. intros ok w2 K2.
  destruct ok; cbn [negb]; [|apply wp_ret; split; [exact K2|apply HQ]].
  apply wp_bind, sk_ld8; [eapply kept_valid; [exact K2|exact V1|lia]|by eapply kept_good|].
  intros b _. destruct (b ==? SIM_NULL_BYTE); apply wp_ret; (split; [exact K2|]); [done|apply HQ].
Qed.
Lemma sk_send_bytes data size Q w : good w -> 0 <= size -> valid_range (w_mem w) data size ->
  (forall r w', kept w w' -> Q r w') -> wp E (sim_send_bytes data size) Q f w.
Proof.
  intros Hg Hs Hv HQ. apply wp_bind.
  apply (wp_foldE _ _ (fun _ _ w' => kept w w')); [done| |].
  - intros dn y todo [] w1 Hl K1. apply seqZ_split in Hl as [-> Hy]. assert (good w1) as G1 by (by eapply kept_good).
    apply wp_bind, sk_ld8; [eapply kept_valid; [exact K1|exact Hv|lia]|exact G1|]. intros b _.
    apply wp_bind, sk_send_byte; [exact G1|]. intros ok w2 K2. assert (kept w w2) by (by transitivity w1).
    apply wp_ret. destruct ok; cbn [negb]; [done|]. by apply wp_ret, HQ.
  - intros [] w1 K1. by apply wp_ret, HQ.
Qed.

(** *** The T=0 exchange: [transferred] and [*response_size] stay within the size asked for. *)
Section Tpdu.
Context (tx_data : option Z) (size : Z) (Hsize : 0 <= size <= SIM_MAX_DATA_SIZE).
Definition tpdu_inv (st : Z * Z) : Prop :=
  0 <= st.1 <= size /\ st.2 = match tx_data with Some _ => 0 | None => st.1 end.
Definition tx_valid w : Prop :=
  match tx_data with Some t => valid_range (w_mem w) t size | None => True end.
Lemma tx_kept w w' : kept w w' -> tx_valid w -> tx_valid w'.
Proof. unfold tx_valid. destruct tx_data; [|done]. apply kept_valid. Qed.
(** How an exchange ends: successes with a response that fits. *)
Definition tpdu_end (r : bool * Z) : Prop := r.1 = true -> 0 <= r.2 <= SIM_MAX_DATA_SIZE + SIM_STATUS_SIZE.

Lemma sk_tpdu_byte st y w : good w -> tx_valid w -> tpdu_inv st -> st.1 < size ->
  wp E (tpdu_byte tx_data response_buffer st y) (fun r w' => kept w w' /\
    match r with inl st' => tpdu_inv st' /\ st'.1 = st.1 + 1 | inr r => tpdu_end r end) f w.
Proof.
  destruct st as [tr rs]. unfold tpdu_inv, tpdu_byte, tpdu_end, tx_valid, SIM_MAX_DATA_SIZE in *. cbn [fst snd].
  intros Hg Hv [Ht Hr] Hlt. destruct tx_data as [t|].
  - apply wp_bind, sk_ld8; [apply Hv; lia|exact Hg|]. intros b _.
    apply wp_bind, sk_send_byte; [exact Hg|]. intros ok w1 K. apply wp_ret. destruct ok; cbn [negb fst snd].
    + split; [exact K|]. split; [|done]. split; [lia|done].
    + by split.
  - apply wp_bind, sk_receive_byte; [exact Hg| |].
    + intros x Hx. destruct Hg as (_ & _ & (_ & Hresp & _) & _). apply Hresp. lia.
    + intros ok w1 K. apply wp_ret. destruct ok; cbn [negb fst snd]; [|by split].
      split; [exact K|]. split; [|done]. split; [lia|lia].
Qed.
Lemma sk_tpdu_bytes st n w : good w -> tx_valid w -> tpdu_inv st -> 0 <= n -> st.1 + n <= size ->
  wp E (foldE (tpdu_byte tx_data response_buffer) st (seqZ 0 n)) (fun r w' => kept w w' /\
    match r with inl st' => tpdu_inv st' | inr r => tpdu_end r end) f w.
Proof.
  intros Hg Hv Hi Hn Hle.
  apply (wp_foldE _ _ (fun dn st' w' => kept w w' /\ tpdu_inv st' /\ st'.1 = st.1 + Z.of_nat (length dn))).
  - split; [by split_and!|]. split; [done|simpl; lia].
  - intros dn y todo st' w1 Hl (K1 & Hi1 & Ht1). apply seqZ_split in Hl as [-> Hy].
    eapply wp_mono; [apply sk_tpdu_byte; [by eapply kept_good|by eapply tx_kept|exact Hi1|lia]|].
    intros [st''|r] w2 [K2 H2]; (assert (kept w w2) by (by transitivity w1)).
    + destruct H2 as [Hi2 Ht2]. split; [done|]. split; [done|]. rewrite length_app. simpl. lia.
    + done.
  - intros st' w1 (K1 & Hi1 & _). done.
Qed.
Lemma sk_tpdu_step ins st w : good w -> tx_valid w -> tpdu_inv st ->
  wp E (tpdu_step ins tx_data size response_buffer st) (fun r w' => kept w w' /\
    match r with inl st' => tpdu_inv st' | inr r => tpdu_end r end) f w.
Proof.
  intros Hg Hv Hi. destruct st as [tr rs] eqn:Est. rewrite <- Est in Hi.
  assert (0 <= tr <= size /\ 0 <= rs <= 256) as [Htr Hrs].
  { subst st. destruct Hi as [H1 H2]. cbn [fst snd] in *. unfold SIM_MAX_DATA_SIZE in Hsize.
    destruct tx_data; lia. }
  unfold tpdu_step. apply wp_bind, sk_alloc. intros w1 K1 V1. assert (good w1) as G1 by (by eapply kept_good).
  apply wp_bind, sk_procedure; [exact G1|exact V1|]. intros ok w2 K2.
  assert (good w2) as G2 by (by eapply kept_good). assert (kept w w2) as K by (by transitivity w1).
  destruct ok; cbn [negb]; [|by apply wp_ret].
  apply wp_bind, sk_ld8; [eapply kept_valid; [exact K2|exact V1|lia]|exact G2|]. intros b _.
  assert (tx_valid w2) as Hv2 by (by eapply tx_kept).
  assert (forall n, 0 <= n -> tr + n <= size -> wp E (foldE (tpdu_byte tx_data response_buffer) (tr, rs) (seqZ 0 n))
    (fun r w' => kept w w' /\ match r with inl st' => tpdu_inv st' | inr r => tpdu_end r end) f w2) as Hbytes.
  { intros n Hn Hle. eapply wp_mono; [apply sk_tpdu_bytes; [exact G2|exact Hv2|by rewrite <- Est|exact Hn|exact Hle]|].
    intros r w3 [K3 H3]. split; [by transitivity w2|exact H3]. }
  destruct (b ==? ins); [apply Hbytes; unfold SIM_MAX_DATA_SIZE in *; rewrite u32_small by (unfold is_u32; lia); lia|].
  destruct (b ==? not8 ins); [apply Hbytes; destruct (Z.ltb_spec tr size); lia|].
  pose proof (proj1 (proj2 (proj1 (proj2 (proj2 G2))))) as Hresp.
  apply wp_bind, sk_st8; [apply Hresp; lia|]. intros w3 K3.
  apply wp_bind, sk_receive_byte; [eapply kept_good; [exact K3|exact G2]| |].
  - intros x Hx. eapply kept_valid; [exact K3|exact Hresp|]. lia.
  - intros ok w4 K4. apply wp_ret. split; [transitivity w2; [done|by transitivity w3]|].
    unfold tpdu_end, SIM_MAX_DATA_SIZE, SIM_STATUS_SIZE. cbn [fst snd]. lia.
Qed.
End Tpdu.

Lemma sk_exchange_tpdu tpdu tpdu_size w : good w -> valid_range (w_mem w) tpdu tpdu_size ->
  SIM_HEADER_SIZE <= tpdu_size <= CCID_MAX_DATA_SIZE ->
  wp E (sim_exchange_tpdu tpdu tpdu_size response_buffer) (fun r w' => kept w w' /\ tpdu_end r) f w.
Proof.
  unfold SIM_HEADER_SIZE, CCID_MAX_DATA_SIZE. intros Hg Hv Hs. unfold sim_exchange_tpdu.
  apply wp_bind, sk_ld8; [apply Hv; unfold SIM_HEADER_INS; lia|exact Hg|]. intros ins _.
  unfold SIM_HEADER_SIZE. cbv zeta. set (tx := if 5 <? tpdu_size then _ else _).
  apply wp_bind. eapply (wp_mono _ _ (fun size w' => w' = w /\ 0 <= size <= SIM_MAX_DATA_SIZE /\ tx_valid tx size w)).
  - unfold tx, tx_valid, SIM_MAX_DATA_SIZE. destruct (Z.ltb_spec 5 tpdu_size).
    + apply wp_ret. split; [done|]. split; [lia|]. intros x Hx. apply Hv. lia.
    + apply wp_bind, sk_ld8; [apply Hv; unfold SIM_HEADER_P3; lia|exact Hg|]. intros b Hb. apply wp_ret.
      split; [done|]. split; [|done]. unfold is_byte, SIM_MAX_DATA_SIZE in *. destruct (b !=? 0); lia.
  - intros size w0 (-> & Hsz & Htx). apply wp_bind, sk_delay; [exact Hg|]. intros w1 K1.
    assert (good w1) as G1 by (by eapply kept_good).
    apply wp_bind, sk_send_bytes; [exact G1|lia|eapply kept_valid; [exact K1|]; intros x Hx; apply Hv; lia|].
    intros r w2 K2. assert (kept w w2) as K by (by transitivity w1). assert (good w2) as G2 by (by eapply kept_good).
    assert (tx_valid tx size w2) as Htx2 by (by eapply tx_kept).
    destruct r as [b|]; [apply wp_ret; split; [done|]; unfold tpdu_end, SIM_MAX_DATA_SIZE, SIM_STATUS_SIZE; cbn; lia|].
    apply (sk_trans w w2); [exact K|].
    apply (sk_iter _ (tpdu_inv tx size)); [exact G2| |].
    + split; [cbn; lia|by destruct tx].
    + intros st w3 K3 G3 Hi. eapply wp_mono; [apply sk_tpdu_step; [exact Hsz|exact G3|by eapply tx_kept|exact Hi]|].
      intros [st'|r] w4 [K4 H4]; (split; [exact K4|]); [exact H4|]. intros K24. by split.
Qed.

(** *** Accesses that may leave the buffer: where they do, the run stops in [E]. *)
Definition may (a n : Z) w : Prop :=
  forall x, a <= x < a + n -> mem_valid (w_mem w) x = true \/ forall w', E (OutOfBounds x) w'.
Lemma may_kept a n w w' : kept w w' -> may a n w -> may a n w'.
Proof. intros (_ & _ & V & _) H x Hx. destruct (H x Hx); auto. Qed.
Lemma may_valid a n w : valid_range (w_mem w) a n -> may a n w.
Proof. intros H x Hx. left. auto. Qed.
Lemma sk_ld8_may a n x Q w : may a n w -> a <= x < a + n -> good w ->
  (mem_valid (w_mem w) x = true -> forall b, is_byte b -> Q b w) -> wp E (ld8 x) Q f w.
Proof.
  intros Hm Hx Hg HQ. unfold wp, ld8. destruct (mem_valid (w_mem w) x) eqn:Ev.
  - by apply HQ, Hg.
  - destruct (Hm x Hx) as [H|H]; [congruence|apply H].
Qed.
Lemma sk_st8_may a n x v Q w : may a n w -> a <= x < a + n ->
  (forall w', kept w w' -> Q tt w') -> wp E (st8 x v) Q f w.
Proof.
  intros Hm Hx HQ. destruct (mem_valid (w_mem w) x) eqn:Ev; [by apply sk_st8|].
  unfold wp, st8. rewrite Ev. destruct (Hm x Hx) as [H|H]; [congruence|apply H].
Qed.
Lemma sk_receive_byte_may a n x ms Q w : may a n w -> a <= x < a + n -> good w ->
  (forall ok w', kept w w' -> Q ok w') -> wp E (sim_receive_byte x ms) Q f w.
Proof.
  intros Hm Hx Hg HQ. apply wp_bind, sk_wait_ok; [done|]. intros ok w1 K1.
  destruct ok; cbn [negb]; [|by apply wp_ret, HQ].
  apply wp_bind, sk_rd. intros v w2 K2. assert (kept w w2) as K by (by transitivity w1).
  apply wp_bind, (sk_st8_may a n); [by eapply may_kept|exact Hx|]. intros w3 K3.
  apply wp_bind, sk_wr. intros w4 K4. apply wp_ret, HQ. transitivity w2; [done|]. by transitivity w3.
Qed.
Lemma sk_exchange_pps request size w : good w -> valid_range (w_mem w) request size -> 0 <= size ->
  may response_buffer size w ->
  wp E (sim_exchange_pps request size response_buffer) (fun _ w' => kept w w') f w.
Proof.
  intros Hg Hv Hs Hm. apply wp_bind, sk_delay; [exact Hg|]. intros w1 K1. assert (good w1) as G1 by (by eapply kept_good).
  apply wp_bind, sk_send_bytes; [exact G1|exact Hs|by eapply kept_valid|]. intros r w2 K2.
  assert (kept w w2) as K by (by transitivity w1). destruct r; [by apply wp_ret|].
  apply wp_bind, (wp_foldE _ _ (fun _ _ w' => kept w w')); [done| |].
  - intros dn y todo [] w3 Hl K3. apply seqZ_split in Hl as [-> Hy].
    apply wp_bind, (sk_receive_byte_may response_buffer size); [by eapply may_kept|lia|by eapply kept_good|].
    intros ok w4 K4. assert (kept w w4) by (by transitivity w3). apply wp_ret.
    destruct ok; cbn [negb]; [done|]. by apply wp_ret.
  - intros [] w3 K3. by apply wp_ret.
Qed.

(** *** The host *)
Lemma sk_read_byte Q w : good w -> (forall b w', kept w w' -> is_byte b -> Q b w') -> wp E host_read_byte Q f w.
Proof.
  intros Hg HQ. apply wp_bind, (sk_iter _ (fun _ => True)); [exact Hg|done|]. intros [] w1 K1 G1 _.
  apply wp_bind, wp_bind, sk_level. intros l w2 K2 _. apply wp_ret. destruct (negb (l ==? 0)).
  - apply wp_ret. split; [exact K2|]. intros K. apply sk_getc; [by eapply kept_good|].
    intros b w3 K3. apply HQ. by transitivity w2.
  - apply wp_bind, sk_serve; [by eapply kept_good|]. intros w3 K3. apply wp_ret. split; [by transitivity w2|done].
Qed.
Lemma sk_lrc x p size Q w : good w -> 0 <= size -> may p size w ->
  (forall r, valid_range (w_mem w) p size -> Q r w) -> wp E (lrc_update x p size) Q f w.
Proof.
  intros Hg Hs Hm HQ.
  apply (wp_foldM _ _ (fun dn _ w' => w' = w /\ valid_range (w_mem w) p (Z.of_nat (length dn)))).
  - split; [done|]. intros y Hy. simpl in Hy. lia.
  - intros dn y todo r w1 Hl [-> Hv]. apply seqZ_split in Hl as [-> Hy].
    apply wp_bind, (sk_ld8_may p size); [exact Hm|lia|exact Hg|]. intros Hx b _. apply wp_ret. split; [done|].
    intros z Hz. rewrite length_app in Hz. simpl in Hz.
    destruct (decide (z = p + Z.of_nat (length dn))) as [->|]; [done|]. apply Hv. lia.
  - intros r w1 [-> Hv]. apply HQ. rewrite length_seqZ in Hv. intros z Hz. apply Hv. lia.
Qed.
Lemma sk_write_frame hp dp size Q w : good w -> valid_range (w_mem w) hp 10 -> 0 <= size < 0x1000 -> may dp size w ->
  (forall w', kept w w' -> Q tt w') -> wp E (host_write_frame hp dp size) Q f w.
Proof.
  intros Hg Hh Hs Hm HQ. eapply (wp_mono _ _ (fun r w' => kept w w' /\ True)); [|intros [] w' [K _]; by apply HQ]. clear HQ.
  unfold host_write_frame, CCID_HEADER_SIZE.
  apply wp_bind, sk_lrc; [exact Hg|lia|by apply may_valid|]. intros l1 _.
  apply wp_bind, sk_lrc; [exact Hg|lia|exact Hm|]. intros l2 Hd. clear Hm.
  assert (forall w', kept w w' -> valid_range (w_mem w') hp 10 /\ valid_range (w_mem w') dp size) as Hall
    by (intros w' K; split; by eapply kept_valid).
  apply wp_bind, sk_putc; [exact Hg|]. intros w1 K1. apply wp_bind, sk_putc; [by eapply kept_good|]. intros w2 K2.
  assert (kept w w2) as K12 by (by transitivity w1).
  apply wp_bind, sk_usart_write; [by eapply kept_good|lia|by apply Hall|]. intros w3 K3.
  assert (kept w w3) as K13 by (by transitivity w2).
  apply wp_bind, sk_usart_write; [by eapply kept_good|lia|by apply Hall|]. intros w4 K4.
  assert (kept w w4) as K14 by (by transitivity w3).
  apply sk_putc; [by eapply kept_good|]. intros w5 K5. split; [by transitivity w4|done].
Qed.
#[local] Ltac sk_store V K :=
  apply wp_bind, sk_st8; [eapply kept_valid; [exact K|exact V|lia]|];
  let w' := fresh "w" in let K' := fresh "K" in intros w' K';
  pose proof (transitivity K K') as K''; clear K K'; rename K'' into K.
#[local] Ltac sk_load V K G1 :=
  apply wp_bind, sk_ld8; [eapply kept_valid; [exact K|exact V|lia]|by eapply kept_good|]; intros ? _.
Lemma sk_reply type failed error specific dp size Q w : good w -> 0 <= size < 0x1000 -> may dp size w ->
  (forall w', kept w w' -> Q tt w') -> wp E (host_reply type failed error specific dp size) Q f w.
Proof.
  intros Hg Hs Hm HQ. unfold host_reply. apply wp_bind, wp_get_app. cbv zeta.
  apply wp_bind, sk_alloc. intros w1 K1 V1. assert (good w1) as G1 by (by eapply kept_good).
  pose proof (proj1 (proj1 (proj2 (proj2 G1)))) as Vq.
  assert (kept w1 w1) as K by (by split_and!).
  unfold CCID_OFFSET_TYPE, CCID_OFFSET_LENGTH, CCID_OFFSET_SLOT, CCID_OFFSET_SEQ, CCID_OFFSET_STATUS,
    CCID_OFFSET_ERROR, CCID_OFFSET_SPECIFIC, CCID_HEADER_SIZE in *.
  do 3 sk_store V1 K. sk_load Vq K G1. sk_store V1 K. sk_load Vq K G1. do 4 sk_store V1 K.
  match goal with |- wp _ _ _ _ ?w2 => assert (kept w w2) as Kw by (by transitivity w1) end.
  apply sk_write_frame; [by eapply kept_good|exact (kept_valid _ _ _ _ K V1)|exact Hs|exact (may_kept _ _ _ _ Kw Hm)|].
  intros w9 K9. apply HQ. etransitivity; [exact Kw|exact K9].
Qed.
(** A reply without data, and one with the card's parameters. *)
Lemma sk_reply_empty type failed error Q w : good w -> (forall w', good w' -> Q tt w') ->
  wp E (host_reply type failed error 0 0 0) Q f w.
Proof.
  intros Hg HQ. apply sk_reply; [exact Hg|lia|intros x Hx; lia|]. intros w' K. by eapply HQ, kept_good.
Qed.
Lemma sk_reply_data type failed error dp size Q w : good w -> 0 <= size < 0x1000 -> may dp size w ->
  (forall w', good w' -> Q tt w') -> wp E (host_reply type failed error 0 dp size) Q f w.
Proof. intros Hg Hs Hm HQ. apply sk_reply; [exact Hg|exact Hs|exact Hm|]. intros w' K. by eapply HQ, kept_good. Qed.
Lemma sk_parameters failed error Q w : good w -> (forall w', good w' -> Q tt w') ->
  wp E (host_reply_parameters failed error) Q f w.
Proof.
  intros Hg HQ. apply sk_reply_data; [exact Hg|done| |exact HQ]. apply may_valid. apply Hg.
Qed.
Lemma sk_nak Q w : good w -> (forall w', good w' -> Q tt w') -> wp E host_write_nak Q f w.
Proof.
  intros Hg HQ. apply wp_bind, sk_putc; [exact Hg|]. intros w1 K1. apply wp_bind, sk_putc; [by eapply kept_good|].
  intros w2 K2. assert (kept w w2) as K12 by (by transitivity w1). apply sk_putc; [by eapply kept_good|].
  intros w3 K3. eapply HQ, kept_good; [|exact Hg]. by transitivity w2.
Qed.

Lemma sk_read_block x p size Q w : good w -> valid_range (w_mem w) p size ->
  (forall r w', kept w w' -> Q r w') -> wp E (host_read_block x p size) Q f w.
Proof.
  intros Hg Hv HQ. apply (sk_foldM _ (fun _ _ => True)); [exact Hg|done| |auto].
  intros dn y todo r w1 Hl K1 G1 _. apply seqZ_split in Hl as [-> Hy].
  assert (valid_range (w_mem w1) p size) as V1 by (by eapply kept_valid).
  apply wp_bind, sk_read_byte; [exact G1|]. intros b w2 K2 _.
  apply wp_bind, sk_st8; [eapply kept_valid; [exact K2|exact V1|lia]|]. intros w3 K3.
  assert (kept w1 w3) as K13 by (by transitivity w2).
  apply wp_bind, sk_ld8; [eapply kept_valid; [exact K13|exact V1|lia]|by eapply kept_good|].
  intros b' _. by apply wp_ret.
Qed.
Lemma good_app w s : good w -> 0 <= request_size s <= CCID_MAX_DATA_SIZE -> good (set_app w s).
Proof. intros (H1 & H2 & H3 & _) Hs. by split. Qed.
Lemma sk_read_message Q w : good w -> (forall ok w', good w' -> Q ok w') -> wp E host_read_message Q f w.
Proof.
  intros Hg HQ. unfold host_read_message. apply wp_bind, (sk_iter _ (fun _ => True)); [exact Hg|done|].
  intros [] w1 K1 G1 _. apply wp_bind, wp_bind, sk_read_byte; [exact G1|]. intros b w2 K2 _. apply wp_ret.
  destruct (b ==? SERIAL_SYNC); [|by apply wp_bind, wp_ret, wp_ret].
  apply wp_ret. split; [exact K2|]. intros K02. assert (good w2) as G2 by (by eapply kept_good).
  clear w w1 Hg K1 G1 K2 K02. rename w2 into w, G2 into Hg.
  apply wp_bind, sk_read_byte; [exact Hg|]. intros b' w1 K1 _. assert (good w1) as G1 by (by eapply kept_good).
  destruct (b' !=? SERIAL_ACK); [by apply wp_ret, HQ|]. clear dependent w. rename w1 into w, G1 into Hg.
  pose proof (proj1 (proj1 (proj2 (proj2 Hg)))) as V. unfold CCID_HEADER_SIZE.
  apply wp_bind, sk_read_block; [exact Hg|intros x Hx; apply V; lia|]. intros l w1 K1.
  assert (good w1) as G1 by (by eapply kept_good). apply (kept_valid _ _ _ _ K1) in V. clear dependent w.
  unfold CCID_OFFSET_LENGTH, ld32. apply wp_bind.
  do 4 (apply wp_bind, sk_ld8; [apply V; lia|exact G1|]; intros ? ?). apply wp_ret.
  set (size := le_word _). assert (0 <= size) as Hsz0.
  { unfold size. simpl. unfold is_byte in *. lia. }
  destruct (Z.ltb_spec CCID_MAX_DATA_SIZE size) as [|Hsz]; [by apply wp_ret, HQ|]. clearbody size.
  apply wp_bind, sk_read_block; [exact G1|intros x Hx; apply V; unfold request_data, request_header, CCID_HEADER_SIZE, CCID_MAX_DATA_SIZE in *; lia|].
  intros l' w2 K2. assert (good w2) as G2 by (by eapply kept_good).
  apply wp_bind, wp_get_app, wp_bind, wp_put_app. apply wp_bind, sk_read_byte; [by apply good_app|].
  intros b'' w3 K3 _. apply wp_ret, HQ. eapply kept_good; [exact K3|]. by apply good_app.
Qed.

(** *** The commands *)
Context (HS : forall w, E Spin w) (HB : forall k w, 258 <= k < CCID_MAX_DATA_SIZE -> E (OutOfBounds (response_buffer + k)) w).
Lemma response_may size w : good w -> 0 <= size <= CCID_MAX_DATA_SIZE -> may response_buffer size w.
Proof.
  intros Hg Hs x Hx. destruct (Z.lt_ge_cases x (response_buffer + 258)).
  - left. apply (proj1 (proj2 (proj1 (proj2 (proj2 Hg))))). lia.
  - right. intros w'. replace x with (response_buffer + (x - response_buffer)) by lia. apply HB. lia.
Qed.
Lemma sk_params_reset Q w : good w -> (forall w', good w' -> Q tt w') -> wp E t0_parameters_reset Q f w.
Proof.
  intros Hg HQ. unfold t0_parameters_reset.
  change (zip (seqZ 0 5) DEFAULT_T0_PARAMETERS) with [(0, 0x11); (1, 0); (2, 0); (3, 0x0A); (4, 0)].
  apply wp_bind. cbn [foldM fst snd]. assert (kept w w) as K by (by split_and!).
  pose proof (proj1 (proj2 (proj2 (proj2 (proj1 (proj2 (proj2 Hg))))))) as V.
  do 5 sk_store V K. apply wp_ret, sk_wr. intros w9 K9. eapply HQ, kept_good; [|exact Hg]. etransitivity; [exact K|exact K9].
Qed.
Lemma sk_params_copy Q w : good w -> (forall w', good w' -> Q tt w') -> wp E t0_parameters_copy Q f w.
Proof.
  intros Hg HQ. pose proof (proj2 (proj2 Hg)) as ((Vq & _ & _ & Vp & _) & _).
  apply (sk_foldM _ (fun _ _ => True)); [exact Hg|done| |].
  - intros dn y todo [] w1 Hl K1 G1 _. change 5 with (Z.of_nat 5) in Hl. apply seqZ_split in Hl as [-> Hy].
    apply wp_bind, sk_ld8; [|exact G1|].
    { eapply kept_valid; [exact K1|exact Vq|]. unfold request_data, request_header, CCID_HEADER_SIZE. lia. }
    intros b _. apply sk_st8; [eapply kept_valid; [exact K1|exact Vp|lia]|]. intros w2 K2. by split.
  - intros [] w1 K1 _. by eapply HQ, kept_good.
Qed.
Lemma sk_set_active b Q w : good w -> (forall w', good w' -> Q tt w') -> wp E (set_icc_active b) Q f w.
Proof. intros Hg HQ. apply wp_bind, wp_get_app, wp_put_app, HQ, good_app; [exact Hg|apply Hg]. Qed.

Lemma sk_power_on_cmd Q w : good w -> (forall w', good w' -> Q tt w') -> wp E host_handle_power_on Q f w.
Proof.
  intros Hg HQ. apply wp_bind, sk_params_reset; [exact Hg|]. intros w1 G1.
  apply wp_bind, sk_power_on; [exact G1|]. intros size w2 K2 Hs. apply wp_bind, sk_set_active; [by eapply kept_good|].
  intros w3 G3. destruct (size ==? 0); [by apply sk_reply_empty|].
  unfold SIM_MAX_ATR_SIZE in Hs. apply sk_reply_data; [exact G3|lia| |exact HQ].
  apply may_valid. intros x Hx. apply (proj1 (proj2 (proj2 (proj1 (proj2 (proj2 G3)))))). lia.
Qed.
Lemma sk_power_off_cmd Q w : good w -> (forall w', good w' -> Q tt w') -> wp E host_handle_power_off Q f w.
Proof.
  intros Hg HQ. apply wp_bind, sk_power_off; [exact Hg|]. intros w1 K1.
  apply wp_bind, sk_set_active; [by eapply kept_good|]. intros w2 G2. by apply sk_reply_empty.
Qed.
Lemma sk_first_byte (R : Type) (x : R) (g : Z -> R) Q w : good w -> (forall r, Q r w) ->
  wp E (b ← ld8 request_data; mret (g b)) Q f w.
Proof.
  intros Hg HQ. apply wp_bind, sk_ld8; [|exact Hg|intros b _; apply wp_ret, HQ].
  apply (proj1 (proj1 (proj2 (proj2 Hg)))). unfold request_data, request_header, CCID_HEADER_SIZE. lia.
Qed.
Lemma request_valid w : good w -> valid_range (w_mem w) request_data (request_size (w_app w)).
Proof.
  intros (_ & _ & (V & _) & Hs) x Hx. apply V.
  unfold request_data, request_header, CCID_HEADER_SIZE, CCID_MAX_DATA_SIZE in *. lia.
Qed.
Lemma sk_xfr Q w : good w -> (forall w', good w' -> Q tt w') -> wp E host_handle_xfr_block Q f w.
Proof.
  intros Hg HQ. apply wp_bind, wp_get_app. pose proof (proj2 (proj2 (proj2 Hg))) as Hs.
  pose proof (request_valid w Hg) as V. set (s := w_app w) in *. clearbody s.
  assert (forall K : bool -> world D reader -> Prop, (forall b, K b w) -> wp E
    (if request_size s ==? 0 then mret false else b ← ld8 request_data; mret (b ==? SIM_PPSS)) K f w) as Hpps.
  { intros K HK. destruct (_ ==? 0); [by apply wp_ret|]. by apply (sk_first_byte bool false). }
  apply wp_bind, Hpps. intros pps. destruct (_ || _) eqn:Ebad; [by apply sk_reply_empty|].
  assert (forall w' (exch : bool) size, good w' -> (exch = true -> 0 <= size <= CCID_MAX_DATA_SIZE) ->
    wp E (if negb exch then host_reply RDR_TO_PC_DATA_BLOCK true CCID_ERROR_ICC_MUTE 0 0 0
          else host_reply RDR_TO_PC_DATA_BLOCK false 0 0 response_buffer size) Q f w') as Hend.
  { intros w' exch size G' Hsz. destruct exch; cbn [negb]; [|by apply sk_reply_empty].
    specialize (Hsz eq_refl). apply sk_reply_data; [exact G'|unfold CCID_MAX_DATA_SIZE in *; lia| |exact HQ].
    by apply response_may. }
  apply wp_bind. destruct pps.
  - apply wp_bind. eapply wp_mono; [apply (sk_exchange_pps request_data (request_size s)); [exact Hg|exact V|lia|by apply response_may]|].
    intros exch w1 K1. apply wp_ret, Hend; [exact (kept_good _ _ K1 Hg)|done].
  - apply orb_false_iff in Ebad as [_ Ebad]. cbn [negb andb] in Ebad. apply Z.ltb_ge in Ebad.
    eapply wp_mono; [apply sk_exchange_tpdu; [exact Hg|exact V|lia]|].
    intros [exch size] w1 [K1 He]. apply Hend; [by eapply kept_good|].
    intros ->. specialize (He eq_refl). unfold SIM_MAX_DATA_SIZE, SIM_STATUS_SIZE, CCID_MAX_DATA_SIZE in *. cbn in He. lia.
Qed.
Lemma sk_set_parameters Q w : good w -> (forall w', good w' -> Q tt w') -> wp E host_handle_set_parameters Q f w.
Proof.
  intros Hg HQ. apply wp_bind, wp_get_app. apply wp_bind, sk_ld8; [|exact Hg|].
  { apply (proj1 (proj1 (proj2 (proj2 Hg)))). unfold CCID_OFFSET_PROTOCOL. lia. }
  intros protocol _. apply wp_bind.
  assert (forall brf, wp E (if brf ==? 0 then host_reply_parameters true CCID_ERROR_BAD_FIDI else
    t0_parameters_copy;; wr32 SIM_BRF brf;; host_reply_parameters false 0) Q f w) as Hend.
  { intros brf. destruct (brf ==? 0); [by apply sk_parameters|]. apply wp_bind, sk_params_copy; [exact Hg|].
    intros w1 G1. apply wp_bind, sk_wr. intros w2 K2. apply sk_parameters; [by eapply kept_good|exact HQ]. }
  destruct (_ && _); [|by apply wp_ret]. unfold CCID_T0_FIDI. rewrite Z.add_0_r. by apply (sk_first_byte Z 0).
Qed.
Lemma sk_phone_off Q w : good w -> wp E phone_power_off Q f w.
Proof.
  intros Hg. apply wp_bind, sk_power_off; [exact Hg|]. intros w1 K1. assert (good w1) as G1 by (by eapply kept_good).
  destruct board_pmic; [by apply wp_bind, wp_ret, wp_stop| |by apply wp_bind, wp_ret, wp_stop].
  apply wp_bind. apply wp_assoc, wp_bind, sk_read_pmic; [exact G1|done|]. intros ok w2 K2 V2.
  assert (good w2) as G2 by (by eapply kept_good). destruct ok; [|by apply wp_ret, wp_stop].
  apply wp_bind, sk_ld8; [apply V2; lia|exact G2|]. intros b _.
  apply wp_bind, sk_write_pmic; [exact G2|done|]. intros ok w3 K3. by apply wp_ret, wp_stop.
Qed.
Lemma sk_escape Q w : good w -> (forall w', good w' -> Q tt w') -> wp E host_handle_escape Q f w.
Proof.
  intros Hg HQ. apply wp_bind, wp_get_app. apply wp_bind.
  assert (forall command, wp E (if command ==? ESCAPE_GET_FIRMWARE then
    host_reply RDR_TO_PC_ESCAPE false 0 0 firmware_string (Z.of_nat (length FIRMWARE)) else
    host_reply RDR_TO_PC_ESCAPE false 0 0 0 0;;
    when (command ==? ESCAPE_POWER_OFF) (usart_flush USART0;; phone_power_off)) Q f w) as Hend.
  { intros c. destruct (c ==? ESCAPE_GET_FIRMWARE).
    - apply sk_reply_data; [exact Hg|simpl; lia|apply may_valid; apply Hg|exact HQ].
    - apply wp_bind, sk_reply_empty; [exact Hg|]. intros w1 G1. apply wp_when; intros _; [|by apply HQ].
      apply wp_bind, sk_flush; [exact G1|]. intros w2 K2. apply sk_phone_off. by eapply kept_good. }
  destruct (_ !=? 0); [|by apply wp_ret]. apply sk_ld8; [|exact Hg|by intros b _].
  apply (proj1 (proj1 (proj2 (proj2 Hg)))). unfold request_data, request_header, CCID_HEADER_SIZE. lia.
Qed.
Lemma sk_round Q w : good w -> (forall w', good w' -> Q tt w') -> wp E main_round Q f w.
Proof.
  intros Hg HQ. apply wp_bind, sk_read_message; [exact Hg|]. intros ok w1 G1.
  destruct ok; cbn [negb]; [|by apply sk_nak]. apply wp_bind, wp_bind, wp_get_app.
  pose proof (proj2 (proj2 (proj2 G1))) as Hs. unfold CCID_MAX_DATA_SIZE in Hs.
  apply sk_write_frame; [exact G1|intros x Hx; apply (proj1 (proj1 (proj2 (proj2 G1)))); lia|lia|by apply may_valid, request_valid|].
  intros w2 K2. assert (good w2) as G2 by (by eapply kept_good).
  apply wp_bind, sk_ld8; [apply (proj1 (proj1 (proj2 (proj2 G2)))); unfold CCID_OFFSET_TYPE; lia|exact G2|]. intros type _.
  repeat match goal with |- wp _ (if ?b then _ else _) _ _ _ => destruct b end;
    [apply sk_power_on_cmd|apply sk_power_off_cmd|apply sk_reply_empty|apply sk_xfr|apply sk_parameters| |
     apply sk_set_parameters|apply sk_escape|apply sk_reply_empty]; try done.
  apply wp_bind, sk_params_reset; [exact G2|]. intros w3 G3. by apply sk_parameters.
Qed.
End Safe.

(** C24. Whatever the host, the card, the I2C bus and the timer do, the main loop of the
    reader never returns and never leaves the bounds of an object, divides by zero or
    faults otherwise, with one exception: it can reach the three bytes after [response]
    ([pps_overflow]).  It stops only where the model's fuel ends or the phone was switched off. *)
Theorem reader_safe {D} `{!Device D} `{B : Board} `{Hw : !I2cHw D reader} (f : nat) (w : world D reader) :
  good w ->
  wp (fun c _ => c = OutOfFuel \/ c = Spin \/ exists k, 258 <= k < CCID_MAX_DATA_SIZE /\ c = OutOfBounds (response_buffer + k))
    (iter (fun _ : unit => main_round;; mret (inl tt)) tt) (fun (_ : unit) _ => False) f w.
Proof.
  intros Hg. apply (wp_iter_partial _ _ (fun _ w' => good w')); [exact Hg|by left|].
  intros [] w1 G1. apply wp_bind, sk_round; [by left|by right; left| |exact G1|].
  - intros k w' Hk. right. right. by exists k.
  - intros w2 G2. by apply wp_ret.
Qed.

(** The exchanges with the card stay within [response]: whatever bytes the card sends,
    a T=0 exchange writes the response in bounds and reports at most 258 bytes, and so does
    a PPS exchange of at most 258 bytes. *)
Theorem exchange_bounds {D} `{!Device D} `{B : Board} (f : nat) (w : world D reader)
    (request size : Z) : good w -> valid_range (w_mem w) request size ->
  (SIM_HEADER_SIZE <= size <= CCID_MAX_DATA_SIZE ->
   wp partial (sim_exchange_tpdu request size response_buffer) (fun r w' =>
     good w' /\ (r.1 = true -> 0 <= r.2 <= SIM_MAX_DATA_SIZE + SIM_STATUS_SIZE)) f w) /\
  (0 <= size <= SIM_MAX_DATA_SIZE + SIM_STATUS_SIZE ->
   wp partial (sim_exchange_pps request size response_buffer) (fun _ w' => good w') f w).
Proof.
  intros Hg Hv. split; intros Hs.
  - eapply wp_mono; [by apply sk_exchange_tpdu|]. intros r w' [K H]. split; [by eapply kept_good|exact H].
  - eapply wp_mono; [apply sk_exchange_pps; [done|exact Hg|exact Hv|lia|]|].
    + apply may_valid. intros x Hx. apply (proj1 (proj2 (proj1 (proj2 (proj2 Hg))))).
      unfold SIM_MAX_DATA_SIZE, SIM_STATUS_SIZE in Hs. lia.
    + intros ok w' K. exact (kept_good _ _ K Hg).
Qed.

(** A card that answers every byte at once, with a timer that runs. *)
Definition card_device : Device Z :=
  {| dev_read p t := (if decide (p = Mmio 32 STM_TIM0) then t
                      else if decide (p = Mmio 32 SIM_RIS) then SIM_RIS_OK else 0, t + 1000);
     dev_write p v t := t |}.
Definition card_world (size : Z) : world Z reader :=
  World 0 (mem_alloc request_header 271 (mem_alloc response_buffer 258 (mem_alloc atr_buffer 64
      (mem_alloc t0_parameters 5 (mem_alloc firmware_string 18 ∅))))) []
    (LibState 26000000 0 0 0 0 true) (Reader true size).
Lemma card_world_good size : 0 <= size <= CCID_MAX_DATA_SIZE -> good (card_world size).
Proof.
  intros Hs. split; [done|]. split; [by apply mem_ok_b_spec|]. split; [|exact Hs].
  split_and!; intros x Hx; cbn [card_world w_mem]; repeat first [apply mem_valid_alloc; lia|apply mem_valid_alloc_mono].
Qed.

(** The bound is needed: a PPS request of 259 to 261 bytes, which the frame format
    allows and [host_handle_xfr_block] passes on, makes the reader write past [response]
    when the card answers every byte. *)
Theorem pps_overflow `{B : Board} (size : Z) : SIM_MAX_DATA_SIZE + SIM_STATUS_SIZE < size <= CCID_MAX_DATA_SIZE ->
  exists w', sim_exchange_pps (Device0 := card_device) request_data size response_buffer 400%nat (card_world size) =
    Stop (OutOfBounds (response_buffer + 258)) w'.
Proof.
  unfold SIM_MAX_DATA_SIZE, SIM_STATUS_SIZE, CCID_MAX_DATA_SIZE. intros Hs.
  assert (size = 259 \/ size = 260 \/ size = 261) as [->|[->| ->]] by lia.
  all: match goal with |- exists w', ?x = _ => assert (match x with Stop (OutOfBounds a) _ => a =? response_buffer + 258 | _ => false end = true) as H
    by (vm_compute; reflexivity); destruct x as [|[] w'] eqn:E in H; try discriminate H; apply Z.eqb_eq in H; subst; by exists w' end.
Qed.

(** The baud-rate factor of a FI/DI byte: the whole part of F/(4D) of ISO 7816-3, and
    0, which [host_handle_set_parameters] refuses, exactly for the reserved codes; it fits
    the seven bits of the register's field exactly when F < 512 D. *)
Theorem fidi_brf (fidi : Z) : is_byte fidi ->
  let F := nth (Z.to_nat (fidi / 16)) FI_CLOCKS_PER_ETU 0 in
  let D := nth (Z.to_nat (fidi mod 16)) DI_DIVISORS 0 in
  sim_fidi_to_brf fidi = F / (4 * D) /\
  (sim_fidi_to_brf fidi = 0 <-> F = 0 \/ D = 0) /\
  (0 < D -> (sim_fidi_to_brf fidi <= SIM_BRF_BRF <-> F < 512 * D)).
Proof.
  intros Hb F D.
  assert (forallb (fun fidi => let F := nth (Z.to_nat (fidi / 16)) FI_CLOCKS_PER_ETU 0 in
    let D := nth (Z.to_nat (fidi mod 16)) DI_DIVISORS 0 in
    (sim_fidi_to_brf fidi =? F / (4 * D)) && Bool.eqb (sim_fidi_to_brf fidi =? 0) ((F =? 0) || (D =? 0)) &&
    ((D <=? 0) || Bool.eqb (sim_fidi_to_brf fidi <=? SIM_BRF_BRF) (F <? 512 * D))) (seqZ 0 256) = true) as H
    by (vm_compute; reflexivity).
  rewrite forallb_forall in H. specialize (H fidi). cbv zeta in H. fold F D in H.
  assert (fidi ∈ seqZ 0 256) as Hin by (apply elem_of_seqZ; unfold is_byte in Hb; lia).
  apply list_elem_of_In, H in Hin. apply andb_true_iff in Hin as [Hin H3]. apply andb_true_iff in Hin as [H1 H2].
  apply Z.eqb_eq in H1. apply Bool.eqb_prop in H2. split; [exact H1|]. split.
  - rewrite <- Z.eqb_eq, H2, orb_true_iff, !Z.eqb_eq. done.
  - intros HD. apply orb_true_iff in H3 as [H3|H3]; [apply Z.leb_le in H3; lia|].
    apply Bool.eqb_prop in H3. rewrite <- Z.leb_le, H3. apply Z.ltb_lt.
Qed.

Lemma reader_safe_witness :
  let B := plain_board PMB8876 in
  wp (D := Z) (fun c _ => c = OutOfFuel \/ c = Spin \/ exists k, 258 <= k < CCID_MAX_DATA_SIZE /\ c = OutOfBounds (response_buffer + k))
    (iter (fun _ : unit => main_round (Device0 := card_device) (Hw := answer_bus 0 card_device B);; mret (inl tt)) tt)
    (fun (_ : unit) _ => False) 1000%nat (card_world 0).
Proof.
  intros B. exact (reader_safe (Device0 := card_device) (Hw := answer_bus 0 card_device B) 1000%nat (card_world 0)
    (card_world_good 0 ltac:(by vm_compute))).
Defined.
Lemma exchange_bounds_witness :
  let B := plain_board PMB8876 in
  wp (D := Z) partial (sim_exchange_tpdu (Device0 := card_device) request_data 5 response_buffer)
    (fun r w' => good w' /\ (r.1 = true -> 0 <= r.2 <= 258)) 1000%nat (card_world 5) /\
  wp (D := Z) partial (sim_exchange_pps (Device0 := card_device) request_data 4 response_buffer)
    (fun _ w' => good w') 1000%nat (card_world 4).
Proof.
  intros B. split.
  - refine (proj1 (exchange_bounds (Device0 := card_device) 1000%nat (card_world 5)
      request_data 5 (card_world_good 5 _) _) _); [by split; vm_compute| |by split; vm_compute].
    intros x Hx. apply (proj1 (proj1 (proj2 (proj2 (card_world_good 5 ltac:(by split; vm_compute)))))).
    unfold request_data, request_header, CCID_HEADER_SIZE in *. lia.
  - refine (proj2 (exchange_bounds (Device0 := card_device) 1000%nat (card_world 4)
      request_data 4 (card_world_good 4 _) _) _); [by split; vm_compute| |by split; vm_compute].
    intros x Hx. apply (proj1 (proj1 (proj2 (proj2 (card_world_good 4 ltac:(by split; vm_compute)))))).
    unfold request_data, request_header, CCID_HEADER_SIZE in *. lia.
Defined.
Lemma pps_overflow_witness :
  let B := plain_board PMB8876 in
  exists w', sim_exchange_pps (Device0 := card_device) request_data 259 response_buffer 400%nat (card_world 259) =
    Stop (OutOfBounds (response_buffer + 258)) w'.
Proof. intros B. apply (pps_overflow 259). by split; vm_compute. Defined.
(** F = 558, D = 1: 139 does not fit, the register gets 11. *)
Lemma fidi_brf_witness : sim_fidi_to_brf 0x21 = 139 /\ ~ (139 <= SIM_BRF_BRF).
Proof.
  destruct (fidi_brf 0x21 ltac:(by split; vm_compute)) as (H1 & _ & H2). split; [exact H1|].
  intros H. assert (558 < 512 * 1) as H3 by (apply (H2 ltac:(by vm_compute)); exact H). revert H3. vm_compute. discriminate.
Defined.
