(* ===== verification/SimT0.v ===== *)
(** * The T=0 protocol of the smart-card reader ([sim_exchange_tpdu] of [apps/sim-reader/main.c])

    Every exchange of the reader that succeeds is one of the protocol [t0]. *)
From S2P Require Import Prelude Machine Board Regs Clock Stopwatch Wdt Usart Smbus SimReader T0.

Section Quiet.
Context {D : Type} `{!Device D} `{B : Board}.
Lemma silent_delay ms : silent (D := D) (delay_ms ms).
Proof. unfold delay_ms, stopwatch_elapsed_ms, stopwatch_elapsed, stopwatch_get. silent_tac; apply silent_serve. Qed.
Lemma silent_wait_ok ms : silent (D := D) (sim_wait_ok ms).
Proof. unfold sim_wait_ok, stopwatch_elapsed_ms, stopwatch_elapsed, stopwatch_get. silent_tac; apply silent_serve. Qed.
End Quiet.

(** ** The exchange *)
Section Exchange.
Context {D : Type} `{!Device D} `{B : Board} (w0 : world D reader) (f : nat).
Implicit Types w : world D reader.
(** Every way of not returning is left open. *)
#[local] Abbreviation anything := (fun (_ : cause) (_ : world D reader) => True).
(** Loads and stores outside of objects stop. *)
Lemma wp_ld8_any a Q w : Q (mem_get (w_mem w) a) w -> wp anything (ld8 a) Q f w.
Proof. intros HQ. unfold wp, ld8. by destruct (mem_valid _ _). Qed.
Lemma wp_st8_any a v Q w : Q tt (set_mem w (<[a := u8 v]> (w_mem w))) -> wp anything (st8 a v) Q f w.
Proof. intros HQ. unfold wp, st8. by destruct (mem_valid _ _). Qed.
Lemma wp_iter_any {X R} (body : X -> M D reader (X + R)) (I : X -> world D reader -> Prop) Q x w :
  I x w ->
  (forall x w, I x w -> wp anything (body x) (fun s w' => match s with inl x' => I x' w' | inr r => Q r w' end) f w) ->
  wp anything (iter body x) Q f w.
Proof. intros HI Hb. by apply (wp_iter_partial _ _ I). Qed.

Lemma wp_send_byte b Q cs sn w : point w0 cs sn w -> (forall w', Q false w') ->
  (forall w', point w0 cs (sn ++ [u8 b]) w' -> w_mem w' = w_mem w -> Q true w') ->
  wp anything (sim_send_byte b) Q f w.
Proof.
  intros Hw HF HT. unfold sim_send_byte. apply wp_bind.
  eapply (wp_silent (wr32 SIM_ICR SIM_ICR_OK) _ cs sn); [by apply silent_wr|done|]. intros _ w1 Hw1 E1. apply wp_bind, wp_wr.
  match goal with |- wp _ _ _ _ ?w => pose proof (point_event _ _ _ w _ Hw1 eq_refl) as Hw2 end.
  simpl in Hw2. rewrite app_nil_r, u8_u32 in Hw2. apply wp_bind.
  eapply wp_silent; [apply silent_wait_ok|exact Hw2|]. intros ok w3 Hw3 E3. destruct ok; [|by apply wp_ret].
  apply wp_bind. eapply (wp_silent (wr32 SIM_ICR SIM_ICR_OK)); [by apply silent_wr|exact Hw3|]. intros _ w4 Hw4 E4.
  apply wp_ret, HT; [done|]. rewrite E4, E3. exact E1.
Qed.
Lemma wp_receive_byte a ms Q cs sn w : point w0 cs sn w -> (forall w', Q false w') ->
  (forall b w', is_byte b -> point w0 (cs ++ [b]) sn w' -> w_mem w' = <[a := b]> (w_mem w) -> Q true w') ->
  wp anything (sim_receive_byte a ms) Q f w.
Proof.
  intros Hw HF HT. unfold sim_receive_byte. apply wp_bind.
  eapply wp_silent; [apply silent_wait_ok|exact Hw|]. intros ok w1 Hw1 E1. destruct ok; [|by apply wp_ret].
  apply wp_bind, wp_rd. intros v d _. change (port_wrap _ v) with (u32 v).
  match goal with |- wp _ _ _ _ ?w => pose proof (point_event _ _ _ w _ Hw1 eq_refl) as Hw2 end.
  simpl in Hw2. rewrite app_nil_r in Hw2. apply wp_bind, wp_st8_any, wp_bind.
  eapply (wp_silent (wr32 SIM_ICR SIM_ICR_OK)); [by apply silent_wr|exact Hw2|]. intros _ w4 Hw4 E4.
  apply wp_ret, (HT _ _ (u8_range _) Hw4). rewrite E4. simpl. by rewrite E1.
Qed.

(** A procedure byte ends the card's waiting bytes. *)
Lemma wp_receive_procedure a Q cs sn w : point w0 cs sn w -> (forall w', Q false w') ->
  (forall k b w', is_byte b -> b <> SIM_NULL_BYTE -> point w0 (cs ++ replicate k SIM_NULL_BYTE ++ [b]) sn w' ->
     mem_get (w_mem w') a = b -> (forall x, x <> a -> mem_get (w_mem w') x = mem_get (w_mem w) x) -> Q true w') ->
  wp anything (sim_receive_procedure a) Q f w.
Proof.
  intros Hw HF HT. unfold sim_receive_procedure.
  apply (wp_iter_any _ (fun _ w' => exists k, point w0 (cs ++ replicate k SIM_NULL_BYTE) sn w' /\
    forall x, x <> a -> mem_get (w_mem w') x = mem_get (w_mem w) x)); [exists O; by rewrite app_nil_r|].
  intros _ w1 (k & Hw1 & E1). apply wp_bind. eapply wp_receive_byte; [exact Hw1|intros w2; by apply wp_ret|].
  intros b w2 Hbb Hw2 E2. apply wp_bind, wp_ld8_any. rewrite E2, mem_get_insert, decide_True by done.
  assert (forall x, x <> a -> mem_get (w_mem w2) x = mem_get (w_mem w) x) as E3.
  { intros x Hx. rewrite E2, mem_get_insert, decide_False by done. by apply E1. }
  rewrite <- app_assoc in Hw2. destruct (Z.eqb_spec b SIM_NULL_BYTE) as [->|Hb]; apply wp_ret.
  - exists (S k). by rewrite replicate_S_end.
  - eapply HT; [exact Hbb|exact Hb|exact Hw2| |done]. by rewrite E2, mem_get_insert, decide_True.
Qed.
(** Bytes of memory, sent one after the other. *)
Lemma wp_send_bytes a bs Q cs sn w : bytes_ok bs -> mem_at (w_mem w) a bs -> point w0 cs sn w ->
  (forall w', Q (Some false) w') ->
  (forall w', point w0 cs (sn ++ bs) w' -> w_mem w' = w_mem w -> Q None w') ->
  wp anything (sim_send_bytes a (Z.of_nat (length bs))) Q f w.
Proof.
  intros Hbs Hm Hw HF HT. unfold sim_send_bytes. apply wp_bind.
  apply (wp_foldE _ _ (fun l _ w' => point w0 cs (sn ++ take (length l) bs) w' /\ w_mem w' = w_mem w)).
  - by rewrite take_0, app_nil_r.
  - intros l y todo _ w1 El [Hw1 E1]. apply seqZ_split in El as [-> Hy]. apply wp_bind, wp_ld8_any, wp_bind.
    destruct (lookup_lt_is_Some_2 bs (length l)) as [b Hb]; [lia|].
    rewrite E1, (mem_at_lookup _ _ _ _ _ Hm Hb). eapply wp_send_byte; [exact Hw1|intros w2; apply wp_ret; by apply wp_ret|].
    intros w2 Hw2 E2. apply wp_ret. split; [|congruence].
    rewrite length_app, Nat.add_1_r, (take_S_r _ _ _ Hb), app_assoc.
    rewrite u8_small in Hw2; [exact Hw2|]. by eapply (proj1 (Forall_lookup _ _) Hbs).
  - intros _ w1 [Hw1 E1]. rewrite length_seqZ_nat, firstn_all in Hw1. by apply wp_ret, HT.
Qed.

Context (tx_data : option Z) (size : Z) (Hsize : 0 <= size <= 256).
(** Between two procedure bytes: [p] is left, the card sent [cs], was sent [sn], and [rs] is received. *)
Definition ready (p : pending) (cs sn rs : list Z) (s : Z * Z) w : Prop :=
  point w0 cs sn w /\ mem_at (w_mem w) response_buffer rs /\ 0 <= s.1 /\ s.1 + Z.of_nat (remaining p) = size /\
  s.2 = Z.of_nat (length rs) /\
  match p with
  | Send data => tx_data = Some (request_data + SIM_HEADER_SIZE) /\ rs = [] /\ bytes_ok data /\
                 mem_at (w_mem w) (request_data + SIM_HEADER_SIZE + s.1) data
  | Receive _ => tx_data = None /\ s.1 = Z.of_nat (length rs)
  end.
Lemma wp_tpdu_byte p cs sn rs s y w : ready p cs sn rs s w -> (0 < remaining p)%nat ->
  wp anything (tpdu_byte tx_data response_buffer s y) (fun r w' =>
    match r with
    | inl s' => exists out inp, moved 1 p out inp /\ ready (after 1 p) (cs ++ inp) (sn ++ out) (rs ++ inp) s' w'
    | inr r => r.1 = false
    end) f w.
Proof.
  intros (Hp & Hrs & H0 & Ht & Hn & Hd) Hm. destruct s as [t n]. simpl in *.
  destruct p as [[|b data]|[|k]]; simpl in *; try lia; destruct Hd as [-> Hd].
  - destruct Hd as (-> & Hb & Hd). apply mem_at_cons in Hd as [Eb Hd]. apply Forall_cons in Hb as [Hb Hbs].
    apply wp_bind, wp_ld8_any, wp_bind. rewrite Eb. eapply wp_send_byte; [exact Hp|intros w2; by apply wp_ret|].
    intros w2 Hw2 E2. apply wp_ret. rewrite u8_small in Hw2 by done. exists [b], []. split; [done|].
    rewrite !app_nil_r, drop_0. unfold ready. simpl. rewrite E2, Z.add_assoc. split_and!; done || lia.
  - apply wp_bind. eapply wp_receive_byte; [exact Hp|intros w2; by apply wp_ret|]. intros b w2 _ Hw2 E2. apply wp_ret.
    exists [], [b]. split; [done|]. rewrite app_nil_r, Nat.sub_0_r. unfold ready. rewrite E2, length_app. simpl.
    split_and!; try done; try lia. rewrite Hn. by apply mem_at_snoc.
Qed.
Lemma wp_transfer m p cs sn rs s w : ready p cs sn rs s w -> (m <= remaining p)%nat ->
  wp anything (foldE (tpdu_byte tx_data response_buffer) s (seqZ 0 (Z.of_nat m))) (fun r w' =>
    match r with
    | inl s' => exists out inp, moved m p out inp /\ ready (after m p) (cs ++ inp) (sn ++ out) (rs ++ inp) s' w'
    | inr r => r.1 = false
    end) f w.
Proof.
  intros Hw Hm. apply (wp_foldE _ _ (fun l s' w' => exists out inp, moved (length l) p out inp /\
    ready (after (length l) p) (cs ++ inp) (sn ++ out) (rs ++ inp) s' w')).
  - exists [], []. rewrite !app_nil_r. destruct p; simpl; [by rewrite drop_0|by rewrite Nat.sub_0_r].
  - intros l y todo s1 w1 El (out & inp & Hmv & Hr). apply seqZ_split in El as [-> Hy].
    eapply wp_mono; [eapply wp_tpdu_byte; [exact Hr|rewrite remaining_after; lia]|].
    intros [s2|r] w2; [|done]. intros (out' & inp' & Hmv' & Hr'). exists (out ++ out'), (inp ++ inp').
    rewrite length_app, Nat.add_1_r, !app_assoc, <- after_next. split; [by eapply moved_next|done].
  - intros s1 w1. by rewrite length_seqZ_nat.
Qed.

(** *** From the command header to the status *)
Context (ins : Z) (header : list Z) (start : pending).
(** What the card sends from here on continues the exchange [start] that is going on. *)
Definition underway (s : Z * Z) w : Prop :=
  exists p cs sn rs, ready p cs (header ++ sn) rs s w /\
    forall cs' sn' rs', t0 ins p cs' sn' rs' -> t0 ins start (cs ++ cs') (sn ++ sn') (rs ++ rs').
Definition finished (n : Z) w : Prop :=
  exists cs sn rs, point w0 cs (header ++ sn) w /\ mem_at (w_mem w) response_buffer rs /\ n = Z.of_nat (length rs) /\
    t0 ins start cs sn rs.
Definition stepped (r : Z * Z + bool * Z) w : Prop :=
  match r with inl s => underway s w | inr r => r.1 = true -> finished r.2 w end.

(** The transfer that a procedure byte asks for leads to the next one. *)
Lemma wp_procedure m p cs c sn rs s w : (m <= remaining p)%nat -> ready p (cs ++ c) (header ++ sn) rs s w ->
  (forall cs' sn' rs', t0 ins p cs' sn' rs' -> t0 ins start (cs ++ cs') (sn ++ sn') (rs ++ rs')) ->
  (forall out inp cs' sn' rs', moved m p out inp -> t0 ins (after m p) cs' sn' rs' ->
     t0 ins p (c ++ inp ++ cs') (out ++ sn') (inp ++ rs')) ->
  wp anything (foldE (tpdu_byte tx_data response_buffer) s (seqZ 0 (Z.of_nat m))) stepped f w.
Proof.
  intros Hm Hr Hl Hp. eapply wp_mono; [by eapply wp_transfer|]. intros [s1|r] w1; [|by simpl; intros ->].
  intros (out & inp & Hmv & Hr1). eexists _, _, (sn ++ out), _. split; [rewrite app_assoc; exact Hr1|].
  intros cs' sn' rs' H. rewrite <- !app_assoc. by apply Hl, Hp.
Qed.
(** Whatever writes elsewhere than the buffers. *)
Lemma ready_elsewhere p cs cs' sn rs s w w' : ready p cs sn rs s w -> point w0 cs' sn w' ->
  (forall x, x <> procedure_byte -> mem_get (w_mem w') x = mem_get (w_mem w) x) -> ready p cs' sn rs s w'.
Proof.
  intros (Hp & Hrs & H0 & Ht & Hn & Hd) Hp' Em. unfold ready. split_and!; try done.
  - eapply mem_at_ext; [|exact Hrs]. intros x Hx. apply Em. intros ->. revert Hx.
    assert (length rs <= 256)%nat by (destruct p; [destruct Hd as (_ & -> & _); simpl; lia|lia]).
    unfold response_buffer, procedure_byte, LOCAL, slot_size. lia.
  - destruct p as [data|n]; [|done]. destruct Hd as (E & -> & Hb & Hd). split_and!; try done.
    eapply mem_at_ext; [|exact Hd]. intros x Hx. apply Em. intros ->. revert Hx.
    simpl in Ht. unfold request_data, request_header, procedure_byte, LOCAL, slot_size, CCID_HEADER_SIZE, SIM_HEADER_SIZE. lia.
Qed.
Lemma wp_tpdu_step s w : underway s w -> wp anything (tpdu_step ins tx_data size response_buffer s) stepped f w.
Proof.
  intros (p & cs & sn & rs & Hr & Hl). destruct s as [t n]. unfold tpdu_step. apply wp_bind, wp_alloc, wp_bind.
  match goal with |- wp _ _ _ _ ?w => assert (ready p cs (header ++ sn) rs (t, n) w) as Hr1 end.
  { eapply ready_elsewhere; [exact Hr|by destruct Hr|]. intros x Hx. simpl. apply mem_get_alloc_out. lia. }
  eapply wp_receive_procedure; [apply Hr1|intros w1; by apply wp_ret|]. intros k b w1 Hbb Hb Hw1 Eb Em.
  assert (ready p _ (header ++ sn) rs (t, n) w1) as Hr2 by (eapply ready_elsewhere; [exact Hr1|exact Hw1|exact Em]).
  pose proof Hr2 as (_ & Hrs & H0 & Ht & Hn & _). simpl in H0, Ht, Hn. apply wp_bind, wp_ld8_any. rewrite Eb.
  destruct (Z.eqb_spec b ins) as [->|Hi]; [|destruct (Z.eqb_spec b (not8 ins)) as [->|Hi']].
  - rewrite u32_small by (unfold is_u32; lia). replace (size - t) with (Z.of_nat (remaining p)) by lia.
    eapply wp_procedure; [done|exact Hr2|exact Hl|]. intros out inp cs' sn' rs' Hmv H.
    rewrite <- app_assoc. apply t0_waits. by apply (t0_all _ _ out inp).
  - replace (if t <? size then 1 else 0) with (Z.of_nat (min 1 (remaining p))) by (destruct (Z.ltb_spec t size); lia).
    eapply wp_procedure; [apply Nat.le_min_r|exact Hr2|exact Hl|]. intros out inp cs' sn' rs' Hmv H.
    rewrite <- app_assoc. apply t0_waits. by apply (t0_one _ _ out inp).
  - apply wp_bind, wp_st8_any, wp_bind. eapply wp_receive_byte; [exact Hw1|intros w2; by apply wp_ret|].
    intros sw2 w2 _ Hw2 E2. apply wp_ret. intros _. exists (cs ++ replicate k SIM_NULL_BYTE ++ [b; sw2]), (sn ++ []), (rs ++ [b; sw2]).
    split; [|split; [|split; [rewrite length_app; simpl; lia|by apply Hl, t0_waits, t0_status]]].
    + rewrite app_nil_r. by rewrite <- !app_assoc in Hw2.
    + change [b; sw2] with ([b] ++ [sw2]). rewrite app_assoc, E2, Hn.
      replace (response_buffer + (Z.of_nat (length rs) + 1)) with (response_buffer + Z.of_nat (length (rs ++ [b]))) by (rewrite length_app; simpl; lia).
      apply mem_at_snoc. simpl. rewrite u8_small by done. by apply mem_at_snoc.
Qed.

Lemma wp_exchange w : point w0 [] [] w -> bytes_ok header -> length header = 5%nat -> mem_at (w_mem w) request_data header ->
  (forall w', point w0 [] header w' -> w_mem w' = w_mem w -> ready start [] header [] (0, 0) w') ->
  wp anything (delay_ms SIM_TURNAROUND_MS;;
    failed ← sim_send_bytes request_data SIM_HEADER_SIZE;
    match failed with
    | Some r => mret (r, 0)
    | None => iter (tpdu_step ins tx_data size response_buffer) (0, 0)
    end) (fun r w' => r.1 = true -> finished r.2 w') f w.
Proof.
  intros Hw Hb Hlen Hm Hr. apply wp_bind. eapply wp_silent; [apply silent_delay|exact Hw|]. intros _ w1 Hw1 E1. apply wp_bind.
  change SIM_HEADER_SIZE with (Z.of_nat 5). rewrite <- Hlen. eapply wp_send_bytes; [exact Hb|by rewrite E1|exact Hw1|by intros w2; apply wp_ret|].
  intros w2 Hw2 E2. eapply wp_mono; [|intros r w3 H; exact H].
  apply (wp_iter_any _ underway); [|intros s w3 Hs; eapply wp_mono; [by apply wp_tpdu_step|]; by intros [s'|r] w4].
  exists start, [], [], []. rewrite app_nil_r. split; [apply Hr; [done|congruence]|done].
Qed.
End Exchange.

(** C14. Every T=0 exchange that [sim_exchange_tpdu] reports as done follows the protocol,
    whatever the card sends and however time passes: the reader sent the five header bytes,
    then exactly the command's data bytes that the card's procedure bytes asked for, the
    response it returns is exactly the data bytes the card sent after them, closed by the
    two status bytes, and the waiting and procedure bytes are in neither. *)
Theorem tpdu_follows_t0 {D} `{!Device D} `{B : Board} (f : nat) (w w' : world D reader)
    (cla ins p1 p2 p3 : Z) (data : list Z) (n : Z) :
  mem_at (w_mem w) request_data ([cla; ins; p1; p2; p3] ++ data) -> bytes_ok ([cla; ins; p1; p2; p3] ++ data) ->
  (length data <= 256)%nat ->
  sim_exchange_tpdu request_data (SIM_HEADER_SIZE + Z.of_nat (length data)) response_buffer f w = Done (true, n) w' ->
  exists es sn response,
    w_log w' = es ++ w_log w /\ sent es = [cla; ins; p1; p2; p3] ++ sn /\
    t0 ins (if decide (data = []) then Receive (if p3 ==? 0 then 256 else Z.to_nat p3) else Send data) (received es) sn response /\
    mem_at (w_mem w') response_buffer response /\ n = Z.of_nat (length response).
Proof.
  intros Hm Hb Hlen Hrun. set (header := [cla; ins; p1; p2; p3]) in *.
  set (start := if decide (data = []) then _ else _).
  assert (wp (fun _ _ => True) (sim_exchange_tpdu request_data (SIM_HEADER_SIZE + Z.of_nat (length data)) response_buffer)
    (fun r w1 => r.1 = true -> finished w ins header start r.2 w1) f w) as Hwp; cycle 1.
  { unfold wp in Hwp. rewrite Hrun in Hwp. destruct (Hwp eq_refl) as (cs & sn & rs & (es & L & <- & S) & Hrs & Hn & Ht).
    by exists es, sn, rs. }
  apply mem_at_app in Hm as [Hmh Hmd]. apply Forall_app in Hb as [Hbh Hbd].
  unfold sim_exchange_tpdu. apply wp_bind, wp_ld8_any. change (request_data + SIM_HEADER_INS) with (request_data + Z.of_nat 1).
  rewrite (mem_at_lookup _ _ _ 1 ins Hmh eq_refl). unfold start. destruct data as [|b data]; simpl.
  - apply wp_bind, wp_bind, wp_ld8_any. change (request_data + SIM_HEADER_P3) with (request_data + Z.of_nat 4).
    rewrite (mem_at_lookup _ _ _ 4 p3 Hmh eq_refl). apply wp_ret. assert (is_byte p3) as Hp3 by (by eapply (Forall_lookup_1 _ _ 4 p3 Hbh)).
    eapply wp_exchange; [|apply point_start|done|done|done|]; unfold SIM_MAX_DATA_SIZE, is_byte in *.
    + destruct (Z.eqb_spec p3 0); simpl; lia.
    + intros w1 Hw1 E1. split_and!; try done; [by rewrite E1; apply mem_at_nil|]. simpl.  destruct (Z.eqb_spec p3 0); simpl; lia.
  - replace (SIM_HEADER_SIZE <? _) with true by (symmetry; apply Z.ltb_lt; lia). apply wp_bind, wp_ret.
    eapply wp_exchange; [|apply point_start|done|done|done|]; [simpl in Hlen; unfold SIM_HEADER_SIZE; lia|].
    intros w1 Hw1 E1. split_and!; try done; rewrite ?E1; [apply mem_at_nil|simpl; unfold SIM_HEADER_SIZE; lia|].
    rewrite Z.add_0_r. exact Hmd.
Qed.

Definition scripted_world (command script : list Z) : world (Z * list Z) reader :=
  World (0, script) (mem_put (mem_alloc request_header 271 (mem_alloc response_buffer 258 ∅)) request_data command) []
    (LibState 26000000 0 0 0 0 true) (Reader true (Z.of_nat (length command))).
(** READ BINARY of 3 bytes: the card waits, gives one byte, then the other two. *)
Lemma tpdu_follows_t0_witness :
  let B := plain_board PMB8876 in
  let w := scripted_world [0xA0; 0xB0; 0; 0; 3] [0x60; 0x4F; 0x11; 0x60; 0x60; 0xB0; 0x22; 0x33; 0x90; 0x00] in
  exists w' es sn response,
    sim_exchange_tpdu (Device0 := scripted_card) request_data SIM_HEADER_SIZE response_buffer 400%nat w = Done (true, 5) w' /\
    w_log w' = es ++ w_log w /\ sent es = [0xA0; 0xB0; 0; 0; 3] ++ sn /\ t0 0xB0 (Receive 3) (received es) sn response /\
    mem_at (w_mem w') response_buffer response /\ 5 = Z.of_nat (length response).
Proof.
  intros B w.
  assert (match sim_exchange_tpdu (Device0 := scripted_card) request_data (SIM_HEADER_SIZE + Z.of_nat (length (@nil Z))) response_buffer 400%nat w
          with Done (true, n) _ => n =? 5 | _ => false end = true) as H by (vm_compute; reflexivity).
  destruct (sim_exchange_tpdu (Device0 := scripted_card) request_data (SIM_HEADER_SIZE + Z.of_nat (length (@nil Z))) response_buffer 400%nat w)
    as [[[] n] w'|] eqn:E; try discriminate H. apply Z.eqb_eq in H. subst n. exists w'.
  destruct (tpdu_follows_t0 (Device0 := scripted_card) 400%nat w w' 0xA0 0xB0 0 0 3 [] 5) as (es & sn & response & H);
    [apply mem_at_put|by repeat constructor|simpl; lia|exact E|]. exists es, sn, response. split; [exact E|exact H].
Defined.
