(* ===== verification/Eeprom.v ===== *)
(** * The EEPROM blocks of the phone's flash ([unit/eeprom.c], the writer of [unit/eeprom/test.c])

    The vendor firmware keeps its settings in flash partitions of two layouts, SG (X65) and
    NSG (X85): a table of entries that grows down from the end of the partition, the data
    of the small NSG blocks in 16-byte chunks between them.  The parser gets a flash image
    and has to survive any contents.  A read outside the image is a fault ([None]). *)
From S2P Require Import Prelude Machine Board Regs.

Definition FLASH_ADDRESS_MIN : Z := 0xA0000000.
Definition FLASH_ADDRESS_MAX : Z := 0xB0000000.
Definition FLASH_WINDOW_MAX_EXPONENT : Z := 27.
Definition EBU_CHIP_SELECT_COUNT : Z := 4.
Definition EEPROM_PARTITION_BLOCK_SIZE : Z := 0x10000.
Definition EEPROM_SG_PARTITION_SIZE : Z := EEPROM_PARTITION_BLOCK_SIZE * 2.
Definition EEPROM_NSG_PARTITION_SIZE : Z := EEPROM_PARTITION_BLOCK_SIZE * 4.
Definition EEPROM_SG_HEADER_SIZE : Z := 16.
Definition EEPROM_NSG_HEADER_SIZE : Z := 32.
Definition EEPROM_SG_EIT_ENTRY_SIZE : Z := 16.
Definition EEPROM_NSG_EIT_ENTRY_SIZE : Z := 32.
Definition EEPROM_NSG_DATA_CHUNK_SIZE : Z := 0x10.
Definition EEPROM_NSG_EELITE_INLINE_MAX : Z := 0x10.
Definition EEPROM_NSG_EEFULL_INLINE_MAX : Z := 0x200.
Definition EEPROM_ENTRY_STATE_MASK : Z := 0xAAAAAAAA.
Definition EEPROM_ENTRY_FREE : Z := 0xAAAAAAAA.
Definition EEPROM_ENTRY_WRITING : Z := 0xAAAAAAA8.
Definition EEPROM_ENTRY_VALID : Z := 0xAAAAAA80.
Definition EEPROM_ENTRY_OBSOLETE : Z := 0xAAAAAA00.
Definition EEPROM_PARTITION_MARKER : Z := 0xFFFFFFF0.
Definition EEPROM_EEFULL_BLOCK_ID_BASE : Z := 5000.
Definition EEPROM_EEFULL_EXTENDED_VERSION_FLAG : Z := 0x80.
Definition EEPROM_EEFULL_METADATA_SIZE : Z := 1.
Definition EEPROM_EEFULL_EXTENDED_METADATA_SIZE : Z := 6.
Definition EEPROM_BLOCK_INLINE_CAPACITY : Z := 0x200.

(** [enum eeprom_partition_type] arrives as a number that is checked. *)
Definition EEPROM_PARTITION_EELITE : Z := 0.
Definition EEPROM_PARTITION_EEFULL : Z := 1.
Definition EEPROM_PARTITION_COUNT : Z := 2.
Inductive eeprom_layout := EEPROM_LAYOUT_SG | EEPROM_LAYOUT_NSG.
Inductive eeprom_result :=
  | EEPROM_RESULT_OK | EEPROM_RESULT_FLASH_NOT_MAPPED | EEPROM_RESULT_PARTITION_NOT_FOUND
  | EEPROM_RESULT_BLOCK_NOT_FOUND | EEPROM_RESULT_INVALID.
#[export] Instance eeprom_result_eq_dec : EqDecision eeprom_result.
Proof. solve_decision. Defined.

(** The flash image; pointers into it are offsets. *)
Record flash_map := FlashMap { fm_byte : Z -> Z; fm_size : Z }.
Record eeprom_partition := Partition { p_data : Z; p_size : Z; p_layout : eeprom_layout }.
(** [block->data]: into the flash, or [block->inline_data]; [None] before it is set. *)
Inductive block_data := InFlash (offset : Z) | Inline.
Record eeprom_block := EepromBlock {
  b_data : option block_data; b_size : Z; b_version : Z; b_inline : list Z;
}.
Definition set_meta (size version : Z) (b : eeprom_block) : eeprom_block :=
  EepromBlock (b_data b) size version (b_inline b).
Definition set_data (d : block_data) (b : eeprom_block) : eeprom_block :=
  EepromBlock (Some d) (b_size b) (b_version b) (b_inline b).
Definition set_inline (l : list Z) (b : eeprom_block) : eeprom_block :=
  EepromBlock (b_data b) (b_size b) (b_version b) l.

Definition EEPROM_PARTITION_NAMES (type : Z) : list Z :=
  if type ==? EEPROM_PARTITION_EELITE then [0x45; 0x45; 0x4C; 0x49; 0x54; 0x45; 0; 0]
  else [0x45; 0x45; 0x46; 0x55; 0x4C; 0x4C; 0; 0].

Definition is_entry_state_valid (state : Z) : bool :=
  (state ==? EEPROM_ENTRY_FREE) || (state ==? EEPROM_ENTRY_WRITING) ||
  (state ==? EEPROM_ENTRY_VALID) || (state ==? EEPROM_ENTRY_OBSOLETE).
Definition align_nsg_data_offset (offset : Z) : Z :=
  if (offset .& EEPROM_NSG_DATA_CHUNK_SIZE) ==? 0 then offset
  else u32 (offset + EEPROM_NSG_DATA_CHUNK_SIZE * 2 - (offset .& (EEPROM_NSG_DATA_CHUNK_SIZE * 2 - 1))).
Definition nsg_data_byte_offset (offset index : Z) : Z :=
  let chunk_offset := offset .& (EEPROM_NSG_DATA_CHUNK_SIZE - 1) in
  u32 (offset + index + (u32 (chunk_offset + index) / EEPROM_NSG_DATA_CHUNK_SIZE) * EEPROM_NSG_DATA_CHUNK_SIZE).

(** A [for] loop that may leave the function with a result. *)
Fixpoint for_early {X R} (body : X -> Z -> option (X + R)) (x : X) (l : list Z) : option (X + R) :=
  match l with
  | [] => Some (inl x)
  | i :: l => r ← body x i; match r with inl x => for_early body x l | inr r => Some (inr r) end
  end.

Section Flash.
Context (flash : flash_map).
Definition read_u8 (p : Z) : option Z :=
  if (0 <=? p) && (p <? fm_size flash) then Some (u8 (fm_byte flash p)) else None.
Definition read_u16 (data : Z) : option Z :=
  b0 ← read_u8 data; b1 ← read_u8 (data + 1); Some (b0 .| b1 .<< 8).
Definition read_u32 (data : Z) : option Z :=
  b0 ← read_u8 data; b1 ← read_u8 (data + 1); b2 ← read_u8 (data + 2); b3 ← read_u8 (data + 3);
  Some (b0 .| b1 .<< 8 .| b2 .<< 16 .| b3 .<< 24).

Definition partition_header_matches (header size : Z) (name : list Z) : option bool :=
  r ← for_early (fun _ i => b ← read_u8 (header + i);
        Some (if b !=? nth (Z.to_nat i) name 0 then inr false else inl tt)) tt (seqZ 0 8);
  match r with
  | inr r => Some r
  | inl _ =>
      reserved ← read_u16 (header + 10);
      if reserved !=? 0 then Some false
      else
        marker ← read_u32 (header + 12);
        if marker !=? EEPROM_PARTITION_MARKER then Some false
        else
          r ← for_early (fun _ i => b ← read_u8 (header + i);
                Some (if b !=? 0xFF then inr false else inl tt)) tt
                (seqZ EEPROM_SG_HEADER_SIZE (size - EEPROM_SG_HEADER_SIZE));
          Some (match r with inr r => r | inl _ => true end)
  end.

Definition metadata_size_of (version : Z) : Z :=
  if ((version .& EEPROM_EEFULL_EXTENDED_VERSION_FLAG) !=? 0) && (version !=? 0xFF)
  then EEPROM_EEFULL_EXTENDED_METADATA_SIZE else EEPROM_EEFULL_METADATA_SIZE.

Definition decode_sg_block (partition : eeprom_partition) (type entry : Z) (block : eeprom_block) :
    option (eeprom_result * eeprom_block) :=
  stored_size ← read_u32 (entry + 8);
  offset ← read_u32 (entry + 12);
  if stored_size ==? 0 then Some (EEPROM_RESULT_INVALID, block)
  else if p_size partition <=? offset then Some (EEPROM_RESULT_INVALID, block)
  else if p_size partition - offset <? stored_size then Some (EEPROM_RESULT_INVALID, block)
  else if type ==? EEPROM_PARTITION_EEFULL then
    version ← read_u8 (p_data partition + offset);
    let metadata_size := metadata_size_of version in
    if stored_size <? metadata_size then Some (EEPROM_RESULT_INVALID, block)
    else Some (EEPROM_RESULT_OK,
               set_meta (stored_size - metadata_size) version
                 (set_data (InFlash (p_data partition + offset + 1)) block))
  else
    let size := stored_size - 1 in
    version ← read_u8 (p_data partition + (offset + size));
    Some (EEPROM_RESULT_OK,
          set_meta size version (set_data (InFlash (p_data partition + offset)) block)).

Definition copy_nsg_inline_block (partition : eeprom_partition) (stored_offset source_offset size : Z)
    (block : eeprom_block) : option (eeprom_result * eeprom_block) :=
  if EEPROM_BLOCK_INLINE_CAPACITY <? size then Some (EEPROM_RESULT_INVALID, block)
  else
    r ← for_early (fun block i =>
          let offset := nsg_data_byte_offset stored_offset (source_offset + i) in
          if p_size partition <=? offset then Some (inr block)
          else
            b ← read_u8 (p_data partition + offset);
            Some (inl (set_inline (<[Z.to_nat i := b]> (b_inline block)) block))) block (seqZ 0 size);
    Some (match r with
          | inr block => (EEPROM_RESULT_INVALID, block)
          | inl block => (EEPROM_RESULT_OK, set_data Inline block)
          end).

(** Where a NSG block is stored: [Some (offset, inline)], or [None] when the entry is not valid. *)
Definition nsg_stored_offset (partition : eeprom_partition) (is_inline : bool) (stored_size entry_offset entry : Z) :
    option (option Z) :=
  if is_inline then
    let reserved_size :=
      u32 (EEPROM_NSG_DATA_CHUNK_SIZE + stored_size + (stored_size .& not32 (EEPROM_NSG_DATA_CHUNK_SIZE - 1))) in
    Some (if entry_offset <? reserved_size then None else Some (align_nsg_data_offset (entry_offset - reserved_size)))
  else
    stored_offset ← read_u32 (entry + 12);
    Some (if p_size partition <=? stored_offset then None
          else if p_size partition - stored_offset <? stored_size then None
          else Some stored_offset).
Definition decode_nsg_block (partition : eeprom_partition) (type entry_offset entry : Z) (block : eeprom_block) :
    option (eeprom_result * eeprom_block) :=
  let full := type ==? EEPROM_PARTITION_EEFULL in
  stored_size ← (if full then read_u32 (entry + 8) else read_u16 (entry + 8));
  if stored_size ==? 0 then Some (EEPROM_RESULT_INVALID, block)
  else
    let inline_limit := if full then EEPROM_NSG_EEFULL_INLINE_MAX else EEPROM_NSG_EELITE_INLINE_MAX in
    let is_inline := stored_size <=? inline_limit in
    so ← nsg_stored_offset partition is_inline stored_size entry_offset entry;
    match so with
    | None => Some (EEPROM_RESULT_INVALID, block)
    | Some stored_offset =>
        if full then
          let version_offset := if is_inline then nsg_data_byte_offset stored_offset 0 else stored_offset in
          if p_size partition <=? version_offset then Some (EEPROM_RESULT_INVALID, block)
          else
            version ← read_u8 (p_data partition + version_offset);
            let metadata_size := metadata_size_of version in
            if stored_size <? metadata_size then Some (EEPROM_RESULT_INVALID, block)
            else
              let block := set_meta (stored_size - metadata_size) version block in
              if is_inline then copy_nsg_inline_block partition stored_offset 1 (b_size block) block
              else Some (EEPROM_RESULT_OK, set_data (InFlash (p_data partition + stored_offset + 1)) block)
        else
          version ← read_u8 (entry + 7);
          let block := set_meta stored_size version block in
          if is_inline then copy_nsg_inline_block partition stored_offset 0 (b_size block) block
          else Some (EEPROM_RESULT_OK, set_data (InFlash (p_data partition + stored_offset)) block)
    end.

(** One entry of the table; the state of the search is [*matched] and [*block]. *)
Definition block_step (partition : eeprom_partition) (type block_id entry_size : Z)
    (st : bool * eeprom_block) (number : Z) :
    option (bool * eeprom_block + eeprom_result * (bool * eeprom_block)) :=
  let '(matched, block) := st in
  let sg := match p_layout partition with EEPROM_LAYOUT_SG => true | EEPROM_LAYOUT_NSG => false end in
  let offset := u32 (p_size partition - u32 (entry_size * number)) in
  let offset := if sg then offset else u32 (offset - entry_size) in
  let entry := p_data partition + offset in
  word ← read_u32 entry;
  let state := word .& EEPROM_ENTRY_STATE_MASK in
  if negb (is_entry_state_valid state) then
    Some (if sg then inr (EEPROM_RESULT_INVALID, st) else inl st)
  else if sg && (state ==? EEPROM_ENTRY_FREE) then
    Some (inr (if matched : bool then EEPROM_RESULT_OK else EEPROM_RESULT_BLOCK_NOT_FOUND, st))
  else if state !=? EEPROM_ENTRY_VALID then Some (inl st)
  else
    entry_block_id ← (if negb sg && (type ==? EEPROM_PARTITION_EELITE) then read_u16 (entry + 4)
                      else read_u32 (entry + 4));
    let maximum_id := if type ==? EEPROM_PARTITION_EELITE then EEPROM_EEFULL_BLOCK_ID_BASE - 1
                      else 0xFFFFFFFF - EEPROM_EEFULL_BLOCK_ID_BASE in
    if maximum_id <? entry_block_id then
      Some (if sg then inr (EEPROM_RESULT_INVALID, st) else inl st)
    else
      let entry_block_id :=
        if type ==? EEPROM_PARTITION_EEFULL then u32 (entry_block_id + EEPROM_EEFULL_BLOCK_ID_BASE)
        else entry_block_id in
      if entry_block_id !=? block_id then Some (inl st)
      else
        '(result, block) ← (if sg then decode_sg_block partition type entry block
                             else decode_nsg_block partition type offset entry block);
        let st := (true, block) in
        Some (match result with
              | EEPROM_RESULT_OK => if sg then inr (EEPROM_RESULT_OK, st) else inl st
              | _ => inr (result, st)
              end).
(** After the loop. *)
Definition table_end (r : bool * eeprom_block + eeprom_result * (bool * eeprom_block)) :
    eeprom_result * (bool * eeprom_block) :=
  match r with
  | inr r => r
  | inl st => (if fst st then EEPROM_RESULT_OK else EEPROM_RESULT_BLOCK_NOT_FOUND, st)
  end.
Definition find_partition_block (partition : eeprom_partition) (type block_id : Z) (block : eeprom_block) :
    option (eeprom_result * (bool * eeprom_block)) :=
  let entry_size := match p_layout partition with
                    | EEPROM_LAYOUT_NSG => EEPROM_NSG_EIT_ENTRY_SIZE
                    | EEPROM_LAYOUT_SG => EEPROM_SG_EIT_ENTRY_SIZE
                    end in
  let entry_count := u32 (p_size partition / entry_size - 1) in
  r ← for_early (block_step partition type block_id entry_size) (false, block) (seqZ 1 entry_count);
  Some (table_end r).

(** The partition that a 64K block of the flash starts (SG) or ends (NSG). *)
Definition partition_at (type offset : Z) : option (option eeprom_partition) :=
  let name := EEPROM_PARTITION_NAMES type in
  let sg_partition_fits := (EEPROM_SG_PARTITION_SIZE <=? fm_size flash) &&
    (offset <=? u32 (fm_size flash - EEPROM_SG_PARTITION_SIZE)) in
  sg ← (if sg_partition_fits then partition_header_matches offset EEPROM_SG_HEADER_SIZE name else Some false);
  if sg : bool then Some (Some (Partition offset EEPROM_SG_PARTITION_SIZE EEPROM_LAYOUT_SG))
  else
    let header := offset + EEPROM_PARTITION_BLOCK_SIZE - EEPROM_NSG_HEADER_SIZE in
    let can_be_nsg_partition := EEPROM_PARTITION_BLOCK_SIZE * 3 <=? offset in
    nsg ← (if can_be_nsg_partition then partition_header_matches header EEPROM_NSG_HEADER_SIZE name else Some false);
    Some (if nsg : bool then
            Some (Partition (offset - EEPROM_PARTITION_BLOCK_SIZE * 3) EEPROM_NSG_PARTITION_SIZE EEPROM_LAYOUT_NSG)
          else None).
(** After the search of one partition. *)
Definition partition_end (r : eeprom_result * (bool * eeprom_block)) :
    bool * (bool * eeprom_block) + eeprom_result * (bool * (bool * eeprom_block)) :=
  let '(result, st) := r in
  match result with
  | EEPROM_RESULT_INVALID => inr (result, (true, st))
  | _ => if fst st : bool then inr (EEPROM_RESULT_OK, (true, st)) else inl (true, st)
  end.
(** The state of the search over the flash: [*partition_found], [*matched], [*block]. *)
Definition flash_step (type block_id : Z) (st : bool * (bool * eeprom_block)) (block_index : Z) :
    option (bool * (bool * eeprom_block) + eeprom_result * (bool * (bool * eeprom_block))) :=
  let '(partition_found, (matched, block)) := st in
  p ← partition_at type (u32 (block_index * EEPROM_PARTITION_BLOCK_SIZE));
  match p with
  | None => Some (inl st)
  | Some partition =>
      r ← find_partition_block partition type block_id block;
      Some (partition_end r)
  end.
Definition flash_end (r : bool * (bool * eeprom_block) + eeprom_result * (bool * (bool * eeprom_block))) :
    eeprom_result * (bool * (bool * eeprom_block)) :=
  match r with inr r => r | inl st => (EEPROM_RESULT_BLOCK_NOT_FOUND, st) end.
Definition find_flash_block (type block_id : Z) (block : eeprom_block) :
    option (eeprom_result * (bool * (bool * eeprom_block))) :=
  let flash_block_count := fm_size flash / EEPROM_PARTITION_BLOCK_SIZE in
  r ← for_early (flash_step type block_id) (false, (false, block)) (seqZ 0 flash_block_count);
  Some (flash_end r).
End Flash.

(** [data] and [block] are null pointers when [None]. *)
Definition eeprom_find_block_in_memory (data : option (Z -> Z)) (size type block_id : Z) (block : option eeprom_block) :
    option (eeprom_result * option eeprom_block) :=
  if EEPROM_PARTITION_COUNT <=? u32 type then Some (EEPROM_RESULT_INVALID, block)
  else match data, block with
  | Some data, Some block =>
      '(result, (partition_found, (matched, block))) ←
        find_flash_block (FlashMap data size) type block_id block;
      Some (match result with
            | EEPROM_RESULT_INVALID => result
            | _ => if matched : bool then result
                   else if partition_found : bool then EEPROM_RESULT_BLOCK_NOT_FOUND
                   else EEPROM_RESULT_PARTITION_NOT_FOUND
            end, Some block)
  | _, _ => Some (EEPROM_RESULT_INVALID, block)
  end.

Section Code.
Context {D A : Type} `{!Device D}.
#[local] Abbreviation M := (M D A).

(** One chip select of the external bus. *)
Definition flash_window (address_select buscon flash_size : Z) : Z :=
  let address_generation := buscon .& EBU_BUSCON_AGEN in
  let is_sdram := (address_generation ==? EBU_BUSCON_AGEN_SDRAM_0) || (address_generation ==? EBU_BUSCON_AGEN_SDRAM_1) in
  let mask := (address_select .& EBU_ADDRSEL_MASK) .>> EBU_ADDRSEL_MASK_SHIFT in
  let base := address_select .& EBU_ADDRSEL_BASE in
  if (address_select .& EBU_ADDRSEL_REGENAB) ==? 0 then flash_size
  else if is_sdram then flash_size
  else if FLASH_WINDOW_MAX_EXPONENT <? mask then flash_size
  else if (base <? FLASH_ADDRESS_MIN) || (FLASH_ADDRESS_MAX <=? base) then flash_size
  else
    let size := u32 (1 .<< (FLASH_WINDOW_MAX_EXPONENT - mask)) in
    if FLASH_ADDRESS_MAX - base <? size then flash_size
    else
      let window_end := u32 (base + size) in
      let mapped_size := u32 (window_end - FLASH_ADDRESS_MIN) in
      if flash_size <? mapped_size then mapped_size else flash_size.
Definition find_flash_size : M Z :=
  foldM (fun flash_size chip_select =>
    address_select ← rd32 (EBU_ADDRSEL chip_select);
    buscon ← rd32 (EBU_BUSCON chip_select);
    mret (flash_window address_select buscon flash_size)) 0 (seqZ 0 EBU_CHIP_SELECT_COUNT).

(** The flash is memory: the image is what memory holds from [FLASH_ADDRESS_MIN] on. *)
Definition eeprom_find_block (type block_id : Z) (block : option eeprom_block) :
    M (eeprom_result * option eeprom_block) :=
  flash_size ← find_flash_size;
  if flash_size ==? 0 then mret (EEPROM_RESULT_FLASH_NOT_MAPPED, block)
  else fun _ w =>
    match eeprom_find_block_in_memory (Some (fun o => mem_get (w_mem w) (FLASH_ADDRESS_MIN + o)))
            flash_size type block_id block with
    | Some r => Done r w
    | None => Stop (OutOfBounds (FLASH_ADDRESS_MIN + flash_size)) w
    end.
End Code.

(** ** No flash image makes the parser leave the image *)

Lemma for_early_inv {X R} (body : X -> Z -> option (X + R)) (J : X -> Prop) (Q : R -> Prop) l x :
  J x -> (forall i x, i ∈ l -> J x ->
    exists r, body x i = Some r /\ match r with inl x' => J x' | inr r => Q r end) ->
  exists r, for_early body x l = Some r /\ match r with inl x' => J x' | inr r => Q r end.
Proof.
  revert x. induction l as [|i l IH]; intros x Hx Hb; [by exists (inl x)|].
  destruct (Hb i x ltac:(by left) Hx) as (r & E & Hr). simpl. rewrite E. simpl. destruct r as [x'|r]; [|by exists (inr r)].
  apply IH; [done|]. intros j y Hj. apply Hb. by right.
Qed.

Section Safe.
Context (flash : flash_map) (Hsize : is_u32 (fm_size flash)).
#[local] Abbreviation inside p n := (0 <= p /\ p + n <= fm_size flash).

Lemma read_u8_ok p : inside p 1 -> exists b, read_u8 flash p = Some b /\ is_byte b.
Proof.
  intros Hp. unfold read_u8. destruct (Z.leb_spec 0 p), (Z.ltb_spec p (fm_size flash)); try lia.
  eexists. split; [done|apply u8_range].
Qed.
Lemma shifted_byte b k : is_byte b -> 0 <= k -> 0 <= b .<< (8 * k) < 2 ^ (8 * (k + 1)).
Proof.
  intros Hb Hk. rewrite Z.shiftl_mul_pow2 by lia. replace (8 * (k + 1)) with (8 + 8 * k) by lia.
  rewrite Z.pow_add_r by lia. change (2 ^ 8) with 256. unfold is_byte in Hb.
  assert (0 < 2 ^ (8 * k)) by (apply Z.pow_pos_nonneg; lia). nia.
Qed.
Lemma read_u16_ok p : inside p 2 -> exists v, read_u16 flash p = Some v /\ 0 <= v < 0x10000.
Proof.
  intros Hp. unfold read_u16. destruct (read_u8_ok p) as (b0 & -> & H0); [lia|].
  destruct (read_u8_ok (p + 1)) as (b1 & -> & H1); [lia|]. simpl. eexists. split; [done|].
  apply (lor_range 16); [lia|unfold is_byte in *; lia|apply (shifted_byte b1 1); [done|lia]].
Qed.
Lemma read_u32_ok p : inside p 4 -> exists v, read_u32 flash p = Some v /\ is_u32 v.
Proof.
  intros Hp. unfold read_u32. destruct (read_u8_ok p) as (b0 & -> & H0); [lia|].
  destruct (read_u8_ok (p + 1)) as (b1 & -> & H1); [lia|]. destruct (read_u8_ok (p + 2)) as (b2 & -> & H2); [lia|].
  destruct (read_u8_ok (p + 3)) as (b3 & -> & H3); [lia|]. simpl. eexists. split; [done|].
  assert (0 <= b1 .<< 8 < 2 ^ 16) by exact (shifted_byte b1 1 H1 ltac:(lia)).
  assert (0 <= b2 .<< 16 < 2 ^ 24) by exact (shifted_byte b2 2 H2 ltac:(lia)).
  assert (0 <= b3 .<< 24 < 2 ^ 32) by exact (shifted_byte b3 3 H3 ltac:(lia)). unfold is_byte in *.
  apply (lor_range 32); [lia| |lia]. apply (lor_range 32); [lia| |lia]. apply (lor_range 32); lia.
Qed.

Lemma header_ok p size name : 16 <= size -> inside p size ->
  exists b, partition_header_matches flash p size name = Some b.
Proof.
  intros Hs Hp. unfold partition_header_matches.
  edestruct (for_early_inv (R := bool) (fun _ i => b ← read_u8 flash (p + i);
    Some (if b !=? nth (Z.to_nat i) name 0 then inr false else inl tt)) (fun _ => True) (fun _ => True) (seqZ 0 8) tt)
    as (r & -> & _); [done| |].
  { intros i [] Hi _. apply elem_of_seqZ in Hi. destruct (read_u8_ok (p + i)) as (b & -> & _); [lia|].
    eexists. split; [done|]. by destruct (b !=? _). }
  destruct r as [[]|r]; [|by exists r]. simpl.
  destruct (read_u16_ok (p + 10)) as (v & -> & _); [lia|]. simpl. destruct (v !=? 0); [by eexists|].
  destruct (read_u32_ok (p + 12)) as (v' & -> & _); [lia|]. simpl. destruct (v' !=? _); [by eexists|].
  edestruct (for_early_inv (R := bool) (fun _ i => b ← read_u8 flash (p + i);
    Some (if b !=? 0xFF then inr false else inl tt)) (fun _ => True) (fun _ => True)
    (seqZ EEPROM_SG_HEADER_SIZE (size - EEPROM_SG_HEADER_SIZE)) tt) as (r & -> & _); [done| |by eexists].
  intros i [] Hi _. apply elem_of_seqZ in Hi. unfold EEPROM_SG_HEADER_SIZE in Hi.
  destruct (read_u8_ok (p + i)) as (b & -> & _); [lia|]. eexists. split; [done|]. by destruct (b !=? _).
Qed.

(** A partition inside the image, and a block inside the partition or in [inline_data]. *)
Definition partition_ok (p : eeprom_partition) : Prop :=
  inside (p_data p) (p_size p) /\
  p_size p = match p_layout p with
             | EEPROM_LAYOUT_SG => EEPROM_SG_PARTITION_SIZE | EEPROM_LAYOUT_NSG => EEPROM_NSG_PARTITION_SIZE end.
Definition inline_ok (b : eeprom_block) : Prop := length (b_inline b) = 512%nat.
Definition block_ok (b : eeprom_block) : Prop :=
  inline_ok b /\ 0 <= b_size b /\
  match b_data b with
  | Some (InFlash o) => inside o (b_size b)
  | Some Inline => b_size b <= EEPROM_BLOCK_INLINE_CAPACITY
  | None => False
  end.
Definition result_ok (r : eeprom_result * eeprom_block) : Prop :=
  inline_ok (snd r) /\ (fst r = EEPROM_RESULT_OK -> block_ok (snd r)) /\
  (fst r = EEPROM_RESULT_OK \/ fst r = EEPROM_RESULT_INVALID).

Lemma refused b : inline_ok b -> result_ok (EEPROM_RESULT_INVALID, b).
Proof. intros H. split; [done|]. split; [done|by right]. Qed.
Lemma accepted b : block_ok b -> result_ok (EEPROM_RESULT_OK, b).
Proof. intros H. split; [apply H|]. split; [done|by left]. Qed.
Lemma metadata_size_cases v : metadata_size_of v = 1 \/ metadata_size_of v = 6.
Proof. unfold metadata_size_of. destruct (_ && _); [by right|by left]. Qed.

Lemma decode_sg_ok p type offset b : partition_ok p -> 0 <= offset -> offset + 16 <= p_size p -> inline_ok b ->
  exists r, decode_sg_block flash p type (p_data p + offset) b = Some r /\ result_ok r.
Proof.
  intros [Hp Hl] Ho1 Ho2 Hb. unfold decode_sg_block.
  destruct (read_u32_ok (p_data p + offset + 8)) as (st & -> & Hst); [lia|].
  destruct (read_u32_ok (p_data p + offset + 12)) as (o & -> & Hoff); [lia|]. simpl.
  destruct (Z.eqb_spec st 0); [eexists; split; [done|by apply refused]|].
  destruct (Z.leb_spec (p_size p) o); [eexists; split; [done|by apply refused]|].
  destruct (Z.ltb_spec (p_size p - o) st); [eexists; split; [done|by apply refused]|].
  unfold is_u32 in Hst, Hoff. destruct (type ==? EEPROM_PARTITION_EEFULL).
  - destruct (read_u8_ok (p_data p + o)) as (v & -> & _); [lia|]. simpl.
    destruct (Z.ltb_spec st (metadata_size_of v)); (eexists; split; [done|]); [by apply refused|].
    apply accepted. split; [done|]. simpl.
    destruct (metadata_size_cases v) as [Em|Em]; rewrite Em in *; lia.
  - destruct (read_u8_ok (p_data p + (o + (st - 1)))) as (v & -> & _); [lia|]. simpl.
    eexists. split; [done|]. apply accepted. split; [done|]. simpl. lia.
Qed.

Lemma copy_inline_ok p so src size b : partition_ok p -> 0 <= size -> inline_ok b -> b_size b = size ->
  exists r, copy_nsg_inline_block flash p so src size b = Some r /\ result_ok r.
Proof.
  intros [Hp Hl] Hs Hb Hbs. unfold copy_nsg_inline_block, EEPROM_BLOCK_INLINE_CAPACITY.
  destruct (Z.ltb_spec 512 size); [eexists; split; [done|by apply refused]|].
  match goal with |- context [for_early ?body b ?l] =>
    edestruct (for_early_inv body (fun b' => inline_ok b' /\ b_size b' = size) inline_ok l b) as (r & -> & Hr) end; [done| |].
  - intros i b' Hi [Hb' Hs']. apply elem_of_seqZ in Hi. cbv zeta.
    assert (0 <= nsg_data_byte_offset so (src + i)) by apply u32_range.
    destruct (Z.leb_spec (p_size p) (nsg_data_byte_offset so (src + i))); [by eexists|].
    destruct (read_u8_ok (p_data p + nsg_data_byte_offset so (src + i))) as (v & -> & _); [lia|].
    eexists. split; [done|]. split; [|exact Hs']. unfold inline_ok, set_inline. simpl. by rewrite length_insert.
  - eexists. split; [done|]. destruct r as [b'|b']; [|by apply refused]. destruct Hr as [Hr1 Hr2].
    apply accepted. split; [done|]. simpl. unfold EEPROM_BLOCK_INLINE_CAPACITY. lia.
Qed.

Lemma nsg_offset_ok p inl st offset : partition_ok p -> 0 <= offset -> offset + 32 <= p_size p -> is_u32 st ->
  exists so, nsg_stored_offset flash p inl st offset (p_data p + offset) = Some so /\
    match so with Some so => 0 <= so /\ (inl = false -> so + st <= p_size p) | None => True end.
Proof.
  intros [Hp Hl] Ho1 Ho2 Hst. unfold nsg_stored_offset. destruct inl.
  - set (reserved := u32 _). eexists. split; [done|]. destruct (Z.ltb_spec offset reserved); [done|].
    split; [|done]. unfold align_nsg_data_offset. destruct (_ ==? 0); [lia|apply u32_range].
  - destruct (read_u32_ok (p_data p + offset + 12)) as (so & -> & Hso); [lia|]. simpl.
    unfold is_u32 in Hst, Hso.
    destruct (Z.leb_spec (p_size p) so); [by eexists|]. destruct (Z.ltb_spec (p_size p - so) st); [by eexists|].
    eexists. split; [done|]. (split; [lia|intros _; lia]).
Qed.
Lemma decode_nsg_ok p type offset b : partition_ok p -> 0 <= offset -> offset + 32 <= p_size p -> inline_ok b ->
  exists r, decode_nsg_block flash p type offset (p_data p + offset) b = Some r /\ result_ok r.
Proof.
  intros Hok Ho1 Ho2 Hb. pose proof Hok as [Hp Hl]. unfold decode_nsg_block. cbv zeta.
  set (full := type ==? EEPROM_PARTITION_EEFULL).
  assert (exists st, (if full then read_u32 flash (p_data p + offset + 8) else read_u16 flash (p_data p + offset + 8)) = Some st
    /\ is_u32 st) as (st & -> & Hst).
  { destruct full; [apply read_u32_ok; lia|]. destruct (read_u16_ok (p_data p + offset + 8)) as (v & -> & Hv); [lia|].
    eexists. split; [done|]. unfold is_u32. lia. }
  simpl. destruct (Z.eqb_spec st 0); [eexists; split; [done|by apply refused]|].
  set (inl := st <=? _). destruct (nsg_offset_ok p inl st offset Hok Ho1 Ho2 Hst) as (so & -> & Hso). simpl.
  destruct so as [so|]; [|eexists; split; [done|by apply refused]]. destruct Hso as [Hso Hfit].
  unfold is_u32 in Hst. destruct full.
  - set (vo := if inl then _ else so). assert (0 <= vo) by (unfold vo; destruct inl; [apply u32_range|lia]).
    destruct (Z.leb_spec (p_size p) vo); [eexists; split; [done|by apply refused]|].
    destruct (read_u8_ok (p_data p + vo)) as (v & -> & _); [lia|]. simpl.
    destruct (Z.ltb_spec st (metadata_size_of v)); [eexists; split; [done|by apply refused]|].
    destruct inl; [apply copy_inline_ok; [done|lia|done|done]|].
    specialize (Hfit eq_refl). eexists. split; [done|]. apply accepted. split; [done|]. simpl.
    destruct (metadata_size_cases v) as [Em|Em]; rewrite Em in *; lia.
  - destruct (read_u8_ok (p_data p + offset + 7)) as (v & -> & _); [lia|]. simpl.
    destruct inl; [apply copy_inline_ok; [done|lia|done|done]|].
    specialize (Hfit eq_refl). eexists. split; [done|]. apply accepted. split; [done|]. simpl. lia.
Qed.

(** The search state: once matched, the block is a good one. *)
Definition search_ok (st : bool * eeprom_block) : Prop := inline_ok (snd st) /\ (fst st = true -> block_ok (snd st)).
Definition found_ok (r : eeprom_result * (bool * eeprom_block)) : Prop :=
  inline_ok (snd (snd r)) /\ (fst r = EEPROM_RESULT_OK -> block_ok (snd (snd r))) /\
  (fst (snd r) = true -> fst r <> EEPROM_RESULT_INVALID -> fst r = EEPROM_RESULT_OK).

Lemma block_step_ok p type id st n : partition_ok p -> search_ok st ->
  let es := match p_layout p with EEPROM_LAYOUT_NSG => 32 | EEPROM_LAYOUT_SG => 16 end in
  1 <= n <= p_size p / es - 1 ->
  exists r, block_step flash p type id es st n = Some r /\
    match r with inl st' => search_ok st' | inr r => found_ok r end.
Proof.
  intros Hok Hst es Hn. pose proof Hok as [Hp Hl]. destruct st as [m b]. destruct Hst as [Hb Hm]. cbn [fst snd] in *.
  unfold block_step. set (sg := match p_layout p with EEPROM_LAYOUT_SG => true | EEPROM_LAYOUT_NSG => false end).
  assert (exists offset, (if sg then u32 (p_size p - u32 (es * n)) else u32 (u32 (p_size p - u32 (es * n)) - es)) = offset /\
    0 <= offset /\ offset + es <= p_size p) as (offset & -> & Ho1 & Ho2).
  { eexists. split; [done|]. subst es sg. unfold EEPROM_SG_PARTITION_SIZE, EEPROM_NSG_PARTITION_SIZE, EEPROM_PARTITION_BLOCK_SIZE in Hl.
    destruct (p_layout p); rewrite Hl in *.
    - change (65536 * 2 / 16) with 8192 in Hn. rewrite (u32_small (16 * n)), u32_small by (unfold is_u32; lia). lia.
    - change (65536 * 4 / 32) with 8192 in Hn.
      rewrite (u32_small (32 * n)), (u32_small (65536 * 4 - 32 * n)), u32_small by (unfold is_u32; lia). lia. }
  assert (16 <= es) by (subst es; destruct (p_layout p); lia). cbv zeta.
  destruct (read_u32_ok (p_data p + offset)) as (word & -> & _); [lia|]. simpl.
  assert (search_ok (m, b)) as Hst by by split.
  destruct (negb _); [eexists; split; [done|]; destruct sg; [by split_and!|done]|].
  destruct (sg && _); [eexists; split; [done|]; destruct m; (split; [done|]); split; [by intros _; apply Hm|done|done|done]|].
  destruct (_ !=? EEPROM_ENTRY_VALID); [by eexists|].
  assert (exists eid, (if negb sg && (type ==? EEPROM_PARTITION_EELITE) then read_u16 flash (p_data p + offset + 4)
    else read_u32 flash (p_data p + offset + 4)) = Some eid) as (eid & ->).
  { destruct (_ && _).
    - destruct (read_u16_ok (p_data p + offset + 4)) as (v & -> & _); [lia|]. by eexists.
    - destruct (read_u32_ok (p_data p + offset + 4)) as (v & -> & _); [lia|]. by eexists. }
  simpl. destruct (_ <? eid); [eexists; split; [done|]; destruct sg; [by split_and!|done]|].
  destruct (_ !=? id); [by eexists|].
  assert (exists r, (if sg then decode_sg_block flash p type (p_data p + offset) b
    else decode_nsg_block flash p type offset (p_data p + offset) b) = Some r /\ result_ok r) as ([res b'] & -> & Hr1 & Hr2 & Hr3).
  { subst sg es. destruct (p_layout p); [apply decode_sg_ok|apply decode_nsg_ok]; done. }
  simpl in *. destruct Hr3 as [-> | ->]; (eexists; split; [done|]);
    [destruct sg; (split; [done|]); auto|]; split; [done|]; by split.
Qed.
Lemma find_partition_block_ok p type id b : partition_ok p -> inline_ok b ->
  exists r, find_partition_block flash p type id b = Some r /\ found_ok r.
Proof.
  intros Hok Hb. unfold find_partition_block. pose proof (proj2 Hok) as Hl.
  set (es := match p_layout p with EEPROM_LAYOUT_NSG => EEPROM_NSG_EIT_ENTRY_SIZE | EEPROM_LAYOUT_SG => EEPROM_SG_EIT_ENTRY_SIZE end).
  assert (u32 (p_size p / es - 1) = p_size p / es - 1) as ->.
  { subst es. rewrite Hl. by destruct (p_layout p). }
  edestruct (for_early_inv (block_step flash p type id es) search_ok found_ok (seqZ 1 (p_size p / es - 1)) (false, b))
    as (r & -> & Hr); [by split| |].
  - intros n st Hn Hst. apply elem_of_seqZ in Hn. subst es.
    pose proof (block_step_ok p type id st n Hok Hst) as Hstep. cbv zeta in Hstep.
    unfold EEPROM_NSG_EIT_ENTRY_SIZE, EEPROM_SG_EIT_ENTRY_SIZE in *. apply Hstep. lia.
  - simpl. eexists. split; [done|]. destruct r as [[m b']|r]; [|exact Hr]. destruct Hr as [H1 H2]. cbn [table_end fst snd] in *.
    destruct m; (split; [done|]); split; auto; done.
Qed.

(** A partition found in the image is inside it. *)
Lemma partition_at_ok type i : 0 <= i < fm_size flash / EEPROM_PARTITION_BLOCK_SIZE ->
  exists r, partition_at flash type (u32 (i * EEPROM_PARTITION_BLOCK_SIZE)) = Some r /\
    match r with Some p => partition_ok p | None => True end.
Proof.
  intros Hi. unfold EEPROM_PARTITION_BLOCK_SIZE in *. pose proof Hsize as Hs. unfold is_u32 in Hs.
  assert (i * 0x10000 + 0x10000 <= fm_size flash).
  { pose proof (Z.mul_div_le (fm_size flash) 0x10000 ltac:(lia)). lia. }
  rewrite u32_small by (unfold is_u32; lia).
  unfold partition_at, EEPROM_SG_PARTITION_SIZE, EEPROM_PARTITION_BLOCK_SIZE. cbv zeta.
  set (fits := (0x10000 * 2 <=? fm_size flash) && (i * 0x10000 <=? u32 (fm_size flash - 0x10000 * 2))).
  assert (fits = true -> i * 0x10000 + 0x20000 <= fm_size flash) as Hfits.
  { intros E. apply andb_prop in E as [E1 E2]. rewrite u32_small in E2 by (unfold is_u32; lia). lia. }
  assert (exists b, (if fits then partition_header_matches flash (i * 0x10000) EEPROM_SG_HEADER_SIZE
    (EEPROM_PARTITION_NAMES type) else Some false) = Some b /\ (b = true -> fits = true)) as (b & -> & Hb).
  { destruct fits; [|by exists false]. destruct (header_ok (i * 0x10000) 16 (EEPROM_PARTITION_NAMES type)) as [b E];
      [lia|lia|]. exists b. by split. }
  simpl. destruct b; [eexists; split; [done|]; specialize (Hfits (Hb eq_refl)); split; [simpl; lia|done]|].
  assert (exists b, (if 0x10000 * 3 <=? i * 0x10000
    then partition_header_matches flash (i * 0x10000 + 0x10000 - EEPROM_NSG_HEADER_SIZE) EEPROM_NSG_HEADER_SIZE
      (EEPROM_PARTITION_NAMES type) else Some false) = Some b /\ (b = true -> 3 <= i)) as (b & -> & Hn).
  { destruct (Z.leb_spec (0x10000 * 3) (i * 0x10000)); [|by exists false].
    destruct (header_ok (i * 0x10000 + 0x10000 - 32) 32 (EEPROM_PARTITION_NAMES type)) as [b E];
      [lia|lia|]. exists b. split; [done|lia]. }
  simpl. destruct b; (eexists; split; [done|]); [|done]. specialize (Hn eq_refl). split; [simpl; unfold EEPROM_NSG_PARTITION_SIZE, EEPROM_PARTITION_BLOCK_SIZE; lia|done].
Qed.

Definition flash_found_ok (r : eeprom_result * (bool * (bool * eeprom_block))) : Prop :=
  inline_ok (snd (snd (snd r))) /\ (fst r = EEPROM_RESULT_OK -> block_ok (snd (snd (snd r)))) /\
  (fst (snd (snd r)) = true -> fst r <> EEPROM_RESULT_INVALID -> fst r = EEPROM_RESULT_OK).
Lemma find_flash_block_ok type id b : inline_ok b ->
  exists r, find_flash_block flash type id b = Some r /\ flash_found_ok r.
Proof.
  intros Hb. unfold find_flash_block.
  edestruct (for_early_inv (flash_step flash type id) (fun st => inline_ok (snd (snd st)) /\ fst (snd st) = false)
    flash_found_ok (seqZ 0 (fm_size flash / EEPROM_PARTITION_BLOCK_SIZE)) (false, (false, b))) as (r & -> & Hr); [by split| |].
  - intros i [pf [m b']] Hi [Hb' Hm]. apply elem_of_seqZ in Hi. cbn [fst snd] in Hb', Hm. unfold flash_step.
    destruct (partition_at_ok type i) as ([p|] & -> & Hp); [lia| |by eexists]. simpl.
    destruct (find_partition_block_ok p type id b' Hp Hb') as ([res [m' b'']] & -> & Hr1 & Hr2 & Hr3).
    simpl. eexists. split; [done|]. cbn [fst snd] in *.
    destruct res, m'; simpl; (split_and!; try done); auto; intros; try (by discriminate Hr3); by (discriminate (Hr3 eq_refl)).
  - simpl. eexists. split; [done|]. destruct r as [[pf [m b']]|r]; [|exact Hr]. destruct Hr as [H1 H2]. cbn [fst snd] in *.
    subst m. by split_and!.
Qed.
End Safe.

Lemma eeprom_find_block_ok flash type id b : is_u32 (fm_size flash) -> inline_ok b ->
  exists result b', eeprom_find_block_in_memory (Some (fm_byte flash)) (fm_size flash) type id (Some b) = Some (result, Some b') /\
    inline_ok b' /\ (result = EEPROM_RESULT_OK -> block_ok flash b').
Proof.
  intros Hs Hb. unfold eeprom_find_block_in_memory. destruct (_ <=? u32 type); [by exists EEPROM_RESULT_INVALID, b|].
  destruct (find_flash_block_ok (FlashMap (fm_byte flash) (fm_size flash)) Hs type id b Hb)
    as ([res [pf [m b']]] & -> & H1 & H2 & H3).
  cbn [fst snd] in *. simpl. eexists _, b'. split; [done|]. split; [done|].
  destruct res, m, pf; try done; auto.
Qed.

(** C25. No flash image makes the EEPROM parser read outside the image, whatever its bytes,
    its size, the type and the block id: the search always ends with a result, and a result
    of OK comes with a block whose bytes are inside the image, or in the 512 bytes of
    [inline_data]. *)
Theorem eeprom_safe flash type id b : is_u32 (fm_size flash) -> inline_ok b ->
  exists result b', eeprom_find_block_in_memory (Some (fm_byte flash)) (fm_size flash) type id (Some b) = Some (result, Some b') /\
    inline_ok b' /\ (result = EEPROM_RESULT_OK -> block_ok flash b').
Proof. apply eeprom_find_block_ok. Qed.
Lemma eeprom_safe_witness :
  let flash := FlashMap (fun _ => 0xFF) 0x40000 in
  exists result b', eeprom_find_block_in_memory (Some (fm_byte flash)) (fm_size flash) EEPROM_PARTITION_EELITE 76
      (Some (EepromBlock None 0 0 (replicate 512 0))) = Some (result, Some b') /\
    inline_ok b' /\ (result = EEPROM_RESULT_OK -> block_ok flash b').
Proof.
  cbv zeta. apply (eeprom_safe (FlashMap (fun _ => 0xFF) 0x40000) EEPROM_PARTITION_EELITE 76
    (EepromBlock None 0 0 (replicate 512 0))); done.
Defined.
