(* ===== verification/EepromTable.v ===== *)
(** * What the search of an EEPROM table finds ([find_partition_block] of [unit/eeprom.c])

    A partition's table as a list of entries, newest last, and the lookup as functions on
    that list: in an SG partition the first entry that is free, damaged or has the id
    decides; in an NSG partition all entries with the id are decoded and the last one
    counts.  [find_partition_block] is this lookup. *)
From S2P Require Import Prelude Machine Board Regs Eeprom.

(** ** The table of a partition *)

(** An entry: its state, the block it is for ([None]: an id outside the partition's range), and
    what its block decodes to, over the caller's previous [struct eeprom_block]. *)
Record entry := Entry { e_state : Z; e_id : option Z; e_decode : eeprom_block -> eeprom_result * eeprom_block }.

Section View.
Context (flash : flash_map) (p : eeprom_partition) (type : Z).
#[local] Abbreviation full := (type ==? EEPROM_PARTITION_EEFULL).
(** Entries grow down from the end of the partition; an NSG partition ends with its header. *)
Definition entry_offset (number : Z) : Z :=
  match p_layout p with
  | EEPROM_LAYOUT_SG => p_size p - EEPROM_SG_EIT_ENTRY_SIZE * number
  | EEPROM_LAYOUT_NSG => p_size p - EEPROM_NSG_EIT_ENTRY_SIZE * (number + 1)
  end.
Definition entry_count : Z :=
  match p_layout p with
  | EEPROM_LAYOUT_SG => p_size p / EEPROM_SG_EIT_ENTRY_SIZE - 1
  | EEPROM_LAYOUT_NSG => p_size p / EEPROM_NSG_EIT_ENTRY_SIZE - 1
  end.
Definition stored_id (a : Z) : Z :=
  default 0 (match p_layout p with
             | EEPROM_LAYOUT_NSG => if full then read_u32 flash (a + 4) else read_u16 flash (a + 4)
             | EEPROM_LAYOUT_SG => read_u32 flash (a + 4)
             end).
(** Blocks below 5000 live in EELITE, the others in EEFULL. *)
Definition block_of (stored : Z) : option Z :=
  if full then if stored + EEPROM_EEFULL_BLOCK_ID_BASE <? 2 ^ 32 then Some (stored + EEPROM_EEFULL_BLOCK_ID_BASE) else None
  else if stored <? EEPROM_EEFULL_BLOCK_ID_BASE then Some stored else None.
Definition entry_at (number : Z) : entry :=
  let a := p_data p + entry_offset number in
  Entry (default 0 (read_u32 flash a) .& EEPROM_ENTRY_STATE_MASK) (block_of (stored_id a))
    (fun b => default (EEPROM_RESULT_INVALID, b)
       match p_layout p with
       | EEPROM_LAYOUT_SG => decode_sg_block flash p type a b
       | EEPROM_LAYOUT_NSG => decode_nsg_block flash p type (entry_offset number) a b
       end).
Definition table : list entry := map entry_at (seqZ 1 entry_count).
End View.

(** ** The lookup *)
Definition is_free (e : entry) : bool := e_state e =? EEPROM_ENTRY_FREE.
Definition is_valid (e : entry) : bool := e_state e =? EEPROM_ENTRY_VALID.
Definition is_for (id : Z) (e : entry) : bool := is_valid e && bool_decide (e_id e = Some id).
Definition is_damaged (e : entry) : bool :=
  negb (is_entry_state_valid (e_state e)) || (is_valid e && bool_decide (e_id e = None)).

(** SG: the first entry that is damaged, free or has the id. *)
Definition sg_lookup (id : Z) (es : list entry) (b : eeprom_block) : eeprom_result * (bool * eeprom_block) :=
  match List.find (fun e => is_damaged e || is_free e || is_for id e) es with
  | None => (EEPROM_RESULT_BLOCK_NOT_FOUND, (false, b))
  | Some e =>
      if is_damaged e then (EEPROM_RESULT_INVALID, (false, b))
      else if is_free e then (EEPROM_RESULT_BLOCK_NOT_FOUND, (false, b))
      else let '(r, b) := e_decode e b in (r, (true, b))
  end.
(** NSG: all entries with the id, each over the one before it; the first that does not decode
    ends the search. *)
Fixpoint decode_all (es : list entry) (st : bool * eeprom_block) : eeprom_result * (bool * eeprom_block) :=
  match es with
  | [] => (if fst st then EEPROM_RESULT_OK else EEPROM_RESULT_BLOCK_NOT_FOUND, st)
  | e :: es =>
      let '(r, b) := e_decode e (snd st) in
      match r with EEPROM_RESULT_OK => decode_all es (true, b) | _ => (r, (true, b)) end
  end.
Definition nsg_lookup (id : Z) (es : list entry) (b : eeprom_block) : eeprom_result * (bool * eeprom_block) :=
  decode_all (List.filter (is_for id) es) (false, b).
Definition lookup_block (layout : eeprom_layout) (id : Z) : list entry -> eeprom_block -> eeprom_result * (bool * eeprom_block) :=
  match layout with EEPROM_LAYOUT_SG => sg_lookup id | EEPROM_LAYOUT_NSG => nsg_lookup id end.

(** ** The loop as a fold over the entries *)
Definition table_step (sg : bool) (id : Z) (st : bool * eeprom_block) (e : entry) :
    bool * eeprom_block + eeprom_result * (bool * eeprom_block) :=
  if negb (is_entry_state_valid (e_state e)) then if sg then inr (EEPROM_RESULT_INVALID, st) else inl st
  else if sg && is_free e then inr (if fst st then EEPROM_RESULT_OK else EEPROM_RESULT_BLOCK_NOT_FOUND, st)
  else if negb (is_valid e) then inl st
  else match e_id e with
       | None => if sg then inr (EEPROM_RESULT_INVALID, st) else inl st
       | Some id' =>
           if negb (id' =? id) then inl st
           else let '(r, b) := e_decode e (snd st) in
                match r with
                | EEPROM_RESULT_OK => if sg then inr (EEPROM_RESULT_OK, (true, b)) else inl (true, b)
                | _ => inr (r, (true, b))
                end
       end.
Fixpoint table_fold (sg : bool) (id : Z) (es : list entry) (st : bool * eeprom_block) : eeprom_result * (bool * eeprom_block) :=
  match es with
  | [] => table_end (inl st)
  | e :: es => match table_step sg id st e with inl st => table_fold sg id es st | inr r => r end
  end.
Lemma table_fold_sg id es b : table_fold true id es (false, b) = sg_lookup id es b.
Proof.
  unfold sg_lookup. induction es as [|e es IH]; [done|]. simpl.
  unfold table_step, is_damaged, is_for, is_free, is_valid in *.
  destruct (is_entry_state_valid (e_state e)) eqn:Ev; simpl; [|by rewrite Ev].
  destruct (Z.eqb_spec (e_state e) EEPROM_ENTRY_FREE) as [Ef|Ef].
  - rewrite Ef. change (EEPROM_ENTRY_FREE =? EEPROM_ENTRY_VALID) with false. simpl. by rewrite Ev, Ef.
  - destruct (Z.eqb_spec (e_state e) EEPROM_ENTRY_VALID) as [Eh|Eh]; simpl; [|exact IH].
    destruct (e_id e) as [id'|] eqn:Ei; simpl; [|by rewrite Ev, Eh, Ei].
    destruct (Z.eqb_spec id' id) as [->|Hne].
    + rewrite bool_decide_eq_true_2 by done. simpl. rewrite Ev, Eh, Ei. simpl.
      destruct (e_decode e b) as [[] b']; done.
    + rewrite bool_decide_eq_false_2 by congruence. exact IH.
Qed.
Lemma table_fold_nsg id es st : table_fold false id es st = decode_all (List.filter (is_for id) es) st.
Proof.
  revert st. induction es as [|e es IH]; intros st; [done|]. simpl. unfold table_step. unfold is_for at 1. unfold is_valid.
  destruct (Z.eqb_spec (e_state e) EEPROM_ENTRY_VALID) as [Eh|Eh]; simpl.
  - rewrite Eh. change (is_entry_state_valid EEPROM_ENTRY_VALID) with true. simpl.
    destruct (e_id e) as [id'|]; simpl; [|apply IH].
    destruct (Z.eqb_spec id' id) as [->|Hne]; simpl.
    + rewrite bool_decide_eq_true_2 by done. simpl. destruct (e_decode e (snd st)) as [[] b']; simpl; auto.
    + rewrite bool_decide_eq_false_2 by congruence. apply IH.
  - destruct (negb _); apply IH.
Qed.
Lemma decode_all_last es st b' : decode_all es st = (EEPROM_RESULT_OK, (true, b')) -> fst st = false ->
  exists e b0, last es = Some e /\ e_decode e b0 = (EEPROM_RESULT_OK, b').
Proof.
  destruct st as [m b]. intros E Hm. cbn [fst] in Hm. subst m. assert (es <> []) as Hne by (intros ->; discriminate E).
  revert E Hne. generalize false. revert b. induction es as [|e es IH]; intros b m E Hne; [done|].
  simpl in E. destruct (e_decode e b) as [r b1] eqn:Ed. destruct r; try discriminate E.
  destruct es as [|e' es]; [simpl in E; injection E as ->; by exists e, b|]. by apply (IH b1 true).
Qed.
Lemma table_fold_lookup sg id es b layout : sg = match layout with EEPROM_LAYOUT_SG => true | EEPROM_LAYOUT_NSG => false end ->
  table_fold sg id es (false, b) = lookup_block layout id es b.
Proof. intros ->. destruct layout; [apply table_fold_sg|apply table_fold_nsg]. Qed.

(** ** The search is the lookup *)
Section Search.
Context (flash : flash_map) (p : eeprom_partition) (Hok : partition_ok flash p)
  (type : Z) (Htype : type = EEPROM_PARTITION_EELITE \/ type = EEPROM_PARTITION_EEFULL) (id : Z).
#[local] Abbreviation sg := (match p_layout p with EEPROM_LAYOUT_SG => true | EEPROM_LAYOUT_NSG => false end).
#[local] Abbreviation entry_size := (match p_layout p with
  EEPROM_LAYOUT_NSG => EEPROM_NSG_EIT_ENTRY_SIZE | EEPROM_LAYOUT_SG => EEPROM_SG_EIT_ENTRY_SIZE end).

Lemma entry_offset_range n : 1 <= n <= entry_count p ->
  0 <= entry_offset p n /\ entry_offset p n + entry_size <= p_size p /\
  (let o := u32 (p_size p - u32 (entry_size * n)) in if sg then o else u32 (o - entry_size)) = entry_offset p n.
Proof.
  destruct Hok as [_ Hl]. unfold entry_offset, entry_count. destruct (p_layout p); rewrite Hl;
    unfold EEPROM_SG_PARTITION_SIZE, EEPROM_NSG_PARTITION_SIZE, EEPROM_PARTITION_BLOCK_SIZE, EEPROM_SG_EIT_ENTRY_SIZE, EEPROM_NSG_EIT_ENTRY_SIZE.
  - change (65536 * 2 / 16) with 8192. intros Hn. cbv zeta. rewrite (u32_small (16 * n)), u32_small by (unfold is_u32; lia). lia.
  - change (65536 * 4 / 32) with 8192. intros Hn. cbv zeta.
    rewrite (u32_small (32 * n)), (u32_small (65536 * 4 - 32 * n)), u32_small by (unfold is_u32; lia). lia.
Qed.
(** The id of an entry, as the loop computes it. *)
Lemma block_of_id stored : 0 <= stored < 2 ^ 32 ->
  let full := type ==? EEPROM_PARTITION_EEFULL in
  let maximum := if type ==? EEPROM_PARTITION_EELITE then EEPROM_EEFULL_BLOCK_ID_BASE - 1 else 0xFFFFFFFF - EEPROM_EEFULL_BLOCK_ID_BASE in
  block_of type stored = if maximum <? stored then None else Some (if full then u32 (stored + EEPROM_EEFULL_BLOCK_ID_BASE) else stored).
Proof.
  intros Hs. unfold block_of, EEPROM_EEFULL_BLOCK_ID_BASE. change (2 ^ 32) with 4294967296 in *.
  destruct Htype as [-> | ->]; cbn [Z.eqb EEPROM_PARTITION_EELITE EEPROM_PARTITION_EEFULL]; cbv zeta;
    repeat match goal with |- context [?x <? ?y] => destruct (Z.ltb_spec x y) end; try lia; try done;
    change (1 =? 1)%positive with true; cbv iota; by rewrite u32_small by (unfold is_u32; lia).
Qed.
Lemma stored_id_read n : 1 <= n <= entry_count p ->
  let a := p_data p + entry_offset p n in
  (if negb sg && (type ==? EEPROM_PARTITION_EELITE) then read_u16 flash (a + 4) else read_u32 flash (a + 4)) =
    Some (stored_id flash p type a) /\ 0 <= stored_id flash p type a < 2 ^ 32.
Proof.
  intros Hn a. destruct (entry_offset_range n Hn) as (Ho1 & Ho2 & _). pose proof Hok as [Hp _].
  assert (16 <= entry_size) by (destruct (p_layout p); by vm_compute). change (2 ^ 32) with 4294967296.
  destruct (read_u16_ok flash (a + 4)) as (v & E2 & H2); [lia|]. destruct (read_u32_ok flash (a + 4)) as (v' & E4 & H4); [lia|].
  unfold is_u32 in H4. unfold stored_id. destruct Htype as [-> | ->], (p_layout p); simpl; rewrite ?E2, ?E4; simpl; (split; [done|lia]).
Qed.
Lemma decode_total n b : 1 <= n <= entry_count p -> inline_ok b ->
  let a := p_data p + entry_offset p n in
  (if sg then decode_sg_block flash p type a b else decode_nsg_block flash p type (entry_offset p n) a b) =
    Some (e_decode (entry_at flash p type n) b) /\ inline_ok (snd (e_decode (entry_at flash p type n) b)).
Proof.
  intros Hn Hb a. destruct (entry_offset_range n Hn) as (Ho1 & Ho2 & _).
  cbn [e_decode entry_at]. fold a. destruct (p_layout p) eqn:El.
  - destruct (decode_sg_ok flash p type (entry_offset p n) b Hok Ho1) as (r & E & Hr & _); [|done|].
    { unfold EEPROM_SG_EIT_ENTRY_SIZE in Ho2. lia. }
    fold a in E. rewrite E. by split.
  - destruct (decode_nsg_ok flash p type (entry_offset p n) b Hok Ho1) as (r & E & Hr & _); [|done|].
    { unfold EEPROM_NSG_EIT_ENTRY_SIZE in Ho2. lia. }
    fold a in E. rewrite E. by split.
Qed.
Lemma block_step_entry st n : 1 <= n <= entry_count p -> inline_ok (snd st) ->
  block_step flash p type id entry_size st n = Some (table_step sg id st (entry_at flash p type n)).
Proof.
  intros Hn Hst. destruct (entry_offset_range n Hn) as (Ho1 & Ho2 & Ho). destruct st as [m b]. cbn [snd] in Hst. pose proof Hok as [Hp _].
  destruct (stored_id_read n Hn) as [Eid Hid]. destruct (decode_total n b Hn Hst) as [Ed _].
  unfold block_step. cbv zeta in Ho, Eid, Ed |- *. rewrite Ho. clear Ho.
  assert (16 <= entry_size) by (destruct (p_layout p); by vm_compute).
  destruct (read_u32_ok flash (p_data p + entry_offset p n)) as (word & Ew & _); [lia|].
  unfold table_step, is_free, is_valid. remember (e_decode (entry_at flash p type n)) as decode eqn:Edec.
  cbn [e_state e_id entry_at fst snd]. rewrite Ew. simpl.
  destruct (is_entry_state_valid _); [cbn [negb]|done]. destruct (sg && (_ ==? EEPROM_ENTRY_FREE)); [done|].
  destruct (_ !=? EEPROM_ENTRY_VALID); [done|]. rewrite Eid. simpl. rewrite block_of_id by exact Hid. cbv zeta. destruct (_ <? stored_id _ _ _ _); [done|].
  destruct (_ !=? id); [done|]. rewrite Ed. simpl. by destruct (decode b) as [[] b'].
Qed.
(** Decoding keeps [inline_data] an array of its size. *)
Lemma table_step_inline st n : 1 <= n <= entry_count p -> inline_ok (snd st) ->
  match table_step sg id st (entry_at flash p type n) with inl st' => inline_ok (snd st') | inr _ => True end.
Proof.
  intros Hn Hst. destruct (decode_total n (snd st) Hn Hst) as [_ Hd]. unfold table_step.
  remember (e_decode (entry_at flash p type n) (snd st)) as d eqn:Ed.
  destruct (is_entry_state_valid _); cbn [negb]; [|by destruct sg]. destruct (sg && _); [done|].
  destruct (is_valid _); cbn [negb]; [|done]. destruct (e_id _) as [id'|]; [|by destruct sg].
  destruct (id' =? id); cbn [negb]; [|done]. destruct d as [[] b']; [by destruct sg|done..].
Qed.
Lemma for_early_table l st : (forall n, n ∈ l -> 1 <= n <= entry_count p) -> inline_ok (snd st) ->
  (r ← for_early (block_step flash p type id entry_size) st l; Some (table_end r)) =
  Some (table_fold sg id (map (entry_at flash p type) l) st).
Proof.
  revert st. induction l as [|n l IH]; intros st Hl Hst; [done|].
  cbn [for_early map table_fold]. rewrite block_step_entry by (first [apply Hl; by left|done]). simpl.
  pose proof (table_step_inline st n (Hl n ltac:(by left)) Hst) as Hin.
  destruct (table_step sg id st (entry_at flash p type n)) as [st'|r]; [|done]. apply IH; [|done].
  intros m Hm. apply Hl. by right.
Qed.
End Search.

(** C31. The search of a partition's table is the lookup on its entries: in an SG partition the
    first entry that is damaged, free or has the id decides the result; in an NSG partition the
    entries with the id are decoded in order, the first that does not decode ends the search
    with its error, and otherwise the last one, the newest, is the block. *)
Theorem find_partition_block_lookup flash p type id b : partition_ok flash p -> inline_ok b ->
  type = EEPROM_PARTITION_EELITE \/ type = EEPROM_PARTITION_EEFULL ->
  find_partition_block flash p type id b = Some (lookup_block (p_layout p) id (table flash p type) b) /\
  (p_layout p = EEPROM_LAYOUT_NSG -> forall b', lookup_block (p_layout p) id (table flash p type) b = (EEPROM_RESULT_OK, (true, b')) ->
     exists e b0, last (List.filter (is_for id) (table flash p type)) = Some e /\ e_decode e b0 = (EEPROM_RESULT_OK, b')).
Proof.
  intros Hok Hb Ht. split.
  - unfold find_partition_block. cbv zeta. rewrite <- (table_fold_lookup _ id _ b _ eq_refl). unfold table.
    rewrite <- (for_early_table flash p Hok type Ht id); [| |done].
    + do 2 f_equal. unfold entry_count. destruct Hok as [_ Hl]. rewrite Hl. by destruct (p_layout p).
    + intros n Hn. apply elem_of_seqZ in Hn. lia.
  - intros El b'. rewrite El. simpl. unfold nsg_lookup. intros E. by apply (decode_all_last _ _ _ E).
Qed.

(** An SG partition with one block, for the witness. *)
Definition one_block_flash : flash_map :=
  FlashMap (fun a => if a <? 0x1FFF0 then 0xFF else
    nth (Z.to_nat (a - 0x1FFF0)) [0xC0; 0xFF; 0xFF; 0xFF; 1; 0; 0; 0; 3; 0; 0; 0; 16; 0; 0; 0] 0xFF) 0x20000.
Lemma find_partition_block_lookup_witness :
  let p := Partition 0 EEPROM_SG_PARTITION_SIZE EEPROM_LAYOUT_SG in
  let b := EepromBlock None 0 0 (replicate 512 0) in
  find_partition_block one_block_flash p EEPROM_PARTITION_EELITE 1 b =
    Some (sg_lookup 1 (table one_block_flash p EEPROM_PARTITION_EELITE) b) /\
  sg_lookup 1 (table one_block_flash p EEPROM_PARTITION_EELITE) b =
    (EEPROM_RESULT_OK, (true, EepromBlock (Some (InFlash 16)) 2 0xFF (replicate 512 0))).
Proof.
  intros p b. split; [|by vm_compute].
  apply (find_partition_block_lookup one_block_flash p EEPROM_PARTITION_EELITE 1 b); [|done|by left].
  split; [by split; vm_compute|done].
Defined.
