(* ===== verification/EepromImage.v ===== *)
(** * Writing an EEPROM image and reading it back (the writer of [unit/eeprom/test.c])

    The unit test of the parser builds flash images of both layouts entry by entry.  Here
    the writer is modelled, and an entry it writes decodes to the block it was given. *)
From S2P Require Import Prelude Machine Board Regs Eeprom.

Definition X65_PARTITION_SIZE : Z := 0x20000.
Definition X85_PARTITION_SIZE : Z := 0x40000.
Definition X65_ENTRY_SIZE : Z := 16.
Definition X85_ENTRY_SIZE : Z := 32.
Definition X85_HEADER_SIZE : Z := 32.
Definition X85_DATA_CHUNK_SIZE : Z := 16.
Definition ENTRY_FREE : Z := 0xFFFFFFFF.
Definition ENTRY_VALID : Z := 0xFFFFFFC0.
Definition ENTRY_OBSOLETE : Z := 0xFFFFFF00.

(** [static uint8_t flash[X85_PARTITION_SIZE]]; a write outside it is a fault ([None]). *)
Definition image : Type := Z -> Z.
Definition write_u8 (data value : Z) (flash : image) : option image :=
  if (0 <=? data) && (data <? X85_PARTITION_SIZE)
  then Some (fun a => if a ==? data then u8 value else flash a) else None.
Definition write_u16 (data value : Z) (flash : image) : option image :=
  flash ← write_u8 data value flash; write_u8 (data + 1) (value .>> 8) flash.
Definition write_u32 (data value : Z) (flash : image) : option image :=
  flash ← write_u8 data value flash;
  flash ← write_u8 (data + 1) (value .>> 8) flash;
  flash ← write_u8 (data + 2) (value .>> 16) flash;
  write_u8 (data + 3) (value .>> 24) flash.
(** [for (i = 0; i < size; i++) flash[place i] = data[i]], also [memcpy] and [memset]. *)
Fixpoint write_bytes (place : Z -> Z) (i : Z) (data : list Z) (flash : image) : option image :=
  match data with
  | [] => Some flash
  | b :: data => flash ← write_u8 (place i) b flash; write_bytes place (i + 1) data flash
  end.
Definition write_partition_header (offset : Z) (name : list Z) (size : Z) (flash : image) : option image :=
  flash ← write_bytes (Z.add offset) 0 (take 6 name) flash;
  flash ← write_u8 (offset + 6) 0 flash;
  flash ← write_u8 (offset + 7) 0 flash;
  flash ← write_u8 (offset + 10) 0 flash;
  flash ← write_u8 (offset + 11) 0 flash;
  flash ← write_u8 (offset + 12) 0xF0 flash;
  write_bytes (Z.add (offset + 13)) 0 (replicate (Z.to_nat (size - 13)) 0xFF) flash.
Definition align_x85_data_offset (offset : Z) : Z :=
  if (offset .& X85_DATA_CHUNK_SIZE) ==? 0 then offset
  else u32 (offset + X85_DATA_CHUNK_SIZE * 2 - (offset .& (X85_DATA_CHUNK_SIZE * 2 - 1))).
Definition x85_data_byte_offset (offset index : Z) : Z :=
  let chunk_offset := offset .& (X85_DATA_CHUNK_SIZE - 1) in
  u32 (offset + index + (u32 (chunk_offset + index) / X85_DATA_CHUNK_SIZE) * X85_DATA_CHUNK_SIZE).
(** Where the data of an entry goes. *)
Definition x85_stored_offset (entry_offset size : Z) : Z :=
  let reserved_size := u32 (X85_DATA_CHUNK_SIZE + size + (size .& not32 (X85_DATA_CHUNK_SIZE - 1))) in
  align_x85_data_offset (u32 (entry_offset - reserved_size)).
(** The fields of an entry: state, id, size, and the version of a small block. *)
Definition write_x85_fields (entry_offset state id version size : Z) (full : bool) (flash : image) : option image :=
  flash ← write_u32 entry_offset state flash;
  if full then
    flash ← write_u32 (entry_offset + 4) (u32 (id - 5000)) flash;
    write_u32 (entry_offset + 8) size flash
  else
    flash ← write_u16 (entry_offset + 4) id flash;
    flash ← write_u8 (entry_offset + 7) version flash;
    write_u16 (entry_offset + 8) size flash.
(** Returns the offset of the next entry. *)
Definition write_x85_inline_entry (entry_offset state id version : Z) (data : list Z) (full : bool) (flash : image) :
    option (Z * image) :=
  let size := Z.of_nat (length data) in
  let stored_offset := x85_stored_offset entry_offset size in
  flash ← write_x85_fields entry_offset state id version size full flash;
  flash ← write_bytes (x85_data_byte_offset stored_offset) 0 data flash;
  Some (u32 ((stored_offset .& not32 (X85_DATA_CHUNK_SIZE * 2 - 1)) - X85_ENTRY_SIZE), flash).
Definition reset_flash : image := fun _ => 0xFF.
Definition write_x65_entry (entry_offset state id data_offset : Z) (data : list Z) (flash : image) : option image :=
  flash ← write_u32 entry_offset state flash;
  if state ==? ENTRY_FREE then Some flash
  else
    flash ← write_u32 (entry_offset + 4) id flash;
    flash ← write_u32 (entry_offset + 8) (Z.of_nat (length data)) flash;
    flash ← write_u32 (entry_offset + 12) data_offset flash;
    write_bytes (Z.add data_offset) 0 data flash.

(** ** What is in the image after writing *)

(** A write of a value of [n] bytes at [a]: the bytes are there, the rest is as before. *)
Definition wrote (a : Z) (n : Z) (v : Z) (flash flash' : image) : Prop :=
  (forall k, 0 <= k < n -> flash' (a + k) = u8 (v .>> (8 * k))) /\
  (forall x, x < a \/ a + n <= x -> flash' x = flash x).

Lemma write_u8_ok a v f : 0 <= a < X85_PARTITION_SIZE -> exists f', write_u8 a v f = Some f' /\ wrote a 1 v f f'.
Proof.
  intros Ha. unfold write_u8. destruct (Z.leb_spec 0 a), (Z.ltb_spec a X85_PARTITION_SIZE); try lia.
  eexists. split; [done|]. split.
  - intros k Hk. assert (k = 0) as -> by lia. replace (a + 0) with a by lia. by rewrite Z.eqb_refl, Z.shiftr_0_r.
  - intros x Hx. destruct (Z.eqb_spec x a); [lia|done].
Qed.
(** One more byte after [n] of them. *)
Lemma wrote_snoc a n v f g h : 0 <= n -> wrote a n v f g -> wrote (a + n) 1 (v .>> (8 * n)) g h -> wrote a (n + 1) v f h.
Proof.
  intros Hn [H1 H2] [H3 H4]. split.
  - intros k Hk. destruct (decide (k = n)) as [->|Hne].
    + specialize (H3 0 ltac:(lia)). replace (a + n + 0) with (a + n) in H3 by lia.
      by rewrite Z.shiftr_0_r in H3.
    + rewrite H4 by lia. apply H1. lia.
  - intros x Hx. rewrite H4 by lia. apply H2. lia.
Qed.
Lemma write_u16_ok a v f : 0 <= a -> a + 2 <= X85_PARTITION_SIZE -> exists f', write_u16 a v f = Some f' /\ wrote a 2 v f f'.
Proof.
  intros H1 H2. unfold write_u16. destruct (write_u8_ok a v f) as (f1 & -> & W1); [lia|]. simpl.
  destruct (write_u8_ok (a + 1) (v .>> 8) f1) as (f2 & -> & W2); [lia|]. eexists. split; [done|].
  by apply (wrote_snoc a 1 v f f1 f2).
Qed.
Lemma write_u32_ok a v f : 0 <= a -> a + 4 <= X85_PARTITION_SIZE -> exists f', write_u32 a v f = Some f' /\ wrote a 4 v f f'.
Proof.
  intros H1 H2. unfold write_u32. destruct (write_u8_ok a v f) as (f1 & -> & W1); [lia|]. simpl.
  destruct (write_u8_ok (a + 1) (v .>> 8) f1) as (f2 & -> & W2); [lia|]. simpl.
  destruct (write_u8_ok (a + 2) (v .>> 16) f2) as (f3 & -> & W3); [lia|]. simpl.
  destruct (write_u8_ok (a + 3) (v .>> 24) f3) as (f4 & -> & W4); [lia|]. eexists. split; [done|].
  apply (wrote_snoc a 3 v f f3 f4); [lia| |done]. apply (wrote_snoc a 2 v f f2 f3); [lia| |done].
  by apply (wrote_snoc a 1 v f f1 f2).
Qed.

(** Bytes written at distinct places are all there, the rest is as before. *)
Lemma write_bytes_ok p data : forall i f, bytes_ok data ->
  (forall k, i <= k < i + Z.of_nat (length data) -> 0 <= p k < X85_PARTITION_SIZE) ->
  (forall k l, i <= k < l -> l < i + Z.of_nat (length data) -> p k < p l) ->
  exists f', write_bytes p i data f = Some f' /\
    (forall k b, data !! k = Some b -> f' (p (i + Z.of_nat k)) = b) /\
    (forall x, (forall k, i <= k < i + Z.of_nat (length data) -> p k <> x) -> f' x = f x).
Proof.
  induction data as [|b data IH]; intros i f Hd Hr Hm; [by exists f|]. simpl in Hr, Hm |- *.
  inversion Hd as [|? ? Hb Hd']; subst. destruct (write_u8_ok (p i) b f) as (f1 & -> & [W1 W2]); [apply Hr; lia|]. simpl.
  destruct (IH (i + 1) f1 Hd') as (f' & E & G1 & G2); [intros; apply Hr; lia|intros; apply Hm; lia|].
  exists f'. split; [exact E|]. split.
  - intros [|k] b' Hk; simpl in Hk.
    + simplify_eq. replace (i + Z.of_nat 0) with i by lia. rewrite G2.
      * specialize (W1 0 ltac:(lia)). rewrite Z.shiftr_0_r in W1. replace (p i + 0) with (p i) in W1 by lia.
        rewrite W1. by apply u8_small.
      * intros k Hk'. specialize (Hm i k). lia.
    + rewrite <- (G1 k b' Hk). do 2 f_equal. lia.
  - intros x Hx. rewrite G2 by (intros k Hk; apply Hx; lia). apply W2. specialize (Hx i ltac:(lia)). lia.
Qed.

(** Reading back what was written. *)
Lemma u8_parts v n : 0 <= n -> 0 <= v -> u8 v + 0x100 * (v .>> 8) = v.
Proof. intros. rewrite Z.shiftr_div_pow2 by lia. change (2 ^ 8) with 0x100. unfold u8. pose proof (Z.div_mod v 0x100). lia. Qed.
Lemma read_u8_at flash p : 0 <= p < fm_size flash -> read_u8 flash p = Some (u8 (fm_byte flash p)).
Proof. intros H. unfold read_u8. destruct (Z.leb_spec 0 p), (Z.ltb_spec p (fm_size flash)); by try lia. Qed.
Lemma u8_idem v : u8 (u8 v) = u8 v.
Proof. apply u8_small, u8_range. Qed.
Lemma read_u16_at flash p v : 0 <= v < 0x10000 -> 0 <= p -> p + 2 <= fm_size flash ->
  (forall k, 0 <= k < 2 -> fm_byte flash (p + k) = u8 (v .>> (8 * k))) -> read_u16 flash p = Some v.
Proof.
  intros Hv Hp1 Hp2 Hb. unfold read_u16. rewrite !read_u8_at by lia. simpl.
  pose proof (Hb 0 ltac:(lia)) as H0. pose proof (Hb 1 ltac:(lia)) as H1.
  replace (p + 0) with p in H0 by lia. rewrite H0, H1, !u8_idem. change (8 * 0) with 0. change (8 * 1) with 8.
  rewrite Z.shiftr_0_r. f_equal. rewrite (lor_shiftl_add _ _ 8) by (try lia; apply u8_range). change (2 ^ 8) with 0x100.
  rewrite !Z.shiftr_div_pow2 by lia. change (2 ^ 8) with 0x100. ulia.
Qed.
Lemma read_u32_at flash p v : is_u32 v -> 0 <= p -> p + 4 <= fm_size flash ->
  (forall k, 0 <= k < 4 -> fm_byte flash (p + k) = u8 (v .>> (8 * k))) -> read_u32 flash p = Some v.
Proof.
  intros Hv Hp1 Hp2 Hb. unfold read_u32. rewrite !read_u8_at by lia. simpl.
  pose proof (Hb 0 ltac:(lia)) as H0. pose proof (Hb 1 ltac:(lia)) as H1. pose proof (Hb 2 ltac:(lia)) as H2.
  pose proof (Hb 3 ltac:(lia)) as H3.
  replace (p + 0) with p in H0 by lia. rewrite H0, H1, H2, H3, !u8_idem.
  change (8 * 0) with 0. change (8 * 1) with 8. change (8 * 2) with 16. change (8 * 3) with 24.
  rewrite Z.shiftr_0_r. f_equal.
  pose proof (u8_range v) as R0. pose proof (u8_range (v .>> 8)) as R1. pose proof (u8_range (v .>> 16)) as R2.
  unfold is_byte in *.
  rewrite (lor_shiftl_add (u8 v) _ 8) by (change (2 ^ 8) with 0x100; lia). change (2 ^ 8) with 0x100.
  rewrite (lor_shiftl_add _ _ 16) by (change (2 ^ 16) with 0x10000; lia). change (2 ^ 16) with 0x10000.
  rewrite (lor_shiftl_add _ _ 24) by (change (2 ^ 24) with 0x1000000; lia). change (2 ^ 24) with 0x1000000.
  rewrite !Z.shiftr_div_pow2 by lia. change (2 ^ 8) with 0x100. change (2 ^ 16) with 0x10000. change (2 ^ 24) with 0x1000000.
  ulia.
Qed.

(** ** The chunks of an inline block *)
Lemma chunk_mod o : (o .& (X85_DATA_CHUNK_SIZE - 1)) = o mod 16.
Proof. change (X85_DATA_CHUNK_SIZE - 1) with (Z.ones 4). by rewrite Z.land_ones by lia. Qed.
Lemma stride_mod o : (o .& (X85_DATA_CHUNK_SIZE * 2 - 1)) = o mod 32.
Proof. change (X85_DATA_CHUNK_SIZE * 2 - 1) with (Z.ones 5). by rewrite Z.land_ones by lia. Qed.
Lemma chunk_bit o : ((o .& X85_DATA_CHUNK_SIZE) ==? 0) = (o mod 32 <? 16).
Proof.
  change X85_DATA_CHUNK_SIZE with (Z.land (Z.ones 5) 16). rewrite Z.land_assoc, Z.land_ones by lia. change (2 ^ 5) with 32.
  assert (0 <= o mod 32 < 32) as Hr by (apply Z.mod_pos_bound; lia). generalize (o mod 32), Hr. intros r Hr'.
  assert (forallb (fun r => eqb (Z.land r 16 ==? 0) (r <? 16)) (seqZ 0 32) = true) as H by reflexivity.
  rewrite forallb_forall in H. apply eqb_prop, H, list_elem_of_In, elem_of_seqZ. lia.
Qed.
Lemma whole_chunks size : 0 <= size <= 512 -> (size .& not32 (X85_DATA_CHUNK_SIZE - 1)) = 16 * (size / 16).
Proof.
  intros Hs. assert (forallb (fun s => Z.land s (not32 (X85_DATA_CHUNK_SIZE - 1)) ==? 16 * (s / 16)) (seqZ 0 513) = true) as H
    by (vm_compute; reflexivity).
  rewrite forallb_forall in H. apply Z.eqb_eq, H, list_elem_of_In, elem_of_seqZ. lia.
Qed.

Section Places.
Context (eo size : Z) (Haligned : eo mod 32 = 0) (Hsize : 1 <= size <= 512)
  (Hroom : 16 + size + 16 * (size / 16) <= eo) (Heo : eo + 32 <= X85_PARTITION_SIZE).
#[local] Abbreviation so := (x85_stored_offset eo size).

Lemma reserved_size_eq : u32 (X85_DATA_CHUNK_SIZE + size + (size .& not32 (X85_DATA_CHUNK_SIZE - 1))) = 16 + size + 16 * (size / 16).
Proof. rewrite whole_chunks by lia. unfold X85_DATA_CHUNK_SIZE. apply u32_small. unfold is_u32. Z.div_mod_to_equations; lia. Qed.
(** The first chunk takes the bytes that do not fill a chunk. *)
Lemma stored_offset_eq : so = eo - 32 * (size / 16) - (if size mod 16 =? 0 then 0 else 16 + size mod 16).
Proof.
  unfold x85_stored_offset. cbv zeta. rewrite reserved_size_eq. unfold X85_PARTITION_SIZE in Heo.
  rewrite u32_small by (unfold is_u32; Z.div_mod_to_equations; lia).
  unfold align_x85_data_offset. rewrite chunk_bit, stride_mod. unfold X85_DATA_CHUNK_SIZE.
  set (o := eo - _). assert (o mod 32 = if size mod 16 =? 0 then 16 else 16 - size mod 16) as ->.
  { subst o. destruct (Z.eqb_spec (size mod 16) 0); Z.div_mod_to_equations; lia. }
  destruct (Z.eqb_spec (size mod 16) 0) as [H0|H0].
  - change (16 <? 16) with false. cbv iota. rewrite u32_small by (unfold is_u32; subst o; Z.div_mod_to_equations; lia).
    subst o. Z.div_mod_to_equations; lia.
  - destruct (Z.ltb_spec (16 - size mod 16) 16); [|Z.div_mod_to_equations; lia]. subst o. Z.div_mod_to_equations; lia.
Qed.
Lemma byte_offset_eq k : 0 <= k < size ->
  x85_data_byte_offset so k = so + k + (so mod 16 + k) / 16 * 16 /\ so + k + (so mod 16 + k) / 16 * 16 + 16 < eo.
Proof.
  intros Hk. unfold x85_data_byte_offset. rewrite chunk_mod. cbv zeta. unfold X85_DATA_CHUNK_SIZE, X85_PARTITION_SIZE in *.
  assert (0 <= so /\ so mod 16 = if size mod 16 =? 0 then 0 else 16 - size mod 16) as [H0 Hc].
  { rewrite stored_offset_eq. destruct (Z.eqb_spec (size mod 16) 0); Z.div_mod_to_equations; lia. }
  assert (so + k + (so mod 16 + k) / 16 * 16 + 16 < eo) as Hlt.
  { rewrite Hc, stored_offset_eq. destruct (Z.eqb_spec (size mod 16) 0); Z.div_mod_to_equations; lia. }
  split; [|exact Hlt]. pose proof (Z.mod_pos_bound so 16 ltac:(lia)).
  pose proof (Z.div_pos (so mod 16 + k) 16 ltac:(lia) ltac:(lia)).
  rewrite (u32_small (so mod 16 + k)) by (unfold is_u32; lia). apply u32_small. unfold is_u32. lia.
Qed.
Lemma stored_offset_range : 0 <= so < eo.
Proof.
  rewrite stored_offset_eq. unfold X85_PARTITION_SIZE in *. destruct (Z.eqb_spec (size mod 16) 0); Z.div_mod_to_equations; lia.
Qed.
Lemma byte_offset_range k : 0 <= k < size -> 0 <= x85_data_byte_offset so k < eo.
Proof.
  intros Hk. destruct (byte_offset_eq k Hk) as [-> Hlt]. pose proof stored_offset_range.
  pose proof (Z.mod_pos_bound so 16 ltac:(lia)). pose proof (Z.div_pos (so mod 16 + k) 16 ltac:(lia) ltac:(lia)). lia.
Qed.
Lemma byte_offset_mono k l : 0 <= k < l -> l < size -> x85_data_byte_offset so k < x85_data_byte_offset so l.
Proof.
  intros Hk Hl. destruct (byte_offset_eq k) as [-> _]; [lia|]. destruct (byte_offset_eq l) as [-> _]; [lia|].
  pose proof (Z.div_le_mono (so mod 16 + k) (so mod 16 + l) 16 ltac:(lia) ltac:(lia)). lia.
Qed.
End Places.

(** The fields are written inside the 12 first bytes of the entry. *)
Lemma write_x85_fields_ok eo state id version size full f : 0 <= eo -> eo + 32 <= X85_PARTITION_SIZE ->
  exists f', write_x85_fields eo state id version size full f = Some f' /\
    wrote (eo + 8) (if full : bool then 4 else 2) size f' f' /\ (full = false -> f' (eo + 7) = u8 version) /\
    (forall x, x < eo -> f' x = f x).
Proof.
  intros H0 H1. unfold X85_PARTITION_SIZE in *. unfold write_x85_fields.
  destruct (write_u32_ok eo state f) as (f1 & -> & [W1 W1']); [lia|unfold X85_PARTITION_SIZE; lia|]. simpl. destruct full.
  - destruct (write_u32_ok (eo + 4) (u32 (id - 5000)) f1) as (f2 & -> & [W2 W2']); [lia|unfold X85_PARTITION_SIZE; lia|]. simpl.
    destruct (write_u32_ok (eo + 8) size f2) as (f3 & -> & [W3 W3']); [lia|unfold X85_PARTITION_SIZE; lia|].
    exists f3. split; [done|]. split; [by split|]. split; [done|]. intros x Hx. rewrite W3', W2', W1' by lia. done.
  - destruct (write_u16_ok (eo + 4) id f1) as (f2 & -> & [W2 W2']); [lia|unfold X85_PARTITION_SIZE; lia|]. simpl.
    destruct (write_u8_ok (eo + 7) version f2) as (f3 & -> & [W3 W3']); [unfold X85_PARTITION_SIZE; lia|]. simpl.
    destruct (write_u16_ok (eo + 8) size f3) as (f4 & -> & [W4 W4']); [lia|unfold X85_PARTITION_SIZE; lia|].
    exists f4. split; [done|]. split; [by split|]. split.
    + intros _. rewrite W4' by lia. specialize (W3 0 ltac:(lia)). rewrite Z.shiftr_0_r in W3. by replace (eo + 7 + 0) with (eo + 7) in W3 by lia.
    + intros x Hx. rewrite W4', W3', W2', W1' by lia. done.
Qed.

(** ** Reading the block back *)
Lemma for_early_range {X R} (body : X -> Z -> option (X + R)) (J : Z -> X -> Prop) n : forall i x,
  J i x -> (forall k x, i <= k < i + Z.of_nat n -> J k x -> exists x', body x k = Some (inl x') /\ J (k + 1) x') ->
  exists x', for_early body x (seqZ i (Z.of_nat n)) = Some (inl x') /\ J (i + Z.of_nat n) x'.
Proof.
  induction n as [|n IH]; intros i x H0 Hb.
  - exists x. change (Z.of_nat 0) with 0. replace (i + 0) with i by lia. by split.
  - rewrite seqZ_cons by lia. simpl. destruct (Hb i x ltac:(lia) H0) as (x1 & -> & H1). simpl.
    destruct (IH (Z.succ i) x1) as (x' & E & H'); [by replace (Z.succ i) with (i + 1) by lia|intros k y Hk; apply Hb; lia|].
    exists x'. replace (Z.pred (Z.of_nat (S n))) with (Z.of_nat n) by lia. split; [exact E|].
    by replace (i + Z.of_nat (S n)) with (Z.succ i + Z.of_nat n) by lia.
Qed.

(** The bytes of [data] lie in the chunks of [so], inside the partition. *)
Definition chunked (flash : image) (so : Z) (data : list Z) : Prop :=
  forall k b, data !! k = Some b -> 0 <= x85_data_byte_offset so (Z.of_nat k) < X85_PARTITION_SIZE /\
    flash (x85_data_byte_offset so (Z.of_nat k)) = b.
#[local] Abbreviation nsg := (Partition 0 X85_PARTITION_SIZE EEPROM_LAYOUT_NSG).

Lemma copy_chunked flash so data (src n : nat) version block :
  bytes_ok data -> chunked flash so data -> (src + n <= length data)%nat -> (n <= 512)%nat -> inline_ok block ->
  b_size block = Z.of_nat n -> b_version block = version ->
  exists block', copy_nsg_inline_block (FlashMap flash X85_PARTITION_SIZE) nsg so (Z.of_nat src) (Z.of_nat n) block =
      Some (EEPROM_RESULT_OK, block') /\ b_data block' = Some Inline /\ b_size block' = Z.of_nat n /\
    b_version block' = version /\ take n (b_inline block') = take n (drop src data).
Proof.
  intros Hd Hc Hlen Hn Hb Hs Hv. unfold copy_nsg_inline_block, EEPROM_BLOCK_INLINE_CAPACITY.
  destruct (Z.ltb_spec 512 (Z.of_nat n)); [lia|].
  match goal with |- context [for_early ?body block _] =>
    edestruct (for_early_range (R := eeprom_block) body (fun i b' => length (b_inline b') = 512%nat /\ b_size b' = Z.of_nat n /\
      b_version b' = version /\ (forall j, Z.of_nat j < i -> b_inline b' !! j = data !! (src + j)%nat)) n 0 block)
      as (b' & -> & H1 & H2 & H3 & H4) end.
  - split_and!; [done..|]. intros j Hj. lia.
  - intros k b' Hk (H1 & H2 & H3 & H4). cbv zeta.
    destruct (lookup_lt_is_Some_2 data (src + Z.to_nat k)%nat ltac:(lia)) as [v Ev].
    destruct (Hc _ _ Ev) as [Hr Hf]. replace (Z.of_nat (src + Z.to_nat k)) with (Z.of_nat src + k) in Hr, Hf by lia.
    change (x85_data_byte_offset so (Z.of_nat src + k)) with (nsg_data_byte_offset so (Z.of_nat src + k)) in Hr, Hf.
    change (p_size nsg) with X85_PARTITION_SIZE. change (p_data nsg) with 0. rewrite Z.add_0_l.
    destruct (Z.leb_spec X85_PARTITION_SIZE (nsg_data_byte_offset so (Z.of_nat src + k))); [lia|].
    rewrite read_u8_at by (cbn [fm_size]; lia). cbn [fm_byte]. rewrite Hf. eexists. split; [done|]. simpl.
    split_and!; [by rewrite length_insert|done|done|]. intros j Hj. destruct (decide (j = Z.to_nat k)) as [->|Hne].
    + rewrite list_lookup_insert_eq by lia. rewrite Ev. f_equal. apply u8_small. by eapply Forall_lookup_1.
    + rewrite list_lookup_insert_ne by lia. apply H4. lia.
  - simpl. eexists. split; [done|]. simpl. split_and!; [done..|]. apply list_eq. intros j.
    destruct (decide (j < n)%nat); [rewrite !lookup_take_lt, lookup_drop by lia; apply H4; lia|by rewrite !lookup_take_ge by lia].
Qed.

(** After the write, the size field, the version and the chunks hold what was written. *)
Lemma write_x85_inline_entry_ok eo state id version data full flash :
  eo mod 32 = 0 -> eo + 32 <= X85_PARTITION_SIZE -> 1 <= Z.of_nat (length data) <= 512 -> bytes_ok data ->
  16 + Z.of_nat (length data) + 16 * (Z.of_nat (length data) / 16) <= eo ->
  let size := Z.of_nat (length data) in
  exists next flash', write_x85_inline_entry eo state id version data full flash = Some (next, flash') /\
    wrote (eo + 8) (if full : bool then 4 else 2) size flash' flash' /\ (full = false -> flash' (eo + 7) = u8 version) /\
    chunked flash' (x85_stored_offset eo size) data.
Proof.
  intros Ha He Hl Hd Hr size. unfold write_x85_inline_entry. cbv zeta. fold size.
  assert (0 <= eo) by (pose proof (Z.div_pos (Z.of_nat (length data)) 16 ltac:(lia) ltac:(lia)); lia).
  destruct (write_x85_fields_ok eo state id version size full flash) as (f1 & -> & [W1 _] & Wv & _); [lia|done|]. simpl.
  destruct (write_bytes_ok (x85_data_byte_offset (x85_stored_offset eo size)) data 0 f1 Hd) as (f2 & -> & G1 & G2).
  { intros k Hk. pose proof (byte_offset_range eo size Ha Hl Hr He k ltac:(lia)). lia. }
  { intros k l Hk Hl'. apply (byte_offset_mono eo size Ha Hl Hr He); lia. }
  assert (forall x, eo <= x -> f2 x = f1 x) as Hkeep.
  { intros x Hx. apply G2. intros k Hk. pose proof (byte_offset_range eo size Ha Hl Hr He k ltac:(lia)). lia. }
  simpl. eexists _, f2. split; [done|]. split_and!.
  - split; [|done]. intros k Hk. rewrite Hkeep by lia. by apply W1.
  - intros Hf. rewrite Hkeep by lia. by apply Wv.
  - intros k b Hk. rewrite <- (G1 k b Hk). rewrite Z.add_0_l. split; [|done]. apply lookup_lt_Some in Hk.
    pose proof (byte_offset_range eo size Ha Hl Hr He (Z.of_nat k) ltac:(lia)). lia.
Qed.

(** The metadata before the data of a stored block. *)
Definition stored_metadata (full : bool) (data : list Z) : Z := if full then metadata_size_of (nth 0 data 0) else 0.
Definition stored_version (full : bool) (version : Z) (data : list Z) : Z := if full then nth 0 data 0 else version.

(** The size field and the place of the data as the decoder finds them. *)
Lemma stored_size_read flash eo size full : wrote (eo + 8) (if full : bool then 4 else 2) size flash flash ->
  0 <= eo -> eo + 32 <= X85_PARTITION_SIZE -> 0 <= size <= 512 ->
  (if full then read_u32 (FlashMap flash X85_PARTITION_SIZE) (eo + 8)
   else read_u16 (FlashMap flash X85_PARTITION_SIZE) (eo + 8)) = Some size.
Proof.
  intros [W _] H0 H1 Hs. destruct full; [apply read_u32_at|apply read_u16_at]; try exact W; unfold is_u32; simpl; lia.
Qed.
Lemma nsg_stored_written flash eo size : eo mod 32 = 0 -> 1 <= size <= 512 -> 16 + size + 16 * (size / 16) <= eo ->
  eo + 32 <= X85_PARTITION_SIZE ->
  nsg_stored_offset (FlashMap flash X85_PARTITION_SIZE) nsg true size eo eo = Some (Some (x85_stored_offset eo size)).
Proof.
  intros Ha Hs Hr He. unfold nsg_stored_offset, x85_stored_offset. cbv zeta.
  change EEPROM_NSG_DATA_CHUNK_SIZE with X85_DATA_CHUNK_SIZE. rewrite reserved_size_eq by done.
  destruct (Z.ltb_spec eo (16 + size + 16 * (size / 16))); [lia|]. unfold X85_PARTITION_SIZE in He.
  rewrite (u32_small (eo - _)) by (unfold is_u32; Z.div_mod_to_equations; lia). done.
Qed.

Lemma decode_written (full : bool) eo version data flash block :
  let size := Z.of_nat (length data) in let meta := stored_metadata full data in
  eo mod 32 = 0 -> eo + 32 <= X85_PARTITION_SIZE -> 16 + size + 16 * (size / 16) <= eo ->
  1 <= size <= (if full then 512 else 16) -> bytes_ok data -> is_byte version -> inline_ok block -> meta <= size ->
  wrote (eo + 8) (if full then 4 else 2) size flash flash -> (full = false -> flash (eo + 7) = u8 version) ->
  chunked flash (x85_stored_offset eo size) data ->
  exists block', decode_nsg_block (FlashMap flash X85_PARTITION_SIZE) nsg
      (if full then EEPROM_PARTITION_EEFULL else EEPROM_PARTITION_EELITE) eo eo block = Some (EEPROM_RESULT_OK, block') /\
    b_data block' = Some Inline /\ b_size block' = size - meta /\ b_version block' = stored_version full version data /\
    take (Z.to_nat (size - meta)) (b_inline block') = take (Z.to_nat (size - meta)) (drop (if full then 1 else 0) data).
Proof.
  intros size meta Ha He Hr Hl Hd Hv Hb Hm W Wv Hc. unfold decode_nsg_block. cbv zeta.
  replace ((if full then EEPROM_PARTITION_EEFULL else EEPROM_PARTITION_EELITE) ==? EEPROM_PARTITION_EEFULL) with full by by destruct full.
  pose proof (Z.div_pos size 16 ltac:(lia) ltac:(lia)).
  rewrite (stored_size_read flash eo size full W) by (destruct full; lia). simpl.
  destruct (Z.eqb_spec size 0); [lia|].
  assert ((size <=? (if full then EEPROM_NSG_EEFULL_INLINE_MAX else EEPROM_NSG_EELITE_INLINE_MAX)) = true) as ->
    by (apply Z.leb_le; destruct full; apply Hl).
  rewrite nsg_stored_written by (destruct full; done || lia). simpl.
  destruct full; simpl stored_version.
  - destruct data as [|v data]; [simpl in size; lia|]. destruct (Hc 0%nat v eq_refl) as [Hv1 Hv2].
    change (nsg_data_byte_offset (x85_stored_offset eo size) 0) with (x85_data_byte_offset (x85_stored_offset eo size) (Z.of_nat 0)).
    destruct (Z.leb_spec X85_PARTITION_SIZE (x85_data_byte_offset (x85_stored_offset eo size) (Z.of_nat 0))); [lia|].
    rewrite read_u8_at by (cbn [fm_size]; lia). cbn [fm_byte p_data]. rewrite Z.add_0_l, Hv2. pose proof (Forall_inv Hd) as Hv8. cbv beta in Hv8.
    rewrite u8_small by done. simpl. change (metadata_size_of v) with meta. destruct (Z.ltb_spec size meta); [lia|].
    assert (meta = metadata_size_of v) as Em by done. pose proof (metadata_size_cases v) as Hmeta.
    destruct (copy_chunked flash (x85_stored_offset eo size) (v :: data) 1 (Z.to_nat (size - meta)) v
      (set_meta (size - meta) v block)) as (b' & E & F1 & F2 & F3 & F4); [done|done| |lia|done|simpl; lia|done|].
    { assert (Z.of_nat (length (v :: data)) = size) by done. lia. }
    rewrite Z2Nat.id in E by lia. exists b'. change (Z.of_nat 1) with 1 in E. split; [exact E|].
    split_and!; [done|lia|done|exact F4].
  - rewrite read_u8_at by (cbn [fm_size]; lia). cbn [fm_byte]. cbn [p_data]. rewrite ?Z.add_0_l, Wv, u8_idem, u8_small by done. simpl.
    destruct (copy_chunked flash (x85_stored_offset eo size) data 0 (length data) version
      (set_meta size version block)) as (b' & E & H1 & H2 & H3 & H4); [done|done|lia|lia|done|done|done|].
    change (Z.of_nat 0) with 0 in E. exists b'. split; [exact E|]. subst meta. simpl stored_metadata in *.
    replace (Z.to_nat (size - 0)) with (length data) by lia. split_and!; [done|lia|done|exact H4].
Qed.

(** C26. Round trip of the inline blocks: an entry that the writer puts at an aligned place with
    room for its chunks decodes to the block it was written from: the data in order although
    it is spread over every second chunk and the first chunk may be partial, the size without
    the metadata, the version.  For both partitions and every size that is stored inline. *)
Theorem x85_inline_roundtrip full eo state id version data flash block :
  let size := Z.of_nat (length data) in
  let type := if full : bool then EEPROM_PARTITION_EEFULL else EEPROM_PARTITION_EELITE in
  eo mod 32 = 0 -> eo + 32 <= X85_PARTITION_SIZE -> 16 + size + 16 * (size / 16) <= eo ->
  1 <= size <= (if full then 512 else 16) -> bytes_ok data -> is_byte version -> inline_ok block ->
  stored_metadata full data <= size ->
  exists next flash' block', write_x85_inline_entry eo state id version data full flash = Some (next, flash') /\
    decode_nsg_block (FlashMap flash' X85_PARTITION_SIZE) (Partition 0 X85_PARTITION_SIZE EEPROM_LAYOUT_NSG) type eo eo block =
      Some (EEPROM_RESULT_OK, block') /\
    b_data block' = Some Inline /\ b_size block' = size - stored_metadata full data /\
    b_version block' = stored_version full version data /\
    take (Z.to_nat (b_size block')) (b_inline block') = take (Z.to_nat (b_size block')) (drop (if full then 1 else 0) data).
Proof.
  intros size type Ha He Hr Hl Hd Hv Hb Hm.
  destruct (write_x85_inline_entry_ok eo state id version data full flash Ha He ltac:(destruct full; lia) Hd Hr)
    as (next & flash' & E & [W _] & Wv & Hc). cbv zeta in Hc. fold size in Hc. exists next, flash'.
  pose proof (stored_offset_range eo size Ha ltac:(destruct full; lia) Hr He) as Hso.
  assert (exists block', decode_nsg_block (FlashMap flash' X85_PARTITION_SIZE) nsg type eo eo block = Some (EEPROM_RESULT_OK, block') /\
    b_data block' = Some Inline /\ b_size block' = size - stored_metadata full data /\
    b_version block' = stored_version full version data /\
    take (Z.to_nat (size - stored_metadata full data)) (b_inline block') =
      take (Z.to_nat (size - stored_metadata full data)) (drop (if full then 1 else 0) data))
    as (b' & Eb & H1 & H2 & H3 & H4); [|exists b'; rewrite H2; by split_and!].
  apply decode_written; try done.
Qed.
Lemma x85_inline_roundtrip_witness :
  exists next flash' block',
    write_x85_inline_entry 0x3FFC0 ENTRY_VALID 76 2 [0x11; 0x12; 0x13; 0x14] false reset_flash = Some (next, flash') /\
    decode_nsg_block (FlashMap flash' X85_PARTITION_SIZE) (Partition 0 X85_PARTITION_SIZE EEPROM_LAYOUT_NSG)
      EEPROM_PARTITION_EELITE 0x3FFC0 0x3FFC0 (EepromBlock None 0 0 (replicate 512 0)) = Some (EEPROM_RESULT_OK, block') /\
    b_data block' = Some Inline /\ b_size block' = 4 - 0 /\ b_version block' = 2 /\
    take (Z.to_nat (b_size block')) (b_inline block') = take (Z.to_nat (b_size block')) [0x11; 0x12; 0x13; 0x14].
Proof.
  apply (x85_inline_roundtrip false 0x3FFC0 ENTRY_VALID 76 2 [0x11; 0x12; 0x13; 0x14] reset_flash
    (EepromBlock None 0 0 (replicate 512 0))); try done. bytes_tac.
Defined.
