(* ===== verification/TestLib.v ===== *)
(** * The unit-test library ([unit/test.c], [unit/test.h])

    The unit tests report over the serial port in the Test Anything Protocol: a header, one
    numbered line per assertion, a plan and a verdict.  Every report restarts the watchdog's
    execution limit.  [printf] is the vendored library: what is modelled is which format
    it is called with and which arguments; what it promises is the class [Printing]. *)
From S2P Require Import Prelude Machine Board Regs Clock Stopwatch Wdt Usart.

Definition PHONE_INFO_STRING_SIZE : Z := 16.
Definition TEST_TIMEOUT_MS : Z := 3000.
Definition TEST_HEARTBEAT_MS : Z := 100.
Definition RTC_T14_RELOAD : Z := 61440.
Definition RTC_SECOND_COUNTER : Z := 0x3FF.
Definition RTC_CLOCK_CONTROL : Z := RTC_CTRL_PU32K .| RTC_CTRL_CLK32KEN.
Definition RTC_SYNC_CONTROL : Z := RTC_CLOCK_CONTROL .| RTC_CTRL_CLK_SEL.

(** The arguments of [printf]: a literal, a number, a string in memory. *)
Inductive printf_arg := PText (s : string) | PNum (v : Z) | PMem (address : Z).
Definition message : Type := string * list printf_arg.

(** The constants [COLOR_*] of the build option [TEST_COLOR], and the newline. *)
Definition NL : string := String (Ascii.ascii_of_nat 10) EmptyString.
Definition escape (code : string) : string := String (Ascii.ascii_of_nat 27) code.
Class TestBuild := { test_color : bool }.
Section Colors.
Context `{TestBuild}.
Definition color (code : string) : string := if test_color then escape code else EmptyString.
Definition COLOR_RESET : string := color "[0m".
Definition COLOR_RED : string := color "[31m".
Definition COLOR_GREEN : string := color "[32m".
Definition COLOR_YELLOW : string := color "[33m".
Definition COLOR_CYAN : string := color "[36m".
End Colors.

(** [static struct test_state state] and the [last] of [test_heartbeat]. *)
Record tests := Tests { assertions : Z; failures : Z; heartbeat_last : Z }.

(** The arrays of [print_hardware] and [read_phone_info]. *)
Definition hw_vendor : Z := LOCAL 16.
Definition hw_model : Z := LOCAL 17.
Definition found_vendor : Z := LOCAL 18.
Definition found_model : Z := LOCAL 19.

Definition test_u32_in_interval (value first last : Z) : bool := u32 (value - first) <=? u32 (last - first).

Section Code.
Context {D : Type} `{!Device D} `{B : Board} `{TestBuild}.
#[local] Abbreviation M := (M D tests).
Context (printf : message -> M unit).

(** *** Printing from an exception handler: the registers only *)
Definition fault_putc (c : Z) : M unit :=
  wr32 (USART_TXB USART0) c;;
  poll (ris ← rd32 (USART_RIS USART0); mret (negb ((ris .& USART_RIS_TX) ==? 0))) (mret tt);;
  icr ← rd32 (USART_ICR USART0);
  wr32 (USART_ICR USART0) (icr .| USART_ICR_TX).
Definition nibble_char (nibble : Z) : Z := if nibble <? 10 then 0x30 + nibble else 0x41 + nibble - 10.
Definition fault_put_hex (value : Z) : M unit :=
  fault_putc 0x30;; fault_putc 0x78;;
  foldM (fun _ shift => fault_putc (nibble_char ((value .>> shift) .& 0xF))) tt [28; 24; 20; 16; 12; 8; 4; 0].
Definition fault_field (type a b c d value : Z) : M unit :=
  fault_putc 0x0A;; fault_putc 0x23;; fault_putc 0x20;; fault_putc 0x45;; fault_putc 0x58;; fault_putc 0x43;;
  fault_putc 0x20;; fault_putc type;; fault_putc 0x20;; fault_putc a;;
  when (b !=? 0) (fault_putc b;; when (c !=? 0) (fault_putc c;; when (d !=? 0) (fault_putc d)));;
  fault_putc 0x3D;;
  fault_put_hex value.

(** A byte through a pointer: the flash, which takes commands, is a device of the external
    bus; anything else is memory. *)
Definition load_u8 (a : Z) : M Z :=
  if (0xA0000000 <=? a) && (a <? 0xB0000000) then rd8 a else ld8 a.

(** *** The phone's name in its flash *)

Definition read_flash_string (destination size address : Z) : M bool :=
  st8 destination 0;;
  iter (fun i =>
    if i <? size then
      value ← load_u8 (address + i);
      if value ==? 0 then st8 (destination + i) 0;; mret (inr (i !=? 0))
      else if (value <? 0x20) || (0x7E <? value) then st8 destination 0;; mret (inr false)
      else st8 (destination + i) value;; mret (inl (i + 1))
    else st8 destination 0;; mret (inr false)) 0.
Definition copy_string (destination source : Z) : M unit :=
  foldM (fun _ i => b ← ld8 (source + i); st8 (destination + i) b) tt (seqZ 0 PHONE_INFO_STRING_SIZE).
Definition read_phone_info (vendor model model_address vendor_address : Z) : M bool :=
  alloc found_vendor PHONE_INFO_STRING_SIZE;;
  alloc found_model PHONE_INFO_STRING_SIZE;;
  ok ← read_flash_string found_vendor PHONE_INFO_STRING_SIZE vendor_address;
  if negb ok then mret false
  else
    ok ← read_flash_string found_model PHONE_INFO_STRING_SIZE model_address;
    if negb ok then mret false
    else copy_string vendor found_vendor;; copy_string model found_model;; mret true.
(** ["unknown"], with the zeros that fill the array. *)
Definition init_unknown (a : Z) : M unit :=
  alloc a PHONE_INFO_STRING_SIZE;;
  foldM (fun a b => st8 a b;; mret (a + 1)) a [0x75; 0x6E; 0x6B; 0x6E; 0x6F; 0x77; 0x6E];;
  mret tt.
Definition print_hardware : M unit :=
  init_unknown hw_vendor;;
  init_unknown hw_model;;
  chip ← rd32 SCU_CHIPID;
  let chip := (chip .& SCU_CHIPID_CHIPD) .>> SCU_CHIPID_CHIPD_SHIFT in
  revision ← rd32 SCU_CHIPID;
  let revision := (revision .& SCU_CHIPID_CHREV) .>> SCU_CHIPID_CHREV_SHIFT in
  ok ← read_phone_info hw_vendor hw_model 0xA003E000 0xA003E010;
  (if negb ok then _ ← read_phone_info hw_vendor hw_model 0xA0000210 0xA0000220; mret tt else mret tt);;
  let cpu := if chip ==? 0x1A then "PMB8875" else if chip ==? 0x1B then "PMB8876" else "unknown" in
  printf ("# Hardware: vendor=%s, phone=%s, CPU=%s rev=%02X" +:+ NL,
          [PMem hw_vendor; PMem hw_model; PText cpu; PNum revision]).

(** *** The watchdog, the real-time clock *)
Definition reset_timeout : M unit :=
  stopwatch_update;; wdt_set_max_execution_time TEST_TIMEOUT_MS;; wdt_serve.
Definition test_watchdog_serve : M unit := wdt_serve.
Definition test_watchdog_reset : M unit := reset_timeout.
Definition test_spin (iterations : Z) : M unit :=
  iter (fun i => mret (if i <? iterations then inl (i + 1) else inr tt)) 0.
Definition test_rtc_init : M unit :=
  reset_timeout;;
  wr32 SCU_RTCIF 0xAA;;
  wr32 RTC_CLC (1 .<< MOD_CLC_RMC_SHIFT);;
  wr32 RTC_CTRL (RTC_SYNC_CONTROL .| RTC_CTRL_CLR_RTCBAD .| RTC_CTRL_CLR_RTCINT);;
  poll (con ← rd32 RTC_CON; mret (negb ((con .& RTC_CON_ACCPOS) ==? 0))) (mret tt);;
  wr32 RTC_CON RTC_CON_PRE;;
  wr32 RTC_T14 ((RTC_T14_RELOAD .<< RTC_T14_CNT_SHIFT) .| (RTC_T14_RELOAD .<< RTC_T14_REL_SHIFT));;
  wr32 RTC_CNT RTC_SECOND_COUNTER;;
  wr32 RTC_REL 0;;
  wr32 RTC_ALARM 0;;
  wr32 RTC_SRC 0;;
  wr32 RTC_ISNC RTC_ISNC_RTC0IE;;
  wr32 RTC_ISNRC RTC_ISNRC_RTC0;;
  con ← rd32 RTC_CON;
  wr32 RTC_CON (con .| RTC_CON_RUN);;
  wr32 RTC_CTRL (RTC_CLOCK_CONTROL .| RTC_CTRL_CLR_RTCINT).
Definition test_rtc_second_elapsed : M bool :=
  ctrl ← rd32 RTC_CTRL; mret ((ctrl .& RTC_CTRL_RTCINT) !=? 0).
Definition test_rtc_wait_second : M unit :=
  poll test_rtc_second_elapsed (test_spin 1000);; test_watchdog_serve.

(** *** Reports *)
Definition count_assertion : M Z :=
  s ← get_app;
  put_app (Tests (u32 (assertions s + 1)) (failures s) (heartbeat_last s));;
  mret (u32 (assertions s + 1)).
Definition count_failure : M unit :=
  s ← get_app; put_app (Tests (assertions s) (u32 (failures s + 1)) (heartbeat_last s)).
Definition report (name : string) (passed : bool) : M bool :=
  n ← count_assertion;
  printf ("%s %u - %s%s%s" +:+ NL,
          [PText (if passed then "ok" else "not ok"); PNum n;
           PText (if passed then COLOR_GREEN else COLOR_RED); PText name; PText COLOR_RESET]);;
  when (negb passed) count_failure;;
  mret passed.
Definition test_start (name : string) : M unit :=
  s ← get_app;
  put_app (Tests 0 0 (heartbeat_last s));;
  wdt_init;;
  reset_timeout;;
  printf ("TAP version 13" +:+ NL, []);;
  printf ("# %s%s%s" +:+ NL, [PText COLOR_CYAN; PText name; PText COLOR_RESET]);;
  print_hardware.
Definition test_category (name : string) : M unit :=
  printf ("# %s--- %s ---%s" +:+ NL, [PText COLOR_CYAN; PText name; PText COLOR_RESET]);;
  reset_timeout.
Definition test_finish : M Z :=
  s ← get_app;
  printf ("1..%u" +:+ NL, [PNum (assertions s)]);;
  s ← get_app;
  printf ("# result: %s%s%s (%u failed)" +:+ NL,
          [PText (if failures s ==? 0 then COLOR_GREEN else COLOR_RED);
           PText (if failures s ==? 0 then "PASS" else "FAIL"); PText COLOR_RESET; PNum (failures s)]);;
  usart_putc USART0 0;;
  s ← get_app;
  mret (if failures s ==? 0 then 0 else 1).
Definition test_expect_reset (name : string) : M unit :=
  con ← rd32 (USART_RXFCON USART0);
  wr32 (USART_RXFCON USART0) (con .| USART_RXFCON_RXFFLU);;
  s ← get_app;
  printf ("# HOST-CMD: EXPECT_RESET %u %u %s" +:+ NL,
          [PNum (u32 (assertions s + 1)); PNum (failures s); PText name]);;
  poll (poll (l ← usart_get_rx_fifo_level USART0; mret (negb (l ==? 0))) test_watchdog_serve;;
        c ← rd32 (USART_RXB USART0); mret (c ==? 0x52)) (mret tt).
Definition test_audio_expect_tone (frequency_hz sample_rate_hz duration_ms : Z) : M unit :=
  printf ("# AUDIO-EXPECT: TONE hz=%lu rate=%lu ms=%lu" +:+ NL,
          [PNum frequency_hz; PNum sample_rate_hz; PNum duration_ms]).
Definition test_skip (name reason : string) : M unit :=
  n ← count_assertion;
  printf ("ok %u - %s%s # SKIP %s%s" +:+ NL,
          [PNum n; PText COLOR_YELLOW; PText name; PText reason; PText COLOR_RESET]);;
  reset_timeout.
Definition test_check (name : string) (condition : bool) : M bool :=
  passed ← report name condition; reset_timeout;; mret passed.
Definition test_eq_u32 (name : string) (expected actual : Z) : M bool :=
  passed ← report name (actual ==? expected);
  when (negb passed) (
    printf ("# %sexpected: %08lX%s" +:+ NL, [PText COLOR_YELLOW; PNum expected; PText COLOR_RESET]);;
    printf ("# %sactual:   %08lX%s" +:+ NL, [PText COLOR_RED; PNum actual; PText COLOR_RESET]));;
  reset_timeout;;
  mret passed.
Definition test_id_u32 (name : string) (expected actual : Z) : M bool :=
  printf ("# %s: %08lX" +:+ NL, [PText name; PNum actual]);; test_eq_u32 name expected actual.
Definition test_module_id (name : string) (expected actual : Z) : M bool :=
  printf ("# %s: %08lX" +:+ NL, [PText name; PNum actual]);;
  test_eq_u32 name (expected .& not32 MOD_ID_REV) (actual .& not32 MOD_ID_REV).
Definition test_module_clock (name : string) (clc : Z) : M bool :=
  let enabled := ((clc .& (MOD_CLC_DISR .| MOD_CLC_DISS)) ==? 0) && ((clc .& MOD_CLC_RMC) !=? 0) in
  _ ← report name enabled;
  when (negb enabled) (printf ("# %sCLC=%08lX%s" +:+ NL, [PText COLOR_RED; PNum clc; PText COLOR_RESET]));;
  reset_timeout;;
  mret enabled.
Definition test_amba_part_id (name : string) (expected id0 id1 : Z) : M bool :=
  let actual := u16 ((id0 .& 0xFF) .| ((id1 .& 0x0F) .<< 8)) in
  test_id_u32 name expected actual.

(** [while (offset < size && expected[offset] == actual[offset]) offset++;] *)
Definition first_difference (expected actual size : Z) : M Z :=
  iter (fun offset =>
    if offset <? size then
      e ← load_u8 (expected + offset); a ← load_u8 (actual + offset);
      mret (if e ==? a then inl (offset + 1) else inr offset)
    else mret (inr offset)) 0.
Definition test_eq_memory (name : string) (expected actual size : Z) : M bool :=
  offset ← first_difference expected actual size;
  passed ← report name (offset ==? size);
  when (negb passed) (
    printf ("# %soffset:   %u%s" +:+ NL, [PText COLOR_YELLOW; PNum offset; PText COLOR_RESET]);;
    e ← load_u8 (expected + offset);
    printf ("# %sexpected: %02X%s" +:+ NL, [PText COLOR_YELLOW; PNum e; PText COLOR_RESET]);;
    a ← load_u8 (actual + offset);
    printf ("# %sactual:   %02X%s" +:+ NL, [PText COLOR_RED; PNum a; PText COLOR_RESET]));;
  reset_timeout;;
  mret passed.

(** *** Time *)
Definition test_wait_for_flag (reg flag timeout_ms : Z) : M bool :=
  start ← stopwatch_get;
  iter (fun _ : unit =>
    v ← rd32 reg;
    if (v .& flag) ==? 0 then
      e ← stopwatch_elapsed_ms start;
      if e <? timeout_ms then test_watchdog_serve;; mret (inl tt) else mret (inr tt)
    else mret (inr tt)) tt;;
  v ← rd32 reg;
  mret ((v .& flag) !=? 0).
Definition test_is_qemu : M bool := id ← rd32 SCU_EMU_ID; mret (id ==? SCU_EMU_ID_VALUE_QEMU).
Definition test_stm_ticks_per_ms : M Z :=
  hz ← cpu_get_stm_freq;
  mret ((if hz ==? 0 then 26000000 else hz) / 1000).
Definition test_elapsed_bound_ms (start ms : Z) : M bool :=
  ticks ← test_stm_ticks_per_ms;
  let ticks := u64 (ms * ticks) in
  e ← stopwatch_elapsed start;
  mret ((if ticks ==? 0 then 1 else ticks) <=? e).
Definition test_heartbeat : M unit :=
  now ← stopwatch_get;
  s ← get_app;
  ticks ← test_stm_ticks_per_ms;
  if u64 (now - heartbeat_last s) <? u64 (TEST_HEARTBEAT_MS * ticks) then mret tt
  else
    s ← get_app;
    put_app (Tests (assertions s) (failures s) now);;
    usart_putc USART0 0x2E.
Definition test_heartbeat_end : M unit := usart_putc USART0 0x0A.
End Code.

(** ** The session as the host sees it *)

(** What the library may touch between two messages. *)
Definition test_port `{B : Board} (p : port) : Prop :=
  wdt_port p \/ p = Mmio 32 SCU_CHIPID \/ exists a, p = Mmio 8 a /\ 0xA0000000 <= a < 0xB0000000.

(** The length of what is printed, up to a constant; the work of [printf] is linear in it. *)
Definition arg_size (a : printf_arg) : nat := match a with PText s => String.length s | PNum _ | PMem _ => 16 end.
Definition message_size (m : message) : nat := String.length (fst m) + sum_list (map arg_size (snd m)).

(** What [printf] promises: the host reads one more message; the clocks keep running; memory
    is as before up to the scratch slots of [usart_putc]. *)
Class Printing (D : Type) `{!Device D} `{B : Board} `{!UsartLine USART0 D} (printf : message -> M D tests unit) := {
  clocks : Z -> Z;
  clocks_u32 a : is_u32 (clocks a);
  clocks_run : clock_ideal clocks ClkStm <> 0;
  clocks_stable : stable test_port (cgu_reads clocks);
  host_reads : list Z -> list message;
  host_zero tx : host_reads (tx ++ [0]) = host_reads tx;
  printf_fuel : nat;
  printf_prints msg f w bs tx : (printf_fuel + message_size msg < f)%nat -> line USART0 bs tx (w_dev w) -> cgu_reads clocks (w_dev w) ->
    exists w' tx', printf msg f w = Done tt w' /\ line USART0 bs tx' (w_dev w') /\ cgu_reads clocks (w_dev w') /\
      host_reads tx' = host_reads tx ++ [msg] /\ w_lib w' = w_lib w /\ w_app w' = w_app w /\ scratch (w_mem w) (w_mem w');
}.

Lemma test_quiet `{B : Board} p : test_port p -> usart_quiet USART0 p = true.
Proof.
  intros [Hp|[->|(a & -> & Ha)]]; [by apply wdt_quiet|done|]. unfold usart_quiet, USART0.
  destruct (Z.ltb_spec a 0xF1000000); [done|lia].
Qed.

Section Session.
Context {D : Type} `{!Device D} `{B : Board} `{!UsartLine USART0 D} `{TestBuild} (printf : message -> M D tests unit)
  `{!Printing D printf}.
Implicit Types w : world D tests.

(** Nothing received, [ms] read by the host, the clocks running, [a] and [k] counted. *)
Definition bench (ms : list message) (a k : Z) w : Prop :=
  (exists tx, line USART0 [] tx (w_dev w) /\ host_reads tx = ms) /\ cgu_reads clocks (w_dev w) /\
  assertions (w_app w) = a /\ failures (w_app w) = k.

Lemma bench_stable tx : stable test_port (fun d => line USART0 [] tx d /\ cgu_reads clocks d).
Proof.
  intros p d Hp [Hl Hc]. destruct (line_stable USART0 [] tx p d (test_quiet p Hp) Hl) as [H1 H2].
  destruct (clocks_stable p d Hp Hc) as [H3 H4]. split; [done|]. intros v. split; auto.
Qed.
Lemma bench_wdt tx : stable wdt_port (fun d => line USART0 [] tx d /\ cgu_reads clocks d).
Proof. eapply stable_weaken; [|apply bench_stable]. intros p Hp. by left. Qed.

Lemma wp_printf Q f w ms a k msg : bench ms a k w -> (printf_fuel + message_size msg < f)%nat ->
  (forall w', bench (ms ++ [msg]) a k w' -> w_lib w' = w_lib w -> w_app w' = w_app w -> Q tt w') ->
  wp total (printf msg) Q f w.
Proof.
  intros ((tx & Hl & <-) & Hc & Ha & Hk) Hf HQ.
  destruct (printf_prints msg f w [] tx Hf Hl Hc) as (w' & tx' & E & H1 & H2 & H3 & H4 & H5 & _).
  unfold wp. rewrite E. apply HQ; [|done|done]. unfold bench. rewrite H5. split_and!; [by exists tx'|done..].
Qed.
Lemma wp_stm f w tx : line USART0 [] tx (w_dev w) /\ cgu_reads clocks (w_dev w) ->
  wp total cpu_get_stm_freq (fun v w' => v <> 0 /\ framed (fun d => line USART0 [] tx d /\ cgu_reads clocks d) w w') f w.
Proof.
  intros [Hl Hc]. destruct (ret_stm (A := tests) clocks clocks_u32 f w Hc) as [log E]. unfold wp. rewrite E.
  split; [apply clocks_run|]. by split_and!.
Qed.
Lemma wp_reset_timeout Q f w ms a k : bench ms a k w ->
  (forall w', bench ms a k w' -> w_app w' = w_app w -> Q tt w') -> wp total reset_timeout Q f w.
Proof.
  intros ((tx & Hl & Hm) & Hc & Ha & Hk) HQ.
  apply wp_bind, wp_bind. eapply wp_mono; [by apply wp_stm|]. intros v w1 (Hv & [HI1 HI1'] & E1 & E2 & E3).
  apply wp_bind, wp_get_lib, wp_put_lib. apply wp_bind, wp_bind.
  apply (wp_stopwatch_get (fun d => line USART0 [] tx d /\ cgu_reads clocks d)); [apply wdt_stm, bench_wdt|done|].
  intros t w2 (HI2 & F1 & F2 & F3). apply wp_bind, wp_get_lib, wp_put_lib.
  eapply (wp_wdt_serve _ (bench_wdt tx)); [done| |].
  { cbn [set_lib w_lib ticks_per_s]. rewrite F3. done. }
  intros w3 ([HI3 HI3'] & G1 & G2 & _). assert (w_app w3 = w_app w) as Ea by (simpl in *; congruence).
  apply HQ; [|done]. unfold bench. rewrite Ea. split_and!; [by exists tx|done..].
Qed.

(** The name of the phone: whatever the flash holds, the reading ends and changes only the
    arrays. *)
Definition looked (I : D -> Prop) w w' : Prop :=
  I (w_dev w') /\ w_lib w' = w_lib w /\ w_app w' = w_app w /\
  forall a, mem_valid (w_mem w) a = true -> mem_valid (w_mem w') a = true.
Lemma looked_refl I w : I (w_dev w) -> looked I w w.
Proof. done. Qed.
Lemma looked_trans I w1 w2 w3 : looked I w1 w2 -> looked I w2 w3 -> looked I w1 w3.
Proof. intros (_ & E1 & E2 & V1) (HI2 & F1 & F2 & V2). split_and!; [done|congruence|congruence|auto]. Qed.
Lemma framed_looked I w w' : framed I w w' -> looked I w w'.
Proof. intros (HI1 & E1 & E2 & E3). split_and!; [done..|]. by rewrite E1. Qed.

Section Phone.
Context (I : D -> Prop) (HI : stable test_port I).
Lemma wp_load_flash E Q f w a : I (w_dev w) -> 0xA0000000 <= a < 0xB0000000 ->
  (forall v w', framed I w w' -> Q v w') -> wp E (load_u8 a) Q f w.
Proof.
  intros H0 Ha HQ. unfold load_u8. destruct (Z.leb_spec 0xA0000000 a), (Z.ltb_spec a 0xB0000000); try lia.
  apply (wp_rd_frame _ _ _ (Mmio 8 a) _ _ _ HI); [right; right; by eexists|done|done].
Qed.
Lemma wp_st8_looked E Q f w a v : I (w_dev w) -> mem_valid (w_mem w) a = true ->
  (forall w', looked I w w' -> Q tt w') -> wp E (st8 a v) Q f w.
Proof.
  intros H0 Ha HQ. apply wp_st8; [done|]. apply HQ. split_and!; [done..|]. intros b Hb. by apply mem_valid_insert.
Qed.
Lemma wp_read_flash_string E Q f w dst size address : I (w_dev w) -> 1 <= size -> (Z.to_nat size < f)%nat ->
  (forall i, 0 <= i < size -> mem_valid (w_mem w) (dst + i) = true) ->
  0xA0000000 <= address -> address + size <= 0xB0000000 ->
  (forall r w', looked I w w' -> Q r w') -> wp E (read_flash_string dst size address) Q f w.
Proof.
  intros H0 Hs Hf Hv Ha1 Ha2 HQ. unfold read_flash_string.
  assert (mem_valid (w_mem w) dst = true) as Hv0 by (replace dst with (dst + 0) by lia; apply Hv; lia).
  apply wp_bind, wp_st8_looked; [done..|]. intros w1 L1.
  assert (forall w2 i, looked I w w2 -> 0 <= i < size -> mem_valid (w_mem w2) (dst + i) = true) as Hv2.
  { intros w2 i (_ & _ & _ & V) Hi. by apply V, Hv. }
  eapply (wp_iter _ _ (fun i w2 => 0 <= i <= size /\ looked I w w2) (fun i _ => Z.to_nat (size - i)));
    [split; [lia|done]|lia|].
  intros i w2 [Hi L2]. pose proof (Hv2 w2 0 L2 ltac:(lia)) as Hd. rewrite Z.add_0_r in Hd.
  destruct (Z.ltb_spec i size).
  - apply wp_bind, wp_load_flash; [apply L2|lia|]. intros v w3 F3.
    assert (looked I w w3) as L3 by (eapply looked_trans; [exact L2|by apply framed_looked]).
    pose proof (Hv2 w3 0 L3 ltac:(lia)) as Hd3. rewrite Z.add_0_r in Hd3. pose proof (Hv2 w3 i L3 ltac:(lia)) as Hd4.
    destruct (v ==? 0).
    + apply wp_bind, wp_st8_looked; [apply L3|done|]. intros w4 L4. apply wp_ret, HQ. by eapply looked_trans.
    + destruct (_ || _); (apply wp_bind, wp_st8_looked; [apply L3|assumption|]); intros w4 L4; apply wp_ret.
      * apply HQ. by eapply looked_trans.
      * split; [split; [lia|by eapply looked_trans]|lia].
  - apply wp_bind, wp_st8_looked; [apply L2|done|]. intros w3 L3. apply wp_ret, HQ. by eapply looked_trans.
Qed.

(** An array of [PHONE_INFO_STRING_SIZE] bytes in a slot. *)
Definition array_ok (a : Z) w : Prop := forall i, 0 <= i < 16 -> mem_valid (w_mem w) (a + i) = true.
Lemma array_looked a w w' : looked I w w' -> array_ok a w -> array_ok a w'.
Proof. intros (_ & _ & _ & V) Ha i Hi. by apply V, Ha. Qed.
Lemma wp_alloc_array E Q f w a : I (w_dev w) ->
  (forall w', looked I w w' -> array_ok a w' -> Q tt w') -> wp E (alloc a PHONE_INFO_STRING_SIZE) Q f w.
Proof.
  intros H0 HQ. apply wp_alloc, HQ.
  - split_and!; [done..|]. intros b Hb. by apply mem_valid_alloc_mono.
  - intros i Hi. apply mem_valid_alloc. unfold PHONE_INFO_STRING_SIZE. lia.
Qed.
Lemma wp_init_unknown E Q f w a : I (w_dev w) ->
  (forall w', looked I w w' -> array_ok a w' -> Q tt w') -> wp E (init_unknown a) Q f w.
Proof.
  intros H0 HQ. apply wp_bind, wp_alloc_array; [done|]. intros w1 L1 Ha1. apply wp_bind.
  eapply (wp_foldM _ _ (fun done x w' => x = a + Z.of_nat (length done) /\ looked I w1 w')).
  - split; [simpl; lia|by apply looked_refl; apply L1].
  - intros done y todo x w' Hl [-> L]. apply (f_equal length) in Hl. rewrite length_app in Hl. simpl in Hl.
    apply wp_bind, wp_st8_looked; [apply L|apply (array_looked a w1 w' L Ha1); lia|].
    intros w'' L'. apply wp_ret. rewrite length_app. simpl. split; [lia|]. by eapply looked_trans.
  - intros x w' [_ L]. apply wp_ret, HQ; [by eapply looked_trans|by eapply array_looked].
Qed.
Lemma wp_copy_string E Q f w dst src : I (w_dev w) -> array_ok dst w -> array_ok src w ->
  (forall w', looked I w w' -> Q tt w') -> wp E (copy_string dst src) Q f w.
Proof.
  intros H0 Hd Hs HQ. eapply (wp_foldM _ _ (fun _ _ w' => looked I w w')); [done| |by intros [] w' L; apply HQ].
  intros done y todo [] w' Hl L. pose proof (seqZ_split _ _ _ _ Hl) as [-> Hy]. unfold PHONE_INFO_STRING_SIZE in Hy.
  apply wp_bind, wp_ld8; [apply (array_looked _ _ _ L Hs); lia|].
  apply wp_st8_looked; [apply L|apply (array_looked _ _ _ L Hd); lia|]. intros w'' L'. by eapply looked_trans.
Qed.
Lemma wp_read_phone_info E Q f w vendor model ma va : I (w_dev w) -> (16 < f)%nat -> array_ok vendor w -> array_ok model w ->
  0xA0000000 <= ma -> ma + 16 <= 0xB0000000 -> 0xA0000000 <= va -> va + 16 <= 0xB0000000 ->
  (forall r w', looked I w w' -> Q r w') -> wp E (read_phone_info vendor model ma va) Q f w.
Proof.
  intros H0 Hf Hv Hm Hm1 Hm2 Hv1 Hv2 HQ. unfold read_phone_info.
  apply wp_bind, wp_alloc_array; [done|]. intros w1 L1 A1. apply wp_bind, wp_alloc_array; [apply L1|]. intros w2 L2 A2.
  apply wp_bind, wp_read_flash_string; [apply L2|done|exact Hf| |done|done|].
  { intros i Hi. by apply (array_looked _ _ _ L2 A1). }
  intros r w3 L3. pose proof (looked_trans _ _ _ _ (looked_trans _ _ _ _ L1 L2) L3) as L13.
  destruct r; simpl; [|by apply wp_ret, HQ].
  apply wp_bind, wp_read_flash_string; [apply L3|done|exact Hf| |done|done|].
  { intros i Hi. by apply (array_looked _ _ _ L3 A2). }
  intros r w4 L4. pose proof (looked_trans _ _ _ _ L13 L4) as L14.
  destruct r; simpl; [|by apply wp_ret, HQ].
  apply wp_bind, wp_copy_string; [apply L4|by apply (array_looked _ _ _ L14)| |].
  { apply (array_looked _ w1 w4); [|exact A1]. eapply looked_trans; [exact L2|]. by eapply looked_trans. }
  intros w5 L5. pose proof (looked_trans _ _ _ _ L14 L5) as L15.
  apply wp_bind, wp_copy_string; [apply L5|by apply (array_looked _ _ _ L15)| |].
  { apply (array_looked _ w2 w5); [|exact A2]. eapply looked_trans; [exact L3|]. by eapply looked_trans. }
  intros w6 L6. apply wp_ret, HQ. by eapply looked_trans.
Qed.
End Phone.

(** ** Every report is one message *)
Definition hardware_message (cpu : string) (revision : Z) : message :=
  ("# Hardware: vendor=%s, phone=%s, CPU=%s rev=%02X" +:+ NL, [PMem hw_vendor; PMem hw_model; PText cpu; PNum revision]).
Lemma looked_bench tx ms a k w w' : looked (fun d => line USART0 [] tx d /\ cgu_reads clocks d) w w' ->
  host_reads tx = ms -> bench ms a k w -> bench ms a k w'.
Proof. intros ([H1 H2] & _ & E & _) Ht (_ & _ & Ha & Hk). unfold bench. rewrite E. split_and!; [by exists tx|done..]. Qed.

Lemma wp_print_hardware Q f w ms a k : bench ms a k w -> (printf_fuel + 128 < f)%nat ->
  (forall w' cpu r, bench (ms ++ [hardware_message cpu r]) a k w' -> Q tt w') -> wp total (print_hardware printf) Q f w.
Proof.
  intros Hb Hf HQ. pose proof Hb as ((tx & Hl & Hm) & Hc & _).
  set (I := fun d => line USART0 [] tx d /\ cgu_reads clocks d). pose proof (bench_stable tx : stable test_port I) as HS.
  apply wp_bind, (wp_init_unknown I); [done|]. intros w1 L1 A1.
  apply wp_bind, (wp_init_unknown I); [apply L1|]. intros w2 L2 A2.
  assert (test_port (Mmio 32 SCU_CHIPID)) as Hp by (right; by left).
  apply wp_bind. eapply (wp_rd_frame _ _ I); [exact HS|exact Hp|apply L2|]. intros chip w3 F3.
  apply wp_bind. eapply (wp_rd_frame _ _ I); [exact HS|exact Hp|apply F3|]. intros rev w4 F4.
  pose proof (looked_trans _ _ _ _ L2 (looked_trans _ _ _ _ (framed_looked _ _ _ F3) (framed_looked _ _ _ F4))) as L14.
  pose proof (looked_trans _ _ _ _ (framed_looked _ _ _ F3) (framed_looked _ _ _ F4)) as L24.
  cbv zeta. apply wp_bind, (wp_read_phone_info I HS); try (lia || done);
    [apply F4|by apply (array_looked I _ _ _ L14)|by apply (array_looked I _ _ _ L24)|]. intros r w5 L5.
  pose proof (looked_trans _ _ _ _ L14 L5) as L15. pose proof (looked_trans _ _ _ _ L24 L5) as L25.
  assert (forall w6, looked I w5 w6 -> forall cpu rev, (String.length cpu <= 16)%nat ->
    wp total (printf (hardware_message cpu rev)) Q f w6) as Hprint.
  { intros w6 L6 cpu rev' Hcpu. apply (wp_printf _ _ _ ms a k); [|unfold message_size; simpl; lia|intros; by eapply HQ].
    apply (looked_bench tx _ _ _ w); [|done|done]. eapply looked_trans; [exact L1|]. by eapply looked_trans. }
  assert (forall c : Z, (String.length (if c ==? 0x1A then "PMB8875" else if c ==? 0x1B then "PMB8876" else "unknown") <= 16)%nat) as Hlen.
  { intros c. destruct (c ==? 0x1A); [|destruct (c ==? 0x1B)]; simpl; lia. }
  destruct r; cbn [negb]; apply wp_bind.
  - apply wp_ret, Hprint; [by apply looked_refl; apply L5|apply Hlen].
  - apply wp_bind, (wp_read_phone_info I HS); try (lia || done);
      [apply L5|by apply (array_looked I _ _ _ L15)|by apply (array_looked I _ _ _ L25)|].
    intros r w6 L6. apply wp_ret, Hprint; [done|apply Hlen].
Qed.
End Session.

(** ** The protocol *)

(** What a test program reports. *)
Inductive assertion :=
  | Category (name : string)
  | Assert (name : string) (condition : bool)
  | EqU32 (name : string) (expected actual : Z)
  | IdU32 (name : string) (expected actual : Z)
  | ModuleId (name : string) (expected actual : Z)
  | ModuleClock (name : string) (clc : Z)
  | Skip (name reason : string).
Definition run_assertion {D} `{!Device D} `{B : Board} `{TestBuild} (printf : message -> M D tests unit) (t : assertion) :
    M D tests unit :=
  match t with
  | Category name => test_category printf name
  | Assert name c => _ ← test_check printf name c; mret tt
  | EqU32 name e a => _ ← test_eq_u32 printf name e a; mret tt
  | IdU32 name e a => _ ← test_id_u32 printf name e a; mret tt
  | ModuleId name e a => _ ← test_module_id printf name e a; mret tt
  | ModuleClock name clc => _ ← test_module_clock printf name clc; mret tt
  | Skip name reason => test_skip printf name reason
  end.
Definition test_program {D} `{!Device D} `{B : Board} `{TestBuild} (printf : message -> M D tests unit) (name : string)
    (ts : list assertion) : M D tests Z :=
  test_start printf name;; foldM (fun _ t => run_assertion printf t) tt ts;; test_finish printf.

(** The lines of the protocol that are not comments. *)
Inductive tap :=
  | TapVersion
  | TapPoint (n : Z) (ok : bool) (name : string)
  | TapSkip (n : Z) (name reason : string)
  | TapPlan (n : Z)
  | TapResult (ok : bool) (failed : Z).
Definition tap_of (m : message) : list tap :=
  match snd m with
  | [] => if decide (fst m = "TAP version 13" +:+ NL) then [TapVersion] else []
  | [PText verdict; PNum n; PText _; PText name; PText _] =>
      if decide (fst m = "%s %u - %s%s%s" +:+ NL) then [TapPoint n (bool_decide (verdict = "ok")) name] else []
  | [PNum n; PText _; PText name; PText reason; PText _] =>
      if decide (fst m = "ok %u - %s%s # SKIP %s%s" +:+ NL) then [TapSkip n name reason] else []
  | [PNum n] => if decide (fst m = "1..%u" +:+ NL) then [TapPlan n] else []
  | [PText _; PText verdict; PText _; PNum n] =>
      if decide (fst m = "# result: %s%s%s (%u failed)" +:+ NL) then [TapResult (bool_decide (verdict = "PASS")) n] else []
  | _ => []
  end.
Definition taps (ms : list message) : list tap := mjoin (map tap_of ms).

(** The specification: the assertions numbered from [n + 1] on. *)
Definition assertion_point (n : Z) (t : assertion) : option tap :=
  match t with
  | Category _ => None
  | Assert name c => Some (TapPoint n c name)
  | EqU32 name e a | IdU32 name e a => Some (TapPoint n (a =? e) name)
  | ModuleId name e a => Some (TapPoint n ((a .& not32 0xFF) =? (e .& not32 0xFF)) name)
  | ModuleClock name clc => Some (TapPoint n (((clc .& 3) =? 0) && negb ((clc .& 0xFF00) =? 0)) name)
  | Skip name reason => Some (TapSkip n name reason)
  end.
Fixpoint tap_points (n : Z) (ts : list assertion) : list tap :=
  match ts with
  | [] => []
  | t :: ts => match assertion_point (n + 1) t with
               | Some p => p :: tap_points (n + 1) ts
               | None => tap_points n ts
               end
  end.
Definition tap_failed (p : tap) : bool := match p with TapPoint _ false _ => true | _ => false end.
Definition tap_failures (ps : list tap) : Z := Z.of_nat (length (filter (fun p => tap_failed p = true) ps)).
Definition assertion_size (t : assertion) : nat :=
  match t with
  | Category name | Assert name _ | EqU32 name _ _ | IdU32 name _ _ | ModuleId name _ _ | ModuleClock name _ =>
      128 + String.length name
  | Skip name reason => 128 + String.length name + String.length reason
  end.

Section Protocol.
Context {D : Type} `{!Device D} `{B : Board} `{!UsartLine USART0 D} `{TestBuild} (printf : message -> M D tests unit)
  `{!Printing D printf}.
Implicit Types w : world D tests.

(** The session so far: the lines without comments, and the counts. *)
Definition tapping (ps : list tap) (a k : Z) w : Prop := exists ms, taps ms = ps /\ bench printf ms a k w.
Lemma taps_snoc ms m : taps (ms ++ [m]) = taps ms ++ tap_of m.
Proof. unfold taps. rewrite map_app, join_app. simpl. by rewrite app_nil_r. Qed.
Lemma wp_tap Q f w ps a k msg : tapping ps a k w -> (printf_fuel + message_size msg < f)%nat ->
  (forall w', tapping (ps ++ tap_of msg) a k w' -> w_app w' = w_app w -> Q tt w') -> wp total (printf msg) Q f w.
Proof.
  intros (ms & <- & Hb) Hf HQ. eapply wp_printf; [exact Hb|exact Hf|]. intros w' Hb' _ E. apply HQ; [|done].
  exists (ms ++ [msg]). by rewrite taps_snoc.
Qed.
Lemma wp_tap_timeout Q f w ps a k : tapping ps a k w -> (forall w', tapping ps a k w' -> Q tt w') -> wp total reset_timeout Q f w.
Proof. intros (ms & <- & Hb) HQ. eapply wp_reset_timeout; [exact Hb|]. intros w' Hb' _. apply HQ. by exists ms. Qed.
Lemma color_length s : (String.length (color s) <= S (String.length s))%nat.
Proof. unfold color. destruct test_color; simpl; lia. Qed.

Lemma wp_count Q f w ps a k : tapping ps a k w -> 0 <= a -> a + 1 < 0x100000000 ->
  (forall w', tapping ps (a + 1) k w' -> Q (a + 1) w') -> wp total count_assertion Q f w.
Proof.
  intros (ms & Hm & Hl & Hc & Ha & Hk) H0 H1 HQ. apply wp_bind, wp_get_app, wp_bind, wp_put_app, wp_ret.
  rewrite Ha, u32_small by (unfold is_u32; lia). apply HQ. exists ms. split; [done|]. by split_and!.
Qed.
Lemma wp_report Q f w ps a k name passed : tapping ps a k w -> 0 <= a -> a + 1 < 0x100000000 -> 0 <= k <= a ->
  (printf_fuel + 64 + String.length name < f)%nat ->
  (forall w', tapping (ps ++ [TapPoint (a + 1) passed name]) (a + 1) (if passed then k else k + 1) w' -> Q passed w') ->
  wp total (report printf name passed) Q f w.
Proof.
  intros Hb H0 H1 Hk Hf HQ. apply wp_bind, (wp_count _ _ _ ps a k Hb H0 H1). intros w1 Hb1. apply wp_bind.
  eapply wp_tap; [exact Hb1| |].
  { pose proof (color_length "[0m"). pose proof (color_length "[31m"). pose proof (color_length "[32m").
    unfold message_size, COLOR_GREEN, COLOR_RED, COLOR_RESET. destruct passed; simpl in *; lia. }
  intros w2 Hb2 _. apply wp_bind, wp_when.
  - intros Hp. destruct passed; [done|]. apply wp_bind, wp_get_app, wp_put_app, wp_ret, HQ.
    destruct Hb2 as (ms & Hm & Hl & Hc & Ea & Ek). exists ms. split; [by rewrite Hm|].
    unfold bench. cbn [w_dev w_app set_app assertions failures]. rewrite Ek, u32_small by (unfold is_u32; lia).
    by split_and!.
  - intros Hp. destruct passed; [|done]. apply wp_ret, HQ. exact Hb2.
Qed.

(** A comment: a message that is no line of the protocol. *)
Lemma wp_comment Q f w ps a k msg : tapping ps a k w -> tap_of msg = [] -> (printf_fuel + message_size msg < f)%nat ->
  (forall w', tapping ps a k w' -> Q tt w') -> wp total (printf msg) Q f w.
Proof. intros Hb Ht Hf HQ. eapply wp_tap; [done..|]. intros w' Hb' _. apply HQ. by rewrite Ht, app_nil_r in Hb'. Qed.
Ltac sizes :=
  pose proof (color_length "[0m"); pose proof (color_length "[31m"); pose proof (color_length "[32m");
  pose proof (color_length "[33m"); pose proof (color_length "[36m");
  unfold message_size, COLOR_GREEN, COLOR_RED, COLOR_RESET, COLOR_YELLOW, COLOR_CYAN; simpl in *; lia.

(** A report, its explanation and the restart of the limit. *)
Lemma wp_report_then {R} Q f w ps a k name passed (explain : M D tests unit) (r : R) : tapping ps a k w ->
  0 <= a -> a + 1 < 0x100000000 -> 0 <= k <= a -> (printf_fuel + 64 + String.length name < f)%nat ->
  (forall ps a k w Q', passed = false -> tapping ps a k w -> (forall w', tapping ps a k w' -> Q' tt w') -> wp total explain Q' f w) ->
  (forall w', tapping (ps ++ [TapPoint (a + 1) passed name]) (a + 1) (if passed then k else k + 1) w' -> Q r w') ->
  wp total (_ ← report printf name passed; when (negb passed) explain;; reset_timeout;; mret r) Q f w.
Proof.
  intros Hb H0 H1 Hk Hf He HQ. apply wp_bind. eapply wp_report; [done..|]. intros w1 Hb1.
  apply wp_bind. assert (forall w2, tapping (ps ++ [TapPoint (a + 1) passed name]) (a + 1) (if passed then k else k + 1) w2 ->
    wp total (reset_timeout;; mret r) Q f w2) as Hrest.
  { intros w2 Hb2. apply wp_bind. eapply wp_tap_timeout; [exact Hb2|]. intros w3 Hb3. by apply wp_ret, HQ. }
  apply wp_when; intros Hp; [|by apply Hrest]. destruct passed; [done|].
  eapply He; [done|exact Hb1|]. intros w2 Hb2. by apply Hrest.
Qed.
Lemma wp_test_eq_u32 Q f w ps a k name e v : tapping ps a k w -> 0 <= a -> a + 1 < 0x100000000 -> 0 <= k <= a ->
  (printf_fuel + 64 + String.length name < f)%nat ->
  (forall r w', tapping (ps ++ [TapPoint (a + 1) (v =? e) name]) (a + 1) (if v =? e then k else k + 1) w' -> Q r w') ->
  wp total (test_eq_u32 printf name e v) Q f w.
Proof.
  intros Hb H0 H1 Hk Hf HQ. unfold test_eq_u32. apply wp_bind. eapply wp_report; [done..|]. intros w1 Hb1. apply wp_bind.
  assert (forall w2, tapping (ps ++ [TapPoint (a + 1) (v =? e) name]) (a + 1) (if v =? e then k else k + 1) w2 ->
    wp total (reset_timeout;; mret (v =? e)) Q f w2) as Hrest.
  { intros w2 Hb2. apply wp_bind. eapply wp_tap_timeout; [exact Hb2|]. intros w3 Hb3. by apply wp_ret, (HQ (v =? e)). }
  apply wp_when; intros _; [|by apply Hrest].
  apply wp_bind. eapply wp_comment; [exact Hb1|reflexivity|sizes|]. intros w2 Hb2.
  eapply wp_comment; [exact Hb2|reflexivity|sizes|]. intros w3 Hb3. by apply Hrest.
Qed.

(** The counts after an assertion. *)
Definition counted (a : Z) (t : assertion) : Z := match assertion_point (a + 1) t with Some _ => a + 1 | None => a end.
Lemma wp_assertion Q f w ps a k t : tapping ps a k w -> 0 <= a -> a + 1 < 0x100000000 -> 0 <= k <= a ->
  (printf_fuel + assertion_size t < f)%nat ->
  (forall w', tapping (ps ++ tap_points a [t]) (counted a t) (k + tap_failures (tap_points a [t])) w' -> Q tt w') ->
  wp total (run_assertion printf t) Q f w.
Proof.
  intros Hb H0 H1 Hk Hf HQ.
  assert (forall (b : bool), k + (if b then 0 else 1) = (if b then k else k + 1)) as Eb by (intros []; lia).
  assert (forall n ok name, tap_failures [TapPoint n ok name] = if ok : bool then 0 else 1) as Ef by by intros n [] name.
  destruct t as [name|name c|name e v|name e v|name e v|name clc|name reason]; cbn [assertion_size] in Hf;
    cbn [run_assertion]; cbn [tap_points assertion_point] in HQ; unfold counted in HQ; cbn [assertion_point] in HQ;
    rewrite ?Ef, ?Eb in HQ.
  - apply wp_bind. eapply wp_comment; [exact Hb|reflexivity|sizes|]. intros w1 Hb1. eapply wp_tap_timeout; [exact Hb1|].
    intros w2 Hb2. apply HQ. by rewrite app_nil_r, Z.add_0_r.
  - unfold test_check. apply wp_bind, wp_bind. eapply wp_report; [done..|lia|]. intros w1 Hb1.
    apply wp_bind. eapply wp_tap_timeout; [exact Hb1|]. intros w2 Hb2. by apply wp_ret, wp_ret, HQ.
  - apply wp_bind. eapply wp_test_eq_u32; [done..|lia|]. intros r w1 Hb1. by apply wp_ret, HQ.
  - apply wp_bind, wp_bind. eapply wp_comment; [exact Hb|reflexivity|sizes|]. intros w1 Hb1.
    eapply wp_test_eq_u32; [done..|lia|]. intros r w2 Hb2. by apply wp_ret, HQ.
  - apply wp_bind, wp_bind. eapply wp_comment; [exact Hb|reflexivity|sizes|]. intros w1 Hb1.
    eapply wp_test_eq_u32; [done..|lia|]. intros r w2 Hb2. by apply wp_ret, HQ.
  - unfold test_module_clock. cbv zeta. apply wp_bind. eapply wp_report_then; [done..|lia| |intros w1 Hb1; by apply wp_ret, HQ].
    intros ps' a' k' w' Q' _ Hb' HQ'. eapply wp_comment; [exact Hb'|reflexivity|sizes|done].
  - apply wp_bind. eapply wp_count; [exact Hb|done..|]. intros w1 Hb1. apply wp_bind.
    eapply wp_tap; [exact Hb1|sizes|]. intros w2 Hb2 _. eapply wp_tap_timeout; [exact Hb2|].
    intros w3 Hb3. apply HQ. replace (k + _) with k by (unfold tap_failures; simpl; lia). exact Hb3.
Qed.

Lemma tap_points_cons a t ts : tap_points a (t :: ts) = tap_points a [t] ++ tap_points (counted a t) ts.
Proof. unfold counted. simpl. by destruct (assertion_point (a + 1) t). Qed.
Lemma tap_failures_app p q : tap_failures (p ++ q) = tap_failures p + tap_failures q.
Proof. unfold tap_failures. rewrite filter_app, length_app. lia. Qed.
Lemma tap_failures_length p : 0 <= tap_failures p <= Z.of_nat (length p).
Proof. unfold tap_failures. pose proof (length_filter (fun p => tap_failed p = true) p). lia. Qed.
Lemma counted_points a t : counted a t = a + Z.of_nat (length (tap_points a [t])).
Proof. unfold counted. simpl. destruct (assertion_point (a + 1) t); simpl; lia. Qed.
Lemma tap_points_length a ts : (length (tap_points a ts) <= length ts)%nat.
Proof.
  revert a. induction ts as [|t ts IH]; intros a; simpl; [done|]. destruct (assertion_point (a + 1) t); simpl.
  - specialize (IH (a + 1)). lia.
  - specialize (IH a). lia.
Qed.
Lemma wp_assertions Q f ts : forall w ps a k, tapping ps a k w -> 0 <= a -> a + Z.of_nat (length ts) < 0x100000000 ->
  0 <= k <= a -> (forall t, t ∈ ts -> (printf_fuel + assertion_size t < f)%nat) ->
  (forall w', tapping (ps ++ tap_points a ts) (a + Z.of_nat (length (tap_points a ts))) (k + tap_failures (tap_points a ts)) w' ->
     Q tt w') ->
  wp total (foldM (fun _ t => run_assertion printf t) tt ts) Q f w.
Proof.
  induction ts as [|t ts IH]; intros w ps a k Hb H0 H1 Hk Hf HQ.
  - apply wp_ret, HQ. simpl. by rewrite app_nil_r, !Z.add_0_r.
  - simpl length in H1. apply wp_bind. eapply wp_assertion; [exact Hb|done|lia|done|apply Hf; by left|]. intros w1 Hb1.
    pose proof (tap_failures_length (tap_points a [t])). pose proof (tap_points_length a [t]) as Hpl.
    change (length [t]) with 1%nat in Hpl.
    rewrite counted_points in Hb1. eapply IH; [exact Hb1|lia..|intros; apply Hf; by right|].
    intros w2 Hb2. apply HQ. rewrite tap_points_cons, counted_points, tap_failures_app, length_app, app_assoc.
    replace (a + Z.of_nat (_ + _)) with (a + Z.of_nat (length (tap_points a [t])) +
      Z.of_nat (length (tap_points (a + Z.of_nat (length (tap_points a [t]))) ts))) by lia.
    by rewrite Z.add_assoc.
Qed.

Lemma wp_test_start Q f w tx name : line USART0 [] tx (w_dev w) -> cgu_reads clocks (w_dev w) ->
  (printf_fuel + 128 + String.length name < f)%nat ->
  (forall w', tapping (taps (host_reads tx) ++ [TapVersion]) 0 0 w' -> Q tt w') -> wp total (test_start printf name) Q f w.
Proof.
  intros Hl Hc Hf HQ. apply wp_bind, wp_get_app, wp_bind, wp_put_app.
  apply wp_bind, (wp_wdt_init_custom _ (bench_wdt printf tx)); [done|intros w1 Hw1; by apply (wp_stm printf)|].
  intros w1 [Hl1 Hc1] _ Ea _ _.
  assert (tapping (taps (host_reads tx)) 0 0 w1) as Hb1.
  { exists (host_reads tx). split; [done|]. unfold bench. rewrite Ea. split_and!; [by exists tx|done..]. }
  apply wp_bind. eapply wp_tap_timeout; [exact Hb1|]. intros w2 Hb2.
  apply wp_bind. eapply wp_tap; [exact Hb2|sizes|]. intros w3 Hb3 _.
  apply wp_bind. eapply wp_comment; [exact Hb3|reflexivity|sizes|]. intros w4 (ms & Hm & Hb4).
  eapply wp_print_hardware; [exact Hb4|lia|]. intros w5 cpu r Hb5. apply HQ.
  exists (ms ++ [hardware_message cpu r]). split; [|done]. by rewrite taps_snoc, Hm, app_nil_r.
Qed.
Lemma wp_test_finish Q f w ps a k : tapping ps a k w -> (printf_fuel + 128 < f)%nat ->
  (line_patience (u := USART0) (D := D) + 4 < f)%nat -> (forall w' tx, line USART0 [] tx (w_dev w') ->
     taps (host_reads tx) = ps ++ [TapPlan a; TapResult (k =? 0) k] -> Q (if k =? 0 then 0 else 1) w') ->
  wp total (test_finish printf) Q f w.
Proof.
  intros Hb Hf Hp HQ. pose proof Hb as (ms & _ & _ & _ & Ea & _). apply wp_bind, wp_get_app. rewrite Ea.
  apply wp_bind. eapply wp_tap; [exact Hb|sizes|]. intros w1 Hb1 _. pose proof Hb1 as (ms1 & _ & _ & _ & _ & Ek).
  apply wp_bind, wp_get_app. rewrite Ek. apply wp_bind. eapply wp_tap; [exact Hb1|destruct (k ==? 0); sizes|].
  intros w2 (ms2 & Hm2 & ((tx2 & Hl2 & Hr2) & _ & _ & Ek2)) _. apply wp_bind.
  eapply wp_usart_putc; [exact Hp|exact Hl2|]. intros w3 Hl3 _ [_ Ea3].
  apply wp_bind, wp_get_app, wp_ret. rewrite Ea3, Ek2. eapply HQ; [exact Hl3|].
  change (u8 0) with 0. rewrite host_zero, Hr2, Hm2, <- app_assoc. by destruct (k =? 0).
Qed.
End Protocol.

(** C27. A test program speaks the protocol: for any list of assertions, the run ends, and the
    host has read, comments left out, the version, one point per assertion numbered from 1
    with its verdict, the plan with their number and the result with the number of failures;
    the program returns 0 exactly when there is none. *)
Theorem tap_session {D} `{!Device D} `{B : Board} `{Hu : !UsartLine USART0 D} `{TestBuild} (printf : message -> M D tests unit)
    `{!Printing D printf} (name : string) (ts : list assertion) (tx : list Z) (f : nat) (w : world D tests) :
  line USART0 [] tx (w_dev w) -> cgu_reads clocks (w_dev w) -> Z.of_nat (length ts) < 0x100000000 ->
  (line_patience (u := USART0) (D := D) + 4 < f)%nat -> (printf_fuel + 128 + String.length name < f)%nat ->
  (forall t, t ∈ ts -> (printf_fuel + assertion_size t < f)%nat) ->
  let points := tap_points 0 ts in
  let failed := tap_failures points in
  exists w' tx', test_program printf name ts f w = Done (if failed =? 0 then 0 else 1) w' /\
    line USART0 [] tx' (w_dev w') /\
    taps (host_reads tx') = taps (host_reads tx) ++ [TapVersion] ++ points ++
      [TapPlan (Z.of_nat (length points)); TapResult (failed =? 0) failed].
Proof.
  intros Hl Hc Hn Hf1 Hf2 Hf3 points failed.
  assert (wp total (test_program printf name ts) (fun r w' => r = (if failed =? 0 then 0 else 1) /\
    exists tx', line USART0 [] tx' (w_dev w') /\ taps (host_reads tx') = taps (host_reads tx) ++ [TapVersion] ++ points ++
      [TapPlan (Z.of_nat (length points)); TapResult (failed =? 0) failed]) f w) as Hwp.
  { apply wp_bind. eapply wp_test_start; [done..|]. intros w1 Hb1.
    apply wp_bind. eapply wp_assertions; [exact Hb1|lia..|exact Hf3|]. intros w2 Hb2. rewrite !Z.add_0_l in Hb2.
    eapply wp_test_finish; [exact Hb2|lia|exact Hf1|]. intros w3 tx3 Hl3 Ht3. split; [done|]. exists tx3.
    split; [done|]. by rewrite Ht3, <- !app_assoc. }
  unfold wp in Hwp. destruct (test_program printf name ts f w) as [r w'|c w']; [|done].
  destruct Hwp as (-> & tx' & H1 & H2). by exists w', tx'.
Qed.

(** ** What an exception handler prints *)

(** The bytes written to the transmit register, oldest first. *)
Definition tx_of (e : event) : list Z :=
  match e with Wr p v => if decide (p = Mmio 32 (USART_TXB USART0)) then [v] else [] | Rd _ _ => [] end.
Definition tx_log (log : list event) : list Z := mjoin (map tx_of (rev log)).
Lemma tx_log_cons e log : tx_log (e :: log) = tx_log log ++ tx_of e.
Proof. unfold tx_log. simpl. rewrite map_app, join_app. simpl. by rewrite app_nil_r. Qed.
(** The number that hexadecimal digits stand for. *)
Definition hex_digit (c : Z) : Z := if c <? 0x41 then c - 0x30 else c - 0x41 + 10.
Definition hex_value (cs : list Z) : Z := fold_left (fun v c => v * 16 + hex_digit c) cs 0.
Definition hex_digits (value : Z) : list Z :=
  map (fun shift => nibble_char ((value .>> shift) .& 0xF)) [28; 24; 20; 16; 12; 8; 4; 0].

Section Fault.
Context {D : Type} `{!Device D} `{B : Board} `{!UsartLine USART0 D} (f : nat)
  (Hf : (line_patience (u := USART0) (D := D) < f)%nat).
Implicit Types w : world D tests.
#[local] Abbreviation printed w0 bs w := (tx_log (w_log w) = tx_log (w_log w0) ++ bs).

Lemma wp_fault_putc E Q w0 w bs c : printed w0 bs w -> is_u32 c -> (forall w', printed w0 (bs ++ [c]) w' -> Q tt w') ->
  wp E (fault_putc c) Q f w.
Proof.
  intros Hp Hc HQ. apply wp_bind, wp_wr. set (w1 := set_io _ _ _).
  assert (printed w0 (bs ++ [c]) w1) as H1.
  { subst w1. cbn [set_io w_log]. rewrite tx_log_cons, Hp. cbn [tx_of port_wrap].
    rewrite decide_True, u32_small, app_assoc by done. done. }
  apply wp_bind. eapply (wp_iter _ _ (fun _ w' => printed w0 (bs ++ [c]) w') (fun _ w' => tx_wait (w_dev w')));
    [done|pose proof (line_waits (w_dev w1)); lia|].
  intros [] w2 H2. apply wp_bind, wp_bind, wp_rd. intros v d Hr. apply wp_ret. destruct (line_ris _ _ _ Hr) as [_ Hw].
  assert (printed w0 (bs ++ [c]) (set_io w2 d (Rd (Mmio 32 (USART_RIS USART0)) (port_wrap (Mmio 32 (USART_RIS USART0)) v)))) as H3.
  { cbn [set_io w_log]. by rewrite tx_log_cons, app_nil_r. }
  cbn [port_wrap]. destruct (Z.eqb_spec (u32 v .& USART_RIS_TX) 0) as [E0|_]; cbn [negb];
    [apply wp_bind, wp_ret, wp_ret; split; [exact H3|by apply Hw]|apply wp_ret].
  apply wp_bind, wp_rd. intros v4 d4 _. apply wp_wr, HQ. cbn [set_io w_log]. rewrite !tx_log_cons. cbn [tx_of].
  rewrite decide_False by discriminate. rewrite !app_nil_r. exact H2.
Qed.
Lemma nibble_char_u32 value shift : is_u32 (nibble_char ((value .>> shift) .& 0xF)).
Proof.
  pose proof (land_range_r (value .>> shift) 0xF ltac:(lia)). unfold nibble_char, is_u32.
  destruct (Z.ltb_spec ((value .>> shift) .& 0xF) 10); lia.
Qed.
Lemma wp_fault_put_hex E Q w0 w bs value : printed w0 bs w ->
  (forall w', printed w0 (bs ++ [0x30; 0x78] ++ hex_digits value) w' -> Q tt w') -> wp E (fault_put_hex value) Q f w.
Proof.
  intros Hp HQ. apply wp_bind. eapply wp_fault_putc; [exact Hp|by vm_compute|]. intros w1 H1.
  apply wp_bind. eapply wp_fault_putc; [exact H1|by vm_compute|]. intros w2 H2. rewrite <- app_assoc in H2.
  eapply (wp_foldM _ _ (fun done _ w' => printed w0 (bs ++ [0x30; 0x78] ++
    map (fun shift => nibble_char ((value .>> shift) .& 0xF)) done) w')); [done| |intros [] w' H; by apply HQ].
  intros done shift todo [] w' _ H. eapply wp_fault_putc; [exact H|apply nibble_char_u32|]. intros w'' H''.
  rewrite map_app. by rewrite <- !app_assoc in H''.
Qed.

Lemma wp_fault_chars E Q w0 cs : Forall is_u32 cs -> forall w bs (m : M D tests unit), printed w0 bs w ->
  (forall w', printed w0 (bs ++ cs) w' -> wp E m Q f w') ->
  wp E (foldr (fun c m => fault_putc c;; m) m cs) Q f w.
Proof.
  induction 1 as [|c cs Hc _ IH]; intros w bs m Hp HQ; simpl; [apply HQ; by rewrite app_nil_r|].
  apply wp_bind. eapply wp_fault_putc; [exact Hp|done|]. intros w1 H1. eapply IH; [exact H1|].
  intros w2 H2. apply HQ. by rewrite <- app_assoc in H2.
Qed.
End Fault.

(** The label: up to four letters, ended by a zero. *)
Definition label (a b c d : Z) : list Z :=
  a :: (if b =? 0 then [] else b :: (if c =? 0 then [] else c :: (if d =? 0 then [] else [d]))).
Definition field_start (type : Z) : list Z := [0x0A; 0x23; 0x20; 0x45; 0x58; 0x43; 0x20; type; 0x20].
Lemma nibble_digit n : 0 <= n < 16 -> hex_digit (nibble_char n) = n.
Proof. intros Hn. unfold hex_digit, nibble_char. zcases; lia. Qed.
Lemma hex_digits_value value : is_u32 value -> hex_value (hex_digits value) = value.
Proof.
  intros Hv. unfold hex_value, hex_digits. cbn [map fold_left].
  assert (forall s, 0 <= s -> hex_digit (nibble_char ((value .>> s) .& 0xF)) = value / 2 ^ s mod 16) as E.
  { intros s Hs. change 0xF with (Z.ones 4). rewrite Z.land_ones, Z.shiftr_div_pow2 by lia. apply nibble_digit.
    apply Z.mod_pos_bound. lia. }
  rewrite !E by lia. unfold is_u32 in Hv.
  change (2 ^ 28) with 0x10000000. change (2 ^ 24) with 0x1000000. change (2 ^ 20) with 0x100000. change (2 ^ 16) with 0x10000.
  change (2 ^ 12) with 0x1000. change (2 ^ 8) with 0x100. change (2 ^ 4) with 0x10. change (2 ^ 0) with 1.
  Z.div_mod_to_equations. lia.
Qed.

(** The line of an exception report: once the port works, [fault_field] ends and has
    written exactly the line start, the type, the label up to its terminating zero, the sign
    and eight hexadecimal digits, which read back as the register's value. *)
Theorem fault_field_prints {D} `{!Device D} `{B : Board} `{Hu : !UsartLine USART0 D} (type a b c d value : Z) (f : nat) (w : world D tests) :
  (line_patience (u := USART0) (D := D) < f)%nat -> Forall is_byte [type; a; b; c; d] -> is_u32 value ->
  exists w' digits, fault_field type a b c d value f w = Done tt w' /\
    tx_log (w_log w') = tx_log (w_log w) ++ field_start type ++ label a b c d ++ [0x3D; 0x30; 0x78] ++ digits /\
    length digits = 8%nat /\ hex_value digits = value.
Proof.
  intros Hf Hb Hv. rewrite !Forall_cons in Hb. destruct Hb as (Ht & Ha & Hb & Hc & Hd & _).
  assert (forall x, is_byte x -> is_u32 x) as Hw by (unfold is_byte, is_u32; intros; lia).
  assert (wp total (fault_field type a b c d value) (fun _ w' => tx_log (w_log w') = tx_log (w_log w) ++
    field_start type ++ label a b c d ++ [0x3D; 0x30; 0x78] ++ hex_digits value) f w) as Hwp.
  { change (fault_field type a b c d value) with (foldr (fun c m => fault_putc (D := D) c;; m)
      (when (b !=? 0) (fault_putc b;; when (c !=? 0) (fault_putc c;; when (d !=? 0) (fault_putc d)));;
       fault_putc 0x3D;; fault_put_hex value) (field_start type ++ [a])).
    assert (Forall is_u32 (field_start type ++ [a])) as Hcs.
    { repeat (apply Forall_cons_2; [first [apply Hw; assumption|split; [discriminate|reflexivity]]|]). apply Forall_nil_2. }
    refine (wp_fault_chars f Hf _ _ w _ Hcs w [] _ _ _); [by rewrite app_nil_r|].
    intros w1 H1. apply wp_bind.
    assert (forall w2, tx_log (w_log w2) = tx_log (w_log w) ++ field_start type ++ label a b c d ->
      wp total (fault_putc 0x3D;; fault_put_hex value) (fun _ w' => tx_log (w_log w') = tx_log (w_log w) ++
        field_start type ++ label a b c d ++ [0x3D; 0x30; 0x78] ++ hex_digits value) f w2) as Hrest.
    { intros w2 H2. apply wp_bind. eapply (wp_fault_putc f Hf); [exact H2|by vm_compute|]. intros w3 H3.
      eapply (wp_fault_put_hex f Hf); [exact H3|]. intros w4 H4. rewrite H4. by rewrite <- !app_assoc. }
    unfold label in Hrest |- *. destruct (b ==? 0); cbn [negb when]; [by apply wp_ret, Hrest|].
    apply wp_bind. eapply (wp_fault_putc f Hf); [exact H1|auto|]. intros w2 H2.
    destruct (c ==? 0); cbn [negb when]; [by apply wp_ret, Hrest|].
    apply wp_bind. eapply (wp_fault_putc f Hf); [exact H2|auto|]. intros w3 H3.
    destruct (d ==? 0); cbn [negb when]; [by apply wp_ret, Hrest|].
    eapply (wp_fault_putc f Hf); [exact H3|auto|]. intros w4 H4. by apply Hrest. }
  unfold wp in Hwp. destruct (fault_field type a b c d value f w) as [[] w'|]; [|done].
  exists w', (hex_digits value). split; [done|]. split; [exact Hwp|]. split; [done|by apply hex_digits_value].
Qed.
Lemma fault_field_prints_witness :
  let B := plain_board PMB8876 in
  exists w' digits, fault_field (Device0 := script_device USART0 boot_regs) 0x44 0x46 0x41 0x52 0 0xF4400060 10%nat
      (World (Script [] []) ∅ [] lib_zero (Tests 0 0 0)) = Done tt w' /\
    tx_log (w_log w') = [] ++ field_start 0x44 ++ [0x46; 0x41; 0x52] ++ [0x3D; 0x30; 0x78] ++ digits /\
    length digits = 8%nat /\ hex_value digits = 0xF4400060.
Proof.
  intros B. apply (fault_field_prints (Device0 := script_device USART0 boot_regs) (Hu := script_line USART0 boot_regs)
    0x44 0x46 0x41 0x52 0 0xF4400060 10%nat (World (Script [] []) ∅ [] lib_zero (Tests 0 0 0))).
  - simpl. lia.
  - bytes_tac.
  - by split; vm_compute.
Defined.

(** ** A host, for the witness: it receives a code per message *)
#[export] Instance printf_arg_eq_dec : EqDecision printf_arg.
Proof. solve_decision. Defined.
#[export] Instance printf_arg_countable : Countable printf_arg.
Proof.
  refine (inj_countable' (fun a => match a with PText s => inl s | PNum v => inr (inl v) | PMem v => inr (inr v) end)
    (fun a => match a with inl s => PText s | inr (inl v) => PNum v | inr (inr v) => PMem v end) _).
  by intros [].
Defined.
Definition code_printf : message -> M script tests unit := fun msg _ w =>
  Done tt (World (Script (s_rx (w_dev w)) (s_tx (w_dev w) ++ [Zpos (encode msg)])) (w_mem w) (w_log w) (w_lib w) (w_app w)).
Definition code_reads (tx : list Z) : list message :=
  omap (fun c => match c with Zpos p => decode p | _ => None end) tx.
Definition code_printing (B : Board) :
  Printing (Device0 := script_device USART0 boot_regs) (UsartLine0 := script_line USART0 boot_regs) script code_printf.
Proof.
  unshelve refine {| clocks := boot_clocks; host_reads := code_reads; printf_fuel := 0%nat |}.
  - apply boot_clocks_u32.
  - by vm_compute.
  - intros p d _ _. split; [apply boot_reads|intros v; apply boot_reads].
  - intros tx. unfold code_reads. rewrite omap_app. simpl. by rewrite app_nil_r.
  - intros msg f w bs tx _ [(more & Hm & Hb) Ht] _. eexists _, (tx ++ [Zpos (encode msg)]).
    split; [done|]. split; [split; [exists more; by split|simpl in *; by rewrite Ht]|].
    split; [apply boot_reads|]. split; [|by split_and!].
    unfold code_reads. rewrite omap_app. simpl. by rewrite decode_encode.
Defined.
Definition sample_tests : list assertion :=
  [Category "RTC"; Assert "interrupt" true; EqU32 "counter" 0x3FF 0x3FE; Skip "alarm" "not wired"; ModuleClock "clock" 0x100].
Lemma tap_session_witness :
  let B := plain_board PMB8876 in let T := {| test_color := false |} in
  exists w' tx', test_program (Device0 := script_device USART0 boot_regs) code_printf "rtc" sample_tests 400%nat
      (World (Script [] []) ∅ [] lib_zero (Tests 7 7 0)) = Done 1 w' /\ s_tx (w_dev w') = tx' /\
    taps (code_reads tx') = [TapVersion; TapPoint 1 true "interrupt"; TapPoint 2 false "counter"; TapSkip 3 "alarm" "not wired";
      TapPoint 4 true "clock"; TapPlan 4; TapResult false 1].
Proof.
  intros B T.
  destruct (tap_session (Device0 := script_device USART0 boot_regs) (Hu := script_line USART0 boot_regs)
    (Printing0 := code_printing B) code_printf "rtc" sample_tests [] 400%nat (World (Script [] []) ∅ [] lib_zero (Tests 7 7 0)))
    as (w' & tx' & H1 & [_ H2] & H3).
  - split; [|done]. exists []. by split.
  - apply boot_reads.
  - done.
  - simpl. lia.
  - simpl. lia.
  - intros t Ht. unfold sample_tests in Ht.
    repeat (apply elem_of_cons in Ht as [->|Ht]; [simpl; lia|]). by apply elem_of_nil in Ht.
  - exists w', tx'. split; [exact H1|]. split; [exact H2|]. exact H3.
Defined.
