(* ===== verification/I2cDriver.v ===== *)
(** * The interrupt-driven I2C driver of the tests ([unit/i2c-v2/driver.c])

    A transfer is begun by the program and moved on by the controller's interrupts, which
    [i2c_v2_handle_irq] serves; [i2c_v2_smbus_read] polls, the DMA transfers have the DMA
    controller move the words.  [pending] says of a device which interrupts it raises next and what
    becomes of it, and the program takes them before each of its own statements ([interrupts]).  The words of
    the DMA controller ([dma_words]) are the device's memory. *)
From S2P Require Import Prelude Machine Board Regs Clock Stopwatch Wdt.
Import Regs.Pmb8876.

Definition I2C_STATUS_CLEAR : Z := 0x3F.
Definition I2C_PROTOCOL_CLEAR : Z := 0x7F.
Definition I2C_ERROR_CLEAR : Z := 0x0F.
Definition I2C_TIMEOUT_MS : Z := 100.
Definition I2C_REQUEST_IRQS : Z := I2C_IMSC_LSREQ_INT .| I2C_IMSC_SREQ_INT .| I2C_IMSC_LBREQ_INT .| I2C_IMSC_BREQ_INT.
Definition I2C_TRANSFER_IRQS : Z := I2C_REQUEST_IRQS .| I2C_IMSC_I2C_ERR_INT .| I2C_IMSC_I2C_P_INT.
Definition I2C_PROTOCOL_IRQS : Z := I2C_IMSC_I2C_ERR_INT .| I2C_IMSC_I2C_P_INT.
Definition I2C_DMA_REQUESTS : Z := I2C_DMAE_LSREQ_INT .| I2C_DMAE_SREQ_INT .| I2C_DMAE_LBREQ_INT .| I2C_DMAE_BREQ_INT.
Definition SIZEOF_DMA_WORDS : Z := 256.

Inductive i2c_v2_result_t := I2C_V2_PENDING | I2C_V2_DONE | I2C_V2_NACK | I2C_V2_ERROR.
#[export] Instance i2c_v2_result_eq_dec : EqDecision i2c_v2_result_t.
Proof. solve_decision. Defined.
(** [tx] and [rx] are addresses, 0 is the null pointer. *)
Record i2c_v2_state := State {
  tx : Z;
  rx : Z;
  remaining : Z;
  address : Z;
  address_sent : bool;
  reading : bool;
  result : i2c_v2_result_t;
  request_irqs : Z;
  protocol_irqs : Z;
  error_irqs : Z;
  request_status : Z;
  tx_request_status : Z;
  rx_request_status : Z;
  protocol_status : Z;
  error_status : Z;
  total_irqs : Z;
  last_irq : Z;
}.
Definition with_tx v (s : i2c_v2_state) := State v (rx s) (remaining s) (address s) (address_sent s) (reading s) (result s) (request_irqs s) (protocol_irqs s) (error_irqs s) (request_status s) (tx_request_status s) (rx_request_status s) (protocol_status s) (error_status s) (total_irqs s) (last_irq s).
Definition with_rx v (s : i2c_v2_state) := State (tx s) v (remaining s) (address s) (address_sent s) (reading s) (result s) (request_irqs s) (protocol_irqs s) (error_irqs s) (request_status s) (tx_request_status s) (rx_request_status s) (protocol_status s) (error_status s) (total_irqs s) (last_irq s).
Definition with_remaining v (s : i2c_v2_state) := State (tx s) (rx s) v (address s) (address_sent s) (reading s) (result s) (request_irqs s) (protocol_irqs s) (error_irqs s) (request_status s) (tx_request_status s) (rx_request_status s) (protocol_status s) (error_status s) (total_irqs s) (last_irq s).
Definition with_address_sent v (s : i2c_v2_state) := State (tx s) (rx s) (remaining s) (address s) v (reading s) (result s) (request_irqs s) (protocol_irqs s) (error_irqs s) (request_status s) (tx_request_status s) (rx_request_status s) (protocol_status s) (error_status s) (total_irqs s) (last_irq s).
Definition with_result v (s : i2c_v2_state) := State (tx s) (rx s) (remaining s) (address s) (address_sent s) (reading s) v (request_irqs s) (protocol_irqs s) (error_irqs s) (request_status s) (tx_request_status s) (rx_request_status s) (protocol_status s) (error_status s) (total_irqs s) (last_irq s).
Definition with_request_irqs v (s : i2c_v2_state) := State (tx s) (rx s) (remaining s) (address s) (address_sent s) (reading s) (result s) v (protocol_irqs s) (error_irqs s) (request_status s) (tx_request_status s) (rx_request_status s) (protocol_status s) (error_status s) (total_irqs s) (last_irq s).
Definition with_protocol_irqs v (s : i2c_v2_state) := State (tx s) (rx s) (remaining s) (address s) (address_sent s) (reading s) (result s) (request_irqs s) v (error_irqs s) (request_status s) (tx_request_status s) (rx_request_status s) (protocol_status s) (error_status s) (total_irqs s) (last_irq s).
Definition with_error_irqs v (s : i2c_v2_state) := State (tx s) (rx s) (remaining s) (address s) (address_sent s) (reading s) (result s) (request_irqs s) (protocol_irqs s) v (request_status s) (tx_request_status s) (rx_request_status s) (protocol_status s) (error_status s) (total_irqs s) (last_irq s).
Definition with_request_status v (s : i2c_v2_state) := State (tx s) (rx s) (remaining s) (address s) (address_sent s) (reading s) (result s) (request_irqs s) (protocol_irqs s) (error_irqs s) v (tx_request_status s) (rx_request_status s) (protocol_status s) (error_status s) (total_irqs s) (last_irq s).
Definition with_tx_request_status v (s : i2c_v2_state) := State (tx s) (rx s) (remaining s) (address s) (address_sent s) (reading s) (result s) (request_irqs s) (protocol_irqs s) (error_irqs s) (request_status s) v (rx_request_status s) (protocol_status s) (error_status s) (total_irqs s) (last_irq s).
Definition with_rx_request_status v (s : i2c_v2_state) := State (tx s) (rx s) (remaining s) (address s) (address_sent s) (reading s) (result s) (request_irqs s) (protocol_irqs s) (error_irqs s) (request_status s) (tx_request_status s) v (protocol_status s) (error_status s) (total_irqs s) (last_irq s).
Definition with_protocol_status v (s : i2c_v2_state) := State (tx s) (rx s) (remaining s) (address s) (address_sent s) (reading s) (result s) (request_irqs s) (protocol_irqs s) (error_irqs s) (request_status s) (tx_request_status s) (rx_request_status s) v (error_status s) (total_irqs s) (last_irq s).
Definition with_error_status v (s : i2c_v2_state) := State (tx s) (rx s) (remaining s) (address s) (address_sent s) (reading s) (result s) (request_irqs s) (protocol_irqs s) (error_irqs s) (request_status s) (tx_request_status s) (rx_request_status s) (protocol_status s) v (total_irqs s) (last_irq s).
Definition with_total_irqs v (s : i2c_v2_state) := State (tx s) (rx s) (remaining s) (address s) (address_sent s) (reading s) (result s) (request_irqs s) (protocol_irqs s) (error_irqs s) (request_status s) (tx_request_status s) (rx_request_status s) (protocol_status s) (error_status s) v (last_irq s).
Definition with_last_irq v (s : i2c_v2_state) := State (tx s) (rx s) (remaining s) (address s) (address_sent s) (reading s) (result s) (request_irqs s) (protocol_irqs s) (error_irqs s) (request_status s) (tx_request_status s) (rx_request_status s) (protocol_status s) (error_status s) (total_irqs s) v.
(** What an initializer leaves out is zero. *)
Definition initial (tx rx remaining address : Z) (reading : bool) : i2c_v2_state :=
  State tx rx remaining address false reading I2C_V2_PENDING 0 0 0 0 0 0 0 0 0 0.
Record dma_state := Dma { active : bool; started : bool; rx_channel : Z }.
(** The static variables. *)
Record driver := Driver { state : i2c_v2_state; dma_rx : dma_state }.
Definition driver_zero : driver := Driver (initial 0 0 0 0 false) (Dma false false 0).

Section Code.
Context {D : Type} `{!Device D} `{B : Board}.
#[local] Abbreviation M := (M D driver).
Definition get_state : M i2c_v2_state := d ← get_app; mret (state d).
Definition modify (g : i2c_v2_state -> i2c_v2_state) : M unit := d ← get_app; put_app (Driver (g (state d)) (dma_rx d)).
Definition put_dma (g : dma_state -> dma_state) : M unit := d ← get_app; put_app (Driver (state d) (g (dma_rx d))).

(** ** The FIFOs *)
(** [1 << ((cfg & mask) >> shift)], [sizeof(uint32_t) / alignment]. *)
Definition fifo_alignment (cfg mask shift : Z) : Z := 1 .<< ((cfg .& mask) .>> shift).
Definition fifo_capacity (alignment : Z) : Z := 4 / alignment.
Section Fill.
(** What comes between two statements. *)
Context (irqs : M unit).
Definition fill_word (alignment : Z) (x : Z * Z) : M (Z * Z + Z) :=
  let '(value, offset) := x in
  irqs;; s ← get_state;
  if negb (reading s) && (offset <? fifo_capacity alignment) && (remaining s !=? 0) then
    irqs;; s ← get_state; b ← ld8 (tx s); modify (with_tx (tx s + 1));;
    irqs;; modify (fun s => with_remaining (u32 (remaining s - 1)) s);;
    mret (inl (value .| u32 (b .<< (offset * alignment * 8)), offset + 1))
  else mret (inr value).
Definition fill_address (s : i2c_v2_state) : M (Z * Z) :=
  if negb (address_sent s) then irqs;; s ← get_state; irqs;; modify (with_address_sent true);; mret (address s, 1)
  else mret (0, 0).
Definition fill_step (alignment : Z) (_ : unit) : M (unit + unit) :=
  irqs;; s ← get_state;
  if negb (address_sent s) || negb (reading s) && (remaining s !=? 0) then
    irqs;; s ← get_state;
    x ← fill_address s;
    value ← iter (fill_word alignment) x;
    irqs;; wr32 I2C_TXD value;; mret (inl tt)
  else mret (inr tt).
Definition write_fifo : M unit :=
  cfg ← rd32 I2C_FIFOCFG;
  iter (fill_step (fifo_alignment cfg I2C_FIFOCFG_TXFA I2C_FIFOCFG_TXFA_SHIFT)) tt.
End Fill.
Definition read_word : M unit :=
  value ← rd32 I2C_RXD;
  cfg ← rd32 I2C_FIFOCFG;
  let alignment := fifo_alignment cfg I2C_FIFOCFG_RXFA I2C_FIFOCFG_RXFA_SHIFT in
  s ← get_state;
  let bytes := if remaining s <? fifo_capacity alignment then remaining s else fifo_capacity alignment in
  foldM (fun (_ : unit) offset =>
    s ← get_state; st8 (rx s) (value .>> (offset * alignment * 8));; modify (with_rx (rx s + 1))) tt (seqZ 0 bytes);;
  modify (fun s => with_remaining (u32 (remaining s - bytes)) s).
Definition read_fifo (stages : Z) : M unit :=
  stat ← rd32 I2C_FFSSTAT;
  let available := stat .& I2C_FFSSTAT_FFS in
  _ ← foldE (fun (_ : unit) (_ : Z) =>
        s ← get_state;
        if remaining s !=? 0 then read_word;; mret (inl tt) else mret (inr tt))
      tt (seqZ 0 (if available <? stages then available else stages));
  mret tt.

(** ** The interrupts *)
(** Data has come in; data is asked for. *)
Definition take_data (status : Z) : M unit :=
  modify (fun s => with_rx_request_status (rx_request_status s .| status) s);;
  ffs ← rd32 I2C_FFSSTAT;
  read_fifo (ffs .& I2C_FFSSTAT_FFS);;
  s ← get_state;
  when (remaining s ==? 0)
    (wr32 I2C_IMSC I2C_PROTOCOL_IRQS;;
     s ← get_state;
     when (bool_decide (result s = I2C_V2_PENDING) && ((protocol_status s .& I2C_PIRQSS_TX_END) !=? 0))
       (modify (with_result I2C_V2_DONE)));;
  cfg ← rd32 I2C_FIFOCFG;
  s ← get_state;
  when (((cfg .& I2C_FIFOCFG_RXFC) ==? 0) && (remaining s ==? 0))
    (bus ← rd32 I2C_BUSSTAT;
     when ((bus .& I2C_BUSSTAT_BS) ==? I2C_BUSSTAT_BS_FREE) (modify (with_result I2C_V2_DONE))).
Definition give_data (status : Z) : M unit :=
  modify (fun s => with_tx_request_status (tx_request_status s .| status) s);;
  write_fifo (mret tt);;
  s ← get_state;
  when (address_sent s && negb (reading s) && (remaining s ==? 0)) (wr32 I2C_IMSC I2C_PROTOCOL_IRQS).
Definition handle_request_irq : M unit :=
  status ← rd32 I2C_RIS;
  modify (fun s => with_request_irqs (u32 (request_irqs s + 1)) s);;
  modify (fun s => with_request_status (request_status s .| status) s);;
  s ← get_state;
  received ← (if reading s && address_sent s then ffs ← rd32 I2C_FFSSTAT; mret ((ffs .& I2C_FFSSTAT_FFS) !=? 0) else mret false);
  (if received : bool then take_data status else when (negb (reading s) || negb (address_sent s)) (give_data status));;
  wr32 I2C_ICR (status .& I2C_REQUEST_IRQS).
Definition handle_protocol_irq : M unit :=
  status ← rd32 I2C_PIRQSS;
  modify (fun s => with_protocol_irqs (u32 (protocol_irqs s + 1)) s);;
  modify (fun s => with_protocol_status (protocol_status s .| status) s);;
  d ← get_app;
  when (active (dma_rx d) && ((status .& I2C_PIRQSS_RX) !=? 0))
    (config ← rd32 (DMAC_CH_CONFIG (rx_channel (dma_rx d)));
     wr32 (DMAC_CH_CONFIG (rx_channel (dma_rx d))) (config .| DMAC_CH_CONFIG_ENABLE);;
     wr32 I2C_IMSC I2C_TRANSFER_IRQS;;
     wr32 I2C_DMAE I2C_DMA_REQUESTS;;
     put_dma (fun r => Dma (active r) true (rx_channel r)));;
  wr32 I2C_PIRQSC status;;
  s ← get_state;
  if (status .& I2C_PIRQSS_NACK) !=? 0 then modify (with_result I2C_V2_NACK)
  else
    when (bool_decide (result s = I2C_V2_PENDING) && ((status .& I2C_PIRQSS_TX_END) !=? 0) && (negb (reading s) || (remaining s ==? 0)))
      (modify (with_result I2C_V2_DONE)).
Definition handle_error_irq : M unit :=
  status ← rd32 I2C_ERRIRQSS;
  modify (fun s => with_error_irqs (u32 (error_irqs s + 1)) s);;
  modify (fun s => with_error_status (error_status s .| status) s);;
  wr32 I2C_ERRIRQSC status;;
  modify (with_result I2C_V2_ERROR).
Definition i2c_v2_handle_irq (irq : Z) : M bool :=
  modify (fun s => with_total_irqs (u32 (total_irqs s + 1)) s);;
  modify (with_last_irq irq);;
  handled ←
    (if (irq ==? VIC_I2C_SINGLE_REQ_IRQ) || (irq ==? VIC_I2C_BURST_REQ_IRQ) then handle_request_irq;; mret true
     else if irq ==? VIC_I2C_PROTOCOL_IRQ then handle_protocol_irq;; mret true
     else if irq ==? VIC_I2C_ERROR_IRQ then handle_error_irq;; mret true
     else mret false);
  s ← get_state;
  when (100 <? total_irqs s)
    (wr32 I2C_RUNCTRL 0;; wr32 I2C_IMSC 0;; modify (with_result I2C_V2_ERROR));;
  mret handled.

(** ** The transfers *)
Context (pending : D -> list Z * D).
(** The interrupts that come now, of a device that goes on by itself. *)
Definition come : M (list Z) := fun _ w => let '(irqs, d) := pending (w_dev w) in Done irqs (World d (w_mem w) (w_log w) (w_lib w) (w_app w)).
Definition interrupts : M unit := irqs ← come; foldM (fun (_ : unit) irq => _ ← i2c_v2_handle_irq irq; mret tt) tt irqs.
(** A statement of the program: a register is written, or read. *)
Definition put (a v : Z) : M unit := interrupts;; wr32 a v.
Definition fetch (a : Z) : M Z := interrupts;; rd32 a.
(** [while (cond && stopwatch_elapsed_ms(start) < I2C_TIMEOUT_MS) wdt_serve();] *)
Definition wait_from (start : Z) (cond : M bool) : M unit :=
  iter (fun _ : unit =>
    interrupts;; go ← cond;
    if negb go then mret (inr tt)
    else
      e ← stopwatch_elapsed_ms start;
      if e <? I2C_TIMEOUT_MS then wdt_serve;; mret (inl tt) else mret (inr tt)) tt.
Definition wait_while (cond : M bool) : M unit := start ← stopwatch_get; wait_from start cond.
Definition is_pending : M bool := s ← get_state; mret (bool_decide (result s = I2C_V2_PENDING)).

(** [in_fifo]: the interrupts that the program takes while it fills the FIFO itself. *)
Context (in_fifo : M unit).
Definition start_transfer (size : Z) : M unit :=
  interrupts;; s ← get_state;
  if reading s then
    put I2C_MRPSCTRL size;;
    put I2C_TPSCTRL 1;;
    cfg ← fetch I2C_FIFOCFG;
    interrupts;; when ((cfg .& I2C_FIFOCFG_TXFC) ==? 0) (write_fifo in_fifo)
  else
    put I2C_TPSCTRL (u32 (size + 1));;
    interrupts;; write_fifo in_fifo.
Definition i2c_v2_transfer_bytes_running (address tx rx size : Z) : M i2c_v2_result_t :=
  interrupts;; modify (fun _ => initial tx rx size (u8 (u32 (address .<< 1) .| Z.b2z (rx !=? 0))) (rx !=? 0));;
  put I2C_ICR I2C_STATUS_CLEAR;;
  put I2C_PIRQSC I2C_PROTOCOL_CLEAR;;
  put I2C_ERRIRQSC I2C_ERROR_CLEAR;;
  put I2C_IMSC I2C_TRANSFER_IRQS;;
  put I2C_PIRQSM (I2C_PIRQSM_NACK .| I2C_PIRQSM_TX_END .| I2C_PIRQSM_RX);;
  put I2C_ERRIRQSM I2C_ERROR_CLEAR;;
  start_transfer size;;
  wait_while is_pending;;
  interrupts;; s ← get_state; mret (result s).
Definition i2c_v2_transfer_bytes (address tx rx size : Z) : M i2c_v2_result_t :=
  put I2C_RUNCTRL 0;;
  put I2C_RUNCTRL I2C_RUNCTRL_RUN;;
  i2c_v2_transfer_bytes_running address tx rx size.
Definition i2c_v2_transfer (address tx rx size : Z) : M bool :=
  r ← i2c_v2_transfer_bytes address tx rx size; mret (bool_decide (r = I2C_V2_DONE)).

(** ** SMBus *)
Definition request_of (ris : Z) : Z := ris .& I2C_REQUEST_IRQS.
Definition no_request : M bool := ris ← fetch I2C_RIS; mret (request_of ris ==? 0).
(** A word is sent when the controller asks for it; returned: what it asked for. *)
Definition send_request (word : Z) : M Z :=
  wait_while no_request;;
  ris ← fetch I2C_RIS;
  let request_status := request_of ris in
  interrupts;; modify (fun s => with_tx_request_status (tx_request_status s .| request_status) s);;
  put I2C_TXD word;;
  put I2C_ICR request_status;;
  mret request_status.
(** The words that are there, while data is missing. *)
Definition receive_word (alignment : Z) (x : Z * Z) : M (Z * Z) :=
  let '(dst, remaining) := x in
  word ← fetch I2C_RXD;
  let count := if remaining <? fifo_capacity alignment then remaining else fifo_capacity alignment in
  dst ← foldM (fun dst i => interrupts;; st8 dst (word .>> (i * alignment * 8));; mret (dst + 1)) dst (seqZ 0 count);
  mret (dst, remaining - count).
Definition receive_words (request_status available : Z) (x : Z * Z) : M (Z * Z) :=
  cfg ← fetch I2C_FIFOCFG;
  let alignment := fifo_alignment cfg I2C_FIFOCFG_RXFA I2C_FIFOCFG_RXFA_SHIFT in
  cfg ← fetch I2C_FIFOCFG;
  let burst := 1 .<< ((cfg .& I2C_FIFOCFG_RXBS) .>> I2C_FIFOCFG_RXBS_SHIFT) in
  let stages := if (request_status .& (I2C_RIS_BREQ_INT .| I2C_RIS_LBREQ_INT)) !=? 0 then burst else 1 in
  r ← foldE (fun (x : Z * Z) (_ : Z) => if snd x !=? 0 then x ← receive_word alignment x; mret (inl x) else mret (inr x))
        x (seqZ 0 (if available <? stages then available else stages));
  put I2C_ICR request_status;;
  mret (match r with inl x => x | inr x => x end).
Definition note_status (protocol error request : Z) : M unit :=
  interrupts;; modify (fun s => with_protocol_status (protocol_status s .| protocol) s);;
  interrupts;; modify (fun s => with_error_status (error_status s .| error) s);;
  interrupts;; modify (fun s => with_rx_request_status (rx_request_status s .| request) s).
Definition receive_step (start : Z) (x : Z * Z) : M (Z * Z + i2c_v2_result_t) :=
  go ← (if snd x !=? 0 then mret true else p ← fetch I2C_PIRQSS; mret ((p .& I2C_PIRQSS_TX_END) ==? 0));
  if negb go then mret (inr I2C_V2_DONE)
  else
    protocol ← fetch I2C_PIRQSS;
    error ← fetch I2C_ERRIRQSS;
    ris ← fetch I2C_RIS;
    note_status protocol error (request_of ris);;
    if (protocol .& I2C_PIRQSS_NACK) !=? 0 then mret (inr I2C_V2_NACK)
    else
      late ← (if error !=? 0 then mret true else e ← stopwatch_elapsed_ms start; mret (I2C_TIMEOUT_MS <=? e));
      if late : bool then mret (inr I2C_V2_ERROR)
      else
        ffs ← fetch I2C_FFSSTAT;
        let available := ffs .& I2C_FFSSTAT_FFS in
        x ← (if ((protocol .& I2C_PIRQSS_RX) !=? 0) && (request_of ris !=? 0) && (available !=? 0)
             then receive_words (request_of ris) available x else mret x);
        wdt_serve;; mret (inl x).
(** The address and the register are sent; the result so far. *)
Definition smbus_address (address reg : Z) : M i2c_v2_result_t :=
  put I2C_TPSCTRL 2;;
  wait_while no_request;;
  ris ← fetch I2C_RIS;
  let request_status := request_of ris in
  interrupts;; modify (fun s => with_tx_request_status (tx_request_status s .| request_status) s);;
  interrupts;; when (request_status ==? 0) (modify (with_result I2C_V2_ERROR));;
  put I2C_TXD ((reg .<< 8) .| (address .<< 1));;
  put I2C_ICR request_status;;
  wait_while (p ← fetch I2C_PIRQSS; mret ((p .& (I2C_PIRQSS_TX_END .| I2C_PIRQSS_NACK)) ==? 0));;
  protocol ← fetch I2C_PIRQSS;
  interrupts;; modify (fun s => with_protocol_status (protocol_status s .| protocol) s);;
  error ← fetch I2C_ERRIRQSS;
  interrupts;; modify (fun s => with_error_status (error_status s .| error) s);;
  interrupts;; s ← get_state;
  let result :=
    if bool_decide (result s = I2C_V2_ERROR) then I2C_V2_ERROR
    else if (protocol .& I2C_PIRQSS_NACK) !=? 0 then I2C_V2_NACK
    else if ((protocol .& I2C_PIRQSS_TX_END) ==? 0) || (error_status s !=? 0) then I2C_V2_ERROR
    else I2C_V2_DONE in
  put I2C_PIRQSC I2C_PROTOCOL_CLEAR;;
  mret result.
(** The repeated start and the data. *)
Definition smbus_data (address data size : Z) : M i2c_v2_result_t :=
  put I2C_MRPSCTRL size;;
  put I2C_TPSCTRL 1;;
  request_status ← send_request ((address .<< 1) .| 1);
  start ← stopwatch_get;
  result ← (if request_status ==? 0 then mret I2C_V2_ERROR else iter (receive_step start) (data, size));
  if bool_decide (result = I2C_V2_DONE) then
    rps ← fetch I2C_RPSSTAT;
    mret (if (rps .& I2C_RPSSTAT_RPS) !=? size then I2C_V2_ERROR else I2C_V2_DONE)
  else mret result.
Definition smbus_stop (result : i2c_v2_result_t) : M i2c_v2_result_t :=
  put I2C_ENDDCTRL I2C_ENDDCTRL_SETEND;;
  wait_while (b ← fetch I2C_BUSSTAT; mret ((b .& I2C_BUSSTAT_BS) !=? I2C_BUSSTAT_BS_FREE));;
  b ← fetch I2C_BUSSTAT;
  mret (if ((b .& I2C_BUSSTAT_BS) !=? I2C_BUSSTAT_BS_FREE) && bool_decide (result = I2C_V2_DONE) then I2C_V2_ERROR else result).
Definition i2c_v2_smbus_read (address reg data size : Z) : M i2c_v2_result_t :=
  saved_addrcfg ← fetch I2C_ADDRCFG;
  saved_fifocfg ← fetch I2C_FIFOCFG;
  saved_imsc ← fetch I2C_IMSC;
  interrupts;; modify (fun _ => initial 0 0 0 0 true);;
  put I2C_IMSC 0;;
  put I2C_RUNCTRL 0;;
  put I2C_ADDRCFG I2C_ADDRCFG_MnS;;
  put I2C_FIFOCFG (saved_fifocfg .| I2C_FIFOCFG_TXFC);;
  put I2C_RUNCTRL I2C_RUNCTRL_RUN;;
  put I2C_ICR I2C_STATUS_CLEAR;;
  put I2C_ERRIRQSC I2C_ERROR_CLEAR;;
  put I2C_PIRQSC I2C_PROTOCOL_CLEAR;;
  result ← smbus_address address reg;
  result ← (if bool_decide (result = I2C_V2_DONE) && (size !=? 0) then smbus_data address data size else mret result);
  result ← smbus_stop result;
  put I2C_ICR I2C_STATUS_CLEAR;;
  put I2C_PIRQSC I2C_PROTOCOL_CLEAR;;
  put I2C_ERRIRQSC I2C_ERROR_CLEAR;;
  put I2C_RUNCTRL 0;;
  put I2C_ADDRCFG saved_addrcfg;;
  put I2C_FIFOCFG saved_fifocfg;;
  put I2C_RUNCTRL I2C_RUNCTRL_RUN;;
  put I2C_IMSC saved_imsc;;
  interrupts;; modify (with_result result);;
  mret result.
(** The local array of the writes. *)
Definition local_data : Z := LOCAL 0.
Definition write_local (address : Z) (data : list Z) : M i2c_v2_result_t :=
  alloc local_data (Z.of_nat (length data));;
  foldM (fun a b => st8 a b;; mret (a + 1)) local_data data;;
  i2c_v2_transfer_bytes address local_data 0 (Z.of_nat (length data)).
Definition i2c_v2_smbus_write (address reg value : Z) : M i2c_v2_result_t := write_local address [reg; value].
Definition pec_bit (crc : Z) : Z := u8 (if (crc .& 0x80) !=? 0 then (crc .<< 1) .^ 0x07 else crc .<< 1).
Definition i2c_v2_pec (data : list Z) : Z := fold_left (fun crc b => Nat.iter 8 pec_bit (crc .^ b)) data 0.
Definition i2c_v2_smbus_pec (address reg value : Z) : Z := i2c_v2_pec [u8 (address .<< 1); reg; value].
Definition i2c_v2_smbus_write_pec (address reg value : Z) : M i2c_v2_result_t :=
  write_local address [reg; value; i2c_v2_smbus_pec address reg value].

Definition i2c_v2_init : M unit :=
  put I2C_CLC (0x10A .<< MOD_CLC_RMC_SHIFT);;
  let pin := GPIO_IS_ALT0 .| GPIO_OS_ALT0 .| GPIO_PPEN_OPENDRAIN .| GPIO_PS_ALT .| GPIO_DIR_IN in
  put (GPIO_PIN GPIO_I2C_SCL) pin;;
  put (GPIO_PIN GPIO_I2C_SDA) pin;;
  put I2C_RUNCTRL 0;;
  put I2C_ADDRCFG (I2C_ADDRCFG_MnS .| I2C_ADDRCFG_SONA .| I2C_ADDRCFG_SOPE);;
  put I2C_FIFOCFG (I2C_FIFOCFG_RXBS_1_WORD .| I2C_FIFOCFG_TXBS_1_WORD .| I2C_FIFOCFG_RXFA_1 .| I2C_FIFOCFG_RXFC .| I2C_FIFOCFG_TXFC);;
  put I2C_FDIVCFG ((0x0A .<< I2C_FDIVCFG_DEC_SHIFT) .| (1 .<< I2C_FDIVCFG_INC_SHIFT));;
  put I2C_RUNCTRL I2C_RUNCTRL_RUN;;
  put (VIC_CON VIC_I2C_SINGLE_REQ_IRQ) 1;;
  put (VIC_CON VIC_I2C_BURST_REQ_IRQ) 1;;
  put (VIC_CON VIC_I2C_ERROR_IRQ) 1;;
  put (VIC_CON VIC_I2C_PROTOCOL_IRQ) 1;;
  _ ← cpu_enable_irq true; mret tt.

(** ** DMA: the words at [dma_words] are where the DMA controller reads and writes *)
Context (dma_words : Z).
Definition reset_dma_channel (irqs : M unit) (channel : Z) : M unit :=
  irqs;; wr32 (DMAC_CH_CONFIG channel) 0;;
  irqs;; wr32 DMAC_TC_CLEAR (BIT channel);;
  irqs;; wr32 DMAC_ERR_CLEAR (BIT channel).
Definition clear_words : M unit := foldM (fun (_ : unit) i => wr8 (dma_words + i) 0) tt (seqZ 0 SIZEOF_DMA_WORDS).
(** Within [cpu_enable_irq(false)]: no interrupts. *)
Definition wait_for_mask (reg mask : Z) : M bool :=
  start ← stopwatch_get;
  iter (fun _ : unit =>
    v ← rd32 reg;
    if (v .& mask) ==? 0 then
      e ← stopwatch_elapsed_ms start;
      if e <? I2C_TIMEOUT_MS then wdt_serve;; mret (inl tt) else mret (inr tt)
    else mret (inr tt)) tt;;
  v ← rd32 reg; mret ((v .& mask) !=? 0).
Definition i2c_v2_dma_write (channel address data size : Z) : M i2c_v2_result_t :=
  let bytes := u32 (size + 1) in
  if SIZEOF_DMA_WORDS <? bytes then mret I2C_V2_ERROR
  else
    interrupts;; clear_words;;
    interrupts;; wr8 dma_words (u8 (address .<< 1));;
    interrupts;; foldM (fun (_ : unit) i => b ← ld8 (data + i); wr8 (dma_words + 1 + i) b) tt (seqZ 0 size);;
    interrupts;; _ ← cpu_enable_irq false;
    wr32 I2C_RUNCTRL 0;;
    wr32 I2C_RUNCTRL I2C_RUNCTRL_RUN;;
    wr32 I2C_ICR I2C_STATUS_CLEAR;;
    wr32 I2C_PIRQSC I2C_PROTOCOL_CLEAR;;
    wr32 I2C_ERRIRQSC I2C_ERROR_CLEAR;;
    wr32 I2C_IMSC I2C_REQUEST_IRQS;;
    wr32 I2C_PIRQSM (I2C_PIRQSM_NACK .| I2C_PIRQSM_TX_END);;
    wr32 I2C_ERRIRQSM I2C_ERROR_CLEAR;;
    wr32 I2C_DMAE I2C_DMA_REQUESTS;;
    reset_dma_channel (mret tt) channel;;
    wr32 (DMAC_CH_SRC_ADDR channel) dma_words;;
    wr32 (DMAC_CH_DST_ADDR channel) I2C_TXD;;
    wr32 (DMAC_CH_CONTROL channel)
      (DMAC_CH_CONTROL_SB_SIZE_SZ_1 .| DMAC_CH_CONTROL_DB_SIZE_SZ_1 .| DMAC_CH_CONTROL_S_WIDTH_DWORD .| DMAC_CH_CONTROL_D_WIDTH_DWORD .|
       DMAC_CH_CONTROL_S_AHB1 .| I2C_DMA_TX_AHB .| DMAC_CH_CONTROL_SI .| DMAC_CH_CONTROL_I);;
    wr32 (DMAC_CH_CONFIG channel)
      ((I2C_DMA_TX_REQUEST .<< DMAC_CH_CONFIG_DST_PERIPH_SHIFT) .| DMAC_CH_CONFIG_FLOW_CTRL_MEM2PER_PER .|
       DMAC_CH_CONFIG_INT_MASK_ERR .| DMAC_CH_CONFIG_INT_MASK_TC .| DMAC_CH_CONFIG_ENABLE);;
    wr32 I2C_TPSCTRL bytes;;
    dma_done ← wait_for_mask DMAC_RAW_TC_STATUS (BIT channel);
    protocol_done ← wait_for_mask I2C_PIRQSS (I2C_PIRQSS_NACK .| I2C_PIRQSS_TX_END);
    failed ← (if negb dma_done || negb protocol_done then mret true
              else err ← rd32 DMAC_RAW_ERR_STATUS; mret ((err .& BIT channel) !=? 0));
    result ← (if failed : bool then mret I2C_V2_ERROR
              else p ← rd32 I2C_PIRQSS; mret (if (p .& I2C_PIRQSS_NACK) !=? 0 then I2C_V2_NACK else I2C_V2_DONE));
    wr32 I2C_DMAE 0;;
    wr32 I2C_IMSC 0;;
    wr32 (DMAC_CH_CONFIG channel) 0;;
    _ ← cpu_enable_irq true;
    mret result.
Definition dma_started : M bool := d ← get_app; mret (started (dma_rx d)).
Definition channel_done (channel : Z) : M bool := tc ← fetch DMAC_RAW_TC_STATUS; mret ((tc .& BIT channel) !=? 0).
(** Up to the words' arrival; whether they did. *)
Definition dma_receive (channel : Z) : M bool :=
  wait_while (s ← dma_started; p ← is_pending; mret (negb s && p));;
  wait_while (s ← dma_started; p ← is_pending; if s && p then d ← channel_done channel; mret (negb d) else mret false);;
  dma_done ← channel_done channel;
  wait_while (if dma_done : bool then is_pending else mret false);;
  mret dma_done.
Definition i2c_v2_dma_read (channel address data size : Z) : M i2c_v2_result_t :=
  if SIZEOF_DMA_WORDS <? size then mret I2C_V2_ERROR
  else
    interrupts;; clear_words;;
    reset_dma_channel interrupts channel;;
    put (DMAC_CH_SRC_ADDR channel) I2C_RXD;;
    put (DMAC_CH_DST_ADDR channel) dma_words;;
    put (DMAC_CH_CONTROL channel)
      (DMAC_CH_CONTROL_SB_SIZE_SZ_1 .| DMAC_CH_CONTROL_DB_SIZE_SZ_1 .| DMAC_CH_CONTROL_S_WIDTH_DWORD .| DMAC_CH_CONTROL_D_WIDTH_DWORD .|
       I2C_DMA_RX_AHB .| DMAC_CH_CONTROL_D_AHB1 .| DMAC_CH_CONTROL_SI .| DMAC_CH_CONTROL_DI .| DMAC_CH_CONTROL_I);;
    put (DMAC_CH_CONFIG channel)
      ((I2C_DMA_RX_REQUEST .<< DMAC_CH_CONFIG_SRC_PERIPH_SHIFT) .| DMAC_CH_CONFIG_FLOW_CTRL_PER2MEM_PER .|
       DMAC_CH_CONFIG_INT_MASK_ERR .| DMAC_CH_CONFIG_INT_MASK_TC);;
    interrupts;; modify (fun _ => initial 0 0 0 0 true);;
    interrupts;; put_dma (fun _ => Dma true false channel);;
    put (VIC_CON VIC_I2C_SINGLE_REQ_IRQ) 0;;
    put (VIC_CON VIC_I2C_BURST_REQ_IRQ) 0;;
    put I2C_RUNCTRL 0;;
    put I2C_FIFOCFG (I2C_FIFOCFG_RXBS_1_WORD .| I2C_FIFOCFG_TXBS_1_WORD .| I2C_FIFOCFG_RXFC .| I2C_FIFOCFG_TXFC);;
    put I2C_RUNCTRL I2C_RUNCTRL_RUN;;
    put I2C_ICR I2C_STATUS_CLEAR;;
    put I2C_PIRQSC I2C_PROTOCOL_CLEAR;;
    put I2C_ERRIRQSC I2C_ERROR_CLEAR;;
    put I2C_IMSC I2C_PROTOCOL_IRQS;;
    put I2C_PIRQSM (I2C_PIRQSM_NACK .| I2C_PIRQSM_TX_END .| I2C_PIRQSM_RX);;
    put I2C_ERRIRQSM I2C_ERROR_CLEAR;;
    put I2C_DMAE 0;;
    put I2C_MRPSCTRL size;;
    put I2C_TPSCTRL 1;;
    put I2C_TXD ((address .<< 1) .| 1);;
    put I2C_ICR I2C_STATUS_CLEAR;;
    dma_done ← dma_receive channel;
    interrupts;; s ← get_state;
    failed ← (if bool_decide (result s = I2C_V2_NACK) then mret false
              else if negb dma_done then mret true
              else err ← fetch DMAC_RAW_ERR_STATUS; mret ((err .& BIT channel) !=? 0));
    let result := if failed : bool then I2C_V2_ERROR else result s in
    interrupts;; when (bool_decide (result = I2C_V2_DONE))
      (foldM (fun (_ : unit) i => b ← rd8 (dma_words + i); st8 (data + i) b) tt (seqZ 0 size));;
    interrupts;; put_dma (fun r => Dma false (started r) (rx_channel r));;
    put I2C_DMAE 0;;
    put I2C_IMSC 0;;
    put (DMAC_CH_CONFIG channel) 0;;
    put (VIC_CON VIC_I2C_SINGLE_REQ_IRQ) 1;;
    put (VIC_CON VIC_I2C_BURST_REQ_IRQ) 1;;
    mret result.
End Code.
