(* ===== verification/I2cFifo.v ===== *)
(** * The FIFOs of the interrupt-driven I2C driver ([unit/i2c-v2/driver.c])

    How bytes lie in the words of the FIFOs ([pack], [unpack], [carries]), and that
    [write_fifo] and [read_word] put them there and take them from there. *)
From S2P Require Import Prelude Machine Board Regs Clock Stopwatch Wdt I2cDriver.
Import Regs.Pmb8876.

(** ** Words: a byte to every [a] bytes of a word *)
Definition layout (a : Z) : Prop := a = 1 \/ a = 2 \/ a = 4.
Fixpoint pack (a : Z) (bs : list Z) : Z :=
  match bs with [] => 0 | b :: bs => b + 2 ^ (8 * a) * pack a bs end.
Definition unpack (a : Z) (n : nat) (v : Z) : list Z := map (fun i => u8 (v .>> (i * a * 8))) (seqZ 0 (Z.of_nat n)).
(** The words carry the bytes: all of them are full but the last one. *)
Inductive carries (a : Z) : list Z -> list Z -> Prop :=
  | carries_none : carries a [] []
  | carries_word chunk bs ws :
      (1 <= length chunk <= Z.to_nat (fifo_capacity a))%nat -> bs = [] \/ length chunk = Z.to_nat (fifo_capacity a) ->
      carries a bs ws -> carries a (chunk ++ bs) (pack a chunk :: ws).

Lemma layout_capacity a : layout a -> 1 <= fifo_capacity a <= 4 /\ a * fifo_capacity a = 4.
Proof. intros [->|[->| ->]]; vm_compute; done. Qed.
Lemma pack_snoc a bs b : layout a -> pack a (bs ++ [b]) = pack a bs + b * 2 ^ (8 * a * Z.of_nat (length bs)).
Proof.
  intros Ha. assert (0 < a) by (unfold layout in Ha; lia). induction bs as [|c bs IH]; [cbn [pack app length]; change (Z.of_nat 0) with 0; rewrite !Z.mul_0_r, Z.pow_0_r; lia|].
  simpl pack. rewrite IH. simpl length. rewrite Nat2Z.inj_succ, Z.mul_succ_r, Z.pow_add_r by lia. lia.
Qed.
Lemma pack_range a bs : layout a -> bytes_ok bs -> 0 <= pack a bs < 2 ^ (8 * a * Z.of_nat (length bs)).
Proof.
  intros Ha Hb. assert (0 < a) by (unfold layout in Ha; lia). induction Hb as [|b bs Hb _ IH]; [cbn [pack length]; change (Z.of_nat 0) with 0; rewrite Z.mul_0_r, Z.pow_0_r; lia|].
  simpl pack. simpl length. rewrite Nat2Z.inj_succ, Z.mul_succ_r, Z.pow_add_r by lia.
  assert (2 ^ 8 <= 2 ^ (8 * a)) by (apply Z.pow_le_mono_r; lia). unfold is_byte in Hb. nia.
Qed.
Lemma pack_u32 a bs : layout a -> bytes_ok bs -> (length bs <= Z.to_nat (fifo_capacity a))%nat -> is_u32 (pack a bs).
Proof.
  intros Ha Hb Hl. pose proof (layout_capacity a Ha) as [? ?]. pose proof (pack_range a bs Ha Hb).
  assert (2 ^ (8 * a * Z.of_nat (length bs)) <= 2 ^ 32) by (apply Z.pow_le_mono_r; nia). unfold is_u32. lia.
Qed.
(** The next byte of a word. *)
Lemma pack_next a bs b : layout a -> bytes_ok bs -> is_byte b -> (length bs < Z.to_nat (fifo_capacity a))%nat ->
  (pack a bs .| u32 (b .<< (Z.of_nat (length bs) * a * 8))) = pack a (bs ++ [b]).
Proof.
  intros Ha Hbs Hb Hl. pose proof (layout_capacity a Ha) as [? ?]. assert (0 < a) by (unfold layout in Ha; lia).
  assert (Hw := pack_u32 a (bs ++ [b]) Ha). rewrite length_app, pack_snoc in Hw by done.
  pose proof (pack_range a bs Ha Hbs). specialize (Hw ltac:(apply Forall_app; split; [done|by apply Forall_singleton]) ltac:(simpl; lia)). unfold is_u32, is_byte in *.
  replace (Z.of_nat (length bs) * a * 8) with (8 * a * Z.of_nat (length bs)) by lia.
  rewrite pack_snoc by done. rewrite u32_small by (rewrite Z.shiftl_mul_pow2 by nia; unfold is_u32; nia).
  apply lor_shiftl_add; [nia|done].
Qed.
Lemma unpack_pack a bs : layout a -> bytes_ok bs -> unpack a (length bs) (pack a bs) = bs.
Proof.
  intros Ha Hb. assert (0 < a) by (unfold layout in Ha; lia). apply list_eq. intros i. unfold unpack.
  rewrite list_lookup_fmap. destruct (decide (i < length bs)%nat) as [Hi|Hi].
  - rewrite lookup_seqZ_lt by lia. simpl. destruct (lookup_lt_is_Some_2 bs i Hi) as [b E]. rewrite E. f_equal.
    revert i E Hi. induction Hb as [|c bs Hc Hbs IH]; intros i E Hi; [done|]. unfold is_byte in Hc.
    assert (forall x, (c + 2 ^ (8 * a) * x) .>> (8 * a) = x) as Hx.
    { intros x. rewrite Z.shiftr_div_pow2 by lia. rewrite Z.mul_comm, Z.div_add by (apply Z.pow_nonzero; lia).
      rewrite Z.div_small; [lia|]. split; [lia|]. apply Z.lt_le_trans with (2 ^ 8); [lia|]. apply Z.pow_le_mono_r; lia. }
    destruct i as [|i]; simpl in E.
    + simplify_eq. simpl. rewrite Z.shiftr_0_r. unfold u8. replace (2 ^ (8 * a)) with (2 ^ (8 * a - 8) * 256) by (change 256 with (2 ^ 8); rewrite <- Z.pow_add_r by lia; f_equal; lia).
      rewrite <- Z.mul_assoc, (Z.mul_comm 256), Z.mul_assoc, Z_mod_plus_full. by apply Z.mod_small.
    + replace (0 + Z.of_nat (S i)) with (Z.of_nat i + 1) by lia. simpl pack.
      replace ((Z.of_nat i + 1) * a * 8) with (8 * a + Z.of_nat i * a * 8) by lia. rewrite <- Z.shiftr_shiftr by nia. rewrite Hx.
      by apply (IH i); [|simpl in Hi; lia].
  - rewrite lookup_seqZ_ge, (lookup_ge_None_2 bs) by lia. done.
Qed.
Lemma unpack_take a n m v : List.firstn n (unpack a m v) = unpack a (min n m) v.
Proof.
  unfold unpack. destruct (decide (n <= m)%nat).
  - rewrite Nat.min_l by lia. replace (Z.of_nat m) with (Z.of_nat n + Z.of_nat (m - n)) by lia. rewrite seqZ_app by lia. rewrite map_app.
    apply take_app_length'. by rewrite length_map, length_seqZ_nat.
  - rewrite Nat.min_r by lia. apply take_ge. rewrite length_map, length_seqZ_nat. lia.
Qed.
Lemma length_unpack a n v : length (unpack a n v) = n.
Proof. unfold unpack. by rewrite length_map, length_seqZ_nat. Qed.
(** The words that carry bytes give them back. *)
Lemma carries_unpack a bs ws : layout a -> bytes_ok bs -> carries a bs ws ->
  List.firstn (length bs) (mjoin (map (unpack a (Z.to_nat (fifo_capacity a))) ws)) = bs.
Proof.
  intros Ha Hb Hc. induction Hc as [|chunk bs ws Hl Hfull Hc IH]; [done|]. apply Forall_app in Hb as [Hchunk Hb].
  simpl. set (cap := Z.to_nat (fifo_capacity a)) in *. assert (List.firstn (length chunk) (unpack a cap (pack a chunk)) = chunk) as Hu.
  { rewrite unpack_take, Nat.min_l by lia. by apply unpack_pack. }
  destruct Hfull as [->|Hfull].
  - rewrite app_nil_r, take_app_le by (rewrite length_unpack; lia). exact Hu.
  - rewrite length_app, take_app, length_unpack. replace (length chunk + length bs - cap)%nat with (length bs) by lia. rewrite (IH Hb).
    f_equal. rewrite take_ge by (rewrite length_unpack; lia). by rewrite <- (take_ge (unpack a cap (pack a chunk)) (length chunk)) by (rewrite length_unpack; lia).
Qed.

(** ** The registers of the FIFOs *)
Definition on_txd (e : event) : list Z := match e with Wr p v => if decide (p = Mmio 32 I2C_TXD) then [v] else [] | Rd _ _ => [] end.
Definition on_rxd (e : event) : list Z := match e with Rd p v => if decide (p = Mmio 32 I2C_RXD) then [v] else [] | Wr _ _ => [] end.
(** The layout of the words is the one that was configured. *)
Class FifoLayout (D : Type) `{!Device D} := {
  tx_alignment : Z;
  rx_alignment : Z;
  tx_layout : layout tx_alignment;
  rx_layout : layout rx_alignment;
  tx_configured d : fifo_alignment (u32 (fst (dev_read (Mmio 32 I2C_FIFOCFG) d))) I2C_FIFOCFG_TXFA I2C_FIFOCFG_TXFA_SHIFT = tx_alignment;
  rx_configured d : fifo_alignment (u32 (fst (dev_read (Mmio 32 I2C_FIFOCFG) d))) I2C_FIFOCFG_RXFA I2C_FIFOCFG_RXFA_SHIFT = rx_alignment;
}.

Section Fifo.
Context {D : Type} `{!Device D, !FifoLayout D} `{B : Board} (E : cause -> world D driver -> Prop) (f : nat).
Implicit Types w : world D driver.
Definition state_of w : i2c_v2_state := state (w_app w).
Definition set_state w (s : i2c_v2_state) : world D driver := set_app w (Driver s (dma_rx (w_app w))).
Lemma wp_get_state Q w : Q (state_of w) w -> wp E get_state Q f w.
Proof. done. Qed.
Lemma wp_modify g Q w : Q tt (set_state w (g (state_of w))) -> wp E (modify g) Q f w.
Proof. done. Qed.
Definition enough (n : nat) : Prop := (n < f)%nat \/ forall w, E OutOfFuel w.

(** What is left to be sent: nothing but the address when the transfer is a reading one. *)
Definition unsent (s : i2c_v2_state) (m : gmap Z Z) (bs : list Z) : Prop :=
  if reading s then bs = []
  else remaining s = Z.of_nat (length bs) /\ is_u32 (remaining s) /\ bytes_ok bs /\ mem_at m (tx s) bs /\
       forall i, 0 <= i < Z.of_nat (length bs) -> mem_valid m (tx s + i) = true.
Definition advanced (s : i2c_v2_state) (n : nat) : i2c_v2_state :=
  if reading s then s else with_remaining (remaining s - Z.of_nat n) (with_tx (tx s + Z.of_nat n) s).
Lemma unsent_advanced s m bs n : unsent s m bs -> (n <= length bs)%nat -> unsent (advanced s n) m (drop n bs).
Proof.
  unfold unsent, advanced. destruct (reading s) eqn:Hr; [rewrite Hr; intros -> _; by rewrite drop_nil|].
  simpl. rewrite Hr. intros (H & Hu & Hb & Hm & Hv) Hn. rewrite length_drop. unfold is_u32 in *. split_and!; [lia|lia|lia|by apply Forall_drop|by apply mem_at_drop|].
  intros i Hi. rewrite <- Z.add_assoc. apply Hv. lia.
Qed.
Lemma advanced_0 s : advanced s 0 = s.
Proof. unfold advanced. destruct s; simpl. destruct reading; [done|]. by rewrite Z.sub_0_r, Z.add_0_r. Qed.
Lemma advanced_add s n m : advanced (advanced s n) m = advanced s (n + m).
Proof. unfold advanced. destruct (reading s) eqn:Hr; [by rewrite Hr|]. simpl. rewrite Hr. unfold with_remaining, with_tx. simpl. f_equal; lia. Qed.
Lemma set_state_id w : set_state w (state_of w) = w.
Proof. by destruct w as [d m l b [s r]]. Qed.
Lemma unsent_more s m bs : unsent s m bs -> negb (reading s) && (remaining s !=? 0) = negb (bool_decide (bs = [])).
Proof.
  unfold unsent. destruct (reading s); [by intros ->|]. intros (-> & _). destruct bs; [done|]. simpl.
  by destruct (Z.eqb_spec (Z.of_nat (S (length bs))) 0); [lia|].
Qed.
Lemma wp_fill a : layout a -> forall n bs cs Q w, (length cs <= Z.to_nat (fifo_capacity a))%nat -> bytes_ok cs -> unsent (state_of w) (w_mem w) bs ->
  (Z.to_nat (fifo_capacity a) - length cs < n)%nat \/ (forall w, E OutOfFuel w) ->
  (let k := min (Z.to_nat (fifo_capacity a) - length cs) (length bs) in
   Q (pack a (cs ++ take k bs)) (set_state w (advanced (state_of w) k))) ->
  wp E (loop n (fill_word (mret tt) a) (pack a cs, Z.of_nat (length cs))) Q f w.
Proof.
  intros Ha. pose proof (layout_capacity a Ha) as [Hc _]. induction n as [|n IH]; intros bs cs Q w Hcs Hb Hl Hn HQ; [destruct Hn as [Hn|Hn]; [lia|apply Hn]|].
  apply wp_loop_S. unfold fill_word at 1. apply wp_bind, wp_ret, wp_bind, wp_get_state. pose proof (unsent_more _ _ _ Hl) as Hm.
  destruct (Z.ltb_spec (Z.of_nat (length cs)) (fifo_capacity a)) as [Hlt|Hge].
  - rewrite andb_true_r, Hm. destruct bs as [|b bs]; simpl.
    + apply wp_ret. rewrite Nat.min_0_r in HQ. simpl in HQ. by rewrite app_nil_r, advanced_0, set_state_id in HQ.
    + unfold unsent in Hl. destruct (reading (state_of w)) eqn:Hr; [done|]. destruct Hl as (Er & Hu & Hbs & Hmem & Hv).
      apply mem_at_cons in Hmem as [Eb Hmem]. apply Forall_cons in Hbs as [Hbb Hbs].
      apply wp_bind, wp_ret, wp_bind, wp_get_state, wp_bind, wp_ld8; [rewrite <- (Z.add_0_r (tx _)); apply Hv; simpl; lia|].
      rewrite Eb. apply wp_bind, wp_modify, wp_bind, wp_ret, wp_bind, wp_modify, wp_ret.
      rewrite pack_next by (done || lia). replace (Z.of_nat (length cs) + 1) with (Z.of_nat (length (cs ++ [b]))) by (rewrite length_app; simpl; lia).
      set (s := state_of w) in *. assert (remaining s - 1 = Z.of_nat (length bs)) as Er' by (rewrite Er; simpl; lia).
      match goal with |- wp _ _ _ _ ?w' => replace w' with (set_state w (advanced s 1)); [set (w1 := set_state w (advanced s 1))|] end.
      2: { unfold advanced. rewrite Hr. unfold set_state, set_app, with_remaining, with_tx. simpl. rewrite u32_small by (unfold is_u32 in *; lia). done. }
      apply (IH bs); [rewrite length_app; simpl; lia|apply Forall_app; split; [done|by apply Forall_singleton]| | |].
      * apply (unsent_advanced s (w_mem w) (b :: bs) 1); [|simpl; lia]. unfold unsent. rewrite Hr. split_and!; [done|done|by apply Forall_cons_2|by apply mem_at_cons|exact Hv].
      * destruct Hn as [Hn|Hn]; [left|by right]. rewrite length_app. simpl. lia.
      * simpl. change (state_of w1) with (advanced s 1). rewrite advanced_add. rewrite length_app. simpl length in *.
        replace (min (Z.to_nat (fifo_capacity a) - length cs) (S (length bs))) with (S (min (Z.to_nat (fifo_capacity a) - (length cs + 1)) (length bs))) in HQ by lia.
        rewrite <- app_assoc. exact HQ.
  - rewrite andb_false_r. simpl. apply wp_ret. replace (Z.to_nat (fifo_capacity a) - length cs)%nat with 0%nat in HQ by lia.
    simpl in HQ. by rewrite app_nil_r, advanced_0, set_state_id in HQ.
Qed.
(** Between two worlds [ts] was written to the transmit FIFO and [rs] read from the other. *)
Definition passed (ts rs : list Z) w w' : Prop :=
  exists es, w_log w' = es ++ w_log w /\ accesses on_txd es = ts /\ accesses on_rxd es = rs.
Lemma passed_refl w : passed [] [] w w.
Proof. by exists []. Qed.
Lemma passed_trans ts1 rs1 ts2 rs2 w1 w2 w3 : passed ts1 rs1 w1 w2 -> passed ts2 rs2 w2 w3 -> passed (ts1 ++ ts2) (rs1 ++ rs2) w1 w3.
Proof. intros (l1 & E1 & <- & <-) (l2 & E2 & <- & <-). exists (l2 ++ l1). by rewrite E2, E1, app_assoc, !accesses_app. Qed.
Lemma passed_event e w w' : w_log w' = e :: w_log w -> passed (on_txd e) (on_rxd e) w w'.
Proof. intros Hl. exists [e]. split; [done|]. unfold accesses. simpl. by rewrite !app_nil_r. Qed.
(** All that was left is sent. *)
Definition prefix (s : i2c_v2_state) : list Z := if address_sent s then [] else [address s].
Definition all_sent bs w w' : Prop :=
  w_mem w' = w_mem w /\ w_lib w' = w_lib w /\ w_app w' = Driver (with_address_sent true (advanced (state_of w) (length bs))) (dma_rx (w_app w)) /\
  exists ws, passed ws [] w w' /\ carries tx_alignment (prefix (state_of w) ++ bs) ws.
Lemma address_marked s : address_sent s = true -> with_address_sent true s = s.
Proof. destruct s; simpl. by intros ->. Qed.
Lemma wp_fill_address Q w : (forall x, x = (pack tx_alignment (prefix (state_of w)), Z.of_nat (length (prefix (state_of w)))) ->
    Q x (set_state w (with_address_sent true (state_of w)))) -> wp E (fill_address (mret tt) (state_of w)) Q f w.
Proof.
  intros HQ. unfold fill_address, prefix in *. destruct (address_sent (state_of w)) eqn:Hs; simpl negb; cbv iota.
  - apply wp_ret. rewrite address_marked, set_state_id in HQ by done. by apply HQ.
  - apply wp_bind, wp_ret, wp_bind, wp_get_state, wp_bind, wp_ret, wp_bind, wp_modify, wp_ret, HQ. simpl. by rewrite Z.mul_0_r, Z.add_0_r.
Qed.
Lemma wp_fill_loop n : forall bs w, unsent (state_of w) (w_mem w) bs -> is_byte (address (state_of w)) ->
  (length (prefix (state_of w)) + length bs < n)%nat \/ (forall w, E OutOfFuel w) -> enough 4 ->
  wp E (loop n (fill_step (mret tt) tx_alignment) tt) (fun _ => all_sent bs w) f w.
Proof.
  induction n as [|n IH]; intros bs w Hl Ha Hn Hf; [destruct Hn as [Hn|Hn]; [lia|apply Hn]|].
  apply wp_loop_S. unfold fill_step at 1. apply wp_bind, wp_ret, wp_bind, wp_get_state. rewrite (unsent_more _ _ _ Hl).
  destruct (negb (address_sent (state_of w)) || negb (bool_decide (bs = []))) eqn:Hgo.
  - apply wp_bind, wp_ret, wp_bind, wp_get_state, wp_bind, wp_fill_address. intros x ->. apply wp_bind.
    set (s1 := with_address_sent true (state_of w)). set (w1 := set_state w s1).
    pose proof (layout_capacity _ tx_layout) as [Hc _].
    assert (length (prefix (state_of w)) <= 1)%nat as Hp by (unfold prefix; destruct (address_sent _); simpl; lia).
    assert (bytes_ok (prefix (state_of w))) as Hpb by (unfold prefix; destruct (address_sent _); [done|by apply Forall_singleton]).
    unfold iter. apply (wp_fill tx_alignment tx_layout f bs); [lia|done|exact Hl|destruct Hf as [Hf|Hf]; [left; lia|by right]|].
    set (k := min _ (length bs)). intros k0. apply wp_bind, wp_ret, wp_bind, wp_wr, wp_ret. change k0 with k. clear k0.
    set (chunk := prefix (state_of w) ++ List.firstn k bs).
    assert (length chunk = length (prefix (state_of w)) + k)%nat as Hchunk by (unfold chunk; rewrite length_app, length_take; lia).
    assert (k <= length bs)%nat as Hk by lia.
    assert (1 <= k + length (prefix (state_of w)))%nat as Hpos.
    { unfold k, prefix in *. destruct (address_sent (state_of w)); [|simpl; lia]. destruct bs as [|b bs']; [done|]. simpl length. lia. }
    assert (is_u32 (pack tx_alignment chunk)) as Hu.
    { apply pack_u32; [apply tx_layout| |lia]. apply Forall_app. split; [done|]. apply Forall_take. unfold unsent in Hl.
      destruct (reading (state_of w)); [by subst bs|by destruct Hl as (_ & _ & Hb & _)]. }
    set (w2 := set_io _ _ _). assert (state_of w2 = advanced s1 k) as Es by done.
    eapply wp_mono; [apply (IH (drop k bs) w2)|].
    + rewrite Es. by apply unsent_advanced.
    + rewrite Es. unfold advanced. by destruct (reading s1).
    + destruct Hn as [Hn|Hn]; [left|by right]. rewrite Es, length_drop. unfold prefix at 1, advanced. destruct (reading s1); simpl; lia.
    + done.
    + intros _ w3 (Em & El & Ea & ws & Hp3 & Hc3). rewrite Es in *. rewrite advanced_add, length_drop in Ea.
      replace (k + (length bs - k))%nat with (length bs) in Ea by lia. assert (address_sent (advanced s1 k) = true) as Hs1 by (unfold advanced; by destruct (reading s1)).
      split_and!; [done|done| |].
      * rewrite Ea. unfold advanced, s1. simpl. by destruct (reading (state_of w)).
      * exists (pack tx_alignment chunk :: ws). split.
        -- change (_ :: ws) with ([pack tx_alignment chunk] ++ ws). apply (passed_trans _ [] _ [] w w2 w3); [|done].
           pose proof (passed_event _ w w2 eq_refl) as H. simpl in H. by rewrite (u32_small _ Hu) in H.
        -- rewrite <- (take_drop k bs), app_assoc. constructor; [fold chunk; lia| |].
           ++ fold chunk. destruct (decide (length bs <= k)%nat); [left; by apply drop_ge|right; lia].
           ++ unfold prefix in Hc3. by rewrite Hs1 in Hc3.
  - apply orb_false_iff in Hgo as [Hs Hbs]. apply negb_false_iff in Hs, Hbs. apply bool_decide_eq_true in Hbs as ->.
    apply wp_ret. split_and!; [done|done|rewrite advanced_0, address_marked by done; by destruct w as [d m l b [s r]]|].
    exists []. split; [apply passed_refl|]. unfold prefix. rewrite Hs. constructor.
Qed.
Lemma wp_write_fifo bs Q w : unsent (state_of w) (w_mem w) bs -> is_byte (address (state_of w)) -> enough (length bs + 5) ->
  (forall w', all_sent bs w w' -> Q tt w') -> wp E (write_fifo (mret tt)) Q f w.
Proof.
  intros Hl Ha Hf HQ. unfold write_fifo. apply wp_bind, wp_rd. intros v d Hd. pose proof (tx_configured (w_dev w)) as Hc. rewrite Hd in Hc.
  simpl in Hc. change (port_wrap _ v) with (u32 v). rewrite Hc. set (w1 := set_io _ _ _). eapply wp_mono.
  - apply (wp_fill_loop f bs w1); [exact Hl|exact Ha| |destruct Hf as [Hf|Hf]; [left; lia|by right]].
    destruct Hf as [Hf|Hf]; [left|by right]. assert (length (prefix (state_of w1)) <= 1)%nat by (unfold prefix; destruct (address_sent _); simpl; lia). lia.
  - intros [] w' (Em & El & Ea & ws & Hp & Hcs). apply HQ. split_and!; [done|done|done|]. exists ws. split; [|done].
    change ws with ([] ++ ws). apply (passed_trans [] [] ws [] w w1 w'); [|done]. apply (passed_event _ w w1 eq_refl).
Qed.

(** ** Words that are received *)
Definition stream (rs : list Z) : list Z := mjoin (map (unpack rx_alignment (Z.to_nat (fifo_capacity rx_alignment))) rs).
(** Of a buffer of [size] bytes at [a], the words [rs] have filled the first ones. *)
Definition stored (m : gmap Z Z) (a size : Z) (rs : list Z) w : Prop :=
  let got := List.firstn (Z.to_nat size) (stream rs) in
  w_mem w = mem_put m a got /\ rx (state_of w) = a + Z.of_nat (length got) /\ remaining (state_of w) = size - Z.of_nat (length got).
Definition buffer (m : gmap Z Z) (a size : Z) : Prop := 0 <= size < 2 ^ 32 /\ forall i, 0 <= i < size -> mem_valid m (a + i) = true.
(** What a received word changes of the state. *)
Definition received_to r n (s : i2c_v2_state) : i2c_v2_state := with_remaining n (with_rx r s).
Lemma stream_snoc rs v : stream (rs ++ [v]) = stream rs ++ unpack rx_alignment (Z.to_nat (fifo_capacity rx_alignment)) v.
Proof. unfold stream. rewrite map_app, join_app. simpl. by rewrite app_nil_r. Qed.
Lemma unpack_bytes a n v : bytes_ok (unpack a n v).
Proof. unfold unpack. apply Forall_map, Forall_forall. intros i _. apply u8_range. Qed.
Lemma wp_store_word v n Q : forall w, (forall i, 0 <= i < Z.of_nat n -> mem_valid (w_mem w) (rx (state_of w) + i) = true) ->
  (Q tt (set_state (set_mem w (mem_put (w_mem w) (rx (state_of w)) (unpack rx_alignment n v))) (with_rx (rx (state_of w) + Z.of_nat n) (state_of w)))) ->
  wp E (foldM (fun (_ : unit) offset =>
    s ← get_state; st8 (rx s) (v .>> (offset * rx_alignment * 8));; modify (with_rx (rx s + 1))) tt (seqZ 0 (Z.of_nat n))) Q f w.
Proof.
  intros w Hv HQ.
  apply (wp_foldM _ _ (fun l _ w' => w' = set_state (set_mem w (mem_put (w_mem w) (rx (state_of w)) (unpack rx_alignment (length l) v)))
    (with_rx (rx (state_of w) + Z.of_nat (length l)) (state_of w)))).
  - simpl. rewrite Z.add_0_r. destruct w as [d m l b [s r]]. by destruct s.
  - intros l y todo [] w1 El ->. apply seqZ_split in El as [-> Hy]. apply wp_bind, wp_get_state, wp_bind, wp_st8.
    { simpl. apply mem_valid_put. apply Hv. lia. }
    apply wp_modify. simpl. rewrite length_app. simpl length. unfold set_state, set_mem, set_app. simpl. unfold with_rx. simpl. f_equal; [|f_equal; f_equal; lia].
    unfold unpack. replace (Z.of_nat (length l + 1)) with (Z.of_nat (length l) + 1) by lia. rewrite seqZ_app by lia. rewrite map_app, mem_put_app.
    rewrite length_map, length_seqZ_nat. done.
  - intros [] w1 ->. rewrite length_seqZ_nat. exact HQ.
Qed.
(** What the received words leave alone. *)
Definition only_received w w' : Prop :=
  w_lib w' = w_lib w /\ exists r n, w_app w' = Driver (received_to r n (state_of w)) (dma_rx (w_app w)).
Lemma only_received_refl w : only_received w w.
Proof. split; [done|]. exists (rx (state_of w)), (remaining (state_of w)). by destruct w as [d m l b [[] r]]. Qed.
Lemma only_received_trans w1 w2 w3 : only_received w1 w2 -> only_received w2 w3 -> only_received w1 w3.
Proof.
  unfold only_received, state_of. intros [L1 (r1 & n1 & E1)] [L2 (r2 & n2 & E2)]. split; [congruence|]. exists r2, n2. rewrite E2, E1. done.
Qed.
Lemma wp_read_word m a size rs Q w : buffer m a size -> stored m a size rs w -> remaining (state_of w) <> 0 ->
  (forall v w', passed [] [v] w w' -> stored m a size (rs ++ [v]) w' -> only_received w w' -> Q tt w') -> wp E read_word Q f w.
Proof.
  intros [Hsize Hv] (Em & Er & En) Hn HQ. unfold read_word. apply wp_bind, wp_rd. intros v d Hd. change (port_wrap _ v) with (u32 v).
  apply wp_bind, wp_rd. intros cfg d' Hd'. pose proof (rx_configured d) as Hc. simpl in Hd'. rewrite Hd' in Hc. simpl in Hc. change (port_wrap _ cfg) with (u32 cfg).
  rewrite Hc. apply wp_bind, wp_get_state. set (w1 := set_io _ _ _). change (state_of w1) with (state_of w) in *.
  pose proof (layout_capacity _ rx_layout) as [Hcap _]. set (cap := Z.to_nat (fifo_capacity rx_alignment)).
  assert (length (stream rs) < Z.to_nat size)%nat as Hlen by (rewrite length_take in En; lia). rewrite take_ge in Em, Er, En by lia.
  set (n := min (Z.to_nat (remaining (state_of w))) cap). replace (if _ <? _ then _ else _) with (Z.of_nat n)
    by (destruct (Z.ltb_spec (remaining (state_of w)) (fifo_capacity rx_alignment)); lia).
  apply wp_bind, wp_store_word.
  { intros i Hi. change (w_mem w1) with (w_mem w). rewrite Em. apply mem_valid_put. change (state_of w1) with (state_of w). rewrite Er, <- Z.add_assoc. apply Hv. lia. }
  apply wp_modify. change (state_of w1) with (state_of w). apply (HQ (u32 v)).
  - pose proof (passed_event (Rd (Mmio 32 I2C_RXD) (u32 v)) w (set_io w d (Rd (Mmio 32 I2C_RXD) (u32 v))) eq_refl) as H1.
    apply (passed_trans [] [u32 v] [] [] w (set_io w d (Rd (Mmio 32 I2C_RXD) (u32 v)))); [exact H1|]. apply (passed_event (Rd (Mmio 32 I2C_FIFOCFG) (u32 cfg))). done.
  - unfold stored. rewrite stream_snoc, take_app, take_ge by lia. fold cap. rewrite unpack_take. replace (min (Z.to_nat size - length (stream rs)) cap) with n by lia.
    rewrite length_app, length_unpack. simpl. rewrite mem_put_app, Er, Em, (u32_small (remaining _ - _)) by (unfold is_u32, n; lia). split_and!; [done|lia|lia].
  - split; [done|]. eexists _, _. reflexivity.
Qed.
Lemma wp_read_fifo stages m a size rs Q w : buffer m a size -> stored m a size rs w ->
  (forall vs w', passed [] vs w w' -> stored m a size (rs ++ vs) w' -> only_received w w' -> (remaining (state_of w) = 0 -> vs = []) -> Q tt w') ->
  wp E (read_fifo stages) Q f w.
Proof.
  intros Hb Hs HQ. unfold read_fifo. apply wp_bind, wp_rd. intros ffs d Hd. set (w1 := set_io _ _ _).
  set (J := fun w' => exists vs, passed [] vs w w' /\ stored m a size (rs ++ vs) w' /\ only_received w w' /\ (remaining (state_of w) = 0 -> vs = [])). apply wp_bind.
  assert (J w1) as HJ1.
  { exists []. rewrite app_nil_r. split_and!; [by apply (passed_event (Rd (Mmio 32 I2C_FFSSTAT) (u32 ffs)) w w1)|exact Hs| |done].
    apply (only_received_trans _ w); [apply only_received_refl|]. split; [done|]. exists (rx (state_of w)), (remaining (state_of w)). by destruct w as [d0 m0 l0 b0 [[] r0]]. }
  eapply (wp_mono E _ (fun _ w' => J w')); [|intros r w' (vs & H1 & H2 & H3 & H4); apply wp_ret; by eapply HQ].
  apply (wp_foldE _ _ (fun _ _ w' => J w')); [exact HJ1| |intros [] w' H; exact H].
  intros l y todo [] w2 _ (vs & H1 & H2 & H3 & H4). apply wp_bind, wp_get_state. destruct (Z.eqb_spec (remaining (state_of w2)) 0) as [E0|E0]; simpl negb; cbv iota.
  - apply wp_ret. by exists vs.
  - apply wp_bind. eapply wp_read_word; [exact Hb|exact H2|exact E0|]. intros v w3 Hp3 Hs3 Ho3. apply wp_ret. exists (vs ++ [v]). rewrite app_assoc.
    split_and!; [by apply (passed_trans [] vs [] [v] w w2)|done|by eapply only_received_trans|].
    intros H0. destruct Hs as (_ & _ & En), H2 as (_ & _ & En2). rewrite En in H0. rewrite En2 in E0. destruct Hb as [Hsize _].
    specialize (H4 ltac:(lia)) as ->. rewrite app_nil_r in E0. lia.
Qed.
End Fifo.
