(* ===== verification/I2cTime.v ===== *)
(** * Time in the transfers of the interrupt-driven I2C driver ([unit/i2c-v2/driver.c])

    A wait for an interrupt, which takes the interrupts that come, is over when its timeout is. *)
From S2P Require Import Prelude Machine Board Regs Clock Stopwatch Wdt Timeout I2cDriver I2cFifo.
Import Regs.Pmb8876.

Section Time.
Context {D : Type} `{!Device D, !StmTimer D} `{B : Board}.
#[local] Abbreviation M := (M D driver).
Implicit Types w : world D driver.
(** ** The interrupts *)
#[local] Abbreviation anywhere := (fun _ : port => True).
Ltac uses_any := repeat first
  [ progress uses_tac ltac:(exact I)
  | apply uses_foldE | apply uses_foldM
  | match goal with |- uses _ (if ?b then _ else _) => destruct b | |- uses _ (let '(_, _) := ?x in _) => destruct x end ].
Lemma uses_modify g : uses anywhere (modify (D := D) g).
Proof. unfold modify. uses_any. Qed.
Lemma uses_get_state : uses anywhere (get_state (D := D)).
Proof. unfold get_state. uses_any. Qed.
Hint Resolve uses_modify uses_get_state : uses.
Lemma uses_write_fifo : uses anywhere (write_fifo (mret tt)).
Proof. unfold write_fifo, fill_step, fill_address, fill_word. uses_any. Qed.
Lemma uses_read_fifo stages : uses anywhere (read_fifo stages).
Proof. unfold read_fifo, read_word. uses_any. Qed.
Hint Resolve uses_write_fifo uses_read_fifo : uses.
Lemma uses_handle_irq irq : uses anywhere (i2c_v2_handle_irq irq).
Proof. unfold i2c_v2_handle_irq, handle_request_irq, take_data, give_data, handle_protocol_irq, handle_error_irq, put_dma. uses_any. Qed.
Context (pending : D -> list Z * D) (Hpending : forall d, stm_time d <= stm_time (snd (pending d))).
Lemma forward_interrupts : forward (interrupts pending).
Proof.
  unfold interrupts. apply forward_bind.
  - intros f w. unfold come, now. pose proof (Hpending (w_dev w)). by destruct (pending (w_dev w)).
  - intros irqs. apply (forward_uses anywhere), uses_foldM. intros _ irq. apply uses_bind; [apply uses_handle_irq|]. intros. apply uses_ret.
Qed.

(** ** Waits *)
Context (T : Z) (HT : 0 <= T < 0x10000000000000000).
Definition off_fifo (p : port) : Prop := p <> Mmio 32 I2C_TXD /\ p <> Mmio 32 I2C_RXD.
Lemma off_fifo_wdt p : wdt_port p -> off_fifo p.
Proof.
  unfold wdt_port, off_fifo. intros [[->| ->]|[->|[->|[->|Hp]]]]; [by split..|].
  pose proof board_pm_wadog_pos as Hpos. destruct board_pm_wadog as [g|]; [|done]. subst p. unfold GPIO_PIN, GPIO_BASE, I2C_TXD, I2C_RXD.
  split; intros [=]; lia.
Qed.
Lemma off_fifo_stm p : stm_port p -> off_fifo p.
Proof. intros Hp. apply off_fifo_wdt. by left. Qed.
Lemma off_fifo_passed w w' : traced off_fifo w w' -> passed [] [] w w'.
Proof.
  intros (_ & l & El & Hl). exists l. split; [done|]. split; apply accesses_quiet; (eapply Forall_impl; [exact Hl|]);
    intros [p v|p v] [H1 H2]; simpl in *; by rewrite ?decide_False by done.
Qed.
Lemma unchanged_served w w' : unchanged w w' -> served (fun _ => True) w w'.
Proof. intros (Em & Ea & El). apply framed_served. by split. Qed.

(** An invariant [J] that the library's functions keep; a clock of a kilohertz or more and fuel for the
    ticks of a tenth of a second. *)
Section Waiting.
Context (f : nat) (tps : Z) (Htps : 1000 <= tps) (Hf : timeout_ticks I2C_TIMEOUT_MS tps + 2 < Z.of_nat f) (J : world D driver -> Prop).
Context (J_timed : forall w, J w -> T <= now w /\ ticks_per_s (w_lib w) = tps).
Context (J_library : forall w w', J w -> traced off_fifo w w' -> served (fun _ => True) w w' -> J w').
#[local] Abbreviation E := (@unless_late D driver _ _ T).
#[local] Abbreviation late := (late T).
#[local] Abbreviation keeps := (upholds T f J).
Lemma wp_library {R} (m : M R) Q w : J w -> uses off_fifo m ->
  wp E m (fun r w' => served (fun _ => True) w w' /\ (J w' -> Q r w')) f w -> wp E m Q f w.
Proof.
  intros Hw Hu Hm. eapply wp_mono; [apply (wp_traced _ _ _ _ _ _ Hu Hm)|]. intros r w' [[Hs HQ] Ht]. by apply HQ, (J_library w w').
Qed.
Lemma keeps_serve : keeps wdt_serve.
Proof.
  split; [by apply (forward_uses off_fifo), uses_wdt_serve, off_fifo_wdt|]. intros Q w Hw HQ. destruct (J_timed w Hw) as [_ Ht].
  apply wp_library; [done|apply uses_wdt_serve, off_fifo_wdt|].
  apply (wp_wdt_serve (fun _ => True)); [apply any_stable|done|lia|]. intros w' Hs. split; [done|]. apply HQ.
Qed.
Lemma wp_timeout_elapsed start Q w : J w -> late w \/ T <= start <= now w ->
  (forall e w', J w' -> now w < now w' -> (e < I2C_TIMEOUT_MS -> late w' \/ now w < start + timeout_ticks I2C_TIMEOUT_MS tps + 1) -> Q e w') ->
  wp E (stopwatch_elapsed_ms start) Q f w.
Proof.
  intros Hw Hs HQ. destruct (J_timed w Hw) as [Hn Ht].
  apply wp_library; [done|apply uses_stopwatch_elapsed_ms, off_fifo_stm|]. apply (wp_elapsed_now T HT I2C_TIMEOUT_MS); [done|done|done|lia|].
  intros e w' Hu Hn' He. split; [by apply unchanged_served|]. intros H1. apply HQ; [done|lia|by rewrite <- Ht].
Qed.
Lemma wp_start Q w : J w -> (forall t w', J w' -> late w' \/ T <= t <= now w' -> Q t w') -> wp E stopwatch_get Q f w.
Proof.
  intros Hw HQ. destruct (J_timed w Hw) as [Hn _]. apply wp_library; [done|apply uses_stopwatch_get, off_fifo_stm|].
  apply (wp_stopwatch_now T HT); [done|]. intros t w' Hu Hn' Hv. split; [by apply unchanged_served|]. intros H1. apply HQ; [done|].
  destruct Hv; [by left|right; lia].
Qed.
(** A wait is over after a tenth of a second, unless the timer wraps. *)
Lemma wp_wait_while (cond : M bool) Q w : keeps (interrupts pending) -> keeps cond -> J w -> (forall w', J w' -> Q tt w') -> wp E (wait_while pending cond) Q f w.
Proof.
  intros Hi Hc Hw HQ. unfold wait_while. apply wp_bind, wp_start; [done|]. intros start w1 H1 Hs1. unfold wait_from.
  apply (wp_timed_loop T (timeout_ticks I2C_TIMEOUT_MS tps) f _ (fun _ => J) start); [apply Z.div_pos; unfold I2C_TIMEOUT_MS; lia|done|done|done|]. intros [] w2 H2 Hs2.
  eapply wp_bind, (wp_upheld T f J); [done|done|]. intros [] w3 H3 Hn3. eapply wp_bind, (wp_upheld T f J); [done|done|]. intros go w4 H4 Hn4.
  destruct go; simpl; [|by apply wp_ret, HQ].
  apply wp_bind, (wp_timeout_elapsed start); [done|unfold Timeout.late in *; lia|]. intros e w5 H5 Hn5 He. destruct (Z.ltb_spec e I2C_TIMEOUT_MS) as [He'|]; [|by apply wp_ret, HQ].
  eapply wp_bind, (wp_upheld T f J); [apply keeps_serve|done|]. intros [] w6 H6 Hn6. apply wp_ret. specialize (He He'). unfold Timeout.late in *.
  split; [done|lia].
Qed.
End Waiting.
End Time.
(** What the theorems ask of a world, a fuel and the time [T] since which the timer must not wrap. *)
Definition timed {D} `{!Device D, !StmTimer D} (f : nat) (T : Z) (w : world D driver) : Prop :=
  0 <= T < 0x10000000000000000 /\ T <= now w /\ 1000 <= ticks_per_s (w_lib w) /\ timeout_ticks I2C_TIMEOUT_MS (ticks_per_s (w_lib w)) + 2 < Z.of_nat f.
Lemma timed_later {D} `{!Device D, !StmTimer D} f T (w w' : world D driver) : timed f T w -> now w <= now w' ->
  ticks_per_s (w_lib w') = ticks_per_s (w_lib w) -> timed f T w'.
Proof. intros (? & ? & ? & ?) Hn Et. unfold timed. rewrite Et. split_and!; done || lia. Qed.

(** What a run that was evaluated comes to. *)
Definition is_done (r : i2c_v2_result_t) : bool := match r with I2C_V2_DONE => true | _ => false end.
Lemma wp_result {D T A} `{Device D} E (m : M D T A) Q f w (p : A -> bool) : wp E m Q f w ->
  match m f w with Done r _ => p r | Stop _ _ => false end = true -> exists r w', m f w = Done r w' /\ p r = true /\ Q r w'.
Proof. unfold wp. destruct (m f w) as [r w'|e w']; [|done]. by exists r, w'. Qed.
