(* ===== verification/I2cTransfer.v ===== *)
(** * Transfers of the interrupt-driven I2C driver ([unit/i2c-v2/driver.c])

    [moving] is the state of a transfer between two statements of the program: whatever the
    controller's interrupts are and whenever they come, they keep it. *)
From S2P Require Import Prelude Machine Board Regs Clock Stopwatch Wdt Timeout I2cDriver I2cFifo I2cTime.
Import Regs.Pmb8876.

Section Transfer.
Context {D : Type} `{!Device D, !FifoLayout D, !StmTimer D} `{B : Board} (pending : D -> list Z * D) (f : nat) (T : Z).
Implicit Types w : world D driver.
#[local] Abbreviation E := (@unless_late D driver _ _ T).
(** The transfer: since [w0], with the address word [addr], a buffer at [a] that is filled with
    [size] bytes ([reads]) or holds [data]; [sent0]: the address word was sent before. *)
Context (w0 : world D driver) (sent0 reads : bool) (addr a size : Z) (data : list Z).
Definition transfer_ok : Prop :=
  timed f T w0 /\ (length data + 5 < f)%nat /\ is_byte addr /\
  if reads then buffer (w_mem w0) a size
  else bytes_ok data /\ mem_at (w_mem w0) a data /\ Z.of_nat (length data) < 2 ^ 32 /\ forall i, 0 <= i < Z.of_nat (length data) -> mem_valid (w_mem w0) (a + i) = true.
Context (Hok : transfer_ok).
Definition payload : list Z := if reads then [] else data.
Definition moving w : Prop :=
  let s := state_of w in
  exists ts rs, passed ts rs w0 w /\ (now w0 <= now w /\ ticks_per_s (w_lib w) = ticks_per_s (w_lib w0)) /\ reading s = reads /\ address s = addr /\
    (if address_sent s then if sent0 then ts = [] else carries tx_alignment (addr :: payload) ts else sent0 = false /\ ts = []) /\
    if reads then stored (w_mem w0) a size rs w /\ (result s = I2C_V2_DONE -> remaining s = 0) /\ (size = 0 -> rs = [])
    else rs = [] /\ w_mem w = w_mem w0 /\ if address_sent s then remaining s = 0 else remaining s = Z.of_nat (length data) /\ tx s = a.

(** ** Single steps *)
(** A new state that differs where the transfer does not look. *)
Definition agree (s s' : i2c_v2_state) : Prop :=
  tx s' = tx s /\ rx s' = rx s /\ remaining s' = remaining s /\ address s' = address s /\ address_sent s' = address_sent s /\
  reading s' = reading s /\ (result s' = I2C_V2_DONE -> result s = I2C_V2_DONE \/ reading s = false \/ remaining s = 0).
Lemma moving_step w w' : moving w -> passed [] [] w w' -> now w <= now w' -> w_mem w' = w_mem w -> ticks_per_s (w_lib w') = ticks_per_s (w_lib w) ->
  agree (state_of w) (state_of w') -> moving w'.
Proof.
  intros (ts & rs & Hp & [Hn Ht] & Hr & Ha & Hs & Hm) Hp' Hn' Em El (A1 & A2 & A3 & A4 & A5 & A6 & A7). exists ts, rs. split_and!; [|lia|congruence|congruence|congruence|by rewrite A5|].
  - rewrite <- (app_nil_r ts), <- (app_nil_r rs). by eapply passed_trans.
  - rewrite Em, A5, A3, A1. destruct reads; [|exact Hm]. destruct Hm as (Hst & Hd & H0). split_and!; [|  |exact H0].
    + unfold stored in *. by rewrite Em, A2, A3.
    + intros H. destruct (A7 H) as [H'|[H'|H']]; [by apply Hd|congruence|done].
Qed.
Lemma agree_refl s : agree s s.
Proof. unfold agree. tauto. Qed.
Lemma quiet_event w e w' : w_log w' = e :: w_log w -> on_txd e = [] -> on_rxd e = [] -> passed [] [] w w'.
Proof. intros Hl Ht Hr. pose proof (passed_event e w w' Hl) as H. by rewrite Ht, Hr in H. Qed.
Lemma mv_rd p Q w : moving w -> p <> Mmio 32 I2C_RXD -> (forall v w', moving w' -> w_app w' = w_app w -> Q v w') -> wp E (rd p) Q f w.
Proof.
  intros Hw Hp HQ. apply wp_rd. intros v d Hd. apply HQ; [|done]. pose proof (stm_read_time p (w_dev w)) as Ht. rewrite Hd in Ht.
  eapply moving_step; [exact Hw| |apply Ht|done|done|apply agree_refl].
  eapply quiet_event; [reflexivity|done|]. simpl. by rewrite decide_False.
Qed.
Lemma mv_wr p v Q w : moving w -> p <> Mmio 32 I2C_TXD -> (forall w', moving w' -> w_app w' = w_app w -> Q tt w') -> wp E (wr p v) Q f w.
Proof.
  intros Hw Hp HQ. apply wp_wr, HQ; [|done].
  eapply moving_step; [exact Hw| |by apply stm_write_time|done|done|apply agree_refl].
  eapply quiet_event; [reflexivity| |done]. simpl. by rewrite decide_False.
Qed.
Lemma mv_modify g Q w : moving w -> agree (state_of w) (g (state_of w)) ->
  (forall w', moving w' -> state_of w' = g (state_of w) -> dma_rx (w_app w') = dma_rx (w_app w) -> Q tt w') -> wp E (modify g) Q f w.
Proof. intros Hw Hg HQ. apply wp_modify, HQ; [|done|done]. eapply moving_step; [exact Hw|by exists []|apply Z.le_refl|done|done|exact Hg]. Qed.
Lemma mv_put_dma g Q w : moving w -> (forall w', moving w' -> state_of w' = state_of w -> Q tt w') -> wp E (put_dma g) Q f w.
Proof.
  intros Hw HQ. unfold put_dma. apply wp_bind, wp_get_app, wp_put_app, HQ; [|done].
  eapply moving_step; [exact Hw|by exists []|apply Z.le_refl|done|done|apply agree_refl].
Qed.
(** What is left to be sent. *)
Definition unsent_data (s : i2c_v2_state) : list Z := if reads || address_sent s then [] else data.
Lemma moving_unsent w : moving w -> unsent (state_of w) (w_mem w) (unsent_data (state_of w)).
Proof.
  intros (ts & rs & _ & _ & Hr & _ & _ & Hm). destruct Hok as (_ & _ & _ & Ho). unfold unsent, unsent_data. rewrite Hr. destruct reads; [done|]. destruct Hm as (_ & Em & Hm).
  destruct (address_sent (state_of w)); simpl.
  - rewrite Hm. split_and!; [done|done|done|apply mem_at_nil|intros i Hi; simpl in Hi; lia].
  - destruct Hm as [-> ->]. destruct Ho as (Hb & Ha & Hl & Hv). rewrite Em. split_and!; [done|unfold is_u32; lia|done|done|done].
Qed.
Lemma mv_write_fifo Q w : moving w -> (forall w', moving w' -> address_sent (state_of w') = true -> Q tt w') -> wp E (write_fifo (mret tt)) Q f w.
Proof.
  intros Hw HQ. eapply wp_mono; [apply (wp_forward _ _ (fun _ => all_sent (unsent_data (state_of w)) w)); [apply (forward_uses (fun _ => True)), uses_write_fifo|]|].
  { eapply wp_write_fifo; [by apply moving_unsent| | |done].
    - destruct Hw as (ts & rs & _ & _ & _ & -> & _). by destruct Hok as (_ & _ & ? & _).
    - left. destruct Hok as (_ & Hf & _). unfold unsent_data. destruct (reads || _); simpl; lia. }
  intros [] w' [(Em & El & Ea & ws & Hp' & Hc) Hnow]. assert (state_of w' = with_address_sent true (advanced (state_of w) (length (unsent_data (state_of w))))) as Es
    by (unfold state_of at 1; by rewrite Ea).
  apply HQ; [|by rewrite Es]. destruct Hw as (ts & rs & Hp & [Hn Ht] & Hr & Ha & Hs & Hm). unfold prefix, unsent_data in *.
  exists (ts ++ ws), rs. assert (now w0 <= now w') as Hn' by lia. rewrite Es, Em, El. assert (passed (ts ++ ws) rs w0 w') as Hp2 by (rewrite <- (app_nil_r rs); by eapply passed_trans).
  destruct (address_sent (state_of w)) eqn:Has.
  - rewrite orb_true_r in *. simpl in Hc. inversion Hc as [Hnil|chunk bs0 ws0 Hch]; subst; [|destruct chunk; simpl in *; lia || done].
    rewrite app_nil_r in *. simpl length. rewrite advanced_0, address_marked by done. split_and!; try done; [by rewrite Has|].
    rewrite Has. destruct reads; [|exact Hm]. destruct Hm as (Hst & Hd & H0). split; [|done]. unfold stored in *. rewrite Em, Es. simpl length.
    by rewrite advanced_0, address_marked.
  - destruct Hs as [-> ->]. rewrite orb_false_r in *. simpl in Hp2. split_and!; try done.
    + unfold advanced. destruct (reading (state_of w)) eqn:Hr'; simpl; congruence.
    + unfold advanced. destruct (reading (state_of w)) eqn:Hr'; simpl; congruence.
    + simpl. unfold payload. by rewrite Ha in Hc.
    + unfold advanced. rewrite Hr. destruct reads.
      * destruct Hm as (Hst & Hd & H0). split; [|done]. unfold stored in *. rewrite Em, Es. unfold advanced. by rewrite Hr.
      * simpl. destruct Hm as (-> & Em' & Hrem & Htx). split_and!; [done|done|lia].
Qed.
Lemma mv_read_fifo stages Q w : moving w -> reading (state_of w) = true ->
  (forall w', moving w' -> address_sent (state_of w') = address_sent (state_of w) -> reading (state_of w') = true -> Q tt w') -> wp E (read_fifo stages) Q f w.
Proof.
  intros (ts & rs & Hp & [Hn Ht] & Hr & Ha & Hs & Hm) Hreads HQ. destruct Hok as (_ & _ & _ & Ho).
  assert (reads = true) as Er by congruence. rewrite Er in Hm, Ho. destruct Hm as (Hst & Hd & H0).
  eapply wp_mono; [apply wp_forward; [apply (forward_uses (fun _ => True)), uses_read_fifo|eapply (wp_read_fifo _ _ _ _ _ _ _ (fun _ w' => exists vs, _)); [exact Ho|exact Hst|]]|].
  { intros vs w' H1 H2 H3 H4. exists vs. exact (conj H1 (conj H2 (conj H3 H4))). }
  intros [] w' [(vs & Hp' & Hst' & [El (r & n & Ea)] & Hvs) Hnow].
  assert (state_of w' = received_to r n (state_of w)) as Es by (unfold state_of at 1; by rewrite Ea).
  apply HQ; [|by rewrite Es|by rewrite Es]. exists ts, (rs ++ vs). assert (now w0 <= now w') as Hn' by lia. rewrite El, Es, Er. simpl. split_and!; try done.
  - rewrite <- (app_nil_r ts). by eapply passed_trans.
  - intros H. specialize (Hd H). destruct Hst' as (_ & _ & En'), Hst as (_ & _ & En). rewrite Es in En'. simpl in En'.
    rewrite En'. rewrite Hd in En. revert En. unfold stream. rewrite map_app, join_app. fold (stream rs). fold (stream vs). rewrite !length_take, length_app. lia.
  - intros Hz. rewrite (H0 Hz), Hvs; [done|]. destruct Hst as (_ & _ & ->). rewrite Hz. simpl. lia.
Qed.

(** ** The interrupts *)
Ltac agree_tac := unfold agree; simpl; tauto.
Lemma mv_when_done b Q w : moving w -> (b = true -> reads = true -> remaining (state_of w) = 0) ->
  (forall w', moving w' -> remaining (state_of w') = remaining (state_of w) -> Q tt w') -> wp E (when b (modify (with_result I2C_V2_DONE))) Q f w.
Proof.
  intros Hw Hb HQ. apply wp_when; intros Eb; [|by apply HQ]. apply mv_modify; [done| |intros w' H' Es _; apply HQ; [done|by rewrite Es]].
  pose proof Hw as (ts & rs & _ & _ & Hr & _). unfold agree. simpl. split_and!; try done. intros _. right. rewrite Hr. destruct reads; [right; by apply Hb|by left].
Qed.
Lemma mv_take_data status Q w : moving w -> reading (state_of w) = true -> (forall w', moving w' -> Q tt w') -> wp E (take_data status) Q f w.
Proof.
  intros Hw Hr HQ. unfold take_data. apply wp_bind, mv_modify; [done|agree_tac|]. intros w1 H1 E1 _. apply wp_bind, mv_rd; [done|done|]. intros ffs w2 H2 E2.
  apply wp_bind, mv_read_fifo; [done|unfold state_of in *; by rewrite E2, E1|]. intros w3 H3 _ _. apply wp_bind, wp_get_state, wp_bind.
  assert (forall w4, moving w4 -> wp E (cfg ← rd32 I2C_FIFOCFG; s ← get_state;
    when (((cfg .& I2C_FIFOCFG_RXFC) ==? 0) && (remaining s ==? 0))
      (bus ← rd32 I2C_BUSSTAT; when ((bus .& I2C_BUSSTAT_BS) ==? I2C_BUSSTAT_BS_FREE) (modify (with_result I2C_V2_DONE)))) Q f w4) as Hend.
  { intros w4 H4. apply wp_bind, mv_rd; [done|done|]. intros cfg w5 H5 _. apply wp_bind, wp_get_state, wp_when; [|intros _; by apply HQ].
    intros Hb. apply andb_true_iff in Hb as [_ Hb]. apply Z.eqb_eq in Hb. apply wp_bind, mv_rd; [done|done|]. intros bus w6 H6 E6.
    apply mv_when_done; [done|intros _ _; unfold state_of in *; by rewrite E6|]. intros w7 H7 _. by apply HQ. }
  apply wp_when; [|intros _; by apply Hend]. intros Hb. apply Z.eqb_eq in Hb. apply wp_bind, mv_wr; [done|done|]. intros w4 H4 E4.
  apply wp_bind, wp_get_state, mv_when_done; [done|intros _ _; unfold state_of in *; by rewrite E4|]. intros w5 H5 _. by apply Hend.
Qed.
Lemma mv_give_data status Q w : moving w -> (forall w', moving w' -> Q tt w') -> wp E (give_data status) Q f w.
Proof.
  intros Hw HQ. unfold give_data. apply wp_bind, mv_modify; [done|agree_tac|]. intros w1 H1 E1 _. apply wp_bind, mv_write_fifo; [done|]. intros w2 H2 _.
  apply wp_bind, wp_get_state, wp_when; [|intros _; by apply HQ]. intros _. apply mv_wr; [done|done|]. intros w3 H3 _. by apply HQ.
Qed.
Lemma mv_request Q w : moving w -> (forall w', moving w' -> Q tt w') -> wp E handle_request_irq Q f w.
Proof.
  intros Hw HQ. unfold handle_request_irq. apply wp_bind, mv_rd; [done|done|]. intros status w1 H1 _.
  apply wp_bind, mv_modify; [done|agree_tac|]. intros w2 H2 _ _. apply wp_bind, mv_modify; [done|agree_tac|]. intros w3 H3 _ _.
  apply wp_bind, wp_get_state, wp_bind.
  assert (forall w4, moving w4 -> wp E (wr32 I2C_ICR (status .& I2C_REQUEST_IRQS)) Q f w4) as Hend.
  { intros w4 H4. apply mv_wr; [done|done|]. intros w5 H5 _. by apply HQ. }
  assert (forall b w4, moving w4 -> wp E (when b (give_data status);; wr32 I2C_ICR (status .& I2C_REQUEST_IRQS)) Q f w4) as Hgive.
  { intros b w4 H4. apply wp_bind, wp_when; [|intros _; by apply Hend]. intros _. by apply mv_give_data. }
  destruct (reading (state_of w3) && address_sent (state_of w3)) eqn:Hra; [|by apply wp_ret, Hgive].
  apply andb_true_iff in Hra as [Hr _]. apply wp_bind, mv_rd; [done|done|]. intros ffs w4 H4 E4. apply wp_ret.
  destruct (_ !=? 0); [|by apply Hgive]. apply wp_bind, mv_take_data; [done|unfold state_of in *; by rewrite E4|exact Hend].
Qed.
Lemma mv_protocol Q w : moving w -> (forall w', moving w' -> Q tt w') -> wp E handle_protocol_irq Q f w.
Proof.
  intros Hw HQ. unfold handle_protocol_irq. apply wp_bind, mv_rd; [done|done|]. intros status w1 H1 _.
  apply wp_bind, mv_modify; [done|agree_tac|]. intros w2 H2 _ _. apply wp_bind, mv_modify; [done|agree_tac|]. intros w3 H3 _ _.
  apply wp_bind, wp_get_app, wp_bind.
  assert (forall w4, moving w4 -> wp E (wr32 I2C_PIRQSC status;; s ← get_state;
    if (status .& I2C_PIRQSS_NACK) !=? 0 then modify (with_result I2C_V2_NACK)
    else when (bool_decide (result s = I2C_V2_PENDING) && ((status .& I2C_PIRQSS_TX_END) !=? 0) && (negb (reading s) || (remaining s ==? 0)))
           (modify (with_result I2C_V2_DONE))) Q f w4) as Hend.
  { intros w4 H4. apply wp_bind, mv_wr; [done|done|]. intros w5 H5 _. apply wp_bind, wp_get_state. destruct (_ !=? 0).
    - apply mv_modify; [done|by unfold agree|]. intros w6 H6 _ _. by apply HQ.
    - apply mv_when_done; [done| |intros w6 H6 _; by apply HQ]. intros Hb Hr. apply andb_true_iff in Hb as [_ Hb].
      pose proof H5 as (ts & rs & _ & _ & Hr5 & _). rewrite Hr5, Hr in Hb. by apply Z.eqb_eq in Hb. }
  apply wp_when; [|intros _; by apply Hend]. intros _.
  apply wp_bind, mv_rd; [done|unfold DMAC_CH_CONFIG, DMAC_BASE, I2C_RXD; intros [=]; lia|]. intros config w4 H4 _.
  apply wp_bind, mv_wr; [done|unfold DMAC_CH_CONFIG, DMAC_BASE, I2C_TXD; intros [=]; lia|]. intros w5 H5 _.
  apply wp_bind, mv_wr; [done|done|]. intros w6 H6 _. apply wp_bind, mv_wr; [done|done|]. intros w7 H7 _.
  apply mv_put_dma; [done|]. intros w8 H8 _. by apply Hend.
Qed.
Lemma mv_error Q w : moving w -> (forall w', moving w' -> Q tt w') -> wp E handle_error_irq Q f w.
Proof.
  intros Hw HQ. unfold handle_error_irq. apply wp_bind, mv_rd; [done|done|]. intros status w1 H1 _.
  apply wp_bind, mv_modify; [done|agree_tac|]. intros w2 H2 _ _. apply wp_bind, mv_modify; [done|agree_tac|]. intros w3 H3 _ _.
  apply wp_bind, mv_wr; [done|done|]. intros w4 H4 _. apply mv_modify; [done|by unfold agree|]. intros w5 H5 _ _. by apply HQ.
Qed.
(** Every interrupt keeps the transfer. *)
Lemma mv_handle_irq irq Q w : moving w -> (forall b w', moving w' -> Q b w') -> wp E (i2c_v2_handle_irq irq) Q f w.
Proof.
  intros Hw HQ. unfold i2c_v2_handle_irq. apply wp_bind, mv_modify; [done|agree_tac|]. intros w1 H1 _ _.
  apply wp_bind, mv_modify; [done|agree_tac|]. intros w2 H2 _ _. apply wp_bind.
  assert (forall b w3, moving w3 -> wp E (s ← get_state;
    when (100 <? total_irqs s) (wr32 I2C_RUNCTRL 0;; wr32 I2C_IMSC 0;; modify (with_result I2C_V2_ERROR));; mret b) Q f w3) as Hend.
  { intros b w3 H3. apply wp_bind, wp_get_state, wp_bind, wp_when; [|intros _; by apply wp_ret, HQ]. intros _.
    apply wp_bind, mv_wr; [done|done|]. intros w4 H4 _. apply wp_bind, mv_wr; [done|done|]. intros w5 H5 _.
    apply mv_modify; [done|by unfold agree|]. intros w6 H6 _ _. by apply wp_ret, HQ. }
  repeat match goal with |- wp _ (if ?b then _ else _) _ _ _ => destruct b end; try (by apply wp_ret, Hend); apply wp_bind;
    [apply mv_request|apply mv_protocol|apply mv_error]; try done; intros w3 H3; by apply wp_ret, Hend.
Qed.
Context (Hpending : forall d, stm_time d <= stm_time (snd (pending d))).
Lemma mv_interrupts Q w : moving w -> (forall w', moving w' -> Q tt w') -> wp E (interrupts pending) Q f w.
Proof.
  intros Hw HQ. unfold interrupts. apply wp_bind. unfold wp at 1, come. pose proof (Hpending (w_dev w)) as Hnow. destruct (pending (w_dev w)) as [irqs d]. set (w0' := World d _ _ _ _).
  apply (wp_foldM _ _ (fun _ _ w' => moving w')); [| |intros [] w1 H1; by apply HQ].
  { eapply moving_step; [exact Hw|by exists []|exact Hnow|done|done|apply agree_refl]. }
  intros l irq todo [] w1 _ H1. apply wp_bind, mv_handle_irq; [done|]. intros b w2 H2. by apply wp_ret.
Qed.

(** ** The program's own statements *)
Lemma mv_put p v Q w : moving w -> p <> I2C_TXD -> (forall w', moving w' -> Q tt w') -> wp E (put pending p v) Q f w.
Proof.
  intros Hw Hp HQ. unfold put. apply wp_bind, mv_interrupts; [done|]. intros w1 H1. apply mv_wr; [done|congruence|]. intros w2 H2 _. by apply HQ.
Qed.
Lemma mv_fetch p Q w : moving w -> p <> I2C_RXD -> (forall v w', moving w' -> Q v w') -> wp E (fetch pending p) Q f w.
Proof.
  intros Hw Hp HQ. unfold fetch. apply wp_bind, mv_interrupts; [done|]. intros w1 H1. apply mv_rd; [done|congruence|]. intros v w2 H2 _. by apply HQ.
Qed.
Lemma moving_timed w : moving w -> T <= now w /\ ticks_per_s (w_lib w) = ticks_per_s (w_lib w0).
Proof. intros (ts & rs & _ & [Hn Ht] & _). destruct Hok as [(? & ? & ?) _]. split; [lia|done]. Qed.
Lemma moving_library w w' : moving w -> traced off_fifo w w' -> served (fun _ => True) w w' -> moving w'.
Proof.
  intros Hw Ht (_ & Em & Ea & El & _). assert (state_of w' = state_of w) as Es by (unfold state_of; by rewrite Ea).
  eapply moving_step; [exact Hw|by apply off_fifo_passed|by destruct Ht as [Ht%steps_forward _]|done|done|rewrite Es; apply agree_refl].
Qed.
#[local] Abbreviation keeps := (upholds T f moving).
Lemma mv_wait_while cond Q w : keeps cond -> moving w -> (forall w', moving w' -> Q tt w') -> wp E (wait_while pending cond) Q f w.
Proof.
  intros Hc. destruct Hok as ((HT & _ & Htps & Hf) & _).
  apply (wp_wait_while pending T HT f (ticks_per_s (w_lib w0)) Htps Hf moving moving_timed moving_library); [|done].
  split; [by apply forward_interrupts|]. intros Q' w' H' HQ'. apply mv_interrupts; [done|]. intros w''. apply HQ'.
Qed.
Lemma keeps_pending : keeps is_pending.
Proof.
  split; [apply (forward_uses (fun _ => True)); unfold is_pending, get_state; uses_tac idtac|].
  intros Q w Hw HQ. unfold is_pending. apply wp_bind, wp_get_state, wp_ret. by apply HQ.
Qed.
Lemma mv_finish Q w : moving w -> (forall w', moving w' -> Q (result (state_of w')) w') ->
  wp E (wait_while pending is_pending;; interrupts pending;; s ← get_state; mret (result s)) Q f w.
Proof.
  intros Hw HQ. apply wp_bind, mv_wait_while; [apply keeps_pending|done|]. intros w1 H1. apply wp_bind, mv_interrupts; [done|]. intros w2 H2.
  apply wp_bind, wp_get_state, wp_ret. by apply HQ.
Qed.
End Transfer.

(** ** Whole transfers *)
Section Whole.
Context {D : Type} `{!Device D, !FifoLayout D, !StmTimer D} `{B : Board} (pending : D -> list Z * D) (f : nat) (T : Z).
Context (Hpending : forall d, stm_time d <= stm_time (snd (pending d))).
Implicit Types w : world D driver.
#[local] Abbreviation E := (@unless_late D driver _ _ T).
#[local] Abbreviation timed := (timed f T).
#[local] Abbreviation transfer_ok := (transfer_ok f T).
(** No transfer is going on. *)
Definition idle w : Prop := remaining (state_of w) = 0 /\ is_byte (address (state_of w)).
(** Until the next one is set up. *)
Definition resting w : world D driver -> Prop :=
  let s := state_of w in moving w (address_sent s) (reading s) (address s) (if reading s then rx s else tx s) 0 [].
Lemma idle_ok w : idle w -> timed w -> transfer_ok w (reading (state_of w)) (address (state_of w)) (if reading (state_of w) then rx (state_of w) else tx (state_of w)) 0 [].
Proof.
  intros [_ Ha] Ht. split; [done|]. split; [|split; [done|]].
  { destruct Ht as (_ & _ & Htps & Hf). assert (100 <= timeout_ticks I2C_TIMEOUT_MS (ticks_per_s (w_lib w))) by (apply Z.div_le_lower_bound; unfold I2C_TIMEOUT_MS; lia). simpl. lia. }
  destruct (reading (state_of w)); [split; [lia|intros i Hi; lia]|].
  split_and!; [by apply Forall_nil_2|apply mem_at_nil|done|intros i Hi; simpl in Hi; lia].
Qed.
Lemma idle_resting w : idle w -> resting w w.
Proof.
  intros [Hr Ha]. exists [], []. split_and!; [apply passed_refl|lia|done|done|done|by destruct (address_sent _)|].
  destruct (reading (state_of w)) eqn:Hrd; [|by destruct (address_sent (state_of w))]. split; [|done]. split_and!; simpl; [done|lia|lia].
Qed.
(** At most the address of the transfer before is sent, and only if it was not. *)
Definition noise w (ts : list Z) : Prop := ts = [] \/ address_sent (state_of w) = false /\ ts = [address (state_of w)].
Lemma carries_single x ws : carries tx_alignment [x] ws -> ws = [x].
Proof.
  intros Hc. remember [x] as l eqn:El. destruct Hc as [|chunk bs ws Hl _ Hc]; [done|]. destruct chunk as [|y chunk]; [simpl in Hl; lia|].
  injection El as -> El. apply app_eq_nil in El as [-> ->]. remember [] as l eqn:El. destruct Hc as [|chunk bs ws Hl' _ Hc].
  - simpl. by rewrite Z.mul_0_r, Z.add_0_r.
  - apply app_eq_nil in El as [-> _]. simpl in Hl'. lia.
Qed.
Lemma resting_noise w w' : resting w w' -> w_mem w' = w_mem w /\ (now w <= now w' /\ ticks_per_s (w_lib w') = ticks_per_s (w_lib w)) /\ exists ts, noise w ts /\ passed ts [] w w'.
Proof.
  intros (ts & rs & Hp & Ht & Hr & Ha & Hs & Hm). unfold payload in Hs.
  assert (noise w ts) as Hn.
  { unfold noise. destruct (address_sent (state_of w')) eqn:Hs'; [|left; by destruct Hs]. destruct (address_sent (state_of w)); [by left|right].
    split; [done|]. apply carries_single. by destruct (reading (state_of w)). }
  destruct (reading (state_of w)).
  - destruct Hm as [(Em & _) (_ & H0)]. simpl in Em. rewrite H0 in Hp by done. split; [done|]. split; [done|]. by exists ts.
  - destruct Hm as (-> & Em & _). split; [done|]. split; [done|]. by exists ts.
Qed.
(** The transfer that was set up: [word] and [data] are sent, or [size] bytes are received. *)
Definition address_word (address : Z) (reads : bool) : Z := u8 (u32 (address .<< 1) .| Z.b2z reads).
Definition begun w1 (address source target size : Z) (data : list Z) : world D driver -> Prop :=
  moving w1 false (target !=? 0) (address_word address (target !=? 0)) (if target !=? 0 then target else source) size data.
(** The caller's buffer. *)
Definition call_ok w (source target size : Z) (data : list Z) : Prop :=
  if target !=? 0 then buffer (w_mem w) target size
  else size = Z.of_nat (length data) /\ bytes_ok data /\ mem_at (w_mem w) source data /\ size < 2 ^ 32 /\
       forall i, 0 <= i < size -> mem_valid (w_mem w) (source + i) = true.
Lemma call_transfer_ok w w1 address source target size data : timed w1 -> (length data + 5 < f)%nat -> call_ok w source target size data -> w_mem w1 = w_mem w ->
  transfer_ok w1 (target !=? 0) (address_word address (target !=? 0)) (if target !=? 0 then target else source) size data.
Proof.
  intros Ht Hf Hc Em. unfold I2cTransfer.transfer_ok. rewrite Em. split; [done|]. split; [done|]. split; [apply u8_range|]. unfold call_ok in Hc. destruct (target !=? 0); [done|].
  destruct Hc as (Es & Hb & Ha & Hl & Hv). rewrite <- Es. by split_and!.
Qed.
Lemma begun_now w address source target size data : call_ok w source target size data ->
  let w1 := set_state w (initial source target size (address_word address (target !=? 0)) (target !=? 0)) in begun w1 address source target size data w1.
Proof.
  intros Hc w1. exists [], []. split_and!; [apply passed_refl|lia|done|done|done|done|]. unfold call_ok in Hc. destruct (target !=? 0).
  - split; [|done]. unfold stored. change (stream []) with (@nil Z). rewrite firstn_nil. simpl. split_and!; [done|lia|lia].
  - destruct Hc as (Es & _). by split_and!.
Qed.
(** What a transfer comes to, from the world [w1] in which it was set up. *)
Definition outcome w1 (address source target size : Z) (data : list Z) (r : i2c_v2_result_t) w' : Prop :=
  (r = I2C_V2_DONE \/ (target !=? 0) = false -> idle w') /\
  exists ws rs, passed ws rs w1 w' /\
    if target !=? 0 then
      w_mem w' = mem_put (w_mem w1) target (List.firstn (Z.to_nat size) (stream rs)) /\ (ws = [] \/ ws = [address_word address true]) /\
      (r = I2C_V2_DONE -> size <= Z.of_nat (length (stream rs)))
    else w_mem w' = w_mem w1 /\ carries tx_alignment (address_word address false :: data) ws.
Lemma outcome_received w1 address source target size data w' : 0 <= size -> (target !=? 0) = true -> begun w1 address source target size data w' ->
  outcome w1 address source target size data (result (state_of w')) w'.
Proof.
  intros Hsize Ht (ts & rs & Hp & _ & _ & Ha & Hs & Hm). unfold payload in Hs. unfold outcome. rewrite Ht in *.
  destruct Hm as ((Em & _ & En) & Hd & _). split; [intros [Hr|]; [|done]; split; [by apply Hd|rewrite Ha; apply u8_range]|].
  exists ts, rs. split; [done|]. split_and!; [done| |].
  - destruct (address_sent (state_of w')); [right; by apply carries_single|left; by destruct Hs].
  - intros Hr. rewrite (Hd Hr), length_take in En. lia.
Qed.
Lemma outcome_sent w1 address source target size data w2 w' r : (target !=? 0) = false -> begun w1 address source target size data w2 ->
  address_sent (state_of w2) = true -> moving w2 true false (address_word address false) source 0 [] w' ->
  outcome w1 address source target size data r w'.
Proof.
  intros Ht (ts & rs & Hp & _ & _ & _ & Hs & Hm) Has (ts' & rs' & Hp' & _ & _ & Ha' & Hs' & Hm'). unfold outcome. rewrite Ht, Has in *. unfold payload in Hs.
  destruct Hm as (-> & Em & _), Hm' as (-> & Em' & Hz). split.
  { intros _. destruct (address_sent (state_of w')); [|by destruct Hs' as [? _]]. split; [done|rewrite Ha'; apply u8_range]. }
  exists ts, []. split; [|split; [congruence|done]].
  destruct (address_sent (state_of w')); [subst ts'|by destruct Hs' as [? _]]. rewrite <- (app_nil_r ts). by apply (passed_trans ts [] [] [] w1 w2).
Qed.
(** Everything was sent: the rest of the transfer sends nothing. *)
Lemma sealed w1 address source target size data w2 : timed w1 -> (target !=? 0) = false -> begun w1 address source target size data w2 ->
  address_sent (state_of w2) = true ->
  transfer_ok w2 false (address_word address false) source 0 [] /\ moving w2 true false (address_word address false) source 0 [] w2.
Proof.
  intros Htd Ht (ts & rs & Hp & [Hn Htk] & Hr & Ha & Hs & Hm) Has. rewrite Ht, Has in *. split.
  - split; [by eapply timed_later|]. split; [|split; [apply u8_range|]].
    { destruct Htd as (_ & _ & Htps & Hf). assert (100 <= timeout_ticks I2C_TIMEOUT_MS (ticks_per_s (w_lib w1))) by (apply Z.div_le_lower_bound; unfold I2C_TIMEOUT_MS; lia). simpl. lia. }
    split_and!; [by apply Forall_nil_2|apply mem_at_nil|done|intros i Hi; simpl in Hi; lia].
  - exists [], []. split; [apply passed_refl|]. split; [lia|]. split_and!; [done|done|by rewrite Has|done|done|]. rewrite Has. by destruct Hm as (_ & _ & ?).
Qed.
Ltac mv l := eapply l; try eassumption.
Lemma wp_set_up address source target size data Q w1 w : call_ok w1 source target size data -> begun w1 address source target size data w ->
  timed w1 -> transfer_ok w1 (target !=? 0) (address_word address (target !=? 0)) (if target !=? 0 then target else source) size data ->
  (forall r w', outcome w1 address source target size data r w' -> Q r w') ->
  wp E (start_transfer pending (mret tt) size;;
    wait_while pending is_pending;; interrupts pending;; s ← get_state; mret (result s)) Q f w.
Proof.
  intros Hc Hw Htd Hok HQ. unfold start_transfer. apply wp_bind, wp_bind. mv @mv_interrupts. intros w2 H2. apply wp_bind, wp_get_state.
  assert (reading (state_of w2) = (target !=? 0)) as -> by (by destruct H2 as (ts & rs & _ & _ & Hr & _)).
  destruct (target !=? 0) eqn:Ht.
  - assert (0 <= size) as Hsize by (unfold call_ok in Hc; rewrite Ht in Hc; apply Hc).
    assert (forall w3, begun w1 address source target size data w3 ->
      wp E (wait_while pending is_pending;; interrupts pending;; s ← get_state; mret (result s)) Q f w3) as Hend.
    { intros w3 H3. unfold begun in H3. rewrite Ht in H3. mv @mv_finish. intros w4 H4. apply HQ, outcome_received; [done|done|]. unfold begun. by rewrite Ht. }
    assert (forall w3, moving w1 false true (address_word address true) target size data w3 -> begun w1 address source target size data w3) as Hb
      by (unfold begun; by rewrite Ht). 
    apply wp_bind. mv @mv_put; [done|]. intros w3 H3. apply wp_bind. mv @mv_put; [done|]. intros w4 H4.
    apply wp_bind. mv @mv_fetch; [done|]. intros cfg w5 H5. apply wp_bind. mv @mv_interrupts. intros w6 H6.
    apply wp_when; intros _; [|by apply Hend, Hb]. mv @mv_write_fifo. intros w7 H7 _. by apply Hend, Hb.
  - assert (forall w3, moving w1 false false (address_word address false) source size data w3 -> begun w1 address source target size data w3) as Hb
      by (unfold begun; by rewrite Ht). 
    apply wp_bind. mv @mv_put; [done|]. intros w3 H3. apply wp_bind. mv @mv_interrupts. intros w4 H4. mv @mv_write_fifo. intros w5 H5 Has.
    destruct (sealed w1 address source target size data w5 Htd Ht (Hb w5 H5) Has) as [Hok' H5'].
    eapply mv_finish; [exact Hok'|exact Hpending|exact H5'|]. intros w6 H6. apply HQ. by eapply outcome_sent; [exact Ht|apply Hb, H5| |].
Qed.
Lemma wp_running address source target size data Q w0 w : idle w0 -> timed w0 -> (length data + 5 < f)%nat -> resting w0 w -> call_ok w0 source target size data ->
  (forall r w1 w', w_mem w1 = w_mem w0 -> (exists ns, noise w0 ns /\ passed ns [] w0 w1) -> outcome w1 address source target size data r w' -> Q r w') ->
  wp E (i2c_v2_transfer_bytes_running pending (mret tt) address source target size) Q f w.
Proof.
  intros Hi Htd Hfuel Hw Hc HQ. pose proof (idle_ok _ Hi Htd) as Hok0. unfold i2c_v2_transfer_bytes_running. apply wp_bind. unfold resting in Hw. mv @mv_interrupts.
  intros w2 H2. apply wp_bind, wp_modify. apply resting_noise in H2 as (Em & [Hnow Ht] & ns & Hn & Hp). set (w1 := set_state w2 _).
  assert (w_mem w1 = w_mem w0) as Em1 by done. assert (call_ok w1 source target size data) as Hc1 by (unfold call_ok in *; by rewrite Em1).
  assert (timed w1) as Htd1 by (by apply (timed_later f T w0)). pose proof (begun_now w2 address source target size data) as H3. cbv zeta in H3. fold (address_word address (target !=? 0)) in w1. fold w1 in H3.
  assert (begun w1 address source target size data w1) as H4 by (apply H3; unfold call_ok in *; by rewrite Em). clear H3.
  pose proof (call_transfer_ok w0 w1 address source target size data Htd1 Hfuel Hc Em1) as Hok. unfold begun in H4.
  do 6 (apply wp_bind; mv @mv_put; [done|]; let H := fresh "H" in intros ? H; clear H4; rename H into H4).
  apply (wp_set_up address source target size data _ w1); [done|exact H4|exact Htd1|exact Hok|]. intros r w9 Ho. apply (HQ r w1); [done| |done]. exists ns. split; [done|].
  destruct Hp as (es & L & P). by exists es.
Qed.
End Whole.

(** C20. A transfer of [i2c_v2_transfer_bytes] that begins with the driver at rest ends and is exact,
    whatever the bus does, and however many interrupts the controller raises and wherever they
    come between the program's statements (but for its own filling of the FIFO: [fifo_race]).  At
    rest, no bytes of the transfer before are outstanding ([idle]): so it is after power-on and after
    every transfer that sends or whose result is DONE, as the conclusion says, but not after a reading
    one that timed out or was refused ([late_interrupt]).  The transfer returns, with fuel for the
    data and the ticks of its timeout, unless the low word of the timer wraps meanwhile; no
    access is outside of the caller's buffer.  The words written to the transmit FIFO from the
    moment it is set up carry the address and the data, each byte once and in order (a reading one
    may end before its address is sent); before that at most one word is written, the address that
    is left from the transfer before (0 after power-on) if that was never sent.  The buffer of a reading transfer holds the first
    bytes of the words that were read from the receive FIFO, memory is otherwise unchanged, and
    the result is DONE only when all of them are there. *)
Theorem transfer_exact {D} `{!Device D, !FifoLayout D, !StmTimer D} `{B : Board} (pending : D -> list Z * D) (f : nat) (w : world D driver)
    (address source target size : Z) (data : list Z) :
  (forall d, stm_time d <= stm_time (snd (pending d))) -> idle w -> call_ok w source target size data ->
  timed f (now w) w -> (length data + 5 < f)%nat ->
  wp (unless_late (now w)) (i2c_v2_transfer_bytes pending (mret tt) address source target size) (fun r w' =>
    (r = I2C_V2_DONE \/ (target !=? 0) = false -> idle w') /\
    exists ns ws rs, noise w ns /\ passed (ns ++ ws) rs w w' /\
      if target !=? 0 then
        w_mem w' = mem_put (w_mem w) target (List.firstn (Z.to_nat size) (stream rs)) /\ (ws = [] \/ ws = [address_word address true]) /\
        (r = I2C_V2_DONE -> size <= Z.of_nat (length (stream rs)))
      else w_mem w' = w_mem w /\ carries tx_alignment (address_word address false :: data) ws) f w.
Proof.
  intros Hpending Hi Hc Ht Hf. pose proof (idle_resting w Hi) as Hw. pose proof (idle_ok f (now w) w Hi Ht) as Hok. unfold resting in Hw. unfold i2c_v2_transfer_bytes.
  apply wp_bind. eapply mv_put; [exact Hok|exact Hpending|exact Hw|done|]. intros w1 H1.
  apply wp_bind. eapply mv_put; [exact Hok|exact Hpending|exact H1|done|]. intros w2 H2.
  apply (wp_running pending f (now w) Hpending address source target size data _ w); [done..|]. intros r w3 w' Em (ns & Hn & Hp) (Hidle & ws & rs & Hp' & Ho). split; [done|].
  exists ns, ws, rs. split; [done|]. split; [by apply (passed_trans ns [] ws rs w w3)|]. by rewrite Em in Ho.
Qed.

(** ** A bus that raises interrupts by a schedule *)
Record bus := Bus { b_time : N; b_schedule : list (list Z); b_fifo : list Z }.
#[export] Instance scheduled_bus : Device bus :=
  {| dev_read p d :=
       let next fifo := Bus (b_time d + 1) (b_schedule d) fifo in
       if decide (p = Mmio 32 STM_TIM6) then (Z.of_N (b_time d) / 0x100000000, next (b_fifo d))
       else if decide (p = Mmio 32 STM_TIM0) then (Z.of_N (b_time d), next (b_fifo d))
       else if decide (p = Mmio 32 I2C_RIS) then (I2C_RIS_SREQ_INT, next (b_fifo d))
       else if decide (p = Mmio 32 I2C_FFSSTAT) then (Z.of_nat (length (b_fifo d)), next (b_fifo d))
       else if decide (p = Mmio 32 I2C_RXD) then (default 0 (head (b_fifo d)), next (tail (b_fifo d)))
       else (0, next (b_fifo d));
     dev_write p v d := Bus (b_time d + 1) (b_schedule d) (b_fifo d) |}.
Definition by_schedule (d : bus) : list Z * bus := (default [] (head (b_schedule d)), Bus (b_time d) (tail (b_schedule d)) (b_fifo d)).
#[export] Instance bus_layout : FifoLayout bus.
Proof. refine {| tx_alignment := 1; rx_alignment := 1 |}; [by left|by left|by intros []|by intros []]. Defined.
#[export] Instance bus_timer : StmTimer bus.
Proof.
  refine {| stm_time d := Z.of_N (b_time d) |}; intros; cbn [scheduled_bus dev_read dev_write fst snd b_time];
    repeat case_decide; cbn [fst snd b_time]; lia || done.
Defined.
(** A buffer of three bytes, [1; 2; 3], and idle statics. *)
Definition bus_world (schedule : list (list Z)) (fifo : list Z) : world bus driver :=
  World (Bus 0%N schedule fifo) (mem_put (mem_alloc (LOCAL 1) 3 ∅) (LOCAL 1) [1; 2; 3]) [] (LibState 1000 0 0 0 0 true) driver_zero.

(** Three bytes are read: a request for the address, a request when the word is there. *)
Lemma transfer_exact_witness :
  let B := plain_board PMB8876 in
  let w := bus_world (replicate 12 [] ++ [[VIC_I2C_SINGLE_REQ_IRQ]; [VIC_I2C_SINGLE_REQ_IRQ]]) [0x44332211] in
  exists w' ns ws rs,
    i2c_v2_transfer_bytes by_schedule (mret tt) 0x31 0 (LOCAL 1) 3 200%nat w = Done I2C_V2_DONE w' /\ idle w' /\
    passed (ns ++ ws) rs w w' /\ noise w ns /\
    w_mem w' = mem_put (w_mem w) (LOCAL 1) (List.firstn 3 (stream rs)) /\ (ws = [] \/ ws = [address_word 0x31 true]) /\
    3 <= Z.of_nat (length (stream rs)).
Proof.
  intros B w.
  assert (idle w) as Hi by (split; [done|split; [by apply Z.leb_le|done]]).
  assert (timed 200 (now w) w) as Ht by (repeat split; by vm_compute).
  assert (call_ok w 0 (LOCAL 1) 3 []) as Hc.
  { split; [split; by vm_compute|]. intros i Hi'. assert (i = 0 \/ i = 1 \/ i = 2) as [->|[->| ->]] by lia; by vm_compute. }
  assert (forall d : bus, stm_time d <= stm_time (snd (by_schedule d))) as Hs by (intros d; apply Z.le_refl).
  destruct (wp_result _ _ _ _ _ is_done (transfer_exact by_schedule 200%nat w 0x31 0 (LOCAL 1) 3 [] Hs Hi Hc Ht ltac:(simpl; lia))) as (r & w' & E & Hr & Hidle & ns & ws & rs & Hn & Hp & Em & Hws & Hd);
    [by vm_compute|].
  destruct r; try discriminate Hr. exists w', ns, ws, rs. split_and!; [exact E|apply Hidle; by left|exact Hp|exact Hn|exact Em|exact Hws|by apply Hd].
Defined.
(** An interrupt while the program itself fills the FIFO, between its look at [remaining] and
    the byte: the program reads past its buffer. *)
Lemma fifo_race :
  let B := plain_board PMB8876 in
  exists w, i2c_v2_transfer_bytes by_schedule (interrupts by_schedule) 0x31 (LOCAL 1) 0 3 200%nat
    (bus_world (replicate 17 [] ++ [[VIC_I2C_SINGLE_REQ_IRQ]]) []) = Stop (OutOfBounds (LOCAL 1 + 3)) w.
Proof. intros B. eexists. vm_compute. reflexivity. Qed.
(** A transfer that timed out leaves its buffer to the interrupts. *)
Lemma late_interrupt :
  let B := plain_board PMB8876 in
  match i2c_v2_transfer_bytes by_schedule (mret tt) 0x31 0 (LOCAL 1) 3 200%nat (bus_world [] [0x44332211]) with
  | Done I2C_V2_PENDING w =>
      mem_range (w_mem w) (LOCAL 1) 3 = [1; 2; 3] /\
      match (_ ← i2c_v2_handle_irq VIC_I2C_SINGLE_REQ_IRQ; i2c_v2_handle_irq VIC_I2C_SINGLE_REQ_IRQ) 200%nat w with
      | Done _ w' => mem_range (w_mem w') (LOCAL 1) 3 = [0x11; 0x22; 0x33]
      | Stop _ _ => False
      end
  | _ => False
  end.
Proof. vm_compute. by split. Qed.
