(* ===== verification/I2cSmbus.v ===== *)
(** * SMBus reads of the I2C driver of the tests ([unit/i2c-v2/driver.c])

    [i2c_v2_smbus_read] polls the controller with its interrupts masked. *)
From S2P Require Import Prelude Machine Board Regs Clock Stopwatch Wdt Timeout Smbus I2cDriver I2cFifo I2cTime.
Import Regs.Pmb8876.

(** The check byte of the tests is the library's. *)
Lemma pec_bit_agrees : forall crc, pec_bit crc = smbus_pec_bit crc.
Proof. intros crc. unfold pec_bit, smbus_pec_bit. by destruct (_ !=? 0). Qed.
Lemma pec_agrees address reg value : i2c_v2_smbus_pec address reg value = smbus_pec address [reg; value].
Proof.
  assert (forall n x, Nat.iter n pec_bit x = Nat.iter n smbus_pec_bit x) as H by (intros n x; induction n as [|n IH]; simpl; [done|by rewrite pec_bit_agrees, IH]).
  unfold i2c_v2_smbus_pec, i2c_v2_pec, smbus_pec, smbus_pec_update. cbn [fold_left]. by rewrite !H.
Qed.
(** The writes that end a read, newest first. *)
Definition restored (addrcfg fifocfg imsc : Z) : list event :=
  [Wr (Mmio 32 I2C_IMSC) imsc; Wr (Mmio 32 I2C_RUNCTRL) I2C_RUNCTRL_RUN; Wr (Mmio 32 I2C_FIFOCFG) fifocfg; Wr (Mmio 32 I2C_ADDRCFG) addrcfg;
   Wr (Mmio 32 I2C_RUNCTRL) 0].
Definition saved (addrcfg fifocfg imsc : Z) : list event :=
  [Rd (Mmio 32 I2C_IMSC) imsc; Rd (Mmio 32 I2C_FIFOCFG) fifocfg; Rd (Mmio 32 I2C_ADDRCFG) addrcfg].
(** A read since [w0]: what was sent, received and stored; [again] says that data was asked for. *)
Definition read_done {D} `{!Device D, !FifoLayout D} (address reg data size : Z) (m : gmap Z Z) (es : list event) (r : i2c_v2_result_t) (w' : world D driver) : Prop :=
  (exists again : bool, accesses on_txd es = u32 ((reg .<< 8) .| (address .<< 1)) :: (if again then [u32 ((address .<< 1) .| 1)] else []) /\
     (r = I2C_V2_DONE -> again = (size !=? 0))) /\
  (let rs := accesses on_rxd es in
   w_mem w' = mem_put m data (List.firstn (Z.to_nat size) (stream rs)) /\ (r = I2C_V2_DONE -> size <= Z.of_nat (length (stream rs)))) /\
  result (state_of w') = r.

Section Read.
Context {D : Type} `{!Device D, !FifoLayout D, !StmTimer D} `{B : Board} (pending : D -> list Z * D) (f : nat) (T : Z).
(** The interrupts are masked. *)
Context (Hquiet : forall d, pending d = ([], d)).
Implicit Types w : world D driver.
#[local] Abbreviation E := (@unless_late D driver _ _ T).
Lemma wp_masked E Q w : Q tt w -> wp E (interrupts pending) Q f w.
Proof. intros HQ. unfold interrupts. apply wp_bind. unfold wp at 1, come. rewrite Hquiet. by destruct w. Qed.
Lemma uses_masked P : uses P (interrupts pending).
Proof. intros f' [d m l b s]. unfold interrupts, come, mbind, M_bind. simpl. rewrite Hquiet. by apply traced_refl. Qed.
Lemma uses_put (P : port -> Prop) a v : P (Mmio 32 a) -> uses P (put pending a v).
Proof. intros Hp. unfold put. apply uses_bind; [apply uses_masked|]. intros _. by apply uses_wr. Qed.
Lemma uses_fetch (P : port -> Prop) a : P (Mmio 32 a) -> uses P (fetch pending a).
Proof. intros Hp. unfold fetch. apply uses_bind; [apply uses_masked|]. intros _. by apply uses_rd. Qed.

(** Since [w0], the words [ts] were sent; the bytes up to [fst x] of the buffer were received,
    [snd x] are missing. *)
Context (w0 : world D driver) (data size : Z) (Ht : timed f T w0) (Hbuf : buffer (w_mem w0) data size).
Definition read_to (ts : list Z) (x : Z * Z) w : Prop :=
  exists rs, passed ts rs w0 w /\ (now w0 <= now w /\ ticks_per_s (w_lib w) = ticks_per_s (w_lib w0)) /\
    let got := List.firstn (Z.to_nat size) (stream rs) in
    w_mem w = mem_put (w_mem w0) data got /\ x = (data + Z.of_nat (length got), size - Z.of_nat (length got)).
Lemma read_to_start : read_to [] (data, size) w0.
Proof. exists []. split; [apply passed_refl|]. split; [lia|]. change (stream []) with (@nil Z). rewrite firstn_nil. simpl. split; [done|]. f_equal; lia. Qed.
Lemma read_to_step ts ts' x w w' : read_to ts x w -> passed ts' [] w w' -> now w <= now w' -> w_mem w' = w_mem w ->
  ticks_per_s (w_lib w') = ticks_per_s (w_lib w) -> read_to (ts ++ ts') x w'.
Proof.
  intros (rs & Hp & [Hn Et] & Em & Ex) Hp' Hn' Em' Et'. exists rs. split; [rewrite <- (app_nil_r rs); by eapply passed_trans|].
  split; [split; [lia|congruence]|]. by rewrite Em'.
Qed.
Lemma read_to_still ts x w w' : read_to ts x w -> passed [] [] w w' -> now w <= now w' -> w_mem w' = w_mem w ->
  ticks_per_s (w_lib w') = ticks_per_s (w_lib w) -> read_to ts x w'.
Proof. intros. rewrite <- (app_nil_r ts). by eapply read_to_step. Qed.
Lemma read_to_timed ts x w : read_to ts x w -> T <= now w /\ ticks_per_s (w_lib w) = ticks_per_s (w_lib w0).
Proof. intros (rs & _ & [Hn Et] & _). destruct Ht as (_ & ? & _). split; [lia|done]. Qed.
Lemma read_to_library ts x w w' : read_to ts x w -> traced off_fifo w w' -> served (fun _ => True) w w' -> read_to ts x w'.
Proof.
  intros Hw Htr (_ & Em & Ea & El & _). eapply read_to_still; [exact Hw|by apply off_fifo_passed|by destruct Htr as [Htr%steps_forward _]|done|done].
Qed.
#[local] Abbreviation keeps ts x := (upholds T f (read_to ts x)).

(** ** Single accesses *)
Lemma rt_fetch ts x p Q w : read_to ts x w -> p <> I2C_RXD ->
  (forall v w', read_to ts x w' -> w_log w' = Rd (Mmio 32 p) v :: w_log w -> is_u32 v -> now w <= now w' -> Q v w') -> wp E (fetch pending p) Q f w.
Proof.
  intros Hw Hp HQ. unfold fetch. apply wp_bind, wp_masked, wp_rd. intros v d Hd. pose proof (stm_read_time (Mmio 32 p) (w_dev w)) as Hn. rewrite Hd in Hn.
  assert (now w <= now (set_io w d (Rd (Mmio 32 p) (u32 v)))) as Hn' by apply Hn.
  apply HQ; [|done|apply u32_range|done]. eapply read_to_still; [exact Hw| |done|done|done].
  pose proof (passed_event (Rd (Mmio 32 p) (u32 v)) w (set_io w d (Rd (Mmio 32 p) (u32 v))) eq_refl) as H. simpl in H.
  by rewrite decide_False in H by congruence.
Qed.
Lemma rt_write ts x p v Q w : read_to ts x w ->
  (forall w', read_to (ts ++ if decide (p = I2C_TXD) then [u32 v] else []) x w' -> w_log w' = Wr (Mmio 32 p) (u32 v) :: w_log w -> w_app w' = w_app w -> Q tt w') ->
  wp E (put pending p v) Q f w.
Proof.
  intros Hw HQ. unfold put. apply wp_bind, wp_masked, wp_wr. set (w' := set_io _ _ _).
  assert (now w <= now w') as Hn by apply stm_write_time. apply HQ; [|done|done]. eapply read_to_step; [exact Hw| |done|done|done].
  pose proof (passed_event (Wr (Mmio 32 p) (u32 v)) w w' eq_refl) as H. simpl in H. by destruct (decide (p = I2C_TXD)) as [->|Hp];
    [rewrite decide_True in H by done|rewrite decide_False in H by congruence].
Qed.
Lemma rt_put ts x p v Q w : read_to ts x w -> p <> I2C_TXD ->
  (forall w', read_to ts x w' -> w_log w' = Wr (Mmio 32 p) (u32 v) :: w_log w -> w_app w' = w_app w -> Q tt w') -> wp E (put pending p v) Q f w.
Proof. intros Hw Hp HQ. apply (rt_write ts x); [done|]. by rewrite decide_False, app_nil_r. Qed.
Lemma rt_send ts x v Q w : read_to ts x w -> (forall w', read_to (ts ++ [u32 v]) x w' -> Q tt w') -> wp E (put pending I2C_TXD v) Q f w.
Proof. intros Hw HQ. apply (rt_write ts x); [done|]. rewrite decide_True by done. intros w' H _ _. by apply HQ. Qed.
Lemma rt_modify ts x g Q w : read_to ts x w -> (forall w', read_to ts x w' -> now w <= now w' -> state_of w' = g (state_of w) -> Q tt w') -> wp E (modify g) Q f w.
Proof. intros Hw HQ. apply wp_modify, HQ; [|apply Z.le_refl|done]. eapply read_to_still; [exact Hw|by exists []|done|done|done]. Qed.

(** ** Waits and words *)
Lemma keeps_fetch {R} ts x p (k : Z -> R) : p <> I2C_RXD -> keeps ts x (v ← fetch pending p; mret (k v)).
Proof.
  intros Hp. split.
  - apply (forward_uses (fun _ => True)), uses_bind; [by apply uses_fetch|]. intros v. apply uses_ret.
  - intros Q w Hw HQ. apply wp_bind. eapply rt_fetch; [done|done|]. intros v w' H _ _ _. by apply wp_ret, HQ.
Qed.
Lemma rt_wait {R} ts x p (k : Z -> bool) (rest : M D driver R) Q w : p <> I2C_RXD -> read_to ts x w -> (forall w', read_to ts x w' -> wp E rest Q f w') ->
  wp E (wait_while pending (v ← fetch pending p; mret (k v));; rest) Q f w.
Proof.
  intros Hp Hw HQ. destruct Ht as (HT & _ & Htps & Hf). apply wp_bind.
  apply (wp_wait_while pending T HT f (ticks_per_s (w_lib w0)) Htps Hf (read_to ts x) (read_to_timed ts x) (read_to_library ts x)); [|by apply keeps_fetch|done|done].
  split; [apply (forward_uses (fun _ => True)), uses_masked|]. intros Q' w' H' HQ'. by apply wp_masked, HQ'.
Qed.
Lemma wp_copy_word v n dst Q w : (forall i, 0 <= i < Z.of_nat n -> mem_valid (w_mem w) (dst + i) = true) ->
  Q (dst + Z.of_nat n) (set_mem w (mem_put (w_mem w) dst (unpack rx_alignment n v))) ->
  wp E (foldM (fun d i => interrupts pending;; st8 d (v .>> (i * rx_alignment * 8));; mret (d + 1)) dst (seqZ 0 (Z.of_nat n))) Q f w.
Proof.
  intros Hv HQ.
  apply (wp_foldM _ _ (fun l d w' => d = dst + Z.of_nat (length l) /\ w' = set_mem w (mem_put (w_mem w) dst (unpack rx_alignment (length l) v)))).
  - simpl. split; [lia|by destruct w].
  - intros l y todo d w1 El [-> ->]. apply seqZ_split in El as [-> Hy]. apply wp_bind, wp_masked, wp_bind, wp_st8.
    { simpl. apply mem_valid_put, Hv. lia. }
    apply wp_ret. rewrite length_app. simpl length. split; [lia|]. unfold set_mem. simpl. f_equal.
    unfold unpack. replace (Z.of_nat (length l + 1)) with (Z.of_nat (length l) + 1) by lia. rewrite seqZ_app by lia. rewrite map_app, mem_put_app.
    rewrite length_map, length_seqZ_nat. done.
  - intros d w1 [-> ->]. rewrite length_seqZ_nat. exact HQ.
Qed.
Lemma rt_receive_word ts x Q w : read_to ts x w -> snd x <> 0 -> (forall x' w', read_to ts x' w' -> Q x' w') -> wp E (receive_word pending rx_alignment x) Q f w.
Proof.
  intros (rs & Hp & [Hn Et] & Em & ->) Hx HQ. cbn [snd] in Hx. unfold receive_word, fetch. apply wp_bind, wp_bind, wp_masked, wp_rd. intros v d Hd. change (port_wrap _ v) with (u32 v).
  set (w1 := set_io _ _ _). assert (now w <= now w1) as Hn1 by (pose proof (stm_read_time (Mmio 32 I2C_RXD) (w_dev w)) as H; rewrite Hd in H; apply H).
  pose proof (layout_capacity _ rx_layout) as [Hcap _]. set (cap := Z.to_nat (fifo_capacity rx_alignment)). destruct Hbuf as [Hsize Hv].
  rewrite length_take in *. assert (length (stream rs) < Z.to_nat size)%nat as Hlen by lia. rewrite take_ge in Em by lia.
  rewrite Nat.min_r by lia. set (m := size - Z.of_nat (length (stream rs))). set (n := min (Z.to_nat m) cap).
  replace (if m <? _ then _ else _) with (Z.of_nat n) by (destruct (Z.ltb_spec m (fifo_capacity rx_alignment)); lia).
  apply wp_bind, wp_copy_word.
  { intros i Hi. change (w_mem w1) with (w_mem w). rewrite Em. apply mem_valid_put. rewrite <- Z.add_assoc. apply Hv. lia. }
  apply wp_ret, HQ. exists (rs ++ [u32 v]). split; [|split; [split; [change (now w0 <= now w1); lia|done]|]].
  - rewrite <- (app_nil_r ts). eapply passed_trans; [exact Hp|]. exact (passed_event (Rd (Mmio 32 I2C_RXD) (u32 v)) w w1 eq_refl).
  - cbv zeta. rewrite stream_snoc, take_app, take_ge by lia. fold cap. rewrite unpack_take. replace (min (Z.to_nat size - length (stream rs)) cap) with n by lia.
    rewrite length_app, length_unpack. change (w_mem w1) with (w_mem w). simpl. rewrite Em, mem_put_app. split; [done|]. f_equal; lia.
Qed.
Lemma rt_config ts x Q w : read_to ts x w ->
  (forall v w', read_to ts x w' -> fifo_alignment v I2C_FIFOCFG_RXFA I2C_FIFOCFG_RXFA_SHIFT = rx_alignment -> Q v w') -> wp E (fetch pending I2C_FIFOCFG) Q f w.
Proof.
  intros Hw HQ. assert (wp E (fetch pending I2C_FIFOCFG) (fun v w' => read_to ts x w') f w) as H by (eapply rt_fetch; [done|done|auto]).
  assert (wp E (fetch pending I2C_FIFOCFG) (fun v _ => fifo_alignment v I2C_FIFOCFG_RXFA I2C_FIFOCFG_RXFA_SHIFT = rx_alignment) f w) as H'.
  { apply wp_bind, wp_masked, wp_rd. intros v d Hd. pose proof (rx_configured (w_dev w)) as Hc. by rewrite Hd in Hc. }
  unfold wp in *. destruct (fetch pending I2C_FIFOCFG f w); [by apply HQ|done].
Qed.
Lemma rt_receive_words ts x status available Q w : read_to ts x w -> (forall x' w', read_to ts x' w' -> Q x' w') -> wp E (receive_words pending status available x) Q f w.
Proof.
  intros Hw HQ. unfold receive_words. apply wp_bind, (rt_config ts x); [done|]. intros v w1 H1 ->. apply wp_bind, (rt_fetch ts x); [done|done|]. intros cfg w2 H2 _ _ _.
  apply wp_bind. eapply (wp_mono _ _ (fun r w' => read_to ts (match r with inl x' => x' | inr x' => x' end) w')).
  - apply (wp_foldE _ _ (fun _ => read_to ts)); [done| |done]. intros l y todo x' w' _ H'. destruct (Z.eqb_spec (snd x') 0) as [E0|E0]; [by apply wp_ret|].
    apply wp_bind, (rt_receive_word ts); [done|done|]. intros x'' w'' H''. by apply wp_ret.
  - intros r w' H'. apply wp_bind, (rt_put ts (match r with inl x' => x' | inr x' => x' end)); [done|done|]. intros w'' H'' _ _. apply wp_ret. by apply HQ.
Qed.
#[local] Abbreviation anywhere := (fun _ : port => True).
Lemma uses_receive_words status available x : uses anywhere (receive_words pending status available x).
Proof.
  unfold receive_words, receive_word. repeat first [progress uses_tac ltac:(exact I)|apply uses_put|apply uses_fetch|apply uses_masked|apply uses_foldE|done].
Qed.
(** One round of the receiving loop: time goes on, and the loop with it only before the timeout. *)
Lemma rt_receive_step start ts x w : read_to ts x w -> late T w \/ T <= start <= now w ->
  wp E (receive_step pending start x) (fun s w' =>
    match s with
    | inl x' => read_to ts x' w' /\ now w < now w' /\ (late T w' \/ now w < start + timeout_ticks I2C_TIMEOUT_MS (ticks_per_s (w_lib w0)) + 1)
    | inr r => read_to ts x w' /\ (r = I2C_V2_DONE -> snd x = 0)
    end) f w.
Proof.
  intros Hw Hs. unfold receive_step. apply wp_bind. eapply (wp_mono _ _ (fun go w1 => read_to ts x w1 /\ now w <= now w1 /\ (go = false -> snd x = 0))).
  { destruct (Z.eqb_spec (snd x) 0); [|by apply wp_ret]. apply wp_bind, (rt_fetch ts x); [done|done|]. intros v w1 H1 _ _ Hn1. by apply wp_ret. }
  intros go w1 (H1 & Hn1 & Hgo). destruct go; simpl negb; cbv iota; [|apply wp_ret; by split; [|intros _; apply Hgo]].
  apply wp_bind, (rt_fetch ts x); [done|done|]. intros protocol w2 H2 _ _ Hn2. apply wp_bind, (rt_fetch ts x); [done|done|]. intros error w3 H3 _ _ Hn3.
  apply wp_bind, (rt_fetch ts x); [done|done|]. intros ris w4 H4 _ _ Hn4. apply wp_bind, wp_bind, wp_masked, wp_bind, (rt_modify ts x); [done|]. intros w5 H5 Hn5 _.
  apply wp_bind, wp_masked, wp_bind, (rt_modify ts x); [done|]. intros w6 H6 Hn6 _. apply wp_bind, wp_masked, (rt_modify ts x); [done|]. intros w7 H7 Hn7 _.
  destruct (_ !=? 0); [by apply wp_ret|]. apply wp_bind. destruct (error !=? 0); [by apply wp_ret, wp_ret|].
  destruct Ht as (HT & _ & Htps & Hf). apply wp_bind.
  apply (wp_timeout_elapsed T HT f (ticks_per_s (w_lib w0)) Htps (read_to ts x) (read_to_timed ts x) (read_to_library ts x) start); [done|unfold Timeout.late in *; lia|].
  intros e w8 H8 Hn8 He. apply wp_ret. destruct (Z.leb_spec I2C_TIMEOUT_MS e) as [|He']; [by apply wp_ret|]. specialize (He He').
  eapply wp_mono; [apply (wp_forward _ _ (fun r w' => exists x', r = inl x' /\ read_to ts x' w'))|].
  - apply (forward_uses anywhere), uses_bind; [by apply uses_fetch|]. intros ffs. apply uses_bind; [destruct (_ && _); [apply uses_receive_words|apply uses_ret]|].
    intros x'. apply uses_bind; [by apply uses_wdt_serve|]. intros _. apply uses_ret.
  - apply wp_bind, (rt_fetch ts x); [done|done|]. intros ffs w9 H9 _ _ _. apply wp_bind.
    assert (forall x' w', read_to ts x' w' -> wp E (wdt_serve;; mret (inl x')) (fun (r : Z * Z + i2c_v2_result_t) w' => exists x', r = inl x' /\ read_to ts x' w') f w') as Hserve.
    { intros x' w' H'. apply wp_bind. apply (keeps_serve T f (ticks_per_s (w_lib w0)) Htps (read_to ts x') (read_to_timed ts x') (read_to_library ts x')); [done|].
      intros [] w'' H''. apply wp_ret. by exists x'. }
    destruct (_ && _); [apply (rt_receive_words ts); [done|exact Hserve]|by apply wp_ret, Hserve].
  - intros r w' [(x' & -> & H') Hn']. split; [done|]. unfold Timeout.late in *. lia.
Qed.

(** ** The parts of a read *)
Lemma rt_send_request ts x word Q w : read_to ts x w -> (forall r w', read_to (ts ++ [u32 word]) x w' -> Q r w') -> wp E (send_request pending word) Q f w.
Proof.
  intros Hw HQ. unfold send_request, no_request. apply (rt_wait ts x); [done|done|]. intros w1 H1.
  apply wp_bind, (rt_fetch ts x); [done|done|]. intros ris w2 H2 _ _ _. apply wp_bind, wp_masked, wp_bind, (rt_modify ts x); [done|]. intros w3 H3 _ _.
  apply wp_bind, (rt_send ts x); [done|]. intros w4 H4. apply wp_bind. eapply rt_put; [exact H4|done|]. intros w5 H5 _ _. by apply wp_ret, HQ.
Qed.
Lemma rt_address ts x address reg Q w : read_to ts x w -> (forall r w', read_to (ts ++ [u32 ((reg .<< 8) .| (address .<< 1))]) x w' -> Q r w') ->
  wp E (smbus_address pending address reg) Q f w.
Proof.
  intros Hw HQ. unfold smbus_address, no_request. apply wp_bind, (rt_put ts x); [done|done|]. intros w1 H1 _ _. apply (rt_wait ts x); [done|done|]. intros w2 H2.
  apply wp_bind, (rt_fetch ts x); [done|done|]. intros ris w3 H3 _ _ _. apply wp_bind, wp_masked, wp_bind, (rt_modify ts x); [done|]. intros w4 H4 _ _.
  apply wp_bind, wp_masked, wp_bind.
  assert (forall w5, read_to ts x w5 -> wp E (put pending I2C_TXD ((reg .<< 8) .| (address .<< 1));; put pending I2C_ICR (request_of ris);;
    wait_while pending (p ← fetch pending I2C_PIRQSS; mret ((p .& (I2C_PIRQSS_TX_END .| I2C_PIRQSS_NACK)) ==? 0));;
    protocol ← fetch pending I2C_PIRQSS;
    interrupts pending;; modify (fun s => with_protocol_status (protocol_status s .| protocol) s);;
    error ← fetch pending I2C_ERRIRQSS;
    interrupts pending;; modify (fun s => with_error_status (error_status s .| error) s);;
    interrupts pending;; s ← get_state;
    let result :=
      if bool_decide (result s = I2C_V2_ERROR) then I2C_V2_ERROR
      else if (protocol .& I2C_PIRQSS_NACK) !=? 0 then I2C_V2_NACK
      else if ((protocol .& I2C_PIRQSS_TX_END) ==? 0) || (error_status s !=? 0) then I2C_V2_ERROR
      else I2C_V2_DONE in
    put pending I2C_PIRQSC I2C_PROTOCOL_CLEAR;; mret result) Q f w5) as Hend.
  { intros w5 H5. apply wp_bind, (rt_send ts x); [done|]. set (ts' := ts ++ _). intros w6 H6. apply wp_bind, (rt_put ts' x); [done|done|]. intros w7 H7 _ _.
    apply (rt_wait ts' x); [done|done|]. intros w8 H8. apply wp_bind, (rt_fetch ts' x); [done|done|]. intros protocol w9 H9 _ _ _.
    apply wp_bind, wp_masked, wp_bind, (rt_modify ts' x); [done|]. intros w10 H10 _ _. apply wp_bind, (rt_fetch ts' x); [done|done|]. intros error w11 H11 _ _ _.
    apply wp_bind, wp_masked, wp_bind, (rt_modify ts' x); [done|]. intros w12 H12 _ _. apply wp_bind, wp_masked, wp_bind, wp_get_state. cbv zeta.
    apply wp_bind, (rt_put ts' x); [done|done|]. intros w13 H13 _ _. by apply wp_ret, HQ. }
  apply wp_when; intros _; [|by apply Hend]. apply (rt_modify ts x); [done|]. intros w5 H5 _ _. by apply Hend.
Qed.
Lemma rt_data ts address Q w : read_to ts (data, size) w ->
  (forall r x w', read_to (ts ++ [u32 ((address .<< 1) .| 1)]) x w' -> (r = I2C_V2_DONE -> snd x = 0) -> Q r w') -> wp E (smbus_data pending address data size) Q f w.
Proof.
  intros Hw HQ. unfold smbus_data. apply wp_bind, (rt_put ts (data, size)); [done|done|]. intros w1 H1 _ _. apply wp_bind, (rt_put ts (data, size)); [done|done|]. intros w2 H2 _ _.
  apply wp_bind, (rt_send_request ts (data, size)); [done|]. set (ts' := ts ++ _) in *. intros status w3 H3. destruct Ht as (HT & _ & Htps & Hf). apply wp_bind.
  apply (wp_start T HT f (ticks_per_s (w_lib w0)) _ (read_to_timed ts' (data, size)) (read_to_library ts' (data, size))); [done|]. intros start w4 H4 Hs4.
  apply wp_bind. eapply (wp_mono _ _ (fun r w' => exists x, read_to ts' x w' /\ (r = I2C_V2_DONE -> snd x = 0))).
  - destruct (status ==? 0); [apply wp_ret; by eexists|].
    apply (wp_timed_loop T (timeout_ticks I2C_TIMEOUT_MS (ticks_per_s (w_lib w0))) f _ (read_to ts') start); [apply Z.div_pos; unfold I2C_TIMEOUT_MS; lia|done|done|done|]. intros x w5 H5 Hs5.
    eapply wp_mono; [by apply (rt_receive_step start ts')|]. intros [x'|r] w6 H6; [done|]. by exists x.
  - intros r w5 (x & H5 & Hr). destruct (bool_decide (r = I2C_V2_DONE)) eqn:Er; [|apply wp_ret; by eapply HQ].
    apply bool_decide_eq_true in Er as ->. apply wp_bind, (rt_fetch ts' x); [done|done|]. intros rps w6 H6 _ _ _. apply wp_ret.
    apply (HQ _ x); [done|]. intros _. by apply Hr.
Qed.
Lemma rt_stop ts x r Q w : read_to ts x w -> (forall r' w', read_to ts x w' -> (r' = I2C_V2_DONE -> r = I2C_V2_DONE) -> Q r' w') -> wp E (smbus_stop pending r) Q f w.
Proof.
  intros Hw HQ. unfold smbus_stop. apply wp_bind, (rt_put ts x); [done|done|]. intros w1 H1 _ _. apply (rt_wait ts x); [done|done|]. intros w2 H2.
  apply wp_bind, (rt_fetch ts x); [done|done|]. intros b w3 H3 _ _ _. apply wp_ret, HQ; [done|]. by destruct (_ && _).
Qed.
Ltac rt_next := apply wp_bind; eapply rt_put; [eassumption|done|]; let H := fresh "H" in intros ? H ? _.
Lemma rt_end addrcfg fifocfg imsc r Q ts x w : read_to ts x w -> is_u32 addrcfg -> is_u32 fifocfg -> is_u32 imsc ->
  (forall w', w_log w' = restored addrcfg fifocfg imsc ++ w_log w -> w_mem w' = w_mem w -> result (state_of w') = r -> Q r w') ->
  wp E (put pending I2C_RUNCTRL 0;; put pending I2C_ADDRCFG addrcfg;; put pending I2C_FIFOCFG fifocfg;; put pending I2C_RUNCTRL I2C_RUNCTRL_RUN;;
        put pending I2C_IMSC imsc;; interrupts pending;; modify (with_result r);; mret r) Q f w.
Proof.
  intros Hw Ha Hf Hi HQ. assert (forall {R} (rest : M D driver R) Q' p v w1, wp E rest Q' f (set_io w1 (dev_write (Mmio 32 p) (u32 v) (w_dev w1)) (Wr (Mmio 32 p) (u32 v))) ->
    wp E (put pending p v;; rest) Q' f w1) as Hput.
  { intros R rest Q' p v w1 H. apply wp_bind. unfold put. by apply wp_bind, wp_masked, wp_wr. }
  do 5 apply Hput. apply wp_bind, wp_masked, wp_bind, wp_modify, wp_ret. apply HQ; [|done|done]. simpl. unfold restored.
  by rewrite (u32_small addrcfg Ha), (u32_small fifocfg Hf), (u32_small imsc Hi).
Qed.
Lemma rt_read address reg addrcfg fifocfg imsc : is_u32 addrcfg -> is_u32 fifocfg -> is_u32 imsc ->
  wp E (interrupts pending;; modify (fun _ => initial 0 0 0 0 true);;
    put pending I2C_IMSC 0;;
    put pending I2C_RUNCTRL 0;;
    put pending I2C_ADDRCFG I2C_ADDRCFG_MnS;;
    put pending I2C_FIFOCFG (fifocfg .| I2C_FIFOCFG_TXFC);;
    put pending I2C_RUNCTRL I2C_RUNCTRL_RUN;;
    put pending I2C_ICR I2C_STATUS_CLEAR;;
    put pending I2C_ERRIRQSC I2C_ERROR_CLEAR;;
    put pending I2C_PIRQSC I2C_PROTOCOL_CLEAR;;
    result ← smbus_address pending address reg;
    result ← (if bool_decide (result = I2C_V2_DONE) && (size !=? 0) then smbus_data pending address data size else mret result);
    result ← smbus_stop pending result;
    put pending I2C_ICR I2C_STATUS_CLEAR;;
    put pending I2C_PIRQSC I2C_PROTOCOL_CLEAR;;
    put pending I2C_ERRIRQSC I2C_ERROR_CLEAR;;
    put pending I2C_RUNCTRL 0;; put pending I2C_ADDRCFG addrcfg;; put pending I2C_FIFOCFG fifocfg;; put pending I2C_RUNCTRL I2C_RUNCTRL_RUN;;
    put pending I2C_IMSC imsc;; interrupts pending;; modify (with_result result);; mret result)
  (fun r w' => exists es, w_log w' = restored addrcfg fifocfg imsc ++ es ++ w_log w0 /\ read_done address reg data size (w_mem w0) es r w') f w0.
Proof.
  intros Ha Hf Hi. pose proof read_to_start as Hw. apply wp_bind, wp_masked, wp_bind, (rt_modify [] (data, size)); [done|]. intros w1 H1 _ _.
  do 8 rt_next. apply wp_bind. eapply rt_address; [eassumption|]. intros r1 v2 G2. apply wp_bind.
  eapply (wp_mono _ _ (fun r w3 => exists (again : bool) x, read_to (u32 ((reg .<< 8) .| (address .<< 1)) :: (if again then [u32 ((address .<< 1) .| 1)] else [])) x w3 /\
    (r = I2C_V2_DONE -> again = (size !=? 0) /\ snd x = 0))).
  { destruct (bool_decide (r1 = I2C_V2_DONE)) eqn:Er; [|apply wp_ret; exists false, (data, size); split; [done|intros ->; done]].
    destruct (Z.eqb_spec size 0) as [Ez|Ez]; simpl.
    - apply wp_ret. exists false, (data, size). by split.
    - eapply rt_data; [exact G2|]. intros r x v3 G3 Hr. exists true, x. split; [done|]. intros E. split; [done|by apply Hr]. }
  intros r v3 (again & x & G3 & Hr). apply wp_bind. eapply rt_stop; [exact G3|]. intros r' v4 G4 Hr'. do 3 rt_next.
  eapply rt_end; [eassumption|done|done|done|]. intros v' El Em Es.
  match goal with H : read_to _ _ ?w7, _ : w_log v' = _ ++ w_log ?w7 |- _ => destruct H as (rs & (es & El7 & Etx & Erx) & _ & Em7 & Ex) end.
  exists es. split; [by rewrite El, El7|]. split; [|split; [|done]].
  - exists again. split; [done|]. intros E. by apply Hr, Hr'.
  - cbv zeta. rewrite Erx, Em, Em7. split; [done|]. intros E. destruct (Hr (Hr' E)) as [_ Hz]. rewrite Ex in Hz. cbn [snd] in Hz. rewrite length_take in Hz. lia.
Qed.
End Read.

(** C21. [i2c_v2_smbus_read] ends, whatever the controller does, and is exact.  With its
    interrupts masked and fuel for the ticks of its timeouts it returns (unless the low word of
    the timer wraps meanwhile); the configuration that it changed is written back as it was
    read; the address and the register are sent, and then, if data is read, the address for
    reading; the buffer holds the first bytes of the words that were read from the receive FIFO,
    memory is otherwise unchanged, and the result is DONE only when all of them are there. *)
Theorem smbus_read_exact {D} `{!Device D, !FifoLayout D, !StmTimer D} `{B : Board} (pending : D -> list Z * D) (f : nat) (w : world D driver)
    (address reg data size : Z) :
  (forall d, pending d = ([], d)) -> timed f (now w) w -> buffer (w_mem w) data size ->
  wp (unless_late (now w)) (i2c_v2_smbus_read pending address reg data size) (fun r w' =>
    exists addrcfg fifocfg imsc es,
      w_log w' = restored addrcfg fifocfg imsc ++ es ++ saved addrcfg fifocfg imsc ++ w_log w /\
      read_done address reg data size (w_mem w) es r w') f w.
Proof.
  intros Hq Ht Hbuf. unfold i2c_v2_smbus_read.
  assert (forall {R} (k : Z -> M D driver R) Q p w1, now w <= now w1 -> (forall v w2, is_u32 v -> now w <= now w2 -> w_log w2 = Rd (Mmio 32 p) v :: w_log w1 ->
    w_mem w2 = w_mem w1 -> w_lib w2 = w_lib w1 -> wp (unless_late (now w)) (k v) Q f w2) -> wp (unless_late (now w)) (v ← fetch pending p; k v) Q f w1) as Hfetch.
  { intros R k Q p w1 Hn HQ. apply wp_bind. unfold fetch. apply wp_bind, (wp_masked _ _ Hq), wp_rd. intros v d Hd.
    pose proof (stm_read_time (Mmio 32 p) (w_dev w1)) as Hn'. rewrite Hd in Hn'. apply HQ; [apply u32_range| |done..]. unfold now in *. simpl in *. lia. }
  apply Hfetch; [lia|]. intros addrcfg w1 U1 N1 L1 M1 T1. apply Hfetch; [done|]. intros fifocfg w2 U2 N2 L2 M2 T2. apply Hfetch; [done|]. intros imsc w3 U3 N3 L3 M3 T3.
  eapply wp_mono; [apply (rt_read pending f (now w) Hq w3 data size); [|congruence|done..]|].
  - apply (timed_later f _ w); [done|done|congruence].
  - intros r w' (es & El & Hr). exists addrcfg, fifocfg, imsc, es. split; [by rewrite El, L3, L2, L1|]. by rewrite <- M1, <- M2, <- M3.
Qed.

(** A controller that asks for every word, has received [fifo] and is never busy. *)
#[export] Instance polled_bus : Device (N * list Z) :=
  {| dev_read p d :=
       let value :=
         if decide (p = Mmio 32 STM_TIM6) then Z.of_N d.1 / 0x100000000
         else if decide (p = Mmio 32 STM_TIM0) then Z.of_N d.1
         else if decide (p = Mmio 32 I2C_RIS) then I2C_RIS_SREQ_INT
         else if decide (p = Mmio 32 I2C_PIRQSS) then I2C_PIRQSS_TX_END .| I2C_PIRQSS_RX
         else if decide (p = Mmio 32 I2C_FFSSTAT) then Z.of_nat (length d.2)
         else if decide (p = Mmio 32 I2C_RXD) then default 0 (head d.2)
         else if decide (p = Mmio 32 I2C_RPSSTAT) then 3
         else if decide (p = Mmio 32 I2C_IMSC) then I2C_TRANSFER_IRQS
         else 0 in
       (value, ((d.1 + 1)%N, if decide (p = Mmio 32 I2C_RXD) then tail d.2 else d.2));
     dev_write p v d := ((d.1 + 1)%N, d.2) |}.
#[export] Instance polled_layout : FifoLayout (N * list Z).
Proof. refine {| tx_alignment := 1; rx_alignment := 1 |}; [by left|by left|by intros []|by intros []]. Defined.
#[export] Instance polled_timer : StmTimer (N * list Z).
Proof. refine {| stm_time d := Z.of_N d.1 |}; intros; cbn [polled_bus dev_read dev_write fst snd]; repeat case_decide; lia || done. Defined.
Lemma smbus_read_exact_witness :
  let B := plain_board PMB8876 in
  let w := World (0%N, [0x44332211]) (mem_alloc (LOCAL 1) 3 ∅) [] (LibState 1000 0 0 0 0 true) driver_zero in
  exists w' addrcfg fifocfg imsc es,
    i2c_v2_smbus_read (fun d => ([], d)) 0x31 7 (LOCAL 1) 3 200%nat w = Done I2C_V2_DONE w' /\
    w_log w' = restored addrcfg fifocfg imsc ++ es ++ saved addrcfg fifocfg imsc ++ w_log w /\
    read_done 0x31 7 (LOCAL 1) 3 (w_mem w) es I2C_V2_DONE w'.
Proof.
  intros B w.
  assert (timed 200 (now w) w) as Ht by (repeat split; by vm_compute).
  assert (buffer (w_mem w) (LOCAL 1) 3) as Hb.
  { split; [split; by vm_compute|]. intros i Hi'. assert (i = 0 \/ i = 1 \/ i = 2) as [->|[->| ->]] by lia; by vm_compute. }
  destruct (wp_result _ _ _ _ _ is_done (smbus_read_exact (fun d => ([], d)) 200%nat w 0x31 7 (LOCAL 1) 3 (fun d => eq_refl) Ht Hb))
    as (r & w' & E & Hr & addrcfg & fifocfg & imsc & es & H); [by vm_compute|].
  destruct r; try discriminate Hr. exists w', addrcfg, fifocfg, imsc, es. exact (conj E H).
Defined.
