(* ===== verification/SimApdu.v ===== *)
(** * The SIM card tests: commands ([unit/sim/test-card.c])

    The driver of the card interface, the exchange of a T=0 command ([sim_exchange]), the
    commands of GSM 11.11 on top of it, the parsers of what the card answers, and what
    measures the card.  The build without [SIM_DUMP_CARD_INFO]'s printing of every command.
    A [struct apdu_response] is a value: it is passed in with what it held before and handed
    out as it was left. *)
From S2P Require Import Prelude Machine Board Regs Clock Stopwatch Wdt Usart Smbus TestLib.

Definition SIM_IRQ_MASK : Z := SIM_IMSC_ERR .| SIM_IMSC_IN .| SIM_IMSC_OK.
Definition SIM_MAX_ATR_SIZE : Z := 64.
Definition SIM_MAX_APDU_DATA : Z := 256.
Definition SIM_T0_NULL_BYTE : Z := 0x60.
Definition SIM_RECORD_NEXT : Z := 0x02.
Definition SIM_RECORD_PREVIOUS : Z := 0x03.
Definition SIM_RECORD_ABSOLUTE : Z := 0x04.
Definition SIM_TURNAROUND_MS : Z := 5.
Record apdu_timing := Timing { header_sent_tick : Z; procedure_tick : Z; data_done_tick : Z; sw1_tick : Z; null_bytes : Z }.
Record apdu_response := Response { r_data : list Z; r_size : Z; sw1 : Z; sw2 : Z; timing : apdu_timing }.
Definition with_data v (r : apdu_response) := Response v (r_size r) (sw1 r) (sw2 r) (timing r).
Definition with_size v (r : apdu_response) := Response (r_data r) v (sw1 r) (sw2 r) (timing r).
Definition with_sw1 v (r : apdu_response) := Response (r_data r) (r_size r) v (sw2 r) (timing r).
Definition with_sw2 v (r : apdu_response) := Response (r_data r) (r_size r) (sw1 r) v (timing r).
Definition with_timing v (r : apdu_response) := Response (r_data r) (r_size r) (sw1 r) (sw2 r) v.
Definition with_header_sent v t := Timing v (procedure_tick t) (data_done_tick t) (sw1_tick t) (null_bytes t).
Definition with_procedure v t := Timing (header_sent_tick t) v (data_done_tick t) (sw1_tick t) (null_bytes t).
Definition with_data_done v t := Timing (header_sent_tick t) (procedure_tick t) v (sw1_tick t) (null_bytes t).
Definition with_sw1_tick v t := Timing (header_sent_tick t) (procedure_tick t) (data_done_tick t) v (null_bytes t).
Definition with_null_bytes v t := Timing (header_sent_tick t) (procedure_tick t) (data_done_tick t) (sw1_tick t) v.
(** The static variables. *)
Record sim_card := SimCard { sim_last_tx_tick : Z; sim_last_rx_tick : Z; sim_null_bytes : Z; sim_reset_tick : Z }.
(** [response->data[i] = v]. *)
Definition set_data (i v : Z) (r : apdu_response) : option apdu_response :=
  if (0 <=? i) && (i <? SIM_MAX_APDU_DATA) then Some (with_data (<[Z.to_nat i := v]> (r_data r)) r) else None.
Definition pmic_byte : Z := LOCAL 7.

Section Code.
Context {D : Type} `{!Device D} `{B : Board} `{Hw : !I2cHw D sim_card}.
#[local] Abbreviation M := (M D sim_card).
Context (printf : message -> M unit).

(** ** The card interface *)
Definition delay_ms (milliseconds : Z) : M unit :=
  start ← stopwatch_get;
  iter (fun _ : unit =>
    e ← stopwatch_elapsed_ms start;
    if e <? milliseconds then wdt_serve;; mret (inl tt) else mret (inr tt)) tt.
Definition sim_clear_ok : M unit := wr32 SIM_ICR SIM_ICR_OK.
Definition sim_wait_ok (timeout_ms : Z) : M bool :=
  start ← stopwatch_get;
  iter (fun _ : unit =>
    e ← stopwatch_elapsed_ms start;
    if e <? timeout_ms then
      ris ← rd32 SIM_RIS;
      if (ris .& SIM_RIS_ERR) !=? 0 then
        stat ← rd32 SIM_STAT; ris ← rd32 SIM_RIS;
        printf ("# SIM error: STAT=%04X RIS=%X" +:+ NL, [PNum stat; PNum ris]);;
        wr32 SIM_ICR SIM_ICR_ERR;; mret (inr false)
      else
        ris ← rd32 SIM_RIS;
        if (ris .& SIM_RIS_OK) !=? 0 then mret (inr true)
        else wdt_serve;; mret (inl tt)
    else mret (inr false)) tt.
Definition update (g : sim_card -> sim_card) : M unit := s ← get_app; put_app (g s).
Definition sim_send_byte (value : Z) : M bool :=
  sim_clear_ok;;
  wr32 SIM_TXB value;;
  ok ← sim_wait_ok 500;
  if negb ok then mret false
  else
    tick ← rd32 STM_TIM0;
    update (fun s => SimCard tick (sim_last_rx_tick s) (sim_null_bytes s) (sim_reset_tick s));;
    sim_clear_ok;;
    mret true.
(** The value that was received, if one was. *)
Definition sim_receive_byte (timeout_ms : Z) : M (option Z) :=
  ok ← sim_wait_ok timeout_ms;
  if negb ok then mret None
  else
    tick ← rd32 STM_TIM0;
    update (fun s => SimCard (sim_last_tx_tick s) tick (sim_null_bytes s) (sim_reset_tick s));;
    value ← rd32 SIM_RXB;
    sim_clear_ok;;
    mret (Some (u8 value)).
Definition sim_receive_procedure : M (option Z) :=
  iter (fun _ : unit =>
    value ← sim_receive_byte 1000;
    match value with
    | None => mret (inr None)
    | Some value =>
        if value !=? SIM_T0_NULL_BYTE then mret (inr (Some value))
        else
          update (fun s => SimCard (sim_last_tx_tick s) (sim_last_rx_tick s) (u32 (sim_null_bytes s + 1)) (sim_reset_tick s));;
          mret (inl tt)
    end) tt.
Definition sim_supply_set (enabled : bool) : M bool :=
  match board_pmic with
  | PMIC_PMB6812 =>
      alloc pmic_byte 1;;
      ok ← i2c_smbus_read_byte PMB6812_I2C_ADDR PMB6812_PWCTRL5 pmic_byte;
      if negb ok then mret false
      else
        control ← ld8 pmic_byte;
        let control := u8 (control .& not32 PMB6812_PWCTRL5_LSIMMD) in
        let control := u8 (control .| (if enabled then PMB6812_PWCTRL5_LSIMMD_ON else PMB6812_PWCTRL5_LSIMMD_OFF)) in
        pmb681x_reg_write PMB6812_PWCTRL5 control
  | PMIC_D1094XX =>
      alloc pmic_byte 1;;
      ok ← i2c_smbus_read_byte PASIC_I2C_ADDR PASIC_SUPPLY_ENABLE_1 pmic_byte;
      if negb ok then mret false
      else
        supply_enable ← ld8 pmic_byte;
        let supply_enable :=
          if enabled then u8 (supply_enable .| PASIC_SUPPLY_ENABLE_1_VAUDREGA_EN)
          else u8 (supply_enable .& not32 PASIC_SUPPLY_ENABLE_1_VAUDREGA_EN) in
        i2c_smbus_write_byte PASIC_I2C_ADDR PASIC_SUPPLY_ENABLE_1 supply_enable
  | PMIC_NONE => mret true
  end.
(** [SIM_CON |= bits]. *)
Definition sim_con_set (bits : Z) : M unit := con ← rd32 SIM_CON; wr32 SIM_CON (con .| bits).
(** The answer to reset is a list of bytes with their ticks. *)
Definition sim_power_on (rmc : Z) : M (bool * list (Z * Z)) :=
  i2c_init;;
  wr32 SIM_CLC (u32 (rmc .<< MOD_CLC_RMC_SHIFT));;
  wr32 SIM_CON 0;;
  wr32 SIM_BRF 0x5D;;
  wr32 SIM_RXSPC 0x28;;
  wr32 SIM_IRQEN (SIM_IRQEN_ENOKINT .| SIM_IRQEN_ENPAR .| SIM_IRQEN_ENOVR);;
  wr32 SIM_IMSC 0;;
  wr32 SIM_ICR SIM_IRQ_MASK;;
  wr32 SIM_CON SIM_CON_SIMEN;;
  ok ← sim_supply_set true;
  if negb ok then mret (false, [])
  else
    wr32 (GPIO_PIN GPIO_I2C_SCL) 0x1211;;
    wr32 (GPIO_PIN GPIO_I2C_SDA) 0x1211;;
    delay_ms 255;;
    sim_con_set SIM_CON_SIMVCC;;
    sim_con_set (SIM_CON_SIMIOL .| SIM_CON_ERROFF);;
    sim_con_set SIM_CON_SIMON;;
    delay_ms 100;;
    sim_con_set SIM_CON_UARTON;;
    delay_ms 5;;
    tick ← rd32 STM_TIM0;
    update (fun s => SimCard (sim_last_tx_tick s) (sim_last_rx_tick s) (sim_null_bytes s) tick);;
    sim_con_set SIM_CON_SIMRST;;
    atr ← iter (fun atr : list (Z * Z) =>
      if Z.of_nat (length atr) <? SIM_MAX_ATR_SIZE then
        value ← sim_receive_byte (if Z.of_nat (length atr) ==? 0 then 1000 else 100);
        match value with
        | None => mret (inr atr)
        | Some value => s ← get_app; mret (inl (atr ++ [(value, sim_last_rx_tick s)]))
        end
      else mret (inr atr)) [];
    mret (Z.of_nat (length atr) !=? 0, atr).
Definition sim_power_off : M unit :=
  wr32 SIM_DMAE 0;;
  wr32 SIM_CON 0;;
  wr32 SIM_IRQEN 0;;
  wr32 SIM_ICR SIM_IRQ_MASK;;
  i2c_init;;
  _ ← sim_supply_set false;
  mret tt.

(** ** A command *)
Definition sim_is_status_byte (value : Z) : bool := ((value .& 0xF0) ==? 0x60) || ((value .& 0xF0) ==? 0x90).
(** [for (i = 0; i < n; i++) if (!sim_send_byte(bytes[i])) return false;] *)
Definition send_bytes (bytes : list Z) : M bool :=
  r ← foldE (fun (_ : unit) b => ok ← sim_send_byte b; mret (if negb ok then inr tt else inl tt)) tt bytes;
  mret (match r with inl _ => true | inr _ => false end).
(** A data byte of the command ([Some]: of [tx_data]) or of the response. *)
Definition exchange_byte (tx_data : option (list Z)) (s : Z * apdu_response) (_ : Z) : M (Z * apdu_response + apdu_response) :=
  let '(transferred, response) := s in
  match tx_data with
  | Some tx_data =>
      b ← defined (elem tx_data transferred);
      ok ← sim_send_byte b;
      if negb ok then mret (inr response)
      else c ← get_app; mret (inl (transferred + 1, with_timing (with_data_done (sim_last_tx_tick c) (timing response)) response))
  | None =>
      b ← sim_receive_byte 1000;
      match b with
      | None => mret (inr response)
      | Some b =>
          response ← defined (set_data transferred b response);
          c ← get_app; mret (inl (transferred + 1, with_timing (with_data_done (sim_last_rx_tick c) (timing response)) response))
      end
  end.
(** From a procedure byte to the next one, or to the end. *)
Definition exchange_step (ins : Z) (tx_data : option (list Z)) (data_size : Z) (s : Z * Z * apdu_response) :
    M (Z * Z * apdu_response + bool * apdu_response) :=
  let '(procedure, transferred, response) := s in
  if (procedure ==? ins) || (procedure ==? not8 ins) then
    if transferred ==? data_size then mret (inr (false, response))
    else
      let chunk := if procedure ==? ins then data_size - transferred else 1 in
      r ← foldE (exchange_byte tx_data) (transferred, response) (seqZ 0 chunk);
      match r with
      | inr response => mret (inr (false, response))
      | inl (transferred, response) =>
          procedure ← sim_receive_procedure;
          mret (match procedure with None => inr (false, response) | Some procedure => inl (procedure, transferred, response) end)
      end
  else if negb (sim_is_status_byte procedure) then mret (inr (false, response))
  else
    let response := with_sw1 procedure (with_size (match tx_data with None => transferred | Some _ => 0 end) response) in
    c ← get_app;
    let response := with_timing (with_null_bytes (sim_null_bytes c) (with_sw1_tick (sim_last_rx_tick c) (timing response))) response in
    b ← sim_receive_byte 1000;
    mret (match b with None => inr (false, response) | Some b => inr (true, with_sw2 b response) end).
(** [tx_data] holds [tx_size] bytes. *)
Definition sim_exchange (header tx_data : list Z) (rx_size : Z) (response : apdu_response) : M (bool * apdu_response) :=
  let response := with_size 0 response in
  let tx_size := Z.of_nat (length tx_data) in
  delay_ms SIM_TURNAROUND_MS;;
  update (fun s => SimCard (sim_last_tx_tick s) (sim_last_rx_tick s) 0 (sim_reset_tick s));;
  sent ← send_bytes header;
  if negb sent then mret (false, response)
  else
    c ← get_app;
    let response := with_timing (with_data_done (sim_last_tx_tick c) (with_header_sent (sim_last_tx_tick c) (timing response))) response in
    procedure ← sim_receive_procedure;
    match procedure with
    | None => mret (false, response)
    | Some procedure =>
        c ← get_app;
        let response := with_timing (with_procedure (sim_last_rx_tick c) (timing response)) response in
        ins ← defined (elem header 1);
        let data_size := if tx_size !=? 0 then tx_size else rx_size in
        iter (exchange_step ins (if tx_size !=? 0 then Some tx_data else None) data_size) (procedure, 0, response)
    end.

(** ** The commands *)
Definition sim_select (file_id : Z) (response : apdu_response) : M (bool * apdu_response) :=
  sim_exchange [0xA0; 0xA4; 0x00; 0x00; 0x02] [u8 (file_id .>> 8); u8 file_id] 0 response.
Definition sim_get_response (length : Z) (response : apdu_response) : M (bool * apdu_response) :=
  sim_exchange [0xA0; 0xC0; 0x00; 0x00; length] [] (if length ==? 0 then SIM_MAX_APDU_DATA else length) response.
Definition sim_read_binary (length : Z) (response : apdu_response) : M (bool * apdu_response) :=
  sim_exchange [0xA0; 0xB0; 0x00; 0x00; length] [] (if length ==? 0 then SIM_MAX_APDU_DATA else length) response.
Definition sim_status (length : Z) (response : apdu_response) : M (bool * apdu_response) :=
  sim_exchange [0xA0; 0xF2; 0x00; 0x00; length] [] (if length ==? 0 then SIM_MAX_APDU_DATA else length) response.
Definition sim_read_record (record mode length : Z) (response : apdu_response) : M (bool * apdu_response) :=
  sim_exchange [0xA0; 0xB2; record; mode; length] [] length response.
Definition response_has_data (sw1 : Z) : bool := (sw1 ==? 0x9F) || (sw1 ==? 0x61).
Definition sim_read_binary_at (offset length : Z) (response : apdu_response) : M (bool * apdu_response) :=
  sim_exchange [0xA0; 0xB0; u8 (offset .>> 8); u8 offset; length] [] length response.
(** [data] holds [length] bytes. *)
Definition sim_update_binary (offset : Z) (data : list Z) (response : apdu_response) : M (bool * apdu_response) :=
  sim_exchange [0xA0; 0xD6; u8 (offset .>> 8); u8 offset; Z.of_nat (length data)] data 0 response.
Definition sim_update_record (record mode : Z) (data : list Z) (response : apdu_response) : M (bool * apdu_response) :=
  sim_exchange [0xA0; 0xDC; record; mode; Z.of_nat (length data)] data 0 response.
Definition sim_seek (type_mode : Z) (pattern : list Z) (response : apdu_response) : M (bool * apdu_response) :=
  sim_exchange [0xA0; 0xA2; 0x00; type_mode; Z.of_nat (length pattern)] pattern 0 response.
Definition GSM_ACM_SIZE : Z := 3.
Definition sim_increase (value : list Z) (response : apdu_response) : M (bool * apdu_response) :=
  sim_exchange [0xA0; 0x32; 0x00; 0x00; GSM_ACM_SIZE] value 0 response.
Definition sim_run_gsm_algorithm (rand : list Z) (response : apdu_response) : M (bool * apdu_response) :=
  sim_exchange [0xA0; 0x88; 0x00; 0x00; Z.of_nat (length rand)] rand 0 response.
Definition sim_invalidate (response : apdu_response) : M (bool * apdu_response) :=
  sim_exchange [0xA0; 0x04; 0x00; 0x00; 0x00] [] 0 response.
Definition sim_rehabilitate (response : apdu_response) : M (bool * apdu_response) :=
  sim_exchange [0xA0; 0x44; 0x00; 0x00; 0x00] [] 0 response.

(** ** Elementary files *)
Definition GSM_MF : Z := 0x3F00.
Definition GSM_EF_SIZE_MSB_OFFSET : Z := 2.
Definition GSM_EF_SIZE_LSB_OFFSET : Z := 3.
Definition GSM_EF_INCREASE_OFFSET : Z := 7.
Definition GSM_EF_ACCESS_OFFSET : Z := 8.
Definition GSM_EF_FILE_STATUS_OFFSET : Z := 11.
Definition GSM_EF_STRUCTURE_OFFSET : Z := 13.
Definition GSM_EF_RECORD_SIZE_OFFSET : Z := 14.
Definition GSM_SEEK_TYPE_2_FROM_BEGINNING : Z := 0x10.
Definition GSM_SEEK_TYPE_2_NEXT_FORWARD : Z := 0x12.
Definition GSM_SEEK_RECORD_NUMBER_SIZE : Z := 1.
Definition GSM_STATUS_SUCCESS : Z := 0x9000.
Definition GSM_RUN_GSM_ALGORITHM_RESPONSE_SIZE : Z := 12.
Definition GSM_STATUS_RESPONSE_AVAILABLE_SW1 : Z := 0x9F.
Definition GSM_ACCESS_SIZE : Z := 3.
Record sim_ef_info := EfInfo { ef_size : Z; ef_structure : Z; record_size : Z; records : Z; increase : Z; access : list Z; file_status : Z }.
Definition sim_status_word (response : apdu_response) : Z := u16 ((sw1 response .<< 8) .| sw2 response).
(** [a() && b() && ...]: the response goes through. *)
Definition then_do (first : M (bool * apdu_response)) (next : apdu_response -> M (bool * apdu_response)) : M (bool * apdu_response) :=
  r ← first; if negb (fst r) then mret r else next (snd r).
Definition check_response (f : apdu_response -> bool) (r : M (bool * apdu_response)) : M (bool * apdu_response) :=
  r ← r; mret (fst r && f (snd r), snd r).
Definition success (response : apdu_response) : bool := sim_status_word response ==? GSM_STATUS_SUCCESS.
Definition ef_info (data : list Z) : option sim_ef_info :=
  msb ← elem data GSM_EF_SIZE_MSB_OFFSET;
  lsb ← elem data GSM_EF_SIZE_LSB_OFFSET;
  structure ← elem data GSM_EF_STRUCTURE_OFFSET;
  record_size ← elem data GSM_EF_RECORD_SIZE_OFFSET;
  let size := u16 ((msb .<< 8) .| lsb) in
  let records := if record_size !=? 0 then size / record_size else 0 in
  increase ← elem data GSM_EF_INCREASE_OFFSET;
  access ← mapM (fun i => elem data (GSM_EF_ACCESS_OFFSET + i)) (seqZ 0 GSM_ACCESS_SIZE);
  file_status ← elem data GSM_EF_FILE_STATUS_OFFSET;
  Some (EfInfo size structure record_size records increase access file_status).
(** The static [response] is in and out. *)
Definition sim_select_ef (df ef : Z) (response : apdu_response) : M (option sim_ef_info * apdu_response) :=
  r ← then_do (sim_select GSM_MF response) (sim_select df);
  if negb (fst r) then mret (None, snd r)
  else
    r ← check_response (fun response => response_has_data (sw1 response)) (sim_select ef (snd r));
    if negb (fst r) then mret (None, snd r)
    else
      r ← check_response success (sim_get_response (sw2 (snd r)) (snd r));
      if negb (fst r) then mret (None, snd r)
      else info ← defined (ef_info (r_data (snd r))); mret (Some info, snd r).
Definition sim_select_df (df : Z) (response : apdu_response) : M (bool * apdu_response) :=
  then_do (sim_select GSM_MF response) (sim_select df).
(** [memcmp(response.data, expected, length) == 0]. *)
Definition data_matches (expected : list Z) (response : apdu_response) : bool :=
  bool_decide (take (length expected) (r_data response) = expected).
(** [expected] holds [length] bytes. *)
Definition sim_read_record_matches (record mode : Z) (expected : list Z) (response : apdu_response) : M (bool * apdu_response) :=
  check_response (fun r => success r && data_matches expected r) (sim_read_record record mode (Z.of_nat (length expected)) response).
Definition sim_seek_record_number (type_mode : Z) (pattern : list Z) (response : apdu_response) : M (option Z * apdu_response) :=
  r ← check_response (fun response => response_has_data (sw1 response)) (sim_seek type_mode (take 1 pattern) response);
  if negb (fst r) then mret (None, snd r)
  else
    r ← sim_get_response GSM_SEEK_RECORD_NUMBER_SIZE (snd r);
    if negb (fst r) || negb (success (snd r)) then mret (None, snd r)
    else record ← defined (elem (r_data (snd r)) 0); mret (Some record, snd r).
(** The static responses of [sim_seek_record_number], [sim_read_record_matches] and
    [sim_restore_cyclic], which are different ones. *)
Record statics := Statics { of_seek : apdu_response; of_match : apdu_response; of_restore : apdu_response }.
Definition with_of_seek v (s : statics) := Statics v (of_match s) (of_restore s).
Definition with_of_match v (s : statics) := Statics (of_seek s) v (of_restore s).
Definition with_of_restore v (s : statics) := Statics (of_seek s) (of_match s) v.
(** [empty] holds [record_size] bytes; 0 when there is none. *)
Definition find_empty_step (empty : list Z) (x : Z * statics) (_ : Z) : M (Z * statics + Z * statics) :=
  let '(record, s) := x in
  r ← sim_read_record_matches record SIM_RECORD_ABSOLUTE empty (of_match s);
  let s := with_of_match (snd r) s in
  if fst r : bool then mret (inr (record, s))
  else
    r ← sim_seek_record_number GSM_SEEK_TYPE_2_NEXT_FORWARD empty (of_seek s);
    let s := with_of_seek (snd r) s in
    mret (match fst r with None => inr (0, s) | Some record => inl (record, s) end).
Definition sim_find_empty_record (info : sim_ef_info) (empty : list Z) (s : statics) : M (Z * statics) :=
  r ← sim_seek_record_number GSM_SEEK_TYPE_2_FROM_BEGINNING empty (of_seek s);
  let s := with_of_seek (snd r) s in
  match fst r with
  | None => mret (0, s)
  | Some record =>
      r ← foldE (find_empty_step empty) (record, s) (seqZ 0 (records info));
      mret (match r with inl x => (0, snd x) | inr r => r end)
  end.
(** [lnd_records]: the first [records] of them are written back, last one first, and compared. *)
Definition restore_step (s : statics) (record : list Z) : M (statics + statics) :=
  r ← check_response success (sim_update_record 0 SIM_RECORD_PREVIOUS record (of_restore s));
  let s := with_of_restore (snd r) s in
  mret (if negb (fst r) then inr s else inl s).
Definition verify_step (x : Z * statics) (record : list Z) : M (Z * statics + statics) :=
  let '(i, s) := x in
  r ← sim_read_record_matches (u8 (i + 1)) SIM_RECORD_ABSOLUTE record (of_match s);
  let s := with_of_match (snd r) s in
  mret (if negb (fst r) then inr s else inl (i + 1, s)).
Definition sim_restore_cyclic (lnd_records : list (list Z)) (s : statics) : M (bool * statics) :=
  r ← foldE restore_step s (rev lnd_records);
  match r with
  | inr s => mret (false, s)
  | inl s =>
      r ← foldE verify_step (0, s) lnd_records;
      mret (match r with inl x => (true, snd x) | inr s => (false, s) end)
  end.
Definition sim_authenticate (rand : list Z) (response : apdu_response) : M (option (list Z) * apdu_response) :=
  r ← sim_run_gsm_algorithm rand response;
  if negb (fst r) then mret (None, snd r)
  else if negb (sw1 (snd r) ==? GSM_STATUS_RESPONSE_AVAILABLE_SW1) || negb (sw2 (snd r) ==? GSM_RUN_GSM_ALGORITHM_RESPONSE_SIZE) then mret (None, snd r)
  else
    r ← check_response success (sim_get_response GSM_RUN_GSM_ALGORITHM_RESPONSE_SIZE (snd r));
    mret (if fst r : bool then Some (take 12 (r_data (snd r))) else None, snd r).

(** ** Other reads; [stack] is what a local response holds before it is written. *)
Context (stack : apdu_response).
Definition sim_select_with_metadata (file_id : Z) : M (option apdu_response) :=
  r ← check_response (fun response => response_has_data (sw1 response)) (sim_select file_id stack);
  if negb (fst r) then mret None
  else
    r ← sim_get_response (sw2 (snd r)) stack;
    if negb (fst r) then mret None
    else mret (if (sw1 (snd r) ==? 0x90) && (sw2 (snd r) ==? 0x00) && (15 <=? r_size (snd r)) then Some (snd r) else None).
Definition sim_read_transparent (file_id capacity : Z) : M (option (list Z)) :=
  metadata ← sim_select_with_metadata file_id;
  match metadata with
  | None => mret None
  | Some metadata =>
      msb ← defined (elem (r_data metadata) 2);
      lsb ← defined (elem (r_data metadata) 3);
      structure ← defined (elem (r_data metadata) 13);
      let file_size := (msb .<< 8) .| lsb in
      if negb (structure ==? 0) || (file_size ==? 0) || (capacity <? file_size) || (256 <? file_size) then mret None
      else
        r ← sim_read_binary (u8 file_size) stack;
        if negb (fst r) || negb (sw1 (snd r) ==? 0x90) || negb (sw2 (snd r) ==? 0) then mret None
        else data ← defined (mapM (elem (r_data (snd r))) (seqZ 0 file_size)); mret (Some data)
  end.
Definition SIM_READ_BINARY_SIZE : Z := 10.
(** The ticks of the data bytes, if all is well. *)
Definition sim_read_binary_timed : M (option (list Z)) :=
  let header := [0xA0; 0xB0; 0x00; 0x00; SIM_READ_BINARY_SIZE] in
  delay_ms SIM_TURNAROUND_MS;;
  sent ← send_bytes header;
  if negb sent then mret None
  else
    procedure ← sim_receive_procedure;
    if negb (bool_decide (procedure = Some 0xB0)) then mret None
    else
      r ← foldE (fun (ticks : list Z) (_ : Z) =>
            value ← sim_receive_byte 1000;
            s ← get_app;
            mret (match value with None => inr tt | Some _ => inl (ticks ++ [sim_last_rx_tick s]) end)) [] (seqZ 0 SIM_READ_BINARY_SIZE);
      match r with
      | inr _ => mret None
      | inl ticks =>
          sw1 ← sim_receive_procedure;
          match sw1 with
          | None => mret None
          | Some sw1 =>
              sw2 ← sim_receive_byte 1000;
              mret (if (sw1 ==? 0x90) && bool_decide (sw2 = Some 0x00) then Some ticks else None)
          end
      end.
Definition sim_select_iccid (response : apdu_response) : M (bool * apdu_response) :=
  let with_response file_id r :=
    then_do (sim_select file_id r) (fun r => if response_has_data (sw1 r) then sim_get_response (sw2 r) r else mret (true, r)) in
  check_response (fun r => (sw1 r ==? 0x90) && (sw2 r ==? 0x00)) (then_do (with_response 0x3F00 response) (with_response 0x2FE2)).
Definition SIM_PPSS : Z := 0xFF.
Definition SIM_PPS0_PPS1_PRESENT : Z := 0x10.
Definition pps_request (ta1 : Z) : list Z := [SIM_PPSS; SIM_PPS0_PPS1_PRESENT; ta1; (SIM_PPSS .^ SIM_PPS0_PPS1_PRESENT) .^ ta1].
Definition sim_exchange_pps (ta1 : Z) : M bool :=
  delay_ms SIM_TURNAROUND_MS;;
  sent ← send_bytes (pps_request ta1);
  if negb sent then mret false
  else
    r ← foldE (fun (_ : unit) b =>
          value ← sim_receive_byte 1000;
          mret (if bool_decide (value = Some b) then inl tt else inr tt)) tt (pps_request ta1);
    mret (match r with inl _ => true | inr _ => false end).
End Code.
