(* ===== verification/SimDecode.v ===== *)
(** * The SIM card tests: what the card's bytes mean ([unit/sim/test-card.c])

    The digits of EF_ICCID and EF_IMSI, the check digit, the rates of the answer to reset, the
    clocks of a measurement and the elements of a proactive command. *)
From S2P Require Import Prelude Machine Board Regs Smbus SimReader SimApdu.

(** ** Digits *)
(** A loop that can be left; [inr] when it was. *)
Fixpoint until {X Y} (step : X -> Y -> X + X) (x : X) (l : list Y) : X + X :=
  match l with
  | [] => inl x
  | y :: l => match step x y with inl x => until step x l | inr x => inr x end
  end.
Definition digit_step (output_size : Z) (output : list Z) (digit : Z) : list Z + list Z :=
  if digit ==? 0x0F then inl output
  else if (9 <? digit) || (output_size <=? Z.of_nat (length output) + 1) then inr output
  else inl (output ++ [0x30 + digit]).
Definition byte_step (output_size : Z) (output : list Z) (byte : Z) : list Z + list Z :=
  until (digit_step output_size) output [byte .& 0x0F; byte .>> 4].
(** What is before the terminator; [None] when that is outside of the output. *)
Definition terminated (output_size : Z) (output : list Z) : option (list Z) :=
  if Z.of_nat (length output) <? output_size then Some output else None.
Definition decode_swapped_bcd (data : list Z) (output_size : Z) : option (list Z) :=
  terminated output_size (match until (byte_step output_size) [] data with inl output | inr output => output end).
Definition decode_imsi (data : list Z) (output_size : Z) : option (list Z) :=
  match data with
  | _ :: first :: data =>
      if (output_size <? 2) || (9 <? first .>> 4) then terminated output_size []
      else digits ← decode_swapped_bcd data (output_size - 1); Some (0x30 + (first .>> 4) :: digits)
  | _ => terminated output_size []
  end.
(** One digit of the sum; [n]: how many follow. *)
Definition luhn_digit (n : nat) (c : Z) : Z :=
  let digit := u32 (c - 0x30) in
  if Nat.odd n then let digit := u32 (digit * 2) in if 9 <? digit then digit - 9 else digit else digit.
Fixpoint luhn_sum (sum : Z) (iccid : list Z) : Z :=
  match iccid with
  | [] => sum
  | c :: iccid => luhn_sum (u32 (sum + luhn_digit (length iccid) c)) iccid
  end.
Definition iccid_luhn_valid (iccid : list Z) : bool := negb (Z.of_nat (length iccid) ==? 0) && (luhn_sum 0 iccid mod 10 ==? 0).

(** ** Rates and clocks *)
Definition FI_CLOCKS_PER_ETU : list Z := [372; 372; 558; 744; 1116; 1488; 1860; 0; 0; 512; 768; 1024; 1536; 2048; 0; 0].
Definition DI_DIVISORS : list Z := [0; 1; 2; 4; 8; 16; 32; 64; 12; 20; 0; 0; 0; 0; 0; 0].
Definition SIM_CHARACTER_ETU : Z := 12.
Definition SIM_FPI1_CLOCKS_PER_BRF_RMC_ETU : Z := 16.
Definition SIM_FPI1_OSC_HZ : Z := 26000000.
Definition SIM_CLOCKS_PER_BRF_ETU : Z := 4.
Definition sim_character_ticks (ticks_per_ms rmc brf : Z) : Z :=
  let fpi1_clocks := u32 (SIM_CHARACTER_ETU * SIM_FPI1_CLOCKS_PER_BRF_RMC_ETU * brf * rmc) in
  u32 (u64 (u64 (fpi1_clocks * ticks_per_ms) * 1000) / SIM_FPI1_OSC_HZ).
Definition sim_ta1_to_brf (ta1 : Z) : option Z :=
  divisor ← elem DI_DIVISORS (ta1 .& 0x0F);
  if divisor ==? 0 then Some 0
  else clocks ← elem FI_CLOCKS_PER_ETU (ta1 .>> 4); Some (clocks / divisor / SIM_CLOCKS_PER_BRF_ETU).
Definition mean_interval (ticks : list Z) : option Z :=
  first ← elem ticks 0;
  final ← elem ticks (Z.of_nat (length ticks) - 1);
  if Z.of_nat (length ticks) - 1 ==? 0 then None else Some (u32 (final - first) / (Z.of_nat (length ticks) - 1)).
(** [None]: a division by zero. *)
Definition ticks_to_us (ticks_per_ms ticks : Z) : option Z :=
  if ticks_per_ms ==? 0 then None else Some (u32 (u64 (ticks * 1000) / ticks_per_ms)).
Definition card_delay_us (ticks_per_ms start_tick end_tick transfer_ticks : Z) : option Z :=
  let elapsed_ticks := u32 (end_tick - start_tick) in
  if transfer_ticks <? elapsed_ticks then ticks_to_us ticks_per_ms (elapsed_ticks - transfer_ticks) else Some 0.

(** ** Proactive commands *)
Definition SAT_COMMAND_DETAILS_TAG : Z := 0x01.
Definition SAT_COMPREHENSION_REQUIRED : Z := 0x80.
Definition SAT_COMMAND_DETAILS_SIZE : Z := 3.
(** The offset of the element; [None]: an access outside of the data or no fuel. *)
Fixpoint find_tag_loop (fuel : nat) (data : list Z) (size tag offset : Z) : option (option Z) :=
  match fuel with
  | O => None
  | S fuel =>
      if offset + 2 <=? size then
        current ← elem data offset;
        length ← elem data (offset + 1);
        if (current .& not8 SAT_COMPREHENSION_REQUIRED) ==? tag then Some (Some offset)
        else find_tag_loop fuel data size tag (u32 (offset + 2 + length))
      else Some None
  end.
Definition sat_find_tag (command : apdu_response) (tag : Z) : option (option Z) := find_tag_loop 128 (r_data command) (r_size command) tag 2.
(** The data of [sat_respond]'s command. *)
Definition sat_terminal_response (command : apdu_response) (result : Z) : option (option (list Z)) :=
  details ← sat_find_tag command SAT_COMMAND_DETAILS_TAG;
  match details with
  | None => Some None
  | Some details =>
      length ← elem (r_data command) (details + 1);
      if negb (length ==? SAT_COMMAND_DETAILS_SIZE) then Some None
      else
        number ← elem (r_data command) (details + 2);
        type ← elem (r_data command) (details + 3);
        qualifier ← elem (r_data command) (details + 4);
        Some (Some [0x81; SAT_COMMAND_DETAILS_SIZE; number; type; qualifier; 0x82; 0x02; 0x82; 0x81; 0x83; 0x01; result])
  end.
