(* ===== verification/SimDigits.v ===== *)
(** * The SIM card tests: theorems about the card's bytes ([unit/sim/test-card.c])

    The subscriber's identity is read back from its encoding of GSM 11.11, the check digit of
    the card's number finds single errors and swaps, and the elements of a proactive command
    are found. *)
From S2P Require Import Prelude Machine Board Regs Smbus SimReader SimApdu SimDecode.

(** ** The subscriber's identity *)
Definition is_digit (d : Z) : Prop := 0 <= d <= 9.
Definition ascii (d : Z) : Z := 0x30 + d.
(** Two digits to a byte, the first one low, an odd last one beside filler. *)
Fixpoint swapped (digits : list Z) : list Z :=
  match digits with
  | [] => []
  | [a] => [0xF0 + a]
  | a :: b :: digits => b * 16 + a :: swapped digits
  end.
(** EF_IMSI: the length, the first digit with the parity and the type, the other digits. *)
Definition imsi_file (digits : list Z) : list Z :=
  match digits with
  | [] => []
  | d :: digits => 1 + Z.of_nat (length (swapped digits)) :: d * 16 + (if Nat.even (length digits) then 9 else 1) :: swapped digits
  end.

(** *** Nibbles *)
Lemma low_nibble a b : 0 <= a < 16 -> (b * 16 + a) .& 0x0F = a.
Proof. intros Ha. change 0x0F with (Z.ones 4). rewrite Z.land_ones by lia. change (2 ^ 4) with 16. rewrite Z.add_comm, Z_mod_plus_full. by apply Z.mod_small. Qed.
Lemma high_nibble a b : 0 <= a < 16 -> (b * 16 + a) .>> 4 = b.
Proof. intros Ha. rewrite Z.shiftr_div_pow2 by lia. change (2 ^ 4) with 16. rewrite Z.div_add_l, Z.div_small by lia. lia. Qed.
Definition nibbles (byte : Z) : list Z := [byte .& 0x0F; byte .>> 4].
Lemma until_app {X Y} (step : X -> Y -> X + X) x l l' :
  until step x (l ++ l') = match until step x l with inl x => until step x l' | inr x => inr x end.
Proof. revert x. induction l as [|y l IH]; intros x; simpl; [done|]. destruct (step x y); [apply IH|done]. Qed.
Lemma until_nibbles size output data : until (byte_step size) output data = until (digit_step size) output (data ≫= nibbles).
Proof.
  revert output. induction data as [|b data IH]; intros output; [done|]. rewrite bind_cons, until_app. simpl until at 1. unfold byte_step at 1.
  change [b .& 0x0F; b .>> 4] with (nibbles b). by destruct (until (digit_step size) output (nibbles b)).
Qed.
Lemma list_pair_ind {A} (P : list A -> Prop) :
  P [] -> (forall a, P [a]) -> (forall a b l, P l -> P (a :: b :: l)) -> forall l, P l.
Proof. intros P0 P1 P2. refine (fix IH l := _). destruct l as [|a [|b l]]; [exact P0|apply P1|apply P2, IH]. Qed.
Lemma swapped_nibbles digits : Forall is_digit digits -> swapped digits ≫= nibbles = digits ++ (if Nat.even (length digits) then [] else [0x0F]).
Proof.
  unfold is_digit. induction digits as [|a|a b digits IH] using list_pair_ind; intros Hd; [done| |].
  - apply Forall_cons in Hd as [Ha _]. change (swapped [a]) with [0x0F * 16 + a]. rewrite bind_cons. unfold nibbles.
    by rewrite low_nibble, high_nibble by lia.
  - apply Forall_cons in Hd as [Ha Hd]. apply Forall_cons in Hd as [Hb Hd]. change (swapped (a :: b :: digits)) with (b * 16 + a :: swapped digits).
    rewrite bind_cons, IH by done. unfold nibbles. by rewrite low_nibble, high_nibble by lia.
Qed.

(** *** The digits that fit *)
Lemma digit_step_digit size output d : is_digit d ->
  digit_step size output d = if Z.of_nat (length output) + 1 <? size then inl (output ++ [ascii d]) else inr output.
Proof.
  intros Hd. unfold digit_step, is_digit in *. destruct (Z.eqb_spec d 0x0F); [lia|]. destruct (Z.ltb_spec 9 d); [lia|].
  simpl orb. rewrite Z.leb_antisym. by destruct (Z.ltb_spec (Z.of_nat (length output) + 1) size).
Qed.
Lemma digits_decoded size output digits : Forall is_digit digits -> Z.of_nat (length output) < size ->
  until (digit_step size) output digits =
  (if Z.of_nat (length output + length digits) <? size then inl else inr) (take (Z.to_nat (size - 1)) (output ++ map ascii digits)).
Proof.
  intros Hd. revert output. induction Hd as [|d digits Hd Hds IH]; intros output Ho; simpl.
  - rewrite Nat.add_0_r, app_nil_r. destruct (Z.ltb_spec (Z.of_nat (length output)) size); [|lia]. by rewrite take_ge by lia.
  - rewrite digit_step_digit by done. destruct (Z.ltb_spec (Z.of_nat (length output) + 1) size).
    + rewrite IH by (rewrite length_app; simpl; lia). rewrite length_app, <- app_assoc. simpl. by replace (length output + 1 + length digits)%nat with (length output + S (length digits))%nat by lia.
    + destruct (Z.ltb_spec (Z.of_nat (length output + S (length digits))) size); [lia|].
      rewrite take_app_length' by lia. done.
Qed.
Lemma decode_swapped_digits digits size : Forall is_digit digits -> 0 < size ->
  decode_swapped_bcd (swapped digits) size = Some (take (Z.to_nat (size - 1)) (map ascii digits)).
Proof.
  intros Hd Hs. unfold decode_swapped_bcd. rewrite until_nibbles, swapped_nibbles, until_app, digits_decoded by done. simpl.
  assert (forall l : list Z, terminated size (take (Z.to_nat (size - 1)) l) = Some (take (Z.to_nat (size - 1)) l)) as Ht.
  { intros l. unfold terminated. rewrite length_take. destruct (Z.ltb_spec (Z.of_nat (min (Z.to_nat (size - 1)) (length l))) size); [done|lia]. }
  destruct (Z.of_nat (length digits) <? size); [|apply Ht]. by destruct (Nat.even (length digits)); simpl; apply Ht.
Qed.

(** C23. The identity that GSM 11.11 encodes in EF_IMSI is what [decode_imsi] reads from it,
    digit for digit and whatever the parity of their number; an output that is too small
    gets as many digits as fit before the terminator, and never more. *)
Theorem imsi_decoded (digits : list Z) (output_size : Z) :
  digits <> [] -> Forall is_digit digits -> 2 <= output_size ->
  decode_imsi (imsi_file digits) output_size = Some (take (Z.to_nat (output_size - 1)) (map ascii digits)).
Proof.
  intros Hn Hd Hs. destruct digits as [|d digits]; [done|]. apply Forall_cons in Hd as [Hd Hds]. unfold is_digit in Hd.
  unfold decode_imsi, imsi_file. rewrite high_nibble by (destruct (Nat.even _); lia).
  destruct (Z.ltb_spec output_size 2); [lia|]. destruct (Z.ltb_spec 9 d); [lia|]. simpl orb. cbv iota.
  rewrite decode_swapped_digits by (done || lia). replace (Z.to_nat (output_size - 1)) with (S (Z.to_nat (output_size - 1 - 1))) by lia. done.
Qed.
Lemma imsi_decoded_witness :
  decode_imsi [0x08; 0x29; 0x26; 0x20; 0x10; 0x32; 0x54; 0x76; 0x98] 16 =
  Some [0x32; 0x36; 0x32; 0x30; 0x32; 0x30; 0x31; 0x32; 0x33; 0x34; 0x35; 0x36; 0x37; 0x38; 0x39].
Proof. apply (imsi_decoded [2; 6; 2; 0; 2; 0; 1; 2; 3; 4; 5; 6; 7; 8; 9] 16); [done|by repeat constructor|lia]. Defined.

(** ** The check digit *)
Definition is_ascii (c : Z) : Prop := 0x30 <= c <= 0x39.
(** What the digit [d] counts where it is doubled, its digits summed. *)
Definition doubled (d : Z) : Z := if d <? 5 then 2 * d else 2 * d - 9.
(** What the digit counts that [n] digits follow. *)
Definition weighted (n : nat) (c : Z) : Z := if Nat.odd n then doubled (c - 0x30) else c - 0x30.
Fixpoint total (iccid : list Z) : Z := match iccid with [] => 0 | c :: iccid => weighted (length iccid) c + total iccid end.
Lemma luhn_digit_weighted n c : is_ascii c -> luhn_digit n c = weighted n c.
Proof.
  unfold is_ascii, luhn_digit, weighted, doubled. intros Hc. rewrite (u32_small (c - 0x30)) by (unfold is_u32; lia).
  destruct (Nat.odd n); [|done]. rewrite u32_small by (unfold is_u32; lia).
  destruct (Z.ltb_spec 9 ((c - 0x30) * 2)), (Z.ltb_spec (c - 0x30) 5); lia.
Qed.
Lemma weighted_range n c : is_ascii c -> 0 <= weighted n c <= 9.
Proof. unfold is_ascii, weighted, doubled. intros Hc. destruct (Nat.odd n); [|lia]. destruct (Z.ltb_spec (c - 0x30) 5); lia. Qed.
Lemma total_range l : Forall is_ascii l -> 0 <= total l <= 9 * Z.of_nat (length l).
Proof. induction 1 as [|c l Hc Hl IH]; simpl; [lia|]. pose proof (weighted_range (length l) c Hc). lia. Qed.
Lemma luhn_sum_total l : forall sum, Forall is_ascii l -> is_u32 (sum + total l) -> 0 <= sum -> luhn_sum sum l = sum + total l.
Proof.
  induction l as [|c l IH]; intros sum Hl Hs H0; simpl; [lia|]. apply Forall_cons in Hl as [Hc Hl]. simpl in Hs.
  pose proof (weighted_range (length l) c Hc). pose proof (total_range l Hl). unfold is_u32 in Hs.
  rewrite luhn_digit_weighted, u32_small by (done || unfold is_u32; lia). rewrite IH by (done || unfold is_u32; lia). lia.
Qed.
(** A number of a card, of less than 2^28 digits. *)
Definition iccid_ok (l : list Z) : Prop := Forall is_ascii l /\ Z.of_nat (length l) < 2 ^ 28.
Lemma valid_total l : iccid_ok l -> iccid_luhn_valid l = true <-> l <> [] /\ total l mod 10 = 0.
Proof.
  intros [Hl Hn]. unfold iccid_luhn_valid. pose proof (total_range l Hl). rewrite luhn_sum_total by (done || unfold is_u32; lia).
  rewrite andb_true_iff, negb_true_iff, Z.eqb_eq, Z.eqb_neq. destruct l; simpl; intuition (done || lia).
Qed.
(** What two numbers that end alike differ by. *)
Lemma total_prefix pre l l' : length l = length l' -> total (pre ++ l) - total (pre ++ l') = total l - total l'.
Proof. intros Hl. induction pre as [|c pre IH]; simpl; [done|]. rewrite !length_app, Hl. lia. Qed.
Lemma weighted_inj n a b : is_ascii a -> is_ascii b -> (weighted n a - weighted n b) mod 10 = 0 -> a = b.
Proof.
  unfold is_ascii, weighted, doubled. intros Ha Hb H. apply Z.mod_divide in H as [k H]; [|lia]. revert H.
  destruct (Nat.odd n), (Z.ltb_spec (a - 0x30) 5), (Z.ltb_spec (b - 0x30) 5); lia.
Qed.
Lemma weighted_swap n a b : is_ascii a -> is_ascii b ->
  (weighted (S n) a + weighted n b - (weighted (S n) b + weighted n a)) mod 10 = 0 ->
  a = b \/ (a = 0x30 /\ b = 0x39) \/ (a = 0x39 /\ b = 0x30).
Proof.
  unfold is_ascii, weighted, doubled. rewrite Nat.odd_succ, <- Nat.negb_odd. intros Ha Hb H. apply Z.mod_divide in H as [k H]; [|lia]. revert H.
  destruct (Nat.odd n), (Z.ltb_spec (a - 0x30) 5), (Z.ltb_spec (b - 0x30) 5); simpl; lia.
Qed.
Lemma mod_diff a b : a mod 10 = 0 -> b mod 10 = 0 -> (a - b) mod 10 = 0.
Proof. intros Ha Hb. rewrite Zminus_mod, Ha, Hb. done. Qed.

Lemma iccid_ok_replace pre l l' : iccid_ok (pre ++ l) -> length l = length l' -> Forall is_ascii l' -> iccid_ok (pre ++ l').
Proof. intros [H Hn] Hl H'. apply Forall_app in H as [Hp _]. split; [by apply Forall_app|]. by rewrite length_app, <- Hl, <- length_app. Qed.
(** Two valid numbers that start and end alike. *)
Lemma valid_replace pre l l' : iccid_ok (pre ++ l) -> length l = length l' -> Forall is_ascii l' ->
  iccid_luhn_valid (pre ++ l) = true -> iccid_luhn_valid (pre ++ l') = true -> (total l - total l') mod 10 = 0.
Proof.
  intros Hok Hl H' Hv Hv'. apply valid_total in Hv as [_ Hv]; [|done]. apply valid_total in Hv' as [_ Hv']; [|by eapply iccid_ok_replace].
  rewrite <- (total_prefix pre) by done. by apply mod_diff.
Qed.
Lemma valid_single pre a c post : iccid_ok (pre ++ a :: post) -> is_ascii c ->
  iccid_luhn_valid (pre ++ a :: post) = true -> iccid_luhn_valid (pre ++ c :: post) = true -> a = c.
Proof.
  intros Hok Hc Hv Hv'. pose proof Hok as [Hl _]. apply Forall_app in Hl as [_ Hl]. apply Forall_cons in Hl as [Ha Hl].
  apply (weighted_inj (length post)); [done..|]. replace (_ - _) with (total (a :: post) - total (c :: post)) by (simpl; lia).
  eapply (valid_replace pre); [done..|by constructor|done|done].
Qed.
Lemma valid_swap pre a b post : iccid_ok (pre ++ a :: b :: post) ->
  iccid_luhn_valid (pre ++ a :: b :: post) = true -> iccid_luhn_valid (pre ++ b :: a :: post) = true ->
  a = b \/ (a = 0x30 /\ b = 0x39) \/ (a = 0x39 /\ b = 0x30).
Proof.
  intros Hok Hv Hv'. pose proof Hok as [Hl _]. apply Forall_app in Hl as [_ Hl]. apply Forall_cons in Hl as [Ha Hl].
  apply Forall_cons in Hl as [Hb Hl]. apply (weighted_swap (length post)); [done..|].
  replace (_ - _) with (total (a :: b :: post) - total (b :: a :: post)) by (cbn [total length]; lia).
  eapply (valid_replace pre); [done..|by apply Forall_cons_2, Forall_cons_2|done|done].
Qed.
Lemma valid_exists pre : iccid_ok (pre ++ [0x30]) -> exists c, is_ascii c /\ iccid_luhn_valid (pre ++ [c]) = true.
Proof.
  intros Hok. set (t := total (pre ++ [0x30])). exists (0x30 + (- t) mod 10).
  assert (is_ascii (0x30 + (- t) mod 10)) as Hc by (unfold is_ascii; pose proof (Z.mod_pos_bound (- t) 10); lia).
  split; [done|]. apply valid_total; [eapply iccid_ok_replace; [exact Hok|done|by apply Forall_singleton]|]. split; [by destruct pre|].
  pose proof (total_prefix pre [0x30 + (- t) mod 10] [0x30] eq_refl) as E. simpl in E. unfold weighted in E. change (Nat.odd 0) with false in E. cbv iota in E. fold t in E.
  replace (total _) with (t + (- t) mod 10) by lia. rewrite Zplus_mod_idemp_r. by rewrite Z.add_opp_diag_r.
Qed.

(** C22. [iccid_luhn_valid] finds every error that the check digit is for: of a valid number
    it refuses each one that differs in a single digit, and each one in which two
    neighbouring digits have changed places, unless they are 0 and 9; and every number can
    be completed with a check digit that it accepts. *)
Theorem luhn_detects (iccid : list Z) :
  iccid_ok iccid ->
  (iccid_luhn_valid iccid = true ->
     (forall n c, is_ascii c -> iccid_luhn_valid (<[n := c]> iccid) = true -> <[n := c]> iccid = iccid) /\
     (forall n a b, iccid !! n = Some a -> iccid !! S n = Some b ->
        iccid_luhn_valid (<[n := b]> (<[S n := a]> iccid)) = true -> a = b \/ (a = 0x30 /\ b = 0x39) \/ (a = 0x39 /\ b = 0x30))) /\
  (Z.of_nat (length iccid) < 2 ^ 28 - 1 -> exists c, is_ascii c /\ iccid_luhn_valid (iccid ++ [c]) = true).
Proof.
  intros Hok. split; [intros Hv; split|].
  - intros n c Hc Hv'. destruct (iccid !! n) as [a|] eqn:Ha; [|apply lookup_ge_None in Ha; by apply list_insert_ge].
    apply list_elem_of_split_length in Ha as (pre & post & -> & ->). rewrite insert_app_r_alt, Nat.sub_diag in Hv' |- * by lia.
    simpl in *. by rewrite (valid_single pre a c post Hok Hc Hv Hv').
  - intros n a b Ha Hb Hv'. apply list_elem_of_split_length in Ha as (pre & [|b' post] & -> & ->); rewrite lookup_app_r in Hb by lia;
      replace (S (length pre) - length pre)%nat with 1%nat in Hb by lia; simplify_eq/=.
    rewrite (insert_app_r_alt _ _ (S (length pre))), insert_app_r_alt, Nat.sub_diag in Hv' by lia.
    replace (S (length pre) - length pre)%nat with 1%nat in Hv' by lia. simpl in Hv'. by apply (valid_swap pre a b post).
  - intros Hn. apply valid_exists. destruct Hok as [Hl _]. split; [apply Forall_app; by repeat constructor|]. rewrite length_app. simpl. lia.
Qed.
Lemma luhn_detects_witness :
  let iccid := [0x38; 0x39; 0x34; 0x39; 0x30; 0x30; 0x31; 0x37; 0x34] in
  iccid_luhn_valid iccid = true /\ ~ iccid_luhn_valid (<[2%nat := 0x35]> iccid) = true.
Proof.
  intros iccid. assert (iccid_ok iccid) as Hok by (split; [unfold iccid; repeat apply Forall_cons_2; by try apply Forall_nil_2|done]).
  destruct (luhn_detects iccid Hok) as [H _]. assert (iccid_luhn_valid iccid = true) as Hv by reflexivity. destruct (H Hv) as [Hs _].
  split; [done|]. intros Hv'. assert (is_ascii 0x35) as Hc by done. specialize (Hs 2%nat 0x35 Hc Hv'). discriminate Hs.
Defined.

(** ** Proactive commands *)
Definition response_ok (r : apdu_response) : Prop := length (r_data r) = 256%nat /\ bytes_ok (r_data r) /\ 0 <= r_size r <= 256.
(** A tag and a value; [comprehension] is the tag's top bit. *)
Record element := Element { e_tag : Z; e_value : list Z }.
Definition element_bytes (e : element) : list Z := e_tag e :: Z.of_nat (length (e_value e)) :: e_value e.
Definition tagged (tag : Z) (e : element) : bool := (e_tag e .& not8 SAT_COMPREHENSION_REQUIRED) ==? tag.
(** The offset of the first element with the tag. *)
Fixpoint tag_offset (tag : Z) (es : list element) (offset : Z) : option Z :=
  match es with
  | [] => None
  | e :: es => if tagged tag e then Some offset else tag_offset tag es (offset + Z.of_nat (length (element_bytes e)))
  end.

Lemma find_tag_total data size tag fuel : forall offset, length data = 256%nat -> bytes_ok data -> 0 <= offset -> size <= 256 ->
  size < offset + 2 * Z.of_nat fuel -> (0 < fuel)%nat -> is_Some (find_tag_loop fuel data size tag offset).
Proof.
  induction fuel as [|fuel IH]; intros offset Hl Hb H0 Hs Hf Hp; [lia|]. simpl. destruct (Z.leb_spec (offset + 2) size) as [Ho|Ho]; [|by eexists].
  destruct (elem_some data offset) as (current & -> & _); [lia|]. destruct (elem_some data (offset + 1)) as (n & -> & Hn); [lia|].
  cbn [mbind option_bind]. destruct (_ ==? tag); [by eexists|].
  pose proof (proj1 (Forall_forall _ _) Hb n Hn) as Hnb. unfold is_byte in Hnb. rewrite u32_small by (unfold is_u32; lia). apply IH; done || lia.
Qed.
Lemma elem_drop_cons {X} (l : list X) n x rest : drop n l = x :: rest -> elem l (Z.of_nat n) = Some x /\ drop (S n) l = rest.
Proof.
  intros E. unfold elem. destruct (Z.ltb_spec (Z.of_nat n) 0); [lia|]. rewrite Nat2Z.id, <- (Nat.add_0_r n), <- lookup_drop, E. split; [done|].
  rewrite <- Nat.add_1_r, <- drop_drop, (Nat.add_0_r n), E. done.
Qed.
Lemma find_tag_elements data tag rest : bytes_ok data -> forall es fuel n,
  drop n data = (es ≫= element_bytes) ++ rest -> (length data <= 256)%nat -> (n + length (es ≫= element_bytes) < n + 2 * fuel)%nat ->
  find_tag_loop fuel data (Z.of_nat (n + length (es ≫= element_bytes))) tag (Z.of_nat n) = Some (tag_offset tag es (Z.of_nat n)).
Proof.
  intros Hb. induction es as [|e es IH]; intros [|fuel] n E Hl Hf; [simpl in Hf; lia| |lia|]; cbn [find_tag_loop tag_offset].
  - simpl. destruct (Z.leb_spec (Z.of_nat n + 2) (Z.of_nat (n + 0))); [lia|done].
  - rewrite bind_cons, length_app in *. rewrite <- app_assoc in E.
    assert (n + length (element_bytes e) <= length data)%nat as Hn by (apply (f_equal length) in E; rewrite length_drop, length_app in E; simpl in *; lia).
    destruct (Z.leb_spec (Z.of_nat n + 2) (Z.of_nat (n + (length (element_bytes e) + length (es ≫= element_bytes))))); [|simpl in *; lia].
    unfold element_bytes in E at 1. simpl in E. apply elem_drop_cons in E as [-> E]. simpl.
    replace (Z.of_nat n + 1) with (Z.of_nat (S n)) by lia. apply elem_drop_cons in E as [-> E]. simpl. fold (tagged tag e).
    destruct (tagged tag e); [done|]. simpl in Hn, Hf.
    rewrite u32_small by (unfold is_u32; lia).
    replace (Z.of_nat n + 2 + Z.of_nat (length (e_value e))) with (Z.of_nat (n + length (element_bytes e))) by (simpl; lia).
    replace (n + S (S (length (e_value e) + length (es ≫= element_bytes))))%nat with (n + length (element_bytes e) + length (es ≫= element_bytes))%nat by (simpl; lia).
    rewrite IH; [by rewrite <- Nat2Z.inj_add| |done|simpl; lia].
    simpl. replace (n + S (S (length (e_value e))))%nat with (S (S n) + length (e_value e))%nat by lia. by rewrite <- drop_drop, E, drop_app_length.
Qed.

(** [sat_find_tag] ends on every response and reads none of its bytes outside of the
    buffer; and on a proactive command whose two header bytes are followed by elements, it
    finds the first one with the tag, or that there is none, whatever the elements hold and
    whichever of them require comprehension. *)
Theorem elements_found (command : apdu_response) (tag : Z) :
  response_ok command ->
  exists r, sat_find_tag command tag = Some r /\
    forall es rest,
      drop 2 (r_data command) = (es ≫= element_bytes) ++ rest -> r_size command = Z.of_nat (2 + length (es ≫= element_bytes)) ->
      r = tag_offset tag es 2.
Proof.
  intros (Hl & Hb & Hs). destruct (find_tag_total (r_data command) (r_size command) tag 128 2) as [r Hr]; [done|done|lia..|].
  exists r. split; [exact Hr|]. intros es rest E Es.
  pose proof (find_tag_elements (r_data command) tag rest Hb es 128 2 E) as H. rewrite <- Es in H. change (Z.of_nat 2) with 2 in H.
  rewrite H in Hr; [congruence|lia|lia].
Qed.
Lemma elements_found_witness :
  let data := [0xD0; 0x09; 0x82; 0x02; 0x81; 0x82; 0x81; 0x03; 0x01; 0x21; 0x00] in
  let command := Response (data ++ replicate 245 0) 11 0x90 0x00 (Timing 0 0 0 0 0) in
  response_ok command /\ sat_find_tag command SAT_COMMAND_DETAILS_TAG = Some (Some 6).
Proof.
  intros data command. assert (response_ok command) as Hok.
  { split; [done|]. split; [|simpl; lia]. apply Forall_app. split; [by repeat constructor|by apply Forall_replicate]. }
  split; [exact Hok|]. destruct (elements_found command SAT_COMMAND_DETAILS_TAG Hok) as (r & -> & H).
  rewrite (H [Element 0x82 [0x81; 0x82]; Element 0x81 [0x01; 0x21; 0x00]] (replicate 245 0)); reflexivity.
Defined.
(** What follows the tag is read without a look at the response's size. *)
Lemma terminal_response_beyond :
  exists command, response_ok command /\ sat_terminal_response command 0 = None.
Proof.
  exists (Response (replicate 254 0 ++ [0x81; 0x03]) 256 0x90 0x00 (Timing 0 0 0 0 0)). split; [|reflexivity].
  split; [done|]. split; [|simpl; lia]. apply Forall_app. split; [by apply Forall_replicate|by repeat constructor].
Qed.

(** ** Rates *)
(** The tests and the reader make the same rate of the answer to reset. *)
Lemma rates_agree ta1 : is_byte ta1 -> sim_ta1_to_brf ta1 = Some (sim_fidi_to_brf ta1).
Proof.
  intros Hb. assert (forallb (fun t => bool_decide (sim_ta1_to_brf t = Some (sim_fidi_to_brf t))) (seqZ 0 256) = true) as H by (vm_compute; reflexivity).
  apply forallb_forall with (x := ta1) in H; [by apply bool_decide_eq_true_1 in H|]. apply list_elem_of_In, elem_of_seqZ. unfold is_byte in Hb. lia.
Qed.
