(* ===== verification/ApduT0.v ===== *)
(** * The T=0 protocol of the SIM card tests ([sim_exchange] of [unit/sim/test-card.c])

    Every command that [sim_exchange] reports as done is an exchange of the protocol [t0], the
    one of the smart-card reader. *)
From S2P Require Import Prelude Machine Board Regs Clock Stopwatch Wdt Usart Smbus TestLib T0 SimApdu.

Section Exchange.
Context {D : Type} `{!Device D} `{B : Board} (printf : message -> M D sim_card unit) (w0 : world D sim_card) (f : nat).
Context (Hprintf : forall msg, silent (printf msg)).
Implicit Types w : world D sim_card.
#[local] Abbreviation anything := (fun (_ : cause) (_ : world D sim_card) => True).
Lemma apdu_silent_delay ms : silent (D := D) (delay_ms ms).
Proof. unfold delay_ms, stopwatch_elapsed_ms, stopwatch_elapsed, stopwatch_get. silent_tac; apply silent_serve. Qed.
Lemma apdu_silent_wait_ok ms : silent (D := D) (sim_wait_ok printf ms).
Proof.
  unfold sim_wait_ok, stopwatch_elapsed_ms, stopwatch_elapsed, stopwatch_get. silent_tac; first [apply silent_serve|apply Hprintf].
Qed.
Lemma apdu_silent_update g : silent (D := D) (update g).
Proof. unfold update. silent_tac. Qed.
Lemma apdu_silent_clear : silent (D := D) sim_clear_ok.
Proof. unfold sim_clear_ok. silent_tac. Qed.

(** ** Bytes *)
Lemma apdu_wp_send_byte b Q cs sn w : point w0 cs sn w -> (forall w', Q false w') -> (forall w', point w0 cs (sn ++ [u8 b]) w' -> Q true w') ->
  wp anything (sim_send_byte printf b) Q f w.
Proof.
  intros Hw HF HT. unfold sim_send_byte. apply wp_bind. eapply (wp_silent sim_clear_ok); [apply apdu_silent_clear|exact Hw|]. intros _ w1 Hw1 _.
  apply wp_bind, wp_wr. match goal with |- wp _ _ _ _ ?w => pose proof (point_event _ _ _ w _ Hw1 eq_refl) as Hw2 end.
  simpl in Hw2. rewrite app_nil_r, u8_u32 in Hw2. apply wp_bind.
  eapply wp_silent; [apply apdu_silent_wait_ok|exact Hw2|]. intros ok w3 Hw3 _. destruct ok; [|by apply wp_ret]. simpl negb. cbv iota.
  apply wp_bind. eapply (wp_silent (rd32 STM_TIM0)); [by apply silent_rd|exact Hw3|]. intros tick w4 Hw4 _.
  apply wp_bind. eapply wp_silent; [apply apdu_silent_update|exact Hw4|]. intros _ w5 Hw5 _.
  apply wp_bind. eapply wp_silent; [apply apdu_silent_clear|exact Hw5|]. intros _ w6 Hw6 _. by apply wp_ret, HT.
Qed.
Lemma apdu_wp_receive_byte ms Q cs sn w : point w0 cs sn w -> (forall w', Q None w') ->
  (forall b w', is_byte b -> point w0 (cs ++ [b]) sn w' -> Q (Some b) w') -> wp anything (sim_receive_byte printf ms) Q f w.
Proof.
  intros Hw HF HT. unfold sim_receive_byte. apply wp_bind.
  eapply wp_silent; [apply apdu_silent_wait_ok|exact Hw|]. intros ok w1 Hw1 _. destruct ok; [|by apply wp_ret]. simpl negb. cbv iota.
  apply wp_bind. eapply (wp_silent (rd32 STM_TIM0)); [by apply silent_rd|exact Hw1|]. intros tick w2 Hw2 _.
  apply wp_bind. eapply wp_silent; [apply apdu_silent_update|exact Hw2|]. intros _ w3 Hw3 _.
  apply wp_bind, wp_rd. intros v d _. change (port_wrap _ v) with (u32 v).
  match goal with |- wp _ _ _ _ ?w => pose proof (point_event _ _ _ w _ Hw3 eq_refl) as Hw4 end. simpl in Hw4. rewrite app_nil_r in Hw4.
  apply wp_bind. eapply wp_silent; [apply apdu_silent_clear|exact Hw4|]. intros _ w5 Hw5 _. apply wp_ret, HT; [apply u8_range|done].
Qed.
Lemma apdu_wp_receive_procedure Q cs sn w : point w0 cs sn w -> (forall w', Q None w') ->
  (forall k b w', is_byte b -> b <> T0_NULL -> point w0 (cs ++ replicate k T0_NULL ++ [b]) sn w' -> Q (Some b) w') ->
  wp anything (sim_receive_procedure printf) Q f w.
Proof.
  intros Hw HF HT. unfold sim_receive_procedure.
  apply (wp_iter_partial _ _ (fun _ w' => exists k, point w0 (cs ++ replicate k T0_NULL) sn w')); [exists O; by rewrite app_nil_r|done|].
  intros _ w1 (k & Hw1). apply wp_bind. eapply apdu_wp_receive_byte; [exact Hw1|intros w2; by apply wp_ret|].
  intros b w2 Hbb Hw2. rewrite <- app_assoc in Hw2. destruct (Z.eqb_spec b SIM_T0_NULL_BYTE) as [->|Hb]; simpl negb; cbv iota.
  - apply wp_bind. eapply wp_silent; [apply apdu_silent_update|exact Hw2|]. intros _ w3 Hw3 _. apply wp_ret. exists (S k). by rewrite replicate_S_end.
  - apply wp_ret. by eapply HT.
Qed.
Lemma apdu_wp_send_bytes bs Q cs sn w : bytes_ok bs -> point w0 cs sn w -> (forall w', Q false w') ->
  (forall w', point w0 cs (sn ++ bs) w' -> Q true w') -> wp anything (send_bytes printf bs) Q f w.
Proof.
  intros Hbs Hw HF HT. unfold send_bytes. apply wp_bind.
  apply (wp_foldE _ _ (fun l _ w' => point w0 cs (sn ++ l) w')); [by rewrite app_nil_r| |intros [] w1 Hw1; by apply wp_ret, HT].
  intros l b todo [] w1 El Hw1. apply wp_bind. eapply apdu_wp_send_byte; [exact Hw1|intros w2; by apply wp_ret, wp_ret|].
  intros w2 Hw2. apply wp_ret. rewrite app_assoc. rewrite u8_small in Hw2; [exact Hw2|]. subst bs. apply Forall_app in Hbs as [_ Hbs].
  by apply Forall_cons in Hbs as [Hb _].
Qed.

(** ** Transfers *)
Context (tx_data : option (list Z)) (size : Z) (Hsize : match tx_data with Some data => size = Z.of_nat (length data) /\ bytes_ok data | None => 0 <= size <= 256 end).
(** Between two procedure bytes: [p] is left, the card sent [cs], was sent [sn], and [rs] is received. *)
Definition ready (p : pending) (cs sn rs : list Z) (s : Z * apdu_response) w : Prop :=
  point w0 cs sn w /\ 0 <= fst s /\ fst s + Z.of_nat (remaining p) = size /\ length (r_data (snd s)) = 256%nat /\
  match p with
  | Send data => exists all, tx_data = Some all /\ data = drop (Z.to_nat (fst s)) all /\ rs = []
  | Receive _ => tx_data = None /\ take (Z.to_nat (fst s)) (r_data (snd s)) = rs /\ fst s = Z.of_nat (length rs)
  end.
Lemma apdu_wp_exchange_byte p cs sn rs s y w : ready p cs sn rs s w -> (0 < remaining p)%nat ->
  wp anything (exchange_byte printf tx_data s y) (fun r w' =>
    match r with
    | inl s' => exists out inp, moved 1 p out inp /\ ready (after 1 p) (cs ++ inp) (sn ++ out) (rs ++ inp) s' w'
    | inr r => True
    end) f w.
Proof.
  intros (Hp & H0 & Ht & Hl & Hd) Hm. destruct s as [t r]. unfold exchange_byte. simpl in *. destruct p as [data|n]; simpl in *.
  - destruct Hd as (all & -> & -> & ->). destruct Hsize as [Es Hall]. rewrite length_drop in *.
    destruct (lookup_lt_is_Some_2 all (Z.to_nat t)) as [b Hb]; [lia|]. apply wp_bind. eapply wp_defined.
    { unfold elem. destruct (Z.ltb_spec t 0); [lia|]. exact Hb. }
    pose proof (Forall_lookup_1 _ _ _ _ Hall Hb) as Hbb.
    apply wp_bind. eapply apdu_wp_send_byte; [exact Hp|intros w1; by apply wp_ret|]. intros w1 Hw1. simpl negb. cbv iota. apply wp_bind, wp_get_app, wp_ret.
    rewrite u8_small in Hw1 by done. exists [b], []. split; [by erewrite drop_S|]. unfold ready. rewrite !app_nil_r. simpl. rewrite length_drop, length_drop.
    split_and!; try done; try lia. exists all. split; [done|]. split; [|done]. rewrite drop_drop. f_equal. lia.
  - destruct Hd as (-> & Hrs & Et). apply wp_bind. eapply apdu_wp_receive_byte; [exact Hp|intros w1; by apply wp_ret|]. intros b w1 Hb Hw1.
    apply wp_bind. eapply wp_defined.
    { unfold set_data, SIM_MAX_APDU_DATA. destruct (Z.leb_spec 0 t), (Z.ltb_spec t 256); try lia. done. }
    apply wp_bind, wp_get_app, wp_ret. exists [], [b]. split; [done|]. unfold ready. rewrite app_nil_r. simpl.
    rewrite length_insert, length_app. simpl. split_and!; try done; try lia.
    replace (Z.to_nat (t + 1)) with (S (Z.to_nat t)) by lia. erewrite take_S_r by (apply list_lookup_insert_eq; lia).
    rewrite take_insert_ge by lia. by rewrite Hrs.
Qed.
Lemma apdu_wp_transfer m p cs sn rs s w : ready p cs sn rs s w -> (m <= remaining p)%nat ->
  wp anything (foldE (exchange_byte printf tx_data) s (seqZ 0 (Z.of_nat m))) (fun r w' =>
    match r with
    | inl s' => exists out inp, moved m p out inp /\ ready (after m p) (cs ++ inp) (sn ++ out) (rs ++ inp) s' w'
    | inr r => True
    end) f w.
Proof.
  intros Hw Hm. apply (wp_foldE _ _ (fun l s' w' => exists out inp, moved (length l) p out inp /\
    ready (after (length l) p) (cs ++ inp) (sn ++ out) (rs ++ inp) s' w')).
  - exists [], []. rewrite !app_nil_r. destruct p; simpl; [by rewrite drop_0|by rewrite Nat.sub_0_r].
  - intros l y todo s1 w1 El (out & inp & Hmv & Hr). apply seqZ_split in El as [-> Hy].
    eapply wp_mono; [eapply apdu_wp_exchange_byte; [exact Hr|rewrite remaining_after; lia]|].
    intros [s2|r] w2; [|done]. intros (out' & inp' & Hmv' & Hr'). exists (out ++ out'), (inp ++ inp').
    rewrite length_app, Nat.add_1_r, !app_assoc, <- after_next. split; [by eapply moved_next|done].
  - intros s1 w1. by rewrite length_seqZ_nat.
Qed.

(** *** From the first procedure byte to the status *)
Context (ins : Z) (header : list Z) (start : pending).
#[local] Abbreviation continues p cs sn rs :=
  (forall cs' sn' rs', t0 ins p cs' sn' rs' -> t0 ins start (cs ++ cs') (sn ++ sn') (rs ++ rs')).
(** The card just sent the byte [procedure]. *)
Definition underway (s : Z * Z * apdu_response) w : Prop :=
  let '(procedure, transferred, response) := s in
  exists p k cs sn rs, procedure <> T0_NULL /\ is_byte procedure /\
    ready p (cs ++ replicate k T0_NULL ++ [procedure]) (header ++ sn) rs (transferred, response) w /\ continues p cs sn rs.
Definition answer (response : apdu_response) : list Z :=
  take (Z.to_nat (r_size response)) (r_data response) ++ [sw1 response; sw2 response].
Definition finished (response : apdu_response) w : Prop :=
  exists cs sn, point w0 cs (header ++ sn) w /\ t0 ins start cs sn (answer response).
Definition stepped (r : Z * Z * apdu_response + bool * apdu_response) w : Prop :=
  match r with inl s => underway s w | inr (ok, response) => ok = true -> finished response w end.

(** The transfer that a procedure byte asks for leads to the next one. *)
Lemma wp_apdu_procedure m p cs c sn rs s w : (m <= remaining p)%nat -> ready p (cs ++ c) (header ++ sn) rs s w -> continues p cs sn rs ->
  (forall out inp cs' sn' rs', moved m p out inp -> t0 ins (after m p) cs' sn' rs' ->
     t0 ins p (c ++ inp ++ cs') (out ++ sn') (inp ++ rs')) ->
  wp anything (r ← foldE (exchange_byte printf tx_data) s (seqZ 0 (Z.of_nat m));
    match r with
    | inr response => mret (inr (false, response))
    | inl (transferred, response) =>
        procedure ← sim_receive_procedure printf;
        mret (match procedure with None => inr (false, response) | Some procedure => inl (procedure, transferred, response) end)
    end) stepped f w.
Proof.
  intros Hm Hr Hl Hp. apply wp_bind. eapply wp_mono; [by eapply apdu_wp_transfer|]. intros [[t r]|r] w1; [|by intros _; apply wp_ret].
  intros (out & inp & Hmv & Hr1). apply wp_bind. eapply apdu_wp_receive_procedure; [apply Hr1|intros w2; by apply wp_ret|].
  intros k b w2 Hbb Hb Hw2. apply wp_ret. exists (after m p), k, (cs ++ c ++ inp), (sn ++ out), (rs ++ inp). split_and!; [done|done| |].
  - destruct Hr1 as (_ & Hr1). split; [|done]. simpl fst in *. rewrite !app_assoc in Hw2. rewrite !app_assoc. exact Hw2.
  - intros cs' sn' rs' H. rewrite <- !app_assoc. by apply Hl, Hp.
Qed.
Lemma wp_exchange_step s w : underway s w -> wp anything (exchange_step printf ins tx_data size s) stepped f w.
Proof.
  destruct s as [[b t] r]. intros (p & k & cs & sn & rs & Hb & Hbb & Hr & Hl). unfold exchange_step.
  pose proof Hr as (Hw & H0 & Ht & Hlen & Hd). simpl in H0, Ht, Hlen, Hd.
  destruct (Z.eqb_spec b ins) as [->|Hi]; [|destruct (Z.eqb_spec b (not8 ins)) as [->|Hi']]; simpl orb; cbv iota.
  - destruct (Z.eqb_spec t size) as [|Hts]; [by apply wp_ret|]. replace (size - t) with (Z.of_nat (remaining p)) by lia.
    eapply wp_apdu_procedure; [done|exact Hr|exact Hl|]. intros out inp cs' sn' rs' Hmv H.
    rewrite <- app_assoc. apply t0_waits. by apply (t0_all _ _ out inp).
  - destruct (Z.eqb_spec t size) as [|Hts]; [by apply wp_ret|].
    assert (min 1 (remaining p) = 1%nat) as Hmin by lia.
    eapply (wp_apdu_procedure 1 p); [lia|exact Hr|exact Hl|]. intros out inp cs' sn' rs' Hmv H.
    rewrite <- app_assoc. apply t0_waits, (t0_one _ _ out inp); [congruence|by rewrite Hmin|by rewrite Hmin].
  - destruct (sim_is_status_byte b); simpl negb; cbv iota; [|by apply wp_ret]. apply wp_bind, wp_get_app, wp_bind.
    eapply apdu_wp_receive_byte; [exact Hw|intros w2; by apply wp_ret|]. intros sw2 w2 _ Hw2. apply wp_ret. intros _.
    exists (cs ++ replicate k T0_NULL ++ [b; sw2]), (sn ++ []). rewrite app_nil_r.
    split; [by rewrite <- !app_assoc in Hw2|]. unfold answer. simpl.
    rewrite <- (app_nil_r sn). replace (take _ _) with rs; [by apply Hl, t0_waits, t0_status|].
    destruct p; [by destruct Hd as (? & -> & _ & ->)|by destruct Hd as (-> & -> & _)].
Qed.
End Exchange.

(** C15. Every command that [sim_exchange] reports as done follows the T=0 protocol, whatever
    the card sends and however time passes: the five header bytes went out, then exactly the
    command's data bytes that the procedure bytes asked for, and the response's data and its
    two status bytes are exactly what the card sent besides its waiting and procedure bytes. *)
Theorem apdu_follows_t0 {D} `{!Device D} `{B : Board} (printf : message -> M D sim_card unit) (f : nat) (w w' : world D sim_card)
    (cla ins p1 p2 p3 : Z) (tx_data : list Z) (rx_size : Z) (before response : apdu_response) :
  (forall msg, silent (printf msg)) ->
  bytes_ok ([cla; ins; p1; p2; p3] ++ tx_data) -> 0 <= rx_size <= 256 -> length (r_data before) = 256%nat ->
  sim_exchange printf [cla; ins; p1; p2; p3] tx_data rx_size before f w = Done (true, response) w' ->
  exists es sn,
    w_log w' = es ++ w_log w /\ sent es = [cla; ins; p1; p2; p3] ++ sn /\
    t0 ins (if decide (tx_data = []) then Receive (Z.to_nat rx_size) else Send tx_data) (received es) sn (answer response).
Proof.
  intros Hprintf Hb Hrx Hlen Hrun. apply Forall_app in Hb as [Hbh Hbd]. set (header := [cla; ins; p1; p2; p3]) in *.
  set (start := if decide (tx_data = []) then _ else _).
  assert (wp (fun _ _ => True) (sim_exchange printf header tx_data rx_size before)
    (fun r w1 => r.1 = true -> finished w ins header start r.2 w1) f w) as Hwp; cycle 1.
  { unfold wp in Hwp. rewrite Hrun in Hwp. destruct (Hwp eq_refl) as (cs & sn & (es & L & <- & S) & Ht). by exists es, sn. }
  unfold sim_exchange. apply wp_bind. eapply wp_silent; [apply apdu_silent_delay|apply point_start|]. intros _ w1 Hw1 _.
  apply wp_bind. eapply wp_silent; [apply apdu_silent_update|exact Hw1|]. intros _ w2 Hw2 _.
  apply wp_bind. eapply apdu_wp_send_bytes; [exact Hprintf|exact Hbh|exact Hw2|intros w3; by apply wp_ret|]. intros w3 Hw3. simpl negb. cbv iota.
  apply wp_bind, wp_get_app, wp_bind. eapply apdu_wp_receive_procedure; [exact Hprintf|exact Hw3|intros w4; by apply wp_ret|].
  intros k b w4 Hbb Hb Hw4. apply wp_bind, wp_get_app, wp_bind. eapply wp_defined; [reflexivity|].
  assert (exists tx size, (if Z.of_nat (length tx_data) !=? 0 then Some tx_data else None) = tx /\
    (if Z.of_nat (length tx_data) !=? 0 then Z.of_nat (length tx_data) else rx_size) = size /\
    match tx with Some data => size = Z.of_nat (length data) /\ bytes_ok data | None => 0 <= size <= 256 end /\
    forall cs r w1, length (r_data r) = 256%nat -> point w cs header w1 -> ready w tx size start cs header [] (0, r) w1)
    as (tx & size & -> & -> & Hsize & Hready).
  { destruct tx_data as [|c data]; simpl.
    - eexists _, _. split_and!; [done..|]. intros cs r w5 Hr Hw. unfold ready, start. simpl. split_and!; try done; lia.
    - eexists _, _. split_and!; [done..|]. intros cs r w5 Hr Hw. unfold ready, start. simpl. split_and!; try done; try lia. by exists (c :: data). }
  eapply (wp_iter_partial _ _ (underway w tx size ins header start)); [|done|].
  - exists start, k, [], [], []. rewrite app_nil_r. split_and!; try done. by apply Hready.
  - intros s w5 Hs. eapply wp_mono; [by apply wp_exchange_step|]. by intros [s'|[ok r]] w6.
Qed.

(** SELECT of the master file: the card takes one byte, waits, takes the other one. *)
Lemma apdu_follows_t0_witness :
  let B := plain_board PMB8876 in
  let before := Response (replicate 256 0) 0 0 0 (Timing 0 0 0 0 0) in
  let w := World (0, [0x5B; 0x60; 0xA4; 0x9F; 0x17]) ∅ [] (LibState 26000000 0 0 0 0 true) (SimCard 0 0 0 0) in
  exists w' response es sn,
    sim_exchange (Device0 := scripted_card) (fun _ => mret tt) [0xA0; 0xA4; 0x00; 0x00; 0x02] [0x3F; 0x00] 0 before 400%nat w = Done (true, response) w' /\
    w_log w' = es ++ w_log w /\ sent es = [0xA0; 0xA4; 0x00; 0x00; 0x02] ++ sn /\
    t0 0xA4 (Send [0x3F; 0x00]) (received es) sn (answer response).
Proof.
  intros B before w. set (run := sim_exchange (Device0 := scripted_card) (fun _ => mret tt) [0xA0; 0xA4; 0x00; 0x00; 0x02] [0x3F; 0x00] 0 before 400%nat w).
  assert (match run with Done (ok, _) _ => ok | _ => false end = true) as H by (vm_compute; reflexivity).
  destruct run as [[[] response] w'|] eqn:E; try discriminate H. exists w', response.
  destruct (apdu_follows_t0 (Device0 := scripted_card) (fun _ => mret tt) 400%nat w w' 0xA0 0xA4 0 0 2 [0x3F; 0x00] 0 before response) as (es & sn & Hs);
    [intros msg; apply silent_ret|by repeat constructor|lia|done|exact E|]. exists es, sn. split; [done|exact Hs].
Defined.
