(* ===== verification/EepromTest.v ===== *)
(** * The unit test of the EEPROM parser ([unit/eeprom/test.c])

    The program builds images of both layouts, looks blocks up in them and reports each
    comparison.  It needs no hardware but the serial port, so its whole run can be predicted:
    the parser of [Eeprom] passes it. *)
From S2P Require Import Prelude Machine Board Regs Clock Stopwatch Wdt Usart TestLib Eeprom EepromImage.

(** [(uint32_t)] of [enum eeprom_result]. *)
Definition result_code (r : eeprom_result) : Z :=
  match r with
  | EEPROM_RESULT_OK => 0 | EEPROM_RESULT_FLASH_NOT_MAPPED => 1 | EEPROM_RESULT_PARTITION_NOT_FOUND => 2
  | EEPROM_RESULT_BLOCK_NOT_FOUND => 3 | EEPROM_RESULT_INVALID => 4
  end.
(** [struct eeprom_block block;], its bytes zero. *)
Definition new_block : eeprom_block := EepromBlock None 0 0 (replicate 512 0).
Definition EELITE : list Z := EEPROM_PARTITION_NAMES EEPROM_PARTITION_EELITE.
Definition EEFULL : list Z := EEPROM_PARTITION_NAMES EEPROM_PARTITION_EEFULL.
(** The byte [block.data[i]]; a fault when the pointer was not set. *)
Definition block_byte (flash : flash_map) (b : eeprom_block) (i : Z) : option Z :=
  match b_data b with
  | Some (InFlash o) => read_u8 flash (o + i)
  | Some Inline => b_inline b !! Z.to_nat i
  | None => None
  end.
(** A lookup in an image: the result and the block, with the image for its data. *)
Definition lookup (built : option image) (size type id : Z) : option (eeprom_result * eeprom_block * flash_map) :=
  flash ← built;
  '(result, block) ← eeprom_find_block_in_memory (Some flash) size type id (Some new_block);
  block ← block;
  Some (result, block, FlashMap flash size).

(** *** The images *)
Definition FIRST : list Z := [0x11; 0x12; 0x13; 0x14].
Definition SECOND : list Z := [0x21; 0x22; 0x23; 0x24].
Definition x85_eelite_image : option image :=
  flash ← write_partition_header (X85_PARTITION_SIZE - X85_HEADER_SIZE) EELITE X85_HEADER_SIZE reset_flash;
  let entry_offset := X85_PARTITION_SIZE - X85_HEADER_SIZE - X85_ENTRY_SIZE in
  '(entry_offset, flash) ← write_x85_inline_entry entry_offset ENTRY_OBSOLETE 75 1 FIRST false flash;
  '(entry_offset, flash) ← write_x85_inline_entry entry_offset ENTRY_VALID 76 2 FIRST false flash;
  '(_, flash) ← write_x85_inline_entry entry_offset ENTRY_VALID 76 3 SECOND false flash;
  flash ← write_u32 0x3F000 ENTRY_VALID flash;
  write_u16 0x3F004 0x8031 flash.
Definition X85_STORED : list Z := [0x80; 1; 2; 3; 4; 5; 6; 7; 8; 9; 10; 11; 12; 0xFF; 0xFF; 0xFF; 0xFF; 0xFF].
Definition X85_EXPECTED : list Z := [1; 2; 3; 4; 5; 6; 7; 8; 9; 10; 11; 12].
Definition x85_eefull_image : option image :=
  flash ← write_partition_header (X85_PARTITION_SIZE - X85_HEADER_SIZE) EEFULL X85_HEADER_SIZE reset_flash;
  let entry_offset := X85_PARTITION_SIZE - X85_HEADER_SIZE - X85_ENTRY_SIZE in
  '(_, flash) ← write_x85_inline_entry entry_offset ENTRY_VALID 5009 0 X85_STORED true flash;
  Some flash.
Definition EELITE_STORED : list Z := [0x31; 0x32; 0xFF].
Definition EEFULL_STORED : list Z := [0x80; 1; 2; 3; 4; 0xFF; 0xFF; 0xFF; 0xFF; 0xFF].
Definition X65_EXPECTED : list Z := [1; 2; 3; 4].
Definition x65_eelite_image : option image :=
  flash ← write_partition_header 0 EELITE 16 reset_flash;
  let entry_offset := X65_PARTITION_SIZE - X65_ENTRY_SIZE in
  flash ← write_x65_entry entry_offset ENTRY_VALID 1 16 EELITE_STORED flash;
  flash ← write_x65_entry (entry_offset - X65_ENTRY_SIZE) ENTRY_FREE 0 0 [] flash;
  write_x65_entry (entry_offset - X65_ENTRY_SIZE * 2) ENTRY_VALID 2 32 EELITE_STORED flash.
Definition x65_eefull_image : option image :=
  flash ← write_partition_header 0 EEFULL 16 reset_flash;
  write_x65_entry (X65_PARTITION_SIZE - X65_ENTRY_SIZE) ENTRY_VALID 9 16 EEFULL_STORED flash.

Section Code.
Context {D : Type} `{!Device D} `{B : Board} `{TestBuild} (printf : message -> M D tests unit).
#[local] Abbreviation M := (M D tests).

(** A pure step of the program; [None] is an access outside an object. *)
Definition lift {R} (o : option R) : M R := match o with Some r => mret r | None => stop (OutOfBounds 0) end.
(** [test_eq_memory] on a constant array and [block.data]. *)
Definition test_eq_block (name : string) (expected : list Z) (flash : flash_map) (block : eeprom_block) : M bool :=
  let size := Z.of_nat (length expected) in
  offset ← iter (fun offset =>
    if offset <? size then
      a ← lift (block_byte flash block offset);
      mret (if nth (Z.to_nat offset) expected 0 ==? a then inl (offset + 1) else inr offset)
    else mret (inr offset)) 0;
  passed ← report printf name (offset ==? size);
  when (negb passed) (
    printf ("# %soffset:   %u%s" +:+ NL, [PText COLOR_YELLOW; PNum offset; PText COLOR_RESET]);;
    printf ("# %sexpected: %02X%s" +:+ NL, [PText COLOR_YELLOW; PNum (nth (Z.to_nat offset) expected 0); PText COLOR_RESET]);;
    a ← lift (block_byte flash block offset);
    printf ("# %sactual:   %02X%s" +:+ NL, [PText COLOR_RED; PNum a; PText COLOR_RESET]));;
  reset_timeout;;
  mret passed.

Definition test_x85_eelite_inline_and_duplicates : M unit :=
  '(result, block, flash) ← lift (lookup x85_eelite_image X85_PARTITION_SIZE EEPROM_PARTITION_EELITE 76);
  _ ← test_eq_u32 printf "X85 ignores valid-state data collisions after a matching EIT record"
    (result_code EEPROM_RESULT_OK) (result_code result);
  _ ← test_eq_u32 printf "X85 keeps the last valid duplicate" 3 (b_version block);
  _ ← test_eq_u32 printf "X85 inline EELITE size excludes no data" (Z.of_nat (length SECOND)) (b_size block);
  _ ← test_eq_block "X85 reconstructs strided inline EELITE data" SECOND flash block; mret tt.
Definition test_x85_eefull_extended_metadata : M unit :=
  '(result, block, flash) ← lift (lookup x85_eefull_image X85_PARTITION_SIZE EEPROM_PARTITION_EEFULL 5009);
  _ ← test_eq_u32 printf "X85 finds an inline EEFULL block" (result_code EEPROM_RESULT_OK) (result_code result);
  _ ← test_eq_u32 printf "X85 exposes the extended EEFULL version" 0x80 (b_version block);
  _ ← test_eq_u32 printf "X85 excludes all extended EEFULL metadata" (Z.of_nat (length X85_EXPECTED)) (b_size block);
  _ ← test_eq_block "X85 reconstructs extended inline EEFULL data" X85_EXPECTED flash block; mret tt.
Definition test_x65_free_entry_and_extended_metadata : M unit :=
  '(result, _, _) ← lift (lookup x65_eelite_image X65_PARTITION_SIZE EEPROM_PARTITION_EELITE 2);
  _ ← test_eq_u32 printf "X65 stops at the first free EIT entry"
    (result_code EEPROM_RESULT_BLOCK_NOT_FOUND) (result_code result);
  '(result, block, flash) ← lift (lookup x65_eefull_image X65_PARTITION_SIZE EEPROM_PARTITION_EEFULL 5009);
  _ ← test_eq_u32 printf "X65 finds an extended EEFULL block" (result_code EEPROM_RESULT_OK) (result_code result);
  _ ← test_eq_u32 printf "X65 excludes all extended EEFULL metadata" (Z.of_nat (length X65_EXPECTED)) (b_size block);
  _ ← test_eq_block "X65 exposes extended EEFULL payload" X65_EXPECTED flash block; mret tt.
Definition main : M Z :=
  test_start printf "Siemens EEPROM parser test";;
  test_category printf "X85 EELITE";;
  test_x85_eelite_inline_and_duplicates;;
  test_category printf "X85 EEFULL";;
  test_x85_eefull_extended_metadata;;
  test_category printf "X65";;
  test_x65_free_entry_and_extended_metadata;;
  test_finish printf.
End Code.

(** *** What the lookups give *)
(** The result, the version and size, and the first [n] bytes. *)
Definition outcome_of (r : option (eeprom_result * eeprom_block * flash_map)) (n : nat) :
    option (eeprom_result * Z * Z * list (option Z)) :=
  '(result, block, flash) ← r;
  Some (result, b_version block, b_size block, map (fun i => block_byte flash block (Z.of_nat i)) (seq 0 n)).
(** An image that is erased below [lo]; the writers keep it so. *)
Definition erased_below (lo : Z) (flash : image) : Prop := forall x, 0 <= x < lo -> flash x = 0xFF.
Definition keeps_erased (lo : Z) (write : image -> option image) : Prop :=
  forall flash flash', erased_below lo flash -> write flash = Some flash' -> erased_below lo flash'.
Lemma erased_u8 lo a v : lo <= a -> keeps_erased lo (write_u8 a v).
Proof.
  intros Ha flash flash' Hf E. unfold write_u8 in E. destruct (_ && _); [|done]. injection E as <-. intros x Hx.
  destruct (Z.eqb_spec x a); [lia|]. by apply Hf.
Qed.
Lemma erased_bind lo w w' : keeps_erased lo w -> keeps_erased lo w' -> keeps_erased lo (fun flash => flash ← w flash; w' flash).
Proof.
  intros H1 H2 flash flash' Hf E. destruct (w flash) as [g|] eqn:Ew; [|done]. simpl in E. by eapply H2, E; eapply H1.
Qed.
Lemma erased_u16 lo a v : lo <= a -> keeps_erased lo (write_u16 a v).
Proof. intros Ha. apply (erased_bind lo (write_u8 a v)); apply erased_u8; lia. Qed.
Lemma erased_u32 lo a v : lo <= a -> keeps_erased lo (write_u32 a v).
Proof.
  intros Ha. apply (erased_bind lo (write_u8 a v)); [apply erased_u8; lia|].
  apply (erased_bind lo (write_u8 (a + 1) _)); [apply erased_u8; lia|].
  apply (erased_bind lo (write_u8 (a + 2) _)); apply erased_u8; lia.
Qed.
Lemma erased_bytes lo place data : forall i, forallb (fun k => lo <=? place (i + Z.of_nat k)) (seq 0 (length data)) = true ->
  keeps_erased lo (write_bytes place i data).
Proof.
  induction data as [|b data IH]; intros i Hp; [intros flash flash' Hf E; simpl in E; by injection E as <-|].
  rewrite forallb_forall in Hp. apply (erased_bind lo (write_u8 (place i) b)).
  - apply erased_u8. specialize (Hp 0%nat ltac:(by left)). rewrite Z.add_0_r in Hp. lia.
  - apply IH, forallb_forall. intros k Hk. apply in_seq in Hk. specialize (Hp (S k) ltac:(apply in_seq; simpl; lia)).
    by replace (i + 1 + Z.of_nat k) with (i + Z.of_nat (S k)) by lia.
Qed.
Lemma erased_header lo offset name size : lo <= offset -> keeps_erased lo (write_partition_header offset name size).
Proof.
  intros Ha. assert (forall place data, (forall i, 0 <= i -> lo <= place i) -> keeps_erased lo (write_bytes place 0 data)) as Hb.
  { intros place data Hp. apply erased_bytes, forallb_forall. intros k _. apply Z.leb_le, Hp. lia. }
  apply (erased_bind lo (write_bytes _ 0 _)); [apply Hb; lia|].
  do 5 (apply (erased_bind lo (write_u8 _ _)); [apply erased_u8; lia|]). apply Hb. lia.
Qed.
Lemma erased_inline lo eo state id version data full flash next flash' : lo <= eo ->
  forallb (fun k => lo <=? x85_data_byte_offset (x85_stored_offset eo (Z.of_nat (length data))) (0 + Z.of_nat k)) (seq 0 (length data)) = true ->
  erased_below lo flash -> write_x85_inline_entry eo state id version data full flash = Some (next, flash') ->
  next = u32 ((x85_stored_offset eo (Z.of_nat (length data)) .& not32 (X85_DATA_CHUNK_SIZE * 2 - 1)) - X85_ENTRY_SIZE) /\ erased_below lo flash'.
Proof.
  intros Ha Hd Hf E. unfold write_x85_inline_entry in E. cbv zeta in E.
  destruct (write_x85_fields _ _ _ _ _ _ flash) as [g|] eqn:Eg; [|done]. simpl in E.
  destruct (write_bytes _ 0 data g) as [h|] eqn:Eh; [|done]. simpl in E. injection E as <- <-. split; [done|].
  eapply (erased_bytes lo _ data 0); [exact Hd| |exact Eh].
  assert (keeps_erased lo (write_x85_fields eo state id version (Z.of_nat (length data)) full)) as Hk; [|by eapply Hk].
  apply (erased_bind lo (write_u32 eo state)); [by apply erased_u32|]. destruct full.
  - apply (erased_bind lo (write_u32 _ _)); apply erased_u32; lia.
  - apply (erased_bind lo (write_u16 _ _)); [apply erased_u16; lia|].
    apply (erased_bind lo (write_u8 _ _)); [apply erased_u8; lia|apply erased_u16; lia].
Qed.

(** The entries of an erased range are free, and an NSG table goes on past them. *)
Lemma for_early_app {X R} (body : X -> Z -> option (X + R)) l1 l2 x :
  for_early body x (l1 ++ l2) = r ← for_early body x l1; match r with inl x' => for_early body x' l2 | inr r => Some (inr r) end.
Proof.
  revert x. induction l1 as [|i l1 IH]; intros x; [done|]. simpl. destruct (body x i) as [[x'|r]|]; simpl; [apply IH|done|done].
Qed.
Lemma for_early_skip {X R} (body : X -> Z -> option (X + R)) l x : (forall i, i ∈ l -> body x i = Some (inl x)) ->
  for_early body x l = Some (inl x).
Proof. induction l as [|i l IH]; intros Hb; [done|]. simpl. rewrite Hb by by left. simpl. apply IH. intros j Hj. apply Hb. by right. Qed.
#[local] Abbreviation nsg := (Partition 0 EEPROM_NSG_PARTITION_SIZE EEPROM_LAYOUT_NSG).
Lemma erased_entry flash type id st n : erased_below 0x3F000 flash -> 128 <= n < 8192 ->
  block_step (FlashMap flash X85_PARTITION_SIZE) nsg type id EEPROM_NSG_EIT_ENTRY_SIZE st n = Some (inl st).
Proof.
  intros Hf Hn. destruct st as [m b]. unfold block_step. cbn [p_layout p_size p_data]. cbv zeta.
  change EEPROM_NSG_PARTITION_SIZE with 262144. change EEPROM_NSG_EIT_ENTRY_SIZE with 32.
  rewrite (u32_small (32 * n)), (u32_small (262144 - 32 * n)), (u32_small (262144 - 32 * n - 32)) by (unfold is_u32; lia).
  assert (forall k, 0 <= k < 4 -> read_u8 (FlashMap flash X85_PARTITION_SIZE) (0 + (262144 - 32 * n - 32) + k) = Some 0xFF) as Hr.
  { intros k Hk. unfold read_u8. cbn [fm_size fm_byte]. unfold X85_PARTITION_SIZE.
    destruct (Z.leb_spec 0 (0 + (262144 - 32 * n - 32) + k)), (Z.ltb_spec (0 + (262144 - 32 * n - 32) + k) 0x40000); try lia.
    simpl. by rewrite Hf by lia. }
  assert (read_u32 (FlashMap flash X85_PARTITION_SIZE) (0 + (262144 - 32 * n - 32)) = Some 0xFFFFFFFF) as ->; [|by destruct m].
  unfold read_u32. rewrite <- (Z.add_0_r (0 + (262144 - 32 * n - 32))) at 1. by rewrite !Hr by lia.
Qed.
#[local] Instance eeprom_layout_eq_dec : EqDecision eeprom_layout.
Proof. solve_decision. Defined.
#[local] Instance eeprom_partition_eq_dec : EqDecision eeprom_partition.
Proof. solve_decision. Defined.
(** A lookup in an image of one NSG partition, erased from the entry 128 on. *)
Definition nsg_image (type : Z) (flash : image) : bool :=
  bool_decide (map (fun i => partition_at (FlashMap flash X85_PARTITION_SIZE) type (u32 (i * EEPROM_PARTITION_BLOCK_SIZE)))
    [0; 1; 2; 3] = [Some None; Some None; Some None; Some (Some nsg)]).
Lemma nsg_lookup_result flash type id b' : type = EEPROM_PARTITION_EELITE \/ type = EEPROM_PARTITION_EEFULL ->
  nsg_image type flash = true -> erased_below 0x3F000 flash ->
  for_early (block_step (FlashMap flash X85_PARTITION_SIZE) nsg type id EEPROM_NSG_EIT_ENTRY_SIZE) (false, new_block) (seqZ 1 127) =
    Some (inl (true, b')) ->
  eeprom_find_block_in_memory (Some flash) X85_PARTITION_SIZE type id (Some new_block) = Some (EEPROM_RESULT_OK, Some b').
Proof.
  intros Ht Hi Hf Hb. apply bool_decide_eq_true in Hi. cbn [map] in Hi. injection Hi as E0 E1 E2 E3.
  assert (find_partition_block (FlashMap flash X85_PARTITION_SIZE) nsg type id new_block = Some (EEPROM_RESULT_OK, (true, b'))) as Hp.
  { unfold find_partition_block. cbn [p_layout p_size]. cbv zeta.
    change (u32 (EEPROM_NSG_PARTITION_SIZE / EEPROM_NSG_EIT_ENTRY_SIZE - 1)) with (127 + 8064).
    assert (for_early (block_step (FlashMap flash X85_PARTITION_SIZE) nsg type id EEPROM_NSG_EIT_ENTRY_SIZE) (true, b') (seqZ (1 + 127) 8064) =
      Some (inl (true, b'))) as Hskip.
    { apply for_early_skip. intros n Hn. apply elem_of_seqZ in Hn. apply erased_entry; [done|lia]. }
    rewrite (seqZ_app 1 127 8064) by lia. rewrite for_early_app, Hb. cbv [mbind option_bind]. by rewrite Hskip. }
  unfold eeprom_find_block_in_memory, find_flash_block. replace (EEPROM_PARTITION_COUNT <=? u32 type) with false by by destruct Ht as [-> | ->].
  change (seqZ 0 (fm_size (FlashMap flash X85_PARTITION_SIZE) / EEPROM_PARTITION_BLOCK_SIZE)) with [0; 1; 2; 3].
  unfold flash_step. cbn [for_early]. cbv [mbind option_bind]. rewrite E0, E1, E2, E3, Hp. done.
Qed.

(** What a lookup gave: the result, the version, the size and the first bytes are as expected. *)
Definition gives (r : option (eeprom_result * eeprom_block * flash_map)) (result : eeprom_result) (version : Z) (data : list Z) : Prop :=
  exists block flash, r = Some (result, block, flash) /\ b_version block = version /\ b_size block = Z.of_nat (length data) /\
    forall i, (i < length data)%nat -> block_byte flash block (Z.of_nat i) = data !! i.
Lemma gives_outcome r result version data :
  outcome_of r (length data) = Some (result, version, Z.of_nat (length data), map Some data) -> gives r result version data.
Proof.
  intros E. unfold outcome_of in E. destruct r as [[[result' block] flash]|]; [|done]. simpl in E. injection E as -> E1 E2 E3.
  exists block, flash. split_and!; [done..|]. intros i Hi.
  assert (map (fun i => block_byte flash block (Z.of_nat i)) (seq 0 (length data)) !! i = map Some data !! i) as H by by rewrite E3.
  rewrite !list_lookup_fmap, lookup_seq_lt in H by done. destruct (lookup_lt_is_Some_2 data i Hi) as [v Ev]. rewrite Ev in *.
  simpl in H. by injection H.
Qed.

Definition inline_block (version : Z) (data : list Z) : eeprom_block :=
  EepromBlock (Some Inline) (Z.of_nat (length data)) version (data ++ replicate (512 - length data) 0).
(** The part of an NSG lookup that is computed: the header, and the entries that are not erased. *)
Definition nsg_finds (flash : image) (type id : Z) (b : eeprom_block) : Prop :=
  nsg_image type flash = true /\
  for_early (block_step (FlashMap flash X85_PARTITION_SIZE) nsg type id EEPROM_NSG_EIT_ENTRY_SIZE) (false, new_block) (seqZ 1 127) =
    Some (inl (true, b)).
Lemma nsg_gives built type id version data : type = EEPROM_PARTITION_EELITE \/ type = EEPROM_PARTITION_EEFULL ->
  match built with Some flash => erased_below 0x3F000 flash /\ nsg_finds flash type id (inline_block version data) | None => False end ->
  (length data <= 512)%nat -> gives (lookup built X85_PARTITION_SIZE type id) EEPROM_RESULT_OK version data.
Proof.
  intros Ht Hb Hl. destruct built as [flash|]; [|done]. destruct Hb as (He & Hi & Hf). unfold lookup. cbn [mbind option_bind].
  exists (inline_block version data), (FlashMap flash X85_PARTITION_SIZE).
  pose proof (nsg_lookup_result flash type id (inline_block version data) Ht Hi He Hf) as E. unfold image in E.
  split_and!; [by rewrite E|done..|]. intros i Hi'. cbn [block_byte inline_block b_data b_inline]. rewrite Nat2Z.id. by rewrite lookup_app_l.
Qed.
Lemma reset_erased lo : erased_below lo reset_flash.
Proof. by intros x _. Qed.
#[local] Abbreviation first_entry := (X85_PARTITION_SIZE - X85_HEADER_SIZE - X85_ENTRY_SIZE).
Lemma x85_eelite_erased flash : x85_eelite_image = Some flash -> erased_below 0x3F000 flash.
Proof.
  unfold x85_eelite_image. intros E. apply bind_Some in E as (f1 & E1 & E). cbv zeta in E.
  apply (erased_header 0x3F000) in E1; [|by vm_compute|apply reset_erased].
  apply bind_Some in E as ([o2 f2] & E2 & E). apply (erased_inline 0x3F000) in E2 as [-> E2]; [|by vm_compute..|done].
  apply bind_Some in E as ([o3 f3] & E3 & E). apply (erased_inline 0x3F000) in E3 as [-> E3]; [|by vm_compute..|done].
  apply bind_Some in E as ([o4 f4] & E4 & E). apply (erased_inline 0x3F000) in E4 as [-> E4]; [|by vm_compute..|done].
  apply bind_Some in E as (f5 & E5 & E). apply (erased_u32 0x3F000) in E5; [|lia|done].
  apply (erased_u16 0x3F000) in E; [done|lia|done].
Qed.
Lemma x85_eefull_erased flash : x85_eefull_image = Some flash -> erased_below 0x3F000 flash.
Proof.
  unfold x85_eefull_image. intros E. apply bind_Some in E as (f1 & E1 & E). cbv zeta in E.
  apply (erased_header 0x3F000) in E1; [|by vm_compute|apply reset_erased].
  apply bind_Some in E as ([o2 f2] & E2 & E). apply (erased_inline 0x3F000) in E2 as [-> E2]; [|by vm_compute..|done].
  by injection E as <-.
Qed.
Lemma x85_eelite_found : gives (lookup x85_eelite_image X85_PARTITION_SIZE EEPROM_PARTITION_EELITE 76) EEPROM_RESULT_OK 3 SECOND.
Proof.
  apply nsg_gives; [by left| |simpl; lia].
  assert (match x85_eelite_image with Some flash => nsg_finds flash EEPROM_PARTITION_EELITE 76 (inline_block 3 SECOND) | None => False end)
    as H by (vm_compute; by split).
  destruct x85_eelite_image as [flash|] eqn:E; [|done]. split; [by apply x85_eelite_erased|done].
Qed.
Lemma x85_eefull_found : gives (lookup x85_eefull_image X85_PARTITION_SIZE EEPROM_PARTITION_EEFULL 5009) EEPROM_RESULT_OK 0x80 X85_EXPECTED.
Proof.
  apply nsg_gives; [by right| |simpl; lia].
  assert (match x85_eefull_image with Some flash => nsg_finds flash EEPROM_PARTITION_EEFULL 5009 (inline_block 0x80 X85_EXPECTED) | None => False end)
    as H by (vm_compute; by split).
  destruct x85_eefull_image as [flash|] eqn:E; [|done]. split; [by apply x85_eefull_erased|done].
Qed.
Lemma x65_eelite_missing : gives (lookup x65_eelite_image X65_PARTITION_SIZE EEPROM_PARTITION_EELITE 2) EEPROM_RESULT_BLOCK_NOT_FOUND 0 [].
Proof. apply gives_outcome. by vm_compute. Qed.
Lemma x65_eefull_found : gives (lookup x65_eefull_image X65_PARTITION_SIZE EEPROM_PARTITION_EEFULL 5009) EEPROM_RESULT_OK 0x80 X65_EXPECTED.
Proof. apply gives_outcome. by vm_compute. Qed.

(** *** The run *)
Section Run.
Context {D : Type} `{!Device D} `{B : Board} `{!UsartLine USART0 D} `{TestBuild} (printf : message -> M D tests unit)
  `{!Printing D printf} (f : nat).
Implicit Types w : world D tests.
(** [ps] reported, [a] assertions, none failed. *)
#[local] Abbreviation passing ps a := (tapping printf ps a 0).

Lemma wp_lift {R} (o : option R) r Q w : o = Some r -> Q r w -> wp total (lift (D := D) o) Q f w.
Proof. by intros ->. Qed.
Lemma wp_equal Q w ps a name v : passing ps a w -> 0 <= a < 1000 -> (printf_fuel + 64 + String.length name < f)%nat ->
  (forall r w', passing (ps ++ [TapPoint (a + 1) true name]) (a + 1) w' -> Q r w') -> wp total (test_eq_u32 printf name v v) Q f w.
Proof.
  intros Hw Ha Hf HQ. eapply (wp_test_eq_u32 printf); [exact Hw|lia..|done|]. intros r w' Hw'. rewrite Z.eqb_refl in Hw'. by eapply HQ.
Qed.
Lemma wp_category Q w ps a name : passing ps a w -> 0 <= a < 1000 -> (printf_fuel + 128 + String.length name < f)%nat ->
  (forall w', passing ps a w' -> Q tt w') -> wp total (test_category printf name) Q f w.
Proof.
  intros Hw Ha Hf HQ. eapply (wp_assertion printf Q f w ps a 0 (Category name)); [exact Hw|lia..|simpl; lia|].
  intros w' Hw'. apply HQ. simpl in Hw'. by rewrite app_nil_r in Hw'.
Qed.
(** [block.data] holds what it should. *)
Lemma wp_equal_block Q w ps a name data flash block : passing ps a w -> 0 <= a < 1000 ->
  (printf_fuel + 64 + String.length name < f)%nat -> (length data < f)%nat ->
  (forall i, (i < length data)%nat -> block_byte flash block (Z.of_nat i) = data !! i) ->
  (forall r w', passing (ps ++ [TapPoint (a + 1) true name]) (a + 1) w' -> Q r w') ->
  wp total (test_eq_block printf name data flash block) Q f w.
Proof.
  intros Hw Ha Hf Hlen Hd HQ. unfold test_eq_block. cbv zeta. apply wp_bind.
  eapply (wp_iter _ _ (fun o w' => 0 <= o <= Z.of_nat (length data) /\ w' = w) (fun o _ => Z.to_nat (Z.of_nat (length data) - o)));
    [by split; [lia|]|lia|].
  intros o w1 [Ho ->]. destruct (Z.ltb_spec o (Z.of_nat (length data))).
  - destruct (lookup_lt_is_Some_2 data (Z.to_nat o) ltac:(lia)) as [v Ev]. apply wp_bind.
    eapply wp_lift; [rewrite <- (Z2Nat.id o) by lia; rewrite Hd by lia; exact Ev|].
    erewrite nth_lookup_Some by exact Ev. rewrite Z.eqb_refl. apply wp_ret. split; [by split; [lia|]|lia].
  - assert (o = Z.of_nat (length data)) as -> by lia. apply wp_ret. rewrite Z.eqb_refl.
    apply wp_bind. eapply (wp_report printf); [exact Hw|lia..|done|]. intros w2 Hw2. cbv iota in Hw2. apply wp_bind, wp_ret, wp_bind.
    eapply (wp_tap_timeout printf); [exact Hw2|]. intros w3 Hw3. by eapply wp_ret, HQ.
Qed.
Definition eelite_points (a : Z) : list tap :=
  [TapPoint (a + 1) true "X85 ignores valid-state data collisions after a matching EIT record";
   TapPoint (a + 2) true "X85 keeps the last valid duplicate"; TapPoint (a + 3) true "X85 inline EELITE size excludes no data";
   TapPoint (a + 4) true "X85 reconstructs strided inline EELITE data"].
Definition eefull_points (a : Z) : list tap :=
  [TapPoint (a + 1) true "X85 finds an inline EEFULL block"; TapPoint (a + 2) true "X85 exposes the extended EEFULL version";
   TapPoint (a + 3) true "X85 excludes all extended EEFULL metadata";
   TapPoint (a + 4) true "X85 reconstructs extended inline EEFULL data"].
Definition x65_points (a : Z) : list tap :=
  [TapPoint (a + 1) true "X65 stops at the first free EIT entry"; TapPoint (a + 2) true "X65 finds an extended EEFULL block";
   TapPoint (a + 3) true "X65 excludes all extended EEFULL metadata"; TapPoint (a + 4) true "X65 exposes extended EEFULL payload"].
Lemma passing_points ps a ps' a' w : passing ps a w -> ps = ps' -> a = a' -> passing ps' a' w.
Proof. by intros Hw <- <-. Qed.
Lemma wp_eelite_test Q w ps a : passing ps a w -> 0 <= a < 100 -> (printf_fuel + 256 < f)%nat ->
  (forall w', passing (ps ++ eelite_points a) (a + 4) w' -> Q tt w') -> wp total (test_x85_eelite_inline_and_duplicates printf) Q f w.
Proof.
  intros Hw Ha Hf HQ. destruct x85_eelite_found as (block & flash & E & Ev & Es & Hd).
  unfold test_x85_eelite_inline_and_duplicates. apply wp_bind. eapply wp_lift; [exact E|]. cbv beta iota. rewrite Ev, Es.
  apply wp_bind. eapply wp_equal; [exact Hw|lia|simpl; lia|]. intros _ w1 H1.
  apply wp_bind. eapply wp_equal; [exact H1|lia|simpl; lia|]. intros _ w2 H2.
  apply wp_bind. eapply wp_equal; [exact H2|lia|simpl; lia|]. intros _ w3 H3.
  apply wp_bind. eapply wp_equal_block; [exact H3|lia|simpl; lia|simpl; lia|exact Hd|]. intros _ w4 H4.
  apply wp_ret, HQ. eapply passing_points; [exact H4| |lia]. by rewrite <- !app_assoc, <- !Z.add_assoc.
Qed.
Lemma wp_eefull_test Q w ps a : passing ps a w -> 0 <= a < 100 -> (printf_fuel + 256 < f)%nat ->
  (forall w', passing (ps ++ eefull_points a) (a + 4) w' -> Q tt w') -> wp total (test_x85_eefull_extended_metadata printf) Q f w.
Proof.
  intros Hw Ha Hf HQ. destruct x85_eefull_found as (block & flash & E & Ev & Es & Hd).
  unfold test_x85_eefull_extended_metadata. apply wp_bind. eapply wp_lift; [exact E|]. cbv beta iota. rewrite Ev, Es.
  apply wp_bind. eapply wp_equal; [exact Hw|lia|simpl; lia|]. intros _ w1 H1.
  apply wp_bind. eapply wp_equal; [exact H1|lia|simpl; lia|]. intros _ w2 H2.
  apply wp_bind. eapply wp_equal; [exact H2|lia|simpl; lia|]. intros _ w3 H3.
  apply wp_bind. eapply wp_equal_block; [exact H3|lia|simpl; lia|simpl; lia|exact Hd|]. intros _ w4 H4.
  apply wp_ret, HQ. eapply passing_points; [exact H4| |lia]. by rewrite <- !app_assoc, <- !Z.add_assoc.
Qed.
Lemma wp_x65_test Q w ps a : passing ps a w -> 0 <= a < 100 -> (printf_fuel + 256 < f)%nat ->
  (forall w', passing (ps ++ x65_points a) (a + 4) w' -> Q tt w') -> wp total (test_x65_free_entry_and_extended_metadata printf) Q f w.
Proof.
  intros Hw Ha Hf HQ. destruct x65_eelite_missing as (block0 & flash0 & E0 & _).
  destruct x65_eefull_found as (block & flash & E & _ & Es & Hd).
  unfold test_x65_free_entry_and_extended_metadata. apply wp_bind. eapply wp_lift; [exact E0|]. cbv beta iota.
  apply wp_bind. eapply wp_equal; [exact Hw|lia|simpl; lia|]. intros _ w1 H1.
  apply wp_bind. eapply wp_lift; [exact E|]. cbv beta iota. rewrite Es.
  apply wp_bind. eapply wp_equal; [exact H1|lia|simpl; lia|]. intros _ w2 H2.
  apply wp_bind. eapply wp_equal; [exact H2|lia|simpl; lia|]. intros _ w3 H3.
  apply wp_bind. eapply wp_equal_block; [exact H3|lia|simpl; lia|simpl; lia|exact Hd|]. intros _ w4 H4.
  apply wp_ret, HQ. eapply passing_points; [exact H4| |lia]. by rewrite <- !app_assoc, <- !Z.add_assoc.
Qed.
End Run.

(** C32. The parser passes its unit test: on any board whose serial port works, the program ends
    with 0, and the host has read its twelve points, all of them passed, the plan and the
    verdict. *)
Theorem eeprom_test_passes {D} `{!Device D} `{B : Board} `{Hu : !UsartLine USART0 D} `{TestBuild} (printf : message -> M D tests unit)
    `{!Printing D printf} (tx : list Z) (f : nat) (w : world D tests) :
  line USART0 [] tx (w_dev w) -> cgu_reads clocks (w_dev w) ->
  (line_patience (u := USART0) (D := D) + 4 < f)%nat -> (printf_fuel + 256 < f)%nat ->
  exists w' tx', main printf f w = Done 0 w' /\ line USART0 [] tx' (w_dev w') /\
    taps (host_reads tx') = taps (host_reads tx) ++ [TapVersion] ++ eelite_points 0 ++ eefull_points 4 ++ x65_points 8 ++
      [TapPlan 12; TapResult true 0].
Proof.
  intros Hl Hc Hp Hf.
  assert (wp total (main printf) (fun r w' => r = 0 /\ exists tx', line USART0 [] tx' (w_dev w') /\
    taps (host_reads tx') = taps (host_reads tx) ++ [TapVersion] ++ eelite_points 0 ++ eefull_points 4 ++ x65_points 8 ++
      [TapPlan 12; TapResult true 0]) f w) as Hwp.
  { unfold main. apply wp_bind. eapply (wp_test_start printf); [done..|simpl; lia|]. intros w1 H1.
    apply wp_bind. eapply (wp_category printf); [exact H1|lia|simpl; lia|]. intros w2 H2.
    apply wp_bind. eapply (wp_eelite_test printf); [exact H2|lia|done|]. intros w3 H3.
    apply wp_bind. eapply (wp_category printf); [exact H3|lia|simpl; lia|]. intros w4 H4.
    apply wp_bind. eapply (wp_eefull_test printf); [exact H4|lia|done|]. intros w5 H5.
    apply wp_bind. eapply (wp_category printf); [exact H5|lia|simpl; lia|]. intros w6 H6.
    apply wp_bind. eapply (wp_x65_test printf); [exact H6|lia|done|]. intros w7 H7.
    eapply (wp_test_finish printf); [exact H7|lia|exact Hp|]. intros w8 tx8 Hl8 Ht8. split; [done|]. exists tx8.
    split; [done|]. by rewrite Ht8, <- !app_assoc. }
  unfold wp in Hwp. destruct (main printf f w) as [r w'|c w']; [|done].
  destruct Hwp as (-> & tx' & H1 & H2). by exists w', tx'.
Qed.
Lemma eeprom_test_passes_witness :
  let B := plain_board PMB8876 in let T := {| test_color := true |} in
  exists w' tx', main (Device0 := script_device USART0 boot_regs) code_printf 400%nat
      (World (Script [] []) ∅ [] lib_zero (Tests 0 0 0)) = Done 0 w' /\ s_tx (w_dev w') = tx' /\
    taps (code_reads tx') = [TapVersion] ++ eelite_points 0 ++ eefull_points 4 ++ x65_points 8 ++ [TapPlan 12; TapResult true 0].
Proof.
  intros B T.
  destruct (eeprom_test_passes (Device0 := script_device USART0 boot_regs) (Hu := script_line USART0 boot_regs)
    (Printing0 := code_printing B) code_printf [] 400%nat (World (Script [] []) ∅ [] lib_zero (Tests 0 0 0)))
    as (w' & tx' & H1 & [_ H2] & H3).
  - split; [|done]. exists []. by split.
  - apply boot_reads.
  - simpl. lia.
  - simpl. lia.
  - exists w', tx'. split; [exact H1|]. split; [exact H2|]. exact H3.
Defined.
