(* ===== verification/Cfi.v ===== *)
(** * The flash driver of the CFI tests ([unit/cfi-intel/cfi.c], [cfi.h])

    Intel and ST flashes describe themselves through the Common Flash Interface and take
    commands written to their addresses.  The driver probes the chip selects, reads the
    geometry, looks for an erased block to work on, and wraps each command so that the
    flash is back in its read-array mode afterwards. *)
From S2P Require Import Prelude Machine Board Regs Clock Stopwatch Wdt Usart TestLib.

Definition FLASH_WINDOW_BASE : Z := 0xA0000000.
Definition FLASH_WINDOW_END : Z := 0xA8000000.
Definition CFI_MAX_ERASE_REGIONS : Z := 4.
Definition MAP_SAMPLE_WORDS : Z := 4.
Definition FLASH_CHIP_SELECT_COUNT : Z := 3.
Definition STATUS_READY : Z := BIT 7.
Definition STATUS_ERASE_SUSPEND : Z := BIT 6.
Definition STATUS_PROGRAM_SUSPEND : Z := BIT 2.
Definition STATUS_ERRORS : Z := BIT 1 .| BIT 3 .| BIT 4 .| BIT 5 .| BIT 8 .| BIT 9.
Definition FLASH_BUSCON : Z :=
  EBU_BUSCON_AALIGN .| (1 .<< EBU_BUSCON_CTYPE_SHIFT) .| (1 .<< EBU_BUSCON_CMULT_SHIFT) .| EBU_BUSCON_DLOAD .|
  (1 .<< EBU_BUSCON_BCGEN_SHIFT) .| (1 .<< EBU_BUSCON_PORTW_SHIFT).
Definition CFI_QUERY_ADDRESS : Z := 0x55.
Definition EBU_CS_COUNT : Z := 7.
Definition RAM_CS : Z := 1.
Definition cfi_chip_selects : list Z := [0; 2; 3].
(** [sizeof(flash->map_samples[0])] *)
Definition MAP_SAMPLE_SIZE : Z := MAP_SAMPLE_WORDS * 2.

Record erase_region := EraseRegion { er_blocks : Z; er_block_size : Z }.
(** [struct flash_device]; the driver changes it through a pointer, here it is passed on.
    The fields the driver does not use ([blank_base], [blank_size], [mapped], [split],
    [high_cs]) are left out. *)
Record flash_device := FlashDevice {
  fd_cs : Z; fd_base : Z; fd_manufacturer : Z; fd_device : Z; fd_primary_address : Z;
  fd_size_exponent : Z; fd_size : Z; fd_regions : Z; fd_write_buffer_size : Z; fd_features : Z;
  fd_efa_blocks : Z; fd_efa_block_size : Z; fd_test_block : Z; fd_test_block_size : Z;
  fd_window_size : Z; fd_erase : list erase_region; fd_map_samples : list (list Z);
}.
(** [{0}] *)
Definition flash_device_zero : flash_device :=
  FlashDevice 0 0 0 0 0 0 0 0 0 0 0 0 0 0 0 (replicate 4 (EraseRegion 0 0)) (replicate 3 (replicate 4 0)).
Definition set_place (cs base : Z) (d : flash_device) : flash_device :=
  FlashDevice cs base (fd_manufacturer d) (fd_device d) (fd_primary_address d) (fd_size_exponent d) (fd_size d)
    (fd_regions d) (fd_write_buffer_size d) (fd_features d) (fd_efa_blocks d) (fd_efa_block_size d)
    (fd_test_block d) (fd_test_block_size d) (fd_window_size d) (fd_erase d) (fd_map_samples d).
Definition set_ids (manufacturer device : Z) (d : flash_device) : flash_device :=
  FlashDevice (fd_cs d) (fd_base d) manufacturer device (fd_primary_address d) (fd_size_exponent d) (fd_size d)
    (fd_regions d) (fd_write_buffer_size d) (fd_features d) (fd_efa_blocks d) (fd_efa_block_size d)
    (fd_test_block d) (fd_test_block_size d) (fd_window_size d) (fd_erase d) (fd_map_samples d).
Definition set_geometry (primary_address size_exponent size regions write_buffer_size : Z) (erase : list erase_region)
    (d : flash_device) : flash_device :=
  FlashDevice (fd_cs d) (fd_base d) (fd_manufacturer d) (fd_device d) primary_address size_exponent size
    regions write_buffer_size (fd_features d) (fd_efa_blocks d) (fd_efa_block_size d)
    (fd_test_block d) (fd_test_block_size d) (fd_window_size d) erase (fd_map_samples d).
Definition set_features (features : Z) (d : flash_device) : flash_device :=
  FlashDevice (fd_cs d) (fd_base d) (fd_manufacturer d) (fd_device d) (fd_primary_address d) (fd_size_exponent d) (fd_size d)
    (fd_regions d) (fd_write_buffer_size d) features (fd_efa_blocks d) (fd_efa_block_size d)
    (fd_test_block d) (fd_test_block_size d) (fd_window_size d) (fd_erase d) (fd_map_samples d).
Definition set_efa (blocks block_size : Z) (d : flash_device) : flash_device :=
  FlashDevice (fd_cs d) (fd_base d) (fd_manufacturer d) (fd_device d) (fd_primary_address d) (fd_size_exponent d) (fd_size d)
    (fd_regions d) (fd_write_buffer_size d) (fd_features d) blocks block_size
    (fd_test_block d) (fd_test_block_size d) (fd_window_size d) (fd_erase d) (fd_map_samples d).
Definition set_test_block (block size : Z) (d : flash_device) : flash_device :=
  FlashDevice (fd_cs d) (fd_base d) (fd_manufacturer d) (fd_device d) (fd_primary_address d) (fd_size_exponent d) (fd_size d)
    (fd_regions d) (fd_write_buffer_size d) (fd_features d) (fd_efa_blocks d) (fd_efa_block_size d)
    block size (fd_window_size d) (fd_erase d) (fd_map_samples d).
Definition set_window (size : Z) (samples : list (list Z)) (d : flash_device) : flash_device :=
  FlashDevice (fd_cs d) (fd_base d) (fd_manufacturer d) (fd_device d) (fd_primary_address d) (fd_size_exponent d) (fd_size d)
    (fd_regions d) (fd_write_buffer_size d) (fd_features d) (fd_efa_blocks d) (fd_efa_block_size d)
    (fd_test_block d) (fd_test_block_size d) size (fd_erase d) samples.

Section Code.
Context {D : Type} `{!Device D} `{B : Board}.
#[local] Abbreviation M := (M D tests).

Definition cfi_read_word (base offset : Z) : M Z := rd16 (u32 (base + offset * 2)).
Definition cfi_read_u16 (base offset : Z) : M Z :=
  lo ← cfi_read_word base offset; hi ← cfi_read_word base (offset + 1); mret (lo .| hi .<< 8).
Definition cfi_read_u32 (base offset : Z) : M Z :=
  lo ← cfi_read_u16 base offset; hi ← cfi_read_u16 base (offset + 2); mret (lo .| u32 (hi .<< 16)).
Definition cfi_enter_read_array (base : Z) : M unit := wr16 base 0xFF.
Definition cfi_enter_id (base : Z) : M unit := wr16 base 0x90.
Definition cfi_enter_query (base : Z) : M unit := wr16 (u32 (base + CFI_QUERY_ADDRESS * 2)) 0x98.
Definition cfi_enter_status (base : Z) : M unit := wr16 base 0x70.
Definition cfi_disable_chip_selects : M unit :=
  foldM (fun _ cs => when (cs !=? RAM_CS) (wr32 (EBU_ADDRSEL cs) 0;; wr32 (EBU_BUSCON cs) 0)) tt (seqZ 0 EBU_CS_COUNT).
Definition cfi_map (cs base mask : Z) : M unit :=
  wr32 (EBU_BUSCON cs) FLASH_BUSCON;;
  wr32 (EBU_ADDRSEL cs) (EBU_ADDRSEL_REGENAB .| (mask .<< EBU_ADDRSEL_MASK_SHIFT) .| base).

(** [exponent < 32 ? 1u << exponent : 0] *)
Definition power_of_two (exponent : Z) : Z := if exponent <? 32 then u32 (1 .<< exponent) else 0.
Definition cfi_read_geometry (flash : flash_device) : M flash_device :=
  let base := fd_base flash in
  primary_address ← cfi_read_u16 base 0x15;
  size_exponent ← cfi_read_word base 0x27;
  buffer_exponent ← cfi_read_u16 base 0x2A;
  regions ← cfi_read_word base 0x2C;
  let count := if regions <? CFI_MAX_ERASE_REGIONS then regions else CFI_MAX_ERASE_REGIONS in
  erase ← foldM (fun erase region =>
    let offset := 0x2D + region * 4 in
    blocks ← cfi_read_u16 base offset;
    block_size ← cfi_read_u16 base (offset + 2);
    mret (<[Z.to_nat region := EraseRegion (u32 (blocks + 1)) (u32 (block_size * 256))]> erase))
    (fd_erase flash) (seqZ 0 count);
  mret (set_geometry primary_address size_exponent (power_of_two size_exponent) regions (power_of_two buffer_exponent) erase flash).

(** [*cursor] is passed on. *)
Definition cfi_skip_pri_regions (base cursor : Z) (st : bool) : M Z :=
  regions ← cfi_read_word base cursor;
  foldM (fun cursor _ =>
    let cursor := u32 (cursor + (if st then 2 else 0) + 5) in
    erase_regions ← cfi_read_word base cursor;
    mret (u32 (u32 (cursor + 1) + erase_regions * (if st then 14 else 8)))) (u32 (cursor + 1)) (seqZ 0 regions).
Definition cfi_read_extended_geometry (flash : flash_device) : M flash_device :=
  let base := fd_base flash in
  features ← cfi_read_u32 base (u32 (fd_primary_address flash + 5));
  let flash := set_features features flash in
  if ((features .& BIT 9) ==? 0) || ((features .& BIT 10) ==? 0) then mret flash
  else
    let cursor := u32 (fd_primary_address flash + 0xE) in
    cursor ← (if (features .& BIT 6) !=? 0 then
                fields ← cfi_read_word base cursor;
                mret (u32 (u32 (cursor + 1) + (if fields !=? 0 then u32 (4 + u32 (fields - 1) * 10) else 0)))
              else mret cursor);
    let cursor := u32 (cursor + 1) in
    synchronous_modes ← cfi_read_word base cursor;
    let cursor := u32 (u32 (cursor + 1) + synchronous_modes) in
    id ← cfi_read_u16 base 0x13;
    let st := id ==? 0x0200 in
    cursor ← cfi_skip_pri_regions base cursor st;
    regions ← cfi_read_word base cursor;
    if regions ==? 0 then mret flash
    else
      let cursor := u32 (u32 (cursor + 1) + (if st then 2 else 0) + 5) in
      erase_regions ← cfi_read_word base cursor;
      let cursor := u32 (cursor + 1) in
      if erase_regions ==? 0 then mret flash
      else
        blocks ← cfi_read_u16 base cursor;
        block_size ← cfi_read_u16 base (u32 (cursor + 2));
        mret (set_efa (u32 (blocks + 1)) (u32 (block_size * 256)) flash).

Definition cfi_read_map_sample (flash : flash_device) (sample offset : Z) : M flash_device :=
  words ← foldM (fun words word => v ← rd16 (u32 (fd_base flash + offset + word * 2)); mret (words ++ [v])) []
    (seqZ 0 MAP_SAMPLE_WORDS);
  mret (set_window (fd_window_size flash) (<[Z.to_nat sample := words]> (fd_map_samples flash)) flash).
Definition cfi_sample_map (flash : flash_device) : M flash_device :=
  flash ← cfi_read_map_sample flash 0 0;
  flash ← cfi_read_map_sample flash 1 (fd_size flash / 2);
  cfi_read_map_sample flash 2 (u32 (fd_size flash - MAP_SAMPLE_SIZE)).

(** The conjunction of the three comparisons stops at the first that fails. *)
Definition valid_signature : M bool :=
  q ← cfi_read_word FLASH_WINDOW_BASE 0x10;
  if q !=? 0x51 then mret false
  else
    r ← cfi_read_word FLASH_WINDOW_BASE 0x11;
    if r !=? 0x52 then mret false else y ← cfi_read_word FLASH_WINDOW_BASE 0x12; mret (y ==? 0x59).
Definition cfi_probe (cs : Z) (flash : flash_device) : M (bool * flash_device) :=
  cfi_disable_chip_selects;;
  cfi_map cs FLASH_WINDOW_BASE 0;;
  cfi_enter_read_array FLASH_WINDOW_BASE;;
  cfi_enter_query FLASH_WINDOW_BASE;;
  valid ← valid_signature;
  if negb valid then
    cfi_enter_read_array FLASH_WINDOW_BASE;;
    wr32 (EBU_ADDRSEL cs) 0;;
    wr32 (EBU_BUSCON cs) 0;;
    mret (false, flash)
  else
    let flash := set_place cs FLASH_WINDOW_BASE flash in
    flash ← cfi_read_geometry flash;
    flash ← cfi_read_extended_geometry flash;
    cfi_enter_id (fd_base flash);;
    manufacturer ← cfi_read_word (fd_base flash) 0;
    device ← cfi_read_word (fd_base flash) 1;
    let flash := set_ids manufacturer device flash in
    cfi_enter_read_array (fd_base flash);;
    let can_sample_map := (MAP_SAMPLE_SIZE <=? fd_size flash) && (fd_size flash <=? FLASH_WINDOW_END - FLASH_WINDOW_BASE) in
    let flash := set_window (fd_size flash) (fd_map_samples flash) flash in
    flash ← (if can_sample_map then cfi_sample_map flash else mret flash);
    mret ((fd_size flash <=? FLASH_WINDOW_END - FLASH_WINDOW_BASE) && (0 <? fd_regions flash) &&
          (fd_regions flash <=? CFI_MAX_ERASE_REGIONS) && (2 <=? fd_write_buffer_size flash) &&
          (fd_write_buffer_size flash <=? 1024), flash).

Definition cfi_range_is_blank (address size : Z) : M bool :=
  iter (fun offset =>
    if offset <? size then
      v ← rd32 (u32 (address + offset));
      if v !=? 0xFFFFFFFF then mret (inr false)
      else when ((offset .& 0x3FFF) ==? 0) test_watchdog_serve;; mret (inl (u32 (offset + 4)))
    else mret (inr true)) 0.

(** [erase[region]] of a region that the structure has no room for is out of bounds. *)
Definition erase_region_at (flash : flash_device) (region : Z) : M erase_region :=
  match fd_erase flash !! Z.to_nat region with
  | Some r => mret r
  | None => stop (OutOfBounds region)
  end.
Definition erase_block_fits (flash : flash_device) (blank_offset alignment offset block_size : Z) : bool :=
  (blank_offset <=? offset) && (u32 (offset + block_size) <=? u32 (blank_offset + alignment)) &&
  (MAP_SAMPLE_SIZE <=? offset) && (u32 (u32 (offset + block_size) + MAP_SAMPLE_SIZE) <=? fd_size flash).
(** The inner loop over the blocks of a region; [inl offset] after it. *)
Definition cfi_select_in_region (flash : flash_device) (blank_offset alignment region offset : Z) : M (Z + flash_device) :=
  iter (fun '(block, offset) =>
    r ← erase_region_at flash region;
    if block <? er_blocks r then
      let block_size := er_block_size r in
      if erase_block_fits flash blank_offset alignment offset block_size
      then mret (inr (inr (set_test_block (u32 (fd_base flash + offset)) block_size flash)))
      else mret (inl (block + 1, u32 (offset + block_size)))
    else mret (inr (inl offset))) (0, offset).
Definition cfi_select_erase_block (flash : flash_device) (blank_offset alignment : Z) : M (bool * flash_device) :=
  iter (fun '(region, offset) =>
    if region <? fd_regions flash then
      r ← cfi_select_in_region flash blank_offset alignment region offset;
      mret (match r with inl offset => inl (region + 1, offset) | inr flash => inr (true, flash) end)
    else mret (inr (false, flash))) (0, 0).
Definition cfi_find_blank_block (flash : flash_device) (alignment : Z) : M (bool * flash_device) :=
  iter (fun offset =>
    if u32 (offset + alignment) <=? fd_size flash then
      test_watchdog_reset;;
      blank ← cfi_range_is_blank (u32 (fd_base flash + offset)) alignment;
      if negb blank then mret (inl (u32 (offset + alignment)))
      else
        '(found, flash) ← cfi_select_erase_block flash offset alignment;
        mret (if found : bool then inr (true, flash) else inl (u32 (offset + alignment)))
    else mret (inr (false, flash))) 0.

Definition cfi_wait_ready (address : Z) : M Z :=
  iter (fun '(poll, status) =>
    if poll <? 1000000 then
      status ← rd16 address;
      if (status .& STATUS_READY) !=? 0 then mret (inr status)
      else test_watchdog_serve;; mret (inl (poll + 1, status))
    else mret (inr status)) (0, 0).
Definition cfi_read_lock_status (address : Z) : M Z :=
  cfi_enter_id address;; status ← cfi_read_word address 2; cfi_enter_read_array address;; mret status.
Definition cfi_clear_status (address : Z) : M Z :=
  wr16 address 0x50;; wr16 address 0x70;; status ← rd16 address; cfi_enter_read_array address;; mret status.
Definition cfi_unlock_block (address : Z) (efa : bool) : M Z :=
  wr16 address 0x50;; wr16 address (if efa then 0x64 else 0x60);; wr16 address 0xD0;;
  status ← cfi_wait_ready address; cfi_enter_read_array address;; mret status.
Definition cfi_lock_block (address : Z) (efa : bool) : M Z :=
  wr16 address 0x50;; wr16 address (if efa then 0x64 else 0x60);; wr16 address 0x01;;
  status ← cfi_wait_ready address; cfi_enter_read_array address;; mret status.
Definition cfi_lock_down_block (address : Z) (efa : bool) : M Z :=
  wr16 address (if efa then 0x64 else 0x60);; wr16 address 0x2F;;
  status ← cfi_wait_ready address; cfi_enter_read_array address;; mret status.
Definition cfi_program_word (flash : flash_device) (address value : Z) (efa : bool) : M Z :=
  wr16 address 0x50;;
  wr16 address (if efa then 0x44 else if fd_manufacturer flash ==? 0x0020 then 0x41 else 0x40);;
  wr16 address value;;
  status ← cfi_wait_ready address; cfi_enter_read_array address;; mret status.
(** [data[word]] of a [uint16_t] array in memory. *)
Definition ld16 (a : Z) : M Z := lo ← ld8 a; hi ← ld8 (a + 1); mret (le_word [lo; hi]).
(** [for (word = 0; word < words; word++) MMIO16(address + word * 2) = data[word];] *)
Definition write_words (address data words : Z) : M unit :=
  iter (fun word =>
    if word <? words then
      v ← ld16 (data + word * 2); wr16 (u32 (address + word * 2)) v;; mret (inl (word + 1))
    else mret (inr tt)) 0.
(** Returns the status and [*buffer_status]. *)
Definition cfi_program_buffer (flash : flash_device) (address data words : Z) : M (Z * Z) :=
  wr16 address 0x50;;
  wr16 address (if fd_manufacturer flash ==? 0x0020 then 0xE9 else 0xE8);;
  buffer_status ← cfi_wait_ready address;
  wr16 address (u32 (words - 1));;
  write_words address data words;;
  wr16 address 0xD0;;
  status ← cfi_wait_ready address;
  cfi_enter_read_array address;;
  mret (status, buffer_status).
Definition cfi_erase_block (address : Z) (efa : bool) : M Z :=
  wr16 address 0x50;; wr16 address (if efa then 0x24 else 0x20);; wr16 address 0xD0;;
  status ← cfi_wait_ready address; cfi_enter_read_array address;; mret status.
Definition cfi_blank_check (address : Z) : M Z :=
  wr16 address 0xBC;; wr16 address 0xD0;;
  status ← cfi_wait_ready address; cfi_enter_read_array address;; wr16 address 0x50;; mret status.
Definition cfi_program_configuration (base value : Z) (enhanced : bool) : M unit :=
  let address := u32 (base + value * 2) in
  wr16 address 0x60;; wr16 address (if enhanced then 0x04 else 0x03).
Definition cfi_enter_efa (address : Z) : M unit := wr16 address 0x94.
Definition cfi_efa_range_is_blank (address size : Z) : M bool :=
  cfi_enter_efa address;;
  blank ← iter (fun offset =>
    if offset <? size then
      v ← rd32 (u32 (address + offset));
      if v !=? 0xFFFFFFFF then mret (inr false) else test_watchdog_serve;; mret (inl (u32 (offset + 4)))
    else mret (inr true)) 0;
  cfi_enter_read_array address;;
  mret blank.
(** [*address] is the result when there is one. *)
Definition cfi_find_blank_efa_block (flash : flash_device) : M (option Z) :=
  iter (fun block =>
    if block <? fd_efa_blocks flash then
      let candidate := u32 (fd_base flash + block * fd_efa_block_size flash) in
      test_watchdog_reset;;
      blank ← cfi_efa_range_is_blank candidate (fd_efa_block_size flash);
      mret (if blank : bool then inr (Some candidate) else inl (block + 1))
    else mret (inr None)) 0.
Definition cfi_read_efa_word (address : Z) : M Z :=
  cfi_enter_efa address;; value ← rd16 address; cfi_enter_read_array address;; mret value.
Definition cfi_read_efa_lock_status (address : Z) : M Z :=
  cfi_enter_id address;; w ← cfi_read_word address 2; cfi_enter_read_array address;; mret ((w .>> 4) .& 0x3).
Definition cfi_program_otp_word (address value : Z) : M Z :=
  wr16 address 0xC0;; wr16 address value;;
  status ← cfi_wait_ready address; cfi_enter_read_array address;; mret status.
End Code.

(** ** The command interface of the flash

    A monitor of the accesses to the window of the flash: the command set of Intel and ST
    (one- and two-cycle commands, the buffered program with its count, data and confirmation;
    the second cycle goes to the address of the first, the data to the addresses that
    follow it).  Reading in the middle of a command is not allowed. *)
Inductive cfi_mode :=
  | ReadArray | ReadOther (* status, identifiers, query, extended array *)
  | LockSetup (a : Z) | ProgramSetup (a : Z) | EraseSetup (a : Z) | CheckSetup (a : Z)
  | BufferCount (a : Z) | BufferData (a next rest : Z).
Definition in_window (a : Z) : bool := (FLASH_WINDOW_BASE <=? a) && (a <? FLASH_WINDOW_END).
Lemma window_ok a : FLASH_WINDOW_BASE <= a < FLASH_WINDOW_END -> in_window a = true.
Proof. intros Ha. unfold in_window. destruct (Z.leb_spec FLASH_WINDOW_BASE a), (Z.ltb_spec a FLASH_WINDOW_END); try done; lia. Qed.
Definition cfi_command (m : cfi_mode) (a v : Z) : option cfi_mode :=
  if v =? 0xFF then Some ReadArray
  else if v =? 0x50 then Some m
  else if existsb (Z.eqb v) [0x90; 0x98; 0x70; 0x94; 0xB0; 0xD0] then Some ReadOther
  else if existsb (Z.eqb v) [0x60; 0x64] then Some (LockSetup a)
  else if existsb (Z.eqb v) [0x40; 0x41; 0x44; 0xC0] then Some (ProgramSetup a)
  else if existsb (Z.eqb v) [0x20; 0x24] then Some (EraseSetup a)
  else if v =? 0xBC then Some (CheckSetup a)
  else if existsb (Z.eqb v) [0xE8; 0xE9] then Some (BufferCount a)
  else None.
Definition cfi_write (m : cfi_mode) (a v : Z) : option cfi_mode :=
  match m with
  | ReadArray | ReadOther => cfi_command m a v
  | LockSetup a' =>
      if negb (a =? a') then None
      else if existsb (Z.eqb v) [0xD0; 0x01; 0x2F] then Some ReadOther
      else if existsb (Z.eqb v) [0x03; 0x04] then Some ReadArray else None
  | ProgramSetup a' => if a =? a' then Some ReadOther else None
  | EraseSetup a' | CheckSetup a' => if (a =? a') && (v =? 0xD0) then Some ReadOther else None
  | BufferCount a' => if a =? a' then Some (BufferData a a (v + 1)) else None
  | BufferData a' next rest =>
      if 0 <? rest then if a =? next then Some (BufferData a' (next + 2) (rest - 1)) else None
      else if (a =? a') && (v =? 0xD0) then Some ReadOther else None
  end.
Definition cfi_readable (m : cfi_mode) : bool :=
  match m with ReadArray | ReadOther | BufferCount _ => true | _ => false end.
Definition cfi_monitor_step (m : cfi_mode) (e : event) : option cfi_mode :=
  match e with
  | Wr (Mmio width a) v => if in_window a then if width =? 16 then cfi_write m a v else None else Some m
  | Rd (Mmio _ a) _ => if in_window a then if cfi_readable m then Some m else None else Some m
  | _ => Some m
  end.
Fixpoint cfi_monitor (m : cfi_mode) (es : list event) : option cfi_mode :=
  match es with [] => Some m | e :: es => m' ← cfi_monitor_step m e; cfi_monitor m' es end.
Lemma cfi_monitor_app m es es' : cfi_monitor m (es ++ es') = m' ← cfi_monitor m es; cfi_monitor m' es'.
Proof. revert m. induction es as [|e es IH]; intros m; simpl; [done|]. destruct (cfi_monitor_step m e); simpl; auto. Qed.
(** Accesses elsewhere do not concern the flash. *)
Definition elsewhere (p : port) : Prop := match p with Mmio _ a => in_window a = false | _ => True end.
Lemma cfi_monitor_elsewhere m es : Forall (fun e => elsewhere (event_port e)) es -> cfi_monitor m es = Some m.
Proof.
  induction 1 as [|e es He _ IH]; [done|]. simpl. assert (cfi_monitor_step m e = Some m) as ->; [|exact IH].
  destruct e as [[w a| |] v|[w a| |] v]; try done; simpl in *; by rewrite He.
Qed.
Lemma wdt_elsewhere `{B : Board} p : wdt_port p -> elsewhere p.
Proof.
  intros [[->| ->]|[->|[->|[->|Hp]]]]; [done..|]. pose proof board_pm_wadog_pos as Hpos.
  destruct board_pm_wadog as [g|]; [|done]. subst p. simpl. unfold in_window, FLASH_WINDOW_BASE, FLASH_WINDOW_END, GPIO_PIN, GPIO_BASE.
  destruct (Z.leb_spec 0xA0000000 (0xF4300000 + 32 + g * 4)), (Z.ltb_spec (0xF4300000 + 32 + g * 4) 0xA8000000); try done; lia.
Qed.

Section Commands.
Context {D : Type} `{!Device D} `{B : Board} (w0 : world D tests) (E : cause -> world D tests -> Prop) (f : nat)
  (Hf : 1000000 < Z.of_nat f).
Implicit Types w : world D tests.

(** Since [w0] the accesses were legal and left the flash in mode [m]; the timer is
    calibrated; memory and the counters are as before. *)
Definition flashing (m : cfi_mode) w : Prop :=
  (exists es, w_log w = es ++ w_log w0 /\ cfi_monitor ReadArray (rev es) = Some m) /\
  ticks_per_s (w_lib w) <> 0 /\ w_mem w = w_mem w0 /\ w_app w = w_app w0.
Lemma flashing_start : ticks_per_s (w_lib w0) <> 0 -> flashing ReadArray w0.
Proof. intros Ht. split; [by exists []|]. done. Qed.
Lemma flashing_step m m' w w' e : flashing m w -> cfi_monitor_step m e = Some m' -> w_log w' = e :: w_log w ->
  w_lib w' = w_lib w -> w_mem w' = w_mem w -> w_app w' = w_app w -> flashing m' w'.
Proof.
  intros ((es & El & Em) & Ht & Hm & Ha) He Hl E1 E2 E3. unfold flashing. rewrite E1, E2, E3. split; [|done].
  exists (e :: es). rewrite Hl, El. split; [done|]. simpl. rewrite cfi_monitor_app, Em. simpl. by rewrite He.
Qed.

Lemma wp_flash_write Q m m' a v w : flashing m w -> in_window a = true -> cfi_write m a (u16 v) = Some m' ->
  (forall w', flashing m' w' -> Q tt w') -> wp E (wr16 a v) Q f w.
Proof.
  intros Hw Ha Hv HQ. apply wp_wr, HQ. eapply flashing_step; [exact Hw| |done..].
  unfold cfi_monitor_step, port_wrap. by rewrite Ha.
Qed.
Lemma wp_flash_read Q m width a w : flashing m w -> cfi_readable m = true ->
  (forall v d, dev_read (Mmio width a) (w_dev w) = (v, d) ->
     let w' := set_io w d (Rd (Mmio width a) (port_wrap (Mmio width a) v)) in
     flashing m w' -> Q (port_wrap (Mmio width a) v) w') -> wp E (rd (Mmio width a)) Q f w.
Proof.
  intros Hw Hm HQ. apply wp_rd. intros v d Hr. apply HQ; [done|]. eapply flashing_step; [exact Hw| |done..].
  simpl. rewrite Hm. by destruct (in_window a).
Qed.
(** Serving the watchdog touches other registers only. *)
Lemma wp_flash_serve Q m w : flashing m w -> (forall w', flashing m w' -> traced wdt_port w w' -> Q tt w') ->
  wp E test_watchdog_serve Q f w.
Proof.
  intros Hw HQ. eapply wp_mono.
  - eapply (wp_traced E wdt_port); [by apply uses_wdt_serve|].
    eapply (wp_wdt_serve (fun _ => True) ltac:(by intros ? ? ? ?)) with (Q := fun _ w' =>
      w_mem w' = w_mem w /\ w_app w' = w_app w /\ ticks_per_s (w_lib w') = ticks_per_s (w_lib w)); [done|apply Hw|].
    intros w' (_ & H1 & H2 & H3 & _). done.
  - intros [] w' [(E1 & E2 & E3) Htr]. apply HQ; [|done].
    destruct Hw as ((es & El & Em) & Ht & Hm & Ha), Htr as (_ & l & El' & Fl). unfold flashing. rewrite E1, E2, E3.
    split; [|done]. exists (l ++ es). rewrite El', El, app_assoc. split; [done|].
    rewrite rev_app_distr, cfi_monitor_app, Em. simpl. apply cfi_monitor_elsewhere, Forall_rev.
    eapply Forall_impl; [exact Fl|]. intros e. apply wdt_elsewhere.
Qed.
Lemma wp_cfi_wait_ready Q m a w : flashing m w -> cfi_readable m = true ->
  (forall status w', flashing m w' -> Q status w') -> wp E (cfi_wait_ready a) Q f w.
Proof.
  intros Hw Hm HQ. unfold cfi_wait_ready.
  eapply (wp_iter _ _ (fun '(poll, _) w' => 0 <= poll <= 1000000 /\ flashing m w') (fun '(poll, _) _ => Z.to_nat (1000000 - poll)));
    [by split|lia|].
  intros [poll status] w1 [Hp Hw1]. destruct (Z.ltb_spec poll 1000000); [|by apply wp_ret, HQ].
  apply wp_bind. eapply wp_flash_read; [exact Hw1|exact Hm|]. intros v d _ w2 Hw2.
  destruct (_ !=? 0); [by apply wp_ret, HQ|]. apply wp_bind. eapply wp_flash_serve; [exact Hw2|]. intros w3 Hw3 _.
  apply wp_ret. split; [split; [lia|done]|lia].
Qed.
End Commands.

(** One access of a command after the other. *)
Ltac cfi_step Hwin :=
  lazymatch goal with
  | |- wp _ (mbind _ _) _ _ _ => apply wp_bind
  | |- wp _ (mret _) _ _ _ => apply wp_ret
  | |- wp _ (wr16 _ _) _ _ _ => eapply wp_flash_write; [eassumption|exact Hwin|cbn [cfi_write negb]; rewrite ?Z.eqb_refl; reflexivity|];
       intros ? ?
  | |- wp _ (rd16 _) _ _ _ => eapply wp_flash_read; [eassumption|reflexivity|]; intros ? ? _ ? ?
  | |- wp _ (cfi_wait_ready _) _ _ _ => eapply wp_cfi_wait_ready; [eassumption|eassumption|reflexivity|]; intros ? ? ?
  | |- wp _ (cfi_enter_read_array _) _ _ _ => unfold cfi_enter_read_array
  | |- wp _ (cfi_enter_id _) _ _ _ => unfold cfi_enter_id
  | |- wp _ (cfi_enter_efa _) _ _ _ => unfold cfi_enter_efa
  | |- wp _ (cfi_read_word _ _) _ _ _ => unfold cfi_read_word
  end.
Ltac cfi_steps Hwin := repeat (cfi_step Hwin; cbv beta).

(** ** Every operation is a legal command sequence that leaves the flash in its array mode *)
Inductive cfi_op :=
  | ReadLockStatus (a : Z) | ClearStatus (a : Z) | UnlockBlock (a : Z) (efa : bool) | LockBlock (a : Z) (efa : bool)
  | LockDownBlock (a : Z) (efa : bool) | ProgramWord (a value : Z) (efa : bool) | ProgramBuffer (a data words : Z)
  | EraseBlock (a : Z) (efa : bool) | BlankCheck (a : Z) | ReadEfaWord (a : Z) | ReadEfaLockStatus (a : Z)
  | ProgramOtpWord (a value : Z) | EfaBlank (a size : Z).
Definition run_cfi_op {D} `{!Device D} `{B : Board} (flash : flash_device) (op : cfi_op) : M D tests unit :=
  match op with
  | ReadLockStatus a => _ ← cfi_read_lock_status a; mret tt
  | ClearStatus a => _ ← cfi_clear_status a; mret tt
  | UnlockBlock a efa => _ ← cfi_unlock_block a efa; mret tt
  | LockBlock a efa => _ ← cfi_lock_block a efa; mret tt
  | LockDownBlock a efa => _ ← cfi_lock_down_block a efa; mret tt
  | ProgramWord a v efa => _ ← cfi_program_word flash a v efa; mret tt
  | ProgramBuffer a data words => _ ← cfi_program_buffer flash a data words; mret tt
  | EraseBlock a efa => _ ← cfi_erase_block a efa; mret tt
  | BlankCheck a => _ ← cfi_blank_check a; mret tt
  | ReadEfaWord a => _ ← cfi_read_efa_word a; mret tt
  | ReadEfaLockStatus a => _ ← cfi_read_efa_lock_status a; mret tt
  | ProgramOtpWord a v => _ ← cfi_program_otp_word a v; mret tt
  | EfaBlank a size => _ ← cfi_efa_range_is_blank a size; mret tt
  end.
Definition cfi_op_address (op : cfi_op) : Z :=
  match op with
  | ReadLockStatus a | ClearStatus a | UnlockBlock a _ | LockBlock a _ | LockDownBlock a _ | ProgramWord a _ _
  | ProgramBuffer a _ _ | EraseBlock a _ | BlankCheck a | ReadEfaWord a | ReadEfaLockStatus a | ProgramOtpWord a _
  | EfaBlank a _ => a
  end.
(** The address is in the window; a buffer has a word at least, fits the window, and its data
    can be read. *)
Definition cfi_op_ok (f : nat) (m : gmap Z Z) (op : cfi_op) : Prop :=
  FLASH_WINDOW_BASE <= cfi_op_address op < FLASH_WINDOW_END /\
  match op with
  | ProgramBuffer a data words =>
      1 <= words <= 0x10000 /\ words < Z.of_nat f /\ a + 2 * words <= FLASH_WINDOW_END /\
      forall i, 0 <= i < 2 * words -> mem_valid m (data + i) = true
  | EfaBlank _ size => 0 <= size < 0x10000000 /\ size < Z.of_nat f
  | _ => True
  end.

Section Operations.
Context {D : Type} `{!Device D} `{B : Board} (w0 : world D tests) (E : cause -> world D tests -> Prop) (f : nat)
  (Hf : 1000000 < Z.of_nat f).
Implicit Types w : world D tests.
#[local] Abbreviation array := (flashing w0 ReadArray).

(** The words of a buffered program go to consecutive addresses. *)
Lemma wp_write_words Q a data words w : FLASH_WINDOW_BASE <= a -> a + 2 * words <= FLASH_WINDOW_END ->
  1 <= words -> words < Z.of_nat f -> (forall i, 0 <= i < 2 * words -> mem_valid (w_mem w0) (data + i) = true) ->
  flashing w0 (BufferData a a words) w -> (forall w', flashing w0 (BufferData a (a + 2 * words) 0) w' -> Q tt w') ->
  wp E (write_words a data words) Q f w.
Proof.
  intros Ha1 Ha2 Hn Hnf Hd Hw HQ. unfold write_words.
  eapply (wp_iter _ _ (fun k w' => 0 <= k <= words /\ flashing w0 (BufferData a (a + 2 * k) (words - k)) w')
    (fun k _ => Z.to_nat (words - k))); [|lia|].
  { split; [lia|]. by rewrite Z.mul_0_r, Z.add_0_r, Z.sub_0_r. }
  intros k w1 [Hk Hw1]. destruct (Z.ltb_spec k words).
  - pose proof Hw1 as (_ & _ & Em & _). unfold ld16. apply wp_bind, wp_bind, wp_ld8; [rewrite Em; apply Hd; lia|].
    apply wp_bind, wp_ld8; [rewrite Em; replace (data + k * 2 + 1) with (data + (k * 2 + 1)) by lia; apply Hd; lia|].
    apply wp_ret. unfold FLASH_WINDOW_BASE, FLASH_WINDOW_END in *.
    assert (u32 (a + k * 2) = a + 2 * k) as -> by (rewrite u32_small by (unfold is_u32; lia); lia).
    apply wp_bind. eapply (wp_flash_write w0) with (m' := BufferData a (a + 2 * (k + 1)) (words - (k + 1))); [exact Hw1| | |].
    + apply window_ok. unfold FLASH_WINDOW_BASE, FLASH_WINDOW_END. lia.
    + cbn [cfi_write]. destruct (Z.ltb_spec 0 (words - k)); [|lia]. rewrite Z.eqb_refl. do 2 f_equal; lia.
    + intros w2 Hw2. apply wp_ret. split; [split; [lia|done]|lia].
  - assert (k = words) as -> by lia. apply wp_ret, HQ. by rewrite Z.sub_diag in Hw1.
Qed.
Lemma wp_program_buffer Q flash a data words w : array w -> cfi_op_ok f (w_mem w0) (ProgramBuffer a data words) ->
  (forall r w', array w' -> Q r w') -> wp E (cfi_program_buffer flash a data words) Q f w.
Proof.
  intros Hw (Ha & Hn & Hnf & Hfit & Hd) HQ. cbn [cfi_op_address] in Ha. pose proof (window_ok a Ha) as Hwin.
  assert (u16 (u32 (words - 1)) + 1 = words) as En by (unfold u16, u32; Z.div_mod_to_equations; lia).
  unfold cfi_program_buffer. destruct (fd_manufacturer flash ==? 0x0020); cfi_steps Hwin;
    match goal with H : flashing w0 (BufferData a a _) _ |- _ => rewrite En in H; rename H into Hb end;
    (eapply wp_write_words; [lia|exact Hfit|lia|done|exact Hd|exact Hb|]); intros w5 Hw5;
    cfi_steps Hwin; by apply HQ.
Qed.
Lemma wp_efa_blank Q a size w : array w -> cfi_op_ok f (w_mem w0) (EfaBlank a size) ->
  (forall r w', array w' -> Q r w') -> wp E (cfi_efa_range_is_blank a size) Q f w.
Proof.
  intros Hw (Ha & Hs & Hsf) HQ. cbn [cfi_op_address] in Ha. pose proof (window_ok a Ha) as Hwin.
  unfold cfi_efa_range_is_blank. cfi_steps Hwin.
  eapply (wp_iter _ _ (fun o w' => 0 <= o < size + 4 /\ flashing w0 ReadOther w') (fun o _ => Z.to_nat (size - o)));
    [split; [lia|eassumption]|lia|].
  intros o w1 [Ho Hw1]. destruct (Z.ltb_spec o size).
  - apply wp_bind. eapply (wp_flash_read w0); [exact Hw1|done|]. intros v d _ w2 Hw2.
    destruct (_ !=? 0xFFFFFFFF).
    + apply wp_ret. cfi_steps Hwin. by apply HQ.
    + apply wp_bind. eapply (wp_flash_serve w0); [exact Hw2|]. intros w3 Hw3 _. apply wp_ret.
      rewrite u32_small by (unfold is_u32; lia). split; [split; [lia|done]|lia].
  - apply wp_ret. cfi_steps Hwin. by apply HQ.
Qed.

Lemma wp_cfi_op Q flash op w : array w -> cfi_op_ok f (w_mem w0) op -> (forall w', array w' -> Q tt w') ->
  wp E (run_cfi_op flash op) Q f w.
Proof.
  intros Hw Hok HQ. pose proof (window_ok _ (proj1 Hok)) as Hwin.
  destruct op as [a|a|a efa|a efa|a efa|a v efa|a data words|a efa|a|a|a|a v|a size]; cbn [run_cfi_op cfi_op_address] in *;
    unfold cfi_read_lock_status, cfi_clear_status, cfi_unlock_block, cfi_lock_block, cfi_lock_down_block, cfi_program_word,
      cfi_erase_block, cfi_blank_check, cfi_read_efa_word, cfi_read_efa_lock_status, cfi_program_otp_word;
    try destruct efa; try (destruct (fd_manufacturer flash ==? 0x0020)); cfi_steps Hwin; try (by apply HQ).
  - eapply wp_program_buffer; [exact Hw|done|]. intros r w' Hw'. by apply wp_ret, HQ.
  - eapply wp_program_buffer; [exact Hw|done|]. intros r w' Hw'. by apply wp_ret, HQ.
  - eapply wp_efa_blank; [exact Hw|done|]. intros r w' Hw'. by apply wp_ret, HQ.
  - eapply wp_efa_blank; [exact Hw|done|]. intros r w' Hw'. by apply wp_ret, HQ.
Qed.
End Operations.

(** C28. The operations keep to the flash's command set: any sequence of them, on addresses in
    the window and with readable buffers, ends; every access to the window was legal for the
    command interface, two-cycle commands confirmed at their address and buffers filled
    word by word as announced; and the flash is back in its read-array mode. *)
Theorem cfi_operations_legal {D} `{!Device D} `{B : Board} (flash : flash_device) (ops : list cfi_op) (f : nat) (w : world D tests) :
  1000000 < Z.of_nat f -> ticks_per_s (w_lib w) <> 0 -> Forall (cfi_op_ok f (w_mem w)) ops ->
  exists w' es, foldM (fun _ op => run_cfi_op flash op) tt ops f w = Done tt w' /\
    w_log w' = es ++ w_log w /\ cfi_monitor ReadArray (rev es) = Some ReadArray /\
    w_mem w' = w_mem w /\ w_app w' = w_app w.
Proof.
  intros Hf Ht Hops.
  assert (wp total (foldM (fun _ op => run_cfi_op flash op) tt ops) (fun _ w' => flashing w ReadArray w') f w) as Hwp.
  { eapply (wp_foldM _ _ (fun _ _ w' => flashing w ReadArray w')); [by apply flashing_start| |done].
    intros done op todo [] w1 Hl Hw1. apply (wp_cfi_op w total f Hf _ _ _ _ Hw1); [|done].
    rewrite Hl in Hops. apply Forall_app in Hops as [_ Hops]. by apply Forall_cons in Hops as [Hop _]. }
  unfold wp in Hwp. destruct (foldM _ tt ops f w) as [[] w'|]; [|done].
  destruct Hwp as ((es & E1 & E2) & _ & E3 & E4). by exists w', es.
Qed.

(** ** The search for an erased block *)
Definition growing {D A} (w w' : world D A) : Prop := exists l, w_log w' = l ++ w_log w.
#[export] Instance growing_preorder {D A} : PreOrder (growing (D := D) (A := A)).
Proof.
  split; [intros w; by exists []|]. intros w1 w2 w3 [l1 E1] [l2 E2]. exists (l2 ++ l1). by rewrite E2, E1, app_assoc.
Qed.
(** [x] was read as erased after [w]. *)
Definition read_erased {D A} (w w' : world D A) (x : Z) : Prop :=
  exists l l', w_log w' = l ++ Rd (Mmio 32 x) 0xFFFFFFFF :: l' ++ w_log w.
Lemma read_erased_growing {D A} (w w1 w2 : world D A) x : read_erased w w1 x -> growing w1 w2 -> read_erased w w2 x.
Proof. intros (l & l' & E) [l2 E2]. exists (l2 ++ l), l'. by rewrite E2, E, <- app_assoc. Qed.

(** A word of the range was read as written after [w]. *)
Definition written {D A} (w w' : world D A) (x size : Z) : Prop :=
  exists k v, 0 <= k < size /\ k mod 4 = 0 /\ v <> 0xFFFFFFFF /\ exists l l', w_log w' = l ++ Rd (Mmio 32 (x + k)) v :: l' ++ w_log w.
Lemma written_growing {D A} (w w1 w2 : world D A) x size : written w w1 x size -> growing w1 w2 -> written w w2 x size.
Proof. intros (k & v & ? & ? & ? & l & l' & E) [l2 E2]. exists k, v. do 3 (split; [done|]). exists (l2 ++ l), l'. by rewrite E2, E, <- app_assoc. Qed.

Definition search_port `{B : Board} (p : port) : Prop := wdt_port p \/ exists a, p = Mmio 32 a /\ in_window a = true.

Section Search.
Context {D : Type} `{!Device D} `{B : Board} (c : Z -> Z) (Hc : forall a, is_u32 (c a)) (Hrun : clock_ideal c ClkStm <> 0)
  (HS : stable search_port (cgu_reads c)) (w0 : world D tests).
Implicit Types w : world D tests.
Lemma search_wdt : stable wdt_port (cgu_reads c).
Proof. eapply stable_weaken; [|exact HS]. intros p Hp. by left. Qed.
Definition looking w : Prop := cgu_reads c (w_dev w) /\ ticks_per_s (w_lib w) <> 0 /\ growing w0 w.

Lemma uses_stm : uses (fun _ => True) (cpu_get_stm_freq (D := D) (A := tests)).
Proof.
  unfold cpu_get_stm_freq, cpu_get_fpi2_freq, cpu_get_pll_freq, get_pll_core_freq. uses_tac ltac:(exact I).
Qed.
Lemma uses_reset_timeout : uses (fun _ => True) (reset_timeout (D := D)).
Proof.
  pose proof uses_stm. pose proof (uses_wdt_serve (D := D) (A := tests) (fun _ => True) ltac:(done)).
  pose proof (uses_stopwatch_get (D := D) (A := tests) (fun _ => True) ltac:(done)).
  unfold reset_timeout, stopwatch_update, wdt_set_max_execution_time. uses_tac ltac:(exact I).
Qed.
Lemma traced_growing P w w' : traced P w w' -> growing w w'.
Proof. intros (_ & l & E & _). by exists l. Qed.
Lemma wp_look_serve E Q f w : looking w -> (forall w', looking w' -> growing w w' -> Q tt w') -> wp E test_watchdog_serve Q f w.
Proof.
  intros (Hr & Ht & Hg) HQ. eapply wp_mono.
  - eapply (wp_traced E (fun _ => True)); [by apply uses_wdt_serve|].
    eapply (wp_wdt_serve (cgu_reads c) search_wdt) with (Q := fun _ w' => cgu_reads c (w_dev w') /\ ticks_per_s (w_lib w') <> 0);
      [done..|]. intros w' (H1 & _ & _ & H2 & _). by rewrite H2.
  - intros [] w' [[H1 H2] Htr]. apply traced_growing in Htr. apply HQ; [|done]. split_and!; [done..|]. by etransitivity.
Qed.
Lemma wp_look_reset E Q f w : looking w -> (forall w', looking w' -> growing w w' -> Q tt w') -> wp E test_watchdog_reset Q f w.
Proof.
  intros (Hr & Ht & Hg) HQ. eapply wp_mono with (Q := fun r w' => (cgu_reads c (w_dev w') /\ ticks_per_s (w_lib w') <> 0) /\
    traced (fun _ => True) w w').
  - apply wp_traced; [apply uses_reset_timeout|]. destruct (ret_stm (A := tests) c Hc f w Hr) as [log El].
    apply wp_bind, wp_bind. unfold wp at 1. rewrite El. apply wp_bind, wp_get_lib, wp_put_lib. apply wp_bind, wp_bind.
    apply (wp_stopwatch_get (cgu_reads c)); [apply wdt_stm, search_wdt|done|]. intros t w2 (H2 & _ & _ & El2).
    apply wp_bind, wp_get_lib, wp_put_lib.
    eapply (wp_wdt_serve (cgu_reads c) search_wdt); [done|simpl; by rewrite El2|].
    intros w3 (H3 & _ & _ & Ht3 & _). split; [done|]. rewrite Ht3. simpl. by rewrite El2.
  - intros [] w' [[H1 H2] Htr]. apply traced_growing in Htr. apply HQ; [|done]. split_and!; [done..|]. by etransitivity.
Qed.

Lemma wp_range_is_blank E Q f w address size : looking w -> FLASH_WINDOW_BASE <= address -> address + size <= FLASH_WINDOW_END ->
  size mod 4 = 0 -> 0 <= size -> size < Z.of_nat f ->
  (forall b w', looking w' -> growing w w' ->
     (if b : bool then forall k, 0 <= k < size -> k mod 4 = 0 -> read_erased w0 w' (address + k) else written w0 w' address size) -> Q b w') ->
  wp E (cfi_range_is_blank address size) Q f w.
Proof.
  intros Hw Ha1 Ha2 Hs Hs0 Hf HQ. unfold cfi_range_is_blank. unfold FLASH_WINDOW_BASE, FLASH_WINDOW_END in *.
  eapply (wp_iter _ _ (fun o w' => 0 <= o <= size /\ o mod 4 = 0 /\ looking w' /\ growing w w' /\
    forall k, 0 <= k < o -> k mod 4 = 0 -> read_erased w0 w' (address + k)) (fun o _ => Z.to_nat (size - o))); [|lia|].
  { split_and!; [lia|lia|done|done|reflexivity|intros; lia]. }
  intros o w1 ([Ho1 Ho2] & Hmod & Hl & Hg & Hrd). destruct (Z.ltb_spec o size).
  - rewrite (u32_small (address + o)) by (unfold is_u32; lia).
    assert (search_port (Mmio 32 (address + o))) as Hp.
    { right. eexists. split; [done|]. apply window_ok. unfold FLASH_WINDOW_BASE, FLASH_WINDOW_END. lia. }
    apply wp_bind, wp_rd. intros v d Hr. set (w2 := set_io _ _ _).
    assert (looking w2 /\ growing w1 w2) as [Hl2 Hg2].
    { destruct Hl as (H1 & H2 & H3). assert (growing w1 w2) as Hg12 by by exists [Rd (Mmio 32 (address + o)) (port_wrap (Mmio 32 (address + o)) v)].
      split; [|done]. split_and!; [|done|by etransitivity]. pose proof (proj1 (HS _ _ Hp H1)) as H4. by rewrite Hr in H4. }
    destruct (Z.eqb_spec (port_wrap (Mmio 32 (address + o)) v) 0xFFFFFFFF) as [Ev|Ev]; cbn [negb].
    + assert (forall w3, growing w2 w3 -> forall k, 0 <= k < o + 4 -> k mod 4 = 0 -> read_erased w0 w3 (address + k)) as Hnext.
      { intros w3 H23 k Hk Hk4. destruct (decide (k < o)) as [|Hge].
        - eapply read_erased_growing; [apply Hrd; [lia|done]|]. by etransitivity.
        - assert (k = o) as -> by (Z.div_mod_to_equations; lia). eapply read_erased_growing; [|exact H23].
          destruct Hl as (_ & _ & [l El]). exists [], l. subst w2. cbn [set_io w_log]. rewrite Ev, El. done. }
      apply wp_bind, wp_when; intros _.
      * eapply wp_look_serve; [exact Hl2|]. intros w3 Hl3 Hg3. apply wp_ret. rewrite u32_small by (unfold is_u32; lia).
        split; [|lia]. split_and!; [lia|Z.div_mod_to_equations; lia|Z.div_mod_to_equations; lia|exact Hl3|by do 2 (etransitivity; [eassumption|])|by apply Hnext].
      * apply wp_ret. rewrite u32_small by (unfold is_u32; lia).
        split; [|lia]. split_and!; [lia|Z.div_mod_to_equations; lia|Z.div_mod_to_equations; lia|exact Hl2|by etransitivity|by apply Hnext].
    + apply wp_ret, HQ; [done|by etransitivity|]. exists o, (port_wrap (Mmio 32 (address + o)) v). split_and!; try done.
      destruct Hl as (_ & _ & [l El]). exists [], l. subst w2. cbn [set_io w_log]. by rewrite El.
  - apply wp_ret, HQ; [done..|]. intros k Hk. apply Hrd. lia.
Qed.
End Search.

(** A geometry that the counters can hold. *)
Definition region_bytes (rs : list erase_region) : Z := foldr (fun r n => er_blocks r * er_block_size r + n) 0 rs.
Record geometry_ok (flash : flash_device) : Prop := GeometryOk {
  geo_base : fd_base flash = FLASH_WINDOW_BASE;
  geo_size : 0 <= fd_size flash <= FLASH_WINDOW_END - FLASH_WINDOW_BASE;
  geo_regions : 0 <= fd_regions flash <= Z.of_nat (length (fd_erase flash));
  geo_blocks r : r ∈ fd_erase flash -> 0 <= er_blocks r /\ 0 <= er_block_size r;
  geo_bytes : region_bytes (fd_erase flash) <= 0x80000000;
}.
(** The block [j] of a region. *)
Definition is_erase_block (flash : flash_device) (offset size : Z) : Prop :=
  exists i r j, Z.of_nat i < fd_regions flash /\ fd_erase flash !! i = Some r /\ size = er_block_size r /\ 0 <= j < er_blocks r /\
    offset = region_bytes (take i (fd_erase flash)) + j * size.
(** A block in the blank range whose neighbours can be sampled. *)
Definition selected (flash : flash_device) (blank alignment : Z) (flash' : flash_device) : Prop :=
  exists offset size, flash' = set_test_block (fd_base flash + offset) size flash /\ is_erase_block flash offset size /\
    blank <= offset /\ offset + size <= blank + alignment /\ MAP_SAMPLE_SIZE <= offset /\
    offset + size + MAP_SAMPLE_SIZE <= fd_size flash.
Lemma region_bytes_app rs rs' : region_bytes (rs ++ rs') = region_bytes rs + region_bytes rs'.
Proof. induction rs as [|r rs IH]; simpl; [done|]. rewrite IH. lia. Qed.
Lemma region_bytes_pos rs : (forall r, r ∈ rs -> 0 <= er_blocks r /\ 0 <= er_block_size r) -> 0 <= region_bytes rs.
Proof.
  induction rs as [|r rs IH]; intros H; simpl; [lia|]. pose proof (H r ltac:(by left)).
  specialize (IH ltac:(intros; apply H; by right)). nia.
Qed.
Lemma region_bytes_take flash i r : geometry_ok flash -> fd_erase flash !! i = Some r ->
  0 <= region_bytes (take i (fd_erase flash)) /\
  region_bytes (take (S i) (fd_erase flash)) = region_bytes (take i (fd_erase flash)) + er_blocks r * er_block_size r /\
  region_bytes (take (S i) (fd_erase flash)) <= 0x80000000.
Proof.
  intros [_ _ _ Hb Ht] Hi. split; [|split].
  - apply region_bytes_pos. intros x Hx. apply Hb. rewrite <- (take_drop i (fd_erase flash)). apply elem_of_app. by left.
  - rewrite (take_S_r _ _ _ Hi), region_bytes_app. simpl. lia.
  - rewrite <- (take_drop (S i) (fd_erase flash)), region_bytes_app in Ht.
    pose proof (region_bytes_pos (drop (S i) (fd_erase flash))) as H.
    assert (0 <= region_bytes (drop (S i) (fd_erase flash))) as H'; [|lia].
    apply H. intros x Hx. apply Hb. rewrite <- (take_drop (S i) (fd_erase flash)). apply elem_of_app. by right.
Qed.

Section Select.
Context {D : Type} `{!Device D} (flash : flash_device) (Hg : geometry_ok flash) (blank alignment : Z) (Hblank : 0 <= blank)
  (Halign : blank + alignment <= fd_size flash) (f : nat) (w : world D tests).
#[local] Abbreviation erase := (fd_erase flash).

Lemma fits_spec offset size : 0 <= offset -> 0 <= size -> offset + size <= 0x80000000 -> 0 <= alignment ->
  erase_block_fits flash blank alignment offset size = true <->
  blank <= offset /\ offset + size <= blank + alignment /\ MAP_SAMPLE_SIZE <= offset /\ offset + size + MAP_SAMPLE_SIZE <= fd_size flash.
Proof.
  intros H1 H2 H3 H4. pose proof (geo_size flash Hg) as Hs. unfold FLASH_WINDOW_END, FLASH_WINDOW_BASE in Hs.
  unfold erase_block_fits. change MAP_SAMPLE_SIZE with 8 in *.
  rewrite (u32_small (offset + size)), (u32_small (blank + alignment)), u32_small by (unfold is_u32; lia).
  rewrite !andb_true_iff. lia.
Qed.
(** None of the blocks of the region fits. *)
Definition unfit (i : nat) (r : erase_region) (n : Z) : Prop :=
  forall j, 0 <= j < n -> erase_block_fits flash blank alignment (region_bytes (take i erase) + j * er_block_size r) (er_block_size r) = false.
Lemma wp_select_in_region E Q i r : Z.of_nat i < fd_regions flash -> erase !! i = Some r -> er_blocks r < Z.of_nat f -> 0 <= alignment ->
  let start := region_bytes (take i erase) in
  (forall s, match s with
             | inl o => o = region_bytes (take (S i) erase) /\ unfit i r (er_blocks r)
             | inr flash' => selected flash blank alignment flash' end -> Q s w) ->
  wp E (cfi_select_in_region flash blank alignment (Z.of_nat i) start) Q f w.
Proof.
  intros Hreg Hi Hf Ha start HQ. unfold cfi_select_in_region.
  destruct (region_bytes_take flash i r Hg Hi) as (Hp & Ht & Hle). fold start in Hp, Ht.
  pose proof (geo_blocks flash Hg r ltac:(by eapply list_elem_of_lookup_2)) as [Hb0 Hs0].
  eapply (wp_iter _ _ (fun '(j, o) w' => 0 <= j <= er_blocks r /\ o = start + j * er_block_size r /\ w' = w /\ unfit i r j)
    (fun '(j, _) _ => Z.to_nat (er_blocks r - j))); [split_and!; try done; try lia; intros ? ?; lia|lia|].
  intros [j o] w' (Hj & Ho & -> & Hno). subst o. apply wp_bind. unfold erase_region_at. rewrite Nat2Z.id, Hi. apply wp_ret.
  destruct (Z.ltb_spec j (er_blocks r)).
  - assert (0 <= j * er_block_size r /\ start + j * er_block_size r + er_block_size r <= 0x80000000) as [Hm Hfit] by nia.
    destruct (erase_block_fits _ _ _ _ _) eqn:Efit; apply wp_ret.
    + apply HQ. apply fits_spec in Efit; [|lia|lia|lia|lia].
      exists (start + j * er_block_size r), (er_block_size r). split; [|split; [exists i, r, j; by split_and!; try lia|exact Efit]].
      f_equal. pose proof (geo_base flash Hg) as ->. unfold FLASH_WINDOW_BASE. apply u32_small. unfold is_u32.
      pose proof (geo_size flash Hg) as Hs. unfold FLASH_WINDOW_END, FLASH_WINDOW_BASE in Hs.
      change MAP_SAMPLE_SIZE with 8 in *. lia.
    + rewrite u32_small by (unfold is_u32; lia). split; [|lia]. split_and!; try done; try nia. intros k Hk. destruct (decide (k = j)) as [->|]; [done|apply Hno; lia].
  - assert (j = er_blocks r) as -> by lia. apply wp_ret, HQ. split; [lia|done].
Qed.
Lemma wp_select_erase_block E Q : fd_regions flash < Z.of_nat f -> (forall r, r ∈ erase -> er_blocks r < Z.of_nat f) ->
  0 <= alignment ->
  (forall b flash', (if b : bool then selected flash blank alignment flash' else flash' = flash /\ forall s, ~ selected flash blank alignment s) -> Q (b, flash') w) ->
  wp E (cfi_select_erase_block flash blank alignment) Q f w.
Proof.
  intros Hf1 Hf2 Ha HQ. unfold cfi_select_erase_block. pose proof (geo_regions flash Hg) as Hr.
  eapply (wp_iter _ _ (fun '(n, o) w' => exists i, n = Z.of_nat i /\ (Z.of_nat i <= fd_regions flash) /\
      o = region_bytes (take i erase) /\ w' = w /\ forall k r, (k < i)%nat -> erase !! k = Some r -> unfit k r (er_blocks r))
    (fun '(n, _) _ => Z.to_nat (fd_regions flash - n)));
    [exists 0%nat; split_and!; try done; intros; lia|lia|].
  intros [n o] w' (i & -> & Hi & -> & -> & Hno). destruct (Z.ltb_spec (Z.of_nat i) (fd_regions flash)).
  - destruct (lookup_lt_is_Some_2 erase i ltac:(lia)) as [r Er].
    apply wp_bind. eapply wp_select_in_region; [lia|exact Er|apply Hf2; by eapply list_elem_of_lookup_2|done|].
    intros [o|flash'] Hs; apply wp_ret; [|by apply (HQ true)].
    destruct Hs as [-> Hs]. split; [|lia]. exists (S i). split_and!; [lia|lia|done|done|]. intros k r' Hk Er'. destruct (decide (k = i)) as [->|]; [by assert (r' = r) as -> by congruence|apply Hno; [lia|done]].
  - apply wp_ret, (HQ false). split; [done|]. intros s (o & size & _ & (k & r & j & Hk & Er & -> & Hj & ->) & Hfit).
    pose proof (Hno k r ltac:(lia) Er j Hj) as Hf.
    destruct (region_bytes_take flash k r Hg Er) as (? & ? & ?). pose proof (geo_blocks flash Hg r ltac:(by eapply list_elem_of_lookup_2)).
    apply fits_spec in Hfit; [congruence|nia..].
Qed.
End Select.

(** *** The search *)
Section FindBlank.
Context {D : Type} `{!Device D} `{B : Board} (c : Z -> Z) (Hc : forall a, is_u32 (c a)) (Hrun : clock_ideal c ClkStm <> 0)
  (HS : stable search_port (cgu_reads c)) (flash : flash_device) (Hg : geometry_ok flash) (alignment : Z) (f : nat) (w : world D tests).
Context (Hblocks : forall r, r ∈ fd_erase flash -> er_blocks r < Z.of_nat f) (Ha : 4 <= alignment < Z.of_nat f) (Ha' : alignment <= 0x10000000)
  (Hmod : alignment mod 4 = 0) (Hregs : fd_regions flash < Z.of_nat f) (Hfuel : fd_size flash / alignment + 1 < Z.of_nat f).
(** What a search from [blank] on found, and why it passed a range by. *)
Definition found_in (blank : Z) (flash' : flash_device) (w' : world D tests) : Prop :=
  selected flash blank alignment flash' /\ forall k, 0 <= k < alignment -> k mod 4 = 0 -> read_erased w w' (FLASH_WINDOW_BASE + blank + k).
Definition passed_by (blank : Z) (w' : world D tests) : Prop :=
  written w w' (FLASH_WINDOW_BASE + blank) alignment \/ forall s, ~ selected flash blank alignment s.
Lemma wp_look_range E blank Q w1 : 0 <= blank -> blank + alignment <= fd_size flash -> looking c w w1 ->
  (forall w', looking c w w' -> growing w1 w' -> passed_by blank w' -> Q (inl (u32 (blank + alignment))) w') ->
  (forall flash' w', found_in blank flash' w' -> Q (inr (true, flash')) w') ->
  wp E (test_watchdog_reset;;
    b ← cfi_range_is_blank (u32 (fd_base flash + blank)) alignment;
    if negb b then mret (inl (u32 (blank + alignment)))
    else
      '(found, flash') ← cfi_select_erase_block flash blank alignment;
      mret (if found : bool then inr (true, flash') else inl (u32 (blank + alignment)))) Q f w1.
Proof.
  intros Hb Hfit Hl1 HQ1 HQ2. pose proof (geo_size flash Hg) as Hs. unfold FLASH_WINDOW_END, FLASH_WINDOW_BASE in Hs.
  apply wp_bind. eapply (wp_look_reset c Hc Hrun HS w); [exact Hl1|]. intros w2 Hl2 Hg2.
  rewrite (geo_base flash Hg), (u32_small (FLASH_WINDOW_BASE + blank)) by (unfold is_u32, FLASH_WINDOW_BASE; lia).
  apply wp_bind. eapply (wp_range_is_blank c HS w);
    [exact Hl2|lia|unfold FLASH_WINDOW_BASE, FLASH_WINDOW_END; lia|done|lia|lia|].
  intros b w3 Hl3 Hg3 Hread. assert (growing w1 w3) as Hg13 by by etransitivity. destruct b; cbn [negb]; [|apply wp_ret, HQ1; [done|done|by left]].
  apply wp_bind. eapply wp_select_erase_block; [done|lia|done|done|done|lia|].
  intros [] flash' Hs'; cbv beta iota; apply wp_ret; [by apply HQ2|]. apply HQ1; [done|done|]. right. apply Hs'.
Qed.
Lemma wp_find_blank_block : looking c w w -> wp total (cfi_find_blank_block flash alignment) (fun '(found, flash') w' =>
  if found : bool then exists blank, 0 <= blank /\ blank mod 4 = 0 /\ blank + alignment <= fd_size flash /\ found_in blank flash' w'
  else flash' = flash /\ forall n, 0 <= n -> n * alignment + alignment <= fd_size flash -> passed_by (n * alignment) w') f w.
Proof.
  intros Hl. pose proof (geo_size flash Hg) as Hs. unfold FLASH_WINDOW_END, FLASH_WINDOW_BASE in Hs.
  eapply (wp_iter _ _ (fun o w' => exists n, 0 <= n <= fd_size flash / alignment /\ o = n * alignment /\ looking c w w' /\
      forall m, 0 <= m < n -> passed_by (m * alignment) w')
    (fun o _ => Z.to_nat (fd_size flash / alignment + 1 - o / alignment))).
  { exists 0. split_and!; [lia|by apply Z.div_pos; lia|lia|done|intros; lia]. }
  { rewrite Z.div_0_l by lia. lia. }
  intros o w1 (n & Hn & -> & Hl1 & Hpassed).
  assert (n * alignment <= fd_size flash) as Hno.
  { pose proof (Z.mul_div_le (fd_size flash) alignment ltac:(lia)). nia. }
  rewrite (u32_small (n * alignment + alignment)) at 1 by (unfold is_u32; nia).
  destruct (Z.leb_spec (n * alignment + alignment) (fd_size flash)) as [Hfit|Hend].
  2: { apply wp_ret. split; [done|]. intros m Hm Hfit. apply Hpassed. nia. }
  apply wp_look_range; [nia|done|done| |].
  - intros w2 Hl2 Hg2 Hp. assert (n + 1 <= fd_size flash / alignment) by (apply Z.div_le_lower_bound; lia).
    rewrite u32_small by (unfold is_u32; nia). replace (n * alignment + alignment) with ((n + 1) * alignment) by lia. rewrite !Z.div_mul by lia.
    split; [|lia]. exists (n + 1). split_and!; [lia|lia|lia|done|]. intros m Hm. destruct (decide (m = n)) as [->|]; [done|].
    destruct (Hpassed m ltac:(lia)) as [Hw|Hno']; [left; by eapply written_growing|by right].
  - intros flash' w2 Hf'. exists (n * alignment). split_and!; [nia| |done|done]. rewrite Z.mul_mod, Hmod, Z.mul_0_r by lia. done.
Qed.
End FindBlank.
(** C29. The search for an erased block finds one if there is one to be found.  The clocks of the
    bus run; the description of the flash is one the counters hold: its size is at most the
    window's, and its erase regions are at most 2 GiB together (with more the walk over them wraps,
    and what it finds need not be an erase block); the alignment is a multiple of four up to
    256 MiB.  Then the search ends.  What it finds is an erase block of one of the regions in
    use with its neighbouring samples inside the flash, and every word of it was read as erased
    during the search.  When it finds nothing the description of the flash is as before, and of
    every aligned range of the flash a word was read that is not erased, or no block that could be
    taken lies in it. *)
Theorem cfi_find_blank_block_found {D} `{!Device D} `{B : Board} (c : Z -> Z) (flash : flash_device) (alignment : Z) (f : nat)
    (w : world D tests) :
  (forall a, is_u32 (c a)) -> clock_ideal c ClkStm <> 0 -> stable search_port (cgu_reads c) -> cgu_reads c (w_dev w) ->
  ticks_per_s (w_lib w) <> 0 -> geometry_ok flash -> (forall r, r ∈ fd_erase flash -> er_blocks r < Z.of_nat f) ->
  4 <= alignment < Z.of_nat f -> alignment <= 0x10000000 -> alignment mod 4 = 0 ->
  fd_regions flash < Z.of_nat f -> fd_size flash / alignment + 1 < Z.of_nat f ->
  exists found flash' w', cfi_find_blank_block flash alignment f w = Done (found, flash') w' /\
    if found : bool then exists offset size, flash' = set_test_block (FLASH_WINDOW_BASE + offset) size flash /\
      is_erase_block flash offset size /\ MAP_SAMPLE_SIZE <= offset /\ offset + size + MAP_SAMPLE_SIZE <= fd_size flash /\
      forall k, offset <= k < offset + size -> k mod 4 = 0 -> read_erased w w' (FLASH_WINDOW_BASE + k)
    else flash' = flash /\ forall n, 0 <= n -> n * alignment + alignment <= fd_size flash ->
      written w w' (FLASH_WINDOW_BASE + n * alignment) alignment \/ forall s, ~ selected flash (n * alignment) alignment s.
Proof.
  intros Hc Hrun HS Hr Ht Hg Hblocks Ha Ha' Hmod Hregs Hfuel.
  assert (looking c w w) as Hl by by split_and!.
  pose proof (wp_find_blank_block c Hc Hrun HS flash Hg alignment f w Hblocks Ha Ha' Hmod Hregs Hfuel Hl) as Hwp.
  unfold wp in Hwp. destruct (cfi_find_blank_block flash alignment f w) as [[found flash'] w'|]; [|done].
  exists found, flash', w'. split; [done|]. destruct found; [|exact Hwp].
  destruct Hwp as (blank & H0 & Hb4 & Hfit & (o & n & -> & He & H1 & H2 & H3 & H4) & Hread).
  exists o, n. pose proof (geo_base flash Hg) as ->. split_and!; try done.
  intros k Hk Hk4. specialize (Hread (k - blank) ltac:(lia)).
  replace (FLASH_WINDOW_BASE + blank + (k - blank)) with (FLASH_WINDOW_BASE + k) in Hread by lia.
  apply Hread. Z.div_mod_to_equations; lia.
Qed.

(** ** An erased flash of two regions on a running board, for the witnesses *)
Definition erased_flash : Device unit :=
  {| dev_read p d := (match p with
                      | Mmio _ a => if in_window a then 0xFFFFFFFF else boot_clocks a
                      | _ => 0 end, d);
     dev_write _ _ d := d |}.
Definition erased_world : world unit tests :=
  World tt (mem_put ∅ 0x8000 [1; 2; 3; 4; 5; 6]) [] (LibState 26000000 0 0 0 550 false) (Tests 0 0 0).
Definition two_regions : flash_device :=
  FlashDevice 0 FLASH_WINDOW_BASE 0x89 0x880D 0x10A 20 0x100000 2 64 0 0 0 0 0 0x100000
    [EraseRegion 4 0x8000; EraseRegion 7 0x20000; EraseRegion 0 0; EraseRegion 0 0] [].
Lemma cfi_operations_legal_witness :
  let B := plain_board PMB8876 in
  exists w' es, foldM (fun _ op => run_cfi_op (Device0 := erased_flash) two_regions op) tt
      [UnlockBlock 0xA0020000 false; ProgramBuffer 0xA0020000 0x8000 3; EraseBlock 0xA0020000 false; LockBlock 0xA0020000 false]
      (Z.to_nat 1000001) erased_world = Done tt w' /\
    w_log w' = es ++ [] /\ cfi_monitor ReadArray (rev es) = Some ReadArray /\
    w_mem w' = w_mem erased_world /\ w_app w' = Tests 0 0 0.
Proof.
  intros B. apply (cfi_operations_legal (Device0 := erased_flash) two_regions
    [UnlockBlock 0xA0020000 false; ProgramBuffer 0xA0020000 0x8000 3; EraseBlock 0xA0020000 false; LockBlock 0xA0020000 false]
    (Z.to_nat 1000001) erased_world).
  - rewrite Z2Nat.id; lia.
  - done.
  - assert (FLASH_WINDOW_BASE <= 0xA0020000 < FLASH_WINDOW_END) as Ha by by split; vm_compute.
    repeat apply Forall_cons_2; try (by split); [|by apply Forall_nil_2].
    split; [exact Ha|]. split; [by split; vm_compute|]. split; [rewrite Z2Nat.id; lia|]. split; [by vm_compute|].
    intros i Hi. apply mem_valid_pos. lia.
Defined.
Lemma erased_reads (d : unit) : cgu_reads (Device0 := erased_flash) boot_clocks d.
Proof. intros a Ha. repeat (apply elem_of_cons in Ha as [->|Ha]; [done|]). by apply elem_of_nil in Ha. Qed.
Lemma two_regions_ok : geometry_ok two_regions.
Proof.
  split; [done|by split; vm_compute|by split; vm_compute| |by vm_compute].
  intros r Hr. cbn [fd_erase two_regions] in Hr.
  repeat (apply elem_of_cons in Hr as [->|Hr]; [by split; vm_compute|]). by apply elem_of_nil in Hr.
Qed.
Lemma cfi_find_blank_block_found_witness :
  let B := plain_board PMB8876 in
  exists found flash' w', cfi_find_blank_block (Device0 := erased_flash) two_regions 0x20000 (Z.to_nat 0x20001) erased_world =
      Done (found, flash') w' /\
    if found : bool then exists offset size, flash' = set_test_block (FLASH_WINDOW_BASE + offset) size two_regions /\
      is_erase_block two_regions offset size /\ MAP_SAMPLE_SIZE <= offset /\ offset + size + MAP_SAMPLE_SIZE <= fd_size two_regions /\
      forall k, offset <= k < offset + size -> k mod 4 = 0 -> read_erased erased_world w' (FLASH_WINDOW_BASE + k)
    else flash' = two_regions /\ forall n, 0 <= n -> n * 0x20000 + 0x20000 <= fd_size two_regions ->
      written erased_world w' (FLASH_WINDOW_BASE + n * 0x20000) 0x20000 \/ forall s, ~ selected two_regions (n * 0x20000) 0x20000 s.
Proof.
  intros B. apply (cfi_find_blank_block_found (Device0 := erased_flash) boot_clocks two_regions 0x20000 (Z.to_nat 0x20001) erased_world).
  - apply boot_clocks_u32.
  - by vm_compute.
  - intros p d _ _. split; [apply erased_reads|intros v; apply erased_reads].
  - apply erased_reads.
  - done.
  - apply two_regions_ok.
  - intros r Hr. rewrite Z2Nat.id by lia. cbn [fd_erase two_regions] in Hr.
    repeat (apply elem_of_cons in Hr as [->|Hr]; [by vm_compute|]). by apply elem_of_nil in Hr.
  - rewrite Z2Nat.id by lia. lia.
  - done.
  - done.
  - rewrite Z2Nat.id by lia. by vm_compute.
  - rewrite Z2Nat.id by lia. by vm_compute.
Defined.
