(* ===== verification/FlashRw.v ===== *)
(** * The flash read/write test ([unit/cfi-intel/rw.c])

    The program looks for an erased block, programs it word by word and through the write
    buffer, with and without suspending, erases it and compares its neighbours.  It works
    on the flash the phone lives in, so what matters most is that it writes to the chosen
    block only and never leaves the flash in the middle of a command. *)
From S2P Require Import Prelude Machine Board Regs Clock Stopwatch Wdt Usart TestLib Cfi.

Definition SEARCH_ALIGNMENT : Z := 1 .<< 20.
(** [sizeof(previous_block)] *)
Definition SAMPLE_SIZE : Z := MAP_SAMPLE_WORDS * 2.

(** [buffer[512]], [previous_block], [next_block] of [test_program_and_cleanup]. *)
Definition rw_buffer : Z := LOCAL 20.
Definition rw_previous_block : Z := LOCAL 21.
Definition rw_next_block : Z := LOCAL 22.

Section Code.
Context {D : Type} `{!Device D} `{B : Board} `{TestBuild}.
#[local] Abbreviation M := (M D tests).
Context (printf : message -> M unit).

Definition find_test_flash (flash : flash_device) : M (bool * flash_device) :=
  r ← foldE (fun flash cs =>
    printf ("# probing CS%lu for a blank block" +:+ NL, [PNum cs]);;
    '(found, flash) ← cfi_probe cs flash;
    if negb found then mret (inl flash)
    else
      '(blank, flash) ← cfi_find_blank_block flash SEARCH_ALIGNMENT;
      if blank : bool then
        printf ("# CS%lu %04lX:%04lX block=%08lX..%08lX buffer=%lu bytes" +:+ NL,
                [PNum (fd_cs flash); PNum (fd_manufacturer flash); PNum (fd_device flash); PNum (fd_test_block flash);
                 PNum (u32 (fd_test_block flash + fd_test_block_size flash - 1)); PNum (fd_write_buffer_size flash)]);;
        mret (inr (true, flash))
      else mret (inl flash)) flash cfi_chip_selects;
  match r with
  | inr r => mret r
  | inl flash => cfi_disable_chip_selects;; mret (false, flash)
  end.

Definition test_operation (name : string) (status : Z) : M unit :=
  _ ← test_check printf name (((status .& STATUS_READY) !=? 0) && ((status .& STATUS_ERRORS) ==? 0));
  when (((status .& STATUS_READY) ==? 0) || ((status .& STATUS_ERRORS) !=? 0))
    (printf ("# status=%04X" +:+ NL, [PNum status])).
Definition clear_status (address : Z) : M unit :=
  status ← cfi_clear_status address;
  _ ← test_eq_u32 printf "status errors are cleared" 0 (status .& STATUS_ERRORS); mret tt.
Definition test_locked_operation (flash : flash_device) (erase : bool) (name : string) : M unit :=
  status ← (if erase then cfi_erase_block (fd_test_block flash) false
            else cfi_program_word flash (fd_test_block flash) 0x5AA5 false);
  _ ← test_check printf name ((status .& (STATUS_READY .| BIT 1)) ==? (STATUS_READY .| BIT 1));
  v ← rd16 (fd_test_block flash);
  _ ← test_eq_u32 printf "locked operation preserves data" 0xFFFF v;
  clear_status (fd_test_block flash).
Definition program_buffer (flash : flash_device) (address data words : Z) : M unit :=
  '(status, buffer_status) ← cfi_program_buffer flash address data words;
  _ ← test_check printf "write buffer is ready" ((buffer_status .& STATUS_READY) !=? 0);
  test_operation "buffer program completes" status.
(** What both suspended operations do while suspended, and the resumption. *)
Definition suspended_read (what : string) (address suspend read_sample read_address : Z) (resumed : string) : M Z :=
  cfi_enter_read_array address;;
  _ ← test_eq_memory printf what read_sample read_address (MAP_SAMPLE_WORDS * 2);
  wr16 address 0xD0;;
  wr16 address 0x70;;
  status ← cfi_wait_ready address;
  _ ← test_eq_u32 printf resumed 0 (status .& suspend);
  cfi_enter_read_array address;;
  mret status.
Definition program_buffer_with_suspend (flash : flash_device) (address data words read_sample read_address : Z) : M Z :=
  wr16 address 0x50;;
  wr16 address (if fd_manufacturer flash ==? 0x0020 then 0xE9 else 0xE8);;
  buffer_status ← cfi_wait_ready address;
  _ ← test_check printf "suspended write buffer is ready" ((buffer_status .& STATUS_READY) !=? 0);
  wr16 address (u32 (words - 1));;
  write_words address data words;;
  wr16 address 0xD0;;
  wr16 address 0xB0;;
  wr16 address 0x70;;
  status ← cfi_wait_ready address;
  if (status .& STATUS_PROGRAM_SUSPEND) ==? 0 then
    test_skip printf "buffer program enters suspend" "program completed before suspend";;
    cfi_enter_read_array address;;
    mret status
  else
    _ ← test_check printf "buffer program enters suspend" ((status .& STATUS_ERRORS) ==? 0);
    suspended_read "program suspend allows reading another block" address STATUS_PROGRAM_SUSPEND read_sample read_address
      "program suspend clears after resume".
Definition erase_with_suspend (address read_sample read_address : Z) : M Z :=
  wr16 address 0x50;;
  wr16 address 0x20;;
  wr16 address 0xD0;;
  wr16 address 0xB0;;
  wr16 address 0x70;;
  status ← cfi_wait_ready address;
  if (status .& STATUS_ERASE_SUSPEND) ==? 0 then
    test_skip printf "erase enters suspend" "erase completed before suspend";;
    cfi_enter_read_array address;;
    mret status
  else
    _ ← test_check printf "erase enters suspend" ((status .& STATUS_ERRORS) ==? 0);
    suspended_read "erase suspend allows reading another block" address STATUS_ERASE_SUSPEND read_sample read_address
      "erase suspend clears after resume".

(** [memcpy] to a local array; [buffer[word] = 0xA500 ^ word]. *)
Definition copy_sample (destination source : Z) : M unit :=
  alloc destination SAMPLE_SIZE;;
  foldM (fun _ i => b ← load_u8 (u32 (source + i)); st8 (destination + i) b) tt (seqZ 0 SAMPLE_SIZE).
Definition fill_buffer (words : Z) : M unit :=
  alloc rw_buffer 1024;;
  iter (fun word =>
    if word <? words then
      let value := u16 (0xA500 .^ word) in
      st8 (rw_buffer + word * 2) (value .& 0xFF);; st8 (rw_buffer + word * 2 + 1) (value .>> 8);;
      mret (inl (word + 1))
    else mret (inr tt)) 0.
Definition blank_check_passes (flash : flash_device) (name : string) : M unit :=
  when (fd_manufacturer flash ==? 0x0020) (
    blank_status ← cfi_blank_check (fd_test_block flash);
    _ ← test_check printf name ((blank_status .& (STATUS_READY .| BIT 5)) ==? STATUS_READY); mret tt).
Definition lock_status_is (flash : flash_device) (name : string) (expected : Z) : M unit :=
  status ← cfi_read_lock_status (fd_test_block flash);
  _ ← test_eq_u32 printf name expected (status .& 0x3); mret tt.
(** [test_operation(name, operation(...))] *)
Definition operate (name : string) (operation : M Z) : M unit := status ← operation; test_operation name status.

(** [test_program_and_cleanup] in its three parts: the locked block, programming, cleaning up. *)
Definition locked_checks (flash : flash_device) : M unit :=
  let block := fd_test_block flash in
  lock_status_is flash "test block starts locked" 1;;
  test_locked_operation flash false "locked word program is rejected";;
  test_locked_operation flash true "locked erase is rejected";;
  blank_check_passes flash "blank check reports erased block";;
  operate "block unlock completes" (cfi_unlock_block block false);;
  lock_status_is flash "test block is unlocked" 0.
Definition program_checks (flash : flash_device) (words : Z) : M unit :=
  let block := fd_test_block flash in
  let previous := u32 (block - SAMPLE_SIZE) in
  operate "single-word program completes" (cfi_program_word flash block 0x5AA5 false);;
  v ← rd16 block;
  _ ← test_eq_u32 printf "single word reads back" 0x5AA5 v;
  let short_buffer := u32 (block + fd_write_buffer_size flash) in
  program_buffer flash short_buffer rw_buffer 1;;
  _ ← test_eq_memory printf "one-word buffer reads back" rw_buffer short_buffer 2;
  let odd_buffer := u32 (block + u32 (fd_write_buffer_size flash * 2)) in
  program_buffer flash odd_buffer rw_buffer 7;;
  _ ← test_eq_memory printf "seven-word buffer reads back" rw_buffer odd_buffer 14;
  let full_buffer := u32 (u32 (block + fd_test_block_size flash) - fd_write_buffer_size flash) in
  (if (fd_features flash .& BIT 2) !=? 0 then
     operate "resumed buffer program completes"
       (program_buffer_with_suspend flash full_buffer rw_buffer words rw_previous_block previous)
   else
     test_skip printf "buffer program suspend" "not supported";;
     program_buffer flash full_buffer rw_buffer words);;
  _ ← test_eq_memory printf "full buffer reads back" rw_buffer full_buffer (fd_write_buffer_size flash);
  when (fd_manufacturer flash ==? 0x0020) (
    blank_status ← cfi_blank_check block;
    _ ← test_check printf "blank check reports programmed block" ((blank_status .& BIT 5) !=? 0); mret tt).
Definition erase_checks (flash : flash_device) : M unit :=
  let block := fd_test_block flash in
  let previous := u32 (block - SAMPLE_SIZE) in
  operate "block lock completes" (cfi_lock_block block false);;
  lock_status_is flash "test block is locked again" 1;;
  operate "block unlock completes" (cfi_unlock_block block false);;
  operate "cleanup erase completes" (
    if (fd_features flash .& BIT 1) !=? 0 then erase_with_suspend block rw_previous_block previous
    else test_skip printf "erase suspend" "not supported";; cfi_erase_block block false);;
  test_watchdog_reset;;
  blank ← cfi_range_is_blank block (fd_test_block_size flash);
  _ ← test_check printf "cleanup erased the complete block" blank;
  blank_check_passes flash "blank check accepts cleaned block";;
  _ ← test_eq_memory printf "previous block is unchanged" rw_previous_block previous SAMPLE_SIZE;
  _ ← test_eq_memory printf "next block is unchanged" rw_next_block (u32 (block + fd_test_block_size flash)) SAMPLE_SIZE;
  mret tt.
Definition lock_checks (flash : flash_device) : M unit :=
  let block := fd_test_block flash in
  operate "block lock completes" (cfi_lock_block block false);;
  lock_status_is flash "clean block is locked" 1;;
  operate "block lock-down completes" (cfi_lock_down_block block false);;
  lock_status_is flash "clean block is locked-down" 3;;
  operate "locked-down block unlock completes" (cfi_unlock_block block false);;
  status ← cfi_read_lock_status block;
  let unlocked_state := status .& 0x3 in
  _ ← test_check printf "locked-down block unlock state is valid" ((unlocked_state ==? 0) || (unlocked_state ==? 2));
  operate "block final lock completes" (cfi_lock_block block false);;
  lock_status_is flash "clean block final lock state" (if unlocked_state ==? 0 then 1 else 3).
Definition test_program_and_cleanup (flash : flash_device) : M unit :=
  let words := fd_write_buffer_size flash / 2 in
  fill_buffer words;;
  copy_sample rw_previous_block (u32 (fd_test_block flash - SAMPLE_SIZE));;
  copy_sample rw_next_block (u32 (fd_test_block flash + fd_test_block_size flash));;
  locked_checks flash;;
  program_checks flash words;;
  erase_checks flash;;
  lock_checks flash.
Definition main : M Z :=
  test_start printf "Intel/ST CFI flash read/write test";;
  wr32 EBU_CLC (1 .<< MOD_CLC_RMC_SHIFT);;
  test_category printf "Discovery";;
  '(found, flash) ← find_test_flash flash_device_zero;
  _ ← test_check printf "blank erase block is found" found;
  if negb found then test_finish printf
  else
    test_category printf "Program and cleanup";;
    test_program_and_cleanup flash;;
    test_finish printf.
End Code.

(** ** What the program does to the flash *)
Section Confined.
Context {D : Type} `{!Device D} `{B : Board} `{TestBuild} (printf : message -> M D tests unit)
  (Hprintf : forall msg, uses elsewhere (printf msg)) (allowed : Z -> Z -> Prop) (w0 : world D tests).
Implicit Types w : world D tests.
#[local] Abbreviation M := (M D tests).

(** Since [w0] the accesses were legal for the command interface and left it in mode [m], and
    every value written to the flash was allowed at its address. *)
Definition written_ok (e : event) : Prop :=
  match e with Wr (Mmio _ a) v => in_window a = true -> allowed a v | _ => True end.
Definition lawful (m : cfi_mode) w : Prop :=
  exists es, w_log w = es ++ w_log w0 /\ cfi_monitor ReadArray (rev es) = Some m /\ Forall written_ok es.
(** Wherever the program stops. *)
Definition halted (_ : cause) w : Prop := exists m, lawful m w.
Definition leads {R} (m : cfi_mode) (p : M R) (m' : cfi_mode) : Prop :=
  forall f w, lawful m w -> wp halted p (fun _ w' => lawful m' w') f w.

Lemma lawful_start : lawful ReadArray w0.
Proof. exists []. by split_and!. Qed.
Lemma lawful_step m m' w w' e : lawful m w -> cfi_monitor_step m e = Some m' -> written_ok e -> w_log w' = e :: w_log w -> lawful m' w'.
Proof.
  intros (es & El & Em & Fm) He Hw Hl. exists (e :: es). rewrite Hl, El. split; [done|]. simpl. rewrite cfi_monitor_app, Em. simpl.
  rewrite He. split; [done|]. by apply Forall_cons.
Qed.
Lemma lawful_same m w w' : lawful m w -> w_log w' = w_log w -> lawful m w'.
Proof. intros Hl E. unfold lawful. by rewrite E. Qed.
Lemma elsewhere_ok e : elsewhere (event_port e) -> written_ok e.
Proof. destruct e as [|[width a| |] v]; simpl; try done. by intros ->. Qed.

Lemma leads_ret {R} m (r : R) : leads m (mret r) m.
Proof. intros f w Hw. by apply wp_ret. Qed.
Lemma leads_stop {R} m m' c : leads (R := R) m (stop c) m'.
Proof. intros f w Hw. apply wp_stop. by exists m. Qed.
Lemma leads_bind {R S} m m1 m' (p : M R) (k : R -> M S) : leads m p m1 -> (forall r, leads m1 (k r) m') -> leads m (p ≫= k) m'.
Proof. intros Hp Hk f w Hw. apply wp_bind. eapply wp_mono; [by apply Hp|]. intros r w' Hw'. by apply Hk. Qed.
(** What touches other registers only. *)
Lemma leads_uses {R} m (p : M R) : uses elsewhere p -> leads m p m.
Proof.
  intros Hp f w Hw. pose proof (Hp f w) as H0. unfold wp.
  assert (forall w', traced elsewhere w w' -> lawful m w') as Hl.
  { intros w' (_ & l & El & Fl). destruct Hw as (es & E1 & E2 & E3). exists (l ++ es). rewrite El, E1, app_assoc.
    split; [done|]. rewrite rev_app_distr, cfi_monitor_app, E2. split; [by apply cfi_monitor_elsewhere, Forall_rev|].
    apply Forall_app. split; [|done]. eapply Forall_impl; [exact Fl|apply elsewhere_ok]. }
  destruct (p f w); [by apply Hl|exists m; by apply Hl].
Qed.
Lemma leads_wr16 m m' a v : in_window a = true -> allowed a (u16 v) -> cfi_write m a (u16 v) = Some m' -> leads m (wr16 a v) m'.
Proof.
  intros Ha Hok Hv f w Hw. apply wp_wr. eapply lawful_step; [exact Hw| | |reflexivity].
  - unfold cfi_monitor_step, port_wrap. by rewrite Ha.
  - by intros _.
Qed.
Lemma leads_rd m width a : cfi_readable m = true -> leads m (rd (Mmio width a)) m.
Proof.
  intros Hm f w Hw. apply wp_rd. intros v d _. eapply lawful_step; [exact Hw| | |reflexivity]; [|done].
  simpl. rewrite Hm. by destruct (in_window a).
Qed.
Lemma leads_iter {X R} m m' (body : X -> M (X + R)) x (I : X -> cfi_mode) :
  I x = m -> (forall x f w, lawful (I x) w -> wp halted (body x) (fun s w' => match s with inl x' => lawful (I x') w' | inr r => lawful m' w' end) f w) ->
  leads m (iter body x) m'.
Proof.
  intros <- Hb f w Hw. eapply (wp_iter_partial _ _ (fun x w' => lawful (I x) w')); [done|intros y w' Hy; by exists (I y)|].
  intros y w' Hy. by apply Hb.
Qed.
Lemma leads_loop {X R} m (body : X -> M (X + R)) x : (forall x, leads m (body x) m) -> leads m (iter body x) m.
Proof.
  intros Hb. apply (leads_iter m m body x (fun _ => m)); [done|]. intros y f w Hw. eapply wp_mono; [by apply Hb|].
  by intros [] w'.
Qed.
Lemma leads_foldM {X Y} m (body : X -> Y -> M X) x l : (forall x y, y ∈ l -> leads m (body x y) m) -> leads m (foldM body x l) m.
Proof.
  revert x. induction l as [|y l IH]; intros x Hb; simpl; [apply leads_ret|].
  eapply leads_bind; [apply Hb; by left|]. intros x'. apply IH. intros x'' y' Hy. apply Hb. by right.
Qed.
Lemma leads_foldE {X Y R} m (body : X -> Y -> M (X + R)) x l : (forall x y, y ∈ l -> leads m (body x y) m) -> leads m (foldE body x l) m.
Proof.
  revert x. induction l as [|y l IH]; intros x Hb; simpl; [apply leads_ret|].
  eapply leads_bind; [apply Hb; by left|]. intros [x'|r]; [|apply leads_ret]. apply IH. intros x'' y' Hy. apply Hb. by right.
Qed.
Lemma leads_when m (b : bool) (p : M unit) : leads m p m -> leads m (when b p) m.
Proof. intros Hp. destruct b; [exact Hp|apply leads_ret]. Qed.

(** The library's reports. *)
Lemma uses_stm_elsewhere : uses elsewhere (cpu_get_stm_freq (D := D) (A := tests)).
Proof. unfold cpu_get_stm_freq, cpu_get_fpi2_freq, cpu_get_pll_freq, get_pll_core_freq. uses_tac ltac:(reflexivity). Qed.
Lemma uses_serve_elsewhere : uses elsewhere (wdt_serve (D := D) (A := tests)).
Proof. apply uses_wdt_serve. apply wdt_elsewhere. Qed.
Lemma uses_reset_elsewhere : uses elsewhere (reset_timeout (D := D)).
Proof.
  pose proof uses_stm_elsewhere. pose proof uses_serve_elsewhere.
  pose proof (uses_stopwatch_get (D := D) (A := tests) elsewhere ltac:(by intros p [->| ->])).
  unfold reset_timeout, stopwatch_update, wdt_set_max_execution_time. uses_tac ltac:(reflexivity).
Qed.
#[local] Hint Resolve uses_stm_elsewhere uses_serve_elsewhere uses_reset_elsewhere : uses.
Lemma uses_report name passed : uses elsewhere (report printf name passed).
Proof. unfold report, count_assertion, count_failure. uses_tac idtac. Qed.
#[local] Hint Resolve uses_report : uses.
Lemma uses_test_check name b : uses elsewhere (test_check printf name b).
Proof. unfold test_check. uses_tac idtac. Qed.
Lemma uses_test_eq_u32 name a b : uses elsewhere (test_eq_u32 printf name a b).
Proof. unfold test_eq_u32. uses_tac idtac. Qed.
Lemma uses_test_skip name reason : uses elsewhere (test_skip printf name reason).
Proof. unfold test_skip, count_assertion. uses_tac idtac. Qed.
Lemma leads_load_u8 m a : cfi_readable m = true -> leads m (load_u8 a) m.
Proof. intros Hm. unfold load_u8. destruct (_ && _); [by apply leads_rd|]. apply leads_uses, uses_ld8. Qed.

End Confined.

(** One rule per construct; a leaf without accesses to the flash is a [uses] fact. *)
Ltac leads_step Hprintf :=
  lazymatch goal with
  | |- leads _ _ _ (mbind _ _) _ => eapply leads_bind; [|intros ?]
  | |- leads _ _ _ (mret _) _ => apply leads_ret
  | |- leads _ _ _ (stop _) _ => apply leads_stop
  | |- leads _ _ _ (rd16 _) _ => apply leads_rd; reflexivity
  | |- leads _ _ _ (rd32 _) _ => apply leads_rd; reflexivity
  | |- leads _ _ _ (load_u8 _) _ => apply leads_load_u8; reflexivity
  | |- leads _ _ _ (when _ _) _ => apply leads_when
  | |- leads _ _ _ (iter _ _) _ => apply leads_loop; intros ?
  | |- leads _ _ _ (foldM _ _ _) _ => apply leads_foldM; intros ? ? ?
  | |- leads _ _ _ (match ?x with _ => _ end) _ => destruct x
  | |- leads _ _ _ test_watchdog_serve _ => apply leads_uses, uses_serve_elsewhere
  | |- leads _ _ _ test_watchdog_reset _ => apply leads_uses, uses_reset_elsewhere
  | |- leads _ _ _ reset_timeout _ => apply leads_uses, uses_reset_elsewhere
  | |- leads _ _ _ (report _ _ _) _ => apply leads_uses, uses_report, Hprintf
  | |- leads _ _ _ (test_check _ _ _) _ => apply leads_uses, uses_test_check, Hprintf
  | |- leads _ _ _ (test_eq_u32 _ _ _ _) _ => apply leads_uses, uses_test_eq_u32, Hprintf
  | |- leads _ _ _ (test_skip _ _ _) _ => apply leads_uses, uses_test_skip, Hprintf
  | |- leads _ _ _ (ld8 _) _ => apply leads_uses, uses_ld8
  | |- leads _ _ _ (st8 _ _) _ => apply leads_uses, uses_st8
  | |- leads _ _ _ (alloc _ _) _ => apply leads_uses, uses_alloc
  | _ => apply leads_uses, Hprintf
  end.
Ltac leads_tac Hprintf := repeat (cbv beta zeta; leads_step Hprintf).

Section Reports.
Context {D : Type} `{!Device D} `{B : Board} `{TestBuild} (printf : message -> M D tests unit)
  (Hprintf : forall msg, uses elsewhere (printf msg)) (allowed : Z -> Z -> Prop) (w0 : world D tests).
#[local] Abbreviation leads := (leads allowed w0).
Lemma leads_eq_memory name a b n : leads ReadArray (test_eq_memory printf name a b n) ReadArray.
Proof. unfold test_eq_memory, first_difference. leads_tac Hprintf. Qed.
Lemma leads_wait_ready m a : cfi_readable m = true -> leads m (cfi_wait_ready a) m.
Proof. intros Hm. unfold cfi_wait_ready. leads_tac Hprintf; by apply leads_rd. Qed.
Lemma leads_range_is_blank a n : leads ReadArray (cfi_range_is_blank a n) ReadArray.
Proof. unfold cfi_range_is_blank. leads_tac Hprintf. Qed.
Lemma leads_copy_sample a b : leads ReadArray (copy_sample a b) ReadArray.
Proof. unfold copy_sample. leads_tac Hprintf. Qed.
Lemma leads_fill_buffer n : leads ReadArray (fill_buffer n) ReadArray.
Proof. unfold fill_buffer. leads_tac Hprintf. Qed.
End Reports.

(** *** The commands of the test, all in its block *)
Section Block.
Context {D : Type} `{!Device D} `{B : Board} `{TestBuild} (printf : message -> M D tests unit)
  (Hprintf : forall msg, uses elsewhere (printf msg)) (lo hi : Z) (w0 : world D tests)
  (Hlo : FLASH_WINDOW_BASE <= lo) (Hhi : hi <= FLASH_WINDOW_END).
#[local] Abbreviation M := (M D tests).
#[local] Abbreviation leads := (leads (fun a _ => lo <= a < hi) w0).

Lemma leads_command m m' a v : lo <= a < hi -> cfi_write m a (u16 v) = Some m' -> leads m (wr16 a v) m'.
Proof. intros Ha Hv. apply leads_wr16; [apply window_ok; lia|done|done]. Qed.
Ltac flash_step :=
  lazymatch goal with
  | |- FlashRw.leads _ _ _ (mbind _ _) _ => eapply leads_bind; [|intros ?]
  | |- FlashRw.leads _ _ _ (wr16 _ _) _ =>
      eapply leads_command; [assumption|cbn [cfi_write negb]; rewrite ?Z.eqb_refl; reflexivity]
  | |- FlashRw.leads _ _ _ (cfi_wait_ready _) _ => apply leads_wait_ready; reflexivity
  | |- FlashRw.leads _ _ _ (cfi_enter_read_array _) _ => unfold cfi_enter_read_array
  | |- FlashRw.leads _ _ _ (cfi_enter_id _) _ => unfold cfi_enter_id
  | |- FlashRw.leads _ _ _ (cfi_read_word _ _) _ => unfold cfi_read_word
  | |- FlashRw.leads _ _ _ (test_eq_memory _ _ _ _ _) _ => apply (leads_eq_memory printf Hprintf)
  | _ => leads_step Hprintf
  end.
Ltac flash_tac := repeat (cbv beta zeta; flash_step).

Lemma leads_lock_status a : lo <= a < hi -> leads ReadArray (cfi_read_lock_status a) ReadArray.
Proof. intros Ha. unfold cfi_read_lock_status. flash_tac. Qed.
Lemma leads_clear_status a : lo <= a < hi -> leads ReadArray (cfi_clear_status a) ReadArray.
Proof. intros Ha. unfold cfi_clear_status. flash_tac. Qed.
Lemma leads_unlock a efa : lo <= a < hi -> leads ReadArray (cfi_unlock_block a efa) ReadArray.
Proof. intros Ha. unfold cfi_unlock_block. destruct efa; flash_tac. Qed.
Lemma leads_lock a efa : lo <= a < hi -> leads ReadArray (cfi_lock_block a efa) ReadArray.
Proof. intros Ha. unfold cfi_lock_block. destruct efa; flash_tac. Qed.
Lemma leads_lock_down a efa : lo <= a < hi -> leads ReadArray (cfi_lock_down_block a efa) ReadArray.
Proof. intros Ha. unfold cfi_lock_down_block. destruct efa; flash_tac. Qed.
Lemma leads_program_word flash a v efa : lo <= a < hi -> leads ReadArray (cfi_program_word flash a v efa) ReadArray.
Proof. intros Ha. unfold cfi_program_word. destruct efa, (fd_manufacturer flash ==? 0x0020); flash_tac. Qed.
Lemma leads_erase a efa : lo <= a < hi -> leads ReadArray (cfi_erase_block a efa) ReadArray.
Proof. intros Ha. unfold cfi_erase_block. destruct efa; flash_tac. Qed.
Lemma leads_blank_check a : lo <= a < hi -> leads ReadArray (cfi_blank_check a) ReadArray.
Proof. intros Ha. unfold cfi_blank_check. flash_tac. Qed.

(** The words of a buffer go where they were announced. *)
Lemma leads_write_words a data words : lo <= a -> a + 2 * words <= hi -> 0 <= words ->
  leads (BufferData a a words) (write_words a data words) (BufferData a (a + 2 * words) 0).
Proof.
  intros Ha Hfit Hn f w Hw. unfold write_words.
  eapply (wp_iter_partial _ _ (fun k w' => 0 <= k <= words /\ lawful (fun a _ => lo <= a < hi) w0 (BufferData a (a + 2 * k) (words - k)) w')).
  - rewrite Z.mul_0_r, Z.add_0_r, Z.sub_0_r. by split; [lia|].
  - intros k w' [_ Hw']. by eexists.
  - intros k w1 [Hk Hw1]. destruct (Z.ltb_spec k words).
    + apply wp_bind. eapply wp_mono; [apply leads_uses; [unfold ld16; uses_tac idtac|exact Hw1]|]. intros v w2 Hw2.
      unfold FLASH_WINDOW_BASE, FLASH_WINDOW_END in *. rewrite (u32_small (a + k * 2)) by (unfold is_u32; lia).
      apply wp_bind. eapply wp_mono; [apply (leads_command (BufferData a (a + 2 * k) (words - k)) (BufferData a (a + 2 * (k + 1)) (words - (k + 1)))); [lia| |exact Hw2]|].
      * cbn [cfi_write]. destruct (Z.ltb_spec 0 (words - k)); [|lia]. rewrite (proj2 (Z.eqb_eq _ _)) by lia. do 2 f_equal; lia.
      * intros [] w3 Hw3. apply wp_ret. by split; [lia|].
    + assert (k = words) as -> by lia. apply wp_ret. by rewrite Z.sub_diag in Hw1.
Qed.
Lemma announced words : 1 <= words <= 0x10000 -> u16 (u32 (words - 1)) + 1 = words.
Proof. intros Hn. unfold u16, u32. Z.div_mod_to_equations; lia. Qed.
Lemma leads_program_buffer flash a data words : lo <= a -> a + 2 * words <= hi -> 1 <= words <= 0x10000 ->
  leads ReadArray (cfi_program_buffer flash a data words) ReadArray.
Proof.
  intros Ha Hfit Hn. assert (lo <= a < hi) by lia. unfold cfi_program_buffer.
  destruct (fd_manufacturer flash ==? 0x0020);
    (do 4 (eapply leads_bind; [flash_tac|intros ?]); rewrite announced by done;
     eapply leads_bind; [apply leads_write_words; lia|intros ?]; flash_tac).
Qed.

(** *** The parts of the test *)
Ltac operation_step :=
  lazymatch goal with
  | |- FlashRw.leads _ _ _ (cfi_read_lock_status _) _ => apply leads_lock_status; assumption
  | |- FlashRw.leads _ _ _ (cfi_clear_status _) _ => apply leads_clear_status; assumption
  | |- FlashRw.leads _ _ _ (cfi_unlock_block _ _) _ => apply leads_unlock; assumption
  | |- FlashRw.leads _ _ _ (cfi_lock_block _ _) _ => apply leads_lock; assumption
  | |- FlashRw.leads _ _ _ (cfi_lock_down_block _ _) _ => apply leads_lock_down; assumption
  | |- FlashRw.leads _ _ _ (cfi_program_word _ _ _ _) _ => apply leads_program_word; assumption
  | |- FlashRw.leads _ _ _ (cfi_erase_block _ _) _ => apply leads_erase; assumption
  | |- FlashRw.leads _ _ _ (cfi_blank_check _) _ => apply leads_blank_check; assumption
  | |- FlashRw.leads _ _ _ (cfi_range_is_blank _ _) _ => apply leads_range_is_blank
  | |- FlashRw.leads _ _ _ (operate _ _ _) _ => unfold operate, test_operation
  | |- FlashRw.leads _ _ _ (lock_status_is _ _ _ _) _ => unfold lock_status_is
  | |- FlashRw.leads _ _ _ (blank_check_passes _ _ _) _ => unfold blank_check_passes
  | |- FlashRw.leads _ _ _ (clear_status _ _) _ => unfold clear_status
  | |- FlashRw.leads _ _ _ (test_locked_operation _ _ _ _) _ => unfold test_locked_operation
  | _ => flash_step
  end.
Ltac operation_tac := repeat (cbv beta zeta; operation_step).

Lemma leads_suspended_read what a suspend sample address resumed : lo <= a < hi ->
  leads ReadOther (suspended_read printf what a suspend sample address resumed) ReadArray.
Proof. intros Ha. unfold suspended_read. flash_tac. Qed.
Lemma leads_program_suspend flash a data words sample address : lo <= a -> a + 2 * words <= hi -> 1 <= words <= 0x10000 ->
  leads ReadArray (program_buffer_with_suspend printf flash a data words sample address) ReadArray.
Proof.
  intros Ha Hfit Hn. assert (lo <= a < hi) by lia. unfold program_buffer_with_suspend.
  destruct (fd_manufacturer flash ==? 0x0020);
    (do 5 (eapply leads_bind; [flash_tac|intros ?]); rewrite announced by done;
     eapply leads_bind; [apply leads_write_words; lia|intros ?]; do 4 (eapply leads_bind; [flash_tac|intros ?]);
     destruct (_ ==? 0); [flash_tac|eapply leads_bind; [flash_tac|intros ?]; by apply leads_suspended_read]).
Qed.
Lemma leads_erase_suspend a sample address : lo <= a < hi -> leads ReadArray (erase_with_suspend printf a sample address) ReadArray.
Proof.
  intros Ha. unfold erase_with_suspend. do 6 (eapply leads_bind; [flash_tac|intros ?]).
  destruct (_ ==? 0); [flash_tac|eapply leads_bind; [flash_tac|intros ?]; by apply leads_suspended_read].
Qed.
Lemma leads_locked flash : lo <= fd_test_block flash < hi -> leads ReadArray (locked_checks printf flash) ReadArray.
Proof. intros Ha. unfold locked_checks. operation_tac. Qed.
Lemma leads_locks flash : lo <= fd_test_block flash < hi -> leads ReadArray (lock_checks printf flash) ReadArray.
Proof. intros Ha. unfold lock_checks. operation_tac. Qed.
Lemma leads_erases flash : lo <= fd_test_block flash < hi -> leads ReadArray (erase_checks printf flash) ReadArray.
Proof.
  intros Ha. unfold erase_checks. cbv zeta. do 3 (eapply leads_bind; [operation_tac|intros ?]).
  eapply (leads_bind _ _ _ ReadArray); [|intros ?; operation_tac].
  unfold operate. eapply leads_bind; [|intros ?; unfold test_operation; operation_tac].
  destruct (_ !=? 0); [by apply leads_erase_suspend|operation_tac].
Qed.
Lemma leads_buffer_test flash a words : lo <= a -> a + 2 * words <= hi -> 1 <= words <= 0x10000 ->
  leads ReadArray (program_buffer printf flash a rw_buffer words) ReadArray.
Proof.
  intros Ha Hfit Hn. unfold program_buffer, test_operation. eapply leads_bind; [by apply leads_program_buffer|].
  intros [status buffer_status]. flash_tac.
Qed.
Lemma leads_program flash : fd_test_block flash = lo -> lo + fd_test_block_size flash = hi ->
  2 <= fd_write_buffer_size flash <= 1024 -> 2 * fd_write_buffer_size flash + 14 <= fd_test_block_size flash ->
  leads ReadArray (program_checks printf flash (fd_write_buffer_size flash / 2)) ReadArray.
Proof.
  intros Hb Hs Hw Hfit. assert (lo <= lo < hi) as Hin by lia. unfold FLASH_WINDOW_BASE, FLASH_WINDOW_END in *.
  unfold program_checks. rewrite Hb. cbv zeta.
  rewrite (u32_small (fd_write_buffer_size flash * 2)), (u32_small (lo + fd_write_buffer_size flash)),
    (u32_small (lo + fd_write_buffer_size flash * 2)), (u32_small (lo + fd_test_block_size flash)),
    (u32_small (lo + fd_test_block_size flash - _)) by (unfold is_u32; lia).
  assert (1 <= fd_write_buffer_size flash / 2 <= 0x10000 /\ 2 * (fd_write_buffer_size flash / 2) <= fd_write_buffer_size flash)
    as [Hn Hn2] by (Z.div_mod_to_equations; lia).
  do 3 (eapply leads_bind; [operation_tac|intros ?]). eapply leads_bind; [apply leads_buffer_test; lia|intros ?].
  eapply leads_bind; [operation_tac|intros ?]. eapply leads_bind; [apply leads_buffer_test; lia|intros ?].
  eapply leads_bind; [operation_tac|intros ?]. eapply (leads_bind _ _ _ ReadArray); [|intros ?; operation_tac].
  unfold operate. destruct (_ !=? 0).
  - eapply leads_bind; [apply leads_program_suspend; lia|intros ?]. unfold test_operation. operation_tac.
  - eapply leads_bind; [operation_tac|intros ?]. apply leads_buffer_test; lia.
Qed.
Lemma leads_test flash : fd_test_block flash = lo -> lo + fd_test_block_size flash = hi ->
  2 <= fd_write_buffer_size flash <= 1024 -> 2 * fd_write_buffer_size flash + 14 <= fd_test_block_size flash ->
  leads ReadArray (test_program_and_cleanup printf flash) ReadArray.
Proof.
  intros Hb Hs Hw Hfit. unfold test_program_and_cleanup. cbv zeta.
  eapply leads_bind; [apply leads_fill_buffer|intros ?]. do 2 (eapply leads_bind; [apply leads_copy_sample|intros ?]).
  eapply leads_bind; [apply leads_locked; lia|intros ?]. eapply leads_bind; [by apply leads_program|intros ?].
  eapply leads_bind; [apply leads_erases; lia|intros ?]. apply leads_locks; lia.
Qed.
End Block.

(** *** The search, which only identifies the flashes *)
Definition identifying (a v : Z) : Prop := v = 0xFF \/ v = 0x90 \/ v = 0x98.
Section Discovery.
Context {D : Type} `{!Device D} `{B : Board} `{TestBuild} (printf : message -> M D tests unit)
  (Hprintf : forall msg, uses elsewhere (printf msg)) (w0 : world D tests).
#[local] Abbreviation M := (M D tests).
#[local] Abbreviation leads := (leads identifying w0).

Lemma ebu_elsewhere cs v : 0 <= cs < 7 -> uses elsewhere (wr32 (D := D) (A := tests) (EBU_ADDRSEL cs) v) /\
  uses elsewhere (wr32 (D := D) (A := tests) (EBU_BUSCON cs) v).
Proof.
  intros Hcs. split; apply uses_wr; unfold elsewhere, EBU_ADDRSEL, EBU_BUSCON, EBU_BASE, in_window, FLASH_WINDOW_BASE, FLASH_WINDOW_END;
    repeat match goal with |- context [?x <=? ?y] => destruct (Z.leb_spec x y) | |- context [?x <? ?y] => destruct (Z.ltb_spec x y) end;
    try done; lia.
Qed.
Lemma leads_disable : leads ReadArray cfi_disable_chip_selects ReadArray.
Proof.
  apply leads_foldM. intros x cs Hcs. apply elem_of_seqZ in Hcs. unfold EBU_CS_COUNT in Hcs. apply leads_when.
  eapply leads_bind; [apply leads_uses, ebu_elsewhere; lia|intros ?]. apply leads_uses, ebu_elsewhere; lia.
Qed.
Ltac probe_step :=
  lazymatch goal with
  | |- FlashRw.leads _ _ _ (mbind _ _) _ => eapply leads_bind; [|intros ?]
  | |- FlashRw.leads _ _ _ (cfi_enter_read_array _) _ => unfold cfi_enter_read_array
  | |- FlashRw.leads _ _ _ (cfi_enter_id _) _ => unfold cfi_enter_id
  | |- FlashRw.leads _ _ _ (cfi_enter_query _) _ => unfold cfi_enter_query
  | |- FlashRw.leads _ _ _ (wr16 _ _) _ => eapply leads_wr16; [reflexivity|unfold identifying, u16; vm_compute; tauto|reflexivity]
  | |- FlashRw.leads _ _ _ (cfi_read_word _ _) _ => unfold cfi_read_word
  | |- FlashRw.leads _ _ _ (cfi_read_u16 _ _) _ => unfold cfi_read_u16
  | |- FlashRw.leads _ _ _ (cfi_read_u32 _ _) _ => unfold cfi_read_u32
  | _ => leads_step Hprintf
  end.
Ltac probe_tac := repeat (cbv beta zeta; probe_step).
Lemma leads_geometry flash : leads ReadOther (cfi_read_geometry flash) ReadOther.
Proof. unfold cfi_read_geometry. probe_tac. Qed.
Lemma leads_extended_geometry flash : leads ReadOther (cfi_read_extended_geometry flash) ReadOther.
Proof. unfold cfi_read_extended_geometry, cfi_skip_pri_regions. probe_tac. Qed.
Lemma leads_sample_map flash : leads ReadArray (cfi_sample_map flash) ReadArray.
Proof. unfold cfi_sample_map, cfi_read_map_sample. probe_tac. Qed.

(** The search keeps looking at the window it mapped. *)
Definition yields {R} (p : M R) (P : R -> Prop) : Prop := forall f w, match p f w with Done r _ => P r | Stop _ _ => True end.
Lemma yields_ret {R} (r : R) (P : R -> Prop) : P r -> yields (mret r) P.
Proof. by intros Hr f w. Qed.
Lemma yields_bind {R S} (p : M R) (k : R -> M S) P : (forall r, yields (k r) P) -> yields (p ≫= k) P.
Proof. intros Hk f w. unfold mbind, M_bind. destruct (p f w) as [r w'|]; [|done]. apply (Hk r f w'). Qed.
Lemma leads_bind_yields {R S} m m1 m' (p : M R) (k : R -> M S) P : leads m p m1 -> yields p P ->
  (forall r, P r -> leads m1 (k r) m') -> leads m (p ≫= k) m'.
Proof.
  intros Hp Hy Hk f w Hw. apply wp_bind. specialize (Hp f w Hw). specialize (Hy f w). unfold wp in *.
  destruct (p f w) as [r w'|]; [|exact Hp]. by apply Hk.
Qed.
Ltac yields_tac := repeat (cbv zeta; match goal with
  | |- yields (mbind _ _) _ => apply yields_bind; intros ?
  | |- yields (mret _) _ => apply yields_ret; reflexivity
  | |- yields (if ?b then _ else _) _ => destruct b
  end).
Lemma yields_geometry flash : yields (cfi_read_geometry flash) (fun flash' => fd_base flash' = fd_base flash).
Proof. unfold cfi_read_geometry. yields_tac. Qed.
Lemma yields_extended_geometry flash : yields (cfi_read_extended_geometry flash) (fun flash' => fd_base flash' = fd_base flash).
Proof. unfold cfi_read_extended_geometry. yields_tac. Qed.
Lemma leads_probe cs flash : 0 <= cs < 7 -> leads ReadArray (cfi_probe cs flash) ReadArray.
Proof.
  intros Hcs. unfold cfi_probe, cfi_map. eapply leads_bind; [apply leads_disable|intros ?].
  eapply leads_bind; [eapply leads_bind; [apply leads_uses, ebu_elsewhere; lia|intros ?; apply leads_uses, ebu_elsewhere; lia]|intros ?].
  do 2 (eapply leads_bind; [probe_tac|intros ?]). eapply leads_bind; [unfold valid_signature; probe_tac|intros valid].
  destruct (negb valid).
  { eapply leads_bind; [probe_tac|intros ?]. do 2 (eapply leads_bind; [apply leads_uses, ebu_elsewhere; lia|intros ?]). apply leads_ret. }
  cbv zeta. eapply leads_bind_yields; [apply leads_geometry|apply yields_geometry|]. intros flash1 H1.
  eapply leads_bind_yields; [apply leads_extended_geometry|apply yields_extended_geometry|]. intros flash2 H2.
  rewrite H1 in H2. cbn [fd_base set_place] in H2. rewrite H2.
  eapply leads_bind; [probe_tac|intros _]. eapply leads_bind; [probe_tac|intros manufacturer].
  eapply leads_bind; [probe_tac|intros device]. change (fd_base (set_ids manufacturer device flash2)) with (fd_base flash2). rewrite H2.
  eapply leads_bind; [probe_tac|intros ?]. eapply leads_bind; [destruct (_ && _); [apply leads_sample_map|apply leads_ret]|intros ?].
  apply leads_ret.
Qed.
Lemma leads_search flash : leads ReadArray (find_test_flash printf flash) ReadArray.
Proof.
  unfold find_test_flash. eapply leads_bind.
  - apply leads_foldE. intros flash1 cs Hcs. eapply leads_bind; [by apply leads_uses, Hprintf|intros ?].
    eapply leads_bind; [apply leads_probe; repeat (apply elem_of_cons in Hcs as [->|Hcs]; [lia|]); by apply elem_of_nil in Hcs|intros [found flash2]].
    destruct (negb found); [apply leads_ret|].
    eapply leads_bind; [unfold cfi_find_blank_block, cfi_range_is_blank, cfi_select_erase_block, cfi_select_in_region, erase_region_at; probe_tac|].
    intros [blank flash3]. destruct blank; probe_tac.
  - intros [flash1|r]; [|apply leads_ret]. eapply leads_bind; [apply leads_disable|intros ?; apply leads_ret].
Qed.
End Discovery.

(** C30. The program harms nothing but its block, whatever the flash answers and wherever the run
    stops: every access to the flash is legal for its command interface; the search writes
    nothing but identification commands; the test, given a block inside the window that is
    large enough for its three buffers, writes to addresses of that block only; each of them,
    when it returns, has put the flash back in its read-array mode. *)
Theorem flash_test_confined {D} `{!Device D} `{B : Board} `{TestBuild} (printf : message -> M D tests unit)
    (flash : flash_device) (f : nat) (w : world D tests) :
  (forall msg, uses elsewhere (printf msg)) ->
  let lo := fd_test_block flash in
  let hi := lo + fd_test_block_size flash in
  FLASH_WINDOW_BASE <= lo -> hi <= FLASH_WINDOW_END -> 2 <= fd_write_buffer_size flash <= 1024 ->
  2 * fd_write_buffer_size flash + 14 <= fd_test_block_size flash ->
  match find_test_flash printf flash f w with
  | Done _ w' => lawful identifying w ReadArray w'
  | Stop c w' => halted identifying w c w'
  end /\
  match test_program_and_cleanup printf flash f w with
  | Done _ w' => lawful (fun a _ => lo <= a < hi) w ReadArray w'
  | Stop c w' => halted (fun a _ => lo <= a < hi) w c w'
  end.
Proof.
  intros Hp lo hi Hlo Hhi Hw Hfit. split.
  - exact (leads_search printf Hp w flash f w (lawful_start _ w)).
  - exact (leads_test printf Hp lo hi w Hlo Hhi flash eq_refl eq_refl Hw Hfit f w (lawful_start _ w)).
Qed.

(** ** A [printf] that sends the characters of the format, and a block, for the witness *)
Definition format_printf {D} `{!Device D} `{B : Board} : message -> M D tests unit := fun msg =>
  foldM (fun _ c => usart_putc USART0 (Z.of_N (Ascii.N_of_ascii c))) tt (String.list_ascii_of_string (fst msg)).
Lemma format_printf_elsewhere {D} `{!Device D} `{B : Board} msg : uses elsewhere (format_printf (D := D) msg).
Proof.
  apply uses_foldM. intros _ c. apply uses_usart_putc. intros p (a & -> & Ha). unfold elsewhere, in_window, FLASH_WINDOW_END, USART0 in *.
  destruct (Z.ltb_spec a 0xA8000000); [lia|]. by rewrite andb_false_r.
Qed.
Definition chosen_block : flash_device := set_test_block 0xA0020000 0x20000 two_regions.
Lemma flash_test_confined_witness :
  let B := plain_board PMB8876 in let T := {| test_color := false |} in
  let lo := fd_test_block chosen_block in let hi := lo + fd_test_block_size chosen_block in
  match find_test_flash (Device0 := erased_flash) (format_printf (Device0 := erased_flash)) chosen_block 1000%nat erased_world with
  | Done _ w' => lawful identifying erased_world ReadArray w'
  | Stop c w' => halted identifying erased_world c w'
  end /\
  match test_program_and_cleanup (Device0 := erased_flash) (format_printf (Device0 := erased_flash)) chosen_block 1000%nat erased_world with
  | Done _ w' => lawful (fun a _ => lo <= a < hi) erased_world ReadArray w'
  | Stop c w' => halted (fun a _ => lo <= a < hi) erased_world c w'
  end.
Proof.
  intros B T lo hi. apply (flash_test_confined (Device0 := erased_flash) (format_printf (Device0 := erased_flash)) chosen_block 1000%nat erased_world).
  - intros msg. apply (format_printf_elsewhere (Device0 := erased_flash)).
  - by vm_compute.
  - by vm_compute.
  - by split; vm_compute.
  - by vm_compute.
Defined.
