(* ===== verification/GsmRegs.v ===== *)
(** * Registers of the GSM receiver

    More of [lib/gen]: what [unit/dsp/hle/gsm-l1] uses of the registers of PMB8876, of the
    transceiver HD155153NP, of the power-management chip and of the board EL71, as in [Regs]. *)
From S2P Require Import Prelude Regs.
Import Regs.Pmb8876.

Definition GPIO_T_OUT2 : Z := 45.
Definition GPIO_T_OUT3 : Z := 46.
Definition GPIO_T_OUT7 : Z := 50.
Definition GPIO_T_OUT8 : Z := 51.
Definition GPIO_RF_STR0 : Z := 56.
Definition VIC_TPU_INT0_IRQ : Z := 119.
Definition MOD_CLC_EDIS : Z := Eval vm_compute in BIT 3.
Definition MOD_SRC_SRE : Z := Eval vm_compute in BIT 12.
Definition MOD_SRC_CLRR : Z := Eval vm_compute in BIT 14.
Definition EBU_CON : Z := Eval vm_compute in EBU_BASE + 0x10.
Definition EBU_CON_SDCMSEL : Z := Eval vm_compute in BIT 26.
Definition SCU_RST_REQ : Z := Eval vm_compute in SCU_BASE + 0x18.
Definition SCU_RST_REQ_DSP : Z := Eval vm_compute in BIT 0.
Definition SCU_DSP_INT : Z := Eval vm_compute in SCU_BASE + 0x30.
Definition SCU_EBUCLC1 : Z := Eval vm_compute in SCU_BASE + 0x40.
Definition SCU_EBUCLC1_FLAG1_SHIFT : Z := 0.
Definition SCU_EBUCLC1_READY : Z := Eval vm_compute in GENMASK 7 4.
Definition SCU_EBUCLC2 : Z := Eval vm_compute in SCU_BASE + 0x44.
Definition SCU_EBUCLC2_FLAG1_SHIFT : Z := 0.
Definition SCU_EBUCLC2_READY : Z := Eval vm_compute in GENMASK 7 4.
Definition CGU_CON0_PHASE1_CONFIG_SHIFT : Z := 0.
Definition CGU_CON0_PHASE2_CONFIG_SHIFT : Z := 8.
Definition CGU_CON0_PHASE3_CONFIG_SHIFT : Z := 16.
Definition CGU_CON0_PHASE4_CONFIG_SHIFT : Z := 24.
Definition CGU_CON2_AFC32K_EN : Z := Eval vm_compute in BIT 13.
Definition CGU_CON2_CLK48M_CLKSEL_DISABLE : Z := 0xC000.
Definition CGU_STAT_DSP_CLK : Z := Eval vm_compute in BIT 9.
Definition CGU_CON3_MMCI_CLKSEL_DISABLE : Z := 0x300.
Definition ADC_BASE : Z := 0xF4C00000.
Definition ADC_CLC : Z := Eval vm_compute in ADC_BASE + 0x00.
Definition ADC_ANA_CTRL : Z := Eval vm_compute in ADC_BASE + 0x14.
Definition ADC_ANA_CTRL_BG_PWUP : Z := Eval vm_compute in BIT 1.
Definition ADC_CLK : Z := Eval vm_compute in ADC_BASE + 0x40.
Definition ADC_CLK_K_SHIFT : Z := 0.
Definition ADC_CLK_L_SHIFT : Z := 8.
Definition DSP_BASE : Z := 0xF6000000.
Definition DSP_RAM_BASE : Z := Eval vm_compute in (DSP_BASE + 0x1000).
Definition DSP_CLC : Z := Eval vm_compute in DSP_BASE + 0x00.
Definition DSP_COM_SET : Z := Eval vm_compute in DSP_BASE + 0x1C.
Definition DSP_COM_CLEAR : Z := Eval vm_compute in DSP_BASE + 0x20.
Definition DSP_COM_STATUS : Z := Eval vm_compute in DSP_BASE + 0x24.
Definition AFC_BASE : Z := 0xF6300000.
Definition AFC_CLC : Z := Eval vm_compute in AFC_BASE + 0x00.
Definition AFC_AFCVAL : Z := Eval vm_compute in AFC_BASE + 0x10.
Definition AFC_AFCVAL_AFC : Z := Eval vm_compute in GENMASK 14 0.
Definition AFC_AFCVAL_ENAFC : Z := Eval vm_compute in BIT 15.
Definition TPU_RAM_BASE : Z := Eval vm_compute in (TPU_BASE + 0x1000).
Definition TPU_RAM_SIZE : Z := 0x1000.
Definition TPU_RAM (n : Z) : Z := TPU_RAM_BASE + (n * 0x4).
Definition TPU_CLC : Z := Eval vm_compute in TPU_BASE + 0x00.
Definition TPU_RFCON1 : Z := Eval vm_compute in TPU_BASE + 0x10.
Definition TPU_RFCON1_STBSEL_ACTIVE_HIGH : Z := 0x1.
Definition TPU_RFCON1_RFISSCP_IDLE_LOW_LEADING_RISE : Z := 0x0.
Definition TPU_RFCON2 : Z := Eval vm_compute in TPU_BASE + 0x14.
Definition TPU_RFCON2_SSCEN : Z := Eval vm_compute in BIT 15.
Definition TPU_CORRECTION : Z := Eval vm_compute in TPU_BASE + 0x1C.
Definition TPU_OVERFLOW : Z := Eval vm_compute in TPU_BASE + 0x20.
Definition TPU_INT (n : Z) : Z := TPU_BASE + 0x24 + (n * 0x4).
Definition TPU_OFFSET : Z := Eval vm_compute in TPU_BASE + 0x2C.
Definition TPU_EAPT : Z := Eval vm_compute in TPU_BASE + 0x3C.
Definition TPU_EAPB : Z := Eval vm_compute in TPU_BASE + 0x40.
Definition TPU_TGER : Z := Eval vm_compute in TPU_BASE + 0x44.
Definition TPU_PARAM : Z := Eval vm_compute in TPU_BASE + 0x5C.
Definition TPU_PARAM_TINI : Z := Eval vm_compute in BIT 0.
Definition TPU_PARAM_FDIS : Z := Eval vm_compute in BIT 1.
Definition TPU_GSMCLK1 : Z := Eval vm_compute in TPU_BASE + 0x68.
Definition TPU_GSMCLK1_K_SHIFT : Z := 0.
Definition TPU_GSMCLK2 : Z := Eval vm_compute in TPU_BASE + 0x6C.
Definition TPU_GSMCLK2_L_SHIFT : Z := 0.
Definition TPU_GSMCLK3 : Z := Eval vm_compute in TPU_BASE + 0x70.
Definition TPU_GSMCLK3_INIT : Z := Eval vm_compute in BIT 1.
Definition TPU_SRC (n : Z) : Z := TPU_BASE + 0xF8 + (n * 0x4).
Definition HD155153NP_GAIN_CONTROL : Z := 0x02.
Definition HD155153NP_CONTROL_R4 : Z := 0x04.
Definition PASIC_RF_ENABLE : Z := 0x08.
Definition PASIC_RF_ENABLE_VRF1_EN : Z := Eval vm_compute in BIT 0.
Definition PASIC_RF_ENABLE_VRF2_EN : Z := Eval vm_compute in BIT 1.
Definition PASIC_RF_VOLTAGE : Z := 0x0B.
Definition PASIC_RF_VOLTAGE_VRF1_LEVEL_2850MV : Z := 0x2.
Definition PASIC_RF_VOLTAGE_VRF2_LEVEL_2850MV : Z := 0x8.
Definition BOARD_PLATFORM_SIEMENS_X85 : Z := 1.
Definition GPIO_RF_FE_CTR_GSM : Z := Eval vm_compute in GPIO_T_OUT2.
Definition GPIO_RF_FE_CTR_DCS : Z := Eval vm_compute in GPIO_T_OUT3.
Definition GPIO_PM_RF2_EN : Z := Eval vm_compute in GPIO_T_OUT7.
Definition GPIO_RF_BAND_SW : Z := Eval vm_compute in GPIO_T_OUT8.
