(* ===== verification/GsmChannel.v ===== *)
(** * GSM channels ([unit/dsp/hle/gsm-l1]: [gsm.h], the tables of [gsm-l1.c] and [siemens-x85.c])

    The channels of the four bands have one index each, into the tables of the transceiver
    and of the receiver calibration.  [gsm-l1.c] maps an index to its band and ARFCN
    (absolute radio-frequency channel number), [siemens-x85.c] maps a band and an ARFCN to its
    position in the band and a position to the index.  The two maps agree, except on one
    channel. *)
From S2P Require Import Prelude.

Definition GSM_CHANNEL_COUNT : Z := 972.
Definition GSM_CHANNEL_NONE : Z := 0xFFFF.
Definition GSM_SCAN_CHANNEL_COUNT : Z := GSM_CHANNEL_COUNT - 1.

Inductive gsm_band := GSM_BAND_900 | GSM_BAND_DCS1800 | GSM_BAND_PCS1900 | GSM_BAND_850 | GSM_BAND_COUNT.
#[export] Instance gsm_band_eq_dec : EqDecision gsm_band.
Proof. solve_decision. Defined.
(** The loops over the bands: their numbers. *)
Definition gsm_bands : list gsm_band := [GSM_BAND_900; GSM_BAND_DCS1800; GSM_BAND_PCS1900; GSM_BAND_850].

(** ** [gsm-l1.c]: from the index *)
Record gsm_scan_range := ScanRange { sr_band : gsm_band; table_first : Z; arfcn_first : Z; channel_count : Z }.
Definition GSM_SCAN_RANGES : list gsm_scan_range := [
  ScanRange GSM_BAND_900 0 0 125;
  ScanRange GSM_BAND_900 126 975 49;
  ScanRange GSM_BAND_DCS1800 175 512 374;
  ScanRange GSM_BAND_PCS1900 549 512 299;
  ScanRange GSM_BAND_850 848 128 124].
Fixpoint find_range (ranges : list gsm_scan_range) (channel_index : Z) : option gsm_scan_range :=
  match ranges with
  | [] => None
  | range :: ranges =>
      if (table_first range <=? channel_index) && (channel_index <? table_first range + channel_count range) then Some range
      else find_range ranges channel_index
  end.
Definition find_scan_range (channel_index : Z) : option gsm_scan_range := find_range GSM_SCAN_RANGES channel_index.
(** [None] where the code dereferences a null pointer. *)
Definition channel_index_to_arfcn (channel_index : Z) : option Z :=
  range ← find_scan_range channel_index; Some (u16 (arfcn_first range + channel_index - table_first range)).
(** [scan_channels] after [build_channel_scan_order]. *)
Definition build_channel_scan_order : list Z :=
  mjoin (map (fun range => map (fun offset => u16 (table_first range + offset)) (seqZ 0 (channel_count range))) GSM_SCAN_RANGES).

(** ** [siemens-x85.c]: from the band and the ARFCN *)
Definition agc_channel_position (band : gsm_band) (arfcn : Z) : option Z :=
  match band with
  | GSM_BAND_900 =>
      if (975 <=? arfcn) && (arfcn <=? 1023) then Some (arfcn - 975)
      else if arfcn <=? 124 then Some (arfcn + 49)
      else None
  | GSM_BAND_DCS1800 => if (arfcn <? 512) || (885 <? arfcn) then None else Some (arfcn - 512)
  | GSM_BAND_PCS1900 => if (arfcn <? 512) || (810 <? arfcn) then None else Some (arfcn - 512)
  | GSM_BAND_850 => if (arfcn <? 128) || (251 <? arfcn) then None else Some (arfcn - 128)
  | GSM_BAND_COUNT => None
  end.
Definition agc_channel_index (band : gsm_band) (position : Z) : Z :=
  match band with
  | GSM_BAND_900 => if position <? 49 then u16 (126 + position) else if position ==? 49 then 125 else u16 (position - 49)
  | GSM_BAND_DCS1800 => u16 (175 + position)
  | GSM_BAND_PCS1900 => u16 (549 + position)
  | GSM_BAND_850 => u16 (848 + position)
  | GSM_BAND_COUNT => 0
  end.
Definition agc_band_last_position (band : gsm_band) : Z :=
  match band with
  | GSM_BAND_900 => 173 | GSM_BAND_DCS1800 => 373 | GSM_BAND_PCS1900 => 298 | GSM_BAND_850 => 123 | GSM_BAND_COUNT => 0
  end.

(** ** The maps *)
Lemma find_scan_range_spec c range : find_scan_range c = Some range ->
  range ∈ GSM_SCAN_RANGES /\ table_first range <= c < table_first range + channel_count range.
Proof.
  unfold find_scan_range. induction GSM_SCAN_RANGES as [|r l IH]; simpl; [done|].
  destruct (_ && _) eqn:E; [|intros H; destruct (IH H); split; [by apply list_elem_of_further|done]].
  intros [= ->]. apply andb_true_iff in E as [E1%Z.leb_le E2%Z.ltb_lt].
  split; [apply list_elem_of_here|lia].
Qed.
(** What is decided by looking at each channel. *)
Lemma channels_forall (P : Z -> bool) : forallb P build_channel_scan_order = true -> forall c, c ∈ build_channel_scan_order -> P c = true.
Proof. intros H c Hc. rewrite forallb_forall in H. by apply H, list_elem_of_In. Qed.
Lemma scan_channels_index c : c ∈ build_channel_scan_order -> 0 <= c < GSM_CHANNEL_COUNT /\ c <> 125 /\ c <> GSM_CHANNEL_NONE.
Proof.
  intros Hc. pose proof (channels_forall (fun c => (0 <=? c) && (c <? GSM_CHANNEL_COUNT) && negb (c ==? 125) && negb (c ==? GSM_CHANNEL_NONE))
    ltac:(vm_compute; reflexivity) c Hc) as H. simpl in H. rewrite !andb_true_iff, !negb_true_iff in H. lia.
Qed.
Lemma scan_channels_length : Z.of_nat (length build_channel_scan_order) = GSM_SCAN_CHANNEL_COUNT.
Proof. vm_compute. reflexivity. Qed.
Lemma scan_channels_eq : build_channel_scan_order = seqZ 0 125 ++ seqZ 126 846.
Proof. vm_compute. reflexivity. Qed.
Lemma scan_channels_nodup : NoDup build_channel_scan_order.
Proof.
  rewrite scan_channels_eq. apply NoDup_app. split; [apply NoDup_seqZ|]. split; [|apply NoDup_seqZ].
  intros x Hx. rewrite !elem_of_seqZ in *. lia.
Qed.
(** A channel that is scanned, its band and ARFCN. *)
Lemma scan_channel_range c : c ∈ build_channel_scan_order ->
  exists range arfcn, find_scan_range c = Some range /\ channel_index_to_arfcn c = Some arfcn.
Proof.
  intros Hc. pose proof (channels_forall (fun c => match find_scan_range c with Some _ => true | None => false end)
    ltac:(vm_compute; reflexivity) c Hc) as H. cbv beta in H. unfold channel_index_to_arfcn.
  destruct (find_scan_range c) as [range|]; [|done]. by eexists _, _.
Qed.

(** The calibration of a scanned channel is stored where the scan looks for it, at the channel's
    own index; only that of channel 0 of the 900 MHz band is stored at the index 125, which the scan
    never uses. *)
Theorem scan_finds_calibration (c : Z) : c ∈ build_channel_scan_order ->
  exists range arfcn position,
    find_scan_range c = Some range /\ channel_index_to_arfcn c = Some arfcn /\
    agc_channel_position (sr_band range) arfcn = Some position /\ 0 <= position <= agc_band_last_position (sr_band range) /\
    agc_channel_index (sr_band range) position = if c ==? 0 then 125 else c.
Proof.
  intros Hc. pose proof (channels_forall (fun c =>
    match find_scan_range c, channel_index_to_arfcn c with
    | Some range, Some arfcn =>
        match agc_channel_position (sr_band range) arfcn with
        | Some p => (0 <=? p) && (p <=? agc_band_last_position (sr_band range)) &&
                    (agc_channel_index (sr_band range) p ==? (if c ==? 0 then 125 else c))
        | None => false
        end
    | _, _ => false
    end) ltac:(vm_compute; reflexivity) c Hc) as H. cbv beta in H.
  destruct (find_scan_range c) as [range|]; [|done]. destruct (channel_index_to_arfcn c) as [arfcn|]; [|done].
  destruct (agc_channel_position (sr_band range) arfcn) as [p|] eqn:E; [|done].
  rewrite !andb_true_iff, !Z.leb_le, Z.eqb_eq in H. destruct H as [H1 H2]. by exists range, arfcn, p.
Qed.
Lemma scan_finds_calibration_witness : exists range arfcn position,
  find_scan_range 130 = Some range /\ channel_index_to_arfcn 130 = Some arfcn /\
  agc_channel_position (sr_band range) arfcn = Some position /\ 0 <= position <= agc_band_last_position (sr_band range) /\
  agc_channel_index (sr_band range) position = if 130 ==? 0 then 125 else 130.
Proof.
  apply (scan_finds_calibration 130). rewrite scan_channels_eq. apply elem_of_app. right. apply elem_of_seqZ. lia.
Defined.
