(* ===== verification/GsmTrx.v ===== *)
(** * The GSM transceiver ([unit/dsp/hle/gsm-l1/board/hd155153np.c])

    The time processor sends the transceiver its telegrams from a table in TPU RAM, one copy
    per schedule bank.  The driver keeps a work table and writes slots of it to a bank. *)
From S2P Require Import Prelude Machine Board Regs GsmRegs GsmChannel.
Import Regs.Pmb8876.

Definition GSM_TRX_MONITOR_COUNT : Z := 4.
Definition GSM_TRX_TELEGRAM_COUNT : Z := 20.
Definition GSM_TRX_GAIN_RANGE_COUNT : Z := 3.
Definition GSM_TRX_GAIN_STEP_COUNT : Z := 46.
Definition TPU_RF_CONTROL_RAM_BASE : Z := 64.
Definition TPU_RF_TELEGRAM_WORDS : Z := 4.
Definition HD155153NP_REGISTER_VALUE_SHIFT : Z := 3.
Definition TELEGRAM_SLOT_MONITOR_CHANNEL_FIRST : Z := 0.
Definition TELEGRAM_SLOT_FC_GAIN : Z := 2.
Definition TELEGRAM_SLOT_FC_CHANNEL : Z := 3.
Definition TELEGRAM_SLOT_MONITOR_GAIN_FIRST : Z := 4.
Definition TELEGRAM_SLOT_RX_CONTROL : Z := 13.


Record trx_telegram := Telegram { t_control : Z; data_23_16 : Z; data_15_8 : Z; data_7_0 : Z }.
Definition INITIAL_TELEGRAMS : list trx_telegram := [
  Telegram 0x0320 0x00 0x00 0x01; Telegram 0x0320 0x00 0x00 0x45; Telegram 0x0320 0x13 0x03 0x06; Telegram 0x0320 0x00 0x8A 0x8E;
  Telegram 0x0320 0x07 0x92 0x96; Telegram 0x0320 0x70 0x00 0x26; Telegram 0x0320 0x76 0xE0 0x2E; Telegram 0x0320 0x76 0xC0 0x36;
  Telegram 0x0320 0x76 0xB8 0x3E; Telegram 0x0300 0x07 0x00 0x00; Telegram 0 0 0 0; Telegram 0 0 0 0;
  Telegram 0 0 0 0; Telegram 0x0300 0x04 0x00 0x00; Telegram 0x0320 0x01 0xFC 0x0B; Telegram 0x0320 0x05 0x24 0x1B;
  Telegram 0x0320 0x00 0x20 0xEB; Telegram 0x0320 0x00 0x20 0xC3; Telegram 0 0 0 0; Telegram 0 0 0 0].
(** [hd155153np-channel-telegrams.inc]. *)
Definition CHANNEL_TELEGRAMS : list (Z * Z * Z) := [
  (0x0C, 0x90, 0xC9); (0x0C, 0x91, 0x09); (0x0C, 0x91, 0x49); (0x0C, 0x91, 0x89); (0x0C, 0x91, 0xC9); (0x0C, 0x92, 0x09);
  (0x0C, 0x92, 0x49); (0x0C, 0x92, 0x89); (0x0C, 0x92, 0xC9); (0x0C, 0x93, 0x09); (0x0C, 0x93, 0x49); (0x0C, 0x93, 0x89);
  (0x0C, 0x93, 0xC9); (0x0C, 0x94, 0x09); (0x0C, 0x94, 0x49); (0x0C, 0x94, 0x89); (0x0C, 0x94, 0xC9); (0x0C, 0x95, 0x09);
  (0x0C, 0x95, 0x49); (0x0C, 0x95, 0x89); (0x0C, 0x95, 0xC9); (0x0C, 0x96, 0x09); (0x0C, 0x96, 0x49); (0x0C, 0x96, 0x89);
  (0x0C, 0x96, 0xC9); (0x0C, 0x97, 0x09); (0x0C, 0x97, 0x49); (0x0C, 0x97, 0x89); (0x0C, 0x97, 0xC9); (0x0C, 0x98, 0x09);
  (0x0C, 0x98, 0x49); (0x0C, 0x98, 0x89); (0x0C, 0x98, 0xC9); (0x0C, 0x99, 0x09); (0x0C, 0x99, 0x49); (0x0C, 0x99, 0x89);
  (0x0C, 0x99, 0xC9); (0x0C, 0x9A, 0x09); (0x0C, 0x9A, 0x49); (0x0C, 0x9A, 0x89); (0x0C, 0x9A, 0xC9); (0x0C, 0x9B, 0x09);
  (0x0C, 0x9B, 0x49); (0x0C, 0x9B, 0x89); (0x0C, 0x9B, 0xC9); (0x0C, 0x9C, 0x09); (0x0C, 0x9C, 0x49); (0x0C, 0x9C, 0x89);
  (0x0C, 0x9C, 0xC9); (0x0C, 0x9D, 0x09); (0x0C, 0x9D, 0x49); (0x0C, 0x9D, 0x89); (0x0C, 0x9D, 0xC9); (0x0C, 0x9E, 0x09);
  (0x0C, 0x9E, 0x49); (0x0C, 0x9E, 0x89); (0x0C, 0x9E, 0xC9); (0x0C, 0x9F, 0x09); (0x0C, 0x9F, 0x49); (0x0C, 0x9F, 0x89);
  (0x0C, 0x9F, 0xC9); (0x0C, 0xA0, 0x09); (0x0C, 0xA0, 0x49); (0x0C, 0xA0, 0x89); (0x0C, 0xA0, 0xC9); (0x0C, 0xA1, 0x09);
  (0x0C, 0xA1, 0x49); (0x0C, 0xA1, 0x89); (0x0C, 0xA1, 0xC9); (0x0C, 0xA2, 0x09); (0x0C, 0xA2, 0x49); (0x0C, 0xA2, 0x89);
  (0x0C, 0xA2, 0xC9); (0x0C, 0xA3, 0x09); (0x0C, 0xA3, 0x49); (0x0C, 0xA3, 0x89); (0x0C, 0xA3, 0xC9); (0x0C, 0xA4, 0x09);
  (0x0C, 0xA4, 0x49); (0x0C, 0xA4, 0x89); (0x0C, 0xA4, 0xC9); (0x0C, 0xA5, 0x09); (0x0C, 0xA5, 0x49); (0x0C, 0xA5, 0x89);
  (0x0C, 0xA5, 0xC9); (0x0C, 0xA6, 0x09); (0x0C, 0xA6, 0x49); (0x0C, 0xA6, 0x89); (0x0C, 0xA6, 0xC9); (0x0C, 0xA7, 0x09);
  (0x0C, 0xA7, 0x49); (0x0C, 0xA7, 0x89); (0x0C, 0xA7, 0xC9); (0x0C, 0xA8, 0x09); (0x0C, 0xA8, 0x49); (0x0C, 0xA8, 0x89);
  (0x0C, 0xA8, 0xC9); (0x0C, 0xA9, 0x09); (0x0C, 0xA9, 0x49); (0x0C, 0xA9, 0x89); (0x0C, 0xA9, 0xC9); (0x0C, 0xAA, 0x09);
  (0x0C, 0xAA, 0x49); (0x0C, 0xAA, 0x89); (0x0C, 0xAA, 0xC9); (0x0C, 0xAB, 0x09); (0x0C, 0xAB, 0x49); (0x0C, 0xAB, 0x89);
  (0x0C, 0xAB, 0xC9); (0x0C, 0xAC, 0x09); (0x0C, 0xAC, 0x49); (0x0C, 0xAC, 0x89); (0x0C, 0xAC, 0xC9); (0x0C, 0xAD, 0x09);
  (0x0C, 0xAD, 0x49); (0x0C, 0xAD, 0x89); (0x0C, 0xAD, 0xC9); (0x0C, 0xAE, 0x09); (0x0C, 0xAE, 0x49); (0x0C, 0xAE, 0x89);
  (0x0C, 0xAE, 0xC9); (0x0C, 0xAF, 0x09); (0x0C, 0xAF, 0x49); (0x0C, 0xAF, 0x89); (0x0C, 0xAF, 0xC9); (0x0C, 0x90, 0xC9);
  (0x2C, 0x84, 0x89); (0x2C, 0x84, 0xC9); (0x2C, 0x85, 0x09); (0x2C, 0x85, 0x49); (0x2C, 0x85, 0x89); (0x2C, 0x85, 0xC9);
  (0x2C, 0x86, 0x09); (0x2C, 0x86, 0x49); (0x2C, 0x86, 0x89); (0x2C, 0x86, 0xC9); (0x2C, 0x87, 0x09); (0x2C, 0x87, 0x49);
  (0x2C, 0x87, 0x89); (0x2C, 0x87, 0xC9); (0x2C, 0x88, 0x09); (0x2C, 0x88, 0x49); (0x2C, 0x88, 0x89); (0x2C, 0x88, 0xC9);
  (0x2C, 0x89, 0x09); (0x2C, 0x89, 0x49); (0x2C, 0x89, 0x89); (0x2C, 0x89, 0xC9); (0x2C, 0x8A, 0x09); (0x2C, 0x8A, 0x49);
  (0x2C, 0x8A, 0x89); (0x2C, 0x8A, 0xC9); (0x2C, 0x8B, 0x09); (0x2C, 0x8B, 0x49); (0x2C, 0x8B, 0x89); (0x2C, 0x8B, 0xC9);
  (0x2C, 0x8C, 0x09); (0x2C, 0x8C, 0x49); (0x2C, 0x8C, 0x89); (0x2C, 0x8C, 0xC9); (0x2C, 0x8D, 0x09); (0x2C, 0x8D, 0x49);
  (0x2C, 0x8D, 0x89); (0x2C, 0x8D, 0xC9); (0x2C, 0x8E, 0x09); (0x2C, 0x8E, 0x49); (0x2C, 0x8E, 0x89); (0x2C, 0x8E, 0xC9);
  (0x2C, 0x8F, 0x09); (0x2C, 0x8F, 0x49); (0x2C, 0x8F, 0x89); (0x2C, 0x8F, 0xC9); (0x2C, 0x90, 0x09); (0x2C, 0x90, 0x49);
  (0x2C, 0x90, 0x89); (0x0C, 0x68, 0x51); (0x0C, 0x68, 0x71); (0x0C, 0x68, 0x91); (0x0C, 0x68, 0xB1); (0x0C, 0x68, 0xD1);
  (0x0C, 0x68, 0xF1); (0x0C, 0x69, 0x11); (0x0C, 0x69, 0x31); (0x0C, 0x69, 0x51); (0x0C, 0x69, 0x71); (0x0C, 0x69, 0x91);
  (0x0C, 0x69, 0xB1); (0x0C, 0x69, 0xD1); (0x0C, 0x69, 0xF1); (0x0C, 0x6A, 0x11); (0x0C, 0x6A, 0x31); (0x0C, 0x6A, 0x51);
  (0x0C, 0x6A, 0x71); (0x0C, 0x6A, 0x91); (0x0C, 0x6A, 0xB1); (0x0C, 0x6A, 0xD1); (0x0C, 0x6A, 0xF1); (0x0C, 0x6B, 0x11);
  (0x0C, 0x6B, 0x31); (0x0C, 0x6B, 0x51); (0x0C, 0x6B, 0x71); (0x0C, 0x6B, 0x91); (0x0C, 0x6B, 0xB1); (0x0C, 0x6B, 0xD1);
  (0x0C, 0x6B, 0xF1); (0x0C, 0x6C, 0x11); (0x0C, 0x6C, 0x31); (0x0C, 0x6C, 0x51); (0x0C, 0x6C, 0x71); (0x0C, 0x6C, 0x91);
  (0x0C, 0x6C, 0xB1); (0x0C, 0x6C, 0xD1); (0x0C, 0x6C, 0xF1); (0x0C, 0x6D, 0x11); (0x0C, 0x6D, 0x31); (0x0C, 0x6D, 0x51);
  (0x0C, 0x6D, 0x71); (0x0C, 0x6D, 0x91); (0x0C, 0x6D, 0xB1); (0x0C, 0x6D, 0xD1); (0x0C, 0x6D, 0xF1); (0x0C, 0x6E, 0x11);
  (0x0C, 0x6E, 0x31); (0x0C, 0x6E, 0x51); (0x0C, 0x6E, 0x71); (0x0C, 0x6E, 0x91); (0x0C, 0x6E, 0xB1); (0x0C, 0x6E, 0xD1);
  (0x0C, 0x6E, 0xF1); (0x0C, 0x6F, 0x11); (0x0C, 0x6F, 0x31); (0x0C, 0x6F, 0x51); (0x0C, 0x6F, 0x71); (0x0C, 0x6F, 0x91);
  (0x0C, 0x6F, 0xB1); (0x0C, 0x6F, 0xD1); (0x0C, 0x6F, 0xF1); (0x0C, 0x70, 0x11); (0x0C, 0x70, 0x31); (0x0C, 0x70, 0x51);
  (0x0C, 0x70, 0x71); (0x0C, 0x70, 0x91); (0x0C, 0x70, 0xB1); (0x0C, 0x70, 0xD1); (0x0C, 0x70, 0xF1); (0x0C, 0x71, 0x11);
  (0x0C, 0x71, 0x31); (0x0C, 0x71, 0x51); (0x0C, 0x71, 0x71); (0x0C, 0x71, 0x91); (0x0C, 0x71, 0xB1); (0x0C, 0x71, 0xD1);
  (0x0C, 0x71, 0xF1); (0x0C, 0x72, 0x11); (0x0C, 0x72, 0x31); (0x0C, 0x72, 0x51); (0x0C, 0x72, 0x71); (0x0C, 0x72, 0x91);
  (0x0C, 0x72, 0xB1); (0x0C, 0x72, 0xD1); (0x0C, 0x72, 0xF1); (0x0C, 0x73, 0x11); (0x0C, 0x73, 0x31); (0x0C, 0x73, 0x51);
  (0x0C, 0x73, 0x71); (0x0C, 0x73, 0x91); (0x0C, 0x73, 0xB1); (0x0C, 0x73, 0xD1); (0x0C, 0x73, 0xF1); (0x0C, 0x74, 0x11);
  (0x0C, 0x74, 0x31); (0x0C, 0x74, 0x51); (0x0C, 0x74, 0x71); (0x0C, 0x74, 0x91); (0x0C, 0x74, 0xB1); (0x0C, 0x74, 0xD1);
  (0x0C, 0x74, 0xF1); (0x0C, 0x75, 0x11); (0x0C, 0x75, 0x31); (0x0C, 0x75, 0x51); (0x0C, 0x75, 0x71); (0x0C, 0x75, 0x91);
  (0x0C, 0x75, 0xB1); (0x0C, 0x75, 0xD1); (0x0C, 0x75, 0xF1); (0x0C, 0x76, 0x11); (0x0C, 0x76, 0x31); (0x0C, 0x76, 0x51);
  (0x0C, 0x76, 0x71); (0x0C, 0x76, 0x91); (0x0C, 0x76, 0xB1); (0x0C, 0x76, 0xD1); (0x0C, 0x76, 0xF1); (0x0C, 0x77, 0x11);
  (0x0C, 0x77, 0x31); (0x0C, 0x77, 0x51); (0x0C, 0x77, 0x71); (0x0C, 0x77, 0x91); (0x0C, 0x77, 0xB1); (0x0C, 0x77, 0xD1);
  (0x0C, 0x77, 0xF1); (0x0C, 0x78, 0x11); (0x0C, 0x78, 0x31); (0x0C, 0x78, 0x51); (0x0C, 0x78, 0x71); (0x0C, 0x78, 0x91);
  (0x0C, 0x78, 0xB1); (0x0C, 0x78, 0xD1); (0x0C, 0x78, 0xF1); (0x0C, 0x79, 0x11); (0x0C, 0x79, 0x31); (0x0C, 0x79, 0x51);
  (0x0C, 0x79, 0x71); (0x0C, 0x79, 0x91); (0x0C, 0x79, 0xB1); (0x0C, 0x79, 0xD1); (0x0C, 0x79, 0xF1); (0x0C, 0x7A, 0x11);
  (0x0C, 0x7A, 0x31); (0x0C, 0x7A, 0x51); (0x0C, 0x7A, 0x71); (0x0C, 0x7A, 0x91); (0x0C, 0x7A, 0xB1); (0x0C, 0x7A, 0xD1);
  (0x0C, 0x7A, 0xF1); (0x2C, 0x7B, 0x11); (0x2C, 0x7B, 0x31); (0x2C, 0x7B, 0x51); (0x2C, 0x7B, 0x71); (0x2C, 0x7B, 0x91);
  (0x2C, 0x7B, 0xB1); (0x2C, 0x7B, 0xD1); (0x2C, 0x7B, 0xF1); (0x2C, 0x7C, 0x11); (0x2C, 0x7C, 0x31); (0x2C, 0x7C, 0x51);
  (0x2C, 0x7C, 0x71); (0x2C, 0x7C, 0x91); (0x2C, 0x7C, 0xB1); (0x2C, 0x7C, 0xD1); (0x2C, 0x7C, 0xF1); (0x2C, 0x7D, 0x11);
  (0x2C, 0x7D, 0x31); (0x2C, 0x7D, 0x51); (0x2C, 0x7D, 0x71); (0x2C, 0x7D, 0x91); (0x2C, 0x7D, 0xB1); (0x2C, 0x7D, 0xD1);
  (0x2C, 0x7D, 0xF1); (0x2C, 0x7E, 0x11); (0x2C, 0x7E, 0x31); (0x2C, 0x7E, 0x51); (0x2C, 0x7E, 0x71); (0x2C, 0x7E, 0x91);
  (0x2C, 0x7E, 0xB1); (0x2C, 0x7E, 0xD1); (0x2C, 0x7E, 0xF1); (0x2C, 0x7F, 0x11); (0x2C, 0x7F, 0x31); (0x2C, 0x7F, 0x51);
  (0x2C, 0x7F, 0x71); (0x2C, 0x7F, 0x91); (0x2C, 0x7F, 0xB1); (0x2C, 0x7F, 0xD1); (0x2C, 0x7F, 0xF1); (0x2C, 0x80, 0x11);
  (0x2C, 0x80, 0x31); (0x2C, 0x80, 0x51); (0x2C, 0x80, 0x71); (0x2C, 0x80, 0x91); (0x2C, 0x80, 0xB1); (0x2C, 0x80, 0xD1);
  (0x2C, 0x80, 0xF1); (0x2C, 0x81, 0x11); (0x2C, 0x81, 0x31); (0x2C, 0x81, 0x51); (0x2C, 0x81, 0x71); (0x2C, 0x81, 0x91);
  (0x2C, 0x81, 0xB1); (0x2C, 0x81, 0xD1); (0x2C, 0x81, 0xF1); (0x2C, 0x82, 0x11); (0x2C, 0x82, 0x31); (0x2C, 0x82, 0x51);
  (0x2C, 0x82, 0x71); (0x2C, 0x82, 0x91); (0x2C, 0x82, 0xB1); (0x2C, 0x82, 0xD1); (0x2C, 0x82, 0xF1); (0x2C, 0x83, 0x11);
  (0x2C, 0x83, 0x31); (0x2C, 0x83, 0x51); (0x2C, 0x83, 0x71); (0x2C, 0x83, 0x91); (0x2C, 0x83, 0xB1); (0x2C, 0x83, 0xD1);
  (0x2C, 0x83, 0xF1); (0x2C, 0x84, 0x11); (0x2C, 0x84, 0x31); (0x2C, 0x84, 0x51); (0x2C, 0x84, 0x71); (0x2C, 0x84, 0x91);
  (0x2C, 0x84, 0xB1); (0x2C, 0x84, 0xD1); (0x2C, 0x84, 0xF1); (0x2C, 0x85, 0x11); (0x2C, 0x85, 0x31); (0x2C, 0x85, 0x51);
  (0x2C, 0x85, 0x71); (0x2C, 0x85, 0x91); (0x2C, 0x85, 0xB1); (0x2C, 0x85, 0xD1); (0x2C, 0x85, 0xF1); (0x2C, 0x86, 0x11);
  (0x2C, 0x86, 0x31); (0x2C, 0x86, 0x51); (0x2C, 0x86, 0x71); (0x2C, 0x86, 0x91); (0x2C, 0x86, 0xB1); (0x2C, 0x86, 0xD1);
  (0x2C, 0x86, 0xF1); (0x2C, 0x87, 0x11); (0x2C, 0x87, 0x31); (0x2C, 0x87, 0x51); (0x2C, 0x87, 0x71); (0x2C, 0x87, 0x91);
  (0x2C, 0x87, 0xB1); (0x2C, 0x87, 0xD1); (0x2C, 0x87, 0xF1); (0x2C, 0x88, 0x11); (0x2C, 0x88, 0x31); (0x2C, 0x88, 0x51);
  (0x2C, 0x88, 0x71); (0x2C, 0x88, 0x91); (0x2C, 0x88, 0xB1); (0x2C, 0x88, 0xD1); (0x2C, 0x88, 0xF1); (0x2C, 0x89, 0x11);
  (0x2C, 0x89, 0x31); (0x2C, 0x89, 0x51); (0x2C, 0x89, 0x71); (0x2C, 0x89, 0x91); (0x2C, 0x89, 0xB1); (0x2C, 0x89, 0xD1);
  (0x2C, 0x89, 0xF1); (0x2C, 0x8A, 0x11); (0x2C, 0x8A, 0x31); (0x2C, 0x8A, 0x51); (0x2C, 0x8A, 0x71); (0x2C, 0x8A, 0x91);
  (0x2C, 0x8A, 0xB1); (0x2C, 0x8A, 0xD1); (0x2C, 0x8A, 0xF1); (0x2C, 0x8B, 0x11); (0x2C, 0x8B, 0x31); (0x2C, 0x8B, 0x51);
  (0x2C, 0x8B, 0x71); (0x2C, 0x8B, 0x91); (0x2C, 0x8B, 0xB1); (0x2C, 0x8B, 0xD1); (0x2C, 0x8B, 0xF1); (0x2C, 0x8C, 0x11);
  (0x2C, 0x8C, 0x31); (0x2C, 0x8C, 0x51); (0x2C, 0x8C, 0x71); (0x2C, 0x8C, 0x91); (0x2C, 0x8C, 0xB1); (0x2C, 0x8C, 0xD1);
  (0x2C, 0x8C, 0xF1); (0x2C, 0x8D, 0x11); (0x2C, 0x8D, 0x31); (0x2C, 0x8D, 0x51); (0x2C, 0x8D, 0x71); (0x2C, 0x8D, 0x91);
  (0x2C, 0x8D, 0xB1); (0x2C, 0x8D, 0xD1); (0x2C, 0x8D, 0xF1); (0x2C, 0x8E, 0x11); (0x2C, 0x8E, 0x31); (0x2C, 0x8E, 0x51);
  (0x2C, 0x8E, 0x71); (0x2C, 0x8E, 0x91); (0x2C, 0x8E, 0xB1); (0x2C, 0x8E, 0xD1); (0x2C, 0x8E, 0xF1); (0x2C, 0x8F, 0x11);
  (0x2C, 0x8F, 0x31); (0x2C, 0x8F, 0x51); (0x2C, 0x8F, 0x71); (0x2C, 0x8F, 0x91); (0x2C, 0x8F, 0xB1); (0x2C, 0x8F, 0xD1);
  (0x2C, 0x8F, 0xF1); (0x2C, 0x90, 0x11); (0x2C, 0x90, 0x31); (0x2C, 0x90, 0x51); (0x2C, 0x90, 0x71); (0x2C, 0x90, 0x91);
  (0x2C, 0x90, 0xB1); (0x2C, 0x90, 0xD1); (0x2C, 0x90, 0xF1); (0x2C, 0x91, 0x11); (0x2C, 0x91, 0x31); (0x2C, 0x91, 0x51);
  (0x2C, 0x91, 0x71); (0x2C, 0x91, 0x91); (0x2C, 0x91, 0xB1); (0x2C, 0x91, 0xD1); (0x2C, 0x91, 0xF1); (0x2C, 0x92, 0x11);
  (0x2C, 0x92, 0x31); (0x2C, 0x92, 0x51); (0x2C, 0x92, 0x71); (0x2C, 0x92, 0x91); (0x2C, 0x92, 0xB1); (0x2C, 0x92, 0xD1);
  (0x2C, 0x92, 0xF1); (0x2C, 0x93, 0x11); (0x2C, 0x93, 0x31); (0x2C, 0x93, 0x51); (0x2C, 0x93, 0x71); (0x2C, 0x93, 0x91);
  (0x2C, 0x93, 0xB1); (0x2C, 0x93, 0xD1); (0x2C, 0x93, 0xF1); (0x2C, 0x94, 0x11); (0x2C, 0x94, 0x31); (0x2C, 0x94, 0x51);
  (0x2C, 0x94, 0x71); (0x2C, 0x94, 0x91); (0x2C, 0x94, 0xB1); (0x2C, 0x94, 0xD1); (0x2C, 0x94, 0xF1); (0x2C, 0x95, 0x11);
  (0x2C, 0x95, 0x31); (0x2C, 0x95, 0x51); (0x2C, 0x95, 0x71); (0x2C, 0x95, 0x91); (0x2C, 0x95, 0xB1); (0x2C, 0x95, 0xD1);
  (0x2C, 0x95, 0xF1); (0x2C, 0x96, 0x11); (0x2C, 0x96, 0x31); (0x2C, 0x96, 0x51); (0x2C, 0x96, 0x71); (0x2C, 0x96, 0x91);
  (0x2C, 0x96, 0xB1); (0x2C, 0x96, 0xD1); (0x2C, 0x96, 0xF1); (0x0C, 0xB6, 0x79); (0x0C, 0xB6, 0x99); (0x0C, 0xB6, 0xB9);
  (0x0C, 0xB6, 0xD9); (0x0C, 0xB6, 0xF9); (0x0C, 0xB7, 0x19); (0x0C, 0xB7, 0x39); (0x0C, 0xB7, 0x59); (0x0C, 0xB7, 0x79);
  (0x0C, 0xB7, 0x99); (0x0C, 0xB7, 0xB9); (0x0C, 0xB7, 0xD9); (0x0C, 0xB7, 0xF9); (0x0C, 0xB8, 0x19); (0x0C, 0xB8, 0x39);
  (0x0C, 0xB8, 0x59); (0x0C, 0xB8, 0x79); (0x0C, 0xB8, 0x99); (0x0C, 0xB8, 0xB9); (0x0C, 0xB8, 0xD9); (0x0C, 0xB8, 0xF9);
  (0x0C, 0xB9, 0x19); (0x0C, 0xB9, 0x39); (0x0C, 0xB9, 0x59); (0x0C, 0xB9, 0x79); (0x0C, 0xB9, 0x99); (0x0C, 0xB9, 0xB9);
  (0x0C, 0xB9, 0xD9); (0x0C, 0xB9, 0xF9); (0x0C, 0xBA, 0x19); (0x0C, 0xBA, 0x39); (0x0C, 0xBA, 0x59); (0x0C, 0xBA, 0x79);
  (0x0C, 0xBA, 0x99); (0x0C, 0xBA, 0xB9); (0x0C, 0xBA, 0xD9); (0x0C, 0xBA, 0xF9); (0x0C, 0xBB, 0x19); (0x0C, 0xBB, 0x39);
  (0x0C, 0xBB, 0x59); (0x0C, 0xBB, 0x79); (0x0C, 0xBB, 0x99); (0x0C, 0xBB, 0xB9); (0x0C, 0xBB, 0xD9); (0x0C, 0xBB, 0xF9);
  (0x0C, 0xBC, 0x19); (0x0C, 0xBC, 0x39); (0x0C, 0xBC, 0x59); (0x0C, 0xBC, 0x79); (0x0C, 0xBC, 0x99); (0x0C, 0xBC, 0xB9);
  (0x0C, 0xBC, 0xD9); (0x0C, 0xBC, 0xF9); (0x0C, 0xBD, 0x19); (0x0C, 0xBD, 0x39); (0x0C, 0xBD, 0x59); (0x0C, 0xBD, 0x79);
  (0x0C, 0xBD, 0x99); (0x0C, 0xBD, 0xB9); (0x0C, 0xBD, 0xD9); (0x0C, 0xBD, 0xF9); (0x0C, 0xBE, 0x19); (0x0C, 0xBE, 0x39);
  (0x0C, 0xBE, 0x59); (0x0C, 0xBE, 0x79); (0x0C, 0xBE, 0x99); (0x0C, 0xBE, 0xB9); (0x0C, 0xBE, 0xD9); (0x0C, 0xBE, 0xF9);
  (0x0C, 0xBF, 0x19); (0x0C, 0xBF, 0x39); (0x0C, 0xBF, 0x59); (0x0C, 0xBF, 0x79); (0x0C, 0xBF, 0x99); (0x0C, 0xBF, 0xB9);
  (0x0C, 0xBF, 0xD9); (0x0C, 0xBF, 0xF9); (0x0C, 0xC0, 0x19); (0x0C, 0xC0, 0x39); (0x0C, 0xC0, 0x59); (0x0C, 0xC0, 0x79);
  (0x0C, 0xC0, 0x99); (0x0C, 0xC0, 0xB9); (0x0C, 0xC0, 0xD9); (0x0C, 0xC0, 0xF9); (0x0C, 0xC1, 0x19); (0x0C, 0xC1, 0x39);
  (0x0C, 0xC1, 0x59); (0x0C, 0xC1, 0x79); (0x0C, 0xC1, 0x99); (0x0C, 0xC1, 0xB9); (0x0C, 0xC1, 0xD9); (0x0C, 0xC1, 0xF9);
  (0x0C, 0xC2, 0x19); (0x0C, 0xC2, 0x39); (0x0C, 0xC2, 0x59); (0x0C, 0xC2, 0x79); (0x0C, 0xC2, 0x99); (0x0C, 0xC2, 0xB9);
  (0x0C, 0xC2, 0xD9); (0x0C, 0xC2, 0xF9); (0x0C, 0xC3, 0x19); (0x0C, 0xC3, 0x39); (0x0C, 0xC3, 0x59); (0x0C, 0xC3, 0x79);
  (0x0C, 0xC3, 0x99); (0x0C, 0xC3, 0xB9); (0x0C, 0xC3, 0xD9); (0x0C, 0xC3, 0xF9); (0x0C, 0xC4, 0x19); (0x0C, 0xC4, 0x39);
  (0x0C, 0xC4, 0x59); (0x0C, 0xC4, 0x79); (0x0C, 0xC4, 0x99); (0x0C, 0xC4, 0xB9); (0x0C, 0xC4, 0xD9); (0x0C, 0xC4, 0xF9);
  (0x0C, 0xC5, 0x19); (0x0C, 0xC5, 0x39); (0x0C, 0xC5, 0x59); (0x0C, 0xC5, 0x79); (0x0C, 0xC5, 0x99); (0x0C, 0xC5, 0xB9);
  (0x0C, 0xC5, 0xD9); (0x0C, 0xC5, 0xF9); (0x0C, 0xC6, 0x19); (0x0C, 0xC6, 0x39); (0x0C, 0xC6, 0x59); (0x0C, 0xC6, 0x79);
  (0x0C, 0xC6, 0x99); (0x0C, 0xC6, 0xB9); (0x0C, 0xC6, 0xD9); (0x0C, 0xC6, 0xF9); (0x0C, 0xC7, 0x19); (0x0C, 0xC7, 0x39);
  (0x0C, 0xC7, 0x59); (0x0C, 0xC7, 0x79); (0x0C, 0xC7, 0x99); (0x0C, 0xC7, 0xB9); (0x0C, 0xC7, 0xD9); (0x0C, 0xC7, 0xF9);
  (0x0C, 0xC8, 0x19); (0x0C, 0xC8, 0x39); (0x0C, 0xC8, 0x59); (0x0C, 0xC8, 0x79); (0x0C, 0xC8, 0x99); (0x0C, 0xC8, 0xB9);
  (0x0C, 0xC8, 0xD9); (0x0C, 0xC8, 0xF9); (0x0C, 0xC9, 0x19); (0x0C, 0xC9, 0x39); (0x0C, 0xC9, 0x59); (0x0C, 0xC9, 0x79);
  (0x0C, 0xC9, 0x99); (0x0C, 0xC9, 0xB9); (0x0C, 0xC9, 0xD9); (0x0C, 0xC9, 0xF9); (0x0C, 0xCA, 0x19); (0x0C, 0xCA, 0x39);
  (0x0C, 0xCA, 0x59); (0x0C, 0xCA, 0x79); (0x0C, 0xCA, 0x99); (0x0C, 0xCA, 0xB9); (0x0C, 0xCA, 0xD9); (0x0C, 0xCA, 0xF9);
  (0x0C, 0xCB, 0x19); (0x0C, 0xCB, 0x39); (0x0C, 0xCB, 0x59); (0x0C, 0xCB, 0x79); (0x0C, 0xCB, 0x99); (0x0C, 0xCB, 0xB9);
  (0x0C, 0xCB, 0xD9); (0x0C, 0xCB, 0xF9); (0x0C, 0xCC, 0x19); (0x0C, 0xCC, 0x39); (0x0C, 0xCC, 0x59); (0x0C, 0xCC, 0x79);
  (0x0C, 0xCC, 0x99); (0x0C, 0xCC, 0xB9); (0x0C, 0xCC, 0xD9); (0x0C, 0xCC, 0xF9); (0x0C, 0xCD, 0x19); (0x0C, 0xCD, 0x39);
  (0x0C, 0xCD, 0x59); (0x0C, 0xCD, 0x79); (0x0C, 0xCD, 0x99); (0x0C, 0xCD, 0xB9); (0x0C, 0xCD, 0xD9); (0x0C, 0xCD, 0xF9);
  (0x0C, 0xCE, 0x19); (0x0C, 0xCE, 0x39); (0x0C, 0xCE, 0x59); (0x0C, 0xCE, 0x79); (0x0C, 0xCE, 0x99); (0x0C, 0xCE, 0xB9);
  (0x0C, 0xCE, 0xD9); (0x0C, 0xCE, 0xF9); (0x0C, 0xCF, 0x19); (0x0C, 0xCF, 0x39); (0x0C, 0xCF, 0x59); (0x0C, 0xCF, 0x79);
  (0x0C, 0xCF, 0x99); (0x0C, 0xCF, 0xB9); (0x0C, 0xCF, 0xD9); (0x0C, 0xCF, 0xF9); (0x0C, 0xD0, 0x19); (0x0C, 0xD0, 0x39);
  (0x0C, 0xD0, 0x59); (0x0C, 0xD0, 0x79); (0x0C, 0xD0, 0x99); (0x0C, 0xD0, 0xB9); (0x0C, 0xD0, 0xD9); (0x0C, 0xD0, 0xF9);
  (0x0C, 0xD1, 0x19); (0x0C, 0xD1, 0x39); (0x0C, 0xD1, 0x59); (0x0C, 0xD1, 0x79); (0x0C, 0xD1, 0x99); (0x0C, 0xD1, 0xB9);
  (0x0C, 0xD1, 0xD9); (0x0C, 0xD1, 0xF9); (0x0C, 0xD2, 0x19); (0x0C, 0xD2, 0x39); (0x0C, 0xD2, 0x59); (0x0C, 0xD2, 0x79);
  (0x0C, 0xD2, 0x99); (0x0C, 0xD2, 0xB9); (0x0C, 0xD2, 0xD9); (0x0C, 0xD2, 0xF9); (0x0C, 0xD3, 0x19); (0x0C, 0xD3, 0x39);
  (0x0C, 0xD3, 0x59); (0x0C, 0xD3, 0x79); (0x0C, 0xD3, 0x99); (0x0C, 0xD3, 0xB9); (0x0C, 0xD3, 0xD9); (0x0C, 0xD3, 0xF9);
  (0x0C, 0xD4, 0x19); (0x0C, 0xD4, 0x39); (0x0C, 0xD4, 0x59); (0x0C, 0xD4, 0x79); (0x0C, 0xD4, 0x99); (0x0C, 0xD4, 0xB9);
  (0x0C, 0xD4, 0xD9); (0x0C, 0xD4, 0xF9); (0x0C, 0xD5, 0x19); (0x0C, 0xD5, 0x39); (0x0C, 0xD5, 0x59); (0x0C, 0xD5, 0x79);
  (0x0C, 0xD5, 0x99); (0x0C, 0xD5, 0xB9); (0x0C, 0xD5, 0xD9); (0x0C, 0xD5, 0xF9); (0x0C, 0xD6, 0x19); (0x0C, 0xD6, 0x39);
  (0x0C, 0xD6, 0x59); (0x0C, 0xD6, 0x79); (0x0C, 0xD6, 0x99); (0x0C, 0xD6, 0xB9); (0x0C, 0xD6, 0xD9); (0x0C, 0xD6, 0xF9);
  (0x0C, 0xD7, 0x19); (0x0C, 0xD7, 0x39); (0x0C, 0xD7, 0x59); (0x0C, 0xD7, 0x79); (0x0C, 0xD7, 0x99); (0x0C, 0xD7, 0xB9);
  (0x0C, 0xD7, 0xD9); (0x0C, 0xD7, 0xF9); (0x0C, 0xD8, 0x19); (0x0C, 0xD8, 0x39); (0x0C, 0xD8, 0x59); (0x0C, 0xD8, 0x79);
  (0x0C, 0xD8, 0x99); (0x0C, 0xD8, 0xB9); (0x0C, 0xD8, 0xD9); (0x0C, 0xD8, 0xF9); (0x0C, 0xD9, 0x19); (0x0C, 0xD9, 0x39);
  (0x0C, 0xD9, 0x59); (0x0C, 0xD9, 0x79); (0x0C, 0xD9, 0x99); (0x0C, 0xD9, 0xB9); (0x0C, 0xD9, 0xD9); (0x0C, 0xD9, 0xF9);
  (0x0C, 0xDA, 0x19); (0x0C, 0xDA, 0x39); (0x0C, 0xDA, 0x59); (0x0C, 0xDA, 0x79); (0x0C, 0xDA, 0x99); (0x0C, 0xDA, 0xB9);
  (0x0C, 0xDA, 0xD9); (0x0C, 0xDA, 0xF9); (0x0C, 0xDB, 0x19); (0x0C, 0xDB, 0x39); (0x0C, 0xDB, 0x59); (0x0C, 0xDB, 0x79);
  (0x0C, 0xDB, 0x99); (0x0C, 0xDB, 0xB9); (0x0C, 0x3E, 0x81); (0x0C, 0x3E, 0xC1); (0x0C, 0x3F, 0x01); (0x0C, 0x3F, 0x41);
  (0x0C, 0x3F, 0x81); (0x0C, 0x3F, 0xC1); (0x0C, 0x40, 0x01); (0x0C, 0x40, 0x41); (0x0C, 0x40, 0x81); (0x0C, 0x40, 0xC1);
  (0x0C, 0x41, 0x01); (0x0C, 0x41, 0x41); (0x0C, 0x41, 0x81); (0x0C, 0x41, 0xC1); (0x0C, 0x42, 0x01); (0x0C, 0x42, 0x41);
  (0x0C, 0x42, 0x81); (0x0C, 0x42, 0xC1); (0x0C, 0x43, 0x01); (0x0C, 0x43, 0x41); (0x0C, 0x43, 0x81); (0x0C, 0x43, 0xC1);
  (0x0C, 0x44, 0x01); (0x0C, 0x44, 0x41); (0x0C, 0x44, 0x81); (0x0C, 0x44, 0xC1); (0x0C, 0x45, 0x01); (0x0C, 0x45, 0x41);
  (0x0C, 0x45, 0x81); (0x0C, 0x45, 0xC1); (0x0C, 0x46, 0x01); (0x0C, 0x46, 0x41); (0x0C, 0x46, 0x81); (0x0C, 0x46, 0xC1);
  (0x0C, 0x47, 0x01); (0x0C, 0x47, 0x41); (0x0C, 0x47, 0x81); (0x0C, 0x47, 0xC1); (0x0C, 0x48, 0x01); (0x0C, 0x48, 0x41);
  (0x0C, 0x48, 0x81); (0x0C, 0x48, 0xC1); (0x0C, 0x49, 0x01); (0x0C, 0x49, 0x41); (0x0C, 0x49, 0x81); (0x0C, 0x49, 0xC1);
  (0x0C, 0x4A, 0x01); (0x0C, 0x4A, 0x41); (0x0C, 0x4A, 0x81); (0x0C, 0x4A, 0xC1); (0x0C, 0x4B, 0x01); (0x0C, 0x4B, 0x41);
  (0x0C, 0x4B, 0x81); (0x0C, 0x4B, 0xC1); (0x0C, 0x4C, 0x01); (0x0C, 0x4C, 0x41); (0x0C, 0x4C, 0x81); (0x0C, 0x4C, 0xC1);
  (0x0C, 0x4D, 0x01); (0x0C, 0x4D, 0x41); (0x0C, 0x4D, 0x81); (0x0C, 0x4D, 0xC1); (0x0C, 0x4E, 0x01); (0x0C, 0x4E, 0x41);
  (0x0C, 0x4E, 0x81); (0x0C, 0x4E, 0xC1); (0x0C, 0x4F, 0x01); (0x0C, 0x4F, 0x41); (0x0C, 0x4F, 0x81); (0x0C, 0x4F, 0xC1);
  (0x0C, 0x50, 0x01); (0x0C, 0x50, 0x41); (0x0C, 0x50, 0x81); (0x0C, 0x50, 0xC1); (0x0C, 0x51, 0x01); (0x0C, 0x51, 0x41);
  (0x0C, 0x51, 0x81); (0x2C, 0x51, 0xC1); (0x2C, 0x52, 0x01); (0x2C, 0x52, 0x41); (0x2C, 0x52, 0x81); (0x2C, 0x52, 0xC1);
  (0x2C, 0x53, 0x01); (0x2C, 0x53, 0x41); (0x2C, 0x53, 0x81); (0x2C, 0x53, 0xC1); (0x0C, 0x54, 0x01); (0x0C, 0x54, 0x41);
  (0x0C, 0x54, 0x81); (0x0C, 0x54, 0xC1); (0x0C, 0x55, 0x01); (0x0C, 0x55, 0x41); (0x0C, 0x55, 0x81); (0x0C, 0x55, 0xC1);
  (0x0C, 0x56, 0x01); (0x0C, 0x56, 0x41); (0x0C, 0x56, 0x81); (0x0C, 0x56, 0xC1); (0x0C, 0x57, 0x01); (0x0C, 0x57, 0x41);
  (0x0C, 0x57, 0x81); (0x0C, 0x57, 0xC1); (0x0C, 0x58, 0x01); (0x0C, 0x58, 0x41); (0x0C, 0x58, 0x81); (0x0C, 0x58, 0xC1);
  (0x0C, 0x59, 0x01); (0x0C, 0x59, 0x41); (0x0C, 0x59, 0x81); (0x0C, 0x59, 0xC1); (0x0C, 0x5A, 0x01); (0x0C, 0x5A, 0x41);
  (0x0C, 0x5A, 0x81); (0x0C, 0x5A, 0xC1); (0x0C, 0x5B, 0x01); (0x0C, 0x5B, 0x41); (0x0C, 0x5B, 0x81); (0x0C, 0x5B, 0xC1);
  (0x0C, 0x5C, 0x01); (0x0C, 0x5C, 0x41); (0x0C, 0x5C, 0x81); (0x0C, 0x5C, 0xC1); (0x0C, 0x5D, 0x01); (0x0C, 0x5D, 0x41)].

(** ** The gain state: a residual in eighths of a dB, a range and a step *)
Definition gsm_trx_get_gain_state_range (gain_state : Z) : Z := (gain_state .>> 6) .& 0x03.
Definition gsm_trx_get_gain_state_step (gain_state : Z) : Z := gain_state .& 0x3F.
Definition gsm_trx_get_max_gain_step : Z := 45.
Definition gsm_trx_encode_gain_state (residual range step : Z) : Z :=
  u16 ((u16 residual .<< 8) .| (range .<< 6) .| step).

Definition RANGE_FIELDS : list Z := [0x0600; 0x0400; 0x0000].
Definition encode_gain_telegram (gain_state : Z) : option trx_telegram :=
  field ← elem RANGE_FIELDS (gsm_trx_get_gain_state_range gain_state);
  let step := gsm_trx_get_gain_state_step gain_state in
  let telegram := field .| (step .<< HD155153NP_REGISTER_VALUE_SHIFT) .| HD155153NP_GAIN_CONTROL in
  Some (Telegram 0x0310 (u16 (telegram .>> 8)) (u16 (telegram .& 0xFF)) 0).

(** ** The driver; its work table [telegrams] is a part of the program's statics *)
Class Part (A S : Type) := {
  part : A -> S;
  set_part : S -> A -> A;
  part_set s a : part (set_part s a) = s;
}.
Section Code.
Context {D A : Type} `{!Device D} `{!Part A (list trx_telegram)}.
#[local] Abbreviation M := (M D A).
Definition get_part {S} `{!Part A S} : M S := a ← get_app; mret (part a).
Definition put_part {S} `{!Part A S} (s : S) : M unit := a ← get_app; put_app (set_part s a).

Definition set_telegram (slot : Z) (telegram : trx_telegram) : M unit :=
  telegrams ← get_part; put_part (<[Z.to_nat slot := telegram]> telegrams).
Definition write_telegram_slot (bank slot : Z) : M unit :=
  telegrams ← get_part;
  telegram ← defined (elem telegrams slot);
  let word := u32 (TPU_RF_CONTROL_RAM_BASE + (bank * GSM_TRX_TELEGRAM_COUNT + slot) * TPU_RF_TELEGRAM_WORDS) in
  wr32 (TPU_RAM word) (t_control telegram);;
  wr32 (TPU_RAM (word + 1)) (data_23_16 telegram);;
  wr32 (TPU_RAM (word + 2)) (data_15_8 telegram);;
  wr32 (TPU_RAM (word + 3)) (data_7_0 telegram).
Definition gsm_trx_init : M unit :=
  wr32 TPU_RFCON1 (TPU_RFCON1_STBSEL_ACTIVE_HIGH .| TPU_RFCON1_RFISSCP_IDLE_LOW_LEADING_RISE);;
  wr32 TPU_RFCON2 0.
Definition gsm_trx_reset_telegram_table : M unit := put_part INITIAL_TELEGRAMS.
Definition gsm_trx_write_telegram_table (bank : Z) : M unit :=
  foldM (fun _ slot => write_telegram_slot bank slot) tt (seqZ 0 GSM_TRX_TELEGRAM_COUNT).
Definition channel_telegram (channel_index : Z) : option trx_telegram :=
  '(d2, d1, d0) ← elem CHANNEL_TELEGRAMS channel_index; Some (Telegram 0x0320 d2 d1 d0).
Definition gsm_trx_configure_monitoring (bank : Z) (channel_indices gain_states : list Z) : M unit :=
  foldM (fun _ monitor =>
    channel ← defined (elem channel_indices monitor);
    telegram ← (if channel !=? GSM_CHANNEL_NONE then defined (channel_telegram channel)
                else mret (Telegram 0x0300 HD155153NP_CONTROL_R4 0 0));
    set_telegram (TELEGRAM_SLOT_MONITOR_CHANNEL_FIRST + monitor) telegram;;
    gain_state ← defined (elem gain_states monitor);
    telegram ← defined (encode_gain_telegram gain_state);
    set_telegram (TELEGRAM_SLOT_MONITOR_GAIN_FIRST + monitor) telegram) tt (seqZ 0 GSM_TRX_MONITOR_COUNT);;
  foldM (fun _ slot => write_telegram_slot bank slot) tt (seqZ 0 (GSM_TRX_MONITOR_COUNT * 2)).
Definition gsm_trx_configure_acquisition (bank channel_index gain_state : Z) : M unit :=
  telegram ← defined (encode_gain_telegram gain_state); set_telegram TELEGRAM_SLOT_FC_GAIN telegram;;
  telegram ← defined (channel_telegram channel_index); set_telegram TELEGRAM_SLOT_FC_CHANNEL telegram;;
  write_telegram_slot bank TELEGRAM_SLOT_FC_GAIN;;
  write_telegram_slot bank TELEGRAM_SLOT_FC_CHANNEL;;
  write_telegram_slot bank TELEGRAM_SLOT_RX_CONTROL.
Definition gsm_trx_is_idle : M bool := con2 ← rd32 TPU_RFCON2; mret ((con2 .& TPU_RFCON2_SSCEN) ==? 0).
End Code.
