(* ===== verification/GsmCalib.v ===== *)
(** * The receiver calibration ([unit/dsp/hle/gsm-l1/board/siemens-x85.c], the arithmetic)

    The factory stores in the phone's EEPROM how the receiver of this phone deviates: gain
    tables, corrections by channel, thresholds and the curve of the frequency correction.
    The functions of this file turn a measurement into a level and the next gain state,
    and a frequency correction into a value of the correction DAC.  [None] is an access
    outside of an array or a division by zero. *)
From S2P Require Import Prelude Machine Board Regs GsmRegs GsmChannel GsmTrx.

Definition AFC_FREQUENCY_SCALE : Z := 64.
Definition AGC_INITIAL_GAIN_STATE : Z := 0x004F.
Definition MON_RAW_VALUES_PER_DB : Z := 16.
Definition RX_POWER_MAX_X8 : Z := 1000.

Record afc_calibration_point := AfcPoint { afc_value : Z; frequency_div64 : Z }.
Record band_calibration := BandCalibration {
  band_offset : Z; range_offsets : list Z;
  range0_enter_threshold : Z; range0_leave_threshold : Z; range2_leave_threshold : Z; range2_enter_threshold : Z }.
Record receiver_calibration := Calibration {
  afc : list afc_calibration_point; rx_power_offset : Z; bands : list band_calibration;
  gain_values_x8 : list Z; channel_corrections : list (list Z) }.

Definition band_number (band : gsm_band) : Z :=
  match band with GSM_BAND_900 => 0 | GSM_BAND_DCS1800 => 1 | GSM_BAND_PCS1900 => 2 | GSM_BAND_850 => 3 | GSM_BAND_COUNT => 4 end.

(** C's [/] and [%] round towards zero. *)
Definition divide_floor (dividend divisor : Z) : Z :=
  let quotient := Z.quot dividend divisor in
  if (dividend <? 0) && negb (Z.rem dividend divisor ==? 0) then quotient - 1 else quotient.

(** ** Levels and gain *)
Definition decode_monitor_value (raw : Z) : Z :=
  let monitor := i16 raw in
  if raw ==? 0xFF80 then 0 else if 0 <=? monitor then raw .>> 2 else monitor.

Section Receiver.
Context (calibration : receiver_calibration).
Definition channel_correction (range channel_index : Z) : option Z :=
  row ← elem (channel_corrections calibration) range; elem row channel_index.
Definition calculate_rx_gain_x8 (band : gsm_band) (channel_index gain_state : Z) : option Z :=
  band_calibration ← elem (bands calibration) (band_number band);
  let range := gsm_trx_get_gain_state_range gain_state in
  let step := gsm_trx_get_gain_state_step gain_state in
  gain ← elem (gain_values_x8 calibration) step;
  correction ← channel_correction range channel_index;
  offset ← elem (range_offsets band_calibration) range;
  Some (gain + correction + offset + band_offset band_calibration + rx_power_offset calibration * 2).
Definition calculate_rx_power_x8 (band : gsm_band) (channel_index gain_state raw : Z) : option Z :=
  gain ← calculate_rx_gain_x8 band channel_index gain_state;
  let power_x8 := gain - decode_monitor_value raw * 2 in
  Some (if power_x8 <? 0 then 0 else if RX_POWER_MAX_X8 <? power_x8 then RX_POWER_MAX_X8 else power_x8).
Definition gsm_board_calculate_rx_level_dbm_x16 (band : gsm_band) (channel_index gain_state raw : Z) : option Z :=
  power ← calculate_rx_power_x8 band channel_index gain_state raw; Some (power * -2).

(** The range for a level, from the thresholds and the range so far. *)
Definition choose_range (b : band_calibration) (range power_x8 : Z) : Z :=
  if power_x8 <? range0_leave_threshold b then
    if power_x8 <? range0_enter_threshold b then 0 else if 1 <? range then 1 else range
  else if power_x8 <? range2_enter_threshold b then
    if (power_x8 <? range2_leave_threshold b) || (range ==? 0) then 1 else range
  else 2.
(** The step and the residual that make up a gain difference. *)
Definition choose_step (step gain_delta_x8 : Z) : Z * Z :=
  let step_delta := (gain_delta_x8 + 4) .>> 4 in
  let next_step := step + step_delta in
  let maximum_step := gsm_trx_get_max_gain_step in
  let '(step_delta, next_step) := if next_step <? 0 then (step_delta - next_step, 0) else (step_delta, next_step) in
  let '(step_delta, next_step) :=
    if maximum_step <? next_step then (step_delta - (next_step - maximum_step), maximum_step) else (step_delta, next_step) in
  let residual := gain_delta_x8 - step_delta * MON_RAW_VALUES_PER_DB in
  let residual := if residual <? -127 then -127 else residual in
  let residual := if 127 <? residual then 127 else residual in
  (next_step, residual).
Definition gain_difference (b : band_calibration) (channel_index gain_state raw next_range : Z) : option Z :=
  let range := gsm_trx_get_gain_state_range gain_state in
  let monitor_delta_x8 := (decode_monitor_value raw - rx_power_offset calibration) * 2 in
  offset ← elem (range_offsets b) range;
  correction ← channel_correction range channel_index;
  next_offset ← elem (range_offsets b) next_range;
  next_correction ← channel_correction next_range channel_index;
  Some (offset + correction - next_offset - next_correction + i8 (gain_state .>> 8) - monitor_delta_x8).
Definition gsm_board_calculate_next_gain_state (band : gsm_band) (channel_index gain_state raw : Z) : option Z :=
  b ← elem (bands calibration) (band_number band);
  power_x8 ← calculate_rx_power_x8 band channel_index gain_state raw;
  let next_range := choose_range b (gsm_trx_get_gain_state_range gain_state) power_x8 in
  gain_delta_x8 ← gain_difference b channel_index gain_state raw next_range;
  let '(next_step, residual) := choose_step (gsm_trx_get_gain_state_step gain_state) gain_delta_x8 in
  Some (gsm_trx_encode_gain_state residual next_range next_step).
Definition gsm_board_get_initial_gain_state : Z := AGC_INITIAL_GAIN_STATE.

(** ** The frequency correction *)
(** From the point [lower_point] on: the first point that is not below. *)
Fixpoint afc_search (frequency_hz : Z) (lower_point : afc_calibration_point) (points : list afc_calibration_point) : option Z :=
  match points with
  | [] => Some (afc_value lower_point)
  | upper_point :: points =>
      let upper_frequency := frequency_div64 upper_point * AFC_FREQUENCY_SCALE in
      if frequency_hz <=? upper_frequency then
        let lower_frequency := frequency_div64 lower_point * AFC_FREQUENCY_SCALE in
        let frequency_range := upper_frequency - lower_frequency in
        let frequency_offset := frequency_hz - lower_frequency in
        let value_range := afc_value upper_point - afc_value lower_point in
        if frequency_range ==? 0 then None
        else Some (u16 (afc_value lower_point + Z.quot (frequency_offset * value_range) frequency_range))
      else afc_search frequency_hz upper_point points
  end.
Definition frequency_hz_to_afc_value (frequency_hz : Z) : option Z :=
  match afc calibration with
  | [] => None
  | first :: points =>
      if frequency_hz <=? frequency_div64 first * AFC_FREQUENCY_SCALE then Some (afc_value first)
      else afc_search frequency_hz first points
  end.
(** What [gsm_board_set_frequency_correction_hz] keeps. *)
Definition clamp_frequency (frequency_hz : Z) : option Z :=
  first ← head (afc calibration); last ← last (afc calibration);
  let minimum_frequency := frequency_div64 first * AFC_FREQUENCY_SCALE in
  let maximum_frequency := frequency_div64 last * AFC_FREQUENCY_SCALE in
  let frequency_hz := if frequency_hz <? minimum_frequency then minimum_frequency else frequency_hz in
  Some (if maximum_frequency <? frequency_hz then maximum_frequency else frequency_hz).
End Receiver.

(** ** The gain state *)
Definition calibration_ok (cal : receiver_calibration) : Prop :=
  length (bands cal) = 4%nat /\ Forall (fun b => length (range_offsets b) = 3%nat) (bands cal) /\
  length (gain_values_x8 cal) = 46%nat /\ length (channel_corrections cal) = 3%nat /\
  Forall (fun row => length row = 972%nat) (channel_corrections cal).
(** The transceiver has the range and the step. *)
Definition gain_state_ok (gain_state : Z) : Prop :=
  0 <= gain_state < 0x10000 /\ gsm_trx_get_gain_state_range gain_state < 3 /\
  gsm_trx_get_gain_state_step gain_state <= gsm_trx_get_max_gain_step.
(** What a gain state stands for on a channel, in eighths of a dB. *)
Definition state_gain (cal : receiver_calibration) (b : band_calibration) (channel_index gain_state : Z) : option Z :=
  offset ← elem (range_offsets b) (gsm_trx_get_gain_state_range gain_state);
  correction ← channel_correction cal (gsm_trx_get_gain_state_range gain_state) channel_index;
  Some (gsm_trx_get_gain_state_step gain_state * MON_RAW_VALUES_PER_DB + i8 (gain_state .>> 8) + offset + correction).

Lemma correction_some cal range c : calibration_ok cal -> 0 <= range < 3 -> 0 <= c < 972 ->
  exists v, channel_correction cal range c = Some v.
Proof.
  intros (_ & _ & _ & Hl & Hrows) Hr Hc. unfold channel_correction.
  destruct (elem_some (channel_corrections cal) range) as (row & -> & Hin); [lia|]. simpl.
  rewrite Forall_forall in Hrows. specialize (Hrows _ Hin). destruct (elem_some row c) as (v & -> & _); [lia|]. by exists v.
Qed.
Lemma range_field g : 0 <= g -> 0 <= gsm_trx_get_gain_state_range g.
Proof. intros Hg. apply Z.land_nonneg. by right. Qed.
Lemma gain_state_parts residual range step : -128 <= residual < 128 -> 0 <= range < 4 -> 0 <= step < 64 ->
  let g := gsm_trx_encode_gain_state residual range step in
  0 <= g < 0x10000 /\ gsm_trx_get_gain_state_range g = range /\ gsm_trx_get_gain_state_step g = step /\ i8 (g .>> 8) = residual.
Proof.
  intros Hres Hr Hs g.
  assert (g = u8 residual * 256 + range * 64 + step) as E.
  { unfold g, gsm_trx_encode_gain_state.
    replace ((u16 residual .<< 8) .| (range .<< 6) .| step) with (step .| (range .<< 6) .| (u16 residual .<< 8)); cycle 1.
    { apply Z.bits_inj'. intros i Hi. rewrite !Z.lor_spec. by destruct (Z.testbit step i), (Z.testbit (range .<< 6) i), (Z.testbit (u16 residual .<< 8) i). }
    rewrite (lor_shiftl_add step) by lia. rewrite lor_shiftl_add by lia. unfold u16, u8. change (2 ^ 8) with 256. change (2 ^ 6) with 64.
    Z.div_mod_to_equations. lia. }
  assert (0 <= u8 residual < 256) as Hu by apply u8_range. clearbody g. subst g.
  unfold gsm_trx_get_gain_state_range, gsm_trx_get_gain_state_step. change 0x3F with (Z.ones 6). change 0x03 with (Z.ones 2).
  rewrite !Z.land_ones, !Z.shiftr_div_pow2 by lia. change (2 ^ 8) with 256. change (2 ^ 6) with 64. change (2 ^ 2) with 4.
  replace ((u8 residual * 256 + range * 64 + step) / 256) with (u8 residual) by (Z.div_mod_to_equations; lia).
  split_and!; [lia|lia|Z.div_mod_to_equations; lia|Z.div_mod_to_equations; lia|].
  rewrite <- (i8_small residual) at 2 by lia. unfold i8, u8. by rewrite Z.mod_mod by lia.
Qed.
(** Half a step is the error of a step that is not at its limits. *)
Lemma choose_step_spec step delta : 0 <= step <= 45 ->
  let '(next_step, residual) := choose_step step delta in
  0 <= next_step <= 45 /\ -127 <= residual <= 127 /\
  (next_step = 0 \/ next_step = 45 \/ next_step * 16 + residual = step * 16 + delta /\ -4 <= residual < 12).
Proof.
  intros Hs. unfold choose_step, gsm_trx_get_max_gain_step, MON_RAW_VALUES_PER_DB. rewrite Z.shiftr_div_pow2 by lia.
  change (2 ^ 4) with 16. pose proof (Z.div_mod (delta + 4) 16 ltac:(lia)) as E. pose proof (Z.mod_pos_bound (delta + 4) 16 ltac:(lia)).
  set (d := (delta + 4) / 16) in *.
  repeat (cbv beta iota zeta; match goal with |- context [Z.ltb ?a ?b] => destruct (Z.ltb_spec a b) end);
    repeat match goal with H : context [if Z.ltb ?a ?b then _ else _] |- _ => destruct (Z.ltb_spec a b) end; lia.
Qed.
Lemma choose_range_spec b range power : 0 <= range < 3 -> 0 <= choose_range b range power < 3.
Proof. intros Hr. unfold choose_range. repeat case_match; lia. Qed.

(** One step of the gain control, for the theorem and for the scan. *)
Lemma gain_control_spec (cal : receiver_calibration) (band : gsm_band) (channel_index gain_state raw : Z) :
  calibration_ok cal -> band <> GSM_BAND_COUNT -> 0 <= channel_index < GSM_CHANNEL_COUNT ->
  gain_state_ok gain_state ->
  exists b level next gain next_gain,
    elem (bands cal) (band_number band) = Some b /\
    gsm_board_calculate_rx_level_dbm_x16 cal band channel_index gain_state raw = Some level /\ -2000 <= level <= 0 /\
    gsm_board_calculate_next_gain_state cal band channel_index gain_state raw = Some next /\ gain_state_ok next /\
    state_gain cal b channel_index gain_state = Some gain /\ state_gain cal b channel_index next = Some next_gain /\
    (0 < gsm_trx_get_gain_state_step next < gsm_trx_get_max_gain_step ->
     next_gain = gain - 2 * (decode_monitor_value raw - rx_power_offset cal) /\ -4 <= i8 (next .>> 8) < 12).
Proof.
  intros Hcal Hband Hc (Hg & Hr & Hs). pose proof (range_field gain_state (proj1 Hg)) as Hr0.
  assert (0 <= gsm_trx_get_gain_state_step gain_state) as Hs0 by (apply Z.land_nonneg; by right).
  pose proof Hcal as (Hb & Hoff & Hgain & _).
  destruct (elem_some (bands cal) (band_number band)) as (b & Eb & Hin); [destruct band; try done; simpl; lia|].
  rewrite Forall_forall in Hoff. specialize (Hoff _ Hin).
  destruct (elem_some (gain_values_x8 cal) (gsm_trx_get_gain_state_step gain_state)) as (gv & Egv & _);
    [unfold gsm_trx_get_max_gain_step in Hs; lia|].
  destruct (elem_some (range_offsets b) (gsm_trx_get_gain_state_range gain_state)) as (off & Eoff & _); [lia|].
  destruct (correction_some cal (gsm_trx_get_gain_state_range gain_state) channel_index Hcal) as (corr & Ecorr); [lia|done|].
  set (power := gv + corr + off + band_offset b + rx_power_offset cal * 2 - decode_monitor_value raw * 2).
  set (clamped := if power <? 0 then 0 else if RX_POWER_MAX_X8 <? power then RX_POWER_MAX_X8 else power).
  assert (calculate_rx_power_x8 cal band channel_index gain_state raw = Some clamped) as Ep.
  { unfold calculate_rx_power_x8, calculate_rx_gain_x8. rewrite Eb. simpl. rewrite Egv. simpl. rewrite Ecorr. simpl. by rewrite Eoff. }
  assert (0 <= clamped <= 1000) as Hclamped by (unfold clamped, RX_POWER_MAX_X8; destruct (Z.ltb_spec power 0), (Z.ltb_spec 1000 power); lia).
  set (r' := choose_range b (gsm_trx_get_gain_state_range gain_state) clamped).
  assert (0 <= r' < 3) as Hr' by (apply choose_range_spec; lia).
  destruct (elem_some (range_offsets b) r') as (off' & Eoff' & _); [lia|].
  destruct (correction_some cal r' channel_index Hcal) as (corr' & Ecorr'); [lia|done|].
  set (delta := off + corr - off' - corr' + i8 (gain_state .>> 8) - (decode_monitor_value raw - rx_power_offset cal) * 2).
  pose proof (choose_step_spec (gsm_trx_get_gain_state_step gain_state) delta) as Hstep.
  destruct (choose_step _ delta) as [s' res] eqn:Es. destruct Hstep as (Hs' & Hres & Hexact); [unfold gsm_trx_get_max_gain_step in Hs; lia|].
  destruct (gain_state_parts res r' s') as (Hn & En1 & En2 & En3); [lia|lia|lia|]. cbv zeta in *.
  set (next := gsm_trx_encode_gain_state res r' s') in *.
  exists b, (clamped * -2), next, (gsm_trx_get_gain_state_step gain_state * 16 + i8 (gain_state .>> 8) + off + corr), (s' * 16 + res + off' + corr').
  assert (gsm_board_calculate_next_gain_state cal band channel_index gain_state raw = Some next) as En.
  { unfold gsm_board_calculate_next_gain_state. rewrite Eb. cbn [mbind option_bind]. rewrite Ep. cbn [mbind option_bind]. cbv zeta. fold r'.
    unfold gain_difference. rewrite Eoff. cbn [mbind option_bind]. rewrite Ecorr. cbn [mbind option_bind]. rewrite Eoff'. cbn [mbind option_bind].
    rewrite Ecorr'. cbn [mbind option_bind]. fold delta. by rewrite Es. }
  assert (gain_state_ok next) as Hok by (unfold gain_state_ok, gsm_trx_get_max_gain_step; lia).
  split; [done|]. split; [unfold gsm_board_calculate_rx_level_dbm_x16; by rewrite Ep|]. split; [lia|]. split; [exact En|]. split; [exact Hok|].
  split; [unfold state_gain; rewrite Eoff; simpl; by rewrite Ecorr|].
  split; [unfold state_gain; rewrite En1, En2, En3, Eoff'; simpl; by rewrite Ecorr'|].
  rewrite En2, En3. unfold gsm_trx_get_max_gain_step, delta in *. lia.
Qed.

(** C39. The gain control keeps to the transceiver's gain states, whatever it measures: with a
    calibration of the right shape, from every gain state and on every channel it reads the
    tables in bounds, the level is between -125 dBm and 0, the next state is one of the
    transceiver's, and unless its step is at a limit it changes the gain by exactly the
    measured deviation, leaving a residual of less than a step. *)
Theorem gain_control (cal : receiver_calibration) (band : gsm_band) (channel_index gain_state raw : Z) :
  calibration_ok cal -> band <> GSM_BAND_COUNT -> 0 <= channel_index < GSM_CHANNEL_COUNT ->
  gain_state_ok gain_state ->
  exists b level next gain next_gain,
    elem (bands cal) (band_number band) = Some b /\
    gsm_board_calculate_rx_level_dbm_x16 cal band channel_index gain_state raw = Some level /\ -2000 <= level <= 0 /\
    gsm_board_calculate_next_gain_state cal band channel_index gain_state raw = Some next /\ gain_state_ok next /\
    state_gain cal b channel_index gain_state = Some gain /\ state_gain cal b channel_index next = Some next_gain /\
    (0 < gsm_trx_get_gain_state_step next < gsm_trx_get_max_gain_step ->
     next_gain = gain - 2 * (decode_monitor_value raw - rx_power_offset cal) /\ -4 <= i8 (next .>> 8) < 12).
Proof. exact (gain_control_spec cal band channel_index gain_state raw). Qed.

(** A calibration without deviations, for the witnesses. *)
Definition flat_calibration : receiver_calibration :=
  Calibration [AfcPoint 0 (-100); AfcPoint 1000 100] 0 (replicate 4 (BandCalibration 0 [0; 0; 0] 100 110 500 510))
    (map (fun step => step * 16) (seqZ 0 46)) (replicate 3 (replicate 972 0)).
Lemma flat_calibration_ok : calibration_ok flat_calibration.
Proof. split_and!; [done|by apply Forall_replicate|done|done|by apply Forall_replicate]. Qed.
Lemma gain_control_witness :
  exists b level next gain next_gain,
    elem (bands flat_calibration) (band_number GSM_BAND_900) = Some b /\
    gsm_board_calculate_rx_level_dbm_x16 flat_calibration GSM_BAND_900 10 0x004F 320 = Some level /\ -2000 <= level <= 0 /\
    gsm_board_calculate_next_gain_state flat_calibration GSM_BAND_900 10 0x004F 320 = Some next /\ gain_state_ok next /\
    state_gain flat_calibration b 10 0x004F = Some gain /\ state_gain flat_calibration b 10 next = Some next_gain /\
    (0 < gsm_trx_get_gain_state_step next < gsm_trx_get_max_gain_step ->
     next_gain = gain - 2 * (decode_monitor_value 320 - rx_power_offset flat_calibration) /\ -4 <= i8 (next .>> 8) < 12).
Proof.
  apply (gain_control flat_calibration GSM_BAND_900 10 0x004F 320); [apply flat_calibration_ok|done|done|done].
Defined.

(** ** The frequency correction *)
(** The points rise in frequency and in value, as [load_afc_calibration] checks. *)
Fixpoint rising (p : afc_calibration_point) (points : list afc_calibration_point) : Prop :=
  match points with
  | [] => True
  | q :: points => frequency_div64 p < frequency_div64 q /\ afc_value p < afc_value q /\ rising q points
  end.
Definition afc_ok (points : list afc_calibration_point) : Prop :=
  match points with
  | [] => False
  | first :: rest => rising first rest /\ Forall (fun p => 0 <= afc_value p < 0x10000) points
  end.
Definition afc_hz (p : afc_calibration_point) : Z := frequency_div64 p * AFC_FREQUENCY_SCALE.
Definition afc_last (p : afc_calibration_point) (points : list afc_calibration_point) : afc_calibration_point := default p (last points).

Lemma afc_last_cons p q points : afc_last p (q :: points) = afc_last q points.
Proof. unfold afc_last. rewrite last_cons. by destruct (last points). Qed.
Lemma rising_above p points : rising p points ->
  Forall (fun q => frequency_div64 p < frequency_div64 q /\ afc_value p < afc_value q) points.
Proof.
  revert p. induction points as [|q points IH]; intros p H; [done|]. destruct H as (H1 & H2 & H3).
  constructor; [done|]. eapply Forall_impl; [by apply IH|]. simpl. intros r. lia.
Qed.
Lemma rising_last p points : rising p points ->
  frequency_div64 p <= frequency_div64 (afc_last p points) /\ afc_value p <= afc_value (afc_last p points).
Proof.
  revert p. induction points as [|q points IH]; intros p H; [simpl; unfold afc_last; simpl; lia|].
  destruct H as (H1 & H2 & H3). rewrite afc_last_cons. specialize (IH q H3). lia.
Qed.
(** Between two points. *)
Lemma interpolate lower upper f : frequency_div64 lower < frequency_div64 upper -> afc_value lower < afc_value upper ->
  0 <= afc_value lower -> afc_value upper < 0x10000 -> afc_hz lower <= f <= afc_hz upper ->
  u16 (afc_value lower + Z.quot ((f - afc_hz lower) * (afc_value upper - afc_value lower)) (afc_hz upper - afc_hz lower)) =
  afc_value lower + (f - afc_hz lower) * (afc_value upper - afc_value lower) / (afc_hz upper - afc_hz lower) /\
  0 <= (f - afc_hz lower) * (afc_value upper - afc_value lower) / (afc_hz upper - afc_hz lower) <= afc_value upper - afc_value lower.
Proof.
  intros Hf Hv H0 H1 Hr. assert (0 < afc_hz upper - afc_hz lower) as Hpos by (unfold afc_hz, AFC_FREQUENCY_SCALE; lia).
  rewrite Z.quot_div_nonneg by nia.
  assert (0 <= (f - afc_hz lower) * (afc_value upper - afc_value lower) / (afc_hz upper - afc_hz lower) <= afc_value upper - afc_value lower) as Hq.
  { split; [apply Z.div_pos; nia|]. apply Z.div_le_upper_bound; nia. }
  split; [|done]. unfold u16. apply Z.mod_small. lia.
Qed.
(** Up to the next point the search interpolates, past it it goes on from there. *)
Lemma afc_search_between p q points f : rising p (q :: points) ->
  Forall (fun p => 0 <= afc_value p < 0x10000) (p :: q :: points) -> afc_hz p <= f <= afc_hz q ->
  afc_search f p (q :: points) =
  Some (afc_value p + (f - afc_hz p) * (afc_value q - afc_value p) / (afc_hz q - afc_hz p)).
Proof.
  intros (H1 & H2 & _) Hv Hf. apply Forall_cons in Hv as [Hp [Hq _]%Forall_cons].
  cbn [afc_search]. fold (afc_hz q) (afc_hz p). destruct (Z.leb_spec f (afc_hz q)); [|lia].
  destruct (Z.eqb_spec (afc_hz q - afc_hz p) 0); [unfold afc_hz, AFC_FREQUENCY_SCALE in *; lia|].
  by destruct (interpolate p q f) as [-> _]; [lia..|].
Qed.
Lemma afc_search_beyond p q points f : afc_hz q < f -> afc_search f p (q :: points) = afc_search f q points.
Proof. intros Hf. cbn [afc_search]. fold (afc_hz q). by destruct (Z.leb_spec f (afc_hz q)); [lia|]. Qed.
Lemma afc_search_total f p points : rising p points -> Forall (fun p => 0 <= afc_value p < 0x10000) (p :: points) ->
  afc_hz p <= f -> exists v, afc_search f p points = Some v /\ afc_value p <= v <= afc_value (afc_last p points).
Proof.
  revert p. induction points as [|q points IH]; intros p H Hv Hf.
  { exists (afc_value p). split; [done|]. unfold afc_last. simpl. lia. }
  destruct (Z.le_gt_cases f (afc_hz q)).
  - rewrite (afc_search_between p q points f H Hv) by lia. destruct H as (H1 & H2 & H3). rewrite afc_last_cons.
    pose proof (rising_last _ _ H3) as [_ Hlast]. apply Forall_cons in Hv as [Hp [Hq _]%Forall_cons].
    destruct (interpolate p q f) as [_ Hi]; [lia..|]. eexists. split; [done|lia].
  - rewrite afc_search_beyond, afc_last_cons by lia. destruct H as (H1 & H2 & H3).
    destruct (IH q H3) as (v & Ev & Hr); [by apply Forall_cons in Hv as [_ Hv]|lia|]. exists v. split; [done|lia].
Qed.
Lemma afc_search_mono f f' p points v v' : rising p points -> Forall (fun p => 0 <= afc_value p < 0x10000) (p :: points) ->
  afc_hz p <= f <= f' -> afc_search f p points = Some v -> afc_search f' p points = Some v' -> v <= v'.
Proof.
  revert p. induction points as [|q points IH]; intros p H Hv Hf.
  { simpl. intros [= <-] [= <-]. lia. }
  pose proof H as (H1 & H2 & H3). pose proof Hv as [_ Hvs]%Forall_cons.
  destruct (Z.le_gt_cases f (afc_hz q)); destruct (Z.le_gt_cases f' (afc_hz q)); [| |lia|].
  - rewrite !(afc_search_between p q points _ H Hv) by lia. intros [= <-] [= <-].
    assert (0 < afc_hz q - afc_hz p) by (unfold afc_hz, AFC_FREQUENCY_SCALE; lia).
    apply Z.add_le_mono_l, Z.div_le_mono; [done|]. apply Z.mul_le_mono_nonneg_r; lia.
  - rewrite (afc_search_between p q points f H Hv) by lia. rewrite afc_search_beyond by lia.
    intros [= <-] Ev'. destruct (afc_search_total f' q points H3 Hvs) as (v2 & Ev2 & Hr); [lia|].
    apply Forall_cons in Hv as [Hp _]. apply Forall_cons in Hvs as [Hq _]. destruct (interpolate p q f) as [_ Hi]; [lia..|].
    rewrite Ev' in Ev2. injection Ev2 as ->. lia.
  - rewrite !afc_search_beyond by lia. apply IH; [done|done|lia].
Qed.
Lemma afc_search_exact p points q : rising p points -> Forall (fun p => 0 <= afc_value p < 0x10000) (p :: points) ->
  q ∈ points -> afc_search (afc_hz q) p points = Some (afc_value q).
Proof.
  revert p. induction points as [|r points IH]; intros p H Hv Hq; [by apply elem_of_nil in Hq|].
  pose proof H as (H1 & H2 & H3). pose proof Hv as [_ Hvs]%Forall_cons.
  apply elem_of_cons in Hq as [->|Hq].
  - rewrite (afc_search_between p r points _ H Hv) by (unfold afc_hz, AFC_FREQUENCY_SCALE; lia).
    rewrite Z.mul_comm, Z.div_mul by (unfold afc_hz, AFC_FREQUENCY_SCALE; lia). f_equal. lia.
  - pose proof (rising_above r points H3) as Hr. rewrite Forall_forall in Hr. destruct (Hr _ Hq).
    rewrite afc_search_beyond by (unfold afc_hz, AFC_FREQUENCY_SCALE; lia). by apply IH.
Qed.

Lemma afc_search_first p points : rising p points -> Forall (fun p => 0 <= afc_value p < 0x10000) (p :: points) ->
  afc_search (afc_hz p) p points = Some (afc_value p).
Proof.
  destruct points as [|q points]; intros H Hv; [done|]. pose proof H as (H1 & _).
  rewrite (afc_search_between p q points _ H Hv) by (unfold afc_hz, AFC_FREQUENCY_SCALE; lia).
  by rewrite Z.sub_diag, Z.mul_0_l, Z.div_0_l, Z.add_0_r by (unfold afc_hz, AFC_FREQUENCY_SCALE; lia).
Qed.
Lemma afc_search_past f p points : rising p points -> Forall (fun p => 0 <= afc_value p < 0x10000) (p :: points) ->
  afc_hz (afc_last p points) <= f -> afc_search f p points = Some (afc_value (afc_last p points)).
Proof.
  revert p. induction points as [|q points IH]; intros p H Hv Hf; [done|]. rewrite afc_last_cons in *.
  pose proof H as (H1 & H2 & H3). pose proof (rising_last _ _ H3) as [Hl _]. pose proof Hv as [_ Hvs]%Forall_cons.
  destruct (Z.lt_ge_cases (afc_hz q) f); [rewrite afc_search_beyond by done; by apply IH|].
  assert (f = afc_hz q) as -> by (unfold afc_hz, AFC_FREQUENCY_SCALE in *; lia).
  destruct points as [|r points]; [apply afc_search_exact; [done|done|apply list_elem_of_here]|].
  exfalso. pose proof (rising_last _ _ (proj2 (proj2 H3))) as [Hl' _]. destruct H3 as (H4 & _ & _).
  rewrite afc_last_cons in Hf. unfold afc_hz, AFC_FREQUENCY_SCALE in *. lia.
Qed.
(** The two branches of [frequency_hz_to_afc_value] are one search. *)
Lemma frequency_as_search cal first points f : afc cal = first :: points -> afc_ok (afc cal) ->
  frequency_hz_to_afc_value cal f = afc_search (Z.max f (afc_hz first)) first points.
Proof.
  intros E Hok. rewrite E in Hok. destruct Hok as [H Hv]. unfold frequency_hz_to_afc_value. rewrite E. fold (afc_hz first).
  destruct (Z.leb_spec f (afc_hz first)); [rewrite Z.max_r by lia; by rewrite afc_search_first|by rewrite Z.max_l by lia].
Qed.
Lemma frequency_defined cal f : afc_ok (afc cal) -> exists clamped v, clamp_frequency cal f = Some clamped /\ frequency_hz_to_afc_value cal clamped = Some v.
Proof.
  intros Hok. pose proof Hok as Hok'. destruct (afc cal) as [|first points] eqn:E; [done|]. rewrite <- E in Hok'. destruct Hok as [H Hv].
  unfold clamp_frequency. rewrite E, last_cons. destruct (last points) as [l|]; cbn [head mbind option_bind]; cbv zeta; eexists;
    match goal with |- exists v, Some ?x = _ /\ _ => destruct (afc_search_total (Z.max x (afc_hz first)) first points H Hv) as (v & Ev & _); [lia|] end;
    exists v; (split; [done|]); by rewrite (frequency_as_search cal first points).
Qed.
(** C40. With a curve that rises the correction is a value of the DAC for every frequency: between
    the first and the last point's, at a point exactly the point's, never smaller for a larger
    frequency, and unchanged by the clamping of the frequency to the curve. *)
Theorem frequency_correction (cal : receiver_calibration) : afc_ok (afc cal) ->
  exists first points, afc cal = first :: points /\
    (forall f, exists v clamped, frequency_hz_to_afc_value cal f = Some v /\
       afc_value first <= v <= afc_value (afc_last first points) /\
       clamp_frequency cal f = Some clamped /\ afc_hz first <= clamped <= afc_hz (afc_last first points) /\
       frequency_hz_to_afc_value cal clamped = Some v) /\
    (forall f f' v v', f <= f' -> frequency_hz_to_afc_value cal f = Some v ->
       frequency_hz_to_afc_value cal f' = Some v' -> v <= v') /\
    (forall p, p ∈ afc cal -> frequency_hz_to_afc_value cal (afc_hz p) = Some (afc_value p)).
Proof.
  intros Hok. pose proof Hok as Hok'. destruct (afc cal) as [|first points] eqn:E; [done|]. rewrite <- E in Hok'.
  exists first, points. split; [done|]. destruct Hok as [H Hv]. pose proof (rising_last _ _ H) as [Hl _].
  assert (afc_hz first <= afc_hz (afc_last first points)) as Hhz by (unfold afc_hz, AFC_FREQUENCY_SCALE; lia).
  pose proof (frequency_as_search cal first points) as Hs.
  split; [|split].
  - intros f. rewrite Hs by done. destruct (afc_search_total (Z.max f (afc_hz first)) first points H Hv) as (v & Ev & Hr); [lia|].
    exists v, (Z.min (Z.max f (afc_hz first)) (afc_hz (afc_last first points))). split; [done|]. split; [done|].
    split; [|split; [lia|]].
    + unfold clamp_frequency. rewrite E, last_cons. cbn [head mbind option_bind]. unfold afc_last in *.
      destruct (last points) as [l|]; simpl in *; fold (afc_hz first); try fold (afc_hz l); repeat case_match; f_equal; lia.
    + rewrite Hs by done. destruct (Z.le_gt_cases f (afc_hz (afc_last first points))).
      * by replace (Z.max (Z.min _ _) _) with (Z.max f (afc_hz first)) by lia.
      * rewrite <- Ev. replace (Z.max (Z.min _ _) _) with (afc_hz (afc_last first points)) by lia.
        by rewrite !afc_search_past by (done || lia).
  - intros f f' v v' Hf. rewrite !Hs by done. apply (afc_search_mono _ _ _ _ _ _ H Hv). lia.
  - intros p Hp. rewrite Hs by done. apply elem_of_cons in Hp as [->|Hp]; [rewrite Z.max_l by lia; by apply afc_search_first|].
    pose proof (rising_above _ _ H) as Ha. rewrite Forall_forall in Ha. destruct (Ha _ Hp).
    rewrite Z.max_l by (unfold afc_hz, AFC_FREQUENCY_SCALE; lia). by apply afc_search_exact.
Qed.
Lemma frequency_correction_witness : exists first points, afc flat_calibration = first :: points /\
    (forall f, exists v clamped, frequency_hz_to_afc_value flat_calibration f = Some v /\
       afc_value first <= v <= afc_value (afc_last first points) /\
       clamp_frequency flat_calibration f = Some clamped /\ afc_hz first <= clamped <= afc_hz (afc_last first points) /\
       frequency_hz_to_afc_value flat_calibration clamped = Some v) /\
    (forall f f' v v', f <= f' -> frequency_hz_to_afc_value flat_calibration f = Some v ->
       frequency_hz_to_afc_value flat_calibration f' = Some v' -> v <= v') /\
    (forall p, p ∈ afc flat_calibration -> frequency_hz_to_afc_value flat_calibration (afc_hz p) = Some (afc_value p)).
Proof.
  apply (frequency_correction flat_calibration). split; [done|]. repeat (apply Forall_cons; split; [simpl; lia|]). by apply Forall_nil.
Defined.
