(* ===== verification/GsmCorrections.v ===== *)
(** * The corrections of the channels ([unit/dsp/hle/gsm-l1/board/siemens-x85.c])

    For each band and range of the receiver the EEPROM has the gain corrections of up to 12
    channels; [load_agc_channel_record] checks the record and fills the table with a correction
    for every channel of the band, interpolated in 1/65536 of an eighth of a dB.  [None] is an
    access outside of an array or a division by zero. *)
From S2P Require Import Prelude Machine Board Regs GsmRegs GsmChannel GsmTrx GsmCalib.

Definition AGC_RANGE_COUNT : Z := 3.
Definition AGC_CHANNEL_POINT_COUNT_MAX : Z := 12.

Record agc_channel_record := ChannelRecord { point_count : Z; channels : list Z; corrections : list Z }.

(** The points' positions: those of the band's channels, in order. *)
Fixpoint point_positions (band : gsm_band) (previous : option Z) (channels : list Z) : option (list Z) :=
  match channels with
  | [] => Some []
  | c :: channels =>
      position ← agc_channel_position band c;
      if (match previous with Some q => position <=? q | None => false end) then None
      else positions ← point_positions band (Some position) channels; Some (position :: positions)
  end.
(** [while (lower + 1 < point_count && position >= point_positions[lower + 1]) lower++]. *)
Fixpoint advance_lower (n : nat) (positions : list Z) (position : Z) (lower : nat) : nat :=
  match n, positions !! S lower with
  | S n, Some q => if q <=? position then advance_lower n positions position (S lower) else lower
  | _, _ => lower
  end.
(** The correction at a position, in 1/65536, from the point [lower]. *)
Definition correction_x16 (positions corrections : list Z) (position : Z) (lower : nat) : option Z :=
  correction ← corrections !! lower;
  let correction_x16 := i32 (correction * 65536) in
  match positions !! S lower with
  | Some upper_position =>
      lower_position ← positions !! lower;
      upper_correction ← corrections !! S lower;
      let position_delta := position - lower_position in
      let correction_delta := upper_correction - correction in
      let point_distance := upper_position - lower_position in
      if point_distance ==? 0 then None
      else
        let correction_step_x16 := Z.quot (i32 (correction_delta * 65536)) point_distance in
        Some (i32 (correction_x16 + i32 (position_delta * correction_step_x16)))
  | None => Some correction_x16
  end.
Definition set_correction (range channel_index value : Z) (table : list (list Z)) : option (list (list Z)) :=
  row ← elem table range; _ ← elem row channel_index;
  Some (<[Z.to_nat range := <[Z.to_nat channel_index := value]> row]> table).
Fixpoint fill_corrections (band : gsm_band) (range : Z) (positions corrections : list Z) (lower : nat) (todo : list Z)
    (table : list (list Z)) : option (list (list Z)) :=
  match todo with
  | [] => Some table
  | position :: todo =>
      let lower := advance_lower (length positions) positions position lower in
      x16 ← correction_x16 positions corrections position lower;
      table ← set_correction range (agc_channel_index band position) (i8 (divide_floor x16 65536)) table;
      fill_corrections band range positions corrections lower todo table
  end.
(** [Some None]: the record is refused. *)
Definition load_agc_channel_record (band : gsm_band) (range : Z) (record : agc_channel_record) (table : list (list Z)) :
    option (option (list (list Z))) :=
  if (point_count record <? 2) || (AGC_CHANNEL_POINT_COUNT_MAX <? point_count record) then Some None
  else
    let n := Z.to_nat (point_count record) in
    match point_positions band None (take n (channels record)) with
    | None => Some None
    | Some positions =>
        first ← head positions; last ← last positions;
        if negb (first ==? 0) then Some None
        else if negb (last ==? agc_band_last_position band) then Some None
        else
          table ← fill_corrections band range positions (take n (corrections record)) 0
            (seqZ 0 (agc_band_last_position band + 1)) table;
          Some (Some table)
    end.


(** ** The positions *)
Lemma position_nonneg band c p : 0 <= c -> agc_channel_position band c = Some p -> 0 <= p <= agc_band_last_position band.
Proof.
  intros Hc. destruct band; simpl; zcases; intros [= <-]; lia.
Qed.
Lemma last_position_small band : 0 <= agc_band_last_position band < 374.
Proof. destruct band; simpl; lia. Qed.
(** The places of a band's positions are its own. *)
Lemma channel_index_range band p : 0 <= p <= agc_band_last_position band -> 0 <= agc_channel_index band p < GSM_CHANNEL_COUNT.
Proof.
  intros Hp. unfold GSM_CHANNEL_COUNT. destruct band; simpl in *; zcases; unfold u16; Z.div_mod_to_equations; lia.
Qed.
Lemma channel_index_inj band p q : band <> GSM_BAND_COUNT -> 0 <= p <= agc_band_last_position band ->
  0 <= q <= agc_band_last_position band -> agc_channel_index band p = agc_channel_index band q -> p = q.
Proof.
  intros Hb Hp Hq. destruct band; simpl in *; try done; zcases; unfold u16; Z.div_mod_to_equations; lia.
Qed.

(** Strictly increasing. *)
Fixpoint increasing (l : list Z) : Prop :=
  match l with x :: ((y :: _) as l') => x < y /\ increasing l' | _ => True end.
Lemma increasing_cons x l : increasing (x :: l) <-> (forall y, head l = Some y -> x < y) /\ increasing l.
Proof. destruct l as [|y l]; simpl; split; [done|done| |]; intros [H1 H2]; (split; [|done]); [by intros ? [= <-]|by apply H1]. Qed.
Lemma point_positions_spec band previous cs ps : point_positions band previous cs = Some ps <->
  mapM (agc_channel_position band) cs = Some ps /\ increasing ps /\ (forall q p, previous = Some q -> head ps = Some p -> q < p).
Proof.
  revert previous ps. induction cs as [|c cs IH]; intros previous ps; simpl.
  { split; [intros [= <-]; by split_and!|by intros (? & _ & _)]. }
  destruct (agc_channel_position band c) as [p|]; simpl; [|by split; [|intros [? _]]].
  specialize (IH (Some p)). destruct (mapM (agc_channel_position band) cs) as [ps'|]; simpl.
  - split.
    + destruct (match previous with Some q => p <=? q | None => false end) eqn:Eq; [done|].
      destruct (point_positions band (Some p) cs) as [ps2|]; simpl; [|done]. intros [= <-].
      destruct (IH ps2) as [H1 _]. destruct (H1 eq_refl) as (E & Hi & Hh). injection E as ->. split; [done|]. split.
      * apply increasing_cons. split; [intros y; by apply Hh|done].
      * intros q p' -> [= <-]. lia.
    + intros ([= <-] & Hi & Hq). apply increasing_cons in Hi as [Hh Hi].
      destruct (IH ps') as [_ H2]. rewrite H2; [|split_and!; [done|done|intros q p' [= <-]; by apply Hh]].
      destruct previous as [q|]; [|done]. specialize (Hq q p eq_refl eq_refl). by destruct (Z.leb_spec p q); [lia|].
  - split; [|by intros [? _]]. destruct (match previous with Some q => p <=? q | None => false end); [done|].
    destruct (point_positions band (Some p) cs) as [ps2|]; simpl; [|done]. destruct (IH ps2) as [H1 _]. by destruct (H1 eq_refl).
Qed.
Lemma increasing_lookup l i j x y : increasing l -> (i < j)%nat -> l !! i = Some x -> l !! j = Some y -> x < y.
Proof.
  revert i j x y. induction l as [|a l IH]; intros i j x y H Hij Hi Hj; [by rewrite lookup_nil in Hi|].
  apply increasing_cons in H as [Ha H]. destruct i as [|i], j as [|j]; try lia; simpl in *.
  - injection Hi as <-. destruct l as [|b l]; [by rewrite lookup_nil in Hj|]. specialize (Ha b eq_refl).
    destruct j as [|j]; simpl in Hj; [injection Hj as <-; done|].
    pose proof (IH 0%nat (S j) b y H ltac:(lia) eq_refl Hj). lia.
  - apply (IH i j); [done|lia|done|done].
Qed.

(** The position [p] is at the point [l] or between it and the next. *)
Definition segment (positions : list Z) (p : Z) (l : nat) : Prop :=
  exists lower, positions !! l = Some lower /\ lower <= p /\ (forall upper, positions !! S l = Some upper -> p < upper).
Lemma segment_unique positions p l l' : increasing positions -> segment positions p l -> segment positions p l' -> l = l'.
Proof.
  intros H (a & Ha & Hp & Hu) (b & Hb & Hp' & Hu').
  assert (forall i j x y, positions !! i = Some x -> positions !! j = Some y -> x <= p ->
    (forall u, positions !! S i = Some u -> p < u) -> y <= p -> (j <= i)%nat) as Hle.
  { intros i j x y Hi Hj Hx Hu2 Hy. destruct (decide (j <= i)%nat) as [|Hn]; [done|]. exfalso.
    destruct (lookup_lt_is_Some_2 positions (S i)) as [u Eu]; [apply lookup_lt_Some in Hj; lia|].
    specialize (Hu2 u Eu). destruct (decide (j = S i)) as [->|]; [rewrite Eu in Hj; injection Hj as ->; lia|].
    pose proof (increasing_lookup positions (S i) j u y H ltac:(lia) Eu Hj). lia. }
  pose proof (Hle _ _ _ _ Ha Hb Hp Hu Hp'). pose proof (Hle _ _ _ _ Hb Ha Hp' Hu' Hp). lia.
Qed.
Lemma advance_lower_spec n positions p l lower : positions !! l = Some lower -> lower <= p -> (length positions <= n + S l)%nat ->
  segment positions p (advance_lower n positions p l).
Proof.
  revert l lower. induction n as [|n IH]; intros l lower Hl Hp Hn; cbn [advance_lower].
  - exists lower. split_and!; [done|done|]. intros u Hu. apply lookup_lt_Some in Hu. lia.
  - destruct (positions !! S l) as [q|] eqn:E.
    + destruct (Z.leb_spec q p); [apply (IH _ q); [done|done|lia]|].
      exists lower. split_and!; [done|done|]. intros u. rewrite E. intros [= <-]. done.
    + exists lower. split_and!; [done|done|]. intros u. by rewrite E.
Qed.

(** ** The value at a position *)
(** [v] is the correction [c] of the point, or between the points' corrections: the straight line
    between them rounded down, up to a hundredth. *)
Definition interpolated (lower upper c upper_c p v : Z) : Prop :=
  Z.min c upper_c <= v <= Z.max c upper_c /\ (p = lower -> v = c) /\
  (let exact := c * (upper - lower) + (p - lower) * (upper_c - c) in
   - (upper - lower) < 100 * (exact - v * (upper - lower)) < 101 * (upper - lower)).
Definition value_ok (positions corrections : list Z) (p : Z) (l : nat) (v : Z) : Prop :=
  exists lower c, positions !! l = Some lower /\ corrections !! l = Some c /\
    match positions !! S l with
    | Some upper => exists upper_c, corrections !! S l = Some upper_c /\ interpolated lower upper c upper_c p v
    | None => v = c
    end.
Lemma divide_floor_div x : divide_floor x 65536 = x / 65536.
Proof.
  unfold divide_floor. destruct (Z.ltb_spec x 0); simpl; [destruct (Z.eqb_spec (Z.rem x 65536) 0); simpl|];
    Z.to_euclidean_division_equations; lia.
Qed.
(** A step towards the next point's correction does not pass it. *)
Lemma step_bounds distance d dp : 0 < distance -> 0 <= dp < distance ->
  let q := Z.quot (d * 65536) distance in
  (0 <= d -> 0 <= dp * q <= d * 65536) /\ (d <= 0 -> d * 65536 <= dp * q <= 0) /\
  - distance * distance <= dp * d * 65536 - dp * q * distance <= distance * distance.
Proof.
  intros Hd Hp q. pose proof (Z.mul_quot_le (d * 65536) distance) as H1. pose proof (Z.mul_quot_ge (d * 65536) distance) as H2.
  pose proof (Z.quot_rem' (d * 65536) distance) as E. pose proof (Z.rem_bound_abs (d * 65536) distance ltac:(lia)) as Hr.
  fold q in H1, H2, E. split; [|split].
  - intros H. specialize (H1 ltac:(lia) ltac:(lia)). assert (0 <= q) by nia. nia.
  - intros H. specialize (H2 ltac:(lia) ltac:(lia)). assert (q <= 0) by nia. nia.
  - replace (dp * d * 65536 - dp * q * distance) with (dp * Z.rem (d * 65536) distance) by lia. nia.
Qed.
Lemma interpolated_step lower upper c upper_c p : -128 <= c < 128 -> -128 <= upper_c < 128 -> lower <= p < upper -> upper - lower < 374 ->
  exists x16,
    i32 (i32 (c * 65536) + i32 ((p - lower) * Z.quot (i32 ((upper_c - c) * 65536)) (upper - lower))) = x16 /\
    interpolated lower upper c upper_c p (i8 (divide_floor x16 65536)).
Proof.
  intros Hc Hu Hp Hl. eexists. split; [done|]. rewrite divide_floor_div.
  destruct (step_bounds (upper - lower) (upper_c - c) (p - lower)) as (H1 & H2 & H3); [lia|lia|].
  rewrite (i32_small ((upper_c - c) * 65536)) by lia. set (q := Z.quot _ _) in *.
  rewrite (i32_small (c * 65536)), (i32_small ((p - lower) * q)) by lia. rewrite i32_small by lia.
  set (x := c * 65536 + (p - lower) * q). pose proof (Z.div_mod x 65536 ltac:(lia)) as E.
  pose proof (Z.mod_pos_bound x 65536 ltac:(lia)) as Hm. set (v := x / 65536) in *.
  assert (Z.min c upper_c <= v <= Z.max c upper_c) as Hv by lia. rewrite i8_small by lia.
  split; [done|]. split; [intros ->; lia|]. cbv zeta. subst x. nia.
Qed.
Definition small_corrections (corrections : list Z) : Prop := Forall (fun c => -128 <= c < 128) corrections.
Lemma correction_x16_spec positions corrections p l : segment positions p l -> small_corrections corrections ->
  (length positions <= length corrections)%nat -> (forall l q, positions !! l = Some q -> 0 <= q < 374) ->
  exists x16, correction_x16 positions corrections p l = Some x16 /\
    value_ok positions corrections p l (i8 (divide_floor x16 65536)).
Proof.
  intros (lower & El & Hp & Hu) Hs Hlen Hpos. unfold small_corrections in Hs. rewrite Forall_lookup in Hs.
  destruct (lookup_lt_is_Some_2 corrections l) as [c Ec]; [apply lookup_lt_Some in El; lia|]. pose proof (Hs _ _ Ec) as Hc.
  unfold correction_x16, value_ok. rewrite Ec. cbn [mbind option_bind]. cbv zeta. destruct (positions !! S l) as [upper|] eqn:Eu.
  - destruct (lookup_lt_is_Some_2 corrections (S l)) as [uc Euc]; [apply lookup_lt_Some in Eu; lia|]. pose proof (Hs _ _ Euc) as Huc.
    rewrite El, Euc. cbn [mbind option_bind]. specialize (Hu upper eq_refl). pose proof (Hpos _ _ El). pose proof (Hpos _ _ Eu).
    destruct (Z.eqb_spec (upper - lower) 0); [lia|].
    destruct (interpolated_step lower upper c uc p) as (x16 & Ex & Hx); [lia..|].
    exists x16. split; [by rewrite Ex|]. exists lower, c. split_and!; [done|done|]. by exists uc.
  - eexists. split; [done|]. exists lower, c. split_and!; [done|done|].
    rewrite i32_small, divide_floor_div, Z.div_mul by lia. apply i8_small. lia.
Qed.

(** ** The table *)
Definition table_ok (table : list (list Z)) : Prop :=
  length table = 3%nat /\ Forall (fun row => length row = 972%nat) table.
Definition cell (table : list (list Z)) (range i : Z) : option Z := row ← elem table range; elem row i.

Lemma elem_insert {X} (l : list X) i j x : 0 <= i < Z.of_nat (length l) ->
  elem (<[Z.to_nat i := x]> l) j = if j ==? i then Some x else elem l j.
Proof.
  intros Hi. unfold elem. destruct (Z.eqb_spec j i) as [->|Hne].
  - destruct (Z.ltb_spec i 0); [lia|]. apply list_lookup_insert_eq. lia.
  - destruct (Z.ltb_spec j 0); [done|]. apply list_lookup_insert_ne. lia.
Qed.
Lemma set_correction_spec range i v table : table_ok table -> 0 <= range < 3 -> 0 <= i < 972 ->
  exists table', set_correction range i v table = Some table' /\ table_ok table' /\
    (forall r j, cell table' r j = if (r ==? range) && (j ==? i) then Some v else cell table r j).
Proof.
  intros [Hl Hrows] Hr Hi. unfold set_correction.
  destruct (elem_some table range) as (row & Erow & Hin); [lia|]. rewrite Erow. cbn [mbind option_bind].
  rewrite Forall_forall in Hrows. pose proof (Hrows _ Hin) as Hlen.
  destruct (elem_some row i) as (old & Eold & _); [lia|]. rewrite Eold. cbn [mbind option_bind].
  eexists. split; [done|]. split.
  - split; [by rewrite length_insert|]. apply Forall_insert; [by apply Forall_forall|by rewrite length_insert].
  - intros r j. unfold cell. rewrite elem_insert by lia. destruct (Z.eqb_spec r range) as [->|]; [|done].
    cbn [mbind option_bind andb]. rewrite elem_insert by lia. destruct (j ==? i); [done|]. by rewrite Erow.
Qed.

(** The loop over the positions from [p] on. *)
Lemma fill_corrections_spec band range positions corrections n p lower q table :
  band <> GSM_BAND_COUNT -> 0 <= range < 3 -> table_ok table -> small_corrections corrections ->
  (length positions <= length corrections)%nat -> (forall l q, positions !! l = Some q -> 0 <= q < 374) ->
  0 <= p -> p + Z.of_nat n = agc_band_last_position band + 1 -> positions !! lower = Some q -> q <= p ->
  exists table', fill_corrections band range positions corrections lower (seqZ p (Z.of_nat n)) table = Some table' /\
    table_ok table' /\
    (forall r j, (r = range -> forall p', p <= p' <= agc_band_last_position band -> j <> agc_channel_index band p') ->
       cell table' r j = cell table r j) /\
    (forall p', p <= p' <= agc_band_last_position band -> exists l v, segment positions p' l /\
       value_ok positions corrections p' l v /\ cell table' range (agc_channel_index band p') = Some v).
Proof.
  intros Hb Hr Ht Hs Hlen Hpos. revert p lower q table Ht. induction n as [|n IH]; intros p lower q table Ht Hp Hn Hq Hle.
  { exists table. split_and!; [done|done|done|lia]. }
  rewrite seqZ_cons by lia. cbn [fill_corrections]. replace (Z.pred (Z.of_nat (S n))) with (Z.of_nat n) by lia.
  pose proof (advance_lower_spec (length positions) positions p lower q Hq Hle ltac:(lia)) as Hseg.
  set (l := advance_lower (length positions) positions p lower) in *. cbv zeta.
  destruct (correction_x16_spec positions corrections p l Hseg Hs Hlen Hpos) as (x16 & -> & Hv). cbn [mbind option_bind].
  pose proof (channel_index_range band p ltac:(lia)) as Hi. unfold GSM_CHANNEL_COUNT in Hi.
  destruct (set_correction_spec range (agc_channel_index band p) (i8 (divide_floor x16 65536)) table Ht Hr Hi) as (t1 & -> & Ht1 & Hc1).
  cbn [mbind option_bind]. pose proof Hseg as (ql & Eql & Hql & _).
  destruct (IH (Z.succ p) l ql t1 Ht1) as (t' & E & Ht' & Hout & Hin); [lia|lia|done|lia|].
  exists t'. split; [exact E|]. split; [exact Ht'|]. split.
  - intros r j Hj. rewrite Hout by (intros ? p' ?; apply Hj; [done|lia]). rewrite Hc1.
    destruct (Z.eqb_spec r range) as [Er|]; [|done]. destruct (Z.eqb_spec j (agc_channel_index band p)) as [Ej|]; [|done].
    exfalso. by apply (Hj Er p); [lia|].
  - intros p' Hp'. destruct (decide (p' = p)) as [->|Hne]; [|apply Hin; lia].
    exists l, (i8 (divide_floor x16 65536)). split; [exact Hseg|]. split; [exact Hv|].
    rewrite Hout, Hc1, !Z.eqb_refl; [done|]. intros _ p' ? E'.
    assert (p = p') by (apply (channel_index_inj band); [done|lia|lia|done]). lia.
Qed.

Lemma positions_ends (l : list Z) : (2 <= length l)%nat -> exists first final, head l = Some first /\ last l = Some final.
Proof.
  destruct l as [|x l]; simpl; [lia|]. intros _. exists x. destruct (last (x :: l)) as [y|] eqn:E; [by exists y|].
  by apply last_None in E.
Qed.
Lemma positions_range band cs ps : Forall (fun c => 0 <= c) cs -> mapM (agc_channel_position band) cs = Some ps ->
  forall l q, ps !! l = Some q -> 0 <= q <= agc_band_last_position band.
Proof.
  intros Hc Hm l q Hq. apply mapM_Some in Hm. destruct (Forall2_lookup_r _ _ _ _ _ Hm Hq) as (c & Ec & Hp).
  apply (position_nonneg band c); [by apply (Forall_lookup_1 _ _ _ _ Hc Ec)|done].
Qed.
Lemma value_ok_take n positions corrections p l v : value_ok positions (take n corrections) p l v -> value_ok positions corrections p l v.
Proof.
  assert (forall i x, take n corrections !! i = Some x -> corrections !! i = Some x) as Htake.
  { intros i x Hx. apply lookup_take_Some in Hx as [Hx _]. exact Hx. }
  intros (lower & c & El & Ec & H). exists lower, c. split_and!; [done|by apply Htake|].
  destruct (positions !! S l); [|done]. destruct H as (uc & Euc & H). exists uc. split; [by apply Htake|done].
Qed.
(** The parser is total, whatever the record's numbers are. *)
Lemma fill_corrections_total band range positions corrections todo lower q table :
  0 <= range < 3 -> table_ok table -> increasing positions -> (length positions <= length corrections)%nat ->
  positions !! lower = Some q -> Forall (fun p => q <= p <= agc_band_last_position band /\ 0 <= p) todo -> increasing todo ->
  exists table', fill_corrections band range positions corrections lower todo table = Some table' /\ table_ok table'.
Proof.
  intros Hr Ht Hi Hlen. revert lower q table Ht. induction todo as [|p todo IH]; intros lower q table Ht Hq Htodo Hinc; [by exists table|].
  apply Forall_cons in Htodo as [Hp Htodo]. cbv beta in Hp. cbn [fill_corrections].
  destruct (advance_lower_spec (length positions) positions p lower q Hq ltac:(lia) ltac:(lia)) as (ql & El & Hql & Hu).
  set (l := advance_lower (length positions) positions p lower) in *. cbv zeta.
  destruct (lookup_lt_is_Some_2 corrections l) as [c Ec]; [apply lookup_lt_Some in El; lia|].
  assert (exists x16, correction_x16 positions corrections p l = Some x16) as [x16 ->].
  { unfold correction_x16. rewrite Ec. cbn [mbind option_bind]. cbv zeta. destruct (positions !! S l) as [u|] eqn:Eu; [|by eexists].
    destruct (lookup_lt_is_Some_2 corrections (S l)) as [uc Euc]; [apply lookup_lt_Some in Eu; lia|].
    rewrite El, Euc. cbn [mbind option_bind]. pose proof (increasing_lookup positions l (S l) ql u Hi ltac:(lia) El Eu).
    destruct (Z.eqb_spec (u - ql) 0); [lia|by eexists]. }
  cbn [mbind option_bind]. pose proof (channel_index_range band p ltac:(lia)) as Hindex. unfold GSM_CHANNEL_COUNT in Hindex.
  destruct (set_correction_spec range (agc_channel_index band p) (i8 (divide_floor x16 65536)) table Ht Hr Hindex) as (t1 & -> & Ht1 & _).
  cbn [mbind option_bind]. apply (IH l ql); [done|done| |by apply increasing_cons in Hinc as [_ Hinc]].
  apply Forall_lookup. intros i y Hy. pose proof (Forall_lookup_1 _ _ _ _ Htodo Hy) as Hy'. cbv beta in Hy'.
  pose proof (increasing_lookup _ 0 (S i) p y Hinc ltac:(lia) eq_refl Hy). lia.
Qed.
Lemma seqZ_increasing a n : increasing (seqZ a (Z.of_nat n)).
Proof.
  revert a. induction n as [|n IH]; intros a; [done|]. rewrite seqZ_cons by lia. apply increasing_cons. split.
  - intros y Hy. destruct n as [|n]; [done|]. rewrite seqZ_cons in Hy by lia. injection Hy as <-. lia.
  - replace (Z.pred (Z.of_nat (S n))) with (Z.of_nat n) by lia. apply IH.
Qed.
Lemma load_record_total band range record table : 0 <= range < 3 -> table_ok table ->
  length (channels record) = 12%nat -> length (corrections record) = 12%nat ->
  exists r, load_agc_channel_record band range record table = Some r /\ match r with Some table' => table_ok table' | None => True end.
Proof.
  intros Hr Ht Hlc Hlr. unfold load_agc_channel_record, AGC_CHANNEL_POINT_COUNT_MAX.
  destruct (Z.ltb_spec (point_count record) 2); [by exists None|]. destruct (Z.ltb_spec 12 (point_count record)); [by exists None|].
  cbn [orb]. cbv zeta. set (n := Z.to_nat (point_count record)).
  destruct (point_positions band None (take n (channels record))) as [positions|] eqn:E; [|by exists None].
  apply point_positions_spec in E as (Hm & Hi & _). pose proof (Forall2_length _ _ _ (mapM_Some_1 _ _ _ Hm)) as Hlen. rewrite length_take in Hlen.
  destruct (positions_ends positions) as (first & final & Ef & El); [lia|]. rewrite Ef, El. cbn [mbind option_bind].
  destruct (Z.eqb_spec first 0) as [->|]; [|by exists None]. cbn [negb].
  destruct (final ==? agc_band_last_position band); [|by exists None]. cbn [negb]. pose proof (last_position_small band).
  destruct (fill_corrections_total band range positions (take n (corrections record)) (seqZ 0 (agc_band_last_position band + 1)) 0%nat 0 table)
    as (t' & -> & Ht'); [done|done|done|rewrite length_take; lia|by rewrite <- head_lookup| | |].
  - apply Forall_forall. intros p Hp%elem_of_seqZ. lia.
  - replace (agc_band_last_position band + 1) with (Z.of_nat (Z.to_nat (agc_band_last_position band + 1))) by lia. apply seqZ_increasing.
  - cbn [mbind option_bind]. by exists (Some t').
Qed.

(** A record is loaded without leaving an array, or refused.  It is accepted just when it has 2 to
    12 channels of the band, in order, from the band's first to its last.  Then every channel of
    the band has a correction: at a channel of the record the record's, between two of them a
    value between theirs, the straight line rounded down.  Nothing else of the table changes. *)
Theorem channel_record_loaded (band : gsm_band) (range : Z) (record : agc_channel_record) (table : list (list Z)) :
  band <> GSM_BAND_COUNT -> 0 <= range < AGC_RANGE_COUNT -> table_ok table ->
  length (channels record) = 12%nat -> Forall (fun c => 0 <= c) (channels record) ->
  length (corrections record) = 12%nat -> small_corrections (corrections record) ->
  exists r, load_agc_channel_record band range record table = Some r /\
    match r with
    | Some table' =>
        exists positions, 2 <= point_count record <= 12 /\
          mapM (agc_channel_position band) (take (Z.to_nat (point_count record)) (channels record)) = Some positions /\
          increasing positions /\ head positions = Some 0 /\ last positions = Some (agc_band_last_position band) /\
          table_ok table' /\
          (forall p l v, segment positions p l -> 0 <= p <= agc_band_last_position band ->
             cell table' range (agc_channel_index band p) = Some v -> value_ok positions (corrections record) p l v) /\
          (forall p, 0 <= p <= agc_band_last_position band -> is_Some (cell table' range (agc_channel_index band p))) /\
          (forall r j, r <> range \/ (forall p, 0 <= p <= agc_band_last_position band -> j <> agc_channel_index band p) ->
             cell table' r j = cell table r j)
    | None =>
        ~ (2 <= point_count record <= 12 /\
           exists positions, mapM (agc_channel_position band) (take (Z.to_nat (point_count record)) (channels record)) = Some positions /\
             increasing positions /\ head positions = Some 0 /\ last positions = Some (agc_band_last_position band))
    end.
Proof.
  intros Hb Hr Ht Hlc Hc Hlr Hs. unfold AGC_RANGE_COUNT in Hr. unfold load_agc_channel_record, AGC_CHANNEL_POINT_COUNT_MAX.
  destruct (Z.ltb_spec (point_count record) 2); [exists None; split; [done|lia]|].
  destruct (Z.ltb_spec 12 (point_count record)); [exists None; split; [done|lia]|]. cbn [orb]. cbv zeta.
  set (n := Z.to_nat (point_count record)) in *.
  destruct (point_positions band None (take n (channels record))) as [positions|] eqn:E; cycle 1.
  { exists None. split; [done|]. intros (_ & ps & Hm & Hi & _). pose proof (point_positions_spec band None (take n (channels record)) ps) as [_ H2].
    rewrite H2 in E; [done|by split_and!]. }
  apply point_positions_spec in E as (Hm & Hi & _). pose proof (Forall2_length _ _ _ (mapM_Some_1 _ _ _ Hm)) as Hlen. rewrite length_take in Hlen.
  destruct (positions_ends positions) as (first & final & Ef & El); [lia|]. rewrite Ef, El. cbn [mbind option_bind].
  destruct (Z.eqb_spec first 0) as [->|Hne]; cbn [negb]; cycle 1.
  { exists None. split; [done|]. intros (_ & ps & Hm' & _ & Hh & _). congruence. }
  destruct (Z.eqb_spec final (agc_band_last_position band)) as [->|Hne]; cbn [negb]; cycle 1.
  { exists None. split; [done|]. intros (_ & ps & Hm' & _ & _ & Hh). congruence. }
  pose proof (last_position_small band) as Hsmall.
  destruct (fill_corrections_spec band range positions (take n (corrections record)) (Z.to_nat (agc_band_last_position band + 1)) 0 0%nat 0 table)
    as (table' & Efill & Ht' & Hout & Hin); [done|done|done|by apply Forall_take|rewrite length_take; lia| |lia|lia| |lia|].
  { intros l q Hq. pose proof (positions_range band (take n (channels record)) positions) as Hpos.
    specialize (Hpos (Forall_take _ _ _ Hc) Hm l q Hq). lia. }
  { by rewrite <- head_lookup. }
  rewrite Z2Nat.id in Efill by lia. rewrite Efill. cbn [mbind option_bind]. exists (Some table'). split; [done|].
  exists positions. split_and!; [lia|lia|done|done|done|done|done| | |].
  - intros p l v Hseg Hp Hcell. destruct (Hin p Hp) as (l' & v' & Hseg' & Hv' & Hcell').
    rewrite (segment_unique positions p l l' Hi Hseg Hseg'). rewrite Hcell in Hcell'. injection Hcell' as ->.
    by apply (value_ok_take n).
  - intros p Hp. destruct (Hin p Hp) as (_ & v & _ & _ & Hcell). by exists v.
  - intros r j Hj. apply Hout. intros -> p Hp. destruct Hj as [Hj|Hj]; [done|by apply Hj].
Qed.
Lemma channel_record_loaded_witness :
  let record := ChannelRecord 2 [128; 251; 0; 0; 0; 0; 0; 0; 0; 0; 0; 0] [5; -7; 0; 0; 0; 0; 0; 0; 0; 0; 0; 0] in
  let table := replicate 3 (replicate 972 0) in
  exists r, load_agc_channel_record GSM_BAND_850 1 record table = Some r /\
    match r with
    | Some table' =>
        exists positions, 2 <= point_count record <= 12 /\
          mapM (agc_channel_position GSM_BAND_850) (take (Z.to_nat (point_count record)) (channels record)) = Some positions /\
          increasing positions /\ head positions = Some 0 /\ last positions = Some (agc_band_last_position GSM_BAND_850) /\
          table_ok table' /\
          (forall p l v, segment positions p l -> 0 <= p <= agc_band_last_position GSM_BAND_850 ->
             cell table' 1 (agc_channel_index GSM_BAND_850 p) = Some v -> value_ok positions (corrections record) p l v) /\
          (forall p, 0 <= p <= agc_band_last_position GSM_BAND_850 -> is_Some (cell table' 1 (agc_channel_index GSM_BAND_850 p))) /\
          (forall r j, r <> 1 \/ (forall p, 0 <= p <= agc_band_last_position GSM_BAND_850 -> j <> agc_channel_index GSM_BAND_850 p) ->
             cell table' r j = cell table r j)
    | None =>
        ~ (2 <= point_count record <= 12 /\
           exists positions, mapM (agc_channel_position GSM_BAND_850) (take (Z.to_nat (point_count record)) (channels record)) = Some positions /\
             increasing positions /\ head positions = Some 0 /\ last positions = Some (agc_band_last_position GSM_BAND_850))
    end.
Proof.
  cbv zeta. apply (channel_record_loaded GSM_BAND_850 1); [done|done| |done| |done| ].
  - split; [done|by apply Forall_replicate].
  - repeat (apply Forall_cons; split; [simpl; lia|]). by apply Forall_nil.
  - repeat (apply Forall_cons; split; [simpl; lia|]). by apply Forall_nil.
Defined.
