(* ===== verification/Dsp.v ===== *)
(** * The signal processor ([unit/dsp]: [dsp-hw.c], [dsp-container.h], [runtime.c], [hle/user-rom.c])

    The CPU and the DSP share a memory and a register of flags.  After a reset the DSP's mask
    ROM takes boot commands (load a block of words, read one, branch) from the shared memory,
    one at a time; [dsp_hw_load] sends it the records of a container image.  The runtime
    that a container starts takes its commands from three pipes of the same memory. *)
From S2P Require Import Prelude Machine Board Regs Clock Stopwatch Wdt GsmRegs GsmTrx TestLib.
Import Regs.Pmb8876.

Definition DSP_HW_BOOT_TRANSFER_WORDS : Z := 509.
Definition DSP_BOOT_PLOAD : Z := 0.
Definition DSP_BOOT_DLOAD : Z := 1.
Definition DSP_BOOT_BRANCH : Z := 2.
Definition DSP_BOOT_PREAD : Z := 3.
Definition DSP_BOOT_DREAD : Z := 4.
Definition DSP_BOOT_DATA_OFFSET : Z := 2.
Definition DSP_BOOT_RESULT_OFFSET : Z := DSP_BOOT_DATA_OFFSET + 3.
Definition DSP_WAIT_ITERATIONS : Z := 1000000.
Definition DSP_CONTAINER_PLOAD : Z := 0.
Definition DSP_CONTAINER_DLOAD : Z := 1.
Definition DSP_CONTAINER_BRANCH : Z := 2.
Definition DSP_RUNTIME_WAIT_TIMEOUT_US : Z := 2000.
Definition DSP_RUNTIME_START_TIMEOUT_US : Z := 2000.
Definition DSP_RUNTIME_PIPE_OFFSETS : list Z := [0x0005; 0x0021; 0x003D].
Definition TEAK_SHARED_RAM_SIZE : Z := 0x0C00.
(** [enum dsp_runtime_command_id], the commands that are used here and by the receiver. *)
Definition DSP_COMMAND_FC_INIT : Z := 1.
Definition DSP_COMMAND_MODU_INIT : Z := 2.
Definition DSP_COMMAND_IQ_SWAP_1 : Z := 3.
Definition DSP_COMMAND_IQ_SWAP_2 : Z := 4.
Definition DSP_COMMAND_DEC_INIT : Z := 5.
Definition DSP_COMMAND_BB_OFF : Z := 13.
Definition DSP_COMMAND_IDLE : Z := 14.
Definition DSP_COMMAND_WRITE_DSP : Z := 32.
Definition DSP_COMMAND_READ_DSP : Z := 33.

(** ** Containers *)
Record dsp_container_reader := ContainerReader { cr_data : list Z; cr_offset : Z; cr_complete : bool }.
(** The record's words start at [r_data] of the container. *)
Record dsp_container_record := ContainerRecord { r_command : Z; r_destination : Z; r_words : Z; r_data : Z }.
Definition cr_size (reader : dsp_container_reader) : Z := Z.of_nat (length (cr_data reader)).

Definition dsp_container_read_u16 (container : list Z) (data : Z) : option Z :=
  low ← elem container data; high ← elem container (data + 1); Some (low .| (high .<< 8)).
Definition dsp_container_reader_init (container : list Z) : dsp_container_reader := ContainerReader container 0 false.
(** [Some None]: it returns false. *)
Definition dsp_container_next (reader : dsp_container_reader) : option (option (dsp_container_record * dsp_container_reader)) :=
  let size := cr_size reader in let offset := cr_offset reader in
  if cr_complete reader || (size <? offset) || (size - offset <? 4) then Some None
  else
    command ← dsp_container_read_u16 (cr_data reader) offset;
    destination ← dsp_container_read_u16 (cr_data reader) (offset + 2);
    if command ==? DSP_CONTAINER_BRANCH then
      if offset + 4 !=? size then Some None
      else Some (Some (ContainerRecord command destination 0 0, ContainerReader (cr_data reader) (offset + 4) true))
    else if (command !=? DSP_CONTAINER_PLOAD) && (command !=? DSP_CONTAINER_DLOAD) then Some None
    else if size - offset <? 6 then Some None
    else
      words ← dsp_container_read_u16 (cr_data reader) (offset + 4);
      if 0x10000 <? destination + words then Some None
      else
        let payload_size := words * 2 in
        if size - offset - 6 <? payload_size then Some None
        else Some (Some (ContainerRecord command destination words (offset + 6),
                         ContainerReader (cr_data reader) (offset + (6 + payload_size)) (cr_complete reader))).

Record dsp_user_rom := UserRom { rom_name : string; rom_mask_id : Z; rom_container : list Z }.
Definition dsp_user_rom_find (roms : list dsp_user_rom) (mask_id : Z) : option dsp_user_rom :=
  snd <$> list_find (fun rom => rom_mask_id rom = mask_id) roms.

Section Code.
Context {D A : Type} `{!Device D} `{B : Board}.
#[local] Abbreviation M := (M D A).

(** *** The boot commands *)
(** [dsp_hw_shared_memory[i]]. *)
Definition shared_address (i : Z) : Z := DSP_RAM_BASE + i * 2.
Definition rd_shared (i : Z) : M Z := rd16 (shared_address i).
Definition wr_shared (i v : Z) : M unit := wr16 (shared_address i) v.
Definition wr_shared_from (i : Z) (values : list Z) : M unit :=
  foldM (fun k v => wr_shared k v;; mret (k + 1)) i values;; mret tt.

(** The two waits: [ready] every iteration, the watchdog on every 16384th. *)
Definition boot_wait (ready : M bool) : M bool :=
  iter (fun i =>
    if i <? DSP_WAIT_ITERATIONS then
      b ← ready;
      if b : bool then mret (inr true)
      else when ((i .& 0x3FFF) ==? 0) wdt_serve;; mret (inl (i + 1))
    else mret (inr false)) 0.
Definition boot_pipe_idle : M bool := status ← rd32 DSP_COM_STATUS; mret ((status .& BIT 0) ==? 0).
Definition wait_for_boot_ready : M bool := boot_wait boot_pipe_idle.
Definition wait_for_mask_rom : M bool :=
  boot_wait (
    id ← rd_shared 0;
    let mask_family := id .& 0xFF00 in
    let known_mask_rom := (mask_family ==? 0x0600) || (mask_family ==? 0x0800) in
    boot_pipe_idle ← boot_pipe_idle;
    mret (known_mask_rom && boot_pipe_idle)).
Definition submit_boot_command : M bool :=
  wr32 DSP_COM_SET (BIT 0);; wr32 SCU_DSP_INT (BIT 0);; wr32 SCU_DSP_INT 0;; wait_for_boot_ready.
Definition load_words (command destination : Z) (values : list Z) : M bool :=
  wr_shared DSP_BOOT_DATA_OFFSET command;;
  wr_shared (DSP_BOOT_DATA_OFFSET + 1) destination;;
  wr_shared (DSP_BOOT_DATA_OFFSET + 2) (Z.of_nat (length values));;
  wr_shared_from (DSP_BOOT_DATA_OFFSET + 3) values;;
  submit_boot_command.
(** The words read, when it returns true. *)
Definition read_words (command source words : Z) : M (option (list Z)) :=
  if DSP_HW_BOOT_TRANSFER_WORDS <? words then mret None
  else
    wr_shared DSP_BOOT_DATA_OFFSET command;;
    wr_shared (DSP_BOOT_DATA_OFFSET + 1) source;;
    wr_shared (DSP_BOOT_DATA_OFFSET + 2) words;;
    ok ← submit_boot_command;
    if negb ok then mret None
    else
      values ← foldM (fun values i => v ← rd_shared (DSP_BOOT_RESULT_OFFSET + i); mret (values ++ [v])) [] (seqZ 0 words);
      mret (Some values).
Definition dsp_hw_reset : M bool :=
  wr32 DSP_COM_CLEAR 0xFFFF;;
  wr32 SCU_DSP_INT 0;;
  wr_shared 0 0;;
  wr32 SCU_RST_REQ SCU_RST_REQ_DSP;;
  wr32 SCU_RST_REQ 0;;
  wait_for_mask_rom.
Definition dsp_hw_read_reg (address : Z) : M (option (list Z)) := read_words DSP_BOOT_DREAD address 1.
Definition dsp_hw_read_data (address words : Z) : M (option (list Z)) := read_words DSP_BOOT_DREAD address words.
Definition dsp_hw_read_program (address words : Z) : M (option (list Z)) := read_words DSP_BOOT_PREAD address words.
Definition dsp_hw_write_data (address : Z) (values : list Z) : M bool :=
  if DSP_HW_BOOT_TRANSFER_WORDS <? Z.of_nat (length values) then mret false
  else load_words DSP_BOOT_DLOAD address values.
Definition dsp_hw_write_reg (address value : Z) : M bool := load_words DSP_BOOT_DLOAD address [value].
Definition dsp_hw_branch (destination : Z) : M bool :=
  wr_shared DSP_BOOT_DATA_OFFSET DSP_BOOT_BRANCH;;
  wr_shared (DSP_BOOT_DATA_OFFSET + 1) destination;;
  submit_boot_command.
Definition dsp_hw_wait_shared (offset expected timeout_ms : Z) : M bool :=
  start ← stopwatch_get;
  poll (v ← rd_shared offset;
        if v !=? expected then elapsed ← stopwatch_elapsed_ms start; mret (timeout_ms <=? elapsed)
        else mret true) wdt_serve;;
  v ← rd_shared offset;
  mret (v ==? expected).

(** *** Loading a container *)
Definition record_payload (container : list Z) (record : dsp_container_record) : option (list Z) :=
  mapM (fun i => dsp_container_read_u16 container (r_data record + i * 2)) (seqZ 0 (r_words record)).
(** One iteration of its loop. *)
Definition load_step (image : list Z) (execute_branch : bool) (reader : dsp_container_reader) : M (dsp_container_reader + bool) :=
  next ← defined (dsp_container_next reader);
  match next with
  | None => mret (inr false)
  | Some (record, reader) =>
      if r_command record ==? DSP_CONTAINER_BRANCH then
        if execute_branch then ok ← dsp_hw_branch (r_destination record); mret (inr ok) else mret (inr true)
      else if DSP_HW_BOOT_TRANSFER_WORDS <? r_words record then mret (inr false)
      else
        payload ← defined (record_payload image record);
        ok ← load_words (r_command record) (r_destination record) payload;
        if ok : bool then mret (inl reader) else mret (inr false)
  end.
Definition dsp_hw_load (image : list Z) (execute_branch : bool) : M bool :=
  iter (load_step image execute_branch) (dsp_container_reader_init image).
Definition dsp_hw_load_image (image : list Z) : M bool := dsp_hw_load image false.
Definition dsp_hw_load_container (container : list Z) : M bool := dsp_hw_load container true.

(** The user ROM that fits the mask ROM; the table and [printf] are the build's. *)
Definition dsp_user_rom_start (printf : message -> M unit) (BOARD_NAME : string) (DSP_USER_ROMS : list dsp_user_rom) : M (option dsp_user_rom) :=
  ok ← dsp_hw_reset;
  if negb ok then mret None
  else
    mask_id ← rd_shared 0;
    match dsp_user_rom_find DSP_USER_ROMS mask_id with
    | None =>
        printf ("# No original User ROM for Mask ROM %04lX and board %s" +:+ NL, [PNum mask_id; PText BOARD_NAME]);; mret None
    | Some rom =>
        printf ("# DSP User ROM: %s (%lu bytes)" +:+ NL, [PText (rom_name rom); PNum (Z.of_nat (length (rom_container rom)))]);;
        foldM (fun _ i => wr_shared i 0) tt (seqZ 0 (TEAK_SHARED_RAM_SIZE / 2));;
        wr32 DSP_COM_CLEAR 0xFFFF;;
        ok ← dsp_hw_load_container (rom_container rom);
        mret (if ok : bool then Some rom else None)
    end.

(** *** The runtime's commands *)
(** The offset of the pipe in the shared memory. *)
Definition dsp_runtime_pipe_get (index : Z) : M Z := defined (elem DSP_RUNTIME_PIPE_OFFSETS index).
Definition dsp_runtime_command_prepare (pipe_index command : Z) (parameters : list Z) : M unit :=
  pipe ← dsp_runtime_pipe_get pipe_index;
  wr_shared pipe command;;
  wr_shared_from (pipe + 1) parameters.
Definition dsp_runtime_interrupt_pulse (flags : Z) : M unit := wr32 SCU_DSP_INT flags;; wr32 SCU_DSP_INT 0.
Definition dsp_runtime_command_start (pipe_index command : Z) (parameters : list Z) : M unit :=
  let flag := u16 (BIT pipe_index) in
  dsp_runtime_command_prepare pipe_index command parameters;;
  wr32 DSP_COM_SET flag;;
  dsp_runtime_interrupt_pulse flag.
Definition dsp_runtime_wait (flags : Z) : M bool :=
  start ← stopwatch_get;
  iter (fun _ : unit =>
    status ← rd32 DSP_COM_STATUS;
    if (status .& flags) !=? 0 then
      elapsed ← stopwatch_elapsed_us start;
      mret (if DSP_RUNTIME_WAIT_TIMEOUT_US <=? elapsed then inr false else inl tt)
    else mret (inr true)) tt.
Definition dsp_runtime_command_execute (pipe_index command : Z) (parameters : list Z) (accepted : bool) : M bool :=
  let flag := u16 (BIT pipe_index) in
  dsp_runtime_command_start pipe_index command parameters;;
  ok ← dsp_runtime_wait flag;
  if negb ok then mret false
  else
    pipe ← dsp_runtime_pipe_get pipe_index;
    v ← rd_shared pipe;
    mret (v ==? (if accepted then u16 (- command) else 0)).
Definition dsp_runtime_data_read (address result_offset word_count : Z) : M (option (list Z)) :=
  if 0xFFFF <? word_count then mret None
  else
    ok ← dsp_runtime_command_execute 0 DSP_COMMAND_READ_DSP [address; result_offset; u16 word_count] true;
    if negb ok then mret None
    else
      values ← foldM (fun values i => v ← rd_shared (result_offset + i); mret (values ++ [v])) [] (seqZ 0 word_count);
      mret (Some values).
Definition dsp_runtime_data_write (source_offset address word_count : Z) : M bool :=
  if 0xFFFF <? word_count then mret false
  else dsp_runtime_command_execute 0 DSP_COMMAND_WRITE_DSP [source_offset; address; u16 word_count] true.
Definition dsp_runtime_start (printf : message -> M unit) (BOARD_NAME : string) (DSP_USER_ROMS : list dsp_user_rom) : M (option dsp_user_rom) :=
  rom ← dsp_user_rom_start printf BOARD_NAME DSP_USER_ROMS;
  match rom with
  | None => mret None
  | Some rom =>
      start ← stopwatch_get;
      iter (fun _ : unit =>
        status ← rd32 CGU_STAT;
        if (status .& CGU_STAT_DSP_CLK) !=? 0 then
          elapsed ← stopwatch_elapsed_us start;
          if DSP_RUNTIME_START_TIMEOUT_US <=? elapsed then mret (inr None)
          else wdt_serve;; mret (inl tt)
        else mret (inr (Some rom))) tt
  end.
End Code.
