(* ===== verification/DspContainer.v ===== *)
(** * DSP containers ([unit/dsp/dsp-hw.c], [dsp-container.h])

    A container is a sequence of blocks of words, each with its command and destination, and a
    branch at its very end.  The loader sends the mask ROM the blocks of an image in order and
    then the branch, whatever the bytes of the image are. *)
From S2P Require Import Prelude Machine Board Regs Stopwatch Wdt GsmTrx TestLib Dsp.

(** A block: its command, its destination and its words. *)
Definition block : Type := Z * Z * list Z.
Definition is_u16 (x : Z) : Prop := 0 <= x < 0x10000.
Definition block_fits (b : block) : Prop :=
  let '(command, destination, values) := b in
  (command = DSP_CONTAINER_PLOAD \/ command = DSP_CONTAINER_DLOAD) /\ 0 <= destination /\
  destination + Z.of_nat (length values) <= 0x10000 /\ is_u16 destination /\
  Z.of_nat (length values) <= DSP_HW_BOOT_TRANSFER_WORDS /\ Forall is_u16 values.
Definition words_bytes (values : list Z) : list Z := mjoin (map (le_bytes 2) values).
Definition block_bytes (b : block) : list Z :=
  let '(command, destination, values) := b in
  le_bytes 2 command ++ le_bytes 2 destination ++ le_bytes 2 (Z.of_nat (length values)) ++ words_bytes values.
Definition container_bytes (blocks : list block) (branch : Z) : list Z :=
  mjoin (map block_bytes blocks) ++ le_bytes 2 DSP_CONTAINER_BRANCH ++ le_bytes 2 branch.

(** What is sent: the blocks, and at the end the branch if there is one. *)
Fixpoint load_blocks {D A} `{!Device D} `{B : Board} (execute_branch : bool) (blocks : list block) (branch : option Z) : M D A bool :=
  match blocks with
  | (command, destination, values) :: blocks =>
      ok ← load_words command destination values;
      if ok : bool then load_blocks execute_branch blocks branch else mret false
  | [] =>
      match branch with
      | Some destination => if execute_branch then dsp_hw_branch destination else mret true
      | None => mret false
      end
  end.

(** The blocks at the start of some bytes and the branch, if the rest is just that. *)
Definition word (low high : Z) : Z := low .| (high .<< 8).
Fixpoint words_of (bytes : list Z) : list Z :=
  match bytes with low :: high :: bytes => word low high :: words_of bytes | _ => [] end.
Fixpoint parse (n : nat) (bytes : list Z) : list block * option Z :=
  match n, bytes with
  | S n, c0 :: c1 :: d0 :: d1 :: bytes =>
      let command := word c0 c1 in let destination := word d0 d1 in
      if command ==? DSP_CONTAINER_BRANCH then ([], if bool_decide (bytes = []) then Some destination else None)
      else if (command !=? DSP_CONTAINER_PLOAD) && (command !=? DSP_CONTAINER_DLOAD) then ([], None)
      else match bytes with
           | w0 :: w1 :: bytes =>
               let words := word w0 w1 in
               if 0x10000 <? destination + words then ([], None)
               else if Z.of_nat (length bytes) <? words * 2 then ([], None)
               else if DSP_HW_BOOT_TRANSFER_WORDS <? words then ([], None)
               else
                 let '(blocks, branch) := parse n (drop (Z.to_nat (words * 2)) bytes) in
                 ((command, destination, words_of (take (Z.to_nat (words * 2)) bytes)) :: blocks, branch)
           | _ => ([], None)
           end
  | _, _ => ([], None)
  end.

(** ** Words and bytes *)
Lemma word_spec low high : is_byte low -> is_byte high -> word low high = low + 256 * high /\ is_u16 (word low high).
Proof.
  intros Hl Hh. unfold word, is_byte, is_u16 in *. rewrite (lor_shiftl_add low high 8) by (change (2 ^ 8) with 256; lia).
  change (2 ^ 8) with 256. lia.
Qed.
Lemma word_bytes low high : is_byte low -> is_byte high -> le_bytes 2 (word low high) = [low; high].
Proof.
  intros Hl Hh. destruct (word_spec low high Hl Hh) as [-> _]. cbn [le_bytes]. rewrite Z.shiftr_div_pow2 by lia. change (2 ^ 8) with 256.
  f_equal; [|f_equal]; unfold is_byte in *; unfold u8; Z.div_mod_to_equations; lia.
Qed.
Lemma word_le_bytes v : is_u16 v -> exists low high, le_bytes 2 v = [low; high] /\ word low high = v /\ is_byte low /\ is_byte high.
Proof.
  intros Hv. exists (u8 v), (u8 (v .>> 8)). split; [done|]. pose proof (u8_range v). pose proof (u8_range (v .>> 8)).
  split; [|done]. destruct (word_spec (u8 v) (u8 (v .>> 8))) as [-> _]; [done|done|]. rewrite Z.shiftr_div_pow2 by lia.
  change (2 ^ 8) with 256. unfold is_u16 in Hv. unfold u8. Z.div_mod_to_equations. lia.
Qed.
Lemma words_bytes_cons v values : words_bytes (v :: values) = le_bytes 2 v ++ words_bytes values.
Proof. done. Qed.
Lemma words_of_bytes values : Forall is_u16 values -> words_of (words_bytes values) = values.
Proof.
  induction 1 as [|v values Hv _ IH]; [done|]. rewrite words_bytes_cons. destruct (word_le_bytes v Hv) as (low & high & E & Ew & _).
  rewrite E. cbn [app words_of]. by rewrite Ew, IH.
Qed.
Lemma length_words_bytes values : length (words_bytes values) = (2 * length values)%nat.
Proof. induction values as [|v values IH]; [done|]. rewrite words_bytes_cons, length_app, IH. simpl. lia. Qed.
Lemma words_of_spec n bytes : bytes_ok bytes -> length bytes = (2 * n)%nat ->
  length (words_of bytes) = n /\ Forall is_u16 (words_of bytes) /\ words_bytes (words_of bytes) = bytes.
Proof.
  revert bytes. induction n as [|n IH]; intros bytes Hb Hl; [by destruct bytes|].
  destruct bytes as [|low [|high bytes]]; simpl in Hl; try lia.
  apply Forall_cons in Hb as [Hlow [Hhigh Hb]%Forall_cons]. destruct (IH bytes Hb) as (H1 & H2 & H3); [lia|].
  cbn [words_of length]. split; [lia|]. split; [constructor; [by apply word_spec|done]|].
  rewrite words_bytes_cons, word_bytes by done. cbn [app]. by rewrite H3.
Qed.

(** ** The parse is the containers' *)
Lemma container_bytes_cons b blocks branch : container_bytes (b :: blocks) branch = block_bytes b ++ container_bytes blocks branch.
Proof. unfold container_bytes. cbn [map mjoin list_join]. by rewrite <- (assoc_L (++)). Qed.
Definition branch_bytes (destination : Z) : list Z := le_bytes 2 DSP_CONTAINER_BRANCH ++ le_bytes 2 destination.
Lemma parse_branch n destination : is_u16 destination -> parse (S n) (branch_bytes destination) = ([], Some destination).
Proof.
  intros Hd. unfold branch_bytes. destruct (word_le_bytes destination Hd) as (low & high & E & Ew & _). simpl in *. injection E as E1 E2. by rewrite E1, E2, Ew.
Qed.
Lemma parse_block n b rest : block_fits b -> parse (S n) (block_bytes b ++ rest) = (b :: fst (parse n rest), snd (parse n rest)).
Proof.
  destruct b as [[c d] vs]. intros (Hc & Hd0 & Hdw & Hd & Hw & Hvs). cbn [block_bytes].
  destruct (word_le_bytes c) as (c0 & c1 & Ec & Ewc & _); [unfold is_u16; destruct Hc as [-> | ->]; unfold DSP_CONTAINER_PLOAD, DSP_CONTAINER_DLOAD; lia|].
  destruct (word_le_bytes d Hd) as (d0 & d1 & Ed & Ewd & _).
  destruct (word_le_bytes (Z.of_nat (length vs))) as (w0 & w1 & Ew & Eww & _); [unfold is_u16, DSP_HW_BOOT_TRANSFER_WORDS in *; lia|].
  rewrite Ec, Ed, Ew, <- !(assoc_L (++)). cbn [app parse]. rewrite Ewc, Ewd, Eww.
  destruct (Z.eqb_spec c DSP_CONTAINER_BRANCH) as [->|_]; [by destruct Hc|].
  replace ((c !=? DSP_CONTAINER_PLOAD) && (c !=? DSP_CONTAINER_DLOAD)) with false by (symmetry; destruct Hc as [-> | ->]; done).
  destruct (Z.ltb_spec 0x10000 (d + Z.of_nat (length vs))); [lia|].
  assert (Z.to_nat (Z.of_nat (length vs) * 2) = length (words_bytes vs)) as El by (rewrite length_words_bytes; lia).
  match goal with |- context [Z.ltb ?a (Z.of_nat (length vs) * 2)] => destruct (Z.ltb_spec a (Z.of_nat (length vs) * 2)) as [Hlt|_] end;
    [rewrite length_app in Hlt; lia|].
  destruct (Z.ltb_spec DSP_HW_BOOT_TRANSFER_WORDS (Z.of_nat (length vs))); [lia|].
  rewrite El, drop_app_length, take_app_length, (words_of_bytes vs Hvs). by destruct (parse n rest).
Qed.
Lemma parse_complete blocks branch n : Forall block_fits blocks -> is_u16 branch -> (length blocks < n)%nat ->
  parse n (container_bytes blocks branch) = (blocks, Some branch).
Proof.
  intros Hb Hbr. revert n. induction Hb as [|b blocks Hfit _ IH]; intros n Hn; (destruct n as [|n]; simpl in Hn; [lia|]).
  - by apply parse_branch.
  - rewrite container_bytes_cons, parse_block by done. by rewrite IH by lia.
Qed.
Lemma length_container blocks branch : (length blocks < S (length (container_bytes blocks branch)))%nat.
Proof.
  induction blocks as [|[[c d] vs] blocks IH]; [simpl; lia|]. rewrite container_bytes_cons, length_app. simpl in *. lia.
Qed.
(** A record that is refused: the rest of the image does not begin with a block that fits, and is not the branch. *)
Definition bad_record (rest : list Z) : Prop :=
  (forall b rest', block_fits b -> rest <> block_bytes b ++ rest') /\ forall destination, is_u16 destination -> rest <> branch_bytes destination.
Lemma parse_none n bytes : parse (S n) bytes = ([], None) -> bad_record bytes.
Proof.
  intros H. split; [intros b rest Hb ->; by rewrite parse_block in H|intros d Hd ->; by rewrite parse_branch in H].
Qed.
Lemma parse_sound n bytes blocks branch : bytes_ok bytes -> (length bytes < n)%nat -> parse n bytes = (blocks, branch) ->
  Forall block_fits blocks /\
  match branch with
  | Some branch => is_u16 branch /\ bytes = container_bytes blocks branch
  | None => exists rest, bytes = mjoin (map block_bytes blocks) ++ rest /\ bad_record rest
  end.
Proof.
  revert bytes blocks branch. induction n as [|n IH]; intros bytes blocks branch Hb Hn Hp; [lia|].
  assert (([], None) = (blocks, branch) -> Forall block_fits blocks /\ match branch with
    | Some branch => is_u16 branch /\ bytes = container_bytes blocks branch
    | None => exists rest, bytes = mjoin (map block_bytes blocks) ++ rest /\ bad_record rest end) as Hnone.
  { intros [= <- <-]. split; [done|]. exists bytes. split; [done|by eapply parse_none]. }
  destruct bytes as [|c0 [|c1 [|d0 [|d1 bytes]]]]; try by apply Hnone. cbn [parse] in Hp.
  apply Forall_cons in Hb as [Hc0 [Hc1 [Hd0 [Hd1 Hb]%Forall_cons]%Forall_cons]%Forall_cons].
  destruct (word_spec d0 d1 Hd0 Hd1) as [_ Hd]. pose proof (word_bytes c0 c1 Hc0 Hc1) as Ec. pose proof (word_bytes d0 d1 Hd0 Hd1) as Ed.
  destruct (Z.eqb_spec (word c0 c1) DSP_CONTAINER_BRANCH) as [E|_].
  { case_bool_decide as En; [|by apply Hnone]. injection Hp as <- <-. subst bytes. do 2 (split; [done|]). unfold container_bytes. by rewrite <- E, Ec, Ed. }
  destruct (_ && _) eqn:Hc; [by apply Hnone|]. destruct bytes as [|w0 [|w1 bytes]]; try by apply Hnone.
  apply Forall_cons in Hb as [Hw0 [Hw1 Hb]%Forall_cons]. destruct (word_spec w0 w1 Hw0 Hw1) as [_ Hw].
  pose proof (word_bytes w0 w1 Hw0 Hw1) as Ew. unfold is_u16 in Hw. set (words := word w0 w1) in *.
  destruct (Z.ltb_spec 0x10000 (word d0 d1 + words)); [by apply Hnone|]. destruct (Z.ltb_spec (Z.of_nat (length bytes)) (words * 2)); [by apply Hnone|].
  destruct (Z.ltb_spec DSP_HW_BOOT_TRANSFER_WORDS words); [by apply Hnone|]. clear Hnone.
  destruct (parse n _) as [blocks' branch'] eqn:Ep. injection Hp as <- <-. simpl in Hn.
  apply IH in Ep as [IH1 IH2]; [|by apply Forall_drop|rewrite length_drop; lia].
  destruct (words_of_spec (Z.to_nat words) (take (Z.to_nat (words * 2)) bytes)) as (Hl & Hv & Ev);
    [by apply Forall_take|rewrite length_take; lia|].
  set (vs := words_of _) in *. assert (Z.of_nat (length vs) = words) as Hl' by lia.
  assert (forall rest, drop (Z.to_nat (words * 2)) bytes = rest ->
    c0 :: c1 :: d0 :: d1 :: w0 :: w1 :: bytes = block_bytes (word c0 c1, word d0 d1, vs) ++ rest) as Hbytes.
  { intros rest <-. cbn [block_bytes]. rewrite Hl', Ec, Ed, Ew, Ev, <- !(assoc_L (++)). cbn [app]. by rewrite take_drop. }
  split.
  - constructor; [|done]. unfold block_fits. rewrite Hl'. unfold is_u16 in Hd.
    split_and!; [|(unfold is_u16; lia)..|done]. apply andb_false_iff in Hc as [Hc|Hc]; apply negb_false_iff, Z.eqb_eq in Hc; auto.
  - destruct branch' as [branch|].
    + destruct IH2 as [Hbr E]. split; [done|]. rewrite container_bytes_cons. by apply Hbytes.
    + destruct IH2 as (rest & E & Hbad). exists rest. split; [|done]. cbn [map mjoin list_join]. rewrite <- (assoc_L (++)). by apply Hbytes.
Qed.

(** ** The reader follows the parse *)
Section Reader.
Context (image : list Z) (Himage : bytes_ok image).
Definition reader_at (offset : nat) : dsp_container_reader := ContainerReader image (Z.of_nat offset) false.

Lemma elem_drop offset i : elem image (Z.of_nat offset + Z.of_nat i) = drop offset image !! i.
Proof. unfold elem. destruct (Z.ltb_spec (Z.of_nat offset + Z.of_nat i) 0); [lia|]. rewrite lookup_drop. f_equal. lia. Qed.
Lemma read_word offset i low high : drop offset image !! i = Some low -> drop offset image !! S i = Some high ->
  dsp_container_read_u16 image (Z.of_nat offset + Z.of_nat i) = Some (word low high).
Proof.
  intros E1 E2. unfold dsp_container_read_u16. rewrite elem_drop, E1. cbn [mbind option_bind].
  replace (Z.of_nat offset + Z.of_nat i + 1) with (Z.of_nat offset + Z.of_nat (S i)) by lia. by rewrite elem_drop, E2.
Qed.
Lemma payload_from offset k n : (2 * n <= length (drop (offset + 2 * k) image))%nat ->
  mapM (fun i => dsp_container_read_u16 image (Z.of_nat offset + i * 2)) (seqZ (Z.of_nat k) (Z.of_nat n)) =
  Some (words_of (take (2 * n) (drop (offset + 2 * k) image))).
Proof.
  revert k. induction n as [|n IH]; intros k Hn; [done|]. rewrite seqZ_cons by lia. cbn [mapM].
  replace (2 * S n)%nat with (S (S (2 * n))) in * by lia. specialize (IH (S k)).
  replace (offset + 2 * S k)%nat with (offset + 2 * k + 2)%nat in IH by lia. rewrite <- drop_drop in IH.
  destruct (drop (offset + 2 * k) image) as [|b0 [|b1 rest]] eqn:E; simpl in Hn; [lia|lia|].
  replace (Z.of_nat offset + Z.of_nat k * 2) with (Z.of_nat (offset + 2 * k) + Z.of_nat 0) by lia.
  rewrite (read_word (offset + 2 * k) 0 b0 b1) by (by rewrite E). cbn [drop take words_of] in *.
  replace (Z.succ (Z.of_nat k)) with (Z.of_nat (S k)) by lia. replace (Z.pred (Z.of_nat (S n))) with (Z.of_nat n) by lia.
  rewrite drop_0 in IH. by rewrite IH by lia.
Qed.
(** What [dsp_container_next] says of the bytes at its offset. *)
Definition next_of (offset : nat) : option (dsp_container_record * dsp_container_reader) :=
  match drop offset image with
  | c0 :: c1 :: d0 :: d1 :: bytes =>
      let command := word c0 c1 in let destination := word d0 d1 in
      if command ==? DSP_CONTAINER_BRANCH then
        if bool_decide (bytes = []) then
          Some (ContainerRecord command destination 0 0, ContainerReader image (Z.of_nat offset + 4) true)
        else None
      else if (command !=? DSP_CONTAINER_PLOAD) && (command !=? DSP_CONTAINER_DLOAD) then None
      else match bytes with
           | w0 :: w1 :: bytes =>
               let words := word w0 w1 in
               if 0x10000 <? destination + words then None
               else if Z.of_nat (length bytes) <? words * 2 then None
               else Some (ContainerRecord command destination words (Z.of_nat offset + 6),
                          ContainerReader image (Z.of_nat offset + (6 + words * 2)) false)
           | _ => None
           end
  | _ => None
  end.
Lemma next_spec offset : (offset <= length image)%nat -> dsp_container_next (reader_at offset) = Some (next_of offset).
Proof.
  intros Ho. unfold dsp_container_next, next_of, reader_at, cr_size. cbn [cr_data cr_offset cr_complete orb].
  assert (length (drop offset image) = (length image - offset)%nat) as Hl by apply length_drop.
  destruct (Z.ltb_spec (Z.of_nat (length image)) (Z.of_nat offset)); [lia|]. cbn [orb].
  destruct (Z.ltb_spec (Z.of_nat (length image) - Z.of_nat offset) 4).
  { destruct (drop offset image) as [|? [|? [|? [|? ?]]]]; simpl in Hl; (done || lia). }
  destruct (drop offset image) as [|c0 [|c1 [|d0 [|d1 bytes]]]] eqn:E; simpl in Hl; try lia.
  pose proof (read_word offset 0 c0 c1 ltac:(by rewrite E) ltac:(by rewrite E)) as Rc.
  pose proof (read_word offset 2 d0 d1 ltac:(by rewrite E) ltac:(by rewrite E)) as Rd.
  change (Z.of_nat 2) with 2 in Rd. rewrite Z.add_0_r in Rc. rewrite Rc. cbn [mbind option_bind]. rewrite Rd. cbn [mbind option_bind].
  destruct (word c0 c1 ==? DSP_CONTAINER_BRANCH).
  { case_bool_decide as En; destruct (Z.eqb_spec (Z.of_nat offset + 4) (Z.of_nat (length image))); cbn [negb]; try done.
    - subst bytes. simpl in Hl. lia.
    - destruct bytes; [done|]. simpl in Hl. lia. }
  destruct (_ && _); [done|]. destruct (Z.ltb_spec (Z.of_nat (length image) - Z.of_nat offset) 6).
  { destruct bytes as [|? [|? ?]]; simpl in Hl; (done || lia). }
  destruct bytes as [|w0 [|w1 bytes]]; simpl in Hl; try lia.
  pose proof (read_word offset 4 w0 w1 ltac:(by rewrite E) ltac:(by rewrite E)) as Rw. change (Z.of_nat 4) with 4 in Rw.
  rewrite Rw. cbn [mbind option_bind]. cbv zeta. destruct (_ <? word d0 d1 + word w0 w1); [done|].
  replace (Z.of_nat (length image) - Z.of_nat offset - 6) with (Z.of_nat (length bytes)) by lia. by destruct (_ <? _).
Qed.

(** An iteration of the loader. *)
Section Step.
Context {D A : Type} `{!Device D} `{B : Board} (execute : bool) (f : nat) (w : world D A).
Lemma load_step_none reader : dsp_container_next reader = Some None -> load_step image execute reader f w = Done (inr false) w.
Proof. intros E. unfold load_step. by rewrite E. Qed.
Lemma load_step_branch reader record reader' : dsp_container_next reader = Some (Some (record, reader')) ->
  r_command record = DSP_CONTAINER_BRANCH ->
  load_step image execute reader f w =
  match (if execute then dsp_hw_branch (r_destination record) else mret true) f w with
  | Done ok w => Done (inr ok) w | Stop c w => Stop c w end.
Proof.
  intros E Ec. unfold load_step. rewrite E. unfold mbind, M_bind, defined, mret, M_ret. rewrite Ec. cbn. by destruct execute.
Qed.
Lemma load_step_long reader record reader' : dsp_container_next reader = Some (Some (record, reader')) ->
  r_command record <> DSP_CONTAINER_BRANCH -> DSP_HW_BOOT_TRANSFER_WORDS < r_words record ->
  load_step image execute reader f w = Done (inr false) w.
Proof.
  intros E Ec Hw. unfold load_step. rewrite E. unfold mbind, M_bind, defined, mret, M_ret.
  destruct (Z.eqb_spec (r_command record) DSP_CONTAINER_BRANCH); [done|]. by destruct (Z.ltb_spec DSP_HW_BOOT_TRANSFER_WORDS (r_words record)); [|lia].
Qed.
Lemma load_step_block reader record reader' payload : dsp_container_next reader = Some (Some (record, reader')) ->
  r_command record <> DSP_CONTAINER_BRANCH -> r_words record <= DSP_HW_BOOT_TRANSFER_WORDS ->
  record_payload image record = Some payload ->
  load_step image execute reader f w =
  match load_words (r_command record) (r_destination record) payload f w with
  | Done ok w => Done (if ok : bool then inl reader' else inr false) w | Stop c w => Stop c w end.
Proof.
  intros E Ec Hw Ep. unfold load_step. rewrite E. unfold mbind, M_bind, defined, mret, M_ret. rewrite Ep.
  destruct (Z.eqb_spec (r_command record) DSP_CONTAINER_BRANCH); [done|]. destruct (Z.ltb_spec DSP_HW_BOOT_TRANSFER_WORDS (r_words record)); [lia|].
  by destruct (load_words _ _ _ f w) as [[]|].
Qed.
End Step.

(** The loop of the loader sends what the parse found. *)
Lemma load_loop {D A} `{!Device D} `{B : Board} execute f n k offset (w : world D A) :
  (offset <= length image)%nat -> (length image - offset < n)%nat -> (length image - offset < k)%nat ->
  loop k (load_step image execute) (reader_at offset) f w =
  load_blocks execute (fst (parse n (drop offset image))) (snd (parse n (drop offset image))) f w.
Proof.
  revert k offset w. induction n as [|n IH]; intros k offset w Ho Hn Hk; [lia|]. destruct k as [|k]; [lia|].
  pose proof (next_spec offset Ho) as Hnext. assert (length (drop offset image) = (length image - offset)%nat) as Hl by apply length_drop.
  unfold next_of in Hnext. cbn [loop].
  assert (dsp_container_next (reader_at offset) = Some None -> parse (S n) (drop offset image) = ([], None) ->
    match load_step image execute (reader_at offset) f w with
    | Done (inl x') w' => loop k (load_step image execute) x' f w' | Done (inr r) w' => Done r w' | Stop c w' => Stop c w' end =
    load_blocks execute (fst (parse (S n) (drop offset image))) (snd (parse (S n) (drop offset image))) f w) as Hnone.
  { intros E1 E2. rewrite E2. by rewrite load_step_none. }
  destruct (drop offset image) as [|c0 [|c1 [|d0 [|d1 bytes]]]] eqn:E; try by apply Hnone. clear Hnone. cbn [parse]. cbv zeta in *.
  destruct (Z.eqb_spec (word c0 c1) DSP_CONTAINER_BRANCH) as [Eb|Eb].
  { case_bool_decide; [|by rewrite load_step_none]. erewrite load_step_branch by (done || (rewrite Hnext; done)).
    cbn [fst snd load_blocks r_destination]. by destruct ((if execute then dsp_hw_branch (word d0 d1) else mret true) f w). }
  destruct (_ && _); [by rewrite load_step_none|]. destruct bytes as [|w0 [|w1 bytes]]; try by rewrite load_step_none.
  destruct (_ <? word d0 d1 + word w0 w1); [by rewrite load_step_none|].
  destruct (Z.ltb_spec (Z.of_nat (length bytes)) (word w0 w1 * 2)); [by rewrite load_step_none|].
  destruct (Z.ltb_spec DSP_HW_BOOT_TRANSFER_WORDS (word w0 w1)); [by erewrite load_step_long|].
  assert (0 <= word w0 w1) as Hw.
  { assert (bytes_ok (drop offset image)) as Hb by by apply Forall_drop. rewrite E in Hb.
    pose proof (Forall_lookup_1 _ _ 4%nat w0 Hb eq_refl). pose proof (Forall_lookup_1 _ _ 5%nat w1 Hb eq_refl).
    by apply word_spec. }
  assert (drop (offset + 6) image = bytes) as E6 by (rewrite <- drop_drop, E; done).
  assert (record_payload image (ContainerRecord (word c0 c1) (word d0 d1) (word w0 w1) (Z.of_nat offset + 6)) =
    Some (words_of (take (Z.to_nat (word w0 w1 * 2)) bytes))) as Hpay.
  { pose proof (payload_from (offset + 6) 0 (Z.to_nat (word w0 w1))) as Hp. rewrite Nat.mul_0_r, Nat.add_0_r, E6 in Hp.
    unfold record_payload. cbn [r_data r_words]. replace (Z.of_nat offset + 6) with (Z.of_nat (offset + 6)) by lia.
    rewrite Z2Nat.id in Hp by lia. change (Z.of_nat 0) with 0 in Hp. rewrite Hp by lia. do 3 f_equal. lia. }
  erewrite load_step_block by done. cbn [r_command r_destination].
  replace (ContainerReader image (Z.of_nat offset + (6 + word w0 w1 * 2)) false) with (reader_at (offset + 6 + Z.to_nat (word w0 w1 * 2)))
    by (unfold reader_at; f_equal; lia).
  specialize (IH k (offset + 6 + Z.to_nat (word w0 w1 * 2))%nat). rewrite <- drop_drop, E6 in IH. simpl in Hl.
  destruct (parse n (drop (Z.to_nat (word w0 w1 * 2)) bytes)) as [blocks branch]. cbn [fst snd load_blocks] in *.
  unfold mbind, M_bind. destruct (load_words _ _ _ f w) as [[] w'|]; [|done|done]. apply IH; lia.
Qed.
End Reader.

(** C33. Whatever the bytes of a container image are, the loader never reads outside of the image
    and is done after fewer iterations than the image has bytes.  It sends the blocks that the image
    begins with, of those that fit its buffer and the DSP's memory, in the image's order, and stops at
    the first one that the DSP does not take.  If the image is such blocks and then exactly a branch,
    it sends all of them and then, when it is asked to execute it, the branch.  Every other image
    is refused, after the blocks before its first bad record were sent: what is left of the image
    there does not begin with a block that fits, and is not a branch. *)
Theorem container_loaded {D A} `{!Device D} `{B : Board} (image : list Z) (execute_branch : bool) (f : nat) (w : world D A) :
  bytes_ok image -> (length image < f)%nat ->
  exists blocks branch,
    Forall block_fits blocks /\
    match branch with
    | Some destination => is_u16 destination /\ image = container_bytes blocks destination
    | None => (exists rest, image = mjoin (map block_bytes blocks) ++ rest /\ bad_record rest) /\
        forall blocks' destination, Forall block_fits blocks' -> is_u16 destination -> image <> container_bytes blocks' destination
    end /\
    dsp_hw_load image execute_branch f w = load_blocks execute_branch blocks branch f w.
Proof.
  intros Hb Hf. pose proof (load_loop image Hb execute_branch f (S (length image)) f 0 w) as Hload. rewrite drop_0 in Hload.
  destruct (parse (S (length image)) image) as [blocks branch] eqn:E. destruct (parse_sound _ _ _ _ Hb (Nat.lt_succ_diag_r _) E) as [Hfit Hbr].
  exists blocks, branch. split; [done|]. split; [|apply Hload; lia].
  destruct branch as [d|]; [done|]. split; [done|]. intros blocks' d Hfit' Hd ->.
  rewrite parse_complete in E; [done|done|done|apply length_container].
Qed.
Lemma container_loaded_witness : let image := [0; 0; 0; 1; 1; 0; 0x34; 0x12; 2; 0; 0; 1] in
  exists blocks branch,
    Forall block_fits blocks /\
    match branch with
    | Some destination => is_u16 destination /\ image = container_bytes blocks destination
    | None => (exists rest, image = mjoin (map block_bytes blocks) ++ rest /\ bad_record rest) /\
        forall blocks' destination, Forall block_fits blocks' -> is_u16 destination -> image <> container_bytes blocks' destination
    end /\
    @dsp_hw_load unit unit no_device (plain_board PMB8876) image true 20%nat (world_of_mem ∅) =
    @load_blocks unit unit no_device (plain_board PMB8876) true blocks branch 20%nat (world_of_mem ∅).
Proof.
  cbv zeta. apply (@container_loaded unit unit no_device (plain_board PMB8876)); [bytes_tac|simpl; lia].
Defined.
