(* ===== verification/GsmBoard.v ===== *)
(** * The board of the GSM receiver ([unit/dsp/hle/gsm-l1/board/siemens-x85.c])

    What touches the hardware: the clocks, the power of the transceiver, the DAC of the
    frequency correction, and the calibration, which five blocks of the phone's EEPROM hold.
    [GsmCalib] and [GsmCorrections] have the arithmetic. *)
From S2P Require Import Prelude Machine Board Regs Clock Stopwatch Wdt Usart Smbus Eeprom TestLib GsmRegs GsmChannel GsmTrx GsmCalib GsmCorrections.
Import Regs.Pmb8876.

Definition CGU_LOCK_TIMEOUT_MS : Z := 20.
Definition CGU_TRANSITION_TIMEOUT_MS : Z := 20.
Definition SYSTEM_FREQUENCY_HZ : Z := 52000000.
Definition CPU_FREQUENCY_HZ : Z := 104000000.
Definition CGU_CPU_EBU_CLOCK_MASK : Z := CGU_CON2_EBU_CLKSEL .| CGU_CON2_CPU_DIV .| CGU_CON2_CPU_DIV_EN.
Definition RF_POWER_SETTLE_US : Z := 1000.
Definition AFC_STARTUP_VALUE : Z := 0x4800.
Definition AFC_CONFIGURATION_FORMAT : Z := 1.
Definition AGC_CONFIGURATION_FORMAT : Z := 1.
Definition AGC_EELITE_BLOCK : Z := 55.
Definition AGC_EELITE_VERSION : Z := 16.
Definition AGC_CHANNEL_EELITE_BLOCK : Z := 56.
Definition AGC_CHANNEL_EELITE_VERSION : Z := 16.
Definition AGC_CHANNEL_EELITE_SIZE : Z := 648.
Definition AGC_CHANNEL_BAND_SIZE : Z := 156.
Definition AGC_GAIN_EELITE_BLOCK : Z := 58.
Definition AGC_GAIN_EELITE_VERSION : Z := 16.
Definition AGC_GAIN_ROW_SIZE : Z := 64.
Definition AGC_GAIN_ROW_COUNT : Z := 11.
Definition AGC_GAIN_NOMINAL_ROW : Z := 4.
Definition AGC_THRESHOLD_EELITE_BLOCK : Z := 285.
Definition AGC_THRESHOLD_EELITE_VERSION : Z := 16.
Definition AGC_MONITOR_REFERENCE : Z := 800.
Definition AFC_EELITE_BLOCK : Z := 306.
Definition AFC_EELITE_VERSION : Z := 1.
(** [sizeof] of the packed structures of the blocks. *)
Definition SIZEOF_AGC_EELITE_DATA : Z := 24 + 4 * 8.
Definition SIZEOF_AGC_GAIN_EELITE_DATA : Z := 12 + AGC_GAIN_ROW_COUNT * AGC_GAIN_ROW_SIZE + 4.
Definition SIZEOF_AGC_THRESHOLD_EELITE_DATA : Z := 16 + 4 * 4 + 4 * 4 + 40.
Definition SIZEOF_AFC_EELITE_DATA : Z := 24 + 5 * 4 + 176.
Definition AFC_POINT_COUNT : Z := 6.

(** [static struct receiver_calibration calibration] and [static int32_t frequency_correction_hz]. *)
Record board_state := BoardState { bs_calibration : receiver_calibration; frequency_correction_hz : Z }.
Definition zero_band : band_calibration := BandCalibration 0 [0; 0; 0] 0 0 0 0.
Definition zero_calibration : receiver_calibration :=
  Calibration (replicate 6 (AfcPoint 0 0)) 0 (replicate 4 zero_band) (replicate 46 0) (replicate 3 (replicate 972 0)).
Definition board_zero : board_state := BoardState zero_calibration 0.

Definition set_afc v (c : receiver_calibration) := Calibration v (rx_power_offset c) (bands c) (gain_values_x8 c) (channel_corrections c).
Definition set_rx_power_offset v (c : receiver_calibration) := Calibration (afc c) v (bands c) (gain_values_x8 c) (channel_corrections c).
Definition set_bands v (c : receiver_calibration) := Calibration (afc c) (rx_power_offset c) v (gain_values_x8 c) (channel_corrections c).
Definition set_gain_values_x8 v (c : receiver_calibration) := Calibration (afc c) (rx_power_offset c) (bands c) v (channel_corrections c).
Definition set_channel_corrections v (c : receiver_calibration) := Calibration (afc c) (rx_power_offset c) (bands c) (gain_values_x8 c) v.

(** ** What the blocks hold: the fields of the structures, at their offsets *)
Section Data.
Context (data : list Z).
Definition data_u8 (offset : Z) : option Z := elem data offset.
Definition data_u16 (offset : Z) : option Z := low ← elem data offset; high ← elem data (offset + 1); Some (low .| (high .<< 8)).
Definition data_i16 (offset : Z) : option Z := i16 <$> data_u16 offset.

(** A block's loader: [inr] refuses the contents. *)
Definition load_agc_data (c : receiver_calibration) : option (receiver_calibration + unit) :=
  format ← data_u16 0;
  if format !=? AGC_CONFIGURATION_FORMAT then Some (inr tt)
  else
    range_count ← data_u16 14;
    if range_count !=? AGC_RANGE_COUNT then Some (inr tt)
    else
      bands ← mapM (fun '(band, b) =>
        range_offsets ← mapM (fun range => data_i16 (24 + band * 8 + range * 2)) (seqZ 0 AGC_RANGE_COUNT);
        band_offset ← data_i16 (24 + band * 8 + 6);
        Some (BandCalibration band_offset range_offsets (range0_enter_threshold b) (range0_leave_threshold b)
                (range2_leave_threshold b) (range2_enter_threshold b))) (zip (seqZ 0 4) (bands c));
      Some (inl (set_bands bands c)).

Definition channel_record_at (offset : Z) : option agc_channel_record :=
  point_count ← data_u16 offset;
  channels ← mapM (fun i => data_u16 (offset + 4 + i * 2)) (seqZ 0 AGC_CHANNEL_POINT_COUNT_MAX);
  corrections ← mapM (fun i => data_i16 (offset + 28 + i * 2)) (seqZ 0 AGC_CHANNEL_POINT_COUNT_MAX);
  Some (ChannelRecord point_count channels corrections).
(** The records in order; [inr] is the band and the range of one that is refused. *)
Fixpoint load_channel_records (todo : list (gsm_band * Z)) (table : list (list Z)) : option (list (list Z) * option (gsm_band * Z)) :=
  match todo with
  | [] => Some (table, None)
  | (band, range) :: todo =>
      record ← channel_record_at (band_number band * AGC_CHANNEL_BAND_SIZE + 24 + range * 52);
      loaded ← load_agc_channel_record band range record table;
      match loaded with
      | Some table => load_channel_records todo table
      | None => Some (table, Some (band, range))
      end
  end.
Definition channel_records : list (gsm_band * Z) :=
  band ← gsm_bands; range ← seqZ 0 AGC_RANGE_COUNT; [(band, range)].

Definition load_agc_gain_data (c : receiver_calibration) : option (receiver_calibration + unit) :=
  format ← data_u16 0;
  if format !=? AGC_CONFIGURATION_FORMAT then Some (inr tt)
  else
    values ← mapM (fun step => v ← data_u8 (12 + AGC_GAIN_NOMINAL_ROW * AGC_GAIN_ROW_SIZE + step);
                               Some (i16 (step * MON_RAW_VALUES_PER_DB + i8 v))) (seqZ 0 GSM_TRX_GAIN_STEP_COUNT);
    Some (inl (set_gain_values_x8 values c)).

Definition load_agc_threshold_data (c : receiver_calibration) : option (receiver_calibration + unit) :=
  format ← data_u16 0;
  if format !=? AGC_CONFIGURATION_FORMAT then Some (inr tt)
  else
    range_count ← data_u16 12;
    if range_count !=? AGC_RANGE_COUNT then Some (inr tt)
    else
      monitor_offset ← data_u16 10;
      if monitor_offset <? AGC_MONITOR_REFERENCE then Some (inr tt)
      else
        bands ← mapM (fun '(band, b) =>
          range0_enter ← data_i16 (16 + band * 4); range0_leave ← data_i16 (16 + band * 4 + 2);
          range2_enter ← data_i16 (32 + band * 4); range2_leave ← data_i16 (32 + band * 4 + 2);
          Some (BandCalibration (band_offset b) (range_offsets b) range0_enter range0_leave range2_enter range2_leave))
          (zip (seqZ 0 4) (bands c));
        Some (inl (set_bands bands (set_rx_power_offset (i16 (monitor_offset - AGC_MONITOR_REFERENCE)) c))).

(** Why the curve is refused: at a point, its frequency or its value. *)
Inductive afc_error := AfcFormat | AfcFrequency (index : Z) | AfcValue (index : Z).
Fixpoint check_afc_points (index : Z) (previous : afc_calibration_point) (points : list afc_calibration_point) : option afc_error :=
  match points with
  | [] => None
  | point :: points =>
      if frequency_div64 point <=? frequency_div64 previous then Some (AfcFrequency index)
      else if afc_value point <=? afc_value previous then Some (AfcValue index)
      else check_afc_points (index + 1) point points
  end.
Definition load_afc_data (c : receiver_calibration) : option (receiver_calibration + afc_error) :=
  format ← data_u16 0;
  if format !=? AFC_CONFIGURATION_FORMAT then Some (inr AfcFormat)
  else
    point_count ← data_u16 18;
    if point_count !=? AFC_POINT_COUNT then Some (inr AfcFormat)
    else
      first_frequency ← data_i16 22;
      remaining ← mapM (fun i => value ← data_u16 (24 + i * 4); frequency ← data_i16 (24 + i * 4 + 2);
                                 Some (AfcPoint value frequency)) (seqZ 0 (AFC_POINT_COUNT - 1));
      let first := AfcPoint 0 first_frequency in
      match check_afc_points 1 first remaining with
      | Some e => Some (inr e)
      | None => Some (inl (set_afc (first :: remaining) c))
      end.
End Data.

Section Code.
Context {D A : Type} `{!Device D} `{B : Board} `{Hw : !I2cHw D A} `{!Part A board_state}.
#[local] Abbreviation M := (M D A).
Context (printf : message -> M unit).

(** *** Clocks and power *)
(** [reg |= bits] and [reg = (reg & ~mask) | bits]. *)
Definition set_bits (reg bits : Z) : M unit := v ← rd32 reg; wr32 reg (v .| bits).
Definition change_bits (reg mask bits : Z) : M unit := v ← rd32 reg; wr32 reg ((v .& not32 mask) .| bits).
Definition wait_for_flag (reg flag timeout_ms : Z) : M bool :=
  start ← stopwatch_get;
  poll (v ← rd32 reg;
        if (v .& flag) ==? 0 then elapsed ← stopwatch_elapsed_ms start; mret (timeout_ms <=? elapsed)
        else mret true) wdt_serve;;
  v ← rd32 reg;
  mret ((v .& flag) !=? 0).
Definition configure_system_clocks : M bool :=
  wr32 CGU_OSC (3 .<< CGU_OSC_NDIV_SHIFT);;
  wr32 CGU_CON0 ((0x0B .<< CGU_CON0_PHASE1_CONFIG_SHIFT) .| (0x08 .<< CGU_CON0_PHASE2_CONFIG_SHIFT) .|
    (0x20 .<< CGU_CON0_PHASE3_CONFIG_SHIFT) .| (0x11 .<< CGU_CON0_PHASE4_CONFIG_SHIFT));;
  set_bits CGU_OSC CGU_OSC_PLL_POWER_UP;;
  locked ← wait_for_flag CGU_STAT CGU_STAT_LOCK CGU_LOCK_TIMEOUT_MS;
  if negb locked then mret false
  else
    set_bits CGU_OSC CGU_OSC_PLL_BYPASS_N;;
    stopwatch_usleep_wd 1000;;
    wr32 (USART_CLC USART0) (2 .<< MOD_CLC_RMC_SHIFT);;
    wr32 CGU_CON1 CGU_CON1_FPI1_CLKSEL_PLL_DIV_2;;
    set_bits CGU_CON1 CGU_CON1_FSYS_CLKSEL_PLL;;
    set_bits CGU_CON1 CGU_CON1_AHB_CLKSEL_PLL;;
    wr32 CGU_CON2 CGU_CON2_EBU_CLKSEL_AHB;;
    set_bits CGU_CON2 CGU_CON2_AFC32K_EN;;
    set_bits CGU_CON2 CGU_CON2_CLK48M_CLKSEL_DISABLE;;
    wr32 CGU_CON3 CGU_CON3_AHB_PER_CLKSEL_PLL_DIV_2;;
    set_bits CGU_CON3 CGU_CON3_MMCI_CLKSEL_DISABLE;;
    set_bits CGU_CON3 CGU_CON3_DMA_CLK_DISABLE;;
    set_bits CGU_OSC (CGU_OSC_PHASE2_POWER_UP .| CGU_OSC_PHASE2_BYPASS_N);;
    con2 ← rd32 CGU_CON2; wr32 CGU_CON2 (con2 .& not32 CGU_CPU_EBU_CLOCK_MASK);;
    set_bits CGU_CON2 CGU_CON2_EBU_CLKSEL_PLL;;
    set_bits CGU_CON2 ((1 .<< CGU_CON2_CPU_DIV_SHIFT) .| CGU_CON2_CPU_DIV_EN);;
    set_bits SCU_EBUCLC2 (1 .<< SCU_EBUCLC2_FLAG1_SHIFT);;
    ready ← wait_for_flag SCU_EBUCLC2 SCU_EBUCLC2_READY CGU_TRANSITION_TIMEOUT_MS;
    if negb ready then mret false
    else
      change_bits CGU_CON1 CGU_CON1_AHB_CLKSEL CGU_CON1_AHB_CLKSEL_PHASE2;;
      set_bits SCU_EBUCLC1 (1 .<< SCU_EBUCLC1_FLAG1_SHIFT);;
      ready ← wait_for_flag SCU_EBUCLC1 SCU_EBUCLC1_READY CGU_TRANSITION_TIMEOUT_MS;
      if negb ready then mret false
      else
        con ← rd32 EBU_CON; wr32 EBU_CON (con .& not32 EBU_CON_SDCMSEL);;
        wr32 SCU_EBUCLC1 0;;
        set_bits CGU_OSC (CGU_OSC_PHASE1_POWER_UP .| CGU_OSC_PHASE1_BYPASS_N);;
        change_bits CGU_CON2 CGU_CON2_DSP_CLKSEL CGU_CON2_DSP_CLKSEL_PHASE1;;
        change_bits CGU_CON2 CGU_CON2_MS_CLKSEL CGU_CON2_MS_CLKSEL_PLL;;
        sys ← cpu_get_sys_freq;
        if sys !=? SYSTEM_FREQUENCY_HZ then mret false
        else cpu ← cpu_get_freq; mret (cpu ==? CPU_FREQUENCY_HZ).
Definition configure_rf_gpio : M unit :=
  wr32 (GPIO_PIN GPIO_RF_FE_CTR_GSM) GPIO_OS_ALT0;;
  wr32 (GPIO_PIN GPIO_RF_FE_CTR_DCS) GPIO_OS_ALT0;;
  wr32 (GPIO_PIN GPIO_RF_BAND_SW) GPIO_OS_ALT0;;
  wr32 (GPIO_PIN GPIO_RF_STR0) GPIO_OS_ALT0;;
  wr32 (GPIO_PIN GPIO_PM_RF2_EN) (GPIO_PS_MANUAL .| GPIO_DATA_HIGH .| GPIO_DIR_OUT).
Definition enable_transceiver_power_rails : M unit :=
  i2c_init;;
  i2c_smbus_write_byte PASIC_I2C_ADDR PASIC_RF_VOLTAGE
    (PASIC_RF_VOLTAGE_VRF1_LEVEL_2850MV .| PASIC_RF_VOLTAGE_VRF2_LEVEL_2850MV);;
  i2c_smbus_write_byte PASIC_I2C_ADDR PASIC_RF_ENABLE (PASIC_RF_ENABLE_VRF1_EN .| PASIC_RF_ENABLE_VRF2_EN);;
  stopwatch_usleep_wd RF_POWER_SETTLE_US.
Definition enable_afc_reference : M unit :=
  wr32 AFC_CLC (1 .<< MOD_CLC_RMC_SHIFT);;
  wr32 AFC_AFCVAL AFC_STARTUP_VALUE;;
  stopwatch_usleep_wd RF_POWER_SETTLE_US.
Definition enable_baseband_analog_reference : M unit :=
  wr32 ADC_CLC ((1 .<< MOD_CLC_RMC_SHIFT) .| MOD_CLC_EDIS);;
  wr32 ADC_ANA_CTRL ADC_ANA_CTRL_BG_PWUP;;
  wr32 ADC_CLK ((4 .<< ADC_CLK_K_SHIFT) .| (13 .<< ADC_CLK_L_SHIFT));;
  stopwatch_usleep_wd 150.

(** *** The calibration *)
Definition result_number (result : eeprom_result) : Z :=
  match result with
  | EEPROM_RESULT_OK => 0 | EEPROM_RESULT_FLASH_NOT_MAPPED => 1 | EEPROM_RESULT_PARTITION_NOT_FOUND => 2
  | EEPROM_RESULT_BLOCK_NOT_FOUND => 3 | EEPROM_RESULT_INVALID => 4
  end.
(** The bytes of a block that was found; the flash does not change while they are used. *)
Definition block_byte (block : eeprom_block) (i : Z) : M Z :=
  match b_data block with
  | Some (InFlash offset) => ld8 (FLASH_ADDRESS_MIN + offset + i)
  | Some Inline => defined (elem (b_inline block) i)
  | None => stop (OutOfBounds 0)
  end.
Definition block_bytes (block : eeprom_block) : M (list Z) :=
  foldM (fun bytes i => b ← block_byte block i; mret (bytes ++ [u8 b])) [] (seqZ 0 (b_size block)).
(** The bytes of the block, if it is there with the version and the size. *)
Definition load_eelite_block (block_id version size : Z) : M (option (list Z)) :=
  '(result, block) ← eeprom_find_block EEPROM_PARTITION_EELITE block_id (Some (EepromBlock None 0 0 (replicate 512 0)));
  match result, block with
  | EEPROM_RESULT_OK, Some block =>
      if (b_version block !=? version) || (b_size block !=? size) then
        printf ("# RF_CALIBRATION,error=format,eelite_block=%lu,version=%u,size=%lu" +:+ NL,
                [PNum block_id; PNum (b_version block); PNum (b_size block)]);;
        mret None
      else bytes ← block_bytes block; mret (Some bytes)
  | _, _ =>
      printf ("# RF_CALIBRATION,error=read,eelite_block=%lu,result=%lu" +:+ NL, [PNum block_id; PNum (result_number result)]);;
      mret None
  end.
Definition get_calibration : M receiver_calibration := s ← get_part; mret (bs_calibration s).
Definition put_calibration (c : receiver_calibration) : M unit :=
  s ← get_part; put_part (BoardState c (frequency_correction_hz s)).
Definition data_format_error (block_id : Z) : M unit :=
  printf ("# RF_CALIBRATION,error=data_format,eelite_block=%u" +:+ NL, [PNum block_id]).
(** The loaders of the blocks 55, 58, 285 and 306: they differ in what they load and report. *)
Definition load_block {E} (block_id version size : Z) (load : list Z -> receiver_calibration -> option (receiver_calibration + E))
    (report : E -> M unit) : M bool :=
  data ← load_eelite_block block_id version size;
  match data with
  | None => mret false
  | Some data =>
      c ← get_calibration;
      r ← defined (load data c);
      match r with inl c => put_calibration c;; mret true | inr e => report e;; mret false end
  end.
Definition load_agc_calibration : M bool :=
  load_block AGC_EELITE_BLOCK AGC_EELITE_VERSION SIZEOF_AGC_EELITE_DATA load_agc_data
    (fun _ => data_format_error AGC_EELITE_BLOCK).
Definition load_agc_channel_calibration : M bool :=
  data ← load_eelite_block AGC_CHANNEL_EELITE_BLOCK AGC_CHANNEL_EELITE_VERSION AGC_CHANNEL_EELITE_SIZE;
  match data with
  | None => mret false
  | Some data =>
      c ← get_calibration;
      '(table, refused) ← defined (load_channel_records data channel_records (channel_corrections c));
      put_calibration (set_channel_corrections table c);;
      match refused with
      | None => mret true
      | Some (band, range) =>
          printf ("# RF_CALIBRATION,error=data_format,eelite_block=%u,band=%lu,range=%lu" +:+ NL,
                  [PNum AGC_CHANNEL_EELITE_BLOCK; PNum (band_number band); PNum range]);;
          mret false
      end
  end.
Definition load_agc_gain_calibration : M bool :=
  load_block AGC_GAIN_EELITE_BLOCK AGC_GAIN_EELITE_VERSION SIZEOF_AGC_GAIN_EELITE_DATA load_agc_gain_data
    (fun _ => data_format_error AGC_GAIN_EELITE_BLOCK).
Definition load_agc_threshold_calibration : M bool :=
  load_block AGC_THRESHOLD_EELITE_BLOCK AGC_THRESHOLD_EELITE_VERSION SIZEOF_AGC_THRESHOLD_EELITE_DATA load_agc_threshold_data
    (fun _ => data_format_error AGC_THRESHOLD_EELITE_BLOCK).
Definition load_afc_calibration : M bool :=
  load_block AFC_EELITE_BLOCK AFC_EELITE_VERSION SIZEOF_AFC_EELITE_DATA load_afc_data (fun e =>
    match e with
    | AfcFormat => data_format_error AFC_EELITE_BLOCK
    | AfcFrequency i =>
        printf ("# RF_CALIBRATION,error=afc_frequency,eelite_block=%u,index=%lu" +:+ NL, [PNum AFC_EELITE_BLOCK; PNum i])
    | AfcValue i =>
        printf ("# RF_CALIBRATION,error=afc_value,eelite_block=%u,index=%lu" +:+ NL, [PNum AFC_EELITE_BLOCK; PNum i])
    end).
(** [if (!step()) return false;]. *)
Definition and_then (step rest : M bool) : M bool := ok ← step; if ok : bool then rest else mret false.
Definition load_receiver_calibration : M bool :=
  and_then load_agc_calibration
  (and_then load_agc_channel_calibration
  (and_then load_agc_gain_calibration
  (and_then load_agc_threshold_calibration
  (and_then load_afc_calibration
  (printf ("# RF_CALIBRATION,source=EELITE,blocks=%u,%u,%u,%u,%u" +:+ NL,
           [PNum AGC_EELITE_BLOCK; PNum AGC_CHANNEL_EELITE_BLOCK; PNum AGC_GAIN_EELITE_BLOCK;
            PNum AGC_THRESHOLD_EELITE_BLOCK; PNum AFC_EELITE_BLOCK]);;
   mret true))))).

(** *** The interface [gsm.h] of the board *)
Definition gsm_board_init : M bool :=
  configure_rf_gpio;;
  and_then load_receiver_calibration
  (and_then configure_system_clocks
  (wr32 DSP_CLC (1 .<< MOD_CLC_RMC_SHIFT);;
   wr32 TPU_CLC (1 .<< MOD_CLC_RMC_SHIFT);;
   enable_baseband_analog_reference;;
   enable_afc_reference;;
   mret true)).
Definition gsm_board_enable_transceiver_power : M unit := enable_transceiver_power_rails.
Definition gsm_board_set_frequency_correction_hz (frequency_hz : Z) : M unit :=
  c ← get_calibration;
  frequency_hz ← defined (clamp_frequency c frequency_hz);
  put_part (BoardState c frequency_hz);;
  value ← defined (frequency_hz_to_afc_value c frequency_hz);
  wr32 AFC_AFCVAL (value .| AFC_AFCVAL_ENAFC).
Definition gsm_board_get_frequency_correction_hz : M Z := s ← get_part; mret (frequency_correction_hz s).
Definition gsm_board_get_afc_value : M Z := v ← rd32 AFC_AFCVAL; mret (v .& AFC_AFCVAL_AFC).
End Code.
