(* ===== verification/GsmLoad.v ===== *)
(** * What the calibration's loaders establish ([siemens-x85.c])

    Whatever the EEPROM holds, the loaders stay inside the blocks and inside the calibration's
    tables, and a calibration that they accept is one that the receiver's arithmetic
    ([GsmCalib]) is total on. *)
From S2P Require Import Prelude Machine Board Regs Eeprom TestLib GsmRegs GsmChannel GsmTrx GsmCalib GsmCorrections GsmBoard.

(** ** The fields of a block *)
Section Data.
Context (data : list Z) (Hdata : bytes_ok data).
Definition covers (n : Z) : Prop := n <= Z.of_nat (length data).
Lemma data_u16_total offset : 0 <= offset -> covers (offset + 2) -> exists v, data_u16 data offset = Some v /\ 0 <= v < 0x10000.
Proof.
  intros Ho Hc. unfold covers in Hc. unfold data_u16.
  destruct (elem_some data offset) as (low & -> & Hl); [lia|]. destruct (elem_some data (offset + 1)) as (high & -> & Hh); [lia|].
  cbn [mbind option_bind]. eexists. split; [done|]. rewrite Forall_forall in Hdata. pose proof (Hdata _ Hl). pose proof (Hdata _ Hh).
  unfold is_byte in *. rewrite (lor_shiftl_add low high 8) by (change (2 ^ 8) with 256; lia). change (2 ^ 8) with 256. lia.
Qed.
Lemma data_i16_total offset : 0 <= offset -> covers (offset + 2) -> exists v, data_i16 data offset = Some v.
Proof. intros Ho Hc. unfold data_i16. destruct (data_u16_total offset Ho Hc) as (v & -> & _). by eexists. Qed.
Lemma data_u8_total offset : 0 <= offset -> covers (offset + 1) -> exists v, data_u8 data offset = Some v.
Proof. intros Ho Hc. unfold covers in Hc. unfold data_u8. destruct (elem_some data offset) as (v & -> & _); [lia|]. by eexists. Qed.

(** A [mapM] over the places of an array. *)
Lemma places_total {Y} (f : Z -> option Y) (P : Y -> Prop) n : 0 <= n -> (forall i, 0 <= i < n -> exists y, f i = Some y /\ P y) ->
  exists k, mapM f (seqZ 0 n) = Some k /\ Forall P k /\ Z.of_nat (length k) = n.
Proof.
  intros Hn Hf. destruct (mapM_total f P (seqZ 0 n)) as (k & E & HP & Hl).
  - apply Forall_forall. intros i Hi%elem_of_seqZ. apply Hf. lia.
  - exists k. split; [done|]. split; [done|]. rewrite Hl, length_seqZ. lia.
Qed.
(** A [mapM] over the bands. *)
Lemma bands_total (f : Z * band_calibration -> option band_calibration) (bs : list band_calibration) :
  length bs = 4%nat -> Forall (fun b => length (range_offsets b) = 3%nat) bs ->
  (forall band b, 0 <= band < 4 -> length (range_offsets b) = 3%nat -> exists b', f (band, b) = Some b' /\ length (range_offsets b') = 3%nat) ->
  exists k, mapM f (zip (seqZ 0 4) bs) = Some k /\ length k = 4%nat /\ Forall (fun b => length (range_offsets b) = 3%nat) k.
Proof.
  intros Hl Hb Hf. destruct (mapM_total f (fun b => length (range_offsets b) = 3%nat) (zip (seqZ 0 4) bs)) as (k & E & HP & Hk).
  - apply Forall_forall. intros [band b] Hin. apply Hf.
    + apply elem_of_zip_l in Hin. apply elem_of_seqZ in Hin. lia.
    + apply elem_of_zip_r in Hin. rewrite Forall_forall in Hb. by apply Hb.
  - exists k. split; [done|]. rewrite Hk, length_zip_with, Hl. by split.
Qed.

Lemma agc_data_ok c : calibration_ok c -> covers SIZEOF_AGC_EELITE_DATA ->
  exists r, load_agc_data data c = Some r /\ match r with inl c' => calibration_ok c' | inr _ => True end.
Proof.
  intros (Hb & Hoff & Hrest) Hc. unfold covers, SIZEOF_AGC_EELITE_DATA in Hc. unfold load_agc_data.
  destruct (data_u16_total 0) as (v & -> & _); [lia|unfold covers; lia|]. cbn [mbind option_bind].
  destruct (v !=? AGC_CONFIGURATION_FORMAT); [by exists (inr tt)|].
  destruct (data_u16_total 14) as (v' & -> & _); [lia|unfold covers; lia|]. cbn [mbind option_bind].
  destruct (v' !=? AGC_RANGE_COUNT); [by exists (inr tt)|].
  match goal with |- context [mapM ?g (zip _ _)] => destruct (bands_total g (bands c) Hb Hoff) as (k & E & Hk) end; [|rewrite E; eexists; split; [done|]; unfold calibration_ok in *; cbn; tauto].
  intros band b Hband _. cbv beta iota.
  match goal with |- context [mapM ?g (seqZ 0 AGC_RANGE_COUNT)] => destruct (places_total g (fun _ => True) AGC_RANGE_COUNT) as (k & -> & _ & Hk) end.
  - unfold AGC_RANGE_COUNT. lia.
  - intros i Hi. unfold AGC_RANGE_COUNT in Hi. destruct (data_i16_total (24 + band * 8 + i * 2)) as (y & ->); [lia|unfold covers; lia|]. by eexists.
  - cbn [mbind option_bind]. destruct (data_i16_total (24 + band * 8 + 6)) as (y & ->); [lia|unfold covers; lia|]. cbn [mbind option_bind].
    eexists. split; [done|]. unfold AGC_RANGE_COUNT in Hk. cbn [range_offsets]. lia.
Qed.
Lemma agc_threshold_data_ok c : calibration_ok c -> covers SIZEOF_AGC_THRESHOLD_EELITE_DATA ->
  exists r, load_agc_threshold_data data c = Some r /\ match r with inl c' => calibration_ok c' | inr _ => True end.
Proof.
  intros (Hb & Hoff & Hrest) Hc. unfold covers, SIZEOF_AGC_THRESHOLD_EELITE_DATA in Hc. unfold load_agc_threshold_data.
  destruct (data_u16_total 0) as (v & -> & _); [lia|unfold covers; lia|]. cbn [mbind option_bind].
  destruct (v !=? AGC_CONFIGURATION_FORMAT); [by exists (inr tt)|].
  destruct (data_u16_total 12) as (v' & -> & _); [lia|unfold covers; lia|]. cbn [mbind option_bind].
  destruct (v' !=? AGC_RANGE_COUNT); [by exists (inr tt)|].
  destruct (data_u16_total 10) as (m & -> & _); [lia|unfold covers; lia|]. cbn [mbind option_bind].
  destruct (m <? AGC_MONITOR_REFERENCE); [by exists (inr tt)|].
  match goal with |- context [mapM ?g (zip _ _)] => destruct (bands_total g (bands c) Hb Hoff) as (k & E & Hk) end; [|rewrite E; eexists; split; [done|]; unfold calibration_ok in *; cbn; tauto].
  intros band b Hband Hl. cbv beta iota.
  destruct (data_i16_total (16 + band * 4)) as (y1 & ->); [lia|unfold covers; lia|]. cbn [mbind option_bind].
  destruct (data_i16_total (16 + band * 4 + 2)) as (y2 & ->); [lia|unfold covers; lia|]. cbn [mbind option_bind].
  destruct (data_i16_total (32 + band * 4)) as (y3 & ->); [lia|unfold covers; lia|]. cbn [mbind option_bind].
  destruct (data_i16_total (32 + band * 4 + 2)) as (y4 & ->); [lia|unfold covers; lia|]. cbn [mbind option_bind]. by eexists.
Qed.
Lemma agc_gain_data_ok c : calibration_ok c -> covers SIZEOF_AGC_GAIN_EELITE_DATA ->
  exists r, load_agc_gain_data data c = Some r /\ match r with inl c' => calibration_ok c' | inr _ => True end.
Proof.
  intros (Hb & Hoff & Hgain & Hrest) Hc. unfold covers, SIZEOF_AGC_GAIN_EELITE_DATA, AGC_GAIN_ROW_COUNT, AGC_GAIN_ROW_SIZE in Hc. unfold load_agc_gain_data.
  destruct (data_u16_total 0) as (v & -> & _); [lia|unfold covers; lia|]. cbn [mbind option_bind].
  destruct (v !=? AGC_CONFIGURATION_FORMAT); [by exists (inr tt)|]. unfold AGC_GAIN_NOMINAL_ROW, AGC_GAIN_ROW_SIZE, GSM_TRX_GAIN_STEP_COUNT.
  match goal with |- context [mapM ?g (seqZ 0 46)] => destruct (places_total g (fun _ => True) 46) as (k & -> & _ & Hk) end; [lia| |].
  - intros i Hi. destruct (data_u8_total (12 + 4 * 64 + i)) as (y & ->); [lia|unfold covers; lia|]. by eexists.
  - eexists. split; [done|]. unfold calibration_ok. cbn. split; [done|]. split; [done|]. split; [lia|done].
Qed.
Lemma channel_records_ok todo table : Forall (fun '(band, range) => 0 <= band_number band < 4 /\ 0 <= range < 3) todo ->
  table_ok table -> covers AGC_CHANNEL_EELITE_SIZE ->
  exists table' refused, load_channel_records data todo table = Some (table', refused) /\ table_ok table'.
Proof.
  intros Htodo Ht Hc. unfold covers, AGC_CHANNEL_EELITE_SIZE in Hc. revert table Ht.
  induction Htodo as [|[band range] todo [Hb Hr] _ IH]; intros table Ht; [by exists table, None|]. cbn [load_channel_records].
  unfold channel_record_at, AGC_CHANNEL_BAND_SIZE, AGC_CHANNEL_POINT_COUNT_MAX. set (o := band_number band * 156 + 24 + range * 52).
  assert (0 <= o /\ o + 52 <= 648) as Ho by lia. destruct (data_u16_total o) as (n & -> & _); [lia|unfold covers; lia|]. cbn [mbind option_bind].
  destruct (places_total (fun i => data_u16 data (o + 4 + i * 2)) (fun _ => True) 12) as (cs & -> & _ & Hcs); [lia| |].
  { intros i Hi. destruct (data_u16_total (o + 4 + i * 2)) as (y & -> & _); [lia|unfold covers; lia|]. by eexists. }
  cbn [mbind option_bind].
  match goal with |- context [mapM ?g (seqZ 0 12)] => destruct (places_total g (fun _ => True) 12) as (vs & -> & _ & Hvs) end; [lia| |].
  { intros i Hi. cbv beta. destruct (data_i16_total (o + 28 + i * 2)) as (y & ->); [lia|unfold covers; lia|]. by eexists. }
  cbn [mbind option_bind].
  destruct (load_record_total band range (ChannelRecord n cs vs) table Hr Ht) as (r & -> & Hok); [simpl; lia|simpl; lia|]. cbn [mbind option_bind].
  destruct r as [table'|]; [by apply IH|by exists table, (Some (band, range))].
Qed.
(** The check of the curve is what the correction needs. *)
Lemma check_afc_rising index p points : check_afc_points index p points = None -> rising p points.
Proof.
  revert index p. induction points as [|q points IH]; intros index p; [done|]. cbn [check_afc_points rising].
  destruct (Z.leb_spec (frequency_div64 q) (frequency_div64 p)); [done|]. destruct (Z.leb_spec (afc_value q) (afc_value p)); [done|].
  intros H1. split; [done|]. split; [done|]. by apply (IH (index + 1)).
Qed.
Lemma afc_data_ok c : calibration_ok c -> covers SIZEOF_AFC_EELITE_DATA ->
  exists r, load_afc_data data c = Some r /\ match r with inl c' => calibration_ok c' /\ afc_ok (afc c') | inr _ => True end.
Proof.
  intros Hok Hc. unfold covers, SIZEOF_AFC_EELITE_DATA in Hc. unfold load_afc_data.
  destruct (data_u16_total 0) as (v & -> & _); [lia|unfold covers; lia|]. cbn [mbind option_bind].
  destruct (v !=? AFC_CONFIGURATION_FORMAT); [by exists (inr AfcFormat)|].
  destruct (data_u16_total 18) as (n & -> & _); [lia|unfold covers; lia|]. cbn [mbind option_bind].
  destruct (n !=? AFC_POINT_COUNT); [by exists (inr AfcFormat)|].
  destruct (data_i16_total 22) as (f & ->); [lia|unfold covers; lia|]. cbn [mbind option_bind]. unfold AFC_POINT_COUNT.
  match goal with |- context [mapM ?g (seqZ 0 (6 - 1))] => destruct (places_total g (fun p => 0 <= afc_value p < 0x10000) (6 - 1)) as (ps & -> & Hps & _) end; [lia| |].
  - intros i Hi. destruct (data_u16_total (24 + i * 4)) as (y & -> & Hy); [lia|unfold covers; lia|]. cbn [mbind option_bind].
    destruct (data_i16_total (24 + i * 4 + 2)) as (z & ->); [lia|unfold covers; lia|]. by eexists.
  - cbn [mbind option_bind]. cbv zeta. destruct (check_afc_points 1 (AfcPoint 0 f) ps) as [e|] eqn:E; [by exists (inr e)|].
    eexists. split; [done|]. split; [done|]. cbn [set_afc afc afc_ok]. split; [by eapply check_afc_rising|].
    constructor; [simpl; lia|done].
Qed.
End Data.

(** ** The loaders *)
Section Loaders.
Context {D A : Type} `{!Device D} `{!Part A board_state} (printf : message -> M D A unit).
(** Reporting returns and leaves the static variables alone. *)
Context (Hprintf : forall msg E Q f (w : world D A), (forall w', w_app w' = w_app w -> Q tt w') -> wp E (printf msg) Q f w).
Definition calibration_of (w : world D A) : receiver_calibration := bs_calibration (part (w_app w)).

Lemma flash_window_u32 a b size : is_u32 size -> is_u32 (flash_window a b size).
Proof.
  intros H. unfold flash_window. cbv zeta. repeat case_match; first [exact H | apply u32_range].
Qed.
Lemma wp_find_flash_size E Q f (w : world D A) : (forall size w', is_u32 size -> w_app w' = w_app w -> Q size w') -> wp E find_flash_size Q f w.
Proof.
  intros HQ. unfold find_flash_size. apply (wp_foldM _ _ (fun _ size w' => is_u32 size /\ w_app w' = w_app w)).
  - by split.
  - intros done cs todo size w' _ [Hs Ha]. wp_steps. split; [by apply flash_window_u32|exact Ha].
  - intros size w' [Hs Ha]. by apply HQ.
Qed.
(** A block that can be read. *)
Definition readable (b : eeprom_block) : Prop :=
  0 <= b_size b /\
  match b_data b with
  | Some (InFlash offset) => 0 <= offset
  | Some Inline => b_size b <= Z.of_nat (length (b_inline b))
  | None => False
  end.
Lemma wp_find_block E Q f (w : world D A) type id b : inline_ok b ->
  (forall result b' w', w_app w' = w_app w -> (result = EEPROM_RESULT_OK -> readable b') -> Q (result, Some b') w') ->
  (forall w', w_app w' = w_app w -> Q (EEPROM_RESULT_FLASH_NOT_MAPPED, Some b) w') ->
  wp E (eeprom_find_block type id (Some b)) Q f w.
Proof.
  intros Hb HQ HQ0. unfold eeprom_find_block. wp_step. apply wp_find_flash_size. intros size w' Hs Ha.
  destruct (size ==? 0); [wp_step; by apply HQ0|]. unfold wp.
  set (flash := FlashMap (fun o => mem_get (w_mem w') (FLASH_ADDRESS_MIN + o)) size).
  destruct (eeprom_find_block_ok flash type id b Hs Hb) as (result & b' & E1 & Hi & Hok). cbn [fm_byte fm_size flash] in E1.
  rewrite E1. apply HQ; [done|]. intros Er. destruct (Hok Er) as (_ & Hsize & Hdata). split; [done|].
  destruct (b_data b') as [[o|]|]; [by destruct Hdata|rewrite Hi; unfold EEPROM_BLOCK_INLINE_CAPACITY in Hdata; lia|done].
Qed.
Lemma wp_block_bytes E Q f (w : world D A) b : readable b ->
  (forall bytes, bytes_ok bytes -> Z.of_nat (length bytes) = b_size b -> Q bytes w) -> wp E (block_bytes b) Q f w.
Proof.
  intros [Hs Hd] HQ. unfold block_bytes.
  apply (wp_foldM _ _ (fun done bytes w' => w' = w /\ bytes_ok bytes /\ length bytes = length done)).
  - by split_and!.
  - intros done i todo bytes w' Hl (-> & Hb & Hn). destruct (seqZ_split _ _ _ _ Hl) as [-> Hi].
    assert (forall v, (fun bytes w' => w' = w /\ bytes_ok bytes /\ length bytes = length (done ++ [Z.of_nat (length done)])) (bytes ++ [u8 v]) w) as Hnext.
    { intros v. cbv beta. rewrite !length_app. split; [reflexivity|]. split; [|simpl; lia]. apply Forall_app. split; [exact Hb|].
      constructor; [apply u8_range|constructor]. }
    wp_step. unfold block_byte. destruct (b_data b) as [[o|]|]; [| |contradiction].
    + apply wp_ld8; [apply mem_valid_pos; unfold FLASH_ADDRESS_MIN; lia|]. wp_step. apply Hnext.
    + destruct (elem_some (b_inline b) (Z.of_nat (length done))) as (v & E1 & _); [lia|].
      apply (wp_defined _ _ v); [exact E1|]. wp_step. apply Hnext.
  - intros bytes w' (-> & Hb & Hn). rewrite length_seqZ in Hn. apply HQ; [done|lia].
Qed.
Lemma wp_load_eelite_block E Q f (w : world D A) id version size :
  (forall w', w_app w' = w_app w -> Q None w') ->
  (forall data w', w_app w' = w_app w -> bytes_ok data -> covers data size -> Q (Some data) w') ->
  wp E (load_eelite_block printf id version size) Q f w.
Proof.
  intros HQ0 HQ. unfold load_eelite_block. wp_step. apply wp_find_block; [done| |].
  - intros result b w' Ha Hr. destruct (decide (result = EEPROM_RESULT_OK)) as [->|Hne].
    + specialize (Hr eq_refl). destruct (_ || _) eqn:Ev.
      * wp_step. apply Hprintf. intros w'' Ha'. wp_step. apply HQ0. congruence.
      * apply orb_false_iff in Ev as [_ Es]. apply negb_false_iff, Z.eqb_eq in Es. wp_step. apply wp_block_bytes; [done|].
        intros bytes Hb Hl. wp_step. apply HQ; [done|done|unfold covers; lia].
    + destruct result; try done; (wp_step; apply Hprintf; intros w'' Ha'; wp_step; apply HQ0; congruence).
  - intros w' Ha. wp_step. apply Hprintf. intros w'' Ha'. wp_step. apply HQ0. congruence.
Qed.

(** A loader keeps the shape of the calibration; [P] is what it establishes when it succeeds. *)
Definition loads (P : receiver_calibration -> Prop) (m : M D A bool) : Prop :=
  forall E f w, calibration_ok (calibration_of w) ->
    wp E m (fun ok w' => calibration_ok (calibration_of w') /\ (ok = true -> P (calibration_of w'))) f w.
Lemma calibration_same w w' : w_app w' = w_app w -> calibration_of w' = calibration_of w.
Proof. unfold calibration_of. by intros ->. Qed.
Lemma load_block_loads {Err} P id version size (load : list Z -> receiver_calibration -> option (receiver_calibration + Err)) report :
  (forall e E Q f w, (forall w', w_app w' = w_app w -> Q tt w') -> wp E (report e) Q f w) ->
  (forall data c, bytes_ok data -> calibration_ok c -> covers data size ->
     exists r, load data c = Some r /\ match r with inl c' => calibration_ok c' /\ P c' | inr _ => True end) ->
  loads P (load_block printf id version size load report).
Proof.
  intros Hreport Hload E f w Hok. unfold load_block. wp_step. apply wp_load_eelite_block.
  - intros w' Ha. wp_step. by rewrite (calibration_same w w').
  - intros data w' Ha Hb Hc. unfold get_calibration, get_part, put_calibration, put_part. wp_steps.
    fold (calibration_of w'). rewrite (calibration_same w w' Ha).
    destruct (Hload data (calibration_of w) Hb Hok Hc) as (r & E1 & Hr). apply (wp_defined _ _ r); [exact E1|].
    destruct r as [c'|e].
    + wp_steps. unfold get_part, put_part. wp_steps. unfold calibration_of. cbn [set_app w_app]. rewrite part_set. by destruct Hr.
    + wp_step. apply Hreport. intros w'' Ha'. wp_step. by rewrite (calibration_same w w'') by congruence.
Qed.
Lemma loads_and_then P m rest : loads (fun _ => True) m -> loads P rest -> loads P (and_then m rest).
Proof.
  intros Hm Hr E f w Hok. unfold and_then. wp_step. eapply wp_mono; [by apply Hm|]. intros ok w' [Hok' _].
  destruct ok; [by apply Hr|]. by wp_step.
Qed.
Lemma channel_records_in_bounds : Forall (fun '(band, range) => 0 <= band_number band < 4 /\ 0 <= range < 3) channel_records.
Proof.
  let l := eval vm_compute in channel_records in change channel_records with l.
  repeat (apply Forall_cons; split; [simpl; lia|]). by apply Forall_nil.
Qed.
Lemma load_channel_calibration_loads : loads (fun _ => True) (load_agc_channel_calibration printf).
Proof.
  intros E f w Hok. unfold load_agc_channel_calibration. wp_step. apply wp_load_eelite_block.
  - intros w' Ha. wp_step. by rewrite (calibration_same w w').
  - intros data w' Ha Hb Hc. unfold get_calibration, get_part, put_calibration, put_part. wp_steps.
    fold (calibration_of w'). rewrite (calibration_same w w' Ha).
    assert (table_ok (channel_corrections (calibration_of w))) as Ht by (destruct Hok as (_ & _ & _ & Ht); exact Ht).
    destruct (channel_records_ok data Hb channel_records _ channel_records_in_bounds Ht Hc) as (table & refused & E1 & Ht').
    apply (wp_defined _ _ (table, refused)); [exact E1|]. unfold get_part, put_part. wp_steps.
    assert (forall w'', w_app w'' = set_part (BoardState (set_channel_corrections table (calibration_of w)) (frequency_correction_hz (part (w_app w')))) (w_app w') ->
      calibration_ok (calibration_of w'')) as Hdone.
    { intros w'' Ew. unfold calibration_of at 1. rewrite Ew, part_set. unfold calibration_ok in *. cbn. destruct Ht'. tauto. }
    destruct refused as [[band range]|].
    + wp_step. apply Hprintf. intros w'' Ha'. wp_step. split; [|done]. apply Hdone. by rewrite Ha'.
    + wp_step. split; [|done]. by apply Hdone.
Qed.
Lemma load_receiver_loads : loads (fun c => afc_ok (afc c)) (load_receiver_calibration printf).
Proof.
  unfold load_receiver_calibration, data_format_error.
  apply loads_and_then.
  { apply load_block_loads; [intros; by apply Hprintf|]. intros data c Hb Hok Hc.
    destruct (agc_data_ok data Hb c Hok Hc) as (r & E & Hr). exists r. split; [exact E|]. by destruct r. }
  apply loads_and_then; [apply load_channel_calibration_loads|].
  apply loads_and_then.
  { apply load_block_loads; [intros; by apply Hprintf|]. intros data c Hb Hok Hc.
    destruct (agc_gain_data_ok data Hb c Hok Hc) as (r & E & Hr). exists r. split; [exact E|]. by destruct r. }
  apply loads_and_then.
  { apply load_block_loads; [intros; by apply Hprintf|]. intros data c Hb Hok Hc.
    destruct (agc_threshold_data_ok data Hb c Hok Hc) as (r & E & Hr). exists r. split; [exact E|]. by destruct r. }
  intros E f w Hok. unfold and_then. wp_step. eapply wp_mono.
  - apply (load_block_loads (fun c => afc_ok (afc c))); [|intros data c Hb Hok' Hc; by apply afc_data_ok|exact Hok].
    intros e E' Q f' w' HQ. destruct e; by apply Hprintf.
  - intros ok w' [Hok' Hafc]. destruct ok; [|by wp_step]. specialize (Hafc eq_refl). wp_step. apply Hprintf. intros w'' Ha.
    wp_step. by rewrite (calibration_same w' w'').
Qed.
End Loaders.

(** C38. Whatever the phone's flash holds, loading the receiver's calibration stays inside the
    blocks that it reads and inside the tables that it fills, and returns.  It keeps the shape of
    the calibration, also when it refuses a block half way; and a calibration that it accepts
    has a frequency curve that rises, so that no correction divides by zero. *)
Theorem calibration_loaded {D A} `{!Device D} `{!Part A board_state} (printf : message -> M D A unit) (f : nat) (w : world D A) :
  (forall msg E Q f (w : world D A), (forall w', w_app w' = w_app w -> Q tt w') -> wp E (printf msg) Q f w) ->
  calibration_ok (calibration_of w) ->
  wp total (load_receiver_calibration printf)
    (fun ok w' => calibration_ok (calibration_of w') /\ (ok = true -> afc_ok (afc (calibration_of w')))) f w.
Proof. intros Hprintf. apply load_receiver_loads, Hprintf. Qed.
(** The board's statics as the whole program's. *)
Definition board_part : Part board_state board_state :=
  {| part := fun s => s; set_part := fun s _ => s; part_set := fun s a => eq_refl |}.
Definition board_world : world unit board_state := World tt ∅ [] lib_zero board_zero.
Lemma calibration_loaded_witness :
  wp total (@load_receiver_calibration unit board_state no_device board_part (fun _ => mret tt))
    (fun ok w' => calibration_ok (@calibration_of unit board_state board_part w') /\
                  (ok = true -> afc_ok (afc (@calibration_of unit board_state board_part w')))) 10%nat board_world.
Proof.
  apply (@calibration_loaded unit board_state no_device board_part (fun _ => mret tt) 10%nat board_world).
  - intros msg E Q f w HQ. by apply wp_ret, HQ.
  - split_and!; [done|by apply Forall_replicate|done|done|by apply Forall_replicate].
Defined.
