(* ===== verification/GsmState.v ===== *)
(** * Layer 1 of the GSM receiver: its state ([unit/dsp/hle/gsm-l1/gsm-l1.c])

    The constants, the event tables of the time processor and the static variables, with one
    setter each.  [GsmL1] has the functions. *)
From S2P Require Import Prelude Machine Board Regs GsmRegs GsmChannel GsmTrx GsmCalib GsmBoard.
Import Regs.Pmb8876.

Definition TPU_TIMER_RAM_BASE : Z := 512.
Definition TPU_TIMER_BANK_0_OFFSET : Z := 0.
Definition TPU_TIMER_BANK_1_OFFSET : Z := 0xFF.
Definition TPU_EVENT_WORD_COUNT : Z := 3.
Definition TPU_EVENT_GROUP_SHIFT : Z := 9.
Definition TPU_EVENT_TRIGGER_HIGH_SHIFT : Z := 16.
Definition TPU_EVENT_TRIGGER_HIGH_MASK : Z := 0x1FF.
Definition TPU_EVENT_TRIGGER_25_SHIFT : Z := 25.
Definition TPU_EVENT_TIME_TRIGGER_SHIFT : Z := 15.
Definition TPU_EVENT_TRIGGER_LOW_MASK : Z := 0xFFFF.
Definition TPU_TRIGGER_RF_MASK : Z := 0x3F.
Definition TPU_TRIGGER_DECODER_SHIFT : Z := 6.
Definition TPU_TRIGGER_ADCTRIG_BIT : Z := 11.
Definition TPU_TRIGGER_T_OUT_SHIFT : Z := 12.
Definition TPU_RF_TELEGRAM_TRIGGER_FIRST : Z := 8.
Definition TPU_FRAME_TICKS : Z := 10000.
Definition GSM_BITS_PER_FRAME : Z := 1250.
Definition TPU_TICKS_PER_GSM_BIT : Z := 8.
Definition FCCH_PHASE_ADVANCE_TICKS : Z := 72.
Definition TPU_SCH_RESULT_BOUNDARY_TICK : Z := 0x0E8B.
Definition DSP_MON_RAW_VALUES_PER_DB : Z := 16.
Definition DSP_RF_ADAPT_EXTENSION_OFFSET : Z := 0x0018.
Definition DSP_RF_ADAPT_EXTENSION_VALUE : Z := 0xFB8C.
Definition DSP_BB_OFF_SEQUENCE_OFFSET : Z := 0x0500.
Definition DSP_RUNTIME_CONFIG_OFFSET : Z := 0x057A.
Definition DSP_RUNTIME_CONFIG_VALUE : Z := 0xC000.
Definition GSM_DSP_COMMAND_RF_ADAPT : Z := 67.
Definition DSP_MON_INDEX_OFFSET : Z := 191.
Definition DSP_MON_VALUES_OFFSET : Z := 192.
Definition DSP_MON_VALUE_COUNT : Z := 8.
Definition DSP_MON_RESULT_FIRST : Z := 4.
Definition DSP_FCCH_STATUS_OFFSET : Z := 89.
Definition DSP_FCCH_START_OFFSET : Z := 90.
Definition DSP_FCCH_QUALITY_OFFSET : Z := 91.
Definition DSP_FCCH_RMS_OFFSET : Z := 92.
Definition DSP_FCCH_FREQUENCY_OFFSET : Z := 93.
Definition DSP_FCCH_RESULT_WORD_COUNT : Z := 5.
Definition DSP_FCCH_SENTINEL_BASE : Z := 0xA500.
Definition DSP_FCCH_COMMUNICATION_FLAGS : Z := BIT 3 .| BIT 4.
Definition DSP_FCCH_PREPARE_COMMUNICATION_FLAG : Z := BIT 7.
Definition DSP_SCH_EQUALIZER_POSITION_OFFSET : Z := 103.
Definition DSP_SCH_METRIC_OFFSET : Z := 112.
Definition DSP_SCH_STATUS_OFFSET : Z := 113.
Definition DSP_SCH_DATA_OFFSET : Z := 114.
Definition DSP_SCH_RESULT_WORD_COUNT : Z := 4.
Definition DSP_SCH_SENTINEL_BASE : Z := 0x5A00.
Definition DSP_SCH_COMMUNICATION_FLAG : Z := BIT 3.
Definition FCCH_MIN_RX_LEVEL_DBM_X16 : Z := -111 * DSP_MON_RAW_VALUES_PER_DB.
Definition FCCH_ADJACENT_SUPPRESSION_DBM_X16 : Z := 8 * DSP_MON_RAW_VALUES_PER_DB.
Definition FCCH_SEARCH_WINDOW_COUNT : Z := 12.
Definition FCCH_REFINEMENT_ATTEMPT_COUNT : Z := 12.
Definition SCH_ATTEMPT_COUNT : Z := 12.
Definition SCAN_PASS_COUNT : Z := 16.
Definition SCAN_WINDOW_STRIDE : Z := 8.
Definition TPU_RF_QUIET_FRAME_COUNT : Z := 4.
Definition TPU_RF_FIRST_QUIET_EVENT_GROUPS : Z := 0x8000C000.
Definition TPU_RF_QUIET_EVENT_GROUPS : Z := 0x80004000.
Definition TPU_RF_INITIALIZATION_PREFIX_EVENT_GROUPS : Z := 0x8000400A.
Definition TPU_FIRST_SEARCH_EVENT_GROUPS : Z := 0x80004003.
Definition TPU_SEARCH_EVENT_GROUPS : Z := 0x8000C003.
Definition TPU_RF_POWER_UP_EVENT_GROUPS : Z := 0x8000C000.
Definition TPU_FCCH_PREPARE_EVENT_GROUPS : Z := 0x8000C041.
Definition TPU_FCCH_START_EVENT_GROUPS : Z := 0x8000C003.
Definition TPU_FCCH_HOLD_EVENT_GROUPS : Z := 0x8000C001.
Definition TPU_INITIALIZATION_EVENT_GROUPS : Z := 0x8000C00A.
Definition TPU_SCH_EVENT_GROUPS : Z := 0x8000C003.
Definition TPU_TIMER_DECODER_NONE : Z := 0.
Definition TPU_TIMER_DECODER_EQON_SET : Z := 1.
Definition TPU_TIMER_DECODER_MONON_SET : Z := 2.
Definition TPU_TIMER_DECODER_SCON_SET : Z := 3.
Definition TPU_TIMER_DECODER_FCON_SET : Z := 4.
Definition TPU_TIMER_DECODER_RECEIVE_CLEAR : Z := 5.
Definition TPU_TIMER_DECODER_RXON_SET : Z := 6.
Definition TPU_TIMER_DECODER_RXON_CLEAR : Z := 7.
Definition TPU_TIMER_DECODER_INT_GP0 : Z := 10.
Definition TPU_TIMER_DECODER_FRAME_INT : Z := 15.
Definition TPU_TRIGGER_RF (index : Z) : Z := index .& TPU_TRIGGER_RF_MASK.
Definition TPU_TRIGGER_DECODER (decoder : Z) : Z := decoder .<< TPU_TRIGGER_DECODER_SHIFT.
Definition TPU_TRIGGER_ADCTRIG : Z := BIT TPU_TRIGGER_ADCTRIG_BIT.
Definition TPU_TRIGGER_T_OUT (index : Z) : Z := BIT (TPU_TRIGGER_T_OUT_SHIFT + index).

(** [enum tpu_event_operation], by its values. *)
Inductive tpu_event_operation := TPU_EVENT_REPLACE | TPU_EVENT_SET | TPU_EVENT_CLEAR | TPU_EVENT_TIMING_ADVANCE.
Definition operation_bits (operation : tpu_event_operation) : Z :=
  match operation with
  | TPU_EVENT_REPLACE => 0x0000 | TPU_EVENT_SET => 0x4000 | TPU_EVENT_CLEAR => 0x8000 | TPU_EVENT_TIMING_ADVANCE => 0xC000
  end.
Record tpu_event := Event { e_operation : tpu_event_operation; e_group : Z; e_tick : Z; e_triggers : Z }.
Definition RF_INITIALIZATION_EVENTS : list tpu_event := [
  Event TPU_EVENT_SET 0 0x0001 (TPU_TRIGGER_DECODER TPU_TIMER_DECODER_FRAME_INT);
  Event TPU_EVENT_CLEAR 3 0x0004 (TPU_TRIGGER_DECODER TPU_TIMER_DECODER_RECEIVE_CLEAR);
  Event TPU_EVENT_CLEAR 3 0x0190 (TPU_TRIGGER_T_OUT 2 .| TPU_TRIGGER_T_OUT 3);
  Event TPU_EVENT_SET 3 0x07D0 (TPU_TRIGGER_RF 8);
  Event TPU_EVENT_SET 3 0x0834 (TPU_TRIGGER_RF 9);
  Event TPU_EVENT_SET 3 0x0898 (TPU_TRIGGER_RF 10);
  Event TPU_EVENT_SET 3 0x08FC (TPU_TRIGGER_RF 11);
  Event TPU_EVENT_SET 3 0x0960 (TPU_TRIGGER_RF 12);
  Event TPU_EVENT_SET 3 0x09C4 (TPU_TRIGGER_RF 13);
  Event TPU_EVENT_SET 3 0x0A28 (TPU_TRIGGER_RF 14);
  Event TPU_EVENT_SET 3 0x0A8C (TPU_TRIGGER_RF 15);
  Event TPU_EVENT_SET 3 0x0AF0 (TPU_TRIGGER_RF 16);
  Event TPU_EVENT_SET 3 0x0B54 (TPU_TRIGGER_RF 17);
  Event TPU_EVENT_SET 31 0x7FF8 (TPU_TRIGGER_T_OUT 0)].
Definition SIGNAL_SEARCH_EVENTS : list tpu_event := [
  Event TPU_EVENT_SET 0 0x0001 (TPU_TRIGGER_DECODER TPU_TIMER_DECODER_FRAME_INT);
  Event TPU_EVENT_SET 1 0x0A10 (TPU_TRIGGER_RF 8);
  Event TPU_EVENT_SET 1 0x0ABE (TPU_TRIGGER_RF 12);
  Event TPU_EVENT_SET 1 0x0B92 (TPU_TRIGGER_DECODER TPU_TIMER_DECODER_RXON_SET);
  Event TPU_EVENT_SET 1 0x0C2A (TPU_TRIGGER_DECODER TPU_TIMER_DECODER_MONON_SET);
  Event TPU_EVENT_CLEAR 1 0x0E3A (TPU_TRIGGER_DECODER TPU_TIMER_DECODER_RECEIVE_CLEAR .| TPU_TRIGGER_RF 21);
  Event TPU_EVENT_CLEAR 1 0x0E3C (TPU_TRIGGER_DECODER TPU_TIMER_DECODER_RXON_CLEAR);
  Event TPU_EVENT_SET 1 0x1000 (TPU_TRIGGER_RF 9);
  Event TPU_EVENT_SET 1 0x10AE (TPU_TRIGGER_RF 13);
  Event TPU_EVENT_SET 1 0x1182 (TPU_TRIGGER_DECODER TPU_TIMER_DECODER_RXON_SET);
  Event TPU_EVENT_SET 1 0x121A (TPU_TRIGGER_DECODER TPU_TIMER_DECODER_MONON_SET);
  Event TPU_EVENT_CLEAR 1 0x142A (TPU_TRIGGER_DECODER TPU_TIMER_DECODER_RECEIVE_CLEAR .| TPU_TRIGGER_RF 21);
  Event TPU_EVENT_CLEAR 1 0x142C (TPU_TRIGGER_DECODER TPU_TIMER_DECODER_RXON_CLEAR);
  Event TPU_EVENT_SET 1 0x15F0 (TPU_TRIGGER_RF 10);
  Event TPU_EVENT_SET 1 0x169E (TPU_TRIGGER_RF 14);
  Event TPU_EVENT_SET 1 0x1772 (TPU_TRIGGER_DECODER TPU_TIMER_DECODER_RXON_SET);
  Event TPU_EVENT_SET 1 0x180A (TPU_TRIGGER_DECODER TPU_TIMER_DECODER_MONON_SET);
  Event TPU_EVENT_CLEAR 1 0x1A1A (TPU_TRIGGER_DECODER TPU_TIMER_DECODER_RECEIVE_CLEAR .| TPU_TRIGGER_RF 21);
  Event TPU_EVENT_CLEAR 1 0x1A1C (TPU_TRIGGER_DECODER TPU_TIMER_DECODER_RXON_CLEAR);
  Event TPU_EVENT_SET 15 0x1A40 (TPU_TRIGGER_T_OUT 12);
  Event TPU_EVENT_SET 15 0x1AFE (TPU_TRIGGER_ADCTRIG);
  Event TPU_EVENT_CLEAR 15 0x1B08 (TPU_TRIGGER_T_OUT 12);
  Event TPU_EVENT_SET 15 0x1BC6 (TPU_TRIGGER_DECODER TPU_TIMER_DECODER_INT_GP0);
  Event TPU_EVENT_SET 1 0x1BE0 (TPU_TRIGGER_RF 11);
  Event TPU_EVENT_SET 1 0x1C8E (TPU_TRIGGER_RF 15);
  Event TPU_EVENT_SET 1 0x1D62 (TPU_TRIGGER_DECODER TPU_TIMER_DECODER_RXON_SET);
  Event TPU_EVENT_SET 1 0x1DFA (TPU_TRIGGER_DECODER TPU_TIMER_DECODER_MONON_SET);
  Event TPU_EVENT_CLEAR 1 0x200A (TPU_TRIGGER_DECODER TPU_TIMER_DECODER_RECEIVE_CLEAR .| TPU_TRIGGER_RF 21);
  Event TPU_EVENT_CLEAR 1 0x200C (TPU_TRIGGER_DECODER TPU_TIMER_DECODER_RXON_CLEAR);
  Event TPU_EVENT_SET 31 0x7FF8 (TPU_TRIGGER_T_OUT 0)].
Definition FCCH_EVENTS : list tpu_event := [
  Event TPU_EVENT_SET 0 0x0001 (TPU_TRIGGER_DECODER TPU_TIMER_DECODER_FRAME_INT);
  Event TPU_EVENT_CLEAR 6 0x0008 (TPU_TRIGGER_DECODER TPU_TIMER_DECODER_RECEIVE_CLEAR .| TPU_TRIGGER_RF 21);
  Event TPU_EVENT_CLEAR 6 0x000A (TPU_TRIGGER_DECODER TPU_TIMER_DECODER_RXON_CLEAR);
  Event TPU_EVENT_SET 1 0x003C (TPU_TRIGGER_RF 11);
  Event TPU_EVENT_SET 1 0x00EA (TPU_TRIGGER_RF 10);
  Event TPU_EVENT_SET 1 0x01BE (TPU_TRIGGER_DECODER TPU_TIMER_DECODER_RXON_SET);
  Event TPU_EVENT_SET 1 0x0256 (TPU_TRIGGER_DECODER TPU_TIMER_DECODER_FCON_SET);
  Event TPU_EVENT_CLEAR 4 0x1120 (TPU_TRIGGER_DECODER TPU_TIMER_DECODER_RECEIVE_CLEAR .| TPU_TRIGGER_RF 21);
  Event TPU_EVENT_CLEAR 4 0x1122 (TPU_TRIGGER_DECODER TPU_TIMER_DECODER_RXON_CLEAR);
  Event TPU_EVENT_CLEAR 8 0x2E6C (TPU_TRIGGER_DECODER TPU_TIMER_DECODER_RECEIVE_CLEAR .| TPU_TRIGGER_RF 21);
  Event TPU_EVENT_CLEAR 8 0x2E6E (TPU_TRIGGER_DECODER TPU_TIMER_DECODER_RXON_CLEAR);
  Event TPU_EVENT_SET 31 0x7FF8 (TPU_TRIGGER_T_OUT 0)].
Definition SCH_EVENTS : list tpu_event := [
  Event TPU_EVENT_SET 0 0x0001 (TPU_TRIGGER_DECODER TPU_TIMER_DECODER_FRAME_INT);
  Event TPU_EVENT_TIMING_ADVANCE 10 0 (0);
  Event TPU_EVENT_CLEAR 6 0x000A (TPU_TRIGGER_DECODER TPU_TIMER_DECODER_RECEIVE_CLEAR);
  Event TPU_EVENT_CLEAR 1 0x000C (TPU_TRIGGER_DECODER TPU_TIMER_DECODER_RECEIVE_CLEAR .| TPU_TRIGGER_RF 21);
  Event TPU_EVENT_CLEAR 1 0x000E (TPU_TRIGGER_DECODER TPU_TIMER_DECODER_RXON_CLEAR);
  Event TPU_EVENT_SET 6 0x0014 (TPU_TRIGGER_DECODER TPU_TIMER_DECODER_SCON_SET);
  Event TPU_EVENT_SET 1 0x003C (TPU_TRIGGER_RF 11);
  Event TPU_EVENT_SET 1 0x00EA (TPU_TRIGGER_RF 10);
  Event TPU_EVENT_SET 1 0x01BE (TPU_TRIGGER_DECODER TPU_TIMER_DECODER_RXON_SET);
  Event TPU_EVENT_SET 1 0x0256 (TPU_TRIGGER_DECODER TPU_TIMER_DECODER_SCON_SET);
  Event TPU_EVENT_CLEAR 6 0x051A (TPU_TRIGGER_DECODER TPU_TIMER_DECODER_RECEIVE_CLEAR .| TPU_TRIGGER_RF 26);
  Event TPU_EVENT_CLEAR 1 0x075C (TPU_TRIGGER_DECODER TPU_TIMER_DECODER_RECEIVE_CLEAR .| TPU_TRIGGER_RF 21);
  Event TPU_EVENT_CLEAR 1 0x075E (TPU_TRIGGER_DECODER TPU_TIMER_DECODER_RXON_CLEAR);
  Event TPU_EVENT_TIMING_ADVANCE 10 0 (0);
  Event TPU_EVENT_SET 31 0x7FF8 (TPU_TRIGGER_T_OUT 0)].
Definition TPU_IDLE_EVENTS : list tpu_event := [
  Event TPU_EVENT_SET 0 0x0001 (TPU_TRIGGER_DECODER TPU_TIMER_DECODER_FRAME_INT);
  Event TPU_EVENT_SET 31 0x7FF8 (TPU_TRIGGER_T_OUT 0)].
Definition RF_POWER_UP_EVENTS : list tpu_event := [
  Event TPU_EVENT_TIMING_ADVANCE 31 0 (0)].

(** ** States *)
Inductive loop_phase :=
  | TPU_LOOP_RF_POWER_UP | TPU_LOOP_RF_INITIALIZATION | TPU_LOOP_READY | TPU_LOOP_SEARCH | TPU_LOOP_FCCH | TPU_LOOP_SCH | TPU_LOOP_COMPLETE.
#[export] Instance loop_phase_eq_dec : EqDecision loop_phase.
Proof. solve_decision. Defined.
Inductive receiver_state :=
  | RECEIVER_SCAN_IDLE | RECEIVER_SCAN_REQUESTED | RECEIVER_SCAN_ACTIVE | RECEIVER_SCAN_COMPLETE.
#[export] Instance receiver_state_eq_dec : EqDecision receiver_state.
Proof. solve_decision. Defined.
Inductive fcch_state :=
  | FCCH_SCAN_IDLE | FCCH_SCAN_REQUESTED | FCCH_SCAN_BB_OFF_REQUESTED | FCCH_SCAN_COMMAND_REQUESTED | FCCH_SCAN_ACTIVE | FCCH_SCAN_REFINEMENT_BB_OFF_REQUESTED | FCCH_SCAN_REFINEMENT_COMMAND_REQUESTED | FCCH_SCAN_REFINEMENT_ACTIVE | FCCH_SCAN_REFINEMENT_COMPLETE | FCCH_SCAN_REFINEMENT_FAILED | FCCH_SCAN_COMPLETE.
#[export] Instance fcch_state_eq_dec : EqDecision fcch_state.
Proof. solve_decision. Defined.
Inductive fcch_phase :=
  | FCCH_TPU_RF_QUIET_FIRST | FCCH_TPU_RF_QUIET_SECOND | FCCH_TPU_RF_INITIALIZATION | FCCH_TPU_PREPARE_FIRST | FCCH_TPU_PREPARE_SECOND | FCCH_TPU_START | FCCH_TPU_HOLD_FIRST | FCCH_TPU_HOLD_SECOND | FCCH_TPU_FINISH | FCCH_TPU_RETRY_DELAY | FCCH_TPU_REFINEMENT_PREPARE | FCCH_TPU_REFINEMENT_START | FCCH_TPU_REFINEMENT_WAIT_RESULT.
#[export] Instance fcch_phase_eq_dec : EqDecision fcch_phase.
Proof. solve_decision. Defined.
Inductive sch_state :=
  | SCH_SCAN_IDLE | SCH_SCAN_REQUESTED | SCH_SCAN_ACTIVE | SCH_SCAN_COMPLETE.
#[export] Instance sch_state_eq_dec : EqDecision sch_state.
Proof. solve_decision. Defined.
Inductive sch_phase :=
  | SCH_TPU_RECEIVE | SCH_TPU_RESULT_BOUNDARY | SCH_TPU_RETRY_DELAY.
#[export] Instance sch_phase_eq_dec : EqDecision sch_phase.
Proof. solve_decision. Defined.
Record fcch_result := FcchResult { f_status : Z; f_start : Z; f_quality : Z; f_rms : Z; f_frequency : Z; f_communication_flags : Z }.
Record sch_result := SchResult { s_metric : Z; s_status : Z; s_data : Z * Z; s_equalizer_position : Z; s_communication_flags : Z }.
Record channel_scan_result := ScanResult { level_dbm_x16 : Z; measurements : Z; sr_gain_state : Z; fcch_excluded : bool }.
(** [gsm-l1.h]. *)
Record gsm_l1_runtime := Runtime { rt_poll : bool; command_timeout_ms : Z }.
Record gsm_l1_candidate := Candidate {
  c_band : gsm_band; c_channel_index : Z; c_arfcn : Z; c_gain_state : Z; c_rx_level_dbm_x16 : Z; c_afc_frequency_hz : Z }.
Record gsm_l1_fcch_result := L1Fcch {
  lf_detected : bool; lf_attempt_count : Z; lf_result : fcch_result; lf_phase_tick : Z; lf_afc_frequency_hz : Z }.
Record gsm_l1_sch_result := L1Sch {
  ls_decoded : bool; ls_refinement_attempt_count : Z; ls_attempt_count : Z; ls_metric : Z; ls_status : Z; ls_data : Z;
  ls_equalizer_position : Z; ls_communication_flags : Z; ls_bsic : Z; ls_frame_number : Z }.

(** The time processor's loop. *)
Record tpu_loop := TpuLoop {
  tpu_loop_phase : loop_phase; rf_initialization_complete : bool; tpu_schedule_bank : Z; tpu_rf_transition_frame : Z; tpu_loop_running : bool }.
Definition with_tpu_loop_phase v (s : tpu_loop) : tpu_loop := TpuLoop v (rf_initialization_complete s) (tpu_schedule_bank s) (tpu_rf_transition_frame s) (tpu_loop_running s).
Definition with_rf_initialization_complete v (s : tpu_loop) : tpu_loop := TpuLoop (tpu_loop_phase s) v (tpu_schedule_bank s) (tpu_rf_transition_frame s) (tpu_loop_running s).
Definition with_tpu_schedule_bank v (s : tpu_loop) : tpu_loop := TpuLoop (tpu_loop_phase s) (rf_initialization_complete s) v (tpu_rf_transition_frame s) (tpu_loop_running s).
Definition with_tpu_rf_transition_frame v (s : tpu_loop) : tpu_loop := TpuLoop (tpu_loop_phase s) (rf_initialization_complete s) (tpu_schedule_bank s) v (tpu_loop_running s).
Definition with_tpu_loop_running v (s : tpu_loop) : tpu_loop := TpuLoop (tpu_loop_phase s) (rf_initialization_complete s) (tpu_schedule_bank s) (tpu_rf_transition_frame s) v.
(** The scan of the channels. *)
Record channel_scan := ChannelScan {
  receiver_scan_state : receiver_state; scan_pass : Z; scan_window_start : Z; scan_request_repeated : bool; scan_channels : list Z; scan_request_channels : list Z; scan_request_gain_states : list Z; scan_results : list channel_scan_result }.
Definition with_receiver_scan_state v (s : channel_scan) : channel_scan := ChannelScan v (scan_pass s) (scan_window_start s) (scan_request_repeated s) (scan_channels s) (scan_request_channels s) (scan_request_gain_states s) (scan_results s).
Definition with_scan_pass v (s : channel_scan) : channel_scan := ChannelScan (receiver_scan_state s) v (scan_window_start s) (scan_request_repeated s) (scan_channels s) (scan_request_channels s) (scan_request_gain_states s) (scan_results s).
Definition with_scan_window_start v (s : channel_scan) : channel_scan := ChannelScan (receiver_scan_state s) (scan_pass s) v (scan_request_repeated s) (scan_channels s) (scan_request_channels s) (scan_request_gain_states s) (scan_results s).
Definition with_scan_request_repeated v (s : channel_scan) : channel_scan := ChannelScan (receiver_scan_state s) (scan_pass s) (scan_window_start s) v (scan_channels s) (scan_request_channels s) (scan_request_gain_states s) (scan_results s).
Definition with_scan_channels v (s : channel_scan) : channel_scan := ChannelScan (receiver_scan_state s) (scan_pass s) (scan_window_start s) (scan_request_repeated s) v (scan_request_channels s) (scan_request_gain_states s) (scan_results s).
Definition with_scan_request_channels v (s : channel_scan) : channel_scan := ChannelScan (receiver_scan_state s) (scan_pass s) (scan_window_start s) (scan_request_repeated s) (scan_channels s) v (scan_request_gain_states s) (scan_results s).
Definition with_scan_request_gain_states v (s : channel_scan) : channel_scan := ChannelScan (receiver_scan_state s) (scan_pass s) (scan_window_start s) (scan_request_repeated s) (scan_channels s) (scan_request_channels s) v (scan_results s).
Definition with_scan_results v (s : channel_scan) : channel_scan := ChannelScan (receiver_scan_state s) (scan_pass s) (scan_window_start s) (scan_request_repeated s) (scan_channels s) (scan_request_channels s) (scan_request_gain_states s) v.
(** The search for the frequency-correction burst. *)
Record fcch_search := FcchSearch {
  fcch_scan_state : fcch_state; fcch_tpu_phase : fcch_phase; fcch_search_result : fcch_result; fcch_refinement_result : fcch_result; fcch_refinement_attempt_count : Z; fcch_window : Z; fcch_detected : bool; fcch_correction_tick : Z; fcch_reference_afc_frequency_hz : Z; fcch_result_afc_frequency_hz : Z }.
Definition with_fcch_scan_state v (s : fcch_search) : fcch_search := FcchSearch v (fcch_tpu_phase s) (fcch_search_result s) (fcch_refinement_result s) (fcch_refinement_attempt_count s) (fcch_window s) (fcch_detected s) (fcch_correction_tick s) (fcch_reference_afc_frequency_hz s) (fcch_result_afc_frequency_hz s).
Definition with_fcch_tpu_phase v (s : fcch_search) : fcch_search := FcchSearch (fcch_scan_state s) v (fcch_search_result s) (fcch_refinement_result s) (fcch_refinement_attempt_count s) (fcch_window s) (fcch_detected s) (fcch_correction_tick s) (fcch_reference_afc_frequency_hz s) (fcch_result_afc_frequency_hz s).
Definition with_fcch_search_result v (s : fcch_search) : fcch_search := FcchSearch (fcch_scan_state s) (fcch_tpu_phase s) v (fcch_refinement_result s) (fcch_refinement_attempt_count s) (fcch_window s) (fcch_detected s) (fcch_correction_tick s) (fcch_reference_afc_frequency_hz s) (fcch_result_afc_frequency_hz s).
Definition with_fcch_refinement_result v (s : fcch_search) : fcch_search := FcchSearch (fcch_scan_state s) (fcch_tpu_phase s) (fcch_search_result s) v (fcch_refinement_attempt_count s) (fcch_window s) (fcch_detected s) (fcch_correction_tick s) (fcch_reference_afc_frequency_hz s) (fcch_result_afc_frequency_hz s).
Definition with_fcch_refinement_attempt_count v (s : fcch_search) : fcch_search := FcchSearch (fcch_scan_state s) (fcch_tpu_phase s) (fcch_search_result s) (fcch_refinement_result s) v (fcch_window s) (fcch_detected s) (fcch_correction_tick s) (fcch_reference_afc_frequency_hz s) (fcch_result_afc_frequency_hz s).
Definition with_fcch_window v (s : fcch_search) : fcch_search := FcchSearch (fcch_scan_state s) (fcch_tpu_phase s) (fcch_search_result s) (fcch_refinement_result s) (fcch_refinement_attempt_count s) v (fcch_detected s) (fcch_correction_tick s) (fcch_reference_afc_frequency_hz s) (fcch_result_afc_frequency_hz s).
Definition with_fcch_detected v (s : fcch_search) : fcch_search := FcchSearch (fcch_scan_state s) (fcch_tpu_phase s) (fcch_search_result s) (fcch_refinement_result s) (fcch_refinement_attempt_count s) (fcch_window s) v (fcch_correction_tick s) (fcch_reference_afc_frequency_hz s) (fcch_result_afc_frequency_hz s).
Definition with_fcch_correction_tick v (s : fcch_search) : fcch_search := FcchSearch (fcch_scan_state s) (fcch_tpu_phase s) (fcch_search_result s) (fcch_refinement_result s) (fcch_refinement_attempt_count s) (fcch_window s) (fcch_detected s) v (fcch_reference_afc_frequency_hz s) (fcch_result_afc_frequency_hz s).
Definition with_fcch_reference_afc_frequency_hz v (s : fcch_search) : fcch_search := FcchSearch (fcch_scan_state s) (fcch_tpu_phase s) (fcch_search_result s) (fcch_refinement_result s) (fcch_refinement_attempt_count s) (fcch_window s) (fcch_detected s) (fcch_correction_tick s) v (fcch_result_afc_frequency_hz s).
Definition with_fcch_result_afc_frequency_hz v (s : fcch_search) : fcch_search := FcchSearch (fcch_scan_state s) (fcch_tpu_phase s) (fcch_search_result s) (fcch_refinement_result s) (fcch_refinement_attempt_count s) (fcch_window s) (fcch_detected s) (fcch_correction_tick s) (fcch_reference_afc_frequency_hz s) v.
(** The reception of the synchronisation burst. *)
Record sch_search := SchSearch {
  sch_scan_state : sch_state; sch_tpu_phase : sch_phase; sch_search_result : sch_result; sch_attempt_count : Z }.
Definition with_sch_scan_state v (s : sch_search) : sch_search := SchSearch v (sch_tpu_phase s) (sch_search_result s) (sch_attempt_count s).
Definition with_sch_tpu_phase v (s : sch_search) : sch_search := SchSearch (sch_scan_state s) v (sch_search_result s) (sch_attempt_count s).
Definition with_sch_search_result v (s : sch_search) : sch_search := SchSearch (sch_scan_state s) (sch_tpu_phase s) v (sch_attempt_count s).
Definition with_sch_attempt_count v (s : sch_search) : sch_search := SchSearch (sch_scan_state s) (sch_tpu_phase s) (sch_search_result s) v.
(** All static variables of the receiver. *)
Record gsm := Gsm {
  g_loop : tpu_loop; g_scan : channel_scan; g_fcch : fcch_search; g_sch : sch_search; current_candidate : gsm_l1_candidate; runtime : gsm_l1_runtime; dsp_clock_enabled : bool; l1_initialized : bool; trx_initialized : bool; g_telegrams : list trx_telegram; g_board : board_state }.
Definition with_g_loop v (s : gsm) : gsm := Gsm v (g_scan s) (g_fcch s) (g_sch s) (current_candidate s) (runtime s) (dsp_clock_enabled s) (l1_initialized s) (trx_initialized s) (g_telegrams s) (g_board s).
Definition with_g_scan v (s : gsm) : gsm := Gsm (g_loop s) v (g_fcch s) (g_sch s) (current_candidate s) (runtime s) (dsp_clock_enabled s) (l1_initialized s) (trx_initialized s) (g_telegrams s) (g_board s).
Definition with_g_fcch v (s : gsm) : gsm := Gsm (g_loop s) (g_scan s) v (g_sch s) (current_candidate s) (runtime s) (dsp_clock_enabled s) (l1_initialized s) (trx_initialized s) (g_telegrams s) (g_board s).
Definition with_g_sch v (s : gsm) : gsm := Gsm (g_loop s) (g_scan s) (g_fcch s) v (current_candidate s) (runtime s) (dsp_clock_enabled s) (l1_initialized s) (trx_initialized s) (g_telegrams s) (g_board s).
Definition with_current_candidate v (s : gsm) : gsm := Gsm (g_loop s) (g_scan s) (g_fcch s) (g_sch s) v (runtime s) (dsp_clock_enabled s) (l1_initialized s) (trx_initialized s) (g_telegrams s) (g_board s).
Definition with_runtime v (s : gsm) : gsm := Gsm (g_loop s) (g_scan s) (g_fcch s) (g_sch s) (current_candidate s) v (dsp_clock_enabled s) (l1_initialized s) (trx_initialized s) (g_telegrams s) (g_board s).
Definition with_dsp_clock_enabled v (s : gsm) : gsm := Gsm (g_loop s) (g_scan s) (g_fcch s) (g_sch s) (current_candidate s) (runtime s) v (l1_initialized s) (trx_initialized s) (g_telegrams s) (g_board s).
Definition with_l1_initialized v (s : gsm) : gsm := Gsm (g_loop s) (g_scan s) (g_fcch s) (g_sch s) (current_candidate s) (runtime s) (dsp_clock_enabled s) v (trx_initialized s) (g_telegrams s) (g_board s).
Definition with_trx_initialized v (s : gsm) : gsm := Gsm (g_loop s) (g_scan s) (g_fcch s) (g_sch s) (current_candidate s) (runtime s) (dsp_clock_enabled s) (l1_initialized s) v (g_telegrams s) (g_board s).
Definition with_g_telegrams v (s : gsm) : gsm := Gsm (g_loop s) (g_scan s) (g_fcch s) (g_sch s) (current_candidate s) (runtime s) (dsp_clock_enabled s) (l1_initialized s) (trx_initialized s) v (g_board s).
Definition with_g_board v (s : gsm) : gsm := Gsm (g_loop s) (g_scan s) (g_fcch s) (g_sch s) (current_candidate s) (runtime s) (dsp_clock_enabled s) (l1_initialized s) (trx_initialized s) (g_telegrams s) v.

#[export] Instance gsm_telegrams : Part gsm (list trx_telegram) :=
  {| part := g_telegrams; set_part := fun v s => with_g_telegrams v s; part_set := fun v s => eq_refl |}.
#[export] Instance gsm_board : Part gsm board_state :=
  {| part := g_board; set_part := fun v s => with_g_board v s; part_set := fun v s => eq_refl |}.

(** The statics at the start. *)
Definition zero_result : channel_scan_result := ScanResult 0 0 0 false.
Definition zero_fcch : fcch_result := FcchResult 0 0 0 0 0 0.
Definition zero_candidate : gsm_l1_candidate := Candidate GSM_BAND_900 0 0 0 0 0.
Definition zero_runtime : gsm_l1_runtime := Runtime false 0.
Definition gsm_zero : gsm := Gsm
  (TpuLoop TPU_LOOP_RF_POWER_UP false 0 0 false)
  (ChannelScan RECEIVER_SCAN_IDLE 0 0 false (replicate 971 0) (replicate 4 0) (replicate 4 0) (replicate 972 zero_result))
  (FcchSearch FCCH_SCAN_IDLE FCCH_TPU_RF_QUIET_FIRST zero_fcch zero_fcch 0 0 false 0 0 0)
  (SchSearch SCH_SCAN_IDLE SCH_TPU_RECEIVE (SchResult 0 0 (0, 0) 0 0) 0)
  zero_candidate zero_runtime false false false (replicate 20 (Telegram 0 0 0 0)) board_zero.
