(* ===== verification/GsmL1.v ===== *)
(** * Layer 1 of the GSM receiver ([unit/dsp/hle/gsm-l1/gsm-l1.c])

    The receiver scans the channels for power, looks for the frequency-correction burst (FCCH)
    of the strongest ones and decodes their synchronisation burst (SCH).  The work is shared by
    the foreground, which asks for a step and sends the DSP its commands, and the interrupt of
    the time processor (TPU), which every frame publishes the events of the next one:
    [gsm_l1_tpu_irq].  They meet in the static variables of [GsmState].  The foreground waits in
    [runtime_poll], the program's own function; interrupts are taken there. *)
From S2P Require Import Prelude Machine Board Regs Stopwatch Wdt Smbus TestLib GsmRegs GsmChannel GsmTrx GsmCalib GsmBoard Dsp GsmState.
Import Regs.Pmb8876.

Definition TEAK_BB_CTRL_BBADAP_EN : Z := 0x0010.

(** ** Without effects *)
(** The channel decoder's profiles; of each row the first [count] words. *)
Definition PROFILES : list (list Z) := [
  [0; 0x10; 2; 0x14F5; 0; 0x14F5; 0x4C2C; 0x10; 2; 0x14F5; 0; 0x14F5; 0x4C2C];
  [2; 0x0C; 3; 0x0B86; 0x0BAE; 0x0BEA; 0x2BF2; 0x0C; 3; 0x0B86; 0x0BAE; 0x0BEA; 0x2BF2];
  [1; 0x10; 2; 0x14F5; 0; 0x14F5; 0x4C2C; 0x10; 2; 0x14F5; 0; 0x14F5; 0x4C2C];
  [3; 0; 0x1026; 0x1026; 0x115E; 0x10FE];
  [3; 1; 0x12A2; 0x12A2; 0x0951; 0x12A2; 0x12A2; 0x0951; 0x10FE];
  [3; 2; 0x0074; 0x0217; 0x0072; 0x0235; 0x006B; 0x0208; 0x0067; 0x0240];
  [3; 3; 0x0062; 0x01DA; 0x005D; 0x0201; 0x0053; 0x0282; 0x004D; 0x01FC];
  [3; 4; 0x0025; 0x011D; 0x0024; 0x012F; 0x0020; 0x00E0];
  [3; 5; 0x001C; 0x00F0; 0x001A; 0x0104; 0x0017; 0x010A];
  [3; 6; 0x00D4];
  [3; 7; 0; 0; 0];
  [3; 8; 0x1635; 0x1B6C; 0x209E; 0x1644; 0x1B6C; 0x203A; 0x1644; 0x1AC2; 0x1EAF; 0x164E; 0x19FA; 0x1E05; 0x16DA; 0x19FA; 0x1D1F; 0x16DA; 0x199B; 0x1C61; 0x16F8; 0x1919; 0x1B26; 0x1734; 0x18F1; 0x1A40; 0x5B68];
  [3; 9; 0x0B18; 0x0C8A; 0x0D8E; 0x0B22; 0x0C8A; 0x0D6B; 0x0B2C; 0x0C80; 0x0D0C; 0x0B36; 0x0C80; 0x0CC6; 0x0B54; 0x0C80; 0x0C85; 0x0B68; 0x0C80; 0x0C6C; 0x2CEC]].
Definition RF_ADAPT_PARAMETERS : list Z := [0; 0x0599; 1; TEAK_BB_CTRL_BBADAP_EN; 0].
Definition MODU_INIT_PARAMETERS : list Z := [0xFFFB; 0xFFE7; 220; 220; 0; 21; 1; 0; 8].
Definition IQ_SWAP_PARAMETERS : list Z := [1].

(** The three words of an event in the bank's copy. *)
Definition event_words (event : tpu_event) (bank : Z) : Z * Z * Z :=
  let triggers := e_triggers event in
  let rf_trigger := triggers .& TPU_TRIGGER_RF_MASK in
  let is_rf_event := (TPU_RF_TELEGRAM_TRIGGER_FIRST <=? rf_trigger) && (rf_trigger <? TPU_RF_TELEGRAM_TRIGGER_FIRST + GSM_TRX_TELEGRAM_COUNT) in
  let triggers := if is_rf_event then u32 (triggers + bank * GSM_TRX_TELEGRAM_COUNT) else triggers in
  (u16 (operation_bits (e_operation event) .| (e_group event .<< TPU_EVENT_GROUP_SHIFT) .|
        ((triggers .>> TPU_EVENT_TRIGGER_HIGH_SHIFT) .& TPU_EVENT_TRIGGER_HIGH_MASK)),
   u16 (e_tick event .| (((triggers .>> TPU_EVENT_TRIGGER_25_SHIFT) .& 1) .<< TPU_EVENT_TIME_TRIGGER_SHIFT)),
   triggers .& TPU_EVENT_TRIGGER_LOW_MASK).
Definition bank_offset (bank : Z) : Z := if bank ==? 0 then TPU_TIMER_BANK_0_OFFSET else TPU_TIMER_BANK_1_OFFSET.

Definition fcch_start_to_tpu_phase_tick (start : Z) : Z :=
  let phase_tick := Z.rem start GSM_BITS_PER_FRAME * TPU_TICKS_PER_GSM_BIT - FCCH_PHASE_ADVANCE_TICKS in
  u16 (if phase_tick <? 0 then phase_tick + TPU_FRAME_TICKS else phase_tick).
Definition is_fcch_result_valid (result : fcch_result) : bool := (f_communication_flags result ==? 0) && (f_status result ==? 2).
Definition sch_data_to_frame_number (data : Z) : Z :=
  let t1 := ((data .>> 23) .& 1) .| ((data .>> 7) .& 0x1FE) .| (u32 (data .<< 9) .& 0x600) in
  let t2 := (data .>> 18) .& 0x1F in
  let t3_prime := ((data .>> 24) .& 1) .| ((data .>> 15) .& 6) in
  let t3 := t3_prime * 10 + 1 in
  let frame_modulo := if t3 <? t2 then u32 (t3 + 26 - t2) else (t3 - t2) mod 26 in
  u32 (t1 * 51 * 26 + u32 (frame_modulo * 51) + t3).

(** *** The choice of the next candidate *)
Definition exclude_weaker_adjacent_fcch_channel (channel_index neighbor_offset : Z) (results : list channel_scan_result) :
    option (list channel_scan_result) :=
  range ← find_scan_range channel_index;
  let neighbor_index := channel_index + neighbor_offset in
  if (neighbor_index <? table_first range) || (table_first range + channel_count range <=? neighbor_index) then Some results
  else
    selected ← elem results channel_index;
    neighbor ← elem results neighbor_index;
    if FCCH_ADJACENT_SUPPRESSION_DBM_X16 <=? level_dbm_x16 selected - level_dbm_x16 neighbor then
      Some (<[Z.to_nat neighbor_index := ScanResult (level_dbm_x16 neighbor) (measurements neighbor) (sr_gain_state neighbor) true]> results)
    else Some results.
(** The loop over [scan_channels]: the first of the loudest. *)
Fixpoint select_channel (channels : list Z) (results : list channel_scan_result) (selected_channel : Z) : option Z :=
  match channels with
  | [] => Some selected_channel
  | channel_index :: channels =>
      result ← elem results channel_index;
      if fcch_excluded result then select_channel channels results selected_channel
      else if measurements result ==? 0 then select_channel channels results selected_channel
      else if level_dbm_x16 result <? FCCH_MIN_RX_LEVEL_DBM_X16 then select_channel channels results selected_channel
      else if selected_channel !=? GSM_CHANNEL_NONE then
        best ← elem results selected_channel;
        if level_dbm_x16 result <=? level_dbm_x16 best then select_channel channels results selected_channel
        else select_channel channels results channel_index
      else select_channel channels results channel_index
  end.
(** The candidate and the table after it; [Some None]: none is left. *)
Definition select_candidate (channels : list Z) (results : list channel_scan_result) (frequency_hz : Z) :
    option (option (gsm_l1_candidate * list channel_scan_result)) :=
  selected_channel ← select_channel channels results GSM_CHANNEL_NONE;
  if selected_channel ==? GSM_CHANNEL_NONE then Some None
  else
    selected ← elem results selected_channel;
    let results := <[Z.to_nat selected_channel := ScanResult (level_dbm_x16 selected) (measurements selected) (sr_gain_state selected) true]> results in
    results ← exclude_weaker_adjacent_fcch_channel selected_channel (-1) results;
    results ← exclude_weaker_adjacent_fcch_channel selected_channel 1 results;
    range ← find_scan_range selected_channel;
    arfcn ← channel_index_to_arfcn selected_channel;
    Some (Some (Candidate (sr_band range) selected_channel arfcn (sr_gain_state selected) (level_dbm_x16 selected) frequency_hz, results)).

(** *** The windows of the scan *)
Definition channel_scan_start_pass (scan_pass : Z) : Z :=
  let phase := scan_pass mod SCAN_WINDOW_STRIDE in
  if GSM_TRX_MONITOR_COUNT <? phase then phase - SCAN_WINDOW_STRIDE else phase.
Definition build_channel_scan_request (scan_window_start : Z) (scan_channels : list Z) : option (list Z) :=
  mapM (fun i => let position := scan_window_start + i in
    if (0 <=? position) && (position <? GSM_SCAN_CHANNEL_COUNT) then elem scan_channels position else Some GSM_CHANNEL_NONE)
    (seqZ 0 GSM_TRX_MONITOR_COUNT).

(** ** The functions *)
Section Code.
Context {D : Type} `{!Device D} `{B : Board} `{Hw : !I2cHw D gsm}.
#[local] Abbreviation M := (M D gsm).
Context (runtime_poll : M unit) (printf : message -> M unit) (BOARD_NAME : string) (DSP_USER_ROMS : list dsp_user_rom).

Definition modify (f : gsm -> gsm) : M unit := s ← get_app; put_app (f s).
Definition in_loop (f : tpu_loop -> tpu_loop) (s : gsm) : gsm := with_g_loop (f (g_loop s)) s.
Definition in_scan (f : channel_scan -> channel_scan) (s : gsm) : gsm := with_g_scan (f (g_scan s)) s.
Definition in_fcch (f : fcch_search -> fcch_search) (s : gsm) : gsm := with_g_fcch (f (g_fcch s)) s.
Definition in_sch (f : sch_search -> sch_search) (s : gsm) : gsm := with_g_sch (f (g_sch s)) s.
Definition poll_runtime : M unit := s ← get_app; when (rt_poll (runtime s)) runtime_poll.

(** *** Publishing frames *)
Definition clear_tpu_ram : M unit := foldM (fun _ i => wr32 (TPU_RAM i) 0) tt (seqZ 0 (TPU_RAM_SIZE / 4)).
Definition write_tpu_schedule (events : list tpu_event) (bank : Z) : M unit :=
  let event_base := bank_offset bank in
  foldM (fun i event =>
    let '(control, tick, trigger_low) := event_words event bank in
    let offset := TPU_TIMER_RAM_BASE + event_base + i * TPU_EVENT_WORD_COUNT in
    wr32 (TPU_RAM offset) control;; wr32 (TPU_RAM (offset + 1)) tick;; wr32 (TPU_RAM (offset + 2)) trigger_low;;
    mret (i + 1)) 0 events;;
  mret tt.
Definition write_initial_tpu_schedules : M unit :=
  write_tpu_schedule RF_POWER_UP_EVENTS 0;; write_tpu_schedule RF_INITIALIZATION_EVENTS 1.
Definition publish_tpu_event_window (bank event_count event_groups : Z) : M unit :=
  let first_event := bank_offset bank in
  wr32 TPU_EAPT (first_event + event_count * TPU_EVENT_WORD_COUNT);;
  wr32 TPU_EAPB first_event;;
  wr32 TPU_TGER event_groups.
(** [write_tpu_schedule] and [publish_tpu_event_window] of a table. *)
Definition publish_events (events : list tpu_event) (bank event_groups : Z) : M unit :=
  write_tpu_schedule events bank;; publish_tpu_event_window bank (Z.of_nat (length events)) event_groups.
Definition publish_rf_initialization_frame (bank event_groups : Z) : M unit := publish_events RF_INITIALIZATION_EVENTS bank event_groups.
Definition publish_idle_frame (bank : Z) : M unit := publish_events TPU_IDLE_EVENTS bank TPU_SEARCH_EVENT_GROUPS.
Definition publish_rf_transition_frame (bank : Z) : M bool :=
  s ← get_app;
  let frame := tpu_rf_transition_frame (g_loop s) in
  if frame <? TPU_RF_QUIET_FRAME_COUNT then
    publish_events SIGNAL_SEARCH_EVENTS bank (if frame ==? 0 then TPU_RF_FIRST_QUIET_EVENT_GROUPS else TPU_RF_QUIET_EVENT_GROUPS);;
    modify (in_loop (with_tpu_rf_transition_frame (frame + 1)));;
    mret true
  else if frame ==? TPU_RF_QUIET_FRAME_COUNT then
    publish_rf_initialization_frame bank TPU_RF_INITIALIZATION_PREFIX_EVENT_GROUPS;;
    modify (in_loop (with_tpu_rf_transition_frame (frame + 1)));;
    mret true
  else mret false.
Definition reset_telegrams : M unit :=
  gsm_trx_reset_telegram_table;; gsm_trx_write_telegram_table 0;; gsm_trx_write_telegram_table 1.

(** *** The loop *)
Definition tpu_loop_start : M unit :=
  write_initial_tpu_schedules;;
  reset_telegrams;;
  wr32 TPU_GSMCLK1 (1 .<< TPU_GSMCLK1_K_SHIFT);;
  wr32 TPU_GSMCLK2 (4 .<< TPU_GSMCLK2_L_SHIFT);;
  wr32 TPU_GSMCLK3 TPU_GSMCLK3_INIT;;
  wr32 TPU_OVERFLOW (TPU_FRAME_TICKS - 1);;
  wr32 TPU_OFFSET 0;;
  wr32 (TPU_INT 0) 0;;
  wr32 (TPU_SRC 0) (MOD_SRC_CLRR .| MOD_SRC_SRE);;
  wr32 (VIC_CON VIC_TPU_INT0_IRQ) 1;;
  modify (in_loop (fun l => TpuLoop TPU_LOOP_RF_POWER_UP false 0 0 (tpu_loop_running l)));;
  publish_tpu_event_window 0 (Z.of_nat (length RF_POWER_UP_EVENTS)) TPU_RF_POWER_UP_EVENT_GROUPS;;
  cpu_enable_irq true;;
  wr32 TPU_PARAM (TPU_PARAM_TINI .| TPU_PARAM_FDIS);;
  modify (in_loop (with_tpu_loop_running true)).
Definition tpu_loop_stop : M unit :=
  s ← get_app;
  if negb (tpu_loop_running (g_loop s)) then mret tt
  else
    wr32 TPU_PARAM 0;;
    wr32 (VIC_CON VIC_TPU_INT0_IRQ) 0;;
    wr32 (TPU_SRC 0) MOD_SRC_CLRR;;
    modify (in_loop (with_tpu_loop_running false)).
(** [while (!done && stopwatch_elapsed_ms(start) < timeout_ms) step();], where [step] may leave the
    function.  The result is whether it did not. *)
Definition wait_until (condition : M bool) (timeout_ms : Z) (step : M bool) : M bool :=
  start ← stopwatch_get;
  iter (fun _ : unit =>
    reached ← condition;
    if reached : bool then mret (inr true)
    else
      elapsed ← stopwatch_elapsed_ms start;
      if elapsed <? timeout_ms then go ← step; mret (if go : bool then inl tt else inr false) else mret (inr true)) tt.
Definition poll_step : M bool := poll_runtime;; mret true.
Definition gsm_l1_trx_init : M bool :=
  s ← get_app;
  if negb (l1_initialized s) then mret false
  else
    gsm_board_enable_transceiver_power;;
    gsm_trx_init;;
    tpu_loop_start;;
    s ← get_app;
    wait_until (s ← get_app; mret (rf_initialization_complete (g_loop s))) (command_timeout_ms (runtime s)) poll_step;;
    s ← get_app;
    if negb (rf_initialization_complete (g_loop s)) then mret false
    else
      idle ← gsm_trx_is_idle;
      if negb idle then mret false
      else
        frequency ← gsm_board_get_frequency_correction_hz;
        gsm_board_set_frequency_correction_hz frequency;;
        modify (with_trx_initialized true);;
        mret true.

(** *** The scan *)
Definition configure_monitoring_frame (bank : Z) (channels : list Z) : M unit :=
  foldM (fun _ i =>
    channel ← defined (elem channels i);
    gain_state ← (if channel !=? GSM_CHANNEL_NONE then
                    s ← get_app; result ← defined (elem (scan_results (g_scan s)) channel); mret (sr_gain_state result)
                  else mret gsm_board_get_initial_gain_state);
    modify (in_scan (fun s => with_scan_request_gain_states (<[Z.to_nat i := gain_state]> (scan_request_gain_states s)) s)))
    tt (seqZ 0 GSM_TRX_MONITOR_COUNT);;
  s ← get_app;
  gsm_trx_configure_monitoring bank channels (scan_request_gain_states (g_scan s)).
Definition reset_monitor_results : M unit :=
  foldM (fun _ i => wr_shared (DSP_MON_VALUES_OFFSET + i) 0xFFFF) tt (seqZ 0 DSP_MON_VALUE_COUNT).
(** What a measurement makes of a channel's result. *)
Definition measure (calibration : receiver_calibration) (channel_index gain_state raw : Z) (result : channel_scan_result) : option channel_scan_result :=
  range ← find_scan_range channel_index;
  next_gain_state ← gsm_board_calculate_next_gain_state calibration (sr_band range) channel_index gain_state raw;
  level ← gsm_board_calculate_rx_level_dbm_x16 calibration (sr_band range) channel_index gain_state raw;
  Some (ScanResult (i16 level) (u32 (measurements result + 1)) next_gain_state (fcch_excluded result)).
Definition collect_monitor_results (channels : list Z) : M unit :=
  foldM (fun _ i =>
    raw ← rd_shared (DSP_MON_VALUES_OFFSET + DSP_MON_RESULT_FIRST + i);
    if raw ==? 0xFFFF then mret tt
    else
      channel ← defined (elem channels i);
      (if channel !=? GSM_CHANNEL_NONE then
         s ← get_app;
         result ← defined (elem (scan_results (g_scan s)) channel);
         gain_state ← defined (elem (scan_request_gain_states (g_scan s)) i);
         result ← defined (measure (bs_calibration (g_board s)) channel gain_state raw result);
         modify (in_scan (fun s => with_scan_results (<[Z.to_nat channel := result]> (scan_results s)) s))
       else mret tt);;
      wr_shared (DSP_MON_VALUES_OFFSET + DSP_MON_RESULT_FIRST + i) (raw .| 0x8000)) tt (seqZ 0 GSM_TRX_MONITOR_COUNT).
(** The end of [channel_scan_advance]: the next window, or the end of the scan. *)
Definition next_window : M bool :=
  s ← get_app;
  let scan := g_scan s in
  let request start :=
    channels ← defined (build_channel_scan_request start (scan_channels scan));
    modify (in_scan (fun s => with_scan_request_channels channels (with_scan_window_start (start + SCAN_WINDOW_STRIDE) s)));;
    mret true in
  if GSM_SCAN_CHANNEL_COUNT <=? scan_window_start scan then
    let pass := u32 (scan_pass scan + 1) in
    modify (in_scan (with_scan_pass pass));;
    if pass ==? SCAN_PASS_COUNT then modify (in_scan (with_receiver_scan_state RECEIVER_SCAN_COMPLETE));; mret false
    else request (channel_scan_start_pass pass)
  else request (scan_window_start scan).
Definition channel_scan_advance : M bool :=
  s ← get_app;
  match receiver_scan_state (g_scan s) with
  | RECEIVER_SCAN_ACTIVE =>
      if negb (scan_request_repeated (g_scan s)) then modify (in_scan (with_scan_request_repeated true));; mret true
      else
        collect_monitor_results (scan_request_channels (g_scan s));;
        modify (in_scan (with_scan_request_repeated false));;
        next_window
  | RECEIVER_SCAN_REQUESTED =>
      modify (in_scan (fun s => with_receiver_scan_state RECEIVER_SCAN_ACTIVE (with_scan_pass 0 (with_scan_request_repeated false
        (with_scan_window_start (channel_scan_start_pass 0) s)))));;
      next_window
  | RECEIVER_SCAN_IDLE | RECEIVER_SCAN_COMPLETE => mret false
  end.

(** *** The frequency-correction burst *)
Definition reset_fcch_result : M unit :=
  foldM (fun _ i => wr_shared (DSP_FCCH_STATUS_OFFSET + i) (DSP_FCCH_SENTINEL_BASE + i)) tt (seqZ 0 DSP_FCCH_RESULT_WORD_COUNT).
Definition configure_acquisition_receiver (bank : Z) : M unit :=
  s ← get_app;
  gsm_trx_configure_acquisition bank (c_channel_index (current_candidate s)) (c_gain_state (current_candidate s)).
Definition read_fcch_result : M fcch_result :=
  flags ← rd32 DSP_COM_STATUS;
  status ← rd_shared DSP_FCCH_STATUS_OFFSET;
  start ← rd_shared DSP_FCCH_START_OFFSET;
  quality ← rd_shared DSP_FCCH_QUALITY_OFFSET;
  rms ← rd_shared DSP_FCCH_RMS_OFFSET;
  frequency ← rd_shared DSP_FCCH_FREQUENCY_OFFSET;
  mret (FcchResult status start quality (i16 rms) (i16 frequency) (u16 (flags .& DSP_FCCH_COMMUNICATION_FLAGS))).
Definition collect_fcch_result : M unit :=
  result ← read_fcch_result;
  modify (in_fcch (fun s => with_fcch_search_result result (with_fcch_window (u32 (fcch_window s + 1)) s)));;
  if is_fcch_result_valid result then
    modify (in_fcch (fun s =>
      with_fcch_detected true
      (with_fcch_correction_tick (fcch_start_to_tpu_phase_tick (f_start result))
      (with_fcch_result_afc_frequency_hz (fcch_reference_afc_frequency_hz s + f_frequency result)
      (with_fcch_scan_state FCCH_SCAN_COMPLETE s)))))
  else
    s ← get_app;
    if fcch_window (g_fcch s) !=? FCCH_SEARCH_WINDOW_COUNT then mret tt
    else modify (in_fcch (with_fcch_scan_state FCCH_SCAN_COMPLETE)).
Definition set_tpu_correction : M unit := s ← get_app; wr32 TPU_CORRECTION (u32 (fcch_correction_tick (g_fcch s) - 1)).
Definition collect_fcch_refinement_result : M unit :=
  result ← read_fcch_result;
  modify (in_fcch (fun s => with_fcch_refinement_result result (with_fcch_refinement_attempt_count (u32 (fcch_refinement_attempt_count s + 1)) s)));;
  if is_fcch_result_valid result then
    frequency ← gsm_board_get_frequency_correction_hz;
    gsm_board_set_frequency_correction_hz (frequency + f_frequency result);;
    modify (in_fcch (with_fcch_correction_tick (fcch_start_to_tpu_phase_tick (f_start result))));;
    set_tpu_correction;;
    modify (in_fcch (with_fcch_scan_state FCCH_SCAN_REFINEMENT_COMPLETE))
  else
    s ← get_app;
    modify (in_fcch (with_fcch_scan_state
      (if fcch_refinement_attempt_count (g_fcch s) ==? FCCH_REFINEMENT_ATTEMPT_COUNT then FCCH_SCAN_REFINEMENT_FAILED
       else FCCH_SCAN_REFINEMENT_COMMAND_REQUESTED))).
Definition publish_fcch_frame (bank event_groups : Z) : M unit :=
  configure_acquisition_receiver bank;; publish_events FCCH_EVENTS bank event_groups.

(** *** The synchronisation burst *)
Definition reset_sch_result : M unit :=
  foldM (fun _ i => wr_shared (DSP_SCH_METRIC_OFFSET + i) (DSP_SCH_SENTINEL_BASE + i)) tt (seqZ 0 DSP_SCH_RESULT_WORD_COUNT).
Definition publish_sch_frame (bank : Z) : M unit :=
  set_tpu_correction;;
  configure_acquisition_receiver bank;;
  reset_sch_result;;
  publish_events SCH_EVENTS bank TPU_SCH_EVENT_GROUPS.
Definition collect_sch_result : M bool :=
  flags ← rd32 DSP_COM_STATUS;
  metric ← rd_shared DSP_SCH_METRIC_OFFSET;
  status ← rd_shared DSP_SCH_STATUS_OFFSET;
  data0 ← rd_shared DSP_SCH_DATA_OFFSET;
  data1 ← rd_shared (DSP_SCH_DATA_OFFSET + 1);
  position ← rd_shared DSP_SCH_EQUALIZER_POSITION_OFFSET;
  let flags := u16 (flags .& DSP_SCH_COMMUNICATION_FLAG) in
  modify (in_sch (fun s => with_sch_search_result (SchResult metric status (data0, data1) (i16 position) flags)
    (with_sch_attempt_count (u32 (sch_attempt_count s + 1)) s)));;
  s ← get_app;
  mret (if (flags ==? 0) && (status ==? 0) then true else sch_attempt_count (g_sch s) ==? SCH_ATTEMPT_COUNT).
Definition set_loop_phase (phase : loop_phase) : M unit := modify (in_loop (with_tpu_loop_phase phase)).
Definition set_fcch_state (state : fcch_state) : M unit := modify (in_fcch (with_fcch_scan_state state)).
Definition set_fcch_phase (phase : fcch_phase) : M unit := modify (in_fcch (with_fcch_tpu_phase phase)).
Definition sch_scan_start (bank : Z) : M unit :=
  set_loop_phase TPU_LOOP_SCH;;
  modify (in_sch (with_sch_tpu_phase SCH_TPU_RECEIVE));;
  publish_sch_frame bank.
Definition sch_candidate_start (bank : Z) : M unit :=
  modify (in_fcch (with_fcch_refinement_attempt_count 0));;
  modify (in_sch (with_sch_attempt_count 0));;
  s ← get_app;
  gsm_board_set_frequency_correction_hz (fcch_result_afc_frequency_hz (g_fcch s));;
  set_tpu_correction;;
  modify (in_sch (with_sch_scan_state SCH_SCAN_ACTIVE));;
  set_loop_phase TPU_LOOP_FCCH;;
  set_fcch_state FCCH_SCAN_REFINEMENT_BB_OFF_REQUESTED;;
  set_fcch_phase FCCH_TPU_RF_QUIET_FIRST;;
  reset_telegrams;;
  publish_rf_initialization_frame bank TPU_RF_QUIET_EVENT_GROUPS.
Definition fcch_scan_start (bank : Z) : M unit :=
  set_loop_phase TPU_LOOP_FCCH;;
  set_fcch_state FCCH_SCAN_BB_OFF_REQUESTED;;
  modify (in_fcch (fun s => with_fcch_window 0 (with_fcch_correction_tick 0 s)));;
  frequency ← gsm_board_get_frequency_correction_hz;
  modify (in_fcch (with_fcch_reference_afc_frequency_hz frequency));;
  set_fcch_phase FCCH_TPU_RF_QUIET_FIRST;;
  reset_telegrams;;
  publish_rf_initialization_frame bank TPU_RF_QUIET_EVENT_GROUPS.
Definition sch_scan_complete (bank : Z) : M unit :=
  modify (in_sch (with_sch_scan_state SCH_SCAN_COMPLETE));;
  set_loop_phase TPU_LOOP_COMPLETE;;
  publish_idle_frame bank.

(** *** The interrupt *)
Definition publish_next_search_frame (bank event_groups : Z) : M unit :=
  searching ← channel_scan_advance;
  s ← get_app;
  if searching : bool then
    configure_monitoring_frame bank (scan_request_channels (g_scan s));;
    write_tpu_schedule SIGNAL_SEARCH_EVENTS bank;;
    wr_shared DSP_MON_INDEX_OFFSET DSP_MON_RESULT_FIRST;;
    publish_tpu_event_window bank (Z.of_nat (length SIGNAL_SEARCH_EVENTS)) event_groups
  else if bool_decide (receiver_scan_state (g_scan s) = RECEIVER_SCAN_COMPLETE /\ fcch_scan_state (g_fcch s) = FCCH_SCAN_REQUESTED) then
    fcch_scan_start bank
  else publish_idle_frame bank.
Definition publish_next_fcch_frame (bank : Z) : M unit :=
  s ← get_app;
  let state := fcch_scan_state (g_fcch s) in
  let go phase frame := set_fcch_phase phase;; frame in
  match fcch_tpu_phase (g_fcch s) with
  | FCCH_TPU_REFINEMENT_PREPARE =>
      if bool_decide (state = FCCH_SCAN_REFINEMENT_COMMAND_REQUESTED) then publish_fcch_frame bank TPU_FCCH_HOLD_EVENT_GROUPS
      else go FCCH_TPU_REFINEMENT_START (publish_fcch_frame bank TPU_FCCH_START_EVENT_GROUPS)
  | FCCH_TPU_REFINEMENT_START => go FCCH_TPU_REFINEMENT_WAIT_RESULT (publish_fcch_frame bank TPU_FCCH_HOLD_EVENT_GROUPS)
  | FCCH_TPU_REFINEMENT_WAIT_RESULT =>
      status ← rd32 DSP_COM_STATUS;
      if (status .& DSP_FCCH_COMMUNICATION_FLAGS) !=? 0 then publish_fcch_frame bank TPU_FCCH_HOLD_EVENT_GROUPS
      else
        collect_fcch_refinement_result;;
        s ← get_app;
        match fcch_scan_state (g_fcch s) with
        | FCCH_SCAN_REFINEMENT_COMPLETE => sch_scan_start bank
        | FCCH_SCAN_REFINEMENT_FAILED => sch_scan_complete bank
        | _ => go FCCH_TPU_REFINEMENT_PREPARE (publish_fcch_frame bank TPU_FCCH_HOLD_EVENT_GROUPS)
        end
  | FCCH_TPU_RF_QUIET_FIRST =>
      if bool_decide (state = FCCH_SCAN_BB_OFF_REQUESTED \/ state = FCCH_SCAN_REFINEMENT_BB_OFF_REQUESTED) then
        publish_rf_initialization_frame bank TPU_RF_QUIET_EVENT_GROUPS
      else go FCCH_TPU_RF_QUIET_SECOND (publish_rf_initialization_frame bank TPU_RF_QUIET_EVENT_GROUPS)
  | FCCH_TPU_RF_QUIET_SECOND => go FCCH_TPU_RF_INITIALIZATION (publish_rf_initialization_frame bank TPU_INITIALIZATION_EVENT_GROUPS)
  | FCCH_TPU_RF_INITIALIZATION =>
      if bool_decide (sch_scan_state (g_sch s) = SCH_SCAN_ACTIVE) then
        go FCCH_TPU_REFINEMENT_PREPARE (publish_fcch_frame bank TPU_FCCH_HOLD_EVENT_GROUPS)
      else go FCCH_TPU_PREPARE_FIRST (publish_fcch_frame bank TPU_FCCH_PREPARE_EVENT_GROUPS)
  | FCCH_TPU_PREPARE_FIRST =>
      go FCCH_TPU_PREPARE_SECOND (set_fcch_state FCCH_SCAN_COMMAND_REQUESTED;; publish_fcch_frame bank TPU_FCCH_PREPARE_EVENT_GROUPS)
  | FCCH_TPU_PREPARE_SECOND =>
      if bool_decide (state = FCCH_SCAN_COMMAND_REQUESTED) then publish_fcch_frame bank TPU_FCCH_HOLD_EVENT_GROUPS
      else go FCCH_TPU_START (publish_fcch_frame bank TPU_FCCH_START_EVENT_GROUPS)
  | FCCH_TPU_START => go FCCH_TPU_HOLD_FIRST (publish_fcch_frame bank TPU_FCCH_HOLD_EVENT_GROUPS)
  | FCCH_TPU_HOLD_FIRST => go FCCH_TPU_HOLD_SECOND (publish_fcch_frame bank TPU_FCCH_HOLD_EVENT_GROUPS)
  | FCCH_TPU_HOLD_SECOND => go FCCH_TPU_FINISH (publish_fcch_frame bank TPU_FCCH_PREPARE_EVENT_GROUPS)
  | FCCH_TPU_FINISH =>
      status ← rd32 DSP_COM_STATUS;
      if (status .& DSP_FCCH_COMMUNICATION_FLAGS) !=? 0 then publish_fcch_frame bank TPU_FCCH_HOLD_EVENT_GROUPS
      else
        collect_fcch_result;;
        s ← get_app;
        match fcch_scan_state (g_fcch s) with
        | FCCH_SCAN_COMPLETE => set_loop_phase TPU_LOOP_COMPLETE;; publish_idle_frame bank
        | FCCH_SCAN_BB_OFF_REQUESTED =>
            go FCCH_TPU_RF_QUIET_FIRST (reset_telegrams;; publish_rf_initialization_frame bank TPU_RF_QUIET_EVENT_GROUPS)
        | _ => go FCCH_TPU_RETRY_DELAY (publish_idle_frame bank)
        end
  | FCCH_TPU_RETRY_DELAY =>
      go FCCH_TPU_PREPARE_SECOND (set_fcch_state FCCH_SCAN_COMMAND_REQUESTED;; publish_fcch_frame bank TPU_FCCH_PREPARE_EVENT_GROUPS)
  end.
Definition publish_next_sch_frame (bank : Z) : M unit :=
  s ← get_app;
  let go phase := modify (in_sch (with_sch_tpu_phase phase)) in
  match sch_tpu_phase (g_sch s) with
  | SCH_TPU_RECEIVE =>
      status ← rd32 DSP_COM_STATUS;
      if (status .& DSP_SCH_COMMUNICATION_FLAG) !=? 0 then publish_idle_frame bank
      else
        wr32 TPU_CORRECTION (TPU_SCH_RESULT_BOUNDARY_TICK - 1);;
        go SCH_TPU_RESULT_BOUNDARY;;
        publish_idle_frame bank
  | SCH_TPU_RESULT_BOUNDARY =>
      finished ← collect_sch_result;
      if negb finished then go SCH_TPU_RETRY_DELAY;; publish_idle_frame bank
      else sch_scan_complete bank
  | SCH_TPU_RETRY_DELAY =>
      set_loop_phase TPU_LOOP_FCCH;;
      set_fcch_state FCCH_SCAN_REFINEMENT_COMMAND_REQUESTED;;
      set_fcch_phase FCCH_TPU_REFINEMENT_PREPARE;;
      publish_fcch_frame bank TPU_FCCH_HOLD_EVENT_GROUPS
  end.
Definition publish_next_tpu_frame : M unit :=
  s ← get_app;
  let repeat_transition_bank := bool_decide (tpu_loop_phase (g_loop s) = TPU_LOOP_READY) && (tpu_rf_transition_frame (g_loop s) ==? 1) in
  when (negb repeat_transition_bank) (modify (in_loop (fun l => with_tpu_schedule_bank (tpu_schedule_bank l .^ 1) l)));;
  s ← get_app;
  let bank := tpu_schedule_bank (g_loop s) in
  match tpu_loop_phase (g_loop s) with
  | TPU_LOOP_RF_POWER_UP =>
      set_loop_phase TPU_LOOP_RF_INITIALIZATION;; publish_rf_initialization_frame bank TPU_INITIALIZATION_EVENT_GROUPS
  | TPU_LOOP_READY =>
      published ← publish_rf_transition_frame bank;
      if published : bool then mret tt
      else if bool_decide (receiver_scan_state (g_scan s) = RECEIVER_SCAN_REQUESTED) then
        set_loop_phase TPU_LOOP_SEARCH;; publish_next_search_frame bank TPU_FIRST_SEARCH_EVENT_GROUPS
      else publish_idle_frame bank
  | TPU_LOOP_SEARCH => publish_next_search_frame bank TPU_SEARCH_EVENT_GROUPS
  | TPU_LOOP_FCCH => publish_next_fcch_frame bank
  | TPU_LOOP_SCH => publish_next_sch_frame bank
  | TPU_LOOP_COMPLETE =>
      if bool_decide (sch_scan_state (g_sch s) = SCH_SCAN_REQUESTED) then sch_candidate_start bank else publish_idle_frame bank
  | TPU_LOOP_RF_INITIALIZATION => publish_idle_frame bank
  end.
Definition gsm_l1_tpu_irq : M unit :=
  src ← rd32 (TPU_SRC 0);
  wr32 (TPU_SRC 0) (src .| MOD_SRC_CLRR);;
  s ← get_app;
  when (bool_decide (tpu_loop_phase (g_loop s) = TPU_LOOP_RF_INITIALIZATION))
    (modify (in_loop (fun l => with_rf_initialization_complete true (with_tpu_loop_phase TPU_LOOP_READY l))));;
  publish_next_tpu_frame.

(** *** The DSP's commands *)
Definition wait_for_dsp_communication (flags : Z) : M bool :=
  s ← get_app;
  wait_until (status ← rd32 DSP_COM_STATUS; mret ((status .& flags) ==? 0)) (command_timeout_ms (runtime s)) poll_step;;
  status ← rd32 DSP_COM_STATUS;
  mret ((status .& flags) ==? 0).
Definition signal_dsp_communication (flags : Z) : M unit :=
  wr32 DSP_COM_SET flags;; wr32 SCU_DSP_INT (BIT 0);; wr32 SCU_DSP_INT 0.
Definition gsm_dsp_command_execute (command : Z) (parameters : list Z) : M bool :=
  dsp_runtime_command_start 0 command parameters;; wait_for_dsp_communication (BIT 0).
Definition dsp_execute_baseband_off : M bool :=
  sequence ← rd_shared DSP_BB_OFF_SEQUENCE_OFFSET;
  wr_shared DSP_BB_OFF_SEQUENCE_OFFSET (u16 ((sequence .& 0xFF00) + 1));;
  gsm_dsp_command_execute DSP_COMMAND_BB_OFF [].
Definition dsp_fcch_command_start : M unit :=
  reset_fcch_result;; dsp_runtime_command_start 0 DSP_COMMAND_FC_INIT [1; 115; 33].
Definition dsp_fcch_refinement_command_start : M unit :=
  reset_fcch_result;; dsp_runtime_command_start 0 DSP_COMMAND_FC_INIT [0; 115; 35].
Definition execute_requested_fcch_command : M bool :=
  s ← get_app;
  match fcch_scan_state (g_fcch s) with
  | FCCH_SCAN_BB_OFF_REQUESTED =>
      ok ← dsp_execute_baseband_off;
      if negb ok then mret false else set_fcch_state FCCH_SCAN_ACTIVE;; mret true
  | FCCH_SCAN_REFINEMENT_BB_OFF_REQUESTED =>
      ok ← dsp_execute_baseband_off;
      if negb ok then mret false
      else dsp_fcch_refinement_command_start;; set_fcch_state FCCH_SCAN_REFINEMENT_ACTIVE;; mret true
  | FCCH_SCAN_COMMAND_REQUESTED => dsp_fcch_command_start;; set_fcch_state FCCH_SCAN_ACTIVE;; mret true
  | FCCH_SCAN_REFINEMENT_COMMAND_REQUESTED =>
      dsp_fcch_refinement_command_start;; set_fcch_state FCCH_SCAN_REFINEMENT_ACTIVE;; mret true
  | FCCH_SCAN_IDLE | FCCH_SCAN_REQUESTED | FCCH_SCAN_ACTIVE | FCCH_SCAN_REFINEMENT_ACTIVE | FCCH_SCAN_REFINEMENT_COMPLETE
  | FCCH_SCAN_REFINEMENT_FAILED | FCCH_SCAN_COMPLETE => mret true
  end.

(** *** The receiver *)
Definition all_ok (steps : list (M bool)) : M bool := foldr and_then (mret true) steps.
Definition dsp_channel_decoder_profiles_init : M bool :=
  all_ok (map (gsm_dsp_command_execute DSP_COMMAND_DEC_INIT) PROFILES).
Definition dsp_receiver_init : M bool :=
  rom ← dsp_user_rom_start printf BOARD_NAME DSP_USER_ROMS;
  match rom with
  | None => mret false
  | Some _ =>
      stopwatch_usleep_wd 1000;;
      all_ok [
        dsp_channel_decoder_profiles_init;
        gsm_dsp_command_execute DSP_COMMAND_MODU_INIT MODU_INIT_PARAMETERS;
        (wr_shared DSP_RF_ADAPT_EXTENSION_OFFSET DSP_RF_ADAPT_EXTENSION_VALUE;;
         gsm_dsp_command_execute GSM_DSP_COMMAND_RF_ADAPT RF_ADAPT_PARAMETERS);
        (wr_shared DSP_RUNTIME_CONFIG_OFFSET DSP_RUNTIME_CONFIG_VALUE;;
         gsm_dsp_command_execute DSP_COMMAND_IDLE []);
        gsm_dsp_command_execute DSP_COMMAND_IQ_SWAP_1 IQ_SWAP_PARAMETERS;
        gsm_dsp_command_execute DSP_COMMAND_IQ_SWAP_2 IQ_SWAP_PARAMETERS;
        gsm_dsp_command_execute DSP_COMMAND_MODU_INIT MODU_INIT_PARAMETERS;
        gsm_dsp_command_execute DSP_COMMAND_IDLE [];
        (wr_shared DSP_MON_INDEX_OFFSET 0;; reset_monitor_results;; mret true)]
  end.

(** *** The interface [gsm-l1.h]

    A null pointer is [None]; an output is part of the result, which starts with the returned [bool]. *)
Definition set_channel_result (channel_index : Z) (result : channel_scan_result) : M unit :=
  s ← get_app;
  _ ← defined (elem (scan_results (g_scan s)) channel_index);
  modify (in_scan (with_scan_results (<[Z.to_nat channel_index := result]> (scan_results (g_scan s))))).
Definition select_next_fcch_candidate : M (option gsm_l1_candidate) :=
  s ← get_app;
  frequency ← gsm_board_get_frequency_correction_hz;
  selected ← defined (select_candidate (scan_channels (g_scan s)) (scan_results (g_scan s)) frequency);
  match selected with
  | None => mret None
  | Some (candidate, results) => modify (in_scan (with_scan_results results));; mret (Some candidate)
  end.
(** The loop that selects candidates while there is room for them. *)
Definition select_candidates (capacity : Z) : M (list gsm_l1_candidate) :=
  iter (fun found : list gsm_l1_candidate =>
    if Z.of_nat (length found) <? capacity then
      candidate ← select_next_fcch_candidate;
      mret (match candidate with Some candidate => inl (found ++ [candidate]) | None => inr found end)
    else mret (inr found)) [].
(** [candidates] and [count]: whether the pointers are there. *)
Definition gsm_l1_scan_channels (candidates count : bool) (capacity timeout_ms : Z) : M (bool * list gsm_l1_candidate) :=
  s ← get_app;
  if negb (trx_initialized s) || negb candidates || negb count || (capacity ==? 0) then mret (false, [])
  else
    modify (in_sch (with_sch_scan_state SCH_SCAN_IDLE));;
    foldM (fun _ channel_index => set_channel_result channel_index (ScanResult 0 0 gsm_board_get_initial_gain_state false))
      tt (scan_channels (g_scan s));;
    modify (in_scan (with_receiver_scan_state RECEIVER_SCAN_REQUESTED));;
    wait_until (s ← get_app; mret (bool_decide (receiver_scan_state (g_scan s) = RECEIVER_SCAN_COMPLETE))) timeout_ms poll_step;;
    s ← get_app;
    results ← defined (mapM (elem (scan_results (g_scan s))) (scan_channels (g_scan s)));
    if existsb (fun result => measurements result ==? 0) results then mret (false, [])
    else
      found ← select_candidates capacity;
      set_fcch_state FCCH_SCAN_IDLE;;
      mret (true, found).
(** The wait of the next two: the state is watched, commands are executed. *)
Definition wait_executing (reached : gsm -> bool) (timeout_ms : Z) : M bool :=
  wait_until (s ← get_app; mret (reached s)) timeout_ms
    (ok ← execute_requested_fcch_command; if negb ok then mret false else poll_step).
Definition gsm_l1_search_fcch (candidate : option gsm_l1_candidate) (result : bool) (timeout_ms : Z) : M (bool * option gsm_l1_fcch_result) :=
  s ← get_app;
  match candidate with
  | Some candidate =>
      if negb (trx_initialized s) || negb result then mret (false, None)
      else match find_scan_range (c_channel_index candidate) with
      | None => mret (false, None)
      | Some _ =>
          let empty := L1Fcch false 0 zero_fcch 0 0 in
          modify (with_current_candidate candidate);;
          modify (in_fcch (fun s => with_fcch_detected false (with_fcch_window 0 (with_fcch_result_afc_frequency_hz 0
            (with_fcch_scan_state FCCH_SCAN_REQUESTED s)))));;
          set_loop_phase TPU_LOOP_SEARCH;;
          gsm_board_set_frequency_correction_hz (c_afc_frequency_hz candidate);;
          signal_dsp_communication DSP_FCCH_PREPARE_COMMUNICATION_FLAG;;
          ok ← wait_executing (fun s => bool_decide (fcch_scan_state (g_fcch s) = FCCH_SCAN_COMPLETE)) timeout_ms;
          if negb ok then mret (false, Some empty)
          else
            s ← get_app;
            let f := g_fcch s in
            if negb (bool_decide (fcch_scan_state f = FCCH_SCAN_COMPLETE)) then mret (false, Some empty)
            else if fcch_window f ==? 0 then mret (true, Some (L1Fcch (fcch_detected f) (fcch_window f) zero_fcch 0 0))
            else mret (true, Some (L1Fcch (fcch_detected f) (fcch_window f) (fcch_search_result f) (fcch_correction_tick f) (fcch_result_afc_frequency_hz f)))
      end
  | None => mret (false, None)
  end.
Definition gsm_l1_decode_sch (candidate : option gsm_l1_candidate) (fcch : option gsm_l1_fcch_result) (result : bool) (timeout_ms : Z) :
    M (bool * option gsm_l1_sch_result) :=
  s ← get_app;
  match candidate, fcch with
  | Some candidate, Some fcch =>
      if negb (trx_initialized s) || negb result || negb (lf_detected fcch) then mret (false, None)
      else match find_scan_range (c_channel_index candidate) with
      | None => mret (false, None)
      | Some _ =>
          let empty := L1Sch false 0 0 0 0 0 0 0 0 0 in
          modify (with_current_candidate candidate);;
          modify (in_fcch (fun s => with_fcch_correction_tick (lf_phase_tick fcch) (with_fcch_result_afc_frequency_hz (lf_afc_frequency_hz fcch) s)));;
          modify (in_sch (with_sch_scan_state SCH_SCAN_REQUESTED));;
          set_loop_phase TPU_LOOP_COMPLETE;;
          ok ← wait_executing (fun s => bool_decide (sch_scan_state (g_sch s) = SCH_SCAN_COMPLETE)) timeout_ms;
          if negb ok then mret (false, Some empty)
          else
            s ← get_app;
            if negb (bool_decide (sch_scan_state (g_sch s) = SCH_SCAN_COMPLETE)) then mret (false, Some empty)
            else
              let r := sch_search_result (g_sch s) in
              let refinements := fcch_refinement_attempt_count (g_fcch s) in
              let attempts := sch_attempt_count (g_sch s) in
              if (attempts !=? 0) && (s_communication_flags r ==? 0) && (s_status r ==? 0) then
                let data := fst (s_data r) .| u32 (snd (s_data r) .<< 16) in
                mret (true, Some (L1Sch true refinements attempts (s_metric r) (s_status r) data (s_equalizer_position r)
                  (s_communication_flags r) ((data .>> 2) .& 0x3F) (sch_data_to_frame_number data)))
              else mret (true, Some (L1Sch false refinements attempts 0 0 0 0 0 0 0))
      end
  | _, _ => mret (false, None)
  end.
Definition gsm_l1_baseband_init (runtime_config : option gsm_l1_runtime) : M bool :=
  match runtime_config with
  | None => mret false
  | Some config =>
      if command_timeout_ms config ==? 0 then mret false
      else
        modify (fun s => with_l1_initialized false (with_trx_initialized false (with_runtime config s)));;
        modify (in_scan (with_scan_channels build_channel_scan_order));;
        ok ← gsm_board_init printf;
        if negb ok then mret false
        else
          modify (with_dsp_clock_enabled true);;
          clear_tpu_ram;;
          ok ← dsp_receiver_init;
          if negb ok then mret false
          else modify (with_l1_initialized true);; mret true
  end.
Definition gsm_l1_deinit : M unit :=
  tpu_loop_stop;;
  s ← get_app;
  when (dsp_clock_enabled s) (wr32 DSP_COM_CLEAR 0xFFFF;; dsp_hw_reset;; mret tt);;
  modify (fun s => with_dsp_clock_enabled false (with_l1_initialized false (with_trx_initialized false (with_runtime zero_runtime s)))).
End Code.
