(* ===== verification/GsmFrame.v ===== *)
(** * Layer 1 of the GSM receiver: numbers

    The frame number of a synchronisation burst ([sch_data_to_frame_number]) and the position
    of the frequency-correction burst in the time processor's frame
    ([fcch_start_to_tpu_phase_tick]). *)
From S2P Require Import Prelude Machine Board Regs Smbus GsmRegs GsmChannel GsmTrx GsmCalib GsmBoard GsmState GsmL1.

(** ** The synchronisation burst *)
(** Frames are numbered modulo 2048 * 26 * 51.  The burst has 25 bits: the base station's code and
    the reduced frame number T1, T2, T3' (3GPP TS 45.002), in this order of bits. *)
Definition FRAME_COUNT : Z := 2048 * 26 * 51.
Definition sch_word (bsic t1 t2 t3_prime : Z) : Z :=
  t1 / 512 + bsic * 2 ^ 2 + (t1 / 2) mod 256 * 2 ^ 8 + t3_prime / 2 * 2 ^ 16 + t2 * 2 ^ 18 + t1 mod 2 * 2 ^ 23 + t3_prime mod 2 * 2 ^ 24.
Definition sch_data (bsic fn : Z) : Z := sch_word bsic (fn / (26 * 51)) (fn mod 26) ((fn mod 51 - 1) / 10).

Section Fields.
Context (bsic t1 t2 t3 : Z) (Hb : 0 <= bsic < 64) (H1 : 0 <= t1 < 2048) (H2 : 0 <= t2 < 32) (H3 : 0 <= t3 < 8).
#[local] Abbreviation data := (sch_word bsic t1 t2 t3).
Lemma sch_word_parts : exists a b c e f,
  t1 = 512 * a + 2 * b + c /\ t3 = 2 * e + f /\ 0 <= a < 4 /\ 0 <= b < 256 /\ 0 <= c < 2 /\ 0 <= e < 4 /\ 0 <= f < 2 /\
  data = a + bsic * 4 + b * 256 + e * 65536 + t2 * 262144 + c * 8388608 + f * 16777216.
Proof.
  exists (t1 / 512), ((t1 / 2) mod 256), (t1 mod 2), (t3 / 2), (t3 mod 2). unfold sch_word.
  change (2 ^ 2) with 4. change (2 ^ 8) with 256. change (2 ^ 16) with 65536. change (2 ^ 18) with 262144.
  change (2 ^ 23) with 8388608. change (2 ^ 24) with 16777216.
  pose proof (Z.div_div t1 2 256 ltac:(lia) ltac:(lia)) as E. change (2 * 256) with 512 in E.
  pose proof (Z.div_mod t1 2 ltac:(lia)). pose proof (Z.div_mod (t1 / 2) 256 ltac:(lia)). pose proof (Z.div_mod t3 2 ltac:(lia)).
  pose proof (Z.mod_pos_bound (t1 / 2) 256 ltac:(lia)). pose proof (Z.mod_pos_bound t1 2 ltac:(lia)). pose proof (Z.mod_pos_bound t3 2 ltac:(lia)). lia.
Qed.
(** [(data >> k) & (2^n - 1)]. *)
Lemma field_div x k n : 0 <= k -> 0 <= n -> (x .>> k) .& Z.ones n = x / 2 ^ k mod 2 ^ n.
Proof. intros. by rewrite Z.land_ones, Z.shiftr_div_pow2. Qed.
(** The masks that start above bit 0. *)
Lemma field_high x i n : 0 <= i -> 0 <= n -> x .& (Z.ones n .<< i) = x / 2 ^ i mod 2 ^ n * 2 ^ i.
Proof.
  intros Hi Hn. rewrite <- Z.land_ones, <- Z.shiftr_div_pow2, <- Z.shiftl_mul_pow2 by lia.
  apply Z.bits_inj'. intros j Hj.
  rewrite Z.land_spec, !Z.shiftl_spec by lia. destruct (Z.ltb_spec j i).
  - rewrite (Z.testbit_neg_r (Z.ones n)), (Z.testbit_neg_r (Z.land _ _)) by lia. by rewrite andb_false_r.
  - rewrite Z.land_spec, Z.shiftr_spec by lia. by replace (j - i + i) with j by lia.
Qed.
Lemma sch_word_bsic : (data .>> 2) .& 0x3F = bsic.
Proof.
  destruct sch_word_parts as (a & b & c & e & f & _ & _ & ? & ? & ? & ? & ? & ->). change 0x3F with (Z.ones 6).
  rewrite field_div by lia. change (2 ^ 2) with 4. change (2 ^ 6) with 64. Z.div_mod_to_equations. lia.
Qed.
Lemma sch_word_t2 : (data .>> 18) .& 0x1F = t2.
Proof.
  destruct sch_word_parts as (a & b & c & e & f & _ & _ & ? & ? & ? & ? & ? & ->). change 0x1F with (Z.ones 5).
  rewrite field_div by lia. change (2 ^ 18) with 262144. change (2 ^ 5) with 32. Z.div_mod_to_equations. lia.
Qed.
Lemma sch_word_t3 : ((data .>> 24) .& 1) .| ((data .>> 15) .& 6) = t3.
Proof.
  destruct sch_word_parts as (a & b & c & e & f & _ & E & ? & ? & ? & ? & ? & ->). change 6 with (Z.ones 2 .<< 1).
  change 1 with (Z.ones 1) at 1. rewrite field_div, field_high, Z.shiftr_div_pow2 by lia.
  change (2 ^ 24) with 16777216. change (2 ^ 15) with 32768. change (2 ^ 1) with 2. change (2 ^ 2) with 4.
  set (d := _ + _). replace (d / 16777216 mod 2) with f by (subst d; Z.div_mod_to_equations; lia).
  replace (d / 32768 / 2 mod 4) with e by (subst d; Z.div_mod_to_equations; lia).
  change (e * 2) with (e * 2 ^ 1). rewrite <- (Z.shiftl_mul_pow2 e 1) by lia. rewrite lor_shiftl_add by lia. change (2 ^ 1) with 2. lia.
Qed.
Lemma sch_word_t1 : ((data .>> 23) .& 1) .| ((data .>> 7) .& 0x1FE) .| (u32 (data .<< 9) .& 0x600) = t1.
Proof.
  destruct sch_word_parts as (a & b & c & e & f & E & _ & ? & ? & ? & ? & ? & ->). change 0x1FE with (Z.ones 8 .<< 1).
  change 0x600 with (Z.ones 2 .<< 9). change 1 with (Z.ones 1) at 1.
  rewrite field_div, !field_high, Z.shiftr_div_pow2, Z.shiftl_mul_pow2 by lia. unfold u32.
  change (2 ^ 23) with 8388608. change (2 ^ 7) with 128. change (2 ^ 1) with 2. change (2 ^ 2) with 4. change (2 ^ 8) with 256. change (2 ^ 9) with 512.
  set (d := _ + _). replace (d / 8388608 mod 2) with c by (subst d; Z.div_mod_to_equations; lia).
  replace (d / 128 / 2 mod 256) with b by (subst d; Z.div_mod_to_equations; lia).
  change 0x100000000 with (8388608 * 512). rewrite Z.mul_mod_distr_r, Z.div_mul by lia.
  replace (d mod 8388608 mod 4) with a by (subst d; Z.div_mod_to_equations; lia).
  change (b * 2) with (b * 2 ^ 1). change (a * 512) with (a * 2 ^ 9). rewrite <- (Z.shiftl_mul_pow2 b 1), <- (Z.shiftl_mul_pow2 a 9) by lia. rewrite (lor_shiftl_add c b 1), lor_shiftl_add by lia.
  change (2 ^ 1) with 2. change (2 ^ 9) with 512. lia.
Qed.
End Fields.

(** The synchronisation channel is in the frames 1, 11, 21, 31 and 41 of 51.  In these the
    remainders modulo 26 and 51 give the rest of the frame number. *)
Definition sch_frame (fn : Z) : Prop := 0 <= fn < FRAME_COUNT /\ exists k, 0 <= k < 5 /\ fn mod 51 = 10 * k + 1.
Lemma mod_mod_mul x a b : 0 < a -> 0 < b -> x mod (b * a) mod a = x mod a.
Proof. intros. rewrite (Z.mul_comm b a), Z.rem_mul_r by lia. by rewrite (Z.mul_comm a), Z.mod_add, Z.mod_mod by lia. Qed.
Lemma frame_remainders r : 0 <= r < 26 * 51 -> r = (r mod 51 - r mod 26) mod 26 * 51 + r mod 51.
Proof. intros H. Z.div_mod_to_equations. lia. Qed.

(** C37. Every frame number a synchronisation burst can carry is decoded from the burst's bits, and
    so is the base station's code. *)
Theorem frame_number_decoded (bsic fn : Z) : 0 <= bsic < 64 -> sch_frame fn ->
  sch_data_to_frame_number (sch_data bsic fn) = fn /\ (sch_data bsic fn .>> 2) .& 0x3F = bsic.
Proof.
  unfold sch_frame, FRAME_COUNT. intros Hb (Hfn & k & Hk & E). unfold sch_data, sch_data_to_frame_number.
  replace ((fn mod 51 - 1) / 10) with k by (rewrite E; Z.div_mod_to_equations; lia).
  assert (0 <= fn / (26 * 51) < 2048) as H1 by (Z.div_mod_to_equations; lia).
  assert (0 <= fn mod 26 < 26) as H2 by (apply Z.mod_pos_bound; lia).
  rewrite sch_word_t1, sch_word_t2, sch_word_t3, sch_word_bsic by lia. cbv zeta. split; [|done].
  pose proof (frame_remainders (fn mod (26 * 51)) ltac:(apply Z.mod_pos_bound; lia)) as Er.
  rewrite (mod_mod_mul fn 51 26), (Z.mul_comm 26 51), (mod_mod_mul fn 26 51), (Z.mul_comm 51 26) in Er by lia.
  rewrite E in Er. set (q := (10 * k + 1 - fn mod 26) mod 26) in *.
  assert (0 <= q < 26) as Hq by (apply Z.mod_pos_bound; lia).
  assert ((if k * 10 + 1 <? fn mod 26 then u32 (k * 10 + 1 + 26 - fn mod 26) else (k * 10 + 1 - fn mod 26) mod 26) = q) as ->.
  { unfold q, u32. destruct (Z.ltb_spec (k * 10 + 1) (fn mod 26)); [|f_equal; lia]. Z.div_mod_to_equations. lia. }
  pose proof (Z.div_mod fn (26 * 51) ltac:(lia)). unfold u32. rewrite (Z.mod_small (q * 51)), Z.mod_small by lia. lia.
Qed.
Lemma frame_number_decoded_witness :
  sch_data_to_frame_number (sch_data 42 2715638) = 2715638 /\ (sch_data 42 2715638 .>> 2) .& 0x3F = 42.
Proof. apply (frame_number_decoded 42 2715638); [lia|]. split; [by vm_compute|]. exists 4. by vm_compute. Defined.

(** ** The frequency-correction burst *)
(** 1250 bits a frame, 8 ticks a bit: a tick of the frame, 9 bits before the burst's start. *)
Lemma phase_tick_range start : 0 <= start -> 0 <= fcch_start_to_tpu_phase_tick start < TPU_FRAME_TICKS /\
  (fcch_start_to_tpu_phase_tick start) mod TPU_FRAME_TICKS = (start * TPU_TICKS_PER_GSM_BIT - FCCH_PHASE_ADVANCE_TICKS) mod TPU_FRAME_TICKS.
Proof.
  intros Hs. unfold fcch_start_to_tpu_phase_tick, GSM_BITS_PER_FRAME, TPU_FRAME_TICKS, TPU_TICKS_PER_GSM_BIT, FCCH_PHASE_ADVANCE_TICKS, u16.
  rewrite Z.rem_mod_nonneg by lia. destruct (Z.ltb_spec (start mod 1250 * 8 - 72) 0); Z.div_mod_to_equations; lia.
Qed.
