(* ===== verification/GsmSelect.v ===== *)
(** * Layer 1 of the GSM receiver: the candidates

    What [select_next_fcch_candidate] selects of the scan's results, and what the loop of
    [gsm_l1_scan_channels] returns: the loudest channels, a channel that a neighbour drowns
    left out. *)
From S2P Require Import Prelude Machine Board Regs Smbus GsmRegs GsmChannel GsmTrx GsmCalib GsmCorrections GsmBoard GsmLoad GsmState GsmL1.

(** ** What is to be selected *)
Definition result_at (results : list channel_scan_result) (c : Z) : channel_scan_result := default zero_result (elem results c).
Definition level (results : list channel_scan_result) (c : Z) : Z := level_dbm_x16 (result_at results c).
(** Measured, and not too weak. *)
Definition audible (results : list channel_scan_result) (c : Z) : Prop :=
  c ∈ build_channel_scan_order /\ measurements (result_at results c) <> 0 /\ FCCH_MIN_RX_LEVEL_DBM_X16 <= level results c.
(** The next channels of the same range of ARFCNs. *)
Definition neighbours (c c' : Z) : Prop :=
  exists range, find_scan_range c = Some range /\ (c' = c - 1 \/ c' = c + 1) /\ table_first range <= c' < table_first range + channel_count range.
(** [c] drowns [c']: 8 dB. *)
Definition drowns (results : list channel_scan_result) (c c' : Z) : Prop :=
  neighbours c c' /\ level results c' + FCCH_ADJACENT_SUPPRESSION_DBM_X16 <= level results c.
Definition eligible (results : list channel_scan_result) (c : Z) : Prop :=
  audible results c /\ fcch_excluded (result_at results c) = false.
Definition table_size (results : list channel_scan_result) : Prop := length results = 972%nat.
Definition not_excluded (results : list channel_scan_result) : Prop :=
  forall c, c ∈ build_channel_scan_order -> fcch_excluded (result_at results c) = false.
(** Only exclusions are added: of the channels in [P]. *)
Definition excluding (P : Z -> Prop) (results results' : list channel_scan_result) : Prop :=
  table_size results' /\ forall c, 0 <= c < GSM_CHANNEL_COUNT ->
    level results' c = level results c /\ measurements (result_at results' c) = measurements (result_at results c) /\
    sr_gain_state (result_at results' c) = sr_gain_state (result_at results c) /\
    (fcch_excluded (result_at results' c) = true <-> fcch_excluded (result_at results c) = true \/ P c).

Lemma elem_result results c : table_size results -> 0 <= c < GSM_CHANNEL_COUNT -> elem results c = Some (result_at results c).
Proof.
  intros Hl Hc. unfold result_at. destruct (elem_some results c) as (r & -> & _); [|done].
  unfold table_size in Hl. unfold GSM_CHANNEL_COUNT in Hc. lia.
Qed.
Lemma result_insert results c r c' : table_size results -> 0 <= c < GSM_CHANNEL_COUNT -> 0 <= c' ->
  result_at (<[Z.to_nat c := r]> results) c' = if decide (c' = c) then r else result_at results c'.
Proof.
  unfold table_size, GSM_CHANNEL_COUNT. intros Hl Hc Hc'. unfold result_at, elem. destruct (Z.ltb_spec c' 0); [lia|].
  case_decide as E; [subst; by rewrite list_lookup_insert_eq by lia|]. rewrite list_lookup_insert_ne by lia. done.
Qed.
Lemma result_at_forall (P : channel_scan_result -> Prop) results : Forall P results -> P zero_result -> forall c, P (result_at results c).
Proof.
  intros H H0 c. unfold result_at, elem. destruct (c <? 0); [done|]. destruct (results !! Z.to_nat c) eqn:E; [|done].
  by eapply Forall_lookup_1.
Qed.
Lemma exclude_one results c : table_size results -> 0 <= c < GSM_CHANNEL_COUNT ->
  let r := result_at results c in
  excluding (fun c' => c' = c) results
    (<[Z.to_nat c := ScanResult (level_dbm_x16 r) (measurements r) (sr_gain_state r) true]> results).
Proof.
  intros Hl Hc r. split; [unfold table_size; by rewrite length_insert|]. intros c' Hc'. unfold level.
  rewrite result_insert by (done || lia). case_decide as E; [subst c'|]; simpl; tauto.
Qed.
Lemma excluding_trans P Q R results results' results'' :
  excluding P results results' -> excluding Q results' results'' -> (forall c, R c <-> P c \/ Q c) -> excluding R results results''.
Proof.
  intros [_ H1] [Hl H2] HR. split; [done|]. intros c Hc.
  destruct (H1 c Hc) as (? & ? & ? & E1). destruct (H2 c Hc) as (? & ? & ? & E2). rewrite HR. intuition congruence.
Qed.
Lemma excluding_none P results : table_size results -> (forall c, ~ P c) -> excluding P results results.
Proof. intros Hl HP. split; [done|]. intros c _. specialize (HP c). tauto. Qed.
Lemma excluding_iff P Q results results' : excluding P results results' -> (forall c, P c <-> Q c) -> excluding Q results results'.
Proof. intros [Hl H] HPQ. split; [done|]. intros c Hc. rewrite <- HPQ. by apply H. Qed.
Lemma excluding_audible P results results' c : excluding P results results' -> audible results' c <-> audible results c.
Proof.
  intros [_ H]. unfold audible. split; intros (Hc & Hm & Hv); destruct (scan_channels_index c Hc) as [Hr _];
    destruct (H c Hr) as (E1 & E2 & _); split_and!; try done; congruence.
Qed.
Lemma range_index c range c' : find_scan_range c = Some range -> table_first range <= c' < table_first range + channel_count range -> 0 <= c' < GSM_CHANNEL_COUNT.
Proof.
  intros Hr Hc. apply find_scan_range_spec in Hr as [Hin _]. unfold GSM_SCAN_RANGES, GSM_CHANNEL_COUNT in *.
  repeat (apply elem_of_cons in Hin as [->|Hin]; [simpl in Hc; lia|]). by apply elem_of_nil in Hin.
Qed.
Lemma neighbours_index c c' : neighbours c c' -> 0 <= c' < GSM_CHANNEL_COUNT.
Proof. intros (range & Hr & _ & Hc). by eapply range_index. Qed.
Lemma excluding_drowns P results results' c c' : excluding P results results' -> 0 <= c < GSM_CHANNEL_COUNT ->
  drowns results' c c' <-> drowns results c c'.
Proof.
  intros [_ H] Hc. unfold drowns. split; intros [Hn Hd]; pose proof (neighbours_index _ _ Hn) as Hc'; (split; [done|]);
    destruct (H c Hc) as (E1 & _), (H c' Hc') as (E2 & _); congruence || lia.
Qed.

(** ** The neighbours *)
Lemma exclude_adjacent results c offset : table_size results -> c ∈ build_channel_scan_order -> offset = -1 \/ offset = 1 ->
  exists results', exclude_weaker_adjacent_fcch_channel c offset results = Some results' /\
    excluding (fun c' => c' = c + offset /\ drowns results c c') results results'.
Proof.
  intros Hl Hc Ho. destruct (scan_channels_index c Hc) as [Hi _]. destruct (scan_channel_range c Hc) as (range & _ & Hr & _).
  unfold exclude_weaker_adjacent_fcch_channel. rewrite Hr. cbn [mbind option_bind]. cbv zeta.
  destruct (_ || _) eqn:E.
  { exists results. split; [done|]. apply excluding_none; [done|]. intros c' [-> [(range' & Hr' & _ & Hx) _]].
    rewrite Hr in Hr'. injection Hr' as <-. rewrite orb_true_iff, Z.ltb_lt, Z.leb_le in E. lia. }
  rewrite orb_false_iff, Z.ltb_ge, Z.leb_gt in E.
  assert (neighbours c (c + offset)) as Hn by (exists range; split; [done|]; split; [destruct Ho; lia|lia]).
  pose proof (neighbours_index _ _ Hn) as Hi'. rewrite !elem_result by done. cbn [mbind option_bind].
  destruct (Z.leb_spec FCCH_ADJACENT_SUPPRESSION_DBM_X16 (level_dbm_x16 (result_at results c) - level_dbm_x16 (result_at results (c + offset)))) as [Hd|Hd].
  - eexists. split; [done|]. eapply excluding_iff; [by apply exclude_one|]. intros c'. unfold drowns, level.
    split; [|by intros [-> _]]. intros ->. split; [done|]. split; [done|lia].
  - exists results. split; [done|]. apply excluding_none; [done|]. intros c' [-> [_ Hx]]. unfold level in Hx. lia.
Qed.

(** ** The loudest *)
(** [best] is the loudest of the channels to go and of the one [selected] before, if there is one. *)
Definition best_of (results : list channel_scan_result) (channels : list Z) (selected best : Z) : Prop :=
  (best = selected \/ best ∈ channels /\ eligible results best) /\
  (selected <> GSM_CHANNEL_NONE -> best <> GSM_CHANNEL_NONE /\ level results selected <= level results best) /\
  (forall c, c ∈ channels -> eligible results c -> best <> GSM_CHANNEL_NONE /\ level results c <= level results best).
Lemma best_of_pass results c channels selected best : best_of results channels selected best ->
  (eligible results c -> selected <> GSM_CHANNEL_NONE /\ level results c <= level results selected) ->
  best_of results (c :: channels) selected best.
Proof.
  intros (H1 & H2 & H3) Hc. split; [|split; [done|]].
  - destruct H1 as [?|[? ?]]; [by left|right]. by split; [apply list_elem_of_further|].
  - intros c' [->|Hc']%elem_of_cons Hel; [|by apply H3]. destruct (Hc Hel) as [Hne Hle]. destruct (H2 Hne). split; [done|lia].
Qed.
Lemma best_of_take results c channels selected best : best_of results channels c best -> eligible results c ->
  c <> GSM_CHANNEL_NONE -> (selected <> GSM_CHANNEL_NONE -> level results selected < level results c) ->
  best_of results (c :: channels) selected best.
Proof.
  intros (H1 & H2 & H3) Hel Hne Hlt. destruct (H2 Hne) as [Hb Hle]. split; [|split].
  - right. destruct H1 as [->|[? ?]]; (split; [|done]); [apply list_elem_of_here|by apply list_elem_of_further].
  - intros Hs. specialize (Hlt Hs). split; [done|lia].
  - intros c' [->|Hc']%elem_of_cons Hel'; [done|by apply H3].
Qed.
Lemma select_channel_spec results channels selected : table_size results ->
  Forall (fun c => c ∈ build_channel_scan_order) channels -> selected = GSM_CHANNEL_NONE \/ selected ∈ build_channel_scan_order ->
  exists best, select_channel channels results selected = Some best /\ best_of results channels selected best.
Proof.
  intros Hl Hch. revert selected. induction Hch as [|c channels Hc Hch IH]; intros selected Hs; simpl.
  { exists selected. split; [done|]. split_and!; [by left|done|]. intros c Hc. by apply elem_of_nil in Hc. }
  destruct (scan_channels_index c Hc) as (Hi & _ & Hnone). rewrite (elem_result results c) by done. cbn [mbind option_bind].
  destruct (IH selected Hs) as (kept & Ekept & Hkept). destruct (IH c (or_intror Hc)) as (taken & Etaken & Htaken).
  destruct (fcch_excluded (result_at results c)) eqn:Ex.
  { exists kept. split; [done|]. apply best_of_pass; [done|]. intros [_ ?]. congruence. }
  destruct (Z.eqb_spec (measurements (result_at results c)) 0) as [Em|Em].
  { exists kept. split; [done|]. apply best_of_pass; [done|]. by intros [(_ & ? & _) _]. }
  destruct (Z.ltb_spec (level_dbm_x16 (result_at results c)) FCCH_MIN_RX_LEVEL_DBM_X16) as [Ev|Ev].
  { exists kept. split; [done|]. apply best_of_pass; [done|]. intros [(_ & _ & ?) _]. unfold level in *. lia. }
  destruct (Z.eqb_spec selected GSM_CHANNEL_NONE) as [->|Hne]; simpl.
  { exists taken. split; [done|]. by apply best_of_take. }
  destruct Hs as [?|Hs]; [done|]. rewrite (elem_result results selected) by (done || apply (scan_channels_index _ Hs)). cbn [mbind option_bind].
  destruct (Z.leb_spec (level_dbm_x16 (result_at results c)) (level_dbm_x16 (result_at results selected))).
  - exists kept. split; [done|]. by apply best_of_pass.
  - exists taken. split; [done|]. by apply best_of_take.
Qed.

(** ** One candidate *)
Definition describes (results : list channel_scan_result) (frequency_hz : Z) (candidate : gsm_l1_candidate) : Prop :=
  let c := c_channel_index candidate in
  (exists range, find_scan_range c = Some range /\ c_band candidate = sr_band range) /\
  channel_index_to_arfcn c = Some (c_arfcn candidate) /\ c_gain_state candidate = sr_gain_state (result_at results c) /\
  c_rx_level_dbm_x16 candidate = level results c /\ c_afc_frequency_hz candidate = frequency_hz.
Lemma select_candidate_spec results frequency_hz : table_size results ->
  exists o, select_candidate build_channel_scan_order results frequency_hz = Some o /\
    match o with
    | None => forall c, ~ eligible results c
    | Some (candidate, results') =>
        let c := c_channel_index candidate in
        eligible results c /\ (forall c', eligible results c' -> level results c' <= level results c) /\
        describes results frequency_hz candidate /\ excluding (fun c' => c' = c \/ drowns results c c') results results'
    end.
Proof.
  intros Hl. unfold select_candidate.
  destruct (select_channel_spec results build_channel_scan_order GSM_CHANNEL_NONE) as (best & -> & H1 & _ & H3);
    [done|by apply Forall_forall|by left|]. cbn [mbind option_bind].
  destruct (Z.eqb_spec best GSM_CHANNEL_NONE) as [->|Hne].
  { eexists. split; [done|]. cbv beta iota. intros c Hel. by destruct (H3 c (proj1 (proj1 Hel)) Hel). }
  destruct H1 as [?|[Hb Hel]]; [done|]. destruct (scan_channels_index best Hb) as [Hi _].
  rewrite elem_result by done. cbn [mbind option_bind]. cbv zeta.
  pose proof (exclude_one results best Hl Hi) as X0. cbv zeta in X0. set (results0 := <[_ := _]> results) in *.
  destruct (exclude_adjacent results0 best (-1)) as (results1 & -> & X1); [apply X0|done|by left|]. cbn [mbind option_bind].
  destruct (exclude_adjacent results1 best 1) as (results2 & -> & X2); [apply X1|done|by right|]. cbn [mbind option_bind].
  destruct (scan_channel_range best Hb) as (range & arfcn & Er & Ea). rewrite Er, Ea. cbn [mbind option_bind].
  eexists. split; [done|]. cbv beta iota zeta. cbn [c_channel_index]. split_and!; [done| | |].
  - intros c' Hel'. by apply H3; [apply (proj1 (proj1 Hel'))|].
  - unfold describes. cbn. split_and!; [by exists range|done..].
  - pose proof (excluding_trans _ _ _ _ _ _ X0 X1 (fun c => iff_refl _)) as X01.
    eapply excluding_trans; [exact X01|exact X2|]. intros c'. cbv beta.
    rewrite (excluding_drowns _ _ _ _ _ X01), (excluding_drowns _ _ _ _ _ X0) by done.
    split; [|tauto]. intros [?|Hd]; [tauto|]. pose proof Hd as [(? & _ & [->| ->] & _) _]; tauto.
Qed.

(** ** The list *)
(** What the loop has found so far and what it left of the results of the scan. *)
Definition taken (results : list channel_scan_result) (found : list gsm_l1_candidate) (c : Z) : Prop :=
  exists candidate, candidate ∈ found /\ (c = c_channel_index candidate \/ drowns results (c_channel_index candidate) c).
Definition well_chosen (results : list channel_scan_result) (frequency_hz : Z) (found : list gsm_l1_candidate) : Prop :=
  (forall i candidate, found !! i = Some candidate ->
     audible results (c_channel_index candidate) /\ describes results frequency_hz candidate /\
     ~ taken results (take i found) (c_channel_index candidate)) /\
  (forall i j a b, (i <= j)%nat -> found !! i = Some a -> found !! j = Some b -> c_rx_level_dbm_x16 b <= c_rx_level_dbm_x16 a).
Definition selecting (results : list channel_scan_result) (frequency_hz : Z) (found : list gsm_l1_candidate) (left : list channel_scan_result) : Prop :=
  well_chosen results frequency_hz found /\ excluding (taken results found) results left /\
  (forall candidate c, candidate ∈ found -> eligible left c -> level left c <= c_rx_level_dbm_x16 candidate).

Lemma taken_snoc results found candidate c : taken results (found ++ [candidate]) c <->
  taken results found c \/ c = c_channel_index candidate \/ drowns results (c_channel_index candidate) c.
Proof.
  unfold taken. split.
  - intros (x & [Hx| ->%list_elem_of_singleton]%elem_of_app & H); [left; by exists x|by right].
  - intros [(x & Hx & H)|H]; [exists x; by split; [apply elem_of_app; left|]|].
    exists candidate. split; [apply elem_of_app; right; by apply list_elem_of_singleton|done].
Qed.
Lemma selecting_audible results frequency_hz found left c : selecting results frequency_hz found left ->
  not_excluded results -> eligible left c <-> audible results c /\ ~ taken results found c.
Proof.
  intros (_ & X & _) H0. unfold eligible. rewrite (excluding_audible _ _ _ _ X). split; intros [Ha Hx]; (split; [done|]);
    destruct (scan_channels_index c (proj1 Ha)) as [Hi _]; destruct X as [_ X]; destruct (X c Hi) as (_ & _ & _ & E).
  - intros Ht. rewrite (proj2 E) in Hx by by right. done.
  - destruct (fcch_excluded (result_at left c)); [|done]. destruct (proj1 E eq_refl) as [E'|?]; [|done]. by rewrite (H0 c (proj1 Ha)) in E'.
Qed.
Lemma selecting_over results frequency_hz found left c : selecting results frequency_hz found left ->
  not_excluded results -> audible results c -> ~ eligible left c -> taken results found c.
Proof.
  intros (_ & X & _) H0 Ha Hn. destruct (scan_channels_index c (proj1 Ha)) as [Hi _]. destruct (proj2 X c Hi) as (_ & _ & _ & E).
  destruct (fcch_excluded (result_at left c)) eqn:Ex; [|destruct Hn; split; [by apply (excluding_audible _ _ _ _ X)|done]].
  destruct (proj1 E eq_refl) as [E'|?]; [by rewrite (H0 c (proj1 Ha)) in E'|done].
Qed.
Lemma selecting_snoc results frequency_hz found left candidate left' c : c_channel_index candidate = c ->
  not_excluded results -> selecting results frequency_hz found left ->
  eligible left c -> (forall c', eligible left c' -> level left c' <= level left c) -> describes left frequency_hz candidate ->
  excluding (fun c' => c' = c \/ drowns left c c') left left' -> selecting results frequency_hz (found ++ [candidate]) left'.
Proof.
  intros Hidx H0 HS Hel Hmax Hdes Hex. pose proof (proj1 (selecting_audible _ _ _ _ _ HS H0) Hel) as [Haud Hnt].
  destruct (scan_channels_index c (proj1 Haud)) as [Hi _]. pose proof HS as ((Hc1 & Hc2) & X & Hlow).
  pose proof (proj2 X c Hi) as (El & _ & Eg & _).
  assert (c_rx_level_dbm_x16 candidate = level left c) as Ec by (rewrite <- Hidx; apply Hdes).
  assert (describes results frequency_hz candidate) as Hdes'.
  { unfold describes in *. rewrite Hidx in *. destruct Hdes as (? & ? & ? & ? & ?). split_and!; try done; congruence. }
  split; [split|split].
  - intros i x Hx. apply lookup_app_Some in Hx as [Hx|[Hl Hx]].
    + rewrite take_app_le by (apply lookup_lt_Some in Hx; lia). by apply Hc1.
    + apply list_lookup_singleton_Some in Hx as [Hn <-]. rewrite take_app_length' by lia. rewrite Hidx. by split_and!.
  - intros i j a b Hij Ha Hb. apply lookup_app_Some in Hb as [Hb|[Hl Hb]].
    + rewrite lookup_app_l in Ha by (apply lookup_lt_Some in Hb; lia). by apply (Hc2 i j).
    + apply list_lookup_singleton_Some in Hb as [Hn <-]. apply lookup_app_Some in Ha as [Ha|[_ Ha]].
      * rewrite Ec. apply Hlow; [by eapply list_elem_of_lookup_2|done].
      * apply list_lookup_singleton_Some in Ha as [_ <-]. lia.
  - eapply excluding_trans; [exact X|exact Hex|]. intros c'. rewrite taken_snoc, Hidx. by rewrite (excluding_drowns _ _ _ _ _ X).
  - intros x c' Hx Hel'. assert (eligible left c') as Hel''.
    { split; [by apply (excluding_audible _ _ _ _ Hex), Hel'|]. destruct (scan_channels_index c' (proj1 (proj1 Hel'))) as [Hi' _].
      destruct (proj2 Hex c' Hi') as (_ & _ & _ & E). destruct Hel' as [_ Hel']. destruct (fcch_excluded (result_at left c')); [|done].
      rewrite (proj2 E) in Hel' by by left. done. }
    destruct (scan_channels_index c' (proj1 (proj1 Hel'))) as [Hi' _]. rewrite (proj1 (proj2 Hex c' Hi')).
    apply elem_of_app in Hx as [Hx| ->%list_elem_of_singleton]; [by apply Hlow|]. rewrite Ec. by apply Hmax.
Qed.
Lemma well_chosen_length results frequency_hz found : well_chosen results frequency_hz found -> (length found <= 971)%nat.
Proof.
  intros [H _]. rewrite <- (length_map c_channel_index found).
  assert (length build_channel_scan_order = 971%nat) as <- by by vm_compute.
  apply submseteq_length, NoDup_submseteq.
  - apply NoDup_alt. intros i j c Hi Hj. rewrite list_lookup_fmap in Hi, Hj.
    destruct (found !! i) as [a|] eqn:Ea; [|done]. destruct (found !! j) as [b|] eqn:Eb; [|done]. injection Hi as Hi. injection Hj as Hj.
    assert (forall i j a b, (i < j)%nat -> found !! i = Some a -> found !! j = Some b -> c_channel_index a <> c_channel_index b) as Hlt.
    { clear - H. intros i j a b Hij Ha Hb E. destruct (H j b Hb) as (_ & _ & []). exists a. split; [|by left].
      eapply list_elem_of_lookup_2. by rewrite lookup_take_lt. }
    destruct (lt_eq_lt_dec i j) as [[Hlt'|E]|Hlt']; [|done|]; [destruct (Hlt i j a b)|destruct (Hlt j i b a)]; congruence || done.
  - intros c Hc. apply list_elem_of_fmap in Hc as (x & -> & Hx). apply list_elem_of_lookup_1 in Hx as [i Hi].
    destruct (H i x Hi) as [[Ha _] _]. done.
Qed.

Section Loop.
Context {D : Type} `{!Device D}.
(** The statics the selection starts from. *)
Definition scanned (s : gsm) : Prop :=
  scan_channels (g_scan s) = build_channel_scan_order /\ table_size (scan_results (g_scan s)) /\
  not_excluded (scan_results (g_scan s)).

Lemma wp_select_candidates (capacity : Z) Q (f : nat) (w : world D gsm) : scanned (w_app w) -> 0 <= capacity -> (971 < f)%nat ->
  let results := scan_results (g_scan (w_app w)) in
  (forall found left w', Z.of_nat (length found) <= capacity ->
     selecting results (frequency_correction_hz (g_board (w_app w))) found left ->
     (Z.of_nat (length found) < capacity -> forall c, audible results c -> taken results found c) ->
     w_app w' = in_scan (with_scan_results left) (w_app w) -> Q found w') ->
  wp total (select_candidates capacity) Q f w.
Proof.
  intros (Hch & Hsize & H0) Hcap Hf results HQ. set (hz := frequency_correction_hz _) in *.
  eapply (wp_iter _ _ (fun found w' => Z.of_nat (length found) <= capacity /\
      exists left, w_app w' = in_scan (with_scan_results left) (w_app w) /\ selecting results hz found left)
    (fun found _ => (971 - length found)%nat)); [|lia|].
  { split; [simpl; lia|]. exists results. split; [by destruct (w_app w) as [? []]|].
    split; [split; [intros i x Hx|intros i j a b _ Ha]; by rewrite lookup_nil in Hx || rewrite lookup_nil in Ha|].
    split; [apply excluding_none; [done|]|]; intros x; [intros (y & Hy & _)|intros c Hx]; by apply elem_of_nil in Hy || apply elem_of_nil in Hx. }
  intros found w' (Hlen & left & Es & HS). destruct (Z.ltb_spec (Z.of_nat (length found)) capacity) as [Hlt|Hge].
  2:{ apply wp_ret. apply (HQ found left); [done|done|lia|done]. }
  unfold select_next_fcch_candidate, gsm_board_get_frequency_correction_hz, get_part. wp_steps. rewrite Es.
  change (part (in_scan (with_scan_results left) (w_app w)) : board_state) with (g_board (w_app w)). fold hz.
  cbn [g_scan in_scan with_g_scan scan_channels with_scan_results scan_results]. rewrite Hch.
  destruct (select_candidate_spec left hz) as (o & Eo & Ho); [apply HS|].
  eapply wp_defined; [exact Eo|].
  destruct o as [[candidate left']|]; [|wp_steps]; cycle 1.
  { apply (HQ found left); [lia|done| |done]. intros _ c Hc. by apply (selecting_over _ _ _ _ _ HS H0). }
  unfold modify. wp_steps. destruct Ho as (Hel & Hmax & Hdes & Hex).
  assert (selecting results hz (found ++ [candidate]) left') as HS' by by eapply selecting_snoc.
  pose proof (well_chosen_length _ _ _ (proj1 HS')) as Hl. rewrite length_app in *. simpl in *. split; [|lia]. split; [lia|].
  exists left'. split; [by rewrite Es|done].
Qed.

(** The selection of the candidates: it ends, with at most [capacity] channels, none twice, the
    louder ones first, each measured at -111 dBm or more, described as it was measured, and not
    drowned (8 dB above it, next to it in the same range) by one before it.  If there was room for
    more, then every other channel measured at -111 dBm or more is drowned by one in the list. *)
Theorem candidates_selected (capacity : Z) (f : nat) (w : world D gsm) :
  scanned (w_app w) -> 0 <= capacity -> (971 < f)%nat ->
  let results := scan_results (g_scan (w_app w)) in
  wp total (select_candidates capacity) (fun found w' =>
    Z.of_nat (length found) <= capacity /\ well_chosen results (frequency_correction_hz (g_board (w_app w))) found /\
    (Z.of_nat (length found) < capacity -> forall c, audible results c -> taken results found c)) f w.
Proof.
  intros Hs Hcap Hf results. apply wp_select_candidates; [done..|]. intros found left w' Hl HS Hfull _.
  split; [done|]. split; [apply HS|done].
Qed.
End Loop.
(** Two loud channels next to each other, a weak one further up. *)
Definition example_results : list channel_scan_result :=
  <[10%nat := ScanResult (-800) 8 0x4F false]> (<[11%nat := ScanResult (-1000) 8 0x4F false]>
    (<[12%nat := ScanResult (-1200) 8 0x4F false]> (replicate 972 (ScanResult (-2000) 8 0x4F false)))).
Definition example_gsm : gsm :=
  in_scan (fun s => with_scan_channels build_channel_scan_order (with_scan_results example_results s)) gsm_zero.
Lemma example_scanned : scanned example_gsm.
Proof.
  split; [done|]. split; [by vm_compute|]. intros c _. revert c. apply (result_at_forall (fun r => fcch_excluded r = false)); [|done].
  apply Forall_forall. intros r Hr%list_elem_of_In.
  assert (forallb (fun r => negb (fcch_excluded r)) (scan_results (g_scan example_gsm)) = true) as H by by vm_compute.
  rewrite forallb_forall in H. by apply negb_true_iff, H.
Qed.
Lemma candidates_selected_witness :
  let w := World (D := unit) tt ∅ [] lib_zero example_gsm in
  let results := scan_results (g_scan (w_app w)) in
  wp total (select_candidates 5) (fun found w' =>
    Z.of_nat (length found) <= 5 /\ well_chosen results (frequency_correction_hz (g_board (w_app w))) found /\
    (Z.of_nat (length found) < 5 -> forall c, audible results c -> taken results found c)) 1000 w.
Proof. intros w. apply (candidates_selected 5 1000 w); [exact example_scanned|lia|lia]. Defined.
(** Channel 11 is drowned by 10; 12 is not. *)
Example example_candidates :
  match select_candidates (D := unit) 5 1000%nat (World tt ∅ [] lib_zero example_gsm) with
  | Done found _ => map c_channel_index found = [10; 12]
  | Stop _ _ => False
  end.
Proof. vm_compute. reflexivity. Qed.
