(* ===== verification/GsmQuiet.v ===== *)
(** * Layer 1 of the GSM receiver: what a frame's publication leaves alone

    Most of what the interrupt of [gsm-l1.c] does is output: the events of the next frame, the
    telegrams of the transceiver, the DAC of the frequency correction.  [quiet] says that an
    operation ends, without an access outside of a table, and leaves the state machines of the
    receiver alone; [sound] is the invariant that makes it so. *)
From S2P Require Import Prelude Machine Board Regs Smbus GsmRegs GsmChannel GsmTrx GsmCalib GsmCorrections GsmBoard GsmLoad Dsp GsmState GsmL1 GsmSelect.
Import Regs.Pmb8876.

(** ** The invariant *)
Definition channel_ok (c : Z) : Prop := c = GSM_CHANNEL_NONE \/ c ∈ build_channel_scan_order.
(** The level is between -125 dBm and 0. *)
Definition result_ok (r : channel_scan_result) : Prop :=
  gain_state_ok (sr_gain_state r) /\ -2000 <= level_dbm_x16 r <= 0 /\ is_u32 (measurements r).
Record sound (s : gsm) : Prop := Sound {
  sound_telegrams : length (g_telegrams s) = 20%nat;
  sound_calibration : calibration_ok (bs_calibration (g_board s));
  sound_afc : afc_ok (afc (bs_calibration (g_board s)));
  sound_bank : tpu_schedule_bank (g_loop s) = 0 \/ tpu_schedule_bank (g_loop s) = 1;
  sound_channels : scan_channels (g_scan s) = build_channel_scan_order;
  sound_results : table_size (scan_results (g_scan s));
  sound_levels : Forall result_ok (scan_results (g_scan s));
  sound_requests : length (scan_request_channels (g_scan s)) = 4%nat /\ Forall channel_ok (scan_request_channels (g_scan s));
  sound_request_gains : length (scan_request_gain_states (g_scan s)) = 4%nat /\ Forall gain_state_ok (scan_request_gain_states (g_scan s));
  sound_candidate : 0 <= c_channel_index (current_candidate s) < GSM_CHANNEL_COUNT /\ gain_state_ok (c_gain_state (current_candidate s));
}.
(** The state machines: their variables, and the statics beside them. *)
Record control := Control { k_loop : tpu_loop; k_scan : channel_scan; k_fcch : fcch_search; k_sch : sch_search }.
Definition control_of (s : gsm) : control := Control (g_loop s) (g_scan s) (g_fcch s) (g_sch s).
Definition rest_of (s : gsm) : gsm_l1_candidate * gsm_l1_runtime * bool * bool * bool * receiver_calibration :=
  (current_candidate s, runtime s, dsp_clock_enabled s, l1_initialized s, trx_initialized s, bs_calibration (g_board s)).
(** From [s], the state machines got to [c]. *)
Definition moves (s : gsm) (c : control) (s' : gsm) : Prop := sound s' /\ control_of s' = c /\ rest_of s' = rest_of s.

Lemma moves_refl s : sound s -> moves s (control_of s) s.
Proof. done. Qed.
Lemma moves_trans s c s' c' s'' : moves s c s' -> moves s' c' s'' -> moves s c' s''.
Proof. intros (_ & _ & E) (? & ? & E'). split_and!; [done|done|congruence]. Qed.

Definition set_loop v (c : control) : control := Control v (k_scan c) (k_fcch c) (k_sch c).
Definition set_scan v (c : control) : control := Control (k_loop c) v (k_fcch c) (k_sch c).
Definition set_fcch v (c : control) : control := Control (k_loop c) (k_scan c) v (k_sch c).
Definition set_sch v (c : control) : control := Control (k_loop c) (k_scan c) (k_fcch c) v.
Lemma moves_loop s c s' v : moves s c s' -> tpu_schedule_bank v = 0 \/ tpu_schedule_bank v = 1 -> moves s (set_loop v c) (with_g_loop v s').
Proof. intros ([] & <- & E) Hv. split_and!; [by split|done|done]. Qed.
Lemma moves_fcch s c s' v : moves s c s' -> moves s (set_fcch v c) (with_g_fcch v s').
Proof. intros ([] & <- & E). split_and!; [by split|done|done]. Qed.
Lemma moves_sch s c s' v : moves s c s' -> moves s (set_sch v c) (with_g_sch v s').
Proof. intros ([] & <- & E). split_and!; [by split|done|done]. Qed.
(** The scan's variables but the tables. *)
Definition tables_of (s : channel_scan) := (scan_channels s, scan_request_channels s, scan_request_gain_states s, scan_results s).
Lemma moves_scan s c s' v : moves s c s' -> tables_of v = tables_of (k_scan c) -> moves s (set_scan v c) (with_g_scan v s').
Proof. intros ([] & <- & E) Hv. unfold tables_of in Hv. simpl in Hv. injection Hv as E1 E2 E3 E4. split_and!; [|done|done]. split; simpl; congruence. Qed.
Lemma moves_results s c s' results : moves s c s' -> table_size results -> Forall result_ok results ->
  moves s (set_scan (with_scan_results results (k_scan c)) c) (with_g_scan (with_scan_results results (g_scan s')) s').
Proof. intros ([] & <- & E) Hv Hv'. split_and!; [by split|done|done]. Qed.
Lemma moves_requests s c s' channels : moves s c s' -> length channels = 4%nat /\ Forall channel_ok channels ->
  moves s (set_scan (with_scan_request_channels channels (k_scan c)) c) (with_g_scan (with_scan_request_channels channels (g_scan s')) s').
Proof. intros ([] & <- & E) Hv. split_and!; [by split|done|done]. Qed.
Lemma moves_gains s c s' gains : moves s c s' -> length gains = 4%nat /\ Forall gain_state_ok gains ->
  moves s (set_scan (with_scan_request_gain_states gains (k_scan c)) c) (with_g_scan (with_scan_request_gain_states gains (g_scan s')) s').
Proof. intros ([] & <- & E) Hv. split_and!; [by split|done|done]. Qed.

Section Quiet.
Context {D : Type} `{!Device D}.
#[local] Abbreviation M := (M D gsm).
Definition quiet {R} (m : M R) : Prop :=
  forall f w, sound (w_app w) -> wp total m (fun _ w' => moves (w_app w) (control_of (w_app w)) (w_app w')) f w.

Lemma quiet_ret {R} (r : R) : quiet (mret r).
Proof. intros f w Hs. by apply wp_ret. Qed.
Lemma quiet_bind {R S} (m : M R) (k : R -> M S) : quiet m -> (forall r, quiet (k r)) -> quiet (m ≫= k).
Proof.
  intros Hm Hk f w Hs. apply wp_bind. eapply wp_mono; [by apply Hm|]. intros r w' Hw'. destruct Hw' as (Hs' & Ec & Er).
  eapply wp_mono; [by apply Hk|]. intros r'' w'' H''. cbv beta in *. rewrite Ec in H''. by eapply moves_trans.
Qed.
Lemma quiet_rd p : quiet (rd p).
Proof. intros f w Hs. apply wp_rd. by intros. Qed.
Lemma quiet_wr p v : quiet (wr p v).
Proof. intros f w Hs. by apply wp_wr. Qed.
Lemma quiet_wr32 a v : quiet (wr32 a v). Proof. apply quiet_wr. Qed.
Lemma quiet_get_app : quiet get_app.
Proof. intros f w Hs. by apply wp_get_app. Qed.
Lemma quiet_defined {R} (o : option R) (r : R) : o = Some r -> quiet (defined o).
Proof. intros -> f w Hs. by apply wp_ret. Qed.
Lemma quiet_with {R S} (o : option R) (r : R) (k : R -> M S) : o = Some r -> quiet (k r) -> quiet (defined o ≫= k).
Proof. by intros ->. Qed.
Lemma quiet_foldM {X Y} (body : X -> Y -> M X) x l : (forall x y, y ∈ l -> quiet (body x y)) -> quiet (foldM body x l).
Proof.
  revert x. induction l as [|y l IH]; intros x H; simpl; [apply quiet_ret|]. apply quiet_bind.
  - apply H, list_elem_of_here.
  - intros x'. apply IH. intros z y' Hy'. by apply H, list_elem_of_further.
Qed.
(** The rule for the control code. *)
Lemma wp_quiet {R} (m : M R) s c Q f w : quiet m -> moves s c (w_app w) -> (forall r w', moves s c (w_app w') -> Q r w') -> wp total m Q f w.
Proof.
  intros Hm Hw HQ. eapply wp_mono; [apply Hm, Hw|]. intros r w' Hw'. apply HQ. cbv beta in Hw'.
  pose proof Hw as (_ & Ec & _). rewrite Ec in Hw'. by eapply moves_trans.
Qed.

Lemma wp_in_scan g s c Q f w : moves s c (w_app w) -> tables_of (g (k_scan c)) = tables_of (k_scan c) ->
  (forall w', moves s (set_scan (g (k_scan c)) c) (w_app w') -> Q tt w') -> wp total (modify (in_scan g) : M unit) Q f w.
Proof.
  intros Hm Hg HQ. unfold modify. wp_steps. apply HQ. pose proof Hm as (_ & <- & _). by apply (moves_scan _ _ _ _ Hm).
Qed.
Lemma wp_in_loop g s c Q f w : moves s c (w_app w) -> tpu_schedule_bank (g (k_loop c)) = 0 \/ tpu_schedule_bank (g (k_loop c)) = 1 ->
  (forall w', moves s (set_loop (g (k_loop c)) c) (w_app w') -> Q tt w') -> wp total (modify (in_loop g) : M unit) Q f w.
Proof.
  intros Hm Hg HQ. unfold modify. wp_steps. apply HQ. pose proof Hm as (_ & <- & _). by apply (moves_loop _ _ _ _ Hm).
Qed.
Lemma wp_in_fcch g s c Q f w : moves s c (w_app w) ->
  (forall w', moves s (set_fcch (g (k_fcch c)) c) (w_app w') -> Q tt w') -> wp total (modify (in_fcch g) : M unit) Q f w.
Proof.
  intros Hm HQ. unfold modify. wp_steps. apply HQ. pose proof Hm as (_ & <- & _). by apply (moves_fcch _ _ _ _ Hm).
Qed.
Lemma wp_in_sch g s c Q f w : moves s c (w_app w) ->
  (forall w', moves s (set_sch (g (k_sch c)) c) (w_app w') -> Q tt w') -> wp total (modify (in_sch g) : M unit) Q f w.
Proof.
  intros Hm HQ. unfold modify. wp_steps. apply HQ. pose proof Hm as (_ & <- & _). by apply (moves_sch _ _ _ _ Hm).
Qed.
(** What the control code reads. *)
Lemma moves_loop_of s c s' : moves s c s' -> g_loop s' = k_loop c. Proof. by intros (_ & <- & _). Qed.
Lemma moves_scan_of s c s' : moves s c s' -> g_scan s' = k_scan c. Proof. by intros (_ & <- & _). Qed.
Lemma moves_fcch_of s c s' : moves s c s' -> g_fcch s' = k_fcch c. Proof. by intros (_ & <- & _). Qed.
Lemma moves_sch_of s c s' : moves s c s' -> g_sch s' = k_sch c. Proof. by intros (_ & <- & _). Qed.
Lemma moves_bank s c s' : moves s c s' -> tpu_schedule_bank (k_loop c) = 0 \/ tpu_schedule_bank (k_loop c) = 1.
Proof. intros ([] & <- & _). done. Qed.

(** ** The telegrams *)
Lemma moves_telegrams s t : sound s -> length t = 20%nat -> moves s (control_of s) (with_g_telegrams t s).
Proof. intros [] Ht. split_and!; [by split|done|done]. Qed.
Lemma quiet_set_telegram slot t : quiet (set_telegram slot t).
Proof.
  intros f w Hs. unfold set_telegram, get_part, put_part. wp_steps. apply moves_telegrams; [done|].
  rewrite length_insert. apply (sound_telegrams _ Hs).
Qed.
Lemma quiet_reset_table : quiet gsm_trx_reset_telegram_table.
Proof. intros f w Hs. unfold gsm_trx_reset_telegram_table, put_part. wp_steps. by apply moves_telegrams. Qed.
Lemma quiet_write_slot bank slot : 0 <= slot < 20 -> quiet (write_telegram_slot bank slot).
Proof.
  intros Hslot f w Hs. unfold write_telegram_slot, get_part. wp_steps.
  destruct (elem_some (part (w_app w) : list trx_telegram) slot) as (t & Et & _); [pose proof (sound_telegrams _ Hs) as Hl; simpl in *; lia|].
  eapply wp_defined; [exact Et|]. cbv zeta. by wp_steps.
Qed.
Lemma quiet_write_table bank : quiet (gsm_trx_write_telegram_table bank).
Proof. apply quiet_foldM. intros _ slot Hslot%elem_of_seqZ. apply quiet_write_slot. unfold GSM_TRX_TELEGRAM_COUNT in *. lia. Qed.
Lemma gain_telegram g : gain_state_ok g -> exists t, encode_gain_telegram g = Some t.
Proof.
  intros (Hg & Hr & _). unfold encode_gain_telegram. pose proof (range_field g (proj1 Hg)).
  destruct (elem_some RANGE_FIELDS (gsm_trx_get_gain_state_range g)) as (x & -> & _); [simpl; lia|]. by eexists.
Qed.
Lemma channel_telegram_some c : 0 <= c < GSM_CHANNEL_COUNT -> exists t, channel_telegram c = Some t.
Proof.
  intros Hc. unfold channel_telegram. assert (length CHANNEL_TELEGRAMS = 972%nat) as Hl by by vm_compute.
  destruct (elem_some CHANNEL_TELEGRAMS c) as ([[d2 d1] d0] & -> & _); [unfold GSM_CHANNEL_COUNT in *; lia|]. by eexists.
Qed.
Lemma quiet_configure_acquisition bank c g : 0 <= c < GSM_CHANNEL_COUNT -> gain_state_ok g -> quiet (gsm_trx_configure_acquisition bank c g).
Proof.
  intros Hc Hg. unfold gsm_trx_configure_acquisition. destruct (gain_telegram g Hg) as (t & Et). destruct (channel_telegram_some c Hc) as (t' & Et').
  eapply quiet_with; [exact Et|]. apply quiet_bind; [apply quiet_set_telegram|intros _]. eapply quiet_with; [exact Et'|].
  repeat (apply quiet_bind; [|intros _]); first [apply quiet_set_telegram | by apply quiet_write_slot].
Qed.
Lemma quiet_configure_monitoring bank channels gains : length channels = 4%nat -> Forall channel_ok channels ->
  length gains = 4%nat -> Forall gain_state_ok gains -> quiet (gsm_trx_configure_monitoring bank channels gains).
Proof.
  intros Hl Hc Hl' Hg. unfold gsm_trx_configure_monitoring. apply quiet_bind; [|intros _]; apply quiet_foldM; intros _ i Hi%elem_of_seqZ;
    unfold GSM_TRX_MONITOR_COUNT in *; [|apply quiet_write_slot; lia].
  destruct (elem_some channels i) as (c & Ec & Hin); [lia|]. destruct (elem_some gains i) as (g & Eg & Hin'); [lia|].
  rewrite Forall_forall in Hc, Hg. specialize (Hc _ Hin). destruct (gain_telegram g (Hg _ Hin')) as (t & Et). rewrite Ec, Eg.
  eapply quiet_with; [done|]. apply quiet_bind.
  { destruct (Z.eqb_spec c GSM_CHANNEL_NONE) as [->|Hne]; [apply quiet_ret|]. destruct Hc as [?|Hc]; [done|].
    destruct (channel_telegram_some c) as (t' & Et'); [by apply scan_channels_index|]. by eapply quiet_defined. }
  intros t'. apply quiet_bind; [apply quiet_set_telegram|intros _]. eapply quiet_with; [done|]. eapply quiet_with; [exact Et|].
  apply quiet_set_telegram.
Qed.

(** ** The board, the shared memory and the events *)
Lemma quiet_get_frequency : quiet gsm_board_get_frequency_correction_hz.
Proof. unfold gsm_board_get_frequency_correction_hz, get_part. intros f w Hs. by wp_steps. Qed.
Lemma quiet_set_frequency hz : quiet (gsm_board_set_frequency_correction_hz hz).
Proof.
  intros f w Hs. unfold gsm_board_set_frequency_correction_hz, get_calibration, get_part, put_part. wp_steps.
  destruct (frequency_defined _ hz (sound_afc _ Hs)) as (clamped & v & Ec & Ev).
  eapply wp_defined; [exact Ec|]. wp_steps. eapply wp_defined; [exact Ev|]. wp_steps. destruct Hs. by split_and!.
Qed.
Lemma quiet_wr_shared i v : quiet (wr_shared i v).
Proof. apply quiet_wr. Qed.
Lemma quiet_write_schedule events bank : quiet (write_tpu_schedule events bank).
Proof.
  unfold write_tpu_schedule. apply quiet_bind; [|intros _; apply quiet_ret]. apply quiet_foldM. intros i event _.
  destruct (event_words event bank) as [[control tick] low]. cbv zeta. repeat (apply quiet_bind; [apply quiet_wr|intros _]). apply quiet_ret.
Qed.
Lemma quiet_publish_window bank count groups : quiet (publish_tpu_event_window bank count groups).
Proof. unfold publish_tpu_event_window. repeat (apply quiet_bind; [apply quiet_wr|intros _]). apply quiet_wr. Qed.
Lemma quiet_publish_events events bank groups : quiet (publish_events events bank groups).
Proof. unfold publish_events. apply quiet_bind; [apply quiet_write_schedule|intros _; apply quiet_publish_window]. Qed.
Lemma quiet_reset_telegrams : quiet reset_telegrams.
Proof.
  unfold reset_telegrams. apply quiet_bind; [apply quiet_reset_table|intros _].
  apply quiet_bind; [apply quiet_write_table|intros _]. apply quiet_write_table.
Qed.
Lemma quiet_acquisition bank : quiet (configure_acquisition_receiver bank).
Proof.
  intros f w Hs. unfold configure_acquisition_receiver. wp_steps. apply quiet_configure_acquisition; [apply (sound_candidate _ Hs)..|done].
Qed.
Lemma quiet_fcch_frame bank groups : quiet (publish_fcch_frame bank groups).
Proof. unfold publish_fcch_frame. apply quiet_bind; [apply quiet_acquisition|intros _; apply quiet_publish_events]. Qed.
Lemma quiet_reset_fcch : quiet reset_fcch_result.
Proof. apply quiet_foldM. intros. apply quiet_wr. Qed.
Lemma quiet_reset_sch : quiet reset_sch_result.
Proof. apply quiet_foldM. intros. apply quiet_wr. Qed.
Lemma quiet_correction : quiet set_tpu_correction.
Proof. unfold set_tpu_correction. apply quiet_bind; [apply quiet_get_app|intros s; apply quiet_wr]. Qed.
Lemma quiet_sch_frame bank : quiet (publish_sch_frame bank).
Proof. unfold publish_sch_frame.
  apply quiet_bind; [apply quiet_correction|intros _]. apply quiet_bind; [apply quiet_acquisition|intros _].
  apply quiet_bind; [apply quiet_reset_sch|intros _]. apply quiet_publish_events.
Qed.
(** The commands: their parameters and the interrupt of the DSP. *)
Lemma quiet_wr_shared_from i values : quiet (wr_shared_from i values).
Proof. unfold wr_shared_from. apply quiet_bind; [|intros _; apply quiet_ret]. apply quiet_foldM. intros. apply quiet_bind; [apply quiet_wr|intros _; apply quiet_ret]. Qed.
Lemma quiet_command command parameters : quiet (dsp_runtime_command_start 0 command parameters).
Proof. unfold dsp_runtime_command_start, dsp_runtime_command_prepare, dsp_runtime_pipe_get, dsp_runtime_interrupt_pulse.
  cbv zeta. apply quiet_bind; [|intros _; repeat (apply quiet_bind; [apply quiet_wr|intros _]); apply quiet_wr].
  eapply quiet_with; [reflexivity|]. apply quiet_bind; [apply quiet_wr|intros _; apply quiet_wr_shared_from].
Qed.
End Quiet.
Create HintDb quiet discriminated.
#[export] Hint Constants Opaque : quiet.
#[export] Hint Variables Opaque : quiet.
#[export] Hint Resolve quiet_ret quiet_rd quiet_wr quiet_wr32 quiet_get_app quiet_get_frequency quiet_set_frequency quiet_wr_shared quiet_write_schedule
  quiet_publish_window quiet_publish_events quiet_reset_telegrams quiet_acquisition quiet_fcch_frame quiet_reset_fcch quiet_reset_sch
  quiet_correction quiet_sch_frame quiet_wr_shared_from quiet_command : quiet.
