(* ===== verification/GsmScan.v ===== *)
(** * Layer 1 of the GSM receiver: the scan

    The state machine of [channel_scan_advance] without its output, and what a scan measures. *)
From S2P Require Import Prelude Machine Board Regs Smbus GsmRegs GsmChannel GsmTrx GsmCalib GsmCorrections GsmBoard GsmLoad Dsp GsmState GsmL1 GsmSelect GsmQuiet.
Import Regs.Pmb8876.

(** ** Windows *)
Definition channel_at (p : Z) : Z := if p <? 125 then p else p + 1.
Definition window (start : Z) : list Z :=
  map (fun i => let p := start + i in if (0 <=? p) && (p <? GSM_SCAN_CHANNEL_COUNT) then channel_at p else GSM_CHANNEL_NONE) (seqZ 0 GSM_TRX_MONITOR_COUNT).
Lemma elem_order p : 0 <= p < GSM_SCAN_CHANNEL_COUNT -> elem build_channel_scan_order p = Some (channel_at p).
Proof.
  unfold GSM_SCAN_CHANNEL_COUNT, GSM_CHANNEL_COUNT. intros Hp. unfold elem, channel_at. destruct (Z.ltb_spec p 0); [lia|].
  rewrite scan_channels_eq. destruct (Z.ltb_spec p 125).
  - rewrite lookup_app_l by (rewrite length_seqZ; lia). rewrite lookup_seqZ. lia.
  - rewrite lookup_app_r by (rewrite length_seqZ; lia). rewrite length_seqZ, lookup_seqZ. lia.
Qed.
Lemma channel_at_order p : 0 <= p < GSM_SCAN_CHANNEL_COUNT -> channel_at p ∈ build_channel_scan_order.
Proof.
  unfold GSM_SCAN_CHANNEL_COUNT, GSM_CHANNEL_COUNT, channel_at. intros Hp. rewrite scan_channels_eq, elem_of_app, !elem_of_seqZ.
  destruct (Z.ltb_spec p 125); lia.
Qed.
Lemma order_channel_at c : c ∈ build_channel_scan_order -> exists p, 0 <= p < GSM_SCAN_CHANNEL_COUNT /\ c = channel_at p.
Proof.
  unfold GSM_SCAN_CHANNEL_COUNT, GSM_CHANNEL_COUNT, channel_at. rewrite scan_channels_eq, elem_of_app, !elem_of_seqZ.
  intros [Hc|Hc]; [exists c|exists (c - 1)]; (split; [lia|]); [destruct (Z.ltb_spec c 125)|destruct (Z.ltb_spec (c - 1) 125)]; lia.
Qed.
Lemma build_request start : build_channel_scan_request start build_channel_scan_order = Some (window start).
Proof.
  unfold build_channel_scan_request, window. induction (seqZ 0 GSM_TRX_MONITOR_COUNT) as [|i l IH]; [done|].
  cbn [mapM map]. rewrite IH. cbv zeta. destruct (_ && _) eqn:E; [|done].
  rewrite andb_true_iff, Z.leb_le, Z.ltb_lt in E. by rewrite elem_order by lia.
Qed.
Lemma request_window_ok start : length (window start) = 4%nat /\ Forall channel_ok (window start).
Proof.
  split; [done|]. apply Forall_forall. intros c (i & -> & _)%list_elem_of_fmap. cbv zeta. destruct (_ && _) eqn:E; [|by left].
  rewrite andb_true_iff, Z.leb_le, Z.ltb_lt in E. right. apply channel_at_order. lia.
Qed.
(** How often the channel at a position is in a window: never twice. *)
Definition occurrences (c : Z) (channels : list Z) : Z := Z.of_nat (length (filter (fun c' => c' = c) channels)).
Lemma occurrences_cons c d channels : occurrences c (d :: channels) = (if d ==? c then 1 else 0) + occurrences c channels.
Proof.
  unfold occurrences. rewrite filter_cons. destruct (Z.eqb_spec d c), (decide (d = c)); try done. simpl length. lia.
Qed.
Lemma window_entry p q : 0 <= p < GSM_SCAN_CHANNEL_COUNT ->
  ((if (0 <=? q) && (q <? GSM_SCAN_CHANNEL_COUNT) then channel_at q else GSM_CHANNEL_NONE) ==? channel_at p) = (q ==? p).
Proof.
  unfold channel_at, GSM_SCAN_CHANNEL_COUNT, GSM_CHANNEL_COUNT, GSM_CHANNEL_NONE. intros Hp.
  apply Bool.eq_iff_eq_true. rewrite !Z.eqb_eq.
  destruct (Z.ltb_spec p 125), (Z.leb_spec 0 q), (Z.ltb_spec q (972 - 1)); simpl; try lia; destruct (Z.ltb_spec q 125); lia.
Qed.
Lemma occurrences_window p start : 0 <= p < GSM_SCAN_CHANNEL_COUNT ->
  occurrences (channel_at p) (window start) = if (start <=? p) && (p <? start + 4) then 1 else 0.
Proof.
  intros Hp. unfold window. change (seqZ 0 GSM_TRX_MONITOR_COUNT) with [0; 1; 2; 3]. cbn [map]. rewrite !occurrences_cons.
  change (occurrences (channel_at p) []) with 0. cbv zeta. rewrite !window_entry by done.
  destruct (Z.leb_spec start p), (Z.ltb_spec p (start + 4)); simpl;
    destruct (Z.eqb_spec (start + 0) p), (Z.eqb_spec (start + 1) p), (Z.eqb_spec (start + 2) p), (Z.eqb_spec (start + 3) p); lia.
Qed.

(** ** What the DSP measured *)
Lemma measure_ok cal c g raw r : calibration_ok cal -> c ∈ build_channel_scan_order -> gain_state_ok g -> is_u32 (measurements r) ->
  exists r', measure cal c g raw r = Some r' /\ result_ok r' /\ measurements r' = u32 (measurements r + 1) /\ fcch_excluded r' = fcch_excluded r.
Proof.
  intros Hcal Hc Hg Hm. destruct (scan_channel_range c Hc) as (range & _ & Er & _). destruct (scan_channels_index c Hc) as [Hi _].
  unfold measure. rewrite Er. cbn [mbind option_bind].
  destruct (gain_control_spec cal (sr_band range) c g raw) as (b & level & next & gain & next_gain & _ & El & Hl & En & Hn & _); [done| |done|done|].
  { apply find_scan_range_spec in Er as [Hin _]. unfold GSM_SCAN_RANGES in Hin.
    repeat (apply elem_of_cons in Hin as [->|Hin]; [done|]). by apply elem_of_nil in Hin. }
  rewrite En, El. cbn [mbind option_bind]. eexists. split; [done|]. split; [|done]. split; [done|]. simpl.
  rewrite i16_small by lia. split; [done|apply u32_range].
Qed.
Lemma result_forall results c r : Forall result_ok results -> result_ok r -> Forall result_ok (<[Z.to_nat c := r]> results).
Proof. intros H Hr. by apply Forall_insert. Qed.
Lemma result_at_ok results c : Forall result_ok results -> result_ok (result_at results c).
Proof. intros H. apply (result_at_forall result_ok); [done|]. by vm_compute. Qed.

Section Collect.
Context {D : Type} `{!Device D}.
#[local] Abbreviation M := (M D gsm).
(** The DSP has a value for every monitor whenever it is asked. *)
Definition dsp_measures : Prop := forall d i, 0 <= i < GSM_TRX_MONITOR_COUNT ->
  let port := Mmio 16 (shared_address (DSP_MON_VALUES_OFFSET + DSP_MON_RESULT_FIRST + i)) in
  port_wrap port (fst (dev_read port d)) <> 0xFFFF.
Definition collected (channels : list Z) (results results' : list channel_scan_result) : Prop :=
  table_size results' /\ Forall result_ok results' /\ forall c, 0 <= c < GSM_CHANNEL_COUNT ->
    fcch_excluded (result_at results' c) = fcch_excluded (result_at results c) /\
    (dsp_measures -> measurements (result_at results' c) = u32 (measurements (result_at results c) + occurrences c channels)).
Lemma collected_nil results : table_size results -> Forall result_ok results -> collected [] results results.
Proof.
  intros Hl H. split_and!; [done|done|]. intros c Hc. split; [done|]. intros _. change (occurrences c []) with 0.
  rewrite Z.add_0_r, u32_small; [done|]. by apply result_at_ok.
Qed.
Lemma occurrences_snoc c channels d : occurrences c (channels ++ [d]) = occurrences c channels + if d ==? c then 1 else 0.
Proof. unfold occurrences. rewrite filter_app, length_app, filter_cons. destruct (Z.eqb_spec d c), (decide (d = c)); try done; simpl; lia. Qed.
Lemma collected_skip channels c results results' : collected channels results results' -> c = GSM_CHANNEL_NONE \/ ~ dsp_measures ->
  collected (channels ++ [c]) results results'.
Proof.
  intros (H1 & H2 & H3) Hc. split_and!; [done|done|]. intros c' Hc'. destruct (H3 c' Hc') as [He Hm]. split; [done|]. intros Hd.
  rewrite Hm, occurrences_snoc by done. destruct Hc as [->|?]; [|done]. unfold GSM_CHANNEL_COUNT, GSM_CHANNEL_NONE in *.
  destruct (Z.eqb_spec 65535 c'); [lia|]. by rewrite Z.add_0_r.
Qed.
Lemma collected_snoc channels c r results results' : collected channels results results' -> 0 <= c < GSM_CHANNEL_COUNT -> result_ok r ->
  measurements r = u32 (measurements (result_at results' c) + 1) -> fcch_excluded r = fcch_excluded (result_at results' c) ->
  collected (channels ++ [c]) results (<[Z.to_nat c := r]> results').
Proof.
  intros (H1 & H2 & H3) Hc Hr Em Ee. split_and!; [unfold table_size; by rewrite length_insert|by apply result_forall|].
  intros c' Hc'. destruct (H3 c' Hc') as [He Hm]. rewrite result_insert by (done || lia). rewrite occurrences_snoc. case_decide as E.
  - subst c'. rewrite Z.eqb_refl. split; [congruence|]. intros Hd. rewrite Em, Hm by done. unfold u32. rewrite Z.add_mod_idemp_l by lia. f_equal. lia.
  - destruct (Z.eqb_spec c c'); [congruence|]. rewrite Z.add_0_r. by split.
Qed.

(** One measurement. *)
Lemma wp_collect_one s c ch i raw Q f w : moves s c (w_app w) -> ch ∈ build_channel_scan_order -> 0 <= i < 4 ->
  (forall r w', result_ok r -> measurements r = u32 (measurements (result_at (scan_results (k_scan c)) ch) + 1) ->
     fcch_excluded r = fcch_excluded (result_at (scan_results (k_scan c)) ch) ->
     moves s (set_scan (with_scan_results (<[Z.to_nat ch := r]> (scan_results (k_scan c))) (k_scan c)) c) (w_app w') -> Q tt w') ->
  wp total (s ← get_app;
    result ← defined (elem (scan_results (g_scan s)) ch);
    gain_state ← defined (elem (scan_request_gain_states (g_scan s)) i);
    result ← defined (measure (bs_calibration (g_board s)) ch gain_state raw result);
    modify (in_scan (fun s => with_scan_results (<[Z.to_nat ch := result]> (scan_results s)) s)) : M unit) Q f w.
Proof.
  intros Hm Hch Hi HQ. pose proof Hm as (Hs & Ec & _). destruct (scan_channels_index ch Hch) as [Hci _].
  pose proof Hs as [_ Hcal _ _ _ Hres Hlev _ [Hgl Hg] _]. rewrite <- Ec in HQ. simpl in HQ. wp_steps. eapply wp_defined; [by apply elem_result|]. wp_steps.
  destruct (elem_some (scan_request_gain_states (g_scan (w_app w))) i) as (g & Eg & Hg'); [lia|].
  eapply wp_defined; [exact Eg|]. wp_steps. rewrite Forall_forall in Hg. specialize (Hg _ Hg').
  destruct (measure_ok _ ch g raw (result_at (scan_results (g_scan (w_app w))) ch) Hcal Hch Hg) as (r & Er & Hr & Em & Ee); [by apply result_at_ok|].
  eapply wp_defined; [exact Er|]. unfold modify. wp_steps. apply (HQ r); [done..|].
  rewrite <- Ec in Hm. apply (moves_results _ _ _ (<[Z.to_nat ch := r]> (scan_results (g_scan (w_app w)))) Hm).
  - unfold table_size. by rewrite length_insert.
  - by apply result_forall.
Qed.
Lemma wp_collect channels s c Q f w : moves s c (w_app w) -> length channels = 4%nat -> Forall channel_ok channels ->
  (forall results' w', collected channels (scan_results (k_scan c)) results' ->
     moves s (set_scan (with_scan_results results' (k_scan c)) c) (w_app w') -> Q tt w') ->
  wp total (collect_monitor_results channels) Q f w.
Proof.
  intros Hw Hl Hch HQ. unfold collect_monitor_results.
  apply (wp_foldM _ _ (fun done (_ : unit) w' => exists results', collected (take (length done) channels) (scan_results (k_scan c)) results' /\
    moves s (set_scan (with_scan_results results' (k_scan c)) c) (w_app w'))).
  { exists (scan_results (k_scan c)). pose proof Hw as ([] & Ec & _). split.
    - apply collected_nil; rewrite <- Ec; done.
    - destruct c as [l [] fc sc]. done. }
  2:{ intros [] w' (results' & Hc & Hm). apply (HQ results'); [|done]. by rewrite take_ge in Hc by (rewrite length_seqZ; unfold GSM_TRX_MONITOR_COUNT; lia). }
  intros done i todo _ w1 Hsplit (results' & Hc & Hm). apply seqZ_split in Hsplit as [-> Hi]. unfold GSM_TRX_MONITOR_COUNT in Hi.
  destruct (lookup_lt_is_Some_2 channels (length done)) as [ch Ech]; [lia|].
  assert (take (length (done ++ [Z.of_nat (length done)])) channels = take (length done) channels ++ [ch]) as ->.
  { rewrite length_app, Nat.add_1_r. by apply take_S_r. }
  pose proof (Forall_lookup_1 _ _ _ _ Hch Ech) as Hch'.
  apply wp_bind, wp_rd. intros v d Hrd. set (raw := port_wrap _ v). destruct (Z.eqb_spec raw 0xFFFF) as [Eraw|Hraw].
  { apply wp_ret. exists results'. split; [|done]. apply collected_skip; [done|]. right. intros Hd.
    specialize (Hd (w_dev w1) (Z.of_nat (length done)) ltac:(unfold GSM_TRX_MONITOR_COUNT; lia)). cbv zeta in Hd. rewrite Hrd in Hd. done. }
  apply wp_bind. eapply wp_defined.
  { unfold elem. destruct (Z.ltb_spec (Z.of_nat (length done)) 0); [lia|]. by rewrite Nat2Z.id. }
  apply wp_bind. destruct (Z.eqb_spec ch GSM_CHANNEL_NONE) as [->|Hne]; simpl negb; cbv iota.
  { apply wp_ret, wp_wr. exists results'. split; [by apply collected_skip; [|left]|done]. }
  destruct Hch' as [?|Hch']; [done|]. destruct (scan_channels_index ch Hch') as [Hci _].
  eapply wp_collect_one; [exact Hm|done|lia|]. intros r w' Hr Em Ee Hm'. apply wp_wr.
  eexists. split; [by apply collected_snoc|exact Hm'].
Qed.
End Collect.

(** ** The state machine *)
(** The request of the window at [start], and the search for the next window. *)
Definition request (start : Z) (scan : channel_scan) : bool * channel_scan :=
  (true, with_scan_request_channels (window start) (with_scan_window_start (start + SCAN_WINDOW_STRIDE) scan)).
Definition next (scan : channel_scan) : bool * channel_scan :=
  if GSM_SCAN_CHANNEL_COUNT <=? scan_window_start scan then
    let pass := u32 (scan_pass scan + 1) in
    if pass ==? SCAN_PASS_COUNT then (false, with_receiver_scan_state RECEIVER_SCAN_COMPLETE (with_scan_pass pass scan))
    else request (channel_scan_start_pass pass) (with_scan_pass pass scan)
  else request (scan_window_start scan) scan.
(** One call; [results] is what the scan's results are after a measurement. *)
Definition advance (results : list channel_scan_result) (scan : channel_scan) : bool * channel_scan :=
  match receiver_scan_state scan with
  | RECEIVER_SCAN_ACTIVE =>
      if negb (scan_request_repeated scan) then (true, with_scan_request_repeated true scan)
      else next (with_scan_request_repeated false (with_scan_results results scan))
  | RECEIVER_SCAN_REQUESTED =>
      next (with_scan_window_start (channel_scan_start_pass 0) (with_scan_request_repeated false (with_scan_pass 0
        (with_receiver_scan_state RECEIVER_SCAN_ACTIVE scan))))
  | RECEIVER_SCAN_IDLE | RECEIVER_SCAN_COMPLETE => (false, scan)
  end.
(** Whether the call measures. *)
Definition measures (scan : channel_scan) : bool :=
  match receiver_scan_state scan with RECEIVER_SCAN_ACTIVE => scan_request_repeated scan | _ => false end.

Section Machine.
Context {D : Type} `{!Device D}.
#[local] Abbreviation M := (M D gsm).
Definition reached (s : gsm) (c : control) (o : bool * channel_scan) (b : bool) (s' : gsm) : Prop :=
  b = fst o /\ moves s (set_scan (snd o) c) s'.
Lemma wp_request s c start Q f w : moves s c (w_app w) ->
  (forall b w', reached s c (request start (k_scan c)) b (w_app w') -> Q b w') ->
  wp total (channels ← defined (build_channel_scan_request start build_channel_scan_order);
    modify (in_scan (fun s => with_scan_request_channels channels (with_scan_window_start (start + SCAN_WINDOW_STRIDE) s)));;
    mret true : M bool) Q f w.
Proof.
  intros Hm HQ. wp_steps. eapply wp_defined; [apply build_request|]. unfold modify. wp_steps.
  apply HQ. split; [done|]. pose proof Hm as (_ & <- & _). cbn [k_scan control_of] in *.
  pose proof (moves_scan _ _ _ (with_scan_window_start (start + SCAN_WINDOW_STRIDE) (g_scan (w_app w))) Hm eq_refl) as Hm'.
  exact (moves_requests _ _ _ _ Hm' (request_window_ok start)).
Qed.
Lemma wp_next s c Q f w : moves s c (w_app w) ->
  (forall b w', reached s c (next (k_scan c)) b (w_app w') -> Q b w') -> wp total (next_window : M bool) Q f w.
Proof.
  intros Hm HQ. unfold next_window. wp_steps. cbv zeta. rewrite (moves_scan_of _ _ _ Hm).
  assert (scan_channels (k_scan c) = build_channel_scan_order) as -> by (rewrite <- (moves_scan_of _ _ _ Hm); apply (proj1 Hm)).
  unfold next in HQ. destruct (Z.leb_spec GSM_SCAN_CHANNEL_COUNT (scan_window_start (k_scan c))); [|by eapply wp_request].
  cbv zeta in HQ. apply wp_bind. eapply wp_in_scan; [exact Hm|done|]. intros w1 Hm1. destruct (_ ==? _).
  - apply wp_bind. eapply wp_in_scan; [exact Hm1|done|]. intros w2 Hm2. apply wp_ret, HQ. by split.
  - eapply wp_request; [exact Hm1|]. exact HQ.
Qed.
Lemma wp_advance s c Q f w : moves s c (w_app w) ->
  (forall b w' results', (if measures (k_scan c) then collected (scan_request_channels (k_scan c)) (scan_results (k_scan c)) results'
                          else results' = scan_results (k_scan c)) ->
     reached s c (advance results' (k_scan c)) b (w_app w') -> Q b w') ->
  wp total (channel_scan_advance : M bool) Q f w.
Proof.
  intros Hm HQ. unfold channel_scan_advance. wp_steps. rewrite (moves_scan_of _ _ _ Hm). unfold measures, advance in HQ.
  destruct (receiver_scan_state (k_scan c)) eqn:Est.
  - apply wp_ret, (HQ _ _ _ eq_refl). split; [done|]. by destruct c.
  - apply wp_bind. eapply wp_in_scan; [exact Hm|done|]. intros w1 Hm1. eapply wp_next; [exact Hm1|].
    intros b w' Hr. by apply (HQ _ _ _ eq_refl).
  - destruct (scan_request_repeated (k_scan c)); simpl negb in *; cbv iota in *; apply wp_bind.
    + destruct (sound_requests _ (proj1 Hm)) as [Hl Hch]. rewrite (moves_scan_of _ _ _ Hm) in Hl, Hch.
      eapply wp_collect; [exact Hm|done|done|]. intros results' w1 Hcol Hm1. apply wp_bind.
      eapply wp_in_scan; [exact Hm1|done|]. intros w2 Hm2.
      eapply wp_next; [exact Hm2|]. intros b w' Hr. by apply (HQ _ _ _ Hcol).
    + eapply wp_in_scan; [exact Hm|done|]. intros w1 Hm1. apply wp_ret, (HQ _ _ _ eq_refl). by split.
  - apply wp_ret, (HQ _ _ _ eq_refl). split; [done|]. by destruct c.
Qed.
End Machine.

(** ** The measurements of a scan *)
(** Whether a pass measures the channel at a position: four positions of eight. *)
Definition measured_in (pass p : Z) : Z := if (p - channel_scan_start_pass pass) mod SCAN_WINDOW_STRIDE <? GSM_TRX_MONITOR_COUNT then 1 else 0.
Fixpoint measured_before (passes : nat) (p : Z) : Z :=
  match passes with O => 0 | S n => measured_before n p + measured_in (Z.of_nat n) p end.
(** Every channel was measured in the passes before [pass], and in this one before the position [start]. *)
Definition measured_to (pass start : Z) (results : list channel_scan_result) : Prop :=
  forall p, 0 <= p < GSM_SCAN_CHANNEL_COUNT -> measurements (result_at results (channel_at p)) =
    measured_before (Z.to_nat pass) p + if p <? start then measured_in pass p else 0.
Definition scan_active (scan : channel_scan) : Prop :=
  let start := scan_window_start scan - SCAN_WINDOW_STRIDE in
  receiver_scan_state scan = RECEIVER_SCAN_ACTIVE /\ 0 <= scan_pass scan < SCAN_PASS_COUNT /\
  scan_request_channels scan = window start /\ -3 <= start < GSM_SCAN_CHANNEL_COUNT /\
  (start - channel_scan_start_pass (scan_pass scan)) mod SCAN_WINDOW_STRIDE = 0 /\ measured_to (scan_pass scan) start (scan_results scan).
(** Eight measurements of each channel. *)
Definition scan_measured (scan : channel_scan) : Prop :=
  receiver_scan_state scan = RECEIVER_SCAN_COMPLETE /\
  forall c, c ∈ build_channel_scan_order -> measurements (result_at (scan_results scan) c) = 8.

Lemma start_pass_range pass : -3 <= channel_scan_start_pass pass <= 4.
Proof.
  unfold channel_scan_start_pass, SCAN_WINDOW_STRIDE, GSM_TRX_MONITOR_COUNT. cbv zeta. pose proof (Z.mod_pos_bound pass 8 ltac:(lia)).
  destruct (Z.ltb_spec 4 (pass mod 8)); lia.
Qed.
Lemma measured_in_range pass p : 0 <= measured_in pass p <= 1.
Proof. unfold measured_in. destruct (_ <? _); lia. Qed.
Lemma measured_before_range n p : 0 <= measured_before n p <= Z.of_nat n.
Proof. induction n as [|n IH]; simpl; [lia|]. pose proof (measured_in_range (Z.of_nat n) p). lia. Qed.
Lemma measured_in_8 a b p : a mod 8 = b mod 8 -> measured_in a p = measured_in b p.
Proof. unfold measured_in, channel_scan_start_pass, SCAN_WINDOW_STRIDE. by intros ->. Qed.
(** Of sixteen passes, eight measure. *)
Lemma measured_all p : measured_before 16 p = 8.
Proof.
  assert (forall k, measured_in k p = measured_in k (p mod 8)) as E.
  { intros k. unfold measured_in, SCAN_WINDOW_STRIDE. by rewrite <- (Zminus_mod_idemp_l p). }
  cbn [measured_before]. rewrite !E. pose proof (Z.mod_pos_bound p 8 ltac:(lia)) as H. set (r := p mod 8) in *. clearbody r.
  assert (r = 0 \/ r = 1 \/ r = 2 \/ r = 3 \/ r = 4 \/ r = 5 \/ r = 6 \/ r = 7) as Hr by lia.
  repeat destruct Hr as [->|Hr]; [vm_compute; reflexivity..|]. subst r. vm_compute. reflexivity.
Qed.
(** The positions before a pass's first window are not measured in it. *)
Lemma measured_to_start pass results : 0 <= pass ->
  measured_to pass GSM_SCAN_CHANNEL_COUNT results -> measured_to (pass + 1) (channel_scan_start_pass (pass + 1)) results.
Proof.
  intros Hp H p Hpos. rewrite (H p Hpos). rewrite Z2Nat.inj_add, Nat.add_1_r by lia. cbn [measured_before]. rewrite Z2Nat.id by lia.
  destruct (Z.ltb_spec p GSM_SCAN_CHANNEL_COUNT); [|lia]. destruct (Z.ltb_spec p (channel_scan_start_pass (pass + 1))); [|lia].
  pose proof (start_pass_range (pass + 1)). unfold measured_in at 3, SCAN_WINDOW_STRIDE, GSM_TRX_MONITOR_COUNT.
  rewrite <- (Z.mod_add _ 1 8) by lia. rewrite Z.mod_small by lia. destruct (Z.ltb_spec (p - channel_scan_start_pass (pass + 1) + 1 * 8) 4); lia.
Qed.
(** A window. *)
Lemma measured_to_window pass start results results' : 0 <= pass < SCAN_PASS_COUNT -> (start - channel_scan_start_pass pass) mod SCAN_WINDOW_STRIDE = 0 ->
  measured_to pass start results ->
  (forall c, c ∈ build_channel_scan_order -> measurements (result_at results' c) = u32 (measurements (result_at results c) + occurrences c (window start))) ->
  measured_to pass (start + SCAN_WINDOW_STRIDE) results'.
Proof.
  unfold SCAN_WINDOW_STRIDE, SCAN_PASS_COUNT. intros Hp Ha H Hres p Hpos. rewrite Hres, (H p Hpos), occurrences_window by (done || by apply channel_at_order).
  pose proof (measured_before_range (Z.to_nat pass) p). pose proof (measured_in_range pass p).
  rewrite u32_small by (unfold is_u32; repeat case_match; lia).
  destruct (Z.ltb_spec p start), (Z.ltb_spec p (start + 8)), (Z.leb_spec start p), (Z.ltb_spec p (start + 4)); simpl; try lia.
  all: assert ((p - channel_scan_start_pass pass) mod 8 = p - start) as Em by
    (replace (p - channel_scan_start_pass pass) with (p - start + (start - channel_scan_start_pass pass)) by lia;
     rewrite Z.add_mod, Ha, Z.add_0_r, Z.mod_mod by lia; apply Z.mod_small; lia).
  all: unfold measured_in, SCAN_WINDOW_STRIDE, GSM_TRX_MONITOR_COUNT; rewrite Em; destruct (Z.ltb_spec (p - start) 4); lia.
Qed.

(** The calls that are left, at most. *)
Definition scan_rank (scan : channel_scan) : nat :=
  match receiver_scan_state scan with
  | RECEIVER_SCAN_ACTIVE => Z.to_nat (((15 - scan_pass scan) * 130 + (980 - scan_window_start scan) / 8) * 2 + (if scan_request_repeated scan then 1 else 2))
  | RECEIVER_SCAN_REQUESTED => 4200
  | _ => 0
  end.
Definition scan_calls : nat := 4200.
Lemma scan_rank_bound scan : scan_active scan -> (scan_rank scan < scan_calls)%nat.
Proof.
  unfold scan_active, scan_rank, scan_calls, SCAN_WINDOW_STRIDE, SCAN_PASS_COUNT. intros (-> & ? & _ & ? & _).
  assert ((980 - scan_window_start scan) / 8 < 122) by (apply Z.div_lt_upper_bound; lia). destruct (scan_request_repeated scan); lia.
Qed.
(** The window after the one at [start], which was measured. *)
Definition scan_next (scan : channel_scan) : Prop :=
  let start := scan_window_start scan in
  receiver_scan_state scan = RECEIVER_SCAN_ACTIVE /\ 0 <= scan_pass scan < SCAN_PASS_COUNT /\ -3 <= start < GSM_SCAN_CHANNEL_COUNT + 8 /\
  scan_request_repeated scan = false /\
  (start - channel_scan_start_pass (scan_pass scan)) mod SCAN_WINDOW_STRIDE = 0 /\ measured_to (scan_pass scan) start (scan_results scan).
Definition scan_goes_on (scan : channel_scan) (n : nat) (o : bool * channel_scan) : Prop :=
  if fst o then scan_active (snd o) /\ (scan_rank (snd o) < n)%nat else scan_measured (snd o).
Lemma next_goes_on scan : scan_next scan ->
  scan_goes_on scan (Z.to_nat (((15 - scan_pass scan) * 130 + (980 - scan_window_start scan) / 8) * 2 + 1)) (next scan).
Proof.
  intros (Hst & Hp & Hs & Hrep & Ha & Hm). unfold next, scan_goes_on. destruct (Z.leb_spec GSM_SCAN_CHANNEL_COUNT (scan_window_start scan)) as [Hle|Hlt].
  - assert (measured_to (scan_pass scan) GSM_SCAN_CHANNEL_COUNT (scan_results scan)) as Hm'.
    { intros p Hpos. rewrite (Hm p Hpos). destruct (Z.ltb_spec p (scan_window_start scan)), (Z.ltb_spec p GSM_SCAN_CHANNEL_COUNT); lia. }
    apply measured_to_start in Hm'; [|lia]. cbv zeta. unfold SCAN_PASS_COUNT in *. rewrite u32_small by (unfold is_u32; lia).
    destruct (Z.eqb_spec (scan_pass scan + 1) 16) as [E|Hne].
    + split; [done|]. intros c (p & Hpos & ->)%order_channel_at. cbn [snd scan_results with_receiver_scan_state with_scan_pass]. rewrite (Hm' p Hpos), E.
      change (Z.to_nat 16) with 16%nat. rewrite measured_all. pose proof (start_pass_range 16). destruct (Z.ltb_spec p (channel_scan_start_pass 16)); [|lia].
      assert (channel_scan_start_pass 16 = 0) by done. lia.
    + pose proof (start_pass_range (scan_pass scan + 1)). unfold scan_active, scan_rank, request, SCAN_WINDOW_STRIDE, SCAN_PASS_COUNT, GSM_SCAN_CHANNEL_COUNT, GSM_CHANNEL_COUNT in *.
      cbn [fst snd receiver_scan_state scan_pass scan_window_start scan_request_channels scan_request_repeated scan_results with_scan_request_channels with_scan_window_start with_scan_pass].
      rewrite Hst, Hrep. replace (channel_scan_start_pass (scan_pass scan + 1) + 8 - 8) with (channel_scan_start_pass (scan_pass scan + 1)) by lia.
      split; [split_and!; try done; try lia; by rewrite Z.sub_diag|].
      assert ((980 - (channel_scan_start_pass (scan_pass scan + 1) + 8)) / 8 < 122) by (apply Z.div_lt_upper_bound; lia).
      assert (0 <= (980 - scan_window_start scan) / 8) by (apply Z.div_pos; lia). lia.
  - unfold scan_active, scan_rank, request, SCAN_WINDOW_STRIDE, SCAN_PASS_COUNT in *.
    cbn [fst snd receiver_scan_state scan_pass scan_window_start scan_request_channels scan_request_repeated scan_results with_scan_request_channels with_scan_window_start].
    rewrite Hst, Hrep. replace (scan_window_start scan + 8 - 8) with (scan_window_start scan) by lia.
    split; [split_and!; try done; lia|]. unfold GSM_SCAN_CHANNEL_COUNT, GSM_CHANNEL_COUNT in *.
    replace (980 - scan_window_start scan) with (980 - (scan_window_start scan + 8) + 1 * 8) by lia. rewrite Z.div_add by lia.
    assert (0 <= (980 - (scan_window_start scan + 8)) / 8) by (apply Z.div_pos; lia). lia.
Qed.
(** Nothing was measured before. *)
Definition unmeasured (results : list channel_scan_result) : Prop :=
  forall c, c ∈ build_channel_scan_order -> measurements (result_at results c) = 0.
Lemma advance_requested scan : receiver_scan_state scan = RECEIVER_SCAN_REQUESTED -> unmeasured (scan_results scan) ->
  scan_goes_on scan scan_calls (advance (scan_results scan) scan).
Proof.
  intros Hst H0. unfold advance. rewrite Hst. set (scan' := with_scan_window_start _ _).
  assert (scan_next scan') as Hn.
  { split_and!; try done. intros p Hp. change (scan_results scan') with (scan_results scan). rewrite H0 by by apply channel_at_order.
    change (measured_before (Z.to_nat (scan_pass scan')) p) with 0. change (scan_window_start scan') with 0. destruct (Z.ltb_spec p 0); lia. }
  pose proof (next_goes_on scan' Hn) as Hgo. unfold scan_goes_on in *. destruct (fst _); [|done]. destruct Hgo as [Ha _].
  split; [done|by apply scan_rank_bound].
Qed.
Lemma advance_active results' scan : scan_active scan ->
  (if measures scan then forall c, c ∈ build_channel_scan_order -> measurements (result_at results' c) =
     u32 (measurements (result_at (scan_results scan) c) + occurrences c (scan_request_channels scan)) else results' = scan_results scan) ->
  scan_goes_on scan (scan_rank scan) (advance results' scan).
Proof.
  intros Hact Hres. pose proof Hact as (Hst & Hp & Hch & Hs & Ha & Hm). unfold measures in Hres. unfold advance. rewrite Hst in *.
  destruct (scan_request_repeated scan) eqn:Hrep; simpl negb; cbv iota.
  - set (scan' := with_scan_request_repeated _ _). assert (scan_next scan') as Hn.
    { rewrite Hch in Hres. pose proof (measured_to_window _ _ _ _ Hp Ha Hm Hres) as Hm'. unfold SCAN_WINDOW_STRIDE in *.
      replace (scan_window_start scan - 8 + 8) with (scan_window_start scan) in Hm' by lia. split_and!; try done; simpl; try lia.
      replace (scan_window_start scan - channel_scan_start_pass (scan_pass scan)) with
        (scan_window_start scan - 8 - channel_scan_start_pass (scan_pass scan) + 1 * 8) by lia. unfold SCAN_WINDOW_STRIDE; by rewrite Z.mod_add by lia. }
    pose proof (next_goes_on scan' Hn) as Hgo. unfold scan_rank at 1. rewrite Hst, Hrep. exact Hgo.
  - unfold scan_goes_on. cbn [fst snd]. split; [done|]. unfold scan_rank. cbn. rewrite Hst, Hrep.
    destruct Hact as (_ & _ & _ & Hs' & _). unfold SCAN_PASS_COUNT, GSM_SCAN_CHANNEL_COUNT, GSM_CHANNEL_COUNT, SCAN_WINDOW_STRIDE in *.
    assert (0 <= (980 - scan_window_start scan) / 8) by (apply Z.div_pos; lia). lia.
Qed.

(** A receiver that was initialized and has scanned; the calibration has no deviations. *)
Definition ready_gsm : gsm :=
  with_trx_initialized true (with_l1_initialized true (with_runtime (Runtime true 100)
    (in_scan (fun s => with_scan_channels build_channel_scan_order (with_receiver_scan_state RECEIVER_SCAN_COMPLETE s))
      (with_g_board (BoardState flat_calibration 0) (with_g_loop (TpuLoop TPU_LOOP_READY true 0 5 true) gsm_zero))))).
Definition lib_ticking : lib_state := LibState 1000 0 0 0 0 false.
Definition candidate_10 : gsm_l1_candidate := Candidate GSM_BAND_900 10 10 0x4F (-800) 0.
Lemma ready_sound : sound ready_gsm.
Proof.
  split; try done.
  - apply flat_calibration_ok.
  - split; [simpl; lia|]. repeat constructor; simpl; lia.
  - by left.
  - apply Forall_replicate. by vm_compute.
  - split; [done|]. apply Forall_replicate. right. assert (channel_at 0 = 0) as <- by by vm_compute. by apply channel_at_order.
  - split; [done|]. apply Forall_replicate. by vm_compute.
Qed.
