(* ===== verification/GsmControl.v ===== *)
(** * Layer 1 of the GSM receiver: the state machines

    The interrupt of the time processor ([gsm_l1_tpu_irq]) without its output: one step of the
    state machines of the loop, of the search for the frequency-correction burst and of the
    reception of the synchronisation burst.  The interrupt refines the step. *)
From S2P Require Import Prelude Machine Board Regs Smbus GsmRegs GsmChannel GsmTrx GsmCalib GsmBoard GsmLoad Dsp GsmState GsmL1 GsmSelect GsmQuiet GsmScan.
Import Regs.Pmb8876.

(** ** The step *)
Definition loop_phase_is (p : loop_phase) (c : control) : control := set_loop (with_tpu_loop_phase p (k_loop c)) c.
Definition fcch_state_is (v : fcch_state) (c : control) : control := set_fcch (with_fcch_scan_state v (k_fcch c)) c.
Definition fcch_phase_is (p : fcch_phase) (c : control) : control := set_fcch (with_fcch_tpu_phase p (k_fcch c)) c.
Definition sch_state_is (v : sch_state) (c : control) : control := set_sch (with_sch_scan_state v (k_sch c)) c.
Definition sch_phase_is (p : sch_phase) (c : control) : control := set_sch (with_sch_tpu_phase p (k_sch c)) c.

(** What the DSP's result makes of a search window, of an attempt to refine, of an attempt to decode. *)
Definition fcch_collected (r : fcch_result) (f : fcch_search) : fcch_search :=
  let f := with_fcch_search_result r (with_fcch_window (u32 (fcch_window f + 1)) f) in
  if is_fcch_result_valid r then
    with_fcch_detected true (with_fcch_correction_tick (fcch_start_to_tpu_phase_tick (f_start r))
      (with_fcch_result_afc_frequency_hz (fcch_reference_afc_frequency_hz f + f_frequency r) (with_fcch_scan_state FCCH_SCAN_COMPLETE f)))
  else if fcch_window f !=? FCCH_SEARCH_WINDOW_COUNT then f else with_fcch_scan_state FCCH_SCAN_COMPLETE f.
Definition refinement_collected (r : fcch_result) (f : fcch_search) : fcch_search :=
  let f := with_fcch_refinement_result r (with_fcch_refinement_attempt_count (u32 (fcch_refinement_attempt_count f + 1)) f) in
  if is_fcch_result_valid r then
    with_fcch_scan_state FCCH_SCAN_REFINEMENT_COMPLETE (with_fcch_correction_tick (fcch_start_to_tpu_phase_tick (f_start r)) f)
  else with_fcch_scan_state (if fcch_refinement_attempt_count f ==? FCCH_REFINEMENT_ATTEMPT_COUNT then FCCH_SCAN_REFINEMENT_FAILED
                             else FCCH_SCAN_REFINEMENT_COMMAND_REQUESTED) f.
Definition sch_collected (r : sch_result) (s : sch_search) : sch_search :=
  with_sch_search_result r (with_sch_attempt_count (u32 (sch_attempt_count s + 1)) s).
Definition sch_received (r : sch_result) : bool := (s_communication_flags r ==? 0) && (s_status r ==? 0).

(** The frames of the phases of the loop.  [busy]: the DSP has not answered. *)
Definition fcch_started (hz : Z) (c : control) : control :=
  let f := k_fcch c in
  loop_phase_is TPU_LOOP_FCCH (set_fcch (FcchSearch FCCH_SCAN_BB_OFF_REQUESTED FCCH_TPU_RF_QUIET_FIRST (fcch_search_result f)
    (fcch_refinement_result f) (fcch_refinement_attempt_count f) 0 (fcch_detected f) 0 hz (fcch_result_afc_frequency_hz f)) c).
Definition search_frame (o : bool * channel_scan) (hz : Z) (c : control) : control :=
  let c := set_scan (snd o) c in
  if fst o then c
  else if bool_decide (receiver_scan_state (snd o) = RECEIVER_SCAN_COMPLETE /\ fcch_scan_state (k_fcch c) = FCCH_SCAN_REQUESTED) then fcch_started hz c
  else c.
Definition sch_started (c : control) : control :=
  fcch_phase_is FCCH_TPU_RF_QUIET_FIRST (fcch_state_is FCCH_SCAN_REFINEMENT_BB_OFF_REQUESTED (loop_phase_is TPU_LOOP_FCCH
    (sch_state_is SCH_SCAN_ACTIVE (set_sch (with_sch_attempt_count 0 (k_sch c))
      (set_fcch (with_fcch_refinement_attempt_count 0 (k_fcch c)) c))))).
Definition sch_completed (c : control) : control := loop_phase_is TPU_LOOP_COMPLETE (sch_state_is SCH_SCAN_COMPLETE c).
Definition fcch_frame (busy : bool) (r : fcch_result) (c : control) : control :=
  let state := fcch_scan_state (k_fcch c) in
  match fcch_tpu_phase (k_fcch c) with
  | FCCH_TPU_REFINEMENT_PREPARE =>
      if bool_decide (state = FCCH_SCAN_REFINEMENT_COMMAND_REQUESTED) then c else fcch_phase_is FCCH_TPU_REFINEMENT_START c
  | FCCH_TPU_REFINEMENT_START => fcch_phase_is FCCH_TPU_REFINEMENT_WAIT_RESULT c
  | FCCH_TPU_REFINEMENT_WAIT_RESULT =>
      if busy then c
      else
        let c := set_fcch (refinement_collected r (k_fcch c)) c in
        match fcch_scan_state (k_fcch c) with
        | FCCH_SCAN_REFINEMENT_COMPLETE => sch_phase_is SCH_TPU_RECEIVE (loop_phase_is TPU_LOOP_SCH c)
        | FCCH_SCAN_REFINEMENT_FAILED => sch_completed c
        | _ => fcch_phase_is FCCH_TPU_REFINEMENT_PREPARE c
        end
  | FCCH_TPU_RF_QUIET_FIRST =>
      if bool_decide (state = FCCH_SCAN_BB_OFF_REQUESTED \/ state = FCCH_SCAN_REFINEMENT_BB_OFF_REQUESTED) then c
      else fcch_phase_is FCCH_TPU_RF_QUIET_SECOND c
  | FCCH_TPU_RF_QUIET_SECOND => fcch_phase_is FCCH_TPU_RF_INITIALIZATION c
  | FCCH_TPU_RF_INITIALIZATION =>
      fcch_phase_is (if bool_decide (sch_scan_state (k_sch c) = SCH_SCAN_ACTIVE) then FCCH_TPU_REFINEMENT_PREPARE else FCCH_TPU_PREPARE_FIRST) c
  | FCCH_TPU_PREPARE_FIRST | FCCH_TPU_RETRY_DELAY => fcch_state_is FCCH_SCAN_COMMAND_REQUESTED (fcch_phase_is FCCH_TPU_PREPARE_SECOND c)
  | FCCH_TPU_PREPARE_SECOND => if bool_decide (state = FCCH_SCAN_COMMAND_REQUESTED) then c else fcch_phase_is FCCH_TPU_START c
  | FCCH_TPU_START => fcch_phase_is FCCH_TPU_HOLD_FIRST c
  | FCCH_TPU_HOLD_FIRST => fcch_phase_is FCCH_TPU_HOLD_SECOND c
  | FCCH_TPU_HOLD_SECOND => fcch_phase_is FCCH_TPU_FINISH c
  | FCCH_TPU_FINISH =>
      if busy then c
      else
        let c := set_fcch (fcch_collected r (k_fcch c)) c in
        match fcch_scan_state (k_fcch c) with
        | FCCH_SCAN_COMPLETE => loop_phase_is TPU_LOOP_COMPLETE c
        | FCCH_SCAN_BB_OFF_REQUESTED => fcch_phase_is FCCH_TPU_RF_QUIET_FIRST c
        | _ => fcch_phase_is FCCH_TPU_RETRY_DELAY c
        end
  end.
Definition sch_frame (busy : bool) (r : sch_result) (c : control) : control :=
  match sch_tpu_phase (k_sch c) with
  | SCH_TPU_RECEIVE => if busy then c else sch_phase_is SCH_TPU_RESULT_BOUNDARY c
  | SCH_TPU_RESULT_BOUNDARY =>
      let c := set_sch (sch_collected r (k_sch c)) c in
      if sch_received r || (sch_attempt_count (k_sch c) ==? SCH_ATTEMPT_COUNT) then sch_completed c else sch_phase_is SCH_TPU_RETRY_DELAY c
  | SCH_TPU_RETRY_DELAY =>
      fcch_phase_is FCCH_TPU_REFINEMENT_PREPARE (fcch_state_is FCCH_SCAN_REFINEMENT_COMMAND_REQUESTED (loop_phase_is TPU_LOOP_FCCH c))
  end.

(** What is read of the state, in the terms of the state machines; the next operation. *)
Ltac control_read Hm := rewrite ?(moves_loop_of _ _ _ Hm), ?(moves_scan_of _ _ _ Hm), ?(moves_fcch_of _ _ _ Hm), ?(moves_sch_of _ _ _ Hm).
Ltac is_unit r := match type of r with unit => idtac end.
Ltac control_step :=
  lazymatch goal with
  | |- wp _ (mbind _ _) _ _ _ => apply wp_bind
  | |- wp _ (mret _) _ _ _ => apply wp_ret
  | Hm : moves _ _ (w_app ?w) |- wp _ get_app _ _ ?w => apply wp_get_app; control_read Hm
  | |- wp _ (rd32 _) _ _ _ => fail
  | Hm : moves _ _ (w_app ?w) |- wp _ (modify (in_fcch _)) _ _ ?w =>
      eapply wp_in_fcch; [exact Hm|clear dependent w; let w := fresh "w" in let Hm := fresh "Hm" in intros w Hm]
  | Hm : moves _ _ (w_app ?w) |- wp _ (modify (in_sch _)) _ _ ?w =>
      eapply wp_in_sch; [exact Hm|clear dependent w; let w := fresh "w" in let Hm := fresh "Hm" in intros w Hm]
  | Hm : moves _ _ (w_app ?w) |- wp _ (modify (in_loop _)) _ _ ?w =>
      eapply wp_in_loop; [exact Hm|exact (moves_bank _ _ _ Hm)|clear dependent w; let w := fresh "w" in let Hm := fresh "Hm" in intros w Hm]
  | Hm : moves _ _ (w_app ?w) |- wp _ _ _ _ ?w =>
      eapply wp_quiet; [solve [auto with quiet]|exact Hm|clear dependent w; let r := fresh "r" in let w := fresh "w" in let Hm := fresh "Hm" in intros r w Hm; try (is_unit r; destruct r)]
  end; cbv beta zeta.
Ltac control_steps := unfold set_loop_phase, set_fcch_phase, set_fcch_state, publish_rf_initialization_frame, publish_idle_frame; repeat control_step.

Section Refinement.
Context {D : Type} `{!Device D}.
#[local] Abbreviation M := (M D gsm).
(** What a read of the DSP's status can say of the [flags]: it is still busy with one of them, or it is not. *)
Definition dsp_reports (flags : Z) (busy : bool) : Prop :=
  exists d : D, busy = negb ((port_wrap (Mmio 32 DSP_COM_STATUS) (fst (dev_read (Mmio 32 DSP_COM_STATUS) d)) .& flags) ==? 0).
(** The phases that ask: what they find is what the DSP reports. *)
Definition fcch_asks (c : control) (busy : bool) : Prop :=
  match fcch_tpu_phase (k_fcch c) with
  | FCCH_TPU_FINISH | FCCH_TPU_REFINEMENT_WAIT_RESULT => dsp_reports DSP_FCCH_COMMUNICATION_FLAGS busy
  | _ => True
  end.
Definition sch_asks (c : control) (busy : bool) : Prop :=
  match sch_tpu_phase (k_sch c) with SCH_TPU_RECEIVE => dsp_reports DSP_SCH_COMMUNICATION_FLAG busy | _ => True end.
(** What the scan can have come to. *)
Definition searched (scan : channel_scan) (o : bool * channel_scan) : Prop :=
  exists results' gains,
    (if measures scan then collected (D := D) (scan_request_channels scan) (scan_results scan) results' else results' = scan_results scan) /\
    o = (fst (advance results' scan), with_scan_request_gain_states gains (snd (advance results' scan))).
(** One frame. *)
Inductive frame_step (c : control) : control -> Prop :=
  | frame_power_up : tpu_loop_phase (k_loop c) = TPU_LOOP_RF_POWER_UP -> frame_step c (loop_phase_is TPU_LOOP_RF_INITIALIZATION c)
  | frame_transition : tpu_loop_phase (k_loop c) = TPU_LOOP_READY -> tpu_rf_transition_frame (k_loop c) <= TPU_RF_QUIET_FRAME_COUNT ->
      frame_step c (set_loop (with_tpu_rf_transition_frame (tpu_rf_transition_frame (k_loop c) + 1) (k_loop c)) c)
  | frame_ready : tpu_loop_phase (k_loop c) = TPU_LOOP_READY -> TPU_RF_QUIET_FRAME_COUNT < tpu_rf_transition_frame (k_loop c) ->
      receiver_scan_state (k_scan c) <> RECEIVER_SCAN_REQUESTED -> frame_step c c
  | frame_first o hz : tpu_loop_phase (k_loop c) = TPU_LOOP_READY -> TPU_RF_QUIET_FRAME_COUNT < tpu_rf_transition_frame (k_loop c) ->
      receiver_scan_state (k_scan c) = RECEIVER_SCAN_REQUESTED -> searched (k_scan c) o ->
      frame_step c (search_frame o hz (loop_phase_is TPU_LOOP_SEARCH c))
  | frame_search o hz : tpu_loop_phase (k_loop c) = TPU_LOOP_SEARCH -> searched (k_scan c) o -> frame_step c (search_frame o hz c)
  | frame_fcch busy r : tpu_loop_phase (k_loop c) = TPU_LOOP_FCCH -> fcch_asks c busy -> 0 <= f_start r < 0x10000 ->
      frame_step c (fcch_frame busy r c)
  | frame_sch busy r : tpu_loop_phase (k_loop c) = TPU_LOOP_SCH -> sch_asks c busy -> frame_step c (sch_frame busy r c)
  | frame_sch_start : tpu_loop_phase (k_loop c) = TPU_LOOP_COMPLETE -> sch_scan_state (k_sch c) = SCH_SCAN_REQUESTED -> frame_step c (sch_started c)
  | frame_complete : tpu_loop_phase (k_loop c) = TPU_LOOP_COMPLETE -> sch_scan_state (k_sch c) <> SCH_SCAN_REQUESTED -> frame_step c c
  | frame_initialization : tpu_loop_phase (k_loop c) = TPU_LOOP_RF_INITIALIZATION -> frame_step c c.
(** Before it, the interrupt ends the initialization of the transceiver and changes the bank. *)
Definition frame_begin (c : control) : control :=
  let l := k_loop c in
  let l := if bool_decide (tpu_loop_phase l = TPU_LOOP_RF_INITIALIZATION) then with_rf_initialization_complete true (with_tpu_loop_phase TPU_LOOP_READY l) else l in
  set_loop (if bool_decide (tpu_loop_phase l = TPU_LOOP_READY) && (tpu_rf_transition_frame l ==? 1) then l
            else with_tpu_schedule_bank (tpu_schedule_bank l .^ 1) l) c.
Lemma frame_begin_phase c : tpu_loop_phase (k_loop c) <> TPU_LOOP_RF_INITIALIZATION ->
  tpu_loop_phase (k_loop (frame_begin c)) = tpu_loop_phase (k_loop c).
Proof. intros H. unfold frame_begin. cbv zeta. rewrite (bool_decide_false (_ = TPU_LOOP_RF_INITIALIZATION)) by done. by destruct (_ && _). Qed.

(** *** The handlers *)
Lemma wp_read_fcch s c Q f w : moves s c (w_app w) ->
  (forall r w', 0 <= f_start r < 0x10000 -> moves s c (w_app w') -> Q r w') -> wp total (read_fcch_result : M fcch_result) Q f w.
Proof.
  intros Hm HQ. unfold read_fcch_result. wp_steps. unfold rd_shared, rd16. wp_steps. apply HQ; [|exact Hm]. simpl. apply Z.mod_pos_bound. lia.
Qed.
Lemma wp_collect_fcch s c Q f w : moves s c (w_app w) ->
  (forall r w', 0 <= f_start r < 0x10000 -> moves s (set_fcch (fcch_collected r (k_fcch c)) c) (w_app w') -> Q tt w') ->
  wp total (collect_fcch_result : M unit) Q f w.
Proof.
  intros Hm HQ. unfold collect_fcch_result. apply wp_bind. eapply wp_read_fcch; [exact Hm|]. intros r w1 Hr Hm1. clear Hm w.
  specialize (HQ r). unfold fcch_collected in HQ. cbv zeta in HQ. control_step. control_step. destruct (is_fcch_result_valid r).
  - control_step. by apply HQ.
  - control_steps. destruct (_ ==? _); simpl negb in *; cbv iota in *; control_steps; by apply HQ.
Qed.
Lemma wp_collect_refinement s c Q f w : moves s c (w_app w) ->
  (forall r w', 0 <= f_start r < 0x10000 -> moves s (set_fcch (refinement_collected r (k_fcch c)) c) (w_app w') -> Q tt w') ->
  wp total (collect_fcch_refinement_result : M unit) Q f w.
Proof.
  intros Hm HQ. unfold collect_fcch_refinement_result. apply wp_bind. eapply wp_read_fcch; [exact Hm|]. intros r w1 Hr Hm1. clear Hm w.
  specialize (HQ r). unfold refinement_collected in HQ. cbv zeta in HQ. control_step. control_step. destruct (is_fcch_result_valid r).
  - control_steps. by apply HQ.
  - control_steps. by apply HQ.
Qed.
Lemma wp_collect_sch s c Q f w : moves s c (w_app w) ->
  (forall r w', moves s (set_sch (sch_collected r (k_sch c)) c) (w_app w') ->
     Q (if sch_received r then true else sch_attempt_count (sch_collected r (k_sch c)) ==? SCH_ATTEMPT_COUNT) w') ->
  wp total (collect_sch_result : M bool) Q f w.
Proof.
  intros Hm HQ. unfold collect_sch_result. apply wp_bind, wp_rd. intros flags d0 _. apply wp_bind, wp_rd. intros metric d1 _.
  apply wp_bind, wp_rd. intros status d2 _. apply wp_bind, wp_rd. intros data0 d3 _. apply wp_bind, wp_rd. intros data1 d4 _.
  apply wp_bind, wp_rd. intros position d5 _. cbv zeta.
  set (r := SchResult _ _ _ _ _). apply wp_bind. eapply wp_in_sch; [exact Hm|]. intros w1 Hm1. control_steps. exact (HQ r _ Hm1).
Qed.

(** *** The frames *)
Lemma wp_fcch_start bank s c Q f w : moves s c (w_app w) -> (forall hz w', moves s (fcch_started hz c) (w_app w') -> Q tt w') ->
  wp total (fcch_scan_start bank : M unit) Q f w.
Proof. intros Hm HQ. unfold fcch_scan_start. control_steps. exact (HQ r _ Hm). Qed.
Lemma wp_sch_start bank s c Q f w : moves s c (w_app w) -> (forall w', moves s (sch_started c) (w_app w') -> Q tt w') ->
  wp total (sch_candidate_start bank : M unit) Q f w.
Proof. intros Hm HQ. unfold sch_candidate_start. control_steps. exact (HQ _ Hm). Qed.
Lemma wp_sch_complete bank s c Q f w : moves s c (w_app w) -> (forall w', moves s (sch_completed c) (w_app w') -> Q tt w') ->
  wp total (sch_scan_complete bank : M unit) Q f w.
Proof. intros Hm HQ. unfold sch_scan_complete. control_steps. exact (HQ _ Hm). Qed.
Lemma wp_status s c Q f w : moves s c (w_app w) ->
  (forall v w', moves s c (w_app w') -> (forall flags, dsp_reports flags (negb ((v .& flags) ==? 0))) -> Q v w') ->
  wp total (rd32 DSP_COM_STATUS : M Z) Q f w.
Proof. intros Hm HQ. apply wp_rd. intros v d Hrd. apply HQ; [done|]. intros flags. exists (w_dev w). by rewrite Hrd. Qed.
Ltac status_step Hm v E := apply wp_bind; eapply wp_status; [exact Hm|]; let w := fresh "w" in let H := fresh "Hm" in intros v w H E; clear Hm; rename H into Hm.
Lemma wp_fcch_frame bank s c Q f w : moves s c (w_app w) ->
  (forall busy r w', fcch_asks c busy -> 0 <= f_start r < 0x10000 -> moves s (fcch_frame busy r c) (w_app w') -> Q tt w') ->
  wp total (publish_next_fcch_frame bank : M unit) Q f w.
Proof.
  intros Hm HQ. unfold publish_next_fcch_frame. control_step. control_step. unfold fcch_frame, fcch_asks in HQ. cbv zeta in *.
  destruct (fcch_tpu_phase (k_fcch c)); cbv iota in *.
  all: try (repeat case_bool_decide; control_steps; by apply (HQ false zero_fcch)).
  all: status_step Hm v Hsays; specialize (Hsays DSP_FCCH_COMMUNICATION_FLAGS); destruct (_ ==? 0) in Hsays |- *; simpl negb in *; cbv iota.
  all: try (control_steps; by apply (HQ true zero_fcch)).
  - apply wp_bind. eapply wp_collect_fcch; [exact Hm|]. clear Hm. intros r w1 Hr Hm. apply wp_bind, wp_get_app. control_read Hm. cbv beta.
    specialize (HQ false r). cbn [k_fcch set_fcch] in *. destruct (fcch_scan_state (fcch_collected r (k_fcch c))); control_steps; by apply HQ.
  - apply wp_bind. eapply wp_collect_refinement; [exact Hm|]. clear Hm. intros r w1 Hr Hm. apply wp_bind, wp_get_app. control_read Hm. cbv beta.
    specialize (HQ false r). cbn [k_fcch set_fcch] in *. destruct (fcch_scan_state (refinement_collected r (k_fcch c)));
      lazymatch goal with
      | |- wp _ (sch_scan_complete _) _ _ _ => eapply wp_sch_complete; [exact Hm|]; intros; by apply HQ
      | _ => unfold sch_scan_start; control_steps; by apply HQ
      end.
Qed.
Lemma wp_sch_frame bank s c Q f w : moves s c (w_app w) ->
  (forall busy r w', sch_asks c busy -> moves s (sch_frame busy r c) (w_app w') -> Q tt w') ->
  wp total (publish_next_sch_frame bank : M unit) Q f w.
Proof.
  intros Hm HQ. unfold publish_next_sch_frame. control_step. control_step. unfold sch_frame, sch_asks in HQ. cbv zeta in *.
  destruct (sch_tpu_phase (k_sch c)); cbv iota in *.
  - status_step Hm v Hsays. specialize (Hsays DSP_SCH_COMMUNICATION_FLAG). destruct (_ ==? 0) in Hsays |- *; simpl negb in *; cbv iota; control_steps.
    + by apply (HQ false (SchResult 0 0 (0, 0) 0 0)).
    + by apply (HQ true (SchResult 0 0 (0, 0) 0 0)).
  - apply wp_bind. eapply wp_collect_sch; [exact Hm|]. clear Hm. intros r w1 Hm. specialize (HQ false r). cbn [k_sch set_sch] in *.
    destruct (sch_received r); simpl orb in *; cbv iota in *; [|destruct (_ ==? _)]; simpl negb; cbv iota in *;
      lazymatch goal with
      | |- wp _ (sch_scan_complete _) _ _ _ => eapply wp_sch_complete; [exact Hm|]; intros; by apply HQ
      | _ => control_steps; by apply HQ
      end.
  - control_steps. by apply (HQ false (SchResult 0 0 (0, 0) 0 0)).
Qed.
Lemma wp_configure_monitoring bank s c Q f w : moves s c (w_app w) ->
  (forall gains w', moves s (set_scan (with_scan_request_gain_states gains (k_scan c)) c) (w_app w') -> Q tt w') ->
  wp total (configure_monitoring_frame bank (scan_request_channels (k_scan c)) : M unit) Q f w.
Proof.
  intros Hm HQ. unfold configure_monitoring_frame. apply wp_bind.
  destruct (sound_requests _ (proj1 Hm)) as [Hl Hch]. rewrite (moves_scan_of _ _ _ Hm) in Hl, Hch.
  apply (wp_foldM _ _ (fun _ (_ : unit) w' => exists gains, moves s (set_scan (with_scan_request_gain_states gains (k_scan c)) c) (w_app w'))).
  { exists (scan_request_gain_states (k_scan c)). by destruct c as [? [] ? ?]. }
  2:{ clear Hm. intros [] w' (gains & Hm). apply wp_bind, wp_get_app. control_read Hm.
      destruct (sound_request_gains _ (proj1 Hm)) as [Hl' Hg]. rewrite (moves_scan_of _ _ _ Hm) in Hl', Hg.
      eapply wp_quiet; [by apply quiet_configure_monitoring|exact Hm|]. intros [] w'' Hm'. by eapply HQ. }
  clear Hm w. intros done i todo _ w Hsplit (gains & Hm). apply seqZ_split in Hsplit as [-> Hi]. unfold GSM_TRX_MONITOR_COUNT in Hi.
  destruct (elem_some (scan_request_channels (k_scan c)) (Z.of_nat (length done))) as (ch & Ech & Hin); [lia|].
  apply wp_bind. eapply wp_defined; [exact Ech|]. rewrite Forall_forall in Hch. specialize (Hch _ Hin).
  assert (forall g w, gain_state_ok g -> moves s (set_scan (with_scan_request_gain_states gains (k_scan c)) c) (w_app w) ->
    wp total (modify (in_scan (fun s => with_scan_request_gain_states (<[Z.to_nat (Z.of_nat (length done)) := g]> (scan_request_gain_states s)) s)) : M unit)
      (fun _ w' => exists gains, moves s (set_scan (with_scan_request_gain_states gains (k_scan c)) c) (w_app w')) f w) as Hset.
  { clear. intros g w Hg Hm. unfold modify. wp_steps. exists (<[Z.to_nat (Z.of_nat (length done)) := g]> gains).
    pose proof (sound_request_gains _ (proj1 Hm)) as [Hl Hgs]. unfold in_scan. rewrite (moves_scan_of _ _ _ Hm) in *.
    pose proof (moves_gains _ _ _ (<[Z.to_nat (Z.of_nat (length done)) := g]> gains) Hm) as Hm'.
    rewrite (moves_scan_of _ _ _ Hm) in Hm'. apply Hm'. split; [by rewrite length_insert|by apply Forall_insert]. }
  apply wp_bind. destruct (Z.eqb_spec ch GSM_CHANNEL_NONE) as [->|Hne]; simpl negb; cbv iota.
  { apply wp_ret, Hset; [by vm_compute|done]. }
  destruct Hch as [?|Hch]; [done|]. destruct (scan_channels_index ch Hch) as [Hci _]. apply wp_bind, wp_get_app, wp_bind.
  eapply wp_defined; [apply elem_result; [apply (proj1 Hm)|done]|]. apply wp_ret, Hset; [|done]. apply (result_at_ok _ ch (sound_levels _ (proj1 Hm))).
Qed.
Lemma wp_search_frame bank groups s c Q f w : moves s c (w_app w) ->
  (forall o hz w', searched (k_scan c) o -> moves s (search_frame o hz c) (w_app w') -> Q tt w') ->
  wp total (publish_next_search_frame bank groups : M unit) Q f w.
Proof.
  intros Hm HQ. unfold publish_next_search_frame. apply wp_bind. eapply wp_advance; [exact Hm|]. clear Hm w. intros b w results' Hres [-> Hm].
  set (o := advance results' (k_scan c)) in *. control_step. control_step. cbn [k_scan set_scan k_fcch]. destruct (fst o) eqn:Eb.
  - apply wp_bind. eapply (wp_configure_monitoring _ _ (set_scan (snd o) c)); [exact Hm|]. clear Hm w. intros gains w Hm. control_steps.
    apply (HQ (fst o, with_scan_request_gain_states gains (snd o)) 0); [by exists results', gains|]. unfold search_frame. cbn [fst snd]. rewrite Eb. exact Hm.
  - assert (searched (k_scan c) (fst o, snd o)) as Hs.
    { exists results', (scan_request_gain_states (snd o)). split; [done|]. unfold o. by destruct (snd (advance results' (k_scan c))). }
    case_bool_decide as E.
    + eapply wp_fcch_start; [exact Hm|]. clear Hm w. intros hz w Hm. apply (HQ (fst o, snd o) hz); [done|]. unfold search_frame. cbn [fst snd].
      rewrite Eb, bool_decide_true by done. exact Hm.
    + control_steps. apply (HQ (fst o, snd o) 0); [done|]. unfold search_frame. cbn [fst snd]. rewrite Eb, bool_decide_false by done. exact Hm.
Qed.
Lemma wp_transition bank s c Q f w : moves s c (w_app w) ->
  (tpu_rf_transition_frame (k_loop c) <= TPU_RF_QUIET_FRAME_COUNT -> forall w',
     moves s (set_loop (with_tpu_rf_transition_frame (tpu_rf_transition_frame (k_loop c) + 1) (k_loop c)) c) (w_app w') -> Q true w') ->
  (TPU_RF_QUIET_FRAME_COUNT < tpu_rf_transition_frame (k_loop c) -> forall w', moves s c (w_app w') -> Q false w') ->
  wp total (publish_rf_transition_frame bank : M bool) Q f w.
Proof.
  intros Hm HQ1 HQ2. unfold publish_rf_transition_frame. control_step. control_step.
  destruct (Z.ltb_spec (tpu_rf_transition_frame (k_loop c)) TPU_RF_QUIET_FRAME_COUNT); [control_steps; apply HQ1; [lia|done]|].
  destruct (Z.eqb_spec (tpu_rf_transition_frame (k_loop c)) TPU_RF_QUIET_FRAME_COUNT); control_steps; [apply HQ1|apply HQ2]; (lia || done).
Qed.
Lemma wp_next_frame s c Q f w : moves s c (w_app w) ->
  let l := k_loop c in
  let c1 := set_loop (if bool_decide (tpu_loop_phase l = TPU_LOOP_READY) && (tpu_rf_transition_frame l ==? 1) then l
                      else with_tpu_schedule_bank (tpu_schedule_bank l .^ 1) l) c in
  (forall c' w', frame_step c1 c' -> moves s c' (w_app w') -> Q tt w') ->
  wp total (publish_next_tpu_frame : M unit) Q f w.
Proof.
  intros Hm l c1 HQ. unfold publish_next_tpu_frame. control_step. control_step. fold l. apply wp_bind.
  assert (forall w, moves s c1 (w_app w) -> wp total (s ← get_app; let bank := tpu_schedule_bank (g_loop s) in
    match tpu_loop_phase (g_loop s) with
    | TPU_LOOP_RF_POWER_UP => set_loop_phase TPU_LOOP_RF_INITIALIZATION;; publish_rf_initialization_frame bank TPU_INITIALIZATION_EVENT_GROUPS
    | TPU_LOOP_READY =>
        published ← publish_rf_transition_frame bank;
        if published : bool then mret tt
        else if bool_decide (receiver_scan_state (g_scan s) = RECEIVER_SCAN_REQUESTED) then
          set_loop_phase TPU_LOOP_SEARCH;; publish_next_search_frame bank TPU_FIRST_SEARCH_EVENT_GROUPS
        else publish_idle_frame bank
    | TPU_LOOP_SEARCH => publish_next_search_frame bank TPU_SEARCH_EVENT_GROUPS
    | TPU_LOOP_FCCH => publish_next_fcch_frame bank
    | TPU_LOOP_SCH => publish_next_sch_frame bank
    | TPU_LOOP_COMPLETE => if bool_decide (sch_scan_state (g_sch s) = SCH_SCAN_REQUESTED) then sch_candidate_start bank else publish_idle_frame bank
    | TPU_LOOP_RF_INITIALIZATION => publish_idle_frame bank
    end : M unit) Q f w) as Hgo; cycle 1.
  { unfold c1 in Hgo. destruct (_ && _); simpl when; cbv beta; [apply wp_ret, Hgo; by destruct c|]. eapply wp_in_loop; [exact Hm| |].
    - pose proof (moves_bank _ _ _ Hm) as [E|E]; cbn; rewrite E; [by right|by left].
    - intros w' Hm'. by apply Hgo. }
  clear Hm w. intros w Hm. control_step. control_step. clearbody c1. clear l.
  destruct (tpu_loop_phase (k_loop c1)) eqn:Eph.
  - control_steps. eapply HQ; [by apply frame_power_up|exact Hm].
  - control_steps. eapply HQ; [by apply frame_initialization|exact Hm].
  - apply wp_bind. eapply wp_transition; [exact Hm|intros Ht|intros Ht]; clear Hm w; intros w Hm.
    + apply wp_ret. eapply HQ; [by apply frame_transition|exact Hm].
    + case_bool_decide as Est; [|control_steps; eapply HQ; [by apply frame_ready|exact Hm]].
      unfold set_loop_phase. apply wp_bind. eapply wp_in_loop; [exact Hm|exact (moves_bank _ _ _ Hm)|]. clear Hm w. intros w Hm.
      eapply wp_search_frame; [exact Hm|]. clear Hm w. intros o hz w Ho Hm. eapply HQ; [by eapply frame_first|exact Hm].
  - eapply wp_search_frame; [exact Hm|]. clear Hm w. intros o hz w Ho Hm. eapply HQ; [by eapply frame_search|exact Hm].
  - eapply wp_fcch_frame; [exact Hm|]. clear Hm w. intros busy r w Hb Hr Hm. eapply HQ; [by eapply frame_fcch|exact Hm].
  - eapply wp_sch_frame; [exact Hm|]. clear Hm w. intros busy r w Hb Hm. eapply HQ; [by eapply frame_sch|exact Hm].
  - case_bool_decide as Est; [|control_steps; eapply HQ; [by apply frame_complete|exact Hm]].
    eapply wp_sch_start; [exact Hm|]. clear Hm w. intros w Hm. eapply HQ; [by apply frame_sch_start|exact Hm].
Qed.
(** The interrupt, for the proofs about the foreground. *)
Lemma wp_irq s c Q f w : moves s c (w_app w) ->
  (forall c' w', frame_step (frame_begin c) c' -> moves s c' (w_app w') -> Q tt w') ->
  wp total (gsm_l1_tpu_irq : M unit) Q f w.
Proof.
  intros Hm HQ. unfold gsm_l1_tpu_irq. apply wp_bind. eapply wp_quiet; [apply quiet_rd|exact Hm|]. clear Hm w. intros v w Hm.
  apply wp_bind. eapply wp_quiet; [apply quiet_wr32|exact Hm|]. clear Hm w. intros _ w Hm. apply wp_bind, wp_get_app, wp_bind.
  rewrite (moves_loop_of _ _ _ Hm). unfold frame_begin in HQ. cbv zeta in HQ.
  destruct (bool_decide (tpu_loop_phase (k_loop c) = TPU_LOOP_RF_INITIALIZATION)); simpl when.
  - eapply wp_in_loop; [exact Hm|exact (moves_bank _ _ _ Hm)|]. clear Hm w. intros w Hm. eapply wp_next_frame; [exact Hm|]. exact HQ.
  - apply wp_ret. eapply wp_next_frame; [exact Hm|]. exact HQ.
Qed.
End Refinement.
Ltac status_step Hm v E := apply wp_bind; eapply wp_status; [exact Hm|]; let w := fresh "w" in let H := fresh "Hm" in intros v w H E; clear Hm; rename H into Hm.
