(* ===== verification/GsmWait.v ===== *)
(** * Layer 1 of the GSM receiver: the foreground's waits

    The loops of [gsm-l1.c] that wait for the state machines: an invariant and a measure for
    [wait_until], the commands the foreground executes for the interrupt
    ([execute_requested_fcch_command]), and what leaves the clock's variables alone. *)
From S2P Require Import Prelude Machine Board Regs Stopwatch Smbus GsmRegs GsmChannel GsmTrx GsmCalib GsmBoard GsmLoad Dsp GsmState GsmL1 GsmFrame GsmSelect GsmQuiet GsmScan GsmControl.
Import Regs.Pmb8876.

(** ** What an operation leaves alone *)
Section Lib.
Context {D A : Type} `{!Device D}.
#[local] Abbreviation M := (M D A).
(** [g] of the statics of the library and the program is as before. *)
Definition keeps {X R} (g : lib_state -> A -> X) (m : M R) : Prop :=
  forall f w, match m f w with Done _ w' | Stop _ w' => g (w_lib w') (w_app w') = g (w_lib w) (w_app w) end.
Section Keeps.
Context {X : Type} (g : lib_state -> A -> X).
Lemma keeps_ret {R} (r : R) : keeps g (mret r). Proof. done. Qed.
Lemma keeps_bind {R S} (m : M R) (k : R -> M S) : keeps g m -> (forall r, keeps g (k r)) -> keeps g (m ≫= k).
Proof.
  intros Hm Hk f w. specialize (Hm f w). unfold mbind, M_bind. destruct (m f w) as [r w'|c w']; [|done].
  specialize (Hk r f w'). destruct (k r f w'); congruence.
Qed.
Lemma keeps_rd p : keeps g (rd p). Proof. intros f w. unfold rd. by destruct (dev_read p (w_dev w)). Qed.
Lemma keeps_wr p v : keeps g (wr p v). Proof. done. Qed.
Lemma keeps_get_app : keeps g get_app. Proof. done. Qed.
Lemma keeps_put_app a : (forall l s, g l a = g l s) -> keeps g (put_app a). Proof. intros H f w. apply H. Qed.
Lemma keeps_get_lib : keeps g get_lib. Proof. done. Qed.
Lemma keeps_put_lib l : (forall l' s, g l s = g l' s) -> keeps g (put_lib l). Proof. intros H f w. apply H. Qed.
Lemma keeps_stop {R} c : keeps g (stop (R := R) c). Proof. done. Qed.
Lemma keeps_ld8 a : keeps g (ld8 a). Proof. intros f w. unfold ld8. by destruct (mem_valid _ _). Qed.
Lemma keeps_st8 a v : keeps g (st8 a v). Proof. intros f w. unfold st8. by destruct (mem_valid _ _). Qed.
Lemma keeps_foldM {Y Z'} (body : Y -> Z' -> M Y) x l : (forall x y, keeps g (body x y)) -> keeps g (foldM body x l).
Proof. intros H. revert x. induction l as [|y l IH]; intros x; simpl; [apply keeps_ret|]. by apply keeps_bind. Qed.
Lemma keeps_iter {Y R} (body : Y -> M (Y + R)) x : (forall x, keeps g (body x)) -> keeps g (iter body x).
Proof.
  intros Hb f w. unfold iter. generalize f at 1 as n. intros n. revert x w.
  induction n as [|n IH]; intros x w; simpl; [done|]. specialize (Hb x f w). destruct (body x f w) as [[x'|r] w'|c w']; [|done..].
  specialize (IH x' w'). destruct (loop n body x' f w'); congruence.
Qed.
Lemma keeps_update (h : A -> A) : (forall l s, g l (h s) = g l s) -> keeps g (s ← get_app; put_app (h s)).
Proof. intros H f w. apply H. Qed.
Lemma wp_keeps {R} (m : M R) E Q f w : keeps g m ->
  wp E m (fun r w' => g (w_lib w') (w_app w') = g (w_lib w) (w_app w) -> Q r w') f w -> wp E m Q f w.
Proof. intros Hm Hwp. specialize (Hm f w). unfold wp in *. destruct (m f w); auto. Qed.
End Keeps.
Definition keeps_lib {R} (m : M R) : Prop := keeps (fun l _ => l) m.
Lemma wp_keeps_lib {R} (m : M R) E Q f w : keeps_lib m -> wp E m (fun r w' => w_lib w' = w_lib w -> Q r w') f w -> wp E m Q f w.
Proof. apply (wp_keeps (fun l _ => l)). Qed.
End Lib.
(** Through an operation's definitions. *)
Ltac keeps_step :=
  lazymatch goal with
  | |- forall _, _ => intros
  | |- keeps_lib _ => unfold keeps_lib
  | |- keeps _ (s ← get_app; put_app (@?h s)) => apply (keeps_update _ h); first [done|intros; by destruct_and?]
  | |- keeps _ (mbind _ _) => apply keeps_bind
  | |- keeps _ (mret _) => apply keeps_ret
  | |- keeps _ (stop _) => apply keeps_stop
  | |- keeps _ (rd _) => apply keeps_rd
  | |- keeps _ (wr _ _) => apply keeps_wr
  | |- keeps _ (ld8 _) => apply keeps_ld8
  | |- keeps _ (st8 _ _) => apply keeps_st8
  | |- keeps _ get_app => apply keeps_get_app
  | |- keeps _ get_lib => apply keeps_get_lib
  | |- keeps _ (put_app _) => apply keeps_put_app; done
  | |- keeps _ (put_lib _) => apply keeps_put_lib; done
  | |- keeps _ (foldM _ _ _) => apply keeps_foldM
  | |- keeps _ (iter _ _) => apply keeps_iter
  | |- keeps _ (if ?b then _ else _) => destruct b
  | |- keeps _ (match ?x with _ => _ end) => destruct x
  | |- keeps _ (let _ := _ in _) => cbv zeta
  | |- keeps _ (fun _ _ => _) => let f := fresh "f" in let w := fresh "w" in intros f w; cbv beta; match goal with |- context [match ?o with Some _ => _ | None => _ end] => destruct o end; reflexivity
  | |- keeps _ (?f _ _ _ _ _ _ _ _ _ _ _ _) => unfold f
  | |- keeps _ (?f _ _ _ _ _ _ _ _ _ _ _) => unfold f
  | |- keeps _ (?f _ _ _ _ _ _ _ _ _ _) => unfold f
  | |- keeps _ (?f _ _ _ _ _ _ _ _ _) => unfold f
  | |- keeps _ (?f _ _ _ _ _ _ _ _) => unfold f
  | |- keeps _ (?f _ _ _ _ _ _ _) => unfold f
  | |- keeps _ (?f _ _ _ _ _ _) => unfold f
  | |- keeps _ (?f _ _ _ _ _) => unfold f
  | |- keeps _ (?f _ _ _ _) => unfold f
  | |- keeps _ (?f _ _ _) => unfold f
  | |- keeps _ (?f _ _) => unfold f
  | |- keeps _ (?f _) => unfold f
  | |- keeps _ ?f => unfold f
  end; cbv beta.
Lemma irq_keeps_lib {D} `{!Device D} : keeps_lib (gsm_l1_tpu_irq : M D gsm unit).
Proof. repeat keeps_step. Qed.
Lemma keeps_lib_of {D A R X} `{!Device D} (g : lib_state -> X) (m : M D A R) : keeps_lib m -> keeps (fun l _ => g l) m.
Proof. intros H f w. specialize (H f w). destruct (m f w); congruence. Qed.

(** ** The program's poll, at which the interrupt comes *)
Section Poll.
Context {D : Type} `{!Device D}.
#[local] Abbreviation M := (M D gsm).
Definition keeps_ticks {R} (m : M R) : Prop := keeps (fun l _ => ticks_per_s l) m.
(** What the program does in its poll leaves the receiver alone and comes back. *)
Definition harmless (serve : M unit) : Prop :=
  keeps (fun l s => (ticks_per_s l, s)) serve /\ forall f w, ticks_per_s (w_lib w) <> 0 -> wp total serve (fun _ _ => True) f w.
Definition polled (serve : M unit) : M unit := serve;; gsm_l1_tpu_irq.
Lemma harmless_ret : harmless (mret tt).
Proof. by split; [apply keeps_ret|]. Qed.
Lemma harmless_ticks serve : harmless serve -> keeps_ticks serve.
Proof. intros [H _] f w. specialize (H f w). destruct (serve f w); by injection H. Qed.
Lemma polled_keeps_ticks serve : harmless serve -> keeps_ticks (polled serve).
Proof. intros H. apply keeps_bind; [by apply harmless_ticks|]. intros _. apply (keeps_lib_of (fun l => ticks_per_s l)), irq_keeps_lib. Qed.
Lemma wp_polled serve s c Q f w : harmless serve -> moves s c (w_app w) -> ticks_per_s (w_lib w) <> 0 ->
  (forall c' w', frame_step (D := D) (frame_begin c) c' -> moves s c' (w_app w') -> Q tt w') -> wp total (polled serve) Q f w.
Proof.
  intros [Hk Htot] Hm Ht HQ. unfold polled. apply wp_bind. eapply wp_keeps; [exact Hk|]. eapply wp_mono; [by apply Htot|].
  intros [] w1 _ [= _ Es]. rewrite <- Es in Hm. by eapply wp_irq.
Qed.
(** What the waits ask of a poll: every poll is a frame. *)
Class Polling (poll : M unit) : Prop := {
  polling_ticks : keeps_ticks poll;
  polling_frame s c Q f w : moves s c (w_app w) -> ticks_per_s (w_lib w) <> 0 ->
    (forall c' w', frame_step (D := D) (frame_begin c) c' -> moves s c' (w_app w') -> Q tt w') -> wp total poll Q f w;
}.
Lemma polled_polling serve : harmless serve -> Polling (polled serve).
Proof. intros H. split; [by apply polled_keeps_ticks|]. intros. by eapply wp_polled. Qed.
Lemma execute_keeps_ticks poll : Polling poll -> keeps_ticks (execute_requested_fcch_command poll : M bool).
Proof. intros [Hp _]. unfold keeps_ticks in *. repeat first [exact Hp|keeps_step]. Qed.
Lemma poll_keeps_ticks poll : Polling poll -> keeps_ticks (poll_step poll : M bool).
Proof. intros [Hp _]. unfold keeps_ticks in *. repeat first [exact Hp|keeps_step]. Qed.
End Poll.

(** ** Waiting *)
Section Wait.
Context {D : Type} `{!Device D} `{B : Board}.
#[local] Abbreviation M := (M D gsm).
Lemma quiet_stopwatch_get : quiet (stopwatch_get : M Z).
Proof. unfold stopwatch_get. apply quiet_bind; [apply quiet_rd|intros]. apply quiet_bind; [apply quiet_rd|intros]. apply quiet_ret. Qed.
Lemma wp_elapsed start Q f (w : world D gsm) : ticks_per_s (w_lib w) <> 0 ->
  (forall v w', w_app w' = w_app w -> w_lib w' = w_lib w -> Q v w') -> wp total (stopwatch_elapsed_ms start) Q f w.
Proof.
  intros Ht HQ. unfold stopwatch_elapsed_ms, stopwatch_elapsed, stopwatch_get. wp_steps. apply wp_udiv; [done|]. wp_steps. by apply HQ.
Qed.
(** A wait for the state machines: [I] holds at every poll, and every poll makes [v] smaller. *)
Lemma wp_wait_until (reached : gsm -> bool) timeout_ms (step : M bool) (I : gsm -> Prop) (v : gsm -> nat) Q f w :
  I (w_app w) -> ticks_per_s (w_lib w) <> 0 -> (v (w_app w) < f)%nat ->
  (forall w, I (w_app w) -> ticks_per_s (w_lib w) <> 0 -> reached (w_app w) = false ->
     wp total step (fun go w' => ticks_per_s (w_lib w') = ticks_per_s (w_lib w) /\ go = true /\ I (w_app w') /\ (v (w_app w') < v (w_app w))%nat) f w) ->
  (forall w, I (w_app w) -> Q true w) ->
  wp total (wait_until (s ← get_app; mret (reached s)) timeout_ms step) Q f w.
Proof.
  intros HI Ht Hv Hstep HQ. unfold wait_until. apply wp_bind. unfold stopwatch_get. wp_steps.
  eapply (wp_iter _ _ (fun _ w' => I (w_app w') /\ ticks_per_s (w_lib w') <> 0) (fun _ w' => v (w_app w'))); [by split|exact Hv|].
  intros [] w1 [HI1 Ht1]. wp_steps. destruct (reached (w_app w1)) eqn:Er; [by apply wp_ret, HQ|].
  apply wp_bind, wp_elapsed; [done|]. intros elapsed w2 Ea El. destruct (elapsed <? timeout_ms); [|apply wp_ret, HQ; by rewrite Ea].
  rewrite <- Ea in HI1, Er. rewrite <- El in Ht1. apply wp_bind. eapply wp_mono; [by apply Hstep|].
  intros go w3 (El3 & -> & HI3 & Hv3). apply wp_ret. rewrite El3. split; [by split|by rewrite <- Ea].
Qed.

(** ** The commands *)
(** What the foreground does to the search. *)
Definition served_state (state : fcch_state) : fcch_state :=
  match state with
  | FCCH_SCAN_BB_OFF_REQUESTED | FCCH_SCAN_COMMAND_REQUESTED => FCCH_SCAN_ACTIVE
  | FCCH_SCAN_REFINEMENT_BB_OFF_REQUESTED | FCCH_SCAN_REFINEMENT_COMMAND_REQUESTED => FCCH_SCAN_REFINEMENT_ACTIVE
  | state => state
  end.
Definition served (c : control) : control := fcch_state_is (served_state (fcch_scan_state (k_fcch c))) c.
(** The foreground was asked to execute a command. *)
Definition command_requested (c : control) : Prop := served_state (fcch_scan_state (k_fcch c)) <> fcch_scan_state (k_fcch c).
(** The phase the loop asked in: it does not go on before the command was executed. *)
Definition waits (c : control) : Prop :=
  match fcch_scan_state (k_fcch c), fcch_tpu_phase (k_fcch c) with
  | (FCCH_SCAN_BB_OFF_REQUESTED | FCCH_SCAN_REFINEMENT_BB_OFF_REQUESTED), FCCH_TPU_RF_QUIET_FIRST
  | FCCH_SCAN_COMMAND_REQUESTED, FCCH_TPU_PREPARE_SECOND
  | FCCH_SCAN_REFINEMENT_COMMAND_REQUESTED, FCCH_TPU_REFINEMENT_PREPARE => True
  | _, _ => False
  end.
Lemma served_requests c : ~ command_requested (served c).
Proof. unfold command_requested, served. cbn. intros H. apply H. by destruct (fcch_scan_state (k_fcch c)). Qed.
Lemma waiting_frame busy r c : waits c -> fcch_frame busy r c = c.
Proof.
  unfold waits, fcch_frame. destruct (fcch_scan_state (k_fcch c)) eqn:Est, (fcch_tpu_phase (k_fcch c)); try done; intros _.
  all: rewrite bool_decide_true by auto; done.
Qed.
Lemma waiting_step c c' : tpu_loop_phase (k_loop c) = TPU_LOOP_FCCH -> waits c -> frame_step (D := D) (frame_begin c) c' -> c' = frame_begin c.
Proof.
  intros Hl Hw Hstep. assert (tpu_loop_phase (k_loop (frame_begin c)) = TPU_LOOP_FCCH) as Hl' by (rewrite frame_begin_phase; congruence).
  destruct Hstep; try congruence. by apply waiting_frame.
Qed.
Lemma quiet_fcch_command : quiet (dsp_fcch_command_start : M unit).
Proof. apply quiet_bind; [apply quiet_reset_fcch|intros _; apply quiet_command]. Qed.
Lemma quiet_refinement_command : quiet (dsp_fcch_refinement_command_start : M unit).
Proof. apply quiet_bind; [apply quiet_reset_fcch|intros _; apply quiet_command]. Qed.
Hint Resolve quiet_fcch_command quiet_refinement_command : quiet.
Lemma quiet_signal flags : quiet (signal_dsp_communication flags : M unit).
Proof. unfold signal_dsp_communication. repeat (apply quiet_bind; [apply quiet_wr|intros _]). apply quiet_wr. Qed.
End Wait.

(** A step that keeps the library's variables. *)
Lemma wp_modified {D} `{!Device D} (g : gsm -> gsm) E Q f (w : world D gsm) :
  (forall w', w_app w' = g (w_app w) -> w_lib w' = w_lib w -> Q tt w') -> wp E (modify g) Q f w.
Proof. intros HQ. unfold modify. wp_steps. by apply HQ. Qed.
Lemma wp_ticks {D A R} `{!Device D} (m : M D A R) E Q f w : keeps_lib m -> ticks_per_s (w_lib w) <> 0 ->
  wp E m (fun r w' => ticks_per_s (w_lib w') <> 0 -> Q r w') f w -> wp E m Q f w.
Proof. intros Hm Ht Hwp. eapply wp_keeps_lib; [exact Hm|]. eapply wp_mono; [exact Hwp|]. intros r w' H El. apply H. by rewrite El. Qed.
Ltac ticked_step :=
  apply wp_bind; lazymatch goal with Ht : ticks_per_s _ <> 0 |- _ => eapply wp_ticks; [solve [repeat keeps_step]|exact Ht|clear Ht]; control_step; intros Ht end.
#[export] Hint Resolve quiet_signal : quiet.
