(* ===== verification/GsmReady.v ===== *)
(** * Layer 1 of the GSM receiver: it gets ready

    What [gsm_l1_baseband_init] and [gsm_l1_trx_init] establish: the invariant that the theorems
    about the scan and the search start from. *)
From S2P Require Import Prelude Machine Board Regs Stopwatch Wdt Smbus TestLib GsmRegs GsmChannel GsmTrx GsmCalib GsmBoard GsmLoad Dsp GsmState GsmL1 GsmFrame GsmSelect GsmQuiet GsmScan GsmControl GsmWait.
Import Regs.Pmb8876.

(** ** The base band *)
(** The tables of a program that was just started, or was used before. *)
Record tables_ok (s : gsm) : Prop := TablesOk {
  tables_telegrams : length (g_telegrams s) = 20%nat;
  tables_calibration : calibration_ok (bs_calibration (g_board s));
  tables_bank : tpu_schedule_bank (g_loop s) = 0 \/ tpu_schedule_bank (g_loop s) = 1;
  tables_results : table_size (scan_results (g_scan s));
  tables_levels : Forall result_ok (scan_results (g_scan s));
  tables_requests : length (scan_request_channels (g_scan s)) = 4%nat /\ Forall channel_ok (scan_request_channels (g_scan s));
  tables_request_gains : length (scan_request_gain_states (g_scan s)) = 4%nat /\ Forall gain_state_ok (scan_request_gain_states (g_scan s));
  tables_candidate : 0 <= c_channel_index (current_candidate s) < GSM_CHANNEL_COUNT /\ gain_state_ok (c_gain_state (current_candidate s));
}.
Section Baseband.
Context {D : Type} `{!Device D} `{B : Board} `{Hw : !I2cHw D gsm}.
#[local] Abbreviation M := (M D gsm).
Context (runtime_poll : M unit) (printf : message -> M unit) (BOARD_NAME : string) (DSP_USER_ROMS : list dsp_user_rom).
Definition keeps_app {R} (m : M R) : Prop := keeps (fun _ s => s) m.
Context (Hprintf : forall msg E Q f (w : world D gsm), (forall w', w_app w' = w_app w -> Q tt w') -> wp E (printf msg) Q f w).
Context (Hpoll : keeps_app runtime_poll).
Lemma keeps_app_of {X R} (g : gsm -> X) (m : M R) : keeps_app m -> keeps (fun _ => g) m.
Proof. intros H f w. specialize (H f w). destruct (m f w); congruence. Qed.
Lemma keeps_printf msg : keeps_app (printf msg).
Proof.
  intros f w. pose proof (Hprintf msg total (fun _ w' => w_app w' = w_app w) f w) as H. unfold wp in H.
  destruct (printf msg f w); [apply H; congruence|]. exfalso. by apply H.
Qed.
(** All but the board's statics. *)
Definition but_board (s : gsm) : gsm := with_g_board board_zero s.
Lemma keeps_receiver : keeps (fun _ => but_board) (load_receiver_calibration printf).
Proof. repeat first [apply (keeps_app_of but_board), keeps_printf | keeps_step]. Qed.
Lemma keeps_clocks : keeps_app configure_system_clocks.
Proof. unfold keeps_app. repeat keeps_step. Qed.
Lemma keeps_all_ok (l : list (M bool)) : Forall keeps_app l -> keeps_app (all_ok l).
Proof.
  induction 1 as [|m l Hm _ IH]; [done|]. unfold all_ok. simpl foldr. apply keeps_bind; [exact Hm|]. intros ok. destruct ok; [exact IH|done].
Qed.
Lemma keeps_command command parameters : keeps_app (gsm_dsp_command_execute runtime_poll command parameters).
Proof. unfold keeps_app. repeat first [exact Hpoll | keeps_step]. Qed.
Lemma keeps_profiles : keeps_app (dsp_channel_decoder_profiles_init runtime_poll).
Proof. apply keeps_all_ok, Forall_map, Forall_forall. intros parameters _. apply keeps_command. Qed.
Lemma keeps_receiver_init : keeps_app (dsp_receiver_init runtime_poll printf BOARD_NAME DSP_USER_ROMS).
Proof.
  unfold dsp_receiver_init. apply keeps_bind; [unfold keeps_app; repeat first [apply keeps_printf | keeps_step]|]. intros [rom|]; [|done].
  apply keeps_bind; [repeat keeps_step|intros _]. apply keeps_all_ok.
  repeat lazymatch goal with
  | |- Forall _ (_ :: _) => apply Forall_cons; split
  | |- Forall _ [] => by apply Forall_nil
  | |- keeps_app (dsp_channel_decoder_profiles_init _) => apply keeps_profiles
  | |- keeps_app (gsm_dsp_command_execute _ _ _) => apply keeps_command
  | |- keeps_app (mbind _ _) => apply keeps_bind; [repeat keeps_step|intros _]
  | |- keeps _ (gsm_dsp_command_execute _ _ _) => apply keeps_command
  | |- keeps _ (mbind _ _) => apply keeps_bind; [repeat keeps_step|intros _]
  | |- keeps _ (mret _) => apply keeps_ret
  end.
Qed.
(** Whatever stops it. *)
Definition stops (_ : cause) (_ : world D gsm) : Prop := True.
Lemma wp_keeps_app {R} (m : M R) Q f w : keeps_app m -> (forall r w', w_app w' = w_app w -> Q r w') -> wp stops m Q f w.
Proof. intros Hm HQ. apply (wp_keeps (fun _ s => s)); [exact Hm|]. unfold wp. destruct (m f w); [apply HQ|done]. Qed.
Lemma wp_board_init Q f w : calibration_ok (bs_calibration (g_board (w_app w))) ->
  (forall ok w', but_board (w_app w') = but_board (w_app w) -> calibration_ok (bs_calibration (g_board (w_app w'))) ->
     (ok = true -> afc_ok (afc (bs_calibration (g_board (w_app w'))))) -> Q ok w') ->
  wp stops (gsm_board_init printf) Q f w.
Proof.
  intros Hc HQ. unfold gsm_board_init. apply wp_bind, wp_keeps_app; [unfold keeps_app; repeat keeps_step|]. intros _ w1 E1.
  apply wp_bind. apply (wp_keeps (fun _ => but_board)); [apply keeps_receiver|].
  eapply wp_mono; [apply (load_receiver_loads printf Hprintf stops f w1); unfold calibration_of; by rewrite E1|].
  intros ok w2 [Hok Hafc] E2. rewrite E1 in E2. change (calibration_of w2) with (bs_calibration (g_board (w_app w2))) in *.
  destruct ok; [|by apply wp_ret, HQ].
  apply wp_bind, wp_keeps_app; [apply keeps_clocks|]. intros ok w3 E3. rewrite <- E3 in E2, Hok, Hafc.
  destruct ok; [|by apply wp_ret, HQ]. apply wp_keeps_app; [unfold keeps_app; repeat keeps_step|]. intros ok w4 E4.
  rewrite <- E4 in E2, Hok, Hafc. apply HQ; [done|done|]. intros _. by apply Hafc.
Qed.
End Baseband.

Section Ready.
Context {D : Type} `{!Device D} `{B : Board} `{Hw : !I2cHw D gsm}.
#[local] Abbreviation M := (M D gsm).
(** C34. The initialization of the base band establishes the invariant of the receiver.  Whatever the
    phone's flash holds and the hardware answers, with a poll of the program that leaves the
    receiver's state alone, if [gsm_l1_baseband_init] succeeds from tables of their sizes, then the state is sound, as the scan and the search need it: the calibration
    has its shape and a frequency curve that rises, the channels are in the order of the scan,
    and the configuration of the caller is in use. *)
Theorem receiver_initialized (runtime_poll : M unit) (printf : message -> M unit) (BOARD_NAME : string) (DSP_USER_ROMS : list dsp_user_rom)
    (config : gsm_l1_runtime) (f : nat) (w : world D gsm) :
  (forall msg E Q f (w : world D gsm), (forall w', w_app w' = w_app w -> Q tt w') -> wp E (printf msg) Q f w) ->
  keeps_app runtime_poll -> tables_ok (w_app w) ->
  wp stops (gsm_l1_baseband_init runtime_poll printf BOARD_NAME DSP_USER_ROMS (Some config)) (fun ok w' => ok = true ->
    sound (w_app w') /\ runtime (w_app w') = config /\ l1_initialized (w_app w') = true /\ trx_initialized (w_app w') = false /\
    g_loop (w_app w') = g_loop (w_app w)) f w.
Proof.
  intros Hprintf Hpoll []. unfold gsm_l1_baseband_init. destruct (_ ==? _); [by apply wp_ret|].
  apply wp_bind, wp_modified. intros w1 E1 _. apply wp_bind, wp_modified. intros w2 E2 _. rewrite E1 in E2. clear E1 w1.
  apply wp_bind. apply wp_board_init; [done|by rewrite E2|]. intros ok w3 E3 Hcal Hafc. destruct ok; [|by apply wp_ret].
  rewrite E2 in E3. clear E2 w2. specialize (Hafc eq_refl). simpl negb. cbv iota. apply wp_bind, wp_modified. intros w4 E4 _.
  apply wp_bind, wp_keeps_app; [unfold keeps_app; repeat keeps_step|]. intros _ w5 E5.
  apply wp_bind, wp_keeps_app; [by apply keeps_receiver_init|]. intros ok w6 E6. destruct ok; [|by apply wp_ret].
  simpl negb. cbv iota. apply wp_bind, wp_modified. intros w7 E7 _. apply wp_ret. intros _. rewrite E7, E6, E5, E4.
  rewrite E4 in E5. clear - E3 Hcal Hafc tables_telegrams0 tables_bank0 tables_results0 tables_levels0 tables_requests0 tables_request_gains0 tables_candidate0.
  destruct (w_app w) as [? [] ? ? ? ? ? ? ? ? ?], (w_app w3) as [? [] ? ? ? ? ? ? ? ? ?]. cbn in *. injection E3. intros. subst.
  split; [by split|by split_and!].
Qed.
End Ready.
Lemma zero_tables_ok : tables_ok gsm_zero.
Proof.
  split; try done.
  - split_and!; [done|by apply Forall_replicate|done|done|by apply Forall_replicate].
  - by left.
  - apply Forall_replicate. by vm_compute.
  - apply ready_sound.
  - apply ready_sound.
Qed.
Lemma receiver_initialized_witness :
  let w := World (D := unit) tt ∅ [] lib_ticking gsm_zero in
  wp stops (@gsm_l1_baseband_init unit no_device (plain_board PMB8876) (mret tt) (fun _ => mret tt) "siemens-el71" [] (Some (Runtime true 100))) (fun ok w' => ok = true ->
    sound (w_app w') /\ runtime (w_app w') = Runtime true 100 /\ l1_initialized (w_app w') = true /\ trx_initialized (w_app w') = false /\
    g_loop (w_app w') = g_loop (w_app w)) 10%nat w.
Proof.
  intros w. apply (receiver_initialized (Device0 := no_device) (mret tt) (fun _ => mret tt) "siemens-el71" [] (Runtime true 100) 10 w);
    [intros msg E Q f' w' HQ; by apply wp_ret, HQ|done|exact zero_tables_ok].
Defined.
