(* ===== verification/GsmTimed.v ===== *)
(** * Layer 1 of the GSM receiver: the foreground's waits in time

    Whatever the DSP answers, the loops of [gsm-l1.c] that wait for it or for the state machines
    end with their timeouts: a wait of any kind, and the commands the foreground executes for the
    interrupt with what a failure of theirs says.  [K] is what the state machines keep to
    meanwhile. *)
From S2P Require Import Prelude Machine Board Regs Stopwatch Wdt Timeout Smbus GsmRegs GsmChannel GsmTrx GsmCalib GsmBoard GsmLoad Dsp GsmState GsmL1 GsmFrame GsmSelect GsmQuiet GsmScan GsmControl GsmWait.
Import Regs.Pmb8876.

(** Through an operation's definitions: it accesses registers. *)
Ltac head_of m := lazymatch m with ?f _ => head_of f | _ => m end.
Ltac uses_deep_step :=
  lazymatch goal with
  | |- forall _, _ => intros
  | |- uses _ (mbind _ _) => apply uses_bind
  | |- uses _ (mret _) => apply uses_ret
  | |- uses _ (stop _) => apply uses_stop
  | |- uses _ (rd _) => exact (uses_rd _ _ I)
  | |- uses _ (wr _ _) => exact (uses_wr _ _ _ I)
  | |- uses _ get_app => apply uses_get_app
  | |- uses _ get_lib => apply uses_get_lib
  | |- uses _ (put_lib _) => apply uses_put_lib
  | |- uses _ (put_app _) => apply uses_put_app
  | |- uses _ (foldM _ _ _) => apply uses_foldM
  | |- uses _ (iter _ _) => apply uses_iter
  | |- uses _ (when _ _) => apply uses_when
  | |- uses _ (if ?b then _ else _) => destruct b
  | |- uses _ (match ?x with _ => _ end) => destruct x
  | |- uses _ (let _ := _ in _) => cbv zeta
  | |- uses _ ?m => let h := head_of m in unfold h
  end; cbv beta.
Ltac uses_deep := repeat uses_deep_step.

(** ** A wait *)
Section Waits.
Context {D : Type} `{!Device D, !StmTimer D}.
#[local] Abbreviation M := (M D gsm).
#[local] Abbreviation anywhere := (fun _ : port => True).
Implicit Types w : world D gsm.
Lemma forward_wait cond timeout_ms step : forward cond -> forward step -> forward (wait_until cond timeout_ms step : M bool).
Proof.
  intros Hc Hs. unfold wait_until. apply forward_bind; [by apply (forward_uses anywhere), uses_stopwatch_get|]. intros start. apply forward_iter. intros [].
  apply forward_bind; [apply Hc|]. intros []; [intros f' w; apply Z.le_refl|]. apply forward_bind; [by apply (forward_uses anywhere), uses_stopwatch_elapsed_ms|].
  intros e. destruct (_ <? _); [apply forward_bind; [apply Hs|]; intros go|]; intros f' w; apply Z.le_refl.
Qed.
Context (f : nat) (T : Z) (HT : 0 <= T < 0x10000000000000000) (tps : Z) (Htps : 1000 <= tps).
#[local] Abbreviation E := (@unless_late D gsm _ _ T).
Definition timely {A} (w : world D A) : Prop := T <= now w /\ ticks_per_s (w_lib w) = tps.
(** The time that is over: so long after [start]. *)
Definition over (start ms : Z) w : Prop := late T w \/ start + timeout_ticks ms tps <= now w.
Lemma over_forward start start' ms w w' : over start ms w -> start' <= start -> now w <= now w' -> over start' ms w'.
Proof. unfold over, late. lia. Qed.
(** [J] at the condition, [R] after it with what it said, [F] after a step that leaves. *)
Lemma wp_wait_timed cond timeout_ms step (J : world D gsm -> Prop) (R : bool -> world D gsm -> Prop) (F : world D gsm -> Prop) Q w :
  0 <= timeout_ms -> timeout_ticks timeout_ms tps + 2 < Z.of_nat f ->
  (forall w w', unchanged w w' -> now w <= now w' -> (J w -> J w') /\ (R false w -> R false w')) ->
  (forall w, J w -> timely w) -> (forall w, R false w -> timely w) ->
  (forall w, J w -> wp E cond (fun b w' => R b w' /\ now w <= now w') f w) ->
  (forall w, R false w -> wp E step (fun go w' => (if go : bool then J w' else F w') /\ now w <= now w') f w) ->
  J w ->
  (forall w', R true w' -> now w <= now w' -> Q true w') ->
  (forall w', R false w' -> now w <= now w' -> over (now w) timeout_ms w' -> Q true w') ->
  (forall w', F w' -> now w <= now w' -> Q false w') ->
  wp E (wait_until cond timeout_ms step) Q f w.
Proof.
  intros Hms Hf Hclock HJ HR Hcond Hstep Hw Htrue Hover Hfalse. unfold wait_until. destruct (HJ _ Hw) as [Hn Ht].
  apply wp_bind, (wp_stopwatch_now T HT); [done|]. intros start w1 Hu1 Hn1 Hv1.
  assert (J w1) as H1 by (eapply Hclock; [exact Hu1|lia|done]).
  apply (wp_timed_loop T (timeout_ticks timeout_ms tps) f _ (fun _ w' => J w' /\ now w <= now w' /\ (late T w' \/ now w <= start)) start);
    [apply Z.div_pos; lia|done|split_and!; [done|lia|destruct Hv1; [by left|right; lia]]|destruct Hv1; [by left|right; lia]|].
  intros [] w2 (H2 & Hn2 & Hst2) Hs2. apply wp_bind. eapply wp_mono; [by apply Hcond|]. intros reached w3 [H3 Hn3]. destruct reached; [apply wp_ret, Htrue; [done|lia]|].
  destruct (HR _ H3) as [Hn3' Ht3].
  apply wp_bind, (wp_elapsed_now T HT timeout_ms); [done|done|unfold late in *; lia|lia|]. intros e w4 Hu4 Hn4 He Hend.
  assert (R false w4) as H4 by (eapply Hclock; [exact Hu4|lia|done]). rewrite Ht3 in He, Hend.
  destruct (Z.ltb_spec e timeout_ms) as [He'|He']; [|apply wp_ret, Hover; [done|lia|]; specialize (Hend He'); unfold over, late in *; lia].
  specialize (He He'). apply wp_bind. eapply wp_mono; [by apply Hstep|]. intros go w5 [H5 Hn5]. destruct go; [|apply wp_ret, Hfalse; [done|lia]].
  apply wp_ret. unfold late in *. split; [split_and!; [done|lia|lia]|lia].
Qed.
End Waits.

(** ** The interrupt and the commands *)
Section Ordered.
Context {D : Type} `{!Device D, !StmTimer D}.
#[local] Abbreviation M := (M D gsm).
#[local] Abbreviation anywhere := (fun _ : port => True).
Lemma uses_irq : uses anywhere (gsm_l1_tpu_irq : M unit).
Proof. uses_deep. Qed.
Lemma uses_fcch_command : uses anywhere (dsp_fcch_command_start : M unit).
Proof. uses_deep. Qed.
Lemma uses_refinement_command : uses anywhere (dsp_fcch_refinement_command_start : M unit).
Proof. uses_deep. Qed.
Lemma uses_runtime_command command parameters : uses anywhere (dsp_runtime_command_start 0 command parameters : M unit).
Proof. uses_deep. Qed.

Context (poll : M unit) `{Hpolls : !Polling poll} (Hforward : forward poll).
Context (f : nat) (T : Z) (HT : 0 <= T < 0x10000000000000000) (tps : Z) (Htps : 1000 <= tps) (s0 : gsm).
#[local] Abbreviation E := (@unless_late D gsm _ _ T).
(** The receiver is sound, what the foreground configured is as it was, and the state machines keep to [K]. *)
Definition in_order (K : control -> Prop) (w : world D gsm) : Prop :=
  timely T tps w /\ sound (w_app w) /\ rest_of (w_app w) = rest_of s0 /\ K (control_of (w_app w)).
Lemma in_order_unchanged K w w' : unchanged w w' -> now w <= now w' -> in_order K w -> in_order K w'.
Proof. intros (_ & Ea & El) Hn ([? Ht] & Hs & Hr & HK). unfold in_order, timely. rewrite Ea, El. split_and!; [lia|done..]. Qed.
Lemma in_order_weaken (K K' : control -> Prop) w : (K (control_of (w_app w)) -> K' (control_of (w_app w))) -> in_order K w -> in_order K' w.
Proof. intros H (? & ? & ? & HK). split_and!; [done..|by apply H]. Qed.
(** From [K] to [K']. *)
Lemma wp_leads {R} (K K' : control -> Prop) (m : M R) Q w : forward m -> keeps_ticks m ->
  (forall w, sound (w_app w) -> ticks_per_s (w_lib w) <> 0 -> K (control_of (w_app w)) ->
     wp total m (fun _ w' => moves (w_app w) (control_of (w_app w')) (w_app w') /\ K' (control_of (w_app w'))) f w) ->
  in_order K w -> (forall r w', in_order K' w' -> now w <= now w' -> Q r w') -> wp E m Q f w.
Proof.
  intros Hf Hk Hm ([Hn Ht] & Hs & Hr & HK) HQ. eapply wp_mono; [apply wp_forward; [exact Hf|eapply wp_keeps; [exact Hk|]]|].
  - eapply wp_mono_E; [eapply wp_mono; [apply Hm; [done|lia|done]|]|done]. intros r w' H Ht'. exact (conj Ht' H).
  - intros r w' [(Ht' & (Hs' & _ & Hr') & HK') Hn']. apply HQ; [|done]. split; [split; [lia|congruence]|]. split_and!; [done|congruence|done].
Qed.
Lemma wp_fcch_state_timed state (K K' : control -> Prop) Q w : (forall c, K c -> K' (fcch_state_is state c)) ->
  in_order K w -> (forall w', in_order K' w' -> now w <= now w' -> Q tt w') -> wp E (set_fcch_state state) Q f w.
Proof.
  intros HK Hw HQ. apply (wp_leads K K'); [apply (forward_uses anywhere); uses_deep|unfold keeps_ticks; repeat keeps_step| |done|by intros []].
  clear Hw HQ w. intros w Hs _ Hw. pose proof (moves_refl _ Hs) as Hm. unfold set_fcch_state. eapply wp_in_fcch; [exact Hm|].
  intros w' (? & Ec & ?). split; [done|]. rewrite Ec. by apply HK.
Qed.

Lemma wp_ordered {R} c c' (m : M R) Q w : uses anywhere m -> keeps_ticks m ->
  (forall s w, moves s c (w_app w) -> wp total m (fun _ w' => moves s c' (w_app w')) f w) ->
  in_order (eq c) w -> (forall r w', in_order (eq c') w' -> now w <= now w' -> Q r w') -> wp E m Q f w.
Proof.
  intros Hu Hk Hm Hw HQ. apply (wp_leads (eq c) (eq c')); [by eapply forward_uses|done| |done|done].
  intros w1 Hs _ ->. eapply wp_mono; [by apply (Hm (w_app w1)), moves_refl|]. intros r w2 (H1 & Ec & H2). split; [by split_and!|done].
Qed.
Lemma wp_poll_leads (K K' : control -> Prop) Q w : (forall c c', K c -> frame_step (D := D) (frame_begin c) c' -> K' c') -> (forall c, K c -> K' c) ->
  in_order K w -> (forall w', in_order K' w' -> now w <= now w' -> Q true w') -> wp E (poll_step poll) Q f w.
Proof.
  intros HK HKK Hw HQ. unfold poll_step, poll_runtime. apply wp_bind, wp_bind, wp_get_app. destruct (rt_poll (runtime (w_app w))); simpl when.
  2: { apply wp_ret, wp_ret, HQ; [|lia]. by eapply in_order_weaken; [apply HKK|]. }
  apply (wp_leads K K'); [done|apply polling_ticks| |done|intros _ w' Hw' Hn; by apply wp_ret, HQ].
  intros w1 Hs Ht Hw1. eapply polling_frame; [by apply moves_refl|done|]. intros c' w' Hstep (? & Ec & ?). split; [done|]. rewrite Ec. by eapply HK.
Qed.
Lemma forward_poll : forward (poll_step poll).
Proof.
  assert (forall R (r : R), forward (mret r : M R)) as Hret by (intros R r f' w; apply Z.le_refl).
  unfold poll_step, poll_runtime. apply forward_bind; [apply forward_bind; [apply (forward_uses anywhere), uses_get_app|]|intros _; apply Hret].
  intros s. destruct (rt_poll (runtime s)); [done|apply Hret].
Qed.

Section Kept.
Context (K : control -> Prop) (HK : forall c c', K c -> frame_step (D := D) (frame_begin c) c' -> K c').
#[local] Abbreviation upholds := (upholds T f (in_order K)).
Lemma upholds_quiet {R} (m : M R) : uses anywhere m -> keeps_ticks m -> quiet m -> upholds m.
Proof.
  intros Hu Hk Hq. split; [by eapply forward_uses|]. intros Q w Hw HQ. apply (wp_leads K K); [by eapply forward_uses|done| |done|auto].
  intros w1 Hs _ Hw1. eapply wp_mono; [by apply Hq|]. intros r w' (? & Ec & ?). split; [done|by rewrite Ec].
Qed.
Lemma upholds_get_app : upholds get_app.
Proof. apply upholds_quiet; [apply uses_get_app|apply keeps_get_app|apply quiet_get_app]. Qed.
Lemma wp_poll_timed Q w : in_order K w -> (forall w', in_order K w' -> now w <= now w' -> Q true w') -> wp E (poll_step poll) Q f w.
Proof. intros Hw HQ. by apply (wp_poll_leads K K). Qed.
(** A command that fails: the last read of the DSP's status was busy, after the command's time or after a read that was not. *)
Definition refused (flags start ms : Z) (w : world D gsm) : Prop :=
  exists v rest, w_log w = Rd (Mmio 32 DSP_COM_STATUS) v :: rest /\ (v .& flags) <> 0 /\
    (over T tps start ms w \/ exists v' rest', rest = Rd (Mmio 32 DSP_COM_STATUS) v' :: rest' /\ (v' .& flags) = 0).
Lemma refused_before flags start start' ms w : refused flags start' ms w -> start <= start' -> refused flags start ms w.
Proof. intros (v & rest & El & Hv & H) Hs. exists v, rest. split_and!; [done..|]. destruct H as [H|H]; [left|by right]. by eapply over_forward; [exact H|done|]. Qed.
Context (Hconfig : let ms := command_timeout_ms (runtime s0) in 0 <= ms /\ timeout_ticks ms tps + 2 < Z.of_nat f).
#[local] Abbreviation patience := (command_timeout_ms (runtime s0)).
Lemma forward_wait_for_dsp flags : forward (wait_for_dsp_communication poll flags).
Proof.
  assert (forward (status ← rd32 DSP_COM_STATUS; mret ((status .& flags) ==? 0) : M bool)) as Hs by (apply (forward_uses anywhere); uses_deep).
  unfold wait_for_dsp_communication. apply forward_bind; [apply (forward_uses anywhere), uses_get_app|]. intros s.
  apply forward_bind; [apply forward_wait; [done|apply forward_poll]|]. by intros _.
Qed.
Lemma wp_status_timed Q w : in_order K w ->
  (forall v w', in_order K w' -> now w <= now w' -> w_log w' = Rd (Mmio 32 DSP_COM_STATUS) v :: w_log w -> Q v w') -> wp E (rd32 DSP_COM_STATUS) Q f w.
Proof.
  intros Hw HQ. eapply wp_mono; [apply wp_forward; [apply (forward_uses anywhere); uses_deep|]|].
  - apply (wp_rd _ _ (fun v w' => w_app w' = w_app w /\ w_lib w' = w_lib w /\ w_log w' = Rd (Mmio 32 DSP_COM_STATUS) v :: w_log w)). by intros v d _.
  - intros v w' [(Ea & El & Eg) Hn]. apply HQ; [|done|done]. destruct Hw as ([? Ht] & Hs & Hr & HKw). unfold in_order, timely. rewrite Ea, El. split_and!; [lia|done..].
Qed.
Lemma wp_wait_for_dsp_timed flags Q w : in_order K w ->
  (forall ok w', in_order K w' -> now w <= now w' -> (ok = false -> refused flags (now w) patience w') -> Q ok w') ->
  wp E (wait_for_dsp_communication poll flags) Q f w.
Proof.
  intros Hw HQ. unfold wait_for_dsp_communication. apply wp_bind, wp_get_app. assert (runtime (w_app w) = runtime s0) as ->.
  { destruct Hw as (_ & _ & Er & _). unfold rest_of in Er. congruence. }
  destruct Hconfig as [Hms Hf].
  set (clear := fun w' : world D gsm => exists v' rest', w_log w' = Rd (Mmio 32 DSP_COM_STATUS) v' :: rest' /\ (v' .& flags) = 0).
  assert (forall w', in_order K w' -> now w <= now w' -> clear w' \/ over T tps (now w) patience w' ->
    wp E (status ← rd32 DSP_COM_STATUS; mret ((status .& flags) ==? 0)) Q f w') as Hend.
  { intros w1 H1 Hn1 Hwhy. apply wp_bind, wp_status_timed; [done|]. intros v w2 H2 Hn2 El. apply wp_ret, HQ; [done|lia|].
    intros Hv%Z.eqb_neq. exists v, (w_log w1). split_and!; [done..|]. destruct Hwhy as [Hwhy|Hwhy]; [by right|left; by eapply over_forward]. }
  apply wp_bind, (wp_wait_timed f T HT tps Htps _ _ _ (in_order K) (fun b w' => in_order K w' /\ (b = true -> clear w')) (fun _ => False)); try done.
  - intros w1 w2 Hu Hn. split; [by apply in_order_unchanged|]. intros [H1 _]. split; [by eapply in_order_unchanged|done].
  - by intros w1 [? _].
  - by intros w1 [[? _] _].
  - intros w1 H1. apply wp_bind, wp_status_timed; [done|]. intros v w2 H2 Hn2 El. apply wp_ret. split; [|done]. split; [done|]. intros Hv%Z.eqb_eq. by exists v, (w_log w1).
  - intros w1 [H1 _]. apply wp_poll_timed; [done|]. by intros w2 H2 Hn2.
  - intros w1 [H1 Hc] Hn1. apply Hend; [done|done|]. left. by apply Hc.
  - intros w1 [H1 _] Hn1 Ho. apply Hend; [done|done|]. by right.
Qed.
Lemma forward_baseband_off : forward (dsp_execute_baseband_off poll).
Proof.
  unfold dsp_execute_baseband_off. apply forward_bind; [apply (forward_uses anywhere); uses_deep|]. intros sequence.
  apply forward_bind; [apply (forward_uses anywhere); uses_deep|]. intros _. apply forward_bind; [by eapply (forward_uses anywhere), uses_runtime_command|].
  intros _. apply forward_wait_for_dsp.
Qed.
Lemma wp_baseband_off_timed Q w : in_order K w ->
  (forall ok w', in_order K w' -> now w <= now w' -> (ok = false -> refused (BIT 0) (now w) patience w') -> Q ok w') ->
  wp E (dsp_execute_baseband_off poll) Q f w.
Proof.
  intros Hw HQ. unfold dsp_execute_baseband_off. apply wp_bind, (wp_upheld T f (in_order K)); [|done|].
  { apply upholds_quiet; [uses_deep|unfold keeps_ticks; repeat keeps_step|apply quiet_rd]. }
  intros sequence w1 H1 Hn1. apply wp_bind, (wp_upheld T f (in_order K)); [|done|].
  { apply upholds_quiet; [uses_deep|unfold keeps_ticks; repeat keeps_step|apply quiet_wr_shared]. }
  intros _ w2 H2 Hn2. apply wp_bind, (wp_upheld T f (in_order K)); [|done|].
  { apply upholds_quiet; [apply uses_runtime_command|unfold keeps_ticks; repeat keeps_step|apply quiet_command]. }
  intros _ w3 H3 Hn3. apply wp_wait_for_dsp_timed; [done|]. intros ok w4 H4 Hn4 Hno. apply HQ; [done|lia|]. intros Hok. eapply refused_before; [by apply Hno|lia].
Qed.
End Kept.

(** *** The requests *)
(** What [execute_requested_fcch_command] came to: the command was executed and its request is gone, or it was not
    and the request is there. *)
Definition answered (ok : bool) (c c' : control) : Prop :=
  tpu_loop_phase (k_loop c') = tpu_loop_phase (k_loop c) /\ k_scan c' = k_scan c /\ k_sch c' = k_sch c /\
  k_fcch c' = (if ok then k_fcch (served c) else k_fcch c) /\ (ok = false -> command_requested c).
Definition asked_for (c : control) : Prop := command_requested c -> tpu_loop_phase (k_loop c) = TPU_LOOP_FCCH /\ waits c.
(** While the foreground executes the command, the loop stays. *)
Definition stays (c c' : control) : Prop :=
  tpu_loop_phase (k_loop c') = tpu_loop_phase (k_loop c) /\ k_scan c' = k_scan c /\ k_sch c' = k_sch c /\ k_fcch c' = k_fcch c.
Lemma stays_step c : tpu_loop_phase (k_loop c) = TPU_LOOP_FCCH -> waits c -> forall c1 c2, stays c c1 -> frame_step (D := D) (frame_begin c1) c2 -> stays c c2.
Proof.
  intros Hl Hw c1 c2 (El & Es & Eh & Ef) Hstep. apply waiting_step in Hstep as ->; [|congruence|unfold waits in *; by rewrite Ef].
  split_and!; [|done..]. rewrite frame_begin_phase; congruence.
Qed.
Context (Hconfig : let ms := command_timeout_ms (runtime s0) in 0 <= ms /\ timeout_ticks ms tps + 2 < Z.of_nat f).
#[local] Abbreviation patience := (command_timeout_ms (runtime s0)).
Lemma forward_execute : forward (execute_requested_fcch_command poll).
Proof.
  assert (forall state, forward (set_fcch_state state;; mret true : M bool)) as Hset by (intros state; apply (forward_uses anywhere); uses_deep).
  unfold execute_requested_fcch_command. apply forward_bind; [apply (forward_uses anywhere), uses_get_app|]. intros s.
  assert (forall state, forward (dsp_fcch_refinement_command_start;; set_fcch_state state;; mret true : M bool)) as Hrefine.
  { intros state. apply forward_bind; [apply (forward_uses anywhere), uses_refinement_command|]. intros _. apply Hset. }
  pose proof forward_baseband_off as Hoff.
  destruct (fcch_scan_state (g_fcch s)); try (intros f' w; apply Z.le_refl).
  - apply forward_bind; [done|]. intros []; simpl negb; cbv iota; [apply Hset|intros f' w; apply Z.le_refl].
  - apply forward_bind; [apply (forward_uses anywhere), uses_fcch_command|]. intros _. apply Hset.
  - apply forward_bind; [done|]. intros []; simpl negb; cbv iota; [apply Hrefine|intros f' w; apply Z.le_refl].
  - apply Hrefine.
Qed.
Lemma wp_execute_timed c Q w : in_order (eq c) w -> asked_for c ->
  (forall ok w', in_order (answered ok c) w' -> now w <= now w' -> (ok = false -> refused (BIT 0) (now w) patience w') -> Q ok w') ->
  wp E (execute_requested_fcch_command poll) Q f w.
Proof.
  intros Hw Hask HQ. unfold execute_requested_fcch_command. apply wp_bind, wp_get_app.
  assert (fcch_scan_state (g_fcch (w_app w)) = fcch_scan_state (k_fcch c)) as -> by (destruct Hw as (_ & _ & _ & ->); done).
  unfold asked_for, command_requested in Hask.
  assert (forall state w', state = served_state (fcch_scan_state (k_fcch c)) -> in_order (stays c) w' -> now w <= now w' ->
    wp E (set_fcch_state state;; mret true) Q f w') as Hserve.
  { intros state w' -> Hw' Hn. apply wp_bind, (wp_fcch_state_timed _ (stays c) (answered true c)); [|done|].
    - intros c' (El & Es & Eh & Ef). split_and!; [done..| |done]. cbn. by rewrite Ef.
    - intros w2 H2 Hn2. apply wp_ret, HQ; [done|lia|done]. }
  assert (in_order (stays c) w) as Hst by (by eapply in_order_weaken; [|exact Hw]; intros <-).
  assert (forall (m : M unit), uses anywhere m -> keeps_ticks m -> quiet m -> forall state w', state = served_state (fcch_scan_state (k_fcch c)) ->
    in_order (stays c) w' -> now w <= now w' -> wp E (m;; set_fcch_state state;; mret true) Q f w') as Hcmd.
  { intros m Hu Hk Hq state w' Est Hw' Hn. apply wp_bind, (wp_upheld T f (in_order (stays c))); [by apply upholds_quiet|done|].
    intros _ w2 H2 Hn2. apply Hserve; [done|done|lia]. }
  assert (forall k, command_requested c -> (forall w', in_order (stays c) w' -> now w <= now w' -> wp E k Q f w') ->
    wp E (ok ← dsp_execute_baseband_off poll; if negb ok then mret false else k) Q f w) as Hoff.
  { intros k Hreq Hk. destruct (Hask Hreq) as [Hl Hwt]. apply wp_bind, (wp_baseband_off_timed (stays c) (stays_step c Hl Hwt)); [done|done|].
    intros ok w' Hw' Hn Hno. destruct ok; simpl negb; cbv iota; [by apply Hk|]. apply wp_ret, HQ; [|done|done].
    eapply in_order_weaken; [|exact Hw']. intros (? & ? & ? & ?). by split_and!. }
  destruct (fcch_scan_state (k_fcch c)) eqn:Est; simpl served_state in *.
  all: try (apply wp_ret, HQ; [|done|done]; eapply in_order_weaken; [|exact Hw]; intros <-; split_and!; try done;
    unfold served, fcch_state_is; rewrite Est; simpl; rewrite <- Est; by destruct (k_fcch c)).
  - apply Hoff; [unfold command_requested; by rewrite Est|]. intros w' H' Hn'. by apply Hserve.
  - apply Hcmd; [apply uses_fcch_command|unfold keeps_ticks; repeat keeps_step|apply quiet_fcch_command|done|done|lia].
  - apply Hoff; [unfold command_requested; by rewrite Est|]. intros w' H' Hn'.
    apply Hcmd; [apply uses_refinement_command|unfold keeps_ticks; repeat keeps_step|apply quiet_refinement_command|done|done|lia].
  - apply Hcmd; [apply uses_refinement_command|unfold keeps_ticks; repeat keeps_step|apply quiet_refinement_command|done|done|lia].
Qed.
End Ordered.
(** A step before the wait. *)
Ltac ordered_step :=
  apply wp_bind; lazymatch goal with Hw : in_order _ _ _ (eq _) ?w |- _ =>
    eapply wp_ordered; cycle 4;
    [exact Hw| |lia|uses_deep|unfold keeps_ticks; repeat keeps_step|
     let s := fresh "s" in let w := fresh "w" in let Hm := fresh "Hm" in intros s w Hm; control_step; done];
    let w' := fresh "w" in let Hw' := fresh "Hw" in let Hn := fresh "Hn" in intros _ w' Hw' Hn; clear Hw Hn; clear dependent w; rename w' into w, Hw' into Hw end.
