(* ===== verification/GsmSearch.v ===== *)
(** * Layer 1 of the GSM receiver: the search for the frequency-correction burst

    [gsm_l1_search_fcch] with the interrupt taken at every poll: whatever the DSP answers it ends
    with its timeout, with at most twelve windows searched, and fails only if its time was over or
    the DSP's status was busy. *)
From S2P Require Import Prelude Machine Board Regs Stopwatch Timeout Smbus GsmRegs GsmChannel GsmTrx GsmCalib GsmBoard GsmLoad Dsp GsmState GsmL1 GsmFrame GsmSelect GsmQuiet GsmScan GsmControl GsmWait GsmTimed.
Import Regs.Pmb8876.

(** ** The search for the frequency-correction burst *)
(** In a search window: what the state can be in a phase. *)
Definition window_state (p : fcch_phase) (st : fcch_state) : Prop :=
  match p with
  | FCCH_TPU_RF_QUIET_FIRST => st = FCCH_SCAN_BB_OFF_REQUESTED \/ st = FCCH_SCAN_ACTIVE
  | FCCH_TPU_PREPARE_SECOND => st = FCCH_SCAN_COMMAND_REQUESTED \/ st = FCCH_SCAN_ACTIVE
  | FCCH_TPU_RF_QUIET_SECOND | FCCH_TPU_RF_INITIALIZATION | FCCH_TPU_PREPARE_FIRST | FCCH_TPU_RETRY_DELAY
  | FCCH_TPU_START | FCCH_TPU_HOLD_FIRST | FCCH_TPU_HOLD_SECOND | FCCH_TPU_FINISH => st = FCCH_SCAN_ACTIVE
  | FCCH_TPU_REFINEMENT_PREPARE | FCCH_TPU_REFINEMENT_START | FCCH_TPU_REFINEMENT_WAIT_RESULT => False
  end.
(** The result of a finished search. *)
Definition search_found (f : fcch_search) : Prop :=
  1 <= fcch_window f <= FCCH_SEARCH_WINDOW_COUNT /\ is_fcch_result_valid (fcch_search_result f) = fcch_detected f /\
  (fcch_detected f = true -> 0 <= fcch_correction_tick f < TPU_FRAME_TICKS /\
     fcch_correction_tick f = fcch_start_to_tpu_phase_tick (f_start (fcch_search_result f))) /\
  (fcch_detected f = false -> fcch_window f = FCCH_SEARCH_WINDOW_COUNT).
(** The scan is over, no synchronisation burst is received: a search can start. *)
Definition searchable (scan : channel_scan) (sch : sch_search) : Prop :=
  receiver_scan_state scan = RECEIVER_SCAN_COMPLETE /\ sch_scan_state sch <> SCH_SCAN_ACTIVE.
Inductive searching (c : control) : Prop :=
  | search_asked : tpu_loop_phase (k_loop c) = TPU_LOOP_SEARCH ->
      fcch_scan_state (k_fcch c) = FCCH_SCAN_REQUESTED -> fcch_detected (k_fcch c) = false -> searchable (k_scan c) (k_sch c) -> searching c
  | search_window : tpu_loop_phase (k_loop c) = TPU_LOOP_FCCH -> window_state (fcch_tpu_phase (k_fcch c)) (fcch_scan_state (k_fcch c)) ->
      0 <= fcch_window (k_fcch c) <= 11 -> fcch_detected (k_fcch c) = false -> searchable (k_scan c) (k_sch c) -> searching c.
Definition search_over (c : control) : Prop :=
  fcch_scan_state (k_fcch c) = FCCH_SCAN_COMPLETE /\ search_found (k_fcch c) /\ searchable (k_scan c) (k_sch c).
Definition search_inv (c : control) : Prop := searching c \/ search_over c.
Lemma search_searchable c : search_inv c -> searchable (k_scan c) (k_sch c).
Proof. by intros [[]|(_ & _ & ?)]. Qed.
Lemma searching_goes_on c : searching c -> fcch_scan_state (k_fcch c) <> FCCH_SCAN_COMPLETE.
Proof. intros [_ -> _ _|_ H _ _ _]; [done|]. by destruct (fcch_tpu_phase (k_fcch c)); destruct H as [->| ->] || rewrite H || destruct H. Qed.

Section Search.
Context {D : Type} `{!Device D}.
Lemma collected_search r f : 0 <= f_start r < 0x10000 -> 0 <= fcch_window f <= 11 -> fcch_detected f = false -> fcch_scan_state f = FCCH_SCAN_ACTIVE ->
  let f' := fcch_collected r f in
  fcch_tpu_phase f' = fcch_tpu_phase f /\
  (fcch_scan_state f' = FCCH_SCAN_COMPLETE /\ search_found f' \/
   fcch_scan_state f' = FCCH_SCAN_ACTIVE /\ fcch_window f' = fcch_window f + 1 /\ fcch_window f' <= 11 /\ fcch_detected f' = false).
Proof.
  intros Hr Hw Hd Hst. unfold fcch_collected, search_found, FCCH_SEARCH_WINDOW_COUNT. cbv zeta. rewrite u32_small by (unfold is_u32; lia).
  destruct (is_fcch_result_valid r) eqn:Ev.
  - cbn. split; [done|]. left. split; [done|]. split_and!; try done; try lia.
    intros _. split; [|done]. apply phase_tick_range. lia.
  - cbn. destruct (Z.eqb_spec (fcch_window f + 1) 12) as [E|Hne]; simpl negb; cbv iota; cbn; rewrite ?Hd, ?Hst.
    + split; [done|]. left. split_and!; try done; lia.
    + split; [done|]. right. split_and!; try done; lia.
Qed.
(** A frame of a window. *)
Lemma window_frame c busy r : tpu_loop_phase (k_loop c) = TPU_LOOP_FCCH -> window_state (fcch_tpu_phase (k_fcch c)) (fcch_scan_state (k_fcch c)) ->
  0 <= fcch_window (k_fcch c) <= 11 -> fcch_detected (k_fcch c) = false -> searchable (k_scan c) (k_sch c) -> 0 <= f_start r < 0x10000 ->
  search_inv (fcch_frame busy r c).
Proof.
  intros Hl Hst Hw Hdet Hsearch Hr. pose proof (proj2 Hsearch) as Hsch. assert (searching c) as Hc by by apply search_window.
  unfold fcch_frame. cbv zeta.
  destruct (fcch_tpu_phase (k_fcch c)) eqn:Ep; simpl in Hst; try done.
  all: try (repeat case_bool_decide; try done; left; first [exact Hc|apply search_window; cbn; by auto]).
  - case_bool_decide as E; [by left|]. left. apply search_window; cbn; try done. destruct Hst as [Hst|Hst]; [destruct E; by left|done].
  - case_bool_decide as E; [by left|]. left. apply search_window; cbn; try done. by destruct Hst as [Hst|Hst].
  - destruct busy; [by left|].
    pose proof (collected_search r (k_fcch c) Hr Hw Hdet Hst) as (Eph & [[Est Hfound]|(Est & Ew & Hw' & Hdet')]); cbn [k_fcch set_fcch].
    + replace (match fcch_scan_state (fcch_collected r (k_fcch c)) with FCCH_SCAN_COMPLETE => _ | _ => _ end)
        with (loop_phase_is TPU_LOOP_COMPLETE (set_fcch (fcch_collected r (k_fcch c)) c)) by (by rewrite Est).
      by right.
    + replace (match fcch_scan_state (fcch_collected r (k_fcch c)) with FCCH_SCAN_COMPLETE => _ | _ => _ end)
        with (fcch_phase_is FCCH_TPU_RETRY_DELAY (set_fcch (fcch_collected r (k_fcch c)) c)) by (by rewrite Est).
      left. apply search_window; cbn; rewrite ?Est; try done. lia.
Qed.
(** An interrupt. *)
Lemma search_step c c' : searching c -> frame_step (D := D) (frame_begin c) c' -> search_inv c'.
Proof.
  intros [Hl Hst Hdet [Hrec Hsch]|Hl Hst Hw Hdet Hsch] Hstep.
  - assert (tpu_loop_phase (k_loop (frame_begin c)) = TPU_LOOP_SEARCH) as Hl' by (rewrite frame_begin_phase; cbn; congruence).
    destruct Hstep as [| | | |o hz _ Ho| | | | |]; try congruence.
    assert (k_scan (frame_begin c) = k_scan c) as Ek by done. rewrite Ek in Ho. destruct Ho as (results' & gains & _ & ->).
    unfold advance. rewrite Hrec. unfold search_frame. cbn [fst snd]. rewrite bool_decide_true by (cbn; by rewrite Hst, Hrec).
    left. apply search_window; cbn; first [done|lia|by left].
  - assert (tpu_loop_phase (k_loop (frame_begin c)) = TPU_LOOP_FCCH) as Hl' by (rewrite frame_begin_phase; cbn; congruence).
    destruct Hstep as [| | | | |busy r _ Hb Hr| | | |]; try congruence. by apply window_frame.
Qed.
(** The foreground's command. *)
Lemma searching_asks c : searching c -> asked_for c.
Proof.
  intros [_ Hst _ _|Hl Hst _ _ _] Hreq; unfold command_requested in Hreq; [by rewrite Hst in Hreq|]. split; [done|]. unfold waits.
  by destruct (fcch_tpu_phase (k_fcch c)); simpl in Hst; first [destruct Hst as [Hst|Hst]; rewrite Hst in *|rewrite Hst in *|idtac].
Qed.
Lemma searching_answered ok c c' : searching c -> answered ok c c' -> searching c'.
Proof.
  intros Hc (El & Es & Eh & Ef & _). destruct Hc as [Hl Hst Hdet Hsch|Hl Hst Hw Hdet Hsch].
  - apply search_asked; rewrite ?El, ?Es, ?Eh, ?Ef; try done; destruct ok; cbn; by rewrite ?Hst.
  - apply search_window; rewrite ?El, ?Es, ?Eh, ?Ef; try done; destruct ok; cbn; try done.
    by destruct (fcch_tpu_phase (k_fcch c)); simpl in *; first [destruct Hst as [Hst|Hst]; rewrite Hst; simpl; auto|rewrite Hst|idtac].
Qed.
End Search.

(** What [gsm_l1_search_fcch] hands out. *)
Definition result_found (r : gsm_l1_fcch_result) : Prop :=
  1 <= lf_attempt_count r <= FCCH_SEARCH_WINDOW_COUNT /\ is_fcch_result_valid (lf_result r) = lf_detected r /\
  (lf_detected r = true -> lf_phase_tick r = fcch_start_to_tpu_phase_tick (f_start (lf_result r)) /\ 0 <= lf_phase_tick r < TPU_FRAME_TICKS) /\
  (lf_detected r = false -> lf_attempt_count r = FCCH_SEARCH_WINDOW_COUNT).
Lemma search_completed c : search_inv c -> fcch_scan_state (k_fcch c) = FCCH_SCAN_COMPLETE -> let f := k_fcch c in fcch_window f <> 0 /\
  result_found (L1Fcch (fcch_detected f) (fcch_window f) (fcch_search_result f) (fcch_correction_tick f) (fcch_result_afc_frequency_hz f)).
Proof.
  intros [Hc|(_ & (Hw & Hv & Ht & Hn) & _)] Est; [by destruct (searching_goes_on c Hc)|].
  split; [lia|]. split_and!; simpl; try done; try lia; tauto.
Qed.
Lemma sound_with_candidate s candidate : sound s -> 0 <= c_channel_index candidate < GSM_CHANNEL_COUNT -> gain_state_ok (c_gain_state candidate) ->
  sound (with_current_candidate candidate s).
Proof. intros [] Hc Hg. by split. Qed.

Section Ends.
Context {D : Type} `{!Device D, !StmTimer D}.
(** What a search comes to. *)
Definition search_outcome (ok : bool) (result : option gsm_l1_fcch_result) : Prop :=
  if ok then exists r, result = Some r /\ result_found r else result = Some (L1Fcch false 0 zero_fcch 0 0).
(** A search that fails: its time is over, or the baseband's command was not answered. *)
Definition search_failed (T tps timeout_ms patience : Z) (w : world D gsm) : Prop :=
  over T tps T timeout_ms w \/ refused T tps (BIT 0) T patience w.
Section Timed.
Context (poll : M D gsm unit) `{Hpolls : !Polling poll} (Hforward : forward poll).
Context (f : nat) (T : Z) (HT : 0 <= T < 0x10000000000000000) (tps : Z) (Htps : 1000 <= tps) (s0 : gsm).
Context (Hconfig : let ms := command_timeout_ms (runtime s0) in 0 <= ms /\ timeout_ticks ms tps + 2 < Z.of_nat f).
#[local] Abbreviation E := (@unless_late D gsm _ _ T).
#[local] Abbreviation in_order := (in_order T tps s0).
#[local] Abbreviation patience := (command_timeout_ms (runtime s0)).
(** The wait of the search. *)
Lemma wp_search_wait timeout_ms Q w : 0 <= timeout_ms -> timeout_ticks timeout_ms tps + 2 < Z.of_nat f -> in_order search_inv w ->
  (forall ok w', in_order search_inv w' -> now w <= now w' ->
     (ok = false \/ fcch_scan_state (g_fcch (w_app w')) <> FCCH_SCAN_COMPLETE -> search_failed T tps timeout_ms patience w') -> Q ok w') ->
  wp E (wait_executing poll (fun s => bool_decide (fcch_scan_state (g_fcch s) = FCCH_SCAN_COMPLETE)) timeout_ms) Q f w.
Proof.
  intros Hms Hf Hw HQ. pose proof Hw as ([Hnow _] & _). unfold wait_executing.
  apply (wp_wait_timed f T HT tps Htps _ _ _ (in_order search_inv)
    (fun b w' => in_order search_inv w' /\ b = bool_decide (fcch_scan_state (g_fcch (w_app w')) = FCCH_SCAN_COMPLETE))
    (fun w' => in_order search_inv w' /\ refused T tps (BIT 0) T patience w')); try done.
  - intros w1 w2 Hu Hn. split; [by apply in_order_unchanged|]. intros [H1 Eb]. split; [by eapply in_order_unchanged|]. by destruct Hu as (_ & -> & _).
  - by intros w1 [? _].
  - by intros w1 [[? _] _].
  - intros w1 [H1 Hopen]. symmetry in Hopen. apply bool_decide_eq_false in Hopen. pose proof H1 as (_ & _ & _ & Hinv).
    destruct Hinv as [Hc|[E _]]; [|done]. pose proof H1 as ([Hn1 _] & _). set (c := control_of (w_app w1)) in *.
    apply wp_bind, (wp_execute_timed poll Hforward f T HT tps Htps s0 Hconfig c); [|by apply searching_asks|].
    { by eapply in_order_weaken; [|exact H1]. }
    intros ok w2 H2 Hn2 Hno. assert (in_order searching w2) as H2' by (eapply in_order_weaken; [|exact H2]; by apply searching_answered).
    destruct ok; simpl negb; cbv iota.
    + eapply (wp_poll_leads poll Hforward f T tps Htps s0 searching search_inv); [apply search_step|by left|done|]. intros w3 H3 Hn3. split; [done|lia].
    + apply wp_ret. split; [|done]. split; [by eapply in_order_weaken; [left|]|]. eapply refused_before; [by apply Hno|lia].
  - intros w1 [H1 Eb] Hn1. apply HQ; [done|done|]. symmetry in Eb. apply bool_decide_eq_true in Eb. by intros [|].
  - intros w1 [H1 _] Hn1 Ho. apply HQ; [done|done|]. intros _. left. by eapply over_forward.
  - intros w1 [H1 Hr] Hn1. apply HQ; [done|done|]. intros _. by right.
Qed.
End Timed.
Lemma wp_search_fcch (poll : M D gsm unit) candidate range timeout_ms T f (w : world D gsm) :
  let tps := ticks_per_s (w_lib w) in let patience := command_timeout_ms (runtime (w_app w)) in
  let fits ms := 0 <= ms /\ timeout_ticks ms tps + 2 < Z.of_nat f in
  Polling poll -> forward poll -> sound (w_app w) -> trx_initialized (w_app w) = true ->
  searchable (g_scan (w_app w)) (g_sch (w_app w)) ->
  find_scan_range (c_channel_index candidate) = Some range -> gain_state_ok (c_gain_state candidate) ->
  1000 <= tps -> 0 <= T < 0x10000000000000000 -> T <= now w -> fits timeout_ms -> fits patience ->
  wp (unless_late T) (gsm_l1_search_fcch poll (Some candidate) true timeout_ms) (fun '(ok, result) w' =>
    search_outcome ok result /\ (ok = false -> search_failed T tps timeout_ms patience w') /\
    sound (w_app w') /\ rest_of (w_app w') = rest_of (with_current_candidate candidate (w_app w)) /\
    searchable (g_scan (w_app w')) (g_sch (w_app w')) /\ timely T tps w') f w.
Proof.
  intros tps patience fits Hpolls Hfwd Hsound Htrx Hsearch Hrange Hgain Htps HT Hnow Hfits Hconfig. unfold gsm_l1_search_fcch. apply wp_bind, wp_get_app.
  rewrite Htrx, Hrange. simpl negb. cbn [orb]. cbv iota zeta. destruct (find_scan_range_spec _ _ Hrange) as [_ Hidx].
  set (s0 := with_current_candidate candidate (w_app w)).
  assert (sound s0) as Hs0 by (apply sound_with_candidate; [done|by eapply range_index|done]).
  apply wp_bind. eapply wp_mono; [apply wp_forward; [apply (forward_uses (fun _ => True)); uses_deep|apply (wp_modified _ _ (fun _ w' => w_app w' = s0 /\ w_lib w' = w_lib w)); by intros w' -> ->]|].
  intros _ w1 [[E1 El] Hn]. assert (in_order T tps s0 (eq (control_of s0)) w1) as Hw.
  { split; [split; [lia|by rewrite El]|]. by rewrite E1. }
  clear E1 El Hn. unfold set_loop_phase. do 4 ordered_step.
  set (c0 := set_loop _ _) in Hw. assert (in_order T tps s0 search_inv w1) as Hinv by (eapply in_order_weaken; [|exact Hw]; intros <-; left; by apply search_asked).
  clearbody c0. clear Hw. apply wp_bind, (wp_search_wait poll Hfwd f T HT tps Htps s0 Hconfig); [apply Hfits|apply Hfits|exact Hinv|]. clear Hinv.
  intros ok w' (Ht & Hs & Er & Hinv) _ Hfail. pose proof (search_searchable _ Hinv) as Hsearch'.
  assert (forall result, search_outcome false result -> search_failed T tps timeout_ms patience w' ->
    wp (unless_late T) (mret (false, result)) (fun '(ok, result) w' => search_outcome ok result /\ (ok = false -> search_failed T tps timeout_ms patience w') /\
      sound (w_app w') /\ rest_of (w_app w') = rest_of s0 /\ searchable (g_scan (w_app w')) (g_sch (w_app w')) /\ timely T tps w') f w') as Hempty.
  { intros result Ho Hno. apply wp_ret. by split_and!. }
  destruct ok; simpl negb; cbv iota; [|apply Hempty; [done|apply Hfail; by left]]. apply wp_bind, wp_get_app.
  case_bool_decide as Est; simpl negb; cbv iota; [|apply Hempty; [done|apply Hfail; by right]].
  destruct (search_completed _ Hinv Est) as [Hw0 Hfound]. cbn [k_fcch control_of] in Hw0. destruct (Z.eqb_spec (fcch_window (g_fcch (w_app w'))) 0); [done|].
  apply wp_ret. split_and!; try done. by eexists.
Qed.
(** C8. The search for the frequency-correction burst ends with its timeout.  The time processor
    interrupts at every poll, after what the program does there, which leaves the receiver alone.
    Whatever the DSP answers, and if it never does, [gsm_l1_search_fcch] comes back, for a channel
    of the bands and a receiver that is initialized, whose scan is complete and which is not in the
    midst of a reception (one that was cut short leads the search astray): within as many rounds of
    each of its waits as the timeout has ticks, unless the low word of the timer wraps meanwhile,
    where [stopwatch_get] can give a time that is too early.  There is no access outside of a
    table.  If it reports success, one to twelve windows were searched: a burst is reported
    exactly if the DSP's last result is valid, at a tick inside of the frame that is the burst's
    start, and none is only reported after all of the twelve windows.  It fails, with an empty
    result, only if its time is over, or if the DSP refused the command that turns the baseband
    off: the last read of its status was busy, after the command's time or after a read that was
    not.  The receiver's state is sound, and only the candidate was changed in what is not the
    state of the search. *)
Theorem fcch_search_ends (serve : M D gsm unit) (candidate : gsm_l1_candidate) (range : gsm_scan_range) (timeout_ms : Z) (f : nat) (w : world D gsm) :
  let tps := ticks_per_s (w_lib w) in let patience := command_timeout_ms (runtime (w_app w)) in
  let fits ms := 0 <= ms /\ timeout_ticks ms tps + 2 < Z.of_nat f in
  harmless serve -> forward serve -> sound (w_app w) -> trx_initialized (w_app w) = true ->
  receiver_scan_state (g_scan (w_app w)) = RECEIVER_SCAN_COMPLETE -> sch_scan_state (g_sch (w_app w)) <> SCH_SCAN_ACTIVE ->
  find_scan_range (c_channel_index candidate) = Some range -> gain_state_ok (c_gain_state candidate) ->
  1000 <= tps -> 0 <= now w < 0x10000000000000000 -> fits timeout_ms -> fits patience ->
  wp (unless_late (now w)) (gsm_l1_search_fcch (polled serve) (Some candidate) true timeout_ms) (fun '(ok, result) w' =>
    search_outcome ok result /\
    (ok = false -> over (now w) tps (now w) timeout_ms w' \/ refused (now w) tps (BIT 0) (now w) patience w') /\
    sound (w_app w') /\ rest_of (w_app w') = rest_of (with_current_candidate candidate (w_app w))) f w.
Proof.
  intros tps patience fits Hserve Hfwd Hs Htrx Hrec Hsch Hrange Hgain Htps Hnow Hfits Hconfig. pose proof (polled_polling serve Hserve).
  assert (forward (polled serve)) by (apply forward_bind; [done|]; intros _; apply (forward_uses (fun _ => True)), uses_irq).
  eapply wp_mono; [by eapply wp_search_fcch|]. by intros [ok result] w' (? & ? & ? & ? & _).
Qed.
End Ends.

Lemma fcch_search_ends_witness :
  let w := World (D := N * (port -> Z)) (1000%N, fun _ => 0) ∅ [] lib_ticking ready_gsm in
  let patience := command_timeout_ms (runtime ready_gsm) in
  wp (@unless_late _ _ tick_device tick_timer 1000) (@gsm_l1_search_fcch _ tick_device (@polled _ tick_device (mret tt)) (Some candidate_10) true 500)
    (fun '(ok, result) w' =>
      search_outcome ok result /\
      (ok = false -> @over _ _ tick_timer 1000 1000 1000 500 w' \/ @refused _ _ tick_timer 1000 1000 (BIT 0) 1000 patience w') /\
      sound (w_app w') /\ rest_of (w_app w') = rest_of (with_current_candidate candidate_10 (w_app w))) 1100%nat w.
Proof.
  intros w patience. assert (exists range, find_scan_range 10 = Some range) as [range Er] by by eexists.
  apply (fcch_search_ends (Device0 := tick_device) (StmTimer0 := tick_timer) (mret tt) candidate_10 range 500 1100 w);
    [apply harmless_ret|intros f v; apply Z.le_refl|exact ready_sound|done|done|done|exact Er|by vm_compute..].
Defined.
(** A DSP that never finds a burst, and one that is always busy. *)
Example example_search :
  match @gsm_l1_search_fcch unit no_device (@gsm_l1_tpu_irq unit no_device) (Some candidate_10) true 1000 100%nat (World tt ∅ [] lib_ticking ready_gsm) with
  | Done (true, Some r) _ => lf_detected r = false /\ lf_attempt_count r = 12
  | _ => False
  end.
Proof. vm_compute. done. Qed.
Example example_search_refused :
  let busy : port -> Z := fun p => if decide (p = Mmio 32 DSP_COM_STATUS) then 1 else 0 in
  match @gsm_l1_search_fcch _ tick_device (@gsm_l1_tpu_irq _ tick_device) (Some candidate_10) true 500 1100%nat (World (1000%N, busy) ∅ [] lib_ticking ready_gsm) with
  | Done (ok, r) w' => ok = false /\ r = Some (L1Fcch false 0 zero_fcch 0 0) /\
      match w_log w' with Rd (Mmio 32 DSP_COM_STATUS) v :: _ => v = 1 | _ => False end
  | _ => False
  end.
Proof. vm_compute. done. Qed.
