(* ===== verification/GsmDecode.v ===== *)
(** * Layer 1 of the GSM receiver: the reception of a synchronisation burst ends

    [gsm_l1_decode_sch] has no bound on its frames, as the refinements before a burst can go on:
    what ends it are the foreground's timeouts. *)
From S2P Require Import Prelude Machine Board Regs Stopwatch Wdt Timeout Smbus GsmRegs GsmChannel GsmTrx GsmCalib GsmBoard GsmLoad Dsp GsmState GsmL1 GsmFrame GsmSelect GsmQuiet GsmScan GsmControl GsmWait GsmTimed GsmSearch.
Import Regs.Pmb8876.

Section Decode.
Context {D : Type} `{!Device D, !StmTimer D}.
#[local] Abbreviation M := (M D gsm).
(** ** Invariant: the receiver is sound, and what the foreground configured is as it was *)
Context (poll : M unit) `{Hpolls : !Polling poll} (Hforward : forward poll).
Context (f : nat) (T : Z) (HT : 0 <= T < 0x10000000000000000) (tps : Z) (Htps : 1000 <= tps) (s0 : gsm).
#[local] Abbreviation anything := (fun _ : control => True).
#[local] Abbreviation in_order := (in_order T tps s0 anything).
#[local] Abbreviation upholds := (upholds T f in_order).
Lemma upholds_modify (g : gsm -> gsm) : (forall s, sound s -> exists c, moves s c (g s)) -> upholds (modify g : M unit).
Proof.
  intros Hg. assert (forward (modify g : M unit)) as Hf by (apply (forward_uses (fun _ => True)); uses_deep). split; [done|]. intros Q w Hw HQ.
  apply (wp_leads f T tps Htps s0 anything anything); [done|unfold keeps_ticks; repeat keeps_step| |done|by auto].
  intros w1 Hs _ _. apply wp_modified. intros w' E _. rewrite E. destruct (Hg _ Hs) as (c & ? & _ & ?). by split_and!.
Qed.
Lemma upholds_fcch_state state : upholds (set_fcch_state state).
Proof.
  split; [apply (forward_uses (fun _ => True)); uses_deep|]. intros Q w Hw HQ. by apply (wp_fcch_state_timed f T tps Htps s0 state anything anything); [| |auto].
Qed.
Lemma upholds_wait cond timeout_ms step : 0 <= timeout_ms -> timeout_ticks timeout_ms tps + 2 < Z.of_nat f -> upholds cond -> upholds step ->
  upholds (wait_until cond timeout_ms step).
Proof.
  intros Hms Hf Hc Hs. split; [apply forward_wait; [apply Hc|apply Hs]|]. intros Q w Hw HQ.
  apply (wp_wait_timed f T HT tps Htps _ _ _ in_order (fun _ => in_order) in_order); try done.
  - intros w1 w2 Hu Hn. split; by apply in_order_unchanged.
  - by intros w1 [? _].
  - by intros w1 [? _].
  - intros w1 H1. by apply (wp_upheld T f in_order); [| |auto].
  - intros w1 H1. apply (wp_upheld T f in_order); [done|done|]. by intros [] w2.
  - intros w1 H1 _. by apply HQ.
  - intros w1 H1 _ _. by apply HQ.
  - intros w1 H1 _. by apply HQ.
Qed.
Lemma upholds_kept {R} (m : M R) : uses (fun _ => True) m -> keeps_ticks m -> quiet m -> upholds m.
Proof. by apply (upholds_quiet f T tps Htps s0 anything). Qed.
Lemma upholds_app : upholds get_app.
Proof. apply upholds_kept; [apply uses_get_app|apply keeps_get_app|apply quiet_get_app]. Qed.
Lemma upholds_poll : upholds (poll_step poll).
Proof.
  split; [by apply forward_poll|]. intros Q w Hw HQ. apply (wp_poll_timed poll Hforward f T tps Htps s0 anything); [done|done|]. by auto.
Qed.

(** ** The commands of the foreground *)
Context (Hconfig : let ms := command_timeout_ms (runtime s0) in 0 <= ms /\ timeout_ticks ms tps + 2 < Z.of_nat f).
Lemma upholds_baseband_off : upholds (dsp_execute_baseband_off poll).
Proof.
  split; [by apply forward_baseband_off|]. intros Q w Hw HQ.
  apply (wp_baseband_off_timed poll Hforward f T HT tps Htps s0 anything); [done|done|done|]. by auto.
Qed.
Lemma upholds_execute : upholds (execute_requested_fcch_command poll).
Proof.
  assert (forall state, upholds (dsp_fcch_refinement_command_start;; set_fcch_state state;; mret true)) as Hrefine.
  { intros state. apply upholds_bind; [|intros _; apply upholds_bind; [apply upholds_fcch_state|intros _; apply upholds_ret]].
    apply upholds_kept; [apply uses_refinement_command|unfold keeps_ticks; repeat keeps_step|apply quiet_refinement_command]. }
  unfold execute_requested_fcch_command. apply upholds_bind; [apply upholds_app|]. intros s.
  destruct (fcch_scan_state (g_fcch s)); lazymatch goal with |- _ (mret true) => apply upholds_ret | |- _ (mbind _ dsp_fcch_refinement_command_start) => apply Hrefine | _ => idtac end.
  - apply upholds_bind; [apply upholds_baseband_off|]. intros []; [|apply upholds_ret]. apply upholds_bind; [apply upholds_fcch_state|intros _; apply upholds_ret].
  - apply upholds_bind; [|intros _; apply upholds_bind; [apply upholds_fcch_state|intros _; apply upholds_ret]].
    apply upholds_kept; [apply uses_fcch_command|unfold keeps_ticks; repeat keeps_step|apply quiet_fcch_command].
  - apply upholds_bind; [apply upholds_baseband_off|]. intros []; [|apply upholds_ret]. apply Hrefine.
Qed.
Lemma upholds_wait_executing reached timeout_ms : 0 <= timeout_ms -> timeout_ticks timeout_ms tps + 2 < Z.of_nat f -> upholds (wait_executing poll reached timeout_ms).
Proof.
  intros Hms Hf. apply upholds_wait; [done|done| |].
  - apply upholds_bind; [apply upholds_app|]. intros s. apply upholds_ret.
  - apply upholds_bind; [apply upholds_execute|]. intros []; [apply upholds_poll|apply upholds_ret].
Qed.
End Decode.

(** What [gsm_l1_decode_sch] hands out. *)
Definition sch_result_of (s : gsm) (ok : bool) (r : gsm_l1_sch_result) : Prop :=
  let l := sch_search_result (g_sch s) in
  if ok then
    sch_scan_state (g_sch s) = SCH_SCAN_COMPLETE /\
    ls_attempt_count r = sch_attempt_count (g_sch s) /\ ls_refinement_attempt_count r = fcch_refinement_attempt_count (g_fcch s) /\
    (ls_decoded r = true <-> sch_attempt_count (g_sch s) <> 0 /\ s_communication_flags l = 0 /\ s_status l = 0) /\
    (ls_decoded r = true -> ls_status r = 0 /\ ls_communication_flags r = 0 /\ ls_data r = fst (s_data l) .| u32 (snd (s_data l) .<< 16) /\
       ls_bsic r = (ls_data r .>> 2) .& 0x3F /\ 0 <= ls_bsic r < 64 /\ ls_frame_number r = sch_data_to_frame_number (ls_data r)) /\
    (ls_decoded r = false -> ls_data r = 0 /\ ls_bsic r = 0 /\ ls_frame_number r = 0)
  else r = L1Sch false 0 0 0 0 0 0 0 0 0.
Lemma sch_result_made s refinements attempts data : let l := sch_search_result (g_sch s) in
  sch_scan_state (g_sch s) = SCH_SCAN_COMPLETE -> refinements = fcch_refinement_attempt_count (g_fcch s) -> attempts = sch_attempt_count (g_sch s) ->
  data = fst (s_data l) .| u32 (snd (s_data l) .<< 16) ->
  sch_result_of s true (if (attempts !=? 0) && (s_communication_flags l ==? 0) && (s_status l ==? 0) then
    L1Sch true refinements attempts (s_metric l) (s_status l) data (s_equalizer_position l) (s_communication_flags l) ((data .>> 2) .& 0x3F) (sch_data_to_frame_number data)
  else L1Sch false refinements attempts 0 0 0 0 0 0 0).
Proof.
  intros l Hc -> -> ->. unfold sch_result_of. fold l.
  assert (forall x, 0 <= x .& 0x3F < 64) as H6 by (intros x; change 0x3F with (Z.ones 6); rewrite Z.land_ones by lia; by apply Z.mod_pos_bound).
  destruct (Z.eqb_spec (sch_attempt_count (g_sch s)) 0), (Z.eqb_spec (s_communication_flags l) 0), (Z.eqb_spec (s_status l) 0);
    cbn; repeat split; intros; destruct_and?; try done; apply H6.
Qed.

Section Ends.
Context {D : Type} `{!Device D, !StmTimer D}.
Lemma wp_decode_sch (poll : M D gsm unit) (candidate : gsm_l1_candidate) (fcch : gsm_l1_fcch_result) (range : gsm_scan_range) (timeout_ms T : Z) (f : nat)
    (w : world D gsm) :
  let tps := ticks_per_s (w_lib w) in
  let fits ms := 0 <= ms /\ timeout_ticks ms tps + 2 < Z.of_nat f in
  Polling poll -> forward poll -> sound (w_app w) -> trx_initialized (w_app w) = true -> lf_detected fcch = true ->
  find_scan_range (c_channel_index candidate) = Some range -> gain_state_ok (c_gain_state candidate) ->
  1000 <= tps -> 0 <= T < 0x10000000000000000 -> T <= now w -> fits timeout_ms -> fits (command_timeout_ms (runtime (w_app w))) ->
  wp (unless_late T) (gsm_l1_decode_sch poll (Some candidate) (Some fcch) true timeout_ms) (fun '(ok, result) w' =>
    (exists r, result = Some r /\ sch_result_of (w_app w') ok r) /\
    sound (w_app w') /\ rest_of (w_app w') = rest_of (with_current_candidate candidate (w_app w)) /\
    T <= now w' /\ ticks_per_s (w_lib w') = tps) f w.
Proof.
  intros tps fits Hpolls Hfwd Hsound Htrx Hdet Hrange Hgain Htps HT Hnow Hfits Hconfig. unfold gsm_l1_decode_sch. apply wp_bind, wp_get_app.
  rewrite Htrx, Hdet, Hrange. simpl negb. cbn [orb]. cbv iota zeta. destruct (find_scan_range_spec _ _ Hrange) as [_ Hidx].
  set (s0 := with_current_candidate candidate (w_app w)).
  apply wp_bind. eapply wp_mono; [apply wp_forward; [apply (forward_uses (fun _ => True)); uses_deep|apply (wp_modified _ _ (fun _ w' => w_app w' = s0 /\ w_lib w' = w_lib w)); by intros w' -> ->]|].
  intros _ w1 [[E1 El] Hn]. assert (in_order T tps s0 (fun _ => True) w1) as H1.
  { split; [split; [lia|by rewrite El]|]. rewrite E1. split_and!; [apply sound_with_candidate; [done|by eapply range_index|done]|done|done]. }
  clear E1 El Hn. do 3 (apply wp_bind, (wp_upheld T f (in_order T tps s0 (fun _ => True)));
    [unfold set_loop_phase; eapply upholds_modify; [lia|]; intros s Hs; eexists; unfold in_fcch, in_sch, in_loop; first [apply moves_fcch|apply moves_sch|apply moves_loop]; [by apply moves_refl|..]; apply (sound_bank _ Hs)|done|];
    clear H1; intros _ w2 H1 _; clear dependent w1; rename w2 into w1).
  apply wp_bind, (wp_upheld T f (in_order T tps s0 (fun _ => True))); [apply upholds_wait_executing; [done|done|done|done|exact Hconfig|apply Hfits|apply Hfits]|done|]. clear H1.
  intros ok w2 ([Hn Ht] & Hs & Hr & _) _. clear dependent w1. rename w2 into w1.
  destruct ok; [|by apply wp_ret; split; [by eexists|]]. simpl negb. cbv iota. apply wp_bind, wp_get_app. case_bool_decide as Est; [|by apply wp_ret; split; [by eexists|]].
  simpl negb. cbv iota zeta. pose proof (sch_result_made (w_app w1) _ _ _ Est eq_refl eq_refl eq_refl) as Hmade.
  destruct (_ && _); apply wp_ret; (split; [eexists; split; [reflexivity|exact Hmade]|done]).
Qed.
(** C11. The reception of the synchronisation burst ends with its timeouts.  Whatever the DSP
    answers, and if it never does, [gsm_l1_decode_sch] comes back for a channel of the bands and
    a result with a burst, within as many rounds of each of its waits as the timeout has ticks,
    unless the low word of the timer wraps meanwhile, where [stopwatch_get] can give a time that is
    too early.  The time processor interrupts at every poll, after what the program does there.
    There is no access outside of a table, and the receiver is sound.  If it reports success the reception is complete; the burst is decoded exactly if the DSP was asked
    and neither its status nor its flags have an error, and then the base station's identity code
    and the frame number are those of the 32 bits the DSP received.  If it does not, the result
    is empty. *)
Theorem sch_decode_ends (serve : M D gsm unit) (candidate : gsm_l1_candidate) (fcch : gsm_l1_fcch_result) (range : gsm_scan_range) (timeout_ms : Z) (f : nat)
    (w : world D gsm) :
  let tps := ticks_per_s (w_lib w) in
  let fits ms := 0 <= ms /\ timeout_ticks ms tps + 2 < Z.of_nat f in
  harmless serve -> forward serve -> sound (w_app w) -> trx_initialized (w_app w) = true -> lf_detected fcch = true ->
  find_scan_range (c_channel_index candidate) = Some range -> gain_state_ok (c_gain_state candidate) ->
  1000 <= tps -> 0 <= now w < 0x10000000000000000 -> fits timeout_ms -> fits (command_timeout_ms (runtime (w_app w))) ->
  wp (unless_late (now w)) (gsm_l1_decode_sch (polled serve) (Some candidate) (Some fcch) true timeout_ms) (fun '(ok, result) w' =>
    (exists r, result = Some r /\ sch_result_of (w_app w') ok r) /\
    sound (w_app w') /\ rest_of (w_app w') = rest_of (with_current_candidate candidate (w_app w))) f w.
Proof.
  intros tps fits Hserve Hfwd Hs Htrx Hdet Hrange Hgain Htps Hnow Hfits Hconfig. pose proof (polled_polling serve Hserve).
  assert (forward (polled serve)) by (apply forward_bind; [done|]; intros _; apply (forward_uses (fun _ => True)), uses_irq).
  eapply wp_mono; [by eapply wp_decode_sch|]. by intros [ok result] w' (? & ? & ? & _).
Qed.
End Ends.

Lemma sch_decode_ends_witness :
  let w := World (D := N * (port -> Z)) (1000%N, fun _ => 0) ∅ [] lib_ticking ready_gsm in
  let found := L1Fcch true 1 zero_fcch 0 0 in
  wp (@unless_late _ _ tick_device tick_timer 1000) (@gsm_l1_decode_sch _ tick_device (@polled _ tick_device (mret tt)) (Some candidate_10) (Some found) true 500)
    (fun '(ok, result) w' =>
      (exists r, result = Some r /\ sch_result_of (w_app w') ok r) /\
      sound (w_app w') /\ rest_of (w_app w') = rest_of (with_current_candidate candidate_10 (w_app w))) 1100%nat w.
Proof.
  intros w found. assert (exists range, find_scan_range 10 = Some range) as [range Er] by by eexists.
  apply (sch_decode_ends (Device0 := tick_device) (StmTimer0 := tick_timer) (mret tt) candidate_10 found range 500 1100 w);
    [apply harmless_ret|intros f v; apply Z.le_refl|exact ready_sound|done|done|exact Er|by vm_compute|by vm_compute|by vm_compute|by vm_compute|by vm_compute].
Defined.
