(* ===== verification/GsmSurvey.v ===== *)
(** * Layer 1 of the GSM receiver: the scan of the bands

    [gsm_l1_scan_channels] with the interrupt taken at every poll and a DSP that measures: the
    scan ends after at most 4206 frames with eight measurements of every channel, and what it
    hands out are the candidates of [GsmSelect]. *)
From S2P Require Import Prelude Machine Board Regs Stopwatch Smbus GsmRegs GsmChannel GsmTrx GsmCalib GsmBoard GsmLoad Dsp GsmState GsmL1 GsmFrame GsmSelect GsmQuiet GsmScan GsmControl GsmWait.
Import Regs.Pmb8876.

(** ** Before the scan *)
Definition fresh_result : channel_scan_result := ScanResult 0 0 gsm_board_get_initial_gain_state false.
(** The channels of the bands were not measured and are not excluded. *)
Definition fresh (results : list channel_scan_result) : Prop := forall c, c ∈ build_channel_scan_order -> result_at results c = fresh_result.
Section Reset.
Context {D : Type} `{!Device D}.
#[local] Abbreviation M := (M D gsm).
Lemma wp_reset_results s c Q f w : moves s c (w_app w) ->
  (forall results w', fresh results -> moves s (set_scan (with_scan_results results (k_scan c)) c) (w_app w') -> Q tt w') ->
  wp total (foldM (fun _ channel_index => set_channel_result channel_index fresh_result) tt build_channel_scan_order : M unit) Q f w.
Proof.
  intros Hm HQ. apply (wp_foldM _ _ (fun todo_done (_ : unit) w' => exists results, moves s (set_scan (with_scan_results results (k_scan c)) c) (w_app w') /\
    forall c, c ∈ todo_done -> result_at results c = fresh_result)).
  { exists (scan_results (k_scan c)). split; [by destruct c as [? [] ? ?]|]. intros x Hx. by apply elem_of_nil in Hx. }
  2:{ intros [] w' (results & Hm' & H). by eapply HQ. }
  clear Hm w. intros before ch todo _ w Hsplit (results & Hm & H).
  assert (0 <= ch < GSM_CHANNEL_COUNT) as Hch.
  { apply scan_channels_index. rewrite Hsplit. apply elem_of_app. right. apply list_elem_of_here. }
  pose proof (sound_results _ (proj1 Hm)) as Hsize. unfold set_channel_result, modify. wp_steps.
  eapply wp_defined; [by apply elem_result|]. wp_steps. exists (<[Z.to_nat ch := fresh_result]> results).
  pose proof (sound_levels _ (proj1 Hm)) as Hok. unfold in_scan. rewrite (moves_scan_of _ _ _ Hm) in *.
  cbn [k_scan set_scan scan_results with_scan_results] in *. split.
  - pose proof (moves_results _ _ _ (<[Z.to_nat ch := fresh_result]> results) Hm) as Hm'. rewrite (moves_scan_of _ _ _ Hm) in Hm'. apply Hm'.
    + unfold table_size. by rewrite length_insert.
    + apply Forall_insert; [done|]. by vm_compute.
  - intros x [Hx| ->%list_elem_of_singleton]%elem_of_app; [|by rewrite result_insert, decide_True by (done || lia)].
    assert (0 <= x < GSM_CHANNEL_COUNT) as Hx'.
    { apply scan_channels_index. rewrite Hsplit. apply elem_of_app. by left. }
    rewrite result_insert by (done || lia). case_decide; [done|]. by apply H.
Qed.
End Reset.

(** ** The scan *)
(** The frames that are left, at most. *)
Definition survey_left (c : control) : nat :=
  match tpu_loop_phase (k_loop c) with
  | TPU_LOOP_READY => S (Z.to_nat (TPU_RF_QUIET_FRAME_COUNT + 1 - tpu_rf_transition_frame (k_loop c)) + scan_calls)
  | _ => scan_rank (k_scan c)
  end.
Definition survey_frames : nat := 4206.
(** The loop is ready for a scan: the transceiver is initialized or searches. *)
Definition scan_ready (l : tpu_loop) : Prop :=
  tpu_loop_phase l = TPU_LOOP_READY /\ 0 <= tpu_rf_transition_frame l \/ tpu_loop_phase l = TPU_LOOP_SEARCH.
Definition survey_inv (c : control) : Prop :=
  not_excluded (scan_results (k_scan c)) /\
  (scan_measured (k_scan c) \/
   scan_ready (k_loop c) /\ receiver_scan_state (k_scan c) = RECEIVER_SCAN_REQUESTED /\ unmeasured (scan_results (k_scan c)) \/
   tpu_loop_phase (k_loop c) = TPU_LOOP_SEARCH /\ scan_active (k_scan c)).

Section Survey.
Context {D : Type} `{!Device D}.
#[local] Abbreviation M := (M D gsm).
Lemma next_results scan : scan_results (snd (next scan)) = scan_results scan.
Proof. unfold next. by repeat case_match. Qed.
Lemma advance_results results' scan : (if measures scan then True else results' = scan_results scan) ->
  scan_results (snd (advance results' scan)) = results'.
Proof.
  unfold measures, advance. destruct (receiver_scan_state scan); rewrite ?next_results; try done.
  destruct (scan_request_repeated scan); simpl negb; cbv iota; by rewrite ?next_results.
Qed.
(** A call of [channel_scan_advance] in the search. *)
Lemma searched_results scan o : not_excluded (scan_results scan) -> searched (D := D) scan o -> not_excluded (scan_results (snd o)).
Proof.
  intros Hx (results' & gains & Hres & ->). cbn [snd scan_results with_scan_request_gain_states].
  rewrite advance_results by (by destruct (measures scan)). destruct (measures scan); [|by subst]. intros c Hc.
  rewrite (proj1 (proj2 (proj2 Hres) c (proj1 (scan_channels_index c Hc)))). by apply Hx.
Qed.
Lemma searched_goes_on scan o : dsp_measures (D := D) -> searched (D := D) scan o ->
  receiver_scan_state scan = RECEIVER_SCAN_REQUESTED /\ unmeasured (scan_results scan) \/ scan_active scan ->
  scan_goes_on scan (scan_rank scan) o.
Proof.
  intros Hd (results' & gains & Hres & ->) Hst.
  assert (scan_goes_on scan (scan_rank scan) (advance results' scan)) as Hgo; [|exact Hgo].
  destruct Hst as [[Hst H0]|Hact].
  - unfold measures in Hres. rewrite Hst in Hres. subst results'. unfold scan_rank at 1. rewrite Hst. by apply advance_requested.
  - apply advance_active; [done|]. destruct (measures scan); [|done]. intros c Hc. apply Hres; [|done]. by apply scan_channels_index.
Qed.
Lemma scan_rank_positive scan : receiver_scan_state scan = RECEIVER_SCAN_REQUESTED \/ scan_active scan -> (0 < scan_rank scan)%nat.
Proof.
  unfold scan_rank. intros [->|(-> & ? & _ & ? & _)]; [lia|]. unfold SCAN_PASS_COUNT, SCAN_WINDOW_STRIDE, GSM_SCAN_CHANNEL_COUNT, GSM_CHANNEL_COUNT in *.
  assert (0 <= (980 - scan_window_start scan) / 8) by (apply Z.div_pos; lia). destruct (scan_request_repeated scan); lia.
Qed.
(** The search's frame. *)
Lemma survey_frame c o hz : tpu_loop_phase (k_loop c) = TPU_LOOP_SEARCH -> not_excluded (scan_results (snd o)) ->
  (0 < scan_rank (k_scan c))%nat -> scan_goes_on (k_scan c) (scan_rank (k_scan c)) o ->
  survey_inv (search_frame o hz c) /\ (survey_left (search_frame o hz c) < scan_rank (k_scan c))%nat.
Proof.
  intros Hl Hx Hpos Hgo. unfold scan_goes_on in Hgo. unfold search_frame. destruct (fst o).
  - destruct Hgo as [Hact Hlt]. split; [split; [done|by right; right]|]. unfold survey_left. cbn. by rewrite Hl.
  - assert (forall c', k_scan c' = snd o -> tpu_loop_phase (k_loop c') <> TPU_LOOP_READY -> survey_inv c' /\ (survey_left c' < scan_rank (k_scan c))%nat) as Hinv.
    { intros c' E Hl'. split; [split; rewrite E; [done|by left]|]. unfold survey_left. rewrite E.
      assert (scan_rank (snd o) = 0%nat) as -> by (unfold scan_rank; by rewrite (proj1 Hgo)).
      by destruct (tpu_loop_phase (k_loop c')). }
    case_bool_decide; apply Hinv; try done. cbn. by rewrite Hl.
Qed.
Lemma survey_round c c' : dsp_measures (D := D) -> survey_inv c -> receiver_scan_state (k_scan c) <> RECEIVER_SCAN_COMPLETE ->
  frame_step (D := D) (frame_begin c) c' -> survey_inv c' /\ (survey_left c' < survey_left c)%nat.
Proof.
  intros Hd [Hx Hinv] Hne Hstep. destruct Hinv as [[Hc _]|Hinv]; [done|].
  assert (tpu_loop_phase (k_loop (frame_begin c)) = tpu_loop_phase (k_loop c)) as El.
  { apply frame_begin_phase. destruct Hinv as [([[-> _]| ->] & _)|[-> _]]; done. }
  assert (tpu_rf_transition_frame (k_loop (frame_begin c)) = tpu_rf_transition_frame (k_loop c)) as Et.
  { unfold frame_begin. cbv zeta. cbn [k_loop set_loop]. by repeat case_match. }
  assert (receiver_scan_state (k_scan c) = RECEIVER_SCAN_REQUESTED /\ unmeasured (scan_results (k_scan c)) \/ scan_active (k_scan c)) as Hst by tauto.
  assert (0 < scan_rank (k_scan c))%nat as Hpos by (apply scan_rank_positive; tauto).
  set (b := frame_begin c) in *. assert (k_scan b = k_scan c) as Ek by done. clearbody b. rewrite <- Ek in *.
  destruct Hstep as [|Hl Ht|Hl Ht Hq|o hz Hl Ht Hq Ho|o hz Hl Ho| | | | |].
  all: try (exfalso; destruct Hinv as [([[? _]|?] & _)|[? _]]; congruence).
  - destruct Hinv as [(Hready & Hreq & H0)|[? _]]; [|congruence]. destruct Hready as [[Hl' Hpos']|?]; [|congruence].
    rewrite Et in Ht. split.
    + split; [done|]. right. left. split; [|done]. left. split; [done|]. cbn. rewrite Et. lia.
    + unfold survey_left. cbn. rewrite Hl, Hl', Et. lia.
  - destruct Hinv as [(_ & Hreq & _)|[? _]]; [done|congruence].
  - destruct (survey_frame (loop_phase_is TPU_LOOP_SEARCH b) o hz) as [Hinv' Hlt]; [done|by eapply searched_results|done|by apply searched_goes_on|].
    split; [done|]. eapply Nat.lt_trans; [exact Hlt|]. unfold survey_left. rewrite <- El, Hl. cbn [k_scan loop_phase_is set_loop].
    unfold scan_rank. rewrite Hq. unfold scan_calls. lia.
  - destruct (survey_frame b o hz) as [Hinv' Hlt]; [done|by eapply searched_results|done|by apply searched_goes_on|].
    split; [done|]. unfold survey_left at 2. by rewrite <- El, Hl, <- Ek.
Qed.
Lemma survey_sch c c' : survey_inv c -> receiver_scan_state (k_scan c) <> RECEIVER_SCAN_COMPLETE ->
  frame_step (D := D) (frame_begin c) c' -> k_sch c' = k_sch c.
Proof.
  intros [_ [[? _]|Hinv]] Hne Hstep; [done|].
  assert (tpu_loop_phase (k_loop (frame_begin c)) = TPU_LOOP_READY \/ tpu_loop_phase (k_loop (frame_begin c)) = TPU_LOOP_SEARCH) as El.
  { rewrite frame_begin_phase; destruct Hinv as [([[-> _]| ->] & _)|[-> _]]; by auto. }
  assert (k_sch (frame_begin c) = k_sch c) as <- by done. generalize dependent (frame_begin c). intros b Hstep El.
  destruct Hstep as [| | |o hz _ _ _ _|o hz _ _| | | | |]; try done; try (destruct El; congruence); unfold search_frame; by repeat case_match.
Qed.
(** The wait for the scan. *)
Context (poll : M unit) `{Hpolls : !Polling poll}.
Lemma wp_survey_wait s c timeout_ms Q f w : dsp_measures (D := D) -> moves s c (w_app w) -> rt_poll (runtime s) = true ->
  ticks_per_s (w_lib w) <> 0 -> survey_inv c -> (survey_left c < f)%nat ->
  (forall c' w', survey_inv c' -> k_sch c' = k_sch c -> moves s c' (w_app w') -> Q true w') ->
  wp total (wait_until (s ← get_app; mret (bool_decide (receiver_scan_state (g_scan s) = RECEIVER_SCAN_COMPLETE))) timeout_ms (poll_step poll) : M bool) Q f w.
Proof.
  intros Hd Hm Hpoll Ht Hinv Hleft HQ.
  eapply (wp_wait_until _ _ _ (fun s' => exists c', moves s c' s' /\ survey_inv c' /\ k_sch c' = k_sch c) (fun s => survey_left (control_of s))); [by eexists|done| | |].
  - destruct Hm as (_ & -> & _). exact Hleft.
  - clear Hm Ht Hinv Hleft w. intros w (c1 & Hm & Hinv & Esch) Ht Hne%bool_decide_eq_false. rewrite (moves_scan_of _ _ _ Hm) in Hne.
    eapply wp_keeps; [by apply poll_keeps_ticks|]. unfold poll_step, poll_runtime. apply wp_bind, wp_bind, wp_get_app.
    assert (rt_poll (runtime (w_app w)) = true) as -> by (destruct Hm as (_ & _ & E); unfold rest_of in E; congruence).
    simpl when. eapply polling_frame; [exact Hm|done|]. intros c' w' Hstep Hm'. pose proof (survey_sch _ _ Hinv Hne Hstep) as Esch'.
    destruct (survey_round _ _ Hd Hinv Hne Hstep) as [Hinv' Hlt]. apply wp_ret. intros El. split_and!; [done|done|exists c'; split_and!; [done|done|congruence]|].
    destruct Hm as (_ & -> & _), Hm' as (_ & -> & _). exact Hlt.
  - intros w' (c' & Hm' & Hinv' & Esch). by eapply HQ.
Qed.
End Survey.

(** ** The result *)
Lemma excluding_sound P s left : sound s -> excluding P (scan_results (g_scan s)) left -> sound (in_scan (with_scan_results left) s).
Proof.
  intros [] [Hsize H]. split; try done. simpl. apply Forall_lookup. intros i r Hr.
  assert (result_at left (Z.of_nat i) = r) as <-.
  { unfold result_at, elem. destruct (Z.ltb_spec (Z.of_nat i) 0); [lia|]. by rewrite Nat2Z.id, Hr. }
  destruct (H (Z.of_nat i)) as (El & Em & Eg & _); [apply lookup_lt_Some in Hr; unfold table_size, GSM_CHANNEL_COUNT in *; lia|].
  unfold level in El. destruct (result_at_ok (scan_results (g_scan s)) (Z.of_nat i) sound_levels) as (? & ? & ?).
  unfold result_ok. by rewrite El, Em, Eg.
Qed.
Lemma results_defined results : table_size results ->
  mapM (elem results) build_channel_scan_order = Some (map (result_at results) build_channel_scan_order).
Proof.
  intros Hl. assert (Forall (fun c => 0 <= c < GSM_CHANNEL_COUNT) build_channel_scan_order) as H.
  { apply Forall_forall. intros c Hc. by apply scan_channels_index. }
  induction build_channel_scan_order as [|c order IH]; [done|]. apply Forall_cons in H as [Hc H].
  cbn [mapM map]. by rewrite elem_result, IH.
Qed.
Definition all_measured (results : list channel_scan_result) : Prop :=
  forall c, c ∈ build_channel_scan_order -> measurements (result_at results c) <> 0.
Lemma unmeasured_exists results :
  existsb (fun result => measurements result ==? 0) (map (result_at results) build_channel_scan_order) = false -> all_measured results.
Proof.
  intros H c Hc E. assert (existsb (fun result => measurements result ==? 0) (map (result_at results) build_channel_scan_order) = true) as H'; [|congruence].
  apply existsb_exists. exists (result_at results c). split; [by apply in_map, list_elem_of_In|by apply Z.eqb_eq].
Qed.
(** A channel without a result. *)
Definition some_unmeasured (results : list channel_scan_result) : Prop :=
  exists c, c ∈ build_channel_scan_order /\ measurements (result_at results c) = 0.
Lemma exists_unmeasured results :
  existsb (fun result => measurements result ==? 0) (map (result_at results) build_channel_scan_order) = true -> some_unmeasured results.
Proof. intros (r & (c & <- & Hc)%in_map_iff & E%Z.eqb_eq)%existsb_exists. exists c. split; [by apply list_elem_of_In|done]. Qed.
Lemma measured_exists results : all_measured results ->
  existsb (fun result => measurements result ==? 0) (map (result_at results) build_channel_scan_order) = false.
Proof.
  intros H. apply not_true_iff_false. intros (r & (c & <- & Hc)%in_map_iff & E%Z.eqb_eq)%existsb_exists. by apply (H c); [apply list_elem_of_In|].
Qed.
(** What a scan hands out: the results it is chosen from are the receiver's but for the exclusions. *)
Definition surveyed (capacity : Z) (found : list gsm_l1_candidate) (s : gsm) : Prop :=
  exists results, excluding (taken results found) results (scan_results (g_scan s)) /\ all_measured results /\
    (receiver_scan_state (g_scan s) = RECEIVER_SCAN_COMPLETE -> forall c, c ∈ build_channel_scan_order -> measurements (result_at results c) = 8) /\
    Z.of_nat (length found) <= capacity /\ well_chosen results (frequency_correction_hz (g_board s)) found /\
    (Z.of_nat (length found) < capacity -> forall c, audible results c -> taken results found c).
Section Result.
Context {D : Type} `{!Device D}.
#[local] Abbreviation M := (M D gsm).
(** After the wait. *)
Lemma wp_survey_result capacity s c Q f w : moves s c (w_app w) -> survey_inv c -> 0 <= capacity -> (971 < f)%nat ->
  (receiver_scan_state (k_scan c) <> RECEIVER_SCAN_COMPLETE -> some_unmeasured (scan_results (k_scan c)) -> Q (false, []) w) ->
  (forall found w', surveyed capacity found (w_app w') -> sound (w_app w') -> rest_of (w_app w') = rest_of s -> g_sch (w_app w') = k_sch c -> Q (true, found) w') ->
  wp total (s ← get_app;
    results ← defined (mapM (elem (scan_results (g_scan s))) (scan_channels (g_scan s)));
    if existsb (fun result => measurements result ==? 0) results then mret (false, [])
    else found ← select_candidates capacity; set_fcch_state FCCH_SCAN_IDLE;; mret (true, found) : M (bool * list gsm_l1_candidate)) Q f w.
Proof.
  intros (Hs & Ec & Er) [Hx Hinv] Hcap Hf HQ1 HQ2. assert (k_scan c = g_scan (w_app w)) as Ek by by rewrite <- Ec. rewrite Ek in *.
  apply wp_bind, wp_get_app. rewrite (sound_channels _ Hs). apply wp_bind. eapply wp_defined; [apply results_defined, Hs|].
  assert (receiver_scan_state (g_scan (w_app w)) = RECEIVER_SCAN_COMPLETE -> scan_measured (g_scan (w_app w))) as Hcom.
  { intros E. destruct Hinv as [?|[(_ & ? & _)|[_ [? _]]]]; [done|congruence..]. }
  destruct (existsb _ _) eqn:Ee.
  - apply wp_ret, HQ1; [|by apply exists_unmeasured]. intros E. assert (all_measured (scan_results (g_scan (w_app w)))) as Ha; [|by rewrite (measured_exists _ Ha) in Ee].
    intros x Hx'. by rewrite (proj2 (Hcom E) x Hx').
  - apply unmeasured_exists in Ee. apply wp_bind. eapply wp_select_candidates; [by split_and!; [apply Hs..|]|done|done|].
    intros found left w1 Hl (Hchosen & Hex & _) Hfull Es. unfold set_fcch_state, modify. wp_steps. apply HQ2; rewrite Es.
    + exists (scan_results (g_scan (w_app w))). split_and!; try done. intros E. apply (Hcom E).
    + pose proof (excluding_sound _ _ _ Hs Hex) as []. by split.
    + done.
    + by rewrite <- Ec.
Qed.
Lemma wp_scan_channels (poll : M unit) capacity timeout_ms f w :
  Polling poll -> dsp_measures (D := D) -> sound (w_app w) -> trx_initialized (w_app w) = true -> rt_poll (runtime (w_app w)) = true ->
  ticks_per_s (w_lib w) <> 0 -> scan_ready (g_loop (w_app w)) -> 0 < capacity -> (survey_frames < f)%nat ->
  wp total (gsm_l1_scan_channels poll true true capacity timeout_ms) (fun '(ok, found) w' =>
    sound (w_app w') /\ rest_of (w_app w') = rest_of (w_app w) /\
    if ok : bool then surveyed capacity found (w_app w') /\ sch_scan_state (g_sch (w_app w')) = SCH_SCAN_IDLE
    else found = [] /\ some_unmeasured (scan_results (g_scan (w_app w'))) /\ receiver_scan_state (g_scan (w_app w')) <> RECEIVER_SCAN_COMPLETE) f w.
Proof.
  intros Hpolls Hd Hs Htrx Hpoll Ht Hready Hcap Hf. unfold gsm_l1_scan_channels. apply wp_bind, wp_get_app. rewrite Htrx.
  destruct (Z.eqb_spec capacity 0); [lia|]. simpl negb. cbn [orb]. cbv iota.
  rewrite (sound_channels _ Hs). pose proof (moves_refl _ Hs) as Hm. revert Hm Hs Htrx Hpoll Hready. generalize (w_app w) at 1 2 4 5 6 7 8 as s0.
  intros s0 Hm Hs Htrx Hpoll Hready.
  ticked_step. apply wp_bind. eapply wp_ticks; [repeat keeps_step|exact Ht|clear Ht].
  eapply wp_reset_results; [exact Hm|]. clear Hm w. intros results w Hfresh Hm Ht. apply wp_bind.
  eapply wp_ticks; [repeat keeps_step|exact Ht|clear Ht]. eapply wp_in_scan; [exact Hm|done|]. clear Hm w. intros w Hm Ht.
  set (c := set_scan _ _) in Hm. apply wp_bind.
  assert (survey_inv c) as Hinv.
  { split; [intros x Hx; cbn; by rewrite Hfresh|]. right. left. split; [exact Hready|]. split; [done|]. intros x Hx. cbn. by rewrite Hfresh. }
  eapply (wp_survey_wait poll s0 c); [done|exact Hm|done|done|done| |].
  { eapply Nat.le_lt_trans; [|exact Hf]. unfold survey_left, survey_frames. cbn. unfold scan_calls, TPU_RF_QUIET_FRAME_COUNT.
    destruct Hready as [[-> Ht0]| ->]; lia. }
  clear Hm Ht Hinv. intros c' w' Hinv Esch Hm. eapply wp_survey_result; [exact Hm|done|lia|unfold survey_frames in Hf; lia| |].
  - intros Hne Hun. split; [apply Hm|]. split; [apply Hm|]. split; [done|]. by rewrite (moves_scan_of _ _ _ Hm).
  - intros found w2 ? ? ? E. split_and!; try done. by rewrite E, Esch.
Qed.
(** C7. The scan of the bands ends, and finds what there is.  The time processor interrupts at
    every poll, after what the program does there, which leaves the receiver alone, and every read
    of a monitor's result finds a value (one that is 0 is not counted).  The receiver is
    initialized, and its loop is ready for a scan: in its phase after the initialization or in the
    one a scan leaves, so there was no search or reception since ([scan_does_not_begin] is what
    happens after one).  Then [gsm_l1_scan_channels] comes back after at most 4206 frames, without an
    access outside of a table.  If it was not cut short by its time, every channel of the bands
    was measured exactly eight times, and it succeeds.  If it was, it succeeds exactly if there are
    results of all of the channels: when it fails, one of them has none.  The candidates of
    a success are at most [capacity] channels, none twice, the louder ones first, not drowned by one
    before, and if there was room then every channel at -111 dBm or more is in the list or drowned
    by one that is.  The receiver's state is sound. *)
Theorem channels_scanned (serve : M unit) (capacity timeout_ms : Z) (f : nat) (w : world D gsm) :
  harmless serve -> dsp_measures (D := D) -> sound (w_app w) -> trx_initialized (w_app w) = true -> rt_poll (runtime (w_app w)) = true ->
  ticks_per_s (w_lib w) <> 0 -> scan_ready (g_loop (w_app w)) -> 0 < capacity -> (survey_frames < f)%nat ->
  wp total (gsm_l1_scan_channels (polled serve) true true capacity timeout_ms) (fun '(ok, found) w' =>
    sound (w_app w') /\ rest_of (w_app w') = rest_of (w_app w) /\
    if ok : bool then surveyed capacity found (w_app w')
    else found = [] /\ some_unmeasured (scan_results (g_scan (w_app w'))) /\ receiver_scan_state (g_scan (w_app w')) <> RECEIVER_SCAN_COMPLETE) f w.
Proof.
  intros Hserve Hd Hs Htrx Hpoll Ht Hready Hcap Hf. pose proof (polled_polling serve Hserve).
  eapply wp_mono; [by apply wp_scan_channels|]. intros [[] found] w'; [|done]. by intros (? & ? & ? & _).
Qed.
End Result.
Lemma channels_scanned_witness :
  let w := World (D := unit) tt ∅ [] lib_ticking ready_gsm in
  wp total (@gsm_l1_scan_channels unit no_device (@polled unit no_device (mret tt)) true true 5 10000) (fun '(ok, found) w' =>
    sound (w_app w') /\ rest_of (w_app w') = rest_of (w_app w) /\
    if ok : bool then surveyed 5 found (w_app w')
    else found = [] /\ some_unmeasured (scan_results (g_scan (w_app w'))) /\ receiver_scan_state (g_scan (w_app w')) <> RECEIVER_SCAN_COMPLETE) 4300%nat w.
Proof.
  intros w. apply (channels_scanned (Device0 := no_device) (mret tt) 5 10000 4300 w);
    [apply harmless_ret|intros d i Hi; by vm_compute|exact ready_sound|done|done|done|by left|lia|unfold survey_frames; lia].
Defined.
