(* ===== verification/GsmProgram.v ===== *)
(** * The GSM channel scan ([unit/dsp/hle/gsm-channel-scan.c])

    The program around layer 1 of the receiver: it scans the bands, searches the candidates for
    a base station's frequency-correction burst, probes the largest gain and receives the
    synchronisation burst, and reports with the unit-test library.  It has the receiver's and
    the library's variables ([zoom]); the interrupt of the time processor is taken in the poll
    that it gives to layer 1. *)
From S2P Require Import Prelude Machine Board Regs Stopwatch Wdt Timeout Smbus TestLib GsmRegs GsmChannel GsmTrx GsmCalib GsmBoard GsmLoad Dsp GsmState GsmL1 GsmFrame GsmSelect GsmQuiet GsmScan GsmControl GsmWait GsmTimed GsmSearch GsmDecode GsmSurvey.
Import Regs.Pmb8876.

Definition CHANNEL_SCAN_TIMEOUT_MS : Z := 60000.
Definition L1_COMMAND_TIMEOUT_MS : Z := 100.
Definition FCCH_CANDIDATE_TIMEOUT_MS : Z := 1000.
Definition SCH_CANDIDATE_TIMEOUT_MS : Z := 40000.
Definition GSM_SCAN_CANDIDATE_COUNT : Z := 128.
Definition GSM_GAIN_STEP_MASK : Z := 0x3F.
Definition GSM_MAX_GAIN_STEP : Z := 45.

(** The statics: the receiver's, the unit-test library's and the program's. *)
Record program := Program {
  p_gsm : gsm; p_tests : tests;
  candidates : list gsm_l1_candidate; fcch_results : list gsm_l1_fcch_result; candidate_count : Z }.
Definition with_gsm v (s : program) : program := Program v (p_tests s) (candidates s) (fcch_results s) (candidate_count s).
Definition with_tests v (s : program) : program := Program (p_gsm s) v (candidates s) (fcch_results s) (candidate_count s).
Definition with_candidates found (s : program) : program :=
  Program (p_gsm s) (p_tests s) (found ++ drop (length found) (candidates s)) (fcch_results s) (Z.of_nat (length found)).
Definition with_fcch_result (i : Z) v (s : program) : program :=
  Program (p_gsm s) (p_tests s) (candidates s) (<[Z.to_nat i := v]> (fcch_results s)) (candidate_count s).

Definition gsm_band_get_name (band : gsm_band) : string :=
  match band with
  | GSM_BAND_900 => "GSM900" | GSM_BAND_DCS1800 => "DCS1800" | GSM_BAND_PCS1900 => "PCS1900" | GSM_BAND_850 => "GSM850"
  | GSM_BAND_COUNT => "unknown"
  end.
Definition round_dbm_x16 (dbm_x16 : Z) : Z :=
  if dbm_x16 <? 0 then - Z.quot (- dbm_x16 + Z.quot MON_RAW_VALUES_PER_DB 2) MON_RAW_VALUES_PER_DB
  else Z.quot (dbm_x16 + Z.quot MON_RAW_VALUES_PER_DB 2) MON_RAW_VALUES_PER_DB.
Definition with_maximum_gain (c : gsm_l1_candidate) : gsm_l1_candidate :=
  Candidate (c_band c) (c_channel_index c) (c_arfcn c) ((c_gain_state c .& u16 (Z.lnot GSM_GAIN_STEP_MASK)) .| GSM_MAX_GAIN_STEP)
    (c_rx_level_dbm_x16 c) (c_afc_frequency_hz c).

(** A part's operation, in the whole. *)
Definition zoom {D A P R} (get : P -> A) (put : A -> P -> P) (m : M D A R) : M D P R := fun f w =>
  match m f (World (w_dev w) (w_mem w) (w_log w) (w_lib w) (get (w_app w))) with
  | Done r w' => Done r (World (w_dev w') (w_mem w') (w_log w') (w_lib w') (put (w_app w') (w_app w)))
  | Stop c w' => Stop c (World (w_dev w') (w_mem w') (w_log w') (w_lib w') (put (w_app w') (w_app w)))
  end.

Section Code.
Context {D : Type} `{!Device D} `{B : Board} `{Hw : !I2cHw D gsm} `{TestBuild}.
Context (printf : forall A, message -> M D A unit) (BOARD_NAME : string) (DSP_USER_ROMS : list dsp_user_rom).
#[local] Abbreviation M := (M D program).
Definition in_gsm {R} (m : Machine.M D gsm R) : M R := zoom p_gsm with_gsm m.
Definition in_tests {R} (m : Machine.M D tests R) : M R := zoom p_tests with_tests m.
Definition print (format : string) (args : list printf_arg) : M unit := printf program (format +:+ NL, args).
Definition set_candidates (found : list gsm_l1_candidate) : M unit := s ← get_app; put_app (with_candidates found s).
Definition set_fcch_result (i : Z) (v : gsm_l1_fcch_result) : M unit := s ← get_app; put_app (with_fcch_result i v s).

(** What [poll_l1_runtime] calls, [test_watchdog_serve], is [wdt_serve]. *)
Definition poll_l1_runtime : Machine.M D gsm unit := wdt_serve.
Definition irq_handler : Machine.M D gsm unit :=
  irq_number ← rd32 VIC_IRQ_CURRENT;
  when (irq_number ==? VIC_TPU_INT0_IRQ) gsm_l1_tpu_irq;;
  wr32 VIC_IRQ_ACK 1.
(** The poll and the interrupt meanwhile. *)
Definition runtime_poll : Machine.M D gsm unit := poll_l1_runtime;; irq_handler.
Definition L1_RUNTIME : gsm_l1_runtime := Runtime true L1_COMMAND_TIMEOUT_MS.

Definition scan_channels : M bool :=
  wdt_set_max_execution_time CHANNEL_SCAN_TIMEOUT_MS;;
  '(ok, found) ← in_gsm (gsm_l1_scan_channels runtime_poll true true GSM_SCAN_CANDIDATE_COUNT CHANNEL_SCAN_TIMEOUT_MS);
  set_candidates found;;
  if negb ok then mret false
  else
    s ← get_app;
    print "# GSM_SCAN,candidates=%lu" [PNum (candidate_count s)];;
    mret true.
(** [gsm_l1_search_fcch(candidate, &result, FCCH_CANDIDATE_TIMEOUT_MS)] with the limit before it. *)
Definition limited_search (candidate : gsm_l1_candidate) : M (bool * option gsm_l1_fcch_result) :=
  wdt_set_max_execution_time FCCH_CANDIDATE_TIMEOUT_MS;;
  in_gsm (gsm_l1_search_fcch runtime_poll (Some candidate) true FCCH_CANDIDATE_TIMEOUT_MS).
(** The common arguments of the reports. *)
Definition candidate_args (i : Z) (c : gsm_l1_candidate) : list printf_arg :=
  [PNum (i + 1); PText (gsm_band_get_name (c_band c)); PNum (c_arfcn c)].
Definition search_args (i : Z) (c : gsm_l1_candidate) (r : gsm_l1_fcch_result) : list printf_arg :=
  candidate_args i c ++ [PNum (round_dbm_x16 (c_rx_level_dbm_x16 c)); PNum (c_gain_state c); PNum (lf_attempt_count r);
    PNum (f_status (lf_result r)); PNum (f_start (lf_result r)); PNum (f_quality (lf_result r)); PNum (f_rms (lf_result r));
    PNum (f_frequency (lf_result r))].
Definition search_fcch : M bool :=
  s ← get_app;
  let count := candidate_count s in
  r ← foldE (fun '(detected_candidates, windows) i =>
    s ← get_app;
    candidate ← defined (elem (candidates s) i);
    '(ok, result) ← limited_search candidate;
    match result with Some result => set_fcch_result i result | None => mret tt end;;
    if negb ok then mret (inr false)
    else
      s ← get_app;
      result ← defined (elem (fcch_results s) i);
      let windows := u32 (windows + lf_attempt_count result) in
      if negb (lf_detected result) then mret (inl (detected_candidates, windows))
      else
        print ("# FCCH,candidate=%lu,band=%s,arfcn=%lu,rx_level_dbm=%ld,gain_state=%04lX,windows=%lu,status=%lu,start=%lu," +:+
               "quality=%lu,rms=%ld,frequency=%ld,phase_tick=%lu,afc_frequency=%ld,com=%04lX")
          (search_args i candidate result ++ [PNum (lf_phase_tick result); PNum (lf_afc_frequency_hz result);
             PNum (f_communication_flags (lf_result result))]);;
        mret (inl (u32 (detected_candidates + 1), windows))) (0, 0) (seqZ 0 count);
  match r with
  | inr completed => mret completed
  | inl (detected_candidates, windows) =>
      when ((detected_candidates ==? 0) && (count !=? 0)) (
        let i := count - 1 in
        s ← get_app;
        candidate ← defined (elem (candidates s) i);
        result ← defined (elem (fcch_results s) i);
        print ("# FCCH_MISS,candidate=%lu,band=%s,arfcn=%lu,rx_level_dbm=%ld,gain_state=%04lX,windows=%lu,status=%lu," +:+
               "start=%lu,quality=%lu,rms=%ld,frequency=%ld,com=%04lX")
          (search_args i candidate result ++ [PNum (f_communication_flags (lf_result result))]));;
      print "# FCCH_STATS,candidates=%lu,windows=%lu,detected_candidates=%lu" [PNum count; PNum windows; PNum detected_candidates];;
      mret true
  end.
Definition probe_maximum_gain_fcch : M bool :=
  s ← get_app;
  r ← foldE (fun (_ : unit) i =>
    s ← get_app;
    known ← defined (elem (fcch_results s) i);
    if negb (lf_detected known) then mret (inl tt)
    else
      candidate ← defined (elem (candidates s) i);
      let candidate := with_maximum_gain candidate in
      '(ok, result) ← limited_search candidate;
      match ok, result with
      | true, Some result =>
          print "# FCCH_GAIN_PROBE,band=%s,arfcn=%lu,gain_state=%04lX,detected=%lu,windows=%lu,status=%lu,rms=%ld"
            [PText (gsm_band_get_name (c_band candidate)); PNum (c_arfcn candidate); PNum (c_gain_state candidate);
             PNum (if lf_detected result then 1 else 0); PNum (lf_attempt_count result); PNum (f_status (lf_result result)); PNum (f_rms (lf_result result))];;
          mret (inr true)
      | _, _ => mret (inr false)
      end) tt (seqZ 0 (candidate_count s));
  mret (match r with inr completed => completed | inl _ => false end).
Definition limited_decode (candidate : gsm_l1_candidate) (fcch : gsm_l1_fcch_result) : M (bool * option gsm_l1_sch_result) :=
  wdt_set_max_execution_time SCH_CANDIDATE_TIMEOUT_MS;;
  in_gsm (gsm_l1_decode_sch runtime_poll (Some candidate) (Some fcch) true SCH_CANDIDATE_TIMEOUT_MS).
(** The loop's variables: the two counts, [last_result] and [last_candidate]. *)
Definition decode_sch : M bool :=
  s ← get_app;
  r ← foldE (fun '(attempted_candidates, decoded_candidates, last_result, last_candidate) i =>
    s ← get_app;
    candidate ← defined (elem (candidates s) i);
    fcch ← defined (elem (fcch_results s) i);
    if negb (lf_detected fcch) then mret (inl (attempted_candidates, decoded_candidates, last_result, last_candidate))
    else
      let attempted_candidates := u32 (attempted_candidates + 1) in
      '(ok, result) ← limited_decode candidate fcch;
      match ok, result with
      | true, Some result =>
          if negb (ls_decoded result) then mret (inl (attempted_candidates, decoded_candidates, result, i))
          else
            print ("# SCH,candidate=%lu,band=%s,arfcn=%lu,attempts=%lu,refinement_attempts=%lu,status=%lu," +:+
                   "metric=%lu,data=%08lX,position=%ld,bsic=%lu,ncc=%lu,bcc=%lu,frame=%lu,com=%04lX")
              (candidate_args i candidate ++ [PNum (ls_attempt_count result); PNum (ls_refinement_attempt_count result); PNum (ls_status result);
                 PNum (ls_metric result); PNum (ls_data result); PNum (ls_equalizer_position result); PNum (ls_bsic result);
                 PNum (ls_bsic result .>> 3); PNum (ls_bsic result .& 7); PNum (ls_frame_number result); PNum (ls_communication_flags result)]);;
            mret (inl (attempted_candidates, u32 (decoded_candidates + 1), result, i))
      | _, _ => mret (inr false)
      end) (0, 0, L1Sch false 0 0 0 0 0 0 0 0 0, 0) (seqZ 0 (candidate_count s));
  match r with
  | inr completed => mret completed
  | inl (attempted_candidates, decoded_candidates, last_result, last_candidate) =>
      when ((decoded_candidates ==? 0) && (attempted_candidates !=? 0)) (
        s ← get_app;
        candidate ← defined (elem (candidates s) last_candidate);
        print ("# SCH_MISS,candidate=%lu,band=%s,arfcn=%lu,attempts=%lu,refinement_attempts=%lu,status=%lu," +:+ "metric=%lu,position=%ld,com=%04lX")
          (candidate_args last_candidate candidate ++ [PNum (ls_attempt_count last_result); PNum (ls_refinement_attempt_count last_result);
             PNum (ls_status last_result); PNum (ls_metric last_result); PNum (ls_equalizer_position last_result);
             PNum (ls_communication_flags last_result)]));;
      print "# SCH_STATS,candidates=%lu,decoded_candidates=%lu" [PNum attempted_candidates; PNum decoded_candidates];;
      mret (decoded_candidates !=? 0)
  end.

(** [test_check(name, condition)], and the line with the time of a stage. *)
Definition check (name : string) (condition : bool) : M bool := in_tests (test_check (printf tests) name condition).
Definition stage_time (stage : string) (start : Z) : M unit :=
  elapsed ← stopwatch_elapsed_ms start;
  print ("# STAGE_TIME,stage=" +:+ stage +:+ ",elapsed_ms=%lu") [PNum elapsed].
Definition main : M Z :=
  in_tests (test_start (printf tests) "GSM channel scan");;
  in_tests (test_category (printf tests) "Receiver setup");;
  start ← stopwatch_get;
  ready ← in_gsm (gsm_l1_baseband_init runtime_poll (printf gsm) BOARD_NAME DSP_USER_ROMS (Some L1_RUNTIME));
  receiver_ready ← check "Baseband receive path initializes once" ready;
  transceiver_ready ← (if receiver_ready : bool then
    ready ← in_gsm (gsm_l1_trx_init runtime_poll); check "RF transceiver initializes through TPU control RAM" ready else mret false);
  stage_time "receiver_setup" start;;
  in_tests (test_category (printf tests) "GSM channel scan");;
  start ← stopwatch_get;
  scan_completed ← (if transceiver_ready : bool then scan_channels else mret false);
  _ ← check "All supported GSM bands scan" scan_completed;
  stage_time "channel_scan" start;;
  in_tests (test_category (printf tests) "FCCH and AFC");;
  start ← stopwatch_get;
  fcch_completed ← (if scan_completed : bool then search_fcch else mret false);
  _ ← check "FCCH scan completes" fcch_completed;
  gain_probe_completed ← (if fcch_completed : bool then probe_maximum_gain_fcch else mret false);
  _ ← check "Maximum-gain FCCH probe completes" gain_probe_completed;
  stage_time "fcch_scan" start;;
  in_tests (test_category (printf tests) "SCH and BSIC");;
  start ← stopwatch_get;
  sch_completed ← (if fcch_completed : bool then decode_sch else mret false);
  _ ← check "SCH decodes for at least one FCCH candidate" sch_completed;
  stage_time "sch_scan" start;;
  in_gsm gsm_l1_deinit;;
  in_tests (test_finish (printf tests)).
End Code.

(** ** A part in the whole *)
Section Zoom.
Context {D A P : Type} `{!Device D} (get : P -> A) (put : A -> P -> P).
Definition part_of (w : world D P) : world D A := World (w_dev w) (w_mem w) (w_log w) (w_lib w) (get (w_app w)).
Definition whole (w : world D P) (w' : world D A) : world D P := World (w_dev w') (w_mem w') (w_log w') (w_lib w') (put (w_app w') (w_app w)).
Lemma wp_zoom {R} E (m : M D A R) Q f w :
  wp (fun c w' => E c (whole w w')) m (fun r w' => Q r (whole w w')) f (part_of w) -> wp E (zoom get put m) Q f w.
Proof. unfold wp, zoom. fold (part_of w). by destruct (m f (part_of w)). Qed.
Lemma forward_zoom {R} `{!StmTimer D} (m : M D A R) : forward m -> forward (zoom get put m).
Proof. intros H f w. unfold zoom. specialize (H f (part_of w)). fold (part_of w). by destruct (m f (part_of w)). Qed.
End Zoom.

(** ** The poll *)
Section Poll.
Context {D : Type} `{!Device D} `{B : Board}.
Lemma keeps_update_lib {A X} (g : lib_state -> A -> X) (h : lib_state -> lib_state) : (forall l s, g (h l) s = g l s) ->
  keeps g (l ← get_lib; put_lib (h l) : M D A unit).
Proof. intros H f w. apply H. Qed.
Lemma keeps_wdt_serve {A} : keeps (fun l s => (ticks_per_s l, s)) (wdt_serve : M D A unit).
Proof.
  assert (keeps (fun l s => (ticks_per_s l, s)) (note_wdt_serve : M D A unit)) as Hnote.
  { apply keeps_bind; [repeat keeps_step|]. intros now. by apply keeps_update_lib. }
  unfold wdt_serve. repeat first [exact Hnote|keeps_step].
Qed.
Lemma harmless_serve : harmless (poll_l1_runtime : M D gsm unit).
Proof. split; [apply keeps_wdt_serve|]. intros f w Ht. by apply (wp_wdt_serve (fun _ => True)). Qed.
(** The interrupt is the time processor's. *)
Definition tpu_interrupts : Prop :=
  forall d, port_wrap (Mmio 32 VIC_IRQ_CURRENT) (fst (dev_read (Mmio 32 VIC_IRQ_CURRENT) d)) = VIC_TPU_INT0_IRQ.
Lemma runtime_polling : tpu_interrupts -> Polling (runtime_poll : M D gsm unit).
Proof.
  intros Hirq. split.
  - apply keeps_bind; [apply harmless_ticks, harmless_serve|]. intros _. unfold irq_handler, keeps_ticks. repeat keeps_step.
  - intros s c Q f w Hm Ht HQ. apply wp_bind. destruct harmless_serve as [Hk Htot]. eapply wp_keeps; [exact Hk|]. eapply wp_mono; [by apply Htot|].
    intros [] w1 _ [= _ Es]. rewrite <- Es in Hm. unfold irq_handler. apply wp_bind, wp_rd. intros v d Er.
    pose proof (Hirq (w_dev w1)) as Ev. rewrite Er in Ev. simpl fst in Ev. rewrite Ev. simpl when.
    apply wp_bind. eapply wp_irq; [exact Hm|]. intros c' w2 Hstep Hm2. apply wp_wr. by eapply HQ.
Qed.
End Poll.

(** ** The searches *)
(** What the program's scan and searches leave of the receiver. *)
Record receiver_ready (g : gsm) : Prop := ReceiverReady {
  ready_is_sound : sound g;
  ready_trx : trx_initialized g = true;
  ready_poll : rt_poll (runtime g) = true;
  ready_search : searchable (g_scan g) (g_sch g);
}.
(** A candidate that layer 1 accepts. *)
Definition acceptable (c : gsm_l1_candidate) : Prop := (exists range, find_scan_range (c_channel_index c) = Some range) /\ gain_state_ok (c_gain_state c).
Lemma maximum_gain_acceptable c : acceptable c -> acceptable (with_maximum_gain c).
Proof.
  intros [Hr (Hg & Hrange & Hstep)]. split; [done|]. unfold gain_state_ok, gsm_trx_get_gain_state_range, gsm_trx_get_gain_state_step, with_maximum_gain in *.
  cbn [c_gain_state] in *. set (g := c_gain_state c) in *. change (u16 (Z.lnot GSM_GAIN_STEP_MASK)) with 0xFFC0.
  rewrite Z.shiftr_lor, Z.shiftr_land, !Z.land_lor_distr_l, <- !Z.land_assoc. change (GSM_MAX_GAIN_STEP .>> 6) with 0.
  change ((0xFFC0 .>> 6) .& 0x03) with 3. change (0xFFC0 .& 0x3F) with 0. rewrite Z.land_0_l, Z.lor_0_r, Z.land_0_r. split_and!; [| |done|done].
  - apply Z.lor_nonneg. split; [|done]. apply Z.land_nonneg. by right.
  - apply (lor_range 16); [done| |done]. pose proof (land_range_r g 0xFFC0 ltac:(lia)). lia.
Qed.
Lemma surveyed_acceptable capacity found g : sound g -> surveyed capacity found g -> Forall acceptable found.
Proof.
  intros Hs (results & [_ Hex] & _ & _ & _ & [Hchosen _] & _). apply Forall_lookup. intros i c Hi.
  destruct (Hchosen i c Hi) as ([Hc _] & ((range & Er & _) & _ & Eg & _) & _). split; [by exists range|].
  destruct (Hex (c_channel_index c)) as (_ & _ & E & _); [by apply scan_channels_index|]. rewrite Eg, <- E. apply result_at_ok, Hs.
Qed.

(** The candidates are [found], and there is room for their results. *)
Record held (found : list gsm_l1_candidate) (s : program) : Prop := Held {
  held_count : candidate_count s = Z.of_nat (length found);
  held_candidates : take (length found) (candidates s) = found;
  held_results : (length found <= length (fcch_results s))%nat;
}.
Lemma held_candidate found s k : held found s -> (k < length found)%nat -> exists c, found !! k = Some c /\ elem (candidates s) (Z.of_nat k) = Some c.
Proof.
  intros [_ Hc _] Hk. destruct (lookup_lt_is_Some_2 found k Hk) as [c Hi]. exists c. split; [done|].
  unfold elem. destruct (Z.ltb_spec (Z.of_nat k) 0); [lia|]. rewrite Nat2Z.id. rewrite <- Hc in Hi. by apply lookup_take_Some in Hi as [? _].
Qed.
Lemma held_result found s k : held found s -> (k < length found)%nat ->
  exists r, elem (fcch_results s) (Z.of_nat k) = Some r /\ r ∈ take (length found) (fcch_results s).
Proof.
  intros [_ _ Hr] Hk. destruct (lookup_lt_is_Some_2 (fcch_results s) k) as [r Hi]; [lia|]. exists r. split.
  - unfold elem. destruct (Z.ltb_spec (Z.of_nat k) 0); [lia|]. by rewrite Nat2Z.id.
  - apply (list_elem_of_lookup_2 _ k). by rewrite lookup_take_lt.
Qed.
Lemma index_of_prefix (n : nat) (done todo : list Z) i : seqZ 0 (Z.of_nat n) = done ++ i :: todo -> i = Z.of_nat (length done) /\ (length done < n)%nat.
Proof. intros Hseq. assert (seqZ 0 (Z.of_nat n) !! length done = Some i) as H%lookup_seqZ by (rewrite Hseq; by apply list_lookup_middle). lia. Qed.
Lemma candidate_at found s (done todo : list Z) i : held found s -> seqZ 0 (Z.of_nat (length found)) = done ++ i :: todo -> Forall acceptable found ->
  i = Z.of_nat (length done) /\ (length done < length found)%nat /\ exists c, elem (candidates s) i = Some c /\ acceptable c.
Proof.
  intros Hs Hseq Hok. destruct (index_of_prefix _ _ _ _ Hseq) as [-> Hlt].
  split_and!; [done|done|]. destruct (held_candidate _ _ _ Hs Hlt) as (c & Hi & Ec). exists c. split; [done|by eapply Forall_lookup_1].
Qed.

(** [printf] comes back, and leaves the variables alone. *)
Definition prints {D} `{!Device D} (f : nat) (printf : forall A, message -> M D A unit) : Prop := forall A msg Q (w : world D A),
  (forall w', w_app w' = w_app w -> w_lib w' = w_lib w -> Q tt w') -> wp total (printf A msg) Q f w.

Section Searches.
Context {D : Type} `{!Device D, !StmTimer D} `{B : Board}.
Lemma keeps_ticks_scan (poll : M D gsm unit) timeout_ms capacity : Polling poll -> keeps_ticks (gsm_l1_scan_channels poll true true capacity timeout_ms).
Proof. intros [Hp _]. unfold keeps_ticks in *. repeat first [exact Hp|keeps_step]. Qed.
Lemma uses_runtime_poll : uses (fun _ => True) (runtime_poll : M D gsm unit).
Proof.
  apply uses_bind; [by apply uses_wdt_serve|]. intros _. unfold irq_handler.
  apply uses_bind; [apply uses_rd, I|]. intros n. apply uses_bind; [|intros _; by apply uses_wr]. destruct (_ ==? _); [apply uses_irq|apply uses_ret].
Qed.
Lemma forward_runtime_poll : forward (runtime_poll : M D gsm unit).
Proof. eapply forward_uses, uses_runtime_poll. Qed.
Lemma wp_set_limit {A} ms E Q f (w : world D A) : (forall w', w_app w' = w_app w -> ticks_per_s (w_lib w') = ticks_per_s (w_lib w) -> Q tt w') ->
  wp E (wdt_set_max_execution_time ms) Q f w.
Proof. intros HQ. unfold wdt_set_max_execution_time, stopwatch_get. wp_steps. by apply HQ. Qed.
Context (Hirq : tpu_interrupts (D := D)) (f : nat) (T : Z) (HT : 0 <= T < 0x10000000000000000) (tps : Z) (Htps : 1000 <= tps).
Definition fits (ms : Z) : Prop := 0 <= ms /\ timeout_ticks ms tps + 2 < Z.of_nat f.
Context (Hfits : fits FCCH_CANDIDATE_TIMEOUT_MS).
#[local] Abbreviation E := (@unless_late D program _ _ T).
(** Time, and that a command's time is over in time. *)
Definition on_time (w : world D program) : Prop := timely T tps w /\ fits (command_timeout_ms (runtime (p_gsm (w_app w)))).
Lemma wp_limited_search c Q (w : world D program) : receiver_ready (p_gsm (w_app w)) -> acceptable c -> on_time w ->
  (forall ok result g w', search_outcome ok result -> receiver_ready g -> w_app w' = with_gsm g (w_app w) -> on_time w' -> Q (ok, result) w') ->
  wp E (limited_search c) Q f w.
Proof.
  intros [] [[range Hr] Hg] [[Hn Ht] Hconfig] HQ. apply wp_bind.
  eapply wp_mono; [apply wp_forward; [eapply (forward_uses (fun _ => True)); uses_deep|by apply (wp_set_limit _ _ (fun _ w' => w_app w' = w_app w /\ ticks_per_s (w_lib w') = ticks_per_s (w_lib w)))]|].
  intros [] w1 [[Ea Et] Hn1]. rewrite <- Ea in *. rewrite Ht in Et. apply wp_zoom.
  eapply wp_mono_E; [eapply wp_mono; [apply (wp_search_fcch runtime_poll c range FCCH_CANDIDATE_TIMEOUT_MS T f (part_of p_gsm w1))|]|done].
  all: try done; try (by apply runtime_polling); try (by apply forward_runtime_poll); cbn [part_of w_lib w_app]; rewrite ?Et; try done.
  - change (T <= now w1). lia.
  - intros [ok result] w2 (Ho & _ & Hs & Er & Hsearch & [Hn2 Ht2]). unfold rest_of in Er. injection Er as _ Ert _ _ Etrx _. cbn [part_of w_app w_lib] in *.
    apply (HQ ok result (w_app w2)); [done|split; simpl in *; congruence|done|]. split; [split; [done|simpl in *; congruence]|]. simpl in *. by rewrite Ert.
Qed.

(** *** The program's loops *)
Context (printf : forall A, message -> M D A unit) (Hprintf : prints f printf) (Hforward : forall A msg, forward (printf A msg)).
(** The receiver is ready, the tables hold the candidates [found]. *)
Record holding (found : list gsm_l1_candidate) (w : world D program) : Prop := Holding {
  holding_gsm : receiver_ready (p_gsm (w_app w));
  holding_time : on_time w;
  holding_tables : held found (w_app w);
}.
Definition found_results (n : nat) (s : program) : Prop := Forall result_found (take n (fcch_results s)).
Lemma holding_printed found (w w' : world D program) : holding found w -> w_app w' = w_app w -> w_lib w' = w_lib w -> now w <= now w' -> holding found w'.
Proof. intros [? [[? ?] ?] ?] Ea El Hn. split; unfold on_time, timely; rewrite ?Ea, ?El; try done. split; [split; [lia|done]|done]. Qed.
Lemma holding_searched found w w' g : holding found w -> receiver_ready g -> w_app w' = with_gsm g (w_app w) -> on_time w' -> holding found w'.
Proof. intros [_ _ []] Hg E Ht. by split; rewrite ?E. Qed.
Lemma wp_set_fcch_result found k r Q (w : world D program) : holding found w -> (k < length found)%nat -> found_results k (w_app w) -> result_found r ->
  (forall w', holding found w' -> found_results (S k) (w_app w') -> elem (fcch_results (w_app w')) (Z.of_nat k) = Some r -> Q tt w') ->
  wp E (set_fcch_result (Z.of_nat k) r) Q f w.
Proof.
  intros [? ? []] Hk Hall Hr HQ. unfold set_fcch_result. wp_steps. unfold found_results in *. apply HQ.
  - split; [done|done|]. by split; simpl; rewrite ?length_insert.
  - simpl. rewrite Nat2Z.id. erewrite take_S_r by (apply list_lookup_insert_eq; lia). rewrite take_insert_ge by lia. apply Forall_app. by split; [|apply Forall_singleton].
  - simpl. unfold elem. destruct (Z.ltb_spec (Z.of_nat k) 0); [lia|]. rewrite Nat2Z.id. apply list_lookup_insert_eq. lia.
Qed.
Lemma wp_print format args found Q (w : world D program) : holding found w ->
  (forall w', holding found w' -> w_app w' = w_app w -> Q tt w') -> wp E (print printf format args) Q f w.
Proof.
  intros Hw HQ. eapply wp_mono; [apply wp_forward; [apply Hforward|eapply wp_mono_E; [by apply (Hprintf _ _ (fun _ w' => w_app w' = w_app w /\ w_lib w' = w_lib w))|done]]|].
  intros [] w' [[Ea El] Hn]. apply HQ; [by eapply holding_printed|done].
Qed.
Lemma wp_search_candidates found Q (w : world D program) : holding found w -> Forall acceptable found ->
  (forall completed w', holding found w' -> (completed = true -> found_results (length found) (w_app w')) -> Q completed w') ->
  wp E (search_fcch printf) Q f w.
Proof.
  intros Hw Hok HQ. unfold search_fcch. apply wp_bind, wp_get_app. rewrite (held_count _ _ (holding_tables _ _ Hw)). apply wp_bind.
  eapply (wp_foldE _ _ (fun done _ w' => holding found w' /\ found_results (length done) (w_app w'))); [split; [done|by apply Forall_nil]| |].
  - clear Hw w. intros before i todo [detected windows] w Hseq (Hw & Hall). destruct (candidate_at _ _ _ _ _ (holding_tables _ _ Hw) Hseq Hok) as (-> & Hlt & c & Ec & Hc).
    apply wp_bind, wp_get_app, wp_bind. eapply wp_defined; [exact Ec|]. apply wp_bind, wp_limited_search; [apply Hw|done|apply Hw|].
    intros ok result g w1 Ho Hg Ea Ht. pose proof (holding_searched _ _ _ _ Hw Hg Ea Ht) as Hw1. assert (found_results (length before) (w_app w1)) as Hall1 by by rewrite Ea.
    destruct ok; simpl negb; [destruct Ho as (r & -> & Hr)|rewrite Ho].
    2: { apply wp_bind. unfold set_fcch_result. wp_steps. apply HQ; [|done]. destruct Hw1 as [? ? []]. split; [done|done|]. by split; simpl; rewrite ?length_insert. }
    apply wp_bind. eapply wp_set_fcch_result; [exact Hw1|done|done|done|]. intros w2 Hw2 Hall2 Er. cbv iota. apply wp_bind, wp_get_app, wp_bind.
    eapply wp_defined; [exact Er|]. destruct (lf_detected r); simpl negb; cbv iota zeta; [|apply wp_ret; rewrite length_app, Nat.add_1_r; done].
    apply wp_bind. eapply wp_print; [exact Hw2|]. intros w3 Hw3 Ea3. apply wp_ret. rewrite length_app, Nat.add_1_r. split; [done|by rewrite Ea3].
  - clear Hw w. intros [detected windows] w (Hw & Hall). rewrite length_seqZ, Nat2Z.id in Hall. apply wp_bind.
    assert (forall w', holding found w' -> w_app w' = w_app w -> wp E (print printf "# FCCH_STATS,candidates=%lu,windows=%lu,detected_candidates=%lu"
      [PNum (Z.of_nat (length found)); PNum windows; PNum detected];; mret true) Q f w') as Hend.
    { intros w' Hw' Ea. apply wp_bind. eapply wp_print; [exact Hw'|]. intros w2 Hw2 Ea2. apply wp_ret, HQ; [done|]. intros _. by rewrite Ea2, Ea. }
    destruct (_ && _) eqn:Emiss; [|by apply wp_ret, Hend]. apply andb_true_iff in Emiss as [_ Hn].
    assert (Z.of_nat (length found) - 1 = Z.of_nat (length found - 1)) as -> by (apply negb_true_iff, Z.eqb_neq in Hn; lia).
    assert (length found - 1 < length found)%nat as Hlt by (apply negb_true_iff, Z.eqb_neq in Hn; lia).
    destruct (held_candidate _ _ _ (holding_tables _ _ Hw) Hlt) as (c & _ & Ec). destruct (held_result _ _ _ (holding_tables _ _ Hw) Hlt) as (r & Er & _).
    apply wp_bind, wp_get_app, wp_bind. eapply wp_defined; [exact Ec|]. apply wp_bind. eapply wp_defined; [exact Er|].
    eapply wp_print; [exact Hw|]. intros w2 Hw2 Ea2. by apply Hend.
Qed.
(** The probe of the largest gain: one more search, for the first candidate that was found. *)
Lemma wp_probe found Q (w : world D program) : holding found w -> Forall acceptable found -> found_results (length found) (w_app w) ->
  (forall completed w', holding found w' -> fcch_results (w_app w') = fcch_results (w_app w) ->
     (completed = true -> Exists (fun r => lf_detected r = true) (take (length found) (fcch_results (w_app w)))) -> Q completed w') ->
  wp E (probe_maximum_gain_fcch printf) Q f w.
Proof.
  intros Hw Hok Hall HQ. unfold probe_maximum_gain_fcch. apply wp_bind, wp_get_app. rewrite (held_count _ _ (holding_tables _ _ Hw)). apply wp_bind.
  eapply (wp_foldE _ _ (fun _ _ w' => w' = w)); [done| |].
  - intros before i todo [] w1 Hseq ->. destruct (candidate_at _ _ _ _ _ (holding_tables _ _ Hw) Hseq Hok) as (-> & Hlt & c & Ec & Hc).
    destruct (held_result _ _ _ (holding_tables _ _ Hw) Hlt) as (r & Er & Hin). apply wp_bind, wp_get_app, wp_bind. eapply wp_defined; [exact Er|].
    destruct (lf_detected r) eqn:Edet; simpl negb; cbv iota; [|by apply wp_ret]. apply wp_bind. eapply wp_defined; [exact Ec|]. cbv zeta.
    apply wp_bind, wp_limited_search; [apply Hw|by apply maximum_gain_acceptable|apply Hw|]. intros ok result g w2 Ho Hg Ea Ht.
    pose proof (holding_searched _ _ _ _ Hw Hg Ea Ht) as Hw2.
    destruct ok; [destruct Ho as (r' & -> & _)|apply wp_ret, wp_ret, HQ; [done|by rewrite Ea|done]].
    apply wp_bind. eapply wp_print; [exact Hw2|]. intros w3 Hw3 Ea3. apply wp_ret, wp_ret, HQ; [done|by rewrite Ea3, Ea|]. intros _.
    apply Exists_exists. by exists r.
  - intros [] w1 ->. by apply wp_ret, HQ.
Qed.
End Searches.

(** ** The program's run *)
Section Run.
Context {D : Type} `{!Device D, !StmTimer D} `{B : Board}.
(** The initialization is over, and the tables have their sizes. *)
Record receiving (s : program) : Prop := Receiving {
  receiving_sound : sound (p_gsm s);
  receiving_trx : trx_initialized (p_gsm s) = true;
  receiving_poll : rt_poll (runtime (p_gsm s)) = true;
  receiving_loop : scan_ready (g_loop (p_gsm s));
  receiving_candidates : length (candidates s) = 128%nat;
  receiving_results : length (fcch_results s) = 128%nat;
}.
Lemma forward_scan_channels (printf : forall A, message -> M D A unit) : (forall A msg, forward (printf A msg)) -> forward (scan_channels printf).
Proof.
  intros Hp. pose proof uses_runtime_poll as Hpoll. apply forward_bind; [eapply (forward_uses (fun _ => True)); uses_deep|]. intros _.
  apply forward_bind; [apply forward_zoom, (forward_uses (fun _ => True)); repeat first [exact Hpoll|uses_deep_step]|]. intros [ok found].
  apply forward_bind; [apply (forward_uses (fun _ => True)); uses_deep|]. intros _. destruct ok; simpl negb; cbv iota; [|intros f w; apply Z.le_refl].
  apply forward_bind; [intros f w; apply Z.le_refl|]. intros s. apply forward_bind; [apply Hp|]. intros _ f w. apply Z.le_refl.
Qed.
(** What the program's scan came to. *)
Definition scanned_program (found : option (list gsm_l1_candidate)) (s : program) : Prop :=
  let complete := receiver_scan_state (g_scan (p_gsm s)) = RECEIVER_SCAN_COMPLETE in
  if found is Some found then
    surveyed GSM_SCAN_CANDIDATE_COUNT found (p_gsm s) /\ Forall acceptable found /\ (complete -> receiver_ready (p_gsm s)) /\ held found s
  else candidate_count s = 0 /\ some_unmeasured (scan_results (g_scan (p_gsm s))) /\ ~ complete.
Lemma wp_scan_program (printf : forall A, message -> M D A unit) Q f (w : world D program) :
  tpu_interrupts (D := D) -> dsp_measures (D := D) -> prints f printf -> receiving (w_app w) -> ticks_per_s (w_lib w) <> 0 -> (survey_frames < f)%nat ->
  (forall found w', scanned_program found (w_app w') ->
   runtime (p_gsm (w_app w')) = runtime (p_gsm (w_app w)) -> ticks_per_s (w_lib w') = ticks_per_s (w_lib w) -> Q (bool_decide (is_Some found)) w') ->
  wp total (scan_channels printf) Q f w.
Proof.
  intros Hirq Hd Hp [] Ht Hf HQ. apply wp_bind, wp_set_limit. intros w1 Ea Et. rewrite <- Ea in *. rewrite <- Et in *. apply wp_bind, wp_zoom.
  pose proof (runtime_polling Hirq) as Hpolls. eapply (wp_keeps _ _ _ _ _ _ (keeps_ticks_scan _ _ _ Hpolls)).
  eapply wp_mono; [by apply wp_scan_channels|]. intros [ok found] w2 (Hs & Er & Hok) Et2. unfold rest_of in Er. injection Er as _ Ert _ _ Etrx _.
  unfold set_candidates. wp_steps. destruct ok; simpl negb; cbv iota.
  - destruct Hok as [Hfound Hsch]. pose proof (surveyed_acceptable _ _ _ Hs Hfound) as Hacc. pose proof Hfound as (_ & _ & _ & _ & Hlen & _).
    wp_steps. apply Hp. intros w' Ea' El'. unfold GSM_SCAN_CANDIDATE_COUNT in Hlen. apply wp_ret, (HQ (Some found)); rewrite ?Ea', ?El'; [|exact Ert|exact Et2].
    split; [exact Hfound|]. split; [done|]. split.
    + intros Hc. simpl in *. split; [done|congruence|congruence|]. split; [exact Hc|]. by rewrite Hsch.
    + split; simpl in *; [done|by rewrite take_app_length|lia].
  - destruct Hok as (-> & Hun & Hne). by apply wp_ret, (HQ None).
Qed.
(** C9. The program's stages fit together: what its scan hands out is what its searches need.
    The program's own poll serves the watchdog and takes the time processor's interrupt, which is
    pending at every poll; every read of a monitor's result finds a value, and [printf] comes back.
    The receiver is as the initialization leaves it: its loop is ready for a scan, so there was no
    search or reception since ([scan_ready]).  Then [scan_channels] ends.  A scan that fails leaves
    no candidates, and there is a channel without a result.  If it reports success after a scan
    that was not cut short, the table holds its candidates, all of which layer 1 accepts; then
    [search_fcch] ends, whatever the DSP answers to the searches, and if it never does, with their
    timeouts (unless the low word of the timer wraps meanwhile), without an access outside of the
    tables.  If it reports success there is a result for every candidate, each with one to twelve
    windows and a burst exactly if the DSP's last result is valid.  Then [probe_maximum_gain_fcch]
    ends as well, with a gain state that the transceiver has; it leaves the results alone, and it
    succeeds only if a burst was found. *)
Theorem candidates_searched (printf : forall A, message -> M D A unit) (f : nat) (w : world D program) :
  let tps := ticks_per_s (w_lib w) in
  tpu_interrupts (D := D) -> dsp_measures (D := D) -> prints f printf -> (forall A msg, forward (printf A msg)) ->
  receiving (w_app w) -> (survey_frames < f)%nat ->
  1000 <= tps -> 0 <= now w < 0x10000000000000000 -> fits f tps FCCH_CANDIDATE_TIMEOUT_MS -> fits f tps (command_timeout_ms (runtime (p_gsm (w_app w)))) ->
  wp (unless_late (now w)) (scan_channels printf) (fun scanned w1 => let complete := receiver_scan_state (g_scan (p_gsm (w_app w1))) = RECEIVER_SCAN_COMPLETE in
    if scanned : bool then exists found, surveyed GSM_SCAN_CANDIDATE_COUNT found (p_gsm (w_app w1)) /\ (complete -> held found (w_app w1) /\
      wp (unless_late (now w)) (search_fcch printf) (fun searched w2 => held found (w_app w2) /\ receiver_ready (p_gsm (w_app w2)) /\
        (searched = true -> found_results (length found) (w_app w2) /\
         wp (unless_late (now w)) (probe_maximum_gain_fcch printf) (fun probed w3 => held found (w_app w3) /\ receiver_ready (p_gsm (w_app w3)) /\
           fcch_results (w_app w3) = fcch_results (w_app w2) /\
           (probed = true -> Exists (fun r => lf_detected r = true) (take (length found) (fcch_results (w_app w3))))) f w2)) f w1)
    else candidate_count (w_app w1) = 0 /\ some_unmeasured (scan_results (g_scan (p_gsm (w_app w1)))) /\ ~ complete) f w.
Proof.
  intros tps Hirq Hd Hp Hfwd Hw Hf Htps HT Hfits Hconfig.
  assert (wp total (scan_channels printf) (fun scanned w1 => exists found, (scanned_program found (w_app w1) /\
    runtime (p_gsm (w_app w1)) = runtime (p_gsm (w_app w)) /\ ticks_per_s (w_lib w1) = tps) /\ scanned = bool_decide (is_Some found)) f w) as Hscan.
  { apply wp_scan_program; try done; [lia|]. intros found w1 H1 H2 H3. by exists found. }
  eapply wp_mono; [apply wp_forward; [by apply forward_scan_channels|eapply wp_mono_E; [exact Hscan|done]]|].
  intros scanned w1 [(found & (Hfound & Ert & Et) & ->) Hn]. destruct found as [found|]; [|exact Hfound].
  rewrite bool_decide_true by done. destruct Hfound as (Hfound & Hok & Hready & Hheld). exists found. split; [done|]. intros Hc. split; [done|].
  assert (holding f (now w) tps found w1) as Hw1 by (split; [by apply Hready|split; [by split|by rewrite Ert]|done]).
  eapply wp_search_candidates; [done..|]. intros searched w2 Hw2 Hall. split; [apply Hw2|]. split; [apply Hw2|]. intros Hsearched. specialize (Hall Hsearched). split; [done|].
  eapply wp_probe; [done..|]. intros probed w3 Hw3 E Hprobed. split_and!; [apply Hw3|apply Hw3|done|]. by rewrite E.
Qed.
End Run.

(** ** The reception of the synchronisation bursts *)
Section Bursts.
Context {D : Type} `{!Device D, !StmTimer D} `{B : Board}.
Context (Hirq : tpu_interrupts (D := D)) (f : nat) (T : Z) (HT : 0 <= T < 0x10000000000000000) (tps : Z) (Htps : 1000 <= tps).
Context (Hsch : timeout_ticks SCH_CANDIDATE_TIMEOUT_MS tps + 2 < Z.of_nat f).
Context (printf : forall A, message -> M D A unit) (Hprintf : prints f printf) (Hforward : forall A msg, forward (printf A msg)).
Context (found : list gsm_l1_candidate) (Hok : Forall acceptable found) (results : list gsm_l1_fcch_result).
(** The receiver is sound, whatever the last reception came to. *)
Record decoding (w : world D program) : Prop := Decoding {
  decoding_now : T <= now w;
  decoding_ticks : ticks_per_s (w_lib w) = tps;
  decoding_sound : sound (p_gsm (w_app w));
  decoding_trx : trx_initialized (p_gsm (w_app w)) = true;
  decoding_config : let ms := command_timeout_ms (runtime (p_gsm (w_app w))) in 0 <= ms /\ timeout_ticks ms tps + 2 < Z.of_nat f;
  decoding_tables : held found (w_app w);
  decoding_results : fcch_results (w_app w) = results;
}.
#[local] Abbreviation E := (@unless_late D program _ _ T).
Lemma wp_decoding_print format args Q (w : world D program) : decoding w -> (forall w', decoding w' -> Q tt w') -> wp E (print printf format args) Q f w.
Proof.
  intros [] HQ. eapply wp_mono; [apply wp_forward; [apply Hforward|eapply wp_mono_E; [by apply (Hprintf _ _ (fun _ w' => w_app w' = w_app w /\ w_lib w' = w_lib w))|done]]|].
  intros [] w' [[Ea El] Hn]. apply HQ. split; rewrite ?Ea, ?El; try done. lia.
Qed.
Lemma wp_decode_candidate c r Q (w : world D program) : decoding w -> acceptable c -> lf_detected r = true ->
  (forall ok result w', decoding w' -> Q (ok, Some result) w') ->
  wp E (limited_decode c r) Q f w.
Proof.
  intros [] [[range Hr] Hg] Hdet HQ. apply wp_bind. eapply wp_mono; [apply wp_forward; [eapply (forward_uses (fun _ => True)); uses_deep|by apply (wp_set_limit _ _ (fun _ w' => w_app w' = w_app w /\ ticks_per_s (w_lib w') = ticks_per_s (w_lib w)))]|].
  intros [] w1 [[Ea Et] Hn]. rewrite <- Ea in *. apply wp_zoom.
  eapply wp_mono_E; [eapply wp_mono; [apply (wp_decode_sch runtime_poll c r range SCH_CANDIDATE_TIMEOUT_MS T f (part_of p_gsm w1))|]|done].
  all: try done; try (by apply runtime_polling); try (by apply forward_runtime_poll); cbn [part_of w_lib w_app]; rewrite ?Et, ?decoding_ticks0.
  - done.
  - change (T <= now w1). lia.
  - by split.
  - exact decoding_config0.
  - intros [ok result] w2 ((r' & -> & _) & Hs & Er & Hn2 & Ht2). unfold rest_of in Er. injection Er as _ Ert _ _ Etrx _. cbn [part_of w_app] in *.
    apply HQ. split; cbn [whole w_lib w_app with_gsm p_gsm fcch_results]; try done; [simpl in *; congruence|simpl in *; rewrite Ert; exact decoding_config0|].
    by destruct decoding_tables0.
Qed.
(** What the loop has counted. *)
Definition counted (attempted decoded last : Z) : Prop :=
  (attempted <> 0 -> exists k, (k < length found)%nat /\ last = Z.of_nat k) /\
  (decoded <> 0 -> Exists (fun r => lf_detected r = true) (take (length found) results)).
Lemma wp_decode_stage Q (w : world D program) : decoding w ->
  (forall decoded w', decoding w' -> (decoded = true -> Exists (fun r => lf_detected r = true) (take (length found) results)) -> Q decoded w') ->
  wp E (decode_sch printf) Q f w.
Proof.
  intros Hw HQ. unfold decode_sch. apply wp_bind, wp_get_app. rewrite (held_count _ _ (decoding_tables _ Hw)). apply wp_bind.
  eapply (wp_foldE _ _ (fun _ '(attempted, decoded, _, last) w' => decoding w' /\ counted attempted decoded last)); [by split| |].
  - clear Hw w. intros before i todo [[[attempted decoded] result] last] w Hseq (Hw & Hlast & Hdec).
    destruct (candidate_at _ _ _ _ _ (decoding_tables _ Hw) Hseq Hok) as (-> & Hlt & c & Ec & Hc).
    destruct (held_result _ _ _ (decoding_tables _ Hw) Hlt) as (r & Er & Hin). rewrite (decoding_results _ Hw) in Hin.
    apply wp_bind, wp_get_app, wp_bind. eapply wp_defined; [exact Ec|]. apply wp_bind. eapply wp_defined; [exact Er|].
    destruct (lf_detected r) eqn:Edet; simpl negb; cbv iota zeta; [|by apply wp_ret].
    assert (Exists (fun r => lf_detected r = true) (take (length found) results)) as Hex by (apply Exists_exists; by exists r).
    assert (forall n m, counted n m (Z.of_nat (length before))) as Hcounted by (intros n m; split; [by exists (length before)|done]).
    apply wp_bind, wp_decode_candidate; [done..|]. intros ok result' w1 Hw1. destruct ok; [|by apply wp_ret, HQ].
    destruct (ls_decoded result'); simpl negb; cbv iota; [|by apply wp_ret].
    apply wp_bind, wp_decoding_print; [done|]. intros w2 Hw2. by apply wp_ret.
  - clear Hw w. intros [[[attempted decoded] result] last] w (Hw & Hlast & Hdec). apply wp_bind.
    assert (forall w', decoding w' -> wp E (print printf "# SCH_STATS,candidates=%lu,decoded_candidates=%lu" [PNum attempted; PNum decoded];;
      mret (decoded !=? 0)) Q f w') as Hend.
    { intros w' Hw'. apply wp_bind, wp_decoding_print; [done|]. intros w2 Hw2. apply wp_ret, HQ; [done|]. intros Hd%negb_true_iff%Z.eqb_neq. by apply Hdec. }
    destruct (_ && _) eqn:Emiss; [|by apply wp_ret, Hend]. apply andb_true_iff in Emiss as [_ Hn%negb_true_iff%Z.eqb_neq].
    destruct (Hlast Hn) as (k & Hk & ->). destruct (held_candidate _ _ _ (decoding_tables _ Hw) Hk) as (c & _ & Ec).
    apply wp_bind, wp_get_app, wp_bind. eapply wp_defined; [exact Ec|]. by apply wp_decoding_print.
Qed.
End Bursts.

(** ** The verdict *)
Section Verdict.
Context {D : Type} `{!Device D} `{B : Board} `{Hw : !I2cHw D gsm} `{TestBuild}.
Context (printf : forall A, message -> M D A unit) (Hprintf : forall A msg, keeps (fun _ s => s) (printf A msg)).
#[local] Abbreviation M := (M D program).
Lemma keeps_all {A R X} (g : A -> X) (m : Machine.M D A R) : keeps (fun _ s => s) m -> keeps (fun _ => g) m.
Proof. intros H' f w. specialize (H' f w). destruct (m f w); congruence. Qed.
Lemma keeps_in_gsm {R X} (g : program -> X) (m : Machine.M D gsm R) : (forall v s, g (with_gsm v s) = g s) -> keeps (fun _ => g) (in_gsm m).
Proof. intros Hg f w. unfold in_gsm, zoom. destruct (m _ _); apply Hg. Qed.
Lemma keeps_in_tests {R X} (g : program -> X) (m : Machine.M D tests R) : (forall v s, g (with_tests v s) = g s) -> keeps (fun _ => g) (in_tests m).
Proof. intros Hg f w. unfold in_tests, zoom. destruct (m _ _); apply Hg. Qed.
Lemma keeps_part {R} (m : Machine.M D tests R) : keeps (fun _ s => s) m -> keeps (fun _ s => s) (in_tests m).
Proof. intros Hm f w. specialize (Hm f (part_of p_tests w)). unfold in_tests, zoom. fold (part_of p_tests w). destruct (m f (part_of p_tests w)); simpl in *; rewrite Hm; by destruct (w_app w). Qed.
Lemma keeps_foldE {A X Y R S} (g : A -> S) (body : X -> Y -> Machine.M D A (X + R)) x l : (forall x y, keeps (fun _ => g) (body x y)) -> keeps (fun _ => g) (foldE body x l).
Proof. intros Hb. revert x. induction l as [|y l IH]; intros x; simpl; [done|]. apply keeps_bind; [done|]. by intros []. Qed.
(** The searches do not report to the library. *)
Ltac program_step :=
  lazymatch goal with
  | |- keeps _ (printf _ _) => apply keeps_all, Hprintf
  | |- keeps _ (in_gsm _) => by apply keeps_in_gsm
  | |- keeps _ (alloc _ _) => done
  | |- keeps _ (defined ?o) => unfold defined; destruct o
  | |- keeps _ (foldE _ _ _) => apply keeps_foldE
  | |- keeps _ (match ?x with _ => _ end _) => destruct x
  | _ => keeps_step
  end.
Lemma keeps_stages : keeps (fun _ => p_tests) (scan_channels printf) /\ keeps (fun _ => p_tests) (search_fcch printf) /\
  keeps (fun _ => p_tests) (probe_maximum_gain_fcch printf) /\ keeps (fun _ => p_tests) (decode_sch printf).
Proof. split_and!; repeat program_step. Qed.

(** [wp may_stop]: what is so if the program comes back. *)
Definition may_stop {A} (_ : cause) (_ : world D A) : Prop := True.
Lemma wp_may_stop {A R} (m : Machine.M D A R) Q f w : (forall r w', m f w = Done r w' -> Q r w') -> wp may_stop m Q f w.
Proof. intros HQ. unfold wp. destruct (m f w) eqn:E; [by apply HQ|done]. Qed.
Lemma wp_kept {A R X} (g : A -> X) (m : Machine.M D A R) Q f w : keeps (fun _ => g) m -> (forall r w', g (w_app w') = g (w_app w) -> Q r w') -> wp may_stop m Q f w.
Proof. intros Hm HQ. apply wp_may_stop. intros r w' E. specialize (Hm f w). rewrite E in Hm. by apply HQ. Qed.
Definition base_station (s : program) : Prop :=
  exists r, r ∈ take (Z.to_nat (candidate_count s)) (fcch_results s) /\ lf_detected r = true.
Definition found_of (s : program) := (candidate_count s, fcch_results s).
Lemma base_station_of s s' : found_of s' = found_of s -> base_station s -> base_station s'.
Proof. unfold base_station, found_of. by intros [= -> ->]. Qed.
Lemma detected_base_station s before i todo r : seqZ 0 (candidate_count s) = before ++ i :: todo -> elem (fcch_results s) i = Some r -> lf_detected r = true ->
  base_station s.
Proof.
  intros Hseq Er Hr. assert (seqZ 0 (candidate_count s) !! length before = Some i) as [-> Hlt]%lookup_seqZ by (rewrite Hseq; by apply list_lookup_middle).
  exists r. split; [|done]. unfold elem in Er. destruct (Z.ltb_spec (0 + Z.of_nat (length before)) 0); [done|]. eapply list_elem_of_lookup_2.
  rewrite lookup_take_lt; [exact Er|lia].
Qed.
Lemma decode_detected Q f w : (forall decoded w', p_tests (w_app w') = p_tests (w_app w) -> (decoded = true -> base_station (w_app w')) -> Q decoded w') ->
  wp may_stop (decode_sch printf) Q f w.
Proof.
  intros HQ. eapply wp_keeps; [apply keeps_stages|]. unfold decode_sch. apply wp_bind, wp_get_app, wp_bind.
  eapply (wp_foldE _ _ (fun _ '(_, decoded, _, _) w' => found_of (w_app w') = found_of (w_app w) /\ (decoded <> 0 -> base_station (w_app w)))); [done| |].
  - intros before i todo [[[attempted decoded] result] last] w1 Hseq (E1 & Hdec). apply wp_bind, wp_get_app, wp_bind.
    destruct (elem (candidates (w_app w1)) i) as [c|]; [|done]. apply wp_ret, wp_bind. destruct (elem (fcch_results (w_app w1)) i) as [r|] eqn:Er; [|done].
    apply wp_ret. destruct (lf_detected r) eqn:Edet; simpl negb; cbv iota zeta; [|by apply wp_ret].
    assert (base_station (w_app w)) as Hb by (eapply detected_base_station; [exact Hseq| |exact Edet]; unfold found_of in E1; congruence).
    apply wp_bind. eapply (wp_kept found_of); [repeat program_step|]. intros [ok result'] w2 E2. rewrite E1 in E2.
    destruct ok, result' as [result'|]; try (apply wp_ret, wp_ret; intros Et; by apply HQ).
    destruct (negb _); [by apply wp_ret|]. apply wp_bind. eapply (wp_kept found_of); [repeat program_step|]. intros [] w3 E3. apply wp_ret. split; [congruence|done].
  - intros [[[attempted decoded] result] last] w1 (E1 & Hdec). apply wp_bind, (wp_kept found_of); [repeat program_step|]. intros [] w2 E2.
    apply wp_bind, (wp_kept found_of); [repeat program_step|]. intros [] w3 E3. apply wp_ret. intros Et. apply HQ; [done|].
    intros Hd%negb_true_iff%Z.eqb_neq. apply (base_station_of (w_app w)); [congruence|by apply Hdec].
Qed.
(** *** The library's counts *)
(** The library's variables after checks of which [n] at most failed. *)
Definition failed (n : Z) (s : program) : Prop := 0 <= failures (p_tests s) <= n.
Lemma wp_check name (b : bool) n Q f w : failed n (w_app w) -> 0 <= n < 1000 ->
  (forall w', failed (n + 1) (w_app w') -> (b = false -> 0 < failures (p_tests (w_app w'))) -> found_of (w_app w') = found_of (w_app w) -> Q b w') ->
  wp may_stop (check printf name b) Q f w.
Proof.
  intros Hn Hb HQ. apply wp_zoom, (wp_mono_E may_stop); [|done]. unfold test_check, report, count_assertion. apply wp_bind, wp_bind, wp_bind, wp_get_app, wp_bind, wp_put_app, wp_ret.
  apply wp_bind, (wp_kept (fun s => s)); [apply Hprintf|]. intros [] w1 E1. unfold failed in *.
  assert (forall w2, found_of (w_app w) = found_of (w_app (whole with_tests w w2)) -> failures (w_app w2) = failures (p_tests (w_app w)) + (if b then 0 else 1) ->
    wp may_stop reset_timeout (fun _ => wp may_stop (mret b) (fun r w' => Q r (whole with_tests w w')) f) f w2) as Hend.
  { intros w2 Ef Ek. apply (wp_kept (fun s => s)); [repeat keeps_step|]. intros [] w3 E3. apply wp_ret, HQ; cbn [whole w_app with_tests p_tests]; rewrite E3.
    - destruct b; lia.
    - intros ->. lia.
    - by rewrite Ef. }
  destruct b; simpl negb; simpl when; wp_steps.
  - apply Hend; cbn [whole w_app with_tests found_of]; rewrite E1; [done|simpl; lia].
  - apply wp_bind, wp_get_app, wp_put_app, wp_ret, wp_bind, Hend; [done|]. cbn [set_app w_app failures]. rewrite E1. simpl. rewrite u32_small; [done|unfold is_u32; lia].
Qed.
(** The other calls of the library. *)
Lemma keeps_reports stage start name : keeps (fun _ s => s) (stage_time printf stage start : M unit) /\ keeps (fun _ s => s) (in_tests (test_category (printf tests) name)).
Proof.
  split; [unfold stage_time; repeat program_step|]. apply keeps_part. unfold test_category. apply keeps_bind; [apply Hprintf|]. intros _. repeat keeps_step.
Qed.
Lemma wp_program_start name Q f w : (forall w', failed 0 (w_app w') -> Q tt w') -> wp may_stop (in_tests (test_start (printf tests) name) : M unit) Q f w.
Proof.
  intros HQ. apply wp_zoom, (wp_mono_E may_stop); [|done]. unfold test_start. apply wp_bind, wp_get_app, wp_bind, wp_put_app.
  eapply (wp_kept (fun s => failures s)); [repeat program_step|]. intros [] w1 E1. apply HQ. unfold failed. simpl in *. rewrite E1. done.
Qed.
Lemma wp_finish Q f w : (forall verdict w', w_app w' = w_app w -> verdict = (if failures (p_tests (w_app w)) ==? 0 then 0 else 1) -> Q verdict w') ->
  wp may_stop (in_tests (test_finish (printf tests)) : M Z) Q f w.
Proof.
  intros HQ. eapply (wp_keeps (fun _ s => s)); [apply keeps_part; repeat program_step|]. apply wp_zoom, (wp_mono_E may_stop); [|done]. unfold test_finish.
  apply wp_bind, wp_get_app, wp_bind, (wp_kept (fun s => s)); [apply Hprintf|]. intros [] w1 E1.
  apply wp_bind, wp_get_app, wp_bind, (wp_kept (fun s => s)); [apply Hprintf|]. intros [] w2 E2.
  apply wp_bind, (wp_kept (fun s => s)); [repeat program_step|]. intros [] w3 E3. apply wp_bind, wp_get_app, wp_ret. intros Ew. apply HQ; [done|].
  by rewrite E3, E2, E1.
Qed.
(** A stage that reports nothing. *)
Lemma wp_stage {R} (m : M R) n Q f w : keeps (fun _ => p_tests) m -> failed n (w_app w) -> (forall r w', failed n (w_app w') -> Q r w') -> wp may_stop m Q f w.
Proof. intros Hm Hn HQ. apply (wp_kept p_tests); [done|]. intros r w' E. apply HQ. unfold failed. by rewrite E. Qed.
Lemma wp_check_stage name b n Q f w : failed n (w_app w) -> 0 <= n < 1000 -> (forall w', failed (n + 1) (w_app w') -> Q b w') -> wp may_stop (check printf name b) Q f w.
Proof. intros Hn Hb HQ. eapply wp_check; [done..|]. auto. Qed.
(** The first stage: the initialization, with a check or two. *)
Lemma wp_transceiver (ready : bool) n Q f w : failed n (w_app w) -> 0 <= n < 999 -> (forall r w', failed (n + 1) (w_app w') -> Q r w') ->
  wp may_stop (if ready then r ← in_gsm (gsm_l1_trx_init runtime_poll); check printf "RF transceiver initializes through TPU control RAM" r else mret false : M bool) Q f w.
Proof.
  intros Hn Hb HQ. destruct ready; [|apply wp_ret, HQ; unfold failed in *; lia]. apply wp_bind. eapply wp_stage; [by apply keeps_in_gsm|exact Hn|].
  intros r w' Hn'. eapply wp_check_stage; [exact Hn'|lia|]. auto.
Qed.
(** The last stage: the bursts, their check and the end. *)
Lemma wp_last (fcch_completed : bool) start n Q f w : failed n (w_app w) -> 0 <= n < 1000 ->
  (forall verdict w', verdict = 0 \/ verdict = 1 -> (verdict = 0 -> base_station (w_app w')) -> Q verdict w') ->
  wp may_stop (completed ← (if fcch_completed then decode_sch printf else mret false);
    _ ← check printf "SCH decodes for at least one FCCH candidate" completed;
    stage_time printf "sch_scan" start;;
    in_gsm gsm_l1_deinit;;
    in_tests (test_finish (printf tests)) : M Z) Q f w.
Proof.
  intros Hn Hb HQ. apply wp_bind.
  assert (forall (completed : bool) w', failed n (w_app w') -> (completed = true -> base_station (w_app w')) ->
    wp may_stop (_ ← check printf "SCH decodes for at least one FCCH candidate" completed; stage_time printf "sch_scan" start;; in_gsm gsm_l1_deinit;;
      in_tests (test_finish (printf tests)) : M Z) Q f w') as Hend.
  { intros completed w1 H1 Hdec. apply wp_bind. eapply wp_check; [exact H1|done|]. intros w2 H2 Hfail Ef.
    apply wp_bind, (wp_kept (fun s => s)); [apply (keeps_reports _ _ "")|]. intros [] w3 E3.
    apply wp_bind, (wp_kept (fun s => (p_tests s, found_of s))); [by apply keeps_in_gsm|]. intros [] w4 [= Et Ec Er].
    apply wp_finish. intros verdict w5 E5 Ev. rewrite E3 in Et, Ec, Er. rewrite Et in Ev. apply HQ; [destruct (_ ==? 0); auto|]. intros ->.
    destruct (Z.eqb_spec (failures (p_tests (w_app w2))) 0) as [E0|]; [|done]. rewrite E5. apply (base_station_of (w_app w1)); [unfold found_of in *; congruence|].
    apply Hdec. destruct completed; [done|]. specialize (Hfail eq_refl). lia. }
  destruct fcch_completed; [|by apply wp_ret, Hend]. apply decode_detected. intros completed w1 Et Hdec. apply Hend; [|done]. unfold failed. by rewrite Et.
Qed.
End Verdict.

Section Success.
Context {D : Type} `{!Device D} `{B : Board} `{Hw : !I2cHw D gsm} `{TestBuild}.
Context (printf : forall A, message -> M D A unit) (BOARD_NAME : string) (DSP_USER_ROMS : list dsp_user_rom) (f : nat) (w : world D program).
(** A stage that reports nothing, or a line of its own. *)
Ltac stage Hp :=
  apply wp_bind; eapply wp_stage;
  [lazymatch goal with
   | |- keeps _ (in_tests _) => apply keeps_all, (keeps_reports _ Hp "" 0)
   | |- keeps _ (stage_time _ _ _) => apply keeps_all, (keeps_reports _ Hp _ _ "")
   | |- keeps _ (in_gsm _) => by apply keeps_in_gsm
   | |- keeps _ stopwatch_get => repeat keeps_step
   | |- keeps _ (if ?b then _ else _) => destruct b; [assumption|apply keeps_ret]
   end|eassumption|];
  lazymatch goal with Hk : failed _ (w_app ?w) |- _ => clear Hk; clear dependent w; let r := fresh "r" in intros r w Hk end.
(** The program reports success only if it found a base station.  Whatever the hardware
    does, and whichever stage fails or is left out, if [main] comes back its value is 0 or 1, and
    it is 0 only if one of the candidates has a frequency-correction burst in the table: every
    failed check is counted, and the last one fails unless a synchronisation burst was decoded
    for a candidate with such a result. *)
Theorem scan_verdict : (forall A msg, keeps (fun _ s => s) (printf A msg)) ->
  wp may_stop (main printf BOARD_NAME DSP_USER_ROMS) (fun verdict w' => (verdict = 0 \/ verdict = 1) /\ (verdict = 0 -> base_station (w_app w'))) f w.
Proof.
  intros Hp. unfold main. apply wp_bind, wp_program_start; [done|]. clear w. intros w Hk. destruct (keeps_stages printf Hp) as (Hscan & Hsearch & Hprobe & _).
  do 3 stage Hp. apply wp_bind. eapply wp_check_stage; [done|exact Hk|done|]. clear dependent w. intros w Hk.
  apply wp_bind. eapply wp_transceiver; [done|exact Hk|done|]. clear dependent w. intros transceiver_ready w Hk. do 4 stage Hp.
  apply wp_bind. eapply wp_check_stage; [done|exact Hk|done|]. clear dependent w. intros w Hk. do 4 stage Hp.
  apply wp_bind. eapply wp_check_stage; [done|exact Hk|done|]. clear dependent w. intros w Hk. do 1 stage Hp.
  apply wp_bind. eapply wp_check_stage; [done|exact Hk|done|]. clear dependent w. intros w Hk. do 3 stage Hp.
  eapply wp_last; [done|exact Hk|done|]. by intros.
Qed.
End Success.

Section Received.
Context {D : Type} `{!Device D, !StmTimer D} `{B : Board}.
(** C35. The program's last stage ends.  Whatever the DSP answers, and if it never does,
    [decode_sch] comes back for the candidates of a scan and any results of their searches, as
    every reception ends with its 40 seconds, unless the low word of the timer wraps meanwhile,
    where [stopwatch_get] can give a time that is too early.  The time processor's interrupt is
    pending at every poll, and [printf] comes back.  There is no access outside of a table, the
    receiver is sound, the tables are as they were, and it succeeds only if one of the candidates
    had a frequency-correction burst. *)
Theorem bursts_received (printf : forall A, message -> M D A unit) (found : list gsm_l1_candidate) (f : nat) (w : world D program) :
  let tps := ticks_per_s (w_lib w) in
  let fits ms := 0 <= ms /\ timeout_ticks ms tps + 2 < Z.of_nat f in
  tpu_interrupts (D := D) -> prints f printf -> (forall A msg, forward (printf A msg)) ->
  Forall acceptable found -> held found (w_app w) -> sound (p_gsm (w_app w)) -> trx_initialized (p_gsm (w_app w)) = true ->
  1000 <= tps -> 0 <= now w < 0x10000000000000000 -> fits SCH_CANDIDATE_TIMEOUT_MS -> fits (command_timeout_ms (runtime (p_gsm (w_app w)))) ->
  wp (unless_late (now w)) (decode_sch printf) (fun decoded w' =>
    sound (p_gsm (w_app w')) /\ held found (w_app w') /\ fcch_results (w_app w') = fcch_results (w_app w) /\
    (decoded = true -> Exists (fun r => lf_detected r = true) (take (length found) (fcch_results (w_app w))))) f w.
Proof.
  intros tps fits Hirq Hp Hfwd Hok Hheld Hs Htrx Htps Hnow [_ Hsch] Hconfig.
  apply (wp_decode_stage Hirq f (now w) Hnow tps Htps Hsch printf Hp Hfwd found Hok (fcch_results (w_app w))); [by split|].
  intros decoded w' [] Hdec. by split_and!.
Qed.
End Received.

(** ** A concrete run *)
(** The time goes on with every access, the interrupt is the time processor's, the rest is zero. *)
Definition scan_device : Device N :=
  {| dev_read p d := (if decide (p = Mmio 32 STM_TIM6) then Z.of_N d / 0x100000000
                      else if decide (p = Mmio 32 STM_TIM0) then Z.of_N d
                      else if decide (p = Mmio 32 VIC_IRQ_CURRENT) then VIC_TPU_INT0_IRQ else 0, (d + 1)%N);
     dev_write p v d := (d + 1)%N |}.
Definition scan_timer : @StmTimer _ scan_device.
Proof. refine {| stm_time (d : N) := Z.of_N d |}; intros; cbn [scan_device dev_read dev_write fst snd]; try lia; done. Defined.
Lemma scan_interrupts : @tpu_interrupts N scan_device.
Proof. intros d. reflexivity. Qed.
Definition silent (A : Type) (msg : message) : M N A unit := mret tt.
Definition idle_result : gsm_l1_fcch_result := L1Fcch false 0 zero_fcch 0 0.
Definition burst_result : gsm_l1_fcch_result := L1Fcch true 1 zero_fcch 0 0.
(** After the initialization, and after a search that found a burst. *)
Definition program_ready : program := Program ready_gsm (Tests 0 0 0) (replicate 128 candidate_10) (replicate 128 idle_result) 0.
Definition program_found : program := Program ready_gsm (Tests 0 0 0) (candidate_10 :: replicate 127 candidate_10) (burst_result :: replicate 127 idle_result) 1.
Lemma candidates_searched_witness :
  let w := World (D := N) 1000%N ∅ [] lib_ticking program_ready in let B := plain_board PMB8876 in
  wp (@unless_late _ _ scan_device scan_timer 1000) (@scan_channels N scan_device B silent) (fun scanned w1 =>
    let complete := receiver_scan_state (g_scan (p_gsm (w_app w1))) = RECEIVER_SCAN_COMPLETE in
    if scanned : bool then exists found, surveyed GSM_SCAN_CANDIDATE_COUNT found (p_gsm (w_app w1)) /\ (complete -> held found (w_app w1) /\
      wp (@unless_late _ _ scan_device scan_timer 1000) (@search_fcch N scan_device B silent) (fun searched w2 => held found (w_app w2) /\ receiver_ready (p_gsm (w_app w2)) /\
        (searched = true -> found_results (length found) (w_app w2) /\
         wp (@unless_late _ _ scan_device scan_timer 1000) (@probe_maximum_gain_fcch N scan_device B silent) (fun probed w3 => held found (w_app w3) /\
           receiver_ready (p_gsm (w_app w3)) /\ fcch_results (w_app w3) = fcch_results (w_app w2) /\
           (probed = true -> Exists (fun r => lf_detected r = true) (take (length found) (fcch_results (w_app w3))))) 4300%nat w2)) 4300%nat w1)
    else candidate_count (w_app w1) = 0 /\ some_unmeasured (scan_results (g_scan (p_gsm (w_app w1)))) /\ ~ complete) 4300%nat w.
Proof.
  intros w B. apply (@candidates_searched N scan_device scan_timer B silent 4300 w);
    [exact scan_interrupts|intros d i Hi; by vm_compute|intros A msg Q w' HQ; by apply wp_ret, HQ|intros A msg f' w'; apply Z.le_refl| |unfold survey_frames; lia|by vm_compute..].
  split; [exact ready_sound|done|done|by left|done|done].
Defined.
Lemma bursts_received_witness :
  let w := World (D := N) 1000%N ∅ [] lib_ticking program_found in
  let f := Z.to_nat 40100 in
  wp (@unless_late _ _ scan_device scan_timer 1000) (@decode_sch N scan_device (plain_board PMB8876) silent) (fun decoded w' =>
    sound (p_gsm (w_app w')) /\ held [candidate_10] (w_app w') /\ fcch_results (w_app w') = fcch_results (w_app w) /\
    (decoded = true -> Exists (fun r => lf_detected r = true) (take 1 (fcch_results (w_app w))))) f w.
Proof.
  intros w f. apply (@bursts_received N scan_device scan_timer (plain_board PMB8876) silent [candidate_10] f w);
    [exact scan_interrupts|intros A msg Q w' HQ; by apply wp_ret, HQ|intros A msg f' w'; apply Z.le_refl| |split; [done|done|simpl; lia]|exact ready_sound|done|done|done| |];
    [apply Forall_singleton; split; [by eexists|by vm_compute]| |]; unfold f; rewrite Z2Nat.id by done; by vm_compute.
Defined.
Lemma scan_verdict_witness :
  let B := plain_board PMB8876 in let T := {| test_color := false |} in
  let w := World (D := N) 1000%N ∅ [] lib_ticking program_ready in
  wp may_stop (main (Device0 := scan_device) (Hw := answer_bus 0x5A scan_device B) silent "siemens-el71" []) (fun verdict w' =>
    (verdict = 0 \/ verdict = 1) /\ (verdict = 0 -> base_station (w_app w'))) 4300%nat w.
Proof.
  intros B T w. apply (scan_verdict (Device0 := scan_device) (Hw := answer_bus 0x5A scan_device B) silent "siemens-el71" [] 4300 w). by intros A msg f' w'.
Defined.
