(* ===== verification/GsmLimits.v ===== *)
(** * Layer 1 of the GSM receiver: the interrupt, and where its state machines stay

    The interrupt [gsm_l1_tpu_irq] against the step of the state machines; the commands it waits
    for; and three states it does not leave as the foreground expects. *)
From S2P Require Import Prelude Machine Board Regs Stopwatch Timeout Smbus GsmRegs GsmChannel GsmTrx GsmCalib GsmBoard GsmLoad Dsp GsmState GsmL1 GsmFrame GsmSelect GsmQuiet GsmScan GsmControl GsmWait GsmTimed GsmSearch GsmSurvey.
Import Regs.Pmb8876.

(** ** The interrupt *)
Section Interrupt.
Context {D : Type} `{!Device D}.
(** C10. The interrupt of the time processor refines the step of the state machines.  From a sound
    state, whatever the hardware answers, [gsm_l1_tpu_irq] ends without an access outside of a
    table in a sound state; the candidate, the calibration and what the foreground configured are
    as before, and the variables of the loop, the scan, the search and the reception made one
    step. *)
Theorem interrupt_refines (f : nat) (w : world D gsm) : sound (w_app w) ->
  wp total gsm_l1_tpu_irq (fun _ w' => sound (w_app w') /\ rest_of (w_app w') = rest_of (w_app w) /\
    frame_step (D := D) (frame_begin (control_of (w_app w))) (control_of (w_app w'))) f w.
Proof.
  intros Hs. eapply wp_irq; [by apply moves_refl|]. intros c' w' Hstep (Hs' & -> & Er). by split_and!.
Qed.

(** ** The handshake *)
Definition handshake (c : control) : Prop := tpu_loop_phase (k_loop c) = TPU_LOOP_FCCH -> command_requested c -> waits c.
End Interrupt.
Section Handshake.
Context {D : Type} `{!Device D}.
Lemma handshake_frame busy r c : tpu_loop_phase (k_loop c) = TPU_LOOP_FCCH -> waits c \/ ~ command_requested c -> let c' := fcch_frame busy r c in
  handshake c' /\ (command_requested c -> k_fcch c' = k_fcch c).
Proof.
  destruct c as [l sc [st ph ? ? ? ? ? ? ? ?] sch]. unfold handshake, waits, command_requested, fcch_frame, fcch_collected, refinement_collected.
  cbn. intros Hl Hw. destruct ph, st; cbn in *; try (exfalso; destruct Hw as [[]|[]]; discriminate).
  all: repeat case_bool_decide; try tauto; cbn; try (split; [|tauto]; tauto).
  all: try (destruct busy, (is_fcch_result_valid r); cbn; try tauto; try (destruct (_ ==? _); cbn; try tauto)).
Qed.
Lemma handshake_begin c : handshake c -> handshake (frame_begin c).
Proof.
  unfold handshake, command_requested, waits. cbn [k_fcch frame_begin set_loop]. intros H Hl. apply H.
  unfold frame_begin in Hl. cbv zeta in Hl. cbn [k_loop set_loop] in Hl. by repeat case_match.
Qed.
Lemma handshake_search o hz c : tpu_loop_phase (k_loop c) = TPU_LOOP_SEARCH -> handshake (search_frame o hz c).
Proof.
  intros Hl. unfold search_frame, handshake. destruct (fst o); [cbn; congruence|]. case_bool_decide; [done|cbn; congruence].
Qed.
Lemma handshake_step c c' : handshake c -> frame_step (D := D) c c' ->
  handshake c' /\ (tpu_loop_phase (k_loop c) = TPU_LOOP_FCCH -> command_requested c -> k_fcch c' = k_fcch c).
Proof.
  intros Hc Hstep.
  destruct Hstep as [Hl|Hl Ht|Hl Ht Hq|o hz Hl Ht Hq Ho|o hz Hl Ho|busy r Hl Hb Hr|busy r Hl Hb|Hl Hq|Hl Hq|Hl]; try (split; [|congruence]); try (by intros ?); try done.
  - by apply handshake_search.
  - by apply handshake_search.
  - destruct (handshake_frame busy r c Hl) as [H1 H2]; [|by split].
    destruct (decide (served_state (fcch_scan_state (k_fcch c)) = fcch_scan_state (k_fcch c))) as [E|Hne]; [right; by intros []|left; by apply Hc].
  - unfold sch_frame. destruct (sch_tpu_phase (k_sch c)); [destruct busy| |done]; try (intros ?; cbn in *; congruence).
    cbv zeta. destruct (_ || _); intros ?; cbn in *; congruence.
Qed.
End Handshake.
Section Commands.
Context {D : Type} `{!Device D, !StmTimer D}.
Lemma handshake_answered ok c c' : tpu_loop_phase (k_loop c) = TPU_LOOP_FCCH -> handshake c -> answered ok c c' ->
  handshake c' /\ (if ok then ~ command_requested c' else k_fcch c' = k_fcch c).
Proof.
  intros Hl Hc (El & _ & _ & Ef & _). destruct ok.
  - assert (~ command_requested c') as Hno by (unfold command_requested; rewrite Ef; apply served_requests). split; [by intros _ H|done].
  - split; [|done]. intros _ Hreq. unfold command_requested, waits in *. rewrite Ef in *. by apply (Hc Hl).
Qed.
(** C36. No command is lost between the interrupt and the foreground.  Whenever the loop is in its
    phase of bursts and a command is requested of the foreground, the loop is in the phase that
    waits for it: the interrupt keeps this so, and one that comes before the foreground leaves the
    search with its request as it is.  In that phase of the loop the foreground's
    [execute_requested_fcch_command], with the interrupt taken in its poll as often as it waits, ends
    whatever the DSP answers, and if it never does, with the time of a command (unless the low word
    of the timer wraps meanwhile).  If it succeeds the request is gone, and the rest of the search is
    as it was.  It fails only if a command was requested and the DSP refused the one that turns the
    baseband off: the last read of its status was busy, after the command's time or after a read that
    was not; and then the search still has its request. *)
Theorem commands_wait (poll : M D gsm unit) (f : nat) (w : world D gsm) :
  let c := control_of (w_app w) in let tps := ticks_per_s (w_lib w) in let patience := command_timeout_ms (runtime (w_app w)) in
  sound (w_app w) -> handshake c ->
  wp total gsm_l1_tpu_irq (fun _ w' => sound (w_app w') /\ handshake (control_of (w_app w')) /\
    (tpu_loop_phase (g_loop (w_app w)) = TPU_LOOP_FCCH -> command_requested c -> g_fcch (w_app w') = g_fcch (w_app w))) f w /\
  (Polling poll -> forward poll -> tpu_loop_phase (g_loop (w_app w)) = TPU_LOOP_FCCH ->
   1000 <= tps -> 0 <= now w < 0x10000000000000000 -> 0 <= patience /\ timeout_ticks patience tps + 2 < Z.of_nat f ->
   wp (unless_late (now w)) (execute_requested_fcch_command poll) (fun ok w' =>
    sound (w_app w') /\ handshake (control_of (w_app w')) /\
    if ok then ~ command_requested (control_of (w_app w')) /\ g_fcch (w_app w') = k_fcch (served c)
    else command_requested c /\ g_fcch (w_app w') = g_fcch (w_app w) /\ refused (now w) tps (BIT 0) (now w) patience w') f w).
Proof.
  intros c tps patience Hs Hc. pose proof (moves_refl _ Hs) as Hm. split.
  - eapply wp_irq; [exact Hm|]. intros c' w' Hstep (Hs' & Ec & _). destruct (handshake_step _ _ (handshake_begin _ Hc) Hstep) as [H1 H2].
    rewrite Ec. split_and!; [done|done|]. intros Hl Hreq. change (k_fcch (control_of (w_app w')) = k_fcch (frame_begin c)). rewrite Ec.
    apply H2; [|done]. rewrite frame_begin_phase; unfold c; cbn; congruence.
  - intros Hpolls Hfwd Hl Htps Hnow Hfits.
    apply (wp_execute_timed poll Hfwd f (now w) Hnow tps Htps (w_app w) Hfits c); [by split; [split; [lia|]|]|by intros Hreq; split; [|apply Hc]|].
    intros ok w' (_ & Hs' & _ & Ha) _ Hno. destruct (handshake_answered ok c _ Hl Hc Ha) as [H1 H2]. pose proof Ha as (_ & _ & _ & Ef & Hreq).
    split_and!; [done|done|]. destruct ok; [by split|]. by split_and!; [apply Hreq|exact Ef|apply Hno].
Qed.
End Commands.
(** The request of the first phase of a window, with an interrupt before the foreground. *)
Definition requesting_gsm : gsm :=
  in_fcch (fun s => with_fcch_tpu_phase FCCH_TPU_RF_QUIET_FIRST (with_fcch_scan_state FCCH_SCAN_BB_OFF_REQUESTED s))
    (in_loop (with_tpu_loop_phase TPU_LOOP_FCCH) ready_gsm).
Lemma requesting_sound : sound requesting_gsm.
Proof. pose proof ready_sound as []. by split. Qed.
Lemma commands_wait_witness :
  let w := World (D := N * (port -> Z)) (1000%N, fun _ => 0) ∅ [] lib_ticking requesting_gsm in
  let c := control_of (w_app w) in let poll := @polled _ tick_device (mret tt) in let patience := command_timeout_ms (runtime requesting_gsm) in
  wp total (@gsm_l1_tpu_irq _ tick_device) (fun _ w' => sound (w_app w') /\ handshake (control_of (w_app w')) /\
    (tpu_loop_phase (g_loop (w_app w)) = TPU_LOOP_FCCH -> command_requested c -> g_fcch (w_app w') = g_fcch (w_app w))) 1100%nat w /\
  wp (@unless_late _ _ tick_device tick_timer 1000) (@execute_requested_fcch_command _ tick_device poll) (fun ok w' =>
    sound (w_app w') /\ handshake (control_of (w_app w')) /\
    if ok then ~ command_requested (control_of (w_app w')) /\ g_fcch (w_app w') = k_fcch (served c)
    else command_requested c /\ g_fcch (w_app w') = g_fcch (w_app w) /\ @refused _ _ tick_timer 1000 1000 (BIT 0) 1000 patience w') 1100%nat w.
Proof.
  intros w c poll patience. destruct (commands_wait (Device0 := tick_device) (StmTimer0 := tick_timer) poll 1100 w) as [H1 H2]; [exact requesting_sound|by intros _ _|].
  split; [exact H1|]. apply H2.
  - apply polled_polling, harmless_ret.
  - apply forward_bind; [intros f v; apply Z.le_refl|]. intros _. apply (forward_uses (fun _ => True)), uses_irq.
  - reflexivity.
  - clear. by vm_compute.
  - clear. by vm_compute.
  - clear. by vm_compute.
Defined.
Lemma interrupt_refines_witness :
  let w := World (D := unit) tt ∅ [] lib_ticking ready_gsm in
  wp total (@gsm_l1_tpu_irq unit no_device) (fun _ w' => sound (w_app w') /\ rest_of (w_app w') = rest_of (w_app w) /\
    frame_step (D := unit) (Device0 := no_device) (frame_begin (control_of (w_app w))) (control_of (w_app w'))) 1%nat w.
Proof. intros w. apply (interrupt_refines (Device0 := no_device) 1 w), ready_sound. Defined.

(** ** Where the state machines stay *)
(** Of the refinements of a reception, the twelfth that fails ends it only if all before it failed:
    the count is not reset by one that succeeds, and is compared for equality. *)
Lemma refinement_goes_on r f : FCCH_REFINEMENT_ATTEMPT_COUNT <= fcch_refinement_attempt_count f < 0xFFFFFFFF -> is_fcch_result_valid r = false ->
  let f' := refinement_collected r f in
  fcch_scan_state f' = FCCH_SCAN_REFINEMENT_COMMAND_REQUESTED /\ fcch_refinement_attempt_count f' = fcch_refinement_attempt_count f + 1.
Proof.
  unfold FCCH_REFINEMENT_ATTEMPT_COUNT. intros Hc Hr. unfold refinement_collected. rewrite Hr. cbn. rewrite u32_small by (unfold is_u32; lia).
  unfold FCCH_REFINEMENT_ATTEMPT_COUNT. split; [|done]. by destruct (Z.eqb_spec (fcch_refinement_attempt_count f + 1) 12); [lia|].
Qed.

Section Stays.
Context {D : Type} `{!Device D}.
(** The scan's request is for a loop that is ready or searches: after a search or a reception, a scan does not begin. *)
Lemma scan_does_not_begin c c' : tpu_loop_phase (k_loop c) = TPU_LOOP_COMPLETE -> sch_scan_state (k_sch c) = SCH_SCAN_IDLE ->
  frame_step (D := D) (frame_begin c) c' ->
  tpu_loop_phase (k_loop c') = TPU_LOOP_COMPLETE /\ sch_scan_state (k_sch c') = SCH_SCAN_IDLE /\ k_scan c' = k_scan c.
Proof.
  intros Hl Hs Hstep. assert (tpu_loop_phase (k_loop (frame_begin c)) = TPU_LOOP_COMPLETE) as Hl' by (rewrite frame_begin_phase; congruence).
  destruct Hstep as [| | | | | | |? Hq| |]; try congruence; [|by split_and!]. cbn in Hq. congruence.
Qed.
(** A search that begins while a reception was cut short: it refines, and is not completed. *)
Definition refines (p : fcch_phase) : Prop :=
  match p with
  | FCCH_TPU_RF_QUIET_FIRST | FCCH_TPU_RF_QUIET_SECOND | FCCH_TPU_RF_INITIALIZATION
  | FCCH_TPU_REFINEMENT_PREPARE | FCCH_TPU_REFINEMENT_START | FCCH_TPU_REFINEMENT_WAIT_RESULT => True
  | _ => False
  end.
Definition led_astray (c : control) : Prop :=
  fcch_scan_state (k_fcch c) <> FCCH_SCAN_COMPLETE /\
  match tpu_loop_phase (k_loop c) with
  | TPU_LOOP_SEARCH => receiver_scan_state (k_scan c) = RECEIVER_SCAN_COMPLETE /\ sch_scan_state (k_sch c) = SCH_SCAN_ACTIVE
  | TPU_LOOP_FCCH => refines (fcch_tpu_phase (k_fcch c)) /\ sch_scan_state (k_sch c) = SCH_SCAN_ACTIVE
  | TPU_LOOP_SCH => sch_scan_state (k_sch c) = SCH_SCAN_ACTIVE
  | TPU_LOOP_COMPLETE => sch_scan_state (k_sch c) = SCH_SCAN_COMPLETE
  | _ => False
  end.
Lemma led_astray_frame busy r c : led_astray c -> tpu_loop_phase (k_loop c) = TPU_LOOP_FCCH -> led_astray (fcch_frame busy r c).
Proof.
  unfold led_astray. intros [Hne H] Hl. rewrite Hl in H. destruct H as [Hp Hs]. destruct c as [l sc [st ph ? ? ? ? ? ? ? ?] sch].
  unfold fcch_frame, refinement_collected. cbn in *. destruct ph; try done; repeat case_bool_decide; cbn; rewrite ?Hl; try done.
  destruct busy; [by cbn; rewrite ?Hl|]. destruct (is_fcch_result_valid r); cbn; [done|]. by destruct (_ ==? _); cbn; rewrite ?Hl.
Qed.
Lemma search_led_astray c c' : led_astray c -> frame_step (D := D) (frame_begin (served c)) c' -> led_astray c'.
Proof.
  intros H Hstep. assert (led_astray (frame_begin (served c))) as Hb.
  { destruct H as [Hne H]. split; [cbn; by destruct (fcch_scan_state (k_fcch c))|].
    rewrite frame_begin_phase by (cbn; by intros E; rewrite E in H). exact H. }
  revert Hb Hstep. generalize (frame_begin (served c)). clear. intros c [Hne H] Hstep.
  destruct Hstep as [Hl|Hl ?|Hl|o hz Hl|o hz Hl Ho|busy r Hl|busy r Hl|Hl Hs|Hl Hs|Hl]; rewrite Hl in H; try done.
  - destruct H as [Hr Hs]. unfold search_frame, searched in *. destruct Ho as (results' & gains & _ & ->). unfold advance. rewrite Hr. cbn [fst snd].
    case_bool_decide; split; cbn; try done. by rewrite Hl.
  - apply led_astray_frame; [|done]. split; [done|by rewrite Hl].
  - unfold sch_frame. destruct (sch_tpu_phase (k_sch c)); [destruct busy| |]; try (split; [done|]; cbn; by rewrite ?Hl).
    cbv zeta. destruct (_ || _); split; cbn; try done. by rewrite Hl.
  - split; [done|by rewrite Hl].
Qed.
End Stays.
